(* ===== verification/_CoqProject ===== *)
-Q . S2P
Prelude.v
PyStr.v
PyData.v
TextLines.v
Contracts.v
PolicyModels.v
PolicyEngine.v
PolicyValidate.v
PolicySpec.v
PolicyGate.v
RuntimeBinding.v
BackendHealth.v
RecoveryModels.v
RecoveryEngine.v
UsageStore.v
UsageCooldown.v
UsageBudget.v
UsageSignals.v
UsageInvariants.v
InFlight.v
QueueHealing.v
BoardScans.v
ClaudeBudget.v
GovernancePolicy.v
AuditLocks.v
Regex.v
Parked.v
AuditDispatch.v
Governance.v
Propagation.v
Decision.v
DecisionRules.v
LimitClassifier.v
WorkerBackends.v
Lifecycle.v
Handoff.v
Coordinator.v
CoordinatorSafety.v
Proposer.v
ProposerSafety.v
BacklogPromoter.v
CiRefinement.v
CiSafety.v
BoardIssues.v
BoardTrace.v
BoardClaim.v
BoardOutcomes.v
FenceSafety.v
SpecCampaign.v
BoardDispatch.v
BoardLineage.v
BoardSettled.v
BoardTrust.v
BoardUnblock.v
BoardRules.v
TaskParser.v
Verdict.v
ReviewWorld.v
ReviewText.v
ReviewMerge.v
ReviewCi.v
ReviewVerdict.v
ReviewPhases.v
ReviewTrace.v
ReviewSafety.v
ReviewRules.v
ReviewFaults.v
ObserverModels.v
Tuning.v
TuningApply.v
Insights.v
Derivers.v
DeriversQuality.v
DeriversStored.v
InsightContract.v
InsightPipeline.v
ArchGate.v
ScheduledTasks.v
CycleReport.v
AutonomyCycle.v
