(* ===== verification/Prelude.v ===== *)
(** * OperationsCenter: a verification development of the execution control plane

    OperationsCenter decides which proposed changes may be executed, on which
    backend, and accounts for what happened.  This library translates that
    control plane (Python, under src/src/operations_center/) into executable
    Rocq definitions and proves what makes it correct.

    ** The program and its model

    A proposal and its routing decision (contracts/) reach the
    [ExecutionCoordinator].  The coordinator binds a runtime, builds an
    execution request, asks the policy engine, prepares the workspace, checks
    the resource gate and the backend's caps against the usage ledger, marks
    the run as started, runs the adapter inside the recovery loop (which
    classifies failures, consults the backend health registry and may retry),
    marks the run as finished, records the outcome, finalizes the workspace,
    attaches the lifecycle report and observes the result.  Executors that own
    several worker backends choose one through the worker-backend selector,
    which reads and writes the same ledger.  Around this pipeline, maintenance
    tasks reclaim stuck runs, heal blocked work and park the system when nothing
    changes; audits of managed repositories run under a governance of their own;
    and a change of a contract creates work in the repositories that consume it.
    New work enters at the other end: insights about a repository become
    candidates, the decision engine lets some of them through, the proposer
    files them on the board, and the promoter moves the waiting ones on.

    - Prelude: exceptions and the error monad [res], list, option, integer and
      rational lemmas, the tactics and hint databases shared by all files, and
      the monad of state and errors [SE].
      PyStr: the string methods and [fnmatch] of Python.  PyData: datetimes
      with their awareness, JSON values, dicts.  Regex: the part of [re] that
      the source's patterns use, a backtracking matcher with its language.
    - Contracts: contracts/{enums,common,proposal,routing,execution}.py.
    - PolicyModels (policy/models.py, defaults.py), PolicyEngine
      (policy/engine.py, one definition per [_check_*] method, [evaluate] in
      the source's order), PolicyValidate (policy/validate.py,
      [PolicyEngine.from_config]).
      PolicySpec states the verdict the gate promises, without an order of
      evaluation; PolicyGate (with policy/explain.py) proves that [evaluate]
      implements it, and what follows for the bundled defaults.
    - RuntimeBinding (policy/runtime_binding_policy.py).
    - BackendHealth (backend_health/): the registry as a map from backends to
      records, one function per transition.
    - RecoveryModels (execution/recovery_loop/{models,classifier,handlers,
      policy,timing}.py, recovery_policies/budget.py) and RecoveryEngine
      (engine.py and the package's helpers).
    - UsageStore, UsageCooldown, UsageBudget, UsageSignals
      (execution/usage_store.py, execution/models.py): the file as an optional
      store, every recorder, every decision and every report of the class.
      UsageInvariants makes the class a state machine with one constructor per
      operation and proves what every reachable file satisfies.
    - LimitClassifier (backends/_capacity_classifier.py, limit_classifier.py
      and the reset parser of worker_backend_selector.py) and WorkerBackends
      (the rest of worker_backend_selector.py), against an interface of the
      ledger, [usage_port], that the usage store implements.
    - Lifecycle (lifecycle/ and drift/engine.py), Handoff
      (execution/handoff.py).
    - Coordinator (execution/coordinator.py, cl_wrap.py): the whole dispatch in
      [Eff], a state and error monad over the ledger, the health registry and
      the trace of outside effects.  CoordinatorSafety reasons about it with
      triples over the effects a computation adds to the trace, and
      instantiates it with the bundled policy to run whole dispatches by
      computation.
    - InFlight (in_flight_reconcile.py): the startup sweep that closes orphaned
      runs of the ledger.  QueueHealing (queue_healing/, the healing part of
      entrypoints/maintenance/triage_scan.py).  BoardScans (priority_scans.py,
      reconcile_running.py, maintenance_windows.py).  Parked (recovery/parked.py,
      parked_store.py, evidence_fingerprints/, and the unpark task of
      entrypoints/maintenance/).  ClaudeBudget (execution/usage_budget.py).
    - AuditLocks (audit_dispatch/lock_store.py, locks.py): the lock files, the
      registry of a process, and a transition system in which any number of
      dispatching processes and audits share the files and the process ids.
      AuditDispatch (audit_dispatch/{api,executor,lifecycle,models}.py,
      managed_repos/models.py, run_identity/, audit_toolset/): one dispatch.
      GovernancePolicy (audit_governance/models.py, policy.py) and Governance
      (budgets, cooldowns, approvals, reports, runner): the governed run, whose
      dispatch is an argument.
    - Propagation (propagation/, impact_analysis.py): the policy, the dedup
      file, the task templates and the run over the affected repositories.
    - Decision (decision/, insights/models.py): what the repository's insights
      turn into: candidate specifications, the chain and emission policies, the
      gates of budget, velocity and stale proposals, and the stored artifacts
      that later decisions read.  DecisionRules (decision/rules/): the rules
      with their texts, as the service builds them.
    - Proposer (proposer/, autonomy_tiers/, spec_author/suppressor.py): the
      candidates of a decision become tasks of the board, in the state and error
      monad [SE] over the usage file, the requests to the board and the stored
      results.  ProposerSafety states the guardrails as a specification and
      follows the board over many runs.  BacklogPromoter
      (proposer/backlog_promoter.py): waiting tasks move when the tier of their
      family is raised.  TextLines holds what the texts need: lines of a
      description that is written by one part and searched by another.
    - CiRefinement (contracts/ci.py, execution/ci_{evaluator,store,coordinator}.py):
      a work item is executed, measured and judged until an attempt is accepted,
      abandoned or escalated, or its attempts are used up; in the monad
      [SE] over the lineage files and the store.  CiSafety follows the
      lineage over any number of runs.
    - The board workers (entrypoints/board_worker/), in the monad [SE]
      over the calls to the board and the worker's copy of its task:
      BoardIssues (labels.py, _text.py, work_ceiling.py and the admission part
      of config/settings.py), BoardClaim (claim.py), BoardOutcomes (outcomes.py),
      FenceSafety (injection.py: the fences around text that others wrote, and
      what they guarantee),
      SpecCampaign (spec_author/campaign_builder.py, models.py) and BoardDispatch
      (dispatch.py, spec_author.py, main.py).  BoardTrace has the triples over
      the calls; BoardClaim also proves what a claim takes, BoardLineage is about
      the follow-ups of follow-ups and scope splits, BoardSettled about the state
      a dispatch leaves its task in, BoardTrust joins the worker's labels with
      the policy engine; TextLines has the decimal texts that labels are counted
      with.
    - BoardUnblock (entrypoints/maintenance/board_unblock.py and
      board_unblock_task.py): the rules that move stuck tasks, one definition
      per rule in the order of the code, and a run of the task; BoardRules
      proves what a run may and must move.
    - The pull-request watcher (entrypoints/pr_review_watcher/,
      adapters/github_pr.py, close_invariants.py, application/task_parser.py),
      in the monad [SE] over the calls to the host, the board and the backends,
      the state files and the state of the pull request: TaskParser, Verdict
      (the typed checks and the council), ReviewWorld (state files and host),
      ReviewText (concerns, labels, history of checks), ReviewMerge (gates of
      the merge, fix passes, closing), ReviewCi (the first phase), ReviewVerdict
      (reviews, the council and the ladder), ReviewPhases (a pull request's turn
      and the poll).  ReviewTrace has the judgments over the calls; ReviewSafety,
      ReviewRules and ReviewFaults are about what a pass may do, how it counts,
      and what it does when the host does not answer.
    - ObserverModels (observer/models.py): the snapshot of a repository.
      Insights (insights/ without the derivers): insights, loading, the service.
      Derivers, DeriversQuality and DeriversStored (insights/derivers/): one
      definition per deriver, over the snapshots, and over the stored files for
      the last; DeriversStored has the lists of derivers that the programs run.
      InsightContract states the type of every key of the evidence that one side
      writes and the other reads, InsightPipeline joins the derivers with the
      rules of DecisionRules and the tuning.
    - Tuning (tuning/{models,metrics,recommendations,loader,service}.py) and
      TuningApply (tuning/{guardrails,applier}.py): what past decisions and
      proposals say about a family, and the bounded change of its threshold.
      ArchGate joins both with the decisions, the proposer and the scheduler of
      architectural work.
    - ScheduledTasks (scheduled_tasks/runner.py): periodic tasks of the
      configuration and the file of their last runs.  CycleReport and
      AutonomyCycle (entrypoints/autonomy_cycle/main.py): the whole cycle from
      the observation to the tasks on the board, over a world that holds what
      the stages share, each stage being the definition of its own file; the
      report a cycle writes and what the newest reports together say.

    ** What the theorems show

    - Safety of dispatch: an adapter only ever receives a request the policy
      gate let through, requests that recovery rewrites included; a refused
      dispatch calls no adapter and writes nothing; adapter calls and sleeps
      are bounded; every run is bracketed by its started and finished marks,
      whatever raises in between, and is accounted for once; no failure of an
      outside part escapes when there is no ledger, the judgment of the first
      request and the observability sink excepted; the bundled policy never
      lets risky work of an untrusted source run.
    - The policy gate: the code refines the specified verdict for every input;
      trusted labels lift only the category review; key directories are
      blocked; configuration errors fail closed; the dispatched request is the
      judged one.
    - Recovery: a retry happens only if every guard holds (an equivalence for
      the default engine); delays are bounded; non-idempotent requests need the
      adapter's certificate; the recovery budget escalates exactly at its
      limits.
    - The ledger: bounded, well-formed and with counters that agree with the
      events in every reachable file; budgets, breaker, concurrency and
      cooldowns given by closed formulas over the events; no gate raises.
    - Backend selection: first free candidate, at most two executions, and a
      recorded account limit moves the next selection elsewhere.
    - Health registry, lifecycle reports, drift, runtime bindings and limit
      messages: functional specifications on every branch.
    - Maintenance: the startup sweep closes exactly the runs whose task is
      finished and frees their slots; healing moves only work that is safe to
      retry and within both budgets; the system stays parked as long as the
      evidence does not change, however the board orders it.
    - Audits: at most one audit per repository in every reachable state of the
      lock system, and a crashed dispatch does not block its repository; a
      dispatch is a run of that system and completes exactly when its audit did;
      a governed run dispatches only what its policies or a matching approval
      permit, within budget and cooldown, and is always reported.
    - Propagation: one outcome per consumer and no second task for the same
      change within the window, whatever writes fail in between.
    - Decisions: every specification the rules derive is emitted or suppressed
      exactly once; the emission loop is the first-of-each-family
      specification up to the quota; nothing is emitted above the quotas, out
      of the allowed families, in cooldown, together with its upstream, or
      below the execution reserve; two decisions never repeat a candidate
      within the cooldown.
    - Proposals: every emitted candidate is reported once; no two open tasks
      for one key over any number of runs; a human's rejection holds for good;
      a task runs unattended only with the tier for it, and a waiting one moves
      exactly when its family's tier is raised.
    - Refinement runs: every lineage stays numbered without gaps and agrees
      with its attempts, whatever fails; executions are bounded; an accepted
      item passed its guardrails and its metric was measured.
    - Board workers: a claim takes the first admissible task of its role and
      starts nothing else; a dispatch that returns never leaves its task
      Running; the fleet's own tasks stay within three steps of somebody
      else's that does not start from a negative count; a split covers its
      files; what a cycle hands to planning is about its task, and a label that
      lifts a review comes from a trusted creator, except for a spec-author
      task, which hands on all its source labels; fenced text cannot end its
      fence.
    - Unblocking: the rules agree on one move per task and put none into the
      queue that is cooling down, out of memory (unless it was left running) or,
      straight from Blocked, killed, stopped by a policy or not approved; every
      task that is due is moved.
    - Review of pull requests: a pass merges only on an approval computed in
      this very pass and through every gate, closes only what is back in its
      queue; the verdict is exactly the checks; fix attempts and re-queues are
      counted, also when a pass raises; the first phase ends.  What the gates
      make of a host that does not answer is stated as it is: they take it for
      mergeable, green and without a change, and only a requirement of branch
      protection holds the merge.
    - Insights and tuning: on everything the derivers write no rule and no
      candidate raises; coverage follow-ups are exactly the missing streaks; an
      applied change is one bounded step and is what the rules read; the
      guardrails are six conditions; a threshold of one is a threshold of two;
      the gate of architectural work in closed form, and that over the program's
      own tuning runs it never opens; one malformed transcript stops a cycle.
    - The autonomy cycle: every task it asks for is a scheduled one or comes
      from the snapshot, insights and decision of this very cycle, through every
      gate; a scheduled task is created no sooner and no later than its
      interval; the quiet diagnosis is there exactly when no newest cycle
      created a task, whether or not there were candidates, and its escalation is never sent.
    - Defects of the source are stated as theorems too: the reset of retry
      attempts that loses a concurrent write, the reset time that makes a
      finished run raise, rules and settings that have no effect, a metric that
      became worse and is accepted.

    ** Modelling choices, bounds and fuel

    - Python's [int] is Z, [float] an exact rational (rounding to a number of
      digits is written out), a timestamp a number of microseconds with its
      awareness; comparing a naive with an aware one raises as in Python.
      Strings are byte strings; case conversion, digits and word characters are
      ASCII.
    - A dict is a gmap where order does not matter and an association list
      where it does; the persisted ledger holds JSON values.
    - Code that may raise is in [res]; a [try] is a match on it.  The recovery
      loop recurses on the attempts that are left, [max_attempts - 1] after the
      first, which is [range(1, max_attempts + 1)] with a lower bound of one,
      and a refinement run on the attempts its lineage has left.
      The text functions recurse on the length of the text, which bounds the
      number of steps ([format_fuel] starts with one more than the length of
      the template, and every step consumes a character; [sub], [pieces] and
      [merge_chunks] are bounded by the lengths they shorten); the
      regular-expression matcher recurses on the pattern and on the characters
      a repetition may still consume.
    - A ledger operation that holds the per-path lock is one atomic step; the
      one that does not is split into its load and its save.  In the lock system
      a dispatch is split at every point where its process can die: acquisition,
      spawn, recording of the pid, release.  The two events that break the
      exclusion of audits (a crash between spawn and recording, a release while
      the audit runs) are events of the system; the invariant is about runs
      without them, and theorems show what happens with them.
    - Adapters, workspace, observability sink, run memory, clock, identifiers,
      free memory and disk, the time-zone database, the CxRP constructors and
      the repository graph are parameters that may answer anything, or raise,
      depending on the whole trace so far.

    ** Not modelled

    Log lines, telemetry and descriptive metadata that no modelled decision
    reads; subprocess, HTTP, git and file-system glue (adapters, executors,
    workspace, the watcher's worktrees, rebase and lint commands, set-up
    commands, the sandbox and the environment of subprocesses); the observer's
    collectors, alert channels and dashboards, whose snapshot is an argument;
    calibration and routing reports, on which no part of the program acts; rendering of floats in messages (the
    reason of an action keeps the value); crashes of the process between two
    writes, except where an operation of the ledger is split or a process of
    the lock system dies. *)
From stdpp Require Export base gmap sets list strings fin_maps.
From Stdlib Require Export QArith.QArith QArith.Qminmax.
From Stdlib Require Import Lqa.
#[global] Close Scope Q_scope.
#[global] Open Scope stdpp_scope.

(** ** Exceptions and the error monad

    Python code that can raise returns [res A]: a value, or the exception it
    raises.  The constructors are the exceptions the modelled code raises or
    catches by name; the string is the text [str(exc)] gives. *)
Inductive exn :=
  | TypeError (msg : string)
  | ValueError (msg : string)
  | KeyError (msg : string)
  | RuntimeError (msg : string)
  | OSError (msg : string)
  | StageFailure (msg : string)
  | UnsupportedBackendError (msg : string)
  | InvalidPolicyConfigError (errors : list string)
  | NamedError (cls msg : string)
  | OtherError (msg : string).

Inductive res (A : Type) :=
  | Ok (a : A)
  | Raise (e : exn).
Arguments Ok {A} a.
Arguments Raise {A} e.

#[export] Instance res_ret : MRet res := fun A a => Ok a.
#[export] Instance res_bind : MBind res := fun A B f m =>
  match m with Ok a => f a | Raise e => Raise e end.
#[export] Instance res_fmap : FMap res := fun A B f m =>
  match m with Ok a => Ok (f a) | Raise e => Raise e end.

Declare Scope oc_scope.
Delimit Scope oc_scope with oc.

(** [x <-? e ;; k]: run [e], propagate its exception, bind its value. *)
Notation "x '<-?' e ';;' k" := (mbind (M:=res) (fun x => k) e)
  (at level 100, e at next level, right associativity) : oc_scope.
#[global] Open Scope oc_scope.

Definition is_ok {A} (m : res A) : bool :=
  match m with Ok _ => true | Raise _ => false end.

(** ** Truthiness and optional values *)

(** [x or d] on an optional string: [None] and the empty string are falsy. *)
Definition str_or (o : option string) (d : string) : string :=
  match o with Some "" | None => d | Some s => s end.

Definition str_truthy (s : string) : bool := negb (String.eqb s "").
Definition opt_truthy (o : option string) : bool :=
  match o with Some s => str_truthy s | None => false end.
Definition list_truthy {A} (l : list A) : bool :=
  match l with [] => false | _ => true end.

(** [x in l] and [x not in l] on lists of strings. *)
Definition str_in (s : string) (l : list string) : bool := existsb (String.eqb s) l.

#[global] Arguments str_in : simpl never.
#[global] Arguments str_truthy : simpl never.

Lemma str_in_spec s l : str_in s l = true <-> s ∈ l.
Proof.
  unfold str_in. rewrite existsb_exists. split.
  - intros (x & Hin & Heq). apply String.eqb_eq in Heq as ->. by apply list_elem_of_In.
  - intros Hin. exists s. split; [by apply list_elem_of_In | apply String.eqb_refl].
Qed.

Lemma str_in_false s l : str_in s l = false <-> s ∉ l.
Proof. rewrite <-str_in_spec. destruct (str_in s l); split; congruence. Qed.

Lemma list_truthy_spec {A} (l : list A) : list_truthy l = true <-> l <> [].
Proof. destruct l; simpl; split; congruence. Qed.

(** ** Slices, searches and counts *)

(** [l[-n:]] for [n > 0]: the last [n] elements. *)
Definition last_n {A} (n : nat) (l : list A) : list A := drop (length l - n) l.

(** [sum(1 for x in l if p x)]. *)
Definition count_if {A} (p : A -> bool) (l : list A) : Z :=
  Z.of_nat (length (List.filter p l)).

(** First element that satisfies a predicate ([for x in l: if p(x): return x]). *)
Definition find_first {A} (p : A -> bool) (l : list A) : option A := List.find p l.

(** A comprehension whose condition may raise. *)
Fixpoint filterM {A} (p : A -> res bool) (l : list A) : res (list A) :=
  match l with
  | [] => Ok []
  | x :: l' =>
      b <-? p x ;;
      rest <-? filterM p l' ;;
      Ok (if b : bool then x :: rest else rest)
  end.

(** A [for] loop over [l] with accumulator [a] whose body may raise. *)
Fixpoint foldM {A B} (f : B -> A -> res B) (a : B) (l : list A) : res B :=
  match l with
  | [] => Ok a
  | x :: l' => a' <-? f a x ;; foldM f a' l'
  end.

Lemma filterM_ok {A} (p : A -> res bool) (q : A -> bool) (l : list A) :
  Forall (fun x => p x = Ok (q x)) l -> filterM p l = Ok (List.filter q l).
Proof.
  induction 1 as [|x l Hx Hl IH]; [done|].
  simpl. rewrite Hx. simpl. rewrite IH. simpl. by destruct (q x).
Qed.

Lemma foldM_ok {A B} (f : B -> A -> res B) (g : B -> A -> B) (l : list A) (a : B) :
  Forall (fun x => forall b, f b x = Ok (g b x)) l -> foldM f a l = Ok (fold_left g l a).
Proof.
  intros H. revert a. induction H as [|x l Hx Hl IH]; intros a; [done|].
  simpl. rewrite Hx. simpl. apply IH.
Qed.

Lemma foldM_app {A B} (f : B -> A -> res B) (l1 l2 : list A) (a : B) :
  foldM f a (l1 ++ l2) = (b <-? foldM f a l1 ;; foldM f b l2).
Proof.
  revert a. induction l1 as [|x l1 IH]; intros a; [done|].
  simpl. destruct (f a x); simpl; [apply IH|done].
Qed.

Lemma last_n_length {A} n (l : list A) : length (last_n n l) <= n.
Proof. unfold last_n. rewrite length_drop. lia. Qed.

Lemma last_n_all {A} n (l : list A) : length l <= n -> last_n n l = l.
Proof. intros H. unfold last_n. by replace (length l - n) with 0 by lia. Qed.

Lemma last_n_suffix {A} n (l : list A) : exists pre, l = pre ++ last_n n l.
Proof. exists (take (length l - n) l). unfold last_n. by rewrite take_drop. Qed.

Lemma last_n_snoc {A} n (l : list A) x :
  last_n (S n) (l ++ [x]) = last_n n l ++ [x].
Proof.
  unfold last_n. rewrite length_app. simpl.
  replace (length l + 1 - S n) with (length l - n) by lia.
  apply drop_app_le. lia.
Qed.

Lemma last_n_Forall {A} (P : A -> Prop) n (l : list A) : Forall P l -> Forall P (last_n n l).
Proof. apply Forall_drop. Qed.

Lemma filter_Forall {A} (P : A -> Prop) (p : A -> bool) (l : list A) :
  Forall P l -> Forall P (List.filter p l).
Proof. induction 1; simpl; [done|]. destruct (p x); auto. Qed.

Lemma elem_of_filter_bool {A} (p : A -> bool) (l : list A) (x : A) :
  x ∈ List.filter p l <-> x ∈ l /\ p x = true.
Proof. rewrite !list_elem_of_In. apply filter_In. Qed.

Lemma filter_filter_bool {A} (p q : A -> bool) (l : list A) :
  List.filter p (List.filter q l) = List.filter (fun x => q x && p x) l.
Proof.
  induction l as [|x l IH]; [done|]. simpl.
  destruct (q x); simpl; [destruct (p x)|]; by rewrite IH.
Qed.

Lemma filter_all {A} (p : A -> bool) (l : list A) :
  Forall (fun x => p x = true) l -> List.filter p l = l.
Proof. induction 1 as [|x l Hx Hl IH]; simpl; [done|]. by rewrite Hx, IH. Qed.

Lemma filter_none {A} (p : A -> bool) (l : list A) :
  Forall (fun x => p x = false) l -> List.filter p l = [].
Proof. induction 1 as [|x l Hx Hl IH]; simpl; [done|]. by rewrite Hx, IH. Qed.

Lemma sublist_filter_bool {A} (p : A -> bool) (l : list A) : sublist (List.filter p l) l.
Proof. induction l as [|x l IH]; simpl; [done|]. destruct (p x); by constructor. Qed.

Lemma filter_negb_perm {A} (p : A -> bool) (l : list A) :
  List.filter p l ++ List.filter (fun x => negb (p x)) l ≡ₚ l.
Proof.
  induction l as [|x l IH]; simpl; [done|]. destruct (p x); simpl; [by rewrite IH|].
  by rewrite <-Permutation_middle, IH.
Qed.

Lemma filter_length_le {A} (p : A -> bool) (l : list A) :
  length (List.filter p l) <= length l.
Proof. induction l as [|x l IH]; simpl; [lia|]. destruct (p x); simpl; lia. Qed.

Lemma count_if_nonneg {A} (p : A -> bool) l : (0 <= count_if p l)%Z.
Proof. unfold count_if. lia. Qed.

Lemma count_if_cons {A} (p : A -> bool) x l :
  count_if p (x :: l) = ((if p x then 1 else 0) + count_if p l)%Z.
Proof. unfold count_if. simpl. destruct (p x); simpl; lia. Qed.

Lemma count_if_app {A} (p : A -> bool) l1 l2 :
  count_if p (l1 ++ l2) = (count_if p l1 + count_if p l2)%Z.
Proof. unfold count_if. rewrite List.filter_app, length_app. lia. Qed.

Lemma count_if_le_length {A} (p : A -> bool) l : (count_if p l <= Z.of_nat (length l))%Z.
Proof. unfold count_if. pose proof (filter_length_le p l). lia. Qed.

Lemma count_if_negb {A} (p : A -> bool) l :
  (count_if (fun x => negb (p x)) l + count_if p l = Z.of_nat (length l))%Z.
Proof.
  unfold count_if. induction l as [|x l IH]; [done|]. simpl. destruct (p x); simpl; lia.
Qed.

Lemma existsb_false_Forall {A} (p : A -> bool) l :
  existsb p l = false <-> Forall (fun x => p x = false) l.
Proof.
  induction l as [|x l IH]; simpl; [split; auto|].
  rewrite orb_false_iff, IH, Forall_cons. done.
Qed.

Lemma forallb_false_exists {A} (p : A -> bool) l :
  forallb p l = false -> exists x, x ∈ l /\ p x = false.
Proof.
  induction l as [|x l IH]; simpl; [done|]. intros [H | H]%andb_false_iff.
  - exists x. split; [left|done].
  - destruct (IH H) as (y & Hy & ?). exists y. split; [by right|done].
Qed.

Lemma find_first_split {A} (p : A -> bool) (l : list A) (x : A) :
  find_first p l = Some x ->
  exists l1 l2, l = l1 ++ x :: l2 /\ p x = true /\ Forall (fun y => p y = false) l1.
Proof.
  unfold find_first. induction l as [|y l IH]; simpl; [done|].
  destruct (p y) eqn:Hy.
  - intros [= ->]. exists [], l. auto.
  - intros H. destruct (IH H) as (l1 & l2 & -> & Hx & Hall).
    exists (y :: l1), l2. auto.
Qed.

Lemma find_first_none {A} (p : A -> bool) (l : list A) :
  find_first p l = None <-> Forall (fun y => p y = false) l.
Proof.
  unfold find_first. induction l as [|y l IH]; simpl; [split; auto|].
  rewrite Forall_cons. destruct (p y) eqn:Hy; [split; [done|intros [? _]; done]|].
  rewrite IH. split; [auto|intros [_ ?]; done].
Qed.

(** ** Rational comparisons

    Python floats are modelled by the exact rationals they are compared as. *)
Definition Qle_b (a b : Q) : bool := Qle_bool a b.
Definition Qlt_b (a b : Q) : bool := negb (Qle_bool b a).

Lemma Qle_b_spec a b : Qle_b a b = true <-> (a <= b)%Q.
Proof. apply Qle_bool_iff. Qed.

Lemma Qlt_b_spec a b : Qlt_b a b = true <-> (a < b)%Q.
Proof.
  unfold Qlt_b. rewrite negb_true_iff. split.
  - intros H. apply Qnot_le_lt. intros Hle. apply Qle_bool_iff in Hle. congruence.
  - intros H. destruct (Qle_bool b a) eqn:E; [|done].
    apply Qle_bool_iff in E. by apply Qle_not_lt in E.
Qed.

(** Python's [min(a, b)] and [max(a, b)]: the first argument unless the second
    is strictly smaller (greater). *)
Definition py_minQ (a b : Q) : Q := if Qlt_b b a then b else a.
Definition py_maxQ (a b : Q) : Q := if Qlt_b a b then b else a.

Lemma py_minQ_le_r a b : (py_minQ a b <= b)%Q.
Proof.
  unfold py_minQ. destruct (Qlt_b b a) eqn:E; [apply Qle_refl|].
  apply Qnot_lt_le. intros H. apply Qlt_b_spec in H. congruence.
Qed.

Lemma py_minQ_le_l a b : (py_minQ a b <= a)%Q.
Proof.
  unfold py_minQ. destruct (Qlt_b b a) eqn:E; [|apply Qle_refl].
  apply Qlt_b_spec in E. by apply Qlt_le_weak.
Qed.

Lemma py_maxQ_ge_l a b : (a <= py_maxQ a b)%Q.
Proof.
  unfold py_maxQ. destruct (Qlt_b a b) eqn:E; [|apply Qle_refl].
  apply Qlt_b_spec in E. by apply Qlt_le_weak.
Qed.

Lemma py_maxQ_ge_r a b : (b <= py_maxQ a b)%Q.
Proof.
  unfold py_maxQ. destruct (Qlt_b a b) eqn:E; [apply Qle_refl|].
  apply Qnot_lt_le. intros H. apply Qlt_b_spec in H. congruence.
Qed.

Lemma py_maxQ_lub a b c : (a <= c)%Q -> (b <= c)%Q -> (py_maxQ a b <= c)%Q.
Proof. unfold py_maxQ. by destruct (Qlt_b a b). Qed.

(** ** Automation *)

(** Turn boolean tests in hypotheses and goal into propositions. *)
Ltac boolify :=
  repeat match goal with
  | H : _ && _ = true |- _ => apply andb_true_iff in H as [? ?]
  | H : _ || _ = false |- _ => apply orb_false_iff in H as [? ?]
  | H : negb _ = true |- _ => apply negb_true_iff in H
  | H : negb _ = false |- _ => apply negb_false_iff in H
  | H : str_in _ _ = true |- _ => apply str_in_spec in H
  | H : str_in _ _ = false |- _ => apply str_in_false in H
  | H : String.eqb _ _ = true |- _ => apply String.eqb_eq in H
  | H : String.eqb _ _ = false |- _ => apply String.eqb_neq in H
  | H : (_ <=? _)%Z = true |- _ => apply Z.leb_le in H
  | H : (_ <=? _)%Z = false |- _ => apply Z.leb_gt in H
  | H : (_ <? _)%Z = true |- _ => apply Z.ltb_lt in H
  | H : (_ <? _)%Z = false |- _ => apply Z.ltb_ge in H
  | H : (_ =? _)%Z = true |- _ => apply Z.eqb_eq in H
  | H : (_ =? _)%Z = false |- _ => apply Z.eqb_neq in H
  end.

(** Destruct every [if]/[match] scrutinee of the goal, remembering it. *)
Ltac split_ifs :=
  repeat match goal with
  | |- context [match ?x with _ => _ end] => destruct x eqn:?; simpl; try done
  end.

(** The same in one hypothesis. *)
Ltac split_ifs_in H :=
  repeat match type of H with
  | context [match ?x with _ => _ end] => destruct x eqn:?; simpl in H; try done
  end.

Create HintDb oc.
Create Rewrite HintDb oc_rw.
#[export] Hint Resolve last_n_length last_n_Forall filter_Forall count_if_nonneg
  count_if_le_length py_minQ_le_r py_minQ_le_l py_maxQ_ge_l : oc.

(** ** Computations over a state that may raise

    What a method does to the state it shares, up to the point where it raises:
    the state is kept even then, as Python keeps it. *)

Definition SE (S A : Type) : Type := S -> S * res A.

Definition se_ret {S A} (a : A) : SE S A := fun s => (s, Ok a).
Definition se_lift {S A} (r : res A) : SE S A := fun s => (s, r).
(** A value read from the state. *)
Definition se_get {S A} (f : S -> res A) : SE S A := fun s => (s, f s).
Definition se_bind {S A B} (m : SE S A) (k : A -> SE S B) : SE S B :=
  fun s => match m s with (s', Ok a) => k a s' | (s', Raise e) => (s', Raise e) end.
(** [try: m except Exception as exc: h exc]. *)
Definition se_try {S A} (m : SE S A) (h : exn -> SE S A) : SE S A :=
  fun s => match m s with (s', Ok a) => (s', Ok a) | (s', Raise e) => h e s' end.

Declare Scope se_scope.
Notation "x <<- m ;; k" := (se_bind m (fun x => k))
  (at level 100, m at next level, right associativity) : se_scope.
#[global] Open Scope se_scope.

Lemma se_bind_ok {S A B} (m : SE S A) (k : A -> SE S B) s s' b :
  se_bind m k s = (s', Ok b) -> exists s1 a, m s = (s1, Ok a) /\ k a s1 = (s', Ok b).
Proof. unfold se_bind. destruct (m s) as [s1 [a|e]]; [|done]. intros H. by exists s1, a. Qed.

(** ** What a computation leaves as it was *)

Definition preserves {S A} (I : S -> Prop) (m : SE S A) : Prop := forall s, I s -> I (fst (m s)).

Lemma preserves_bind {S A B} (I : S -> Prop) (m : SE S A) (k : A -> SE S B) :
  preserves I m -> (forall a, preserves I (k a)) -> preserves I (se_bind m k).
Proof.
  intros Hm Hk s Hs. specialize (Hm s Hs). unfold se_bind. destruct (m s) as [s1 [a|e]]; [by apply Hk | done].
Qed.
Lemma preserves_try {S A} (I : S -> Prop) (m : SE S A) h :
  preserves I m -> (forall e, preserves I (h e)) -> preserves I (se_try m h).
Proof.
  intros Hm Hh s Hs. specialize (Hm s Hs). unfold se_try. destruct (m s) as [s1 [a|e]]; [done | by apply Hh].
Qed.
Lemma preserves_silent {S A} (I : S -> Prop) (m : SE S A) : (forall s, fst (m s) = s) -> preserves I m.
Proof. intros H s Hs. by rewrite H. Qed.
