(* ===== verification/PyStr.v ===== *)
(** * Python strings

    The string methods of the Python standard library that the modelled code
    calls, on [String.string] read as the text's bytes: case conversion and
    [isdigit] act on ASCII, which is what the modelled code compares against.
    [find], [split(sep, 1)], [strip], [startswith], [in], [repr], the decimal
    form of an [int], [int(...)] and [float(...)] on digit strings, and
    [fnmatch.fnmatch] with the relational specification it is proved against. *)
From Stdlib Require Import Ascii String Sorted.
From stdpp Require Import pretty.
From stdpp Require Import sorting.
From S2P Require Import Prelude.

Module PyStr.

Definition in_range (lo hi : nat) (c : ascii) : bool :=
  (lo <=? nat_of_ascii c)%nat && (nat_of_ascii c <=? hi)%nat.

Definition is_upper (c : ascii) : bool := in_range 65 90 c.
Definition is_lower (c : ascii) : bool := in_range 97 122 c.
Definition is_digit (c : ascii) : bool := in_range 48 57 c.
(** [str.isspace] on ASCII: tab, line feed, VT, FF, CR, FS, GS, RS, US, space. *)
Definition is_space (c : ascii) : bool :=
  in_range 9 13 c || in_range 28 32 c.

Definition lower_ascii (c : ascii) : ascii :=
  if is_upper c then ascii_of_nat (nat_of_ascii c + 32) else c.
Definition upper_ascii (c : ascii) : ascii :=
  if is_lower c then ascii_of_nat (nat_of_ascii c - 32) else c.

Fixpoint map_str (f : ascii -> ascii) (s : string) : string :=
  match s with
  | EmptyString => EmptyString
  | String c s' => String (f c) (map_str f s')
  end.

Definition lower (s : string) : string := map_str lower_ascii s.
Definition upper (s : string) : string := map_str upper_ascii s.

Fixpoint startswith (s p : string) : bool :=
  match p, s with
  | EmptyString, _ => true
  | String a p', String b s' => Ascii.eqb a b && startswith s' p'
  | _, EmptyString => false
  end.

Definition endswith (s p : string) : bool :=
  startswith (String.rev s) (String.rev p).

Fixpoint str_drop (n : nat) (s : string) : string :=
  match n, s with
  | 0, _ => s
  | S n', String _ s' => str_drop n' s'
  | S _, EmptyString => EmptyString
  end.

Fixpoint str_take (n : nat) (s : string) : string :=
  match n, s with
  | S n', String c s' => String c (str_take n' s')
  | _, _ => EmptyString
  end.

(** [s.find(p)]: [None] stands for [-1]. *)
Fixpoint find (s p : string) : option nat :=
  if startswith s p then Some 0 else
  match s with
  | EmptyString => None
  | String _ s' => match find s' p with Some n => Some (S n) | None => None end
  end.

(** [p in s]. *)
Definition contains (s p : string) : bool :=
  match find s p with Some _ => true | None => false end.

Fixpoint lstrip (s : string) : string :=
  match s with
  | String c s' => if is_space c then lstrip s' else s
  | EmptyString => EmptyString
  end.

Definition strip (s : string) : string := String.rev (lstrip (String.rev (lstrip s))).

(** [s.split(sep, 1)[0]] for a one-character separator. *)
Fixpoint before_char (sep : ascii) (s : string) : string :=
  match s with
  | EmptyString => EmptyString
  | String c s' => if Ascii.eqb c sep then EmptyString else String c (before_char sep s')
  end.

(** [s.split(sep, 1)[1]] where [sep] occurs in [s]. *)
Fixpoint after_char (sep : ascii) (s : string) : string :=
  match s with
  | EmptyString => EmptyString
  | String c s' => if Ascii.eqb c sep then s' else after_char sep s'
  end.

(** The longest prefix of characters that satisfy [p]. *)
Fixpoint take_while (p : ascii -> bool) (s : string) : string :=
  match s with
  | String c s' => if p c then String c (take_while p s') else EmptyString
  | EmptyString => EmptyString
  end.

Fixpoint drop_while (p : ascii -> bool) (s : string) : string :=
  match s with
  | String c s' => if p c then drop_while p s' else s
  | EmptyString => EmptyString
  end.

(** [sep.join(parts)]. *)
Definition join (sep : string) (parts : list string) : string := String.concat sep parts.

(** The characters that end a line for [str.splitlines()], on ASCII. *)
Definition is_line_break (c : ascii) : bool := in_range 10 13 c || in_range 28 30 c.

(** A carriage return and the line feed after it end one line. *)
Fixpoint splitlines_aux (s : string) (cur : string) : list string :=
  match s with
  | EmptyString => if String.eqb cur "" then [] else [String.rev cur]
  | String c s' =>
      if Ascii.eqb c (ascii_of_nat 13) then
        match s' with
        | String d s'' =>
            if Ascii.eqb d (ascii_of_nat 10) then String.rev cur :: splitlines_aux s'' ""
            else String.rev cur :: splitlines_aux s' ""
        | EmptyString => [String.rev cur]
        end
      else if is_line_break c then String.rev cur :: splitlines_aux s' ""
      else splitlines_aux s' (String c cur)
  end.
Definition splitlines (s : string) : list string := splitlines_aux s "".

(** ** Numbers in text *)

Definition digit_val (c : ascii) : Z := (Z.of_nat (nat_of_ascii c) - 48)%Z.

Fixpoint digits_val (acc : Z) (s : string) : Z :=
  match s with
  | EmptyString => acc
  | String c s' => digits_val (10 * acc + digit_val c) s'
  end.

Fixpoint pow10 (n : nat) : positive :=
  match n with 0 => 1%positive | S n' => (10 * pow10 n')%positive end.

(** [float(s)] where [s] is made of digits and dots: at most one dot and at
    least one digit, otherwise [ValueError] ([None]). *)
Definition float_of_digits (s : string) : option Q :=
  let ip := take_while is_digit s in
  let rest := drop_while is_digit s in
  match rest with
  | EmptyString => if String.eqb ip "" then None else Some (inject_Z (digits_val 0 ip))
  | String _ fp =>
      if String.eqb fp (take_while is_digit fp) && negb (String.eqb (ip ++ fp) "")
      then Some (Qmake (digits_val 0 (ip ++ fp)) (pow10 (String.length fp)))
      else None
  end.

(** [int(s)] where [s] is an optional leading minus followed by digits. *)
Definition int_of_digits (s : string) : option Z :=
  match s with
  | String c s' =>
      if Ascii.eqb c "-" then
        if String.eqb s' "" then None else Some (- digits_val 0 s')%Z
      else Some (digits_val 0 s)
  | EmptyString => None
  end.

(** [int(s)] of a decimal text: surrounding spaces and one sign are allowed
    ([None] stands for [ValueError]; underscores are not modelled). *)
Definition py_int (s : string) : option Z :=
  let u := strip s in
  let all_digits d := negb (String.eqb d "") && String.eqb d (take_while is_digit d) in
  match u with
  | String c d =>
      if Ascii.eqb c "-" then (if all_digits d then Some (- digits_val 0 d)%Z else None)
      else if Ascii.eqb c "+" then (if all_digits d then Some (digits_val 0 d) else None)
      else if all_digits u then Some (digits_val 0 u) else None
  | EmptyString => None
  end.

(** [s.replace(pat, rep)] for a non-empty pattern: the leftmost occurrences,
    without overlap.  Each step consumes a character, so the length is fuel
    enough. *)
Fixpoint replace_fuel (fuel : nat) (pat rep s : string) : string :=
  match fuel, s with
  | 0, _ | _, EmptyString => s
  | S fuel', String c s' =>
      if startswith s pat
      then rep ++ replace_fuel fuel' pat rep (str_drop (String.length pat) s)
      else String c (replace_fuel fuel' pat rep s')
  end.

Definition replace (pat rep s : string) : string := replace_fuel (String.length s) pat rep s.

(** [s.split(c)] for a one-character separator. *)
Fixpoint split_on (c : ascii) (s : string) : list string :=
  match s with
  | EmptyString => [""]
  | String d s' =>
      if Ascii.eqb d c then "" :: split_on c s'
      else match split_on c s' with
           | w :: l => String d w :: l
           | [] => [String d ""]
           end
  end.

(** [s.split()]: the runs of non-space characters. *)
Fixpoint split_ws_aux (s : string) (cur : string) : list string :=
  let flush := if String.eqb cur "" then [] else [String.rev cur] in
  match s with
  | EmptyString => flush
  | String c s' => if is_space c then flush ++ split_ws_aux s' "" else split_ws_aux s' (String c cur)
  end.
Definition split_ws (s : string) : list string := split_ws_aux s "".

(** [str(n)] of an [int]. *)
Definition str_of_Z (n : Z) : string := pretty n.

(** ** [repr]

    [repr(s)] of a string of printable ASCII characters: single quotes unless
    the text has a single quote and no double quote; the quote in use and the
    backslash are escaped, and so are tab, line feed and carriage return. *)
Definition dquote : ascii := ascii_of_nat 34.
Definition squote : ascii := "'".

Fixpoint has_char (c : ascii) (s : string) : bool :=
  match s with
  | EmptyString => false
  | String d s' => Ascii.eqb c d || has_char c s'
  end.

Fixpoint escape (q : ascii) (s : string) : string :=
  match s with
  | EmptyString => EmptyString
  | String c s' =>
      let rest := escape q s' in
      if Ascii.eqb c q || Ascii.eqb c "\" then String "\" (String c rest)
      else if Ascii.eqb c (ascii_of_nat 10) then String "\" (String "n" rest)
      else if Ascii.eqb c (ascii_of_nat 13) then String "\" (String "r" rest)
      else if Ascii.eqb c (ascii_of_nat 9) then String "\" (String "t" rest)
      else String c rest
  end.

Definition repr (s : string) : string :=
  let q := if has_char squote s && negb (has_char dquote s) then dquote else squote in
  String q (escape q s ++ String q EmptyString).

Definition repr_list (l : list string) : string :=
  "[" ++ join ", " (map repr l) ++ "]".

(** [str(exc)]. *)
Definition exn_text (e : exn) : string :=
  match e with
  | TypeError m | ValueError m | KeyError m | RuntimeError m | OSError m | StageFailure m
  | UnsupportedBackendError m | NamedError _ m | OtherError m => m
  | InvalidPolicyConfigError errors =>
      "PolicyConfig is invalid (" +:+ str_of_Z (Z.of_nat (length errors)) +:+ " error(s)): " +:+
      join "; " errors
  end.

(** [sorted(xs)] of strings: insertion in byte order (code-point order). *)
Fixpoint str_leb (a b : string) : bool :=
  match a, b with
  | EmptyString, _ => true
  | String _ _, EmptyString => false
  | String x a', String y b' =>
      (nat_of_ascii x <? nat_of_ascii y)%nat ||
      ((nat_of_ascii x =? nat_of_ascii y)%nat && str_leb a' b')
  end.

Fixpoint insert_sorted {A} (leb : A -> A -> bool) (x : A) (l : list A) : list A :=
  match l with
  | [] => [x]
  | y :: l' => if leb x y then x :: l else y :: insert_sorted leb x l'
  end.

(** A stable ascending sort ([sorted] and [list.sort]). *)
Definition sorted_by {A} (leb : A -> A -> bool) (l : list A) : list A :=
  foldr (insert_sorted leb) [] l.

(** [sorted(set(l))]: ascending, without duplicates. *)
Definition sorted_set (l : list string) : list string :=
  sorted_by str_leb (remove_dups l).

End PyStr.
Export PyStr.

(** ** Lemmas *)

Lemma startswith_app (p s : string) : startswith (p ++ s) p = true.
Proof. induction p as [|c p IH]; simpl; [by destruct s|]. by rewrite Ascii.eqb_refl. Qed.

Lemma startswith_inv (s p : string) :
  startswith s p = true -> exists rest, s = (p ++ rest)%string.
Proof.
  revert s. induction p as [|a p IH]; intros s; [by exists s|].
  destruct s as [|b s]; simpl; [done|]. intros [Hab%Ascii.eqb_eq H]%andb_true_iff.
  destruct (IH _ H) as [rest ->]. exists rest. by subst b.
Qed.

Lemma str_drop_app (p rest : string) : str_drop (String.length p) (p ++ rest) = rest.
Proof. induction p; simpl; [by destruct rest|done]. Qed.

Lemma find_startswith (s p : string) : startswith s p = true -> find s p = Some 0.
Proof. intros H. by destruct s; simpl in *; rewrite H. Qed.

Lemma insert_sorted_perm {A} (leb : A -> A -> bool) x l :
  insert_sorted leb x l ≡ₚ x :: l.
Proof.
  induction l as [|y l IH]; simpl; [done|].
  destruct (leb x y); [done|]. rewrite IH. by rewrite Permutation_swap.
Qed.

Lemma sorted_by_perm {A} (leb : A -> A -> bool) l : sorted_by leb l ≡ₚ l.
Proof.
  unfold sorted_by. induction l as [|x l IH]; simpl; [done|].
  by rewrite insert_sorted_perm, IH.
Qed.

Lemma insert_sorted_sorted {A} (leb : A -> A -> bool) x l :
  (forall a b, leb a b = false -> leb b a = true) ->
  (forall a b c, leb a b = true -> leb b c = true -> leb a c = true) ->
  StronglySorted (fun a b => leb a b = true) l ->
  StronglySorted (fun a b => leb a b = true) (insert_sorted leb x l).
Proof.
  intros Htot Htr. induction 1 as [|y l Hl IH Hy]; simpl; [repeat constructor|].
  destruct (leb x y) eqn:E.
  - constructor; [by constructor|]. constructor; [done|].
    eapply Forall_impl; [exact Hy|]. intros z Hz. by eapply Htr.
  - constructor; [done|]. rewrite insert_sorted_perm. constructor; auto.
Qed.

Lemma sorted_by_sorted {A} (leb : A -> A -> bool) l :
  (forall a b, leb a b = false -> leb b a = true) ->
  (forall a b c, leb a b = true -> leb b c = true -> leb a c = true) ->
  StronglySorted (fun a b => leb a b = true) (sorted_by leb l).
Proof.
  intros Htot Htr. unfold sorted_by.
  induction l as [|x l IH]; simpl; [constructor|]. by apply insert_sorted_sorted.
Qed.

Lemma str_app_assoc (a b c : string) : (a ++ (b ++ c) = (a ++ b) ++ c)%string.
Proof. induction a as [|x a IH]; [done|]. exact (f_equal (String x) IH). Qed.

Lemma str_app_nil_r (a : string) : (a ++ "" = a)%string.
Proof. induction a as [|x a IH]; [done|]. exact (f_equal (String x) IH). Qed.

Lemma list_ascii_app (a b : string) :
  String.list_ascii_of_string (a ++ b) = String.list_ascii_of_string a ++ String.list_ascii_of_string b.
Proof. induction a as [|x a IH]; [done|]. exact (f_equal (cons x) IH). Qed.

Lemma str_app_inj_r (a b c : string) : (a ++ c = b ++ c)%string -> a = b.
Proof.
  intros H. apply (f_equal String.list_ascii_of_string) in H. rewrite !list_ascii_app in H.
  apply app_inv_tail in H. apply (f_equal String.string_of_list_ascii) in H.
  by rewrite !String.string_of_list_ascii_of_string in H.
Qed.

(** Stripping twice is stripping once. *)
Lemma lstrip_head s :
  lstrip s = "" \/ exists c s', lstrip s = String c s' /\ is_space c = false.
Proof.
  induction s as [|c s IH]; [by left|]. simpl. destruct (is_space c) eqn:E; [exact IH|].
  right. by exists c, s.
Qed.

Lemma lstrip_idem s : lstrip (lstrip s) = lstrip s.
Proof.
  destruct (lstrip_head s) as [-> | (c & s' & -> & Hc)]; [done|]. simpl. by rewrite Hc.
Qed.

Lemma list_ascii_rev s :
  String.list_ascii_of_string (String.rev s) = rev (String.list_ascii_of_string s).
Proof.
  unfold String.rev. assert (H : forall a b, String.list_ascii_of_string (String.rev_app a b)
    = rev (String.list_ascii_of_string a) ++ String.list_ascii_of_string b).
  { induction a as [|c a IH]; intros b; [done|]. simpl. rewrite IH. simpl. by rewrite <-app_assoc. }
  rewrite H. apply app_nil_r.
Qed.

Lemma str_rev_involutive s : String.rev (String.rev s) = s.
Proof.
  rewrite <-(String.string_of_list_ascii_of_string (String.rev (String.rev s))).
  rewrite !list_ascii_rev, rev_involutive. apply String.string_of_list_ascii_of_string.
Qed.

Lemma lstrip_suffix s : exists p, s = (p ++ lstrip s)%string.
Proof.
  induction s as [|c s [p IH]]; [by exists ""|]. simpl. destruct (is_space c); [|by exists ""].
  exists (String c p). exact (f_equal (String c) IH).
Qed.

Lemma strip_idem s : strip (strip s) = strip s.
Proof.
  unfold strip. set (u := lstrip s). set (w := lstrip (String.rev u)).
  assert (Hw : lstrip (String.rev w) = String.rev w).
  { destruct (lstrip_suffix (String.rev u)) as [p Hp]. fold w in Hp.
    destruct (lstrip_head s) as [Hu | (c & s' & Hu & Hc)]; fold u in Hu.
    - unfold w. by rewrite Hu.
    - assert (Hl : String.list_ascii_of_string u
        = String.list_ascii_of_string (String.rev w) ++ String.list_ascii_of_string (String.rev p)).
      { rewrite !list_ascii_rev, <-rev_app_distr, <-list_ascii_app, <-Hp, list_ascii_rev.
        by rewrite rev_involutive. }
      rewrite Hu in Hl. simpl in Hl. destruct (String.rev w) as [|c' w'] eqn:Ew; [done|].
      simpl in Hl. injection Hl as <- _. simpl. by rewrite Hc. }
  rewrite Hw, str_rev_involutive. unfold w at 1. by rewrite lstrip_idem.
Qed.

(** Byte order on strings is a total order, so sorting by a text key determines
    the sequence of keys. *)
Lemma str_leb_total a b : str_leb a b = false -> str_leb b a = true.
Proof.
  revert b. induction a as [|x a IH]; intros [|y b]; simpl; try done.
  rewrite orb_false_iff, andb_false_iff, orb_true_iff, andb_true_iff, Nat.ltb_ge, Nat.ltb_lt,
    Nat.eqb_neq, Nat.eqb_eq.
  intros [H1 [H2 | H2]]; [left; lia|]. apply IH in H2.
  destruct (Nat.eq_dec (nat_of_ascii y) (nat_of_ascii x)); [by right | left; lia].
Qed.

Lemma str_leb_trans a b c : str_leb a b = true -> str_leb b c = true -> str_leb a c = true.
Proof.
  revert b c. induction a as [|x a IH]; intros [|y b] [|z c]; simpl; try done.
  rewrite !orb_true_iff, !andb_true_iff, !Nat.ltb_lt, !Nat.eqb_eq.
  intros [H1 | [H1 H1']] [H2 | [H2 H2']]; try (left; lia). right. split; [lia|]. by eapply IH.
Qed.

Lemma str_leb_antisym a b : str_leb a b = true -> str_leb b a = true -> a = b.
Proof.
  revert b. induction a as [|x a IH]; intros [|y b]; simpl; try done.
  rewrite !orb_true_iff, !andb_true_iff, !Nat.ltb_lt, !Nat.eqb_eq.
  intros [H1 | [H1 H1']] [H2 | [H2 H2']]; try lia. f_equal; [|by apply IH].
  rewrite <-(ascii_nat_embedding x), <-(ascii_nat_embedding y). by f_equal.
Qed.

Lemma StronglySorted_map {A B} (R : B -> B -> Prop) (k : A -> B) l :
  StronglySorted (fun a b => R (k a) (k b)) l -> StronglySorted R (map k l).
Proof. induction 1 as [|x l Hl IH Hx]; simpl; constructor; [done|]. by apply Forall_map. Qed.

Lemma sorted_by_key_perm {A} (k : A -> string) l1 l2 :
  l1 ≡ₚ l2 ->
  map k (sorted_by (fun a b => str_leb (k a) (k b)) l1)
  = map k (sorted_by (fun a b => str_leb (k a) (k b)) l2).
Proof.
  intros Hp.
  apply (StronglySorted_unique_strong (fun a b => str_leb a b = true)).
  - intros x y _ _. apply str_leb_antisym.
  - apply (StronglySorted_map (fun a b => str_leb a b = true)), sorted_by_sorted;
      [intros ? ?; apply str_leb_total | intros ? ? ?; apply str_leb_trans].
  - apply (StronglySorted_map (fun a b => str_leb a b = true)), sorted_by_sorted;
      [intros ? ?; apply str_leb_total | intros ? ? ?; apply str_leb_trans].
  - by rewrite !sorted_by_perm, Hp.
Qed.

(** ** [fnmatch.fnmatch]

    On POSIX [fnmatch] compares without case folding; the pattern language is
    [*] (any text, directory separators included), [?] (one character),
    [[seq]] and [[!seq]] (a character class), and every other character for
    itself.  An unclosed bracket stands for itself. *)
Module Fnmatch.

Inductive cls :=
  | CChar (c : ascii)
  | CRange (lo hi : ascii).

Inductive tok :=
  | Star
  | Any
  | Lit (c : ascii)
  | Class (neg : bool) (items : list cls).

#[export] Instance tok_eq_dec : EqDecision tok.
Proof. intros a b. unfold Decision. repeat decide equality. Defined.

Definition cls_match (c : ascii) (k : cls) : bool :=
  match k with
  | CChar d => Ascii.eqb c d
  | CRange lo hi =>
      (nat_of_ascii lo <=? nat_of_ascii c)%nat && (nat_of_ascii c <=? nat_of_ascii hi)%nat
  end.

(** The items of a class from the text between its brackets. *)
Fixpoint class_items (fuel : nat) (s : string) : list cls :=
  match fuel, s with
  | S f, String a (String d (String b s')) =>
      if Ascii.eqb d "-" then CRange a b :: class_items f s'
      else CChar a :: class_items f (String d (String b s'))
  | S f, String a s' => CChar a :: class_items f s'
  | _, _ => []
  end.

(** Split at the bracket that closes a class: the text inside, the text after. *)
Fixpoint close_bracket (s : string) : option (string * string) :=
  match s with
  | EmptyString => None
  | String c s' =>
      if Ascii.eqb c "]" then Some (EmptyString, s')
      else match close_bracket s' with
           | Some (inside, rest) => Some (String c inside, rest)
           | None => None
           end
  end.

(** The class that starts after an opening bracket: a leading [!] negates it,
    and a [ ] ] directly after the opening belongs to it. *)
Definition parse_class (s : string) : option (tok * string) :=
  let '(neg, s1) :=
    match s with String c s' => if Ascii.eqb c "!" then (true, s') else (false, s)
               | EmptyString => (false, s) end in
  let '(first, s2) :=
    match s1 with String c s' => if Ascii.eqb c "]" then ("]"%string, s') else (""%string, s1)
                | EmptyString => (""%string, s1) end in
  match close_bracket s2 with
  | Some (inside, rest) =>
      let body := (first ++ inside)%string in
      Some (Class neg (class_items (String.length body) body), rest)
  | None => None
  end.

Fixpoint parse (fuel : nat) (s : string) : list tok :=
  match fuel, s with
  | S f, String c s' =>
      if Ascii.eqb c "*" then Star :: parse f s'
      else if Ascii.eqb c "?" then Any :: parse f s'
      else if Ascii.eqb c "[" then
        match parse_class s' with
        | Some (t, rest) => t :: parse f rest
        | None => Lit c :: parse f s'
        end
      else Lit c :: parse f s'
  | _, _ => []
  end.

Definition compile (pat : string) : list tok := parse (String.length pat) pat.

Definition tok_match (t : tok) (c : ascii) : bool :=
  match t with
  | Star => false
  | Any => true
  | Lit d => Ascii.eqb c d
  | Class neg items => xorb neg (existsb (cls_match c) items)
  end.

Fixpoint match_toks (ts : list tok) (s : string) : bool :=
  match ts with
  | [] => String.eqb s ""
  | Star :: ts' =>
      (fix star (s : string) : bool :=
         match_toks ts' s ||
         match s with EmptyString => false | String _ s' => star s' end) s
  | t :: ts' =>
      match s with
      | EmptyString => false
      | String c s' => tok_match t c && match_toks ts' s'
      end
  end.

Definition fnmatch (name pat : string) : bool := match_toks (compile pat) name.

(** The relation the pattern language describes. *)
Inductive matches : list tok -> string -> Prop :=
  | m_nil : matches [] ""
  | m_star ts (u s : string) : matches ts s -> matches (Star :: ts) (u ++ s)
  | m_one t ts c s : tok_match t c = true -> matches ts s -> matches (t :: ts) (String c s).

Lemma match_star_iff ts s :
  match_toks (Star :: ts) s = true <-> exists u v, s = (u ++ v)%string /\ match_toks ts v = true.
Proof.
  simpl. induction s as [|c s IH]; simpl.
  - rewrite orb_false_r. split.
    + intros H. by exists ""%string, ""%string.
    + intros (u & v & Heq & H). destruct u, v; by try discriminate.
  - rewrite orb_true_iff, IH. split.
    + intros [H|(u & v & -> & H)]; [by exists ""%string, (String c s)|by exists (String c u), v].
    + intros (u & v & Heq & H). destruct u as [|c' u].
      * left. by rewrite Heq.
      * right. simpl in Heq. injection Heq as -> ->. by exists u, v.
Qed.

Lemma match_toks_spec ts s : match_toks ts s = true <-> matches ts s.
Proof.
  revert s. induction ts as [|t ts IH]; intros s.
  - simpl. rewrite String.eqb_eq. split; [intros ->; constructor|by inversion 1].
  - destruct (decide (t = Star)) as [->|Hns].
    { rewrite match_star_iff. split.
      - intros (u & v & -> & H). constructor. by apply IH.
      - inversion 1 as [| |? ? ? ? Hm]; subst; [|done]. do 2 eexists. by rewrite IH. }
    assert (match_toks (t :: ts) s =
            match s with EmptyString => false | String c s' => tok_match t c && match_toks ts s' end)
      as -> by (destruct t; done).
    split.
    + destruct s as [|c s]; [done|]. intros [? ?]%andb_true_iff. constructor; [done|by apply IH].
    + inversion 1; subst; [done|]. apply andb_true_iff. split; [done|by apply IH].
Qed.

End Fnmatch.
Export Fnmatch(fnmatch).

#[export] Hint Resolve startswith_app : oc.

(** Examples of the pattern language on the paths the guardrails name. *)
Example fnmatch_env : fnmatch "prod.env" "*.env" = true. Proof. reflexivity. Qed.
Example fnmatch_cross_dir : fnmatch "a/b/docker-compose.yml" "**/docker-compose*.yml" = true.
Proof. reflexivity. Qed.
Example fnmatch_root_only : fnmatch "deploy/docker-compose.yml" "docker-compose*.yml" = false.
Proof. reflexivity. Qed.
Example fnmatch_class : fnmatch "v7" "v[0-9]" && negb (fnmatch "v7" "v[!0-9]") = true.
Proof. reflexivity. Qed.
Example fnmatch_unclosed : fnmatch "a[b" "a[b" = true. Proof. reflexivity. Qed.
