(* ===== verification/PyData.v ===== *)
(** * Timestamps and JSON values

    [datetime] values with their awareness flag, the comparisons that raise on
    a naive/aware mix, [timedelta] constants in microseconds, and the JSON
    values the persisted ledgers hold.  A string that [isoformat] wrote is
    represented by the datetime it denotes ([JTime]), so
    [datetime.fromisoformat] reads a [JTime] back and raises [ValueError] on
    any other text; a float is an exact rational. *)
From S2P Require Import Prelude PyStr.
From Stdlib Require Import QArith.Qround.

(** A [datetime]: microseconds since the epoch (of the instant if aware, of
    the wall clock if naive). *)
Record datetime := mk_datetime { dt_us : Z; dt_aware : bool }.

#[export] Instance datetime_eq_dec : EqDecision datetime.
Proof. solve_decision. Defined.

Module PyTime.
Definition second : Z := 1000000.
Definition seconds (n : Z) : Z := (n * second)%Z.
Definition hours (n : Z) : Z := seconds (n * 3600).
Definition days (n : Z) : Z := seconds (n * 86400).

(** [t + delta], [t - delta]. *)
Definition add_us (t : datetime) (d : Z) : datetime := mk_datetime (dt_us t + d) (dt_aware t).
Definition sub_us (t : datetime) (d : Z) : datetime := mk_datetime (dt_us t - d) (dt_aware t).

(** [a - b] between two datetimes and the orderings: [TypeError] when one is
    naive and the other aware. *)
Definition same_kind (a b : datetime) : bool := Bool.eqb (dt_aware a) (dt_aware b).
Definition naive_mix : exn := TypeError "can't compare offset-naive and offset-aware datetimes".

Definition dt_diff (a b : datetime) : res Z :=
  if same_kind a b then Ok (dt_us a - dt_us b)%Z else Raise naive_mix.
Definition dt_le (a b : datetime) : res bool :=
  if same_kind a b then Ok (dt_us a <=? dt_us b)%Z else Raise naive_mix.
Definition dt_lt (a b : datetime) : res bool :=
  if same_kind a b then Ok (dt_us a <? dt_us b)%Z else Raise naive_mix.

(** [t.replace(tzinfo=UTC)] when [t] is naive. *)
Definition assume_utc (t : datetime) : datetime :=
  if dt_aware t then t else mk_datetime (dt_us t) true.

(** [int(delta.total_seconds())]: truncation toward zero. *)
Definition whole_seconds (us : Z) : Z := Z.quot us second.
End PyTime.
Export PyTime.

#[global] Arguments seconds : simpl never.
#[global] Arguments hours : simpl never.
#[global] Arguments days : simpl never.

#[local] Set Warnings "-register-all".

(** JSON values as Python holds them after [json.loads]. *)
Inductive jval :=
  | JNull
  | JBool (b : bool)
  | JInt (n : Z)
  | JFloat (q : Q)
  | JStr (s : string)
  | JTime (t : datetime)
  | JList (l : list jval)
  | JObj (l : list (string * jval)).

(** A [dict] with string keys. *)
Abbreviation dict := (gmap string jval).

(** [d.get(k)]: [None] for a missing key. *)
Definition dget (d : dict) (k : string) : jval := default JNull (d !! k).

Definition opt_jstr (o : option string) : jval :=
  match o with Some s => JStr s | None => JNull end.

(** [v == s] for a string [s]. *)
Definition jeq_str (v : jval) (s : string) : bool :=
  match v with JStr t => String.eqb t s | _ => false end.

(** [v == o] where [o] is a string or [None]. *)
Definition jeq_opt (v : jval) (o : option string) : bool :=
  match o with
  | Some s => jeq_str v s
  | None => match v with JNull => true | _ => false end
  end.

(** Truthiness of a JSON value. *)
Definition jtruthy (v : jval) : bool :=
  match v with
  | JNull => false
  | JBool b => b
  | JInt n => negb (n =? 0)%Z
  | JFloat q => negb (Qeq_bool q 0)
  | JStr s => str_truthy s
  | JTime _ => true
  | JList l => list_truthy l
  | JObj l => list_truthy l
  end.

(** [datetime.fromisoformat(str(v))]: [None] stands for [ValueError]. *)
Definition fromisoformat_str (v : jval) : option datetime :=
  match v with JTime t => Some t | _ => None end.

(** [isinstance(v, str)]: timestamps are stored as strings. *)
Definition is_str (v : jval) : bool :=
  match v with JStr _ | JTime _ => true | _ => false end.

(** [str(v)] for the values the code turns into keys. *)
Definition jstr (v : jval) : option string :=
  match v with JStr s => Some s | _ => None end.

(** [float(v)] of a JSON number ([bool] is a number in Python). *)
Definition jfloat (v : jval) : res Q :=
  match v with
  | JInt n => Ok (inject_Z n)
  | JFloat q => Ok q
  | JBool b => Ok (if b then 1 else 0)%Q
  | JNull | JList _ | JObj _ => Raise (TypeError "float() argument must be a string or a real number")
  | JStr _ | JTime _ => Raise (ValueError "could not convert string to float")
  end.

(** [int(v)] of a JSON value: a number is truncated toward zero, a text read as
    a decimal. *)
Definition jint (v : jval) : res Z :=
  match v with
  | JInt n => Ok n
  | JFloat q => Ok (Z.quot (Qnum q) (Zpos (Qden q)))
  | JBool b => Ok (if b then 1 else 0)%Z
  | JNull | JList _ | JObj _ => Raise (TypeError "int() argument must be a string or a real number")
  | JStr s => match py_int s with Some n => Ok n | None => Raise (ValueError "invalid literal for int()") end
  | JTime _ => Raise (ValueError "invalid literal for int()")
  end.

(** [round(x, n)]: the decimal with [n] places nearest to [x], ties to even. *)
Definition round_half_even (q : Q) : Z :=
  let z := Qround.Qfloor (q + (1 # 2)) in
  if Qeq_bool (q + (1 # 2)) (inject_Z z) && Z.odd z then (z - 1)%Z else z.
Definition py_round (n : nat) (q : Q) : Q :=
  Qmake (round_half_even (q * inject_Z (Zpos (pow10 n)))) (pow10 n).

(** [isinstance(v, (int, float))]. *)
Definition is_number (v : jval) : bool :=
  match v with JInt _ | JFloat _ | JBool _ => true | _ => false end.

(** ** Texts of dates and numbers *)

(** Year, month and day of a day number counted from 1970-01-01, in the
    proleptic Gregorian calendar. *)
Definition civil_from_days (n : Z) : Z * Z * Z :=
  let z := (n + 719468)%Z in
  let era := (z / 146097)%Z in
  let doe := (z mod 146097)%Z in
  let yoe := ((doe - doe / 1460 + doe / 36524 - doe / 146096) / 365)%Z in
  let doy := (doe - (365 * yoe + yoe / 4 - yoe / 100))%Z in
  let mp := ((5 * doy + 2) / 153)%Z in
  let m := if (mp <? 10)%Z then (mp + 3)%Z else (mp - 9)%Z in
  ((yoe + era * 400 + if (m <=? 2)%Z then 1 else 0)%Z, m, (doy - (153 * mp + 2) / 5 + 1)%Z).

(** [t.weekday()]: Monday is 0; 1970-01-01 was a Thursday. *)
Definition weekday (t : datetime) : Z := ((dt_us t / days 1 + 3) mod 7)%Z.
Definition hour_of (t : datetime) : Z := (dt_us t mod days 1 / hours 1)%Z.

Fixpoint zeros (n : nat) : string :=
  match n with 0 => EmptyString | S n' => String (Ascii.ascii_of_nat 48) (zeros n') end.
(** [f"{n:0wd}"] for [n >= 0]. *)
Definition zpad (w : nat) (n : Z) : string :=
  let s := str_of_Z n in zeros (w - String.length s) +:+ s.

(** [t.isoformat()]; aware datetimes are in UTC. *)
Definition isoformat (t : datetime) : string :=
  let '(y, m, d) := civil_from_days (dt_us t / days 1) in
  let us := (dt_us t mod days 1)%Z in
  let secs := (us / second)%Z in
  let frac := (us mod second)%Z in
  zpad 4 y +:+ "-" +:+ zpad 2 m +:+ "-" +:+ zpad 2 d +:+ "T" +:+
  zpad 2 (secs / 3600) +:+ ":" +:+ zpad 2 (secs / 60 mod 60) +:+ ":" +:+ zpad 2 (secs mod 60) +:+
  (if (frac =? 0)%Z then "" else "." +:+ zpad 6 frac) +:+
  (if dt_aware t then "+00:00" else "").

Example isoformat_examples :
  isoformat (mk_datetime 1778250191000123 true) = "2026-05-08T14:23:11.000123+00:00" /\
  isoformat (mk_datetime 951782400000000 false) = "2000-02-29T00:00:00" /\
  weekday (mk_datetime 1778250191000123 true) = 4%Z.
Proof. vm_compute. done. Qed.

(** [f"{q:.0f}"]. *)
Definition fmt_0f (q : Q) : string :=
  if Qlt_b q 0 && (round_half_even q =? 0)%Z then "-0" else str_of_Z (round_half_even q).

(** [str(v)] where the code formats a key: exact for strings, integers,
    booleans, timestamps and [None]; the text of other values is not compared. *)
Definition jtext (v : jval) : string :=
  match v with
  | JStr s => s
  | JInt n => str_of_Z n
  | JBool true => "True"
  | JBool false => "False"
  | JNull => "None"
  | JFloat _ => "<float>"
  | JTime t => isoformat t
  | JList _ => "<list>"
  | JObj _ => "<dict>"
  end.

(** [d[k]]. *)
Definition ditem (d : dict) (k : string) : res jval :=
  match d !! k with Some v => Ok v | None => Raise (KeyError k) end.

Lemma dget_insert_eq (d : dict) k v : dget (<[k := v]> d) k = v.
Proof. unfold dget. by rewrite lookup_insert_eq. Qed.

Lemma dget_insert_ne (d : dict) k k' v : k <> k' -> dget (<[k := v]> d) k' = dget d k'.
Proof. intros H. unfold dget. by rewrite lookup_insert_ne. Qed.

Lemma jeq_str_eq v s : jeq_str v s = true <-> v = JStr s.
Proof.
  destruct v; simpl; try (split; congruence).
  rewrite String.eqb_eq. split; congruence.
Qed.

Lemma jeq_opt_eq v o : jeq_opt v o = true <-> v = opt_jstr o.
Proof.
  destruct o as [s|]; simpl; [apply jeq_str_eq|]. destruct v; split; congruence.
Qed.

Lemma dt_le_aware a b : dt_aware a = true -> dt_aware b = true ->
  dt_le a b = Ok (dt_us a <=? dt_us b)%Z.
Proof. intros Ha Hb. unfold dt_le, same_kind. by rewrite Ha, Hb. Qed.

Lemma dt_lt_aware a b : dt_aware a = true -> dt_aware b = true ->
  dt_lt a b = Ok (dt_us a <? dt_us b)%Z.
Proof. intros Ha Hb. unfold dt_lt, same_kind. by rewrite Ha, Hb. Qed.

Lemma dt_diff_aware a b : dt_aware a = true -> dt_aware b = true ->
  dt_diff a b = Ok (dt_us a - dt_us b)%Z.
Proof. intros Ha Hb. unfold dt_diff, same_kind. by rewrite Ha, Hb. Qed.

#[export] Hint Rewrite dget_insert_eq : oc_rw.
#[export] Hint Resolve dt_le_aware dt_lt_aware dt_diff_aware : oc.

(** ** Dicts whose order matters

    A Python [dict] in insertion order: assigning to a key that is present
    keeps its place, popping one forgets it. *)
Section OrderedDict.
Context {K V : Type} `{EqDecision K}.

Abbreviation odict := (list (K * V)).

Definition od_get (k : K) (d : odict) : option V :=
  snd <$> List.find (fun kv => bool_decide (fst kv = k)) d.

Fixpoint od_set (k : K) (v : V) (d : odict) : odict :=
  match d with
  | [] => [(k, v)]
  | (k', v') :: d' => if bool_decide (k' = k) then (k, v) :: d' else (k', v') :: od_set k v d'
  end.

Definition od_pop (k : K) (d : odict) : odict :=
  List.filter (fun kv => negb (bool_decide (fst kv = k))) d.

Lemma elem_of_od_set k v d x : x ∈ map fst (od_set k v d) <-> x = k \/ x ∈ map fst d.
Proof.
  induction d as [|[k' v'] d IH]; simpl; [rewrite list_elem_of_singleton; set_solver|].
  case_bool_decide as Hk; simpl; rewrite !elem_of_cons; [naive_solver|]. rewrite IH. naive_solver.
Qed.

Lemma elem_of_od_pop k d x : x ∈ map fst (od_pop k d) <-> x ∈ map fst d /\ x <> k.
Proof.
  unfold od_pop. induction d as [|[k' v'] d IH]; simpl; [set_solver|].
  case_bool_decide as Hk; simpl; rewrite ?elem_of_cons, IH; naive_solver.
Qed.

Lemma od_get_set_eq k v d : od_get k (od_set k v d) = Some v.
Proof.
  unfold od_get. induction d as [|[k' v'] d IH]; simpl; [by rewrite bool_decide_true|].
  case_bool_decide as Hk; simpl; [by rewrite bool_decide_true|]. by rewrite bool_decide_false.
Qed.

Lemma od_get_set_ne k k' v d : k <> k' -> od_get k' (od_set k v d) = od_get k' d.
Proof.
  intros Hne. unfold od_get. induction d as [|[k0 v0] d IH]; simpl; [by rewrite bool_decide_false|].
  case_bool_decide as Hk; simpl.
  - subst k0. by rewrite (bool_decide_false (k = k')) by done.
  - case_bool_decide; [done|]. exact IH.
Qed.
End OrderedDict.

(** ** Values kept in a file

    What a component writes to its file and reads back: reading what was
    written gives the value. *)
Class Persistent (A : Type) := {
  to_json : A -> jval;
  of_json : jval -> res A;
  of_to_json a : of_json (to_json a) = Ok a }.

(** A JSON file: absent, not readable as JSON, or holding a value. *)
Inductive json_file :=
  | FileMissing
  | FileCorrupt (e : exn)
  | FileHolds (v : jval).

Lemma to_json_inj {A} `{Persistent A} (x y : A) : to_json x = to_json y -> x = y.
Proof. intros E. enough (Ok x = Ok y) by congruence. by rewrite <-!of_to_json, E. Qed.
