(* ===== verification/TextLines.v ===== *)
(** * Lines of a text

    How [strip], [splitlines] and [join] act on a text that is put together from
    lines: what one component writes as a line of a description, another finds
    as a line of it.  At the end, decimal texts: [int(str(n)) == n] for the
    counters that are written into labels and read back. *)
From Stdlib Require Import Ascii.
From stdpp Require Import pretty.
From S2P Require Import Prelude PyStr.

Definition nl : string := String (ascii_of_nat 10) "".

(** A text in which a tilde stands for a double quote. *)
Definition quoted (s : string) : string := map_str (fun c => if Ascii.eqb c "~" then dquote else c) s.

Definition all_space (s : string) : bool := forallb is_space (String.list_ascii_of_string s).

(** A text without line breaks. *)
Definition one_line (s : string) : bool :=
  forallb (fun c => negb (is_line_break c)) (String.list_ascii_of_string s).

(** [str.rstrip]. *)
Definition rstrip (s : string) : string := String.rev (lstrip (String.rev s)).

Lemma strip_unfold s : strip s = rstrip (lstrip s).
Proof. done. Qed.

Lemma lstrip_nil s : lstrip s = "" <-> all_space s = true.
Proof.
  unfold all_space. induction s as [|c s IH]; [done|]. simpl. destruct (is_space c); [exact IH | done].
Qed.

Lemma lstrip_app a b : all_space a = false -> lstrip (a ++ b)%string = (lstrip a ++ b)%string.
Proof.
  unfold all_space. induction a as [|c a IH]; [done|]. simpl. destruct (is_space c); [exact IH | done].
Qed.

Lemma list_ascii_inj a b : String.list_ascii_of_string a = String.list_ascii_of_string b -> a = b.
Proof.
  intros H. apply (f_equal String.string_of_list_ascii) in H.
  by rewrite !String.string_of_list_ascii_of_string in H.
Qed.

Lemma str_rev_app a b : String.rev (a ++ b)%string = (String.rev b ++ String.rev a)%string.
Proof. apply list_ascii_inj. by rewrite list_ascii_app, !list_ascii_rev, list_ascii_app, rev_app_distr. Qed.

Lemma all_space_rev s : all_space (String.rev s) = all_space s.
Proof.
  unfold all_space. rewrite list_ascii_rev. apply Bool.eq_iff_eq_true. rewrite !forallb_forall.
  by setoid_rewrite <-in_rev.
Qed.

Lemma all_space_app a b : all_space (a ++ b)%string = all_space a && all_space b.
Proof. unfold all_space. by rewrite list_ascii_app, forallb_app. Qed.

Lemma rstrip_app a b : all_space b = false -> rstrip (a ++ b)%string = (a ++ rstrip b)%string.
Proof.
  intros H. unfold rstrip. rewrite str_rev_app, lstrip_app by (by rewrite all_space_rev).
  by rewrite str_rev_app, str_rev_involutive.
Qed.

(** Stripping a text that starts and ends in the open leaves its middle alone. *)
Lemma strip_middle a m z :
  lstrip a = a -> all_space a = false -> all_space z = false ->
  strip (a ++ m ++ z)%string = (a ++ m ++ rstrip z)%string.
Proof.
  intros Ha Hsp Hz. rewrite strip_unfold, lstrip_app, Ha, !str_app_assoc by done. by rewrite rstrip_app.
Qed.

(** ** Lines *)

Lemma splitlines_aux_break p t cur :
  exists L, splitlines_aux (p ++ nl ++ t)%string cur = L ++ splitlines_aux t "".
Proof.
  remember (String.length p) as n eqn:Hn. revert p cur Hn.
  induction n as [n IH] using lt_wf_ind. intros [|c p] cur ->; [by exists [String.rev cur]|].
  change (String c p ++ nl ++ t)%string with (String c (p ++ nl ++ t)%string).
  cbn [splitlines_aux String.length] in *.
  assert (Hnext : forall q cur', String.length q <= String.length p ->
            exists L, splitlines_aux (q ++ nl ++ t)%string cur' = L ++ splitlines_aux t "").
  { intros q cur' Hq. apply (IH (String.length q)); [lia | done]. }
  assert (Hcut : forall q, String.length q <= String.length p ->
            exists L, String.rev cur :: splitlines_aux (q ++ nl ++ t)%string "" = L ++ splitlines_aux t "").
  { intros q Hq. destruct (Hnext q "" Hq) as [L HL]. exists (String.rev cur :: L). by rewrite HL. }
  destruct (Ascii.eqb c (ascii_of_nat 13)).
  - destruct p as [|d p]; [by exists [String.rev cur]|].
    change (String d p ++ nl ++ t)%string with (String d (p ++ nl ++ t)%string). cbv beta iota.
    destruct (Ascii.eqb d (ascii_of_nat 10)); [apply Hcut; simpl; lia | exact (Hcut (String d p) (le_n _))].
  - destruct (is_line_break c); [by apply Hcut | by apply Hnext].
Qed.

Lemma splitlines_aux_line line q cur :
  one_line line = true ->
  splitlines_aux (line ++ nl ++ q)%string cur = (String.rev cur ++ line)%string :: splitlines_aux q "".
Proof.
  revert cur. induction line as [|c line IH]; intros cur Hone.
  - by rewrite str_app_nil_r.
  - unfold one_line in Hone. simpl in Hone. apply andb_true_iff in Hone as [Hc Hone].
    apply negb_true_iff in Hc.
    change (String c line ++ nl ++ q)%string with (String c (line ++ nl ++ q)%string). cbn [splitlines_aux].
    destruct (Ascii.eqb c (ascii_of_nat 13)) eqn:E13.
    { apply Ascii.eqb_eq in E13 as ->. done. }
    rewrite Hc, IH by exact Hone. f_equal. apply list_ascii_inj.
    rewrite !list_ascii_app, !list_ascii_rev. simpl. by rewrite <-app_assoc.
Qed.

(** A line of a text is among its lines. *)
Lemma splitlines_line p line q :
  one_line line = true -> line ∈ splitlines (p ++ nl ++ line ++ nl ++ q)%string.
Proof.
  intros Hone. unfold splitlines.
  destruct (splitlines_aux_break p (line ++ nl ++ q)%string "") as [L ->].
  rewrite splitlines_aux_line by done. apply elem_of_app. right. left.
Qed.

Lemma one_line_app a b : one_line (a ++ b)%string = one_line a && one_line b.
Proof. unfold one_line. by rewrite list_ascii_app, forallb_app. Qed.

Lemma join_cons_app sep x (l : list string) :
  l <> [] -> join sep (x :: l) = (x ++ sep ++ join sep l)%string.
Proof. destruct l; [done|]. intros _. unfold join. done. Qed.

Lemma join_app sep (a b : list string) :
  a <> [] -> b <> [] -> join sep (a ++ b) = (join sep a ++ sep ++ join sep b)%string.
Proof.
  intros Ha Hb. induction a as [|x a IH]; [done|]. destruct a as [|y a].
  - by apply join_cons_app.
  - rewrite (join_cons_app _ x (y :: a)), <-!str_app_assoc, <-IH by done. by apply join_cons_app.
Qed.

Lemma join_all_space sep (l : list string) s :
  s ∈ l -> all_space s = false -> all_space (join sep l) = false.
Proof.
  intros Hin Hs. induction l as [|x l IH]; [by apply not_elem_of_nil in Hin|].
  destruct l as [|y l].
  - apply list_elem_of_singleton in Hin as ->. done.
  - rewrite join_cons_app by done. rewrite !all_space_app. apply elem_of_cons in Hin as [-> | Hin].
    + by rewrite Hs.
    + rewrite IH by done. by rewrite !andb_false_r.
Qed.

(** ** Case *)

Lemma lower_app a b : lower (a ++ b)%string = (lower a ++ lower b)%string.
Proof. unfold lower. induction a as [|c a IH]; [done|]. exact (f_equal (String (lower_ascii c)) IH). Qed.

(** ** What a separator separates *)

Lemma before_char_app c p rest : has_char c p = false -> before_char c (p +:+ String c rest) = p.
Proof.
  induction p as [|d p IH].
  - intros _. change ("" +:+ String c rest) with (String c rest). cbn -[Ascii.eqb]. by rewrite Ascii.eqb_refl.
  - change (String d p +:+ String c rest) with (String d (p +:+ String c rest)). cbn -[Ascii.eqb].
    intros [Hd Hp]%orb_false_iff. rewrite Ascii.eqb_sym, Hd. by rewrite IH.
Qed.

Lemma after_char_app c p rest : has_char c p = false -> after_char c (p +:+ String c rest) = rest.
Proof.
  induction p as [|d p IH].
  - intros _. change ("" +:+ String c rest) with (String c rest). cbn -[Ascii.eqb]. by rewrite Ascii.eqb_refl.
  - change (String d p +:+ String c rest) with (String d (p +:+ String c rest)). cbn -[Ascii.eqb].
    intros [Hd Hp]%orb_false_iff. rewrite Ascii.eqb_sym, Hd. by rewrite IH.
Qed.

(** ** Decimal texts

    [int(str(n)) == n] for the counters that the program writes into labels and
    reads back. *)

Definition all_digits (s : string) : bool := forallb is_digit (String.list_ascii_of_string s).

Lemma pretty_char_digit x : (x < 10)%N -> is_digit (pretty_N_char x) = true /\ digit_val (pretty_N_char x) = Z.of_N x.
Proof.
  intros H. assert (Hx : x ∈ [0;1;2;3;4;5;6;7;8;9]%N).
  { assert (x = 0 \/ x = 1 \/ x = 2 \/ x = 3 \/ x = 4 \/ x = 5 \/ x = 6 \/ x = 7 \/ x = 8 \/ x = 9)%N by lia. set_solver. }
  repeat (apply elem_of_cons in Hx as [->|Hx]; [split; reflexivity|]). by apply elem_of_nil in Hx.
Qed.

Lemma pretty_go_digits x s :
  all_digits s = true ->
  all_digits (pretty_N_go x s) = true /\ digits_val 0 (pretty_N_go x s) = digits_val (Z.of_N x) s.
Proof.
  revert s. induction (N.lt_wf_0 x) as [x _ IH]; intros s Hs. destruct (decide (x = 0%N)) as [->|Hx].
  { by rewrite pretty_N_go_0. }
  rewrite pretty_N_go_step by lia.
  destruct (pretty_char_digit (x mod 10)) as [Hd Hv]; [by apply N.mod_lt|].
  assert (Hlt : (x / 10 < x)%N) by (apply N.div_lt; lia).
  destruct (IH _ Hlt (String (pretty_N_char (x mod 10)) s)) as [Ha Hval].
  { unfold all_digits in *. cbn. by rewrite Hd. }
  split; [done|]. rewrite Hval. cbn. rewrite Hv. f_equal.
  rewrite N2Z.inj_div, N2Z.inj_mod. pose proof (Z.div_mod (Z.of_N x) 10). lia.
Qed.

Lemma str_of_Z_digits n : (0 <= n)%Z -> all_digits (str_of_Z n) = true /\ digits_val 0 (str_of_Z n) = n.
Proof.
  intros H. unfold str_of_Z, pretty, pretty_Z. destruct n as [|p|p]; [done| |lia].
  destruct (pretty_go_digits (Npos p) "") as [Ha Hv]; [done|].
  assert (Hp : @pretty N _ (Npos p) = pretty_N_go (Npos p) "") by done.
  change (all_digits (@pretty N _ (Npos p)) = true /\ digits_val 0 (@pretty N _ (Npos p)) = Zpos p).
  by rewrite Hp, Ha, Hv.
Qed.

(** Texts of digits have no spaces, no letters and no sign. *)
Lemma digit_facts c : is_digit c = true ->
  is_space c = false /\ lower_ascii c = c /\ Ascii.eqb c "-" = false /\ Ascii.eqb c "+" = false.
Proof. destruct c as [[] [] [] [] [] [] [] []]; intros H; try discriminate H; repeat split. Qed.

Lemma all_digits_cons c s : all_digits (String c s) = true <-> is_digit c = true /\ all_digits s = true.
Proof. unfold all_digits. cbn. by rewrite andb_true_iff. Qed.

Lemma all_digits_lstrip s : all_digits s = true -> lstrip s = s.
Proof.
  destruct s as [|c s]; [done|]. intros [Hc _]%all_digits_cons. apply digit_facts in Hc as (Hc & _). cbn. by rewrite Hc.
Qed.

Lemma all_digits_rev s : all_digits (String.rev s) = all_digits s.
Proof.
  unfold all_digits. rewrite list_ascii_rev. induction (String.list_ascii_of_string s) as [|c l IH]; [done|].
  cbn [rev]. rewrite forallb_app, IH. cbn. rewrite andb_true_r, andb_comm. done.
Qed.

Lemma all_digits_strip s : all_digits s = true -> strip s = s.
Proof.
  intros H. unfold strip. rewrite (all_digits_lstrip s) by done.
  rewrite all_digits_lstrip by (by rewrite all_digits_rev). apply str_rev_involutive.
Qed.

Lemma all_digits_lower s : all_digits s = true -> lower s = s.
Proof.
  induction s as [|c s IH]; [done|]. intros [Hc Hs]%all_digits_cons. apply digit_facts in Hc as (_ & Hc & _).
  unfold lower in *. cbn. by rewrite Hc, IH.
Qed.

Lemma all_digits_take s : all_digits s = true -> take_while is_digit s = s.
Proof. induction s as [|c s IH]; [done|]. intros [Hc Hs]%all_digits_cons. cbn. by rewrite Hc, IH. Qed.

Lemma py_int_digits s : all_digits s = true -> s <> "" -> py_int s = Some (digits_val 0 s).
Proof.
  intros Hd Hne. unfold py_int. rewrite all_digits_strip by done. destruct s as [|c s]; [done|].
  apply all_digits_cons in Hd as Hc. destruct Hc as [Hc _]. apply digit_facts in Hc as (_ & _ & -> & ->).
  rewrite all_digits_take by done. by rewrite String.eqb_refl.
Qed.

Lemma str_of_Z_nonempty n : str_of_Z n <> "".
Proof.
  intros H. destruct (decide (0 <= n)%Z) as [Hn|Hn].
  - destruct (str_of_Z_digits n Hn) as [_ Hv]. rewrite H in Hv. cbn in Hv. subst n. discriminate H.
  - unfold str_of_Z, pretty, pretty_Z in H. destruct n as [|p|p]; [done|lia|done].
Qed.

Lemma py_int_str_of_Z n : (0 <= n)%Z -> py_int (str_of_Z n) = Some n.
Proof.
  intros Hn. destruct (str_of_Z_digits n Hn) as [Hd Hv].
  by rewrite (py_int_digits _ Hd (str_of_Z_nonempty n)), Hv.
Qed.
