(* ===== verification/Contracts.v ===== *)
(** * Execution contracts

    The canonical value objects that cross the execution boundary: the
    enumerations of contracts/enums.py, the planning proposal, the routing
    decision, the execution request and the execution result, with the fields
    of contracts/common.py, proposal.py, routing.py and execution.py. *)
From S2P Require Import Prelude PyStr PyData.

(** ** contracts/enums.py *)

Inductive TaskType :=
  | LINT_FIX | BUG_FIX | SIMPLE_EDIT | TEST_WRITE | DOCUMENTATION | REFACTOR
  | FEATURE | DEPENDENCY_UPDATE | TASK_UNKNOWN.

Definition TaskType_value (t : TaskType) : string :=
  match t with
  | LINT_FIX => "lint_fix"
  | BUG_FIX => "bug_fix"
  | SIMPLE_EDIT => "simple_edit"
  | TEST_WRITE => "test_write"
  | DOCUMENTATION => "documentation"
  | REFACTOR => "refactor"
  | FEATURE => "feature"
  | DEPENDENCY_UPDATE => "dependency_update"
  | TASK_UNKNOWN => "unknown"
  end.

Inductive LaneName := CLAUDE_CLI | CODEX_CLI | LANE_AIDER_LOCAL.

Definition LaneName_value (l : LaneName) : string :=
  match l with
  | CLAUDE_CLI => "claude_cli"
  | CODEX_CLI => "codex_cli"
  | LANE_AIDER_LOCAL => "aider_local"
  end.

Inductive BackendName :=
  | DIRECT_LOCAL | BACKEND_AIDER_LOCAL | TEAM_EXECUTOR | DAG_EXECUTOR
  | CRITIQUE_EXECUTOR | OPENCLAW | DEMO_STUB.

Definition BackendName_value (b : BackendName) : string :=
  match b with
  | DIRECT_LOCAL => "direct_local"
  | BACKEND_AIDER_LOCAL => "aider_local"
  | TEAM_EXECUTOR => "team_executor"
  | DAG_EXECUTOR => "dag_executor"
  | CRITIQUE_EXECUTOR => "critique_executor"
  | OPENCLAW => "openclaw"
  | DEMO_STUB => "demo_stub"
  end.

Inductive ExecutionStatus :=
  | PENDING | RUNNING | SUCCEEDED | FAILED | SKIPPED | TIMED_OUT | CANCELLED.

Definition ExecutionStatus_value (s : ExecutionStatus) : string :=
  match s with
  | PENDING => "pending"
  | RUNNING => "running"
  | SUCCEEDED => "succeeded"
  | FAILED => "failed"
  | SKIPPED => "skipped"
  | TIMED_OUT => "timed_out"
  | CANCELLED => "cancelled"
  end.

Inductive ValidationStatus := V_PASSED | V_FAILED | V_SKIPPED | V_ERROR.

Inductive RiskLevel := LOW | MEDIUM | HIGH.

Definition RiskLevel_value (r : RiskLevel) : string :=
  match r with LOW => "low" | MEDIUM => "medium" | HIGH => "high" end.

Inductive FailureReasonCategory :=
  | VALIDATION_FAILED | BACKEND_ERROR | UNSUPPORTED_REQUEST | FC_TIMEOUT | NO_CHANGES
  | CONFLICT | POLICY_BLOCKED | BUDGET_EXHAUSTED | ROUTING_ERROR | SCOPE_TOO_WIDE
  | FC_UNKNOWN.

Definition FailureReasonCategory_value (c : FailureReasonCategory) : string :=
  match c with
  | VALIDATION_FAILED => "validation_failed"
  | BACKEND_ERROR => "backend_error"
  | UNSUPPORTED_REQUEST => "unsupported_request"
  | FC_TIMEOUT => "timeout"
  | NO_CHANGES => "no_changes"
  | CONFLICT => "conflict"
  | POLICY_BLOCKED => "policy_blocked"
  | BUDGET_EXHAUSTED => "budget_exhausted"
  | ROUTING_ERROR => "routing_error"
  | SCOPE_TOO_WIDE => "scope_too_wide"
  | FC_UNKNOWN => "unknown"
  end.

#[export] Instance TaskType_eq_dec : EqDecision TaskType. Proof. solve_decision. Defined.
#[export] Instance LaneName_eq_dec : EqDecision LaneName. Proof. solve_decision. Defined.
#[export] Instance BackendName_eq_dec : EqDecision BackendName. Proof. solve_decision. Defined.
#[export] Instance ExecutionStatus_eq_dec : EqDecision ExecutionStatus.
Proof. solve_decision. Defined.
#[export] Instance RiskLevel_eq_dec : EqDecision RiskLevel. Proof. solve_decision. Defined.
#[export] Instance ValidationStatus_eq_dec : EqDecision ValidationStatus.
Proof. solve_decision. Defined.
#[export] Instance FailureReasonCategory_eq_dec : EqDecision FailureReasonCategory.
Proof. solve_decision. Defined.

(** ** contracts/common.py *)

Record TaskTarget := {
  target_repo_key : string;
  target_clone_url : string;
  target_base_branch : string;
  target_allowed_paths : list string }.

Record ExecutionConstraints := {
  con_max_changed_files : option Z;
  con_timeout_seconds : option Z;
  con_allowed_paths : list string;
  con_require_clean_validation : option bool;
  con_skip_baseline_validation : bool }.

Record ValidationProfile := {
  vp_profile_name : string;
  vp_commands : list string;
  vp_timeout_seconds : Z;
  vp_fail_fast : bool }.

Record BranchPolicy := {
  bp_branch_prefix : string;
  bp_push_on_success : bool;
  bp_open_pr : bool;
  bp_allowed_base_branches : list string }.

Record ChangedFileRef := {
  cf_path : string;
  cf_change_type : string;
  cf_lines_added : option Z;
  cf_lines_removed : option Z }.

Record ValidationSummary := {
  vs_status : ValidationStatus;
  vs_commands_run : Z;
  vs_commands_passed : Z;
  vs_commands_failed : Z;
  vs_failure_excerpt : option string;
  vs_duration_ms : option Z }.

Definition skipped_validation : ValidationSummary :=
  {| vs_status := V_SKIPPED; vs_commands_run := 0; vs_commands_passed := 0;
     vs_commands_failed := 0; vs_failure_excerpt := None; vs_duration_ms := None |}.

(** ** contracts/proposal.py and contracts/routing.py *)

Record OcPlanningProposal := {
  prop_proposal_id : string;
  prop_task_id : string;
  prop_project_id : string;
  prop_task_type : TaskType;
  prop_goal_text : string;
  prop_constraints_text : option string;
  prop_target : TaskTarget;
  prop_risk_level : RiskLevel;
  prop_constraints : ExecutionConstraints;
  prop_validation_profile : ValidationProfile;
  prop_branch_policy : BranchPolicy;
  prop_labels : list string }.

Record OcRoutingDecision := {
  dec_decision_id : string;
  dec_proposal_id : string;
  dec_selected_lane : LaneName;
  dec_selected_backend : BackendName;
  dec_policy_rule_matched : option string;
  dec_rationale : option string;
  dec_alternatives_considered : list LaneName }.

(** ** contracts/execution.py *)

(** The canonical CxRP binding, as the fields the code reads. *)
Record RuntimeBindingSummary := {
  rb_kind : string;
  rb_selection_mode : string;
  rb_model : option string;
  rb_provider : option string;
  rb_endpoint : option string;
  rb_config_ref : option string }.

Record BackendProvenanceMirror := {
  prov_source : string;
  prov_repo : option string;
  prov_ref : option string;
  prov_patches : list string }.

Record BoundExecutionTargetMirror := {
  bt_lane : string;
  bt_backend : string;
  bt_executor : option string;
  bt_runtime_binding : option RuntimeBindingSummary;
  bt_provenance : option BackendProvenanceMirror }.

(** lifecycle/models.py: the stages and the metadata a request may carry. *)
Inductive TaskLifecycleStage := PLAN | EXECUTE | VERIFY.
Inductive LifecycleStagePolicy := STOP_ON_FIRST_FAILURE | RUN_ALL_BEST_EFFORT.
Inductive StageStatus := ST_PENDING | ST_SUCCEEDED | ST_FAILED | ST_SKIPPED.

#[export] Instance TaskLifecycleStage_eq_dec : EqDecision TaskLifecycleStage.
Proof. solve_decision. Defined.
#[export] Instance LifecycleStagePolicy_eq_dec : EqDecision LifecycleStagePolicy.
Proof. solve_decision. Defined.
#[export] Instance StageStatus_eq_dec : EqDecision StageStatus.
Proof. solve_decision. Defined.

Record LifecycleMetadata := {
  lm_requested_stages : list TaskLifecycleStage;
  lm_stage_policy : LifecycleStagePolicy }.

Record StageReport := {
  sr_stage : TaskLifecycleStage;
  sr_status : StageStatus;
  sr_error : option string }.

Record LifecycleOutcome := {
  lo_completed_stages : list TaskLifecycleStage;
  lo_failed_stages : list TaskLifecycleStage;
  lo_skipped_stages : list TaskLifecycleStage;
  lo_reports : list StageReport }.

Record OcExecutionRequest := {
  req_run_id : string;
  req_proposal_id : string;
  req_decision_id : string;
  req_goal_text : string;
  req_constraints_text : option string;
  req_repo_key : string;
  req_clone_url : string;
  req_base_branch : string;
  req_task_branch : string;
  req_workspace_path : string;
  req_goal_file_path : option string;
  req_allowed_paths : list string;
  req_max_changed_files : option Z;
  req_timeout_seconds : option Z;
  req_require_clean_validation : option bool;
  req_validation_commands : list string;
  req_idempotent : bool;
  req_runtime_binding : option RuntimeBindingSummary;
  req_bound_target : option BoundExecutionTargetMirror;
  req_lifecycle : option LifecycleMetadata }.

(** The text of an action's reason.  One template prints two floats and one the
    [repr] of an exception; they are kept as values, since that rendering is
    not modelled. *)
Inductive ReasonText :=
  | RText (s : string)
  | RRetryAfterExceeds (retry_after max_delay_seconds : Q)
  | REngineRaised (e : exn).

Record RecoveryActionSummary := {
  ras_attempt : Z;
  ras_failure_kind : string;
  ras_decision : string;
  ras_reason : ReasonText;
  ras_handler_name : option string;
  ras_modified_fields : list string;
  ras_delay_seconds : option Q;
  ras_executor_exit_code : option Z;
  ras_executor_signal : option string;
  ras_retry_strategy_used : option string;
  ras_retry_strategy_changed : option bool;
  ras_remediation_attempt_number : option Z;
  ras_remediation_lineage_id : option string;
  ras_prior_failure_signature : option string }.

Record RecoveryMetadataSummary := {
  rms_attempts : Z;
  rms_actions : list RecoveryActionSummary;
  rms_final_decision : string;
  rms_retry_refused_reason : option string }.

Record OcExecutionResult := {
  res_run_id : string;
  res_proposal_id : string;
  res_decision_id : string;
  res_status : ExecutionStatus;
  res_success : bool;
  res_changed_files : list ChangedFileRef;
  res_validation : ValidationSummary;
  res_branch_pushed : bool;
  res_branch_name : option string;
  res_pull_request_url : option string;
  res_failure_category : option FailureReasonCategory;
  res_failure_reason : option string;
  res_recovery : option RecoveryMetadataSummary;
  res_lifecycle_outcome : option LifecycleOutcome }.

Abbreviation ExecutionRequest := OcExecutionRequest.
Abbreviation ExecutionResult := OcExecutionResult.

(** [result.model_copy(update={...})] for the two fields the boundary updates. *)
Definition with_recovery (r : ExecutionResult) (m : RecoveryMetadataSummary) : ExecutionResult :=
  {| res_run_id := res_run_id r; res_proposal_id := res_proposal_id r;
     res_decision_id := res_decision_id r; res_status := res_status r;
     res_success := res_success r; res_changed_files := res_changed_files r;
     res_validation := res_validation r; res_branch_pushed := res_branch_pushed r;
     res_branch_name := res_branch_name r; res_pull_request_url := res_pull_request_url r;
     res_failure_category := res_failure_category r; res_failure_reason := res_failure_reason r;
     res_recovery := Some m; res_lifecycle_outcome := res_lifecycle_outcome r |}.

Definition with_lifecycle_outcome (r : ExecutionResult) (o : LifecycleOutcome) : ExecutionResult :=
  {| res_run_id := res_run_id r; res_proposal_id := res_proposal_id r;
     res_decision_id := res_decision_id r; res_status := res_status r;
     res_success := res_success r; res_changed_files := res_changed_files r;
     res_validation := res_validation r; res_branch_pushed := res_branch_pushed r;
     res_branch_name := res_branch_name r; res_pull_request_url := res_pull_request_url r;
     res_failure_category := res_failure_category r; res_failure_reason := res_failure_reason r;
     res_recovery := res_recovery r; res_lifecycle_outcome := Some o |}.

(** A failed or skipped result with no changes, as the boundary builds them. *)
Definition unsuccessful_result (run_id proposal_id decision_id : string)
    (status : ExecutionStatus) (cat : FailureReasonCategory) (reason : string) : ExecutionResult :=
  {| res_run_id := run_id; res_proposal_id := proposal_id; res_decision_id := decision_id;
     res_status := status; res_success := false; res_changed_files := [];
     res_validation := skipped_validation; res_branch_pushed := false; res_branch_name := None;
     res_pull_request_url := None; res_failure_category := Some cat;
     res_failure_reason := Some reason; res_recovery := None; res_lifecycle_outcome := None |}.

(** Enum values are distinct, so a comparison of values is one of members. *)
Lemma LaneName_value_inj : Inj eq eq LaneName_value.
Proof. by intros [] []. Qed.
Lemma TaskType_value_inj : Inj eq eq TaskType_value.
Proof. by intros [] []. Qed.
Lemma BackendName_value_inj : Inj eq eq BackendName_value.
Proof. by intros [] []. Qed.
Lemma FailureReasonCategory_value_inj : Inj eq eq FailureReasonCategory_value.
Proof. by intros [] []. Qed.
