(* ===== verification/PolicyModels.v ===== *)
(** * Guardrail configuration and the default policy

    The dataclasses of policy/models.py (guardrails for paths, branches, tools,
    validation and review), the decision types the engine produces, the lookup
    of a repository's policy, and the bundled defaults of policy/defaults.py. *)
From S2P Require Import Prelude PyStr PyData Contracts.

Inductive PolicyStatus := ALLOW | ALLOW_WITH_WARNINGS | REQUIRE_REVIEW | BLOCK.

#[export] Instance PolicyStatus_eq_dec : EqDecision PolicyStatus.
Proof. solve_decision. Defined.

(** ** Configuration records (field values are free-form strings, as in the source) *)

Record PathScopeRule := {
  psr_path_pattern : string;
  psr_access_mode : string;
  psr_notes : string;
  psr_applies_to_task_types : list string }.

Record PathPolicy := {
  pp_rules : list PathScopeRule;
  pp_default_mode : string }.

Record BranchGuardrail := {
  bg_allow_direct_commit : bool;
  bg_require_branch : bool;
  bg_branch_name_pattern : string;
  bg_require_pr : bool;
  bg_allowed_base_branches : list string;
  bg_notes : string }.

Record ToolGuardrail := {
  tg_network_mode : string;
  tg_blocked_tool_classes : list string;
  tg_allow_destructive_actions : bool;
  tg_notes : string }.

Record ValidationRequirement := {
  vr_applies_to_risk_levels : list string;
  vr_applies_to_task_types : list string;
  vr_required_profile : string;
  vr_must_pass : bool;
  vr_block_if_unavailable : bool }.

Record ReviewRequirement := {
  rr_autonomous_allowed : bool;
  rr_require_review_for_risk_levels : list string;
  rr_require_review_for_task_types : list string;
  rr_blocked_without_human : bool;
  rr_notes : string }.

Record RepoPolicy := {
  rp_repo_key : string;
  rp_enabled : bool;
  rp_risk_profile : string;
  rp_path_policy : PathPolicy;
  rp_branch_guardrail : BranchGuardrail;
  rp_tool_guardrail : ToolGuardrail;
  rp_validation_requirements : list ValidationRequirement;
  rp_review_requirement : ReviewRequirement;
  rp_allowed_task_types : list string;
  rp_blocked_task_types : list string }.

Record PolicyConfig := {
  pc_repo_policies : list RepoPolicy;
  pc_default_policy : option RepoPolicy }.

(** ** Decision records *)

Record PolicyViolation := {
  pv_rule_id : string;
  pv_category : string;
  pv_message : string;
  pv_blocking : bool;
  pv_related_path : option string;
  pv_related_repo : option string }.

Record PolicyWarning := {
  pw_rule_id : string;
  pw_category : string;
  pw_message : string;
  pw_related_path : option string }.

(** [decision_id] (a fresh uuid) and [evaluated_at] (the clock) identify a
    decision and are read by no other code; they are left out. *)
Record PolicyDecision := {
  pd_status : PolicyStatus;
  pd_violations : list PolicyViolation;
  pd_warnings : list PolicyWarning;
  pd_effective_validation_profile : string;
  pd_effective_review_requirement : string;
  pd_effective_scope : list string;
  pd_notes : string }.

Definition is_allowed (d : PolicyDecision) : bool :=
  match pd_status d with ALLOW | ALLOW_WITH_WARNINGS => true | _ => false end.
Definition is_blocked (d : PolicyDecision) : bool :=
  match pd_status d with BLOCK => true | _ => false end.
Definition requires_review (d : PolicyDecision) : bool :=
  match pd_status d with REQUIRE_REVIEW => true | _ => false end.

(** ** policy/defaults.py *)

Definition review_path (pattern notes : string) : PathScopeRule :=
  {| psr_path_pattern := pattern; psr_access_mode := "review_required"; psr_notes := notes;
     psr_applies_to_task_types := [] |}.

Definition block_path (pattern notes : string) : PathScopeRule :=
  {| psr_path_pattern := pattern; psr_access_mode := "block"; psr_notes := notes;
     psr_applies_to_task_types := [] |}.

Definition SENSITIVE_PATHS : list PathScopeRule := [
  review_path "*.env" "Environment files may contain credentials or infra config";
  review_path ".env*" "Environment files may contain credentials or infra config";
  review_path "config/secrets*" "Secrets configuration";
  review_path "**/secrets/**" "Secrets directory";
  review_path "docker-compose.yml" "Infrastructure definition";
  review_path "docker-compose*.yml" "Infrastructure definition";
  review_path "**/docker-compose*.yml" "Infrastructure definition (nested)";
  review_path ".github/workflows/**" "CI/CD pipeline definitions";
  review_path ".forgejo/workflows/**" "CI/CD pipeline definitions (Forgejo Actions)";
  review_path "Dockerfile*" "Container build definitions";
  review_path "**/migrations/**" "Database migrations — irreversible changes" ].

Definition BLOCKED_PATHS : list PathScopeRule := [
  block_path "**/.ssh/**" "SSH keys must never be written by automation";
  block_path "**/.gnupg/**" "GPG keys must never be written by automation" ].

Definition sensitive_path_patterns : list string :=
  map psr_path_pattern (SENSITIVE_PATHS ++ BLOCKED_PATHS).

Definition DEFAULT_REPO_POLICY : RepoPolicy :=
  {| rp_repo_key := "*";
     rp_enabled := true;
     rp_risk_profile := "standard";
     rp_path_policy := {| pp_rules := BLOCKED_PATHS ++ SENSITIVE_PATHS; pp_default_mode := "allow" |};
     rp_branch_guardrail :=
       {| bg_allow_direct_commit := false; bg_require_branch := true;
          bg_branch_name_pattern := "auto/*"; bg_require_pr := false;
          bg_allowed_base_branches := []; bg_notes := "" |};
     rp_tool_guardrail :=
       {| tg_network_mode := "allowed"; tg_blocked_tool_classes := [];
          tg_allow_destructive_actions := false; tg_notes := "" |};
     rp_validation_requirements := [
       {| vr_applies_to_risk_levels := ["high"]; vr_applies_to_task_types := [];
          vr_required_profile := "strict"; vr_must_pass := true; vr_block_if_unavailable := true |};
       {| vr_applies_to_risk_levels := ["medium"]; vr_applies_to_task_types := [];
          vr_required_profile := "standard"; vr_must_pass := true; vr_block_if_unavailable := false |};
       {| vr_applies_to_risk_levels := ["low"]; vr_applies_to_task_types := [];
          vr_required_profile := "standard"; vr_must_pass := false; vr_block_if_unavailable := false |} ];
     rp_review_requirement :=
       {| rr_autonomous_allowed := true; rr_require_review_for_risk_levels := ["high"];
          rr_require_review_for_task_types := ["feature"; "refactor"];
          rr_blocked_without_human := false; rr_notes := "" |};
     rp_allowed_task_types := [];
     rp_blocked_task_types := [] |}.

Definition DEFAULT_POLICY_CONFIG : PolicyConfig :=
  {| pc_repo_policies := [DEFAULT_REPO_POLICY]; pc_default_policy := Some DEFAULT_REPO_POLICY |}.

(** ** [PolicyConfig.get_repo_policy] *)
Definition get_repo_policy (c : PolicyConfig) (repo_key : string) : RepoPolicy :=
  match find_first (fun p => String.eqb (rp_repo_key p) repo_key) (pc_repo_policies c) with
  | Some p => p
  | None =>
      match find_first (fun p => String.eqb (rp_repo_key p) "*") (pc_repo_policies c) with
      | Some p => p
      | None => match pc_default_policy c with
                | Some p => p
                | None => DEFAULT_REPO_POLICY
                end
      end
  end.

(** The policy chosen for a key is a configured policy with that key, or else
    one configured for every key, or else a default. *)
Lemma get_repo_policy_origin c k :
  let p := get_repo_policy c k in
  (p ∈ pc_repo_policies c /\ (rp_repo_key p = k \/ rp_repo_key p = "*"))
  \/ pc_default_policy c = Some p \/ p = DEFAULT_REPO_POLICY.
Proof.
  unfold get_repo_policy.
  destruct (find_first _ _) as [p|] eqn:E1; [|destruct (find_first (fun q => String.eqb _ "*") _) as [p|] eqn:E2].
  - apply find_first_split in E1 as (l1 & l2 & -> & H & _). apply String.eqb_eq in H.
    left. split; [set_solver|by left].
  - apply find_first_split in E2 as (l1 & l2 & -> & H & _). apply String.eqb_eq in H.
    left. split; [set_solver|by right].
  - destruct (pc_default_policy c); auto.
Qed.
