(* ===== verification/PolicyEngine.v ===== *)
(** * The policy engine

    policy/engine.py: each [_check_*] function as the findings it appends, in
    the order it appends them; [evaluate] runs them in the source's order and
    [_build_decision] aggregates them. *)
From S2P Require Import Prelude PyStr PyData Contracts PolicyModels.

Definition LOCAL_LANES : list string := [LaneName_value LANE_AIDER_LOCAL].
Definition LOCAL_ONLY_LABELS : list string := ["local_only"; "no_remote"].
Definition TRUSTED_SOURCE_LABELS : list string :=
  ["source: autonomy"; "source: spec-campaign"; "source: board_worker"].

(** What one check appends to the violations and warnings. *)
Definition findings : Type := list PolicyViolation * list PolicyWarning.
Definition no_findings : findings := ([], []).
Definition app_findings (a b : findings) : findings := (a.1 ++ b.1, a.2 ++ b.2).

Definition violation (rule_id category message : string) (blocking : bool) : PolicyViolation :=
  {| pv_rule_id := rule_id; pv_category := category; pv_message := message;
     pv_blocking := blocking; pv_related_path := None; pv_related_repo := None |}.
Definition warning (rule_id category message : string) : PolicyWarning :=
  {| pw_rule_id := rule_id; pw_category := category; pw_message := message;
     pw_related_path := None |}.
Definition with_path (v : PolicyViolation) (p : string) : PolicyViolation :=
  {| pv_rule_id := pv_rule_id v; pv_category := pv_category v; pv_message := pv_message v;
     pv_blocking := pv_blocking v; pv_related_path := Some p; pv_related_repo := pv_related_repo v |}.
Definition with_repo (v : PolicyViolation) (r : string) : PolicyViolation :=
  {| pv_rule_id := pv_rule_id v; pv_category := pv_category v; pv_message := pv_message v;
     pv_blocking := pv_blocking v; pv_related_path := pv_related_path v; pv_related_repo := Some r |}.

Definition check_repo_enabled (policy : RepoPolicy) : findings :=
  if negb (rp_enabled policy) then
    ([violation "repo.disabled" "repo"
        ("Repo " +:+ repr (rp_repo_key policy) +:+ " is disabled in policy configuration") true], [])
  else no_findings.

Definition check_task_type (proposal : OcPlanningProposal) (policy : RepoPolicy) : findings :=
  let task_type_value := TaskType_value (prop_task_type proposal) in
  let repo := target_repo_key (prop_target proposal) in
  app_findings
    (if list_truthy (rp_blocked_task_types policy) && str_in task_type_value (rp_blocked_task_types policy)
     then ([with_repo (violation "task_type.blocked" "repo"
              ("Task type " +:+ repr task_type_value +:+ " is blocked for repo "
               +:+ repr (rp_repo_key policy)) true) repo], [])
     else no_findings)
    (if list_truthy (rp_allowed_task_types policy)
        && negb (str_in task_type_value (rp_allowed_task_types policy))
     then ([with_repo (violation "task_type.not_in_allowlist" "repo"
              ("Task type " +:+ repr task_type_value +:+ " is not in the allowed task type list for repo "
               +:+ repr (rp_repo_key policy)) true) repo], [])
     else no_findings).

Definition check_routing_constraints (proposal : OcPlanningProposal) (decision : OcRoutingDecision)
    : findings :=
  let hits := List.filter (fun l => str_in l LOCAL_ONLY_LABELS) (prop_labels proposal) in
  if negb (list_truthy hits) then no_findings
  else
    let lane_value := LaneName_value (dec_selected_lane decision) in
    if negb (str_in lane_value LOCAL_LANES) then
      ([violation "routing.local_only_violated" "routing"
          ("Proposal labels " +:+ repr_list (sorted_set hits)
           +:+ " require local execution, but routing selected remote lane "
           +:+ repr lane_value) true], [])
    else no_findings.

(** The first rule that applies to the task type and matches the path. *)
Definition match_path_rule (path : string) (pp : PathPolicy) (task_type : string)
    : option PathScopeRule :=
  find_first (fun rule =>
    negb (list_truthy (psr_applies_to_task_types rule)
          && negb (str_in task_type (psr_applies_to_task_types rule)))
    && fnmatch path (psr_path_pattern rule)) (pp_rules pp).

Definition candidate_paths (proposal : OcPlanningProposal) (request : option ExecutionRequest)
    : list string :=
  match request with
  | Some r => if list_truthy (req_allowed_paths r) then req_allowed_paths r
              else target_allowed_paths (prop_target proposal)
  | None => target_allowed_paths (prop_target proposal)
  end.

(** The findings of one candidate path. *)
Definition check_path (policy : RepoPolicy) (task_type path : string) : findings :=
  let pp := rp_path_policy policy in
  match match_path_rule path pp task_type with
  | None =>
      if String.eqb (pp_default_mode pp) "block" then
        ([with_path (violation "path.default_blocked" "path"
            ("Path " +:+ repr path +:+ " is not covered by any allow rule and default mode is 'block'")
            true) path], [])
      else if String.eqb (pp_default_mode pp) "review_required" then
        ([with_path (violation "path.default_review_required" "path"
            ("Path " +:+ repr path +:+ " requires review (default path mode)") false) path], [])
      else no_findings
  | Some rule =>
      if String.eqb (psr_access_mode rule) "block" then
        ([with_path (violation "path.blocked" "path"
            ("Path " +:+ repr path +:+ " is blocked by policy rule (pattern: "
             +:+ repr (psr_path_pattern rule) +:+ ")") true) path], [])
      else if str_in (psr_access_mode rule) ["read_only"; "review_required"] then
        ([with_path (violation "path.review_required" "path"
            ("Path " +:+ repr path +:+ " requires human review (pattern: "
             +:+ repr (psr_path_pattern rule) +:+ "; mode: " +:+ repr (psr_access_mode rule)
             +:+ ")") false) path], [])
      else no_findings
  end.

Definition check_path_restrictions (proposal : OcPlanningProposal) (policy : RepoPolicy)
    (request : option ExecutionRequest) : findings :=
  let cands := candidate_paths proposal request in
  let mode := pp_default_mode (rp_path_policy policy) in
  if negb (list_truthy cands) then
    if String.eqb mode "block" then
      ([violation "path.unrestricted_writes_blocked" "path"
          "No path restriction declared on this task, but default path mode is 'block'. Explicit allowed_paths must be set."
          true], [])
    else if String.eqb mode "review_required" then
      ([], [warning "path.unrestricted_writes_review" "path"
          "No path restriction declared on this task, but default path mode is 'review_required'. This task needs human review."])
    else no_findings
  else
    fold_left (fun acc path =>
        app_findings acc (check_path policy (TaskType_value (prop_task_type proposal)) path))
      cands no_findings.

Definition check_branch_guardrail (proposal : OcPlanningProposal) (policy : RepoPolicy) : findings :=
  let bg := rp_branch_guardrail policy in
  let branch := prop_branch_policy proposal in
  let base := target_base_branch (prop_target proposal) in
  app_findings
    (app_findings
      (if negb (bg_allow_direct_commit bg) && negb (str_truthy (bp_branch_prefix branch))
       then ([], [warning "branch.no_prefix_set" "branch"
              "branch_prefix is empty; ensure a task branch is used rather than direct commit"])
       else no_findings)
      (if list_truthy (bg_allowed_base_branches bg)
          && negb (str_in base (bg_allowed_base_branches bg))
       then ([violation "branch.base_branch_not_allowed" "branch"
              ("Base branch " +:+ repr base +:+ " is not in the allowed base branches list: "
               +:+ repr_list (bg_allowed_base_branches bg)) true], [])
       else no_findings))
    (if bg_require_pr bg && negb (bp_open_pr branch)
     then ([violation "branch.pr_required" "branch"
            "Policy requires a PR, but proposal branch_policy.open_pr is False" false], [])
     else no_findings).

Definition DESTRUCTIVE_INDICATORS : list string :=
  ["drop_table"; "rm_rf"; "force_push"; "destructive"].

Definition check_tool_guardrail (proposal : OcPlanningProposal) (decision : OcRoutingDecision)
    (policy : RepoPolicy) : findings :=
  let tg := rp_tool_guardrail policy in
  let lane_value := LaneName_value (dec_selected_lane decision) in
  app_findings
    (if String.eqb (tg_network_mode tg) "local_only" then
       if negb (str_in lane_value LOCAL_LANES) then
         ([violation "tool.network_local_only" "tool"
            ("Tool policy requires local-only execution, but routing selected remote lane "
             +:+ repr lane_value) true], [])
       else no_findings
     else if String.eqb (tg_network_mode tg) "blocked" then
       ([violation "tool.network_blocked" "tool"
          "All network execution is blocked by tool policy for this repo" true], [])
     else no_findings)
    (if negb (tg_allow_destructive_actions tg)
        && existsb (fun l => str_in (lower l) DESTRUCTIVE_INDICATORS) (prop_labels proposal)
     then ([violation "tool.destructive_blocked" "tool"
            "Destructive actions are blocked by policy, but proposal labels indicate a potentially destructive operation"
            true], [])
     else no_findings).

Definition validation_req_applies (vr : ValidationRequirement) (risk_level task_type : string) : bool :=
  (negb (list_truthy (vr_applies_to_risk_levels vr)) || str_in risk_level (vr_applies_to_risk_levels vr))
  && (negb (list_truthy (vr_applies_to_task_types vr)) || str_in task_type (vr_applies_to_task_types vr)).

(** The first requirement that applies to a proposal. *)
Definition first_requirement (proposal : OcPlanningProposal) (policy : RepoPolicy)
    : option ValidationRequirement :=
  find_first (fun vr => validation_req_applies vr (RiskLevel_value (prop_risk_level proposal))
                          (TaskType_value (prop_task_type proposal)))
    (rp_validation_requirements policy).

Definition validation_available (proposal : OcPlanningProposal) (request : option ExecutionRequest) : bool :=
  (match request with Some r => list_truthy (req_validation_commands r) | None => false end)
  || list_truthy (vp_commands (prop_validation_profile proposal)).

Definition check_validation_requirements (proposal : OcPlanningProposal) (policy : RepoPolicy)
    (request : option ExecutionRequest) : findings :=
  let risk_value := RiskLevel_value (prop_risk_level proposal) in
  match first_requirement proposal policy with
  | None => no_findings
  | Some vr =>
      if negb (validation_available proposal request) && vr_block_if_unavailable vr then
        ([violation "validation.required_unavailable" "validation"
            ("Validation profile " +:+ repr (vr_required_profile vr) +:+ " is required for risk="
             +:+ repr risk_value +:+ " but no validation commands are configured") true], [])
      else if negb (validation_available proposal request) then
        ([], [warning "validation.recommended_unavailable" "validation"
            ("Validation profile " +:+ repr (vr_required_profile vr) +:+ " is recommended for risk="
             +:+ repr risk_value +:+ " but no validation commands are configured")])
      else no_findings
  end.

(** Does a proposal need human review under a review requirement? *)
Definition needs_review (proposal : OcPlanningProposal) (rr : ReviewRequirement) : bool :=
  let labels := prop_labels proposal in
  let trusted := existsb (fun l => str_in l TRUSTED_SOURCE_LABELS) labels in
  negb (rr_autonomous_allowed rr)
  || str_in "review_required" labels
  || (negb trusted
      && (str_in (RiskLevel_value (prop_risk_level proposal)) (rr_require_review_for_risk_levels rr)
          || str_in (TaskType_value (prop_task_type proposal)) (rr_require_review_for_task_types rr))).

Definition check_review_requirements (proposal : OcPlanningProposal) (policy : RepoPolicy) : findings :=
  let rr := rp_review_requirement policy in
  if rr_blocked_without_human rr then
    ([violation "review.blocked_without_human" "review"
        "Policy requires explicit human approval for this repo; autonomous execution is blocked"
        true], [])
  else if needs_review proposal rr then
    ([violation "review.required" "review"
        ("Human review required: risk=" +:+ repr (RiskLevel_value (prop_risk_level proposal))
         +:+ ", task_type=" +:+ repr (TaskType_value (prop_task_type proposal))) false], [])
  else no_findings.

(** ** The decision builder *)

Definition determine_status (violations : list PolicyViolation) (warnings : list PolicyWarning)
    : PolicyStatus :=
  if existsb pv_blocking violations then BLOCK
  else if existsb (fun v => negb (pv_blocking v)) violations then REQUIRE_REVIEW
  else if list_truthy warnings then ALLOW_WITH_WARNINGS
  else ALLOW.

Definition effective_validation_profile (proposal : OcPlanningProposal) (policy : RepoPolicy) : string :=
  match first_requirement proposal policy with
  | Some vr => vr_required_profile vr
  | None => "standard"
  end.

Definition effective_review_requirement (policy : RepoPolicy) (violations : list PolicyViolation)
    : string :=
  if existsb (fun v => String.eqb (pv_category v) "review" && negb (pv_blocking v)) violations
  then "required"
  else if negb (rr_autonomous_allowed (rp_review_requirement policy)) then "required"
  else "autonomous".

Definition effective_scope (proposal : OcPlanningProposal) (request : option ExecutionRequest)
    : list string :=
  match request with
  | Some r => if list_truthy (req_allowed_paths r) then req_allowed_paths r
              else target_allowed_paths (prop_target proposal)
  | None => target_allowed_paths (prop_target proposal)
  end.

Definition build_notes (violations : list PolicyViolation) (warnings : list PolicyWarning) : string :=
  join "; "
    ((if list_truthy violations then ["violations: " +:+ join ", " (map pv_rule_id violations)] else [])
     ++ (if list_truthy warnings then ["warnings: " +:+ join ", " (map pw_rule_id warnings)] else [])).

Definition build_decision (f : findings) (policy : RepoPolicy) (proposal : OcPlanningProposal)
    (request : option ExecutionRequest) : PolicyDecision :=
  {| pd_status := determine_status f.1 f.2;
     pd_violations := f.1;
     pd_warnings := f.2;
     pd_effective_validation_profile := effective_validation_profile proposal policy;
     pd_effective_review_requirement := effective_review_requirement policy f.1;
     pd_effective_scope := effective_scope proposal request;
     pd_notes := build_notes f.1 f.2 |}.

(** ** [PolicyEngine.evaluate] *)
Definition evaluate (config : PolicyConfig) (proposal : OcPlanningProposal)
    (decision : OcRoutingDecision) (request : option ExecutionRequest) : PolicyDecision :=
  let repo_policy := get_repo_policy config (target_repo_key (prop_target proposal)) in
  let f1 := check_repo_enabled repo_policy in
  if existsb pv_blocking f1.1 then build_decision f1 repo_policy proposal request
  else
    let f2 := app_findings f1 (check_task_type proposal repo_policy) in
    let f3 := app_findings f2 (check_routing_constraints proposal decision) in
    let f4 := app_findings f3 (check_path_restrictions proposal repo_policy request) in
    let f5 := app_findings f4 (check_branch_guardrail proposal repo_policy) in
    let f6 := app_findings f5 (check_tool_guardrail proposal decision repo_policy) in
    let f7 := app_findings f6 (check_validation_requirements proposal repo_policy request) in
    let f8 := app_findings f7 (check_review_requirements proposal repo_policy) in
    build_decision f8 repo_policy proposal request.
