(* ===== verification/PolicyValidate.v ===== *)
(** * Validation of a guardrail configuration

    policy/validate.py: [validate_config] as the list of its error texts, the
    well-formedness it decides, and the fail-closed constructor of the engine
    ([PolicyEngine.from_config], [from_defaults]). *)
From S2P Require Import Prelude PyStr PyData Contracts PolicyModels PolicyEngine.

Definition VALID_ACCESS_MODES : list string := ["allow"; "read_only"; "block"; "review_required"].
Definition VALID_NETWORK_MODES : list string := ["allowed"; "local_only"; "blocked"].
Definition VALID_DEFAULT_MODES : list string := ["allow"; "block"; "review_required"].
Definition VALID_RISK_LEVELS : list string := ["low"; "medium"; "high"].
Definition VALID_RISK_PROFILES : list string := ["standard"; "elevated"; "critical"].

(** [[e] if cond else []], the shape of every check below. *)
Definition err_if (cond : bool) (e : string) : list string := if cond then [e] else [].

Definition must_be (valid : list string) : string :=
  "; must be one of " +:+ repr_list (sorted_set valid).

(** [enumerate] in a comprehension: one list of errors per indexed element. *)
Fixpoint concat_imap {A} (f : nat -> A -> list string) (i : nat) (l : list A) : list string :=
  match l with
  | [] => []
  | x :: l' => f i x ++ concat_imap f (S i) l'
  end.

Definition idx (i : nat) : string := "[" +:+ str_of_Z (Z.of_nat i) +:+ "]".

Definition validate_path_policy (pp : PathPolicy) (ctx : string) : list string :=
  err_if (negb (str_in (pp_default_mode pp) VALID_DEFAULT_MODES))
    (ctx +:+ ".path_policy: invalid default_mode " +:+ repr (pp_default_mode pp)
     +:+ must_be VALID_DEFAULT_MODES)
  ++ concat_imap (fun j rule =>
       let rule_ctx := ctx +:+ ".path_policy.rules" +:+ idx j +:+ " (pattern="
                       +:+ repr (psr_path_pattern rule) +:+ ")" in
       err_if (negb (str_truthy (psr_path_pattern rule)))
         (rule_ctx +:+ ": path_pattern must not be empty")
       ++ err_if (negb (str_in (psr_access_mode rule) VALID_ACCESS_MODES))
         (rule_ctx +:+ ": invalid access_mode " +:+ repr (psr_access_mode rule)
          +:+ must_be VALID_ACCESS_MODES))
     0 (pp_rules pp).

Definition validate_tool_guardrail (tool : ToolGuardrail) (ctx : string) : list string :=
  err_if (negb (str_in (tg_network_mode tool) VALID_NETWORK_MODES))
    (ctx +:+ ".tool_guardrail: invalid network_mode " +:+ repr (tg_network_mode tool)
     +:+ must_be VALID_NETWORK_MODES).

Definition risk_level_errors (ctx : string) (levels : list string) : list string :=
  flat_map (fun rl => err_if (negb (str_in rl VALID_RISK_LEVELS))
    (ctx +:+ ": invalid risk level " +:+ repr rl +:+ must_be VALID_RISK_LEVELS)) levels.

Definition validate_validation_requirements (policy : RepoPolicy) (ctx : string) : list string :=
  concat_imap (fun i vr =>
      let vr_ctx := ctx +:+ ".validation_requirements" +:+ idx i in
      risk_level_errors vr_ctx (vr_applies_to_risk_levels vr)
      ++ err_if (negb (str_truthy (vr_required_profile vr)))
           (vr_ctx +:+ ": required_profile must not be empty"))
    0 (rp_validation_requirements policy).

Definition validate_review_requirement (policy : RepoPolicy) (ctx : string) : list string :=
  risk_level_errors (ctx +:+ ".review_requirement")
    (rr_require_review_for_risk_levels (rp_review_requirement policy)).

Definition validate_branch_guardrail (policy : RepoPolicy) (ctx : string) : list string :=
  let bg := rp_branch_guardrail policy in
  err_if (bg_allow_direct_commit bg && bg_require_branch bg)
    (ctx +:+ ".branch_guardrail: allow_direct_commit=True contradicts require_branch=True").

Definition check_contradictions (policy : RepoPolicy) (ctx : string) : list string :=
  let rr := rp_review_requirement policy in
  err_if (rr_blocked_without_human rr && rr_autonomous_allowed rr)
    (ctx +:+ ".review_requirement: blocked_without_human=True contradicts autonomous_allowed=True")
  ++ err_if (negb (rp_enabled policy) && list_truthy (rp_allowed_task_types policy))
    (ctx +:+ ": enabled=False but allowed_task_types is set — allowed_task_types has no effect when repo is disabled").

Definition validate_repo_policy (policy : RepoPolicy) (ctx : string) : list string :=
  err_if (negb (str_truthy (rp_repo_key policy))) (ctx +:+ ": repo_key must not be empty")
  ++ err_if (negb (str_in (rp_risk_profile policy) VALID_RISK_PROFILES))
       (ctx +:+ ": invalid risk_profile " +:+ repr (rp_risk_profile policy)
        +:+ must_be VALID_RISK_PROFILES)
  ++ validate_path_policy (rp_path_policy policy) ctx
  ++ validate_tool_guardrail (rp_tool_guardrail policy) ctx
  ++ validate_validation_requirements policy ctx
  ++ validate_review_requirement policy ctx
  ++ validate_branch_guardrail policy ctx
  ++ check_contradictions policy ctx.

(** The loop of [_check_duplicate_repo_keys] with its [seen] set. *)
Fixpoint check_duplicate_repo_keys (seen : list string) (policies : list RepoPolicy) : list string :=
  match policies with
  | [] => []
  | p :: ps =>
      err_if (str_in (rp_repo_key p) seen)
        ("Duplicate repo_key " +:+ repr (rp_repo_key p)
         +:+ " in repo_policies — only the first match is used")
      ++ check_duplicate_repo_keys (rp_repo_key p :: seen) ps
  end.

Definition validate_config (config : PolicyConfig) : list string :=
  (match pc_default_policy config with
   | Some p => validate_repo_policy p "default_policy"
   | None => []
   end)
  ++ concat_imap (fun i policy =>
       validate_repo_policy policy
         ("repo_policies" +:+ idx i +:+ " (repo_key=" +:+ repr (rp_repo_key policy) +:+ ")"))
     0 (pc_repo_policies config)
  ++ check_duplicate_repo_keys [] (pc_repo_policies config).

(** [PolicyEngine.from_config]: an engine is its configuration. *)
Definition from_config (config : PolicyConfig) : res PolicyConfig :=
  let errors := validate_config config in
  if list_truthy errors then Raise (InvalidPolicyConfigError errors) else Ok config.

Definition from_defaults : res PolicyConfig := from_config DEFAULT_POLICY_CONFIG.

(** ** What validation decides *)

Definition wf_rule (r : PathScopeRule) : Prop :=
  psr_path_pattern r <> "" /\ psr_access_mode r ∈ VALID_ACCESS_MODES.

Record wf_repo_policy (p : RepoPolicy) : Prop := {
  wf_key : rp_repo_key p <> "";
  wf_profile : rp_risk_profile p ∈ VALID_RISK_PROFILES;
  wf_default_mode : pp_default_mode (rp_path_policy p) ∈ VALID_DEFAULT_MODES;
  wf_rules : Forall wf_rule (pp_rules (rp_path_policy p));
  wf_network : tg_network_mode (rp_tool_guardrail p) ∈ VALID_NETWORK_MODES;
  wf_requirements : Forall (fun vr => Forall (fun rl => rl ∈ VALID_RISK_LEVELS) (vr_applies_to_risk_levels vr)
                                      /\ vr_required_profile vr <> "") (rp_validation_requirements p);
  wf_review : Forall (fun rl => rl ∈ VALID_RISK_LEVELS)
                (rr_require_review_for_risk_levels (rp_review_requirement p));
  wf_branch : ~ (bg_allow_direct_commit (rp_branch_guardrail p) = true
                 /\ bg_require_branch (rp_branch_guardrail p) = true);
  wf_human : ~ (rr_blocked_without_human (rp_review_requirement p) = true
                /\ rr_autonomous_allowed (rp_review_requirement p) = true);
  wf_disabled : rp_enabled p = false -> rp_allowed_task_types p = [] }.

Definition wf_config (c : PolicyConfig) : Prop :=
  (forall p, pc_default_policy c = Some p -> wf_repo_policy p)
  /\ Forall wf_repo_policy (pc_repo_policies c)
  /\ NoDup (map rp_repo_key (pc_repo_policies c)).

Lemma err_if_nil b e : err_if b e = [] <-> b = false.
Proof. unfold err_if. destruct b; split; congruence. Qed.

Lemma app_eq_nil_iff {A} (a b : list A) : a ++ b = [] <-> a = [] /\ b = [].
Proof. split; [apply app_eq_nil|by intros [-> ->]]. Qed.

Lemma negb_str_in_false s l : negb (str_in s l) = false <-> s ∈ l.
Proof. by rewrite negb_false_iff, str_in_spec. Qed.

Lemma negb_str_truthy_false s : negb (str_truthy s) = false <-> s <> "".
Proof. unfold str_truthy. by rewrite negb_involutive, String.eqb_neq. Qed.

Lemma list_truthy_false {A} (l : list A) : list_truthy l = false <-> l = [].
Proof. by destruct l. Qed.

Lemma concat_imap_nil {A} (f : nat -> A -> list string) (P : A -> Prop) i l :
  (forall j x, f j x = [] <-> P x) -> concat_imap f i l = [] <-> Forall P l.
Proof.
  intros Hf. revert i. induction l as [|x l IH]; intros i; simpl.
  - by split; auto.
  - by rewrite app_eq_nil_iff, Hf, IH, Forall_cons.
Qed.

Lemma risk_level_errors_nil ctx l :
  risk_level_errors ctx l = [] <-> Forall (fun rl => rl ∈ VALID_RISK_LEVELS) l.
Proof.
  unfold risk_level_errors. induction l as [|x l IH]; simpl; [by split; auto|].
  by rewrite app_eq_nil_iff, err_if_nil, negb_str_in_false, IH, Forall_cons.
Qed.

Lemma validate_path_policy_nil pp ctx :
  validate_path_policy pp ctx = [] <->
  pp_default_mode pp ∈ VALID_DEFAULT_MODES /\ Forall wf_rule (pp_rules pp).
Proof.
  unfold validate_path_policy. rewrite app_eq_nil_iff, err_if_nil, negb_str_in_false.
  rewrite (concat_imap_nil _ wf_rule); [done|].
  intros j r. by rewrite app_eq_nil_iff, !err_if_nil, negb_str_truthy_false, negb_str_in_false.
Qed.

Lemma validate_validation_requirements_nil p ctx :
  validate_validation_requirements p ctx = [] <->
  Forall (fun vr => Forall (fun rl => rl ∈ VALID_RISK_LEVELS) (vr_applies_to_risk_levels vr)
                    /\ vr_required_profile vr <> "") (rp_validation_requirements p).
Proof.
  apply concat_imap_nil. intros j vr.
  by rewrite app_eq_nil_iff, err_if_nil, risk_level_errors_nil, negb_str_truthy_false.
Qed.

Lemma andb_false_not a b : a && b = false <-> ~ (a = true /\ b = true).
Proof. destruct a, b; simpl; intuition congruence. Qed.

Lemma disabled_errors_nil p :
  negb (rp_enabled p) && list_truthy (rp_allowed_task_types p) = false <->
  (rp_enabled p = false -> rp_allowed_task_types p = []).
Proof. destruct (rp_enabled p), (rp_allowed_task_types p); simpl; intuition congruence. Qed.

Lemma validate_repo_policy_nil p ctx : validate_repo_policy p ctx = [] <-> wf_repo_policy p.
Proof.
  unfold validate_repo_policy, validate_tool_guardrail, validate_review_requirement,
    validate_branch_guardrail, check_contradictions.
  rewrite !app_eq_nil_iff, !err_if_nil, negb_str_truthy_false, !negb_str_in_false,
    validate_path_policy_nil, validate_validation_requirements_nil, risk_level_errors_nil,
    disabled_errors_nil, !andb_false_not.
  split.
  - intros (?&?&(?&?)&?&?&?&?&?&?). by constructor.
  - intros []. done.
Qed.

Lemma Forall_key_not_in_cons k seen ps :
  Forall (fun p => rp_repo_key p ∉ k :: seen) ps <->
  k ∉ map rp_repo_key ps /\ Forall (fun p => rp_repo_key p ∉ seen) ps.
Proof.
  induction ps as [|p ps IH]; simpl.
  - split; [split; [apply not_elem_of_nil|done]|done].
  - rewrite !Forall_cons, IH, !not_elem_of_cons. intuition congruence.
Qed.

Lemma check_duplicate_repo_keys_nil seen ps :
  check_duplicate_repo_keys seen ps = [] <->
  NoDup (map rp_repo_key ps) /\ Forall (fun p => rp_repo_key p ∉ seen) ps.
Proof.
  revert seen. induction ps as [|p ps IH]; intros seen; simpl.
  { split; [split; constructor|done]. }
  rewrite app_eq_nil_iff, err_if_nil, str_in_false, IH, NoDup_cons, Forall_cons,
    Forall_key_not_in_cons. intuition.
Qed.

Lemma validate_config_nil c : validate_config c = [] <-> wf_config c.
Proof.
  unfold validate_config, wf_config. rewrite !app_eq_nil_iff.
  rewrite (concat_imap_nil _ wf_repo_policy) by (intros; apply validate_repo_policy_nil).
  rewrite check_duplicate_repo_keys_nil.
  assert (Forall (fun p => rp_repo_key p ∉ []) (pc_repo_policies c)) as Hnil
    by (apply Forall_true; intros ?; apply not_elem_of_nil).
  destruct (pc_default_policy c) as [p|].
  - rewrite validate_repo_policy_nil. naive_solver.
  - naive_solver.
Qed.

(** an engine is built from a configuration exactly when the
    configuration is well formed: every mode, risk level and profile is one the
    checks know, no repository key is declared twice, and no guardrail
    contradicts another; otherwise construction raises
    [InvalidPolicyConfigError] with at least one error and no engine exists. *)
Theorem from_config_fail_closed (c : PolicyConfig) :
  (from_config c = Ok c <-> wf_config c)
  /\ (~ wf_config c -> exists e es, from_config c = Raise (InvalidPolicyConfigError (e :: es))).
Proof.
  unfold from_config. rewrite <-validate_config_nil.
  destruct (validate_config c) as [|e es]; simpl; naive_solver.
Qed.

(** A configuration with an unknown network mode is refused. *)
Definition misspelt_network : PolicyConfig :=
  let d := DEFAULT_REPO_POLICY in
  {| pc_repo_policies := [
       {| rp_repo_key := "api"; rp_enabled := true; rp_risk_profile := "standard";
          rp_path_policy := rp_path_policy d; rp_branch_guardrail := rp_branch_guardrail d;
          rp_tool_guardrail := {| tg_network_mode := "wifi_only"; tg_blocked_tool_classes := [];
                                  tg_allow_destructive_actions := false; tg_notes := "" |};
          rp_validation_requirements := []; rp_review_requirement := rp_review_requirement d;
          rp_allowed_task_types := []; rp_blocked_task_types := [] |}];
     pc_default_policy := None |}.

Lemma from_config_fail_closed_witness :
  from_defaults = Ok DEFAULT_POLICY_CONFIG
  /\ ~ wf_config misspelt_network
  /\ exists e es, from_config misspelt_network = Raise (InvalidPolicyConfigError (e :: es)).
Proof.
  assert (~ wf_config misspelt_network) as Hbad.
  { intros Hwf. apply (proj2 (validate_config_nil _)) in Hwf. vm_compute in Hwf. discriminate. }
  split; [vm_compute; reflexivity|]. split; [exact Hbad|].
  exact (proj2 (from_config_fail_closed misspelt_network) Hbad).
Defined.
