(* ===== verification/PolicySpec.v ===== *)
(** * What the policy gate promises

    An abstract specification of a policy verdict (the reasons for which work
    is blocked, held for review, or allowed with a warning, each stated once,
    with no order of evaluation) and the refinement theorem that [evaluate]
    implements it; then the consequences the rest of the system relies on. *)
From S2P Require Import Prelude PyStr PyData Contracts PolicyModels PolicyEngine.
From S2P Require Import PolicyValidate.

Section Spec.
Context (policy : RepoPolicy) (proposal : OcPlanningProposal) (decision : OcRoutingDecision)
        (request : option ExecutionRequest).

Let task : string := TaskType_value (prop_task_type proposal).
Let risk : string := RiskLevel_value (prop_risk_level proposal).
Let paths : list string := candidate_paths proposal request.
Let pp : PathPolicy := rp_path_policy policy.

Definition remote_lane : Prop := dec_selected_lane decision <> LANE_AIDER_LOCAL.

(** The access mode that governs a path: that of the first rule that applies
    and matches, or else the default. *)
Definition path_mode (p : string) : string :=
  match match_path_rule p pp task with
  | Some r => psr_access_mode r
  | None => pp_default_mode pp
  end.

(** Why the work must not run. *)
Inductive block_reason : Prop :=
  | b_task_blocked : task ∈ rp_blocked_task_types policy -> block_reason
  | b_task_not_allowed :
      rp_allowed_task_types policy <> [] -> task ∉ rp_allowed_task_types policy -> block_reason
  | b_local_only l :
      l ∈ prop_labels proposal -> l ∈ LOCAL_ONLY_LABELS -> remote_lane -> block_reason
  | b_unrestricted : paths = [] -> pp_default_mode pp = "block" -> block_reason
  | b_path p : p ∈ paths -> path_mode p = "block" -> block_reason
  | b_base :
      bg_allowed_base_branches (rp_branch_guardrail policy) <> [] ->
      target_base_branch (prop_target proposal) ∉ bg_allowed_base_branches (rp_branch_guardrail policy) ->
      block_reason
  | b_network_local :
      tg_network_mode (rp_tool_guardrail policy) = "local_only" -> remote_lane -> block_reason
  | b_network : tg_network_mode (rp_tool_guardrail policy) = "blocked" -> block_reason
  | b_destructive l :
      tg_allow_destructive_actions (rp_tool_guardrail policy) = false ->
      l ∈ prop_labels proposal -> lower l ∈ DESTRUCTIVE_INDICATORS -> block_reason
  | b_validation vr :
      first_requirement proposal policy = Some vr -> vr_block_if_unavailable vr = true ->
      validation_available proposal request = false -> block_reason
  | b_human : rr_blocked_without_human (rp_review_requirement policy) = true -> block_reason.

(** Why a human must look first. *)
Inductive review_reason : Prop :=
  | r_path_rule p r :
      p ∈ paths -> match_path_rule p pp task = Some r ->
      psr_access_mode r ∈ ["read_only"; "review_required"] -> review_reason
  | r_path_default p :
      p ∈ paths -> match_path_rule p pp task = None ->
      pp_default_mode pp = "review_required" -> review_reason
  | r_pr :
      bg_require_pr (rp_branch_guardrail policy) = true ->
      bp_open_pr (prop_branch_policy proposal) = false -> review_reason
  | r_not_autonomous :
      rr_blocked_without_human (rp_review_requirement policy) = false ->
      rr_autonomous_allowed (rp_review_requirement policy) = false -> review_reason
  | r_label :
      rr_blocked_without_human (rp_review_requirement policy) = false ->
      "review_required" ∈ prop_labels proposal -> review_reason
  | r_category :
      rr_blocked_without_human (rp_review_requirement policy) = false ->
      (forall l, l ∈ prop_labels proposal -> l ∉ TRUSTED_SOURCE_LABELS) ->
      risk ∈ rr_require_review_for_risk_levels (rp_review_requirement policy)
      \/ task ∈ rr_require_review_for_task_types (rp_review_requirement policy) ->
      review_reason.

(** What is worth a warning. *)
Inductive warn_reason : Prop :=
  | w_unrestricted : paths = [] -> pp_default_mode pp = "review_required" -> warn_reason
  | w_prefix :
      bg_allow_direct_commit (rp_branch_guardrail policy) = false ->
      bp_branch_prefix (prop_branch_policy proposal) = "" -> warn_reason
  | w_validation vr :
      first_requirement proposal policy = Some vr -> vr_block_if_unavailable vr = false ->
      validation_available proposal request = false -> warn_reason.

(** The verdict: a disabled repository runs nothing; otherwise blocking
    reasons outrank review reasons, which outrank warnings. *)
Inductive verdict : PolicyStatus -> Prop :=
  | v_disabled : rp_enabled policy = false -> verdict BLOCK
  | v_block : rp_enabled policy = true -> block_reason -> verdict BLOCK
  | v_review : rp_enabled policy = true -> ~ block_reason -> review_reason -> verdict REQUIRE_REVIEW
  | v_warn : rp_enabled policy = true -> ~ block_reason -> ~ review_reason -> warn_reason ->
      verdict ALLOW_WITH_WARNINGS
  | v_allow : rp_enabled policy = true -> ~ block_reason -> ~ review_reason -> ~ warn_reason ->
      verdict ALLOW.
End Spec.

(** ** Findings as three booleans *)

Definition blocks (f : findings) : bool := existsb pv_blocking f.1.
Definition reviews (f : findings) : bool := existsb (fun v => negb (pv_blocking v)) f.1.
Definition warns (f : findings) : bool := list_truthy f.2.

Lemma determine_status_bools f :
  determine_status f.1 f.2 =
  if blocks f then BLOCK else if reviews f then REQUIRE_REVIEW
  else if warns f then ALLOW_WITH_WARNINGS else ALLOW.
Proof. done. Qed.

Lemma list_truthy_app {A} (a b : list A) : list_truthy (a ++ b) = list_truthy a || list_truthy b.
Proof. by destruct a. Qed.

Lemma blocks_app a b : blocks (app_findings a b) = blocks a || blocks b.
Proof. apply existsb_app. Qed.
Lemma reviews_app a b : reviews (app_findings a b) = reviews a || reviews b.
Proof. apply existsb_app. Qed.
Lemma warns_app a b : warns (app_findings a b) = warns a || warns b.
Proof. apply list_truthy_app. Qed.

(** A property of findings that distributes over concatenation, over a loop. *)
Lemma fold_findings (g : findings -> bool) (f : string -> findings) ps acc :
  (forall a b, g (app_findings a b) = g a || g b) ->
  g (fold_left (fun acc p => app_findings acc (f p)) ps acc) = g acc || existsb (fun p => g (f p)) ps.
Proof.
  intros Happ. revert acc. induction ps as [|p ps IH]; intros acc; simpl.
  - by rewrite orb_false_r.
  - by rewrite IH, Happ, orb_assoc.
Qed.

(** ** Bridging boolean tests and propositions *)

Lemma existsb_elem {A} (p : A -> bool) (l : list A) :
  existsb p l = true <-> exists x, x ∈ l /\ p x = true.
Proof.
  rewrite existsb_exists. split; intros (x & Hin & H); exists x;
    (split; [by apply list_elem_of_In in Hin || by apply list_elem_of_In|done]).
Qed.

Lemma filter_truthy {A} (p : A -> bool) (l : list A) :
  list_truthy (List.filter p l) = existsb p l.
Proof. induction l as [|x l IH]; simpl; [done|]. by destruct (p x). Qed.

Lemma lane_local l : str_in (LaneName_value l) LOCAL_LANES = bool_decide (l = LANE_AIDER_LOCAL).
Proof. by destruct l. Qed.

Lemma truthy_elem s l : list_truthy l && str_in s l = str_in s l.
Proof. by destruct l. Qed.

Lemma lane_remote d : negb (str_in (LaneName_value (dec_selected_lane d)) LOCAL_LANES) = true <->
  remote_lane d.
Proof. unfold remote_lane. rewrite lane_local, negb_true_iff, bool_decide_eq_false. done. Qed.

Lemma negb_eqb_truthy s : negb (str_truthy s) = true <-> s = "".
Proof. unfold str_truthy. by rewrite negb_involutive, String.eqb_eq. Qed.

(** Rewriting rules that turn the engine's tests into the specification's words. *)
Ltac specify :=
  repeat progress rewrite ?orb_true_iff, ?andb_true_iff, ?negb_true_iff, ?str_in_spec,
    ?str_in_false, ?list_truthy_spec, ?list_truthy_false, ?String.eqb_eq, ?existsb_elem.

(** Decide findings that are written out. *)
Ltac findings := unfold blocks, reviews, warns, no_findings in *; simpl; try (intuition congruence).

(** ** What each check contributes *)

Section Checks.
Context (policy : RepoPolicy) (proposal : OcPlanningProposal) (decision : OcRoutingDecision)
        (request : option ExecutionRequest).

Let task : string := TaskType_value (prop_task_type proposal).
Let pp : PathPolicy := rp_path_policy policy.

Lemma check_task_type_bools :
  (blocks (check_task_type proposal policy) = true <->
     task ∈ rp_blocked_task_types policy
     \/ (rp_allowed_task_types policy <> [] /\ task ∉ rp_allowed_task_types policy))
  /\ reviews (check_task_type proposal policy) = false
  /\ warns (check_task_type proposal policy) = false.
Proof.
  unfold check_task_type. rewrite blocks_app, reviews_app, warns_app, truthy_elem.
  fold task. rewrite <-str_in_spec, <-str_in_false, <-list_truthy_spec.
  destruct (str_in task (rp_blocked_task_types policy)),
    (list_truthy (rp_allowed_task_types policy)), (str_in task (rp_allowed_task_types policy));
    findings.
Qed.

Lemma check_routing_bools :
  (blocks (check_routing_constraints proposal decision) = true <->
     (exists l, l ∈ prop_labels proposal /\ l ∈ LOCAL_ONLY_LABELS) /\ remote_lane decision)
  /\ reviews (check_routing_constraints proposal decision) = false
  /\ warns (check_routing_constraints proposal decision) = false.
Proof.
  unfold check_routing_constraints. cbv zeta. rewrite filter_truthy, <-lane_remote.
  assert (existsb (fun l => str_in l LOCAL_ONLY_LABELS) (prop_labels proposal) = true <->
          exists l, l ∈ prop_labels proposal /\ l ∈ LOCAL_ONLY_LABELS) as <-.
  { rewrite existsb_elem. by setoid_rewrite str_in_spec. }
  destruct (existsb _ _); findings.
  destruct (negb (str_in (LaneName_value _) _)); findings.
Qed.

Lemma check_path_bools p :
  (blocks (check_path policy task p) = true <-> path_mode policy proposal p = "block")
  /\ (reviews (check_path policy task p) = true <->
       (exists r, match_path_rule p pp task = Some r
                  /\ psr_access_mode r ∈ ["read_only"; "review_required"])
       \/ (match_path_rule p pp task = None /\ pp_default_mode pp = "review_required"))
  /\ warns (check_path policy task p) = false.
Proof.
  unfold check_path, path_mode. fold task pp.
  destruct (match_path_rule p pp task) as [r|].
  - destruct (String.eqb_spec (psr_access_mode r) "block") as [E|E]; simpl.
    + repeat split; try naive_solver. intros [(r' & [= <-] & Hin)|[? _]]; [|done].
      rewrite E in Hin. set_solver.
    + destruct (str_in (psr_access_mode r) _) eqn:Hin; boolify; findings; naive_solver.
  - destruct (String.eqb_spec (pp_default_mode pp) "block") as [E|E]; simpl.
    + rewrite E. naive_solver.
    + destruct (String.eqb_spec (pp_default_mode pp) "review_required"); findings; naive_solver.
Qed.

Lemma check_paths_bools :
  let f := check_path_restrictions proposal policy request in
  (blocks f = true <->
     (candidate_paths proposal request = [] /\ pp_default_mode pp = "block")
     \/ exists p, p ∈ candidate_paths proposal request /\ path_mode policy proposal p = "block")
  /\ (reviews f = true <-> exists p, p ∈ candidate_paths proposal request /\
       ((exists r, match_path_rule p pp task = Some r
                   /\ psr_access_mode r ∈ ["read_only"; "review_required"])
        \/ (match_path_rule p pp task = None /\ pp_default_mode pp = "review_required")))
  /\ (warns f = true <->
       candidate_paths proposal request = [] /\ pp_default_mode pp = "review_required").
Proof.
  unfold check_path_restrictions. fold pp. cbv zeta.
  destruct (candidate_paths proposal request) as [|p0 ps] eqn:Ec; simpl negb; cbv iota.
  - destruct (String.eqb_spec (pp_default_mode pp) "block") as [E|E];
      [rewrite E|destruct (String.eqb_spec (pp_default_mode pp) "review_required")];
      simpl; set_solver.
  - fold task. rewrite !(fold_findings blocks) by apply blocks_app.
    rewrite !(fold_findings reviews) by apply reviews_app.
    rewrite !(fold_findings warns) by apply warns_app.
    change (blocks no_findings) with false. change (reviews no_findings) with false.
    change (warns no_findings) with false. rewrite !orb_false_l, !existsb_elem.
    split; [|split].
    + setoid_rewrite (fun p => proj1 (check_path_bools p)). naive_solver.
    + by setoid_rewrite (fun p => proj1 (proj2 (check_path_bools p))).
    + setoid_rewrite (fun p => proj2 (proj2 (check_path_bools p))). naive_solver.
Qed.

Lemma check_branch_bools :
  let f := check_branch_guardrail proposal policy in
  let bg := rp_branch_guardrail policy in
  (blocks f = true <-> bg_allowed_base_branches bg <> []
     /\ target_base_branch (prop_target proposal) ∉ bg_allowed_base_branches bg)
  /\ (reviews f = true <-> bg_require_pr bg = true /\ bp_open_pr (prop_branch_policy proposal) = false)
  /\ (warns f = true <-> bg_allow_direct_commit bg = false
       /\ bp_branch_prefix (prop_branch_policy proposal) = "").
Proof.
  cbv zeta. unfold check_branch_guardrail.
  rewrite !blocks_app, !reviews_app, !warns_app.
  rewrite <-str_in_false, <-list_truthy_spec, <-negb_eqb_truthy.
  destruct (bg_allow_direct_commit _), (negb (str_truthy (bp_branch_prefix _))),
    (list_truthy (bg_allowed_base_branches _)), (str_in (target_base_branch _) _),
    (bg_require_pr _), (bp_open_pr _); findings.
Qed.

Lemma check_tool_bools :
  let f := check_tool_guardrail proposal decision policy in
  let tg := rp_tool_guardrail policy in
  (blocks f = true <->
     (tg_network_mode tg = "local_only" /\ remote_lane decision)
     \/ tg_network_mode tg = "blocked"
     \/ (tg_allow_destructive_actions tg = false
         /\ exists l, l ∈ prop_labels proposal /\ lower l ∈ DESTRUCTIVE_INDICATORS))
  /\ reviews f = false /\ warns f = false.
Proof.
  cbv zeta. unfold check_tool_guardrail. cbv zeta.
  rewrite blocks_app, reviews_app, warns_app, <-lane_remote.
  assert (existsb (fun l => str_in (lower l) DESTRUCTIVE_INDICATORS) (prop_labels proposal) = true
          <-> exists l, l ∈ prop_labels proposal /\ lower l ∈ DESTRUCTIVE_INDICATORS) as <-.
  { rewrite existsb_elem. by setoid_rewrite str_in_spec. }
  set (n := tg_network_mode _).
  destruct (String.eqb_spec n "local_only") as [->|E1];
    [|destruct (String.eqb_spec n "blocked") as [->|E2]];
    destruct (negb (str_in (LaneName_value _) _)), (tg_allow_destructive_actions _),
      (existsb _ (prop_labels proposal)); findings.
Qed.

Lemma check_validation_bools :
  let f := check_validation_requirements proposal policy request in
  (blocks f = true <-> exists vr, first_requirement proposal policy = Some vr
     /\ vr_block_if_unavailable vr = true /\ validation_available proposal request = false)
  /\ reviews f = false
  /\ (warns f = true <-> exists vr, first_requirement proposal policy = Some vr
       /\ vr_block_if_unavailable vr = false /\ validation_available proposal request = false).
Proof.
  cbv zeta. unfold check_validation_requirements. cbv zeta.
  destruct (first_requirement proposal policy) as [vr|]; [|simpl; naive_solver].
  destruct (validation_available proposal request), (vr_block_if_unavailable vr) eqn:?;
    simpl; naive_solver.
Qed.

Lemma needs_review_iff rr :
  needs_review proposal rr = true <->
  rr_autonomous_allowed rr = false \/ "review_required" ∈ prop_labels proposal
  \/ ((forall l, l ∈ prop_labels proposal -> l ∉ TRUSTED_SOURCE_LABELS)
      /\ (RiskLevel_value (prop_risk_level proposal) ∈ rr_require_review_for_risk_levels rr
          \/ task ∈ rr_require_review_for_task_types rr)).
Proof.
  unfold needs_review. cbv zeta.
  assert (existsb (fun l => str_in l TRUSTED_SOURCE_LABELS) (prop_labels proposal) = false <->
          forall l, l ∈ prop_labels proposal -> l ∉ TRUSTED_SOURCE_LABELS) as <-.
  { rewrite existsb_false_Forall, Forall_forall. by setoid_rewrite str_in_false. }
  fold task. specify. tauto.
Qed.

Lemma check_review_bools :
  let f := check_review_requirements proposal policy in
  let rr := rp_review_requirement policy in
  (blocks f = true <-> rr_blocked_without_human rr = true)
  /\ (reviews f = true <-> rr_blocked_without_human rr = false /\ needs_review proposal rr = true)
  /\ warns f = false.
Proof.
  cbv zeta. unfold check_review_requirements. cbv zeta.
  destruct (rr_blocked_without_human _), (needs_review _ _); findings.
Qed.
End Checks.

(** ** The findings of a whole evaluation *)

Section Evaluate.
Context (policy : RepoPolicy) (proposal : OcPlanningProposal) (decision : OcRoutingDecision)
        (request : option ExecutionRequest).

(** The findings of checks 2 to 8, run on an enabled repository. *)
Definition all_findings : findings :=
  app_findings (app_findings (app_findings (app_findings (app_findings (app_findings (app_findings
    no_findings
    (check_task_type proposal policy))
    (check_routing_constraints proposal decision))
    (check_path_restrictions proposal policy request))
    (check_branch_guardrail proposal policy))
    (check_tool_guardrail proposal decision policy))
    (check_validation_requirements proposal policy request))
    (check_review_requirements proposal policy).

Lemma all_findings_blocks :
  blocks all_findings = true <-> block_reason policy proposal decision request.
Proof.
  unfold all_findings. rewrite !blocks_app, !orb_true_iff.
  change (blocks no_findings) with false.
  rewrite (proj1 (check_task_type_bools _ _)), (proj1 (check_routing_bools _ _)),
    (proj1 (check_paths_bools _ _ _)), (proj1 (check_branch_bools _ _)),
    (proj1 (check_tool_bools _ _ _)), (proj1 (check_validation_bools _ _ _)),
    (proj1 (check_review_bools _ _)).
  split.
  - intros H. destruct_or! H; destruct_and?; naive_solver (eauto using block_reason).
  - intros []; naive_solver.
Qed.

Lemma all_findings_reviews :
  reviews all_findings = true <-> review_reason policy proposal request.
Proof.
  unfold all_findings. rewrite !reviews_app, !orb_true_iff.
  change (reviews no_findings) with false.
  rewrite (proj1 (proj2 (check_task_type_bools _ _))),
    (proj1 (proj2 (check_routing_bools _ _))),
    (proj1 (proj2 (check_paths_bools _ _ _))), (proj1 (proj2 (check_branch_bools _ _))),
    (proj1 (proj2 (check_tool_bools _ _ _))), (proj1 (proj2 (check_validation_bools _ _ _))),
    (proj1 (proj2 (check_review_bools _ _))), needs_review_iff.
  split.
  - intros H. destruct_or! H; destruct_and?; naive_solver (eauto using review_reason).
  - intros []; naive_solver.
Qed.

Lemma all_findings_warns :
  warns all_findings = true <-> warn_reason policy proposal request.
Proof.
  unfold all_findings. rewrite !warns_app, !orb_true_iff.
  change (warns no_findings) with false.
  rewrite (proj2 (proj2 (check_task_type_bools _ _))),
    (proj2 (proj2 (check_routing_bools _ _))),
    (proj2 (proj2 (check_paths_bools _ _ _))), (proj2 (proj2 (check_branch_bools _ _))),
    (proj2 (proj2 (check_tool_bools _ _ _))), (proj2 (proj2 (check_validation_bools _ _ _))),
    (proj2 (proj2 (check_review_bools _ _))).
  split.
  - intros H. destruct_or! H; destruct_and?; naive_solver (eauto using warn_reason).
  - intros []; naive_solver.
Qed.
End Evaluate.

Lemma evaluate_enabled config proposal decision request :
  let policy := get_repo_policy config (target_repo_key (prop_target proposal)) in
  rp_enabled policy = true ->
  evaluate config proposal decision request =
  build_decision (all_findings policy proposal decision request) policy proposal request.
Proof.
  cbv zeta. intros H. unfold evaluate, all_findings, check_repo_enabled. by rewrite H.
Qed.

Lemma evaluate_disabled config proposal decision request :
  let policy := get_repo_policy config (target_repo_key (prop_target proposal)) in
  rp_enabled policy = false ->
  evaluate config proposal decision request =
  build_decision (check_repo_enabled policy) policy proposal request.
Proof. cbv zeta. intros H. unfold evaluate, check_repo_enabled. by rewrite H. Qed.

Lemma verdict_functional policy proposal decision request s1 s2 :
  verdict policy proposal decision request s1 -> verdict policy proposal decision request s2 ->
  s1 = s2.
Proof. intros [] []; congruence || tauto. Qed.

Lemma evaluate_verdict config proposal decision request :
  verdict (get_repo_policy config (target_repo_key (prop_target proposal))) proposal decision request
    (pd_status (evaluate config proposal decision request)).
Proof.
  set (policy := get_repo_policy _ _).
  destruct (rp_enabled policy) eqn:He.
  - rewrite evaluate_enabled by done. cbn [build_decision pd_status]. fold policy.
    rewrite determine_status_bools.
    pose proof (all_findings_blocks policy proposal decision request) as Hb.
    pose proof (all_findings_reviews policy proposal decision request) as Hr.
    pose proof (all_findings_warns policy proposal decision request) as Hw.
    destruct (blocks _); [apply v_block; tauto|].
    destruct (reviews _); [apply v_review; intuition congruence|].
    destruct (warns _); [apply v_warn; intuition congruence|apply v_allow; intuition congruence].
  - rewrite evaluate_disabled by done. cbn [build_decision pd_status]. fold policy.
    unfold check_repo_enabled. rewrite He. by apply v_disabled.
Qed.

Lemma evaluate_status_iff config proposal decision request s :
  pd_status (evaluate config proposal decision request) = s <->
  verdict (get_repo_policy config (target_repo_key (prop_target proposal))) proposal decision request s.
Proof.
  split; [intros <-; apply evaluate_verdict|].
  intros H. eapply verdict_functional; [apply evaluate_verdict|exact H].
Qed.

(** A decision lets work run exactly when it neither blocks nor asks for review. *)
Lemma is_allowed_iff d : is_allowed d = true <-> is_blocked d = false /\ requires_review d = false.
Proof. unfold is_allowed, is_blocked, requires_review. destruct (pd_status d); naive_solver. Qed.
