(* ===== verification/PolicyGate.v ===== *)
(** * Explanations of a decision, and what the gate guarantees

    policy/explain.py: the human-readable reasoning built from a decision; then
    the theorems on the gate and on the bundled defaults. *)
From Stdlib Require Import String.
From S2P Require Import Prelude PyStr PyData Contracts PolicyModels PolicyEngine PolicyValidate PolicySpec.

Record PolicyExplanation := {
  pe_summary : string;
  pe_key_rules_applied : list string;
  pe_review_reasoning : string;
  pe_validation_reasoning : string;
  pe_scope_reasoning : string;
  pe_routing_reasoning : string }.

Definition build_summary (d : PolicyDecision) : string :=
  match pd_status d with
  | BLOCK =>
      match List.filter pv_blocking (pd_violations d) with
      | first :: _ => "BLOCKED: " +:+ pv_message first
      | [] => "BLOCKED by policy"
      end
  | REQUIRE_REVIEW =>
      match List.filter (fun v => negb (pv_blocking v) && String.eqb (pv_category v) "review")
              (pd_violations d) with
      | v :: _ => "REVIEW REQUIRED: " +:+ pv_message v
      | [] =>
          match List.filter (fun v => negb (pv_blocking v)) (pd_violations d) with
          | v :: _ => "REVIEW REQUIRED: " +:+ pv_message v
          | [] => "REVIEW REQUIRED by policy"
          end
      end
  | ALLOW_WITH_WARNINGS =>
      match pd_warnings d with
      | w :: _ => "ALLOWED WITH WARNINGS: " +:+ pw_message w
      | [] => "ALLOWED WITH WARNINGS"
      end
  | ALLOW => "ALLOWED: no policy restrictions apply"
  end.

Definition key_rules_applied (d : PolicyDecision) : list string :=
  fold_left (fun rules w => if negb (str_in (pw_rule_id w) rules) then rules ++ [pw_rule_id w] else rules)
    (pd_warnings d) (map pv_rule_id (pd_violations d)).

Definition review_reasoning (d : PolicyDecision) : string :=
  let review_parts := map pv_message (List.filter (fun v => String.eqb (pv_category v) "review") (pd_violations d)) in
  if negb (list_truthy review_parts) then
    if String.eqb (pd_effective_review_requirement d) "autonomous"
    then "Autonomous execution permitted by policy" else "Review required"
  else join "; " review_parts.

Definition validation_reasoning (d : PolicyDecision) : string :=
  let val_parts :=
    map pv_message (List.filter (fun v => String.eqb (pv_category v) "validation") (pd_violations d))
    ++ map pw_message (List.filter (fun w => String.eqb (pw_category w) "validation") (pd_warnings d)) in
  if negb (list_truthy val_parts)
  then "Validation profile: " +:+ repr (pd_effective_validation_profile d)
  else join "; " val_parts.

Definition scope_reasoning (d : PolicyDecision) : string :=
  let path_parts := map pv_message (List.filter (fun v => String.eqb (pv_category v) "path") (pd_violations d)) in
  let scope_desc :=
    if list_truthy (pd_effective_scope d)
    then "Effective scope: " +:+ repr_list (pd_effective_scope d)
    else "No path restriction declared (applies to all paths)" in
  if list_truthy path_parts then scope_desc +:+ "; " +:+ join "; " path_parts else scope_desc.

Definition routing_reasoning (d : PolicyDecision) : string :=
  let routing_parts :=
    map pv_message (List.filter (fun v => String.eqb (pv_category v) "routing") (pd_violations d))
    ++ map pv_message (List.filter (fun v => String.eqb (pv_category v) "tool"
                                             && contains (pv_rule_id v) "network") (pd_violations d)) in
  if negb (list_truthy routing_parts) then "Routing selection is compatible with policy"
  else join "; " routing_parts.

Definition explain (d : PolicyDecision) : PolicyExplanation :=
  {| pe_summary := build_summary d;
     pe_key_rules_applied := key_rules_applied d;
     pe_review_reasoning := review_reasoning d;
     pe_validation_reasoning := validation_reasoning d;
     pe_scope_reasoning := scope_reasoning d;
     pe_routing_reasoning := routing_reasoning d |}.

(** The warnings' loop keeps what it has and adds each new rule once. *)
Lemma key_rules_loop ws rules id :
  id ∈ fold_left (fun rules w => if negb (str_in (pw_rule_id w) rules) then rules ++ [pw_rule_id w] else rules)
         ws rules
  <-> id ∈ rules \/ id ∈ map pw_rule_id ws.
Proof.
  revert rules. induction ws as [|w ws IH]; intros rules; simpl; [set_solver|].
  rewrite IH. destruct (str_in (pw_rule_id w) rules) eqn:E; boolify; set_solver.
Qed.

(** Every decision of the engine satisfies the status/findings agreement. *)
Lemma evaluate_status_findings config p d r :
  let dec := evaluate config p d r in
  pd_status dec = determine_status (pd_violations dec) (pd_warnings dec).
Proof. cbv zeta. unfold evaluate. by case_match. Qed.

Lemma existsb_filter_head {A} (p : A -> bool) (l : list A) :
  existsb p l = true -> exists x xs, List.filter p l = x :: xs.
Proof. rewrite <-filter_truthy. destruct (List.filter p l); [done|eauto]. Qed.

Lemma filter_head_elem {A} (p : A -> bool) (l : list A) x xs :
  List.filter p l = x :: xs -> x ∈ l /\ p x = true.
Proof. intros H. apply elem_of_filter_bool. rewrite H. set_solver. Qed.

Lemma summary_of_block d :
  pd_status d = BLOCK -> determine_status (pd_violations d) (pd_warnings d) = BLOCK ->
  exists v, v ∈ pd_violations d /\ pv_blocking v = true
            /\ build_summary d = "BLOCKED: " +:+ pv_message v.
Proof.
  intros Hst. unfold determine_status, build_summary. rewrite Hst.
  destruct (existsb pv_blocking _) eqn:E; [|by repeat case_match]. intros _.
  destruct (existsb_filter_head _ _ E) as (x & xs & Hx). rewrite Hx.
  destruct (filter_head_elem _ _ _ _ Hx). eauto.
Qed.

Lemma summary_of_review d :
  pd_status d = REQUIRE_REVIEW ->
  determine_status (pd_violations d) (pd_warnings d) = REQUIRE_REVIEW ->
  exists v, v ∈ pd_violations d /\ pv_blocking v = false
            /\ build_summary d = "REVIEW REQUIRED: " +:+ pv_message v.
Proof.
  intros Hst. unfold determine_status, build_summary. rewrite Hst.
  destruct (existsb pv_blocking _); [done|].
  destruct (existsb _ (pd_violations d)) eqn:E; [|by case_match]. intros _.
  destruct (List.filter (fun v => negb (pv_blocking v) && _) _) as [|v vs] eqn:F1.
  - destruct (existsb_filter_head _ _ E) as (x & xs & Hx). rewrite Hx.
    destruct (filter_head_elem _ _ _ _ Hx). boolify. eauto.
  - destruct (filter_head_elem _ _ _ _ F1). boolify. eauto.
Qed.

Lemma summary_of_warning d :
  pd_status d = ALLOW_WITH_WARNINGS ->
  determine_status (pd_violations d) (pd_warnings d) = ALLOW_WITH_WARNINGS ->
  exists w, w ∈ pd_warnings d /\ build_summary d = "ALLOWED WITH WARNINGS: " +:+ pw_message w.
Proof.
  intros Hst. unfold determine_status, build_summary. rewrite Hst.
  repeat (destruct (existsb _ _); [done|]).
  destruct (pd_warnings d) as [|w ws]; [done|]. exists w. split; [set_solver|done].
Qed.

(** ** The policy gate: theorems

    The properties of the gate: the engine refines the specified verdict, and
    the guarantees that follow for the bundled defaults, for trusted labels,
    for disabled repositories and for the explanations shown to an operator. *)

(** C2: [evaluate] implements the specified verdict: for every
    configuration, proposal, routing decision and request its status is [s]
    exactly when [verdict] assigns [s], that is, a disabled repository is
    blocked, otherwise any blocking reason (task type, locality label, path
    rule, base branch, network mode, destructive label, missing required
    validation, human-only repository) blocks, otherwise any review reason asks
    for review, otherwise any warning reason warns, otherwise work is allowed;
    the order in which the code runs its checks does not matter. *)
Theorem evaluate_refines_verdict config proposal decision request s :
  pd_status (evaluate config proposal decision request) = s <->
  verdict (get_repo_policy config (target_repo_key (prop_target proposal)))
    proposal decision request s.
Proof. apply evaluate_status_iff. Qed.

(** ** The bundled defaults *)

(** A repository with no configuration of its own gets the default policy. *)
Lemma default_repo_policy_always k : get_repo_policy DEFAULT_POLICY_CONFIG k = DEFAULT_REPO_POLICY.
Proof.
  unfold get_repo_policy, find_first.
  cbn [pc_repo_policies DEFAULT_POLICY_CONFIG List.find].
  by destruct (String.eqb (rp_repo_key DEFAULT_REPO_POLICY) k).
Qed.

Lemma string_app_nil_r (s : string) : s +:+ "" = s.
Proof. induction s as [|c s IH]; [done|]. exact (f_equal (String c) IH). Qed.

Lemma secret_dir_matches pat lits (dir rest : string) :
  Fnmatch.compile pat = Fnmatch.Star :: Fnmatch.Star :: map Fnmatch.Lit lits ++ [Fnmatch.Star; Fnmatch.Star] ->
  fnmatch (dir +:+ string_of_list_ascii lits +:+ rest) pat = true.
Proof.
  intros Hc. unfold fnmatch. rewrite Hc. apply Fnmatch.match_toks_spec.
  apply (Fnmatch.m_star _ dir). apply (Fnmatch.m_star _ ""). clear Hc.
  induction lits as [|c lits IH]; simpl.
  - apply (Fnmatch.m_star _ "" rest). rewrite <-(string_app_nil_r rest).
    apply Fnmatch.m_star. constructor.
  - constructor; [apply Ascii.eqb_refl|exact IH].
Qed.

Lemma default_blocked_path_mode proposal p :
  (exists r, r ∈ BLOCKED_PATHS /\ fnmatch p (psr_path_pattern r) = true) ->
  path_mode DEFAULT_REPO_POLICY proposal p = "block".
Proof.
  intros (r & Hr & Hm). unfold path_mode, match_path_rule, find_first.
  cbn [rp_path_policy DEFAULT_REPO_POLICY pp_rules BLOCKED_PATHS app List.find].
  unfold block_path at 1 2. simpl.
  destruct (fnmatch p "**/.ssh/**") eqn:E1; [done|].
  destruct (fnmatch p "**/.gnupg/**") eqn:E2; [done|].
  unfold BLOCKED_PATHS, block_path in Hr. set_unfold. destruct Hr as [->|[->|[]]]; simpl in Hm; congruence.
Qed.

Lemma default_key_directory_blocked proposal decision request (dir rest : string) p :
  p = dir +:+ "/.ssh/" +:+ rest \/ p = dir +:+ "/.gnupg/" +:+ rest ->
  p ∈ candidate_paths proposal request ->
  pd_status (evaluate DEFAULT_POLICY_CONFIG proposal decision request) = BLOCK.
Proof.
  intros Hp Hin. apply evaluate_status_iff. rewrite default_repo_policy_always.
  apply v_block; [done|]. apply (b_path _ _ _ _ p); [done|].
  apply default_blocked_path_mode.
  destruct Hp as [-> | ->].
  - exists (block_path "**/.ssh/**" "SSH keys must never be written by automation").
    split; [set_solver|]. by apply (secret_dir_matches "**/.ssh/**" (list_ascii_of_string "/.ssh/")).
  - exists (block_path "**/.gnupg/**" "GPG keys must never be written by automation").
    split; [set_solver|]. by apply (secret_dir_matches "**/.gnupg/**" (list_ascii_of_string "/.gnupg/")).
Qed.

(** under the bundled policy no work whose scope (the request's allowed
    paths, or else the proposal's) names a path inside a nested [.ssh] or
    [.gnupg] directory runs: the decision is [BLOCK] whatever the labels, the
    risk, the lane and the other paths are. *)
Theorem default_blocks_key_directories proposal decision request (dir rest : string) p :
  p = dir +:+ "/.ssh/" +:+ rest \/ p = dir +:+ "/.gnupg/" +:+ rest ->
  p ∈ candidate_paths proposal request ->
  pd_status (evaluate DEFAULT_POLICY_CONFIG proposal decision request) = BLOCK.
Proof. apply default_key_directory_blocked. Qed.

(** A small proposal, for the examples and witnesses. *)
Definition sample_proposal (task : TaskType) (risk : RiskLevel) (paths labels : list string)
    : OcPlanningProposal :=
  {| prop_proposal_id := "p-1"; prop_task_id := "t-1"; prop_project_id := "proj";
     prop_task_type := task; prop_goal_text := "fix {{RUN_ID}}"; prop_constraints_text := None;
     prop_target := {| target_repo_key := "api"; target_clone_url := "git@forge:api";
                       target_base_branch := "main"; target_allowed_paths := paths |};
     prop_risk_level := risk;
     prop_constraints := {| con_max_changed_files := None; con_timeout_seconds := None;
                            con_allowed_paths := []; con_require_clean_validation := None;
                            con_skip_baseline_validation := false |};
     prop_validation_profile := {| vp_profile_name := "default"; vp_commands := ["pytest"];
                                   vp_timeout_seconds := 300; vp_fail_fast := false |};
     prop_branch_policy := {| bp_branch_prefix := "auto/"; bp_push_on_success := true;
                              bp_open_pr := false; bp_allowed_base_branches := [] |};
     prop_labels := labels |}.

Definition sample_routing (lane : LaneName) : OcRoutingDecision :=
  {| dec_decision_id := "d-1"; dec_proposal_id := "p-1"; dec_selected_lane := lane;
     dec_selected_backend := TEAM_EXECUTOR; dec_policy_rule_matched := None;
     dec_rationale := None; dec_alternatives_considered := [] |}.

Lemma default_blocks_key_directories_witness :
  let p := sample_proposal LINT_FIX LOW ["src/a.py"; "home/.ssh/id_rsa"] ["source: autonomy"] in
  pd_status (evaluate DEFAULT_POLICY_CONFIG p (sample_routing CLAUDE_CLI) None) = BLOCK.
Proof.
  apply (default_blocks_key_directories _ _ _ "home" "id_rsa" "home/.ssh/id_rsa").
  - left. reflexivity.
  - apply list_elem_of_In. right. left. reflexivity.
Defined.

(** The pattern needs a directory in front: a [.ssh] directory at the root of
    the repository is matched by no rule, and the work is allowed outright. *)
Theorem root_ssh_directory_not_blocked :
  pd_status (evaluate DEFAULT_POLICY_CONFIG (sample_proposal LINT_FIX LOW [".ssh/id_rsa"] [])
               (sample_routing CLAUDE_CLI) None) = ALLOW.
Proof. vm_compute. reflexivity. Qed.

Lemma default_risky_not_allowed proposal decision request :
  prop_risk_level proposal = HIGH \/ prop_task_type proposal ∈ [FEATURE; REFACTOR] ->
  (forall l, l ∈ prop_labels proposal -> l ∉ TRUSTED_SOURCE_LABELS) ->
  is_allowed (evaluate DEFAULT_POLICY_CONFIG proposal decision request) = false.
Proof.
  intros Hrisk Hlab.
  pose proof (evaluate_verdict DEFAULT_POLICY_CONFIG proposal decision request) as Hv.
  rewrite default_repo_policy_always in Hv.
  assert (review_reason DEFAULT_REPO_POLICY proposal request).
  { apply r_category; [done|done|]. simpl. set_unfold.
    destruct Hrisk as [->|[->|[->|[]]]]; simpl; tauto. }
  unfold is_allowed. by destruct Hv.
Qed.

(** under the bundled policy risky work is never autonomous unless a
    trusted source created it: a high-risk proposal, a feature or a refactor
    whose labels name no trusted source is blocked or held for review. *)
Theorem default_holds_risky_work proposal decision request :
  prop_risk_level proposal = HIGH \/ prop_task_type proposal ∈ [FEATURE; REFACTOR] ->
  (forall l, l ∈ prop_labels proposal -> l ∉ TRUSTED_SOURCE_LABELS) ->
  is_allowed (evaluate DEFAULT_POLICY_CONFIG proposal decision request) = false.
Proof. apply default_risky_not_allowed. Qed.

Lemma default_holds_risky_work_witness :
  is_allowed (evaluate DEFAULT_POLICY_CONFIG (sample_proposal FEATURE LOW [] ["review: later"])
                (sample_routing LANE_AIDER_LOCAL) None) = false.
Proof.
  apply default_holds_risky_work.
  - right. apply list_elem_of_In. left. reflexivity.
  - intros l Hl Ht. cbn in Hl. apply list_elem_of_singleton in Hl. subst l.
    apply str_in_spec in Ht. vm_compute in Ht. discriminate.
Defined.

(** ** Labels of trusted sources *)

Definition add_label (l : string) (p : OcPlanningProposal) : OcPlanningProposal :=
  {| prop_proposal_id := prop_proposal_id p; prop_task_id := prop_task_id p;
     prop_project_id := prop_project_id p; prop_task_type := prop_task_type p;
     prop_goal_text := prop_goal_text p; prop_constraints_text := prop_constraints_text p;
     prop_target := prop_target p; prop_risk_level := prop_risk_level p;
     prop_constraints := prop_constraints p; prop_validation_profile := prop_validation_profile p;
     prop_branch_policy := prop_branch_policy p; prop_labels := l :: prop_labels p |}.

Lemma trusted_label_inert l :
  l ∈ TRUSTED_SOURCE_LABELS ->
  l ∉ LOCAL_ONLY_LABELS /\ lower l ∉ DESTRUCTIVE_INDICATORS /\ l <> "review_required".
Proof.
  intros H. unfold TRUSTED_SOURCE_LABELS in H. set_unfold.
  destruct H as [->|[->|[->|[]]]]; vm_compute; naive_solver.
Qed.

Lemma trusted_label_block_reason policy p d r l :
  l ∈ TRUSTED_SOURCE_LABELS ->
  block_reason policy (add_label l p) d r <-> block_reason policy p d r.
Proof.
  intros (H1 & H2 & H3)%trusted_label_inert. split; intros [].
  all: try (by eauto using block_reason).
  - cbn in *. apply elem_of_cons in H as [->|H]; [done|]. by eapply b_local_only.
  - cbn in *. apply elem_of_cons in H0 as [->|H0]; [done|]. by eapply b_destructive.
  - eapply b_local_only; [|done..]. cbn. set_solver.
  - eapply b_destructive; [done| |done]. cbn. set_solver.
Qed.

(** a trusted-source label lifts only the category review.  Adding
    one never turns a blocked proposal into an unblocked one or the reverse;
    and if the labelled proposal is allowed, then the repository permits
    autonomous work, the proposal has no [review_required] label, and a pull
    request is open where the policy requires one. *)
Theorem trusted_label_lifts_only_category_review config p d r l :
  let policy := get_repo_policy config (target_repo_key (prop_target p)) in
  l ∈ TRUSTED_SOURCE_LABELS ->
  (pd_status (evaluate config (add_label l p) d r) = BLOCK <-> pd_status (evaluate config p d r) = BLOCK)
  /\ (is_allowed (evaluate config (add_label l p) d r) = true ->
      rr_autonomous_allowed (rp_review_requirement policy) = true
      /\ "review_required" ∉ prop_labels p
      /\ (bg_require_pr (rp_branch_guardrail policy) = true -> bp_open_pr (prop_branch_policy p) = true)).
Proof.
  intros policy Hl. pose proof (trusted_label_block_reason policy p d r l Hl) as Hb.
  split.
  - rewrite !evaluate_status_iff. cbn [prop_target add_label]. fold policy. split.
    + inversion 1; [by apply v_disabled|apply v_block; tauto].
    + inversion 1; [by apply v_disabled|apply v_block; tauto].
  - intros Ha. pose proof (evaluate_verdict config (add_label l p) d r) as Hv.
    cbn [prop_target add_label] in Hv. fold policy in Hv.
    assert (~ block_reason policy (add_label l p) d r
            /\ ~ review_reason policy (add_label l p) r) as [Hnb Hnr].
    { unfold is_allowed in Ha. by destruct Hv. }
    destruct (rr_blocked_without_human (rp_review_requirement policy)) eqn:Hh.
    { exfalso. apply Hnb. by apply b_human. }
    split; [|split].
    + destruct (rr_autonomous_allowed _) eqn:Hau; [done|].
      exfalso. apply Hnr. by apply r_not_autonomous.
    + intros Hin. apply Hnr. apply r_label; [done|]. cbn. set_solver.
    + intros Hpr. destruct (bp_open_pr _) eqn:Ho; [done|].
      exfalso. apply Hnr. by apply r_pr.
Qed.

Lemma trusted_label_lifts_only_category_review_witness :
  let p := sample_proposal FEATURE HIGH ["src/a.py"] ["kind: goal"] in
  is_allowed (evaluate DEFAULT_POLICY_CONFIG (add_label "source: autonomy" p) (sample_routing CLAUDE_CLI) None) = true
  /\ "review_required" ∉ prop_labels p.
Proof.
  split; [vm_compute; reflexivity|].
  apply (proj2 (trusted_label_lifts_only_category_review DEFAULT_POLICY_CONFIG
           (sample_proposal FEATURE HIGH ["src/a.py"] ["kind: goal"]) (sample_routing CLAUDE_CLI) None
           "source: autonomy" ltac:(apply str_in_spec; vm_compute; reflexivity))).
  vm_compute. reflexivity.
Defined.

(** a disabled repository runs nothing and nothing else is evaluated:
    the decision is [BLOCK] with the single violation [repo.disabled] and no
    warning, and its notes name that rule alone. *)
Theorem disabled_repo_single_violation config p d r :
  rp_enabled (get_repo_policy config (target_repo_key (prop_target p))) = false ->
  let dec := evaluate config p d r in
  pd_status dec = BLOCK /\ map pv_rule_id (pd_violations dec) = ["repo.disabled"]
  /\ pd_warnings dec = [] /\ pd_notes dec = "violations: repo.disabled".
Proof.
  intros H dec. unfold dec. rewrite evaluate_disabled by done.
  unfold check_repo_enabled. by rewrite H.
Qed.

Definition frozen_repo_config : PolicyConfig :=
  {| pc_repo_policies := [
       {| rp_repo_key := "api"; rp_enabled := false; rp_risk_profile := "standard";
          rp_path_policy := {| pp_rules := []; pp_default_mode := "block" |};
          rp_branch_guardrail := rp_branch_guardrail DEFAULT_REPO_POLICY;
          rp_tool_guardrail := rp_tool_guardrail DEFAULT_REPO_POLICY;
          rp_validation_requirements := []; rp_review_requirement := rp_review_requirement DEFAULT_REPO_POLICY;
          rp_allowed_task_types := []; rp_blocked_task_types := ["lint_fix"] |}];
     pc_default_policy := None |}.

Lemma disabled_repo_single_violation_witness :
  pd_notes (evaluate frozen_repo_config (sample_proposal LINT_FIX LOW [] [])
              (sample_routing CLAUDE_CLI) None) = "violations: repo.disabled".
Proof.
  apply (disabled_repo_single_violation frozen_repo_config (sample_proposal LINT_FIX LOW [] [])
           (sample_routing CLAUDE_CLI) None).
  reflexivity.
Defined.

(** the explanation of an engine decision names its cause.  A blocked
    decision's summary quotes a blocking violation of the decision, a held
    one's quotes a review violation, a warned one's quotes a warning (the
    generic fallback texts are never shown), and every rule the decision
    recorded is listed. *)
Theorem explanation_names_cause config p d r :
  let dec := evaluate config p d r in
  let e := explain dec in
  (pd_status dec = BLOCK ->
     exists v, v ∈ pd_violations dec /\ pv_blocking v = true /\ pe_summary e = "BLOCKED: " +:+ pv_message v)
  /\ (pd_status dec = REQUIRE_REVIEW ->
     exists v, v ∈ pd_violations dec /\ pv_blocking v = false
               /\ pe_summary e = "REVIEW REQUIRED: " +:+ pv_message v)
  /\ (pd_status dec = ALLOW_WITH_WARNINGS ->
     exists w, w ∈ pd_warnings dec /\ pe_summary e = "ALLOWED WITH WARNINGS: " +:+ pw_message w)
  /\ (forall id, id ∈ pe_key_rules_applied e <->
        id ∈ map pv_rule_id (pd_violations dec) \/ id ∈ map pw_rule_id (pd_warnings dec)).
Proof.
  intros dec e. pose proof (evaluate_status_findings config p d r) as Hs. fold dec in Hs.
  unfold e, explain. cbn [pe_summary pe_key_rules_applied].
  split; [|split; [|split]].
  - intros Hst. apply summary_of_block; congruence.
  - intros Hst. apply summary_of_review; congruence.
  - intros Hst. apply summary_of_warning; congruence.
  - intros id. apply key_rules_loop.
Qed.
