(* ===== verification/RuntimeBinding.v ===== *)
(** * Runtime-binding selection

    policy/runtime_binding_policy.py: which model powers a request, chosen by
    the first rule whose [when] filter matches the task type and the lane.  The
    CxRP constructor that validates a binding is outside the repository: it is
    the parameter [RuntimeBinding]. *)
From S2P Require Import Prelude PyStr PyData Contracts.

(** ** Reading a YAML document *)

Definition AttributeError (msg : string) : exn := OtherError msg.

Definition assoc_get (l : list (string * jval)) (k : string) : option jval :=
  snd <$> find_first (fun kv => String.eqb (fst kv) k) l.

(** [x.get(k)] on a value that should be a dict; the outer [option] is
    [None] for a missing key. *)
Definition obj_get (v : jval) (k : string) : res (option jval) :=
  match v with
  | JObj l => Ok (assoc_get l k)
  | _ => Raise (AttributeError "object has no attribute 'get'")
  end.

(** [x or d]. *)
Definition jor (v : option jval) (d : jval) : jval :=
  match v with Some x => if jtruthy x then x else d | None => d end.

Definition obj_dict (l : list (string * jval)) : dict := list_to_map l.

(** ** Rules *)

Record RuntimeBindingRule := {
  rbr_name : jval;
  rbr_when : dict;
  rbr_kind : jval;
  rbr_model : jval;
  rbr_provider : jval;
  rbr_endpoint : jval;
  rbr_config_ref : jval }.

(** [RuntimeBindingRule.matches]: every entry of [when] equals the attribute
    of that name ([None] for an attribute that is absent). *)
Definition matches (r : RuntimeBindingRule) (attrs : gmap string string) : bool :=
  forallb (fun kv : string * jval => jeq_opt (snd kv) (attrs !! fst kv))
    (map_to_list (rbr_when r)).

Record RuntimeBindingPolicy := {
  rbp_rules : list RuntimeBindingRule;
  rbp_default : option RuntimeBindingRule }.

Definition attrs_of (proposal : OcPlanningProposal) (decision : OcRoutingDecision)
    : gmap string string :=
  <["task_type" := TaskType_value (prop_task_type proposal)]>
    (<["lane" := LaneName_value (dec_selected_lane decision)]> ∅).

(** The rule that [select] applies: the first that matches, else the default. *)
Definition selected_rule (p : RuntimeBindingPolicy) (attrs : gmap string string)
    : option RuntimeBindingRule :=
  match find_first (fun r => matches r attrs) (rbp_rules p) with
  | Some r => Some r
  | None => rbp_default p
  end.

Section Select.
(** [RuntimeBinding(kind=RuntimeKind(kind), selection_mode=POLICY_SELECTED,
    model, provider, endpoint, config_ref)]. *)
Variable RuntimeBinding : jval -> jval -> jval -> jval -> jval -> res RuntimeBindingSummary.

Definition to_binding (r : RuntimeBindingRule) : res RuntimeBindingSummary :=
  RuntimeBinding (rbr_kind r) (rbr_model r) (rbr_provider r) (rbr_endpoint r) (rbr_config_ref r).

Definition select (p : RuntimeBindingPolicy) (proposal : OcPlanningProposal)
    (decision : OcRoutingDecision) : res (option RuntimeBindingSummary) :=
  match selected_rule p (attrs_of proposal decision) with
  | Some r => b <-? to_binding r ;; Ok (Some b)
  | None => Ok None
  end.
End Select.

(** ** Loading *)

(** [dict(x)] where [x] is a mapping or the empty list; other iterables
    are rejected here. *)
Definition as_dict (v : jval) : res dict :=
  match v with
  | JObj l => Ok (obj_dict l)
  | JList [] => Ok ∅
  | _ => Raise (TypeError "cannot convert dictionary update sequence element")
  end.

Definition rule_from_dict (entry : jval) : res RuntimeBindingRule :=
  bind0 <-? obj_get entry "bind" ;;
  let bind := jor bind0 (JObj []) in
  name <-? obj_get entry "name" ;;
  when0 <-? obj_get entry "when" ;;
  when <-? as_dict (jor when0 (JObj [])) ;;
  kind <-? obj_get bind "kind" ;;
  model <-? obj_get bind "model" ;;
  provider <-? obj_get bind "provider" ;;
  endpoint <-? obj_get bind "endpoint" ;;
  config_ref <-? obj_get bind "config_ref" ;;
  Ok {| rbr_name := default (JStr "rule") name; rbr_when := when;
        rbr_kind := default (JStr "backend_default") kind; rbr_model := default JNull model;
        rbr_provider := default JNull provider; rbr_endpoint := default JNull endpoint;
        rbr_config_ref := default JNull config_ref |}.

(** Iterating a value: a list gives its items, a dict its keys, a string its
    characters. *)
Definition jiter (v : jval) : res (list jval) :=
  match v with
  | JList l => Ok l
  | JObj l => Ok (map (fun kv => JStr (fst kv)) l)
  | JStr s => Ok (map (fun c => JStr (String c "")) (String.list_ascii_of_string s))
  | _ => Raise (TypeError "object is not iterable")
  end.

(** [{"name": "default", "when": {}, **default_block}]. *)
Definition default_entry (block : jval) : res jval :=
  match block with
  | JObj l => Ok (JObj (l ++ [("name", JStr "default"); ("when", JObj [])]))
  | _ => Raise (TypeError "argument after ** must be a mapping")
  end.

Fixpoint mapM_res {A B} (f : A -> res B) (l : list A) : res (list B) :=
  match l with
  | [] => Ok []
  | x :: l' => y <-? f x ;; ys <-? mapM_res f l' ;; Ok (y :: ys)
  end.

Definition from_dict (raw : jval) : res RuntimeBindingPolicy :=
  rules0 <-? obj_get raw "rules" ;;
  entries <-? jiter (jor rules0 (JList [])) ;;
  rules <-? mapM_res rule_from_dict entries ;;
  default_block <-? obj_get raw "default" ;;
  match default_block with
  | Some b =>
      if jtruthy b then
        e <-? default_entry b ;;
        d <-? rule_from_dict e ;;
        Ok {| rbp_rules := rules; rbp_default := Some d |}
      else Ok {| rbp_rules := rules; rbp_default := None |}
  | None => Ok {| rbp_rules := rules; rbp_default := None |}
  end.

Section FromYaml.
(** [yaml.safe_load], of a library. *)
Variable safe_load : string -> res jval.

(** [from_yaml]: [None] is a file that does not exist. *)
Definition from_yaml (file : option string) : res RuntimeBindingPolicy :=
  match file with
  | None => Ok {| rbp_rules := []; rbp_default := None |}
  | Some text => raw <-? safe_load text ;; from_dict (jor (Some raw) (JObj []))
  end.
End FromYaml.

(** ** The bundled policy *)

Definition bundled_rule (name task_type lane provider model config_ref : string)
    : RuntimeBindingRule :=
  {| rbr_name := JStr name;
     rbr_when := <["task_type" := JStr task_type]> (<["lane" := JStr lane]> ∅);
     rbr_kind := JStr "cli_subscription"; rbr_model := JStr model;
     rbr_provider := JStr provider; rbr_endpoint := JNull; rbr_config_ref := JStr config_ref |}.

Definition DEFAULT_POLICY : RuntimeBindingPolicy :=
  {| rbp_rules := [
       bundled_rule "refactor_premium" "refactor" "claude_cli"
         "anthropic" "opus" "team_executor:premium";
       bundled_rule "feature_premium" "feature" "claude_cli"
         "anthropic" "opus" "team_executor:premium";
       bundled_rule "refactor_codex_premium" "refactor" "codex_cli"
         "openai" "gpt-5.4" "team_executor:premium";
       bundled_rule "feature_codex_premium" "feature" "codex_cli"
         "openai" "gpt-5.4" "team_executor:premium";
       bundled_rule "test_standard" "test_fix" "claude_cli"
         "anthropic" "sonnet" "team_executor:standard";
       bundled_rule "test_codex_standard" "test_fix" "codex_cli"
         "openai" "gpt-5.4" "team_executor:standard";
       bundled_rule "lint_cheap" "lint_fix" "claude_cli"
         "anthropic" "haiku" "team_executor:budget";
       bundled_rule "lint_codex_cheap" "lint_fix" "codex_cli"
         "openai" "gpt-5.4-mini" "team_executor:budget"];
     rbp_default := Some
       {| rbr_name := JStr "fallback_standard"; rbr_when := ∅;
          rbr_kind := JStr "cli_subscription"; rbr_model := JStr "sonnet";
          rbr_provider := JStr "anthropic"; rbr_endpoint := JNull;
          rbr_config_ref := JStr "team_executor:standard" |} |}.

(** The table the bundled rules amount to: (provider, model, config_ref). *)
Definition bundled_choice (t : TaskType) (l : LaneName) : string * string * string :=
  match t, l with
  | (REFACTOR | FEATURE), CLAUDE_CLI => ("anthropic", "opus", "team_executor:premium")
  | (REFACTOR | FEATURE), CODEX_CLI => ("openai", "gpt-5.4", "team_executor:premium")
  | LINT_FIX, CLAUDE_CLI => ("anthropic", "haiku", "team_executor:budget")
  | LINT_FIX, CODEX_CLI => ("openai", "gpt-5.4-mini", "team_executor:budget")
  | _, _ => ("anthropic", "sonnet", "team_executor:standard")
  end.

(** ** Matching *)

Lemma matches_spec r attrs :
  matches r attrs = true <->
  forall k v, rbr_when r !! k = Some v -> v = opt_jstr (attrs !! k).
Proof.
  unfold matches. rewrite forallb_forall. split.
  - intros H k v Hk. apply jeq_opt_eq. apply (H (k, v)).
    by apply list_elem_of_In, elem_of_map_to_list.
  - intros H [k v] Hin. apply jeq_opt_eq. apply H.
    by apply elem_of_map_to_list, list_elem_of_In.
Qed.

Lemma matches_empty r attrs : rbr_when r = ∅ -> matches r attrs = true.
Proof. intros H. apply matches_spec. intros k v Hk. rewrite H in Hk. done. Qed.

Lemma matches_bundled n t l p m c proposal decision :
  matches (bundled_rule n t l p m c) (attrs_of proposal decision) =
  String.eqb (TaskType_value (prop_task_type proposal)) t &&
  String.eqb (LaneName_value (dec_selected_lane decision)) l.
Proof.
  apply eq_true_iff_eq. rewrite matches_spec, andb_true_iff, !String.eqb_eq. simpl. split.
  - intros H. split.
    + specialize (H "task_type" (JStr t)). revert H. unfold attrs_of.
      rewrite !lookup_insert_eq. simpl. intros H. by injection (H eq_refl).
    + specialize (H "lane" (JStr l)). revert H. unfold attrs_of.
      rewrite !(lookup_insert_ne _ "task_type" "lane") by done.
      rewrite !lookup_insert_eq. simpl. intros H. by injection (H eq_refl).
  - intros [<- <-] k v. unfold attrs_of.
    destruct (decide (k = "task_type")) as [-> | Hk].
    { rewrite !lookup_insert_eq. by intros [= <-]. }
    rewrite !(lookup_insert_ne _ "task_type" k) by done.
    destruct (decide (k = "lane")) as [-> | Hl].
    { rewrite !lookup_insert_eq. by intros [= <-]. }
    by rewrite !(lookup_insert_ne _ "lane" k) by done.
Qed.

(** the rule [select] applies is the first whose filter holds of the task
    type and lane, every rule before it failing its own filter; the default
    applies exactly when no rule holds, and no binding is chosen exactly when
    there is no default either. *)
Theorem select_first_match mk p proposal decision :
  let attrs := attrs_of proposal decision in
  (exists l1 r l2, rbp_rules p = l1 ++ r :: l2 /\
     (forall k v, rbr_when r !! k = Some v -> v = opt_jstr (attrs !! k)) /\
     (forall r', r' ∈ l1 -> exists k v, rbr_when r' !! k = Some v /\ v <> opt_jstr (attrs !! k)) /\
     select mk p proposal decision = (Some <$> to_binding mk r)) \/
  ((forall r', r' ∈ rbp_rules p ->
      exists k v, rbr_when r' !! k = Some v /\ v <> opt_jstr (attrs !! k)) /\
   select mk p proposal decision =
     match rbp_default p with Some d => Some <$> to_binding mk d | None => Ok None end).
Proof.
  intros attrs. unfold select, selected_rule. fold attrs.
  assert (Hno : forall r', matches r' attrs = false ->
            exists k v, rbr_when r' !! k = Some v /\ v <> opt_jstr (attrs !! k)).
  { intros r' Hf. unfold matches in Hf.
    apply forallb_false_exists in Hf as ([k v] & Hin & Hv).
    exists k, v. split; [by apply elem_of_map_to_list|].
    simpl in Hv. intros Heq. apply jeq_opt_eq in Heq. congruence. }
  destruct (find_first _ (rbp_rules p)) as [r|] eqn:Hf.
  - left. apply find_first_split in Hf as (l1 & l2 & Hl & Hr & Hall).
    exists l1, r, l2. split; [done|]. split; [by apply matches_spec|]. split.
    + intros r' Hin. apply Hno. rewrite Forall_forall in Hall. by apply Hall.
    + by destruct (to_binding mk r).
  - right. apply find_first_none in Hf. rewrite Forall_forall in Hf. split.
    + intros r' Hin. by apply Hno, Hf.
    + destruct (rbp_default p); [|done]. by destruct (to_binding mk r).
Qed.

(** the bundled policy, for every task type and lane, binds the
    subscription kind with the provider, model and profile of a small table:
    the two rules for tests never apply, because no task type has the value
    they filter on, so tests on the codex lane get the anthropic fallback. *)
Theorem default_policy_table mk proposal decision :
  select mk DEFAULT_POLICY proposal decision =
    (let '(provider, model, config_ref) :=
       bundled_choice (prop_task_type proposal) (dec_selected_lane decision) in
     Some <$> mk (JStr "cli_subscription") (JStr model) (JStr provider) JNull (JStr config_ref)).
Proof.
  unfold select, selected_rule, DEFAULT_POLICY, find_first. simpl.
  rewrite !matches_bundled.
  destruct (prop_task_type proposal), (dec_selected_lane decision); simpl;
    unfold to_binding; simpl; by destruct (mk _ _ _ _ _).
Qed.

(** A loaded policy keeps the file's rules, in order. *)
Lemma mapM_res_length {A B} (f : A -> res B) l ys : mapM_res f l = Ok ys -> length ys = length l.
Proof.
  revert ys. induction l as [|x l IH]; intros ys; simpl; [by intros [= <-]|].
  destruct (f x); simpl; [|done]. destruct (mapM_res f l) eqn:E; simpl; [|done].
  intros [= <-]. simpl. by rewrite (IH _ eq_refl).
Qed.

Example from_dict_example :
  (p <-? from_dict (JObj [("rules", JList [JObj [("name", JStr "a");
       ("when", JObj [("lane", JStr "codex_cli")]); ("bind", JObj [("model", JStr "m")])]]);
     ("default", JObj [("bind", JObj [("kind", JStr "k")])])]) ;;
   Ok (map rbr_model (rbp_rules p), rbr_name <$> rbp_default p, rbr_kind <$> rbp_default p))
  = Ok ([JStr "m"], Some (JStr "default"), Some (JStr "k")).
Proof. reflexivity. Qed.
