(* ===== verification/BackendHealth.v ===== *)
(** * Backend health registry

    backend_health/models.py and registry.py: per-backend records, the four
    transitions, and the invariant of every registry they can reach. *)
From S2P Require Import Prelude PyStr PyData Contracts.
From Stdlib Require Import Ascii.

(** ** models.py *)

Inductive BackendHealthState :=
  | BH_UNKNOWN | BH_HEALTHY | BH_DEGRADED | BH_UNSTABLE | BH_UNAVAILABLE
  | BH_RECOVERING | BH_OPERATOR_BLOCKED.

Inductive RecoveryStrategy :=
  | RS_NONE | RS_RETRY_AFTER_COOLDOWN | RS_RESTART_BACKEND | RS_RESTART_WATCHER
  | RS_REINITIALIZE_RUNTIME | RS_REDUCE_PRESSURE | RS_ESCALATE.

#[export] Instance BackendHealthState_eq_dec : EqDecision BackendHealthState.
Proof. solve_decision. Defined.
#[export] Instance RecoveryStrategy_eq_dec : EqDecision RecoveryStrategy.
Proof. solve_decision. Defined.

Record BackendFailure := {
  bf_signature : string;
  bf_timestamp : datetime;
  bf_exit_code : option Z;
  bf_signal : option string;
  bf_reason : option string }.

Record BackendHealthRecord := {
  bh_backend_id : string;
  bh_state : BackendHealthState;
  bh_failure_count : Z;
  bh_recovery_attempt_count : Z;
  bh_last_success_at : option datetime;
  bh_last_failure : option BackendFailure;
  bh_cooldown_until : option datetime;
  bh_safe_retry_after : option datetime;
  bh_recovery_strategy : RecoveryStrategy;
  bh_operator_blocked_reason : option string }.

(** [BackendHealthRecord(backend_id=backend_id)]. *)
Definition fresh_record (backend_id : string) : BackendHealthRecord :=
  {| bh_backend_id := backend_id; bh_state := BH_UNKNOWN; bh_failure_count := 0;
     bh_recovery_attempt_count := 0; bh_last_success_at := None; bh_last_failure := None;
     bh_cooldown_until := None; bh_safe_retry_after := None; bh_recovery_strategy := RS_NONE;
     bh_operator_blocked_reason := None |}.

(** ** registry.py *)

Record HealthTransition := {
  ht_backend_id : string;
  ht_previous : BackendHealthState;
  ht_current : BackendHealthState;
  ht_reason : string;
  ht_cooldown_applied : bool;
  ht_recovery_strategy : RecoveryStrategy }.

Definition extract_signal (reason : string) : option string :=
  let up := upper reason in
  if contains up "SIGKILL" then Some "SIGKILL"
  else if contains up "SIGNAL=9" || contains up "SIGNAL 9" then Some "SIGKILL"
  else if contains up "SIGTERM" then Some "SIGTERM"
  else None.

(** The digits after a token: an optional leading minus and the digits. *)
Definition exit_digits (rest : string) : string :=
  match rest with
  | String c s' => if Ascii.eqb c "-" then String c (take_while is_digit s')
                   else take_while is_digit rest
  | EmptyString => ""
  end.

Fixpoint exit_code_at (tokens : list string) (reason : string) : option Z :=
  match tokens with
  | [] => None
  | token :: tokens' =>
      match find reason token with
      | None => exit_code_at tokens' reason
      | Some idx =>
          let digits := exit_digits (str_drop (idx + String.length token) reason) in
          if str_truthy digits then int_of_digits digits else exit_code_at tokens' reason
      end
  end.

Definition extract_exit_code (reason : string) : option Z :=
  exit_code_at ["exit_code="; "exit="] reason.

(** Every [ExecutionStatus] is a non-empty string, so the last fallback of the
    source, [failure:unknown], is not reached. *)
Definition failure_signature (result : ExecutionResult) : string :=
  let reason := strip (str_or (res_failure_reason result) "") in
  match extract_signal reason with
  | Some signal => "signal:" +:+ signal
  | None =>
      match res_failure_category result with
      | Some c => "category:" +:+ FailureReasonCategory_value c
      | None => "status:" +:+ ExecutionStatus_value (res_status result)
      end
  end.

Record BackendHealthRegistry := {
  hr_cooldown_seconds : Z;
  hr_unstable_failure_threshold : Z;
  hr_unavailable_failure_threshold : Z;
  hr_records : gmap string BackendHealthRecord }.

(** [BackendHealthRegistry()]. *)
Definition default_registry : BackendHealthRegistry :=
  {| hr_cooldown_seconds := 1800; hr_unstable_failure_threshold := 2;
     hr_unavailable_failure_threshold := 5; hr_records := ∅ |}.

Definition get (reg : BackendHealthRegistry) (backend_id : string) : BackendHealthRecord :=
  default (fresh_record backend_id) (hr_records reg !! backend_id).

Definition put (reg : BackendHealthRegistry) (backend_id : string) (r : BackendHealthRecord)
    : BackendHealthRegistry :=
  {| hr_cooldown_seconds := hr_cooldown_seconds reg;
     hr_unstable_failure_threshold := hr_unstable_failure_threshold reg;
     hr_unavailable_failure_threshold := hr_unavailable_failure_threshold reg;
     hr_records := <[backend_id := r]> (hr_records reg) |}.

Definition record_success (reg : BackendHealthRegistry) (backend_id : string) (now : datetime)
    : BackendHealthRegistry * BackendHealthRecord * HealthTransition :=
  let previous := get reg backend_id in
  let current :=
    {| bh_backend_id := bh_backend_id previous; bh_state := BH_HEALTHY; bh_failure_count := 0;
       bh_recovery_attempt_count := bh_recovery_attempt_count previous;
       bh_last_success_at := Some now; bh_last_failure := bh_last_failure previous;
       bh_cooldown_until := None; bh_safe_retry_after := None; bh_recovery_strategy := RS_NONE;
       bh_operator_blocked_reason := None |} in
  (put reg backend_id current, current,
   {| ht_backend_id := backend_id; ht_previous := bh_state previous; ht_current := bh_state current;
      ht_reason := "execution_success"; ht_cooldown_applied := false;
      ht_recovery_strategy := RS_NONE |}).

(** The branch of [record_failure] that picks state, strategy and cooldown:
    [(state, strategy, cooldown_until, safe_retry_after, cooldown_applied)]. *)
Definition failure_outcome (reg : BackendHealthRegistry) (previous : BackendHealthRecord)
    (signal : option string) (failure_count : Z) (now : datetime)
    : BackendHealthState * RecoveryStrategy * option datetime * option datetime * bool :=
  if bool_decide (signal = Some "SIGKILL") then
    let until := Some (add_us now (seconds (hr_cooldown_seconds reg))) in
    (BH_UNSTABLE, RS_REDUCE_PRESSURE, until, until, true)
  else
    let until := bh_cooldown_until previous in
    let safe := bh_safe_retry_after previous in
    if (hr_unavailable_failure_threshold reg <=? failure_count)%Z then
      (BH_UNAVAILABLE, RS_ESCALATE, until, safe, false)
    else if (hr_unstable_failure_threshold reg <=? failure_count)%Z then
      (BH_UNSTABLE, RS_RETRY_AFTER_COOLDOWN, until, safe, false)
    else (BH_DEGRADED, RS_RETRY_AFTER_COOLDOWN, until, safe, false).

Definition record_failure (reg : BackendHealthRegistry) (backend_id : string)
    (result : ExecutionResult) (now : datetime)
    : BackendHealthRegistry * BackendHealthRecord * HealthTransition :=
  let previous := get reg backend_id in
  let signature := failure_signature result in
  let reason := str_or (res_failure_reason result) "" in
  let signal := extract_signal reason in
  let failure_count := (bh_failure_count previous + 1)%Z in
  let '(state, strategy, cooldown_until, safe_retry_after, cooldown_applied) :=
    failure_outcome reg previous signal failure_count now in
  let failure :=
    {| bf_signature := signature; bf_timestamp := now; bf_exit_code := extract_exit_code reason;
       bf_signal := signal; bf_reason := res_failure_reason result |} in
  let current :=
    {| bh_backend_id := bh_backend_id previous; bh_state := state;
       bh_failure_count := failure_count;
       bh_recovery_attempt_count := bh_recovery_attempt_count previous;
       bh_last_success_at := bh_last_success_at previous; bh_last_failure := Some failure;
       bh_cooldown_until := cooldown_until; bh_safe_retry_after := safe_retry_after;
       bh_recovery_strategy := strategy;
       bh_operator_blocked_reason := bh_operator_blocked_reason previous |} in
  (put reg backend_id current, current,
   {| ht_backend_id := backend_id; ht_previous := bh_state previous; ht_current := state;
      ht_reason := signature; ht_cooldown_applied := cooldown_applied;
      ht_recovery_strategy := strategy |}).

(** [with_update] of state, attempts, strategy and blocking reason. *)
Definition with_state (r : BackendHealthRecord) (s : BackendHealthState) (attempts : Z)
    (st : RecoveryStrategy) (blocked : option string) : BackendHealthRecord :=
  {| bh_backend_id := bh_backend_id r; bh_state := s; bh_failure_count := bh_failure_count r;
     bh_recovery_attempt_count := attempts; bh_last_success_at := bh_last_success_at r;
     bh_last_failure := bh_last_failure r; bh_cooldown_until := bh_cooldown_until r;
     bh_safe_retry_after := bh_safe_retry_after r; bh_recovery_strategy := st;
     bh_operator_blocked_reason := blocked |}.

Definition start_recovery (reg : BackendHealthRegistry) (backend_id : string)
    (strategy : RecoveryStrategy)
    : BackendHealthRegistry * BackendHealthRecord * HealthTransition :=
  let previous := get reg backend_id in
  let current := with_state previous BH_RECOVERING (bh_recovery_attempt_count previous + 1)
    strategy (bh_operator_blocked_reason previous) in
  (put reg backend_id current, current,
   {| ht_backend_id := backend_id; ht_previous := bh_state previous; ht_current := bh_state current;
      ht_reason := "recovery_attempt_started"; ht_cooldown_applied := false;
      ht_recovery_strategy := strategy |}).

Definition mark_operator_blocked (reg : BackendHealthRegistry) (backend_id reason : string)
    : BackendHealthRegistry * BackendHealthRecord * HealthTransition :=
  let previous := get reg backend_id in
  let current := with_state previous BH_OPERATOR_BLOCKED (bh_recovery_attempt_count previous)
    RS_ESCALATE (Some reason) in
  (put reg backend_id current, current,
   {| ht_backend_id := backend_id; ht_previous := bh_state previous; ht_current := bh_state current;
      ht_reason := reason; ht_cooldown_applied := false; ht_recovery_strategy := RS_ESCALATE |}).

(** ** The registry as a state machine *)

Inductive hop :=
  | HSuccess (backend_id : string) (now : datetime)
  | HFailure (backend_id : string) (result : ExecutionResult) (now : datetime)
  | HStart (backend_id : string) (strategy : RecoveryStrategy)
  | HBlock (backend_id reason : string).

Definition hop_id (o : hop) : string :=
  match o with HSuccess i _ | HFailure i _ _ | HStart i _ | HBlock i _ => i end.

Definition hstep (reg : BackendHealthRegistry) (o : hop)
    : BackendHealthRegistry * BackendHealthRecord * HealthTransition :=
  match o with
  | HSuccess i now => record_success reg i now
  | HFailure i r now => record_failure reg i r now
  | HStart i s => start_recovery reg i s
  | HBlock i r => mark_operator_blocked reg i r
  end.

Definition happly (reg : BackendHealthRegistry) (o : hop) : BackendHealthRegistry :=
  fst (fst (hstep reg o)).

(** Registries reachable from an empty one with the given settings. *)
Inductive reachable (cooldown unstable unavailable : Z) : BackendHealthRegistry -> Prop :=
  | reach_init :
      reachable cooldown unstable unavailable
        {| hr_cooldown_seconds := cooldown; hr_unstable_failure_threshold := unstable;
           hr_unavailable_failure_threshold := unavailable; hr_records := ∅ |}
  | reach_step reg o :
      reachable cooldown unstable unavailable reg ->
      reachable cooldown unstable unavailable (happly reg o).

(** The shape of a stored record: what each state promises. *)
Record record_wf (unstable unavailable : Z) (i : string) (r : BackendHealthRecord) : Prop := {
  rw_id : bh_backend_id r = i;
  rw_count : (0 <= bh_failure_count r)%Z;
  rw_attempts : (0 <= bh_recovery_attempt_count r)%Z;
  rw_known : bh_state r <> BH_UNKNOWN;
  rw_cooldown : bh_cooldown_until r = bh_safe_retry_after r;
  rw_healthy : bh_state r = BH_HEALTHY ->
    bh_failure_count r = 0%Z /\ bh_cooldown_until r = None /\
    bh_recovery_strategy r = RS_NONE /\ bh_operator_blocked_reason r = None /\
    is_Some (bh_last_success_at r);
  rw_degraded : bh_state r = BH_DEGRADED ->
    (1 <= bh_failure_count r < Z.min unstable unavailable)%Z /\
    bh_recovery_strategy r = RS_RETRY_AFTER_COOLDOWN;
  rw_unstable : bh_state r = BH_UNSTABLE ->
    (bh_recovery_strategy r = RS_REDUCE_PRESSURE /\ is_Some (bh_cooldown_until r)) \/
    ((unstable <= bh_failure_count r < unavailable)%Z /\
     bh_recovery_strategy r = RS_RETRY_AFTER_COOLDOWN);
  rw_unavailable : bh_state r = BH_UNAVAILABLE ->
    (unavailable <= bh_failure_count r)%Z /\ bh_recovery_strategy r = RS_ESCALATE;
  rw_recovering : bh_state r = BH_RECOVERING -> (1 <= bh_recovery_attempt_count r)%Z;
  rw_blocked : bh_state r = BH_OPERATOR_BLOCKED ->
    bh_recovery_strategy r = RS_ESCALATE /\ is_Some (bh_operator_blocked_reason r);
  rw_failure : (0 < bh_failure_count r)%Z -> is_Some (bh_last_failure r) }.

(** The part of the shape that does not depend on the state; the record of a
    backend that is not stored has it too. *)
Definition record_base (i : string) (r : BackendHealthRecord) : Prop :=
  bh_backend_id r = i /\ (0 <= bh_failure_count r)%Z /\ (0 <= bh_recovery_attempt_count r)%Z /\
  bh_cooldown_until r = bh_safe_retry_after r /\
  ((0 < bh_failure_count r)%Z -> is_Some (bh_last_failure r)).

Definition registry_wf (reg : BackendHealthRegistry) : Prop :=
  map_Forall (record_wf (hr_unstable_failure_threshold reg) (hr_unavailable_failure_threshold reg))
    (hr_records reg).

Lemma get_base reg i : registry_wf reg -> record_base i (get reg i).
Proof.
  intros Hwf. unfold get. destruct (hr_records reg !! i) as [r|] eqn:E; simpl.
  - destruct (Hwf _ _ E). unfold record_base. auto.
  - unfold record_base, fresh_record. simpl. repeat split; auto; lia.
Qed.

Lemma get_put_eq reg i r : get (put reg i r) i = r.
Proof. unfold get, put. simpl. by rewrite lookup_insert_eq. Qed.

Lemma get_put_ne reg i j r : i <> j -> get (put reg i r) j = get reg j.
Proof. intros H. unfold get, put. simpl. by rewrite lookup_insert_ne. Qed.

Lemma put_wf reg i r :
  registry_wf reg ->
  record_wf (hr_unstable_failure_threshold reg) (hr_unavailable_failure_threshold reg) i r ->
  registry_wf (put reg i r).
Proof. intros Hwf Hr. unfold registry_wf, put. simpl. by apply map_Forall_insert_2. Qed.

(** Every transition is one [put] of the record it returns. *)
Lemma hstep_put reg o :
  exists r, happly reg o = put reg (hop_id o) r /\ snd (fst (hstep reg o)) = r.
Proof.
  unfold happly. destruct o; simpl; eauto.
  unfold record_failure. destruct (failure_outcome _ _ _ _ _) as [[[[? ?] ?] ?] ?]. simpl. eauto.
Qed.

Ltac destruct_base H :=
  let Hid := fresh "Hid" in let Hc := fresh "Hc" in let Ha := fresh "Ha" in
  let Hcd := fresh "Hcd" in let Hf := fresh "Hf" in
  destruct H as (Hid & Hc & Ha & Hcd & Hf).

Lemma failure_record_wf reg i result now :
  registry_wf reg ->
  record_wf (hr_unstable_failure_threshold reg) (hr_unavailable_failure_threshold reg) i
    (snd (fst (record_failure reg i result now))).
Proof.
  intros Hwf. pose proof (get_base reg i Hwf) as Hb. destruct_base Hb.
  unfold record_failure, failure_outcome.
  case_bool_decide; [|destruct (hr_unavailable_failure_threshold reg <=? _)%Z eqn:E1;
    [|destruct (hr_unstable_failure_threshold reg <=? _)%Z eqn:E2]];
    boolify; constructor; simpl in *; try done; intros; repeat split; eauto; try lia.
Qed.

Lemma hstep_record_wf reg o :
  registry_wf reg ->
  record_wf (hr_unstable_failure_threshold reg) (hr_unavailable_failure_threshold reg) (hop_id o)
    (snd (fst (hstep reg o))).
Proof.
  intros Hwf. destruct o as [i now | i result now | i s | i reason]; simpl.
  2: by apply failure_record_wf.
  all: pose proof (get_base reg i Hwf) as Hb; destruct_base Hb;
    constructor; simpl; try done; intros; repeat split; eauto; lia.
Qed.

Lemma happly_wf reg o : registry_wf reg -> registry_wf (happly reg o).
Proof.
  intros Hwf. destruct (hstep_put reg o) as (r & -> & Hr).
  apply put_wf; [done|]. rewrite <-Hr. by apply hstep_record_wf.
Qed.

Lemma happly_settings reg o :
  hr_cooldown_seconds (happly reg o) = hr_cooldown_seconds reg /\
  hr_unstable_failure_threshold (happly reg o) = hr_unstable_failure_threshold reg /\
  hr_unavailable_failure_threshold (happly reg o) = hr_unavailable_failure_threshold reg.
Proof. by destruct (hstep_put reg o) as (r & -> & _). Qed.

(** C25: in every registry reachable by successes, failures, recoveries and
    operator blocks, each record has the shape its state promises: healthy
    means no failures, no cooldown and no pending strategy; degraded and
    unstable without a kill lie below and between the thresholds; unavailable
    is at the threshold and escalates; the cooldown is the safe retry time. *)
Theorem reachable_registry_wf cooldown unstable unavailable reg i r :
  reachable cooldown unstable unavailable reg ->
  hr_records reg !! i = Some r ->
  record_wf unstable unavailable i r.
Proof.
  intros Hreach Hr.
  assert (registry_wf reg /\ hr_unstable_failure_threshold reg = unstable /\
          hr_unavailable_failure_threshold reg = unavailable) as (Hwf & <- & <-).
  { clear Hr. induction Hreach as [|reg o _ (Hwf & H1 & H2)].
    - split; [apply map_Forall_empty | done].
    - split; [by apply happly_wf|]. destruct (happly_settings reg o) as (_ & -> & ->). done. }
  by apply Hwf.
Qed.

(** ** What the failure count means *)

(** Failures of a backend since its last success, read off the history
    (oldest first). *)
Definition failures_since_success (i : string) (ops : list hop) : Z :=
  fold_left (fun n o =>
    match o with
    | HSuccess j _ => if String.eqb j i then 0 else n
    | HFailure j _ _ => if String.eqb j i then n + 1 else n
    | _ => n
    end)%Z ops 0%Z.

Lemma hstep_frame reg o j : hop_id o <> j -> get (happly reg o) j = get reg j.
Proof. intros H. destruct (hstep_put reg o) as (r & -> & _). by apply get_put_ne. Qed.

Lemma happly_get reg o : get (happly reg o) (hop_id o) = snd (fst (hstep reg o)).
Proof. destruct (hstep_put reg o) as (r & -> & ->). apply get_put_eq. Qed.

Lemma record_failure_count reg i result now :
  bh_failure_count (snd (fst (record_failure reg i result now)))
    = (bh_failure_count (get reg i) + 1)%Z.
Proof.
  unfold record_failure. by destruct (failure_outcome _ _ _ _ _) as [[[[? ?] ?] ?] ?].
Qed.

Lemma happly_count reg o i :
  bh_failure_count (get (happly reg o) i) =
    match o with
    | HSuccess j _ => if String.eqb j i then 0 else bh_failure_count (get reg i)
    | HFailure j _ _ => if String.eqb j i then bh_failure_count (get reg i) + 1
                        else bh_failure_count (get reg i)
    | _ => bh_failure_count (get reg i)
    end%Z.
Proof.
  destruct (decide (hop_id o = i)) as [<- | Hne].
  - rewrite happly_get. destruct o; simpl; rewrite ?String.eqb_refl; try done.
    apply record_failure_count.
  - rewrite hstep_frame by done.
    destruct o; simpl in *; try done; by rewrite (proj2 (String.eqb_neq _ _) Hne).
Qed.

(** after any history of operations from an empty registry, a backend's
    failure count is the number of its failures since its last success, other
    backends' operations leaving it alone. *)
Theorem failure_count_is_history cooldown unstable unavailable ops i :
  bh_failure_count (get (fold_left happly ops
    {| hr_cooldown_seconds := cooldown; hr_unstable_failure_threshold := unstable;
       hr_unavailable_failure_threshold := unavailable; hr_records := ∅ |}) i)
  = failures_since_success i ops.
Proof.
  unfold failures_since_success.
  rewrite <-(rev_involutive ops). induction (rev ops) as [|o l IH]; [done|].
  simpl. rewrite !fold_left_app. simpl. rewrite happly_count, IH. by destruct o.
Qed.

(** ** Cooldowns *)

Lemma failure_transition reg i result now :
  ht_current (snd (record_failure reg i result now))
    = bh_state (snd (fst (record_failure reg i result now))) /\
  ht_cooldown_applied (snd (record_failure reg i result now))
    = bool_decide (extract_signal (str_or (res_failure_reason result) "") = Some "SIGKILL") /\
  (ht_cooldown_applied (snd (record_failure reg i result now)) = true ->
   ht_current (snd (record_failure reg i result now)) = BH_UNSTABLE).
Proof.
  unfold record_failure, failure_outcome.
  case_bool_decide; [done|]. destruct (hr_unavailable_failure_threshold reg <=? _)%Z; [done|].
  by destruct (hr_unstable_failure_threshold reg <=? _)%Z.
Qed.

(** a failure starts a cooldown exactly when its reason names a kill
    signal; the cooldown then ends the configured time after the failure, the
    backend is unstable and the strategy is to reduce pressure; any other
    failure keeps the cooldown that was there. *)
Theorem cooldown_iff_kill reg i result now :
  let '(reg', r, tr) := record_failure reg i result now in
  let killed := extract_signal (str_or (res_failure_reason result) "") = Some "SIGKILL" in
  (ht_cooldown_applied tr = true <-> killed) /\
  (killed -> bh_state r = BH_UNSTABLE /\ bh_recovery_strategy r = RS_REDUCE_PRESSURE /\
     bh_cooldown_until r = Some (add_us now (seconds (hr_cooldown_seconds reg))) /\
     ht_reason tr = failure_signature result) /\
  (~ killed -> bh_cooldown_until r = bh_cooldown_until (get reg i)) /\
  get reg' i = r.
Proof.
  unfold record_failure, failure_outcome.
  case_bool_decide as Hk; [|destruct (hr_unavailable_failure_threshold reg <=? _)%Z;
    [|destruct (hr_unstable_failure_threshold reg <=? _)%Z]]; simpl;
    rewrite get_put_eq; repeat split; try done; intros; try (by subst); contradiction.
Qed.

(** A failure after an operator block lifts the block's state (the reason
    stays recorded). *)
Example failure_lifts_operator_block :
  let reg1 := happly default_registry (HBlock "b" "quota contract") in
  let r := unsuccessful_result "r" "p" "d" FAILED BACKEND_ERROR "boom" in
  let rec := get (happly reg1 (HFailure "b" r (mk_datetime 0 true))) "b" in
  bh_state (get reg1 "b") = BH_OPERATOR_BLOCKED /\ bh_state rec = BH_DEGRADED /\
  bh_operator_blocked_reason rec = Some "quota contract".
Proof. vm_compute. repeat split; reflexivity. Qed.

Example exit_code_examples :
  map extract_exit_code ["died exit_code=-9 now"; "exit=3"; "exit_code= exit=7"; "exit=-"; ""]
  = [Some (-9); Some 3; Some 7; None; None]%Z.
Proof. reflexivity. Qed.

Lemma reachable_registry_wf_witness :
  let reg := happly default_registry (HSuccess "b" (mk_datetime 0 true)) in
  record_wf 2 5 "b" (get reg "b").
Proof.
  apply (reachable_registry_wf 1800 2 5
    (happly default_registry (HSuccess "b" (mk_datetime 0 true)))).
  - apply reach_step, reach_init.
  - reflexivity.
Defined.
