(* ===== verification/RecoveryModels.v ===== *)
(** * The recovery loop: data, classifier, handlers, policy

    execution/recovery_loop/{models,classifier,handlers,policy,timing}.py and
    recovery_policies/budget.py.  The protocols of the source (classifier,
    handler, budget checker) are records of operations; an implementation that
    is not in the repository may raise, so their results are in [res]. *)
From S2P Require Import Prelude PyStr PyData Contracts.
From Stdlib Require Import Ascii.

(** ** models.py *)

Inductive ExecutionFailureKind :=
  | K_NONE | K_TRANSIENT | K_TIMEOUT | K_RATE_LIMIT | K_AUTH | K_CONFIGURATION
  | K_CONTRACT_VIOLATION | K_BACKEND_UNAVAILABLE | K_UNKNOWN.

Definition ExecutionFailureKind_value (k : ExecutionFailureKind) : string :=
  match k with
  | K_NONE => "none"
  | K_TRANSIENT => "transient"
  | K_TIMEOUT => "timeout"
  | K_RATE_LIMIT => "rate_limit"
  | K_AUTH => "auth"
  | K_CONFIGURATION => "configuration"
  | K_CONTRACT_VIOLATION => "contract_violation"
  | K_BACKEND_UNAVAILABLE => "backend_unavailable"
  | K_UNKNOWN => "unknown"
  end.

Inductive AdapterErrorCode :=
  | A_TIMEOUT | A_RATE_LIMIT | A_AUTH_FAILED | A_BACKEND_UNAVAILABLE | A_CONTRACT_REJECTED
  | A_EXECUTOR_ERROR | A_UNKNOWN.

(** [AdapterErrorCode(token)]: [None] stands for [ValueError]. *)
Definition AdapterErrorCode_of (token : string) : option AdapterErrorCode :=
  if String.eqb token "timeout" then Some A_TIMEOUT
  else if String.eqb token "rate_limit" then Some A_RATE_LIMIT
  else if String.eqb token "auth_failed" then Some A_AUTH_FAILED
  else if String.eqb token "backend_unavailable" then Some A_BACKEND_UNAVAILABLE
  else if String.eqb token "contract_rejected" then Some A_CONTRACT_REJECTED
  else if String.eqb token "executor_error" then Some A_EXECUTOR_ERROR
  else if String.eqb token "unknown" then Some A_UNKNOWN
  else None.

Inductive RecoveryDecision :=
  | ACCEPT | RETRY_SAME_REQUEST | RETRY_MODIFIED_REQUEST | REJECT_UNRECOVERABLE
  | STOP_ATTEMPT_BUDGET_EXHAUSTED | STOP_COST_BUDGET_EXHAUSTED | STOP_IDEMPOTENCY_REQUIRED
  | STOP_BACKOFF_REQUIRED | STOP_COOLDOWN_REQUIRED.

Definition RecoveryDecision_value (d : RecoveryDecision) : string :=
  match d with
  | ACCEPT => "accept"
  | RETRY_SAME_REQUEST => "retry_same_request"
  | RETRY_MODIFIED_REQUEST => "retry_modified_request"
  | REJECT_UNRECOVERABLE => "reject_unrecoverable"
  | STOP_ATTEMPT_BUDGET_EXHAUSTED => "stop_attempt_budget_exhausted"
  | STOP_COST_BUDGET_EXHAUSTED => "stop_cost_budget_exhausted"
  | STOP_IDEMPOTENCY_REQUIRED => "stop_idempotency_required"
  | STOP_BACKOFF_REQUIRED => "stop_backoff_required"
  | STOP_COOLDOWN_REQUIRED => "stop_cooldown_required"
  end.

#[export] Instance ExecutionFailureKind_eq_dec : EqDecision ExecutionFailureKind.
Proof. solve_decision. Defined.
#[export] Instance AdapterErrorCode_eq_dec : EqDecision AdapterErrorCode.
Proof. solve_decision. Defined.
#[export] Instance RecoveryDecision_eq_dec : EqDecision RecoveryDecision.
Proof. solve_decision. Defined.

Record RecoveryAction := {
  ra_attempt : Z;
  ra_failure_kind : ExecutionFailureKind;
  ra_decision : RecoveryDecision;
  ra_reason : ReasonText;
  ra_handler_name : option string;
  ra_modified_fields : list string;
  ra_delay_seconds : option Q;
  ra_executor_exit_code : option Z;
  ra_executor_signal : option string;
  ra_retry_strategy_used : option string;
  ra_retry_strategy_changed : option bool;
  ra_remediation_attempt_number : option Z;
  ra_remediation_lineage_id : option string;
  ra_prior_failure_signature : option string }.

(** [RecoveryAction(attempt, failure_kind, decision, reason, handler_name,
    modified_fields, delay_seconds)], the other fields at their defaults. *)
Definition mk_action (attempt : Z) (kind : ExecutionFailureKind) (decision : RecoveryDecision)
    (reason : ReasonText) (handler_name : option string) (modified : list string)
    (delay : option Q) : RecoveryAction :=
  {| ra_attempt := attempt; ra_failure_kind := kind; ra_decision := decision; ra_reason := reason;
     ra_handler_name := handler_name; ra_modified_fields := modified; ra_delay_seconds := delay;
     ra_executor_exit_code := None; ra_executor_signal := None; ra_retry_strategy_used := None;
     ra_retry_strategy_changed := None; ra_remediation_attempt_number := None;
     ra_remediation_lineage_id := None; ra_prior_failure_signature := None |}.

Record RecoveryContext := {
  rc_original_request : ExecutionRequest;
  rc_current_request : ExecutionRequest;
  rc_attempt : Z;
  rc_previous_actions : list RecoveryAction }.

(** The request an outcome asks to execute next.  The coordinator compares it
    with the current request by identity: [NextCurrent] is that very object,
    [NextOther r] a different one. *)
Inductive NextRequest :=
  | NextCurrent
  | NextOther (r : ExecutionRequest).

Record RecoveryOutcome := {
  ro_decision : RecoveryDecision;
  ro_action : RecoveryAction;
  ro_next_request : option NextRequest;
  ro_requires_policy_revalidation : bool;
  ro_delay_seconds : option Q }.

(** [RecoveryOutcome(decision, action)]: no next request, no delay. *)
Definition final_outcome (d : RecoveryDecision) (a : RecoveryAction) : RecoveryOutcome :=
  {| ro_decision := d; ro_action := a; ro_next_request := None;
     ro_requires_policy_revalidation := false; ro_delay_seconds := None |}.

Record RecoveryMetadata := {
  rmd_attempts : Z;
  rmd_actions : list RecoveryAction;
  rmd_final_decision : RecoveryDecision;
  rmd_retry_refused_reason : option string }.

Definition is_retry (d : RecoveryDecision) : bool :=
  match d with RETRY_SAME_REQUEST | RETRY_MODIFIED_REQUEST => true | _ => false end.

(** The invariants RecoveryOutcome's documentation states. *)
Record outcome_wf (max_delay : Q) (o : RecoveryOutcome) : Prop := {
  ow_stop : is_retry (ro_decision o) = false -> ro_next_request o = None;
  ow_retry : is_retry (ro_decision o) = true -> is_Some (ro_next_request o);
  ow_modified : ro_decision o = RETRY_MODIFIED_REQUEST ->
    ro_requires_policy_revalidation o = true;
  ow_delay : forall d, ro_delay_seconds o = Some d -> (d <= max_delay)%Q }.

(** ** policy.py *)

Record RecoveryPolicy := {
  rpol_max_attempts : Z;
  rpol_retry_unknowns : bool;
  rpol_unknown_retry_limit : Z;
  rpol_retryable_kinds : list ExecutionFailureKind;
  rpol_non_retryable_kinds : list ExecutionFailureKind;
  rpol_pre_send_failure_kinds : list ExecutionFailureKind;
  rpol_rate_limit_retry_requires_backoff : bool;
  rpol_max_delay_seconds : Q }.

(** [k in kinds] on a frozenset. *)
Definition kind_in (k : ExecutionFailureKind) (kinds : list ExecutionFailureKind) : bool :=
  bool_decide (k ∈ kinds).

(** [RecoveryPolicy(max_attempts=.., retry_unknowns=.., unknown_retry_limit=..,
    max_delay_seconds=..)], the kind sets at their defaults. *)
Definition policy_with (max_attempts : Z) (retry_unknowns : bool) (unknown_retry_limit : Z)
    (max_delay_seconds : Q) : RecoveryPolicy :=
  {| rpol_max_attempts := max_attempts; rpol_retry_unknowns := retry_unknowns;
     rpol_unknown_retry_limit := unknown_retry_limit;
     rpol_retryable_kinds := [K_TRANSIENT; K_TIMEOUT; K_BACKEND_UNAVAILABLE];
     rpol_non_retryable_kinds := [K_AUTH; K_CONTRACT_VIOLATION; K_CONFIGURATION; K_UNKNOWN];
     rpol_pre_send_failure_kinds := [K_BACKEND_UNAVAILABLE];
     rpol_rate_limit_retry_requires_backoff := true;
     rpol_max_delay_seconds := max_delay_seconds |}.

(** [RecoveryPolicy()]. *)
Definition default_policy : RecoveryPolicy := policy_with 1 false 0 30.

Record RetryBudgetChecker := {
  bc_type_name : string;
  bc_can_retry : ExecutionRequest -> RecoveryContext -> res bool }.

Definition NoPaidRetryBudgetChecker : RetryBudgetChecker :=
  {| bc_type_name := "NoPaidRetryBudgetChecker"; bc_can_retry := fun _ _ => Ok false |}.
Definition UnboundedRetryBudgetChecker : RetryBudgetChecker :=
  {| bc_type_name := "UnboundedRetryBudgetChecker"; bc_can_retry := fun _ _ => Ok true |}.

(** ** config/settings.py and entrypoints/execute/main.py: the live policy *)

Record RecoverySettings := {
  rs_max_attempts : Z;
  rs_max_delay_seconds : Q;
  rs_retry_unknowns : bool;
  rs_unknown_retry_limit : Z }.

Definition build_recovery_policy (rec : RecoverySettings) : RecoveryPolicy :=
  policy_with (rs_max_attempts rec) (rs_retry_unknowns rec) (rs_unknown_retry_limit rec)
    (rs_max_delay_seconds rec).

(** ** classifier.py *)

Record FailureClassifier := {
  fc_classify : ExecutionResult -> RecoveryContext -> res ExecutionFailureKind }.

Definition adapter_error_code (result : ExecutionResult) : option AdapterErrorCode :=
  let reason := str_or (res_failure_reason result) "" in
  let prefix := "adapter_error_code=" in
  if startswith reason prefix then
    AdapterErrorCode_of
      (lower (strip (before_char ":" (str_drop (String.length prefix) reason))))
  else None.

Definition code_kind (c : AdapterErrorCode) : option ExecutionFailureKind :=
  match c with
  | A_RATE_LIMIT => Some K_RATE_LIMIT
  | A_BACKEND_UNAVAILABLE => Some K_BACKEND_UNAVAILABLE
  | A_AUTH_FAILED => Some K_AUTH
  | A_CONTRACT_REJECTED => Some K_CONTRACT_VIOLATION
  | A_EXECUTOR_ERROR => Some K_TRANSIENT
  | A_TIMEOUT => Some K_TIMEOUT
  | A_UNKNOWN => None
  end.

Definition classify (result : ExecutionResult) : ExecutionFailureKind :=
  let category := res_failure_category result in
  if res_success result then K_NONE
  else if bool_decide (res_status result = TIMED_OUT) || bool_decide (category = Some FC_TIMEOUT)
  then K_TIMEOUT
  else if bool_decide (category = Some POLICY_BLOCKED) then K_CONFIGURATION
  else if bool_decide (category = Some VALIDATION_FAILED) then K_CONTRACT_VIOLATION
  else if bool_decide (category = Some ROUTING_ERROR) then K_CONFIGURATION
  else match adapter_error_code result ≫= code_kind with
       | Some mapped => mapped
       | None => K_UNKNOWN
       end.

Definition DefaultFailureClassifier : FailureClassifier :=
  {| fc_classify := fun result _ => Ok (classify result) |}.

(** ** handlers.py *)

Record RecoveryHandler := {
  rh_name : string;
  rh_recover : ExecutionFailureKind -> ExecutionResult -> RecoveryContext ->
               res (option RecoveryOutcome) }.

(** What the engine and the coordinator rely on in a handler: an outcome it
    returns keeps the documented invariants of outcomes, delays apart (the
    engine clamps them). *)
Class LawfulHandler (h : RecoveryHandler) : Prop := {
  handler_stop k r c o : rh_recover h k r c = Ok (Some o) ->
    is_retry (ro_decision o) = false -> ro_next_request o = None;
  handler_retry k r c o : rh_recover h k r c = Ok (Some o) ->
    is_retry (ro_decision o) = true -> is_Some (ro_next_request o);
  handler_modified k r c o : rh_recover h k r c = Ok (Some o) ->
    ro_decision o = RETRY_MODIFIED_REQUEST -> ro_requires_policy_revalidation o = true }.

Definition retry_same_recover (kinds : list ExecutionFailureKind)
    (kind : ExecutionFailureKind) (context : RecoveryContext) : option RecoveryOutcome :=
  if kind_in kind kinds then
    Some {| ro_decision := RETRY_SAME_REQUEST;
            ro_action := mk_action (rc_attempt context) kind RETRY_SAME_REQUEST
              (RText ("retryable failure kind: " +:+ ExecutionFailureKind_value kind))
              (Some "retry_same_request") [] None;
            ro_next_request := Some NextCurrent;
            ro_requires_policy_revalidation := false;
            ro_delay_seconds := None |}
  else None.

Definition RetrySameRequestHandler (kinds : list ExecutionFailureKind) : RecoveryHandler :=
  {| rh_name := "retry_same_request";
     rh_recover := fun kind _ context => Ok (retry_same_recover kinds kind context) |}.

Definition reject_recover (kinds : list ExecutionFailureKind)
    (kind : ExecutionFailureKind) (context : RecoveryContext) : option RecoveryOutcome :=
  if kind_in kind kinds then
    Some (final_outcome REJECT_UNRECOVERABLE
            (mk_action (rc_attempt context) kind REJECT_UNRECOVERABLE
               (RText ("non-retryable failure kind: " +:+ ExecutionFailureKind_value kind))
               (Some "reject_unrecoverable") [] None))
  else None.

Definition RejectUnrecoverableHandler (kinds : list ExecutionFailureKind) : RecoveryHandler :=
  {| rh_name := "reject_unrecoverable";
     rh_recover := fun kind _ context => Ok (reject_recover kinds kind context) |}.

#[export] Instance RetrySameRequestHandler_lawful kinds :
  LawfulHandler (RetrySameRequestHandler kinds).
Proof.
  split; simpl; intros k r c o H; injection H as H; unfold retry_same_recover in H;
    destruct (kind_in k kinds); try done; injection H as <-; simpl; done.
Qed.

#[export] Instance RejectUnrecoverableHandler_lawful kinds :
  LawfulHandler (RejectUnrecoverableHandler kinds).
Proof.
  split; simpl; intros k r c o H; injection H as H; unfold reject_recover in H;
    destruct (kind_in k kinds); try done; injection H as <-; simpl; done.
Qed.

(** ** timing.py *)

(** The duration [bounded_sleep] sleeps and returns. *)
Definition bounded_sleep (delay_seconds max_delay_seconds : Q) : Q :=
  py_maxQ 0 (py_minQ delay_seconds max_delay_seconds).

Lemma bounded_sleep_bounds d m :
  (0 <= m)%Q -> (0 <= bounded_sleep d m)%Q /\ (bounded_sleep d m <= m)%Q.
Proof.
  intros Hm. unfold bounded_sleep. split; [apply py_maxQ_ge_l|].
  apply py_maxQ_lub; [done | apply py_minQ_le_r].
Qed.

(** ** recovery_policies/budget.py *)

Record RecoveryBudget := {
  rb_max_cycles_before_escalation : Z;
  rb_max_equivalent_retries : Z;
  rb_max_recovery_attempts : Z }.

Definition default_budget : RecoveryBudget :=
  {| rb_max_cycles_before_escalation := 3; rb_max_equivalent_retries := 2;
     rb_max_recovery_attempts := 5 |}.

Record RecoveryBudgetDecision := {
  rbd_allowed : bool;
  rbd_reason : string;
  rbd_escalate : bool }.

Record RecoveryBudgetTracker := {
  bt_budget : RecoveryBudget;
  bt_cycles : Z;
  bt_equivalent_retries : Z;
  bt_recovery_attempts : Z }.

Definition new_tracker (budget : RecoveryBudget) : RecoveryBudgetTracker :=
  {| bt_budget := budget; bt_cycles := 0; bt_equivalent_retries := 0; bt_recovery_attempts := 0 |}.

Definition exceeded (reason : string) : RecoveryBudgetDecision :=
  {| rbd_allowed := false; rbd_reason := reason; rbd_escalate := true |}.
Definition available (reason : string) : RecoveryBudgetDecision :=
  {| rbd_allowed := true; rbd_reason := reason; rbd_escalate := false |}.

Definition record_cycle (t : RecoveryBudgetTracker) (evidence_changed : bool)
    : RecoveryBudgetTracker * RecoveryBudgetDecision :=
  let cycles := (if evidence_changed then 0 else bt_cycles t + 1)%Z in
  ({| bt_budget := bt_budget t; bt_cycles := cycles;
      bt_equivalent_retries := bt_equivalent_retries t;
      bt_recovery_attempts := bt_recovery_attempts t |},
   if (rb_max_cycles_before_escalation (bt_budget t) <? cycles)%Z
   then exceeded "max unchanged recovery cycles exceeded"
   else available "cycle budget available").

Definition record_retry (t : RecoveryBudgetTracker) (equivalent : bool)
    : RecoveryBudgetTracker * RecoveryBudgetDecision :=
  let n := (if equivalent then bt_equivalent_retries t + 1 else 0)%Z in
  ({| bt_budget := bt_budget t; bt_cycles := bt_cycles t; bt_equivalent_retries := n;
      bt_recovery_attempts := bt_recovery_attempts t |},
   if (rb_max_equivalent_retries (bt_budget t) <? n)%Z
   then exceeded "max equivalent retries exceeded"
   else available "retry budget available").

Definition record_recovery_attempt (t : RecoveryBudgetTracker)
    : RecoveryBudgetTracker * RecoveryBudgetDecision :=
  let n := (bt_recovery_attempts t + 1)%Z in
  ({| bt_budget := bt_budget t; bt_cycles := bt_cycles t;
      bt_equivalent_retries := bt_equivalent_retries t; bt_recovery_attempts := n |},
   if (rb_max_recovery_attempts (bt_budget t) <? n)%Z
   then exceeded "max recovery attempts exceeded"
   else available "recovery attempt budget available").

(** ** The tracker over a history *)

Inductive budget_op :=
  | BCycle (evidence_changed : bool)
  | BRetry (equivalent : bool)
  | BAttempt.

Definition bstep (t : RecoveryBudgetTracker) (o : budget_op)
    : RecoveryBudgetTracker * RecoveryBudgetDecision :=
  match o with
  | BCycle c => record_cycle t c
  | BRetry e => record_retry t e
  | BAttempt => record_recovery_attempt t
  end.

Definition brun (t : RecoveryBudgetTracker) (ops : list budget_op) : RecoveryBudgetTracker :=
  fold_left (fun t o => fst (bstep t o)) ops t.

(** The length of the run of [true] flags at the end of a list. *)
Definition trailing (flags : list bool) : Z :=
  fold_left (fun n (b : bool) => if b then n + 1 else 0)%Z flags 0%Z.

Definition cycle_flags (ops : list budget_op) : list bool :=
  omap (fun o => match o with BCycle c => Some (negb c) | _ => None end) ops.
Definition retry_flags (ops : list budget_op) : list bool :=
  omap (fun o => match o with BRetry e => Some e | _ => None end) ops.
Definition attempts_in (ops : list budget_op) : Z :=
  count_if (fun o => match o with BAttempt => true | _ => false end) ops.

Lemma trailing_snoc l b : trailing (l ++ [b]) = (if b then trailing l + 1 else 0)%Z.
Proof. unfold trailing. by rewrite fold_left_app. Qed.

Lemma brun_counters budget ops :
  let t := brun (new_tracker budget) ops in
  bt_budget t = budget /\ bt_cycles t = trailing (cycle_flags ops) /\
  bt_equivalent_retries t = trailing (retry_flags ops) /\
  bt_recovery_attempts t = attempts_in ops.
Proof.
  unfold brun, cycle_flags, retry_flags, attempts_in.
  induction ops as [|o ops IH] using rev_ind; [done|].
  rewrite fold_left_app. simpl. destruct IH as (Hb & Hc & Hr & Ha).
  rewrite !omap_app, count_if_app.
  destruct o; simpl; rewrite ?trailing_snoc, ?app_nil_r, ?Hb, ?Hc, ?Hr, ?Ha; repeat split;
    unfold count_if; simpl; try lia; by destruct evidence_changed.
Qed.

(** after any history, an operation is refused (and escalated) exactly
    when the run of unchanged cycles, or of equivalent retries, that it ends
    is longer than its budget, or the recovery attempts so far exceed theirs;
    changed evidence and a non-equivalent retry start their run afresh. *)
Theorem budget_escalates_iff budget ops o :
  let d := snd (bstep (brun (new_tracker budget) ops) o) in
  rbd_escalate d = negb (rbd_allowed d) /\
  (rbd_allowed d = false <->
   match o with
   | BCycle c => (rb_max_cycles_before_escalation budget
                  < trailing (cycle_flags ops ++ [negb c]))%Z
   | BRetry e => (rb_max_equivalent_retries budget < trailing (retry_flags ops ++ [e]))%Z
   | BAttempt => (rb_max_recovery_attempts budget < attempts_in ops + 1)%Z
   end).
Proof.
  destruct (brun_counters budget ops) as (Hb & Hc & Hr & Ha).
  destruct o as [c | e |]; simpl; rewrite Hb, ?Hc, ?Hr, ?Ha, ?trailing_snoc.
  - rewrite <-Z.ltb_lt. destruct c; simpl; destruct (_ <? _)%Z; simpl; naive_solver.
  - rewrite <-Z.ltb_lt. destruct (_ <? _)%Z; simpl; naive_solver.
  - rewrite <-Z.ltb_lt. destruct (_ <? _)%Z; simpl; naive_solver.
Qed.

(** ** Classification *)

Lemma AdapterErrorCode_unavailable token :
  AdapterErrorCode_of token ≫= code_kind = Some K_BACKEND_UNAVAILABLE <->
  token = "backend_unavailable".
Proof.
  unfold AdapterErrorCode_of.
  repeat match goal with
  | |- context [String.eqb token ?s] =>
      destruct (String.eqb_spec token s) as [->|?]; [naive_solver|]
  end.
  naive_solver.
Qed.

Lemma certified_code result :
  match adapter_error_code result ≫= code_kind with Some mapped => mapped | None => K_UNKNOWN end
    = K_BACKEND_UNAVAILABLE <->
  exists reason rest, res_failure_reason result = Some reason /\
    reason = "adapter_error_code=" +:+ rest /\
    lower (strip (before_char ":" rest)) = "backend_unavailable".
Proof.
  transitivity (adapter_error_code result ≫= code_kind = Some K_BACKEND_UNAVAILABLE).
  { destruct (adapter_error_code result ≫= code_kind); naive_solver. }
  unfold adapter_error_code.
  destruct (startswith _ _) eqn:E.
  - apply startswith_inv in E as [rest E]. rewrite E, (str_drop_app "adapter_error_code=" rest).
    rewrite AdapterErrorCode_unavailable. split.
    + intros H. exists (str_or (res_failure_reason result) ""), rest.
      split; [|done]. destruct (res_failure_reason result) as [[|c s]|]; done.
    + intros (reason & rest' & Hr & -> & H). rewrite Hr in E. simpl in E.
      injection E as E. change (rest' = rest) in E. by subst rest'.
  - split; [done|]. intros (reason & rest & Hr & -> & _). rewrite Hr in E.
    change (startswith ("adapter_error_code=" +:+ rest) "adapter_error_code=" = false) in E.
    by rewrite startswith_app in E.
Qed.

Lemma unavailable_certified result :
  classify result = K_BACKEND_UNAVAILABLE ->
  exists rest, res_failure_reason result = Some ("adapter_error_code=" +:+ rest) /\
    lower (strip (before_char ":" rest)) = "backend_unavailable".
Proof.
  unfold classify. destruct (res_success result); [done|].
  repeat (case_bool_decide; [done|]; simpl).
  rewrite certified_code. naive_solver.
Qed.

(** a failure is classified as one that never reached the backend exactly
    when its reason carries the adapter's own certification (the prefix
    adapter_error_code=backend_unavailable, up to case and spaces, before any
    colon) and no structured field says otherwise. *)
Theorem unavailable_only_if_certified result :
  classify result = K_BACKEND_UNAVAILABLE <->
  res_success result = false /\ res_status result <> TIMED_OUT /\
  res_failure_category result ∉
    [Some FC_TIMEOUT; Some POLICY_BLOCKED; Some VALIDATION_FAILED; Some ROUTING_ERROR] /\
  exists reason rest, res_failure_reason result = Some reason /\
    reason = "adapter_error_code=" +:+ rest /\
    lower (strip (before_char ":" rest)) = "backend_unavailable".
Proof.
  unfold classify. rewrite !not_elem_of_cons.
  destruct (res_success result); [split; [done | by intros (? & _)]|].
  case_bool_decide as Hs; [split; [done | by intros (_ & ? & _)]|].
  case_bool_decide as H1; simpl; [split; [done | by intros (_ & _ & (? & _) & _)]|].
  case_bool_decide as H2; [split; [done | by intros (_ & _ & (_ & ? & _) & _)]|].
  case_bool_decide as H3; [split; [done | by intros (_ & _ & (_ & _ & ? & _) & _)]|].
  case_bool_decide as H4; [split; [done | by intros (_ & _ & (_ & _ & _ & ? & _) & _)]|].
  rewrite certified_code. split; [|by intros (_ & _ & _ & ?)].
  intros H. repeat (split; [done|]). split; [|done].
  repeat (split; [done|]). apply not_elem_of_nil.
Qed.
