(* ===== verification/RecoveryEngine.v ===== *)
(** * The recovery engine

    execution/recovery_loop/engine.py and the package's helpers
    ([metadata_to_summary], [attach_recovery_metadata],
    [build_default_engine]): the rules in the order of the code, the health
    registry as the engine's only mutable state, and the safety of retries. *)
From S2P Require Import Prelude PyStr PyData Contracts BackendHealth RecoveryModels.
From Stdlib Require Import Ascii.

(** ** Hints read from the failure reason *)

Definition RETRY_AFTER_KEYS : list string := ["retry_after"; "retry_after_seconds"].

Definition dot_digit (c : ascii) : bool := is_digit c || Ascii.eqb c ".".

Fixpoint retry_after_at (keys : list string) (reason : string) : option Q :=
  match keys with
  | [] => None
  | key :: keys' =>
      let token := key +:+ "=" in
      match find reason token with
      | None => retry_after_at keys' reason
      | Some idx =>
          let rest := str_drop (idx + String.length token) reason in
          let number := take_while dot_digit rest in
          if String.eqb number "" then retry_after_at keys' reason
          else match float_of_digits number with
               | None => retry_after_at keys' reason
               | Some value =>
                   if Qlt_b 0 value then Some value else retry_after_at keys' reason
               end
      end
  end.

Definition retry_after_seconds (result : ExecutionResult) : option Q :=
  retry_after_at RETRY_AFTER_KEYS (str_or (res_failure_reason result) "").

Definition backend_id (context : RecoveryContext) : option string :=
  let binding_kind :=
    match req_runtime_binding (rc_current_request context) with
    | Some b => if str_truthy (rb_kind b) then Some (rb_kind b) else None
    | None => None
    end in
  match req_bound_target (rc_current_request context) with
  | Some t => if str_truthy (bt_backend t) then Some (bt_backend t) else binding_kind
  | None => binding_kind
  end.

(** ** The engine *)

Record RecoveryEngine := {
  re_classifier : FailureClassifier;
  re_policy : RecoveryPolicy;
  re_handlers : list RecoveryHandler;
  re_budget_checker : option RetryBudgetChecker }.

(** An outcome that ends the loop, with the action that records it. *)
Definition stop_with (context : RecoveryContext) (kind : ExecutionFailureKind)
    (d : RecoveryDecision) (reason : ReasonText) (handler : option string) : RecoveryOutcome :=
  final_outcome d (mk_action (rc_attempt context) kind d reason handler [] None).

(** The registry update after classification, and the transition's reason
    when it applied a cooldown the loop must respect. *)
Definition health_step (reg : option BackendHealthRegistry) (context : RecoveryContext)
    (result : ExecutionResult) (now : datetime)
    : option BackendHealthRegistry * option string :=
  match reg, backend_id context with
  | Some r, Some id =>
      let '(r', _, transition) := record_failure r id result now in
      (Some r',
       if (bool_decide (ht_current transition = BH_UNSTABLE)
           || bool_decide (ht_current transition = BH_UNAVAILABLE))
          && ht_cooldown_applied transition
       then Some (ht_reason transition) else None)
  | _, _ => (reg, None)
  end.

Definition unknown_retries_used (context : RecoveryContext) : Z :=
  count_if (fun a => bool_decide (ra_failure_kind a = K_UNKNOWN)) (rc_previous_actions context).

(** Rule 3: [Some reason] when an unknown failure is rejected. *)
Definition unknown_rejected (p : RecoveryPolicy) (context : RecoveryContext)
    (kind : ExecutionFailureKind) : option string :=
  if bool_decide (kind = K_UNKNOWN) then
    if negb (rpol_retry_unknowns p) then Some "UNKNOWN failure with retry_unknowns disabled"
    else
      let used := unknown_retries_used context in
      if (rpol_unknown_retry_limit p <=? used)%Z then
        Some ("UNKNOWN retry limit reached (" +:+ str_of_Z used +:+ "/" +:+
              str_of_Z (rpol_unknown_retry_limit p) +:+ ")")
      else None
  else None.

(** Rule 7: does the budget checker refuse? *)
Definition budget_refuses (checker : option RetryBudgetChecker) (context : RecoveryContext)
    : res (option string) :=
  match checker with
  | None => Ok None
  | Some c =>
      allowed <-? bc_can_retry c (rc_current_request context) context ;;
      Ok (if allowed : bool then None
          else Some ("retry budget checker " +:+ bc_type_name c +:+ " refused retry"))
  end.

(** Rules 8 and 9: a refusal for lack of backoff, or the delay to apply. *)
Definition rate_limit_backoff (p : RecoveryPolicy) (kind : ExecutionFailureKind)
    (result : ExecutionResult) : ReasonText + option Q :=
  if bool_decide (kind = K_RATE_LIMIT) && rpol_rate_limit_retry_requires_backoff p then
    match retry_after_seconds result with
    | None => inl (RText "RATE_LIMIT without usable retry_after metadata")
    | Some ra =>
        if Qlt_b (rpol_max_delay_seconds p) ra
        then inl (RRetryAfterExceeds ra (rpol_max_delay_seconds p))
        else inr (Some ra)
    end
  else inr None.

(** Rules 10 to 12: the first handler that applies, its delay clamped. *)
Fixpoint run_handlers (p : RecoveryPolicy) (handlers : list RecoveryHandler)
    (kind : ExecutionFailureKind) (result : ExecutionResult) (context : RecoveryContext)
    (delay_seconds : option Q) : res RecoveryOutcome :=
  match handlers with
  | [] => Ok (stop_with context kind REJECT_UNRECOVERABLE
                (RText "no handler returned an outcome") None)
  | h :: handlers' =>
      o <-? rh_recover h kind result context ;;
      match o with
      | None => run_handlers p handlers' kind result context delay_seconds
      | Some outcome =>
          let final_delay :=
            match ro_delay_seconds outcome with Some d => Some d | None => delay_seconds end in
          Ok {| ro_decision := ro_decision outcome;
                ro_action := ro_action outcome;
                ro_next_request := ro_next_request outcome;
                ro_requires_policy_revalidation := ro_requires_policy_revalidation outcome;
                ro_delay_seconds :=
                  (fun d => py_minQ d (rpol_max_delay_seconds p)) <$> final_delay |}
      end
  end.

(** Rules 3 to 12, after classification and the cooldown check. *)
Definition decide_retry (eng : RecoveryEngine) (kind : ExecutionFailureKind)
    (result : ExecutionResult) (context : RecoveryContext) : res RecoveryOutcome :=
  let p := re_policy eng in
  let stop d reason := Ok (stop_with context kind d (RText reason) None) in
  match unknown_rejected p context kind with
  | Some reason => stop REJECT_UNRECOVERABLE reason
  | None =>
  if (rpol_max_attempts p <=? rc_attempt context)%Z then
    stop STOP_ATTEMPT_BUDGET_EXHAUSTED
      ("attempt " +:+ str_of_Z (rc_attempt context) +:+ " reached max_attempts=" +:+
       str_of_Z (rpol_max_attempts p))
  else if kind_in kind (rpol_non_retryable_kinds p) then
    stop REJECT_UNRECOVERABLE
      ("failure kind " +:+ ExecutionFailureKind_value kind +:+ " is non-retryable per policy")
  else if negb (req_idempotent (rc_current_request context))
          && negb (kind_in kind (rpol_pre_send_failure_kinds p)) then
    stop STOP_IDEMPOTENCY_REQUIRED
      ("non-idempotent request and failure " +:+ ExecutionFailureKind_value kind +:+
       " is not in pre_send_failure_kinds")
  else
    refused <-? budget_refuses (re_budget_checker eng) context ;;
    match refused with
    | Some reason => stop STOP_COST_BUDGET_EXHAUSTED reason
    | None =>
        match rate_limit_backoff p kind result with
        | inl reason => Ok (stop_with context kind STOP_BACKOFF_REQUIRED reason None)
        | inr delay => run_handlers p (re_handlers eng) kind result context delay
        end
    end
  end.

Definition evaluate (eng : RecoveryEngine) (reg : option BackendHealthRegistry)
    (result : ExecutionResult) (context : RecoveryContext) (now : datetime)
    : option BackendHealthRegistry * res RecoveryOutcome :=
  if res_success result then
    (reg, Ok (stop_with context K_NONE ACCEPT (RText "result.success is True") None))
  else
    match fc_classify (re_classifier eng) result context with
    | Raise e => (reg, Raise e)
    | Ok kind =>
        let '(reg', cooldown) := health_step reg context result now in
        match cooldown with
        | Some reason =>
            (reg', Ok (stop_with context kind STOP_COOLDOWN_REQUIRED
               (RText ("backend health registry applied cooldown after " +:+ reason))
               (Some "backend_health_registry")))
        | None => (reg', decide_retry eng kind result context)
        end
    end.

(** ** __init__.py *)

Definition action_summary (a : RecoveryAction) : RecoveryActionSummary :=
  {| ras_attempt := ra_attempt a;
     ras_failure_kind := ExecutionFailureKind_value (ra_failure_kind a);
     ras_decision := RecoveryDecision_value (ra_decision a); ras_reason := ra_reason a;
     ras_handler_name := ra_handler_name a; ras_modified_fields := ra_modified_fields a;
     ras_delay_seconds := ra_delay_seconds a;
     ras_executor_exit_code := ra_executor_exit_code a;
     ras_executor_signal := ra_executor_signal a;
     ras_retry_strategy_used := ra_retry_strategy_used a;
     ras_retry_strategy_changed := ra_retry_strategy_changed a;
     ras_remediation_attempt_number := ra_remediation_attempt_number a;
     ras_remediation_lineage_id := ra_remediation_lineage_id a;
     ras_prior_failure_signature := ra_prior_failure_signature a |}.

Definition metadata_to_summary (m : RecoveryMetadata) : RecoveryMetadataSummary :=
  {| rms_attempts := rmd_attempts m;
     rms_actions := map action_summary (rmd_actions m);
     rms_final_decision := RecoveryDecision_value (rmd_final_decision m);
     rms_retry_refused_reason := rmd_retry_refused_reason m |}.

Definition refused_reason (d : RecoveryDecision) : option string :=
  match d with
  | STOP_ATTEMPT_BUDGET_EXHAUSTED => Some "attempt budget exhausted"
  | STOP_COST_BUDGET_EXHAUSTED => Some "cost budget exhausted"
  | STOP_IDEMPOTENCY_REQUIRED => Some "non-idempotent request, retry refused"
  | STOP_BACKOFF_REQUIRED => Some "rate-limit retry requires bounded backoff"
  | STOP_COOLDOWN_REQUIRED => Some "backend cooldown active"
  | REJECT_UNRECOVERABLE => Some "non-retryable failure"
  | ACCEPT | RETRY_SAME_REQUEST | RETRY_MODIFIED_REQUEST => None
  end.

Definition attach_recovery_metadata (result : ExecutionResult) (actions : list RecoveryAction)
    : ExecutionResult :=
  match last actions with
  | None => result
  | Some a =>
      with_recovery result (metadata_to_summary
        {| rmd_attempts := ra_attempt a; rmd_actions := actions;
           rmd_final_decision := ra_decision a;
           rmd_retry_refused_reason := refused_reason (ra_decision a) |})
  end.

Definition build_default_engine (p : RecoveryPolicy) : RecoveryEngine :=
  {| re_classifier := DefaultFailureClassifier; re_policy := p;
     re_handlers := [RetrySameRequestHandler (rpol_retryable_kinds p);
                     RejectUnrecoverableHandler (rpol_non_retryable_kinds p)];
     re_budget_checker := None |}.

(** ** Retry guards *)

(** Everything that must hold before a handler is asked. *)
Record retry_guards (eng : RecoveryEngine) (kind : ExecutionFailureKind)
    (result : ExecutionResult) (context : RecoveryContext) : Prop := {
  rg_unknown : kind = K_UNKNOWN ->
    rpol_retry_unknowns (re_policy eng) = true /\
    (unknown_retries_used context < rpol_unknown_retry_limit (re_policy eng))%Z;
  rg_attempt : (rc_attempt context < rpol_max_attempts (re_policy eng))%Z;
  rg_retryable : kind ∉ rpol_non_retryable_kinds (re_policy eng);
  rg_idempotent : req_idempotent (rc_current_request context) = true \/
    kind ∈ rpol_pre_send_failure_kinds (re_policy eng);
  rg_budget : forall c, re_budget_checker eng = Some c ->
    bc_can_retry c (rc_current_request context) context = Ok true;
  rg_backoff : kind = K_RATE_LIMIT ->
    rpol_rate_limit_retry_requires_backoff (re_policy eng) = true ->
    exists ra, retry_after_seconds result = Some ra /\
      (0 < ra)%Q /\ (ra <= rpol_max_delay_seconds (re_policy eng))%Q }.

Lemma kind_in_spec k ks : kind_in k ks = true <-> k ∈ ks.
Proof. unfold kind_in. apply bool_decide_eq_true. Qed.

Lemma kind_in_false k ks : kind_in k ks = false <-> k ∉ ks.
Proof. unfold kind_in. apply bool_decide_eq_false. Qed.

Lemma retry_after_at_pos keys reason v : retry_after_at keys reason = Some v -> (0 < v)%Q.
Proof.
  induction keys as [|key keys IH]; simpl; [done|].
  destruct (find reason _); [|apply IH].
  destruct (String.eqb _ ""); [apply IH|].
  destruct (float_of_digits _) as [w|]; [|apply IH].
  destruct (Qlt_b 0 w) eqn:E; [|apply IH]. intros [= <-]. by apply Qlt_b_spec.
Qed.

Lemma unknown_rejected_none p context kind :
  unknown_rejected p context kind = None <->
  (kind = K_UNKNOWN -> rpol_retry_unknowns p = true /\
     (unknown_retries_used context < rpol_unknown_retry_limit p)%Z).
Proof.
  unfold unknown_rejected. case_bool_decide as Hk; [|naive_solver].
  destruct (rpol_retry_unknowns p); simpl; [|naive_solver].
  destruct (_ <=? _)%Z eqn:E; boolify; split; try done; try (intros H; specialize (H Hk)); lia.
Qed.

Lemma rate_limit_backoff_inr p kind result d :
  rate_limit_backoff p kind result = inr d ->
  (kind = K_RATE_LIMIT -> rpol_rate_limit_retry_requires_backoff p = true ->
   exists ra, retry_after_seconds result = Some ra /\
     (0 < ra)%Q /\ (ra <= rpol_max_delay_seconds p)%Q /\ d = Some ra) /\
  (forall q, d = Some q -> (0 < q)%Q /\ (q <= rpol_max_delay_seconds p)%Q).
Proof.
  unfold rate_limit_backoff. intros H.
  destruct (bool_decide (kind = K_RATE_LIMIT) && _) eqn:E.
  - destruct (retry_after_seconds result) as [ra|] eqn:Hra; [|done].
    destruct (Qlt_b _ ra) eqn:El; [done|]. injection H as <-.
    assert (Hpos : (0 < ra)%Q) by exact (retry_after_at_pos _ _ _ Hra).
    assert (Hle : (ra <= rpol_max_delay_seconds p)%Q).
    { apply Qnot_lt_le. intros Hlt. apply Qlt_b_spec in Hlt. congruence. }
    split; [by eauto | by intros q [= <-]].
  - injection H as <-. split; [|done]. intros Hk Hb.
    rewrite Hb, andb_true_r in E. by apply bool_decide_eq_false in E.
Qed.

(** The engine asks the handlers exactly when the guards hold, and otherwise
    stops with a decision that is neither a retry nor an acceptance. *)
Lemma decide_retry_cases eng kind result context o :
  decide_retry eng kind result context = Ok o ->
  (retry_guards eng kind result context /\
   exists delay, rate_limit_backoff (re_policy eng) kind result = inr delay /\
     run_handlers (re_policy eng) (re_handlers eng) kind result context delay = Ok o) \/
  exists d reason, o = stop_with context kind d reason None /\ is_retry d = false /\ d <> ACCEPT.
Proof.
  unfold decide_retry. cbv zeta.
  destruct (unknown_rejected _ _ _) eqn:Hu; [intros [= <-]; right; eauto|].
  destruct (_ <=? _)%Z eqn:Ha; [intros [= <-]; right; eauto|].
  destruct (kind_in _ (rpol_non_retryable_kinds _)) eqn:Hn; [intros [= <-]; right; eauto|].
  destruct (negb _ && _) eqn:Hi; [intros [= <-]; right; eauto|].
  destruct (budget_refuses _ _) as [[r|]|] eqn:Hb; simpl; [intros [= <-]; right; eauto | | done].
  destruct (rate_limit_backoff _ _ _) as [r|delay] eqn:Hr; [intros [= <-]; right; eauto|].
  intros Hrun. left. split; [|by eauto]. boolify. constructor.
  - by apply unknown_rejected_none.
  - done.
  - by apply kind_in_false.
  - destruct (req_idempotent _); [by left|]. right. simpl in Hi. boolify. by apply kind_in_spec.
  - intros c Hc. unfold budget_refuses in Hb. rewrite Hc in Hb.
    destruct (bc_can_retry c _ _) as [[]|]; simpl in Hb; congruence.
  - intros Hk Hq. destruct (rate_limit_backoff_inr _ _ _ _ Hr) as [H _].
    destruct (H Hk Hq) as (ra & ? & ? & ? & _). eauto.
Qed.

Lemma run_handlers_wf p hs kind result context delay o :
  Forall LawfulHandler hs ->
  run_handlers p hs kind result context delay = Ok o ->
  outcome_wf (rpol_max_delay_seconds p) o.
Proof.
  intros Hl. induction Hl as [|h hs Hh Hl IH]; simpl.
  { intros [= <-]. by constructor. }
  destruct (rh_recover h kind result context) as [[o'|]|] eqn:E; simpl; [|done|done].
  intros [= <-]. constructor; simpl.
  - by apply (handler_stop _ _ _ _ E).
  - by apply (handler_retry _ _ _ _ E).
  - by apply (handler_modified _ _ _ _ E).
  - intros d H. destruct (ro_delay_seconds o') as [d'|]; simpl in H.
    + injection H as <-. apply py_minQ_le_r.
    + destruct delay; simpl in H; [|done]. injection H as <-. apply py_minQ_le_r.
Qed.

Lemma evaluate_cases eng reg result context now reg' o :
  evaluate eng reg result context now = (reg', Ok o) ->
  (exists kind d reason h, o = stop_with context kind d reason h /\ is_retry d = false /\
     (d = ACCEPT <-> res_success result = true)) \/
  (exists kind, res_success result = false /\
     fc_classify (re_classifier eng) result context = Ok kind /\
     snd (health_step reg context result now) = None /\
     retry_guards eng kind result context /\
     exists delay, rate_limit_backoff (re_policy eng) kind result = inr delay /\
       run_handlers (re_policy eng) (re_handlers eng) kind result context delay = Ok o).
Proof.
  unfold evaluate. destruct (res_success result) eqn:Hs.
  { intros [= <- <-]. left. eexists _, _, _, _. done. }
  destruct (fc_classify _ _ _) as [kind|] eqn:Hc; [|done].
  destruct (health_step reg context result now) as [reg2 [reason|]] eqn:Hh; intros [= <- H].
  - left. subst o. eexists _, _, _, _. done.
  - apply decide_retry_cases in H as [(Hg & Hd) | (d & reason & -> & Hd & Hna)]; [right; eauto 10|].
    left. exists kind, d, reason, None. done.
Qed.

Lemma evaluate_wf eng reg result context now reg' o :
  Forall LawfulHandler (re_handlers eng) ->
  evaluate eng reg result context now = (reg', Ok o) ->
  outcome_wf (rpol_max_delay_seconds (re_policy eng)) o.
Proof.
  intros Hl [(kind & d & reason & h & -> & Hd & _) |
             (kind & _ & _ & _ & _ & delay & _ & Hr)]%evaluate_cases.
  - constructor; simpl; try done; intros; congruence || (subst; done).
  - by apply run_handlers_wf in Hr.
Qed.

(** an engine whose handlers are lawful produces only well-formed
    outcomes: stops and acceptances carry no next request, retries carry one,
    a modified request asks for policy revalidation, and every delay is within
    the policy's maximum. *)
Theorem evaluate_outcome_wf eng reg result context now reg' o :
  Forall LawfulHandler (re_handlers eng) ->
  evaluate eng reg result context now = (reg', Ok o) ->
  outcome_wf (rpol_max_delay_seconds (re_policy eng)) o.
Proof. apply evaluate_wf. Qed.

(** C5: the engine lets a request run again only after a failure, with no
    cooldown just applied, with an attempt left, for a kind the policy does not
    forbid (an unknown one only by opt-in and within its own limit), on an
    idempotent request or a failure that never reached the backend, when the
    budget checker agrees, and, for a rate limit that needs backoff, with a
    positive retry-after within the maximum delay. *)
Theorem retry_only_if_guarded eng reg result context now reg' o :
  Forall LawfulHandler (re_handlers eng) ->
  evaluate eng reg result context now = (reg', Ok o) ->
  is_Some (ro_next_request o) ->
  exists kind, res_success result = false /\
    fc_classify (re_classifier eng) result context = Ok kind /\
    snd (health_step reg context result now) = None /\
    retry_guards eng kind result context.
Proof.
  intros Hl [(kind & d & reason & h & -> & Hd & _) |
             (kind & Hs & Hc & Hh & Hg & _)]%evaluate_cases [n Hn]; [done|].
  eauto 10.
Qed.

(** ** The default wiring *)

Lemma build_default_engine_lawful p : Forall LawfulHandler (re_handlers (build_default_engine p)).
Proof. simpl. constructor; [apply _|]. constructor; [apply _|done]. Qed.

Lemma default_handlers_retry p kind result context delay o :
  run_handlers p (re_handlers (build_default_engine p)) kind result context delay = Ok o ->
  is_Some (ro_next_request o) ->
  kind ∈ rpol_retryable_kinds p /\ ro_next_request o = Some NextCurrent /\
  ro_decision o = RETRY_SAME_REQUEST.
Proof.
  simpl. unfold retry_same_recover, reject_recover.
  destruct (kind_in kind (rpol_retryable_kinds p)) eqn:E; simpl.
  - intros [= <-] _. by apply kind_in_spec in E.
  - destruct (kind_in kind (rpol_non_retryable_kinds p)); simpl; intros [= <-] [? ?]; done.
Qed.

Lemma default_engine_next p reg result context now reg' o :
  evaluate (build_default_engine p) reg result context now = (reg', Ok o) ->
  is_Some (ro_next_request o) ->
  res_success result = false /\ snd (health_step reg context result now) = None /\
  retry_guards (build_default_engine p) (classify result) result context /\
  classify result ∈ rpol_retryable_kinds p.
Proof.
  intros [(kind & d & reason & h & -> & Hd & _) |
          (kind & Hs & Hc & Hh & Hg & delay & Hb & Hr)]%evaluate_cases Hn.
  { by destruct Hn. }
  injection Hc as <-. destruct (default_handlers_retry _ _ _ _ _ _ Hr Hn) as [? _]. done.
Qed.

(** the engine the coordinator builds by default asks for a retry exactly
    when the guards hold and the failure kind is retryable, and it is then the
    same request again. *)
Theorem default_engine_retry_iff p reg result context now :
  let '(reg', o) := evaluate (build_default_engine p) reg result context now in
  (exists out, o = Ok out /\ ro_next_request out = Some NextCurrent /\
     ro_decision out = RETRY_SAME_REQUEST) <->
  (res_success result = false /\ snd (health_step reg context result now) = None /\
   retry_guards (build_default_engine p) (classify result) result context /\
   classify result ∈ rpol_retryable_kinds p).
Proof.
  destruct (evaluate _ _ _ _ _) as [reg' o] eqn:E. split.
  - intros (out & -> & Hn & _). eapply default_engine_next; [done|]. by rewrite Hn.
  - intros (Hs & Hh & Hg & Hk). unfold evaluate in E. rewrite Hs in E. simpl in E.
    destruct (health_step reg context result now) as [reg2 c]. simpl in Hh. subst c.
    injection E as <- <-. destruct Hg as [Hu Ha Hn Hi _ Hb]. simpl in *.
    unfold decide_retry. simpl.
    rewrite (proj2 (unknown_rejected_none _ _ _) Hu), (proj2 (Z.leb_gt _ _) Ha).
    rewrite (proj2 (kind_in_false _ _) Hn).
    assert (negb (req_idempotent (rc_current_request context)) &&
            negb (kind_in (classify result) (rpol_pre_send_failure_kinds p)) = false) as ->.
    { destruct Hi as [-> | Hi]; [done|].
      by rewrite (proj2 (kind_in_spec _ _) Hi), andb_false_r. }
    assert (exists delay, rate_limit_backoff p (classify result) result = inr delay)
      as [delay ->].
    { unfold rate_limit_backoff. case_bool_decide as Hrl; simpl; [|by eexists].
      destruct (rpol_rate_limit_retry_requires_backoff p) eqn:Hq; [|by eexists].
      destruct (Hb Hrl eq_refl) as (ra & -> & _ & Hle).
      destruct (Qlt_b _ ra) eqn:El; [|by eexists].
      apply Qlt_b_spec in El. by apply Qlt_not_le in El. }
    simpl. unfold retry_same_recover. rewrite (proj2 (kind_in_spec _ _) Hk). simpl. eauto.
Qed.

(** the shipped default policy never lets a request run again. *)
Theorem default_policy_never_retries reg result context now reg' o :
  (1 <= rc_attempt context)%Z ->
  evaluate (build_default_engine default_policy) reg result context now = (reg', Ok o) ->
  ro_next_request o = None.
Proof.
  intros Ha H. destruct (ro_next_request o) eqn:E; [|done].
  destruct (default_engine_next _ _ _ _ _ _ _ H) as (_ & _ & [_ Hg _ _ _ _] & _);
    [by rewrite E|]. simpl in Hg. lia.
Qed.

(** a policy built from the settings never retries an unknown failure,
    whatever the settings say about retrying unknowns: the default
    non-retryable kinds hold UNKNOWN and the settings cannot change them. *)
Theorem settings_never_retry_unknown rec reg result context now reg' o :
  classify result = K_UNKNOWN ->
  evaluate (build_default_engine (build_recovery_policy rec)) reg result context now
    = (reg', Ok o) ->
  ro_next_request o = None /\ ro_decision o <> RETRY_SAME_REQUEST.
Proof.
  intros Hk H.
  assert (ro_next_request o = None) as Hn.
  { destruct (ro_next_request o) eqn:E; [|done].
    destruct (default_engine_next _ _ _ _ _ _ _ H) as (_ & _ & [_ _ Hr _ _ _] & _);
      [by rewrite E|].
    rewrite Hk in Hr. destruct Hr. simpl. set_solver. }
  split; [done|]. intros Hd.
  pose proof (ow_retry _ _ (evaluate_wf _ _ _ _ _ _ _ (build_default_engine_lawful _) H)) as Hs.
  rewrite Hd in Hs. destruct (Hs eq_refl) as [? ?]. congruence.
Qed.

(** with settings-built policies a request that is not idempotent, as every
    live request is, runs again only if the adapter itself certified that the
    request never reached the backend. *)
Theorem non_idempotent_retry_certified rec reg result context now reg' o :
  req_idempotent (rc_current_request context) = false ->
  evaluate (build_default_engine (build_recovery_policy rec)) reg result context now
    = (reg', Ok o) ->
  is_Some (ro_next_request o) ->
  exists rest, res_failure_reason result = Some ("adapter_error_code=" +:+ rest) /\
    lower (strip (before_char ":" rest)) = "backend_unavailable".
Proof.
  intros Hi H Hn.
  destruct (default_engine_next _ _ _ _ _ _ _ H Hn) as (_ & _ & [_ _ _ Hg _ _] & _).
  destruct Hg as [Hg | Hg]; [congruence|]. simpl in Hg.
  apply list_elem_of_singleton in Hg. by apply unavailable_certified in Hg.
Qed.

(** ** The health registry inside the engine *)

Lemma health_step_cooldown reg context result now :
  is_Some (snd (health_step reg context result now)) <->
  is_Some reg /\ is_Some (backend_id context) /\
  extract_signal (str_or (res_failure_reason result) "") = Some "SIGKILL".
Proof.
  unfold health_step. destruct reg as [r|]; [|naive_solver].
  destruct (backend_id context) as [id|]; [|naive_solver].
  destruct (failure_transition r id result now) as (_ & Hc & Hu).
  destruct (record_failure r id result now) as [[r' rec] tr]. simpl in *.
  destruct (ht_cooldown_applied tr) eqn:E.
  - rewrite (bool_decide_eq_true_2 _ (Hu eq_refl)). simpl.
    symmetry in Hc. apply bool_decide_eq_true in Hc. naive_solver.
  - rewrite andb_false_r. symmetry in Hc. apply bool_decide_eq_false in Hc.
    split; [by intros [? ?]|]. naive_solver.
Qed.

(** the loop stops for a cooldown exactly when the attempt failed with a
    kill signal on a tracked backend; whatever the outcome, a failed attempt
    whose classification did not raise is recorded once for that backend, a
    success changes no record, and an untracked run has no registry to change. *)
Theorem engine_health_effect eng reg result context now kind :
  fc_classify (re_classifier eng) result context = Ok kind ->
  let '(reg', o) := evaluate eng reg result context now in
  reg' = (if res_success result then reg
          else match reg, backend_id context with
               | Some r, Some id => Some (fst (fst (record_failure r id result now)))
               | _, _ => reg
               end) /\
  ((res_success result = false /\ is_Some reg /\ is_Some (backend_id context) /\
    extract_signal (str_or (res_failure_reason result) "") = Some "SIGKILL") ->
   exists out, o = Ok out /\ ro_decision out = STOP_COOLDOWN_REQUIRED /\
     ro_next_request out = None).
Proof.
  intros Hc. unfold evaluate. destruct (res_success result); [split; [done|naive_solver]|].
  rewrite Hc. pose proof (health_step_cooldown reg context result now) as Hcd.
  destruct (health_step reg context result now) as [reg2 cd] eqn:Hh.
  assert (reg2 = match reg, backend_id context with
                 | Some r, Some id => Some (fst (fst (record_failure r id result now)))
                 | _, _ => reg end) as ->.
  { unfold health_step in Hh. destruct reg as [r|], (backend_id context) as [id|]; try congruence.
    destruct (record_failure r id result now) as [[r' rec] tr]. simpl. congruence. }
  simpl in Hcd. destruct cd as [reason|]; split; try done.
  - intros _. eexists. done.
  - intros (_ & H). apply Hcd in H as [? ?]. done.
Qed.

(** ** The audit trail *)

(** the metadata attached to a result keeps every action in order, its
    decision and attempt count are those of the last action, it gives a reason
    for refusal exactly for a refusing decision, and nothing else of the
    result changes; without actions the result is returned as it is. *)
Theorem attach_recovery_metadata_spec result actions :
  match last actions with
  | None => attach_recovery_metadata result actions = result
  | Some a =>
      exists m, res_recovery (attach_recovery_metadata result actions) = Some m /\
        attach_recovery_metadata result actions = with_recovery result m /\
        rms_actions m = map action_summary actions /\ rms_attempts m = ra_attempt a /\
        rms_final_decision m = RecoveryDecision_value (ra_decision a) /\
        (rms_retry_refused_reason m = None <->
         ra_decision a = ACCEPT \/ is_retry (ra_decision a) = true)
  end.
Proof.
  unfold attach_recovery_metadata. destruct (last actions) as [a|]; [|done].
  eexists. repeat split; simpl; destruct (ra_decision a); naive_solver.
Qed.

(** ** Witnesses *)

Definition sample_execution_request (idempotent : bool) : ExecutionRequest :=
  {| req_run_id := "run-1"; req_proposal_id := "p-1"; req_decision_id := "d-1";
     req_goal_text := "fix"; req_constraints_text := None; req_repo_key := "repo";
     req_clone_url := "url"; req_base_branch := "main"; req_task_branch := "auto/x";
     req_workspace_path := "/ws"; req_goal_file_path := None; req_allowed_paths := [];
     req_max_changed_files := None; req_timeout_seconds := Some 300%Z;
     req_require_clean_validation := Some true; req_validation_commands := [];
     req_idempotent := idempotent; req_runtime_binding := None; req_bound_target := None;
     req_lifecycle := None |}.

Definition sample_context (idempotent : bool) (attempt : Z) : RecoveryContext :=
  {| rc_original_request := sample_execution_request idempotent;
     rc_current_request := sample_execution_request idempotent;
     rc_attempt := attempt; rc_previous_actions := [] |}.

Definition sample_failure (reason : string) : ExecutionResult :=
  unsuccessful_result "run-1" "p-1" "d-1" FAILED BACKEND_ERROR reason.

Definition sample_settings (max_attempts : Z) (retry_unknowns : bool) : RecoverySettings :=
  {| rs_max_attempts := max_attempts; rs_max_delay_seconds := 30;
     rs_retry_unknowns := retry_unknowns; rs_unknown_retry_limit := 5 |}.

Definition sample_now : datetime := mk_datetime 0 true.

Definition sample_run (rec : RecoverySettings) (idempotent : bool) (reason : string) :=
  evaluate (build_default_engine (build_recovery_policy rec)) None (sample_failure reason)
    (sample_context idempotent 1) sample_now.

Definition outcome_of (o : res RecoveryOutcome) : RecoveryOutcome :=
  match o with
  | Ok o => o
  | Raise _ => stop_with (sample_context false 0) K_NONE ACCEPT (RText "") None
  end.

Lemma evaluate_outcome_wf_witness :
  outcome_wf 30 (outcome_of (snd (sample_run (sample_settings 3 true) true
    "adapter_error_code=timeout"))).
Proof.
  apply (evaluate_outcome_wf (build_default_engine (build_recovery_policy (sample_settings 3 true)))
    None (sample_failure "adapter_error_code=timeout") (sample_context true 1) sample_now None).
  - constructor; [apply _|]. constructor; [apply _|done].
  - vm_compute. reflexivity.
Defined.

Lemma retry_only_if_guarded_witness :
  exists kind, retry_guards (build_default_engine (build_recovery_policy (sample_settings 3 true)))
    kind (sample_failure "adapter_error_code=timeout") (sample_context true 1).
Proof.
  destruct (retry_only_if_guarded
    (build_default_engine (build_recovery_policy (sample_settings 3 true)))
    None (sample_failure "adapter_error_code=timeout") (sample_context true 1) sample_now None
    (outcome_of (snd (sample_run (sample_settings 3 true) true "adapter_error_code=timeout"))))
    as (k & _ & _ & _ & H).
  - constructor; [apply _|]. constructor; [apply _|done].
  - vm_compute. reflexivity.
  - vm_compute. eauto.
  - exists k. exact H.
Defined.

Lemma default_policy_never_retries_witness :
  ro_next_request (outcome_of (snd (evaluate (build_default_engine default_policy) None
    (sample_failure "adapter_error_code=timeout") (sample_context true 1) sample_now))) = None.
Proof.
  apply (default_policy_never_retries None (sample_failure "adapter_error_code=timeout")
    (sample_context true 1) sample_now None).
  - simpl. lia.
  - vm_compute. reflexivity.
Defined.

Lemma settings_never_retry_unknown_witness :
  ro_next_request (outcome_of (snd (sample_run (sample_settings 3 true) true "boom"))) = None.
Proof.
  apply (settings_never_retry_unknown (sample_settings 3 true) None (sample_failure "boom")
    (sample_context true 1) sample_now None
    (outcome_of (snd (sample_run (sample_settings 3 true) true "boom"))));
    vm_compute; reflexivity.
Defined.

Lemma non_idempotent_retry_certified_witness :
  exists rest, "adapter_error_code=backend_unavailable: refused" = "adapter_error_code=" +:+ rest.
Proof.
  destruct (non_idempotent_retry_certified (sample_settings 3 false) None
    (sample_failure "adapter_error_code=backend_unavailable: refused") (sample_context false 1)
    sample_now None
    (outcome_of (snd (sample_run (sample_settings 3 false) false
       "adapter_error_code=backend_unavailable: refused")))) as (rest & H & _).
  - reflexivity.
  - vm_compute. reflexivity.
  - vm_compute. eauto.
  - exists rest. injection H as H. exact (f_equal _ H).
Defined.

Lemma engine_health_effect_witness :
  fst (sample_run (sample_settings 3 true) true "boom") = None.
Proof.
  exact (proj1 (engine_health_effect
    (build_default_engine (build_recovery_policy (sample_settings 3 true))) None
    (sample_failure "boom") (sample_context true 1) sample_now K_UNKNOWN eq_refl)).
Defined.

Example retry_after_examples :
  map (fun s => option_map Qred (retry_after_seconds (sample_failure s)))
    ["429 retry_after=2.5 s"; "retry_after=0"; "retry_after_seconds=7"; "retry_after=1.2.3"; "x"]
  = [Some (5 # 2); None; Some 7; None; None]%Q.
Proof. vm_compute. reflexivity. Qed.
