(* ===== verification/UsageStore.v ===== *)
(** * The usage ledger

    execution/usage_store.py and execution/models.py: the JSON file that
    records executions, outcomes, cooldowns and skips, its load-modify-save
    discipline, pruning, and every operation that writes it.  The file is an
    [option store]; [json] of the fields the class itself writes is read back
    as the value written.  An operation that holds the per-path lock is one
    atomic step; [retry_decision]'s reset, which does not, is split in two. *)
From S2P Require Import Prelude PyStr PyData.

(** ** execution/models.py *)

Record ExecutionControlSettings := {
  max_exec_per_hour : Z;
  max_exec_per_day : Z;
  max_retries_per_task : Z;
  min_watch_interval_seconds : Z;
  min_remaining_exec_for_proposals : Z;
  usage_path : string;
  pr_dry_run : bool }.

(** [from_env]: [env_int name] is [int(os.environ[name])] when the variable is
    set, [env_str] its text. *)
Definition settings_from_env (env_int : string -> option (res Z))
    (env_str : string -> option string) : res ExecutionControlSettings :=
  let var name d := default (Ok d) (env_int ("OPERATIONS_CENTER_" +:+ name)) in
  per_hour <-? var "MAX_EXEC_PER_HOUR" 10%Z ;;
  per_day <-? var "MAX_EXEC_PER_DAY" 50%Z ;;
  retries <-? var "MAX_RETRIES_PER_TASK" 3%Z ;;
  interval <-? var "MIN_WATCH_INTERVAL_SECONDS" 5%Z ;;
  remaining <-? var "MIN_REMAINING_EXEC_FOR_PROPOSALS" 3%Z ;;
  Ok {| max_exec_per_hour := Z.max 0 per_hour; max_exec_per_day := Z.max 0 per_day;
        max_retries_per_task := Z.max 1 retries; min_watch_interval_seconds := Z.max 1 interval;
        min_remaining_exec_for_proposals := Z.max 0 remaining;
        usage_path := default "tools/report/operations_center/execution/usage.json"
          (env_str "OPERATIONS_CENTER_EXECUTION_USAGE_PATH");
        pr_dry_run := str_in
          (strip (default "0" (env_str "OPERATIONS_CENTER_PR_DRY_RUN"))) ["1"; "true"; "yes"] |}.

Record BudgetDecision := {
  bd_allowed : bool;
  bd_reason : option string;
  bd_window : option string;
  bd_limit : option Z;
  bd_current : option Z }.

Definition budget_allowed : BudgetDecision :=
  {| bd_allowed := true; bd_reason := None; bd_window := None; bd_limit := None;
     bd_current := None |}.

Definition budget_denied (reason window : string) (limit current : Z) : BudgetDecision :=
  {| bd_allowed := false; bd_reason := Some reason; bd_window := Some window;
     bd_limit := Some limit; bd_current := Some current |}.

Record RetryDecision := {
  rd_allowed : bool;
  rd_reason : option string;
  rd_attempts : Z;
  rd_limit : Z }.

Record NoOpDecision := {
  nd_should_skip : bool;
  nd_reason : option string;
  nd_detail : option string }.

(** ** The file *)

Record store := {
  us_updated_at : option datetime;
  us_events : list dict;
  us_task_attempts : gmap string Z;
  us_last_task_signatures : gmap string string;
  us_task_artifacts : gmap string dict;
  us_budget_cap_samples : list dict;
  us_hourly_exec_count : Z;
  us_daily_exec_count : Z;
  us_skipped_due_to_budget : Z;
  us_skipped_due_to_noop : Z;
  us_skipped_due_to_cooldown : Z;
  us_blocked_due_to_retry_cap : Z;
  us_suppressed_due_to_proposal_budget : Z }.

(** [None]: the file does not exist. *)
Definition file := option store.

Definition empty_store : store :=
  {| us_updated_at := None; us_events := []; us_task_attempts := ∅;
     us_last_task_signatures := ∅; us_task_artifacts := ∅; us_budget_cap_samples := [];
     us_hourly_exec_count := 0; us_daily_exec_count := 0; us_skipped_due_to_budget := 0;
     us_skipped_due_to_noop := 0; us_skipped_due_to_cooldown := 0;
     us_blocked_due_to_retry_cap := 0; us_suppressed_due_to_proposal_budget := 0 |}.

Definition load (f : file) : store := default empty_store f.

Definition set_events (s : store) (evs : list dict) : store :=
  {| us_updated_at := us_updated_at s; us_events := evs; us_task_attempts := us_task_attempts s;
     us_last_task_signatures := us_last_task_signatures s;
     us_task_artifacts := us_task_artifacts s; us_budget_cap_samples := us_budget_cap_samples s;
     us_hourly_exec_count := us_hourly_exec_count s; us_daily_exec_count := us_daily_exec_count s;
     us_skipped_due_to_budget := us_skipped_due_to_budget s;
     us_skipped_due_to_noop := us_skipped_due_to_noop s;
     us_skipped_due_to_cooldown := us_skipped_due_to_cooldown s;
     us_blocked_due_to_retry_cap := us_blocked_due_to_retry_cap s;
     us_suppressed_due_to_proposal_budget := us_suppressed_due_to_proposal_budget s |}.

(** The four fields that operations other than [save] replace. *)
Definition set_tables (s : store) (attempts : gmap string Z) (sigs : gmap string string)
    (artifacts : gmap string dict) (samples : list dict) : store :=
  {| us_updated_at := us_updated_at s; us_events := us_events s; us_task_attempts := attempts;
     us_last_task_signatures := sigs; us_task_artifacts := artifacts;
     us_budget_cap_samples := samples; us_hourly_exec_count := us_hourly_exec_count s;
     us_daily_exec_count := us_daily_exec_count s;
     us_skipped_due_to_budget := us_skipped_due_to_budget s;
     us_skipped_due_to_noop := us_skipped_due_to_noop s;
     us_skipped_due_to_cooldown := us_skipped_due_to_cooldown s;
     us_blocked_due_to_retry_cap := us_blocked_due_to_retry_cap s;
     us_suppressed_due_to_proposal_budget := us_suppressed_due_to_proposal_budget s |}.

Definition set_attempts (s : store) (m : gmap string Z) : store :=
  set_tables s m (us_last_task_signatures s) (us_task_artifacts s) (us_budget_cap_samples s).
Definition set_signatures (s : store) (m : gmap string string) : store :=
  set_tables s (us_task_attempts s) m (us_task_artifacts s) (us_budget_cap_samples s).
Definition set_artifacts (s : store) (m : gmap string dict) : store :=
  set_tables s (us_task_attempts s) (us_last_task_signatures s) m (us_budget_cap_samples s).
Definition set_samples (s : store) (l : list dict) : store :=
  set_tables s (us_task_attempts s) (us_last_task_signatures s) (us_task_artifacts s) l.

(** ** Events *)

(** An event as the class writes it: its kind, its fields, and the time. *)
Definition event (kind : string) (now : datetime) (fields : list (string * jval)) : dict :=
  list_to_map (("kind", JStr kind) :: ("timestamp", JTime now) :: fields).

(** [if x: event[k] = x]. *)
Definition opt_field (k : string) (o : option string) (d : dict) : dict :=
  match o with Some s => if str_truthy s then <[k := JStr s]> d else d | None => d end.

Definition has_kind (k : string) (e : dict) : bool := jeq_str (dget e "kind") k.

(** [datetime.fromisoformat(str(event.get("timestamp")))]. *)
Definition event_ts (e : dict) : option datetime := fromisoformat_str (dget e "timestamp").

(** The comprehension body shared by the readers: events whose timestamp does
    not parse are skipped, the others are compared with a cutoff. *)
Definition ts_since (since : datetime) (e : dict) : res bool :=
  match event_ts e with
  | None => Ok false
  | Some ts => dt_le since ts
  end.

Definition MAX_EVENTS : nat := 1000.

Definition prune_events (events : list dict) (now : datetime) : res (list dict) :=
  retained <-? filterM (ts_since (sub_us now (days 7))) events ;;
  Ok (last_n MAX_EVENTS retained).

Definition exec_count (events : list dict) (since : datetime) : res Z :=
  counted <-? filterM (ts_since since) (List.filter (has_kind "execution") events) ;;
  Ok (Z.of_nat (length counted)).

(** ** Saving *)

Definition DISK_MIN_MB : Q := 50.

Definition disk_critical : exn := OSError "disk_space_critical".

(** [_check_disk_space]: [None] when the free space cannot be read. *)
Definition check_disk_space (free_mb : option Q) : res unit :=
  match free_mb with
  | Some q => if Qlt_b q DISK_MIN_MB then Raise disk_critical else Ok tt
  | None => Ok tt
  end.

Definition save (free_mb : option Q) (data : store) (now : datetime) : res store :=
  _ <-? check_disk_space free_mb ;;
  events <-? prune_events (us_events data) now ;;
  hourly <-? exec_count events (sub_us now (hours 1)) ;;
  daily <-? exec_count events (sub_us now (days 1)) ;;
  Ok {| us_updated_at := Some now; us_events := events;
        us_task_attempts := us_task_attempts data;
        us_last_task_signatures := us_last_task_signatures data;
        us_task_artifacts := us_task_artifacts data;
        us_budget_cap_samples := us_budget_cap_samples data;
        us_hourly_exec_count := hourly; us_daily_exec_count := daily;
        us_skipped_due_to_budget := count_if (has_kind "skip_budget") events;
        us_skipped_due_to_noop := count_if (has_kind "skip_noop") events;
        us_skipped_due_to_cooldown := count_if (has_kind "skip_cooldown") events;
        us_blocked_due_to_retry_cap := count_if (has_kind "retry_cap_block") events;
        us_suppressed_due_to_proposal_budget :=
          count_if (has_kind "proposal_budget_suppressed") events |}.

Definition append_event (free_mb : option Q) (data : store) (e : dict) (now : datetime)
    : res store :=
  save free_mb (set_events data (us_events data ++ [e])) now.

(** [with self._exclusive(): data = self.load(); ...]: the new contents, or the
    exception, which leaves the file as it was (the write is a rename). *)
Definition exclusive (f : file) (body : store -> res store) : file * res unit :=
  match body (load f) with
  | Ok s => (Some s, Ok tt)
  | Raise e => (f, Raise e)
  end.

(** ** Operations that write

    Each takes the disk's free space, the file and the time first. *)
Section Recorders.
Context (free_mb : option Q) (f : file) (now : datetime).

(** The recorders that only append one event. *)
Definition record_event (e : dict) : file * res unit :=
  exclusive f (fun data => append_event free_mb data e now).

Definition record_execution (role task_id signature : string) (repo_key backend : option string)
    : file * res unit :=
  exclusive f (fun data =>
    let data := set_attempts data
      (<[task_id := (default 0 (us_task_attempts data !! task_id) + 1)%Z]> (us_task_attempts data)) in
    let data := set_signatures data
      (<[role +:+ ":" +:+ task_id := signature]> (us_last_task_signatures data)) in
    append_event free_mb data
      (opt_field "backend" backend (opt_field "repo_key" repo_key
         (event "execution" now
            [("role", JStr role); ("task_id", JStr task_id); ("signature", JStr signature)]))) now).

Definition record_execution_outcome (task_id role : string) (succeeded : bool)
    (backend backend_version : option string) : file * res unit :=
  record_event
    (opt_field "backend_version" backend_version (opt_field "backend" backend
       (event "execution_outcome" now
          [("task_id", JStr task_id); ("role", JStr role); ("succeeded", JBool succeeded)]))).

Definition record_quality_warning (task_id repo_key : string)
    (suppression_counts : list (string * jval)) : file * res unit :=
  record_event (event "executor_quality_warning" now
    [("task_id", JStr task_id); ("repo_key", JStr repo_key);
     ("suppression_counts", JObj suppression_counts)]).

Definition record_scope_violation (task_id repo_key : string) (violated_files : list string)
    : file * res unit :=
  record_event (event "scope_violation" now
    [("task_id", JStr task_id); ("repo_key", JStr repo_key);
     ("violated_files", JList (map JStr (take 10 violated_files)))]).

Definition record_quota_event (task_id role backend : string) : file * res unit :=
  record_event (event "quota_event" now
    [("task_id", JStr task_id); ("role", JStr role); ("backend", JStr backend)]).

Definition record_execution_started (task_id backend : string) : file * res unit :=
  record_event (event "execution_started" now
    [("task_id", JStr task_id); ("backend", JStr backend)]).

Definition record_execution_finished (task_id backend : string) : file * res unit :=
  record_event (event "execution_finished" now
    [("task_id", JStr task_id); ("backend", JStr backend)]).

Definition record_execution_duration (task_id role : string) (duration_seconds : Q)
    : file * res unit :=
  record_event (event "execution_duration" now
    [("task_id", JStr task_id); ("role", JStr role);
     ("duration_seconds", JFloat (py_round 1 duration_seconds))]).

Definition record_skip (role task_id signature reason : string) (detail : option string)
    (evidence : list (string * jval)) : file * res unit :=
  exclusive f (fun data =>
    let data := if String.eqb reason "no_op"
      then set_signatures data
        (<[role +:+ ":" +:+ task_id := signature]> (us_last_task_signatures data))
      else data in
    let kind := if String.eqb reason "no_op" then "skip_noop" else "skip_budget" in
    let kind := if String.eqb reason "cooldown_active" then "skip_cooldown" else kind in
    append_event free_mb data (event kind now
      [("role", JStr role); ("task_id", JStr task_id); ("signature", JStr signature);
       ("reason", JStr reason); ("detail", opt_jstr detail); ("evidence", JObj evidence)]) now).

Definition record_retry_cap (role task_id : string) (attempts limit : Z) : file * res unit :=
  record_event (event "retry_cap_block" now
    [("role", JStr role); ("task_id", JStr task_id); ("attempts", JInt attempts);
     ("limit", JInt limit)]).

Definition record_proposal_cycle (created deduped skipped : Z) : file * res unit :=
  record_event (event "proposal_cycle" now
    [("created", JInt created); ("deduped", JInt deduped); ("skipped", JInt skipped)]).

(** [reset_satiation_window]: writes without pruning or a disk check. *)
Definition reset_satiation_window : file * res unit :=
  exclusive f (fun data =>
    Ok (set_events data (List.filter (fun e => negb (has_kind "proposal_cycle" e)) (us_events data)))).

Definition record_proposal_outcome (category : string) (succeeded : bool) : file * res unit :=
  record_event (event "proposal_outcome" now
    [("category", JStr category); ("succeeded", JBool succeeded)]).

Definition record_validation_outcome (command : string) (passed : bool) : file * res unit :=
  record_event (event "validation_outcome" now
    [("command", JStr command); ("passed", JBool passed)]).

Definition record_escalation (classification : string) (task_ids : list string)
    : file * res unit :=
  record_event (event "escalation_sent" now
    [("classification", JStr classification); ("task_ids", JList (map JStr task_ids))]).

Definition record_blocked_triage (task_id classification : string) : file * res unit :=
  record_event (event "blocked_triage" now
    [("task_id", JStr task_id); ("classification", JStr classification)]).

Definition record_execution_cost (task_id repo_key : string) (estimated_usd : Q)
    : file * res unit :=
  record_event (event "execution_cost" now
    [("task_id", JStr task_id); ("repo_key", JStr repo_key);
     ("estimated_usd", JFloat estimated_usd)]).

Definition record_proposal_budget_suppression (reason : string)
    (evidence : list (string * jval)) : file * res unit :=
  record_event (event "proposal_budget_suppressed" now
    [("reason", JStr reason); ("evidence", JObj evidence)]).

Definition record_task_artifact (task_id : string) (artifact : dict) : file * res unit :=
  exclusive f (fun data =>
    save free_mb (set_artifacts data
      (<[task_id := <["recorded_at" := JTime now]> artifact]> (us_task_artifacts data))) now).
End Recorders.

Definition get_task_artifact (f : file) (task_id : string) : option dict :=
  us_task_artifacts (load f) !! task_id.

(** ** Retry and no-op decisions *)

Section Decisions.
Context (settings : ExecutionControlSettings) (f : file).

(** [_last_attempt_timestamp]: the newest execution or retry-cap event of the
    task that carries a timestamp; a naive timestamp is taken as UTC. *)
Definition last_attempt_timestamp (data : store) (task_id : string) : option datetime :=
  let ours := List.filter
    (fun e => jeq_str (dget e "task_id") task_id &&
              (has_kind "execution" e || has_kind "retry_cap_block" e)) (us_events data) in
  head (omap (fun e => assume_utc <$> event_ts e) (rev ours)).

(** [_reset_task_attempts]: the data it writes. *)
Definition reset_task_attempts (data : store) (task_id : string) : store :=
  set_signatures
    (set_attempts data (delete task_id (us_task_attempts data)))
    (filter (fun kv => endswith (fst kv) (":" +:+ task_id) = false) (us_last_task_signatures data)).

(** The decision computed on loaded data, and the data to write back when the
    attempts are reset: the write happens outside any lock. *)
Definition retry_decision_on (data : store) (task_id : string) (ref : datetime)
    : res (RetryDecision * option store) :=
  let limit := max_retries_per_task settings in
  let attempts := default 0%Z (us_task_attempts data !! task_id) in
  let allow n := {| rd_allowed := true; rd_reason := None; rd_attempts := n; rd_limit := limit |} in
  if (limit <=? attempts)%Z then
    stale <-? match last_attempt_timestamp data task_id with
              | None => Ok true
              | Some t => d <-? dt_diff ref t ;; Ok (hours 1 <? d)%Z
              end ;;
    Ok (if stale : bool
        then (allow 0%Z, Some (reset_task_attempts data task_id))
        else ({| rd_allowed := false; rd_reason := Some "retry_cap_exceeded";
                 rd_attempts := attempts; rd_limit := limit |}, None))
  else Ok (allow attempts, None).

(** [retry_decision] when nothing else writes the file in between. *)
Definition retry_decision (task_id : string) (ref : datetime) : file * res RetryDecision :=
  match retry_decision_on (load f) task_id ref with
  | Ok (d, Some data) => (Some data, Ok d)
  | Ok (d, None) => (f, Ok d)
  | Raise e => (f, Raise e)
  end.

Definition noop_decision (role task_id signature : string) : NoOpDecision :=
  let last := strip (default "" (us_last_task_signatures (load f) !! (role +:+ ":" +:+ task_id))) in
  if str_truthy last && String.eqb last signature
  then {| nd_should_skip := true; nd_reason := Some "no_op"; nd_detail := Some "no_state_change" |}
  else {| nd_should_skip := false; nd_reason := None; nd_detail := None |}.
End Decisions.

(** ** The readers without exceptions

    Timestamps the class writes are aware; comparing them with an aware [now]
    never raises, and the readers become plain functions of the events. *)

Definition event_aware (e : dict) : Prop :=
  match event_ts e with Some t => dt_aware t = true | None => True end.

Definition store_aware (s : store) : Prop := Forall event_aware (us_events s).

(** [ts >= since], false when the timestamp does not parse. *)
Definition since_b (since : datetime) (e : dict) : bool :=
  match event_ts e with Some ts => (dt_us since <=? dt_us ts)%Z | None => false end.

Definition pruned (events : list dict) (now : datetime) : list dict :=
  last_n MAX_EVENTS (List.filter (since_b (sub_us now (days 7))) events).

Definition exec_counted (events : list dict) (since : datetime) : Z :=
  count_if (fun e => has_kind "execution" e && since_b since e) events.

Definition saved (data : store) (now : datetime) : store :=
  let events := pruned (us_events data) now in
  {| us_updated_at := Some now; us_events := events;
     us_task_attempts := us_task_attempts data;
     us_last_task_signatures := us_last_task_signatures data;
     us_task_artifacts := us_task_artifacts data;
     us_budget_cap_samples := us_budget_cap_samples data;
     us_hourly_exec_count := exec_counted events (sub_us now (hours 1));
     us_daily_exec_count := exec_counted events (sub_us now (days 1));
     us_skipped_due_to_budget := count_if (has_kind "skip_budget") events;
     us_skipped_due_to_noop := count_if (has_kind "skip_noop") events;
     us_skipped_due_to_cooldown := count_if (has_kind "skip_cooldown") events;
     us_blocked_due_to_retry_cap := count_if (has_kind "retry_cap_block") events;
     us_suppressed_due_to_proposal_budget :=
       count_if (has_kind "proposal_budget_suppressed") events |}.

Lemma ts_since_ok since e :
  dt_aware since = true -> event_aware e -> ts_since since e = Ok (since_b since e).
Proof.
  unfold ts_since, since_b, event_aware. intros Hs He.
  destruct (event_ts e); [by apply dt_le_aware | done].
Qed.

Lemma filterM_ts_since since events :
  dt_aware since = true -> Forall event_aware events ->
  filterM (ts_since since) events = Ok (List.filter (since_b since) events).
Proof.
  intros Hs He. apply filterM_ok. eapply Forall_impl; [done|].
  intros e Ha. by apply ts_since_ok.
Qed.

Lemma prune_events_ok events now :
  dt_aware now = true -> Forall event_aware events ->
  prune_events events now = Ok (pruned events now).
Proof. intros Hn He. unfold prune_events. by rewrite filterM_ts_since. Qed.

Lemma exec_count_ok events since :
  dt_aware since = true -> Forall event_aware events ->
  exec_count events since = Ok (exec_counted events since).
Proof.
  intros Hs He. unfold exec_count. rewrite filterM_ts_since by auto with oc.
  simpl. by rewrite filter_filter_bool.
Qed.

Lemma pruned_aware events now : Forall event_aware events -> Forall event_aware (pruned events now).
Proof. unfold pruned. auto with oc. Qed.

Lemma save_ok free_mb data now :
  check_disk_space free_mb = Ok tt -> dt_aware now = true -> store_aware data ->
  save free_mb data now = Ok (saved data now).
Proof.
  intros Hd Hn He. unfold save. rewrite Hd. simpl. rewrite prune_events_ok by done. simpl.
  assert (Forall event_aware (pruned (us_events data) now)) by by apply pruned_aware.
  rewrite !exec_count_ok by done. done.
Qed.

Lemma pruned_length events now : length (pruned events now) <= MAX_EVENTS.
Proof. apply last_n_length. Qed.

Lemma elem_of_pruned events now e :
  e ∈ pruned events now -> e ∈ events /\ since_b (sub_us now (days 7)) e = true.
Proof.
  unfold pruned. intros H. destruct (last_n_suffix MAX_EVENTS
    (List.filter (since_b (sub_us now (days 7))) events)) as [pre Hp].
  apply elem_of_filter_bool. rewrite Hp. apply elem_of_app. by right.
Qed.

(** Pruning keeps a list that is recent and short enough. *)
Lemma pruned_id events now :
  Forall (fun e => since_b (sub_us now (days 7)) e = true) events ->
  length events <= MAX_EVENTS -> pruned events now = events.
Proof. intros Hf Hl. unfold pruned. rewrite filter_all by done. by apply last_n_all. Qed.

Lemma pruned_idem events now : pruned (pruned events now) now = pruned events now.
Proof.
  apply pruned_id; [|apply pruned_length].
  apply Forall_forall. intros e H. by apply elem_of_pruned in H as [_ ?].
Qed.

Lemma event_ts_event kind now fields : event_ts (event kind now fields) = Some now.
Proof.
  unfold event_ts, dget, event. simpl.
  rewrite lookup_insert_ne by done. by rewrite lookup_insert_eq.
Qed.

Lemma has_kind_event kind now fields k : has_kind k (event kind now fields) = String.eqb kind k.
Proof. unfold has_kind, dget, event. simpl. by rewrite lookup_insert_eq. Qed.

Lemma dget_event kind now fields k :
  k <> "kind" -> k <> "timestamp" ->
  dget (event kind now fields) k = dget (list_to_map fields) k.
Proof. intros H1 H2. unfold dget, event. simpl. by rewrite !lookup_insert_ne by done. Qed.

Lemma event_aware_event kind now fields : dt_aware now = true -> event_aware (event kind now fields).
Proof. intros H. unfold event_aware. by rewrite event_ts_event. Qed.

Lemma opt_field_aware k o e :
  k <> "timestamp" -> event_aware e -> event_aware (opt_field k o e).
Proof.
  intros Hk He. unfold opt_field. destruct o as [s|]; [|done]. destruct (str_truthy s); [|done].
  unfold event_aware, event_ts in *. by rewrite dget_insert_ne.
Qed.

Lemma since_b_event kind now fields d :
  (0 <= d)%Z -> since_b (sub_us now d) (event kind now fields) = true.
Proof. intros H. unfold since_b. rewrite event_ts_event. simpl. apply Z.leb_le. lia. Qed.

Lemma since_b_ts since e ts :
  event_ts e = Some ts -> (dt_us since <= dt_us ts)%Z -> since_b since e = true.
Proof. intros H Hle. unfold since_b. rewrite H. by apply Z.leb_le. Qed.

Lemma sub_us_le t d : (0 <= d)%Z -> (dt_us (sub_us t d) <= dt_us t)%Z.
Proof. simpl. lia. Qed.

(** A fresh event is never the one that pruning drops. *)
Lemma pruned_snoc events e now :
  since_b (sub_us now (days 7)) e = true ->
  pruned (events ++ [e]) now
    = last_n 999 (List.filter (since_b (sub_us now (days 7))) events) ++ [e].
Proof.
  intros H. unfold pruned. rewrite List.filter_app. simpl. rewrite H. apply last_n_snoc.
Qed.

#[export] Hint Resolve event_aware_event opt_field_aware pruned_aware pruned_length : oc.
