(* ===== verification/UsageCooldown.v ===== *)
(** * Worker-backend cooldowns and the learned budget cap

    The cooldown operations of execution/usage_store.py, model-aware blocking
    over the models table of backends/limit_classifier.py, and the
    self-calibrating cap.  The [limit_kind] and [model] of an event are strings
    or absent, as the class writes them. *)
From S2P Require Import Prelude PyStr PyData UsageStore.
From Stdlib Require Import Sorted Lqa.

(** ** backends/limit_classifier.py: names *)

Definition MODEL_WEEKLY : string := "model_weekly".
Definition SESSION_5H : string := "session_5h".
Definition GLOBAL_WEEKLY : string := "global_weekly".
Definition GENERIC : string := "generic".

Definition WORKER_BACKEND_MODELS : gmap string (list string) :=
  <["claude_code" := ["sonnet"; "opus"; "haiku"]]> (<["codex_cli" := ["codex"]]> ∅).

(** ** Latest and earliest datetimes *)

(** A loop keeping the best so far: the first element whose key is greatest. *)
Definition pick (key : Z -> Z) (acc : option datetime) (t : datetime) : option datetime :=
  match acc with
  | Some a => if (key (dt_us a) <? key (dt_us t))%Z then Some t else acc
  | None => Some t
  end.
Definition later : option datetime -> datetime -> option datetime := pick (fun z => z).
Definition earlier : option datetime -> datetime -> option datetime := pick Z.opp.
Definition latest (l : list datetime) : option datetime := fold_left later l None.
Definition earliest (l : list datetime) : option datetime := fold_left earlier l None.

(** ** Active cooldowns *)

Definition limit_kind_of (e : dict) : option string := jstr (dget e "limit_kind").
Definition model_of (e : dict) : option string := jstr (dget e "model").

Definition is_cooldown_for (worker_backend : string) (e : dict) : bool :=
  has_kind "worker_backend_cooldown" e && jeq_str (dget e "worker_backend") worker_backend.

(** The guard chain the readers share: the reset of a cooldown of this
    backend that is still in the future. *)
Definition active_reset (worker_backend : string) (now : datetime) (e : dict)
    : res (option datetime) :=
  if is_cooldown_for worker_backend e && is_str (dget e "reset_at") then
    match fromisoformat_str (dget e "reset_at") with
    | None => Ok None
    | Some reset_at =>
        expired <-? dt_le reset_at now ;;
        Ok (if expired : bool then None else Some reset_at)
    end
  else Ok None.

(** [_is_active_cooldown_for]. *)
Definition is_active_cooldown_for (e : dict) (worker_backend : string) (now : datetime)
    : res bool :=
  r <-? active_reset worker_backend now e ;;
  Ok (match r with Some _ => true | None => false end).

(** An active cooldown: its kind, its model, its reset. *)
Definition cooldown := (option string * option string * datetime)%type.

Fixpoint active_cooldowns (worker_backend : string) (now : datetime) (events : list dict)
    : res (list cooldown) :=
  match events with
  | [] => Ok []
  | e :: events' =>
      r <-? active_reset worker_backend now e ;;
      rest <-? active_cooldowns worker_backend now events' ;;
      Ok (match r with
          | Some reset_at => (limit_kind_of e, model_of e, reset_at) :: rest
          | None => rest
          end)
  end.

(** The event [record_worker_backend_cooldown] appends. *)
Definition cooldown_event (worker_backend : string) (reset_at now : datetime)
    (limit_kind model : option string) : dict :=
  let e := event "worker_backend_cooldown" now
    [("worker_backend", JStr worker_backend); ("reset_at", JTime reset_at)] in
  let e := match limit_kind with Some k => <["limit_kind" := JStr k]> e | None => e end in
  match model with Some m => <["model" := JStr m]> e | None => e end.

Section Cooldowns.
Context (free_mb : option Q) (f : file) (now : datetime).

(** [record_worker_backend_cooldown]: drops the active cooldowns of the same
    (backend, kind, model), then appends the new one. *)
Definition record_worker_backend_cooldown (worker_backend : string) (reset_at : datetime)
    (limit_kind model : option string) : file * res unit :=
  exclusive f (fun data =>
    events <-? filterM (fun ev =>
        active <-? is_active_cooldown_for ev worker_backend now ;;
        Ok (negb (active && jeq_opt (dget ev "limit_kind") limit_kind
                         && jeq_opt (dget ev "model") model)))
      (us_events data) ;;
    append_event free_mb (set_events data events)
      (cooldown_event worker_backend reset_at now limit_kind model) now).
End Cooldowns.

(** [record_worker_backend_cooldown] is [exclusive] over a body that may raise
    before it saves; so is [clear_worker_backend_cooldown], which also returns
    a count. *)
Definition exclusive_with {A} (f : file) (body : store -> res (store * A)) : file * res A :=
  match body (load f) with
  | Ok (s, a) => (Some s, Ok a)
  | Raise e => (f, Raise e)
  end.

(** Does [clear_worker_backend_cooldown] drop this event? *)
Definition cleared (worker_backend : string) (model : option string) (include_account_wide : bool)
    (now : datetime) (e : dict) : res bool :=
  active <-? is_active_cooldown_for e worker_backend now ;;
  Ok (if negb active then false
      else if jeq_str (dget e "limit_kind") MODEL_WEEKLY && negb (jeq_opt (dget e "model") None)
      then jeq_opt (dget e "model") model
      else include_account_wide).

Definition clear_worker_backend_cooldown (free_mb : option Q) (f : file) (now : datetime)
    (worker_backend : string) (model : option string) (include_account_wide : bool)
    (reason : string) : file * res Z :=
  exclusive_with f (fun data =>
    dropped <-? filterM (cleared worker_backend model include_account_wide now) (us_events data) ;;
    kept <-? filterM (fun e =>
        b <-? cleared worker_backend model include_account_wide now e ;; Ok (negb b))
      (us_events data) ;;
    let removed := Z.of_nat (length dropped) in
    let data := set_events data kept in
    s <-? (if (removed =? 0)%Z then save free_mb data now
           else append_event free_mb data (event "worker_backend_cooldown_cleared" now
             [("worker_backend", JStr worker_backend); ("model", opt_jstr model);
              ("include_account_wide", JBool include_account_wide); ("reason", JStr reason);
              ("removed", JInt removed)]) now) ;;
    Ok (s, removed)).

(** ** Readers *)

(** The comparisons between two active resets cannot raise: both were compared
    with [now]. *)
Section Readers.
Context (f : file) (now : datetime).

Definition current_cooldowns (worker_backend : string) : res (list cooldown) :=
  events <-? prune_events (us_events (load f)) now ;;
  active_cooldowns worker_backend now events.

Definition worker_backend_cooldown_until (worker_backend : string) : res (option datetime) :=
  cs <-? current_cooldowns worker_backend ;;
  Ok (latest (map snd cs)).

Definition seconds_remaining (reset_at : datetime) : Z :=
  Z.max 0 (whole_seconds (dt_us reset_at - dt_us now)).

Record CooldownDetail := {
  cd_limit_kind : option string;
  cd_model : option string;
  cd_reset_at : datetime;
  cd_seconds_remaining : Z }.

(** [latest[key] = reset_at] in an insertion-ordered dict, keeping the latest. *)
Fixpoint upd_latest (l : list cooldown) (c : cooldown) : list cooldown :=
  match l with
  | [] => [c]
  | (k, m, r) :: l' =>
      if bool_decide ((k, m) = fst c)
      then (if (dt_us r <? dt_us (snd c))%Z then (k, m, snd c) else (k, m, r)) :: l'
      else (k, m, r) :: upd_latest l' c
  end.

(** The sort key is the ISO text; instants of one offset sort alike. *)
Definition worker_backend_cooldown_details (worker_backend : string)
    : res (list CooldownDetail) :=
  cs <-? current_cooldowns worker_backend ;;
  let table := fold_left upd_latest cs [] in
  let details := map (fun c : cooldown =>
    {| cd_limit_kind := fst (fst c); cd_model := snd (fst c); cd_reset_at := snd c;
       cd_seconds_remaining := seconds_remaining (snd c) |}) table in
  Ok (sorted_by (fun a b => (dt_us (cd_reset_at a) <=? dt_us (cd_reset_at b))%Z) details).

(** The loop of [worker_backend_blocked_until]: account-wide resets, and the
    latest weekly reset of each model. *)
Definition classify_cooldown (acc : list datetime * gmap string datetime) (c : cooldown)
    : list datetime * gmap string datetime :=
  let '(kind, model, reset_at) := c in
  match bool_decide (kind = Some MODEL_WEEKLY), model with
  | true, Some m =>
      match later (snd acc !! m) reset_at with
      | Some t => (fst acc, <[m := t]> (snd acc))
      | None => acc
      end
  | _, _ => (fst acc ++ [reset_at], snd acc)
  end.

(** [if models and all(model in per_model ...): return min(...)]. *)
Definition models_block (per_model : gmap string datetime) (models : list string)
    : option datetime :=
  if list_truthy models && forallb (fun m => bool_decide (is_Some (per_model !! m))) models
  then earliest (omap (fun m => per_model !! m) models)
  else None.

Definition blocked_until_of (worker_backend : string) (cs : list cooldown) : option datetime :=
  let '(account_wide, per_model) := fold_left classify_cooldown cs ([], ∅) in
  match account_wide with
  | _ :: _ => latest account_wide
  | [] => models_block per_model (default [] (WORKER_BACKEND_MODELS !! worker_backend))
  end.

Definition worker_backend_blocked_until (worker_backend : string) : res (option datetime) :=
  cs <-? current_cooldowns worker_backend ;;
  Ok (blocked_until_of worker_backend cs).

Record CooldownSnapshot := {
  cs_cooling_down : bool;
  cs_reset_at : option datetime;
  cs_seconds_remaining : option Z;
  cs_cooldowns : list CooldownDetail }.

Definition backend_snapshot (worker_backend : string) : res CooldownSnapshot :=
  reset_at <-? worker_backend_blocked_until worker_backend ;;
  details <-? worker_backend_cooldown_details worker_backend ;;
  Ok {| cs_cooling_down := bool_decide (is_Some reset_at); cs_reset_at := reset_at;
        cs_seconds_remaining := seconds_remaining <$> reset_at; cs_cooldowns := details |}.

(** [current_worker_backend_cooldowns]: one entry per supported backend. *)
Definition current_worker_backend_cooldowns : res (list (string * CooldownSnapshot)) :=
  claude <-? backend_snapshot "claude_code" ;;
  codex <-? backend_snapshot "codex_cli" ;;
  Ok [("claude_code", claude); ("codex_cli", codex)].
End Readers.

(** ** The self-calibrating budget cap *)

(** [samples[-1].get("at")] within [min_gap] of [now]: same episode.  A
    timestamp that does not parse, or that mixes awareness, is no episode. *)
Definition same_episode (samples : list dict) (now : datetime) (min_gap : Z) : bool :=
  match last samples with
  | None => false
  | Some s =>
      match fromisoformat_str (dget s "at") with
      | None => false
      | Some at_ => match dt_diff now at_ with Ok d => (d <? min_gap)%Z | Raise _ => false end
      end
  end.

Definition record_budget_cap_sample (free_mb : option Q) (f : file) (now : datetime)
    (weighted : Q) (min_gap : Z) (keep : nat) : file * res unit :=
  if Qle_b weighted 0 then (f, Ok tt)
  else
    let data := load f in
    let samples := us_budget_cap_samples data in
    if same_episode samples now min_gap then (f, Ok tt)
    else exclusive f (fun data =>
      save free_mb (set_samples data (last_n keep
        (samples ++ [list_to_map [("weighted", JFloat weighted); ("at", JTime now)]]))) now).

(** The middle of a sorted list, or the mean of the two middles. *)
Definition median (sorted : list Q) : Q :=
  let n := length sorted in
  let mid := n / 2 in
  if Nat.odd n then nth mid sorted 0%Q
  else ((nth (mid - 1) sorted 0 + nth mid sorted 0) / 2)%Q.

Definition learned_budget_cap (f : file) (min_samples : nat) : res (option Q) :=
  weights <-? foldM (fun acc s =>
      if jtruthy (dget s "weighted") then w <-? jfloat (dget s "weighted") ;; Ok (acc ++ [w])
      else Ok acc) [] (us_budget_cap_samples (load f)) ;;
  let weights := sorted_by Qle_b weights in
  if (length weights <? min_samples)%nat then Ok None
  else Ok (Some (median weights)).

(** ** Lemmas: latest, earliest, classification *)

Lemma pick_fold key l acc :
  match fold_left (pick key) l acc with
  | None => l = [] /\ acc = None
  | Some t => (acc = Some t \/ t ∈ l) /\
      (forall x, acc = Some x \/ x ∈ l -> (key (dt_us x) <= key (dt_us t))%Z)
  end.
Proof.
  revert acc. induction l as [|x l IH]; intros acc; simpl.
  { destruct acc as [a|]; [|done]. split; [by left|].
    intros y [[= <-] | H%elem_of_nil]; [lia | done]. }
  assert (exists b, pick key acc x = Some b /\ (acc = Some b \/ x = b) /\
            (forall y, acc = Some y \/ y = x -> (key (dt_us y) <= key (dt_us b))%Z))
    as (b & -> & Hb & Hbest).
  { destruct acc as [a|]; simpl; [|naive_solver lia].
    destruct (_ <? _)%Z eqn:E; boolify; eexists; split; naive_solver lia. }
  specialize (IH (Some b)). destruct (fold_left (pick key) l (Some b)) as [t|]; [|naive_solver].
  setoid_rewrite elem_of_cons. destruct IH as [Hin Hle]. split; [naive_solver|].
  assert (key (dt_us b) <= key (dt_us t))%Z by (apply Hle; by left).
  intros y [Hy | [Hy | Hy]]; [| |by apply Hle; right]; etrans; try apply Hbest; auto.
Qed.

Lemma latest_spec l :
  match latest l with
  | None => l = []
  | Some t => t ∈ l /\ forall x, x ∈ l -> (dt_us x <= dt_us t)%Z
  end.
Proof.
  pose proof (pick_fold (fun z => z) l None) as H. fold later in H. fold (latest l) in H.
  destruct (latest l); naive_solver.
Qed.

Lemma earliest_spec l :
  match earliest l with
  | None => l = []
  | Some t => t ∈ l /\ forall x, x ∈ l -> (dt_us t <= dt_us x)%Z
  end.
Proof.
  pose proof (pick_fold Z.opp l None) as H. fold earlier in H. fold (earliest l) in H.
  destruct (earliest l) as [t|]; [|naive_solver].
  destruct H as [[H | H] Hle]; [done|]. split; [done|].
  intros x Hx. specialize (Hle x (or_intror Hx)). lia.
Qed.

(** Cooldowns that stop one model for the week, and those that stop them all. *)
Definition weekly_for (m : string) (c : cooldown) : bool :=
  bool_decide (fst c = (Some MODEL_WEEKLY, Some m)).
Definition account_wide (c : cooldown) : bool :=
  negb (bool_decide (fst (fst c) = Some MODEL_WEEKLY) && bool_decide (is_Some (snd (fst c)))).

Definition weekly_resets (m : string) (cs : list cooldown) : list datetime :=
  map snd (List.filter (weekly_for m) cs).
Definition account_resets (cs : list cooldown) : list datetime :=
  map snd (List.filter account_wide cs).

Lemma later_some acc t : exists t', later acc t = Some t'.
Proof. unfold later, pick. destruct acc; [destruct (_ <? _)%Z|]; eauto. Qed.

Lemma classify_weekly acc m r :
  exists t, later (snd acc !! m) r = Some t /\
  classify_cooldown acc (Some MODEL_WEEKLY, Some m, r) = (fst acc, <[m := t]> (snd acc)).
Proof. destruct (later_some (snd acc !! m) r) as [t Ht]. exists t. simpl. by rewrite Ht. Qed.

Lemma classify_account acc c :
  account_wide c = true -> classify_cooldown acc c = (fst acc ++ [snd c], snd acc).
Proof.
  destruct c as [[k m] r]. unfold account_wide, classify_cooldown. simpl.
  rewrite negb_true_iff, andb_false_iff, !bool_decide_eq_false. intros [Hk | Hm].
  - by rewrite (bool_decide_eq_false_2 _ Hk).
  - destruct m; [destruct Hm; by eexists|]. by case_bool_decide.
Qed.

Lemma classify_fold cs acc :
  fst (fold_left classify_cooldown cs acc) = fst acc ++ account_resets cs /\
  forall m, snd (fold_left classify_cooldown cs acc) !! m
            = fold_left later (weekly_resets m cs) (snd acc !! m).
Proof.
  revert acc. unfold account_resets, weekly_resets.
  induction cs as [|c cs IH]; intros acc; simpl; [by rewrite app_nil_r|].
  specialize (IH (classify_cooldown acc c)) as [IH1 IH2].
  destruct (account_wide c) eqn:E.
  - rewrite (classify_account _ _ E) in *. simpl in *. split.
    { rewrite IH1. by rewrite <-app_assoc. }
    intros m. rewrite IH2. unfold weekly_for at 2. case_bool_decide as Hc; [|done].
    unfold account_wide in E. rewrite Hc in E. simpl in E. done.
  - unfold account_wide in E. apply negb_false_iff, andb_true_iff in E as [Hk Hm].
    apply bool_decide_eq_true in Hk, Hm. destruct c as [[k [m0|]] r]; simpl in *; [|by destruct Hm].
    subst k. destruct (classify_weekly acc m0 r) as (t & Ht & Hcl).
    unfold classify_cooldown in Hcl. simpl in Hcl. unfold classify_cooldown in IH1, IH2.
    rewrite Ht in *. simpl in *. split; [done|]. intros m. rewrite IH2.
    unfold weekly_for at 2. simpl. case_bool_decide as Hc.
    + injection Hc as <-. simpl. by rewrite lookup_insert_eq, Ht.
    + rewrite lookup_insert_ne; [done|]. congruence.
Qed.

Lemma models_block_spec pm models :
  match models_block pm models with
  | None => models = [] \/ exists m, m ∈ models /\ pm !! m = None
  | Some t => earliest (omap (fun m => pm !! m) models) = Some t /\
      forall m, m ∈ models -> pm !! m <> None
  end.
Proof.
  unfold models_block.
  destruct (list_truthy models && _) eqn:E.
  - apply andb_true_iff in E as [Hne Hall]. apply list_truthy_spec in Hne.
    assert (Hm : forall m, m ∈ models -> is_Some (pm !! m)).
    { intros m Hm. rewrite forallb_forall in Hall. apply list_elem_of_In, Hall in Hm.
      by apply bool_decide_eq_true in Hm. }
    destruct (earliest _) eqn:Ee.
    { split; [done|]. intros m Hin. by apply not_eq_None_Some, Hm. }
    exfalso. pose proof (earliest_spec (omap (fun m => pm !! m) models)) as Hs.
    rewrite Ee in Hs. destruct models as [|m models]; [done|].
    destruct (Hm m) as [t Ht]; [left|]. simpl in Hs. by rewrite Ht in Hs.
  - apply andb_false_iff in E as [Hne | Hall].
    + left. by destruct models.
    + right. apply forallb_false_exists in Hall as (m & Hm & Hf). exists m. split; [done|].
      apply bool_decide_eq_false in Hf. by apply eq_None_not_Some.
Qed.

(** The answer on the active cooldowns: [None] exactly when no account-wide
    limit is active and the backend is unknown or has a model with no weekly
    limit; otherwise the latest account-wide reset, or, without one, the
    earliest over the models of each model's latest weekly reset. *)
Lemma blocked_until_of_spec wb cs :
  let models := default [] (WORKER_BACKEND_MODELS !! wb) in
  match blocked_until_of wb cs with
  | None => account_resets cs = [] /\
      (models = [] \/ exists m, m ∈ models /\ weekly_resets m cs = [])
  | Some t =>
      latest (account_resets cs) = Some t \/
      (account_resets cs = [] /\
       earliest (omap (fun m => latest (weekly_resets m cs)) models) = Some t /\
       forall m, m ∈ models -> weekly_resets m cs <> [])
  end.
Proof.
  intros models. unfold blocked_until_of. fold models.
  destruct (classify_fold cs ([], ∅)) as [H1 H2].
  destruct (fold_left classify_cooldown cs ([], ∅)) as [aw pm]. simpl in *. subst aw.
  assert (Hpm : forall m, pm !! m = latest (weekly_resets m cs))
    by (intros m; rewrite H2, lookup_empty; done).
  assert (Hno : forall m, pm !! m = None <-> weekly_resets m cs = []).
  { intros m. rewrite Hpm. pose proof (latest_spec (weekly_resets m cs)) as Hl.
    destruct (latest _); [|done]. split; [done|]. intros E. rewrite E in Hl.
    destruct Hl as [Hl _]. by apply elem_of_nil in Hl. }
  destruct (account_resets cs) as [|a l] eqn:Ea.
  - pose proof (models_block_spec pm models) as Hm.
    destruct (models_block pm models) as [t|].
    + right. destruct Hm as [He Hall]. split; [done|]. split; [|by setoid_rewrite <-Hno].
      rewrite <-He. f_equal. apply list_omap_ext, Forall_Forall2_diag, Forall_true.
      intros m. by rewrite Hpm.
    + split; [done|]. by setoid_rewrite Hno in Hm.
  - destruct (latest (a :: l)) eqn:El; [by left|].
    pose proof (latest_spec (a :: l)) as Hs. by rewrite El in Hs.
Qed.

(** ** The ledger's cooldowns as plain lists *)

Definition str_or_null (v : jval) : bool :=
  match v with JStr _ | JNull => true | _ => false end.

(** An event as the class writes it: aware times, and a kind and a model that
    are strings or absent. *)
Definition event_ok (e : dict) : Prop :=
  event_aware e /\
  match fromisoformat_str (dget e "reset_at") with Some t => dt_aware t = true | None => True end /\
  str_or_null (dget e "limit_kind") = true /\ str_or_null (dget e "model") = true.

Definition file_ok (f : file) : Prop := Forall event_ok (us_events (load f)).

Definition active_b (wb : string) (now : datetime) (e : dict) : option datetime :=
  if is_cooldown_for wb e then
    match fromisoformat_str (dget e "reset_at") with
    | Some r => if (dt_us r <=? dt_us now)%Z then None else Some r
    | None => None
    end
  else None.

Definition cooldown_entry (wb : string) (now : datetime) (e : dict) : option cooldown :=
  (fun r => (limit_kind_of e, model_of e, r)) <$> active_b wb now e.

Definition cooldowns (wb : string) (now : datetime) (events : list dict) : list cooldown :=
  omap (cooldown_entry wb now) events.

Lemma active_reset_ok wb now e :
  dt_aware now = true -> event_ok e -> active_reset wb now e = Ok (active_b wb now e).
Proof.
  intros Hn (_ & Hr & _). unfold active_reset, active_b.
  destruct (is_cooldown_for wb e); [|done]. simpl.
  destruct (dget e "reset_at"); try done. simpl in *.
  by rewrite dt_le_aware.
Qed.

Lemma is_active_ok wb now e :
  dt_aware now = true -> event_ok e ->
  is_active_cooldown_for e wb now = Ok (bool_decide (is_Some (active_b wb now e))).
Proof.
  intros Hn He. unfold is_active_cooldown_for. rewrite active_reset_ok by done. simpl.
  by destruct (active_b wb now e).
Qed.

Lemma active_cooldowns_ok wb now events :
  dt_aware now = true -> Forall event_ok events ->
  active_cooldowns wb now events = Ok (cooldowns wb now events).
Proof.
  intros Hn He. unfold cooldowns. induction He as [|e events He Hes IH]; [done|].
  simpl. rewrite active_reset_ok by done. simpl. rewrite IH. simpl.
  unfold cooldown_entry. by destruct (active_b wb now e).
Qed.

Lemma file_ok_aware f : file_ok f -> Forall event_aware (us_events (load f)).
Proof. intros H. eapply Forall_impl; [exact H|]. by intros e [? _]. Qed.

Lemma pruned_ok events now : Forall event_ok events -> Forall event_ok (pruned events now).
Proof. unfold pruned. auto with oc. Qed.

Lemma current_cooldowns_ok f now wb :
  dt_aware now = true -> file_ok f ->
  current_cooldowns f now wb = Ok (cooldowns wb now (pruned (us_events (load f)) now)).
Proof.
  intros Hn Hf. unfold current_cooldowns.
  rewrite prune_events_ok by auto using file_ok_aware. simpl.
  by apply active_cooldowns_ok, pruned_ok.
Qed.

Lemma elem_of_cooldowns wb now events c :
  c ∈ cooldowns wb now events <->
  exists e, e ∈ events /\ active_b wb now e = Some (snd c) /\
    limit_kind_of e = fst (fst c) /\ model_of e = snd (fst c).
Proof.
  unfold cooldowns. rewrite list_elem_of_omap. unfold cooldown_entry.
  setoid_rewrite fmap_Some. destruct c as [[k m] r]. simpl. split.
  - intros (e & He & r' & Hr & [= -> -> ->]). eauto.
  - intros (e & He & Hr & <- & <-). eauto 10.
Qed.

Lemma cooldowns_future wb now events c :
  c ∈ cooldowns wb now events -> (dt_us now < dt_us (snd c))%Z.
Proof.
  intros (e & _ & Ha & _)%elem_of_cooldowns. unfold active_b in Ha.
  destruct (is_cooldown_for wb e); [|done]. destruct (fromisoformat_str _); [|done].
  destruct (_ <=? _)%Z eqn:E; [done|]. injection Ha as ->. by boolify.
Qed.

Lemma cooldowns_pruned wb now events t c :
  c ∈ cooldowns wb now (pruned events t) -> c ∈ cooldowns wb now events.
Proof.
  rewrite !elem_of_cooldowns. intros (e & He & H). exists e. split; [|done].
  by apply elem_of_pruned in He as [? _].
Qed.

Lemma elem_of_account_resets cs t :
  t ∈ account_resets cs <-> exists c, c ∈ cs /\ account_wide c = true /\ snd c = t.
Proof.
  unfold account_resets. rewrite list_elem_of_fmap. setoid_rewrite elem_of_filter_bool. naive_solver.
Qed.

Lemma elem_of_weekly_resets m cs t :
  t ∈ weekly_resets m cs <-> (Some MODEL_WEEKLY, Some m, t) ∈ cs.
Proof.
  unfold weekly_resets. rewrite list_elem_of_fmap. setoid_rewrite elem_of_filter_bool.
  unfold weekly_for. setoid_rewrite bool_decide_eq_true. split.
  - intros ([k r] & -> & Hin & Hk). simpl in *. by subst k.
  - intros H. by exists (Some MODEL_WEEKLY, Some m, t).
Qed.

(** a backend is reported blocked exactly when all its models are: because
    an account-wide (or unattributed) limit is active, and then until the
    latest such reset; or because every model it runs is out of its weekly
    quota, and then until the soonest model frees up.  One model being free is
    enough not to be blocked, and a reported time is always in the future. *)
Theorem blocked_until_spec f now wb :
  dt_aware now = true -> file_ok f ->
  let cs := cooldowns wb now (pruned (us_events (load f)) now) in
  let models := default [] (WORKER_BACKEND_MODELS !! wb) in
  exists answer, worker_backend_blocked_until f now wb = Ok answer /\
  match answer with
  | None =>
      (forall c, c ∈ cs -> account_wide c = false) /\
      (models = [] \/ exists m, m ∈ models /\ forall t, (Some MODEL_WEEKLY, Some m, t) ∉ cs)
  | Some t =>
      (dt_us now < dt_us t)%Z /\
      ((exists c, c ∈ cs /\ account_wide c = true /\ snd c = t /\
          forall c', c' ∈ cs -> account_wide c' = true -> (dt_us (snd c') <= dt_us t)%Z) \/
       ((forall c, c ∈ cs -> account_wide c = false) /\
        (exists m, m ∈ models /\ (Some MODEL_WEEKLY, Some m, t) ∈ cs /\
           forall t', (Some MODEL_WEEKLY, Some m, t') ∈ cs -> (dt_us t' <= dt_us t)%Z) /\
        (forall m, m ∈ models ->
           exists t', (Some MODEL_WEEKLY, Some m, t') ∈ cs /\ (dt_us t <= dt_us t')%Z)))
  end.
Proof.
  intros Hn Hf cs models. unfold worker_backend_blocked_until.
  rewrite current_cooldowns_ok by done. simpl. fold cs. eexists. split; [done|].
  pose proof (blocked_until_of_spec wb cs) as H. fold models in H. simpl in H.
  assert (Hnone : account_resets cs = [] -> forall c, c ∈ cs -> account_wide c = false).
  { intros E c Hc. destruct (account_wide c) eqn:Ea; [|done].
    assert (snd c ∈ account_resets cs) as Hin by (apply elem_of_account_resets; eauto).
    rewrite E in Hin. by apply elem_of_nil in Hin. }
  assert (Hlate : forall m, match latest (weekly_resets m cs) with
      | None => weekly_resets m cs = []
      | Some t => (Some MODEL_WEEKLY, Some m, t) ∈ cs /\
          forall t', (Some MODEL_WEEKLY, Some m, t') ∈ cs -> (dt_us t' <= dt_us t)%Z end).
  { intros m. pose proof (latest_spec (weekly_resets m cs)) as Hl.
    destruct (latest (weekly_resets m cs)); [|done]. setoid_rewrite elem_of_weekly_resets in Hl. done. }
  destruct (blocked_until_of wb cs) as [t|].
  - destruct H as [H | (H0 & H & Hall)].
    + pose proof (latest_spec (account_resets cs)) as Hl. rewrite H in Hl.
      setoid_rewrite elem_of_account_resets in Hl. destruct Hl as [(c & Hc & Ha & <-) Hle].
      split; [by eapply cooldowns_future|]. left. exists c. naive_solver.
    + pose proof (earliest_spec (omap (fun m => latest (weekly_resets m cs)) models)) as He.
      rewrite H in He. setoid_rewrite list_elem_of_omap in He.
      destruct He as [(m & Hm & Ht) Hle]. pose proof (Hlate m) as Hl. rewrite Ht in Hl.
      destruct Hl as [Hin Hmax]. split; [by apply (cooldowns_future _ _ _ _ Hin)|]. right.
      split; [by apply Hnone|]. split; [by eauto|]. intros m' Hm'.
      pose proof (Hlate m') as Hl'. destruct (latest (weekly_resets m' cs)) as [t'|] eqn:E.
      * exists t'. split; [apply Hl'|]. apply Hle. eauto.
      * by apply Hall in Hl'.
  - destruct H as [H0 H]. split; [by apply Hnone|].
    destruct H as [H | (m & Hm & H)]; [by left|]. right. exists m. split; [done|].
    intros t Ht. apply elem_of_weekly_resets in Ht. rewrite H in Ht. by apply elem_of_nil in Ht.
Qed.

(** ** Recording and clearing *)

Lemma cooldown_event_fields wb reset_at now kind model :
  let e := cooldown_event wb reset_at now kind model in
  dget e "kind" = JStr "worker_backend_cooldown" /\ dget e "worker_backend" = JStr wb /\
  dget e "reset_at" = JTime reset_at /\ event_ts e = Some now /\
  dget e "limit_kind" = opt_jstr kind /\ dget e "model" = opt_jstr model.
Proof.
  unfold cooldown_event, event_ts, dget. destruct kind, model; repeat split;
    rewrite ?lookup_insert_eq; reflexivity || (rewrite !lookup_insert_ne by done; reflexivity).
Qed.

Lemma cooldown_event_ok wb reset_at now kind model :
  dt_aware now = true -> dt_aware reset_at = true ->
  event_ok (cooldown_event wb reset_at now kind model).
Proof.
  intros Hn Hr. destruct (cooldown_event_fields wb reset_at now kind model)
    as (_ & _ & H1 & H2 & H3 & H4).
  unfold event_ok, event_aware. rewrite H1, H2, H3, H4. by destruct kind, model.
Qed.

Lemma cooldown_event_entry wb reset_at now kind model :
  cooldown_entry wb now (cooldown_event wb reset_at now kind model)
    = if (dt_us reset_at <=? dt_us now)%Z then None else Some (kind, model, reset_at).
Proof.
  destruct (cooldown_event_fields wb reset_at now kind model) as (H0 & H1 & H2 & _ & H3 & H4).
  unfold cooldown_entry, active_b, is_cooldown_for, has_kind, limit_kind_of, model_of.
  rewrite H0, H1, H2, H3, H4. simpl. rewrite String.eqb_refl. simpl.
  destruct (_ <=? _)%Z; [done|]. simpl. by destruct kind, model.
Qed.

Definition same_key (wb : string) (now : datetime) (kind model : option string) (e : dict) : bool :=
  bool_decide (is_Some (active_b wb now e)) && jeq_opt (dget e "limit_kind") kind
  && jeq_opt (dget e "model") model.

Lemma record_cooldown_ok free_mb f now wb reset_at kind model :
  check_disk_space free_mb = Ok tt -> dt_aware now = true -> dt_aware reset_at = true ->
  file_ok f ->
  record_worker_backend_cooldown free_mb f now wb reset_at kind model =
    (Some (saved (set_events (load f)
       (List.filter (fun e => negb (same_key wb now kind model e)) (us_events (load f))
        ++ [cooldown_event wb reset_at now kind model])) now), Ok tt).
Proof.
  intros Hd Hn Hr Hf. unfold record_worker_backend_cooldown, exclusive.
  rewrite (filterM_ok _ (fun e => negb (same_key wb now kind model e))).
  2: { eapply Forall_impl; [exact Hf|]. intros e He. by rewrite is_active_ok. }
  simpl. unfold append_event. rewrite save_ok; [done | done | done|].
  unfold store_aware. simpl. apply Forall_app. split.
  - apply filter_Forall. by apply file_ok_aware.
  - constructor; [|done]. by apply cooldown_event_ok.
Qed.

Lemma jeq_opt_typed v o : str_or_null v = true -> jeq_opt v o = bool_decide (jstr v = o).
Proof.
  intros Hv. apply eq_true_iff_eq. rewrite jeq_opt_eq, bool_decide_eq_true.
  destruct v, o; simpl in *; naive_solver.
Qed.

Lemma kept_no_key wb now kind model e :
  event_ok e -> same_key wb now kind model e = false ->
  match cooldown_entry wb now e with Some c => fst c <> (kind, model) | None => True end.
Proof.
  intros (_ & _ & Hk & Hm) Hs. unfold cooldown_entry. destruct (active_b wb now e) eqn:E; [|done].
  simpl. intros [= <- <-]. unfold same_key in Hs. rewrite E in Hs.
  rewrite !jeq_opt_typed in Hs by done. unfold limit_kind_of, model_of in Hs.
  rewrite !(bool_decide_eq_true_2 (_ = _)) in Hs by done. done.
Qed.

Lemma last_n_elem {A} n (l : list A) x : x ∈ last_n n l -> x ∈ l.
Proof.
  intros H. destruct (last_n_suffix n l) as [pre Hp]. rewrite Hp. apply elem_of_app. by right.
Qed.

(** recording a limit leaves exactly one active cooldown for its backend,
    kind and model, the one recorded (none if its reset has passed): an
    earlier record of the same limit is superseded, never piled up. *)
Theorem record_cooldown_coalesces free_mb f now wb reset_at kind model :
  check_disk_space free_mb = Ok tt -> dt_aware now = true -> dt_aware reset_at = true ->
  file_ok f ->
  let f' := fst (record_worker_backend_cooldown free_mb f now wb reset_at kind model) in
  List.filter (fun c => bool_decide (fst c = (kind, model)))
    (cooldowns wb now (us_events (load f')))
  = (if (dt_us reset_at <=? dt_us now)%Z then [] else [(kind, model, reset_at)]) /\ file_ok f'.
Proof.
  intros Hd Hn Hr Hf. rewrite record_cooldown_ok by done. simpl.
  set (kept := List.filter _ (us_events (load f))).
  assert (Hkept : Forall event_ok kept) by (apply filter_Forall, Hf).
  destruct (cooldown_event_fields wb reset_at now kind model) as (_ & _ & _ & Hts & _).
  split.
  - rewrite pruned_snoc by (eapply since_b_ts; [exact Hts | apply sub_us_le; done]).
    unfold cooldowns. rewrite omap_app, List.filter_app.
    rewrite filter_none.
    2: { apply Forall_forall. intros c Hc. apply bool_decide_eq_false.
         apply list_elem_of_omap in Hc as (e & He & Hc).
         apply last_n_elem, elem_of_filter_bool in He as [He _].
         assert (event_ok e) as Hok by (by eapply Forall_forall in Hkept).
         apply elem_of_filter_bool in He as [_ Hs]. apply negb_true_iff in Hs.
         pose proof (kept_no_key _ _ _ _ _ Hok Hs) as Hx. by rewrite Hc in Hx. }
    simpl. rewrite cooldown_event_entry. destruct (_ <=? _)%Z; [done|]. simpl.
    by rewrite bool_decide_eq_true_2.
  - unfold file_ok. simpl. apply pruned_ok, Forall_app. split; [done|].
    constructor; [by apply cooldown_event_ok|done].
Qed.

Lemma record_cooldown_file_ok free_mb f now wb reset_at kind model :
  check_disk_space free_mb = Ok tt -> dt_aware now = true -> dt_aware reset_at = true ->
  file_ok f -> file_ok (fst (record_worker_backend_cooldown free_mb f now wb reset_at kind model)).
Proof.
  intros Hd Hn Hr Hf. rewrite record_cooldown_ok by done. apply pruned_ok, Forall_app.
  split; [by apply filter_Forall, Hf|]. constructor; [by apply cooldown_event_ok|done].
Qed.

Lemma cooldowns_aware wb now events c :
  Forall event_ok events -> c ∈ cooldowns wb now events -> dt_aware (snd c) = true.
Proof.
  intros Hok (e & He & Ha & _)%elem_of_cooldowns. eapply Forall_forall in Hok; [|exact He].
  destruct Hok as (_ & Hr & _). unfold active_b in Ha. destruct (is_cooldown_for wb e); [|done].
  destruct (fromisoformat_str _) as [r|]; [|done]. destruct (_ <=? _)%Z; [done|]. congruence.
Qed.

(** On the class's own files [worker_backend_blocked_until] answers, with an
    aware time. *)
Lemma blocked_until_answers f now wb :
  dt_aware now = true -> file_ok f ->
  exists answer, worker_backend_blocked_until f now wb = Ok answer /\
    match answer with Some t => dt_aware t = true | None => True end.
Proof.
  intros Hn Hf. unfold worker_backend_blocked_until. rewrite current_cooldowns_ok by done.
  eexists. split; [done|]. set (cs := cooldowns _ _ _).
  assert (Hin : forall t c, c ∈ cs -> snd c = t -> dt_aware t = true).
  { intros t c Hc <-. eapply cooldowns_aware; [|exact Hc]. by apply pruned_ok. }
  pose proof (blocked_until_of_spec wb cs) as H. destruct (blocked_until_of wb cs) as [t|]; [|done].
  destruct H as [H | (_ & H & _)].
  - pose proof (latest_spec (account_resets cs)) as Hl. rewrite H in Hl.
    destruct Hl as [(c & Hc & _ & E)%elem_of_account_resets _]. by eapply Hin.
  - pose proof (earliest_spec (omap (fun m => latest (weekly_resets m cs))
      (default [] (WORKER_BACKEND_MODELS !! wb)))) as He. rewrite H in He.
    destruct He as [(m & _ & Ht)%list_elem_of_omap _].
    pose proof (latest_spec (weekly_resets m cs)) as Hl. rewrite Ht in Hl.
    destruct Hl as [Hl%elem_of_weekly_resets _]. by eapply Hin.
Qed.

(** An account-wide limit just recorded is among the active ones until its
    reset, and dominates the answer. *)
Lemma account_limit_blocks_until free_mb f now wb reset_at kind model later_now :
  check_disk_space free_mb = Ok tt -> dt_aware now = true -> dt_aware reset_at = true ->
  dt_aware later_now = true -> file_ok f ->
  kind <> Some MODEL_WEEKLY \/ model = None ->
  (dt_us later_now < dt_us reset_at)%Z -> (dt_us now <= dt_us later_now)%Z ->
  (dt_us later_now <= dt_us now + days 7)%Z ->
  let f' := fst (record_worker_backend_cooldown free_mb f now wb reset_at kind model) in
  exists t, worker_backend_blocked_until f' later_now wb = Ok (Some t) /\
    (dt_us reset_at <= dt_us t)%Z.
Proof.
  intros Hd Hn Hr Hl Hf Hk Hlr Hnl Hw. rewrite record_cooldown_ok by done. simpl.
  set (kept := List.filter _ (us_events (load f))). set (f' := Some _).
  set (ev := cooldown_event wb reset_at now kind model).
  destruct (cooldown_event_fields wb reset_at now kind model) as (F0 & F1 & F2 & Hts & F3 & F4).
  assert (Hf' : file_ok f').
  { apply pruned_ok. simpl. apply Forall_app. split; [by apply filter_Forall, Hf|].
    constructor; [by apply cooldown_event_ok|done]. }
  unfold worker_backend_blocked_until. rewrite current_cooldowns_ok by done. simpl.
  assert (Hin : (kind, model, reset_at) ∈
    cooldowns wb later_now (pruned (pruned (kept ++ [ev]) now) later_now)).
  { apply elem_of_cooldowns. exists ev. split.
    - rewrite (pruned_snoc kept) by (eapply since_b_ts; [exact Hts | by apply sub_us_le]).
      rewrite pruned_snoc by (eapply since_b_ts; [exact Hts | simpl; lia]).
      apply elem_of_app. right. left.
    - unfold active_b, is_cooldown_for, has_kind, limit_kind_of, model_of, ev.
      rewrite F0, F1, F2, F3, F4. simpl. rewrite String.eqb_refl. simpl.
      rewrite (proj2 (Z.leb_gt _ _)) by done. by destruct kind, model. }
  set (cs := cooldowns _ _ _) in *.
  assert (Hacc : reset_at ∈ account_resets cs).
  { apply elem_of_account_resets. eexists. split; [exact Hin|]. split; [|done].
    unfold account_wide. simpl. destruct Hk as [Hk | ->]; [by rewrite bool_decide_eq_false_2|].
    by destruct (bool_decide (kind = _)). }
  pose proof (blocked_until_of_spec wb cs) as H. simpl in H.
  pose proof (latest_spec (account_resets cs)) as Hla.
  destruct (blocked_until_of wb cs) as [t|].
  - destruct H as [H | (H & _)]; [|rewrite H in Hacc; by apply elem_of_nil in Hacc].
    rewrite H in Hla. exists t. split; [done|]. by apply Hla.
  - destruct H as [H _]. rewrite H in Hacc. by apply elem_of_nil in Hacc.
Qed.

(** after an account-wide limit is recorded, the backend is reported
    blocked, at least until that limit's reset, for as long as the record
    lives. *)
Theorem account_limit_blocks free_mb f now wb reset_at kind model later_now :
  check_disk_space free_mb = Ok tt -> dt_aware now = true -> dt_aware reset_at = true ->
  dt_aware later_now = true -> file_ok f ->
  kind <> Some MODEL_WEEKLY \/ model = None ->
  (dt_us later_now < dt_us reset_at)%Z -> (dt_us now <= dt_us later_now)%Z ->
  (dt_us later_now <= dt_us now + days 7)%Z ->
  let f' := fst (record_worker_backend_cooldown free_mb f now wb reset_at kind model) in
  exists t, worker_backend_blocked_until f' later_now wb = Ok (Some t) /\
    (dt_us reset_at <= dt_us t)%Z.
Proof. apply account_limit_blocks_until. Qed.

Definition cleared_b (wb : string) (model : option string) (include_account_wide : bool)
    (now : datetime) (e : dict) : bool :=
  if bool_decide (is_Some (active_b wb now e)) then
    if jeq_str (dget e "limit_kind") MODEL_WEEKLY && negb (jeq_opt (dget e "model") None)
    then jeq_opt (dget e "model") model
    else include_account_wide
  else false.

Lemma cleared_ok wb model aw now e :
  dt_aware now = true -> event_ok e -> cleared wb model aw now e = Ok (cleared_b wb model aw now e).
Proof.
  intros Hn He. unfold cleared, cleared_b. rewrite is_active_ok by done. simpl.
  by destruct (bool_decide _).
Qed.

(** Which active entries a clear retracts, read off the entry. *)
Definition retracted (model : option string) (include_account_wide : bool) (c : cooldown) : bool :=
  if account_wide c then include_account_wide else bool_decide (snd (fst c) = model).

Lemma cleared_b_entry wb model aw now e c :
  event_ok e -> cooldown_entry wb now e = Some c -> cleared_b wb model aw now e = retracted model aw c.
Proof.
  intros (_ & _ & Hk & Hm) Hc. unfold cooldown_entry in Hc.
  destruct (active_b wb now e) eqn:E; [|done]. simpl in Hc. injection Hc as <-.
  unfold cleared_b, retracted, account_wide, limit_kind_of, model_of. rewrite E. simpl.
  destruct (dget e "limit_kind") as [| | | |k| | |]; try done; simpl.
  destruct (dget e "model") as [| | | |m| | |]; try done; simpl.
  - rewrite andb_false_r. by case_bool_decide.
  - rewrite andb_true_r. destruct (String.eqb_spec k MODEL_WEEKLY) as [-> | Hne]; simpl.
    + rewrite (jeq_opt_typed (JStr m) model) by done. by repeat case_bool_decide.
    + by case_bool_decide; [congruence|].
Qed.

Lemma clear_ok free_mb f now wb model aw reason :
  check_disk_space free_mb = Ok tt -> dt_aware now = true -> file_ok f ->
  exists audit,
  clear_worker_backend_cooldown free_mb f now wb model aw reason =
    (Some (saved (set_events (load f)
       (List.filter (fun e => negb (cleared_b wb model aw now e)) (us_events (load f)) ++ audit)) now),
     Ok (count_if (cleared_b wb model aw now) (us_events (load f)))) /\
  Forall event_ok audit /\ cooldowns wb now audit = [] /\ length audit <= 1 /\
  Forall (fun e => since_b (sub_us now (days 7)) e = true) audit.
Proof.
  intros Hd Hn Hf. unfold clear_worker_backend_cooldown, exclusive_with.
  rewrite (filterM_ok (cleared wb model aw now) (cleared_b wb model aw now)).
  2: { eapply Forall_impl; [exact Hf|]. intros e He. by apply cleared_ok. }
  simpl. rewrite (filterM_ok _ (fun e => negb (cleared_b wb model aw now e))).
  2: { eapply Forall_impl; [exact Hf|]. intros e He. by rewrite cleared_ok. }
  simpl. set (kept := List.filter (fun e => negb _) _).
  assert (Hkept : Forall event_aware kept) by (apply filter_Forall, file_ok_aware, Hf).
  unfold append_event. destruct (_ =? 0)%Z.
  - exists []. rewrite app_nil_r, save_ok by done. split; [done|]. split_and!; try done. simpl. lia.
  - eexists [event _ _ _]. simpl. rewrite save_ok; [split; [reflexivity|] | done | done|].
    2: { apply Forall_app. split; [done|]. constructor; [by apply event_aware_event|done]. }
    split_and!.
    + constructor; [|done]. split; [by apply event_aware_event|].
      rewrite !dget_event by done. split; [done|]. split; [done|]. by destruct model.
    + unfold cooldowns. simpl. unfold cooldown_entry, active_b, is_cooldown_for.
      by rewrite has_kind_event.
    + done.
    + constructor; [|done]. by apply since_b_event.
Qed.

(** clearing a model removes every active cooldown of that model's weekly
    quota and, when asked, every account-wide one, and counts them; when the
    ledger has room (its events are recent and fewer than its cap) no other
    active cooldown is lost, so other models' limits stay. *)
Theorem clear_retracts_exactly free_mb f now wb model aw reason :
  check_disk_space free_mb = Ok tt -> dt_aware now = true -> file_ok f ->
  let '(f', r) := clear_worker_backend_cooldown free_mb f now wb model aw reason in
  let before := cooldowns wb now (us_events (load f)) in
  let after := cooldowns wb now (us_events (load f')) in
  r = Ok (count_if (retracted model aw) before) /\
  (forall c, c ∈ after -> c ∈ before /\ retracted model aw c = false) /\
  (Forall (fun e => since_b (sub_us now (days 7)) e = true) (us_events (load f)) ->
   length (us_events (load f)) < MAX_EVENTS ->
   after = List.filter (fun c => negb (retracted model aw c)) before).
Proof.
  intros Hd Hn Hf. destruct (clear_ok free_mb f now wb model aw reason Hd Hn Hf)
    as (audit & -> & Ha & Hca & Hla & Hra). simpl.
  assert (Hfil : forall evs, Forall event_ok evs ->
    cooldowns wb now (List.filter (fun e => negb (cleared_b wb model aw now e)) evs)
      = List.filter (fun c => negb (retracted model aw c)) (cooldowns wb now evs) /\
    count_if (cleared_b wb model aw now) evs = count_if (retracted model aw) (cooldowns wb now evs)).
  { unfold cooldowns, count_if. induction 1 as [|e evs He Hes [IH1 IH2]]; [done|]. csimpl.
    destruct (cooldown_entry wb now e) as [c|] eqn:Ec.
    - rewrite (cleared_b_entry _ _ _ _ _ _ He Ec). csimpl.
      destruct (retracted model aw c); csimpl; rewrite ?Ec; csimpl; rewrite IH1; split;
        [done | simpl; lia | done | done].
    - assert (cleared_b wb model aw now e = false) as ->.
      { unfold cooldown_entry in Ec. unfold cleared_b. by destruct (active_b wb now e). }
      csimpl. rewrite Ec. done. }
  destruct (Hfil _ Hf) as [H1 H2]. split; [by rewrite H2|]. split.
  - intros c Hc. apply cooldowns_pruned in Hc. unfold cooldowns in Hc. rewrite omap_app in Hc.
    fold (cooldowns wb now) in Hc. apply elem_of_app in Hc as [Hc | Hc].
    + unfold cooldowns in H1. rewrite H1 in Hc. apply elem_of_filter_bool in Hc as [? ?%negb_true_iff].
      done.
    + unfold cooldowns in Hca. rewrite Hca in Hc. by apply elem_of_nil in Hc.
  - intros Hrec Hlen. rewrite pruned_id.
    + unfold cooldowns in *. by rewrite omap_app, H1, Hca, app_nil_r.
    + apply Forall_app. split; [by apply filter_Forall|done].
    + rewrite length_app. pose proof (filter_length_le
        (fun e => negb (cleared_b wb model aw now e)) (us_events (load f))). lia.
Qed.

(** ** The learned cap *)

Lemma sorted_nth_bounds (l : list Q) i :
  StronglySorted (fun a b => Qle_b a b = true) l -> i < length l ->
  Forall (fun x => x <= nth i l 0)%Q (take (S i) l) /\
  Forall (fun x => nth i l 0 <= x)%Q (drop i l).
Proof.
  intros Hs. revert i. induction Hs as [|x l Hs IH Hx]; intros i Hi; simpl in *; [lia|].
  destruct i as [|i]; simpl.
  - split; [repeat constructor; apply Qle_refl|]. constructor; [apply Qle_refl|].
    eapply Forall_impl; [exact Hx|]. intros y Hy. by apply Qle_b_spec.
  - destruct (IH i) as [H1 H2]; [lia|]. split; [|done]. constructor; [|done].
    apply Qle_b_spec. rewrite Forall_forall in Hx. apply Hx, list_elem_of_In, nth_In. lia.
Qed.

Lemma count_if_Forall {A} (p : A -> bool) l :
  Forall (fun x => p x = true) l -> count_if p l = Z.of_nat (length l).
Proof. intros H. unfold count_if. by rewrite filter_all. Qed.

Lemma Qle_b_sorted l : StronglySorted (fun a b => Qle_b a b = true) (sorted_by Qle_b l).
Proof.
  apply sorted_by_sorted.
  - intros a b H. apply Qle_b_spec. apply Qlt_le_weak, Qnot_le_lt. intros Hle.
    apply Qle_b_spec in Hle. congruence.
  - intros a b c H1 H2. apply Qle_b_spec in H1, H2. apply Qle_b_spec. by eapply Qle_trans.
Qed.

Lemma count_if_perm {A} (p : A -> bool) l1 l2 : l1 ≡ₚ l2 -> count_if p l1 = count_if p l2.
Proof.
  induction 1 as [|x l1 l2 _ IH|x y l|l1 l2 l3 _ IH1 _ IH2]; unfold count_if in *; simpl;
    [done | destruct (p x); simpl; lia | destruct (p x), (p y); simpl; lia | lia].
Qed.

Lemma median_counts l :
  StronglySorted (fun a b => Qle_b a b = true) l -> l <> [] ->
  (Z.of_nat (length l) <= 2 * count_if (fun w => Qle_b w (median l)) l)%Z /\
  (Z.of_nat (length l) <= 2 * count_if (fun w => Qle_b (median l) w) l)%Z.
Proof.
  intros Hs Hne. set (n := length l). set (mid := n / 2).
  assert (Hn : 0 < n) by (unfold n; destruct l; [done|simpl; lia]).
  pose proof (Nat.div_mod_eq n 2) as Hdm. pose proof (Nat.mod_upper_bound n 2) as Hmod.
  fold mid in Hdm.
  assert (Hsplit : forall i j, i <= n -> j <= n -> i + j = n \/ i + j = S n ->
    forall m, Forall (fun x => x <= m)%Q (take i l) -> Forall (fun x => m <= x)%Q (drop (n - j) l) ->
    (Z.of_nat i <= count_if (fun w => Qle_b w m) l)%Z /\
    (Z.of_nat j <= count_if (fun w => Qle_b m w) l)%Z).
  { intros i j Hi Hj _ m H1 H2. split.
    - rewrite <-(take_drop i l), count_if_app, (count_if_Forall _ (take i l)).
      + rewrite length_take, Nat.min_l by done.
        pose proof (count_if_nonneg (fun w => Qle_b w m) (drop i l)). lia.
      + eapply Forall_impl; [exact H1|]. intros x Hx. by apply Qle_b_spec.
    - rewrite <-(take_drop (n - j) l), count_if_app, (count_if_Forall _ (drop (n - j) l)).
      + rewrite length_drop.
        pose proof (count_if_nonneg (fun w => Qle_b m w) (take (n - j) l)). fold n. lia.
      + eapply Forall_impl; [exact H2|]. intros x Hx. by apply Qle_b_spec. }
  unfold median. fold n. fold mid. destruct (Nat.odd n) eqn:Eo.
  - assert (n mod 2 = 1) as Hm1.
    { apply Nat.odd_spec in Eo as [k Hk]. rewrite Hk, Nat.add_comm, Nat.mul_comm, Nat.Div0.mod_add.
      done. }
    destruct (sorted_nth_bounds l mid) as [H1 H2]; [done | fold n; lia|].
    destruct (Hsplit (S mid) (S mid) ltac:(lia) ltac:(lia) ltac:(lia) _ H1) as [? ?].
    { by replace (n - S mid) with mid by lia. }
    lia.
  - assert (n mod 2 = 0) as Hm0.
    { rewrite <-Nat.negb_even in Eo. apply negb_false_iff, Nat.even_spec in Eo as [k Hk].
      rewrite Hk, Nat.mul_comm. apply Nat.Div0.mod_mul. }
    destruct (sorted_nth_bounds l (mid - 1)) as [H1 _]; [done | fold n; lia|].
    destruct (sorted_nth_bounds l mid) as [H3 H2]; [done | fold n; lia|].
    replace (S (mid - 1)) with mid in H1 by lia.
    assert (Hab : (nth (mid - 1) l 0 <= nth mid l 0)%Q).
    { rewrite Forall_forall in H3. apply H3. apply list_elem_of_lookup. exists (mid - 1).
      rewrite lookup_take_lt by lia.
      destruct (nth_lookup_or_length l (mid - 1) 0%Q) as [Hl | Hl]; [done | fold n in Hl; lia]. }
    destruct (Hsplit mid mid ltac:(lia) ltac:(lia) ltac:(lia)
      ((nth (mid - 1) l 0 + nth mid l 0) / 2)%Q) as [? ?].
    + eapply Forall_impl; [exact H1|]. intros x Hx. simpl in Hx. eapply Qle_trans; [exact Hx|].
      apply Qle_shift_div_l; [done|]. lra.
    + replace (n - mid) with mid by lia.
      eapply Forall_impl; [exact H2|]. intros x Hx. simpl in Hx. eapply Qle_trans; [|exact Hx].
      apply Qle_shift_div_r; [done|]. lra.
    + lia.
Qed.

(** The weights of the samples, as the class writes them; zero is ignored. *)
Definition sample_weights (samples : list dict) : list Q :=
  omap (fun s => match dget s "weighted" with
                 | JFloat q => if Qeq_bool q 0 then None else Some q
                 | _ => None
                 end) samples.

Lemma learned_fold samples acc :
  Forall (fun s => exists w, dget s "weighted" = JFloat w) samples ->
  foldM (fun acc s =>
      if jtruthy (dget s "weighted") then w <-? jfloat (dget s "weighted") ;; Ok (acc ++ [w])
      else Ok acc) acc samples = Ok (acc ++ sample_weights samples).
Proof.
  intros H. revert acc. induction H as [|s samples [w Hw] _ IH]; intros acc;
    [by simpl; rewrite app_nil_r|].
  unfold sample_weights. csimpl. rewrite Hw. simpl. destruct (Qeq_bool w 0); simpl.
  - rewrite IH. done.
  - rewrite IH, <-app_assoc. done.
Qed.

(** the learned cap is a median of the recorded weights: it exists exactly
    when there are enough samples, and at least half of the samples lie on
    each side of it. *)
Theorem learned_cap_is_median f min_samples :
  0 < min_samples ->
  Forall (fun s => exists w, dget s "weighted" = JFloat w) (us_budget_cap_samples (load f)) ->
  let ws := sample_weights (us_budget_cap_samples (load f)) in
  exists answer, learned_budget_cap f min_samples = Ok answer /\
  match answer with
  | None => length ws < min_samples
  | Some m => min_samples <= length ws /\
      (Z.of_nat (length ws) <= 2 * count_if (fun w => Qle_b w m) ws)%Z /\
      (Z.of_nat (length ws) <= 2 * count_if (fun w => Qle_b m w) ws)%Z
  end.
Proof.
  intros Hk Hs ws. unfold learned_budget_cap. rewrite learned_fold by done. simpl. fold ws.
  pose proof (sorted_by_perm Qle_b ws) as Hp.
  assert (length (sorted_by Qle_b ws) = length ws) as -> by by rewrite Hp.
  destruct (length ws <? min_samples) eqn:E.
  - eexists. split; [done|]. by apply Nat.ltb_lt.
  - apply Nat.ltb_ge in E. eexists. split; [done|]. simpl. split; [done|].
    destruct (median_counts (sorted_by Qle_b ws)) as [H1 H2].
    + apply Qle_b_sorted.
    + intros Hn. rewrite Hn in Hp. apply Permutation_nil_l in Hp. rewrite <-Hp in E. simpl in E. lia.
    + rewrite Hp in H1 at 1. rewrite Hp in H2 at 1.
      rewrite (count_if_perm _ _ _ Hp) in H1. rewrite (count_if_perm _ _ _ Hp) in H2. done.
Qed.

(** ** Witnesses *)

Definition t0 : datetime := mk_datetime 1000000000 true.
Definition in_hours (n : Z) : datetime := add_us t0 (hours n).

(** A ledger with one weekly limit on a model. *)
Definition sonnet_file : file :=
  fst (record_worker_backend_cooldown (Some 1000%Q) None t0 "claude_code" (in_hours 40)
         (Some MODEL_WEEKLY) (Some "sonnet")).

Lemma sonnet_file_ok : file_ok sonnet_file.
Proof. repeat constructor. Qed.

Lemma blocked_until_spec_witness :
  exists answer, worker_backend_blocked_until sonnet_file (in_hours 1) "claude_code" = Ok answer /\
    answer = None.
Proof.
  destruct (blocked_until_spec sonnet_file (in_hours 1) "claude_code" eq_refl sonnet_file_ok)
    as (answer & H & _).
  exists answer. split; [exact H|].
  assert (worker_backend_blocked_until sonnet_file (in_hours 1) "claude_code" = Ok None) as E
    by (vm_compute; reflexivity).
  rewrite E in H. congruence.
Defined.

Lemma record_cooldown_coalesces_witness :
  List.filter (fun c : cooldown => bool_decide (fst c = (Some MODEL_WEEKLY, Some "sonnet")))
    (cooldowns "claude_code" (in_hours 1) (us_events (load (fst (record_worker_backend_cooldown
      (Some 1000%Q) sonnet_file (in_hours 1) "claude_code" (in_hours 50) (Some MODEL_WEEKLY)
      (Some "sonnet"))))))
  = [(Some MODEL_WEEKLY, Some "sonnet", in_hours 50)].
Proof.
  exact (proj1 (record_cooldown_coalesces (Some 1000%Q) sonnet_file (in_hours 1) "claude_code"
    (in_hours 50) (Some MODEL_WEEKLY) (Some "sonnet") eq_refl eq_refl eq_refl sonnet_file_ok)).
Defined.

Lemma account_limit_blocks_witness :
  exists t, worker_backend_blocked_until (fst (record_worker_backend_cooldown (Some 1000%Q)
    sonnet_file (in_hours 1) "claude_code" (in_hours 5) (Some SESSION_5H) None)) (in_hours 2)
    "claude_code" = Ok (Some t) /\ (dt_us (in_hours 5) <= dt_us t)%Z.
Proof.
  apply (account_limit_blocks (Some 1000%Q) sonnet_file (in_hours 1) "claude_code" (in_hours 5)
    (Some SESSION_5H) None (in_hours 2)); try reflexivity.
  - exact sonnet_file_ok.
  - by right.
  - vm_compute. congruence.
  - vm_compute. congruence.
Defined.

Lemma clear_retracts_exactly_witness :
  snd (clear_worker_backend_cooldown (Some 1000%Q) sonnet_file (in_hours 1) "claude_code"
    (Some "sonnet") true "probe") = Ok 1%Z.
Proof.
  pose proof (clear_retracts_exactly (Some 1000%Q) sonnet_file (in_hours 1) "claude_code"
    (Some "sonnet") true "probe" eq_refl eq_refl sonnet_file_ok) as H.
  destruct (clear_worker_backend_cooldown _ _ _ _ _ _ _) as [f' r].
  destruct H as [-> _]. vm_compute. reflexivity.
Defined.

Definition sampled_file : file :=
  fst (record_budget_cap_sample None (fst (record_budget_cap_sample None None t0 10 (hours 1) 8))
         (in_hours 2) 30 (hours 1) 8).

Lemma learned_cap_is_median_witness :
  (learned <-? learned_budget_cap sampled_file 2 ;; Ok (Qred <$> learned)) = Ok (Some 20%Q) /\
  exists answer, learned_budget_cap sampled_file 2 = Ok answer.
Proof.
  split; [vm_compute; reflexivity|].
  destruct (learned_cap_is_median sampled_file 2) as (answer & H & _).
  - lia.
  - repeat constructor; eexists; vm_compute; reflexivity.
  - exists answer. exact H.
Defined.
