(* ===== verification/UsageBudget.v ===== *)
(** * Budgets, the circuit breaker and concurrency

    The decisions of execution/usage_store.py that gate a dispatch: global,
    per-repository and per-backend rates, the circuit breaker over recent
    outcomes, the in-flight counts, and the memory floors. *)
From S2P Require Import Prelude PyStr PyData UsageStore.

(** ** Constants *)

(** [_CB_THRESHOLD], [_CB_WINDOW] and [_CB_STALENESS_HOURS] (in microseconds),
    which the environment may change. *)
Record CircuitBreaker := {
  cb_threshold : Q;
  cb_window : nat;
  cb_staleness : Z }.

Definition circuit_breaker_from_env (threshold : option Q) (window : option nat)
    (staleness_us : option Z) : CircuitBreaker :=
  {| cb_threshold := default (4 # 5)%Q threshold;
     cb_window := Nat.max 3 (default 5 window);
     cb_staleness := default (hours 4) staleness_us |}.

Definition default_breaker : CircuitBreaker := circuit_breaker_from_env None None None.

(** ** Readers *)

(** [datetime.fromisoformat(e["timestamp"])]. *)
Definition ts_item (e : dict) : res datetime :=
  v <-? ditem e "timestamp" ;;
  match v with
  | JTime t => Ok t
  | JStr _ => Raise (ValueError "Invalid isoformat string")
  | _ => Raise (TypeError "fromisoformat: argument must be str")
  end.

(** The newest outcomes first, those still fresh, at most a window of them. *)
Definition fresh_outcomes (cb : CircuitBreaker) (events : list dict) (now : datetime)
    : res (list dict) :=
  fresh <-? filterM (fun e =>
      ts <-? ts_item e ;; dt_lt (sub_us now (cb_staleness cb)) ts)
    (List.filter (has_kind "execution_outcome") (rev events)) ;;
  Ok (take (cb_window cb) fresh).

Definition versions_in (outcomes : list dict) : list string :=
  remove_dups (map (fun e => jtext (dget e "backend_version"))
    (List.filter (fun e => jtruthy (dget e "backend_version")) outcomes)).

Definition failures_in (outcomes : list dict) : Z :=
  count_if (fun e => negb (jtruthy (dget e "succeeded"))) outcomes.

(** [failures / len(outcomes) >= threshold], with at least three outcomes of
    one backend version. *)
Definition breaker_trips (cb : CircuitBreaker) (outcomes : list dict) : bool :=
  (3 <=? length outcomes) && (length (versions_in outcomes) <=? 1) &&
  Qle_b (cb_threshold cb) (inject_Z (failures_in outcomes) / inject_Z (Z.of_nat (length outcomes))).

Section Budget.
Context (settings : ExecutionControlSettings) (f : file) (now : datetime).

Definition budget_decision (cb : CircuitBreaker) : res BudgetDecision :=
  events <-? prune_events (us_events (load f)) now ;;
  hourly <-? exec_count events (sub_us now (hours 1)) ;;
  if (max_exec_per_hour settings <=? hourly)%Z then
    Ok (budget_denied "budget_exceeded" "hourly" (max_exec_per_hour settings) hourly)
  else
  daily <-? exec_count events (sub_us now (days 1)) ;;
  if (max_exec_per_day settings <=? daily)%Z then
    Ok (budget_denied "budget_exceeded" "daily" (max_exec_per_day settings) daily)
  else
  outcomes <-? fresh_outcomes cb events now ;;
  if breaker_trips cb outcomes then
    Ok (budget_denied "circuit_breaker_open" "recent" (Z.of_nat (cb_window cb))
          (failures_in outcomes))
  else Ok budget_allowed.

Definition remaining_exec_capacity : res Z :=
  events <-? prune_events (us_events (load f)) now ;;
  hourly <-? exec_count events (sub_us now (hours 1)) ;;
  daily <-? exec_count events (sub_us now (days 1)) ;;
  Ok (Z.min (max_exec_per_hour settings - hourly) (max_exec_per_day settings - daily)).

(** The events of a kind selected by [p] that are not older than a cutoff. *)
Definition count_since (p : dict -> bool) (events : list dict) (cutoff : datetime) : res Z :=
  counted <-? filterM (ts_since cutoff)
    (List.filter p (List.filter (has_kind "execution") events)) ;;
  Ok (Z.of_nat (length counted)).

Definition budget_decision_for_repo (repo_key : string) (max_daily : Z) : res BudgetDecision :=
  events <-? prune_events (us_events (load f)) now ;;
  n <-? count_since (fun e => jeq_str (dget e "repo_key") repo_key) events (sub_us now (days 1)) ;;
  Ok (if (max_daily <=? n)%Z then budget_denied "repo_budget_exceeded" "daily" max_daily n
      else budget_allowed).

(** The two-window check shared by [budget_decision_for_backend] and
    [global_rate_decision]. *)
Definition rate_decision (p : dict -> bool) (reason : string) (max_per_hour max_per_day : option Z)
    : res BudgetDecision :=
  events <-? prune_events (us_events (load f)) now ;;
  daily <-? count_since p events (sub_us now (days 1)) ;;
  hourly <-? count_since p events (sub_us now (hours 1)) ;;
  Ok (match max_per_hour with
      | Some h => if (h <=? hourly)%Z then budget_denied reason "hourly" h hourly
                  else match max_per_day with
                       | Some d => if (d <=? daily)%Z then budget_denied reason "daily" d daily
                                   else budget_allowed
                       | None => budget_allowed
                       end
      | None => match max_per_day with
                | Some d => if (d <=? daily)%Z then budget_denied reason "daily" d daily
                            else budget_allowed
                | None => budget_allowed
                end
      end).

Definition budget_decision_for_backend (backend : string) (max_per_hour max_per_day : option Z)
    : res BudgetDecision :=
  if negb (str_truthy backend) then Ok budget_allowed
  else match max_per_hour, max_per_day with
       | None, None => Ok budget_allowed
       | _, _ => rate_decision (fun e => jeq_str (dget e "backend") backend)
                   "backend_budget_exceeded" max_per_hour max_per_day
       end.

Definition global_rate_decision (max_per_hour max_per_day : option Z) : res BudgetDecision :=
  match max_per_hour, max_per_day with
  | None, None => Ok budget_allowed
  | _, _ => rate_decision (fun _ => true) "global_rate_exceeded" max_per_hour max_per_day
  end.

(** ** Concurrency *)

(** A run in flight: its backend ([""] for none) and its task. *)
Definition run_key (e : dict) : option (string * string) :=
  (fun tid => (str_or (jstr (dget e "backend")) "", tid)) <$> jstr (dget e "task_id").

(** One event of the loop: a start adds its run, a finish discards it. *)
Definition flight_step (runs : gset (string * string)) (e : dict) : gset (string * string) :=
  match run_key e with
  | Some k =>
      if has_kind "execution_started" e then {[k]} ∪ runs
      else if has_kind "execution_finished" e then runs ∖ {[k]}
      else runs
  | None => runs
  end.

Definition in_flight (p : dict -> bool) : res (gset (string * string)) :=
  events <-? prune_events (us_events (load f)) now ;;
  recent <-? filterM (ts_since (sub_us now (hours 24))) events ;;
  Ok (fold_left flight_step (List.filter p recent) ∅).

(** With the backend filter every key has that backend, so the set of keys
    counts the tasks. *)
Definition concurrent_runs_for_backend (backend : string) : res Z :=
  runs <-? in_flight (fun e => jeq_str (dget e "backend") backend) ;;
  Ok (Z.of_nat (size runs)).

Definition total_concurrent_runs : res Z :=
  runs <-? in_flight (fun _ => true) ;;
  Ok (Z.of_nat (size runs)).

Definition global_concurrency_decision (max_concurrent : option Z) : res BudgetDecision :=
  match max_concurrent with
  | None => Ok budget_allowed
  | Some limit =>
      n <-? total_concurrent_runs ;;
      Ok (if (limit <=? n)%Z
          then budget_denied "global_concurrency_exceeded" "in_flight" limit n
          else budget_allowed)
  end.

Definition concurrency_decision_for_backend (backend : string) (max_concurrent : option Z)
    : res BudgetDecision :=
  match max_concurrent with
  | None => Ok budget_allowed
  | Some limit =>
      if negb (str_truthy backend) then Ok budget_allowed
      else
        n <-? concurrent_runs_for_backend backend ;;
        Ok (if (limit <=? n)%Z
            then budget_denied "backend_concurrency_exceeded" "in_flight" limit n
            else budget_allowed)
  end.

(** [check_failure_rate_degradation]: the success rate when it is low. *)
Definition check_failure_rate_degradation (window : nat) (warn_threshold : Q) : res (option Q) :=
  events <-? prune_events (us_events (load f)) now ;;
  let outcomes := take window (List.filter (has_kind "execution_outcome") (rev events)) in
  if (length outcomes <? 5) then Ok None
  else
    let successes := count_if (fun e => jtruthy (dget e "succeeded")) outcomes in
    let rate := (inject_Z successes / inject_Z (Z.of_nat (length outcomes)))%Q in
    Ok (if Qlt_b rate warn_threshold then Some rate else None).
End Budget.

(** ** Memory *)

(** The megabytes of one /proc/meminfo line with this label. *)
Definition meminfo_mb (line : string) : option Z :=
  match split_ws line with
  | _ :: v :: _ => (fun kb => kb / 1024)%Z <$> py_int v
  | _ => None
  end.

Definition meminfo_step (acc : Z * Z) (line : string) : Z * Z :=
  if startswith line "MemAvailable:" then (default (fst acc) (meminfo_mb line), snd acc)
  else if startswith line "SwapFree:" then (fst acc, default (snd acc) (meminfo_mb line))
  else acc.

(** [None]: the file cannot be read. *)
Definition available_memory_mb (meminfo : option (list string)) : Z :=
  match meminfo with
  | None => 0%Z
  | Some lines => let '(mem, swap) := fold_left meminfo_step lines (0%Z, 0%Z) in (mem + swap)%Z
  end.

Definition memory_decision (reason : string) (meminfo : option (list string))
    (min_available_memory_mb : option Z) : BudgetDecision :=
  match min_available_memory_mb with
  | None => budget_allowed
  | Some floor =>
      let avail := available_memory_mb meminfo in
      if (avail =? 0)%Z then budget_allowed
      else if (avail <? floor)%Z then budget_denied reason "instant" floor avail
      else budget_allowed
  end.

Definition global_memory_decision (meminfo : option (list string))
    (min_available_memory_mb : option Z) : BudgetDecision :=
  memory_decision "global_memory_insufficient" meminfo min_available_memory_mb.

Definition memory_decision_for_backend (backend : string) (meminfo : option (list string))
    (min_available_memory_mb : option Z) : BudgetDecision :=
  if negb (str_truthy backend) then budget_allowed
  else memory_decision "backend_memory_insufficient" meminfo min_available_memory_mb.

(** ** The decisions as plain functions *)

Definition file_aware (f : file) : Prop := store_aware (load f).

Definition is_fresh_outcome (cb : CircuitBreaker) (now : datetime) (e : dict) : bool :=
  has_kind "execution_outcome" e &&
  match event_ts e with
  | Some ts => (dt_us (sub_us now (cb_staleness cb)) <? dt_us ts)%Z
  | None => false
  end.

(** The window the breaker looks at, newest first. *)
Definition outcome_window (cb : CircuitBreaker) (events : list dict) (now : datetime) : list dict :=
  take (cb_window cb) (List.filter (is_fresh_outcome cb now) (rev events)).

Definition counted (p : dict -> bool) (events : list dict) (cutoff : datetime) : Z :=
  count_if (fun e => has_kind "execution" e && (p e && since_b cutoff e)) events.

Definition in_flight_runs (p : dict -> bool) (events : list dict) (now : datetime)
    : gset (string * string) :=
  fold_left flight_step
    (List.filter p (List.filter (since_b (sub_us now (hours 24))) events)) ∅.

Lemma event_ts_item e t : event_ts e = Some t -> ts_item e = Ok t.
Proof.
  unfold event_ts, ts_item, ditem, dget. destruct (e !! "timestamp") as [v|]; [|done].
  simpl. destruct v; try done. by intros [= ->].
Qed.

(** Events that survive pruning have a timestamp. *)
Definition stamped (e : dict) : Prop := exists t, event_ts e = Some t /\ dt_aware t = true.

Lemma pruned_stamped events now :
  Forall event_aware events -> Forall stamped (pruned events now).
Proof.
  intros Ha. apply Forall_forall. intros e [Hin Hs]%elem_of_pruned.
  rewrite Forall_forall in Ha. specialize (Ha e Hin). unfold since_b in Hs.
  unfold event_aware in Ha. destruct (event_ts e) as [t|] eqn:E; [|done]. by exists t.
Qed.

Lemma fresh_outcomes_ok cb events now :
  dt_aware now = true -> Forall stamped events ->
  fresh_outcomes cb events now = Ok (outcome_window cb events now).
Proof.
  intros Hn Hs. unfold fresh_outcomes, outcome_window.
  rewrite (filterM_ok _ (fun e => match event_ts e with
    | Some ts => (dt_us (sub_us now (cb_staleness cb)) <? dt_us ts)%Z | None => false end)).
  - simpl. by rewrite filter_filter_bool.
  - apply filter_Forall, Forall_rev. eapply Forall_impl; [exact Hs|].
    intros e (t & Ht & Ha). rewrite (event_ts_item _ _ Ht), Ht. simpl. by rewrite dt_lt_aware.
Qed.

Lemma count_since_ok p events cutoff :
  dt_aware cutoff = true -> Forall event_aware events ->
  count_since p events cutoff = Ok (counted p events cutoff).
Proof.
  intros Hc He. unfold count_since, counted, count_if.
  rewrite filterM_ts_since by auto with oc. simpl. by rewrite !filter_filter_bool.
Qed.

Lemma in_flight_ok f now p :
  dt_aware now = true -> file_aware f ->
  in_flight f now p = Ok (in_flight_runs p (pruned (us_events (load f)) now) now).
Proof.
  intros Hn Hf. unfold in_flight. rewrite prune_events_ok by done. simpl.
  rewrite filterM_ts_since by auto with oc. done.
Qed.

Lemma budget_decision_ok settings f now cb :
  dt_aware now = true -> file_aware f ->
  let events := pruned (us_events (load f)) now in
  let hourly := exec_counted events (sub_us now (hours 1)) in
  let daily := exec_counted events (sub_us now (days 1)) in
  let outcomes := outcome_window cb events now in
  budget_decision settings f now cb = Ok
    (if (max_exec_per_hour settings <=? hourly)%Z then
       budget_denied "budget_exceeded" "hourly" (max_exec_per_hour settings) hourly
     else if (max_exec_per_day settings <=? daily)%Z then
       budget_denied "budget_exceeded" "daily" (max_exec_per_day settings) daily
     else if breaker_trips cb outcomes then
       budget_denied "circuit_breaker_open" "recent" (Z.of_nat (cb_window cb)) (failures_in outcomes)
     else budget_allowed).
Proof.
  intros Hn Hf. cbv zeta. unfold budget_decision. rewrite prune_events_ok by done. simpl.
  assert (Hp : Forall event_aware (pruned (us_events (load f)) now)) by by apply pruned_aware.
  rewrite !exec_count_ok by done. simpl.
  destruct (max_exec_per_hour settings <=? _)%Z; [done|].
  destruct (max_exec_per_day settings <=? _)%Z; [done|].
  rewrite fresh_outcomes_ok by auto using pruned_stamped. simpl.
  by destruct (breaker_trips cb _).
Qed.

(** ** The budget *)

(** the global budget always gives an answer, and allows a dispatch
    exactly when the executions of the last hour and of the last day are below
    their maxima and the breaker does not trip on the recent outcomes; a
    refusal carries the window that was full, its limit and its count. *)
Theorem budget_decision_spec settings f now cb :
  dt_aware now = true -> file_aware f ->
  let events := pruned (us_events (load f)) now in
  let hourly := exec_counted events (sub_us now (hours 1)) in
  let daily := exec_counted events (sub_us now (days 1)) in
  exists d, budget_decision settings f now cb = Ok d /\
  (bd_allowed d = true <->
     (hourly < max_exec_per_hour settings)%Z /\ (daily < max_exec_per_day settings)%Z /\
     breaker_trips cb (outcome_window cb events now) = false) /\
  (bd_reason d = Some "budget_exceeded" <->
     (max_exec_per_hour settings <= hourly)%Z \/ (max_exec_per_day settings <= daily)%Z) /\
  (bd_allowed d = false -> exists limit current,
     bd_limit d = Some limit /\ bd_current d = Some current /\
     (bd_window d = Some "hourly" /\ current = hourly /\ (limit <= current)%Z \/
      bd_window d = Some "daily" /\ current = daily /\ (limit <= current)%Z \/
      bd_window d = Some "recent" /\ bd_reason d = Some "circuit_breaker_open")).
Proof.
  intros Hn Hf events hourly daily. rewrite budget_decision_ok by done.
  fold events. fold hourly. fold daily. eexists. split; [reflexivity|].
  destruct (_ <=? hourly)%Z eqn:E1; boolify;
    [|destruct (_ <=? daily)%Z eqn:E2; boolify; [|destruct (breaker_trips cb _) eqn:E3]];
    simpl; split_and!; split_and?; try split; try done; try naive_solver lia;
    intros; eauto 10.
Qed.

(** with the shipped constants the breaker refuses exactly when, among the
    fresh outcomes of the last four hours (at most five, newest first, all of
    one backend version), at least three exist and none succeeded, or five
    exist and one succeeded. *)
Theorem default_breaker_trips_iff events now :
  let w := outcome_window default_breaker events now in
  let successes := count_if (fun e => jtruthy (dget e "succeeded")) w in
  breaker_trips default_breaker w = true <->
  length (versions_in w) <= 1 /\
  (3 <= length w <= 4 /\ successes = 0%Z \/ length w = 5 /\ (successes <= 1)%Z).
Proof.
  intros w successes.
  assert (Hlen : length w <= 5).
  { unfold w, outcome_window. rewrite length_take. change (cb_window default_breaker) with 5. lia. }
  assert (Hsum : (failures_in w + successes = Z.of_nat (length w))%Z).
  { pose proof (count_if_negb (fun e => jtruthy (dget e "succeeded")) w).
    unfold failures_in, successes. lia. }
  pose proof (count_if_nonneg (fun e => jtruthy (dget e "succeeded")) w) as Hnn.
  fold successes in Hnn.
  pose proof (count_if_nonneg (fun e => negb (jtruthy (dget e "succeeded"))) w) as Hnf.
  fold (failures_in w) in Hnf. unfold breaker_trips.
  rewrite !andb_true_iff, Nat.leb_le, Nat.leb_le, Qle_b_spec. simpl.
  generalize dependent (failures_in w). generalize dependent successes. intros s Hs fl Hsum Hf.
  assert (Hq : 3 <= length w ->
    ((4 # 5 <= inject_Z fl / inject_Z (Z.of_nat (length w)))%Q
     <-> (4 * Z.of_nat (length w) <= 5 * fl)%Z)).
  { intros Hl. set (n := Z.of_nat (length w)) in *.
    assert (0 < inject_Z n)%Q by (unfold Qlt; simpl; lia).
    split.
    - intros Hle. apply (Qmult_le_r _ _ (inject_Z n)) in Hle; [|done].
      rewrite Qmult_comm, (Qmult_comm (_ / _)), Qmult_div_r in Hle by (intros Hz; rewrite Hz in *; done).
      unfold Qle in Hle. simpl in Hle. lia.
    - intros Hle. apply Qle_shift_div_l; [done|]. unfold Qle. simpl. lia. }
  split.
  - intros [[H3 Hv] Hr]. apply (Hq H3) in Hr. split; [done|]. lia.
  - intros [Hv Hc]. assert (3 <= length w) as H3 by lia. split; [done|]. apply Hq; lia.
Qed.

(** the breaker recovers by itself: with no outcome in the staleness
    window it never refuses. *)
Theorem breaker_recovers settings f now cb :
  dt_aware now = true -> file_aware f ->
  (forall e ts, e ∈ us_events (load f) -> has_kind "execution_outcome" e = true ->
     event_ts e = Some ts -> (dt_us ts <= dt_us now - cb_staleness cb)%Z) ->
  exists d, budget_decision settings f now cb = Ok d /\
    bd_reason d <> Some "circuit_breaker_open".
Proof.
  intros Hn Hf Hold. rewrite budget_decision_ok by done. eexists. split; [reflexivity|].
  assert (outcome_window cb (pruned (us_events (load f)) now) now = []) as ->.
  { unfold outcome_window. rewrite filter_none; [by rewrite take_nil|].
    apply Forall_forall. intros e He. unfold is_fresh_outcome.
    destruct (has_kind "execution_outcome" e) eqn:Ek; [|done].
    destruct (event_ts e) as [ts|] eqn:Et; [|done]. simpl. apply Z.ltb_ge.
    apply Hold with (e := e); [|done|done].
    rewrite list_elem_of_In, <-in_rev in He. apply list_elem_of_In in He.
    by apply elem_of_pruned in He as [? _]. }
  simpl. by destruct (_ <=? _)%Z; [|destruct (_ <=? _)%Z].
Qed.

(** An event of another kind changes neither the counts nor the window. *)
Lemma budget_ignores_kind settings f1 f2 now cb kind e :
  dt_aware now = true -> file_aware f1 -> file_aware f2 ->
  dget e "kind" = JStr kind -> kind <> "execution" -> kind <> "execution_outcome" ->
  pruned (us_events (load f2)) now = pruned (us_events (load f1)) now ++ [e] ->
  budget_decision settings f2 now cb = budget_decision settings f1 now cb.
Proof.
  intros Hn H1 H2 Hk He Ho Hp. rewrite !budget_decision_ok by done. rewrite Hp.
  assert (Hx : forall k, has_kind k e = String.eqb kind k)
    by (intros k; unfold has_kind; rewrite Hk; done).
  assert (Hc : forall since, exec_counted (pruned (us_events (load f1)) now ++ [e]) since
                 = exec_counted (pruned (us_events (load f1)) now) since).
  { intros since. unfold exec_counted. rewrite count_if_app.
    unfold count_if at 2. simpl. rewrite Hx, (proj2 (String.eqb_neq _ _) He). simpl. lia. }
  rewrite !Hc. unfold outcome_window. rewrite rev_app_distr. simpl.
  assert (is_fresh_outcome cb now e = false) as ->; [|done].
  unfold is_fresh_outcome. by rewrite Hx, (proj2 (String.eqb_neq _ _) Ho).
Qed.

(** a quota exhaustion never feeds the circuit breaker: recording one
    leaves the budget decision as it was (in a ledger with room). *)
Theorem quota_event_keeps_budget settings free_mb f now cb task_id role backend :
  check_disk_space free_mb = Ok tt -> dt_aware now = true -> file_aware f ->
  length (us_events (load f)) < MAX_EVENTS ->
  let f' := fst (record_quota_event free_mb f now task_id role backend) in
  budget_decision settings f' now cb = budget_decision settings f now cb.
Proof.
  intros Hd Hn Hf Hlen. unfold record_quota_event, record_event, exclusive, append_event.
  set (e := event "quota_event" now _).
  assert (Ha : Forall event_aware (us_events (load f) ++ [e])).
  { apply Forall_app. split; [exact Hf|]. constructor; [by apply event_aware_event|done]. }
  rewrite save_ok by done. simpl.
  apply (budget_ignores_kind _ _ _ _ _ "quota_event" e); try done.
  - unfold file_aware, store_aware. simpl. by apply pruned_aware.
  - simpl. rewrite pruned_idem. rewrite pruned_snoc by by apply since_b_event.
    unfold pruned. pose proof (filter_length_le (since_b (sub_us now (days 7))) (us_events (load f))).
    unfold MAX_EVENTS in *. rewrite !last_n_all by lia. done.
Qed.

(** the remaining capacity is positive exactly when neither rate window is
    full, so whatever still refuses a dispatch is the breaker. *)
Theorem remaining_capacity_spec settings f now cb :
  dt_aware now = true -> file_aware f ->
  exists n d, remaining_exec_capacity settings f now = Ok n /\
    budget_decision settings f now cb = Ok d /\
    ((n <= 0)%Z <-> bd_reason d = Some "budget_exceeded") /\
    (bd_allowed d = true -> (0 < n)%Z).
Proof.
  intros Hn Hf. rewrite budget_decision_ok by done. unfold remaining_exec_capacity.
  rewrite prune_events_ok by done. simpl.
  assert (Forall event_aware (pruned (us_events (load f)) now)) by by apply pruned_aware.
  rewrite !exec_count_ok by done. simpl. eexists _, _. split; [reflexivity|]. split; [reflexivity|].
  destruct (_ <=? _)%Z eqn:E1; boolify; simpl; [split; [split; [done|lia] | done]|].
  destruct (_ <=? _)%Z eqn:E2; boolify; simpl; [split; [split; [done|lia] | done]|].
  destruct (breaker_trips _ _); simpl; split; try split; try done; lia.
Qed.

(** ** Runs in flight *)

Definition starts (k : string * string) (e : dict) : Prop :=
  run_key e = Some k /\ has_kind "execution_started" e = true.
Definition finishes (k : string * string) (e : dict) : Prop :=
  run_key e = Some k /\ has_kind "execution_finished" e = true.

Lemma started_not_finished e :
  has_kind "execution_started" e = true -> has_kind "execution_finished" e = false.
Proof.
  unfold has_kind. intros H. apply jeq_str_eq in H. by rewrite H.
Qed.

Lemma elem_of_flight_step runs e k :
  k ∈ flight_step runs e <-> starts k e \/ (k ∈ runs /\ ~ finishes k e).
Proof.
  unfold flight_step, starts, finishes. destruct (run_key e) as [k'|]; [|naive_solver].
  destruct (has_kind "execution_started" e) eqn:Es.
  - rewrite (started_not_finished e Es). rewrite elem_of_union, elem_of_singleton. naive_solver.
  - destruct (has_kind "execution_finished" e) eqn:Ef; [|naive_solver].
    rewrite elem_of_difference, elem_of_singleton. naive_solver.
Qed.

(** A run is in flight after the loop when it was started and not finished
    since, or was in flight before and is not finished by the events. *)
Lemma elem_of_flight_fold l runs k :
  k ∈ fold_left flight_step l runs <->
  (exists l1 e l2, l = l1 ++ e :: l2 /\ starts k e /\ Forall (fun e' => ~ finishes k e') l2) \/
  (k ∈ runs /\ Forall (fun e' => ~ finishes k e') l).
Proof.
  revert runs. induction l as [|x l IH]; intros runs; simpl.
  { split; [by auto|]. intros [([] & ? & ? & ? & _) | [? _]]; done. }
  rewrite IH, elem_of_flight_step, Forall_cons. split.
  - intros [(l1 & e & l2 & -> & H) | [[Hs | Hr] Hf]].
    + left. exists (x :: l1), e, l2. done.
    + left. exists [], x, l. done.
    + right. naive_solver.
  - intros [(l1 & e & l2 & Heq & Hs & Hf) | (Hr & Hx & Hf)].
    + destruct l1 as [|y l1]; injection Heq as -> ->.
      * right. split; [by left | done].
      * left. exists l1, e, l2. done.
    + right. split; [by right | done].
Qed.

(** the concurrency count is the number of runs (backend and task) that an
    event of the last 24 hours started and that no later event finished; a
    dispatch that never reports its end stops counting after a day. *)
Theorem concurrency_count_spec f now backend :
  dt_aware now = true -> file_aware f ->
  let recent := List.filter (fun e => jeq_str (dget e "backend") backend)
    (List.filter (since_b (sub_us now (hours 24))) (pruned (us_events (load f)) now)) in
  exists runs : gset (string * string),
    concurrent_runs_for_backend f now backend = Ok (Z.of_nat (size runs)) /\
    forall k, k ∈ runs <-> exists l1 e l2, recent = l1 ++ e :: l2 /\ starts k e /\
      forall e', e' ∈ l2 -> ~ finishes k e'.
Proof.
  intros Hn Hf recent. unfold concurrent_runs_for_backend. rewrite in_flight_ok by done. simpl.
  eexists. split; [reflexivity|]. intros k. unfold in_flight_runs. fold recent.
  rewrite elem_of_flight_fold. setoid_rewrite Forall_forall. split.
  - intros [H | [H _]]; [exact H | by apply elem_of_empty in H].
  - auto.
Qed.

(** pruning the ledger never invents a run in flight: what the count sees
    in the pruned events it would also see in all of them. *)
Theorem pruning_invents_no_run p events now :
  in_flight_runs p (pruned events now) now ⊆ in_flight_runs p events now.
Proof.
  intros k. unfold in_flight_runs. rewrite !elem_of_flight_fold.
  intros [(l1 & e & l2 & Hl & Hs & Hf) | [H _]]; [left | by apply elem_of_empty in H].
  set (old := List.filter (since_b (sub_us now (days 7))) events) in *.
  assert (Hold : List.filter (since_b (sub_us now (hours 24))) old
                 = List.filter (since_b (sub_us now (hours 24))) events).
  { unfold old. rewrite filter_filter_bool. apply List.filter_ext. intros x.
    unfold since_b. destruct (event_ts x); [|done]. simpl.
    destruct (_ <=? _)%Z eqn:E1; simpl; [done|]. symmetry. apply Z.leb_gt.
    apply Z.leb_gt in E1. unfold hours, days, seconds, second in *. lia. }
  destruct (last_n_suffix MAX_EVENTS old) as [pre Hp].
  assert (Hfil : List.filter p (List.filter (since_b (sub_us now (hours 24))) events)
    = List.filter p (List.filter (since_b (sub_us now (hours 24))) pre) ++ (l1 ++ e :: l2)).
  { rewrite <-Hold, Hp, !List.filter_app. f_equal. exact Hl. }
  rewrite Hfil. exists (List.filter p (List.filter (since_b (sub_us now (hours 24))) pre) ++ l1), e, l2.
  by rewrite <-app_assoc.
Qed.

(** The event of a start or a finish. *)
Definition run_event (kind : string) (now : datetime) (task_id backend : string) : dict :=
  event kind now [("task_id", JStr task_id); ("backend", JStr backend)].

Lemma run_event_key kind now task_id backend :
  run_key (run_event kind now task_id backend) = Some (backend, task_id).
Proof.
  unfold run_key, run_event. rewrite !dget_event by done. simpl. by destruct backend.
Qed.

(** A fresh event appended by a recorder is the last the reader sees. *)
Lemma record_event_last free_mb f now e t :
  check_disk_space free_mb = Ok tt -> dt_aware now = true -> file_aware f ->
  event_ts e = Some now -> (dt_us t <= dt_us now + days 7)%Z ->
  exists l, pruned (us_events (load (fst (record_event free_mb f now e)))) t = l ++ [e] /\
    snd (record_event free_mb f now e) = Ok tt /\ file_aware (fst (record_event free_mb f now e)) /\
    forall x, x ∈ l -> x ∈ us_events (load f).
Proof.
  intros Hd Hn Hf Hts Ht. unfold record_event, exclusive, append_event.
  assert (Ha : Forall event_aware (us_events (load f) ++ [e])).
  { apply Forall_app. split; [exact Hf|]. constructor; [|done]. unfold event_aware. by rewrite Hts. }
  rewrite save_ok by done. simpl.
  assert (Haw : Forall event_aware (pruned (us_events (load f) ++ [e]) now)) by by apply pruned_aware.
  rewrite (pruned_snoc (us_events (load f))) by (eapply since_b_ts; [exact Hts|by apply sub_us_le]).
  rewrite pruned_snoc by (eapply since_b_ts; [exact Hts|simpl; lia]).
  eexists. split; [reflexivity|]. split; [done|]. split.
  - exact Haw.
  - intros x Hx.
    assert (Hsub : forall (n : nat) (q : dict -> bool) (l : list dict),
      x ∈ last_n n (List.filter q l) -> x ∈ l).
    { intros n q l Hin. destruct (last_n_suffix n (List.filter q l)) as [pre Hp].
      assert (x ∈ List.filter q l) as Hq by (rewrite Hp; apply elem_of_app; by right).
      by apply elem_of_filter_bool in Hq as [? _]. }
    apply Hsub in Hx. by apply Hsub in Hx.
Qed.

(** the dispatch bracket: once a start is recorded the run counts as in
    flight for the next 24 hours, and once its finish is recorded it does not,
    whatever was recorded before. *)
Theorem started_then_finished free_mb f now now' task_id backend t :
  check_disk_space free_mb = Ok tt -> dt_aware now = true -> dt_aware now' = true ->
  file_aware f -> (dt_us now <= dt_us t <= dt_us now + hours 24)%Z ->
  (dt_us now' <= dt_us t <= dt_us now' + hours 24)%Z ->
  let p := fun e => jeq_str (dget e "backend") backend in
  let f1 := fst (record_execution_started free_mb f now task_id backend) in
  let f2 := fst (record_execution_finished free_mb f1 now' task_id backend) in
  (backend, task_id) ∈ in_flight_runs p (pruned (us_events (load f1)) t) t /\
  (backend, task_id) ∉ in_flight_runs p (pruned (us_events (load f2)) t) t.
Proof.
  intros Hd Hn Hn' Hf Ht Ht' p f1 f2.
  assert (Hday : (hours 24 <= days 7)%Z) by (unfold hours, days, seconds, second; lia).
  assert (Hone : forall g m kind, event_ts (run_event kind m task_id backend) = Some m ->
    file_aware g -> dt_aware m = true -> (dt_us m <= dt_us t <= dt_us m + hours 24)%Z ->
    exists l, List.filter p (List.filter (since_b (sub_us t (hours 24))) (pruned (us_events (load
      (fst (record_event free_mb g m (run_event kind m task_id backend))))) t))
      = l ++ [run_event kind m task_id backend] /\
      file_aware (fst (record_event free_mb g m (run_event kind m task_id backend)))).
  { intros g m kind Hts Hg Hm Hle.
    destruct (record_event_last free_mb g m (run_event kind m task_id backend) t)
      as (l & -> & _ & Hw & _); [done | done | done | done | lia|].
    rewrite !List.filter_app. simpl.
    rewrite (since_b_ts _ _ _ Hts) by (simpl; lia). simpl.
    assert (p (run_event kind m task_id backend) = true) as ->.
    { unfold p, run_event. rewrite dget_event by done. apply String.eqb_refl. }
    eauto. }
  destruct (Hone f now "execution_started") as (l1 & H1 & Hf1);
    [apply event_ts_event | done | done | done|].
  destruct (Hone f1 now' "execution_finished") as (l2 & H2 & _);
    [apply event_ts_event | exact Hf1 | done | done|].
  unfold in_flight_runs. split.
  - unfold f1, record_execution_started. fold (run_event "execution_started" now task_id backend).
    rewrite H1, elem_of_flight_fold. left. exists l1, (run_event "execution_started" now task_id backend), [].
    split; [done|]. split; [|constructor]. split; [apply run_event_key | apply has_kind_event].
  - unfold f2, record_execution_finished. fold (run_event "execution_finished" now' task_id backend).
    rewrite H2, fold_left_app. simpl. rewrite elem_of_flight_step. intros [[_ H] | [_ H]].
    + unfold run_event in H. rewrite has_kind_event in H. done.
    + apply H. split; [apply run_event_key | apply has_kind_event].
Qed.

(** ** Caps *)

(** a per-backend cap allows a dispatch exactly when the backend is named
    and, for each configured window, its executions in that window are below
    the limit; the hourly window is reported first. *)
Theorem backend_cap_spec f now backend max_h max_d :
  dt_aware now = true -> file_aware f -> backend <> "" ->
  let p := fun e => jeq_str (dget e "backend") backend in
  let events := pruned (us_events (load f)) now in
  let hourly := counted p events (sub_us now (hours 1)) in
  let daily := counted p events (sub_us now (days 1)) in
  exists d, budget_decision_for_backend f now backend max_h max_d = Ok d /\
  (bd_allowed d = true <->
     (forall h, max_h = Some h -> (hourly < h)%Z) /\ (forall n, max_d = Some n -> (daily < n)%Z)) /\
  (bd_window d = Some "hourly" <-> exists h, max_h = Some h /\ (h <= hourly)%Z).
Proof.
  intros Hn Hf Hb p events hourly daily. unfold budget_decision_for_backend.
  assert (str_truthy backend = true) as ->.
  { unfold str_truthy. by rewrite (proj2 (String.eqb_neq _ _) Hb). }
  simpl. assert (Hev : Forall event_aware events) by by apply pruned_aware.
  assert (Hr : forall h d, rate_decision f now p "backend_budget_exceeded" h d = Ok
    (match h with
     | Some h => if (h <=? hourly)%Z then budget_denied "backend_budget_exceeded" "hourly" h hourly
                 else match d with
                      | Some d => if (d <=? daily)%Z
                          then budget_denied "backend_budget_exceeded" "daily" d daily
                          else budget_allowed
                      | None => budget_allowed
                      end
     | None => match d with
               | Some d => if (d <=? daily)%Z
                   then budget_denied "backend_budget_exceeded" "daily" d daily
                   else budget_allowed
               | None => budget_allowed
               end
     end)).
  { intros h d. unfold rate_decision. rewrite prune_events_ok by done. simpl. fold events.
    by rewrite !count_since_ok by done. }
  destruct max_h as [h|], max_d as [n|]; rewrite ?Hr; eexists; (split; [reflexivity|]);
    simpl; repeat match goal with |- context [(?a <=? ?b)%Z] => destruct (a <=? b)%Z eqn:? end;
    boolify; simpl; split; split; try done; try naive_solver lia; intros; split_and?; naive_solver lia.
Qed.

(** ** Witnesses *)

Definition sample_settings : ExecutionControlSettings :=
  {| max_exec_per_hour := 1; max_exec_per_day := 50; max_retries_per_task := 3;
     min_watch_interval_seconds := 5; min_remaining_exec_for_proposals := 3;
     usage_path := "usage.json"; pr_dry_run := false |}.

Definition now0 : datetime := mk_datetime 2000000000 true.
Definition after_minutes (n : Z) : datetime := add_us now0 (seconds (60 * n)).

(** One execution on a backend, then its failed outcome. *)
Definition sample_file : file :=
  fst (record_execution_outcome (Some 1000%Q)
    (fst (record_execution (Some 1000%Q) None now0 "goal" "t1" "sig" None (Some "team_executor")))
    (after_minutes 1) "t1" "goal" false (Some "team_executor") None).

Lemma sample_file_aware : file_aware sample_file.
Proof. repeat constructor. Qed.

Lemma budget_decision_spec_witness :
  exists d, budget_decision sample_settings sample_file (after_minutes 2) default_breaker = Ok d /\
    bd_allowed d = false.
Proof.
  destruct (budget_decision_spec sample_settings sample_file (after_minutes 2) default_breaker
    eq_refl sample_file_aware) as (d & H & _).
  exists d. split; [exact H|].
  assert (budget_decision sample_settings sample_file (after_minutes 2) default_breaker
    = Ok (budget_denied "budget_exceeded" "hourly" 1 1)) as E by (vm_compute; reflexivity).
  rewrite E in H. injection H as <-. reflexivity.
Defined.

Lemma breaker_recovers_witness :
  exists d, budget_decision sample_settings sample_file (after_minutes 600) default_breaker = Ok d /\
    bd_reason d <> Some "circuit_breaker_open".
Proof.
  apply (breaker_recovers sample_settings sample_file (after_minutes 600) default_breaker eq_refl
    sample_file_aware).
  assert (forallb (fun e => match event_ts e with
      | Some ts => (dt_us ts <=? dt_us (after_minutes 600) - hours 4)%Z | None => false end)
    (us_events (load sample_file)) = true) as Hall by (vm_compute; reflexivity).
  rewrite forallb_forall in Hall. intros e ts He _ Ht.
  apply list_elem_of_In, Hall in He. rewrite Ht in He. apply Z.leb_le in He. exact He.
Defined.

Lemma quota_event_keeps_budget_witness :
  budget_decision sample_settings
    (fst (record_quota_event (Some 1000%Q) sample_file (after_minutes 2) "t2" "goal" "b"))
    (after_minutes 2) default_breaker
  = budget_decision sample_settings sample_file (after_minutes 2) default_breaker.
Proof.
  apply (quota_event_keeps_budget sample_settings (Some 1000%Q) sample_file (after_minutes 2)
    default_breaker "t2" "goal" "b"); [reflexivity | reflexivity | exact sample_file_aware|].
  apply Nat.ltb_lt. vm_compute. reflexivity.
Defined.

Lemma remaining_capacity_spec_witness :
  exists n, remaining_exec_capacity sample_settings sample_file (after_minutes 2) = Ok n /\ n = 0%Z.
Proof.
  destruct (remaining_capacity_spec sample_settings sample_file (after_minutes 2) default_breaker
    eq_refl sample_file_aware) as (n & d & H & _).
  exists n. split; [exact H|].
  assert (remaining_exec_capacity sample_settings sample_file (after_minutes 2) = Ok 0%Z) as E
    by (vm_compute; reflexivity).
  rewrite E in H. by injection H as <-.
Defined.

Lemma concurrency_count_spec_witness :
  exists runs : gset (string * string),
    concurrent_runs_for_backend (fst (record_execution_started (Some 1000%Q) sample_file
      (after_minutes 2) "t9" "team_executor")) (after_minutes 3) "team_executor"
      = Ok (Z.of_nat (size runs)).
Proof.
  destruct (concurrency_count_spec (fst (record_execution_started (Some 1000%Q) sample_file
      (after_minutes 2) "t9" "team_executor")) (after_minutes 3) "team_executor") as (runs & H & _).
  - reflexivity.
  - repeat constructor.
  - exists runs. exact H.
Defined.

Lemma started_then_finished_witness :
  ("team_executor", "t9") ∉ in_flight_runs (fun e => jeq_str (dget e "backend") "team_executor")
    (pruned (us_events (load (fst (record_execution_finished (Some 1000%Q)
      (fst (record_execution_started (Some 1000%Q) sample_file (after_minutes 2) "t9" "team_executor"))
      (after_minutes 3) "t9" "team_executor")))) (after_minutes 4)) (after_minutes 4).
Proof.
  apply (started_then_finished (Some 1000%Q) sample_file (after_minutes 2) (after_minutes 3) "t9"
    "team_executor" (after_minutes 4)); try reflexivity.
  - exact sample_file_aware.
  - split; vm_compute; congruence.
  - split; vm_compute; congruence.
Defined.

Lemma backend_cap_spec_witness :
  exists d, budget_decision_for_backend sample_file (after_minutes 2) "team_executor" (Some 1%Z) None
    = Ok d.
Proof.
  destruct (backend_cap_spec sample_file (after_minutes 2) "team_executor" (Some 1%Z) None eq_refl
    sample_file_aware) as (d & H & _); [done|].
  exists d. exact H.
Defined.
