(* ===== verification/UsageSignals.v ===== *)
(** * Signals read off the usage ledger

    The reporting side of execution/usage_store.py: duration medians, the audit
    export, proposal satiation and success rates, flaky commands, escalation,
    block loops, the spend report and issue signatures. *)
From S2P Require Import Prelude PyStr PyData UsageStore UsageCooldown UsageBudget.
From Stdlib Require Import Sorted.

(** [e.get(k, d)]. *)
Definition dget_or (e : dict) (k : string) (d : jval) : jval := default d (e !! k).

Section Signals.
Context (f : file) (now : datetime).

(** Every reader starts from the pruned events. *)
Definition current_events : res (list dict) := prune_events (us_events (load f)) now.

Definition median_execution_duration (role : string) (window : nat) : res (option Q) :=
  events <-? current_events ;;
  durations <-? foldM (fun acc e =>
      d <-? ditem e "duration_seconds" ;; q <-? jfloat d ;; Ok (acc ++ [q])) []
    (List.filter (fun e => has_kind "execution_duration" e && jeq_str (dget e "role") role
                           && is_number (dget e "duration_seconds")) (rev events)) ;;
  let durations := take window durations in
  if (length durations <? 3) then Ok None
  else Ok (Some (median (sorted_by Qle_b durations))).

(** ** [audit_export] *)

(** task_id -> duration, the last one winning. *)
Definition durations_map (events : list dict) : res (gmap string Q) :=
  foldM (fun m e =>
    if has_kind "execution_duration" e && jtruthy (dget e "task_id") then
      d <-? jfloat (dget_or e "duration_seconds" (JInt 0)) ;;
      Ok (<[jtext (dget e "task_id") := d]> m)
    else Ok m) ∅ events.

Definition row (fields : list (string * jval)) : dict := list_to_map fields.

(** The audit row of an event, if its kind has one. *)
Definition audit_row (durations : gmap string Q) (e : dict) : option dict :=
  let get k d := dget_or e k d in
  if has_kind "execution_outcome" e then
    Some (row [("kind", JStr "execution"); ("task_id", get "task_id" (JStr ""));
      ("role", get "role" (JStr ""));
      ("outcome", JStr (if jtruthy (dget e "succeeded") then "succeeded" else "failed"));
      ("repo_key", get "repo_key" (JStr ""));
      ("duration_seconds",
         match durations !! jtext (get "task_id" (JStr "")) with Some q => JFloat q | None => JNull end);
      ("backend", get "backend" (JStr "")); ("backend_version", get "backend_version" JNull);
      ("timestamp", dget e "timestamp")])
  else if has_kind "quota_event" e then
    Some (row [("kind", JStr "execution"); ("task_id", get "task_id" (JStr ""));
      ("role", get "role" (JStr "")); ("outcome", JStr "quota_exhausted"); ("repo_key", JStr "");
      ("backend", get "backend" (JStr "")); ("duration_seconds", JNull);
      ("timestamp", dget e "timestamp")])
  else if has_kind "executor_quality_warning" e then
    Some (row [("kind", JStr "quality_warning"); ("task_id", get "task_id" (JStr ""));
      ("role", JStr ""); ("outcome", JStr "quality_warning"); ("repo_key", get "repo_key" (JStr ""));
      ("suppression_counts", get "suppression_counts" (JObj []));
      ("timestamp", dget e "timestamp")])
  else if has_kind "scope_violation" e then
    Some (row [("kind", JStr "scope_violation"); ("task_id", get "task_id" (JStr ""));
      ("role", JStr ""); ("outcome", JStr "scope_violation"); ("repo_key", get "repo_key" (JStr ""));
      ("violated_files", get "violated_files" (JList [])); ("timestamp", dget e "timestamp")])
  else if has_kind "escalation_sent" e then
    Some (row [("kind", JStr "escalation"); ("task_id", JStr ""); ("role", JStr "");
      ("outcome", JStr "escalated"); ("repo_key", JStr "");
      ("classification", get "classification" (JStr ""));
      ("task_ids", get "task_ids" (JList [])); ("timestamp", dget e "timestamp")])
  else None.

(** The instant of a row, its sort key. *)
Definition row_us (r : dict) : Z :=
  match event_ts r with Some t => dt_us t | None => 0%Z end.

Definition audit_export (window_days : Z) : res (list dict) :=
  events <-? current_events ;;
  durations <-? durations_map events ;;
  recent <-? filterM (ts_since (sub_us now (days window_days))) events ;;
  Ok (sorted_by (fun a b => (row_us a <=? row_us b)%Z) (omap (audit_row durations) recent)).

(** ** Proposals *)

Definition sum_field (k : string) (events : list dict) : res Z :=
  foldM (fun n e => c <-? jint (dget_or e k (JInt 0)) ;; Ok (n + c)%Z) 0%Z events.

Definition is_proposal_satiated (window_cycles : nat) (dedup_ratio_threshold : Q) : res bool :=
  events <-? current_events ;;
  let recent := take window_cycles (List.filter (has_kind "proposal_cycle") (rev events)) in
  if (length recent <? window_cycles) then Ok false
  else
    created <-? sum_field "created" recent ;;
    deduped <-? sum_field "deduped" recent ;;
    skipped <-? sum_field "skipped" recent ;;
    let total := (created + deduped + skipped)%Z in
    Ok (if (total =? 0)%Z then false
        else if (0 <? created)%Z then false
        else Qle_b dedup_ratio_threshold (inject_Z (deduped + skipped) / inject_Z total)).

Definition proposal_success_rate (category : string) (window : nat) : res Q :=
  events <-? current_events ;;
  let outcomes := take window (List.filter (fun e =>
    has_kind "proposal_outcome" e && jeq_str (dget e "category") category) (rev events)) in
  Ok (if (length outcomes <? 3) then (1 # 2)%Q
      else (inject_Z (count_if (fun e => jtruthy (dget e "succeeded")) outcomes)
            / inject_Z (Z.of_nat (length outcomes)))%Q).

Definition is_command_flaky (command : string) (window : nat) (fail_ratio : Q) : res bool :=
  events <-? current_events ;;
  let outcomes := take window (List.filter (fun e =>
    has_kind "validation_outcome" e && jeq_str (dget e "command") command) (rev events)) in
  if (length outcomes <? window) then Ok false
  else match window with
       | 0 => Raise (OtherError "ZeroDivisionError")
       | _ => Ok (Qle_b fail_ratio
                (inject_Z (count_if (fun e => negb (jtruthy (dget e "passed"))) outcomes)
                 / inject_Z (Z.of_nat window)))
       end.

(** ** Escalation *)

(** The condition of both loops: this kind and classification, with a
    timestamp (a naive one read as UTC) not older than a cutoff. *)
Definition classified_since (kind classification : string) (cutoff : datetime) (e : dict)
    : res bool :=
  if has_kind kind e && jeq_str (dget e "classification") classification then
    match event_ts e with
    | Some ts => dt_le cutoff (assume_utc ts)
    | None => Ok false
    end
  else Ok false.

Definition should_escalate (classification : string) (threshold : nat)
    (cooldown_seconds window_seconds : Z) : res (bool * list string) :=
  events <-? current_events ;;
  sent <-? filterM (classified_since "escalation_sent" classification
                      (sub_us now (seconds cooldown_seconds))) events ;;
  match sent with
  | _ :: _ => Ok (false, [])
  | [] =>
      blocks <-? filterM (classified_since "blocked_triage" classification
                            (sub_us now (seconds window_seconds))) events ;;
      let ids := List.filter str_truthy (map (fun e => jtext (dget_or e "task_id" (JStr ""))) blocks) in
      Ok (if (threshold <=? length ids) then (true, ids) else (false, []))
  end.

(** The backward scan: blocks of the task until one of its successes. *)
Fixpoint count_blocks (task_id : string) (newest_first : list dict) : Z :=
  match newest_first with
  | [] => 0
  | e :: l =>
      if jeq_str (dget e "task_id") task_id then
        if has_kind "blocked_triage" e then 1 + count_blocks task_id l
        else if has_kind "execution_outcome" e && jtruthy (dget e "succeeded") then 0
        else count_blocks task_id l
      else count_blocks task_id l
  end%Z.

Definition consecutive_blocks_for_task (task_id : string) : res Z :=
  events <-? current_events ;;
  Ok (count_blocks task_id (rev events)).

(** ** Spend *)

Record SpendReport := {
  sp_window_days : Z;
  sp_total_executions : Z;
  sp_total_estimated_usd : Q;
  sp_per_repo : gmap string (Z * Q) }.

Definition spend_step (acc : Z * Q * gmap string (Z * Q)) (e : dict)
    : res (Z * Q * gmap string (Z * Q)) :=
  let '(n, total, per_repo) := acc in
  let key := jtext (if jtruthy (dget e "repo_key") then dget e "repo_key" else JStr "unknown") in
  usd <-? jfloat (if jtruthy (dget e "estimated_usd") then dget e "estimated_usd" else JFloat 0) ;;
  let '(k, spent) := default (0%Z, 0%Q) (per_repo !! key) in
  Ok ((n + 1)%Z, (total + usd)%Q, <[key := ((k + 1)%Z, py_round 6 (spent + usd)%Q)]> per_repo).

Definition get_spend_report (window_days : Z) : res SpendReport :=
  events <-? current_events ;;
  costs <-? filterM (ts_since (sub_us now (days window_days)))
    (List.filter (has_kind "execution_cost") events) ;;
  acc <-? foldM spend_step (0%Z, 0%Q, ∅) costs ;;
  let '(n, total, per_repo) := acc in
  Ok {| sp_window_days := window_days; sp_total_executions := n;
        sp_total_estimated_usd := py_round 6 total; sp_per_repo := per_repo |}.
End Signals.

(** [issue_signature]: the texts of an issue as the board's API sends them
    (here every text, timestamps too, is a [JStr]). *)
Definition issue_signature (issue : dict) : string :=
  let text v := strip (jtext (if jtruthy v then v else JStr "")) in
  let state_name :=
    match dget issue "state" with
    | JObj l => strip (jtext (default (JStr "") (snd <$> find_first (fun kv => String.eqb (fst kv) "name") l)))
    | v => text v
    end in
  let updated := dget issue "updated_at" in
  let updated_at := text (if jtruthy updated then updated else dget issue "updated") in
  let description :=
    let d1 := text (dget issue "description") in
    let d2 := text (dget issue "description_stripped") in
    if str_truthy d1 then d1 else if str_truthy d2 then d2
    else text (dget issue "description_html") in
  join "|" [jtext (dget_or issue "id" (JStr "")); state_name; updated_at; description].

(** ** Lemmas *)

Lemma current_events_ok f now :
  dt_aware now = true -> file_aware f ->
  current_events f now = Ok (pruned (us_events (load f)) now) /\
  Forall event_aware (pruned (us_events (load f)) now).
Proof.
  intros Hn Hf. unfold current_events. rewrite prune_events_ok by done.
  split; [done | by apply pruned_aware].
Qed.

(** ** The audit export *)

(** Durations are numbers, as [record_execution_duration] writes them. *)
Definition duration_ok (e : dict) : Prop :=
  has_kind "execution_duration" e = true -> is_ok (jfloat (dget_or e "duration_seconds" (JInt 0))) = true.

Lemma foldM_total {A B} (P : A -> Prop) (g : B -> A -> res B) l a :
  Forall P l -> (forall b x, P x -> is_ok (g b x) = true) -> exists b, foldM g a l = Ok b.
Proof.
  intros Hl Hg. revert a. induction Hl as [|x l Hx Hl IH]; intros a; simpl; [by eexists|].
  specialize (Hg a x Hx). destruct (g a x); [apply IH | done].
Qed.

Lemma durations_map_total events :
  Forall duration_ok events -> exists m, durations_map events = Ok m.
Proof.
  intros H. unfold durations_map. eapply foldM_total; [exact H|]. intros m e He. simpl.
  unfold duration_ok in He. destruct (has_kind "execution_duration" e); simpl; [|done].
  destruct (jtruthy (dget e "task_id")); [|done].
  specialize (He eq_refl). by destruct (jfloat (dget_or e "duration_seconds" (JInt 0))).
Qed.

Lemma audit_row_ts m e r : audit_row m e = Some r -> event_ts r = event_ts e.
Proof.
  intros H. unfold event_ts. f_equal. revert H. unfold audit_row.
  repeat (destruct (has_kind _ e);
    [intros [= <-]; rewrite !dget_insert_ne by done; by rewrite dget_insert_eq|]). done.
Qed.

Lemma Sorted_row_us l :
  StronglySorted (fun a b => (row_us a <=? row_us b)%Z = true)
    (sorted_by (fun a b => (row_us a <=? row_us b)%Z) l).
Proof.
  apply sorted_by_sorted.
  - intros a b H. boolify. apply Z.leb_le. lia.
  - intros a b c H1 H2. boolify. apply Z.leb_le. lia.
Qed.

(** the audit export has one row for each recent outcome, quota, quality,
    scope and escalation event and no other row, oldest first. *)
Theorem audit_export_complete f now window_days :
  dt_aware now = true -> file_aware f -> Forall duration_ok (us_events (load f)) ->
  exists m rows, audit_export f now window_days = Ok rows /\
    rows ≡ₚ omap (audit_row m) (List.filter (since_b (sub_us now (days window_days)))
                                  (pruned (us_events (load f)) now)) /\
    StronglySorted (fun a b => (row_us a <=? row_us b)%Z = true) rows /\
    Forall (fun r => since_b (sub_us now (days window_days)) r = true) rows.
Proof.
  intros Hn Hf Hd. unfold audit_export.
  destruct (current_events_ok f now Hn Hf) as [-> Ha]. simpl.
  set (events := pruned (us_events (load f)) now) in *.
  destruct (durations_map_total events) as [m Hm].
  { apply Forall_forall. intros e [He _]%elem_of_pruned. by eapply Forall_forall in Hd. }
  rewrite Hm. simpl. rewrite filterM_ts_since by done. simpl.
  eexists m, _. split; [reflexivity|]. split; [apply sorted_by_perm|]. split; [apply Sorted_row_us|].
  rewrite sorted_by_perm. apply Forall_forall.
  intros r (e & He & Hr)%list_elem_of_omap. apply elem_of_filter_bool in He as [_ He].
  unfold since_b in *. by rewrite (audit_row_ts _ _ _ Hr).
Qed.

(** ** Escalation *)

Definition is_class (kind classification : string) (cutoff : datetime) (e : dict) : bool :=
  has_kind kind e && jeq_str (dget e "classification") classification && since_b cutoff e.

Lemma classified_since_ok kind c cutoff events :
  dt_aware cutoff = true -> Forall event_aware events ->
  filterM (classified_since kind c cutoff) events = Ok (List.filter (is_class kind c cutoff) events).
Proof.
  intros Hc He. apply filterM_ok. eapply Forall_impl; [exact He|]. intros e Ha.
  unfold classified_since, is_class, since_b. unfold event_aware in Ha.
  destruct (has_kind kind e && _); [|done]. simpl. destruct (event_ts e) as [t|]; [|done].
  unfold assume_utc. rewrite Ha. by apply dt_le_aware.
Qed.

Definition block_ids (blocks : list dict) : list string :=
  List.filter str_truthy (map (fun e => jtext (dget_or e "task_id" (JStr ""))) blocks).

Lemma should_escalate_ok f now c threshold cooldown window :
  dt_aware now = true -> file_aware f ->
  let events := pruned (us_events (load f)) now in
  let sent := List.filter (is_class "escalation_sent" c (sub_us now (seconds cooldown))) events in
  let ids := block_ids (List.filter (is_class "blocked_triage" c (sub_us now (seconds window))) events) in
  should_escalate f now c threshold cooldown window =
    Ok (if list_truthy sent then (false, []) else if (threshold <=? length ids) then (true, ids) else (false, [])).
Proof.
  intros Hn Hf. cbv zeta. unfold should_escalate.
  destruct (current_events_ok f now Hn Hf) as [-> Ha]. simpl.
  rewrite (classified_since_ok "escalation_sent") by done. simpl.
  destruct (List.filter (is_class "escalation_sent" c _) _); [|done]. simpl.
  by rewrite classified_since_ok.
Qed.

(** escalation fires exactly when enough recent blocks of the
    classification name a task and none was escalated within the cooldown; it
    then names their tasks, in order. *)
Theorem should_escalate_spec f now c threshold cooldown window :
  dt_aware now = true -> file_aware f ->
  let events := pruned (us_events (load f)) now in
  exists fire ids, should_escalate f now c threshold cooldown window = Ok (fire, ids) /\
  (fire = true <->
     (forall e, e ∈ events -> is_class "escalation_sent" c (sub_us now (seconds cooldown)) e = false) /\
     threshold <= length (block_ids (List.filter
       (is_class "blocked_triage" c (sub_us now (seconds window))) events))) /\
  (ids = if fire then block_ids (List.filter
           (is_class "blocked_triage" c (sub_us now (seconds window))) events) else []).
Proof.
  intros Hn Hf events. rewrite should_escalate_ok by done. fold events.
  set (sent := List.filter (is_class "escalation_sent" c _) events).
  set (ids := block_ids _).
  assert (Hsent : list_truthy sent = false <->
    forall e, e ∈ events -> is_class "escalation_sent" c (sub_us now (seconds cooldown)) e = false).
  { rewrite <-not_true_iff_false, list_truthy_spec. split.
    - intros H e He. destruct (is_class _ _ _ e) eqn:E; [|done]. destruct H. intros Hs.
      assert (e ∈ sent) as Hin by by apply elem_of_filter_bool. rewrite Hs in Hin.
      by apply elem_of_nil in Hin.
    - intros H Hne. apply Hne. unfold sent. apply filter_none, Forall_forall. exact H. }
  destruct (list_truthy sent) eqn:Es.
  - eexists _, _. split; [reflexivity|]. split; [|done].
    split; [done|]. intros [H _]. apply Hsent in H. done.
  - destruct (threshold <=? length ids) eqn:Et; eexists _, _; (split; [reflexivity|]).
    + apply Nat.leb_le in Et. split; [|done]. split; [|done]. intros _. split; [by apply Hsent|done].
    + apply Nat.leb_gt in Et. split; [|done]. split; [done|]. intros [_ H]. lia.
Qed.

(** an escalation silences its classification: until the cooldown has
    passed no further escalation of it fires. *)
Theorem escalation_silences free_mb f now later c task_ids threshold cooldown window :
  check_disk_space free_mb = Ok tt -> dt_aware now = true -> dt_aware later = true ->
  file_aware f -> (dt_us later <= dt_us now + seconds cooldown)%Z ->
  (dt_us later <= dt_us now + days 7)%Z ->
  should_escalate (fst (record_escalation free_mb f now c task_ids)) later c threshold cooldown window
    = Ok (false, []).
Proof.
  intros Hd Hn Hl Hf Hc Hw. unfold record_escalation. set (e := event _ _ _).
  destruct (record_event_last free_mb f now e later) as (l & Hp & _ & Ha & _);
    [done | done | done | apply event_ts_event | done|].
  rewrite should_escalate_ok by done. rewrite Hp, List.filter_app. simpl.
  assert (is_class "escalation_sent" c (sub_us later (seconds cooldown)) e = true) as ->.
  { unfold is_class, e. rewrite has_kind_event, dget_event by done.
    rewrite (since_b_ts _ _ _ (event_ts_event _ _ _)) by (simpl; lia).
    rewrite andb_true_r. apply String.eqb_refl. }
  by destruct (List.filter (is_class "escalation_sent" c (sub_us later (seconds cooldown))) l).
Qed.

(** ** Block loops *)

Definition blocks_task (task_id : string) (e : dict) : bool :=
  jeq_str (dget e "task_id") task_id && has_kind "blocked_triage" e.
Definition frees_task (task_id : string) (e : dict) : bool :=
  jeq_str (dget e "task_id") task_id &&
  (has_kind "execution_outcome" e && jtruthy (dget e "succeeded")).

Lemma blocked_not_outcome e :
  has_kind "blocked_triage" e = true -> has_kind "execution_outcome" e = false.
Proof. unfold has_kind. intros H. apply jeq_str_eq in H. by rewrite H. Qed.

(** The scan counts the blocks newer than the newest success. *)
Lemma count_blocks_spec task_id l1 l2 :
  Forall (fun e => frees_task task_id e = false) l1 ->
  match l2 with [] => True | e :: _ => frees_task task_id e = true end ->
  count_blocks task_id (l1 ++ l2) = count_if (blocks_task task_id) l1.
Proof.
  intros H1 H2. induction H1 as [|e l1 He H1 IH]; simpl.
  - destruct l2 as [|e l2]; [done|]. simpl. unfold frees_task in H2.
    destruct (jeq_str (dget e "task_id") task_id); [|done]. simpl in H2. rewrite H2.
    destruct (has_kind "blocked_triage" e) eqn:E; [|done].
    by rewrite (blocked_not_outcome e E) in H2.
  - rewrite IH, count_if_cons. unfold frees_task in He.
    assert (blocks_task task_id e = jeq_str (dget e "task_id") task_id && has_kind "blocked_triage" e)
      as -> by done.
    destruct (jeq_str (dget e "task_id") task_id); [|simpl; lia]. simpl in *. rewrite He.
    by destruct (has_kind "blocked_triage" e).
Qed.

(** the block count of a task is the number of its blocked-triage events
    since its last successful outcome (all of them when it never succeeded);
    other tasks' events do not count. *)
Theorem consecutive_blocks_spec f now task_id :
  dt_aware now = true -> file_aware f ->
  exists n, consecutive_blocks_for_task f now task_id = Ok n /\
  forall before after, pruned (us_events (load f)) now = before ++ after ->
    (forall e, e ∈ after -> frees_task task_id e = false) ->
    match last before with None => True | Some e => frees_task task_id e = true end ->
    n = count_if (blocks_task task_id) after.
Proof.
  intros Hn Hf. unfold consecutive_blocks_for_task.
  destruct (current_events_ok f now Hn Hf) as [-> _]. simpl. eexists. split; [reflexivity|].
  intros before after -> Ha Hb. rewrite rev_app_distr, count_blocks_spec.
  - apply count_if_perm. symmetry. apply Permutation_rev.
  - apply Forall_forall. intros e He. apply Ha. by rewrite list_elem_of_In, in_rev, <-list_elem_of_In.
  - destruct before as [|e before] using rev_ind; [done|].
    rewrite last_snoc in Hb. by rewrite rev_unit.
Qed.

(** ** Spend *)

Lemma spend_fold costs n0 t0 m0 n t m :
  foldM spend_step (n0, t0, m0) costs = Ok (n, t, m) ->
  (n = n0 + Z.of_nat (length costs))%Z /\
  (map_fold (fun _ (x : Z * Q) a => fst x + a) 0 m
    = map_fold (fun _ (x : Z * Q) a => fst x + a) 0 m0 + Z.of_nat (length costs))%Z.
Proof.
  revert n0 t0 m0. induction costs as [|e costs IH]; intros n0 t0 m0; simpl.
  { intros [= <- <- <-]. lia. }
  destruct (jfloat _) as [usd|]; simpl; [|done].
  set (key := jtext _).
  destruct (default (0%Z, 0%Q) (m0 !! key)) as [k spent] eqn:Ek. intros H.
  apply IH in H as [-> ->]. split; [lia|].
  assert (Hcomm : forall (j1 j2 : string) (z1 z2 : Z * Q) (y : Z),
    (fst z1 + (fst z2 + y) = fst z2 + (fst z1 + y))%Z) by (intros; lia).
  rewrite <-insert_delete_eq.
  rewrite (map_fold_insert_L (fun _ (x : Z * Q) a => (fst x + a)%Z) 0%Z key _ (delete key m0));
    [|by intros; apply Hcomm | apply lookup_delete_eq].
  simpl. destruct (m0 !! key) as [x|] eqn:Em; simpl in Ek.
  - subst x. rewrite <-(insert_delete_id m0 key (k, spent)) at 2 by done.
    rewrite (map_fold_insert_L (fun _ (x : Z * Q) a => (fst x + a)%Z) 0%Z key _ (delete key m0));
      [|by intros; apply Hcomm | apply lookup_delete_eq].
    simpl. lia.
  - injection Ek as <- <-. rewrite delete_id by done. lia.
Qed.

Lemma cost_total acc e :
  is_ok (jfloat (dget e "estimated_usd")) = true -> is_ok (spend_step acc e) = true.
Proof.
  destruct acc as [[n t] m]. unfold spend_step. intros H.
  destruct (jtruthy (dget e "estimated_usd")); simpl.
  - destruct (jfloat _); [|done]. simpl. by destruct (default _ _).
  - by destruct (default _ _).
Qed.

(** the spend report counts every cost event of its window once, and its
    per-repository execution counts add up to the total. *)
Theorem spend_report_adds_up f now window_days :
  dt_aware now = true -> file_aware f ->
  Forall (fun e => has_kind "execution_cost" e = true ->
                   is_ok (jfloat (dget e "estimated_usd")) = true) (us_events (load f)) ->
  exists r, get_spend_report f now window_days = Ok r /\
    sp_total_executions r = count_if (fun e => has_kind "execution_cost" e &&
      since_b (sub_us now (days window_days)) e) (pruned (us_events (load f)) now) /\
    (map_fold (fun _ (x : Z * Q) a => fst x + a) 0 (sp_per_repo r) = sp_total_executions r)%Z.
Proof.
  intros Hn Hf Hc. unfold get_spend_report.
  destruct (current_events_ok f now Hn Hf) as [-> Ha]. simpl.
  rewrite filterM_ts_since by auto with oc. simpl. rewrite filter_filter_bool.
  set (costs := List.filter _ _).
  destruct (foldM_total (fun e => is_ok (jfloat (dget e "estimated_usd")) = true) spend_step costs
    (0%Z, 0%Q, ∅)) as [[[n t] m] Hfold].
  - apply Forall_forall. intros e He. apply elem_of_filter_bool in He as [He Hk].
    apply andb_true_iff in Hk as [Hk _]. apply elem_of_pruned in He as [He _].
    rewrite Forall_forall in Hc. by apply Hc.
  - intros acc e. apply cost_total.
  - rewrite Hfold. simpl. eexists. split; [reflexivity|]. simpl.
    apply spend_fold in Hfold as [-> ->]. rewrite map_fold_empty. done.
Qed.
