(* ===== verification/UsageInvariants.v ===== *)
(** * The ledger as a state machine

    Every operation of the usage store as one constructor, the files they can
    reach from none, the invariant those files have, and what it gives: no
    operation or decision on a reachable ledger raises (the disk permitting),
    the counters agree with the events, and retries and no-op skips work. *)
From S2P Require Import Prelude PyStr PyData UsageStore UsageCooldown UsageBudget UsageSignals.

(** ** Operations *)

Inductive uop :=
  | UExecution (role task_id signature : string) (repo_key backend : option string)
  | UOutcome (task_id role : string) (succeeded : bool) (backend backend_version : option string)
  | UQuality (task_id repo_key : string) (suppression_counts : list (string * jval))
  | UScope (task_id repo_key : string) (violated_files : list string)
  | UQuota (task_id role backend : string)
  | UStarted (task_id backend : string)
  | UFinished (task_id backend : string)
  | UDuration (task_id role : string) (duration_seconds : Q)
  | USkip (role task_id signature reason : string) (detail : option string)
      (evidence : list (string * jval))
  | URetryCap (role task_id : string) (attempts limit : Z)
  | UCycle (created deduped skipped : Z)
  | UResetCycles
  | UProposal (category : string) (succeeded : bool)
  | UValidation (command : string) (passed : bool)
  | UEscalation (classification : string) (task_ids : list string)
  | UTriage (task_id classification : string)
  | UCost (task_id repo_key : string) (estimated_usd : Q)
  | USuppress (reason : string) (evidence : list (string * jval))
  | UArtifact (task_id : string) (artifact : dict)
  | UCooldown (worker_backend : string) (reset_at : datetime) (limit_kind model : option string)
  | UClear (worker_backend : string) (model : option string) (include_account_wide : bool)
      (reason : string)
  | UCapSample (weighted : Q) (min_gap : Z) (keep : nat)
  | URetry (task_id : string).

Definition drop_result {A} (r : file * res A) : file * bool := (fst r, is_ok (snd r)).

(** Running an operation: the file it leaves, and whether it returned. *)
Definition uapply (settings : ExecutionControlSettings) (free_mb : option Q) (f : file)
    (now : datetime) (op : uop) : file * bool :=
  match op with
  | UExecution r t s k b => drop_result (record_execution free_mb f now r t s k b)
  | UOutcome t r s b v => drop_result (record_execution_outcome free_mb f now t r s b v)
  | UQuality t k c => drop_result (record_quality_warning free_mb f now t k c)
  | UScope t k v => drop_result (record_scope_violation free_mb f now t k v)
  | UQuota t r b => drop_result (record_quota_event free_mb f now t r b)
  | UStarted t b => drop_result (record_execution_started free_mb f now t b)
  | UFinished t b => drop_result (record_execution_finished free_mb f now t b)
  | UDuration t r d => drop_result (record_execution_duration free_mb f now t r d)
  | USkip r t s e d v => drop_result (record_skip free_mb f now r t s e d v)
  | URetryCap r t a l => drop_result (record_retry_cap free_mb f now r t a l)
  | UCycle c d s => drop_result (record_proposal_cycle free_mb f now c d s)
  | UResetCycles => drop_result (reset_satiation_window f)
  | UProposal c s => drop_result (record_proposal_outcome free_mb f now c s)
  | UValidation c p => drop_result (record_validation_outcome free_mb f now c p)
  | UEscalation c t => drop_result (record_escalation free_mb f now c t)
  | UTriage t c => drop_result (record_blocked_triage free_mb f now t c)
  | UCost t k u => drop_result (record_execution_cost free_mb f now t k u)
  | USuppress r e => drop_result (record_proposal_budget_suppression free_mb f now r e)
  | UArtifact t a => drop_result (record_task_artifact free_mb f now t a)
  | UCooldown w r k m => drop_result (record_worker_backend_cooldown free_mb f now w r k m)
  | UClear w m a r => drop_result (clear_worker_backend_cooldown free_mb f now w m a r)
  | UCapSample w g k => drop_result (record_budget_cap_sample free_mb f now w g k)
  | URetry t => drop_result (retry_decision settings f t now)
  end.

(** Callers pass aware times. *)
Definition uop_ok (op : uop) : Prop :=
  match op with UCooldown _ r _ _ => dt_aware r = true | _ => True end.

(** Files reachable from no file, the disk being in any state at each step. *)
Inductive ureach (settings : ExecutionControlSettings) : file -> Prop :=
  | ureach_init : ureach settings None
  | ureach_step free_mb f now op :
      ureach settings f -> dt_aware now = true -> uop_ok op ->
      ureach settings (fst (uapply settings free_mb f now op)).

(** ** The invariant *)

Record store_inv (s : store) : Prop := {
  si_events : Forall event_ok (us_events s);
  si_length : length (us_events s) <= MAX_EVENTS;
  si_recent : match us_updated_at s with
              | Some t => dt_aware t = true /\
                  Forall (fun e => since_b (sub_us t (days 7)) e = true) (us_events s)
              | None => us_events s = []
              end;
  si_hourly : us_hourly_exec_count s =
    match us_updated_at s with
    | Some t => exec_counted (us_events s) (sub_us t (hours 1)) | None => 0%Z end;
  si_daily : us_daily_exec_count s =
    match us_updated_at s with
    | Some t => exec_counted (us_events s) (sub_us t (days 1)) | None => 0%Z end;
  si_budget : us_skipped_due_to_budget s = count_if (has_kind "skip_budget") (us_events s);
  si_noop : us_skipped_due_to_noop s = count_if (has_kind "skip_noop") (us_events s);
  si_cooldown : us_skipped_due_to_cooldown s = count_if (has_kind "skip_cooldown") (us_events s);
  si_retry : us_blocked_due_to_retry_cap s = count_if (has_kind "retry_cap_block") (us_events s);
  si_suppressed : us_suppressed_due_to_proposal_budget s
    = count_if (has_kind "proposal_budget_suppressed") (us_events s) }.

Lemma events_ok_aware evs : Forall event_ok evs -> Forall event_aware evs.
Proof. intros H. eapply Forall_impl; [exact H|]. by intros e [? _]. Qed.

Lemma saved_inv data now :
  dt_aware now = true -> Forall event_ok (us_events data) -> store_inv (saved data now).
Proof.
  intros Hn He. constructor; simpl; try done.
  - by apply pruned_ok.
  - apply pruned_length.
  - split; [done|]. apply Forall_forall. intros e H. by apply elem_of_pruned in H as [_ ?].
Qed.

(** What one operation does to the file: nothing when it fails, and otherwise
    a ledger with the invariant; with enough disk it does not fail. *)
Definition step_ok (disk_ok : bool) (f : file) (r : file * bool) : Prop :=
  (snd r = false /\ fst r = f /\ disk_ok = false) \/ (snd r = true /\ store_inv (load (fst r))).

Definition disk_ok (free_mb : option Q) : bool := is_ok (check_disk_space free_mb).

Lemma save_cases free_mb data now :
  dt_aware now = true -> Forall event_ok (us_events data) ->
  if disk_ok free_mb then save free_mb data now = Ok (saved data now)
  else exists e, save free_mb data now = Raise e.
Proof.
  intros Hn He. unfold disk_ok. destruct (check_disk_space free_mb) as [[]|x] eqn:E; simpl.
  - apply save_ok; [done | done | by apply events_ok_aware].
  - unfold save. rewrite E. simpl. by eexists.
Qed.

Lemma exclusive_append_step free_mb f now g e :
  dt_aware now = true -> store_inv (load f) -> event_ok e ->
  us_events (g (load f)) = us_events (load f) ->
  step_ok (disk_ok free_mb) f
    (drop_result (exclusive f (fun data => append_event free_mb (g data) e now))).
Proof.
  intros Hn Hi He Hg. unfold exclusive, append_event.
  pose proof (save_cases free_mb (set_events (g (load f)) (us_events (g (load f)) ++ [e])) now Hn) as H.
  assert (Hev : Forall event_ok (us_events (g (load f)) ++ [e])).
  { rewrite Hg. apply Forall_app. split; [apply Hi|]. by constructor. }
  specialize (H Hev). destruct (disk_ok free_mb).
  - rewrite H. right. split; [done|]. by apply saved_inv.
  - destruct H as [x ->]. by left.
Qed.

Lemma record_event_step free_mb f now e :
  dt_aware now = true -> store_inv (load f) -> event_ok e ->
  step_ok (disk_ok free_mb) f (drop_result (record_event free_mb f now e)).
Proof. intros Hn Hi He. by apply (exclusive_append_step free_mb f now (fun s => s)). Qed.

Lemma event_event_ok kind now fields :
  dt_aware now = true ->
  dget (list_to_map fields) "reset_at" = JNull ->
  dget (list_to_map fields) "limit_kind" = JNull ->
  dget (list_to_map fields) "model" = JNull ->
  event_ok (event kind now fields).
Proof.
  intros Hn H1 H2 H3. unfold event_ok. rewrite !dget_event by done. rewrite H1, H2, H3.
  split; [by apply event_aware_event | done].
Qed.

Lemma opt_field_ok k o e :
  k <> "timestamp" -> k <> "reset_at" -> k <> "limit_kind" -> k <> "model" ->
  event_ok e -> event_ok (opt_field k o e).
Proof.
  intros Ht Hr Hl Hm He. pose proof (opt_field_aware k o e Ht (proj1 He)) as Ha.
  revert Ha. unfold opt_field. destruct o as [s|]; [|done]. destruct (str_truthy s); [|done].
  intros Ha. split; [done|]. rewrite !dget_insert_ne by done. apply He.
Qed.

(** Events of a kind whose fields are not those of a cooldown. *)
Ltac plain_event :=
  apply event_event_ok; [done| | |]; unfold dget; simpl; rewrite ?lookup_insert_ne by done;
  by rewrite ?lookup_empty.

Lemma set_tables_inv s a g t c : store_inv s -> store_inv (set_tables s a g t c).
Proof. intros []. by constructor. Qed.

(** Dropping events of a kind that no counter counts. *)
Lemma count_if_filter {A} (p q : A -> bool) l :
  (forall x, p x = true -> q x = true) -> count_if p (List.filter q l) = count_if p l.
Proof.
  intros H. unfold count_if. rewrite filter_filter_bool. f_equal. f_equal.
  apply List.filter_ext. intros x. destruct (p x) eqn:E; [by rewrite (H x E)|].
  by rewrite andb_false_r.
Qed.

Lemma kind_excludes k1 k2 e : k1 <> k2 -> has_kind k1 e = true -> negb (has_kind k2 e) = true.
Proof.
  unfold has_kind. intros Hne H. apply jeq_str_eq in H. rewrite H. simpl.
  by rewrite (proj2 (String.eqb_neq _ _) Hne).
Qed.

Lemma reset_satiation_inv s :
  store_inv s ->
  store_inv (set_events s (List.filter (fun e => negb (has_kind "proposal_cycle" e)) (us_events s))).
Proof.
  intros [H1 H2 H3 H4 H5 H6 H7 H8 H9 H10].
  assert (Hx : forall since, exec_counted (List.filter
      (fun e => negb (has_kind "proposal_cycle" e)) (us_events s)) since = exec_counted (us_events s) since).
  { intros since. apply count_if_filter. intros e [He _]%andb_true_iff. by apply (kind_excludes "execution"). }
  assert (Hc : forall k, k <> "proposal_cycle" -> count_if (has_kind k) (List.filter
      (fun e => negb (has_kind "proposal_cycle" e)) (us_events s)) = count_if (has_kind k) (us_events s)).
  { intros k Hk. apply count_if_filter. intros e. by apply kind_excludes. }
  constructor; simpl; try (by rewrite Hc); try (by destruct (us_updated_at s); rewrite ?Hx).
  - by apply filter_Forall.
  - etrans; [apply filter_length_le | done].
  - destruct (us_updated_at s); [destruct H3; split; [done|]; by apply filter_Forall|]. by rewrite H3.
Qed.

Lemma exclusive_pure_step b f g :
  store_inv (g (load f)) -> step_ok b f (drop_result (exclusive f (fun data => Ok (g data)))).
Proof. intros H. right. done. Qed.

Lemma save_step free_mb f now g :
  dt_aware now = true -> Forall event_ok (us_events (g (load f))) ->
  step_ok (disk_ok free_mb) f (drop_result (exclusive f (fun data => save free_mb (g data) now))).
Proof.
  intros Hn He. unfold exclusive. pose proof (save_cases free_mb (g (load f)) now Hn He) as H.
  destruct (disk_ok free_mb).
  - rewrite H. right. split; [done|]. by apply saved_inv.
  - destruct H as [x ->]. by left.
Qed.

Lemma cooldown_step free_mb f now wb reset_at kind model :
  dt_aware now = true -> dt_aware reset_at = true -> store_inv (load f) ->
  step_ok (disk_ok free_mb) f
    (drop_result (record_worker_backend_cooldown free_mb f now wb reset_at kind model)).
Proof.
  intros Hn Hr Hi. unfold record_worker_backend_cooldown, exclusive.
  rewrite (filterM_ok _ (fun e => negb (same_key wb now kind model e))).
  2: { eapply Forall_impl; [apply Hi|]. intros e He. by rewrite is_active_ok. }
  simpl. unfold append_event. set (data := set_events _ _).
  assert (He : Forall event_ok (us_events data)).
  { simpl. apply Forall_app. split; [apply filter_Forall, Hi|].
    constructor; [by apply cooldown_event_ok|done]. }
  pose proof (save_cases free_mb data now Hn He) as H. destruct (disk_ok free_mb).
  - rewrite H. right. split; [done|]. by apply saved_inv.
  - destruct H as [x ->]. by left.
Qed.

Lemma clear_step free_mb f now wb model aw reason :
  dt_aware now = true -> store_inv (load f) ->
  step_ok (disk_ok free_mb) f
    (drop_result (clear_worker_backend_cooldown free_mb f now wb model aw reason)).
Proof.
  intros Hn Hi. unfold clear_worker_backend_cooldown, exclusive_with.
  rewrite (filterM_ok (cleared wb model aw now) (cleared_b wb model aw now)).
  2: { eapply Forall_impl; [apply Hi|]. intros e He. by apply cleared_ok. }
  simpl. rewrite (filterM_ok _ (fun e => negb (cleared_b wb model aw now e))).
  2: { eapply Forall_impl; [apply Hi|]. intros e He. by rewrite cleared_ok. }
  simpl. set (kept := List.filter (fun e => negb _) _).
  assert (Hk : Forall event_ok kept) by (apply filter_Forall, Hi).
  unfold append_event. simpl. match goal with |- context [save free_mb ?d now] => idtac end.
  destruct (_ =? 0)%Z.
  - pose proof (save_cases free_mb (set_events (load f) kept) now Hn Hk) as H.
    destruct (disk_ok free_mb); [rewrite H; right; split; [done|]; by apply saved_inv|].
    destruct H as [x ->]. by left.
  - match goal with |- context [save free_mb ?d now] => set (data := d) end.
    assert (He : Forall event_ok (us_events data)).
    { simpl. apply Forall_app. split; [done|]. constructor; [|done].
      split; [by apply event_aware_event|]. rewrite !dget_event by done. by destruct model. }
    pose proof (save_cases free_mb data now Hn He) as H.
    destruct (disk_ok free_mb); [rewrite H; right; split; [done|]; by apply saved_inv|].
    destruct H as [x ->]. by left.
Qed.

Lemma dt_diff_ok_aware a b : dt_aware a = true -> dt_aware b = true -> is_ok (dt_diff a b) = true.
Proof. intros Ha Hb. by rewrite dt_diff_aware. Qed.

Lemma last_attempt_aware data task_id t :
  Forall event_aware (us_events data) -> last_attempt_timestamp data task_id = Some t -> dt_aware t = true.
Proof.
  intros Ha. unfold last_attempt_timestamp. intros H. apply head_Some_elem_of in H.
  apply list_elem_of_omap in H as (e & _ & He). destruct (event_ts e) as [ts|]; [|done].
  simpl in He. injection He as <-. unfold assume_utc. by destruct (dt_aware ts) eqn:E.
Qed.

Lemma retry_step settings b f task_id now :
  dt_aware now = true -> store_inv (load f) ->
  step_ok b f (drop_result (retry_decision settings f task_id now)).
Proof.
  intros Hn Hi. right. unfold retry_decision, retry_decision_on.
  destruct (_ <=? _)%Z; [|done].
  destruct (last_attempt_timestamp (load f) task_id) as [t|] eqn:E; simpl.
  - assert (dt_aware t = true) as Ha.
    { eapply last_attempt_aware; [|done]. apply events_ok_aware, Hi. }
    rewrite dt_diff_aware by done. simpl. destruct (_ <? _)%Z; simpl; [|done].
    split; [done|]. by apply set_tables_inv, set_tables_inv.
  - split; [done|]. by apply set_tables_inv, set_tables_inv.
Qed.

(** One operation on a ledger with the invariant. *)
Lemma uapply_step settings free_mb f now op :
  dt_aware now = true -> uop_ok op -> store_inv (load f) ->
  step_ok (disk_ok free_mb) f (uapply settings free_mb f now op).
Proof.
  intros Hn Hop Hi.
  destruct op; simpl;
    lazymatch goal with
    | |- step_ok _ _ (drop_result (record_worker_backend_cooldown _ _ _ _ _ _ _)) =>
        by apply cooldown_step
    | |- step_ok _ _ (drop_result (clear_worker_backend_cooldown _ _ _ _ _ _ _)) =>
        by apply clear_step
    | |- step_ok _ _ (drop_result (retry_decision _ _ _ _)) => by apply retry_step
    | |- _ => try (apply record_event_step; [done | done |]; try plain_event)
    end.
  - apply (exclusive_append_step free_mb f now (fun data => set_signatures
      (set_attempts data (<[task_id := (default 0 (us_task_attempts data !! task_id) + 1)%Z]>
         (us_task_attempts data))) (<[role +:+ ":" +:+ task_id := signature]>
         (us_last_task_signatures data)))); [done | done | | done].
    apply opt_field_ok; [done..|]. apply opt_field_ok; [done..|]. plain_event.
  - apply opt_field_ok; [done..|]. apply opt_field_ok; [done..|]. plain_event.
  - unfold record_skip. apply (exclusive_append_step free_mb f now (fun data =>
      if String.eqb reason "no_op" then set_signatures data
        (<[role +:+ ":" +:+ task_id := signature]> (us_last_task_signatures data)) else data));
      [done | done | plain_event |]. by destruct (String.eqb reason "no_op").
  - apply (exclusive_pure_step _ f (fun data => set_events data (List.filter
      (fun e => negb (has_kind "proposal_cycle" e)) (us_events data)))). by apply reset_satiation_inv.
  - apply (save_step free_mb f now (fun data => set_artifacts data
      (<[task_id := <["recorded_at" := JTime now]> artifact]> (us_task_artifacts data)))); [done | apply Hi].
  - unfold record_budget_cap_sample. destruct (Qle_b weighted 0); [by right|].
    destruct (same_episode _ _ _); [by right|].
    apply (save_step free_mb f now (fun data => set_samples data _)); [done | apply Hi].
Qed.

Lemma empty_store_inv : store_inv empty_store.
Proof. by constructor; simpl; try apply Forall_nil; unfold MAX_EVENTS; try lia. Qed.

Lemma ureach_inv settings f : ureach settings f -> store_inv (load f).
Proof.
  induction 1 as [|free_mb f now op _ IH Hn Hop]; [apply empty_store_inv|].
  destruct (uapply_step settings free_mb f now op Hn Hop IH) as [(_ & -> & _) | (_ & H)]; done.
Qed.

(** ** What the invariant gives *)

(** C9: every ledger reachable from no file, whatever the operations, their
    times and the disk's state, keeps the invariant: at most a thousand
    well-formed events, none older than a week before the last save, and every
    stored counter equal to what the stored events say. *)
Theorem reachable_ledger_invariant settings f :
  ureach settings f ->
  length (us_events (load f)) <= 1000 /\ store_inv (load f).
Proof.
  intros H. apply ureach_inv in H. split; [|done]. apply H.
Qed.

(** on a reachable ledger no operation fails except for want of disk
    space, and then the file is left as it was. *)
Theorem operations_fail_only_on_disk settings f free_mb now op :
  ureach settings f -> dt_aware now = true -> uop_ok op ->
  let '(f', returned) := uapply settings free_mb f now op in
  returned = false -> f' = f /\ check_disk_space free_mb = Raise disk_critical.
Proof.
  intros Hr Hn Hop. pose proof (uapply_step settings free_mb f now op Hn Hop (ureach_inv _ _ Hr)) as H.
  destruct (uapply settings free_mb f now op) as [f' b].
  destruct H as [(_ & Hf & Hd) | (Hb & _)]; simpl in *; [|congruence].
  intros _. split; [done|]. unfold disk_ok, check_disk_space in *.
  destruct free_mb as [q|]; [|done]. by destruct (Qlt_b q DISK_MIN_MB).
Qed.

(** C24: on a reachable ledger every gate of a dispatch gives an answer: the
    global budget, the remaining capacity, the per-backend and per-repository
    caps, both concurrency gates and the model-aware cooldown. *)
Theorem gates_always_answer settings f now cb repo backend h d n :
  ureach settings f -> dt_aware now = true ->
  is_ok (budget_decision settings f now cb) && is_ok (remaining_exec_capacity settings f now) &&
  is_ok (budget_decision_for_repo f now repo n) && is_ok (budget_decision_for_backend f now backend h d) &&
  is_ok (global_rate_decision f now h d) && is_ok (global_concurrency_decision f now h) &&
  is_ok (concurrency_decision_for_backend f now backend h) &&
  is_ok (worker_backend_blocked_until f now backend) = true.
Proof.
  intros Hr Hn. pose proof (ureach_inv _ _ Hr) as Hi.
  assert (Hf : file_ok f) by apply Hi. assert (Ha : file_aware f) by apply events_ok_aware, Hi.
  assert (Hp : Forall event_aware (pruned (us_events (load f)) now)) by by apply pruned_aware.
  assert (Hrate : forall p r, is_ok (rate_decision f now p r h d) = true).
  { intros p r. unfold rate_decision. rewrite prune_events_ok by done. simpl.
    by rewrite !count_since_ok by done. }
  rewrite !andb_true_iff. split_and!.
  - by rewrite budget_decision_ok.
  - unfold remaining_exec_capacity. rewrite prune_events_ok by done. simpl.
    by rewrite !exec_count_ok by done.
  - unfold budget_decision_for_repo. rewrite prune_events_ok by done. simpl.
    by rewrite count_since_ok by done.
  - unfold budget_decision_for_backend. destruct (negb _); [done|]. by destruct h, d; rewrite ?Hrate.
  - unfold global_rate_decision. by destruct h, d; rewrite ?Hrate.
  - unfold global_concurrency_decision, total_concurrent_runs. destruct h; [|done].
    by rewrite in_flight_ok.
  - unfold concurrency_decision_for_backend, concurrent_runs_for_backend. destruct h; [|done].
    destruct (negb _); [done|]. by rewrite in_flight_ok.
  - unfold worker_backend_blocked_until. by rewrite current_cooldowns_ok.
Qed.

(** ** Retries *)

(** a retry is refused exactly when the task has used its attempts and its
    last execution or cap was at most an hour ago; a refusal changes nothing,
    and an allowance past the cap clears the task's attempts and signatures. *)
Theorem retry_decision_spec settings f task_id now :
  ureach settings f -> dt_aware now = true ->
  let attempts := default 0%Z (us_task_attempts (load f) !! task_id) in
  let limit := max_retries_per_task settings in
  exists d f', retry_decision settings f task_id now = (f', Ok d) /\
  (rd_allowed d = false <->
     (limit <= attempts)%Z /\ exists t, last_attempt_timestamp (load f) task_id = Some t /\
       (dt_us now - dt_us t <= hours 1)%Z) /\
  (rd_allowed d = false -> f' = f) /\
  (rd_allowed d = true -> (limit <= attempts)%Z ->
     us_task_attempts (load f') !! task_id = None /\ rd_attempts d = 0%Z /\
     us_events (load f') = us_events (load f) /\
     forall other, other <> task_id ->
       us_task_attempts (load f') !! other = us_task_attempts (load f) !! other).
Proof.
  intros Hr Hn attempts limit. pose proof (ureach_inv _ _ Hr) as Hi.
  unfold retry_decision, retry_decision_on. fold limit. fold attempts.
  destruct (limit <=? attempts)%Z eqn:El; boolify.
  2: { eexists _, _. split; [reflexivity|]. simpl. split; [split; [done|lia]|]. split; [done|lia]. }
  assert (Hreset : us_task_attempts (reset_task_attempts (load f) task_id) !! task_id = None /\
    us_events (reset_task_attempts (load f) task_id) = us_events (load f) /\
    forall other, other <> task_id -> us_task_attempts (reset_task_attempts (load f) task_id) !! other
       = us_task_attempts (load f) !! other).
  { simpl. split; [apply lookup_delete_eq|]. split; [done|]. intros other Ho.
    by apply lookup_delete_ne. }
  destruct (last_attempt_timestamp (load f) task_id) as [t|] eqn:Et; simpl.
  - assert (dt_aware t = true) as Ha.
    { eapply last_attempt_aware; [|done]. apply events_ok_aware, Hi. }
    rewrite dt_diff_aware by done. simpl. destruct (hours 1 <? _)%Z eqn:Eh; boolify.
    + eexists _, _. split; [reflexivity|]. simpl. split; [split; [done|]|].
      * intros (_ & t' & Heq & Hle). injection Heq as <-. lia.
      * split; [done|]. intros _ _. naive_solver.
    + eexists _, _. split; [reflexivity|]. simpl. split; [|done]. split; [|done].
      intros _. split; [done|]. by exists t.
  - eexists _, _. split; [reflexivity|]. simpl. split; [split; [done|]|].
    + by intros (_ & t & ? & _).
    + split; [done|]. naive_solver.
Qed.

(** The write of a reset happens after the load, outside the lock: another
    operation may run in between. *)
Definition retry_interleaved (settings : ExecutionControlSettings) (free_mb : option Q) (f : file)
    (task_id : string) (ref now : datetime) (op : uop) : file :=
  match retry_decision_on settings (load f) task_id ref with
  | Ok (_, Some data) => Some data
  | _ => fst (uapply settings free_mb f now op)
  end.

(** when a retry decision resets a task and another operation runs between
    its read and its write, that operation is lost: the file is left as if it
    had never run.  The reset is a load-modify-save outside the lock. *)
Theorem retry_reset_loses_update settings free_mb f task_id ref now op :
  ureach settings f -> dt_aware ref = true ->
  (max_retries_per_task settings <= default 0%Z (us_task_attempts (load f) !! task_id))%Z ->
  (forall t, last_attempt_timestamp (load f) task_id = Some t -> (hours 1 < dt_us ref - dt_us t)%Z) ->
  retry_interleaved settings free_mb f task_id ref now op
    = fst (retry_decision settings f task_id ref) /\
  us_events (load (retry_interleaved settings free_mb f task_id ref now op)) = us_events (load f).
Proof.
  intros Hr Hn Hl Hold. pose proof (ureach_inv _ _ Hr) as Hi.
  unfold retry_interleaved, retry_decision, retry_decision_on.
  rewrite (proj2 (Z.leb_le _ _) Hl).
  destruct (last_attempt_timestamp (load f) task_id) as [t|] eqn:Et; simpl; [|done].
  assert (dt_aware t = true) as Ha.
  { eapply last_attempt_aware; [|done]. apply events_ok_aware, Hi. }
  rewrite dt_diff_aware by done. simpl. by rewrite (proj2 (Z.ltb_lt _ _) (Hold t eq_refl)).
Qed.

(** ** No-op skips *)

Lemma save_signatures free_mb data now s :
  save free_mb data now = Ok s -> us_last_task_signatures s = us_last_task_signatures data.
Proof.
  unfold save. destruct (check_disk_space free_mb); simpl; [|done].
  destruct (prune_events _ now); simpl; [|done].
  destruct (exec_count _ (sub_us now (hours 1))); simpl; [|done].
  destruct (exec_count _ (sub_us now (days 1))); simpl; [|done]. by intros [= <-].
Qed.

Lemma signatures_after_append free_mb f g e now :
  let '(f', r) := exclusive f (fun data => append_event free_mb (g data) e now) in
  (r <> Ok tt /\ f' = f) \/
  us_last_task_signatures (load f') = us_last_task_signatures (g (load f)).
Proof.
  unfold exclusive, append_event.
  destruct (save free_mb _ now) as [s|] eqn:E; [|by left].
  right. by apply save_signatures in E.
Qed.

(** a skip for any reason other than a no-op (budget, cooldown, a busy
    executor) never makes a later check of any task read as a no-op. *)
Theorem busy_skip_keeps_noop free_mb f now role task_id signature reason detail evidence r t s :
  reason <> "no_op" ->
  noop_decision (fst (record_skip free_mb f now role task_id signature reason detail evidence)) r t s
    = noop_decision f r t s.
Proof.
  intros Hr. unfold record_skip. rewrite (proj2 (String.eqb_neq _ _) Hr).
  pose proof (signatures_after_append free_mb f (fun d => d)
    (event (if String.eqb reason "cooldown_active" then "skip_cooldown" else "skip_budget") now
      [("role", JStr role); ("task_id", JStr task_id); ("signature", JStr signature);
       ("reason", JStr reason); ("detail", opt_jstr detail); ("evidence", JObj evidence)]) now) as H.
  destruct (exclusive f _) as [f' x]. simpl in *. unfold noop_decision.
  destruct H as [[_ ->] | ->]; done.
Qed.

(** after an execution is recorded, checking the same role and task with
    the same signature reads as a no-op, and with a different one does not. *)
Theorem execution_then_noop free_mb f now role task_id signature repo_key backend s :
  signature <> "" -> strip signature = signature ->
  snd (record_execution free_mb f now role task_id signature repo_key backend) = Ok tt ->
  nd_should_skip (noop_decision
    (fst (record_execution free_mb f now role task_id signature repo_key backend)) role task_id s)
  = String.eqb signature s.
Proof.
  intros Hne Hs Hok. unfold record_execution in *.
  set (g := fun data => set_signatures (set_attempts data
    (<[task_id := (default 0 (us_task_attempts data !! task_id) + 1)%Z]> (us_task_attempts data)))
    (<[role +:+ ":" +:+ task_id := signature]> (us_last_task_signatures data))).
  set (e := opt_field _ _ _) in *.
  pose proof (signatures_after_append free_mb f g e now) as H.
  change (exclusive f _) with (exclusive f (fun data => append_event free_mb (g data) e now)) in *.
  destruct (exclusive f _) as [f' r]. simpl in *.
  destruct H as [[Hno _] | H]; [done|]. unfold noop_decision. rewrite H.
  unfold g. simpl us_last_task_signatures. rewrite lookup_insert_eq. simpl. rewrite Hs.
  unfold str_truthy. rewrite (proj2 (String.eqb_neq _ _) Hne). simpl.
  by destruct (String.eqb signature s).
Qed.

(** ** Witnesses *)

Definition task_run (n : Z) (f : file) : file :=
  fst (uapply sample_settings (Some 1000%Q) f (after_minutes n)
    (UExecution "goal" "t1" "sig" None (Some "b"))).

(** Three executions of one task. *)
Definition capped_file : file := task_run 2 (task_run 1 (task_run 0 None)).

Lemma capped_file_reachable : ureach sample_settings capped_file.
Proof.
  apply ureach_step; [|reflexivity | exact I]. apply ureach_step; [|reflexivity | exact I].
  apply ureach_step; [|reflexivity | exact I]. apply ureach_init.
Defined.

Lemma reachable_ledger_invariant_witness : length (us_events (load capped_file)) <= 1000.
Proof. exact (proj1 (reachable_ledger_invariant sample_settings capped_file capped_file_reachable)). Defined.

Lemma operations_fail_only_on_disk_witness :
  fst (uapply sample_settings (Some 10%Q) capped_file (after_minutes 3) (UQuota "t1" "goal" "b"))
    = capped_file.
Proof.
  pose proof (operations_fail_only_on_disk sample_settings capped_file (Some 10%Q) (after_minutes 3)
    (UQuota "t1" "goal" "b") capped_file_reachable eq_refl I) as H.
  assert (snd (uapply sample_settings (Some 10%Q) capped_file (after_minutes 3) (UQuota "t1" "goal" "b"))
    = false) as E by (vm_compute; reflexivity).
  destruct (uapply sample_settings (Some 10%Q) capped_file (after_minutes 3) (UQuota "t1" "goal" "b"))
    as [f' b]. exact (proj1 (H E)).
Defined.

Lemma gates_always_answer_witness :
  is_ok (budget_decision sample_settings capped_file (after_minutes 3) default_breaker) = true.
Proof.
  pose proof (gates_always_answer sample_settings capped_file (after_minutes 3) default_breaker "repo"
    "b" None None 1 capped_file_reachable eq_refl) as H.
  rewrite !andb_true_iff in H. apply H.
Defined.

Lemma retry_decision_spec_witness :
  exists d f', retry_decision sample_settings capped_file "t1" (after_minutes 10) = (f', Ok d) /\
    rd_allowed d = false.
Proof.
  destruct (retry_decision_spec sample_settings capped_file "t1" (after_minutes 10)
    capped_file_reachable eq_refl) as (d & f' & H & Hd & _).
  exists d, f'. split; [exact H|]. apply Hd. split; [vm_compute; congruence|].
  exists (after_minutes 2). split; [vm_compute; reflexivity | vm_compute; congruence].
Defined.

Lemma retry_reset_loses_update_witness :
  retry_interleaved sample_settings (Some 1000%Q) capped_file "t1" (after_minutes 600)
    (after_minutes 600) (UStarted "t2" "b")
  = fst (retry_decision sample_settings capped_file "t1" (after_minutes 600)).
Proof.
  apply (retry_reset_loses_update sample_settings (Some 1000%Q) capped_file "t1" (after_minutes 600)
    (after_minutes 600) (UStarted "t2" "b") capped_file_reachable eq_refl).
  - vm_compute. congruence.
  - intros t Ht. assert (last_attempt_timestamp (load capped_file) "t1" = Some (after_minutes 2)) as E
      by (vm_compute; reflexivity).
    rewrite E in Ht. injection Ht as <-. vm_compute. reflexivity.
Defined.

Lemma busy_skip_keeps_noop_witness :
  nd_should_skip (noop_decision (fst (record_skip (Some 1000%Q) capped_file (after_minutes 3) "goal" "t9"
    "other" "budget_exceeded" None [])) "goal" "t9" "other") = false.
Proof.
  rewrite (busy_skip_keeps_noop (Some 1000%Q) capped_file (after_minutes 3) "goal" "t9" "other"
    "budget_exceeded" None [] "goal" "t9" "other"); [vm_compute; reflexivity | discriminate].
Defined.

Lemma execution_then_noop_witness :
  nd_should_skip (noop_decision (fst (record_execution (Some 1000%Q) None now0 "goal" "t1" "sig" None None))
    "goal" "t1" "sig") = true.
Proof.
  rewrite (execution_then_noop (Some 1000%Q) None now0 "goal" "t1" "sig" None None "sig");
    [reflexivity | discriminate | vm_compute; reflexivity | vm_compute; reflexivity].
Defined.

Definition signal_file : file :=
  fst (record_execution_cost (Some 1000%Q)
    (fst (record_blocked_triage (Some 1000%Q)
      (fst (record_blocked_triage (Some 1000%Q) capped_file (after_minutes 3) "t1" "auth"))
      (after_minutes 4) "t2" "auth")) (after_minutes 5) "t1" "repo" (1 # 4)%Q).

Lemma signal_file_aware : file_aware signal_file.
Proof. repeat constructor. Qed.

Lemma audit_export_complete_witness :
  exists m rows, audit_export signal_file (after_minutes 6) 7 = Ok rows /\
    length rows = length (omap (audit_row m) (List.filter
      (since_b (sub_us (after_minutes 6) (days 7))) (pruned (us_events (load signal_file)) (after_minutes 6)))).
Proof.
  destruct (audit_export_complete signal_file (after_minutes 6) 7 eq_refl signal_file_aware)
    as (m & rows & H & Hp & _).
  - apply Forall_forall. intros e He Hk. exfalso.
    assert (forallb (fun e => negb (has_kind "execution_duration" e)) (us_events (load signal_file)) = true)
      as Hall by (vm_compute; reflexivity).
    rewrite forallb_forall in Hall. apply list_elem_of_In, Hall in He. by rewrite Hk in He.
  - exists m, rows. split; [exact H | by rewrite Hp].
Defined.

Lemma should_escalate_spec_witness :
  exists fire ids, should_escalate signal_file (after_minutes 6) "auth" 2 3600 86400 = Ok (fire, ids).
Proof.
  destruct (should_escalate_spec signal_file (after_minutes 6) "auth" 2 3600 86400 eq_refl
    signal_file_aware) as (fire & ids & H & _).
  exists fire, ids. exact H.
Defined.

Lemma escalation_silences_witness :
  should_escalate (fst (record_escalation (Some 1000%Q) signal_file (after_minutes 6) "auth" ["t1"]))
    (after_minutes 8) "auth" 2 3600 86400 = Ok (false, []).
Proof.
  apply (escalation_silences (Some 1000%Q) signal_file (after_minutes 6) (after_minutes 8) "auth" ["t1"]
    2 3600 86400); try reflexivity; [exact signal_file_aware | vm_compute; congruence..].
Defined.

Lemma consecutive_blocks_spec_witness :
  exists n, consecutive_blocks_for_task signal_file (after_minutes 6) "t1" = Ok n /\ n = 1%Z.
Proof.
  destruct (consecutive_blocks_spec signal_file (after_minutes 6) "t1" eq_refl signal_file_aware)
    as (n & H & _).
  exists n. split; [exact H|].
  assert (consecutive_blocks_for_task signal_file (after_minutes 6) "t1" = Ok 1%Z) as E
    by (vm_compute; reflexivity).
  rewrite E in H. by injection H as <-.
Defined.

Lemma spend_report_adds_up_witness :
  exists r, get_spend_report signal_file (after_minutes 6) 1 = Ok r.
Proof.
  destruct (spend_report_adds_up signal_file (after_minutes 6) 1 eq_refl signal_file_aware)
    as (r & H & _).
  - apply Forall_forall. intros e He Hk.
    assert (forallb (fun e => negb (has_kind "execution_cost" e) || is_ok (jfloat (dget e "estimated_usd")))
      (us_events (load signal_file)) = true) as Hall by (vm_compute; reflexivity).
    rewrite forallb_forall in Hall. apply list_elem_of_In, Hall in He. by rewrite Hk in He.
  - exists r. exact H.
Defined.
