(* ===== verification/InFlight.v ===== *)
(** * Reclaiming leaked in-flight slots

    in_flight_reconcile.py: the sweep that closes the runs whose process died
    between the started and the finished mark.  The board client answers from
    the tasks asked about so far, the disk from the number of writes so far;
    the effect of a sweep on the ledger's concurrency counts is the point of
    the file. *)
From S2P Require Import Prelude PyStr PyData UsageStore UsageBudget.

Definition TERMINAL_STATES : list string := ["done"; "cancelled"; "cancelled by operator"; "closed"].
Definition ORPHAN_RULE : string := "ORPHANED_IN_FLIGHT_CLEAR".
Definition DEFAULT_WINDOW_HOURS : Z := 24.

Definition state_name (issue : dict) : string :=
  match dget issue "state" with
  | JObj l => strip (jtext (default (JStr "") ((list_to_map l : dict) !! "name")))
  | v => strip (if jtruthy v then jtext v else "")
  end.

Definition is_terminal (state : string) : bool := str_in (lower state) TERMINAL_STATES.

Record OrphanedSlot := {
  os_task_id : string;
  os_backend : string;
  os_started_at : jval;
  os_reason : string }.

(** What [client.fetch_issue] does: return an issue, raise an
    [HTTPStatusError] with a status code, or raise anything else. *)
Inductive fetch_result :=
  | Fetched (issue : dict)
  | FetchStatus (status_code : Z)
  | FetchFailed (e : exn).

Abbreviation slots := (list ((string * string) * dict)).

(** One event of [_open_in_flight]. *)
Definition open_step (cutoff : datetime) (in_flight : slots) (e : dict) : res slots :=
  match event_ts e with
  | None => Ok in_flight
  | Some ts =>
      old <-? dt_lt (assume_utc ts) cutoff ;;
      if old : bool then Ok in_flight
      else match run_key e with
           | None => Ok in_flight
           | Some key =>
               Ok (if has_kind "execution_started" e then od_set key e in_flight
                   else if has_kind "execution_finished" e then od_pop key in_flight
                   else in_flight)
           end
  end.

Definition open_in_flight (events : list dict) (cutoff : datetime) : res slots :=
  foldM (open_step cutoff) [] events.

(** Why a slot is orphaned, from the client's answer; [None]: leave it. *)
Definition orphan_reason (task_id : string) (answer : fetch_result) : option string :=
  match answer with
  | Fetched issue =>
      let task_state := state_name issue in
      if negb (is_terminal task_state) then None
      else Some ("task " +:+ task_id +:+ " is in terminal state " +:+ repr task_state)
  | FetchStatus status_code =>
      if (status_code =? 404)%Z
      then Some ("task " +:+ task_id +:+ " not found in Plane (404 — deleted or never created)")
      else None
  | FetchFailed _ => None
  end.

Section Sweep.
Context (fetch_issue : list string -> string -> fetch_result) (disk : nat -> option Q) (now : datetime).

(** The loop over the open slots; [asked]: the tasks already asked about. *)
Fixpoint orphans_among (asked : list string) (open : slots) : list OrphanedSlot :=
  match open with
  | [] => []
  | ((backend, task_id), start_event) :: rest =>
      let orphans := orphans_among (asked ++ [task_id]) rest in
      match orphan_reason task_id (fetch_issue asked task_id) with
      | None => orphans
      | Some reason =>
          {| os_task_id := task_id; os_backend := backend;
             os_started_at := dget start_event "timestamp"; os_reason := reason |} :: orphans
      end
  end.

Definition find_orphaned_in_flight (f : file) (window_hours : Z) : res (list OrphanedSlot) :=
  in_flight <-? open_in_flight (us_events (load f)) (sub_us now (hours window_hours)) ;;
  Ok (orphans_among [] in_flight).

Inductive clear_action := Applied | WouldApply | ClearError (text : string).

Record clear_entry := {
  ce_task_id : string;
  ce_backend : string;
  ce_started_at : jval;
  ce_rule : string;
  ce_reason : string;
  ce_action : clear_action }.

Definition entry_of (slot : OrphanedSlot) (a : clear_action) : clear_entry :=
  {| ce_task_id := os_task_id slot; ce_backend := os_backend slot;
     ce_started_at := os_started_at slot; ce_rule := ORPHAN_RULE;
     ce_reason := os_reason slot; ce_action := a |}.

(** The clearing loop; [writes]: how often the ledger was written so far. *)
Fixpoint clear_slots (apply : bool) (writes : nat) (f : file) (orphans : list OrphanedSlot)
    : file * list clear_entry :=
  match orphans with
  | [] => (f, [])
  | slot :: rest =>
      if apply then
        let '(f, r) := record_execution_finished (disk writes) f now (os_task_id slot)
                         (os_backend slot) in
        let entry := entry_of slot (match r with
                                    | Ok _ => Applied
                                    | Raise e => ClearError (exn_text e)
                                    end) in
        let '(f, cleared) := clear_slots apply (S writes) f rest in
        (f, entry :: cleared)
      else
        let '(f, cleared) := clear_slots apply writes f rest in
        (f, entry_of slot WouldApply :: cleared)
  end.

Definition clear_orphaned_in_flight (f : file) (apply : bool) (window_hours : Z)
    : file * res (list clear_entry) :=
  match find_orphaned_in_flight f window_hours with
  | Raise e => (f, Raise e)
  | Ok orphans => let '(f, cleared) := clear_slots apply 0 f orphans in (f, Ok cleared)
  end.

(** The exclusive lock on the usage file, shared by the role processes. *)
Inductive lock_result := LockAcquired | LockTimedOut | LockFailed (e : exn).

Definition reconcile_in_flight_on_startup (lock : lock_result) (f : file)
    : file * list clear_entry :=
  match lock with
  | LockAcquired =>
      match clear_orphaned_in_flight f true DEFAULT_WINDOW_HOURS with
      | (f, Ok cleared) => (f, cleared)
      | (f, Raise _) => (f, [])
      end
  | LockTimedOut | LockFailed _ => (f, [])
  end.
End Sweep.

(** ** What is open *)

(** The ledger's own count of runs in flight, over all backends. *)
Definition flight (f : file) (now : datetime) : gset (string * string) :=
  in_flight_runs (fun _ => true) (pruned (us_events (load f)) now) now.

Lemma open_step_aware cutoff d e :
  dt_aware cutoff = true -> event_aware e ->
  open_step cutoff d e = Ok (if since_b cutoff e then
    match run_key e with
    | Some k => if has_kind "execution_started" e then od_set k e d
                else if has_kind "execution_finished" e then od_pop k d else d
    | None => d
    end else d).
Proof.
  unfold open_step, event_aware, since_b. intros Hc He. destruct (event_ts e) as [ts|]; [|done].
  unfold assume_utc. rewrite He, dt_lt_aware by done. simpl. rewrite Z.ltb_antisym.
  destruct (dt_us cutoff <=? dt_us ts)%Z; simpl; [|done]. by destruct (run_key e).
Qed.

(** The keys of the dict are the runs the ledger's readers would find in the
    same events. *)
Lemma open_fold_keys events cutoff d runs :
  dt_aware cutoff = true -> Forall event_aware events ->
  (forall k, k ∈ map fst d <-> k ∈ runs) ->
  exists d', foldM (open_step cutoff) d events = Ok d' /\
    forall k, k ∈ map fst d' <-> k ∈ fold_left flight_step (List.filter (since_b cutoff) events) runs.
Proof.
  intros Hc. revert d runs. induction events as [|e events IH]; intros d runs Ha Hk.
  { exists d. done. }
  apply Forall_cons in Ha as [He Ha]. simpl. rewrite open_step_aware by done. simpl.
  destruct (since_b cutoff e); simpl; [|by apply IH]. apply IH; [done|]. intros k.
  unfold flight_step. destruct (run_key e) as [k'|]; [|done].
  destruct (has_kind "execution_started" e).
  - rewrite elem_of_od_set, Hk. set_solver.
  - destruct (has_kind "execution_finished" e); [|done]. rewrite elem_of_od_pop, Hk. set_solver.
Qed.

Lemma open_in_flight_keys events now h :
  dt_aware now = true -> Forall event_aware events ->
  exists d, open_in_flight events (sub_us now (hours h)) = Ok d /\
    forall k, k ∈ map fst d <->
      k ∈ fold_left flight_step (List.filter (since_b (sub_us now (hours h))) events) ∅.
Proof.
  intros Hn Ha. apply open_fold_keys; [done | done|]. intros k. simpl. set_solver.
Qed.

(** No run is open twice. *)
Lemma od_set_distinct {V} k (v : V) (d : list ((string * string) * V)) :
  NoDup (map fst d) -> NoDup (map fst (od_set k v d)).
Proof.
  induction d as [|[k' v'] d IH]; simpl; [intros _; apply NoDup_singleton|].
  intros [Hk' Hd]%NoDup_cons. case_bool_decide as Hk; simpl; apply NoDup_cons; [by subst|].
  split; [|by apply IH]. rewrite elem_of_od_set. naive_solver.
Qed.
Lemma od_pop_distinct {V} k (d : list ((string * string) * V)) : NoDup (map fst d) -> NoDup (map fst (od_pop k d)).
Proof.
  unfold od_pop. induction d as [|[k' v'] d IH]; simpl; [done|]. intros [Hk' Hd]%NoDup_cons.
  case_bool_decide as Hk; simpl; [by apply IH|]. apply NoDup_cons. split; [|by apply IH].
  pose proof (elem_of_od_pop k d k') as H. unfold od_pop in H. rewrite H. naive_solver.
Qed.

Lemma open_fold_distinct events cutoff d d' :
  NoDup (map fst d) -> foldM (open_step cutoff) d events = Ok d' -> NoDup (map fst d').
Proof.
  revert d. induction events as [|e events IH]; intros d Hd; cbn [foldM]; [by intros [= <-]|].
  destruct (open_step cutoff d e) as [d1|] eqn:E; cbn [mbind res_bind]; [|done]. apply IH. revert E. unfold open_step.
  destruct (event_ts e); [|by intros [= <-]]. destruct (dt_lt _ _) as [old|]; cbn [mbind res_bind]; [|done].
  destruct old; [by intros [= <-]|]. destruct (run_key e); [|by intros [= <-]].
  destruct (has_kind "execution_started" e); [intros [= <-]; by apply od_set_distinct|].
  destruct (has_kind "execution_finished" e); intros [= <-]; [by apply od_pop_distinct|done].
Qed.

(** In a ledger below its cap the open runs are the ones in flight. *)
Lemma open_is_flight f now k : length (us_events (load f)) <= MAX_EVENTS ->
  k ∈ fold_left flight_step (List.filter (since_b (sub_us now (hours 24))) (us_events (load f))) ∅ <-> k ∈ flight f now.
Proof.
  intros Hlen. unfold flight, in_flight_runs. rewrite (filter_all (fun _ => true)) by by apply Forall_true.
  unfold pruned. rewrite last_n_all.
  2: { pose proof (filter_length_le (since_b (sub_us now (days 7))) (us_events (load f))). lia. }
  rewrite filter_filter_bool. f_equiv. f_equal. apply List.filter_ext.
  intros e. unfold since_b. destruct (event_ts e) as [t|]; [|done]. unfold sub_us. cbn.
  destruct (Z.leb_spec (dt_us now - hours 24) (dt_us t)); [|by rewrite ?andb_false_r, ?andb_false_l].
  destruct (Z.leb_spec (dt_us now - days 7) (dt_us t)); [done|]. exfalso.
  assert (hours 24 <= days 7)%Z by (vm_compute; done). lia.
Qed.

(** ** What a sweep does to the ledger *)

(** One recorded finish closes its run and disturbs no other. *)
Lemma finish_closes free_mb f now task_id backend :
  check_disk_space free_mb = Ok tt -> dt_aware now = true -> file_aware f ->
  length (us_events (load f)) < MAX_EVENTS ->
  let f' := fst (record_execution_finished free_mb f now task_id backend) in
  snd (record_execution_finished free_mb f now task_id backend) = Ok tt /\ file_aware f' /\
  length (us_events (load f')) <= S (length (us_events (load f))) /\
  flight f' now = flight f now ∖ {[(backend, task_id)]}.
Proof.
  intros Hd Hn Hf Hlen. unfold record_execution_finished, record_event, exclusive, append_event.
  fold (run_event "execution_finished" now task_id backend).
  set (e := run_event "execution_finished" now task_id backend).
  assert (He : event_aware e) by by apply event_aware_event.
  assert (Ha : Forall event_aware (us_events (load f) ++ [e])) by (apply Forall_app; auto).
  rewrite save_ok by done. simpl. split; [done|]. split; [by apply (pruned_aware _ now) in Ha|].
  assert (Hs : forall d, (0 <= d)%Z -> since_b (sub_us now d) e = true)
    by (intros d; apply since_b_event).
  pose proof (filter_length_le (since_b (sub_us now (days 7))) (us_events (load f))) as Hfl.
  unfold MAX_EVENTS in *.
  assert (Hp : pruned (us_events (load f) ++ [e]) now = pruned (us_events (load f)) now ++ [e]).
  { rewrite pruned_snoc by by apply Hs. unfold pruned. rewrite !last_n_all by (unfold MAX_EVENTS; lia).
    done. }
  split.
  { rewrite Hp, length_app. simpl. unfold pruned. rewrite last_n_all by (unfold MAX_EVENTS; lia). lia. }
  unfold flight, in_flight_runs. simpl. rewrite pruned_idem, Hp, !List.filter_app. simpl.
  rewrite Hs by done. rewrite fold_left_app. simpl. apply set_eq. intros k.
  rewrite elem_of_flight_step, elem_of_difference, elem_of_singleton.
  assert (Hfin : finishes k e <-> k = (backend, task_id)).
  { unfold finishes, e. rewrite run_event_key. unfold run_event. rewrite has_kind_event. simpl.
    naive_solver. }
  assert (~ starts k e).
  { unfold starts, e, run_event. rewrite has_kind_event. by intros [_ ?]. }
  rewrite Hfin. naive_solver.
Qed.

Definition slot_key (s : OrphanedSlot) : string * string := (os_backend s, os_task_id s).

(** Clearing a list of slots closes exactly their runs. *)
Lemma clear_slots_closes disk now writes f orphans :
  (forall i, check_disk_space (disk i) = Ok tt) -> dt_aware now = true -> file_aware f ->
  length (us_events (load f)) + length orphans <= MAX_EVENTS ->
  let r := clear_slots disk now true writes f orphans in
  file_aware (fst r) /\ snd r = map (fun s => entry_of s Applied) orphans /\
  forall k, k ∈ flight (fst r) now <-> k ∈ flight f now /\ k ∉ map slot_key orphans.
Proof.
  intros Hd Hn. revert writes f. induction orphans as [|s orphans IH]; intros writes f Hf Hlen.
  { simpl. split; [done|]. split; [done|]. set_solver. }
  simpl in *.
  destruct (finish_closes (disk writes) f now (os_task_id s) (os_backend s)) as (Hr & Hf' & Hl' & Hfl);
    [done | done | done | lia|].
  destruct (record_execution_finished _ f now _ _) as [f' r] eqn:E. simpl in *. subst r.
  destruct (IH (S writes) f' Hf') as (Ha & Hs & Hk); [lia|].
  destruct (clear_slots _ now true (S writes) f' orphans) as [f2 cl] eqn:Ec. simpl in *.
  split; [done|]. split; [by rewrite Hs|]. intros k. rewrite Hk, Hfl, elem_of_cons.
  unfold slot_key at 2. set_solver.
Qed.

(** ** The sweep *)

(** With a client whose answers do not change during the sweep, the orphans
    are the open slots whose task it reports gone or finished. *)
Lemma orphans_among_keys fetch_issue answer asked open k :
  (forall asked t, fetch_issue asked t = answer t) ->
  k ∈ map slot_key (orphans_among fetch_issue asked open) <->
  k ∈ map fst open /\ orphan_reason (snd k) (answer (snd k)) <> None.
Proof.
  intros Hans. revert asked. induction open as [|[[b t] e] open IH]; intros asked; simpl.
  { split; [intros Hin|intros [Hin _]]; by apply not_elem_of_nil in Hin. }
  rewrite Hans. destruct (orphan_reason t (answer t)) eqn:E; simpl; rewrite ?elem_of_cons, IH.
  - unfold slot_key at 1. simpl. split.
    + intros [-> | [H1 H2]]; [split; [by left | simpl; by rewrite E] | split; [by right | done]].
    + intros [[-> | H1] H2]; [by left | by right].
  - split; [intros [H1 H2]; split; [by right | done]|].
    intros [[-> | H1] H2]; [simpl in H2; by rewrite E in H2 | done].
Qed.

Lemma orphans_among_length fetch_issue asked open :
  length (orphans_among fetch_issue asked open) <= length open.
Proof.
  revert asked. induction open as [|[[b t] e] open IH]; intros asked; simpl; [lia|].
  specialize (IH (asked ++ [t])). destruct (orphan_reason _ _); simpl; lia.
Qed.

(** Each orphan is one of the open runs, once, with the reason of its answer. *)
Lemma orphans_among_distinct fetch_issue asked open :
  NoDup (map fst open) -> NoDup (map slot_key (orphans_among fetch_issue asked open)).
Proof.
  assert (Hsub : forall asked (l : slots), map slot_key (orphans_among fetch_issue asked l) ⊆ map fst l).
  { clear. intros asked l. revert asked. induction l as [|[[b t] e] l IH]; intros asked; simpl; [done|].
    specialize (IH (asked ++ [t])). destruct (orphan_reason _ _); simpl; set_solver. }
  revert asked. induction open as [|[[b t] e] open IH]; intros asked; simpl; [intros _; constructor|].
  intros [Hk Hd]%NoDup_cons. destruct (orphan_reason _ _); simpl; [|by apply IH].
  apply NoDup_cons. split; [|by apply IH]. unfold slot_key at 1. simpl. intros Hin. by apply Hk, (Hsub (asked ++ [t])).
Qed.

Lemma orphans_among_reasons fetch_issue answer asked open :
  (forall asked t, fetch_issue asked t = answer t) ->
  Forall (fun s => orphan_reason (os_task_id s) (answer (os_task_id s)) = Some (os_reason s))
    (orphans_among fetch_issue asked open).
Proof.
  intros Hans. revert asked. induction open as [|[[b t] e] open IH]; intros asked; simpl; [constructor|].
  rewrite Hans. destruct (orphan_reason t (answer t)) eqn:E; [|apply IH]. constructor; [exact E|apply IH].
Qed.

Definition entry_key (x : clear_entry) : string * string := (ce_backend x, ce_task_id x).

(** C26: the sweep at watcher startup reclaims exactly the leaked slots.  With the
    lock, a board whose answers are stable, a disk with room and a ledger with
    room for the marks, a run counts as in flight afterwards exactly when it did
    before and the board still knows its task as unfinished; and the sweep
    reports each run it closed once, as applied and with the reason the board's
    answer gives, and nothing else. *)
Theorem startup_sweep_reclaims fetch_issue answer disk now f :
  (forall asked t, fetch_issue asked t = answer t) ->
  (forall i, check_disk_space (disk i) = Ok tt) -> dt_aware now = true -> file_aware f ->
  let r := reconcile_in_flight_on_startup fetch_issue disk now LockAcquired f in
  length (us_events (load f)) + length (snd r) <= MAX_EVENTS ->
  file_aware (fst r) /\
  (forall k, k ∈ flight (fst r) now <-> k ∈ flight f now /\ orphan_reason (snd k) (answer (snd k)) = None) /\
  NoDup (map entry_key (snd r)) /\
  (forall k, k ∈ map entry_key (snd r) <-> k ∈ flight f now /\ k ∉ flight (fst r) now) /\
  Forall (fun x => ce_action x = Applied /\ ce_rule x = ORPHAN_RULE /\
                   orphan_reason (ce_task_id x) (answer (ce_task_id x)) = Some (ce_reason x)) (snd r).
Proof.
  intros Hans Hdisk Hn Hf r. unfold r, reconcile_in_flight_on_startup, clear_orphaned_in_flight,
    find_orphaned_in_flight, DEFAULT_WINDOW_HOURS.
  destruct (open_in_flight_keys (us_events (load f)) now 24 Hn Hf) as (d & Ed & Hd). rewrite Ed. simpl.
  apply open_fold_distinct in Ed; [|constructor].
  set (orphans := orphans_among fetch_issue [] d).
  pose proof (clear_slots_closes disk now 0 f orphans Hdisk Hn Hf) as Hc.
  assert (Hl : length (snd (clear_slots disk now true 0 f orphans)) = length orphans).
  { clear. generalize 0 as i, f as g. induction orphans as [|s l IH]; intros i g; [done|]. simpl.
    destruct (record_execution_finished _ g now _ _) as [g' o]. specialize (IH (S i) g').
    by destruct (clear_slots _ now true (S i) g' l) as [g2 c]; simpl in *; rewrite IH. }
  destruct (clear_slots disk now true 0 f orphans) as [f' cleared]. simpl in *. intros Hroom.
  destruct Hc as (Ha & -> & Hk); [lia|].
  assert (Hopen : forall k, k ∈ map fst d <-> k ∈ flight f now) by (intros k; rewrite Hd; apply open_is_flight; lia).
  assert (Ho : forall k, k ∈ map slot_key orphans <-> k ∈ flight f now /\ orphan_reason (snd k) (answer (snd k)) <> None).
  { intros k. rewrite <-Hopen. by apply orphans_among_keys. }
  rewrite map_map. change (map (fun s => entry_key (entry_of s Applied)) orphans) with (map slot_key orphans).
  assert (Hflight : forall k, k ∈ flight f' now <-> k ∈ flight f now /\ orphan_reason (snd k) (answer (snd k)) = None).
  { intros k. rewrite Hk, Ho. destruct (orphan_reason (snd k) (answer (snd k))); naive_solver. }
  split; [done|]. split; [exact Hflight|]. split; [by apply orphans_among_distinct|]. split.
  - intros k. rewrite Ho, Hflight. destruct (orphan_reason (snd k) (answer (snd k))); naive_solver.
  - apply Forall_map. eapply Forall_impl; [by apply orphans_among_reasons|]. by intros s Hs.
Qed.

(** ** A sweep on a concrete ledger *)

(** Two runs were started: the board no longer knows the first task and is
    still working on the second. *)
Definition leaked_file (t : datetime) : file :=
  Some (set_events empty_store
    [run_event "execution_started" t "gone" "codex_cli";
     run_event "execution_started" t "busy" "codex_cli"]).

Definition sample_board (t : string) : fetch_result :=
  if String.eqb t "gone" then FetchStatus 404
  else Fetched {["state" := JObj [("name", JStr " In Progress ")]]}.

Lemma startup_sweep_reclaims_witness :
  let now := mk_datetime (days 20000) true in
  let r := reconcile_in_flight_on_startup (fun _ => sample_board) (fun _ => None) now LockAcquired
             (leaked_file (sub_us now (hours 2))) in
  map ce_task_id (snd r) = ["gone"] /\ map ce_action (snd r) = [Applied] /\
  forall k, k ∈ flight (fst r) now <->
    k ∈ flight (leaked_file (sub_us now (hours 2))) now /\
    orphan_reason (snd k) (sample_board (snd k)) = None.
Proof.
  intros now r. split; [vm_compute; reflexivity|]. split; [vm_compute; reflexivity|].
  refine (proj1 (proj2 (startup_sweep_reclaims (fun _ => sample_board) sample_board (fun _ => None) now
    (leaked_file (sub_us now (hours 2))) _ _ _ _ _))).
  - done.
  - done.
  - done.
  - repeat constructor.
  - unfold MAX_EVENTS. replace (length (snd _)) with 1 by (vm_compute; reflexivity). simpl. lia.
Defined.
