(* ===== verification/QueueHealing.v ===== *)
(** * Queue self-healing

    queue_healing/models.py and engine.py, and the sweep over a board that
    applies them, entrypoints/maintenance/triage_scan.py.  Issues are the JSON
    objects of the board's API, whose [labels] are a list; the board client
    answers each write from the writes so far. *)
From Stdlib Require Import Ascii.
From S2P Require Import Prelude PyStr PyData.

(** ** models.py *)

Inductive QueueTransition :=
  | QT_NONE | QT_BLOCKED_TO_BACKLOG | QT_BLOCKED_TO_READY_FOR_AI | QT_STALE_LOCK_CLEANUP | QT_ESCALATE.

#[export] Instance QueueTransition_eq_dec : EqDecision QueueTransition.
Proof. solve_decision. Defined.

Definition QueueTransition_value (t : QueueTransition) : string :=
  match t with
  | QT_NONE => "none"
  | QT_BLOCKED_TO_BACKLOG => "blocked_to_backlog"
  | QT_BLOCKED_TO_READY_FOR_AI => "blocked_to_ready_for_ai"
  | QT_STALE_LOCK_CLEANUP => "stale_lock_cleanup"
  | QT_ESCALATE => "escalate"
  end.

Record QueueHealingTask := {
  qt_task_id : string;
  qt_title : string;
  qt_state : string;
  qt_duplicate_key : option string;
  qt_duplicate_exists_in_blocked : bool;
  qt_retry_safe : bool;
  qt_blocked_reason : option string;
  qt_blocked_by_backend : option string;
  qt_backend_dependency : option string;
  qt_retry_lineage_id : option string;
  qt_retry_count : Z;
  qt_recovery_attempt_count : Z;
  qt_updated_at : option datetime;
  qt_labels : list string }.

Record QueueHealingDecision := {
  qd_task_id : string;
  qd_transition : QueueTransition;
  qd_reason : string;
  qd_retry_lineage_id : option string;
  qd_safe : bool;
  qd_escalate : bool }.

(** ** engine.py *)

Record QueueHealingEngine := {
  qe_stale_blocked_seconds : Z;
  qe_max_retry_count : Z;
  qe_max_recovery_attempts : Z }.

Definition default_healing_engine : QueueHealingEngine :=
  {| qe_stale_blocked_seconds := 3600; qe_max_retry_count := 2; qe_max_recovery_attempts := 5 |}.

Definition is_stale (eng : QueueHealingEngine) (task : QueueHealingTask) (now : datetime) : res bool :=
  match qt_updated_at task with
  | None => Ok false
  | Some updated =>
      age <-? dt_diff now (assume_utc updated) ;;
      Ok (seconds (qe_stale_blocked_seconds eng) <=? age)%Z
  end.

Definition decide_with (task : QueueHealingTask) (t : QueueTransition) (reason : string)
    (safe escalate : bool) : QueueHealingDecision :=
  {| qd_task_id := qt_task_id task; qd_transition := t; qd_reason := reason;
     qd_retry_lineage_id := qt_retry_lineage_id task; qd_safe := safe; qd_escalate := escalate |}.

Definition engine_decide (eng : QueueHealingEngine) (task : QueueHealingTask)
    (no_consumer_can_execute : bool) (now : datetime) : res QueueHealingDecision :=
  if negb (String.eqb (lower (strip (qt_state task))) "blocked") then
    Ok {| qd_task_id := qt_task_id task; qd_transition := QT_NONE; qd_reason := "task is not blocked";
          qd_retry_lineage_id := None; qd_safe := false; qd_escalate := false |}
  else if (qe_max_recovery_attempts eng <=? qt_recovery_attempt_count task)%Z then
    Ok (decide_with task QT_ESCALATE "recovery attempt budget exhausted" false true)
  else if (qe_max_retry_count eng <=? qt_retry_count task)%Z then
    Ok (decide_with task QT_ESCALATE "retry replay budget exhausted" false true)
  else if qt_duplicate_exists_in_blocked task && no_consumer_can_execute && qt_retry_safe task then
    Ok (decide_with task QT_BLOCKED_TO_READY_FOR_AI "duplicate suppression deadlock is retry-safe"
          true false)
  else
    stale <-? is_stale eng task now ;;
    if stale && qt_retry_safe task then
      Ok (decide_with task QT_BLOCKED_TO_BACKLOG "stale blocked task is retry-safe" true false)
    else Ok (decide_with task QT_NONE "no safe queue-healing rule matched" false false).

(** ** triage_scan.py: reading the board *)

Definition labels_field (issue : dict) : list jval :=
  match dget issue "labels" with JList l => l | _ => [] end.

Definition labels_of (issue : dict) : list string :=
  omap (fun raw =>
    let name := match raw with JObj l => dget (list_to_map l) "name" | v => v end in
    if jtruthy name then Some (strip (jtext name)) else None) (labels_field issue).

(** The rest of the first label that starts with the first prefix any label
    starts with. *)
Fixpoint label_value (labels : list string) (prefixes : list string) : option string :=
  match prefixes with
  | [] => None
  | prefix :: prefixes' =>
      match find_first (fun label => startswith (lower label) (lower prefix)) labels with
      | Some original => Some (strip (str_drop (String.length prefix) original))
      | None => label_value labels prefixes'
      end
  end.

Definition issue_state (issue : dict) : string :=
  match dget issue "state" with
  | JObj l => strip (jtext (default (JStr "") ((list_to_map l : dict) !! "name")))
  | v => strip (if jtruthy v then jtext v else "")
  end.

Definition parse_updated_at (issue : dict) : option datetime :=
  let raw := if jtruthy (dget issue "updated_at") then dget issue "updated_at"
             else dget issue "created_at" in
  if jtruthy raw then assume_utc <$> fromisoformat_str raw else None.

Definition parse_int (value : option string) : Z :=
  match value with None => 0%Z | Some v => default 0%Z (py_int v) end.

Definition has_label (names : list string) (labels : list string) : bool :=
  existsb (fun label => str_in (lower label) names) labels.

Definition duplicate_key (labels : list string) : option string :=
  label_value labels ["duplicate:"; "dedup:"].

Definition queue_task_from_issue (issue : dict) (duplicate_blocked_keys : gset string)
    : res (QueueHealingTask * bool) :=
  let labels := labels_of issue in
  id <-? ditem issue "id" ;;
  Ok ({| qt_task_id := jtext id;
         qt_title := if jtruthy (dget issue "name") then jtext (dget issue "name") else "";
         qt_state := issue_state issue;
         qt_duplicate_key := duplicate_key labels;
         qt_duplicate_exists_in_blocked :=
           match duplicate_key labels with
           | Some k => bool_decide (k ∈ duplicate_blocked_keys)
           | None => false
           end;
         qt_retry_safe := has_label ["retry_safe"; "retry-safe"] labels;
         qt_blocked_reason := label_value labels ["blocked-reason:"];
         qt_blocked_by_backend := label_value labels ["blocked-by-backend:"];
         qt_backend_dependency := label_value labels ["backend:"];
         qt_retry_lineage_id := label_value labels ["retry-lineage:"; "lineage:"];
         qt_retry_count := parse_int (label_value labels ["retry-count:"]);
         qt_recovery_attempt_count := parse_int (label_value labels ["recovery-attempts:"]);
         qt_updated_at := parse_updated_at issue;
         qt_labels := labels |},
      has_label ["queue_deadlock"; "queue-deadlock"; "no_consumer"; "no-consumer"] labels).

Definition is_blocked (issue : dict) : bool := String.eqb (lower (issue_state issue)) "blocked".

(** [counts[key] = counts.get(key, 0) + 1] over the blocked issues. *)
Definition duplicate_counts (items : list dict) : gmap string Z :=
  fold_left (fun counts issue =>
    match duplicate_key (labels_of issue) with
    | Some key => if str_truthy key then <[key := (default 0 (counts !! key) + 1)%Z]> counts else counts
    | None => counts
    end) (List.filter is_blocked items) ∅.

Definition duplicate_blocked_keys (items : list dict) : gset string :=
  dom (filter (fun kv : string * Z => (1 < snd kv)%Z) (duplicate_counts items)).

Definition executor_exit_code (labels : list string) : option Z :=
  label_value labels ["executor-exit-code:"] ≫= py_int.

(** The decision for one blocked issue, kept when there is something to do. *)
Definition heal_step (keys : gset string) (now : datetime)
    (decisions : list (QueueHealingTask * QueueHealingDecision)) (issue : dict)
    : res (list (QueueHealingTask * QueueHealingDecision)) :=
  if negb (is_blocked issue) then Ok decisions
  else
    tc <-? queue_task_from_issue issue keys ;;
    d <-? engine_decide default_healing_engine (fst tc) (snd tc) now ;;
    Ok (if negb (bool_decide (qd_transition d = QT_NONE)) || qd_escalate d
        then decisions ++ [(fst tc, d)] else decisions).

Definition queue_healing_actions (items : list dict) (now : datetime)
    : res (list (QueueHealingTask * QueueHealingDecision)) :=
  foldM (heal_step (duplicate_blocked_keys items) now) [] items.

(** ** triage_scan.py: applying the decisions *)

Inductive board_call :=
  | TransitionIssue (task_id state : string)
  | CommentIssue (task_id text : string).

Inductive heal_action :=
  | HA_NONE | HA_ESCALATE | HA_ESCALATION_COMMENTED | HA_TRANSITIONED | HA_WOULD_TRANSITION
  | HA_ERROR (text : string).

Record heal_entry := {
  he_task_id : string;
  he_transition : string;
  he_reason : string;
  he_blocked_reason : option string;
  he_blocked_by_backend : option string;
  he_backend_dependency : option string;
  he_executor_exit_code : option Z;
  he_executor_signal : option string;
  he_retry_lineage_id : option string;
  he_safe : bool;
  he_escalate : bool;
  he_action : heal_action }.

Definition heal_entry_of (task : QueueHealingTask) (d : QueueHealingDecision) (a : heal_action)
    : heal_entry :=
  {| he_task_id := qd_task_id d; he_transition := QueueTransition_value (qd_transition d);
     he_reason := qd_reason d; he_blocked_reason := qt_blocked_reason task;
     he_blocked_by_backend := qt_blocked_by_backend task;
     he_backend_dependency := qt_backend_dependency task;
     he_executor_exit_code := executor_exit_code (qt_labels task);
     he_executor_signal :=
       match label_value (qt_labels task) ["executor-signal:"] with
       | Some s => if str_truthy s then Some s else None
       | None => None
       end;
     he_retry_lineage_id := qd_retry_lineage_id d; he_safe := qd_safe d;
     he_escalate := qd_escalate d; he_action := a |}.

Section Apply.
Context (client : list board_call -> board_call -> res unit).

(** Issue calls in order until one raises. *)
Fixpoint issue_calls (issued : list board_call) (calls : list board_call)
    : list board_call * res unit :=
  match calls with
  | [] => (issued, Ok tt)
  | c :: calls' =>
      match client issued c with
      | Ok _ => issue_calls (issued ++ [c]) calls'
      | Raise e => (issued ++ [c], Raise e)
      end
  end.

Definition lineage_text (d : QueueHealingDecision) : string :=
  str_or (qd_retry_lineage_id d) "unknown".

(** What applying a decision asks of the board. *)
Definition escalation_calls (d : QueueHealingDecision) : list board_call :=
  [CommentIssue (qd_task_id d) ("Queue healing escalation: " +:+ qd_reason d +:+
     " (lineage=" +:+ lineage_text d +:+ ").")].

Definition target_state (d : QueueHealingDecision) : string :=
  if bool_decide (qd_transition d = QT_BLOCKED_TO_READY_FOR_AI) then "Ready for AI" else "Backlog".

Definition transition_calls (d : QueueHealingDecision) : list board_call :=
  [TransitionIssue (qd_task_id d) (target_state d);
   CommentIssue (qd_task_id d) ("Queue healing applied: " +:+
     QueueTransition_value (qd_transition d) +:+ " because " +:+ qd_reason d +:+
     " (lineage=" +:+ lineage_text d +:+ ").")].

Definition attempted (r : list board_call * res unit) (ok : heal_action)
    : list board_call * heal_action :=
  (fst r, match snd r with Ok _ => ok | Raise e => HA_ERROR (exn_text e) end).

Definition apply_decision (apply : bool) (issued : list board_call) (d : QueueHealingDecision)
    : list board_call * heal_action :=
  if bool_decide (qd_transition d = QT_NONE) then (issued, HA_NONE)
  else if qd_escalate d then
    if apply then attempted (issue_calls issued (escalation_calls d)) HA_ESCALATION_COMMENTED
    else (issued, HA_ESCALATE)
  else if apply && qd_safe d then attempted (issue_calls issued (transition_calls d)) HA_TRANSITIONED
  else (issued, HA_WOULD_TRANSITION).

Fixpoint apply_queue_healing_actions (apply : bool) (issued : list board_call)
    (decisions : list (QueueHealingTask * QueueHealingDecision))
    : list board_call * list heal_entry :=
  match decisions with
  | [] => (issued, [])
  | (task, d) :: rest =>
      let '(issued, a) := apply_decision apply issued d in
      let '(issued, entries) := apply_queue_healing_actions apply issued rest in
      (issued, heal_entry_of task d a :: entries)
  end.

(** One sweep: the writes it asks of the board and its report. *)
Definition healing_sweep (items : list dict) (now : datetime) (apply : bool)
    : res (list board_call * list heal_entry) :=
  decisions <-? queue_healing_actions items now ;;
  Ok (apply_queue_healing_actions apply [] decisions).
End Apply.

(** ** The rules *)

Definition task_blocked (task : QueueHealingTask) : Prop :=
  String.eqb (lower (strip (qt_state task))) "blocked" = true.
Definition within_budgets (eng : QueueHealingEngine) (task : QueueHealingTask) : Prop :=
  (qt_recovery_attempt_count task < qe_max_recovery_attempts eng)%Z /\
  (qt_retry_count task < qe_max_retry_count eng)%Z.
Definition deadlocked (task : QueueHealingTask) (no_consumer : bool) : Prop :=
  qt_duplicate_exists_in_blocked task = true /\ no_consumer = true.
Definition stale_at (eng : QueueHealingEngine) (task : QueueHealingTask) (now : datetime) : Prop :=
  exists t, qt_updated_at task = Some t /\
    (seconds (qe_stale_blocked_seconds eng) <= dt_us now - dt_us t)%Z.

Lemma is_stale_ok eng task now :
  dt_aware now = true -> exists b, is_stale eng task now = Ok b /\ (b = true <-> stale_at eng task now).
Proof.
  intros Hn. unfold is_stale, stale_at. destruct (qt_updated_at task) as [t|].
  - rewrite dt_diff_aware by (unfold assume_utc; by destruct (dt_aware t) eqn:E). simpl.
    eexists. split; [reflexivity|]. rewrite Z.leb_le. unfold assume_utc.
    destruct (dt_aware t); simpl; split; [eauto | by intros (? & [= <-] & ?) | eauto
      | by intros (? & [= <-] & ?)].
  - exists false. split; [done|]. split; [done | by intros (? & ? & _)].
Qed.

(** the healer's decision, rule by rule: a blocked task whose recovery or
    retry budget is spent is escalated; otherwise a retry-safe one goes to
    [Ready for AI] when its duplicate deadlocks the queue, and back to
    [Backlog] when it is stale; nothing else is touched. *)
Theorem engine_decide_spec eng task no_consumer now :
  dt_aware now = true ->
  exists d, engine_decide eng task no_consumer now = Ok d /\
    (qd_transition d = QT_ESCALATE <-> task_blocked task /\ ~ within_budgets eng task) /\
    (qd_transition d = QT_BLOCKED_TO_READY_FOR_AI <->
       task_blocked task /\ within_budgets eng task /\ qt_retry_safe task = true /\
       deadlocked task no_consumer) /\
    (qd_transition d = QT_BLOCKED_TO_BACKLOG <->
       task_blocked task /\ within_budgets eng task /\ qt_retry_safe task = true /\
       ~ deadlocked task no_consumer /\ stale_at eng task now) /\
    (qd_safe d = true <-> qd_transition d = QT_BLOCKED_TO_READY_FOR_AI \/
                          qd_transition d = QT_BLOCKED_TO_BACKLOG) /\
    (qd_escalate d = true <-> qd_transition d = QT_ESCALATE) /\
    qd_transition d <> QT_STALE_LOCK_CLEANUP /\ qd_task_id d = qt_task_id task.
Proof.
  intros Hn. unfold engine_decide, task_blocked, within_budgets, deadlocked.
  destruct (String.eqb _ "blocked"); simpl; [|eexists; split; [done|]; simpl; naive_solver].
  destruct (_ <=? qt_recovery_attempt_count task)%Z eqn:E1; boolify.
  { eexists. split; [done|]. simpl. repeat split; try naive_solver lia. }
  destruct (_ <=? qt_retry_count task)%Z eqn:E2; boolify.
  { eexists. split; [done|]. simpl. repeat split; try naive_solver lia. }
  destruct (is_stale_ok eng task now Hn) as (b & -> & Hb). simpl.
  destruct (qt_duplicate_exists_in_blocked task), no_consumer, (qt_retry_safe task); simpl;
    try destruct b; simpl; (eexists; split; [reflexivity|]); simpl; repeat split; naive_solver.
Qed.

(** ** What a sweep decides *)

Lemma parse_updated_aware issue t : parse_updated_at issue = Some t -> dt_aware t = true.
Proof.
  unfold parse_updated_at. destruct (jtruthy _); [|done].
  destruct (fromisoformat_str _) as [t'|]; [|done]. simpl. intros [= <-].
  unfold assume_utc. by destruct (dt_aware t') eqn:E.
Qed.

(** The decision the sweep takes for an issue. *)
Definition decision_for (keys : gset string) (now : datetime) (issue : dict)
    (task : QueueHealingTask) (d : QueueHealingDecision) : Prop :=
  exists no_consumer, is_blocked issue = true /\
    queue_task_from_issue issue keys = Ok (task, no_consumer) /\
    engine_decide default_healing_engine task no_consumer now = Ok d.

Definition actionable (d : QueueHealingDecision) : bool :=
  negb (bool_decide (qd_transition d = QT_NONE)) || qd_escalate d.

Lemma heal_step_spec keys now ds issue ds' :
  heal_step keys now ds issue = Ok ds' ->
  (is_blocked issue = false /\ ds' = ds) \/
  (exists task d, decision_for keys now issue task d /\
     ds' = if actionable d then ds ++ [(task, d)] else ds).
Proof.
  unfold heal_step, decision_for. destruct (is_blocked issue); [|intros [= <-]; by left].
  simpl. destruct (queue_task_from_issue issue keys) as [[task nc]|]; simpl; [|done].
  destruct (engine_decide _ task nc now) as [d|] eqn:Ed; simpl; [|done]. intros [= <-].
  right. exists task, d. split; [by exists nc | done].
Qed.

Lemma healing_actions_spec keys now items ds ds' :
  foldM (heal_step keys now) ds items = Ok ds' ->
  forall task d, (task, d) ∈ ds' <-> (task, d) ∈ ds \/
    exists issue, issue ∈ items /\ decision_for keys now issue task d /\ actionable d = true.
Proof.
  revert ds. induction items as [|issue items IH]; intros ds; simpl.
  { intros [= <-] task d. split; [by left | intros [? | (i & Hi & _)]; [done|]].
    by apply not_elem_of_nil in Hi. }
  destruct (heal_step keys now ds issue) as [ds1|] eqn:E; simpl; [|done].
  intros H task d. rewrite (IH ds1 H task d). setoid_rewrite elem_of_cons.
  apply heal_step_spec in E as [[Hb ->] | (task1 & d1 & Hd1 & ->)].
  - split; [naive_solver|]. intros [? | (i & [-> | Hi] & Hd & Ha)]; [by left| |naive_solver].
    destruct Hd as (nc & Hb' & _). congruence.
  - assert (Huniq : forall t' d', decision_for keys now issue t' d' -> t' = task1 /\ d' = d1).
    { intros t' d' (nc' & _ & H1 & H2). destruct Hd1 as (nc1 & _ & H3 & H4).
      rewrite H3 in H1. injection H1 as <- <-. rewrite H4 in H2. by injection H2 as <-. }
    destruct (actionable d1) eqn:Ea.
    + rewrite elem_of_app, list_elem_of_singleton. split.
      * intros [[? | [= -> ->]] | ?]; [by left | right; naive_solver | right; naive_solver].
      * intros [? | (i & [-> | Hi] & Hd & Ha)]; [by left; left | | right; naive_solver].
        destruct (Huniq _ _ Hd) as [-> ->]. left. by right.
    + split; [naive_solver|]. intros [? | (i & [-> | Hi] & Hd & Ha)]; [by left | | right; naive_solver].
      destruct (Huniq _ _ Hd) as [-> ->]. congruence.
Qed.

(** ** What applying it asks of the board *)

Section Calls.
Context (client : list board_call -> board_call -> res unit).

Lemma issue_calls_incl issued calls c :
  c ∈ fst (issue_calls client issued calls) -> c ∈ issued \/ c ∈ calls.
Proof.
  revert issued. induction calls as [|x calls IH]; intros issued; simpl; [by left|].
  destruct (client issued x).
  - intros H. apply IH in H as [H | H]; [|right; by right].
    apply elem_of_app in H as [? | ->%list_elem_of_singleton]; [by left | right; left].
  - simpl. intros [? | ->%list_elem_of_singleton]%elem_of_app; [by left | right; left].
Qed.

Lemma issue_calls_all issued calls :
  (forall issued c, client issued c = Ok tt) -> issue_calls client issued calls = (issued ++ calls, Ok tt).
Proof.
  intros Hc. revert issued. induction calls as [|x calls IH]; intros issued; simpl.
  - by rewrite app_nil_r.
  - rewrite Hc, IH. by rewrite <-app_assoc.
Qed.

#[local] Arguments issue_calls : simpl never.

Lemma apply_decision_dry issued d : fst (apply_decision client false issued d) = issued.
Proof. unfold apply_decision. case_bool_decide; [done|]. by destruct (qd_escalate d). Qed.

Lemma apply_dry issued ds :
  fst (apply_queue_healing_actions client false issued ds) = issued.
Proof.
  revert issued. induction ds as [|[task d] ds IH]; intros issued; [done|]. simpl.
  pose proof (apply_decision_dry issued d) as Hd.
  destruct (apply_decision client false issued d) as [issued1 a]. simpl in Hd. subst issued1.
  specialize (IH issued). by destruct (apply_queue_healing_actions client false issued ds).
Qed.

(** A transition is asked only for a decision marked safe. *)
Lemma apply_transitions apply issued ds t s :
  TransitionIssue t s ∈ fst (apply_queue_healing_actions client apply issued ds) ->
  TransitionIssue t s ∈ issued \/
  exists task d, (task, d) ∈ ds /\ qd_safe d = true /\ t = qd_task_id d /\ s = target_state d.
Proof.
  revert issued. induction ds as [|[task d] ds IH]; intros issued; [by left|]. simpl.
  destruct (apply_decision client apply issued d) as [issued1 a] eqn:Ea.
  destruct (apply_queue_healing_actions client apply issued1 ds) as [issued2 es] eqn:Er. simpl.
  intros H. specialize (IH issued1). rewrite Er in IH. destruct (IH H) as [H1 | (task' & d' & Hin & Hd)].
  2: { right. exists task', d'. split; [by right | done]. }
  unfold apply_decision in Ea.
  destruct (bool_decide _); [injection Ea as <- _; by left|].
  destruct (qd_escalate d).
  - destruct apply; [|injection Ea as <- _; by left]. injection Ea as <- _.
    apply issue_calls_incl in H1 as [? | H1]; [by left|].
    apply list_elem_of_singleton in H1. done.
  - destruct (apply && qd_safe d) eqn:Es; [|injection Ea as <- _; by left].
    injection Ea as <- _. boolify. apply issue_calls_incl in H1 as [? | H1]; [by left|].
    right. exists task, d. split; [left|]. split; [done|].
    unfold transition_calls in H1. rewrite elem_of_cons, list_elem_of_singleton in H1.
    destruct H1 as [[= -> ->] | H1]; [done|]. done.
Qed.

(** With a board that answers, every safe decision is carried out. *)
Lemma apply_all issued ds task d :
  (forall issued c, client issued c = Ok tt) -> (task, d) ∈ ds ->
  qd_safe d = true -> qd_escalate d = false -> qd_transition d <> QT_NONE ->
  TransitionIssue (qd_task_id d) (target_state d) ∈
    fst (apply_queue_healing_actions client true issued ds).
Proof.
  intros Hc Hin Hs He Ht.
  assert (Hmono : forall ds issued c, c ∈ issued ->
    c ∈ fst (apply_queue_healing_actions client true issued ds)).
  { clear ds issued Hin. induction ds as [|[t1 d1] ds IH]; intros issued c Hd; [done|]. simpl.
    assert (c ∈ fst (apply_decision client true issued d1)) as H1.
    { unfold apply_decision, attempted. rewrite !issue_calls_all by done.
      repeat case_match; simpl; set_solver. }
    destruct (apply_decision client true issued d1) as [issued1 a].
    specialize (IH issued1 c H1). by destruct (apply_queue_healing_actions client true issued1 ds). }
  revert issued. induction ds as [|[t1 d1] ds IH]; intros issued; [by apply not_elem_of_nil in Hin|].
  simpl. destruct (apply_decision client true issued d1) as [issued1 a] eqn:Ea.
  assert (Hgoal : TransitionIssue (qd_task_id d) (target_state d) ∈
    fst (apply_queue_healing_actions client true issued1 ds)).
  { apply elem_of_cons in Hin as [[= -> ->] | Hin]; [|by apply IH]. apply Hmono.
    unfold apply_decision in Ea. rewrite bool_decide_false, He, Hs in Ea by done. simpl in Ea.
    unfold attempted in Ea. rewrite issue_calls_all in Ea by done. injection Ea as <- _.
    unfold transition_calls. set_solver. }
  by destruct (apply_queue_healing_actions client true issued1 ds).
Qed.
End Calls.

Lemma issue_state_stripped issue : strip (issue_state issue) = issue_state issue.
Proof. unfold issue_state. destruct (dget issue "state"); apply strip_idem. Qed.

(** ** Duplicates *)

Definition carries_key (k : string) (issue : dict) : bool :=
  bool_decide (duplicate_key (labels_of issue) = Some k).

(** A key is a duplicate exactly when two blocked issues carry it. *)
Lemma duplicate_blocked_keys_spec items k :
  k <> "" ->
  k ∈ duplicate_blocked_keys items <->
  (1 < count_if (carries_key k) (List.filter is_blocked items))%Z.
Proof.
  intros Hk.
  assert (Hc : default 0%Z (duplicate_counts items !! k)
               = count_if (carries_key k) (List.filter is_blocked items)).
  { unfold duplicate_counts. set (f := fun counts issue => _).
    assert (Hg : forall l m, default 0%Z (fold_left f l m !! k)
                   = (default 0%Z (m !! k) + count_if (carries_key k) l)%Z).
    { induction l as [|i l IH]; intros m; simpl; [unfold count_if; simpl; lia|].
      rewrite IH, count_if_cons. unfold f at 1, carries_key at 2.
      destruct (duplicate_key (labels_of i)) as [key|] eqn:Ek.
      - destruct (str_truthy key) eqn:Et.
        + destruct (decide (key = k)) as [->|Hne].
          * rewrite lookup_insert_eq, bool_decide_true by done. simpl. lia.
          * rewrite lookup_insert_ne, bool_decide_false by congruence. lia.
        + rewrite bool_decide_false; [lia|]. intros [= ->]. unfold str_truthy in Et.
          boolify. done.
      - rewrite bool_decide_false by done. lia. }
    rewrite Hg. rewrite lookup_empty. simpl. lia. }
  rewrite <-Hc. unfold duplicate_blocked_keys. rewrite elem_of_dom. split.
  - intros [n [Hn Hlt]%map_lookup_filter_Some]. rewrite Hn. done.
  - intros Hlt. destruct (duplicate_counts items !! k) as [n|] eqn:E; simpl in Hlt; [|lia].
    exists n. by apply map_lookup_filter_Some.
Qed.

(** ** The sweep *)

Definition retry_safe_issue (issue : dict) : Prop :=
  has_label ["retry_safe"; "retry-safe"] (labels_of issue) = true.
Definition unspent_issue (issue : dict) : Prop :=
  (parse_int (label_value (labels_of issue) ["recovery-attempts:"]) < 5)%Z /\
  (parse_int (label_value (labels_of issue) ["retry-count:"]) < 2)%Z.

Lemma task_fields issue keys task nc :
  queue_task_from_issue issue keys = Ok (task, nc) ->
  (exists id, issue !! "id" = Some id /\ qt_task_id task = jtext id) /\
  (qt_retry_safe task = true <-> retry_safe_issue issue) /\
  (within_budgets default_healing_engine task <-> unspent_issue issue).
Proof.
  unfold queue_task_from_issue, ditem. destruct (issue !! "id") as [id|]; simpl; [|done].
  intros [= <- <-]. simpl. split; [by exists id|]. done.
Qed.

Definition no_consumer_issue (issue : dict) : Prop :=
  has_label ["queue_deadlock"; "queue-deadlock"; "no_consumer"; "no-consumer"] (labels_of issue) = true.

(** a sweep is not destructive: a dry run asks nothing of the board, and
    otherwise every transition it asks for moves a blocked issue of the board,
    labelled retry-safe and within its budgets, to [Ready for AI] or
    [Backlog]; the only other writes are comments. *)
Theorem healing_moves_only_safe_work client items now apply calls entries :
  dt_aware now = true ->
  healing_sweep client items now apply = Ok (calls, entries) ->
  (apply = false -> calls = []) /\
  forall t s, TransitionIssue t s ∈ calls ->
    (s = "Ready for AI" \/ s = "Backlog") /\
    exists issue id, issue ∈ items /\ issue !! "id" = Some id /\ t = jtext id /\
      is_blocked issue = true /\ retry_safe_issue issue /\ unspent_issue issue.
Proof.
  intros Hn. unfold healing_sweep. destruct (queue_healing_actions items now) as [ds|] eqn:Ed; simpl; [|done].
  intros [= Hr]. split.
  { intros ->. pose proof (apply_dry client [] ds) as Hd. by rewrite Hr in Hd. }
  intros t s Ht. assert (Hin : TransitionIssue t s ∈ fst (apply_queue_healing_actions client apply [] ds))
    by by rewrite Hr.
  apply apply_transitions in Hin as [H | (task & d & Hd & Hsafe & -> & ->)]; [by apply not_elem_of_nil in H|].
  split; [unfold target_state; case_bool_decide; auto|].
  apply (healing_actions_spec _ _ _ _ _ Ed) in Hd as [Hd | (issue & Hi & (nc & Hb & Hq & Hdec) & _)];
    [by apply not_elem_of_nil in Hd|].
  destruct (task_fields _ _ _ _ Hq) as ((id & Hid & Htid) & Hrs & Hbud).
  destruct (engine_decide_spec default_healing_engine task nc now Hn)
    as (d' & Hd' & _ & Hready & Hback & Hs & _ & _ & Hid'). rewrite Hd' in Hdec. injection Hdec as ->.
  exists issue, id. rewrite Hid', Htid. do 4 (split; [done|]).
  apply Hs in Hsafe as [H | H]; [apply Hready in H | apply Hback in H]; naive_solver.
Qed.

(** Every blocked issue can be read. *)
Lemma healing_actions_ok items now keys ds :
  dt_aware now = true -> Forall (fun issue => is_Some (issue !! "id")) items ->
  exists ds', foldM (heal_step keys now) ds items = Ok ds'.
Proof.
  intros Hn Hid. revert ds. induction Hid as [|issue items [id Hi] _ IH]; intros ds; [by exists ds|].
  simpl. assert (exists ds1, heal_step keys now ds issue = Ok ds1) as [ds1 ->]; [|apply IH].
  unfold heal_step. destruct (is_blocked issue); [|by eexists]. simpl.
  unfold queue_task_from_issue, ditem. rewrite Hi. simpl.
  set (task := {| qt_task_id := _ |}).
  destruct (engine_decide_spec default_healing_engine task (has_label
    ["queue_deadlock"; "queue-deadlock"; "no_consumer"; "no-consumer"] (labels_of issue)) now Hn)
    as (d & -> & _). by eexists.
Qed.

(** no safe work stays stuck: on a board that answers, after a sweep every
    blocked retry-safe issue within its budgets has been moved, to
    [Ready for AI] when another blocked issue carries its duplicate key and no
    consumer can run it, and to [Backlog] when it was not touched for an
    hour. *)
Theorem healing_unblocks client items now :
  (forall issued c, client issued c = Ok tt) -> dt_aware now = true ->
  Forall (fun issue => is_Some (issue !! "id")) items ->
  exists calls entries, healing_sweep client items now true = Ok (calls, entries) /\
    forall issue id, issue ∈ items -> issue !! "id" = Some id -> is_blocked issue = true ->
      retry_safe_issue issue -> unspent_issue issue ->
      let dead := exists k, k <> "" /\ carries_key k issue = true /\
        (1 < count_if (carries_key k) (List.filter is_blocked items))%Z /\ no_consumer_issue issue in
      (dead -> TransitionIssue (jtext id) "Ready for AI" ∈ calls) /\
      (~ no_consumer_issue issue ->
       (exists t, parse_updated_at issue = Some t /\ (seconds 3600 <= dt_us now - dt_us t)%Z) ->
       TransitionIssue (jtext id) "Backlog" ∈ calls).
Proof.
  intros Hc Hn Hids. unfold healing_sweep.
  destruct (healing_actions_ok items now (duplicate_blocked_keys items) [] Hn Hids) as [ds Hds].
  unfold queue_healing_actions. rewrite Hds. simpl.
  destruct (apply_queue_healing_actions client true [] ds) as [calls entries] eqn:Er.
  exists calls, entries. split; [done|]. intros issue id Hi Hid Hb Hrs Hun.
  unfold queue_healing_actions in Hds.
  destruct (queue_task_from_issue issue (duplicate_blocked_keys items)) as [[task nc]|] eqn:Hq;
    [|unfold queue_task_from_issue, ditem in Hq; by rewrite Hid in Hq].
  destruct (task_fields _ _ _ _ Hq) as ((id' & Hid' & Htid) & Htrs & Hbud).
  rewrite Hid in Hid'. injection Hid' as <-.
  destruct (engine_decide_spec default_healing_engine task nc now Hn)
    as (d & Hd & Hesc & Hready & Hback & Hsafe & Hescd & _ & Hdid).
  assert (Hblk : task_blocked task).
  { unfold task_blocked. unfold queue_task_from_issue, ditem in Hq. rewrite Hid in Hq.
    injection Hq as <- <-. simpl. unfold is_blocked in Hb. by rewrite issue_state_stripped. }
  assert (Hds' : actionable d = true -> (task, d) ∈ ds).
  { intros Ha. apply (healing_actions_spec _ _ _ _ _ Hds). right. exists issue.
    split; [done|]. split; [|done]. by exists nc. }
  assert (Hmoved : qd_safe d = true -> qd_transition d <> QT_NONE ->
    TransitionIssue (jtext id) (target_state d) ∈ calls).
  { intros Hs Hne. rewrite <-Htid, <-Hdid.
    pose proof (apply_all client [] ds task d Hc) as Hall. rewrite Er in Hall. apply Hall; try done.
    - apply Hds'. unfold actionable. by rewrite bool_decide_false.
    - destruct (qd_escalate d); [|done]. destruct (proj1 Hesc (proj1 Hescd eq_refl)) as [_ Hno].
      by destruct Hno; apply Hbud. }
  assert (Hnc : nc = true <-> no_consumer_issue issue).
  { unfold queue_task_from_issue, ditem in Hq. rewrite Hid in Hq. by injection Hq as <- <-. }
  split.
  - intros (k & Hk & Hcar & Hcnt & Hno). assert (Hr : qd_transition d = QT_BLOCKED_TO_READY_FOR_AI).
    { apply Hready. split; [done|]. split; [by apply Hbud|]. split; [by apply Htrs|].
      split; [|by apply Hnc]. unfold queue_task_from_issue, ditem in Hq. rewrite Hid in Hq.
      injection Hq as <- <-. simpl. unfold carries_key in Hcar. apply bool_decide_eq_true in Hcar.
      rewrite Hcar. apply bool_decide_eq_true. by apply duplicate_blocked_keys_spec. }
    unfold target_state in Hmoved. rewrite Hr in Hmoved. apply Hmoved; [|done]. apply Hsafe. by left.
  - intros Hno (t & Ht & Hage). assert (Hr : qd_transition d = QT_BLOCKED_TO_BACKLOG).
    { apply Hback. split; [done|]. split; [by apply Hbud|]. split; [by apply Htrs|].
      split; [by intros [_ ?%Hnc]|]. exists t. split; [|done].
      unfold queue_task_from_issue, ditem in Hq. rewrite Hid in Hq. by injection Hq as <- <-. }
    unfold target_state in Hmoved. rewrite Hr in Hmoved. apply Hmoved; [|done]. apply Hsafe. by right.
Qed.

(** ** A board *)

Definition sample_issue (id : string) (labels : list string) (updated : datetime) : dict :=
  {["id" := JStr id; "name" := JStr "t"; "state" := JObj [("name", JStr "Blocked")];
    "labels" := JList (map JStr labels); "updated_at" := JTime updated]}.

(** Two copies of one task that block each other, and a task nobody touched
    for two hours. *)
Definition sample_board (now : datetime) : list dict :=
  [sample_issue "a" ["dedup: k1"; "Retry-Safe"; "queue-deadlock"] now;
   sample_issue "b" ["dedup: k1"] now;
   sample_issue "c" ["retry_safe"; "retry-count: 1"] (sub_us now (hours 2))].

Definition sample_now : datetime := mk_datetime (days 20000) true.

Lemma engine_decide_spec_witness :
  dt_aware sample_now = true /\
  exists d, engine_decide default_healing_engine
    {| qt_task_id := "c"; qt_title := "t"; qt_state := "Blocked"; qt_duplicate_key := None;
       qt_duplicate_exists_in_blocked := false; qt_retry_safe := true; qt_blocked_reason := None;
       qt_blocked_by_backend := None; qt_backend_dependency := None; qt_retry_lineage_id := None;
       qt_retry_count := 1; qt_recovery_attempt_count := 0;
       qt_updated_at := Some (sub_us sample_now (hours 2)); qt_labels := [] |} false sample_now = Ok d
    /\ qd_transition d = QT_BLOCKED_TO_BACKLOG.
Proof.
  split; [reflexivity|].
  destruct (engine_decide_spec default_healing_engine
    {| qt_task_id := "c"; qt_title := "t"; qt_state := "Blocked"; qt_duplicate_key := None;
       qt_duplicate_exists_in_blocked := false; qt_retry_safe := true; qt_blocked_reason := None;
       qt_blocked_by_backend := None; qt_backend_dependency := None; qt_retry_lineage_id := None;
       qt_retry_count := 1; qt_recovery_attempt_count := 0;
       qt_updated_at := Some (sub_us sample_now (hours 2)); qt_labels := [] |} false sample_now eq_refl)
    as (d & Hd & _ & _ & Hb & _).
  exists d. split; [exact Hd|]. apply Hb. split; [reflexivity|]. split; [split; reflexivity|].
  split; [reflexivity|]. split; [intros [Hf _]; discriminate Hf|].
  exists (sub_us sample_now (hours 2)). split; [reflexivity|]. vm_compute. discriminate.
Defined.

Lemma healing_moves_only_safe_work_witness :
  exists calls entries,
    healing_sweep (fun _ _ => Ok tt) (sample_board sample_now) sample_now true = Ok (calls, entries) /\
    length calls = 4 /\
    forall t s, TransitionIssue t s ∈ calls -> s = "Ready for AI" \/ s = "Backlog".
Proof.
  eexists _, _. split; [vm_compute; reflexivity|]. split; [reflexivity|]. intros t s H.
  refine (proj1 (proj2 (healing_moves_only_safe_work (fun _ _ => Ok tt) (sample_board sample_now)
    sample_now true _ _ eq_refl _) t s H)).
  vm_compute. reflexivity.
Defined.

Lemma healing_unblocks_witness :
  exists calls entries,
    healing_sweep (fun _ _ => Ok tt) (sample_board sample_now) sample_now true = Ok (calls, entries) /\
    TransitionIssue "a" "Ready for AI" ∈ calls.
Proof.
  destruct (healing_unblocks (fun _ _ => Ok tt) (sample_board sample_now) sample_now)
    as (calls & entries & Hs & H).
  - reflexivity.
  - reflexivity.
  - repeat constructor; eexists; reflexivity.
  - exists calls, entries. split; [exact Hs|].
    refine (proj1 (H (sample_issue "a" ["dedup: k1"; "Retry-Safe"; "queue-deadlock"] sample_now)
      (JStr "a") _ _ _ _ _) _).
    + left.
    + reflexivity.
    + vm_compute. reflexivity.
    + vm_compute. reflexivity.
    + split; vm_compute; reflexivity.
    + exists "k1". split; [discriminate|]. split; [vm_compute; reflexivity|].
      split; vm_compute; reflexivity.
Defined.
