(* ===== verification/BoardScans.v ===== *)
(** * Scans over the board and the maintenance calendar

    priority_scans.py, reconcile_running.py and maintenance_windows.py: pure
    readers of the issue list and the clock.  Issues are the JSON objects of
    the board's API, whose [labels] are a list and whose names are texts. *)
From Stdlib Require Import Ascii Lqa.
From S2P Require Import Prelude PyStr PyData.

(** [v.strip()] on a value that should be a text. *)
Definition no_attribute : exn := OtherError "object has no such string method".
Definition as_text (v : jval) : res string :=
  match v with JStr s => Ok s | JTime t => Ok (isoformat t) | _ => Raise no_attribute end.

(** [(x.get("name", "") if isinstance(x, dict) else str(x))]. *)
Definition name_or_text (v : jval) : res string :=
  match v with
  | JObj l => as_text (default (JStr "") ((list_to_map l : dict) !! "name"))
  | v => Ok (jtext v)
  end.

(** The state's name, stripped. *)
Definition state_label (issue : dict) : res string :=
  s <-? match dget issue "state" with
        | JObj l => as_text (default (JStr "") ((list_to_map l : dict) !! "name"))
        | v => Ok (if jtruthy v then jtext v else "")
        end ;;
  Ok (strip s).

Definition labels_list (issue : dict) : list jval :=
  match dget issue "labels" with JList l => l | _ => [] end.

(** [issue.get(a) or issue.get(b) or ""]. *)
Definition first_field (issue : dict) (a b : string) : jval :=
  if jtruthy (dget issue a) then dget issue a
  else if jtruthy (dget issue b) then dget issue b else JStr "".

(** [(issue.get("name") or "")[:80]]. *)
Definition title_of (issue : dict) : res string :=
  match dget issue "name" with
  | JStr s => Ok (str_take 80 s)
  | JTime t => Ok (str_take 80 (isoformat t))
  | v => if jtruthy v then Raise (TypeError "object is not subscriptable") else Ok ""
  end.

Definition id_of (issue : dict) : string := jtext (default (JStr "") (issue !! "id")).

(** ** priority_scans.py *)

Inductive rescore_reason := UrgencyScore (score : Q) (priority : string).

Record PriorityRescoreCandidate := {
  prc_task_id : string;
  prc_title : string;
  prc_current_priority : string;
  prc_proposed_priority : string;
  prc_reason : rescore_reason }.

Definition age_score (issue : dict) (moment : datetime) : res Q :=
  match fromisoformat_str (first_field issue "created_at" "updated_at") with
  | None => Ok 0%Q
  | Some ts =>
      us <-? dt_diff moment ts ;;
      Ok (py_minQ (3 # 5) (inject_Z us / inject_Z (days 1) / 30))%Q
  end.

(** The boost of the first retry-count label. *)
Definition retry_score (labels : list string) : Q :=
  match find_first (fun lab => startswith lab "retry-count:") labels with
  | None => 0%Q
  | Some lab =>
      match py_int (strip (after_char ":" lab)) with
      | Some n => if (1 <=? n)%Z then ((1 # 10) * inject_Z (Z.min n 3))%Q else 0%Q
      | None => 0%Q
      end
  end.

Definition issue_urgency_score (issue : dict) (moment : datetime) : res Q :=
  age <-? age_score issue moment ;;
  labels <-? mapM (fun lab => s <-? name_or_text lab ;; Ok (lower (strip s))) (labels_list issue) ;;
  let escalated := if str_in "lifecycle: escalated" labels then (3 # 10)%Q else 0%Q in
  Ok (py_round 3 (py_minQ 1 (age + escalated + retry_score labels)%Q)).

Definition priority_of (issue : dict) : res string :=
  s <-? as_text (if jtruthy (dget issue "priority") then dget issue "priority" else JStr "none") ;;
  Ok (lower s).

Definition proposed_priority (score : Q) (cur_pri : string) : string :=
  if Qle_b (3 # 5) score && str_in cur_pri ["low"; "none"; "medium"] then "high"
  else if Qle_b score (1 # 5) && str_in cur_pri ["high"; "urgent"] then "low"
  else cur_pri.

Definition rescore_step (moment : datetime) (out : list PriorityRescoreCandidate) (issue : dict)
    : res (list PriorityRescoreCandidate) :=
  st <-? state_label issue ;;
  if negb (String.eqb (lower st) "backlog") then Ok out
  else
    score <-? issue_urgency_score issue moment ;;
    cur_pri <-? priority_of issue ;;
    let proposed := proposed_priority score cur_pri in
    if String.eqb proposed cur_pri then Ok out
    else
      title <-? title_of issue ;;
      Ok (out ++ [{| prc_task_id := id_of issue; prc_title := title;
                     prc_current_priority := cur_pri; prc_proposed_priority := proposed;
                     prc_reason := UrgencyScore score cur_pri |}]).

Definition handle_priority_rescore_scan (issues : list dict) (moment : datetime)
    : res (list PriorityRescoreCandidate) :=
  foldM (rescore_step moment) [] issues.

Record AwaitingInputResult := {
  air_task_id : string;
  air_title : string;
  air_new_comment_count : Z }.

(** Not one of OperationsCenter's own comments. *)
Definition operator_comment (c : dict) : bool :=
  let v := first_field c "comment_html" "comment_stripped" in
  negb (startswith (lower (jtext v)) "<!-- operations-center").

Definition awaiting_step (list_comments : string -> res (list dict)) (state_name : string)
    (out : list AwaitingInputResult) (issue : dict) : res (list AwaitingInputResult) :=
  st <-? state_label issue ;;
  if negb (String.eqb (lower st) (lower state_name)) then Ok out
  else
    match list_comments (id_of issue) with
    | Raise _ => Ok out
    | Ok comments =>
        let op_comments := List.filter operator_comment comments in
        if list_truthy op_comments then
          title <-? title_of issue ;;
          Ok (out ++ [{| air_task_id := id_of issue; air_title := title;
                         air_new_comment_count := Z.of_nat (length op_comments) |}])
        else Ok out
    end.

Definition handle_awaiting_input_scan (list_comments : string -> res (list dict))
    (issues : list dict) (state_name : string) : res (list AwaitingInputResult) :=
  foldM (awaiting_step list_comments state_name) [] issues.

Definition signal_stale (snapshot_age_hours : option Q) (threshold_hours : Q) : bool :=
  match snapshot_age_hours with None => true | Some age => Qle_b threshold_hours age end.

(** ** reconcile_running.py *)

Definition DEFAULT_TTLS : gmap string Z := list_to_map [
  ("goal", 4 * 60)%Z; ("test", 45%Z); ("test_campaign", 60%Z); ("improve", 90%Z);
  ("improve_campaign", 90%Z)].

Record StaleRunningCandidate := {
  src_task_id : string;
  src_title : string;
  src_task_kind : string;
  src_age_minutes : Z;
  src_ttl_minutes : Z }.

(** The value of the first label [prefix: value]. *)
Fixpoint label_with_prefix (labels : list jval) (prefix : string) : res string :=
  match labels with
  | [] => Ok ""
  | lab :: labels' =>
      raw <-? name_or_text lab ;;
      let name := strip raw in
      if startswith (lower name) (lower prefix +:+ ":") then Ok (strip (after_char ":" name))
      else label_with_prefix labels' prefix
  end.

Definition stale_running_step (ttl_map : gmap string Z) (fallback_minutes : Z) (moment : datetime)
    (out : list StaleRunningCandidate) (issue : dict) : res (list StaleRunningCandidate) :=
  st <-? state_label issue ;;
  if negb (String.eqb (lower st) "running") then Ok out
  else
    match fromisoformat_str (first_field issue "updated_at" "created_at") with
    | None => Ok out
    | Some ts =>
        us <-? dt_diff moment ts ;;
        let age_minutes := Z.quot us (seconds 60) in
        label <-? label_with_prefix (labels_list issue) "task-kind" ;;
        let kind := if str_truthy label then label else "goal" in
        let ttl := default fallback_minutes (ttl_map !! kind) in
        if (ttl <=? age_minutes)%Z then
          title <-? title_of issue ;;
          Ok (out ++ [{| src_task_id := id_of issue; src_title := title; src_task_kind := kind;
                         src_age_minutes := age_minutes; src_ttl_minutes := ttl |}])
        else Ok out
    end.

Definition reconcile_stale_running_issues (issues : list dict) (ttls : gmap string Z)
    (fallback_minutes : Z) (moment : datetime) : res (list StaleRunningCandidate) :=
  foldM (stale_running_step (ttls ∪ DEFAULT_TTLS) fallback_minutes moment) [] issues.

(** ** maintenance_windows.py *)

Record MaintenanceWindow := {
  mw_start_hour : Z;
  mw_end_hour : Z;
  mw_days : list Z }.

Definition window_active (moment : datetime) (w : MaintenanceWindow) : bool :=
  if list_truthy (mw_days w) && negb (existsb (Z.eqb (weekday moment)) (mw_days w)) then false
  else if (mw_start_hour w =? mw_end_hour w)%Z then false
  else
    let h := hour_of moment in
    if (mw_start_hour w <? mw_end_hour w)%Z
    then (mw_start_hour w <=? h)%Z && (h <? mw_end_hour w)%Z
    else (mw_start_hour w <=? h)%Z || (h <? mw_end_hour w)%Z.

(** [now] in UTC. *)
Definition in_maintenance_window (windows : list MaintenanceWindow) (moment : datetime) : bool :=
  existsb (window_active moment) windows.

(** ** The calendar *)

Definition valid_window (w : MaintenanceWindow) : Prop :=
  (0 <= mw_start_hour w < 24)%Z /\ (0 <= mw_end_hour w < 24)%Z.

Lemma clock_sub a b :
  (0 <= a < 24)%Z -> (0 <= b < 24)%Z ->
  ((a - b) mod 24 = if (b <=? a)%Z then a - b else a - b + 24)%Z.
Proof.
  intros Ha Hb. destruct (b <=? a)%Z eqn:E; boolify; [apply Z.mod_small; lia|].
  rewrite <-(Z.mod_add _ 1), Z.mul_1_l by lia. apply Z.mod_small. lia.
Qed.

Lemma hour_of_range t : (0 <= hour_of t < 24)%Z.
Proof.
  unfold hour_of, days, hours, seconds, second.
  pose proof (Z.mod_pos_bound (dt_us t) (1 * 86400 * 1000000)) as Hm.
  split; [apply Z.div_pos; lia | apply Z.div_lt_upper_bound; lia].
Qed.

Lemma window_active_spec moment w :
  valid_window w ->
  window_active moment w = true <->
  (mw_days w = [] \/ weekday moment ∈ mw_days w) /\
  ((hour_of moment - mw_start_hour w) mod 24 < (mw_end_hour w - mw_start_hour w) mod 24)%Z.
Proof.
  intros [Hs He]. pose proof (hour_of_range moment) as Hh.
  rewrite (clock_sub (hour_of moment)), clock_sub by done.
  assert (Hd : list_truthy (mw_days w) && negb (existsb (Z.eqb (weekday moment)) (mw_days w)) = false
    <-> mw_days w = [] \/ weekday moment ∈ mw_days w).
  { destruct (mw_days w) as [|x l]; [split; auto|]. rewrite andb_false_iff, negb_false_iff, existsb_exists.
    setoid_rewrite Z.eqb_eq. setoid_rewrite <-list_elem_of_In. naive_solver. }
  unfold window_active. destruct (_ && _); [naive_solver|].
  pose proof (proj1 Hd eq_refl) as Hday. clear Hd.
  generalize dependent (hour_of moment). generalize dependent (mw_start_hour w).
  generalize dependent (mw_end_hour w). intros e He s Hs h Hh.
  enough (Hb : (if (s =? e)%Z then false
    else if (s <? e)%Z then (s <=? h)%Z && (h <? e)%Z else (s <=? h)%Z || (h <? e)%Z) = true <->
    ((if (s <=? h)%Z then h - s else h - s + 24) < (if (s <=? e)%Z then e - s else e - s + 24))%Z)
    by naive_solver.
  destruct (Z.eqb_spec s e), (Z.ltb_spec s e), (Z.leb_spec s h), (Z.ltb_spec h e), (Z.leb_spec s e);
    simpl; split; intros; try done; lia.
Qed.

(** execution is paused exactly when some window of the day is open: the
    hours since its start, counted around midnight, are fewer than its length
    counted the same way; a window of length zero never opens. *)
Theorem maintenance_window_spec windows moment :
  Forall valid_window windows ->
  in_maintenance_window windows moment = true <->
  exists w, w ∈ windows /\ (mw_days w = [] \/ weekday moment ∈ mw_days w) /\
    ((hour_of moment - mw_start_hour w) mod 24 < (mw_end_hour w - mw_start_hour w) mod 24)%Z.
Proof.
  intros Hv. rewrite Forall_forall in Hv. unfold in_maintenance_window. rewrite existsb_exists.
  setoid_rewrite <-list_elem_of_In. split; intros (w & Hin & Ha); exists w;
    (split; [done|]); by apply window_active_spec; [apply Hv|].
Qed.

(** ** Stale tasks *)

(** one task whose timestamp has no offset aborts the whole scan: the
    subtraction from the aware clock raises outside the handler that skips
    timestamps it cannot read. *)
Theorem naive_timestamp_aborts issues1 issue issues2 ttls fallback moment out ts st :
  reconcile_stale_running_issues issues1 ttls fallback moment = Ok out ->
  state_label issue = Ok st -> lower st = "running" ->
  first_field issue "updated_at" "created_at" = JTime ts ->
  dt_aware ts = false -> dt_aware moment = true ->
  reconcile_stale_running_issues (issues1 ++ issue :: issues2) ttls fallback moment = Raise naive_mix.
Proof.
  intros H1 Hst Hl Hts Hn Hm. unfold reconcile_stale_running_issues in *. rewrite foldM_app, H1.
  assert (E : stale_running_step (ttls ∪ DEFAULT_TTLS) fallback moment out issue = Raise naive_mix).
  { unfold stale_running_step. rewrite Hst. simpl. rewrite Hl. simpl. rewrite Hts. simpl.
    unfold dt_diff, same_kind. by rewrite Hn, Hm. }
  cbn [foldM mbind res_bind]. by rewrite E.
Qed.

(** What a readable board looks like to the scans. *)
Definition readable_issue (issue : dict) : Prop :=
  is_ok (state_label issue) = true /\ is_ok (title_of issue) = true /\
  is_ok (label_with_prefix (labels_list issue) "task-kind") = true /\
  forall ts, fromisoformat_str (first_field issue "updated_at" "created_at") = Some ts ->
    dt_aware ts = true.

(** The kind of a task and the minutes it may run. *)
Definition kind_of (issue : dict) : string :=
  match label_with_prefix (labels_list issue) "task-kind" with
  | Ok label => if str_truthy label then label else "goal"
  | Raise _ => "goal"
  end.
Definition ttl_of (ttls : gmap string Z) (fallback : Z) (issue : dict) : Z :=
  default fallback ((ttls ∪ DEFAULT_TTLS) !! kind_of issue).

Definition expired (ttls : gmap string Z) (fallback : Z) (moment : datetime) (issue : dict) : bool :=
  match state_label issue, fromisoformat_str (first_field issue "updated_at" "created_at") with
  | Ok st, Some ts =>
      String.eqb (lower st) "running" &&
      (ttl_of ttls fallback issue <=? Z.quot (dt_us moment - dt_us ts) (seconds 60))%Z
  | _, _ => false
  end.

Lemma is_ok_inv {A} (m : res A) : is_ok m = true -> exists a, m = Ok a.
Proof. destruct m; [by eexists | done]. Qed.

Lemma stale_running_step_ok ttls fallback moment out issue :
  readable_issue issue -> dt_aware moment = true ->
  exists new, stale_running_step (ttls ∪ DEFAULT_TTLS) fallback moment out issue = Ok (out ++ new) /\
    map src_task_id new = (if expired ttls fallback moment issue then [id_of issue] else []).
Proof.
  intros ((st & Hst)%is_ok_inv & (title & Ht)%is_ok_inv & (label & Hl)%is_ok_inv & Hts) Hm.
  unfold stale_running_step, expired, ttl_of, kind_of. rewrite Hst, Hl. simpl.
  destruct (String.eqb (lower st) "running"); simpl.
  2: { exists []. rewrite app_nil_r. split; [done|]. by destruct (fromisoformat_str _). }
  destruct (fromisoformat_str _) as [ts|] eqn:E.
  2: { exists []. by rewrite app_nil_r. }
  rewrite dt_diff_aware by auto. simpl. destruct (_ <=? _)%Z; simpl.
  - rewrite Ht. simpl. eexists. split; [reflexivity|]. done.
  - exists []. by rewrite app_nil_r.
Qed.

(** on a readable board the scan reports exactly the running tasks whose
    age has reached the limit of their kind, in the board's order, the
    caller's limits taking precedence over the built-in ones and the fallback
    standing in for an unknown kind. *)
Theorem stale_running_spec issues ttls fallback moment :
  Forall readable_issue issues -> dt_aware moment = true ->
  exists out, reconcile_stale_running_issues issues ttls fallback moment = Ok out /\
    map src_task_id out = map id_of (List.filter (expired ttls fallback moment) issues).
Proof.
  intros Hr Hm. unfold reconcile_stale_running_issues.
  assert (Hg : forall acc, exists out, foldM (stale_running_step (ttls ∪ DEFAULT_TTLS) fallback moment) acc issues
    = Ok (acc ++ out) /\ map src_task_id out = map id_of (List.filter (expired ttls fallback moment) issues)).
  { induction Hr as [|issue issues Hi Hr IH]; intros acc.
    { exists []. by rewrite app_nil_r. }
    simpl. destruct (stale_running_step_ok ttls fallback moment acc issue Hi Hm) as (new & -> & Hn). simpl.
    destruct (IH (acc ++ new)) as (out & -> & Ho). exists (new ++ out).
    rewrite app_assoc, map_app, Hn, Ho. by destruct (expired ttls fallback moment issue). }
  destruct (Hg []) as (out & Ho & Hi). by exists out.
Qed.

(** ** Priorities *)

Lemma days_pos : (0 < inject_Z (days 1))%Q.
Proof. unfold days, seconds, second, Qlt. simpl. lia. Qed.

(** The score of a task is at least its age's share, in thousandths. *)
Lemma age_score_old issue moment ts n :
  first_field issue "created_at" "updated_at" = JTime ts ->
  dt_aware ts = true -> dt_aware moment = true ->
  (days 18 <= dt_us moment - dt_us ts)%Z -> n = (3 # 5)%Q -> exists q, age_score issue moment = Ok q /\ (q == n)%Q.
Proof.
  intros Hf Ht Hm Hage ->. unfold age_score. rewrite Hf. simpl. rewrite dt_diff_aware by done. simpl.
  eexists. split; [reflexivity|]. unfold py_minQ. destruct (Qlt_b _ _) eqn:E; [|reflexivity].
  exfalso. apply Qlt_b_spec in E. apply (Qlt_not_le _ _ E). apply Qle_shift_div_l; [reflexivity|].
  apply Qle_shift_div_l; [apply days_pos|]. unfold Qle. simpl. unfold days, seconds, second in *. lia.
Qed.

Lemma py_round_ge q (n : Z) : (inject_Z n <= q * 1000)%Q -> (n <= round_half_even (q * 1000))%Z.
Proof.
  intros H. unfold round_half_even. set (z := Qround.Qfloor (q * 1000 + (1 # 2))).
  assert (Hz : (n <= z)%Z).
  { unfold z. rewrite <-(Qround.Qfloor_Z n). apply Qround.Qfloor_resp_le.
    eapply Qle_trans; [exact H|]. rewrite <-(Qplus_0_r (q * 1000)) at 1. by apply Qplus_le_compat; [apply Qle_refl|]. }
  destruct (Qeq_bool _ _ && _) eqn:E; [|done]. apply andb_true_iff in E as [E _].
  apply Qeq_bool_eq in E. enough (n < z)%Z by lia. apply Z.nle_gt. intros Hle.
  assert (z = n) as Hzn by lia. rewrite Hzn in E.
  assert (q * 1000 < inject_Z n)%Q as Hlt; [|by apply Qlt_not_le in Hlt].
  rewrite <-E. rewrite <-(Qplus_0_r (q * 1000)) at 1. by apply Qplus_lt_r.
Qed.

Lemma retry_score_nonneg labels : (0 <= retry_score labels)%Q.
Proof.
  unfold retry_score. destruct (find_first _ labels) as [lab|]; [|apply Qle_refl].
  destruct (py_int _) as [n|]; [|apply Qle_refl]. destruct (1 <=? n)%Z eqn:E; [|apply Qle_refl].
  boolify. unfold Qle. simpl. lia.
Qed.

(** a backlog task of low, medium or no priority is proposed for high
    priority as soon as it is eighteen days old, whatever its labels: the age
    alone then reaches the threshold. *)
Theorem urgent_after_eighteen_days issue moment out ts st pri :
  state_label issue = Ok st -> lower st = "backlog" ->
  first_field issue "created_at" "updated_at" = JTime ts ->
  dt_aware ts = true -> dt_aware moment = true ->
  is_ok (mapM (fun lab => s <-? name_or_text lab ;; Ok (lower (strip s))) (labels_list issue)) = true ->
  is_ok (title_of issue) = true -> priority_of issue = Ok pri -> pri ∈ ["low"; "none"; "medium"] ->
  (days 18 <= dt_us moment - dt_us ts)%Z ->
  exists c, rescore_step moment out issue = Ok (out ++ [c]) /\
    prc_task_id c = id_of issue /\ prc_proposed_priority c = "high".
Proof.
  intros Hst Hb Hts Hat Ham [labels Hl]%is_ok_inv [title Ht]%is_ok_inv Hp Hin Hage.
  destruct (age_score_old issue moment ts _ Hts Hat Ham Hage eq_refl) as (q & Hq & Heq).
  unfold rescore_step, issue_urgency_score. rewrite Hst. simpl. rewrite Hb. simpl. rewrite Hq. simpl.
  rewrite Hl. simpl. rewrite Hp. simpl.
  set (e := if str_in _ _ then _ else _). set (score := py_round 3 _).
  assert (Hscore : Qle_b (3 # 5) score = true).
  { apply Qle_b_spec. unfold score, py_round.
    enough (H6 : (600 <= round_half_even (py_minQ 1 (q + e + retry_score labels) * 1000))%Z).
    { change (inject_Z (Zpos (pow10 3))) with 1000%Q. generalize dependent (round_half_even
        (py_minQ 1 (q + e + retry_score labels) * 1000)). intros z Hz. unfold Qle. simpl. lia. }
    apply py_round_ge. apply Qle_trans with ((3 # 5) * 1000)%Q; [discriminate|].
    apply Qmult_le_compat_r; [|discriminate].
    assert (Hsum : (3 # 5 <= q + e + retry_score labels)%Q).
    { rewrite Heq. rewrite <-(Qplus_0_r (3 # 5)) at 1.
      rewrite <-Qplus_assoc. apply Qplus_le_compat; [apply Qle_refl|].
      rewrite <-(Qplus_0_r 0) at 1. apply Qplus_le_compat; [unfold e; destruct (str_in _ _); discriminate|].
      apply retry_score_nonneg. }
    unfold py_minQ. destruct (Qlt_b _ 1); [exact Hsum | discriminate]. }
  unfold proposed_priority. rewrite Hscore. rewrite (proj2 (str_in_spec pri _) Hin). cbn [andb].
  assert (String.eqb "high" pri = false) as ->.
  { apply String.eqb_neq. intros <-. by apply str_in_spec in Hin. }
  rewrite Ht. simpl. eexists. split; [reflexivity|]. done.
Qed.

(** ** Examples *)

Definition scan_now : datetime := mk_datetime (days 20000) true.

Definition running_issue (id kind : string) (updated : datetime) : dict :=
  {["id" := JStr id; "name" := JStr "t"; "state" := JObj [("name", JStr "Running")];
    "labels" := JList [JObj [("name", JStr ("task-kind: " +:+ kind))]]; "updated_at" := JTime updated]}.

Lemma maintenance_window_spec_witness :
  let w := {| mw_start_hour := 22; mw_end_hour := 4; mw_days := [] |} in
  let t := mk_datetime (days 20000 + hours 23)%Z true in
  valid_window w /\ (in_maintenance_window [w] t = true <->
    exists w', w' ∈ [w] /\ (mw_days w' = [] \/ weekday t ∈ mw_days w') /\
      ((hour_of t - mw_start_hour w') mod 24 < (mw_end_hour w' - mw_start_hour w') mod 24)%Z).
Proof.
  intros w t. assert (valid_window w) as Hw by (unfold valid_window; simpl; lia).
  split; [exact Hw|]. apply (maintenance_window_spec [w] t). repeat constructor; apply Hw.
Defined.

Lemma naive_timestamp_aborts_witness :
  let bad := running_issue "2" "goal" (mk_datetime 0 false) in
  reconcile_stale_running_issues [running_issue "1" "test" (mk_datetime 0 true); bad] ∅ 240 scan_now
  = Raise naive_mix.
Proof.
  intros bad.
  refine (naive_timestamp_aborts [running_issue "1" "test" (mk_datetime 0 true)] bad [] ∅ 240 scan_now
    _ (mk_datetime 0 false) "Running" _ _ _ _ _ _).
  - vm_compute. reflexivity.
  - vm_compute. reflexivity.
  - reflexivity.
  - vm_compute. reflexivity.
  - reflexivity.
  - reflexivity.
Defined.

Lemma stale_running_spec_witness :
  let board := [running_issue "1" "test" (sub_us scan_now (hours 1));
                running_issue "2" "goal" (sub_us scan_now (hours 1))] in
  exists out, reconcile_stale_running_issues board ∅ 240 scan_now = Ok out /\ map src_task_id out = ["1"].
Proof.
  intros board. destruct (stale_running_spec board ∅ 240 scan_now) as (out & Ho & Hi).
  - repeat constructor; vm_compute; try reflexivity; by intros ts [= <-].
  - reflexivity.
  - exists out. split; [exact Ho|]. rewrite Hi. vm_compute. reflexivity.
Defined.

Lemma urgent_after_eighteen_days_witness :
  let issue : dict := {["id" := JStr "9"; "name" := JStr "t"; "state" := JStr "Backlog"; "priority" := JStr "low";
    "created_at" := JTime (sub_us scan_now (days 18))]} in
  exists c, rescore_step scan_now [] issue = Ok [c] /\ prc_proposed_priority c = "high".
Proof.
  intros issue.
  destruct (urgent_after_eighteen_days issue scan_now [] (sub_us scan_now (days 18)) "Backlog" "low")
    as (c & Hc & _ & Hp).
  - vm_compute. reflexivity.
  - reflexivity.
  - vm_compute. reflexivity.
  - reflexivity.
  - reflexivity.
  - vm_compute. reflexivity.
  - vm_compute. reflexivity.
  - vm_compute. reflexivity.
  - left.
  - vm_compute. discriminate.
  - exists c. split; [exact Hc | exact Hp].
Defined.
