(* ===== verification/ClaudeBudget.v ===== *)
(** * The subscription budget guard

    execution/usage_budget.py: weighted consumption over a trailing window of
    five hours, read off the command-line client's transcripts, and the time at
    which an exhausted window frees up.  Transcript files, environment
    variables and the clock are arguments; [json.loads] and [float(text)] are
    parameters (a float is an exact rational, infinities and NaN aside). *)
From Stdlib Require Import Lqa Sorted.
From stdpp Require Import sorting.
From S2P Require Import Prelude PyStr PyData.

Definition BUCKET_SPAN : Z := hours 5.
Definition DEFAULT_CAP_WEIGHTED : Q := 42000000.
Definition DEFAULT_RESERVE : Q := (1 # 4)%Q.
Definition MAX_RESERVE : Q := (95 # 100)%Q.

Definition PART_WEIGHTS : list (string * Q) :=
  [("input_tokens", 1%Q); ("output_tokens", 5%Q); ("cache_read_input_tokens", (1 # 10)%Q);
   ("cache_creation_input_tokens", (125 # 100)%Q)].

Definition MODEL_FAMILY_WEIGHTS : list (string * Q) :=
  [("opus", 5%Q); ("fable", 5%Q); ("sonnet", 1%Q); ("haiku", (33 # 100)%Q)].
Definition UNKNOWN_MODEL_WEIGHT : Q := 5.

Definition model_weight (model : string) : Q :=
  let m := lower model in
  if negb (str_truthy m) then 1%Q
  else match find_first (fun tw => contains m (fst tw)) MODEL_FAMILY_WEIGHTS with
       | Some (_, weight) => weight
       | None => UNKNOWN_MODEL_WEIGHT
       end.

(** [sum(l)]. *)
Definition sumQ (l : list Q) : Q := fold_left Qplus l 0%Q.

Record BudgetStatus := {
  bs_bucket_start : datetime;
  bs_bucket_end : datetime;
  bs_used_weighted : Q;
  bs_cap_weighted : Q;
  bs_reserve_fraction : Q;
  bs_exhausted : bool;
  bs_disabled : bool }.

Definition threshold_weighted (cap reserve : Q) : Q := (cap * (1 - reserve))%Q.

(** ** The environment *)

Section Environment.
Context (py_float : string -> option Q) (environ : string -> option string).

Definition env_float (name : string) (d : Q) : Q :=
  match environ name with
  | None => d
  | Some raw => if String.eqb (strip raw) "" then d else default d (py_float raw)
  end.

Definition truthy (value : option string) : bool :=
  str_in (lower (strip (str_or value ""))) ["1"; "true"; "yes"; "on"].

(** [_resolve_cap]; [learned] is what [UsageStore().learned_budget_cap()] does. *)
Definition resolve_cap (learned : res (option Q)) : Q :=
  let learned_cap := match learned with Ok o => o | Raise _ => None end in
  let fallback := match learned_cap with
                  | Some c => if Qeq_bool c 0 then DEFAULT_CAP_WEIGHTED else c
                  | None => DEFAULT_CAP_WEIGHTED
                  end in
  let cap := match environ "OC_CLAUDE_BUDGET_CAP_WEIGHTED" with
             | Some raw => if String.eqb (strip raw) "" then fallback
                           else env_float "OC_CLAUDE_BUDGET_CAP_WEIGHTED" DEFAULT_CAP_WEIGHTED
             | None => fallback
             end in
  if Qle_b cap 0 then DEFAULT_CAP_WEIGHTED else cap.

Definition resolve_reserve : Q :=
  py_minQ (py_maxQ (env_float "OC_CLAUDE_BUDGET_RESERVE" DEFAULT_RESERVE) 0) MAX_RESERVE.

Definition guard_disabled : bool := truthy (environ "OC_CLAUDE_BUDGET_DISABLED").
End Environment.

(** ** Transcripts *)

(** One transcript: its modification time and its lines, each of which the
    operating system may refuse. *)
Record transcript := {
  tr_mtime : res datetime;
  tr_lines : res (list string) }.

Definition usage_event := (datetime * Q)%type.

(** [x.get(k)] on a value that should be a dict; [x or {}]. *)
Definition jget (v : jval) (k : string) : res jval :=
  match v with
  | JObj l => Ok (dget (list_to_map l) k)
  | _ => Raise (OtherError "object has no attribute 'get'")
  end.
Definition or_empty (v : jval) : jval := if jtruthy v then v else JObj [].

Section Transcripts.
Context (loads : string -> option jval) (not_before : datetime).

Definition weighted_tokens (usage : jval) : res Q :=
  parts <-? mapM (fun fw =>
    v <-? jget usage (fst fw) ;;
    q <-? (if jtruthy v then jfloat v else Ok 0%Q) ;;
    Ok (q * snd fw)%Q) PART_WEIGHTS ;;
  Ok (sumQ parts).

(** The event of one line; [None]: the line is passed over. *)
Definition line_event (line : string) : res (option usage_event) :=
  if negb (contains line (String dquote ("usage" +:+ String dquote ""))) then Ok None
  else match loads line with
  | None => Ok None
  | Some entry =>
      raw_ts <-? jget entry "timestamp" ;;
      message <-? jget entry "message" ;;
      let message := or_empty message in
      usage <-? jget message "usage" ;;
      let usage := or_empty usage in
      if negb (jtruthy raw_ts) || negb (jtruthy usage) then Ok None
      else match fromisoformat_str raw_ts with
      | None => Ok None
      | Some ts =>
          let ts := assume_utc ts in
          old <-? dt_lt ts not_before ;;
          if old : bool then Ok None
          else
            tokens <-? weighted_tokens usage ;;
            let weighted := (tokens * model_weight (match message with
              | JObj l => match (list_to_map l : dict) !! "model" with Some v => jtext v | None => "" end
              | _ => ""
              end))%Q in
            Ok (if Qlt_b 0 weighted then Some (ts, weighted) else None)
      end
  end.

Definition lines_events (acc : list usage_event) (line : string) : res (list usage_event) :=
  e <-? line_event line ;;
  Ok (match e with Some e => acc ++ [e] | None => acc end).

(** The events of one transcript; an [OSError] ends it quietly. *)
Definition transcript_events (acc : list usage_event) (f : transcript) : res (list usage_event) :=
  match tr_mtime f with
  | Raise (OSError _) => Ok acc
  | Raise e => Raise e
  | Ok mtime =>
      old <-? dt_lt mtime not_before ;;
      if old : bool then Ok acc
      else match tr_lines f with
           | Raise (OSError _) => Ok acc
           | Raise e => Raise e
           | Ok lines => foldM lines_events acc lines
           end
  end.

(** [None]: the projects directory does not exist. *)
Definition iter_usage_events (projects : option (list transcript)) : res (list usage_event) :=
  match projects with None => Ok [] | Some files => foldM transcript_events [] files end.
End Transcripts.

(** ** The window *)

Definition event_leb (a b : usage_event) : bool := (dt_us (fst a) <=? dt_us (fst b))%Z.

(** The loop that sheds the oldest usage until more than [excess] has left. *)
Fixpoint shed_until (excess shed : Q) (ordered : list usage_event) : option datetime :=
  match ordered with
  | [] => None
  | (ts, weight) :: rest =>
      let shed := (shed + weight)%Q in
      if Qlt_b excess shed then Some ts else shed_until excess shed rest
  end.

Definition reset_horizon (in_window : list usage_event) (excess : Q) (now : datetime) : datetime :=
  let ordered := sorted_by event_leb in_window in
  if Qlt_b excess 0 then
    add_us (match ordered with (ts, _) :: _ => ts | [] => now end) BUCKET_SPAN
  else match shed_until excess 0 ordered with
       | Some ts => add_us ts BUCKET_SPAN
       | None => add_us now BUCKET_SPAN
       end.

Definition in_window_at (events : list usage_event) (now : datetime) : list usage_event :=
  List.filter (fun e => dt_us (sub_us now BUCKET_SPAN) <=? dt_us (fst e))%Z events.

Definition earliest_of (d : datetime) (l : list usage_event) : datetime :=
  match l with
  | [] => d
  | e :: l' => fold_left (fun m x => if (dt_us (fst x) <? dt_us m)%Z then fst x else m) l' (fst e)
  end.

(** The status the events of the transcripts amount to at [now]. *)
Definition status_of (cap reserve : Q) (disabled : bool) (events : list usage_event) (now : datetime)
    : BudgetStatus :=
  let in_window := in_window_at events now in
  let used := sumQ (map snd in_window) in
  let threshold := threshold_weighted cap reserve in
  {| bs_bucket_start := earliest_of now in_window;
     bs_bucket_end := reset_horizon in_window (used - threshold) now;
     bs_used_weighted := used; bs_cap_weighted := cap; bs_reserve_fraction := reserve;
     bs_exhausted := negb disabled && Qle_b threshold used; bs_disabled := disabled |}.

Definition budget_status (py_float : string -> option Q) (environ : string -> option string)
    (learned : res (option Q)) (loads : string -> option jval) (projects : option (list transcript))
    (now : datetime) : res BudgetStatus :=
  events <-? iter_usage_events loads (sub_us now BUCKET_SPAN) projects ;;
  Ok (status_of (resolve_cap py_float environ learned) (resolve_reserve py_float environ)
        (guard_disabled environ) events now).

(** ** Sums *)

Lemma sumQ_acc l a : (fold_left Qplus l a == a + sumQ l)%Q.
Proof.
  unfold sumQ. revert a. induction l as [|x l IH]; intros a; simpl; [by rewrite Qplus_0_r|].
  rewrite IH, (IH (0 + x)%Q). ring.
Qed.

Lemma sumQ_cons x l : (sumQ (x :: l) == x + sumQ l)%Q.
Proof. unfold sumQ at 1. simpl. rewrite sumQ_acc. ring. Qed.

Lemma sumQ_app l1 l2 : (sumQ (l1 ++ l2) == sumQ l1 + sumQ l2)%Q.
Proof. induction l1 as [|x l1 IH]; simpl; [unfold sumQ at 2; simpl; ring|]. rewrite !sumQ_cons, IH. ring. Qed.

Lemma sumQ_perm l1 l2 : l1 ≡ₚ l2 -> (sumQ l1 == sumQ l2)%Q.
Proof.
  induction 1; [reflexivity | | | etransitivity; eassumption].
  - rewrite !sumQ_cons. by rewrite IHPermutation.
  - rewrite !sumQ_cons. ring.
Qed.

Lemma sumQ_nonneg l : Forall (fun x => 0 <= x)%Q l -> (0 <= sumQ l)%Q.
Proof.
  induction 1 as [|x l Hx Hl IH]; [apply Qle_refl|]. rewrite sumQ_cons.
  rewrite <-(Qplus_0_r 0). by apply Qplus_le_compat.
Qed.

Definition total (events : list usage_event) : Q := sumQ (map snd events).
Definition weighs (e : usage_event) : Prop := (0 < snd e)%Q.

Lemma total_filter_le p events :
  Forall weighs events -> (total (List.filter p events) <= total events)%Q.
Proof.
  unfold total. induction 1 as [|e l He Hl IH]; [apply Qle_refl|]. simpl.
  rewrite sumQ_cons. destruct (p e); simpl.
  - rewrite sumQ_cons. by apply Qplus_le_compat; [apply Qle_refl|].
  - rewrite <-(Qplus_0_l (sumQ _)). apply Qplus_le_compat; [by apply Qlt_le_weak | exact IH].
Qed.

(** The events on the two sides of a test. *)
Lemma total_split p events :
  (total events == total (List.filter p events) + total (List.filter (fun e => negb (p e)) events))%Q.
Proof.
  unfold total. induction events as [|e l IH]; [reflexivity|]. simpl. rewrite sumQ_cons, IH.
  destruct (p e); simpl; rewrite sumQ_cons; ring.
Qed.

(** ** The horizon *)

Lemma shed_until_spec excess ordered shed :
  (shed <= excess)%Q -> (excess < shed + total ordered)%Q ->
  exists l1 ts w l2, ordered = l1 ++ (ts, w) :: l2 /\ shed_until excess shed ordered = Some ts /\
    (shed + total l1 <= excess)%Q /\ (excess < shed + total l1 + w)%Q.
Proof.
  revert shed. unfold total. induction ordered as [|[ts w] rest IH]; intros shed Hle Hlt; simpl in *.
  { unfold sumQ in Hlt. simpl in Hlt. rewrite Qplus_0_r in Hlt. by apply Qlt_not_le in Hlt. }
  rewrite sumQ_cons, Qplus_assoc in Hlt. destruct (Qlt_b excess (shed + w)) eqn:E.
  - apply Qlt_b_spec in E. exists [], ts, w, rest. unfold sumQ. simpl. rewrite Qplus_0_r. done.
  - assert (shed + w <= excess)%Q as Hle'.
    { apply Qnot_lt_le. intros H. apply Qlt_b_spec in H. congruence. }
    destruct (IH _ Hle' Hlt) as (l1 & ts' & w' & l2 & -> & Hs & H1 & H2).
    exists ((ts, w) :: l1), ts', w', l2. simpl. rewrite sumQ_cons, Qplus_assoc. done.
Qed.

(** What is still counted at a later time, in terms of what has aged out. *)
Definition aged_out (t : datetime) (e : usage_event) : bool :=
  negb (dt_us (sub_us t BUCKET_SPAN) <=? dt_us (fst e))%Z.

Lemma in_window_later events now t :
  (dt_us now <= dt_us t)%Z ->
  in_window_at events t = List.filter (fun e => negb (aged_out t e)) (in_window_at events now).
Proof.
  intros Ht. unfold in_window_at, aged_out. rewrite filter_filter_bool. apply List.filter_ext.
  intros e. rewrite negb_involutive. simpl.
  destruct (dt_us t - BUCKET_SPAN <=? dt_us (fst e))%Z eqn:E; boolify.
  - rewrite (proj2 (Z.leb_le _ _)) by lia. done.
  - by rewrite andb_false_r.
Qed.

Lemma used_later events now t :
  (dt_us now <= dt_us t)%Z ->
  (total (in_window_at events t) ==
   total (in_window_at events now) - total (List.filter (aged_out t) (in_window_at events now)))%Q.
Proof.
  intros Ht. rewrite (in_window_later events now t Ht).
  rewrite (total_split (aged_out t) (in_window_at events now)). ring.
Qed.

Lemma event_leb_total a b : event_leb a b = false -> event_leb b a = true.
Proof. unfold event_leb. intros H. boolify. apply Z.leb_le. lia. Qed.
Lemma event_leb_trans a b c : event_leb a b = true -> event_leb b c = true -> event_leb a c = true.
Proof. unfold event_leb. intros H1 H2. boolify. apply Z.leb_le. lia. Qed.

Lemma total_perm l1 l2 : l1 ≡ₚ l2 -> (total l1 == total l2)%Q.
Proof. intros H. apply sumQ_perm. by apply Permutation_map. Qed.

Lemma filter_perm_bool {A} (p : A -> bool) l1 l2 : l1 ≡ₚ l2 -> List.filter p l1 ≡ₚ List.filter p l2.
Proof.
  induction 1 as [|x l1 l2 _ IH|x y l|l1 l2 l3 _ IH1 _ IH2]; simpl; [done | | | by etransitivity].
  - destruct (p x); by rewrite IH.
  - destruct (p x), (p y); try done. constructor.
Qed.

Lemma aged_prefix ordered l1 ts w l2 t :
  StronglySorted (fun a b => event_leb a b = true) ordered -> ordered = l1 ++ (ts, w) :: l2 ->
  Forall weighs ordered ->
  ((dt_us t <= dt_us ts + BUCKET_SPAN)%Z -> (total (List.filter (aged_out t) ordered) <= total l1)%Q) /\
  ((dt_us ts + BUCKET_SPAN < dt_us t)%Z ->
     (total l1 + w <= total (List.filter (aged_out t) ordered))%Q).
Proof.
  intros Hs -> Hw. apply Forall_app in Hw as [Hw1 [Hp Hw2]%Forall_cons].
  apply StronglySorted_app in Hs as (Hcross & _ & Hs2). apply StronglySorted_inv in Hs2 as [_ Hafter].
  assert (Hsum : (total (List.filter (aged_out t) (l1 ++ (ts, w) :: l2)) ==
    total (List.filter (aged_out t) l1) + total (List.filter (aged_out t) ((ts, w) :: l2)))%Q).
  { unfold total. rewrite List.filter_app, map_app. apply sumQ_app. }
  split; intros Ht.
  - assert (E : List.filter (aged_out t) ((ts, w) :: l2) = []).
    { apply filter_none. constructor.
      - unfold aged_out. simpl. apply negb_false_iff, Z.leb_le. lia.
      - eapply Forall_impl; [exact Hafter|]. intros e He. unfold event_leb in He. simpl in He.
        unfold aged_out. simpl. apply negb_false_iff, Z.leb_le. boolify. lia. }
    assert (H0 : (total (List.filter (aged_out t) ((ts, w) :: l2)) == 0)%Q) by by rewrite E.
    pose proof (total_filter_le (aged_out t) l1 Hw1). lra.
  - assert (Hall : List.filter (aged_out t) l1 = l1).
    { apply filter_all, Forall_forall. intros e He.
      assert (event_leb e (ts, w) = true) as Hle by (apply Hcross; [done | left]).
      unfold event_leb in Hle. simpl in Hle. unfold aged_out. simpl. boolify.
      apply negb_true_iff, Z.leb_gt. lia. }
    rewrite Hall in Hsum.
    assert (Hhead : (w <= total (List.filter (aged_out t) ((ts, w) :: l2)))%Q); [|lra].
    simpl. assert (aged_out t (ts, w) = true) as ->.
    { unfold aged_out. simpl. apply negb_true_iff, Z.leb_gt. lia. }
    unfold total. simpl. rewrite sumQ_cons.
    assert (0 <= sumQ (map snd (List.filter (aged_out t) l2)))%Q; [|lra].
    apply sumQ_nonneg, Forall_map, filter_Forall. eapply Forall_impl; [exact Hw2|].
    intros e He. by apply Qlt_le_weak.
Qed.

(** the reset horizon is exact: from the moment the guard reports the
    window exhausted, and with no further usage, it keeps reporting so up to
    the announced reset time, that instant included, and no longer. *)
Theorem reset_horizon_exact cap reserve events now t :
  (0 < cap)%Q -> (reserve < 1)%Q -> Forall weighs events -> (dt_us now <= dt_us t)%Z ->
  bs_exhausted (status_of cap reserve false events now) = true ->
  bs_exhausted (status_of cap reserve false events t) = true <->
  (dt_us t <= dt_us (bs_bucket_end (status_of cap reserve false events now)))%Z.
Proof.
  intros Hcap Hres Hw Ht. cbn [bs_exhausted bs_bucket_end status_of negb andb]. rewrite !Qle_b_spec.
  fold (total (in_window_at events now)) (total (in_window_at events t)).
  set (T := threshold_weighted cap reserve). set (win := in_window_at events now).
  assert (HT : (0 < T)%Q).
  { unfold T, threshold_weighted. apply Qmult_lt_0_compat; [done|]. lra. }
  intros Hex. unfold reset_horizon.
  destruct (Qlt_b (total win - T) 0) eqn:E; [apply Qlt_b_spec in E; lra|]. clear E.
  set (ordered := sorted_by event_leb win).
  assert (Hperm : ordered ≡ₚ win) by apply sorted_by_perm.
  assert (Hwin : Forall weighs win) by by apply filter_Forall.
  assert (Hord : Forall weighs ordered) by by rewrite Hperm.
  destruct (shed_until_spec (total win - T) ordered 0) as (l1 & ts & w & l2 & Ho & -> & H1 & H2).
  { lra. }
  { rewrite (total_perm _ _ Hperm). lra. }
  simpl. rewrite (used_later events now t Ht). fold win.
  rewrite <-(total_perm _ _ (filter_perm_bool (aged_out t) _ _ Hperm)).
  destruct (aged_prefix ordered l1 ts w l2 t) as [Hbefore Hafter]; [|exact Ho | exact Hord |].
  { apply sorted_by_sorted; [apply event_leb_total | apply event_leb_trans]. }
  split; intros Hx.
  - apply Z.nlt_ge. intros Hlt. specialize (Hafter Hlt). lra.
  - specialize (Hbefore Hx). lra.
Qed.

(** no setting switches the guard off by accident: whatever finite numbers
    or texts the environment holds and whatever was learned, the capacity is
    positive, the reserve between zero and ninety-five percent, and the
    threshold positive. *)
Theorem resolved_limits_bounded py_float environ learned :
  (0 < resolve_cap py_float environ learned)%Q /\
  (0 <= resolve_reserve py_float environ <= 95 # 100)%Q /\
  (0 < threshold_weighted (resolve_cap py_float environ learned) (resolve_reserve py_float environ))%Q.
Proof.
  assert (Hc : (0 < resolve_cap py_float environ learned)%Q).
  { unfold resolve_cap. match goal with |- context [Qle_b ?c 0] => set (cap := c) end.
    destruct (Qle_b cap 0) eqn:E; [reflexivity|]. apply Qnot_le_lt. intros H.
    apply Qle_b_spec in H. congruence. }
  assert (Hr : (0 <= resolve_reserve py_float environ <= 95 # 100)%Q).
  { unfold resolve_reserve. split; [|apply py_minQ_le_r]. unfold py_minQ.
    destruct (Qlt_b _ _); [discriminate | apply py_maxQ_ge_r]. }
  split; [done|]. split; [done|]. unfold threshold_weighted. apply Qmult_lt_0_compat; [done|]. lra.
Qed.

(** ** A window *)

Definition guard_now : datetime := mk_datetime (days 20000) true.
Definition sample_usage : list usage_event :=
  [(sub_us guard_now (hours 4), 20%Q); (sub_us guard_now (hours 1), 70%Q); (sub_us guard_now (hours 2), 30%Q)].

(** With a capacity of 120 and a quarter in reserve: 120 used, threshold 90. *)
Lemma reset_horizon_exact_witness :
  bs_bucket_end (status_of 120 (1 # 4) false sample_usage guard_now) = add_us guard_now (hours 3) /\
  (bs_exhausted (status_of 120 (1 # 4) false sample_usage (add_us guard_now (hours 2))) = true <->
   (dt_us (add_us guard_now (hours 2)) <=
    dt_us (bs_bucket_end (status_of 120 (1 # 4) false sample_usage guard_now)))%Z).
Proof.
  split; [vm_compute; reflexivity|].
  apply (reset_horizon_exact 120 (1 # 4) sample_usage guard_now (add_us guard_now (hours 2))).
  - reflexivity.
  - reflexivity.
  - repeat constructor.
  - vm_compute. discriminate.
  - vm_compute. reflexivity.
Defined.

(** A reset time that is now: the oldest usage is five hours old to the
    microsecond and alone exceeds the threshold. *)
Example horizon_is_now :
  let s := status_of 100 (1 # 4) false [(sub_us guard_now (hours 5), 80%Q)] guard_now in
  bs_exhausted s = true /\ bs_bucket_end s = guard_now.
Proof. vm_compute. done. Qed.
