(* ===== verification/GovernancePolicy.v ===== *)
(** * Governance policies of full audits

    audit_governance/models.py and policy.py: requests, budget and cooldown
    states, the eight policy checks in their order and the decision assembled
    from their results.  The wall clock is an argument wherever the code reads
    it; creation times, free metadata and evidence that no check reads are left
    out. *)
From S2P Require Import Prelude PyStr PyData.

Inductive AuditUrgency := U_LOW | U_NORMAL | U_HIGH | U_URGENT.

#[export] Instance AuditUrgency_eq_dec : EqDecision AuditUrgency.
Proof. solve_decision. Defined.

Definition AuditUrgency_value (u : AuditUrgency) : string :=
  match u with U_LOW => "low" | U_NORMAL => "normal" | U_HIGH => "high" | U_URGENT => "urgent" end.

Inductive GovernanceDecisionValue := GD_APPROVED | GD_DENIED | GD_NEEDS_MANUAL_APPROVAL | GD_DEFERRED.

#[export] Instance GovernanceDecisionValue_eq_dec : EqDecision GovernanceDecisionValue.
Proof. solve_decision. Defined.

Inductive PolicyStatus := GP_PASSED | GP_FAILED | GP_WARNING | GP_SKIPPED.

#[export] Instance PolicyStatus_eq_dec : EqDecision PolicyStatus.
Proof. solve_decision. Defined.

Record PolicyResult := {
  pr_policy_name : string;
  pr_status : PolicyStatus;
  pr_reason : string;
  pr_details : string }.

Record AuditGovernanceRequest := {
  gr_request_id : string;
  gr_repo_id : string;
  gr_audit_type : string;
  gr_requested_by : string;
  gr_requested_reason : string;
  gr_urgency : AuditUrgency;
  gr_related_suite_report_path : option string;
  gr_allow_if_recent_success : bool;
  gr_run_coverage_audit : bool }.

(** The field validators: a request is built only when none is blank. *)
Definition not_blank (name v : string) : res unit :=
  if str_truthy (strip v) then Ok tt else Raise (ValueError (name +:+ " must not be empty")).

Definition validated_request (r : AuditGovernanceRequest) : res AuditGovernanceRequest :=
  _ <-? not_blank "repo_id" (gr_repo_id r) ;;
  _ <-? not_blank "audit_type" (gr_audit_type r) ;;
  _ <-? not_blank "requested_reason" (gr_requested_reason r) ;;
  _ <-? not_blank "requested_by" (gr_requested_by r) ;;
  Ok r.

Record AuditGovernanceDecision := {
  gd_decision_id : string;
  gd_request_id : string;
  gd_repo_id : string;
  gd_audit_type : string;
  gd_decision : GovernanceDecisionValue;
  gd_reasons : list string;
  gd_policy_results : list PolicyResult;
  gd_requires_manual_approval : bool }.

Record AuditBudgetState := {
  ab_repo_id : string;
  ab_audit_type : string;
  ab_period_start : datetime;
  ab_period_end : datetime;
  ab_max_runs : Z;
  ab_runs_used : Z;
  ab_last_run_at : option datetime }.

Definition runs_remaining (s : AuditBudgetState) : Z := Z.max 0 (ab_max_runs s - ab_runs_used s).
Definition is_exhausted (s : AuditBudgetState) : bool := (ab_max_runs s <=? ab_runs_used s)%Z.

Record AuditCooldownState := {
  ac_repo_id : string;
  ac_audit_type : string;
  ac_cooldown_seconds : Q;
  ac_last_run_at : option datetime }.

(** [(t - last).total_seconds()]. *)
Definition elapsed_seconds (t last : datetime) : res Q :=
  us <-? dt_diff t last ;; Ok (us # 1000000)%Q.

Definition is_in_cooldown (s : AuditCooldownState) (t : datetime) : res bool :=
  match ac_last_run_at s with
  | None => Ok false
  | Some last => elapsed <-? elapsed_seconds t last ;; Ok (Qlt_b elapsed (ac_cooldown_seconds s))
  end.

Definition seconds_remaining (s : AuditCooldownState) (t : datetime) : res Q :=
  match ac_last_run_at s with
  | None => Ok 0%Q
  | Some last => elapsed <-? elapsed_seconds t last ;; Ok (py_maxQ 0 (ac_cooldown_seconds s - elapsed))
  end.

Record BudgetConfig := { bc_max_runs : Z; bc_period_days : Z }.
Definition default_budget_config : BudgetConfig := {| bc_max_runs := 10; bc_period_days := 7 |}.

Record CooldownConfig := { cc_cooldown_seconds : Q }.
Definition default_cooldown_config : CooldownConfig := {| cc_cooldown_seconds := 3600 |}.

Record GovernanceConfig := {
  gc_known_repos : list string;
  gc_known_audit_types : gmap string (list string);
  gc_budget_config : gmap string (gmap string BudgetConfig);
  gc_cooldown_config : gmap string (gmap string CooldownConfig);
  gc_require_mini_regression_for_urgency : list string }.

(** [GovernanceConfig()]. *)
Definition default_governance_config : GovernanceConfig :=
  {| gc_known_repos := []; gc_known_audit_types := ∅; gc_budget_config := ∅;
     gc_cooldown_config := ∅; gc_require_mini_regression_for_urgency := ["low"; "normal"] |}.

Definition get_budget_config (c : GovernanceConfig) (repo_id audit_type : string) : BudgetConfig :=
  default default_budget_config (default ∅ (gc_budget_config c !! repo_id) !! audit_type).
Definition get_cooldown_config (c : GovernanceConfig) (repo_id audit_type : string) : CooldownConfig :=
  default default_cooldown_config (default ∅ (gc_cooldown_config c !! repo_id) !! audit_type).

(** ** The checks *)

Definition policy_result (name : string) (status : PolicyStatus) (reason details : string)
    : PolicyResult :=
  {| pr_policy_name := name; pr_status := status; pr_reason := reason; pr_details := details |}.

Definition check_manual_request_required (request : AuditGovernanceRequest) : PolicyResult :=
  if str_truthy (strip (gr_requested_by request))
  then policy_result "manual_request_required" GP_PASSED "requested_by is present." ""
  else policy_result "manual_request_required" GP_FAILED
         "requested_by is empty — full audits require an identified requester." "".

Definition check_known_repo (request : AuditGovernanceRequest) (known_repos : list string)
    : PolicyResult :=
  if negb (list_truthy known_repos)
  then policy_result "known_repo_required" GP_FAILED
         "No known_repos configured — all repo_id values are denied until known_repos is populated."
         "Configure known_repos in GovernanceConfig to permit specific repos."
  else if str_in (gr_repo_id request) known_repos
  then policy_result "known_repo_required" GP_PASSED
         ("repo_id " +:+ repr (gr_repo_id request) +:+ " is a known managed repo.") ""
  else policy_result "known_repo_required" GP_FAILED
         ("repo_id " +:+ repr (gr_repo_id request) +:+ " is not in the known_repos list.")
         ("Known repos: " +:+
            (if str_truthy (join ", " known_repos) then join ", " known_repos else "none")).

Definition check_known_audit_type (request : AuditGovernanceRequest)
    (known_audit_types : gmap string (list string)) : PolicyResult :=
  let name := "known_audit_type_required" in
  if bool_decide (known_audit_types = ∅)
  then policy_result name GP_FAILED "known_audit_types is empty — all audit types are denied."
         "Configure known_audit_types in GovernanceConfig."
  else
    match known_audit_types !! gr_repo_id request with
    | None =>
        policy_result name GP_WARNING
          ("No audit types configured for repo " +:+ repr (gr_repo_id request) +:+ ".")
          "Configure known_audit_types in GovernanceConfig to enforce this check."
    | Some allowed =>
        if str_in (gr_audit_type request) allowed
        then policy_result name GP_PASSED
               ("audit_type " +:+ repr (gr_audit_type request) +:+ " is valid for " +:+
                repr (gr_repo_id request) +:+ ".") ""
        else policy_result name GP_FAILED
               ("audit_type " +:+ repr (gr_audit_type request) +:+
                " is not configured for repo " +:+ repr (gr_repo_id request) +:+ ".")
               ("Allowed types: " +:+ join ", " allowed)
    end.

Definition last_run_text (o : option datetime) (missing : string) : string :=
  match o with Some t => "Last run: " +:+ isoformat t | None => missing end.

Definition check_cooldown_policy (cooldown_state : option AuditCooldownState) (now : datetime)
    : res PolicyResult :=
  match cooldown_state with
  | None => Ok (policy_result "cooldown_policy" GP_SKIPPED
                  "No cooldown state available; check skipped." "")
  | Some s =>
      active <-? is_in_cooldown s now ;;
      if negb (active : bool)
      then Ok (policy_result "cooldown_policy" GP_PASSED "Cooldown period has elapsed."
                 (last_run_text (ac_last_run_at s) "No previous runs."))
      else
        remaining <-? seconds_remaining s now ;;
        Ok (policy_result "cooldown_policy" GP_FAILED
              ("Cooldown active: " +:+ fmt_0f remaining +:+ "s remaining (cooldown=" +:+
               fmt_0f (ac_cooldown_seconds s) +:+ "s).")
              (last_run_text (ac_last_run_at s) "Last run: unknown"))
  end.

Definition check_budget_policy (budget_state : option AuditBudgetState) : PolicyResult :=
  match budget_state with
  | None => policy_result "budget_policy" GP_SKIPPED "No budget state available; check skipped." ""
  | Some s =>
      if negb (is_exhausted s)
      then policy_result "budget_policy" GP_PASSED
             ("Budget available: " +:+ str_of_Z (runs_remaining s) +:+ " of " +:+
              str_of_Z (ab_max_runs s) +:+ " runs remaining in period.") ""
      else policy_result "budget_policy" GP_FAILED
             ("Budget exhausted: " +:+ str_of_Z (ab_runs_used s) +:+ "/" +:+
              str_of_Z (ab_max_runs s) +:+ " runs used in period ending " +:+
              isoformat (ab_period_end s) +:+ ".") ""
  end.

Definition check_mini_regression_first (request : AuditGovernanceRequest)
    (require_for_urgency : list string) : PolicyResult :=
  let name := "mini_regression_first_policy" in
  let urgency := repr (AuditUrgency_value (gr_urgency request)) in
  if opt_truthy (gr_related_suite_report_path request)
  then policy_result name GP_PASSED "Related mini regression suite report is present."
         ("Suite report: " +:+ default "None" (gr_related_suite_report_path request))
  else if str_in (AuditUrgency_value (gr_urgency request)) require_for_urgency
  then policy_result name GP_FAILED
         ("No related mini regression suite report found for urgency=" +:+ urgency +:+
          ". Run Phase 11 mini regression first or provide related_suite_report_path.") ""
  else policy_result name GP_WARNING
         ("No related mini regression suite report for urgency=" +:+ urgency +:+
          ". Consider running Phase 11 first.") "".

(** [urgency in ("high", "urgent")]. *)
Definition is_urgent (request : AuditGovernanceRequest) : bool :=
  match gr_urgency request with U_HIGH | U_URGENT => true | U_LOW | U_NORMAL => false end.

Definition check_urgent_override (request : AuditGovernanceRequest) : PolicyResult :=
  let urgency := repr (AuditUrgency_value (gr_urgency request)) in
  if is_urgent request
  then policy_result "urgent_override_policy" GP_WARNING
         ("urgency=" +:+ urgency +:+ " requires manual approval before dispatch. " +:+
          "Urgent requests are never auto-approved.") ""
  else policy_result "urgent_override_policy" GP_PASSED
         ("urgency=" +:+ urgency +:+ " does not require urgent override handling.") "".

Definition check_recent_success (request : AuditGovernanceRequest)
    (cooldown_state : option AuditCooldownState) (now : datetime) : res PolicyResult :=
  let name := "recent_success_policy" in
  if negb (gr_allow_if_recent_success request)
  then Ok (policy_result name GP_SKIPPED "allow_if_recent_success is False; check skipped." "")
  else
    has_recent <-? match cooldown_state with
                   | Some s => match ac_last_run_at s with
                               | Some _ => is_in_cooldown s now
                               | None => Ok false
                               end
                   | None => Ok false
                   end ;;
    Ok (if has_recent : bool
        then policy_result name GP_WARNING
               "A recent run exists within the cooldown window; consider deferring."
               (last_run_text (cooldown_state ≫= ac_last_run_at) "Last run: unknown")
        else policy_result name GP_PASSED
               "No recent run within cooldown window; proceeding normally." "").

(** [cooldown_now] and [recent_now] are the two readings of the clock. *)
Definition evaluate_governance_policies (request : AuditGovernanceRequest)
    (known_repos : list string) (known_audit_types : gmap string (list string))
    (budget_state : option AuditBudgetState) (cooldown_state : option AuditCooldownState)
    (require_mini_regression_for_urgency : list string) (cooldown_now recent_now : datetime)
    : res (list PolicyResult) :=
  cooldown <-? check_cooldown_policy cooldown_state cooldown_now ;;
  recent <-? check_recent_success request cooldown_state recent_now ;;
  Ok [check_manual_request_required request;
      check_known_repo request known_repos;
      check_known_audit_type request known_audit_types;
      cooldown;
      check_budget_policy budget_state;
      check_mini_regression_first request require_mini_regression_for_urgency;
      check_urgent_override request;
      recent].

(** ** The decision *)

Definition failed_or_warned (p : PolicyResult) : bool :=
  match pr_status p with GP_FAILED | GP_WARNING => true | GP_PASSED | GP_SKIPPED => false end.
Definition failed (p : PolicyResult) : bool := bool_decide (pr_status p = GP_FAILED).

Definition hard_deny_checks : list string :=
  ["known_repo_required"; "known_audit_type_required"; "manual_request_required"].

(** [{p.policy_name: p for p in results}.get(name)]: the last result of that name. *)
Definition by_name (results : list PolicyResult) (name : string) : option PolicyResult :=
  find_first (fun p => String.eqb (pr_policy_name p) name) (rev results).

Definition status_of_policy (results : list PolicyResult) (name : string) : option PolicyStatus :=
  pr_status <$> by_name results name.

Definition governance_decision (decision_id : string) (request : AuditGovernanceRequest)
    (results : list PolicyResult) (value : GovernanceDecisionValue) (reasons : list string)
    (manual : bool) : AuditGovernanceDecision :=
  {| gd_decision_id := decision_id; gd_request_id := gr_request_id request;
     gd_repo_id := gr_repo_id request; gd_audit_type := gr_audit_type request;
     gd_decision := value; gd_reasons := reasons; gd_policy_results := results;
     gd_requires_manual_approval := manual |}.

Definition make_governance_decision (decision_id : string) (request : AuditGovernanceRequest)
    (policy_results : list PolicyResult) : AuditGovernanceDecision :=
  let decide := governance_decision decision_id request policy_results in
  let hard_failures := List.filter
    (fun p => str_in (pr_policy_name p) hard_deny_checks && failed p) policy_results in
  if list_truthy hard_failures then decide GD_DENIED (map pr_reason hard_failures) false
  else
    let status := status_of_policy policy_results in
    let needs_manual :=
      bool_decide (status "urgent_override_policy" = Some GP_WARNING) ||
      bool_decide (status "mini_regression_first_policy" = Some GP_FAILED) in
    let budget_failed := bool_decide (status "budget_policy" = Some GP_FAILED) in
    let cooldown_failed := bool_decide (status "cooldown_policy" = Some GP_FAILED) in
    if needs_manual || is_urgent request && (budget_failed || cooldown_failed) then
      let reasons := map pr_reason (List.filter failed_or_warned policy_results) in
      decide GD_NEEDS_MANUAL_APPROVAL
        (if list_truthy reasons then reasons
         else ["Manual approval required based on urgency or evidence rules."]) true
    else if budget_failed || cooldown_failed then
      decide GD_DEFERRED (map pr_reason (List.filter failed policy_results)) false
    else decide GD_APPROVED ["All required policy checks passed."] false.

(** ** The verdict

    What the decision says, apart from the wording: the facts it depends on,
    in their order of precedence. *)

Definition hard_denied (request : AuditGovernanceRequest) (known_repos : list string)
    (known_audit_types : gmap string (list string)) : bool :=
  negb (str_truthy (strip (gr_requested_by request))) ||
  negb (str_in (gr_repo_id request) known_repos) ||
  match known_audit_types !! gr_repo_id request with
  | Some allowed => negb (str_in (gr_audit_type request) allowed)
  | None => bool_decide (known_audit_types = ∅)
  end.

Definition evidence_missing (request : AuditGovernanceRequest) (urgencies : list string) : bool :=
  negb (opt_truthy (gr_related_suite_report_path request)) &&
  str_in (AuditUrgency_value (gr_urgency request)) urgencies.

Definition budget_spent (budget_state : option AuditBudgetState) : bool :=
  match budget_state with Some s => is_exhausted s | None => false end.

Definition cooling (cooldown_state : option AuditCooldownState) (now : datetime) : res bool :=
  match cooldown_state with Some s => is_in_cooldown s now | None => Ok false end.

Definition governance_verdict (denied manual out_of_quota : bool) : GovernanceDecisionValue :=
  if denied then GD_DENIED
  else if manual then GD_NEEDS_MANUAL_APPROVAL
  else if out_of_quota then GD_DEFERRED else GD_APPROVED.

Lemma list_truthy_filter {A} (p : A -> bool) l : list_truthy (List.filter p l) = existsb p l.
Proof. induction l as [|x l IH]; simpl; [done|]. by destruct (p x). Qed.

Ltac check_cases := repeat case_match; simplify_eq; try done.

Lemma name_manual r : pr_policy_name (check_manual_request_required r) = "manual_request_required".
Proof. unfold check_manual_request_required. by case_match. Qed.
Lemma name_repo r l : pr_policy_name (check_known_repo r l) = "known_repo_required".
Proof. unfold check_known_repo. check_cases. Qed.
Lemma name_type r m : pr_policy_name (check_known_audit_type r m) = "known_audit_type_required".
Proof. unfold check_known_audit_type. check_cases. Qed.
Lemma name_budget b : pr_policy_name (check_budget_policy b) = "budget_policy".
Proof. unfold check_budget_policy. check_cases. Qed.
Lemma name_mini r l : pr_policy_name (check_mini_regression_first r l) = "mini_regression_first_policy".
Proof. unfold check_mini_regression_first. check_cases. Qed.
Lemma name_urgent r : pr_policy_name (check_urgent_override r) = "urgent_override_policy".
Proof. unfold check_urgent_override. by case_match. Qed.

Lemma failed_manual r :
  failed (check_manual_request_required r) = negb (str_truthy (strip (gr_requested_by r))).
Proof. unfold check_manual_request_required. by case_match. Qed.
Lemma failed_repo r l : failed (check_known_repo r l) = negb (str_in (gr_repo_id r) l).
Proof. unfold check_known_repo. destruct l as [|x l]; [done|]. simpl. by case_match. Qed.
Lemma failed_type r m :
  failed (check_known_audit_type r m) =
  match m !! gr_repo_id r with
  | Some allowed => negb (str_in (gr_audit_type r) allowed)
  | None => bool_decide (m = ∅)
  end.
Proof.
  unfold check_known_audit_type. case_bool_decide as Hm.
  - subst m. by rewrite lookup_empty.
  - destruct (m !! gr_repo_id r); [by case_match | done].
Qed.
Lemma failed_budget b : failed (check_budget_policy b) = budget_spent b.
Proof. destruct b as [s|]; simpl; [|done]. by destruct (is_exhausted s). Qed.
Lemma failed_mini r l : failed (check_mini_regression_first r l) = evidence_missing r l.
Proof. unfold check_mini_regression_first, evidence_missing. destruct (opt_truthy _); [done|]. by case_match. Qed.
Lemma warned_urgent r :
  bool_decide (Some (pr_status (check_urgent_override r)) = Some GP_WARNING) = is_urgent r.
Proof. unfold check_urgent_override. by destruct (is_urgent r). Qed.

Lemma failed_some p : bool_decide (Some (pr_status p) = Some GP_FAILED) = failed p.
Proof. unfold failed. apply bool_decide_ext. split; congruence. Qed.

Lemma check_cooldown_spec s now p :
  check_cooldown_policy s now = Ok p ->
  pr_policy_name p = "cooldown_policy" /\ cooling s now = Ok (failed p).
Proof.
  unfold check_cooldown_policy, cooling. destruct s as [s|]; [|by intros [= <-]].
  unfold seconds_remaining, is_in_cooldown.
  destruct (ac_last_run_at s) as [last|]; simpl; [|by intros [= <-]].
  destruct (elapsed_seconds now last) as [q|e]; simpl; [|done].
  destruct (Qlt_b _ _); simpl; by intros [= <-].
Qed.

Lemma check_recent_name r s now p :
  check_recent_success r s now = Ok p -> pr_policy_name p = "recent_success_policy".
Proof.
  unfold check_recent_success. destruct (negb _); [by intros [= <-]|].
  destruct (match s with Some _ => _ | None => _ end) as [b|e]; simpl; [|done].
  intros [= <-]. by destruct b.
Qed.

(** The decision the checks lead to. *)
Lemma decision_verdict id r repos types b s urg t1 t2 results :
  evaluate_governance_policies r repos types b s urg t1 t2 = Ok results ->
  exists c, cooling s t1 = Ok c /\
    gd_decision (make_governance_decision id r results) =
      governance_verdict (hard_denied r repos types) (is_urgent r || evidence_missing r urg)
        (budget_spent b || c) /\
    gd_requires_manual_approval (make_governance_decision id r results) =
      bool_decide (gd_decision (make_governance_decision id r results) = GD_NEEDS_MANUAL_APPROVAL).
Proof.
  unfold evaluate_governance_policies.
  destruct (check_cooldown_policy s t1) as [pc|] eqn:Hc; simpl; [|done].
  destruct (check_recent_success r s t2) as [pr|] eqn:Hr; simpl; [|done].
  apply check_cooldown_spec in Hc as [Hnc Hc]. apply check_recent_name in Hr as Hnr.
  intros [= <-]. exists (failed pc). split; [done|].
  set (results := [_; _; _; _; _; _; _; _]).
  assert (Hhard : list_truthy (List.filter
    (fun p => str_in (pr_policy_name p) hard_deny_checks && failed p) results) =
    hard_denied r repos types).
  { rewrite list_truthy_filter. unfold results, hard_denied. cbn [existsb].
    rewrite name_manual, name_repo, name_type, name_budget, name_mini, name_urgent, Hnc, Hnr.
    rewrite <-failed_manual, <-(failed_repo r repos), <-(failed_type r types).
    change (str_in "known_repo_required" hard_deny_checks) with true.
    change (str_in "known_audit_type_required" hard_deny_checks) with true.
    change (str_in "manual_request_required" hard_deny_checks) with true.
    change (str_in "cooldown_policy" hard_deny_checks) with false.
    change (str_in "budget_policy" hard_deny_checks) with false.
    change (str_in "mini_regression_first_policy" hard_deny_checks) with false.
    change (str_in "urgent_override_policy" hard_deny_checks) with false.
    change (str_in "recent_success_policy" hard_deny_checks) with false.
    cbn [andb]. by rewrite !orb_false_r, <-!orb_assoc. }
  assert (Hlook : forall name p, by_name results name = Some p ->
    status_of_policy results name = Some (pr_status p)).
  { intros name p E. unfold status_of_policy. by rewrite E. }
  assert (Hall : by_name results "urgent_override_policy" = Some (check_urgent_override r) /\
    by_name results "mini_regression_first_policy" = Some (check_mini_regression_first r urg) /\
    by_name results "budget_policy" = Some (check_budget_policy b) /\
    by_name results "cooldown_policy" = Some pc).
  { unfold by_name, find_first, results. cbn [rev app List.find].
    rewrite Hnr, name_urgent, name_mini, name_budget, Hnc. done. }
  destruct Hall as (Hu & Hm & Hb & Hcd).
  unfold make_governance_decision. rewrite Hhard.
  rewrite (Hlook _ _ Hu), (Hlook _ _ Hm), (Hlook _ _ Hb), (Hlook _ _ Hcd).
  rewrite warned_urgent, !failed_some, failed_mini, failed_budget.
  destruct (hard_denied r repos types); [done|]. unfold governance_verdict.
  destruct (is_urgent r), (evidence_missing r urg), (budget_spent b), (failed pc); done.
Qed.
