(* ===== verification/AuditLocks.v ===== *)
(** * One audit per repository

    audit_dispatch/lock_store.py and locks.py: the lock files with their two
    process ids, the registry each process keeps, and the processes that share
    the files.  The file lock beside each lock file makes every operation of
    the store one atomic step; acquiring it, and writing, may fail.  The system
    part runs any number of dispatching processes, audits and unrelated
    processes over one set of files. *)
From S2P Require Import Prelude PyStr PyData.

Definition LOCK_SCHEMA_VERSION : Z := 1.

Definition LockStoreCorruptError (m : string) : exn := NamedError "LockStoreCorruptError" m.
Definition RepoLockAlreadyHeldError (m : string) : exn := NamedError "RepoLockAlreadyHeldError" m.
Definition FileNotFoundError (m : string) : exn := NamedError "FileNotFoundError" m.

Definition is_corrupt (e : exn) : bool :=
  match e with NamedError cls _ => String.eqb cls "LockStoreCorruptError" | _ => false end.

(** What [os.kill(pid, 0)] does. *)
Inductive kill_result := KillOk | KillNoProcess | KillNotPermitted | KillError (no_such_process : bool).

Definition is_pid_alive (kill : Z -> kill_result) (pid : option Z) : bool :=
  match pid with
  | None => false
  | Some n =>
      if (n <=? 0)%Z then false
      else match kill n with
           | KillOk | KillNotPermitted => true
           | KillNoProcess => false
           | KillError esrch => negb esrch
           end
  end.

Record PersistentLockPayload := {
  pl_repo_id : string;
  pl_run_id : string;
  pl_audit_type : string;
  pl_oc_pid : Z;
  pl_started_at : string;
  pl_command : string;
  pl_expected_run_status_path : string;
  pl_audit_pid : option Z;
  pl_audit_pgid : option Z;
  pl_owner_hostname : string;
  pl_lock_schema_version : Z }.

(** The lock files by repository. *)
Abbreviation lock_files := (gmap string json_file).

Definition opt_jint (o : option Z) : jval := match o with Some n => JInt n | None => JNull end.

Definition payload_to_json (p : PersistentLockPayload) : jval :=
  JObj [("lock_schema_version", JInt (pl_lock_schema_version p));
        ("repo_id", JStr (pl_repo_id p)); ("run_id", JStr (pl_run_id p));
        ("audit_type", JStr (pl_audit_type p)); ("oc_pid", JInt (pl_oc_pid p));
        ("audit_pid", opt_jint (pl_audit_pid p)); ("audit_pgid", opt_jint (pl_audit_pgid p));
        ("started_at", JStr (pl_started_at p)); ("command", JStr (pl_command p));
        ("expected_run_status_path", JStr (pl_expected_run_status_path p));
        ("owner_hostname", JStr (pl_owner_hostname p))].

(** [int(data[k]) if data.get(k) is not None else None]. *)
Definition opt_int (d : dict) (k : string) : res (option Z) :=
  match dget d k with JNull => Ok None | v => n <-? jint v ;; Ok (Some n) end.

Section Payload.
Context (gethostname : string).

Definition payload_fields (d : dict) : res PersistentLockPayload :=
  repo_id <-? ditem d "repo_id" ;;
  run_id <-? ditem d "run_id" ;;
  audit_type <-? ditem d "audit_type" ;;
  oc_pid <-? ditem d "oc_pid" ;;
  oc_pid <-? jint oc_pid ;;
  started_at <-? ditem d "started_at" ;;
  command <-? ditem d "command" ;;
  path <-? ditem d "expected_run_status_path" ;;
  audit_pid <-? opt_int d "audit_pid" ;;
  audit_pgid <-? opt_int d "audit_pgid" ;;
  version <-? jint (default (JInt LOCK_SCHEMA_VERSION) (d !! "lock_schema_version")) ;;
  Ok {| pl_repo_id := jtext repo_id; pl_run_id := jtext run_id; pl_audit_type := jtext audit_type;
        pl_oc_pid := oc_pid; pl_started_at := jtext started_at; pl_command := jtext command;
        pl_expected_run_status_path := jtext path; pl_audit_pid := audit_pid;
        pl_audit_pgid := audit_pgid;
        pl_owner_hostname := jtext (default (JStr gethostname) (d !! "owner_hostname"));
        pl_lock_schema_version := version |}.

(** A missing or malformed field, or a value that is no object, is corruption. *)
Definition payload_from_json (v : jval) : res PersistentLockPayload :=
  let r := match v with
           | JObj l => payload_fields (list_to_map l)
           | _ => Raise (TypeError "indices must be integers")
           end in
  match r with
  | Ok p => Ok p
  | Raise e => Raise (LockStoreCorruptError
      ("malformed lock payload: missing/invalid field (" +:+ exn_text e +:+ ")"))
  end.

Definition is_alive (kill : Z -> kill_result) (p : PersistentLockPayload) : bool :=
  is_pid_alive kill (Some (pl_oc_pid p)) || is_pid_alive kill (pl_audit_pid p).

(** ** The store

    [flock] is what acquiring the file lock of an operation does, [disk] what
    its write does. *)
Definition lock_file (store : lock_files) (repo_id : string) : json_file :=
  default FileMissing (store !! repo_id).

Definition read_lock (store : lock_files) (repo_id : string) : res (option PersistentLockPayload) :=
  match lock_file store repo_id with
  | FileMissing => Ok None
  | FileCorrupt e => Raise (LockStoreCorruptError
      ("lock file " +:+ repo_id +:+ ".lock is not valid JSON: " +:+ exn_text e))
  | FileHolds v => p <-? payload_from_json v ;; Ok (Some p)
  end.

Definition write_lock (disk : res unit) (store : lock_files) (p : PersistentLockPayload)
    (repo_id : string) : lock_files * res PersistentLockPayload :=
  match disk with
  | Raise e => (store, Raise e)
  | Ok _ => (<[repo_id := FileHolds (payload_to_json p)]> store, Ok p)
  end.

Definition held_by (p : PersistentLockPayload) (repo_id : string) : exn :=
  RepoLockAlreadyHeldError
    ("managed audit lock for repo " +:+ repr repo_id +:+ " is held by run " +:+ pl_run_id p +:+
     " (oc_pid=" +:+ str_of_Z (pl_oc_pid p) +:+ ", audit_pid=" +:+
     match pl_audit_pid p with Some n => str_of_Z n | None => "None" end +:+ ")").

Definition try_acquire (kill : Z -> kill_result) (flock disk : res unit) (store : lock_files)
    (payload : PersistentLockPayload) : lock_files * res PersistentLockPayload :=
  match flock with
  | Raise e => (store, Raise e)
  | Ok _ =>
      match read_lock store (pl_repo_id payload) with
      | Raise e => (store, Raise e)
      | Ok existing =>
          match existing with
          | Some held => if is_alive kill held then (store, Raise (held_by held (pl_repo_id payload)))
                         else write_lock disk store payload (pl_repo_id payload)
          | None => write_lock disk store payload (pl_repo_id payload)
          end
      end
  end.

Definition release_lock (flock : res unit) (store : lock_files) (repo_id : string)
    : lock_files * res bool :=
  match flock with
  | Raise e => (store, Raise e)
  | Ok _ =>
      match lock_file store repo_id with
      | FileMissing => (store, Ok false)
      | _ => (delete repo_id store, Ok true)
      end
  end.

(** [replace(existing, audit_pid=..., audit_pgid=...)]. *)
Definition with_audit (p : PersistentLockPayload) (audit_pid audit_pgid : option Z)
    : PersistentLockPayload :=
  {| pl_repo_id := pl_repo_id p; pl_run_id := pl_run_id p; pl_audit_type := pl_audit_type p;
     pl_oc_pid := pl_oc_pid p; pl_started_at := pl_started_at p; pl_command := pl_command p;
     pl_expected_run_status_path := pl_expected_run_status_path p;
     pl_audit_pid := audit_pid; pl_audit_pgid := audit_pgid;
     pl_owner_hostname := pl_owner_hostname p;
     pl_lock_schema_version := pl_lock_schema_version p |}.

Definition update_lock (flock disk : res unit) (store : lock_files) (repo_id : string)
    (audit_pid audit_pgid : option Z) : lock_files * res PersistentLockPayload :=
  match flock with
  | Raise e => (store, Raise e)
  | Ok _ =>
      match read_lock store repo_id with
      | Raise e => (store, Raise e)
      | Ok None => (store, Raise (FileNotFoundError ("no lock to update for repo " +:+ repr repo_id)))
      | Ok (Some existing) => write_lock disk store (with_audit existing audit_pid audit_pgid) repo_id
      end
  end.

Definition reclaim_if_stale (kill : Z -> kill_result) (flock : res unit) (store : lock_files)
    (repo_id : string) : lock_files * res bool :=
  match flock with
  | Raise e => (store, Raise e)
  | Ok _ =>
      match read_lock store repo_id with
      | Raise e => if is_corrupt e then (delete repo_id store, Ok true) else (store, Raise e)
      | Ok None => (store, Ok false)
      | Ok (Some existing) =>
          if is_alive kill existing then (store, Ok false) else (delete repo_id store, Ok true)
      end
  end.

(** [sorted(state_dir.glob("*.lock"))] without the stems that hold a dot,
    which is how the sentinels beside the files are told apart. *)
Definition iter_lock_files (store : lock_files) : list string :=
  List.filter (fun repo_id => negb (contains repo_id "."))
    (sorted_by str_leb (elements (dom store))).

Definition list_active (store : lock_files) : list PersistentLockPayload :=
  omap (fun repo_id => match read_lock store repo_id with
                       | Ok o => o
                       | Raise _ => None
                       end) (iter_lock_files store).

(** The sweep over [names]; [flock] answers per repository. *)
Fixpoint sweep_files (kill : Z -> kill_result) (flock : string -> res unit) (names : list string)
    (store : lock_files) : lock_files * res (list string) :=
  match names with
  | [] => (store, Ok [])
  | repo_id :: names' =>
      match reclaim_if_stale kill (flock repo_id) store repo_id with
      | (store, Raise e) => (store, Raise e)
      | (store, Ok reclaimed) =>
          let '(store, r) := sweep_files kill flock names' store in
          (store, rest <-? r ;; Ok (if reclaimed then repo_id :: rest else rest))
      end
  end.

Definition sweep_stale (kill : Z -> kill_result) (flock : string -> res unit) (store : lock_files)
    : lock_files * res (list string) :=
  sweep_files kill flock (iter_lock_files store) store.

(** ** The registry of one process *)

Record lock_registry := { lr_held : gset string; lr_swept : bool }.
Definition new_registry : lock_registry := {| lr_held := ∅; lr_swept := false |}.

(** The identity a caller passes; [or] gives the legacy defaults. *)
Record lock_identity := {
  li_run_id : option string;
  li_audit_type : option string;
  li_oc_pid : option Z;
  li_command : string;
  li_expected_run_status_path : string }.

Definition identity_payload (getpid : Z) (now_iso : string) (repo_id : string) (i : lock_identity)
    : PersistentLockPayload :=
  {| pl_repo_id := repo_id; pl_run_id := str_or (li_run_id i) "legacy";
     pl_audit_type := str_or (li_audit_type i) "unknown";
     pl_oc_pid := match li_oc_pid i with
                  | Some n => if (n =? 0)%Z then getpid else n
                  | None => getpid
                  end;
     pl_started_at := now_iso; pl_command := li_command i;
     pl_expected_run_status_path := li_expected_run_status_path i; pl_audit_pid := None;
     pl_audit_pgid := None; pl_owner_hostname := gethostname;
     pl_lock_schema_version := LOCK_SCHEMA_VERSION |}.

Definition sweep_once (kill : Z -> kill_result) (flock : string -> res unit) (reg : lock_registry)
    (store : lock_files) : lock_registry * lock_files * res unit :=
  if lr_swept reg then (reg, store, Ok tt)
  else let '(store, r) := sweep_stale kill flock store in
       ({| lr_held := lr_held reg; lr_swept := true |}, store, _ <-? r ;; Ok tt).

(** The part of [acquire] under the mutex. *)
Definition acquire_held (kill : Z -> kill_result) (flock disk : res unit) (reg : lock_registry)
    (store : lock_files) (payload : PersistentLockPayload)
    : lock_registry * lock_files * res PersistentLockPayload :=
  let repo_id := pl_repo_id payload in
  if bool_decide (repo_id ∈ lr_held reg)
  then (reg, store, Raise (RepoLockAlreadyHeldError
          ("A managed audit is already running for repo '" +:+ repo_id +:+
           "' in this OpsCenter process. Only one audit per repo is " +:+
           "permitted at a time. Wait for the in-progress audit to " +:+
           "complete before dispatching another.")))
  else
    match try_acquire kill flock disk store payload with
    | (store, Raise e) => (reg, store, Raise e)
    | (store, Ok p) =>
        ({| lr_held := {[repo_id]} ∪ lr_held reg; lr_swept := lr_swept reg |}, store, Ok p)
    end.

Definition registry_acquire (kill : Z -> kill_result) (sweep_flock : string -> res unit)
    (flock disk : res unit) (getpid : Z) (now_iso : string) (reg : lock_registry) (store : lock_files) (repo_id : string)
    (i : lock_identity) : lock_registry * lock_files * res PersistentLockPayload :=
  match sweep_once kill sweep_flock reg store with
  | (reg, store, Raise e) => (reg, store, Raise e)
  | (reg, store, Ok _) =>
      acquire_held kill flock disk reg store (identity_payload getpid now_iso repo_id i)
  end.

(** Releasing never raises. *)
Definition registry_release (flock : res unit) (reg : lock_registry) (store : lock_files)
    (repo_id : string) : lock_registry * lock_files :=
  ({| lr_held := lr_held reg ∖ {[repo_id]}; lr_swept := lr_swept reg |},
   fst (release_lock flock store repo_id)).

Definition is_held (kill : Z -> kill_result) (reg : lock_registry) (store : lock_files)
    (repo_id : string) : bool :=
  bool_decide (repo_id ∈ lr_held reg) ||
  match read_lock store repo_id with Ok (Some p) => is_alive kill p | _ => false end.
Lemma payload_round_trip p : payload_from_json (payload_to_json p) = Ok p.
Proof.
  destruct p as [? ? ? ? ? ? ? apid apgid ? ?]. destruct apid, apgid; reflexivity.
Qed.

(** ** The processes

    Dispatching processes, the audits they spawn and unrelated processes share
    one space of process ids; a dispatch is a job of its process, from the
    acquired lock over the spawned audit to the recorded audit pid. *)
Inductive job := Acquired | Spawned (audit_pid : Z) | Recorded (audit_pid : Z).

Record system := {
  sy_store : lock_files;
  sy_live : gset Z;
  sy_regs : gmap Z lock_registry;
  sy_running : gmap Z string;
  sy_jobs : gmap (Z * string) job }.

Definition sys_kill (s : system) (n : Z) : kill_result :=
  if bool_decide (n ∈ sy_live s) then KillOk else KillNoProcess.

Inductive event :=
  | E_boot (p : Z)
  | E_sweep (p : Z) (r : string) (flock : res unit)
  | E_acquire (p : Z) (r : string) (i : lock_identity) (now_iso : string) (flock disk : res unit)
  | E_spawn (p : Z) (r : string) (a : Z)
  | E_record (p : Z) (r : string) (pgid : option Z) (flock disk : res unit)
  | E_exit (a : Z)
  | E_finish (p : Z) (r : string) (flock : res unit)
  | E_crash (p : Z)
  | E_other (n : Z)
  | E_other_exit (n : Z).

(** A fresh process id. *)
Definition fresh_pid (s : system) (n : Z) : bool := (0 <? n)%Z && bool_decide (n ∉ sy_live s).

Definition with_store (s : system) (store : lock_files) : system :=
  {| sy_store := store; sy_live := sy_live s; sy_regs := sy_regs s; sy_running := sy_running s;
     sy_jobs := sy_jobs s |}.

Definition with_job (s : system) (p : Z) (r : string) (j : job) : system :=
  {| sy_store := sy_store s; sy_live := sy_live s; sy_regs := sy_regs s;
     sy_running := sy_running s; sy_jobs := <[(p, r) := j]> (sy_jobs s) |}.

(** What one event does; [None]: it can not happen.  [dispatch_managed_audit]
    passes its own process id, spawns the audit in a session of its own, has
    the lock record its pid and, whatever happens, releases the lock once the
    executor has returned or raised ([E_finish]). *)
Definition sys_do (e : event) (s : system) : option system :=
  match e with
  | E_boot p =>
      if fresh_pid s p then
        Some {| sy_store := sy_store s; sy_live := {[p]} ∪ sy_live s;
                sy_regs := <[p := new_registry]> (sy_regs s); sy_running := sy_running s;
                sy_jobs := sy_jobs s |}
      else None
  | E_sweep p r flock =>
      _ ← sy_regs s !! p;
      Some (with_store s (fst (reclaim_if_stale (sys_kill s) flock (sy_store s) r)))
  | E_acquire p r i now_iso flock disk =>
      reg ← sy_regs s !! p;
      let payload := identity_payload p now_iso r
        {| li_run_id := li_run_id i; li_audit_type := li_audit_type i; li_oc_pid := Some p;
           li_command := li_command i; li_expected_run_status_path := li_expected_run_status_path i |} in
      match acquire_held (sys_kill s) flock disk reg (sy_store s) payload with
      | (_, _, Raise _) => Some s
      | (reg, store, Ok _) =>
          Some {| sy_store := store; sy_live := sy_live s; sy_regs := <[p := reg]> (sy_regs s);
                  sy_running := sy_running s; sy_jobs := <[(p, r) := Acquired]> (sy_jobs s) |}
      end
  | E_spawn p r a =>
      match sy_jobs s !! (p, r) with
      | Some Acquired =>
          if fresh_pid s a then
            Some {| sy_store := sy_store s; sy_live := {[a]} ∪ sy_live s; sy_regs := sy_regs s;
                    sy_running := <[a := r]> (sy_running s);
                    sy_jobs := <[(p, r) := Spawned a]> (sy_jobs s) |}
          else None
      | _ => None
      end
  | E_record p r pgid flock disk =>
      match sy_jobs s !! (p, r) with
      | Some (Spawned a) =>
          match update_lock flock disk (sy_store s) r (Some a) pgid with
          | (store, Ok _) => Some (with_job (with_store s store) p r (Recorded a))
          | (store, Raise _) => Some (with_store s store)
          end
      | _ => None
      end
  | E_exit a =>
      _ ← sy_running s !! a;
      Some {| sy_store := sy_store s; sy_live := sy_live s ∖ {[a]}; sy_regs := sy_regs s;
              sy_running := delete a (sy_running s); sy_jobs := sy_jobs s |}
  | E_finish p r flock =>
      _ ← sy_jobs s !! (p, r);
      reg ← sy_regs s !! p;
      let '(reg, store) := registry_release flock reg (sy_store s) r in
      Some {| sy_store := store; sy_live := sy_live s; sy_regs := <[p := reg]> (sy_regs s);
              sy_running := sy_running s; sy_jobs := delete (p, r) (sy_jobs s) |}
  | E_crash p =>
      _ ← sy_regs s !! p;
      Some {| sy_store := sy_store s; sy_live := sy_live s ∖ {[p]}; sy_regs := delete p (sy_regs s);
              sy_running := sy_running s;
              sy_jobs := filter (fun kv => fst (fst kv) <> p) (sy_jobs s) |}
  | E_other n =>
      if fresh_pid s n then
        Some {| sy_store := sy_store s; sy_live := {[n]} ∪ sy_live s; sy_regs := sy_regs s;
                sy_running := sy_running s; sy_jobs := sy_jobs s |}
      else None
  | E_other_exit n =>
      if bool_decide (n ∈ dom (sy_regs s)) || bool_decide (n ∈ dom (sy_running s)) then None
      else Some {| sy_store := sy_store s; sy_live := sy_live s ∖ {[n]}; sy_regs := sy_regs s;
                   sy_running := sy_running s; sy_jobs := sy_jobs s |}
  end.

(** The audit a job has started. *)
Definition job_audit (j : job) : option Z :=
  match j with Acquired => None | Spawned a | Recorded a => Some a end.

(** The two events the exclusion does not survive: a process that crashes
    after it spawned an audit and before it recorded its pid, and one that
    releases the lock while its audit runs (an interrupt, which the executor
    does not catch, while it waits). *)
Definition harmless (s : system) (e : event) : Prop :=
  match e with
  | E_crash p => forall r a, sy_jobs s !! (p, r) = Some (Spawned a) -> a ∉ dom (sy_running s)
  | E_finish p r _ => forall a, (sy_jobs s !! (p, r) ≫= job_audit) = Some a -> a ∉ dom (sy_running s)
  | _ => True
  end.

(** A system with nothing running, whatever files and processes it finds. *)
Definition initial (s : system) : Prop :=
  sy_regs s = ∅ /\ sy_running s = ∅ /\ sy_jobs s = ∅.

Inductive reachable : system -> Prop :=
  | reachable_initial s : initial s -> reachable s
  | reachable_step s e s' : reachable s -> harmless s e -> sys_do e s = Some s' -> reachable s'.

(** ** The invariant *)

Definition holds (s : system) (r : string) (p : PersistentLockPayload) : Prop :=
  read_lock (sy_store s) r = Ok (Some p).

Definition recorded_pid (j : job) : option Z := match j with Recorded a => Some a | _ => None end.

Record lock_inv (s : system) : Prop := {
  inv_regs p : p ∈ dom (sy_regs s) -> p ∈ sy_live s /\ (0 < p)%Z /\ p ∉ dom (sy_running s);
  inv_jobs p r j : sy_jobs s !! (p, r) = Some j ->
    p ∈ dom (sy_regs s) /\
    exists pl, holds s r pl /\ pl_oc_pid pl = p /\ pl_audit_pid pl = recorded_pid j;
  inv_running a r : sy_running s !! a = Some r ->
    a ∈ sy_live s /\ (0 < a)%Z /\
    ((exists p, sy_jobs s !! (p, r) = Some (Spawned a)) \/
     exists pl, holds s r pl /\ pl_audit_pid pl = Some a) }.

Lemma alive_live s n : (0 < n)%Z -> n ∈ sy_live s -> is_pid_alive (sys_kill s) (Some n) = true.
Proof.
  intros Hn Hin. unfold is_pid_alive, sys_kill.
  rewrite (proj2 (Z.leb_gt _ _)) by lia. by rewrite bool_decide_true.
Qed.

(** A repository with a job or a running audit has a live lock. *)
Lemma busy_alive s r pl :
  lock_inv s -> holds s r pl ->
  (exists p j, sy_jobs s !! (p, r) = Some j) \/ (exists a, sy_running s !! a = Some r) ->
  is_alive (sys_kill s) pl = true.
Proof.
  intros Hinv Hpl Hbusy. unfold is_alive. apply orb_true_iff.
  assert (Hjob : forall p j, sy_jobs s !! (p, r) = Some j ->
    is_pid_alive (sys_kill s) (Some (pl_oc_pid pl)) = true).
  { intros p j Hj. destruct (inv_jobs s Hinv _ _ _ Hj) as (Hp & pl' & Hpl' & <- & _).
    unfold holds in *. rewrite Hpl in Hpl'. injection Hpl' as <-.
    destruct (inv_regs s Hinv _ Hp) as (? & ? & _). by apply alive_live. }
  destruct Hbusy as [(p & j & Hj) | (a & Ha)]; [left; eauto|].
  destruct (inv_running s Hinv _ _ Ha) as (Hl & Hpos & [(p & Hj) | (pl' & Hpl' & Hpid)]); [left; eauto|].
  right. unfold holds in *. rewrite Hpl in Hpl'. injection Hpl' as <-. rewrite Hpid. by apply alive_live.
Qed.

Lemma busy_holds s r :
  lock_inv s ->
  (exists p j, sy_jobs s !! (p, r) = Some j) \/ (exists a, sy_running s !! a = Some r) ->
  exists pl, holds s r pl /\ is_alive (sys_kill s) pl = true.
Proof.
  intros Hinv Hbusy.
  assert (exists pl, holds s r pl) as [pl Hpl].
  { destruct Hbusy as [(p & j & Hj) | (a & Ha)].
    - destruct (inv_jobs s Hinv _ _ _ Hj) as (_ & pl & ? & _). eauto.
    - destruct (inv_running s Hinv _ _ Ha) as (_ & _ & [(p & Hj) | (pl & ? & _)]); [|eauto].
      destruct (inv_jobs s Hinv _ _ _ Hj) as (_ & pl & ? & _). eauto. }
  exists pl. split; [done|]. by eapply busy_alive.
Qed.

(** Two jobs on one repository are one. *)
Lemma job_unique s p q r j k :
  lock_inv s -> sy_jobs s !! (p, r) = Some j -> sy_jobs s !! (q, r) = Some k -> p = q.
Proof.
  intros Hinv Hj Hk. destruct (inv_jobs s Hinv _ _ _ Hj) as (_ & pl & H1 & <- & _).
  destruct (inv_jobs s Hinv _ _ _ Hk) as (_ & pl' & H2 & <- & _).
  unfold holds in *. rewrite H1 in H2. congruence.
Qed.

(** The running audit of a job is the one the job started. *)
Lemma running_of_job s p r j a :
  lock_inv s -> sy_jobs s !! (p, r) = Some j -> sy_running s !! a = Some r -> job_audit j = Some a.
Proof.
  intros Hinv Hj Ha. destruct (inv_running s Hinv _ _ Ha) as (_ & _ & [(q & Hq) | (pl & Hpl & Hpid)]).
  - assert (q = p) as -> by (eapply job_unique; eauto). rewrite Hj in Hq. by simplify_eq.
  - destruct (inv_jobs s Hinv _ _ _ Hj) as (_ & pl' & Hpl' & _ & Hrec). unfold holds in *. rewrite Hpl in Hpl'. injection Hpl' as <-.
    destruct j; simpl in *; congruence.
Qed.

(** Exclusion follows from the invariant. *)
Lemma inv_exclusive s a b r :
  lock_inv s -> sy_running s !! a = Some r -> sy_running s !! b = Some r -> a = b.
Proof.
  intros Hinv Ha Hb. destruct (inv_running s Hinv _ _ Ha) as (_ & _ & [(p & Hp) | (pl & Hpl & Hpid)]).
  - eapply running_of_job in Hb; [|done|exact Hp]. by simplify_eq/=.
  - destruct (inv_running s Hinv _ _ Hb) as (_ & _ & [(q & Hq) | (pl' & Hpl' & Hpid')]).
    + eapply running_of_job in Ha; [|done|exact Hq]. by simplify_eq/=.
    + unfold holds in *. congruence.
Qed.

(** ** Preservation *)

Lemma read_insert_eq store r p :
  read_lock (<[r := FileHolds (payload_to_json p)]> store) r = Ok (Some p).
Proof. unfold read_lock, lock_file. rewrite lookup_insert_eq. simpl. by rewrite payload_round_trip. Qed.

Lemma read_insert_ne store r r' f : r <> r' -> read_lock (<[r := f]> store) r' = read_lock store r'.
Proof. intros H. unfold read_lock, lock_file. by rewrite lookup_insert_ne. Qed.

Lemma read_delete_ne store r r' : r <> r' -> read_lock (delete r store) r' = read_lock store r'.
Proof. intros H. unfold read_lock, lock_file. by rewrite lookup_delete_ne. Qed.

Lemma fresh_pid_spec s n : fresh_pid s n = true <-> (0 < n)%Z /\ n ∉ sy_live s.
Proof. unfold fresh_pid. by rewrite andb_true_iff, Z.ltb_lt, bool_decide_eq_true. Qed.

(** Sweeping leaves the lock of a busy repository alone, and others' locks. *)
Lemma reclaim_holds s r flock r' pl :
  holds s r' pl -> is_alive (sys_kill s) pl = true ->
  read_lock (fst (reclaim_if_stale (sys_kill s) flock (sy_store s) r)) r' = Ok (Some pl).
Proof.
  unfold holds, reclaim_if_stale. intros Hpl Hal. destruct flock; [|done].
  destruct (decide (r = r')) as [->|Hne].
  - rewrite Hpl. simpl. by rewrite Hal.
  - destruct (read_lock (sy_store s) r) as [[q|]|e]; simpl; [|done|].
    + destruct (is_alive (sys_kill s) q); simpl; [done|]. by rewrite read_delete_ne.
    + destruct (is_corrupt e); simpl; [|done]. by rewrite read_delete_ne.
Qed.

(** A step that leaves registries, audits and jobs alone keeps the invariant
    when it keeps the locks of busy repositories and the pids in use. *)
Lemma inv_frame s s' :
  lock_inv s -> sy_regs s' = sy_regs s -> sy_running s' = sy_running s -> sy_jobs s' = sy_jobs s ->
  (forall n, n ∈ dom (sy_regs s) \/ n ∈ dom (sy_running s) -> n ∈ sy_live s -> n ∈ sy_live s') ->
  (forall r pl, holds s r pl -> is_alive (sys_kill s) pl = true -> holds s' r pl) -> lock_inv s'.
Proof.
  intros Hinv Er Ea Ej Hlive Hholds. split.
  - intros p. rewrite Er, Ea. intros Hp. destruct (inv_regs s Hinv p Hp) as (? & ? & ?). auto.
  - intros p r j. rewrite Er, Ej. intros Hj. destruct (inv_jobs s Hinv _ _ _ Hj) as (Hp & pl & Hpl & ? & ?).
    split; [done|]. exists pl. split; [|done]. apply Hholds; [done|]. eapply busy_alive; eauto.
  - intros a r. rewrite Ea, Ej. intros Ha. destruct (inv_running s Hinv _ _ Ha) as (Hl & ? & Hk).
    split; [apply Hlive; [right; by apply elem_of_dom_2 in Ha | done]|]. split; [done|].
    destruct Hk as [? | (pl & Hpl & ?)]; [by left|right]. exists pl. split; [|done].
    apply Hholds; [done|]. eapply busy_alive; eauto.
Qed.

Lemma reg_dom {A} (m : gmap Z A) p x : m !! p = Some x -> p ∈ dom m.
Proof. intros H. by apply elem_of_dom_2 in H. Qed.

(** Replacing a registry by another keeps the set of dispatching processes. *)
Lemma dom_insert_same {A} (m : gmap Z A) p x y : m !! p = Some x -> dom (<[p := y]> m) = dom m.
Proof. intros H. apply reg_dom in H. rewrite dom_insert_L. set_solver. Qed.

Lemma inv_boot s p s' : lock_inv s -> sys_do (E_boot p) s = Some s' -> lock_inv s'.
Proof.
  simpl. intros Hinv. destruct (fresh_pid s p) eqn:Hf; [|done]. apply fresh_pid_spec in Hf as [Hp Hnl].
  intros [= <-]. split; simpl.
  - intros q. rewrite dom_insert_L. intros [->%elem_of_singleton | Hq]%elem_of_union.
    + split; [set_solver|]. split; [done|]. intros (r & Hr)%elem_of_dom.
      by destruct (inv_running s Hinv _ _ Hr).
    + destruct (inv_regs s Hinv q Hq) as (? & ? & ?). set_solver.
  - intros q r j Hj. destruct (inv_jobs s Hinv _ _ _ Hj) as (? & ?). rewrite dom_insert_L. set_solver.
  - intros a r Ha. destruct (inv_running s Hinv _ _ Ha) as (? & ? & ?). set_solver.
Qed.

Lemma inv_sweep s p r flock s' : lock_inv s -> sys_do (E_sweep p r flock) s = Some s' -> lock_inv s'.
Proof.
  simpl. intros Hinv. destruct (sy_regs s !! p); simpl; [|done]. intros [= <-].
  apply (inv_frame s); try done. intros r' pl ? ?. by apply reclaim_holds.
Qed.

(** What a successful acquisition did. *)
Lemma acquire_ok kill flock disk reg store payload reg' store' p :
  acquire_held kill flock disk reg store payload = (reg', store', Ok p) ->
  pl_repo_id payload ∉ lr_held reg /\ flock = Ok tt /\ disk = Ok tt /\ p = payload /\
  lr_held reg' = {[pl_repo_id payload]} ∪ lr_held reg /\
  store' = <[pl_repo_id payload := FileHolds (payload_to_json payload)]> store /\
  (read_lock store (pl_repo_id payload) = Ok None \/
   exists q, read_lock store (pl_repo_id payload) = Ok (Some q) /\ is_alive kill q = false).
Proof.
  unfold acquire_held, try_acquire, write_lock. case_bool_decide; [done|].
  destruct flock as [[]|]; [|done]. destruct (read_lock _ _) as [[q|]|]; [| |done].
  - destruct (is_alive kill q) eqn:Hq; [done|]. destruct disk as [[]|]; [|done]. intros. simplify_eq/=. eauto 10.
  - destruct disk as [[]|]; [|done]. intros. simplify_eq/=. eauto 10.
Qed.

Lemma inv_acquire s p r i now_iso flock disk s' :
  lock_inv s -> sys_do (E_acquire p r i now_iso flock disk) s = Some s' -> lock_inv s'.
Proof.
  simpl. intros Hinv. destruct (sy_regs s !! p) as [reg|] eqn:Hreg; simpl; [|done].
  destruct (acquire_held _ _ _ _ _ _) as [[reg' store'] [pl|e]] eqn:Hacq; [|by intros [= <-]].
  intros [= <-]. apply acquire_ok in Hacq as (Hheld & -> & -> & -> & Hreg' & -> & Hfree). simpl in *.
  assert (Hidle : ~ ((exists q j, sy_jobs s !! (q, r) = Some j) \/ exists a, sy_running s !! a = Some r)).
  { intros Hbusy. destruct (busy_holds s r Hinv Hbusy) as (q & Hq & Hal). unfold holds in Hq.
    destruct Hfree as [Hf | (q' & Hf & Hd)]; congruence. }
  assert (Hpl : pl_oc_pid (identity_payload p now_iso r
      {| li_run_id := li_run_id i; li_audit_type := li_audit_type i; li_oc_pid := Some p;
         li_command := li_command i;
         li_expected_run_status_path := li_expected_run_status_path i |}) = p).
  { simpl. by destruct (p =? 0)%Z. }
  split; simpl; try rewrite (dom_insert_same _ _ _ _ Hreg).
  - intros q Hq. by apply (inv_regs s Hinv).
  - intros q r' j. rewrite lookup_insert_Some. intros [[[= <- <-] <-] | [Hne Hj]].
    + split; [by apply reg_dom in Hreg|]. eexists. split; [apply read_insert_eq|]. split; [exact Hpl | done].
    + destruct (inv_jobs s Hinv _ _ _ Hj) as (? & pl' & Hpl' & ? & ?). split; [done|].
      exists pl'. split; [|done]. unfold holds. simpl. rewrite read_insert_ne; [done|]. intros <-. eauto.
  - intros a r' Ha. destruct (inv_running s Hinv _ _ Ha) as (? & ? & Hk). split; [done|]. split; [done|].
    assert (r <> r') by (intros <-; eauto).
    destruct Hk as [(q & Hq) | (pl' & Hpl' & ?)].
    + left. exists q. rewrite lookup_insert_ne; [done|]. congruence.
    + right. exists pl'. split; [|done]. unfold holds. simpl. by rewrite read_insert_ne.
Qed.

Lemma inv_spawn s p r a s' : lock_inv s -> sys_do (E_spawn p r a) s = Some s' -> lock_inv s'.
Proof.
  simpl. intros Hinv. destruct (sy_jobs s !! (p, r)) as [[]|] eqn:Hjob; try done.
  destruct (fresh_pid s a) eqn:Hf; [|done]. apply fresh_pid_spec in Hf as [Hpos Hnl]. intros [= <-].
  assert (Hna : sy_running s !! a = None).
  { destruct (sy_running s !! a) as [r'|] eqn:E; [|done]. by destruct (inv_running s Hinv _ _ E). }
  split; simpl.
  - intros q Hq. destruct (inv_regs s Hinv _ Hq) as (Hl & ? & Hn). split; [set_solver|]. split; [done|].
    rewrite dom_insert_L. set_solver.
  - intros q r' j. rewrite lookup_insert_Some. intros [[[= <- <-] <-] | [Hne Hj]].
    + by destruct (inv_jobs s Hinv _ _ _ Hjob).
    + by destruct (inv_jobs s Hinv _ _ _ Hj).
  - intros b r'. rewrite lookup_insert_Some. intros [[<- <-] | [Hne Hb]].
    + split; [set_solver|]. split; [done|]. left. exists p. by rewrite lookup_insert_eq.
    + destruct (inv_running s Hinv _ _ Hb) as (? & ? & Hk). split; [set_solver|]. split; [done|].
      destruct Hk as [(q & Hq) | Hk]; [left|by right]. exists q.
      rewrite lookup_insert_ne; [done|]. intros [= -> ->]. congruence.
Qed.

Lemma update_ok flock disk store r apid pgid store' p :
  update_lock flock disk store r apid pgid = (store', Ok p) ->
  exists q, read_lock store r = Ok (Some q) /\
    store' = <[r := FileHolds (payload_to_json (with_audit q apid pgid))]> store.
Proof.
  unfold update_lock, write_lock. destruct flock; [|done].
  destruct (read_lock store r) as [[q|]|]; try done. destruct disk; [|done]. intros. simplify_eq. eauto.
Qed.

Lemma update_raise flock disk store r apid pgid store' e :
  update_lock flock disk store r apid pgid = (store', Raise e) -> store' = store.
Proof. unfold update_lock, write_lock. intros. repeat case_match; by simplify_eq. Qed.

Lemma inv_record s p r pgid flock disk s' :
  lock_inv s -> sys_do (E_record p r pgid flock disk) s = Some s' -> lock_inv s'.
Proof.
  simpl. intros Hinv. destruct (sy_jobs s !! (p, r)) as [[|a|]|] eqn:Hjob; try done.
  destruct (update_lock _ _ _ _ _ _) as [store [pl|e]] eqn:Hup.
  2: { intros [= <-]. apply update_raise in Hup as ->. by apply (inv_frame s). }
  intros [= <-]. apply update_ok in Hup as (q & Hq & ->).
  destruct (inv_jobs s Hinv _ _ _ Hjob) as (Hp & pl' & Hpl' & Hoc & _).
  unfold holds in Hpl'. rewrite Hpl' in Hq. injection Hq as <-. split; simpl.
  - intros x Hx. by apply (inv_regs s Hinv).
  - intros x r' j. rewrite lookup_insert_Some. intros [[[= <- <-] <-] | [Hne Hj]].
    + split; [done|]. eexists. split; [apply read_insert_eq|]. done.
    + destruct (inv_jobs s Hinv _ _ _ Hj) as (? & pl2 & ? & ? & ?). split; [done|]. exists pl2.
      split; [|done]. unfold holds. simpl. rewrite read_insert_ne; [done|]. intros <-.
      by rewrite (job_unique s _ _ _ _ _ Hinv Hj Hjob) in Hne.
  - intros b r' Hb. destruct (inv_running s Hinv _ _ Hb) as (? & ? & Hk). split; [done|]. split; [done|].
    destruct (decide (r' = r)) as [->|Hne].
    + right. eexists. split; [apply read_insert_eq|]. simpl.
      by eapply (running_of_job s p r (Spawned a)) in Hb.
    + destruct Hk as [(x & Hx) | (pl2 & ? & ?)].
      * left. exists x. rewrite lookup_insert_ne; [done|]. congruence.
      * right. exists pl2. split; [|done]. unfold holds. simpl. by rewrite read_insert_ne.
Qed.

Lemma inv_exit s a s' : lock_inv s -> sys_do (E_exit a) s = Some s' -> lock_inv s'.
Proof.
  simpl. intros Hinv. destruct (sy_running s !! a) as [r|] eqn:Ha; simpl; [|done]. intros [= <-].
  apply elem_of_dom_2 in Ha as Hdom. split; simpl.
  - intros p Hp. destruct (inv_regs s Hinv p Hp) as (? & ? & ?). rewrite dom_delete_L. set_solver.
  - intros p r' j Hj. by destruct (inv_jobs s Hinv _ _ _ Hj).
  - intros b r'. rewrite lookup_delete_Some. intros [Hne Hb].
    destruct (inv_running s Hinv _ _ Hb) as (? & ? & ?). set_solver.
Qed.

Lemma release_read flock store r r' pl :
  r <> r' -> read_lock store r' = Ok (Some pl) -> read_lock (fst (release_lock flock store r)) r' = Ok (Some pl).
Proof.
  unfold release_lock. intros Hne Hpl. destruct flock; [|done].
  destruct (lock_file store r); simpl; [done | |]; by rewrite read_delete_ne.
Qed.

Lemma inv_finish s p r flock s' :
  lock_inv s -> harmless s (E_finish p r flock) -> sys_do (E_finish p r flock) s = Some s' -> lock_inv s'.
Proof.
  simpl. intros Hinv Hharm. destruct (sy_jobs s !! (p, r)) as [j0|] eqn:Hjob; simpl; [|done].
  destruct (sy_regs s !! p) as [reg|] eqn:Hreg; simpl; [|done]. intros [= <-].
  assert (Hidle : forall a, sy_running s !! a <> Some r).
  { intros a Ha. apply (Hharm a); [|by apply elem_of_dom_2 in Ha]. by eapply running_of_job. }
  split; simpl; try rewrite (dom_insert_same _ _ _ _ Hreg).
  - intros q Hq. by apply (inv_regs s Hinv).
  - intros q r' j. rewrite lookup_delete_Some. intros [Hne Hj].
    destruct (inv_jobs s Hinv _ _ _ Hj) as (? & pl & Hpl & ? & ?). split; [done|]. exists pl.
    split; [|done]. apply release_read; [|done]. intros <-.
    by rewrite (job_unique s _ _ _ _ _ Hinv Hj Hjob) in Hne.
  - intros a r' Ha. destruct (inv_running s Hinv _ _ Ha) as (? & ? & Hk). split; [done|]. split; [done|].
    assert (r <> r') by (intros <-; by eapply Hidle).
    destruct Hk as [(q & Hq) | (pl & Hpl & ?)].
    + left. exists q. rewrite lookup_delete_ne; [done|]. congruence.
    + right. exists pl. split; [by apply release_read | done].
Qed.

Lemma inv_crash s p s' :
  lock_inv s -> harmless s (E_crash p) -> sys_do (E_crash p) s = Some s' -> lock_inv s'.
Proof.
  simpl. intros Hinv Hharm. destruct (sy_regs s !! p) as [reg|] eqn:Hreg; simpl; [|done]. intros [= <-].
  apply reg_dom in Hreg. split; simpl.
  - intros q. rewrite dom_delete_L. intros Hq. destruct (inv_regs s Hinv q) as (? & ? & ?); set_solver.
  - intros q r j. rewrite map_lookup_filter_Some. simpl. intros [Hj Hne].
    destruct (inv_jobs s Hinv _ _ _ Hj) as (? & ?). rewrite dom_delete_L. set_solver.
  - intros a r Ha. destruct (inv_running s Hinv _ _ Ha) as (? & ? & Hk).
    destruct (inv_regs s Hinv p Hreg) as (_ & _ & Hnp). apply elem_of_dom_2 in Ha as Hdom.
    split; [set_solver|]. split; [done|]. destruct Hk as [(q & Hq) | Hk]; [left|by right].
    exists q. rewrite map_lookup_filter_Some. split; [done|]. simpl. intros ->. by apply (Hharm r a).
Qed.

Lemma inv_other s n s' : lock_inv s -> sys_do (E_other n) s = Some s' -> lock_inv s'.
Proof.
  simpl. intros Hinv. destruct (fresh_pid s n); [|done]. intros [= <-].
  apply (inv_frame s); try done. simpl. set_solver.
Qed.

Lemma inv_other_exit s n s' : lock_inv s -> sys_do (E_other_exit n) s = Some s' -> lock_inv s'.
Proof.
  simpl. intros Hinv. destruct (_ || _) eqn:E; [done|]. apply orb_false_iff in E as [H1 H2].
  apply bool_decide_eq_false in H1, H2. intros [= <-]. apply (inv_frame s); try done. simpl. set_solver.
Qed.

Lemma inv_step s e s' : lock_inv s -> harmless s e -> sys_do e s = Some s' -> lock_inv s'.
Proof.
  destruct e; intros Hinv Hh Hdo;
    [ eapply inv_boot | eapply inv_sweep | eapply inv_acquire | eapply inv_spawn | eapply inv_record
    | eapply inv_exit | eapply inv_finish | eapply inv_crash | eapply inv_other
    | eapply inv_other_exit ]; eassumption.
Qed.

Lemma inv_initial s : initial s -> lock_inv s.
Proof.
  intros (Hr & Ha & Hj). split.
  - intros p. rewrite Hr, dom_empty_L. set_solver.
  - intros p r j. by rewrite Hj, lookup_empty.
  - intros a r. by rewrite Ha, lookup_empty.
Qed.

Lemma reachable_inv s : reachable s -> lock_inv s.
Proof. induction 1; eauto using inv_initial, inv_step. Qed.

(** C12: at most one audit per repository runs at any time, whatever lock files
    a fresh start finds and however processes start, dispatch, sweep, fail to
    lock or to write, crash and reuse process ids, as long as no process
    crashes between spawning an audit and recording its pid, or releases the
    lock of an audit that still runs. *)
Theorem one_audit_per_repo s a b r :
  reachable s -> sy_running s !! a = Some r -> sy_running s !! b = Some r -> a = b.
Proof. intros Hs. apply inv_exclusive. by apply reachable_inv. Qed.

(** Whether an acquisition succeeds. *)
Lemma acquire_idle s p r i now_iso reg :
  sy_regs s !! p = Some reg -> r ∉ lr_held reg ->
  (read_lock (sy_store s) r = Ok None \/
   exists pl, holds s r pl /\ is_alive (sys_kill s) pl = false) ->
  exists s', sys_do (E_acquire p r i now_iso (Ok tt) (Ok tt)) s = Some s' /\
    sy_jobs s' !! (p, r) = Some Acquired /\ sy_running s' = sy_running s /\ sy_live s' = sy_live s.
Proof.
  intros Hreg Hheld Hfree. simpl. rewrite Hreg. simpl. unfold acquire_held, try_acquire. simpl.
  rewrite bool_decide_false by done.
  destruct Hfree as [-> | (pl & Hpl & Hd)].
  - simpl. eexists. split; [done|]. simpl. by rewrite lookup_insert_eq.
  - unfold holds in Hpl. rewrite Hpl, Hd. simpl. eexists. split; [done|]. simpl. by rewrite lookup_insert_eq.
Qed.

(** a crash between spawning an audit and recording its pid leaves the
    audit without a lock: the next dispatch for the repository succeeds while
    the audit still runs. *)
Theorem unrecorded_audit_is_unprotected s p q r a reg i now_iso :
  reachable s -> sy_jobs s !! (p, r) = Some (Spawned a) -> sy_running s !! a = Some r ->
  q <> p -> sy_regs s !! q = Some reg -> r ∉ lr_held reg ->
  exists s1 s2, sys_do (E_crash p) s = Some s1 /\
    sys_do (E_acquire q r i now_iso (Ok tt) (Ok tt)) s1 = Some s2 /\
    sy_jobs s2 !! (q, r) = Some Acquired /\ sy_running s2 !! a = Some r /\ a ∈ sy_live s2.
Proof.
  intros Hs Hjob Ha Hqp Hreg Hheld. apply reachable_inv in Hs as Hinv.
  destruct (inv_jobs s Hinv _ _ _ Hjob) as (Hp & pl & Hpl & Hoc & Hnone).
  destruct (inv_running s Hinv _ _ Ha) as (Hal & _). destruct (inv_regs s Hinv p Hp) as (_ & _ & Hnp).
  apply elem_of_dom_2 in Ha as Hdom. simpl. apply elem_of_dom in Hp as [regp Hregp]. rewrite Hregp. simpl.
  set (s1 := {| sy_store := sy_store s |}).
  destruct (acquire_idle s1 q r i now_iso reg) as (s2 & Hdo & Hj & Hr & Hl).
  - simpl. by rewrite lookup_delete_ne.
  - done.
  - right. exists pl. split; [done|]. unfold is_alive. rewrite Hnone, Hoc. simpl. rewrite orb_false_r.
    unfold sys_kill. simpl. rewrite bool_decide_false by set_solver. by destruct (p <=? 0)%Z.
  - exists s1, s2. split; [done|]. split; [exact Hdo|]. split; [done|]. rewrite Hr, Hl. simpl.
    split; [done | set_solver].
Qed.

(** a dispatch lost to a crash blocks its repository only while its audit
    runs: once the audit has exited, another process that does not hold the
    repository acquires its lock, with no operator in between. *)
Theorem crashed_dispatch_frees_repo s p q r a reg i now_iso :
  reachable s -> sy_jobs s !! (p, r) = Some (Recorded a) -> sy_running s !! a = Some r ->
  q <> p -> sy_regs s !! q = Some reg -> r ∉ lr_held reg ->
  exists s1 s2 s3, sys_do (E_crash p) s = Some s1 /\
    sys_do (E_acquire q r i now_iso (Ok tt) (Ok tt)) s1 = Some s1 /\
    sys_do (E_exit a) s1 = Some s2 /\
    sys_do (E_acquire q r i now_iso (Ok tt) (Ok tt)) s2 = Some s3 /\
    sy_jobs s3 !! (q, r) = Some Acquired.
Proof.
  intros Hs Hjob Ha Hqp Hreg Hheld. apply reachable_inv in Hs as Hinv.
  destruct (inv_jobs s Hinv _ _ _ Hjob) as (Hp & pl & Hpl & Hoc & Hpid). unfold holds in Hpl.
  destruct (inv_running s Hinv _ _ Ha) as (Hal & Hpos & _).
  destruct (inv_regs s Hinv p Hp) as (_ & _ & Hnp).
  assert (a <> p) as Hap by (intros ->; apply Hnp; by apply elem_of_dom_2 in Ha).
  apply elem_of_dom in Hp as [regp Hregp].
  destruct (sys_do (E_crash p) s) as [s1|] eqn:E1; [|by simpl in E1; rewrite Hregp in E1].
  assert (Hs1 : sy_store s1 = sy_store s /\ sy_live s1 = sy_live s ∖ {[p]} /\
    sy_regs s1 = delete p (sy_regs s) /\ sy_running s1 = sy_running s).
  { simpl in E1. rewrite Hregp in E1. by injection E1 as <-. }
  destruct Hs1 as (Est & Elive & Eregs & Erun).
  assert (Hreg1 : sy_regs s1 !! q = Some reg) by (by rewrite Eregs, lookup_delete_ne).
  destruct (sys_do (E_exit a) s1) as [s2|] eqn:E2; [|by simpl in E2; rewrite Erun, Ha in E2].
  assert (Hs2 : sy_store s2 = sy_store s1 /\ sy_live s2 = sy_live s1 ∖ {[a]} /\ sy_regs s2 = sy_regs s1).
  { simpl in E2. rewrite Erun, Ha in E2. by injection E2 as <-. }
  destruct Hs2 as (Est2 & Elive2 & Eregs2).
  destruct (acquire_idle s2 q r i now_iso reg) as (s3 & E3 & Hj & _).
  { by rewrite Eregs2. }
  { done. }
  { right. exists pl. unfold holds. rewrite Est2, Est. split; [done|].
    unfold is_alive. rewrite Hpid, Hoc. simpl. unfold sys_kill. rewrite Elive2, Elive.
    rewrite !bool_decide_false by set_solver. by destruct (p <=? 0)%Z, (a <=? 0)%Z. }
  exists s1, s2, s3. split; [done|]. split; [|done].
  assert (Hlive : is_alive (sys_kill s1) pl = true).
  { unfold is_alive. rewrite Hpid. simpl recorded_pid.
    rewrite (alive_live s1 a Hpos), orb_true_r; [done|]. rewrite Elive. set_solver. }
  simpl. rewrite Hreg1. simpl. unfold acquire_held, try_acquire. simpl.
  rewrite bool_decide_false by done. by rewrite Est, Hpl, Hlive.
Qed.

(** ** Runs *)

(** The events of a run, each of them harmless where it happens. *)
Definition harmless_b (s : system) (e : event) : bool :=
  match e with
  | E_crash p => forallb (fun kj => negb (fst (fst kj) =? p)%Z ||
      match snd kj with Spawned a => bool_decide (a ∉ dom (sy_running s)) | _ => true end)
      (map_to_list (sy_jobs s))
  | E_finish p r _ => match sy_jobs s !! (p, r) ≫= job_audit with
                      | Some a => bool_decide (a ∉ dom (sy_running s))
                      | None => true
                      end
  | _ => true
  end.

Lemma harmless_b_sound s e : harmless_b s e = true -> harmless s e.
Proof.
  destruct e; simpl; try done.
  - destruct (_ ≫= _); [|done]. intros H%bool_decide_eq_true ? [= <-]. done.
  - rewrite forallb_forall. intros H r a Hj%elem_of_map_to_list%list_elem_of_In.
    specialize (H _ Hj). simpl in H. rewrite Z.eqb_refl in H. by apply bool_decide_eq_true in H.
Qed.

Fixpoint do_all (events : list event) (s : system) : option system :=
  match events with
  | [] => Some s
  | e :: events' => if harmless_b s e then s' ← sys_do e s; do_all events' s' else None
  end.

Lemma reachable_all events s s' : reachable s -> do_all events s = Some s' -> reachable s'.
Proof.
  revert s. induction events as [|e events IH]; simpl; intros s Hs; [by intros [= <-]|].
  destruct (harmless_b s e) eqn:Hh; [|done]. destruct (sys_do e s) as [s1|] eqn:He; simpl; [|done].
  apply IH. eapply reachable_step; eauto using harmless_b_sound.
Qed.

Definition empty_system : system :=
  {| sy_store := ∅; sy_live := ∅; sy_regs := ∅; sy_running := ∅; sy_jobs := ∅ |}.

Lemma empty_reachable : reachable empty_system.
Proof. by apply reachable_initial. Qed.
End Payload.

(** a lock payload written to its file is the payload read back. *)
Theorem lock_payload_round_trip gethostname disk store p store' :
  write_lock disk store p (pl_repo_id p) = (store', Ok p) ->
  read_lock gethostname store' (pl_repo_id p) = Ok (Some p).
Proof. unfold write_lock. destruct disk; [|done]. intros [= <-]. apply read_insert_eq. Qed.

Definition some_identity : lock_identity :=
  {| li_run_id := Some "run"; li_audit_type := Some "representative"; li_oc_pid := None;
     li_command := "audit"; li_expected_run_status_path := "out" |}.

(** Two processes, one of which has spawned an audit, recorded or not. *)
Definition sample_run (record : bool) : list event :=
  [E_boot 10; E_boot 20; E_other 30;
   E_acquire 10 "repo" some_identity "2026-05-08T14:23:11Z" (Ok tt) (Ok tt);
   E_acquire 20 "repo" some_identity "2026-05-08T14:23:12Z" (Ok tt) (Ok tt);
   E_spawn 10 "repo" 11] ++
  (if record then [E_record 10 "repo" (Some 11%Z) (Ok tt) (Ok tt)] else []).

Definition sample_system (record : bool) : system :=
  default empty_system (do_all "host" (sample_run record) empty_system).

Lemma sample_reachable record : reachable "host" (sample_system record).
Proof.
  apply (reachable_all "host" (sample_run record) empty_system); [apply empty_reachable|].
  by destruct record; vm_compute.
Qed.

Lemma one_audit_per_repo_witness :
  sy_running (sample_system true) !! 11%Z = Some "repo" /\ 11%Z = 11%Z.
Proof.
  split; [vm_compute; reflexivity|].
  apply (one_audit_per_repo "host" (sample_system true) 11 11 "repo"); [apply sample_reachable | |];
    vm_compute; reflexivity.
Defined.

Lemma unrecorded_audit_is_unprotected_witness :
  exists s1 s2, sys_do "host" (E_crash 10) (sample_system false) = Some s1 /\
    sys_do "host" (E_acquire 20 "repo" some_identity "now" (Ok tt) (Ok tt)) s1 = Some s2 /\
    sy_jobs s2 !! (20%Z, "repo") = Some Acquired /\ sy_running s2 !! 11%Z = Some "repo" /\
    11%Z ∈ sy_live s2.
Proof.
  apply (unrecorded_audit_is_unprotected "host" (sample_system false) 10 20 "repo" 11 new_registry);
    try (vm_compute; reflexivity).
  - apply sample_reachable.
  - discriminate.
  - apply not_elem_of_empty.
Defined.

Lemma crashed_dispatch_frees_repo_witness :
  exists s1 s2 s3, sys_do "host" (E_crash 10) (sample_system true) = Some s1 /\
    sys_do "host" (E_acquire 20 "repo" some_identity "now" (Ok tt) (Ok tt)) s1 = Some s1 /\
    sys_do "host" (E_exit 11) s1 = Some s2 /\
    sys_do "host" (E_acquire 20 "repo" some_identity "now" (Ok tt) (Ok tt)) s2 = Some s3 /\
    sy_jobs s3 !! (20%Z, "repo") = Some Acquired.
Proof.
  apply (crashed_dispatch_frees_repo "host" (sample_system true) 10 20 "repo" 11 new_registry);
    try (vm_compute; reflexivity).
  - apply sample_reachable.
  - discriminate.
  - apply not_elem_of_empty.
Defined.

(** An interrupt releases the lock of an audit that keeps running: a second
    audit of the same repository starts beside it. *)
Example interrupted_dispatch_releases_a_running_audit :
  exists s, (s0 ← sys_do "host" (E_finish 10 "repo" (Ok tt)) (sample_system true);
             s1 ← sys_do "host" (E_acquire 20 "repo" some_identity "now" (Ok tt) (Ok tt)) s0;
             sys_do "host" (E_spawn 20 "repo" 12) s1) = Some s /\
    sy_running s !! 11%Z = Some "repo" /\ sy_running s !! 12%Z = Some "repo".
Proof. eexists. split; [reflexivity|]. vm_compute. done. Qed.

Lemma lock_payload_round_trip_witness :
  let p := identity_payload "host" 10 "2026-05-08T14:23:11Z" "repo" some_identity in
  read_lock "other" (fst (write_lock (Ok tt) ∅ p "repo")) "repo" = Ok (Some p).
Proof.
  apply (lock_payload_round_trip "other" (Ok tt) ∅
    (identity_payload "host" 10 "2026-05-08T14:23:11Z" "repo" some_identity)).
  reflexivity.
Defined.
