(* ===== verification/Regex.v ===== *)
(** * Regular expressions

    The part of Python's [re] that the modelled patterns use: character
    classes, counted repetition of one class (greedy or lazy), sequence,
    ordered alternation, groups, and the word boundary.  [run] is the
    backtracking matcher, in continuation style so that captures are those of
    the first successful path; [mt] is the language of a pattern, and
    [search_spec] says the matcher decides it.  Patterns compiled with
    IGNORECASE use [ci] and [lit], which compare ASCII letters without case. *)
From Stdlib Require Import Ascii.
From S2P Require Import Prelude PyStr.

Inductive re :=
  | Eps
  | Cls (p : ascii -> bool)
  | Rep (p : ascii -> bool) (min : nat) (max : option nat) (greedy : bool)
  | Seq (a b : re)
  | Alt (a b : re)
  | Grp (n : nat) (a : re)
  | WordB.

(** ** Classes and abbreviations *)

Definition ci (c : ascii) (d : ascii) : bool := Ascii.eqb (lower_ascii c) (lower_ascii d).
Definition is_word (c : ascii) : bool :=
  is_upper c || is_lower c || is_digit c || Ascii.eqb c "_".
Definition not_newline (c : ascii) : bool := negb (Ascii.eqb c (ascii_of_nat 10)).
Definition not_char (c d : ascii) : bool := negb (Ascii.eqb c d).

Fixpoint lit (s : string) : re :=
  match s with
  | EmptyString => Eps
  | String c s' => Seq (Cls (ci c)) (lit s')
  end.

Fixpoint seqs (l : list re) : re :=
  match l with [] => Eps | r :: l' => Seq r (seqs l') end.
Fixpoint alts (r : re) (l : list re) : re :=
  match l with [] => r | r' :: l' => Alt r (alts r' l') end.
(** [(?:r)?]. *)
Definition opt (r : re) : re := Alt r Eps.
Definition dot_opt : re := Rep not_newline 0 (Some 1) true.
Definition spaces0 : re := Rep is_space 0 None true.
Definition spaces1 : re := Rep is_space 1 None true.

(** ** Matching *)

Definition caps := list (nat * string).

(** Word boundary between the previous character and the rest. *)
Definition at_boundary (prev : option ascii) (s : string) : bool :=
  let before := match prev with Some c => is_word c | None => false end in
  let after := match s with String c _ => is_word c | EmptyString => false end in
  xorb before after.

Definition or_else {A} (a b : option A) : option A :=
  match a with Some x => Some x | None => b end.

Definition dec_max (max : option nat) : option nat := pred <$> max.
Definition may_more (max : option nat) : bool :=
  match max with Some 0 => false | _ => true end.

Section Matcher.
Context {R : Type}.
Definition cont := option ascii -> string -> option R.

(** Repetition of a class: greedy tries one more character first, lazy tries
    to stop first. *)
Fixpoint rep (p : ascii -> bool) (greedy : bool) (min : nat) (max : option nat)
    (prev : option ascii) (s : string) (k : cont) : option R :=
  let stop := match min with 0 => k prev s | S _ => None end in
  let more :=
    match s with
    | String c s' =>
        if p c && may_more max then rep p greedy (pred min) (dec_max max) (Some c) s' k else None
    | EmptyString => None
    end in
  if greedy then or_else more stop else or_else stop more.
End Matcher.

(** The text between two positions of one string. *)
Definition consumed (s s' : string) : string := str_take (String.length s - String.length s') s.

Fixpoint run {R} (r : re) (prev : option ascii) (s : string) (c : caps)
    (k : option ascii -> string -> caps -> option R) : option R :=
  match r with
  | Eps => k prev s c
  | Cls p =>
      match s with
      | String x s' => if p x then k (Some x) s' c else None
      | EmptyString => None
      end
  | Rep p min max greedy => rep p greedy min max prev s (fun prev' s' => k prev' s' c)
  | Seq a b => run a prev s c (fun prev' s' c' => run b prev' s' c' k)
  | Alt a b => or_else (run a prev s c k) (run b prev s c k)
  | Grp n a => run a prev s c (fun prev' s' c' => k prev' s' ((n, consumed s s') :: c'))
  | WordB => if at_boundary prev s then k prev s c else None
  end.

(** [pattern.search]: the leftmost match: how many characters precede it, the
    text it matched, and its captures. *)
Fixpoint search_at (r : re) (prev : option ascii) (s : string) (start : nat)
    : option (nat * string * caps) :=
  or_else (run r prev s [] (fun _ s' c => Some (start, consumed s s', c)))
    (match s with
     | String x s' => search_at r (Some x) s' (S start)
     | EmptyString => None
     end).

Definition search (r : re) (s : string) : option (nat * string * caps) := search_at r None s 0.

Definition matches_in (r : re) (s : string) : bool :=
  match search r s with Some _ => true | None => false end.

(** The captured text of a group, if it took part in the match. *)
Definition group (c : caps) (n : nat) : option string :=
  snd <$> find_first (fun e : nat * string => (fst e =? n)%nat) c.

(** ** The language of a pattern *)

Inductive chars (p : ascii -> bool) : nat -> option ascii -> string -> option ascii -> string -> Prop :=
  | chars_nil prev s : chars p 0 prev s prev s
  | chars_cons n prev c s prev' s' :
      p c = true -> chars p n (Some c) s prev' s' -> chars p (S n) prev (String c s) prev' s'.

Definition le_max (n : nat) (max : option nat) : Prop :=
  match max with Some m => n <= m | None => True end.

(** [mt r prev s prev' s']: [r] can match from the position with previous
    character [prev] and rest [s] up to the position [prev'], [s']. *)
Inductive mt : re -> option ascii -> string -> option ascii -> string -> Prop :=
  | mt_eps prev s : mt Eps prev s prev s
  | mt_cls p prev c s : p c = true -> mt (Cls p) prev (String c s) (Some c) s
  | mt_rep p min max g n prev s prev' s' :
      min <= n -> le_max n max -> chars p n prev s prev' s' -> mt (Rep p min max g) prev s prev' s'
  | mt_seq a b prev s prev1 s1 prev' s' :
      mt a prev s prev1 s1 -> mt b prev1 s1 prev' s' -> mt (Seq a b) prev s prev' s'
  | mt_alt_l a b prev s prev' s' : mt a prev s prev' s' -> mt (Alt a b) prev s prev' s'
  | mt_alt_r a b prev s prev' s' : mt b prev s prev' s' -> mt (Alt a b) prev s prev' s'
  | mt_grp n a prev s prev' s' : mt a prev s prev' s' -> mt (Grp n a) prev s prev' s'
  | mt_word prev s : at_boundary prev s = true -> mt WordB prev s prev s.

Lemma or_else_some {A} (a b : option A) : is_Some (or_else a b) <-> is_Some a \/ is_Some b.
Proof.
  destruct a; simpl; [|split; [by right | intros [[? ?] | ?]; done]].
  split; [by left | eauto].
Qed.

Lemma may_more_le max n : may_more max = true -> le_max n (dec_max max) <-> le_max (S n) max.
Proof. destruct max as [[|m]|]; simpl; [done | lia | done]. Qed.

Lemma rep_spec {R} p g min max prev s (k : option ascii -> string -> option R) :
  is_Some (rep p g min max prev s k) <->
  exists n prev' s', min <= n /\ le_max n max /\ chars p n prev s prev' s' /\ is_Some (k prev' s').
Proof.
  revert min max prev. induction s as [|c s IH]; intros min max prev; simpl.
  - assert (is_Some (if g then or_else None match min with 0 => k prev "" | S _ => None end
        else or_else match min with 0 => k prev "" | S _ => None end None)
      <-> min = 0 /\ is_Some (k prev "")) as ->.
    { destruct g, min; rewrite ?or_else_some; split; try naive_solver;
        try (intros [[? ?] | [? ?]]; done); intros [? ?]; done. }
    split.
    + intros [-> Hk]. exists 0, prev, "". split; [lia|]. split; [by destruct max; simpl; [lia|]|].
      split; [constructor | done].
    + intros (n & prev' & s' & Hn & _ & Hc & Hk). inversion Hc; subst. split; [lia | done].
  - set (more := if p c && may_more max then _ else None).
    set (stop := match min with 0 => k prev (String c s) | S _ => None end).
    assert (is_Some (if g then or_else more stop else or_else stop more)
      <-> is_Some stop \/ is_Some more) as -> by (destruct g; rewrite or_else_some; tauto).
    assert (Hstop : is_Some stop <-> min = 0 /\ is_Some (k prev (String c s))).
    { unfold stop. destruct min; split; try naive_solver; intros [? ?]; done. }
    rewrite Hstop. unfold more. split.
    + intros [[-> Hk] | Hm].
      * exists 0, prev, (String c s). split; [lia|]. split; [by destruct max; simpl; [lia|]|].
        split; [constructor | done].
      * destruct (p c) eqn:Hp; [|by destruct Hm]. destruct (may_more max) eqn:Hmax; [|by destruct Hm].
        simpl in Hm. apply IH in Hm as (n & prev' & s' & Hn & Hle & Hc & Hk).
        exists (S n), prev', s'. split; [lia|]. split; [by apply may_more_le|].
        split; [by constructor | done].
    + intros (n & prev' & s' & Hn & Hle & Hc & Hk). inversion Hc as [|n' ? ? ? ? ? Hp Hc']; subst.
      * left. split; [lia | done].
      * right. rewrite Hp. assert (may_more max = true) as Hmax by (destruct max as [[|]|]; simpl in *; [lia | done..]).
        rewrite Hmax. simpl. apply IH. exists n', prev', s'. split; [lia|].
        split; [by apply may_more_le | done].
Qed.

(** Whether a continuation succeeds does not depend on the captures. *)
Definition blind {R} (k : option ascii -> string -> caps -> option R) : Prop :=
  forall prev s c1 c2, is_Some (k prev s c1) -> is_Some (k prev s c2).

Lemma run_spec {R} r prev s c (k : option ascii -> string -> caps -> option R) :
  blind k ->
  is_Some (run r prev s c k) <->
  exists prev' s', mt r prev s prev' s' /\ is_Some (k prev' s' []).
Proof.
  revert prev s c k. induction r as [|p|p min max g|a IHa b IHb|a IHa b IHb|n a IHa|];
    intros prev s c k Hk; simpl.
  - split; [intros H; exists prev, s; split; [constructor | by eapply Hk]|].
    intros (? & ? & Hm & H). inversion Hm; subst. by eapply Hk.
  - destruct s as [|x s].
    + split; [by intros [? ?]|]. intros (? & ? & Hm & _). inversion Hm.
    + destruct (p x) eqn:Hp.
      * split; [intros H; exists (Some x), s; split; [by constructor | by eapply Hk]|].
        intros (? & ? & Hm & H). inversion Hm; subst. by eapply Hk.
      * split; [by intros [? ?]|]. intros (? & ? & Hm & _). inversion Hm; congruence.
  - rewrite rep_spec. split.
    + intros (n & prev' & s' & Hn & Hle & Hc & H). exists prev', s'.
      split; [by eapply mt_rep | by eapply Hk].
    + intros (prev' & s' & Hm & H). inversion Hm; subst. eexists _, prev', s'. repeat split; try done.
      by eapply Hk.
  - assert (Hb : blind (fun prev' s' c' => run b prev' s' c' k)).
    { intros p1 s1 c1 c2. rewrite !IHb by done. done. }
    rewrite IHa by exact Hb. split.
    + intros (p1 & s1 & H1 & (p2 & s2 & H2 & H)%IHb); [|done].
      exists p2, s2. split; [by econstructor | done].
    + intros (p2 & s2 & Hm & H). inversion Hm; subst. eexists _, _. split; [done|].
      apply IHb; [done|]. eauto.
  - rewrite or_else_some, IHa, IHb by done. split.
    + intros [(p1 & s1 & H1 & H) | (p1 & s1 & H1 & H)]; exists p1, s1; split; eauto using mt.
    + intros (p1 & s1 & Hm & H). inversion Hm; subst; [left | right]; eauto.
  - rewrite IHa by (intros p1 s1 c1 c2; apply Hk). split.
    + intros (p1 & s1 & H1 & H). exists p1, s1. split; [by constructor | by eapply Hk].
    + intros (p1 & s1 & Hm & H). inversion Hm; subst. exists p1, s1. split; [done | by eapply Hk].
  - destruct (at_boundary prev s) eqn:Hb.
    + split; [intros H; exists prev, s; split; [by constructor | by eapply Hk]|].
      intros (? & ? & Hm & H). inversion Hm; subst. by eapply Hk.
    + split; [by intros [? ?]|]. intros (? & ? & Hm & _). inversion Hm; congruence.
Qed.

(** A result of the matcher comes from a match: the continuation saw its end,
    and captures that extend the given ones. *)
Lemma rep_inv {R} p g min max prev s (k : option ascii -> string -> option R) x :
  rep p g min max prev s k = Some x ->
  exists n prev' s', min <= n /\ le_max n max /\ chars p n prev s prev' s' /\ k prev' s' = Some x.
Proof.
  revert min max prev. induction s as [|c s IH]; intros min max prev; simpl; intros H.
  - assert (min = 0 /\ k prev "" = Some x) as [-> Hk] by (destruct g, min; simpl in H;
      try done; destruct (k prev ""); naive_solver).
    exists 0, prev, "". repeat split; [lia | by destruct max; simpl; [lia|] | constructor | done].
  - set (more := if p c && may_more max then _ else None) in H.
    set (stop := match min with 0 => k prev (String c s) | S _ => None end) in H.
    assert (stop = Some x \/ more = Some x) as [Hs | Hm].
    { destruct g; [destruct more | destruct stop]; simpl in H; auto. }
    + unfold stop in Hs. destruct min; [|done]. exists 0, prev, (String c s).
      repeat split; [lia | by destruct max; simpl; [lia|] | constructor | done].
    + unfold more in Hm. destruct (p c) eqn:Hp; [|done]. destruct (may_more max) eqn:Hmax; [|done].
      apply IH in Hm as (n & prev' & s' & Hn & Hle & Hc & Hk).
      exists (S n), prev', s'. repeat split; [lia | by apply may_more_le | by constructor | done].
Qed.

Lemma run_inv {R} r prev s c (k : option ascii -> string -> caps -> option R) x :
  run r prev s c k = Some x ->
  exists prev' s' c', mt r prev s prev' s' /\ k prev' s' (c' ++ c) = Some x.
Proof.
  revert prev s c k. induction r as [|p|p min max g|a IHa b IHb|a IHa b IHb|n a IHa|];
    intros prev s c k; simpl; intros H.
  - exists prev, s, []. split; [constructor | done].
  - destruct s as [|y s]; [done|]. destruct (p y) eqn:Hp; [|done].
    exists (Some y), s, []. split; [by constructor | done].
  - apply rep_inv in H as (n & prev' & s' & Hn & Hle & Hc & Hk). exists prev', s', [].
    split; [by eapply mt_rep | done].
  - apply IHa in H as (p1 & s1 & c1 & H1 & (p2 & s2 & c2 & H2 & Hk)%IHb).
    exists p2, s2, (c2 ++ c1). split; [by econstructor|]. by rewrite <-app_assoc.
  - destruct (run a prev s c k) eqn:Ha; simpl in H.
    + injection H as ->. apply IHa in Ha as (p1 & s1 & c1 & H1 & Hk). eauto 10 using mt.
    + apply IHb in H as (p1 & s1 & c1 & H1 & Hk). eauto 10 using mt.
  - apply IHa in H as (p1 & s1 & c1 & H1 & Hk). exists p1, s1, ((n, consumed s s1) :: c1).
    split; [by constructor | done].
  - destruct (at_boundary prev s) eqn:Hb; [|done]. exists prev, s, []. split; [by constructor | done].
Qed.

(** ** Literals *)

Fixpoint last_char (prev : option ascii) (s : string) : option ascii :=
  match s with EmptyString => prev | String c s' => last_char (Some c) s' end.

Lemma mt_lit w m prev post :
  lower m = lower w -> mt (lit w) prev (m +:+ post) (last_char prev m) post.
Proof.
  revert prev m. induction w as [|c w IH]; intros prev [|d m]; simpl; try done; [constructor|].
  intros [= Hc Hm]. econstructor; [|by apply IH]. constructor. apply Ascii.eqb_eq. by rewrite Hc.
Qed.

Lemma mt_lit_inv w prev s prev' s' :
  mt (lit w) prev s prev' s' -> exists m, lower m = lower w /\ s = m +:+ s'.
Proof.
  revert prev s. induction w as [|c w IH]; intros prev s H; simpl in H.
  - inversion H; subst. by exists "".
  - inversion H as [| | |? ? ? ? p1 s1 ? ? H1 H2| | | |]; subst.
    inversion H1 as [|? ? d ? Hd| | | | | |]; subst. apply IH in H2 as (m & Hm & ->).
    exists (String d m). split; [|done]. apply Ascii.eqb_eq in Hd.
    change (String (lower_ascii d) (lower m) = String (lower_ascii c) (lower w)). by rewrite Hm, Hd.
Qed.

Lemma mt_alts r l prev s prev' s' :
  mt (alts r l) prev s prev' s' <-> exists x, x ∈ r :: l /\ mt x prev s prev' s'.
Proof.
  revert r. induction l as [|y l IH]; intros r; simpl.
  - split; [intros H; exists r; split; [left | done]|]. by intros (x & ->%list_elem_of_singleton & H).
  - split.
    + intros H. inversion H; subst; [by exists r; split; [left|]|].
      match goal with Hx : mt (alts _ _) _ _ _ _ |- _ => apply IH in Hx as (x & Hx & ?) end.
      exists x. split; [by right | done].
    + intros (x & [-> | Hx]%elem_of_cons & H); [by apply mt_alt_l|].
      apply mt_alt_r, IH. by exists x.
Qed.

Lemma consumed_app m s : consumed (m +:+ s) s = m.
Proof.
  unfold consumed. assert (String.length (m +:+ s) = String.length m + String.length s) as ->.
  { induction m as [|c m IH]; [done|]. simpl. congruence. }
  replace (_ - _) with (String.length m) by lia.
  induction m; simpl; [by destruct s | by f_equal].
Qed.

(** A position inside a text: the character before it and what follows. *)
Inductive position : option ascii -> string -> option ascii -> string -> Prop :=
  | pos_here prev s : position prev s prev s
  | pos_next prev c s prev' s' : position (Some c) s prev' s' -> position prev (String c s) prev' s'.

Lemma search_at_spec r prev s start :
  is_Some (search_at r prev s start) <->
  exists p1 s1 p2 s2, position prev s p1 s1 /\ mt r p1 s1 p2 s2.
Proof.
  revert prev start. induction s as [|c s IH]; intros prev start; simpl; rewrite or_else_some, run_spec
    by (intros ? ? ? ? _; eauto).
  - split.
    + intros [(p2 & s2 & Hm & _) | [? ?]]; [|done]. eexists _, _, p2, s2. split; [constructor | done].
    + intros (p1 & s1 & p2 & s2 & Hp & Hm). inversion Hp; subst. left. exists p2, s2. eauto.
  - rewrite IH. split.
    + intros [(p2 & s2 & Hm & _) | (p1 & s1 & p2 & s2 & Hp & Hm)].
      * eexists _, _, p2, s2. split; [constructor | done].
      * exists p1, s1, p2, s2. split; [by constructor | done].
    + intros (p1 & s1 & p2 & s2 & Hp & Hm). inversion Hp; subst; [left | right]; eauto 10.
Qed.

Lemma position_app prev pre s : position prev (pre +:+ s) (last_char prev pre) s.
Proof. revert prev. induction pre; intros prev; simpl; constructor; auto. Qed.

(** A result of [search] comes from a match somewhere in the text. *)
Lemma search_inv r s n w c :
  search r s = Some (n, w, c) -> exists prev s0 prev' s', position None s prev s0 /\
    mt r prev s0 prev' s' /\ run r prev s0 [] (fun _ s'' c' => Some (n, consumed s0 s'', c')) = Some (n, w, c).
Proof.
  unfold search. generalize 0 at 1. intros start. revert start. generalize (@None ascii).
  induction s as [|d s IH]; intros prev start; simpl;
    destruct (run r prev _ [] _) as [[[n' w'] c']|] eqn:Hr; simpl; intros H; try done.
  - injection H as -> -> ->. pose proof Hr as H. apply run_inv in H as (p1 & s1 & c1 & Hm & [= -> _ _]).
    exists prev, "", p1, s1. split; [constructor | done].
  - injection H as -> -> ->. pose proof Hr as H. apply run_inv in H as (p1 & s1 & c1 & Hm & [= -> _ _]).
    eexists _, _, p1, s1. split; [constructor | done].
  - apply IH in H as (p1 & s1 & p2 & s2 & Hp & Hm & H). exists p1, s1, p2, s2.
    split; [by constructor | done].
Qed.

(** The matcher decides whether the pattern matches somewhere in the text. *)
Theorem search_spec r s :
  matches_in r s = true <-> exists p1 s1 p2 s2, position None s p1 s1 /\ mt r p1 s1 p2 s2.
Proof.
  rewrite <-(search_at_spec r None s 0). unfold matches_in, search.
  destruct (search_at r None s 0); split; try done; intros _; eauto.
Qed.

Example word_example :
  let model := Grp 1 (alts (lit "sonnet") [lit "opus"]) in
  let r := seqs [WordB; model; WordB] in
  (group (default [] (snd <$> search r "Your OPUS limit")) 1, matches_in r "opuses are magnum") =
  (Some "OPUS", false).
Proof. reflexivity. Qed.
