(* ===== verification/Parked.v ===== *)
(** * Evidence fingerprints and the parked-state machine

    evidence_fingerprints/fingerprint.py, recovery/parked.py,
    recovery/parked_store.py and the maintenance task that consumes them,
    entrypoints/maintenance/parked_unpark_task.py.  SHA-256 is a parameter, and
    so is the text of a float. *)
From Stdlib Require Import Ascii.
From S2P Require Import Prelude PyStr PyData RecoveryModels Regex.

(** ** [json.dumps] *)

Definition hex_digit (n : nat) : ascii := ascii_of_nat (if n <? 10 then 48 + n else 87 + n).

(** One character of a JSON string, with [ensure_ascii=False]. *)
Definition json_char (c : ascii) : string :=
  let n := nat_of_ascii c in
  let esc s := String "\" s in
  if Ascii.eqb c dquote || Ascii.eqb c "\" then esc (String c "")
  else if n =? 10 then esc "n" else if n =? 13 then esc "r" else if n =? 9 then esc "t"
  else if n =? 8 then esc "b" else if n =? 12 then esc "f"
  else if n <? 32 then esc ("u00" +:+ String (hex_digit (n / 16)) (String (hex_digit (n mod 16)) ""))
  else String c "".

Fixpoint json_chars (s : string) : string :=
  match s with EmptyString => "" | String c s' => json_char c +:+ json_chars s' end.

Definition json_string (s : string) : string :=
  String dquote (json_chars s +:+ String dquote "").

Definition key_leb {A} (a b : string * A) : bool := str_leb (fst a) (fst b).

(** [json.dumps(v, sort_keys=True, separators=(isep, ksep))]. *)
Fixpoint json_dumps (float_text : Q -> string) (isep ksep : string) (v : jval) : string :=
  match v with
  | JNull => "null"
  | JBool b => if b then "true" else "false"
  | JInt n => str_of_Z n
  | JFloat q => float_text q
  | JStr s => json_string s
  | JTime t => json_string (isoformat t)
  | JList l => "[" +:+ join isep (map (json_dumps float_text isep ksep) l) +:+ "]"
  | JObj l =>
      let entries := map (fun kv => (fst kv, json_dumps float_text isep ksep (snd kv))) l in
      "{" +:+ join isep (map (fun kv => json_string (fst kv) +:+ ksep +:+ snd kv)
                             (sorted_by key_leb entries)) +:+ "}"
  end.

(** ** fingerprint.py *)

Definition IGNORED_KEYS : list string :=
  ["timestamp"; "ts"; "time"; "created_at"; "updated_at"; "completed_at"; "started_at";
   "cycle_id"; "cycle"; "run_id"].

Definition chr (c : ascii) : re := Cls (Ascii.eqb c).
Definition ndigits (n : nat) : re := Rep is_digit n (Some n) true.
Definition stamp_char (c : ascii) : bool :=
  is_digit c || Ascii.eqb c ":" || Ascii.eqb c "." || Ascii.eqb c "+" || Ascii.eqb c "-".

Definition TIMESTAMP_RE : re :=
  Alt (seqs [WordB; ndigits 4; chr "-"; ndigits 2; chr "-"; ndigits 2;
             Cls (fun c => Ascii.eqb c "T" || Ascii.eqb c " ");
             Rep stamp_char 1 None true; opt (chr "Z"); WordB])
      (seqs [WordB; Rep is_digit 10 None true; WordB]).

(** [pattern.sub(text, s)] for a pattern that matches no empty text: every
    match consumes a character, so the length of [s] is fuel enough. *)
Fixpoint sub_fuel (fuel : nat) (r : re) (text : string) (prev : option ascii) (s : string) : string :=
  match fuel with
  | 0 => s
  | S fuel' =>
      match search_at r prev s 0 with
      | None => s
      | Some (start, m, _) =>
          str_take start s +:+ text +:+
          sub_fuel fuel' r text (last (String.list_ascii_of_string m))
            (str_drop (start + String.length m) s)
      end
  end.
Definition re_sub (r : re) (text s : string) : string := sub_fuel (String.length s) r text None s.

Definition canonical_text (s : string) : string := re_sub TIMESTAMP_RE "<time>" (strip s).

Section Fingerprint.
Context (float_text : Q -> string) (sha256 : string -> string).

(** The key the canonical items of a list are sorted by. *)
Definition sort_text (v : jval) : string := json_dumps float_text ", " ": " v.

Fixpoint canonicalize_evidence (v : jval) : jval :=
  match v with
  | JObj l =>
      JObj (sorted_by key_leb
        (List.filter (fun kv => negb (str_in (lower (fst kv)) IGNORED_KEYS))
           (map (fun kv => (fst kv, canonicalize_evidence (snd kv))) l)))
  | JList l =>
      JList (sorted_by (fun a b => str_leb (sort_text a) (sort_text b))
               (map canonicalize_evidence l))
  | JStr s => JStr (canonical_text s)
  | JTime t => JStr (canonical_text (isoformat t))
  | JNull | JBool _ | JInt _ | JFloat _ => v
  end.

Definition fingerprint_payload (v : jval) : string :=
  json_dumps float_text "," ":" (canonicalize_evidence v).

Definition evidence_fingerprint (v : jval) : string := sha256 (fingerprint_payload v).
End Fingerprint.

(** ** parked.py

    The stored hash and conditions are whatever JSON the sidecar holds. *)

Record ParkedState := {
  ps_root_cause_signature : string;
  ps_parked_reason : string;
  ps_parked_at : datetime;
  ps_unchanged_cycles : Z;
  ps_last_evidence_hash : jval;
  ps_unpark_conditions : list jval }.

Definition DEFAULT_UNPARK_CONDITIONS : list jval :=
  map JStr ["backend_health_change"; "queue_change"; "runtime_config_change";
            "watcher_state_change"; "execution_outcome_change"].

Record ParkedStateDecision := {
  psd_parked : bool;
  psd_reason : string;
  psd_unchanged_cycles : Z }.

Definition hashable (v : jval) : bool := match v with JList _ | JObj _ => false | _ => true end.

Definition should_unpark (parked : ParkedState) (current_evidence_hash : string)
    (triggered_conditions : list string) : res ParkedStateDecision :=
  if negb (jeq_str (ps_last_evidence_hash parked) current_evidence_hash) then
    Ok {| psd_parked := false; psd_reason := "semantic evidence changed";
          psd_unchanged_cycles := 0 |}
  else if negb (forallb hashable (ps_unpark_conditions parked)) then
    Raise (TypeError "unhashable type")
  else
    let matched := sorted_set (List.filter
      (fun c => existsb (fun v => jeq_str v c) (ps_unpark_conditions parked)) triggered_conditions) in
    if list_truthy matched then
      Ok {| psd_parked := false; psd_reason := "unpark condition met: " +:+ join "," matched;
            psd_unchanged_cycles := 0 |}
    else
      Ok {| psd_parked := true; psd_reason := "no unpark condition met";
            psd_unchanged_cycles := ps_unchanged_cycles parked + 1 |}.

(** ** parked_store.py *)

(** [tuple(v)]. *)
Definition py_tuple (v : jval) : res (list jval) :=
  let chars s := map (fun c => JStr (String c "")) (String.list_ascii_of_string s) in
  match v with
  | JList l => Ok l
  | JStr s => Ok (chars s)
  | JTime t => Ok (chars (isoformat t))
  | JObj l => Ok (map (fun kv => JStr (fst kv)) l)
  | _ => Raise (TypeError "object is not iterable")
  end.

Definition parked_to_json (s : ParkedState) : jval :=
  JObj [("last_evidence_hash", ps_last_evidence_hash s); ("parked_at", JTime (ps_parked_at s));
        ("parked_reason", JStr (ps_parked_reason s));
        ("root_cause_signature", JStr (ps_root_cause_signature s));
        ("unchanged_cycles", JInt (ps_unchanged_cycles s));
        ("unpark_conditions", JList (ps_unpark_conditions s))].

Definition parked_of_json (payload : jval) : res ParkedState :=
  match payload with
  | JObj l =>
      let d : dict := list_to_map l in
      signature <-? ditem d "root_cause_signature" ;;
      reason <-? ditem d "parked_reason" ;;
      at_ <-? ditem d "parked_at" ;;
      parked_at <-? match fromisoformat_str at_ with
                    | Some t => Ok t
                    | None => Raise (ValueError "Invalid isoformat string")
                    end ;;
      cycles <-? jint (default (JInt 0) (d !! "unchanged_cycles")) ;;
      conditions <-? py_tuple (default (JList []) (d !! "unpark_conditions")) ;;
      Ok {| ps_root_cause_signature := jtext signature; ps_parked_reason := jtext reason;
            ps_parked_at := parked_at; ps_unchanged_cycles := cycles;
            ps_last_evidence_hash := dget d "last_evidence_hash";
            ps_unpark_conditions := conditions |}
  | _ => Raise (TypeError "indices must be integers or slices, not str")
  end.

(** [ParkedStateStore.load]. *)
Definition parked_load (f : json_file) : res (option ParkedState) :=
  match f with
  | FileMissing => Ok None
  | FileCorrupt e => Raise e
  | FileHolds payload => s <-? parked_of_json payload ;; Ok (Some s)
  end.

Definition parked_save (disk : res unit) (f : json_file) (s : ParkedState) : json_file * res unit :=
  match disk with
  | Ok _ => (FileHolds (parked_to_json s), Ok tt)
  | Raise e => (f, Raise e)
  end.

Definition parked_clear (f : json_file) : json_file := FileMissing.

(** ** parked_unpark_task.py *)

Definition issue_state_text (issue : dict) : string :=
  let name := match dget issue "state" with
              | JObj l => dget (list_to_map l) "name"
              | v => v
              end in
  lower (strip (if jtruthy name then jtext name else "")).

Definition board_evidence (issues : list dict) : jval :=
  JObj [("blocked", JList (map
    (fun issue => JObj [("id", JStr (jtext (dget issue "id"))); ("state", JStr "Blocked")])
    (List.filter (fun issue => String.eqb (issue_state_text issue) "blocked") issues)))].

Record UnparkDetails := {
  ud_evidence_changed : bool;
  ud_unpark_reason : string;
  ud_budget_allowed : bool;
  ud_budget_escalate : bool;
  ud_parked : bool;
  ud_unchanged_cycles : Z }.

Inductive UnparkResult :=
  | LoadFailed (e : exn)
  | NothingParked
  | FetchFailed (e : exn)
  | Evaluated (d : UnparkDetails).

Section Task.
Context (float_text : Q -> string) (sha256 : string -> string).

Definition board_hash (issues : list dict) : string :=
  evidence_fingerprint float_text sha256 (board_evidence issues).

(** [ParkedUnparkTask.run_once]: [board] is what [list_issues] does. *)
Definition run_once (board : res (list dict)) (disk : res unit) (f : json_file)
    : json_file * res UnparkResult :=
  match parked_load f with
  | Raise e => (f, Ok (LoadFailed e))
  | Ok None => (f, Ok NothingParked)
  | Ok (Some parked) =>
      match board with
      | Raise e => (f, Ok (FetchFailed e))
      | Ok issues =>
          let current_hash := board_hash issues in
          match should_unpark parked current_hash [] with
          | Raise e => (f, Raise e)
          | Ok decision =>
              let evidence_changed := negb (jeq_str (ps_last_evidence_hash parked) current_hash) in
              let budget := snd (record_cycle (new_tracker default_budget) evidence_changed) in
              let details := {|
                ud_evidence_changed := evidence_changed; ud_unpark_reason := psd_reason decision;
                ud_budget_allowed := rbd_allowed budget; ud_budget_escalate := rbd_escalate budget;
                ud_parked := psd_parked decision;
                ud_unchanged_cycles := psd_unchanged_cycles decision |} in
              if negb (psd_parked decision) then (parked_clear f, Ok (Evaluated details))
              else
                let '(f', r) := parked_save disk f
                  {| ps_root_cause_signature := ps_root_cause_signature parked;
                     ps_parked_reason := ps_parked_reason parked;
                     ps_parked_at := ps_parked_at parked;
                     ps_unchanged_cycles := psd_unchanged_cycles decision;
                     ps_last_evidence_hash := JStr current_hash;
                     ps_unpark_conditions := ps_unpark_conditions parked |} in
                (f', _ <-? r ;; Ok (Evaluated details))
          end
      end
  end.
End Task.

(** ** Fingerprints do not depend on the order of the board *)

Definition blocked_item (issue : dict) : jval :=
  JObj [("id", JStr (canonical_text (jtext (dget issue "id")))); ("state", JStr "Blocked")].

Definition blocked_issues (issues : list dict) : list dict :=
  List.filter (fun issue => String.eqb (issue_state_text issue) "blocked") issues.

Section Order.
Context (float_text : Q -> string).

Lemma canonical_item id :
  canonicalize_evidence float_text (JObj [("id", JStr id); ("state", JStr "Blocked")])
  = JObj [("id", JStr (canonical_text id)); ("state", JStr "Blocked")].
Proof.
  assert (E : canonical_text "Blocked" = "Blocked") by (vm_compute; reflexivity).
  cbn [canonicalize_evidence map fst snd]. rewrite E. generalize (canonical_text id) as cid.
  intros cid. vm_compute. reflexivity.
Qed.

Lemma canonical_board issues :
  canonicalize_evidence float_text (board_evidence issues) = JObj [("blocked", JList
    (sorted_by (fun a b => str_leb (sort_text float_text a) (sort_text float_text b))
      (map blocked_item (blocked_issues issues))))].
Proof.
  unfold board_evidence. fold (blocked_issues issues).
  cbn [canonicalize_evidence map fst snd]. rewrite map_map.
  rewrite (map_ext _ blocked_item) by (intros; apply canonical_item).
  generalize (map blocked_item (blocked_issues issues)) as items. intros items.
  generalize (sorted_by (fun a b => str_leb (sort_text float_text a) (sort_text float_text b)) items).
  intros l. vm_compute. reflexivity.
Qed.

(** The text of an item with one pair of separators determines its text with
    another: only the identifier varies. *)
Lemma blocked_item_text i1 i2 :
  sort_text float_text (blocked_item i1) = sort_text float_text (blocked_item i2) ->
  json_dumps float_text "," ":" (blocked_item i1) = json_dumps float_text "," ":" (blocked_item i2).
Proof.
  unfold sort_text, blocked_item. simpl. generalize (canonical_text (jtext (dget i1 "id"))) as a,
    (canonical_text (jtext (dget i2 "id"))) as b. intros a b H.
  assert (json_string a = json_string b) as ->; [|done].
  revert H. generalize (json_string a) as x, (json_string b) as y. intros x y H.
  repeat (injection H as H). do 2 apply str_app_inj_r in H. exact H.
Qed.

(** The payload is the same for every order in which the board lists its
    issues. *)
Lemma payload_perm l1 l2 :
  l1 ≡ₚ l2 ->
  fingerprint_payload float_text (board_evidence l1) = fingerprint_payload float_text (board_evidence l2).
Proof.
  intros Hp. unfold fingerprint_payload. rewrite !canonical_board.
  set (leb := fun a b => str_leb (sort_text float_text a) (sort_text float_text b)).
  assert (Hb : map blocked_item (blocked_issues l1) ≡ₚ map blocked_item (blocked_issues l2)).
  { apply Permutation_map. unfold blocked_issues. induction Hp; simpl.
    - done.
    - destruct (String.eqb _ _); [by constructor | done].
    - destruct (String.eqb _ _), (String.eqb _ _); try done. constructor.
    - by etransitivity. }
  pose proof (sorted_by_key_perm (sort_text float_text) _ _ Hb) as Hs. fold leb in Hs.
  assert (Hm : map (json_dumps float_text "," ":") (sorted_by leb (map blocked_item (blocked_issues l1)))
             = map (json_dumps float_text "," ":") (sorted_by leb (map blocked_item (blocked_issues l2)))).
  { assert (Hi : forall l, Forall (fun v => exists i, v = blocked_item i) (sorted_by leb (map blocked_item l))).
    { intros l. rewrite sorted_by_perm. apply Forall_map, Forall_true. eauto. }
    pose proof (Hi (blocked_issues l1)) as H1. pose proof (Hi (blocked_issues l2)) as H2.
    revert Hs H1 H2. generalize (sorted_by leb (map blocked_item (blocked_issues l1))) as s1,
      (sorted_by leb (map blocked_item (blocked_issues l2))) as s2.
    induction s1 as [|v1 s1 IH]; intros [|v2 s2]; simpl; try done.
    intros [= Hv Hs] [[i1 ->] H1]%Forall_cons [[i2 ->] H2]%Forall_cons. f_equal; [|by apply IH].
    by apply blocked_item_text. }
  cbn [json_dumps map fst snd]. by rewrite Hm.
Qed.
End Order.

(** ** The sidecar *)

Lemma parked_of_to_json s : parked_of_json (parked_to_json s) = Ok s.
Proof. by destruct s. Qed.

#[export] Instance ParkedState_persistent : Persistent ParkedState := {|
  to_json := parked_to_json; of_json := parked_of_json; of_to_json := parked_of_to_json |}.

Lemma load_held s : parked_load (FileHolds (parked_to_json s)) = Ok (Some s).
Proof. unfold parked_load. by rewrite parked_of_to_json. Qed.

(** the sidecar round-trips: whatever it held, a parked state that was
    saved is the one the next cycle loads, field by field. *)
Theorem parked_store_round_trip f s :
  parked_load (fst (parked_save (Ok tt) f s)) = Ok (Some s).
Proof. apply load_held. Qed.

Definition with_cycles (s : ParkedState) (n : Z) (hash : string) : ParkedState :=
  {| ps_root_cause_signature := ps_root_cause_signature s; ps_parked_reason := ps_parked_reason s;
     ps_parked_at := ps_parked_at s; ps_unchanged_cycles := n; ps_last_evidence_hash := JStr hash;
     ps_unpark_conditions := ps_unpark_conditions s |}.

(** ** Cycles of the task *)

Section Cycles.
Context (float_text : Q -> string) (sha256 : string -> string).

Abbreviation hash := (board_hash float_text sha256).

(** The board's fingerprint ignores the order of its issues. *)
Lemma board_hash_perm l1 l2 : l1 ≡ₚ l2 -> hash l1 = hash l2.
Proof.
  intros Hp. unfold board_hash, evidence_fingerprint. f_equal. by apply payload_perm.
Qed.

(** The sidecar after a sequence of cycles that read the board and write. *)
Definition after_cycles (boards : list (list dict)) (f : json_file) : json_file :=
  fold_left (fun f issues => fst (run_once float_text sha256 (Ok issues) (Ok tt) f)) boards f.

Lemma run_once_parked s issues h :
  ps_last_evidence_hash s = JStr h -> forallb hashable (ps_unpark_conditions s) = true ->
  fst (run_once float_text sha256 (Ok issues) (Ok tt) (FileHolds (parked_to_json s))) =
    if String.eqb (hash issues) h
    then FileHolds (parked_to_json (with_cycles s (ps_unchanged_cycles s + 1) h))
    else FileMissing.
Proof.
  intros Hh Hc. unfold run_once. rewrite load_held. unfold should_unpark. rewrite Hh, Hc. simpl.
  rewrite (String.eqb_sym h). destruct (String.eqb_spec (hash issues) h) as [->|]; done.
Qed.

Lemma missing_stays boards : after_cycles boards FileMissing = FileMissing.
Proof. by induction boards. Qed.

(** a parked root cause stays parked exactly as long as the evidence does:
    after any cycles the sidecar is cleared if the fingerprint of some board
    differed from the stored one, and otherwise counts every cycle. *)
Theorem parked_until_evidence_changes boards s h :
  ps_last_evidence_hash s = JStr h -> forallb hashable (ps_unpark_conditions s) = true ->
  after_cycles boards (FileHolds (parked_to_json s)) =
    if forallb (fun issues => String.eqb (hash issues) h) boards
    then FileHolds (parked_to_json
      (with_cycles s (ps_unchanged_cycles s + Z.of_nat (length boards)) h))
    else FileMissing.
Proof.
  intros Hh Hc. revert s Hh Hc. induction boards as [|issues boards IH]; intros s Hh Hc.
  { simpl. rewrite Z.add_0_r. destruct s. simpl in *. by subst. }
  unfold after_cycles. cbn [fold_left forallb]. rewrite (run_once_parked s issues h) by done.
  destruct (String.eqb (hash issues) h); [|apply missing_stays].
  rewrite andb_true_l. etransitivity; [by apply (IH (with_cycles s (ps_unchanged_cycles s + 1) h))|].
  destruct (forallb _ boards); [|done]. do 2 f_equal. unfold with_cycles. simpl. f_equal.
  rewrite Nat2Z.inj_succ. lia.
Qed.

(** noise never unparks: a board that lists the same issues in another
    order leaves the root cause parked and counts one more unchanged cycle. *)
Theorem reordering_keeps_parked issues issues' s :
  issues ≡ₚ issues' -> ps_last_evidence_hash s = JStr (hash issues) ->
  forallb hashable (ps_unpark_conditions s) = true ->
  fst (run_once float_text sha256 (Ok issues') (Ok tt) (FileHolds (parked_to_json s))) =
    FileHolds (parked_to_json (with_cycles s (ps_unchanged_cycles s + 1) (hash issues))).
Proof.
  intros Hp Hh Hc. rewrite (run_once_parked s issues' (hash issues)) by done.
  by rewrite (board_hash_perm _ _ Hp), String.eqb_refl.
Qed.

(** the task never reports an exhausted budget: it asks a tracker made
    for the cycle, so the count of unchanged cycles never exceeds one. *)
Theorem parked_task_never_escalates board disk f f' d :
  run_once float_text sha256 board disk f = (f', Ok (Evaluated d)) ->
  ud_budget_allowed d = true /\ ud_budget_escalate d = false.
Proof.
  unfold run_once. destruct (parked_load f) as [[parked|]|]; [|done|done].
  destruct board as [issues|]; [|done]. destruct (should_unpark _ _ _) as [dec|]; [|done].
  assert (Hb : forall c, rbd_allowed (snd (record_cycle (new_tracker default_budget) c)) = true /\
    rbd_escalate (snd (record_cycle (new_tracker default_budget) c)) = false) by by intros [].
  destruct (negb (psd_parked dec)).
  - intros [= <- <-]. apply Hb.
  - destruct disk as [[]|]; simpl; [|done]. intros [= <- <-]. apply Hb.
Qed.
End Cycles.

(** ** Witnesses *)

Definition blocked_board (ids : list string) : list dict :=
  map (fun id => {["id" := JStr id; "state" := JObj [("name", JStr "Blocked")]]}) ids.

Definition sample_parked (h : string) : ParkedState :=
  {| ps_root_cause_signature := "sigkill-loop"; ps_parked_reason := "budget";
     ps_parked_at := mk_datetime 0 true; ps_unchanged_cycles := 4;
     ps_last_evidence_hash := JStr h; ps_unpark_conditions := DEFAULT_UNPARK_CONDITIONS |}.

(** With the identity for SHA-256. *)
Definition sample_hash : list dict -> string := board_hash (fun _ => "0.0") id.

Lemma parked_until_evidence_changes_witness :
  let h := sample_hash (blocked_board ["7"; "12"]) in
  after_cycles (fun _ => "0.0") id [blocked_board ["7"; "12"]; blocked_board ["12"; "7"]]
    (FileHolds (parked_to_json (sample_parked h)))
  = FileHolds (parked_to_json (with_cycles (sample_parked h) 6 h)).
Proof.
  intros h. rewrite (parked_until_evidence_changes (fun _ => "0.0") id _ (sample_parked h) h).
  - vm_compute. reflexivity.
  - reflexivity.
  - reflexivity.
Defined.

Lemma reordering_keeps_parked_witness :
  fst (run_once (fun _ => "0.0") id (Ok (blocked_board ["12"; "7"])) (Ok tt)
    (FileHolds (parked_to_json (sample_parked (sample_hash (blocked_board ["7"; "12"]))))))
  = FileHolds (parked_to_json (with_cycles (sample_parked (sample_hash (blocked_board ["7"; "12"]))) 5
      (sample_hash (blocked_board ["7"; "12"])))).
Proof.
  refine (reordering_keeps_parked (fun _ => "0.0") id (blocked_board ["7"; "12"])
    (blocked_board ["12"; "7"]) (sample_parked (sample_hash (blocked_board ["7"; "12"]))) _ _ _).
  - exact (perm_swap _ _ _).
  - reflexivity.
  - reflexivity.
Defined.

Lemma parked_task_never_escalates_witness :
  exists f' d, run_once (fun _ => "0.0") id (Ok (blocked_board ["7"])) (Ok tt)
      (FileHolds (parked_to_json (sample_parked (sample_hash (blocked_board ["7"]))))) = (f', Ok (Evaluated d)) /\
    ud_unchanged_cycles d = 5%Z /\ ud_budget_escalate d = false.
Proof.
  eexists _, _. split; [vm_compute; reflexivity|]. split; [reflexivity|].
  refine (proj2 (parked_task_never_escalates (fun _ => "0.0") id (Ok (blocked_board ["7"])) (Ok tt)
    (FileHolds (parked_to_json (sample_parked (sample_hash (blocked_board ["7"]))))) _ _ _)).
  vm_compute. reflexivity.
Defined.
