(* ===== verification/AuditDispatch.v ===== *)
(** * Dispatch of managed audits

    managed_repos/models.py, run_identity/generator.py and models.py,
    audit_toolset/commands.py, audit_dispatch/models.py, executor.py,
    lifecycle.py and api.py: from a request over the run identity, the
    invocation, the repository's lock, the subprocess and the discovery of what
    it wrote, to one structured result.  Loading a configuration, the file
    system's answers, the subprocess and the clock are arguments; free metadata
    and the paths of the captured output are left out. *)
From Stdlib Require Import Ascii.
From S2P Require Import Prelude PyStr PyData AuditLocks Regex.

(** ** Managed repositories *)

Inductive CommandStatus := CS_VERIFIED | CS_NOT_YET_RUN | CS_UNKNOWN | CS_NEEDS_CONFIRMATION.

Definition CommandStatus_value (s : CommandStatus) : string :=
  match s with
  | CS_VERIFIED => "verified"
  | CS_NOT_YET_RUN => "not_yet_run"
  | CS_UNKNOWN => "unknown"
  | CS_NEEDS_CONFIRMATION => "needs_confirmation"
  end.

Record AuditType := {
  at_audit_type : string;
  at_command : string;
  at_command_status : CommandStatus;
  at_working_dir : string;
  at_output_dir : string }.

Record ManagedRepoConfig := {
  mc_repo_id : string;
  mc_repo_name : string;
  mc_repo_root : string;
  mc_env_var : string;
  mc_capabilities : list string;
  mc_audit : option (list AuditType) }.

Definition has_capability (c : ManagedRepoConfig) (name : string) : bool :=
  str_in name (mc_capabilities c).

Definition audit_type_names (c : ManagedRepoConfig) : list string :=
  match mc_audit c with Some l => map at_audit_type l | None => [] end.

(** [_check_semantic_constraints]. *)
Definition validated_config (c : ManagedRepoConfig) : res ManagedRepoConfig :=
  if has_capability c "audit" && bool_decide (mc_audit c = None) then
    Raise (ValueError ("capabilities includes 'audit' but audit field is absent — " +:+
                       "add an audit: block or remove 'audit' from capabilities"))
  else if match mc_audit c with Some l => negb (list_truthy l) | None => false end then
    Raise (ValueError ("audit field is present but audit_types is empty — " +:+
                       "add at least one audit_type entry"))
  else if negb (str_truthy (strip (mc_repo_id c))) then Raise (ValueError "repo_id must not be blank")
  else if negb (str_truthy (strip (mc_repo_name c))) then Raise (ValueError "repo_name must not be blank")
  else Ok c.

Definition get_audit_type (types : list AuditType) (name : string) : option AuditType :=
  find_first (fun t => String.eqb (at_audit_type t) name) types.

(** ** Run identity *)

Definition lower_word (c : ascii) : bool := is_lower c || is_digit c || Ascii.eqb c "_".
Definition hex_lower (c : ascii) : bool := is_digit c || in_range 97 102 c.
Definition one (c : ascii) : re := Cls (Ascii.eqb c).

Definition RUN_ID_PATTERN : re :=
  seqs [Rep lower_word 1 None true; one "_"; Rep lower_word 1 None true; one "_";
        Rep is_digit 8 (Some 8) true; one "T"; Rep is_digit 6 (Some 6) true; one "Z"; one "_";
        Rep hex_lower 8 (Some 8) true].

(** [$]: the end, or before a final newline. *)
Definition at_end (s : string) : bool :=
  String.eqb s "" || String.eqb s (String (ascii_of_nat 10) "").

Definition is_valid_run_id (run_id : string) : bool :=
  match run RUN_ID_PATTERN None run_id []
          (fun _ rest _ => if at_end rest then Some tt else None) with
  | Some _ => true
  | None => false
  end.

Record ManagedRunIdentity := {
  mi_repo_id : string;
  mi_audit_type : string;
  mi_run_id : string;
  mi_env_var : string }.

Definition validated_identity (i : ManagedRunIdentity) : res ManagedRunIdentity :=
  if negb (str_truthy (strip (mi_repo_id i))) then Raise (ValueError "repo_id must not be empty")
  else if negb (str_truthy (strip (mi_audit_type i)))
  then Raise (ValueError "audit_type must not be empty")
  else if negb (is_valid_run_id (mi_run_id i))
  then Raise (ValueError ("run_id " +:+ repr (mi_run_id i) +:+ " does not match the managed-run format"))
  else Ok i.

(** [timestamp]: the clock as [%Y%m%dT%H%M%SZ]; [suffix]: eight random hex digits. *)
Definition run_id_of (repo_id audit_type timestamp suffix : string) : string :=
  repo_id +:+ "_" +:+ audit_type +:+ "_" +:+ timestamp +:+ "_" +:+ suffix.

Definition generate_managed_run_identity (repo_id audit_type env_var timestamp suffix : string)
    : res ManagedRunIdentity :=
  validated_identity
    {| mi_repo_id := repo_id; mi_audit_type := audit_type;
       mi_run_id := run_id_of repo_id audit_type timestamp suffix; mi_env_var := env_var |}.

Definition RunIdentityEnvConflictError (m : string) : exn := NamedError "RunIdentityEnvConflictError" m.

(** [apply_run_identity_env] with [allow_same]. *)
Definition apply_run_identity_env (base_env : gmap string string) (i : ManagedRunIdentity)
    : res (gmap string string) :=
  match base_env !! mi_env_var i with
  | Some existing =>
      if String.eqb existing (mi_run_id i) then Ok (<[mi_env_var i := mi_run_id i]> base_env)
      else Raise (RunIdentityEnvConflictError
             ("base_env already contains " +:+ mi_env_var i +:+ "=" +:+ repr existing +:+
              " which conflicts with identity run_id=" +:+ repr (mi_run_id i) +:+
              ". Clear the existing value or use a fresh env."))
  | None => Ok (<[mi_env_var i := mi_run_id i]> base_env)
  end.

(** ** The invocation *)

Record ManagedAuditInvocationRequest := {
  iv_repo_id : string;
  iv_audit_type : string;
  iv_run_id : string;
  iv_working_directory : string;
  iv_command : string;
  iv_env : gmap string string;
  iv_expected_output_dir : string }.

Definition ManagedRepoNotFoundError (m : string) : exn := NamedError "ManagedRepoNotFoundError" m.
Definition ManagedRepoCapabilityError (m : string) : exn := NamedError "ManagedRepoCapabilityError" m.
Definition ManagedAuditTypeUnsupportedError (m : string) : exn :=
  NamedError "ManagedAuditTypeUnsupportedError" m.
Definition ManagedAuditCommandUnavailableError (m : string) : exn :=
  NamedError "ManagedAuditCommandUnavailableError" m.
Definition AuditDispatchConfigError (m : string) : exn := NamedError "AuditDispatchConfigError" m.

Definition is_file_not_found (e : exn) : bool :=
  match e with NamedError cls _ => String.eqb cls "FileNotFoundError" | _ => false end.

Definition check_command_status (status : CommandStatus) (audit_type : string)
    (allow_not_yet_run : bool) : res unit :=
  match status with
  | CS_UNKNOWN | CS_NEEDS_CONFIRMATION =>
      Raise (ManagedAuditCommandUnavailableError
        ("audit_type=" +:+ repr audit_type +:+ " has command_status=" +:+
         repr (CommandStatus_value status) +:+ " which is blocked."))
  | CS_NOT_YET_RUN =>
      if allow_not_yet_run then Ok tt
      else Raise (ManagedAuditCommandUnavailableError
        ("audit_type=" +:+ repr audit_type +:+
         " has command_status='not_yet_run' and allow_not_yet_run=False."))
  | CS_VERIFIED => Ok tt
  end.

Section Prepare.
Context (load_config : string -> res ManagedRepoConfig).

Definition resolve_invocation_request (repo_id audit_type run_id : string) (allow_not_yet_run : bool)
    (extra_env : gmap string string) : res ManagedAuditInvocationRequest :=
  config <-? match load_config repo_id with
             | Raise e => if is_file_not_found e
                          then Raise (ManagedRepoNotFoundError
                                 ("No managed repo config found for repo_id=" +:+ repr repo_id))
                          else Raise e
             | Ok c => Ok c
             end ;;
  if negb (has_capability config "audit") then
    Raise (ManagedRepoCapabilityError
      ("Managed repo " +:+ repr repo_id +:+ " does not advertise 'audit' capability"))
  else
    match mc_audit config with
    | None => Raise (RuntimeError ("config.audit unexpectedly None for repo " +:+ repr repo_id))
    | Some types =>
        match get_audit_type types audit_type with
        | None => Raise (ManagedAuditTypeUnsupportedError
            ("audit_type=" +:+ repr audit_type +:+ " is not declared in managed repo " +:+
             repr repo_id +:+ ". Known types: " +:+ repr_list (audit_type_names config)))
        | Some t =>
            _ <-? check_command_status (at_command_status t) audit_type allow_not_yet_run ;;
            Ok {| iv_repo_id := repo_id; iv_audit_type := audit_type; iv_run_id := run_id;
                  iv_working_directory := at_working_dir t; iv_command := at_command t;
                  iv_env := <["AUDIT_RUN_ID" := run_id]> extra_env;
                  iv_expected_output_dir := at_output_dir t |}
        end
    end.

Definition prepare_managed_audit_invocation (repo_id audit_type timestamp suffix : string)
    (allow_not_yet_run : bool) (extra_env : gmap string string)
    : res (ManagedRunIdentity * ManagedAuditInvocationRequest) :=
  config <-? load_config repo_id ;;
  identity <-? generate_managed_run_identity repo_id audit_type (mc_env_var config) timestamp suffix ;;
  env <-? apply_run_identity_env extra_env identity ;;
  request <-? resolve_invocation_request repo_id audit_type (mi_run_id identity)
                allow_not_yet_run env ;;
  Ok (identity, request).
End Prepare.

(** ** Requests and results *)

Inductive RunStatus :=
  | RS_PENDING | RS_RUNNING | RS_COMPLETED | RS_FAILED | RS_INTERRUPTED | RS_UNKNOWN
  | RS_IN_PROGRESS_LEGACY.

#[export] Instance RunStatus_eq_dec : EqDecision RunStatus.
Proof. solve_decision. Defined.

Definition RunStatus_value (s : RunStatus) : string :=
  match s with
  | RS_PENDING => "pending" | RS_RUNNING => "running" | RS_COMPLETED => "completed"
  | RS_FAILED => "failed" | RS_INTERRUPTED => "interrupted" | RS_UNKNOWN => "unknown"
  | RS_IN_PROGRESS_LEGACY => "in_progress"
  end.

Definition TERMINAL_RUN_STATUSES : list string :=
  [RunStatus_value RS_COMPLETED; RunStatus_value RS_FAILED; RunStatus_value RS_INTERRUPTED].

Inductive DispatchStatus := DS_COMPLETED | DS_FAILED | DS_INTERRUPTED | DS_UNKNOWN.

#[export] Instance DispatchStatus_eq_dec : EqDecision DispatchStatus.
Proof. solve_decision. Defined.

Inductive AuditFailureKind :=
  | AF_PROCESS_NONZERO_EXIT | AF_PROCESS_TIMEOUT | AF_EXECUTOR_ERROR | AF_RUN_STATUS_MISSING
  | AF_RUN_STATUS_INVALID | AF_MANIFEST_PATH_MISSING | AF_RUN_STATUS_NOT_TERMINAL
  | AF_MANIFEST_PATH_UNRESOLVABLE | AF_UNKNOWN.

Record ManagedAuditDispatchRequest := {
  dr_repo_id : string;
  dr_audit_type : string;
  dr_allow_unverified_command : bool;
  dr_timeout_seconds : option Q;
  dr_requested_by : option string;
  dr_correlation_id : option string;
  dr_base_env : option (gmap string string);
  dr_cwd_override : option string }.

Definition validated_dispatch_request (r : ManagedAuditDispatchRequest)
    : res ManagedAuditDispatchRequest :=
  if negb (str_truthy (strip (dr_repo_id r))) then Raise (ValueError "repo_id must not be empty")
  else if negb (str_truthy (strip (dr_audit_type r)))
  then Raise (ValueError "audit_type must not be empty")
  else if match dr_timeout_seconds r with Some q => Qle_b q 0 | None => false end
  then Raise (ValueError "timeout_seconds must be positive")
  else Ok r.

Record ManagedAuditDispatchResult := {
  ds_repo_id : string;
  ds_audit_type : string;
  ds_run_id : option string;
  ds_status : DispatchStatus;
  ds_failure_kind : option AuditFailureKind;
  ds_process_exit_code : option Z;
  ds_run_status_path : option string;
  ds_artifact_manifest_path : option string;
  ds_error : option string }.

Definition succeeded (r : ManagedAuditDispatchResult) : bool :=
  bool_decide (ds_status r = DS_COMPLETED).

(** ** The subprocess *)

Record ProcessResult := {
  pp_exit_code : option Z;
  pp_timed_out : bool;
  pp_error : option string }.

(** What waiting for the audit gives: its exit code, the time limit and the
    code it leaves when it is terminated, or an exception, as when the process
    group may not be signalled. *)
Inductive wait_result := Exited (code : Z) | TimedOut (code : option Z) | WaitRaised (e : exn).

(** ** Discovery *)

(** A child of the expected output directory: its name, whether it is a
    directory, and whether it holds a [run_status.json]. *)
Record dir_child := { ch_name : string; ch_is_dir : bool; ch_has_run_status : bool }.

Record ManagedRunStatus := {
  rs_status : RunStatus;
  rs_run_id : string;
  rs_artifact_manifest_path : option string }.

Inductive run_status_load := RunStatusLoaded (s : ManagedRunStatus) | RunStatusNotFound (m : string)
  | RunStatusContract (m : string).

Record PostExecutionDiscovery := {
  pd_run_status_path : option string;
  pd_artifact_manifest_path : option string;
  pd_failure_kind : option AuditFailureKind;
  pd_failure_reason : option string;
  pd_run_status_value : option string }.

Definition discovery_succeeded (d : PostExecutionDiscovery) : bool :=
  bool_decide (pd_failure_kind d = None).

#[export] Instance AuditFailureKind_eq_dec : EqDecision AuditFailureKind.
Proof. solve_decision. Defined.

Definition is_absolute (p : string) : bool := startswith p "/".

(** The first bucket, by name, that holds the run's status file.  [listing]:
    the directory's children, [None] when it is no directory. *)
Definition find_run_status_path (dir : string) (listing : option (list dir_child)) (run_id : string)
    : option string :=
  match listing with
  | None => None
  | Some children =>
      (fun c => dir +:+ "/" +:+ ch_name c +:+ "/run_status.json") <$>
      find_first (fun c => ch_is_dir c && contains (ch_name c) run_id && ch_has_run_status c)
        (sorted_by (fun a b => str_leb (ch_name a) (ch_name b)) children)
  end.

Section Discovery.
(** [resolve base p] is [(Path(base) / p).resolve()]. *)
Context (resolve : string -> string -> string) (listdir : string -> option (list dir_child))
        (load_run_status : string -> run_status_load).

(** [resolve_artifact_manifest_path] with a base directory; [None]: missing. *)
Definition resolve_artifact_manifest_path (s : ManagedRunStatus) (base_dir : string) : option string :=
  match rs_artifact_manifest_path s with
  | None => None
  | Some p => Some (if is_absolute p then p else resolve base_dir p)
  end.

Definition discovery_failure (path : option string) (kind : AuditFailureKind) (reason : string)
    (value : option string) : PostExecutionDiscovery :=
  {| pd_run_status_path := path; pd_artifact_manifest_path := None; pd_failure_kind := Some kind;
     pd_failure_reason := Some reason; pd_run_status_value := value |}.

Definition discover_post_execution (invocation : ManagedAuditInvocationRequest) (run_id : string)
    (working_dir : string) : PostExecutionDiscovery :=
  let expected_output :=
    if is_absolute (iv_expected_output_dir invocation) then iv_expected_output_dir invocation
    else resolve working_dir (iv_expected_output_dir invocation) in
  match find_run_status_path expected_output (listdir expected_output) run_id with
  | None =>
      discovery_failure None AF_RUN_STATUS_MISSING
        ("run_status.json not found in '" +:+ expected_output +:+ "' for run_id='" +:+ run_id +:+
         "'. The managed audit may not have written contract files.") None
  | Some path =>
      match load_run_status path with
      | RunStatusNotFound m => discovery_failure (Some path) AF_RUN_STATUS_MISSING m None
      | RunStatusContract m => discovery_failure (Some path) AF_RUN_STATUS_INVALID m None
      | RunStatusLoaded s =>
          match resolve_artifact_manifest_path s working_dir with
          | None =>
              discovery_failure (Some path) AF_MANIFEST_PATH_MISSING
                ("run_status for run_id=" +:+ repr (rs_run_id s) +:+ " has no artifact_manifest_path.")
                (Some (RunStatus_value (rs_status s)))
          | Some manifest =>
              {| pd_run_status_path := Some path; pd_artifact_manifest_path := Some manifest;
                 pd_failure_kind := None; pd_failure_reason := None;
                 pd_run_status_value := Some (RunStatus_value (rs_status s)) |}
          end
      end
  end.
End Discovery.

(** The final status of a dispatch, its failure kind and its error. *)
Definition optional_code (o : option Z) : string :=
  match o with Some n => str_of_Z n | None => "None" end.

Definition dispatch_outcome (proc : ProcessResult) (discovery : PostExecutionDiscovery)
    (timeout_text : string) : DispatchStatus * option AuditFailureKind * option string :=
  if pp_timed_out proc then
    (DS_INTERRUPTED, Some AF_PROCESS_TIMEOUT,
     Some (str_or (pp_error proc) ("timed out after " +:+ timeout_text +:+ "s")))
  else
    match pp_error proc with
    | Some error => (DS_FAILED, Some AF_EXECUTOR_ERROR, Some error)
    | None =>
        if negb (discovery_succeeded discovery) then
          let exit_note :=
            match pp_exit_code proc with
            | None | Some 0%Z => ""
            | Some n => " (process exit code: " +:+ str_of_Z n +:+ ")"
            end in
          (DS_FAILED, Some (default AF_UNKNOWN (pd_failure_kind discovery)),
           Some (default "None" (pd_failure_reason discovery) +:+ exit_note))
        else if negb (bool_decide (pp_exit_code proc = Some 0%Z)) then
          (DS_FAILED, Some AF_PROCESS_NONZERO_EXIT,
           Some ("process exited with code " +:+ optional_code (pp_exit_code proc)))
        else if negb (match pd_run_status_value discovery with
                      | Some v => str_in v TERMINAL_RUN_STATUSES
                      | None => false
                      end) then
          (DS_FAILED, Some AF_RUN_STATUS_NOT_TERMINAL,
           Some ("run_status.json reports non-terminal status " +:+
                 match pd_run_status_value discovery with Some v => repr v | None => "None" end +:+
                 " despite process exit 0"))
        else (DS_COMPLETED, None, None)
    end.

(** ** The dispatch *)

(** What the outside world does for one dispatch. *)
Inductive lock_moment := L_sweep (repo_id : string) | L_acquire | L_update | L_release.

Record dispatch_world := {
  dw_load_config : string -> res ManagedRepoConfig;
  dw_timestamp : string;
  dw_suffix : string;
  dw_environ : gmap string string;
  dw_resolve : string -> string -> string;
  dw_getpid : Z;
  dw_now_iso : string;
  dw_kill : Z -> kill_result;
  dw_flock : lock_moment -> res unit;
  dw_disk_acquire : res unit;
  dw_disk_update : res unit;
  dw_log_dir : res unit;             (* making the log directory *)
  dw_split : string -> res unit;     (* [shlex.split] of the command *)
  dw_popen : res Z;                  (* opening the logs and [Popen] *)
  dw_getpgid : option Z;
  dw_wait : option Q -> wait_result;
  dw_float_text : Q -> string;
  dw_exn_repr : exn -> string;
  dw_listdir : string -> option (list dir_child);
  dw_load_run_status : string -> run_status_load }.

Definition timeout_text (w : dispatch_world) (timeout : option Q) : string :=
  match timeout with Some q => dw_float_text w q | None => "None" end.

Section Dispatch.
Context (gethostname : string) (w : dispatch_world).

(** [ManagedAuditExecutor.execute] with [lock.update_audit_pid] as its hook,
    whose failure is swallowed; the second component is the audit's pid. *)
Definition executor_execute (repo_id command : string) (timeout : option Q) (store : lock_files)
    : lock_files * option Z * res ProcessResult :=
  match dw_log_dir w, dw_split w command with
  | Raise e, _ => (store, None, Raise e)
  | Ok _, Raise e => (store, None, Raise e)
  | Ok _, Ok _ =>
      let failed e :=
        {| pp_exit_code := None; pp_timed_out := false;
           pp_error := Some ("executor error launching command " +:+ repr command +:+ ": " +:+
                             dw_exn_repr w e) |} in
      match dw_popen w with
      | Raise e => (store, None, Ok (failed e))
      | Ok pid =>
          let store := fst (update_lock gethostname (dw_flock w L_update) (dw_disk_update w) store
                              repo_id (Some pid) (dw_getpgid w)) in
          (store, Some pid,
           Ok match dw_wait w timeout with
              | Exited code => {| pp_exit_code := Some code; pp_timed_out := false; pp_error := None |}
              | TimedOut code =>
                  {| pp_exit_code := code; pp_timed_out := true;
                     pp_error := Some ("audit timed out after " +:+ timeout_text w timeout +:+
                                       "s (command: " +:+ repr command +:+ ")") |}
              | WaitRaised e => failed e
              end)
      end
  end.

Definition is_config_error (e : exn) : bool :=
  match e with
  | NamedError cls _ =>
      str_in cls ["FileNotFoundError"; "ManagedRepoNotFoundError"; "ManagedRepoCapabilityError";
                  "ManagedAuditTypeUnsupportedError"; "ManagedAuditCommandUnavailableError";
                  "RunIdentityEnvConflictError"]
  | _ => false
  end.

Definition resolve_abs_working_dir (working_dir repo_id : string) (cwd_override : option string)
    : res string :=
  match cwd_override with
  | Some cwd => Ok cwd
  | None =>
      if is_absolute working_dir then Ok working_dir
      else
        config <-? dw_load_config w repo_id ;;
        Ok (dw_resolve w (dw_resolve w "" (mc_repo_root config)) working_dir)
  end.

(** The outcome of a dispatch: registry, lock files, the audit it spawned and
    what it returns or raises. *)
Record dispatch_end := {
  de_registry : lock_registry;
  de_store : lock_files;
  de_spawned : option Z;
  de_result : res ManagedAuditDispatchResult }.

(** What is settled before the lock is taken. *)
Record prepared_dispatch := {
  pr_run_id : string;
  pr_working_dir : string;
  pr_invocation : ManagedAuditInvocationRequest;
  pr_identity : lock_identity }.

Definition prepare (request : ManagedAuditDispatchRequest) : res prepared_dispatch :=
  prepared <-? match prepare_managed_audit_invocation (dw_load_config w) (dr_repo_id request)
                     (dr_audit_type request) (dw_timestamp w) (dw_suffix w)
                     (dr_allow_unverified_command request)
                     (default (dw_environ w) (dr_base_env request)) with
               | Raise e => if is_config_error e then Raise (AuditDispatchConfigError (exn_text e))
                            else Raise e
               | Ok p => Ok p
               end ;;
  let '(identity, invocation) := prepared in
  dir <-? resolve_abs_working_dir (iv_working_directory invocation) (dr_repo_id request)
            (dr_cwd_override request) ;;
  Ok {| pr_run_id := mi_run_id identity; pr_working_dir := dir; pr_invocation := invocation;
        pr_identity :=
          {| li_run_id := Some (mi_run_id identity);
             li_audit_type := Some (dr_audit_type request); li_oc_pid := Some (dw_getpid w);
             li_command := iv_command invocation;
             li_expected_run_status_path := dw_resolve w dir (iv_expected_output_dir invocation) |} |}.

Definition dispatch_result (request : ManagedAuditDispatchRequest) (p : prepared_dispatch)
    (proc : ProcessResult) : ManagedAuditDispatchResult :=
  let discovery := discover_post_execution (dw_resolve w) (dw_listdir w) (dw_load_run_status w)
                     (pr_invocation p) (pr_run_id p) (pr_working_dir p) in
  let '(status, kind, error) :=
    dispatch_outcome proc discovery (timeout_text w (dr_timeout_seconds request)) in
  {| ds_repo_id := dr_repo_id request; ds_audit_type := dr_audit_type request;
     ds_run_id := Some (pr_run_id p); ds_status := status; ds_failure_kind := kind;
     ds_process_exit_code := pp_exit_code proc;
     ds_run_status_path := pd_run_status_path discovery;
     ds_artifact_manifest_path := pd_artifact_manifest_path discovery; ds_error := error |}.

(** From the acquired lock to its release, whatever the executor does. *)
Definition run_locked (request : ManagedAuditDispatchRequest) (p : prepared_dispatch)
    (reg : lock_registry) (store : lock_files) : dispatch_end :=
  let repo_id := dr_repo_id request in
  let '(store, spawned, r) :=
    executor_execute repo_id (iv_command (pr_invocation p)) (dr_timeout_seconds request) store in
  let '(reg, store) := registry_release (dw_flock w L_release) reg store repo_id in
  {| de_registry := reg; de_store := store; de_spawned := spawned;
     de_result := proc <-? r ;; Ok (dispatch_result request p proc) |}.

Definition dispatch_managed_audit (request : ManagedAuditDispatchRequest) (reg : lock_registry)
    (store : lock_files) : dispatch_end :=
  let stop reg store e :=
    {| de_registry := reg; de_store := store; de_spawned := None; de_result := Raise e |} in
  match prepare request with
  | Raise e => stop reg store e
  | Ok p =>
      match registry_acquire gethostname (dw_kill w)
              (fun r => dw_flock w (L_sweep r)) (dw_flock w L_acquire) (dw_disk_acquire w) (dw_getpid w) (dw_now_iso w) reg store (dr_repo_id request)
              (pr_identity p) with
      | (reg, store, Raise e) => stop reg store e
      | (reg, store, Ok _) => run_locked request p reg store
      end
  end.
End Dispatch.

(** ** What a completed dispatch means *)

Lemma terminal_iff s :
  str_in (RunStatus_value s) TERMINAL_RUN_STATUSES = true <->
  s = RS_COMPLETED \/ s = RS_FAILED \/ s = RS_INTERRUPTED.
Proof. destruct s; split; try done; try (vm_compute; naive_solver); naive_solver. Qed.

Lemma discovery_spec resolve listdir load inv run_id dir d :
  discover_post_execution resolve listdir load inv run_id dir = d ->
  discovery_succeeded d = true <->
  exists path s m, pd_run_status_path d = Some path /\ load path = RunStatusLoaded s /\
    rs_artifact_manifest_path s = Some m /\ pd_run_status_value d = Some (RunStatus_value (rs_status s)).
Proof.
  intros <-. unfold discover_post_execution. set (out := if is_absolute _ then _ else _).
  destruct (find_run_status_path _ _ _) as [path|]; simpl; [|split; [done | naive_solver]].
  destruct (load path) as [s|m|m] eqn:Hl; simpl.
  - unfold resolve_artifact_manifest_path. destruct (rs_artifact_manifest_path s) as [m|] eqn:Hm; simpl.
    + split; [|done]. intros _. eauto 10.
    + split; [done|]. intros (p & s' & m & Hp & Hl' & Hm' & _). injection Hp as <-. congruence.
  - split; [done|]. intros (p & s' & m' & Hp & Hl' & _). injection Hp as <-. congruence.
  - split; [done|]. intros (p & s' & m' & Hp & Hl' & _). injection Hp as <-. congruence.
Qed.

Lemma outcome_completed proc d text :
  fst (fst (dispatch_outcome proc d text)) = DS_COMPLETED <->
  pp_timed_out proc = false /\ pp_error proc = None /\ pp_exit_code proc = Some 0%Z /\
  discovery_succeeded d = true /\
  exists v, pd_run_status_value d = Some v /\ str_in v TERMINAL_RUN_STATUSES = true.
Proof.
  unfold dispatch_outcome. destruct (pp_timed_out proc); simpl; [naive_solver|].
  destruct (pp_error proc); simpl; [naive_solver|].
  destruct (discovery_succeeded d); simpl; [|naive_solver].
  case_bool_decide; simpl; [|naive_solver].
  destruct (pd_run_status_value d) as [v|]; simpl; [|naive_solver].
  destruct (str_in v TERMINAL_RUN_STATUSES) eqn:E; simpl; split; try done.
  - intros _. repeat split; try done. by exists v.
  - intros (_ & _ & _ & _ & v' & [= <-] & Hv). congruence.
Qed.

(** Where a dispatch that returned got its result from. *)
Lemma dispatch_returned host w request reg store r :
  de_result (dispatch_managed_audit host w request reg store) = Ok r ->
  exists p proc reg' store' pl,
    prepare w request = Ok p /\
    registry_acquire host (dw_kill w) (fun x => dw_flock w (L_sweep x)) (dw_flock w L_acquire)
      (dw_disk_acquire w) (dw_getpid w) (dw_now_iso w) reg store (dr_repo_id request)
      (pr_identity p) = (reg', store', Ok pl) /\
    snd (executor_execute host w (dr_repo_id request) (iv_command (pr_invocation p))
           (dr_timeout_seconds request) store') = Ok proc /\
    r = dispatch_result w request p proc.
Proof.
  unfold dispatch_managed_audit. destruct (prepare w request) as [p|e]; simpl; [|done].
  destruct (registry_acquire _ _ _ _ _ _ _ _ _ _ _) as [[reg' store'] [pl|e]] eqn:Hacq; simpl; [|done].
  unfold run_locked. destruct (executor_execute _ _ _ _ _ _) as [[st sp] rp] eqn:He. simpl.
  destruct rp as [proc|e]; simpl; [|done]. intros [= <-].
  exists p, proc, reg', store', pl. rewrite He. done.
Qed.

Lemma executor_ok host w repo command timeout store proc :
  snd (executor_execute host w repo command timeout store) = Ok proc ->
  (pp_timed_out proc = false /\ pp_error proc = None /\ pp_exit_code proc = Some 0%Z) <->
  is_ok (dw_popen w) = true /\ dw_wait w timeout = Exited 0.
Proof.
  unfold executor_execute. destruct (dw_log_dir w); [|done]. destruct (dw_split w command); [|done].
  destruct (dw_popen w) as [pid|e]; simpl; [|intros [= <-]; naive_solver].
  intros [= <-]. destruct (dw_wait w timeout); simpl; naive_solver.
Qed.

(** a dispatch that returns reports completion exactly when the audit was
    started, ended by itself with exit code zero, and left a readable status
    file whose status is terminal and which names the artifact manifest; a
    terminal status of failed or interrupted counts as completion. *)
Theorem dispatch_completed_iff host w request reg store p r :
  prepare w request = Ok p ->
  de_result (dispatch_managed_audit host w request reg store) = Ok r ->
  ds_status r = DS_COMPLETED <->
  is_ok (dw_popen w) = true /\ dw_wait w (dr_timeout_seconds request) = Exited 0 /\
  exists path s m, ds_run_status_path r = Some path /\ dw_load_run_status w path = RunStatusLoaded s /\
    rs_artifact_manifest_path s = Some m /\
    (rs_status s = RS_COMPLETED \/ rs_status s = RS_FAILED \/ rs_status s = RS_INTERRUPTED).
Proof.
  intros Hp Hr. apply dispatch_returned in Hr as (p' & proc & reg' & store' & pl & Hp' & _ & He & ->).
  rewrite Hp in Hp'. injection Hp' as <-. apply executor_ok in He. unfold dispatch_result.
  set (d := discover_post_execution _ _ _ _ _ _).
  pose proof (outcome_completed proc d (timeout_text w (dr_timeout_seconds request))) as Hout.
  destruct (dispatch_outcome _ _ _) as [[status kind] error]. simpl in *.
  pose proof (discovery_spec _ _ _ _ _ _ d eq_refl) as Hdisc. rewrite Hout. split.
  - intros (H1 & H2 & H3 & Hd & v & Hv & Hterm). apply Hdisc in Hd as (path & s & m & ? & ? & ? & Hval).
    destruct (proj1 He) as [? ?]; [done|]. split; [done|]. split; [done|]. exists path, s, m.
    split; [done|]. split; [done|]. split; [done|]. apply terminal_iff. congruence.
  - intros (H1 & H2 & path & s & m & Hpath & Hl & Hm & Hs). destruct (proj2 He) as (? & ? & ?); [done|].
    split; [done|]. split; [done|]. split; [done|].
    assert (Hval : pd_run_status_value d = Some (RunStatus_value (rs_status s))).
    { unfold d, discover_post_execution in Hpath |- *. simpl in Hpath.
      destruct (find_run_status_path _ _ _) as [path'|]; [|done]. simpl in *.
      destruct (dw_load_run_status w path') as [s'|m'|m'] eqn:E; simpl in *;
        [|injection Hpath as ->; congruence | injection Hpath as ->; congruence].
      unfold resolve_artifact_manifest_path in *.
      assert (path' = path) as -> by (destruct (rs_artifact_manifest_path s'); simpl in Hpath; congruence).
      rewrite Hl in E. injection E as <-. by rewrite Hm. }
    split; [apply Hdisc; eauto 10|]. exists (RunStatus_value (rs_status s)).
    split; [done|]. by apply terminal_iff.
Qed.

(** ** Dispatch and the lock *)

Lemma prepare_identity w request p :
  prepare w request = Ok p -> li_oc_pid (pr_identity p) = Some (dw_getpid w).
Proof.
  unfold prepare. destruct (prepare_managed_audit_invocation (dw_load_config w) _ _ _ _ _ _)
    as [[i inv]|e]; simpl; [|by destruct (is_config_error e)].
  destruct (resolve_abs_working_dir w _ _ _) as [dir|e]; simpl; [|done]. by intros [= <-].
Qed.

Lemma sweep_events host p (flock : string -> res unit) names s store' l reg :
  sy_regs s !! p = Some reg ->
  sweep_files host (sys_kill s) flock names (sy_store s) = (store', Ok l) ->
  do_all host (map (fun r => E_sweep p r (flock r)) names) s = Some (with_store s store').
Proof.
  revert s l. induction names as [|r names IH]; simpl; intros s l Hreg.
  - intros [= <- <-]. by destruct s.
  - rewrite Hreg. simpl. destruct (reclaim_if_stale _ _ _ _ _) as [st [b|e]] eqn:Hr; [|done].
    destruct (sweep_files host (sys_kill s) flock names st) as [st' [l'|e]] eqn:Hs; [|done].
    intros [= <- <-]. simpl. apply (IH (with_store s st) l'); [done|]. exact Hs.
Qed.

Lemma do_all_app host es fs s : do_all host (es ++ fs) s = (s' ← do_all host es s; do_all host fs s').
Proof.
  revert s. induction es as [|e es IH]; simpl; intros s; [done|].
  destruct (harmless_b s e); [|done]. destruct (sys_do host e s); simpl; [apply IH | done].
Qed.

(** The events of one dispatch that spawned the audit [a]: up to the spawn, the
    record of the audit's pid, and from the audit's exit on. *)
Definition start_events (w : dispatch_world) (swept : bool) (names : list string) (repo_id : string)
    (i : lock_identity) (a : Z) : list event :=
  let p := dw_getpid w in
  (if swept then [] else map (fun r => E_sweep p r (dw_flock w (L_sweep r))) names) ++
  [E_acquire p repo_id i (dw_now_iso w) (dw_flock w L_acquire) (dw_disk_acquire w); E_spawn p repo_id a].
Definition record_event (w : dispatch_world) (repo_id : string) : event :=
  E_record (dw_getpid w) repo_id (dw_getpgid w) (dw_flock w L_update) (dw_disk_update w).
Definition end_events (w : dispatch_world) (repo_id : string) (a : Z) : list event :=
  [E_exit a; E_finish (dw_getpid w) repo_id (dw_flock w L_release)].

Lemma do_all_cons host e es s s1 :
  harmless_b s e = true -> sys_do host e s = Some s1 -> do_all host (e :: es) s = do_all host es s1.
Proof. intros Hh He. simpl. by rewrite Hh, He. Qed.

(** The part of a dispatch under the lock, as events. *)
Lemma locked_run_events host w s reg reg' r i pl store' a :
  reachable host s -> sy_regs s !! dw_getpid w = Some reg -> li_oc_pid i = Some (dw_getpid w) ->
  acquire_held host (sys_kill s) (dw_flock w L_acquire) (dw_disk_acquire w) reg (sy_store s)
    (identity_payload host (dw_getpid w) (dw_now_iso w) r i) = (reg', store', Ok pl) ->
  fresh_pid s a = true ->
  exists s2 s3 s', do_all host (start_events w true [] r i a) s = Some s2 /\ sy_store s2 = store' /\
    do_all host [record_event w r] s2 = Some s3 /\
    sy_store s3 = fst (update_lock host (dw_flock w L_update) (dw_disk_update w) store' r (Some a) (dw_getpgid w)) /\
    sy_running s3 !! a = Some r /\
    do_all host (end_events w r a) s3 = Some s' /\
    sy_store s' = fst (release_lock (dw_flock w L_release)
      (fst (update_lock host (dw_flock w L_update) (dw_disk_update w) store' r (Some a) (dw_getpgid w)))
      r) /\
    sy_regs s' !! dw_getpid w = Some {| lr_held := lr_held reg' ∖ {[r]}; lr_swept := lr_swept reg' |} /\
    sy_running s' = sy_running s /\ sy_jobs s' = sy_jobs s.
Proof.
  intros Hs Hreg Hi Hacq Hf. apply reachable_inv in Hs as Hinv. set (p := dw_getpid w) in *.
  assert (Hidle : sy_jobs s !! (p, r) = None).
  { destruct (sy_jobs s !! (p, r)) as [j|] eqn:Hj; [|done].
    destruct (busy_holds host s r Hinv) as (q & Hq & Hal); [eauto|].
    apply acquire_ok in Hacq as (_ & _ & _ & _ & _ & _ & Hfree). simpl in Hfree. unfold holds in Hq.
    destruct Hfree as [? | (? & ? & ?)]; congruence. }
  assert (Hna : sy_running s !! a = None).
  { apply fresh_pid_spec in Hf as [_ Hnl]. destruct (sy_running s !! a) eqn:E; [|done].
    by destruct (inv_running host s Hinv _ _ E). }
  assert (Hi' : {| li_run_id := li_run_id i; li_audit_type := li_audit_type i; li_oc_pid := Some p;
    li_command := li_command i; li_expected_run_status_path := li_expected_run_status_path i |} = i).
  { destruct i; simpl in *. congruence. }
  unfold start_events, record_event, end_events. cbn [app]. fold p.
  set (s1 := {| sy_store := store'; sy_live := sy_live s; sy_regs := <[p := reg']> (sy_regs s);
                sy_running := sy_running s; sy_jobs := <[(p, r) := Acquired]> (sy_jobs s) |}).
  set (s2 := {| sy_store := store'; sy_live := {[a]} ∪ sy_live s; sy_regs := sy_regs s1;
                sy_running := <[a := r]> (sy_running s);
                sy_jobs := <[(p, r) := Spawned a]> (sy_jobs s1) |}).
  set (store2 := fst (update_lock host (dw_flock w L_update) (dw_disk_update w) store' r (Some a)
                        (dw_getpgid w))).
  assert (exists j, job_audit j = Some a /\
    sys_do host (E_record p r (dw_getpgid w) (dw_flock w L_update) (dw_disk_update w)) s2 =
    Some {| sy_store := store2; sy_live := sy_live s2; sy_regs := sy_regs s2;
            sy_running := sy_running s2; sy_jobs := <[(p, r) := j]> (sy_jobs s) |}) as (j & Hj & Hrec).
  { simpl. rewrite lookup_insert_eq. unfold store2.
    destruct (update_lock _ _ _ _ _ _ _) as [st [q|e]] eqn:Hup; simpl.
    - exists (Recorded a). split; [done|]. unfold with_job, with_store. simpl. by rewrite !insert_insert_eq.
    - exists (Spawned a). split; [done|]. unfold with_store. simpl. by rewrite !insert_insert_eq. }
  set (s3 := {| sy_store := store2 |}) in Hrec.
  set (s4 := {| sy_store := store2; sy_live := sy_live s3 ∖ {[a]}; sy_regs := sy_regs s3;
                sy_running := sy_running s; sy_jobs := sy_jobs s3 |}).
  exists s2, s3. eexists. split; [|split; [done|split; [|split; [done|split; [by simpl; rewrite lookup_insert_eq|]]]]].
  { rewrite (do_all_cons host _ _ s s1); [|done | by simpl; rewrite Hreg; simpl; rewrite Hi', Hacq].
    rewrite (do_all_cons host _ _ s1 s2); [done|done|].
    simpl. rewrite lookup_insert_eq. change (fresh_pid s1 a) with (fresh_pid s a). by rewrite Hf. }
  { by rewrite (do_all_cons host _ _ s2 s3); [|done | exact Hrec]. }
  rewrite (do_all_cons host _ _ s3 s4); [|done |].
  2: { simpl. rewrite lookup_insert_eq. simpl. unfold s4. by rewrite delete_insert_id. }
  split; [|split; [|split; [|split]]].
  - erewrite do_all_cons; [reflexivity | |].
    + simpl. rewrite lookup_insert_eq. simpl. rewrite Hj. rewrite bool_decide_true; [done|].
      intros H%elem_of_dom. rewrite Hna in H. by destruct H.
    + simpl. rewrite lookup_insert_eq. simpl. rewrite lookup_insert_eq. reflexivity.
  - reflexivity.
  - simpl. by rewrite lookup_insert_eq.
  - reflexivity.
  - simpl. by rewrite delete_insert_id.
Qed.

(** What a dispatch that spawned an audit did with the files. *)
Lemma dispatch_spawned host w request reg store a :
  de_spawned (dispatch_managed_audit host w request reg store) = Some a ->
  exists p reg1 store1 reg' store' pl,
    prepare w request = Ok p /\
    sweep_once host (dw_kill w) (fun x => dw_flock w (L_sweep x)) reg store = (reg1, store1, Ok tt) /\
    acquire_held host (dw_kill w) (dw_flock w L_acquire) (dw_disk_acquire w) reg1 store1
      (identity_payload host (dw_getpid w) (dw_now_iso w) (dr_repo_id request) (pr_identity p)) =
      (reg', store', Ok pl) /\
    let d := dispatch_managed_audit host w request reg store in
    (exists r, executor_execute host w (dr_repo_id request) (iv_command (pr_invocation p)) (dr_timeout_seconds request)
       store' = (fst (update_lock host (dw_flock w L_update) (dw_disk_update w) store' (dr_repo_id request)
                        (Some a) (dw_getpgid w)), Some a, r)) /\
    lr_held (de_registry d) = lr_held reg' ∖ {[dr_repo_id request]} /\
    de_store d = fst (release_lock (dw_flock w L_release)
      (fst (update_lock host (dw_flock w L_update) (dw_disk_update w) store' (dr_repo_id request)
              (Some a) (dw_getpgid w))) (dr_repo_id request)).
Proof.
  unfold dispatch_managed_audit. destruct (prepare w request) as [p|e]; simpl; [|done].
  unfold registry_acquire.
  destruct (sweep_once _ _ _ _ _) as [[reg1 store1] [[]|e]] eqn:Hsw; simpl; [|done].
  destruct (acquire_held _ _ _ _ _ _ _) as [[reg' store'] [pl|e]] eqn:Hacq; simpl; [|done].
  unfold run_locked, executor_execute.
  destruct (dw_log_dir w); [|done]. destruct (dw_split w _) eqn:Hsplit; [|done]. destruct (dw_popen w) as [pid|e]; [|done].
  simpl. intros [= ->]. exists p, reg1, store1, reg', store', pl. split_and!; try done. rewrite Hsplit. by eexists.
Qed.

Lemma acquire_held_swept host kill flock disk reg b store payload reg' store' pl :
  acquire_held host kill flock disk {| lr_held := lr_held reg; lr_swept := b |} store payload =
    (reg', store', Ok pl) ->
  exists reg2, acquire_held host kill flock disk reg store payload = (reg2, store', Ok pl) /\
    lr_held reg2 = lr_held reg'.
Proof.
  unfold acquire_held. simpl. case_bool_decide; [done|].
  destruct (try_acquire _ _ _ _ _ _) as [st [q|e]]; [|done]. intros [= <- <- <-]. by eexists.
Qed.

(** The lock file once the pid of the audit is recorded. *)
Lemma recorded_lock host kill flock disk reg files pl reg' files' q audit_pid pgid :
  acquire_held host kill flock disk reg files pl = (reg', files', Ok q) ->
  read_lock host (fst (update_lock host (Ok tt) (Ok tt) files' (pl_repo_id pl) audit_pid pgid)) (pl_repo_id pl) =
  Ok (Some (with_audit pl audit_pid pgid)).
Proof.
  intros (_ & _ & _ & _ & _ & -> & _)%acquire_ok. unfold update_lock. rewrite read_insert_eq. cbn [write_lock fst].
  by rewrite read_insert_eq.
Qed.

(** C27: a dispatch that spawned an audit and waited for its end, or ended it
    at the time limit, is a run of the lock system, step by step: its sweep when
    the process has not swept yet, the acquisition under the run's identity and
    the spawn lead to the state in which the executor starts, the record of the
    audit's pid to the one in which it waits, with the audit running and, when
    the record could be written, a lock file that names the run, the dispatching
    process and the audit; the audit's exit and the release lead to the files
    and the held repositories the dispatch leaves.  So what holds of all runs
    holds of dispatches. *)
Theorem dispatch_is_a_run host w request s reg a :
  reachable host s -> sy_regs s !! dw_getpid w = Some reg -> dw_kill w = sys_kill s ->
  (forall e, dw_wait w (dr_timeout_seconds request) <> WaitRaised e) ->
  let d := dispatch_managed_audit host w request reg (sy_store s) in
  let repo := dr_repo_id request in
  de_spawned d = Some a -> fresh_pid s a = true ->
  exists p s1 s2 s3 reg',
    prepare w request = Ok p /\
    do_all host (start_events w (lr_swept reg) (iter_lock_files (sy_store s)) repo (pr_identity p) a) s = Some s1 /\
    (exists r, executor_execute host w repo (iv_command (pr_invocation p)) (dr_timeout_seconds request) (sy_store s1) =
       (sy_store s2, Some a, r)) /\
    do_all host [record_event w repo] s1 = Some s2 /\ sy_running s2 !! a = Some repo /\
    (dw_flock w L_update = Ok tt -> dw_disk_update w = Ok tt ->
       read_lock host (sy_store s2) repo = Ok (Some
         (with_audit (identity_payload host (dw_getpid w) (dw_now_iso w) repo (pr_identity p)) (Some a) (dw_getpgid w)))) /\
    do_all host (end_events w repo a) s2 = Some s3 /\
    sy_store s3 = de_store d /\
    sy_regs s3 !! dw_getpid w = Some reg' /\ lr_held reg' = lr_held (de_registry d) /\
    sy_running s3 = sy_running s /\ sy_jobs s3 = sy_jobs s /\ reachable host s3.
Proof.
  intros Hs Hreg Hkill _ d repo Hsp Hf.
  destruct (dispatch_spawned _ _ _ _ _ _ Hsp)
    as (p & reg1 & store1 & reg' & store' & pl & Hp & Hsw & Hacq & [r Hexec] & Hheld & Hstore).
  fold d repo in Hheld, Hstore, Hexec, Hacq. rewrite Hheld, Hstore. clear Hheld Hstore Hsp.
  pose proof (recorded_lock _ _ _ _ _ _ _ _ _ _ (Some a) (dw_getpgid w) Hacq) as Hrecorded.
  rewrite Hkill in Hsw, Hacq.
  apply prepare_identity in Hp as Hpid. set (me := dw_getpid w) in *.
  set (flock := fun x => dw_flock w (L_sweep x)) in *.
  set (sweep := if lr_swept reg then [] else map (fun r => E_sweep me r (flock r)) (iter_lock_files (sy_store s))).
  assert (Hsweep : do_all host sweep s = Some (with_store s store1) /\
    exists b, reg1 = {| lr_held := lr_held reg; lr_swept := b |}).
  { unfold sweep. unfold sweep_once, sweep_stale in Hsw. destruct (lr_swept reg) eqn:Hb.
    - injection Hsw as <- <-. split; [by destruct s|]. exists true. destruct reg; simpl in *. congruence.
    - destruct (sweep_files _ _ _ _ _) as [st [l|e]] eqn:Hfiles; simpl in Hsw; [|done].
      injection Hsw as <- <-. split; [by apply (sweep_events host me flock _ s st l reg)|]. by eexists. }
  destruct Hsweep as [Hsweep [b ->]].
  apply acquire_held_swept in Hacq as (reg2 & Hacq & Hheld2).
  set (s0 := with_store s store1).
  assert (Hs0 : reachable host s0) by (eapply reachable_all; eauto).
  destruct (locked_run_events host w s0 reg reg2 repo (pr_identity p) pl store' a)
    as (s1 & s2 & s3 & Hdo1 & Hst1 & Hdo2 & Hst2 & Hrun2 & Hdo3 & Hst3 & Hr & Hrun & Hjobs);
    [done | exact Hreg | done | exact Hacq | exact Hf |].
  exists p, s1, s2, s3, {| lr_held := lr_held reg2 ∖ {[repo]}; lr_swept := lr_swept reg2 |}.
  assert (Hstart : do_all host (start_events w (lr_swept reg) (iter_lock_files (sy_store s)) repo (pr_identity p) a) s
            = Some s1).
  { unfold start_events. rewrite do_all_app. change (if lr_swept reg then [] else _) with sweep. by rewrite Hsweep. }
  split; [done|]. split; [exact Hstart|]. split; [exists r; by rewrite Hst1, Hst2|]. split; [done|]. split; [done|].
  split; [intros H1 H2; rewrite Hst2, H1, H2; exact Hrecorded|]. split; [done|]. split; [done|]. split; [done|].
  simpl. rewrite Hheld2. split; [done|]. split; [done|]. split; [done|].
  eapply reachable_all; [|exact Hdo3]. eapply reachable_all; [|exact Hdo2]. by eapply reachable_all.
Qed.

(** ** Which repositories can be dispatched *)

(** The characters a pattern can consume. *)
Fixpoint alphabet (r : re) (c : ascii) : bool :=
  match r with
  | Cls p | Rep p _ _ _ => p c
  | Seq a b | Alt a b => alphabet a c || alphabet b c
  | Grp _ a => alphabet a c
  | Eps | WordB => false
  end.

Definition all_chars (p : ascii -> bool) (s : string) : bool := forallb p (String.list_ascii_of_string s).

Lemma all_chars_app p a b : all_chars p (a +:+ b) = all_chars p a && all_chars p b.
Proof. unfold all_chars. by rewrite list_ascii_app, forallb_app. Qed.

Lemma all_chars_mono (p q : ascii -> bool) s :
  (forall c, p c = true -> q c = true) -> all_chars p s = true -> all_chars q s = true.
Proof. unfold all_chars. rewrite !forallb_forall. auto. Qed.

Lemma chars_all p n prev s prev' s' :
  chars p n prev s prev' s' -> exists m, s = m +:+ s' /\ all_chars p m = true.
Proof.
  induction 1 as [prev s | n prev c s prev' s' Hc _ (m & -> & Hm)]; [by exists ""|].
  exists (String c m). split; [done|]. unfold all_chars in *. simpl. by rewrite Hc.
Qed.

Lemma mt_alphabet r prev s prev' s' :
  mt r prev s prev' s' -> exists m, s = m +:+ s' /\ all_chars (alphabet r) m = true.
Proof.
  induction 1 as [prev s | p prev c s Hc | p min max g n prev s prev' s' _ _ Hch
    | a b prev s prev1 s1 prev' s' _ (m1 & -> & H1) _ (m2 & -> & H2)
    | a b prev s prev' s' _ (m & -> & Hm) | a b prev s prev' s' _ (m & -> & Hm)
    | n a prev s prev' s' _ IH | prev s Hb]; simpl.
  - by exists "".
  - exists (String c ""). split; [done|]. unfold all_chars. simpl. by rewrite Hc.
  - by apply chars_all in Hch.
  - exists (m1 +:+ m2). rewrite str_app_assoc. split; [done|]. rewrite all_chars_app. apply andb_true_iff.
    split; [eapply all_chars_mono; [|exact H1] | eapply all_chars_mono; [|exact H2]];
      intros c Hc; simpl; rewrite Hc; [done | apply orb_true_r].
  - exists m. split; [done|]. eapply all_chars_mono; [|exact Hm]. intros c Hc. simpl. by rewrite Hc.
  - exists m. split; [done|]. eapply all_chars_mono; [|exact Hm]. intros c Hc. simpl. rewrite Hc. apply orb_true_r.
  - exact IH.
  - by exists "".
Qed.

(** The characters of a managed run id. *)
Definition run_id_char (c : ascii) : bool := lower_word c || Ascii.eqb c "T" || Ascii.eqb c "Z".

Lemma run_id_alphabet c : alphabet RUN_ID_PATTERN c = true -> run_id_char c = true.
Proof.
  unfold RUN_ID_PATTERN, run_id_char, one. cbn [seqs alphabet].
  destruct c as [[] [] [] [] [] [] [] []]; vm_compute; done.
Qed.

Lemma valid_run_id_chars repo rest :
  is_valid_run_id (repo +:+ String "_" rest) = true -> all_chars run_id_char repo = true.
Proof.
  unfold is_valid_run_id. destruct (run _ _ _ _ _) as [[]|] eqn:Hrun; [|done]. intros _.
  apply run_inv in Hrun as (prev' & s' & c' & Hmt & Hk). destruct (at_end s') eqn:He; [|done].
  apply mt_alphabet in Hmt as (m & Hm & Hall). 
  eapply all_chars_mono in Hall; [|exact run_id_alphabet].
  assert (exists m', m = repo +:+ m') as [m' ->].
  { unfold at_end in He. apply orb_true_iff in He as [->%String.eqb_eq | ->%String.eqb_eq].
    - rewrite str_app_nil_r in Hm. eauto.
    - revert m Hm Hall. clear. induction repo as [|c repo IH]; intros m Hm Hall; [by exists m|].
      destruct m as [|d m].
      + simpl in Hm. injection Hm as -> Hm. by destruct repo.
      + simpl in Hm. injection Hm as -> Hm. unfold all_chars in Hall. simpl in Hall.
        apply andb_true_iff in Hall as [_ Hall]. destruct (IH m Hm Hall) as [m' ->]. by exists m'. }
  rewrite all_chars_app in Hall. by apply andb_true_iff in Hall as [? _].
Qed.

(** a repository whose identifier holds a character outside lower-case
    letters, digits, the underscore, T and Z can not be dispatched: no run
    identity is valid for it, and the dispatch raises before it takes the lock. *)
Theorem unnameable_repo_is_never_dispatched host w request reg store :
  all_chars run_id_char (dr_repo_id request) = false ->
  exists e, dispatch_managed_audit host w request reg store =
    {| de_registry := reg; de_store := store; de_spawned := None; de_result := Raise e |}.
Proof.
  intros Hbad. unfold dispatch_managed_audit.
  assert (exists e, prepare w request = Raise e) as [e ->]; [|by eexists].
  unfold prepare, prepare_managed_audit_invocation.
  assert (Hid : forall env_var, exists e, generate_managed_run_identity (dr_repo_id request)
    (dr_audit_type request) env_var (dw_timestamp w) (dw_suffix w) = Raise e).
  { intros v. unfold generate_managed_run_identity, validated_identity. simpl.
    destruct (is_valid_run_id _) eqn:Hv; [|by split_ifs; eexists].
    unfold run_id_of in Hv. apply (valid_run_id_chars (dr_repo_id request)
      (dr_audit_type request +:+ "_" +:+ dw_timestamp w +:+ "_" +:+ dw_suffix w)) in Hv. congruence. }
  destruct (dw_load_config w (dr_repo_id request)) as [config|e]; simpl.
  - destruct (Hid (mc_env_var config)) as [e ->]. simpl. by destruct (is_config_error e); eexists.
  - by destruct (is_config_error e); eexists.
Qed.

(** ** A dispatch *)

Definition audit_config : ManagedRepoConfig :=
  {| mc_repo_id := "managed_repo"; mc_repo_name := "Managed"; mc_repo_root := "/srv/managed";
     mc_env_var := "AUDIT_RUN_ID"; mc_capabilities := ["audit"];
     mc_audit := Some [{| at_audit_type := "representative"; at_command := "run audit";
                          at_command_status := CS_VERIFIED; at_working_dir := "/srv/managed";
                          at_output_dir := "/srv/out" |}] |}.

(** A world in which the audit of that repository runs, writes [status] and
    exits with zero. *)
Definition sample_world (me : Z) (kill : Z -> kill_result) (status : RunStatus) : dispatch_world :=
  {| dw_load_config := fun _ => Ok audit_config; dw_timestamp := "20260508T142311Z";
     dw_suffix := "a1b2c3d4"; dw_environ := ∅; dw_resolve := fun base p => base +:+ "/" +:+ p;
     dw_getpid := me; dw_now_iso := "2026-05-08T14:23:11Z"; dw_kill := kill;
     dw_flock := fun _ => Ok tt; dw_disk_acquire := Ok tt; dw_disk_update := Ok tt;
     dw_log_dir := Ok tt; dw_split := fun _ => Ok tt; dw_popen := Ok 11%Z; dw_getpgid := Some 11%Z;
     dw_wait := fun _ => Exited 0; dw_float_text := fun _ => "1800.0"; dw_exn_repr := exn_text;
     dw_listdir := fun _ => Some [
       {| ch_name := "channel_managed_repo_representative_20260508T142311Z_a1b2c3d4";
          ch_is_dir := true; ch_has_run_status := true |}];
     dw_load_run_status := fun _ => RunStatusLoaded
       {| rs_status := status; rs_run_id := "managed_repo_representative_20260508T142311Z_a1b2c3d4";
          rs_artifact_manifest_path := Some "manifest.json" |} |}.

Definition sample_request (repo_id : string) : ManagedAuditDispatchRequest :=
  {| dr_repo_id := repo_id; dr_audit_type := "representative"; dr_allow_unverified_command := false;
     dr_timeout_seconds := Some 1800%Q; dr_requested_by := Some "alice"; dr_correlation_id := None;
     dr_base_env := None; dr_cwd_override := None |}.

(** An audit that exits with zero and says it failed. *)
Definition failing_world : dispatch_world := sample_world 10 (fun _ => KillNoProcess) RS_FAILED.

Definition failing_dispatch : dispatch_end :=
  dispatch_managed_audit "host" failing_world (sample_request "managed_repo") new_registry ∅.

Definition failing_result : ManagedAuditDispatchResult :=
  {| ds_repo_id := "managed_repo"; ds_audit_type := "representative";
     ds_run_id := Some "managed_repo_representative_20260508T142311Z_a1b2c3d4";
     ds_status := DS_COMPLETED; ds_failure_kind := None; ds_process_exit_code := Some 0%Z;
     ds_run_status_path :=
       Some "/srv/out/channel_managed_repo_representative_20260508T142311Z_a1b2c3d4/run_status.json";
     ds_artifact_manifest_path := Some "/srv/managed/manifest.json"; ds_error := None |}.

Definition failing_prepared : prepared_dispatch :=
  match prepare failing_world (sample_request "managed_repo") with
  | Ok p => p
  | Raise _ => {| pr_run_id := ""; pr_working_dir := "";
      pr_invocation := {| iv_repo_id := ""; iv_audit_type := ""; iv_run_id := "";
        iv_working_directory := ""; iv_command := ""; iv_env := ∅; iv_expected_output_dir := "" |};
      pr_identity := some_identity |}
  end.

Lemma dispatch_completed_iff_witness : ds_status failing_result = DS_COMPLETED.
Proof.
  apply (dispatch_completed_iff "host" failing_world (sample_request "managed_repo") new_registry ∅
           failing_prepared failing_result).
  - vm_compute. reflexivity.
  - vm_compute. reflexivity.
  - split; [reflexivity|]. split; [reflexivity|]. do 3 eexists. split; [reflexivity|].
    split; [reflexivity|]. split; [reflexivity|]. right. left. reflexivity.
Defined.

Lemma dispatch_is_a_run_witness :
  let s := default empty_system (do_all "host" [E_boot 10] empty_system) in
  let w := sample_world 10 (sys_kill s) RS_COMPLETED in
  let request := sample_request "managed_repo" in
  let d := dispatch_managed_audit "host" w request new_registry (sy_store s) in
  exists p s1 s2 s3 reg',
    prepare w request = Ok p /\
    do_all "host" (start_events w false (iter_lock_files (sy_store s)) "managed_repo" (pr_identity p) 11) s = Some s1 /\
    (exists r, executor_execute "host" w "managed_repo" (iv_command (pr_invocation p)) (dr_timeout_seconds request)
       (sy_store s1) = (sy_store s2, Some 11%Z, r)) /\
    do_all "host" [record_event w "managed_repo"] s1 = Some s2 /\ sy_running s2 !! 11%Z = Some "managed_repo" /\
    (dw_flock w L_update = Ok tt -> dw_disk_update w = Ok tt ->
       read_lock "host" (sy_store s2) "managed_repo" = Ok (Some
         (with_audit (identity_payload "host" 10 (dw_now_iso w) "managed_repo" (pr_identity p)) (Some 11%Z)
            (Some 11%Z)))) /\
    do_all "host" (end_events w "managed_repo" 11) s2 = Some s3 /\ sy_store s3 = de_store d /\
    sy_regs s3 !! 10%Z = Some reg' /\ lr_held reg' = lr_held (de_registry d) /\
    sy_running s3 = sy_running s /\ sy_jobs s3 = sy_jobs s /\ reachable "host" s3.
Proof.
  cbv zeta. set (s := default _ _).
  apply (dispatch_is_a_run "host" (sample_world 10 (sys_kill s) RS_COMPLETED) (sample_request "managed_repo")
           s new_registry 11).
  - apply (reachable_all "host" [E_boot 10] empty_system); [apply empty_reachable | vm_compute; reflexivity].
  - vm_compute. reflexivity.
  - reflexivity.
  - discriminate.
  - vm_compute. reflexivity.
  - vm_compute. reflexivity.
Defined.

Lemma unnameable_repo_is_never_dispatched_witness :
  all_chars run_id_char "managed-private-project" = false /\
  exists e, dispatch_managed_audit "host" (sample_world 10 (fun _ => KillNoProcess) RS_COMPLETED)
      (sample_request "managed-private-project") new_registry ∅ =
    {| de_registry := new_registry; de_store := ∅; de_spawned := None; de_result := Raise e |}.
Proof.
  split; [reflexivity|]. apply unnameable_repo_is_never_dispatched. reflexivity.
Defined.
