(* ===== verification/Governance.v ===== *)
(** * Governed audits

    audit_governance/budgets.py, cooldowns.py, approvals.py, reports.py and
    runner.py: the state files of budgets and cooldowns, manual approvals, and
    the one entry point for full audits.  A state file holds the record that
    pydantic dumps and validates, or something that does not validate.  The
    clock's readings, file locks, writes and the dispatch are arguments; the
    coverage audit after a dispatch is one of them. *)
From S2P Require Import Prelude PyStr PyData GovernancePolicy AuditDispatch.

Definition BudgetStateError (m : string) : exn := NamedError "BudgetStateError" m.
Definition CooldownStateError (m : string) : exn := NamedError "CooldownStateError" m.
Definition ManualApprovalError (m : string) : exn := NamedError "ManualApprovalError" m.
Definition GovernanceReportError (m : string) : exn := NamedError "GovernanceReportError" m.

(** ** State files *)

(** A file of the state directory, by its name in it: missing (no entry), not
    loadable, or a state. *)
Abbreviation state_files A := (gmap string (res A)).

Definition budget_path (repo_id audit_type : string) : string :=
  repo_id +:+ "__" +:+ audit_type +:+ "__budget.json".
Definition cooldown_path (repo_id audit_type : string) : string :=
  repo_id +:+ "__" +:+ audit_type +:+ "__cooldown.json".

(** What a write does: it happens, it leaves the file alone, or it leaves a
    file that no longer loads. *)
Inductive write_result := Written | NotWritten (e : exn) | Torn (e : exn).

Definition write_state {A} (w : write_result) (files : state_files A) (path : string) (a : A)
    : state_files A * res unit :=
  match w with
  | Written => (<[path := Ok a]> files, Ok tt)
  | NotWritten e => (files, Raise e)
  | Torn e => (<[path := Raise e]> files, Raise e)
  end.

Definition fresh_budget (repo_id audit_type : string) (config : BudgetConfig) (now : datetime)
    : AuditBudgetState :=
  {| ab_repo_id := repo_id; ab_audit_type := audit_type; ab_period_start := now;
     ab_period_end := add_us now (days (bc_period_days config)); ab_max_runs := bc_max_runs config;
     ab_runs_used := 0; ab_last_run_at := None |}.

Definition with_max_runs (s : AuditBudgetState) (n : Z) : AuditBudgetState :=
  {| ab_repo_id := ab_repo_id s; ab_audit_type := ab_audit_type s;
     ab_period_start := ab_period_start s; ab_period_end := ab_period_end s; ab_max_runs := n;
     ab_runs_used := ab_runs_used s; ab_last_run_at := ab_last_run_at s |}.

Definition load_budget_state_unlocked (files : state_files AuditBudgetState)
    (repo_id audit_type : string) (config : BudgetConfig) (now : datetime) : res AuditBudgetState :=
  match files !! budget_path repo_id audit_type with
  | None => Ok (fresh_budget repo_id audit_type config now)
  | Some (Raise e) => Raise (BudgetStateError ("Cannot load budget state from " +:+
      budget_path repo_id audit_type +:+ ": " +:+ exn_text e))
  | Some (Ok state) =>
      over <-? dt_lt (ab_period_end state) now ;;
      Ok (if over : bool then fresh_budget repo_id audit_type config now
          else with_max_runs state (bc_max_runs config))
  end.

Definition load_budget_state (flock : res unit) (files : state_files AuditBudgetState)
    (repo_id audit_type : string) (config : BudgetConfig) (now : datetime) : res AuditBudgetState :=
  _ <-? flock ;; load_budget_state_unlocked files repo_id audit_type config now.

(** [state.model_copy(update={"runs_used": runs_used + 1, "last_run_at": ran_at})]. *)
Definition one_more_run (s : AuditBudgetState) (ran_at : datetime) : AuditBudgetState :=
  {| ab_repo_id := ab_repo_id s; ab_audit_type := ab_audit_type s;
     ab_period_start := ab_period_start s; ab_period_end := ab_period_end s;
     ab_max_runs := ab_max_runs s; ab_runs_used := ab_runs_used s + 1;
     ab_last_run_at := Some ran_at |}.

Definition increment_budget_after_dispatch (flock : res unit) (w : write_result)
    (files : state_files AuditBudgetState) (repo_id audit_type : string) (config : BudgetConfig)
    (now ran_at : datetime) : state_files AuditBudgetState * res AuditBudgetState :=
  match _ <-? flock ;; load_budget_state_unlocked files repo_id audit_type config now with
  | Raise e => (files, Raise e)
  | Ok state =>
      let updated := one_more_run state ran_at in
      let '(files, r) := write_state w files (budget_path repo_id audit_type) updated in
      (files, _ <-? r ;; Ok updated)
  end.

Definition load_cooldown_state (flock : res unit) (files : state_files AuditCooldownState)
    (repo_id audit_type : string) (config : CooldownConfig) : res AuditCooldownState :=
  _ <-? flock ;;
  match files !! cooldown_path repo_id audit_type with
  | None => Ok {| ac_repo_id := repo_id; ac_audit_type := audit_type;
                  ac_cooldown_seconds := cc_cooldown_seconds config; ac_last_run_at := None |}
  | Some (Raise e) => Raise (CooldownStateError ("Cannot load cooldown state from " +:+
      cooldown_path repo_id audit_type +:+ ": " +:+ exn_text e))
  | Some (Ok s) => Ok {| ac_repo_id := ac_repo_id s; ac_audit_type := ac_audit_type s;
                         ac_cooldown_seconds := cc_cooldown_seconds config;
                         ac_last_run_at := ac_last_run_at s |}
  end.

Definition update_cooldown_after_dispatch (flock : res unit) (w : write_result)
    (files : state_files AuditCooldownState) (repo_id audit_type : string) (config : CooldownConfig)
    (ran_at : datetime) : state_files AuditCooldownState * res AuditCooldownState :=
  match flock with
  | Raise e => (files, Raise e)
  | Ok _ =>
      let updated := {| ac_repo_id := repo_id; ac_audit_type := audit_type;
                        ac_cooldown_seconds := cc_cooldown_seconds config;
                        ac_last_run_at := Some ran_at |} in
      let '(files, r) := write_state w files (cooldown_path repo_id audit_type) updated in
      (files, _ <-? r ;; Ok updated)
  end.

(** ** Manual approvals *)

Record AuditManualApproval := {
  ma_decision_id : string;
  ma_request_id : string;
  ma_approved_by : string }.

Definition request_mismatch (approval : AuditManualApproval) (request : AuditGovernanceRequest) : exn :=
  ManualApprovalError ("approval.request_id " +:+ repr (ma_request_id approval) +:+
    " does not match request.request_id " +:+ repr (gr_request_id request)).

Definition validate_manual_approval (approval : AuditManualApproval)
    (decision : AuditGovernanceDecision) (request : AuditGovernanceRequest) : res unit :=
  if negb (String.eqb (ma_decision_id approval) (gd_decision_id decision)) then
    Raise (ManualApprovalError ("approval.decision_id " +:+ repr (ma_decision_id approval) +:+
      " does not match decision.decision_id " +:+ repr (gd_decision_id decision)))
  else if negb (String.eqb (ma_request_id approval) (gr_request_id request)) then
    Raise (request_mismatch approval request)
  else if bool_decide (gd_decision decision = GD_DENIED) then
    Raise (ManualApprovalError ("Cannot approve a denied decision (decision='denied'). " +:+
      "A new governance request is required."))
  else Ok tt.

(** The field validator wants an approver. *)
Definition make_manual_approval (decision : AuditGovernanceDecision)
    (request : AuditGovernanceRequest) (approved_by : string) : res AuditManualApproval :=
  _ <-? not_blank "approved_by" approved_by ;;
  let approval := {| ma_decision_id := gd_decision_id decision;
                     ma_request_id := gr_request_id request; ma_approved_by := approved_by |} in
  _ <-? validate_manual_approval approval decision request ;;
  Ok approval.

(** The runner evaluates the request anew, so only the request binds. *)
Definition check_approval_request_id (approval : AuditManualApproval)
    (request : AuditGovernanceRequest) : res unit :=
  if negb (String.eqb (ma_request_id approval) (gr_request_id request))
  then Raise (request_mismatch approval request) else Ok tt.

(** ** Reports *)

Inductive GovernanceStatus :=
  | GS_APPROVED_AND_DISPATCHED | GS_DENIED | GS_DEFERRED | GS_NEEDS_MANUAL_APPROVAL
  | GS_DISPATCH_FAILED.

#[export] Instance GovernanceStatus_eq_dec : EqDecision GovernanceStatus.
Proof. solve_decision. Defined.

Record DispatchResultSummary := {
  dsum_run_id : option string;
  dsum_status : DispatchStatus;
  dsum_failure_kind : option AuditFailureKind;
  dsum_artifact_manifest_path : option string;
  dsum_error : option string }.

Record BudgetStateSummary := {
  bsum_runs_used : Z;
  bsum_max_runs : Z;
  bsum_runs_remaining : Z;
  bsum_period_start : datetime;
  bsum_period_end : datetime }.

Record CooldownStateSummary := {
  csum_in_cooldown : bool;
  csum_cooldown_seconds : Q;
  csum_seconds_remaining : Q;
  csum_last_run_at : option datetime }.

Record CoverageAuditSummary := {
  cov_findings_total : Z;
  cov_error : option string }.

Record AuditGovernanceReport := {
  rep_request : AuditGovernanceRequest;
  rep_decision : AuditGovernanceDecision;
  rep_policy_results : list PolicyResult;
  rep_status : GovernanceStatus;
  rep_approval : option AuditManualApproval;
  rep_dispatch : option DispatchResultSummary;
  rep_budget : option BudgetStateSummary;
  rep_cooldown : option CooldownStateSummary;
  rep_coverage : option CoverageAuditSummary }.

Record AuditGovernedRunResult := {
  gov_request : AuditGovernanceRequest;
  gov_decision : AuditGovernanceDecision;
  gov_status : GovernanceStatus;
  gov_dispatch_result : option ManagedAuditDispatchResult;
  gov_report_path : string }.

Definition was_dispatched (r : AuditGovernedRunResult) : bool :=
  match gov_dispatch_result r with Some _ => true | None => false end.

Definition governed_run_succeeded (r : AuditGovernedRunResult) : bool :=
  bool_decide (gov_status r = GS_APPROVED_AND_DISPATCHED) &&
  match gov_dispatch_result r with Some d => succeeded d | None => false end.

Definition make_budget_summary (s : option AuditBudgetState) : option BudgetStateSummary :=
  (fun s => {| bsum_runs_used := ab_runs_used s; bsum_max_runs := ab_max_runs s;
               bsum_runs_remaining := runs_remaining s; bsum_period_start := ab_period_start s;
               bsum_period_end := ab_period_end s |}) <$> s.

Definition make_cooldown_summary (s : option AuditCooldownState) (now : datetime)
    : res (option CooldownStateSummary) :=
  match s with
  | None => Ok None
  | Some s =>
      active <-? is_in_cooldown s now ;;
      remaining <-? seconds_remaining s now ;;
      Ok (Some {| csum_in_cooldown := active; csum_cooldown_seconds := ac_cooldown_seconds s;
                  csum_seconds_remaining := remaining; csum_last_run_at := ac_last_run_at s |})
  end.

Definition report_path (output_dir : string) (request : AuditGovernanceRequest) : string :=
  output_dir +:+ "/" +:+ gr_repo_id request +:+ "/" +:+ gr_audit_type request +:+ "/" +:+
  gr_request_id request +:+ "/governance_report.json".

(** ** The runner *)

(** The readings of the clock, in the order of the code. *)
Inductive moment := At_budget_load | At_cooldown_check | At_recent_check | At_summary | At_ran
  | At_increment.

Inductive state_lock := SL_load_budget | SL_load_cooldown | SL_increment | SL_update.

(** What one governed run meets. *)
Record gov_env := {
  ge_clock : moment -> datetime;
  ge_flock : state_lock -> res unit;
  ge_write_budget : write_result;
  ge_write_cooldown : write_result;
  ge_make_report_dir : res unit;
  ge_write_report : res unit;
  ge_decision_id : nat -> string;
  ge_dispatch : ManagedAuditDispatchRequest -> res ManagedAuditDispatchResult;
  ge_coverage : string -> res CoverageAuditSummary }.

(** State files, dispatches asked for with their answers, and reports written,
    in order. *)
Record gov_world := {
  gw_budgets : state_files AuditBudgetState;
  gw_cooldowns : state_files AuditCooldownState;
  gw_dispatches : list (ManagedAuditDispatchRequest * res ManagedAuditDispatchResult);
  gw_reports : list AuditGovernanceReport }.

(** [try: ... except Exception: None]. *)
Definition or_none {A} (r : res A) : option A := match r with Ok a => Some a | Raise _ => None end.

Definition summary_of (r : ManagedAuditDispatchResult) : DispatchResultSummary :=
  {| dsum_run_id := ds_run_id r; dsum_status := ds_status r; dsum_failure_kind := ds_failure_kind r;
     dsum_artifact_manifest_path := ds_artifact_manifest_path r; dsum_error := ds_error r |}.

Definition failed_summary (e : exn) : DispatchResultSummary :=
  {| dsum_run_id := None; dsum_status := DS_FAILED; dsum_failure_kind := None;
     dsum_artifact_manifest_path := None; dsum_error := Some (exn_text e) |}.

Section Runner.
Context (cfg : GovernanceConfig) (output_dir : string) (dispatch_timeout_seconds : option Q) (env : gov_env).

Definition budget_of (request : AuditGovernanceRequest) : BudgetConfig :=
  get_budget_config cfg (gr_repo_id request) (gr_audit_type request).
Definition cooldown_of (request : AuditGovernanceRequest) : CooldownConfig :=
  get_cooldown_config cfg (gr_repo_id request) (gr_audit_type request).

(** The states a request is judged by; one that does not load is [None]. *)
Definition budget_state_for (w : gov_world) (request : AuditGovernanceRequest)
    : option AuditBudgetState :=
  or_none (load_budget_state (ge_flock env SL_load_budget) (gw_budgets w) (gr_repo_id request)
             (gr_audit_type request) (budget_of request) (ge_clock env At_budget_load)).
Definition cooldown_state_for (w : gov_world) (request : AuditGovernanceRequest)
    : option AuditCooldownState :=
  or_none (load_cooldown_state (ge_flock env SL_load_cooldown) (gw_cooldowns w) (gr_repo_id request)
             (gr_audit_type request) (cooldown_of request)).

Definition judge (w : gov_world) (request : AuditGovernanceRequest) : res (list PolicyResult) :=
  evaluate_governance_policies request (gc_known_repos cfg) (gc_known_audit_types cfg)
    (budget_state_for w request) (cooldown_state_for w request)
    (gc_require_mini_regression_for_urgency cfg) (ge_clock env At_cooldown_check)
    (ge_clock env At_recent_check).

(** The two file operations fail with an [OSError]. *)
Definition write_governance_report (request : AuditGovernanceRequest) : res string :=
  match ge_make_report_dir env, ge_write_report env with
  | Raise e, _ => Raise (GovernanceReportError
                           ("Cannot create governance report directory: " +:+ exn_text e))
  | Ok _, Raise e => Raise (GovernanceReportError ("Cannot write governance report: " +:+ exn_text e))
  | Ok _, Ok _ => Ok (report_path output_dir request)
  end.

(** Write the report and return; [result_decision] is the decision of the
    result, which differs from the report's when an approval does not match. *)
Definition finish (w : gov_world) (budget : option AuditBudgetState)
    (cooldown : option AuditCooldownState) (request : AuditGovernanceRequest)
    (decision result_decision : AuditGovernanceDecision) (status : GovernanceStatus)
    (approval : option AuditManualApproval) (summary : option DispatchResultSummary)
    (coverage : option CoverageAuditSummary) (dispatched : option ManagedAuditDispatchResult)
    : gov_world * res AuditGovernedRunResult :=
  match make_cooldown_summary cooldown (ge_clock env At_summary) with
  | Raise e => (w, Raise e)
  | Ok cooldown_summary =>
      let report :=
        {| rep_request := request; rep_decision := decision;
           rep_policy_results := gd_policy_results decision; rep_status := status;
           rep_approval := approval; rep_dispatch := summary;
           rep_budget := make_budget_summary budget; rep_cooldown := cooldown_summary;
           rep_coverage := coverage |} in
      match write_governance_report request with
      | Raise e => (w, Raise e)
      | Ok path =>
          ({| gw_budgets := gw_budgets w; gw_cooldowns := gw_cooldowns w;
              gw_dispatches := gw_dispatches w; gw_reports := gw_reports w ++ [report] |},
           Ok {| gov_request := request; gov_decision := result_decision; gov_status := status;
                 gov_dispatch_result := dispatched;
                 gov_report_path := path |})
      end
  end.

Definition dispatch_request_of (request : AuditGovernanceRequest) : ManagedAuditDispatchRequest :=
  {| dr_repo_id := gr_repo_id request; dr_audit_type := gr_audit_type request;
     dr_allow_unverified_command := false; dr_timeout_seconds := dispatch_timeout_seconds;
     dr_requested_by := Some (gr_requested_by request);
     dr_correlation_id := Some (gr_request_id request); dr_base_env := None;
     dr_cwd_override := None |}.

Definition coverage_of (request : AuditGovernanceRequest) (r : ManagedAuditDispatchResult)
    : option CoverageAuditSummary :=
  if gr_run_coverage_audit request && succeeded r && opt_truthy (ds_artifact_manifest_path r)
  then Some match ge_coverage env (default "" (ds_artifact_manifest_path r)) with
            | Ok c => c
            | Raise e => {| cov_findings_total := 0; cov_error := Some (exn_text e) |}
            end
  else None.

(** From the permission to dispatch on. *)
Definition run_approved (w : gov_world) (request : AuditGovernanceRequest)
    (decision : AuditGovernanceDecision) (approval : option AuditManualApproval)
    : gov_world * res AuditGovernedRunResult :=
  let budget := budget_state_for w request in
  let cooldown := cooldown_state_for w request in
  match validated_dispatch_request (dispatch_request_of request) with
  | Raise e => (w, Raise e)
  | Ok dispatch_request =>
      let w := {| gw_budgets := gw_budgets w; gw_cooldowns := gw_cooldowns w;
                  gw_dispatches := gw_dispatches w ++ [(dispatch_request, ge_dispatch env dispatch_request)];
                  gw_reports := gw_reports w |} in
      match ge_dispatch env dispatch_request with
      | Raise e =>
          finish w budget cooldown request decision decision GS_DISPATCH_FAILED approval
            (Some (failed_summary e)) None None
      | Ok result =>
          let '(budgets, b) := increment_budget_after_dispatch (ge_flock env SL_increment)
            (ge_write_budget env) (gw_budgets w) (gr_repo_id request) (gr_audit_type request)
            (budget_of request) (ge_clock env At_increment) (ge_clock env At_ran) in
          let '(cooldowns, c) := update_cooldown_after_dispatch (ge_flock env SL_update)
            (ge_write_cooldown env) (gw_cooldowns w) (gr_repo_id request) (gr_audit_type request)
            (cooldown_of request) (ge_clock env At_ran) in
          let budget := match b with Ok s => Some s | Raise _ => budget end in
          let cooldown := match c with Ok s => Some s | Raise _ => cooldown end in
          let w := {| gw_budgets := budgets; gw_cooldowns := cooldowns;
                      gw_dispatches := gw_dispatches w; gw_reports := gw_reports w |} in
          finish w budget cooldown request decision decision GS_APPROVED_AND_DISPATCHED approval
            (Some (summary_of result)) (coverage_of request result) (Some result)
      end
  end.

(** [status_map]. *)
Definition refused_status (d : GovernanceDecisionValue) : GovernanceStatus :=
  match d with
  | GD_DEFERRED => GS_DEFERRED
  | GD_NEEDS_MANUAL_APPROVAL => GS_NEEDS_MANUAL_APPROVAL
  | GD_DENIED | GD_APPROVED => GS_DENIED
  end.

Definition run_governed_audit (w : gov_world) (request : AuditGovernanceRequest)
    (approval : option AuditManualApproval) : gov_world * res AuditGovernedRunResult :=
  match judge w request with
  | Raise e => (w, Raise e)
  | Ok policy_results =>
      let decision := make_governance_decision (ge_decision_id env 0) request policy_results in
      let refuse status approval result_decision :=
        finish w (budget_state_for w request) (cooldown_state_for w request) request decision
          result_decision status approval None None None in
      if gd_requires_manual_approval decision then
        match approval with
        | None => refuse GS_NEEDS_MANUAL_APPROVAL None decision
        | Some a =>
            match check_approval_request_id a request with
            | Ok _ => run_approved w request decision approval
            | Raise e =>
                refuse GS_DENIED approval
                  (governance_decision (ge_decision_id env 1) request policy_results GD_DENIED
                     ["Manual approval validation failed: " +:+ exn_text e] true)
            end
        end
      else if bool_decide (gd_decision decision = GD_APPROVED)
      then run_approved w request decision approval
      else refuse (refused_status (gd_decision decision)) approval decision
  end.

(** ** What one run does *)

(** The request may be dispatched: the verdict on it is approval, or manual
    approval is needed and one for this very request is there. *)
Definition permitted (w : gov_world) (request : AuditGovernanceRequest)
    (approval : option AuditManualApproval) : Prop :=
  exists cooling_now,
    cooling (cooldown_state_for w request) (ge_clock env At_cooldown_check) = Ok cooling_now /\
    let verdict := governance_verdict
      (hard_denied request (gc_known_repos cfg) (gc_known_audit_types cfg))
      (is_urgent request || evidence_missing request (gc_require_mini_regression_for_urgency cfg))
      (budget_spent (budget_state_for w request) || cooling_now) in
    verdict = GD_APPROVED \/
    verdict = GD_NEEDS_MANUAL_APPROVAL /\
      exists a, approval = Some a /\ ma_request_id a = gr_request_id request.

Lemma finish_world w b c request d d' st a s cov disp w' r :
  finish w b c request d d' st a s cov disp = (w', r) ->
  gw_budgets w' = gw_budgets w /\ gw_cooldowns w' = gw_cooldowns w /\
  gw_dispatches w' = gw_dispatches w /\
  (forall res, r = Ok res -> gov_status res = st /\ gov_dispatch_result res = disp /\
     gov_decision res = d' /\
     exists rep, gw_reports w' = gw_reports w ++ [rep] /\ rep_status rep = st /\ rep_request rep = request).
Proof.
  unfold finish. destruct (make_cooldown_summary _ _); [|by intros [= <- <-]].
  destruct (write_governance_report request); intros [= <- <-]; simpl; [|done].
  repeat split; try done. all: intros; simplify_eq; simpl; eauto.
Qed.

(** The run in its three forms. *)
Lemma run_cases w request approval :
  (exists e, judge w request = Raise e /\ run_governed_audit w request approval = (w, Raise e)) \/
  (permitted w request approval /\
   exists decision, run_governed_audit w request approval = run_approved w request decision approval) \/
  (~ permitted w request approval /\
   exists decision d' st a, st <> GS_APPROVED_AND_DISPATCHED /\ st <> GS_DISPATCH_FAILED /\
     run_governed_audit w request approval =
     finish w (budget_state_for w request) (cooldown_state_for w request) request decision d' st a
       None None None).
Proof.
  unfold run_governed_audit. destruct (judge w request) as [results|e] eqn:Hj; [|left; eauto]. right.
  pose proof Hj as Hv. apply (decision_verdict (ge_decision_id env 0)) in Hv as (c & Hc & Hd & Hm).
  set (decision := make_governance_decision _ _ _) in *. rewrite Hm.
  set (verdict := governance_verdict _ _ _) in *. rewrite Hd.
  assert (Hperm : permitted w request approval <-> verdict = GD_APPROVED \/
    verdict = GD_NEEDS_MANUAL_APPROVAL /\
      exists a, approval = Some a /\ ma_request_id a = gr_request_id request).
  { unfold permitted. rewrite Hc. split; [intros (c' & [= <-] & H); exact H | intros H; by exists c]. }
  rewrite Hperm. destruct verdict; simpl.
  - left. split; [by left|]. eauto.
  - right. split; [by intros [? | [? _]]|].
    do 4 eexists. split; [|split; [|reflexivity]]; done.
  - destruct approval as [a|].
    + unfold check_approval_request_id. destruct (String.eqb _ _) eqn:E; simpl.
      * apply String.eqb_eq in E. left. split; [|eauto]. right. split; [done|]. eauto.
      * apply String.eqb_neq in E. right. split; [intros [? | (_ & a' & [= <-] & ?)]; done|].
        do 4 eexists. split; [|split; [|reflexivity]]; done.
    + right. split; [intros [? | (_ & a' & [=] & _)]; done|].
      do 4 eexists. split; [|split; [|reflexivity]]; done.
  - right. split; [by intros [? | [? _]]|].
    do 4 eexists. split; [|split; [|reflexivity]]; done.
Qed.

(** What a permitted run does to the state. *)
Lemma run_approved_world w request d approval w' r :
  run_approved w request d approval = (w', r) ->
  (gw_dispatches w' = gw_dispatches w /\ gw_budgets w' = gw_budgets w /\
   gw_cooldowns w' = gw_cooldowns w /\ gw_reports w' = gw_reports w /\ is_ok r = false) \/
  (gw_dispatches w' = gw_dispatches w ++
     [(dispatch_request_of request, ge_dispatch env (dispatch_request_of request))] /\
   (match ge_dispatch env (dispatch_request_of request) with
    | Raise _ => gw_budgets w' = gw_budgets w /\ gw_cooldowns w' = gw_cooldowns w
    | Ok _ =>
        gw_budgets w' = fst (increment_budget_after_dispatch (ge_flock env SL_increment)
          (ge_write_budget env) (gw_budgets w) (gr_repo_id request) (gr_audit_type request)
          (budget_of request) (ge_clock env At_increment) (ge_clock env At_ran)) /\
        gw_cooldowns w' = fst (update_cooldown_after_dispatch (ge_flock env SL_update)
          (ge_write_cooldown env) (gw_cooldowns w) (gr_repo_id request) (gr_audit_type request)
          (cooldown_of request) (ge_clock env At_ran))
    end) /\
   (forall res, r = Ok res ->
      gov_status res = (if is_ok (ge_dispatch env (dispatch_request_of request))
                        then GS_APPROVED_AND_DISPATCHED else GS_DISPATCH_FAILED) /\
      gov_dispatch_result res = or_none (ge_dispatch env (dispatch_request_of request)) /\
      exists rep, gw_reports w' = gw_reports w ++ [rep] /\ rep_status rep = gov_status res /\
        rep_request rep = request)).
Proof.
  unfold run_approved. destruct (validated_dispatch_request _) as [q|e] eqn:Hq.
  2: { intros [= <- <-]. by left. }
  assert (q = dispatch_request_of request) as ->.
  { unfold validated_dispatch_request in Hq. repeat case_match; by simplify_eq. }
  intros H. right. destruct (ge_dispatch env _) as [result|e] eqn:Hd.
  - destruct (increment_budget_after_dispatch _ _ _ _ _ _ _ _) as [budgets b].
    destruct (update_cooldown_after_dispatch _ _ _ _ _ _ _) as [cooldowns c].
    apply finish_world in H as (H1 & H2 & H3 & H4). simpl in *.
    split; [done|]. split; [done|]. intros res Hres. destruct (H4 _ Hres) as (-> & -> & _ & rep & ? & ? & ?).
    split; [done|]. split; [done|]. by exists rep.
  - apply finish_world in H as (H1 & H2 & H3 & H4). simpl in *.
    split; [done|]. split; [done|]. intros res Hres. destruct (H4 _ Hres) as (-> & -> & _ & rep & ? & ? & ?).
    split; [done|]. split; [done|]. by exists rep.
Qed.
End Runner.

(** The call a run adds to the trace, if any. *)
Definition new_calls (w w' : gov_world)
    : list (ManagedAuditDispatchRequest * res ManagedAuditDispatchResult) :=
  drop (length (gw_dispatches w)) (gw_dispatches w').

(** Whether a run dispatched and the dispatch returned. *)
Definition answered (w w' : gov_world) : bool :=
  match new_calls w w' with [(_, Ok _)] => true | _ => false end.

Lemma new_calls_same w w' : gw_dispatches w' = gw_dispatches w -> new_calls w w' = [].
Proof. intros E. unfold new_calls. rewrite E. apply drop_all. Qed.

Lemma new_calls_app w w' c : gw_dispatches w' = gw_dispatches w ++ [c] -> new_calls w w' = [c].
Proof. intros E. unfold new_calls. rewrite E. apply drop_app_length. Qed.

(** C14: a governed run dispatches at most once, and only a request by an
    identified requester for a known repository and an audit type it allows,
    when the policies approve it or an approval for this very request lifts
    the need for one; a run that does not dispatch changes no budget and no
    cooldown and says so. *)
Theorem dispatch_only_if_permitted cfg out timeout env w request approval :
  let '(w', r) := run_governed_audit cfg out timeout env w request approval in
  (gw_dispatches w' = gw_dispatches w /\ gw_budgets w' = gw_budgets w /\
   gw_cooldowns w' = gw_cooldowns w /\
   match r with Ok res => was_dispatched res = false | Raise _ => True end) \/
  (permitted cfg env w request approval /\
   hard_denied request (gc_known_repos cfg) (gc_known_audit_types cfg) = false /\
   new_calls w w' = [(dispatch_request_of timeout request,
                      ge_dispatch env (dispatch_request_of timeout request))] /\
   match r with
   | Ok res => gov_dispatch_result res = or_none (ge_dispatch env (dispatch_request_of timeout request))
   | Raise _ => True
   end).
Proof.
  destruct (run_governed_audit _ _ _ _ _ _ _) as [w' r] eqn:Hrun.
  destruct (run_cases cfg out timeout env w request approval)
    as [(e & _ & H) | [(Hp & d & H) | (_ & d & d' & st & a & _ & _ & H)]]; rewrite H in Hrun.
  - injection Hrun as <- <-. by left.
  - apply run_approved_world in Hrun as [(? & ? & ? & _ & Hr) | (Hd & _ & Hr)].
    + left. split; [done|]. split; [done|]. split; [done|]. by destruct r.
    + right. split; [done|]. split.
      { destruct Hp as (c & _ & Hv). simpl in Hv. unfold governance_verdict in Hv.
        destruct (hard_denied _ _ _); [|done]. by destruct Hv as [? | [? _]]. }
      split; [by apply new_calls_app|]. destruct r as [res|]; [|done].
      by destruct (Hr res eq_refl) as (_ & ? & _).
  - apply finish_world in Hrun as (? & ? & ? & Hr). left. split; [done|]. split; [done|]. split; [done|].
    destruct r as [res|]; [|done]. destruct (Hr res) as (_ & E & _); [done|]. unfold was_dispatched. by rewrite E.
Qed.

(** a run that returns has written exactly one report, on its own request
    and with the status it returns; that status is of a dispatched or failed
    dispatch exactly when a dispatch was asked for. *)
Theorem every_run_is_reported cfg out timeout env w request approval w' res :
  run_governed_audit cfg out timeout env w request approval = (w', Ok res) ->
  (exists rep, gw_reports w' = gw_reports w ++ [rep] /\ rep_request rep = request /\
     rep_status rep = gov_status res) /\
  (gov_status res = GS_APPROVED_AND_DISPATCHED \/ gov_status res = GS_DISPATCH_FAILED <->
   new_calls w w' <> []).
Proof.
  intros Hrun. destruct (run_cases cfg out timeout env w request approval)
    as [(e & _ & H) | [(_ & d & H) | (_ & d & d' & st & a & Hs1 & Hs2 & H)]]; rewrite H in Hrun; [done| |].
  - apply run_approved_world in Hrun as [(? & ? & ? & _ & Hr) | (Hd & _ & Hr)]; [done|].
    destruct (Hr res eq_refl) as (Hst & _ & rep & ? & ? & ?). split; [by exists rep|].
    rewrite (new_calls_app _ _ _ Hd), Hst. split; [done|]. intros _. destruct (is_ok _); auto.
  - apply finish_world in Hrun as (_ & _ & Hd & Hr).
    destruct (Hr res eq_refl) as (-> & _ & _ & rep & ? & ? & ?). split; [by exists rep|].
    rewrite (new_calls_same _ _ Hd). split; [by intros [? | ?] | done].
Qed.

(** ** Sequences of runs *)

Record governed_run := {
  run_env : gov_env;
  run_request : AuditGovernanceRequest;
  run_approval : option AuditManualApproval }.

Section Runs.
Context (cfg : GovernanceConfig) (out : string) (timeout : option Q).

Definition after_run (w : gov_world) (r : governed_run) : gov_world :=
  fst (run_governed_audit cfg out timeout (run_env r) w (run_request r) (run_approval r)).

Definition run_all (runs : list governed_run) (w : gov_world) : gov_world := fold_left after_run runs w.

(** Runs that dispatched, and those of them without a manual approval. *)
Fixpoint answered_runs (runs : list governed_run) (w : gov_world) : Z :=
  match runs with
  | [] => 0
  | r :: rs => (if answered w (after_run w r) then 1 else 0) + answered_runs rs (after_run w r)
  end.

Fixpoint unapproved_runs (runs : list governed_run) (w : gov_world) : Z :=
  match runs with
  | [] => 0
  | r :: rs => (if answered w (after_run w r) && negb (bool_decide (is_Some (run_approval r)))
                then 1 else 0) + unapproved_runs rs (after_run w r)
  end.

Context (repo_id audit_type : string).

Definition for_key (r : governed_run) : Prop :=
  gr_repo_id (run_request r) = repo_id /\ gr_audit_type (run_request r) = audit_type.

(** A run whose file locks and writes work and whose clock stays within the
    period that ends at [p]. *)
Record within_period (p : datetime) (r : governed_run) : Prop := {
  wp_key : for_key r;
  wp_lock l : ge_flock (run_env r) l = Ok tt;
  wp_write : ge_write_budget (run_env r) = Written;
  wp_clock m : dt_aware (ge_clock (run_env r) m) = true /\ (dt_us (ge_clock (run_env r) m) <= dt_us p)%Z }.

Definition budget_file (w : gov_world) : option (res AuditBudgetState) :=
  gw_budgets w !! budget_path repo_id audit_type.

Definition max_runs : Z := bc_max_runs (get_budget_config cfg repo_id audit_type).

Lemma load_within p r files s now :
  within_period p r -> files !! budget_path repo_id audit_type = Some (Ok s) ->
  dt_aware (ab_period_end s) = true -> dt_us (ab_period_end s) = dt_us p ->
  dt_aware now = true -> (dt_us now <= dt_us p)%Z ->
  load_budget_state_unlocked files repo_id audit_type (get_budget_config cfg repo_id audit_type) now =
  Ok (with_max_runs s max_runs).
Proof.
  intros _ Hf Ha Hp Hn Hle. unfold load_budget_state_unlocked. rewrite Hf, dt_lt_aware by done. simpl.
  by rewrite (proj2 (Z.ltb_ge _ _)) by lia.
Qed.

(** One run within the period: the file counts the dispatches, and one without
    an approval needs a run that is left. *)
Lemma run_within_period p r w s :
  within_period p r -> budget_file w = Some (Ok s) ->
  dt_aware (ab_period_end s) = true -> dt_us (ab_period_end s) = dt_us p ->
  exists s', budget_file (after_run w r) = Some (Ok s') /\ ab_period_end s' = ab_period_end s /\
    ab_runs_used s' = (ab_runs_used s + if answered w (after_run w r) then 1 else 0)%Z /\
    (answered w (after_run w r) = true -> run_approval r = None -> (ab_runs_used s < max_runs)%Z).
Proof.
  intros Hwp Hf Ha Hp. pose proof Hwp as [[Hrepo Htype] Hlock Hwrite Hclock].
  unfold after_run. set (env := run_env r) in *. set (request := run_request r) in *.
  destruct (run_governed_audit cfg out timeout env w request (run_approval r)) as [w' res] eqn:Hrun. simpl.
  assert (Hsame : gw_dispatches w' = gw_dispatches w -> gw_budgets w' = gw_budgets w ->
    exists s', budget_file w' = Some (Ok s') /\ ab_period_end s' = ab_period_end s /\
      ab_runs_used s' = (ab_runs_used s + if answered w w' then 1 else 0)%Z /\
      (answered w w' = true -> run_approval r = None -> (ab_runs_used s < max_runs)%Z)).
  { intros Hd Hb. exists s. unfold budget_file, answered in *. rewrite Hb, (new_calls_same _ _ Hd).
    split; [done|]. split; [done|]. split; [lia | done]. }
  assert (Hkey : budget_of cfg request = get_budget_config cfg repo_id audit_type).
  { unfold budget_of. by rewrite Hrepo, Htype. }
  destruct (run_cases cfg out timeout env w request (run_approval r))
    as [(e & _ & H) | [(Hperm & d & H) | (_ & d & d' & st & a & _ & _ & H)]]; rewrite H in Hrun.
  - injection Hrun as <- <-. by apply Hsame.
  - apply run_approved_world in Hrun as [(? & ? & _) | (Hd & Hst & _)]; [by apply Hsame|].
    destruct (ge_dispatch env _) as [result|e].
    2: { destruct Hst as [Hb _]. exists s. unfold budget_file, answered in *.
         rewrite Hb, (new_calls_app _ _ _ Hd). split; [done|]. split; [done|]. split; [lia | done]. }
    destruct Hst as [Hb _]. unfold answered. rewrite (new_calls_app _ _ _ Hd).
    rewrite Hrepo, Htype, Hkey in Hb. unfold increment_budget_after_dispatch in Hb.
    rewrite Hlock in Hb. simpl in Hb. destruct (Hclock At_increment) as [Hca Hcl].
    rewrite (load_within p r _ s _ Hwp Hf Ha Hp Hca Hcl) in Hb. simpl in Hb. rewrite Hwrite in Hb.
    simpl in Hb. exists (one_more_run (with_max_runs s max_runs) (ge_clock env At_ran)).
    unfold budget_file. rewrite Hb, lookup_insert_eq. split; [done|]. split; [done|]. split; [done|].
    intros _ Hnone. destruct Hperm as (c & _ & Hv). rewrite Hnone in Hv. simpl in Hv.
    assert (Hspent : budget_spent (budget_state_for cfg env w request) = false).
    { destruct (budget_spent (budget_state_for cfg env w request)); [|done].
      unfold governance_verdict in Hv. simpl in Hv.
      destruct (hard_denied _ _ _); [by destruct Hv as [? | [? _]]|].
      destruct (is_urgent request || _); by destruct Hv as [? | (? & ? & ? & _)]. }
    unfold budget_state_for, load_budget_state in Hspent. rewrite Hlock in Hspent. simpl in Hspent.
    rewrite Hrepo, Htype, Hkey in Hspent. destruct (Hclock At_budget_load) as [Hla Hll].
    rewrite (load_within p r _ s _ Hwp Hf Ha Hp Hla Hll) in Hspent. simpl in Hspent.
    unfold is_exhausted in Hspent. simpl in Hspent. by apply Z.leb_gt in Hspent.
  - apply finish_world in Hrun as (? & _ & ? & _). by apply Hsame.
Qed.

(** within one budget period, with working file locks and writes, the
    budget file counts the dispatches, and at most the runs that were left at
    the start are dispatched without a manual approval, however many are
    asked for. *)
Theorem budget_bounds_unapproved_runs runs w s :
  budget_file w = Some (Ok s) -> dt_aware (ab_period_end s) = true ->
  Forall (within_period (ab_period_end s)) runs ->
  (exists s', budget_file (run_all runs w) = Some (Ok s') /\
     ab_runs_used s' = (ab_runs_used s + answered_runs runs w)%Z) /\
  (unapproved_runs runs w <= Z.max 0 (max_runs - ab_runs_used s))%Z.
Proof.
  intros Hf Ha Hruns. remember (ab_period_end s) as p eqn:Hp.
  revert w s Hf Hp. induction Hruns as [|r rs Hr Hrs IH]; intros w s Hf Hp; simpl.
  - split; [|lia]. exists s. split; [done|lia].
  - destruct (run_within_period p r w s Hr Hf) as (s1 & Hf1 & Hp1 & Hused & Hleft); [by rewrite <-Hp..|].
    destruct (IH (after_run w r) s1 Hf1) as [(s2 & Hf2 & Hused2) Hbound]; [congruence|].
    split; [exists s2; split; [exact Hf2 | lia]|].
    destruct (answered w (after_run w r)) eqn:Hans; simpl; [|lia].
    case_bool_decide as Happ; simpl; [lia|].
    assert (run_approval r = None) as Hnone.
    { destruct (run_approval r); [|done]. destruct Happ. by eexists. }
    specialize (Hleft eq_refl Hnone). lia.
Qed.

(** A budget file that does not load. *)
Lemma unreadable_budget_step r w e :
  for_key r -> budget_file w = Some (Raise e) -> budget_file (after_run w r) = Some (Raise e).
Proof.
  intros [Hrepo Htype] Hf. unfold after_run.
  destruct (run_governed_audit cfg out timeout (run_env r) w (run_request r) (run_approval r))
    as [w' res] eqn:Hrun. simpl.
  destruct (run_cases cfg out timeout (run_env r) w (run_request r) (run_approval r))
    as [(e' & _ & H) | [(_ & d & H) | (_ & d & d' & st & a & _ & _ & H)]]; rewrite H in Hrun.
  - by injection Hrun as <- <-.
  - unfold budget_file in *.
    apply run_approved_world in Hrun as [(_ & -> & _) | (_ & Hst & _)]; [done|].
    destruct (ge_dispatch _ _); destruct Hst as [-> _]; [|done].
    unfold increment_budget_after_dispatch. rewrite Hrepo, Htype.
    destruct (ge_flock _ _); simpl; [|done]. unfold load_budget_state_unlocked. rewrite Hf. done.
  - apply finish_world in Hrun as (Hb & _). unfold budget_file. by rewrite Hb.
Qed.

(** a budget file that does not load switches the budget off for good: no
    run repairs it, and after any runs the budget counts as unspent. *)
Theorem unreadable_budget_is_never_enforced runs w e env request :
  budget_file w = Some (Raise e) -> Forall for_key runs ->
  gr_repo_id request = repo_id -> gr_audit_type request = audit_type ->
  budget_file (run_all runs w) = Some (Raise e) /\
  budget_spent (budget_state_for cfg env (run_all runs w) request) = false.
Proof.
  intros Hf Hruns Hrepo Htype.
  assert (Hend : budget_file (run_all runs w) = Some (Raise e)).
  { revert w Hf. induction Hruns as [|r rs Hr Hrs IH]; intros w Hf; [done|]. simpl.
    apply IH. by apply unreadable_budget_step. }
  split; [done|]. unfold budget_state_for, load_budget_state. rewrite Hrepo, Htype.
  destruct (ge_flock _ _); simpl; [|done]. unfold load_budget_state_unlocked.
  unfold budget_file in Hend. by rewrite Hend.
Qed.

(** A run without an approval inside the cooldown after [last]. *)
Record inside_cooldown (last : datetime) (r : governed_run) : Prop := {
  ic_key : for_key r;
  ic_unapproved : run_approval r = None;
  ic_lock : ge_flock (run_env r) SL_load_cooldown = Ok tt;
  ic_aware : dt_aware (ge_clock (run_env r) At_cooldown_check) = true;
  ic_clock : ((dt_us (ge_clock (run_env r) At_cooldown_check) - dt_us last)%Z # 1000000 <
              cc_cooldown_seconds (get_cooldown_config cfg repo_id audit_type))%Q }.

Definition cooldown_file (w : gov_world) : option (res AuditCooldownState) :=
  gw_cooldowns w !! cooldown_path repo_id audit_type.

(** while the cooldown of the last recorded run lasts, no sequence of
    requests without a manual approval gets a dispatch, and the record of that
    run stays. *)
Theorem cooldown_holds runs w s last :
  cooldown_file w = Some (Ok s) -> ac_last_run_at s = Some last -> dt_aware last = true ->
  Forall (inside_cooldown last) runs ->
  gw_dispatches (run_all runs w) = gw_dispatches w /\ cooldown_file (run_all runs w) = Some (Ok s).
Proof.
  intros Hf Hlast Ha Hruns. revert w Hf. induction Hruns as [|r rs Hr Hrs IH]; intros w Hf; [done|]. simpl.
  destruct Hr as [[Hrepo Htype] Hnone Hlock Haw Hclock].
  enough (gw_dispatches (after_run w r) = gw_dispatches w /\ gw_cooldowns (after_run w r) = gw_cooldowns w)
    as [Hd Hc].
  { destruct (IH (after_run w r)) as [Hd' Hc']; [unfold cooldown_file in *; by rewrite Hc|].
    by rewrite Hd', Hc', Hd. }
  assert (Hnp : ~ permitted cfg (run_env r) w (run_request r) (run_approval r)).
  { intros (c & Hcool & Hv). rewrite Hnone in Hv.
    assert (c = true) as ->.
    { unfold cooldown_state_for, load_cooldown_state, cooldown_of in Hcool.
      rewrite Hlock, Hrepo, Htype in Hcool. simpl in Hcool. unfold cooldown_file in Hf.
      rewrite Hf in Hcool. unfold cooling, or_none, is_in_cooldown in Hcool. simpl in Hcool.
      rewrite Hlast in Hcool. unfold elapsed_seconds in Hcool. rewrite dt_diff_aware in Hcool by done.
      simpl in Hcool. injection Hcool as <-. by apply Qlt_b_spec. }
    unfold governance_verdict in Hv. rewrite orb_true_r in Hv.
    destruct (hard_denied _ _ _); [by destruct Hv as [? | [? _]]|].
    destruct (is_urgent (run_request r) || _); by destruct Hv as [? | (? & ? & ? & _)]. }
  unfold after_run. destruct (run_cases cfg out timeout (run_env r) w (run_request r) (run_approval r))
    as [(e & _ & ->) | [(Hp & _) | (_ & d & d' & st & a & _ & _ & ->)]]; [done | done |].
  destruct (finish _ _ _ _ _ _ _ _ _ _ _ _ _) as [w' res] eqn:Hfin.
  by apply finish_world in Hfin as (_ & ? & ? & _).
Qed.
End Runs.

(** ** Samples *)

Definition gov_now : datetime := mk_datetime (days 20000) true.

Definition sample_config : GovernanceConfig :=
  {| gc_known_repos := ["repo"; "other"];
     gc_known_audit_types := {["repo" := ["representative"]]};
     gc_budget_config := {["repo" := {["representative" := {| bc_max_runs := 2; bc_period_days := 7 |}]}]};
     gc_cooldown_config := {["repo" := {["representative" := {| cc_cooldown_seconds := 0 |}]}]};
     gc_require_mini_regression_for_urgency := ["low"; "normal"] |}.

Definition audit_request (repo_id audit_type : string) (urgency : AuditUrgency) : AuditGovernanceRequest :=
  {| gr_request_id := "request"; gr_repo_id := repo_id; gr_audit_type := audit_type;
     gr_requested_by := "alice"; gr_requested_reason := "pipeline change"; gr_urgency := urgency;
     gr_related_suite_report_path := Some "suite_report.json"; gr_allow_if_recent_success := false;
     gr_run_coverage_audit := false |}.

Definition dispatched_result : ManagedAuditDispatchResult := failing_result.

(** A run at [t] in which every file operation works. *)
Definition env_at (t : datetime) : gov_env :=
  {| ge_clock := fun _ => t; ge_flock := fun _ => Ok tt; ge_write_budget := Written;
     ge_write_cooldown := Written; ge_make_report_dir := Ok tt; ge_write_report := Ok tt; ge_decision_id := fun n => "decision";
     ge_dispatch := fun _ => Ok dispatched_result;
     ge_coverage := fun _ => Raise (OtherError "no coverage") |}.

Definition run_at (t : datetime) : governed_run :=
  {| run_env := env_at t; run_request := audit_request "repo" "representative" U_NORMAL;
     run_approval := None |}.

Definition used_budget (n : Z) : AuditBudgetState :=
  one_more_run (with_max_runs {|
    ab_repo_id := "repo"; ab_audit_type := "representative"; ab_period_start := gov_now;
    ab_period_end := add_us gov_now (days 7); ab_max_runs := 2; ab_runs_used := n - 1;
    ab_last_run_at := None |} 2) gov_now.

Definition world_with (budget : option (res AuditBudgetState)) (cooldown : option (res AuditCooldownState))
    : gov_world :=
  {| gw_budgets := partial_alter (fun _ => budget) (budget_path "repo" "representative") ∅;
     gw_cooldowns := partial_alter (fun _ => cooldown) (cooldown_path "repo" "representative") ∅;
     gw_dispatches := []; gw_reports := [] |}.

Definition three_runs : list governed_run :=
  [run_at (add_us gov_now (days 1)); run_at (add_us gov_now (days 2)); run_at (add_us gov_now (days 3))].

(** One run is left: three requests, one dispatch. *)
Lemma budget_bounds_unapproved_runs_witness :
  unapproved_runs sample_config "out" (Some 1800%Q) three_runs (world_with (Some (Ok (used_budget 1))) None)
    = 1%Z /\
  (unapproved_runs sample_config "out" (Some 1800%Q) three_runs
     (world_with (Some (Ok (used_budget 1))) None) <=
   Z.max 0 (max_runs sample_config "repo" "representative" - ab_runs_used (used_budget 1)))%Z.
Proof.
  split; [vm_compute; reflexivity|].
  apply (budget_bounds_unapproved_runs sample_config "out" (Some 1800%Q) "repo" "representative" three_runs
    (world_with (Some (Ok (used_budget 1))) None) (used_budget 1)).
  - vm_compute. reflexivity.
  - reflexivity.
  - repeat constructor; try done; destruct m; vm_compute; discriminate.
Defined.

Lemma unreadable_budget_is_never_enforced_witness :
  budget_spent (budget_state_for sample_config (env_at gov_now)
    (run_all sample_config "out" (Some 1800%Q) three_runs
       (world_with (Some (Raise (ValueError "truncated"))) None))
    (audit_request "repo" "representative" U_NORMAL)) = false /\
  unapproved_runs sample_config "out" (Some 1800%Q) three_runs
    (world_with (Some (Raise (ValueError "truncated"))) None) = 3%Z.
Proof.
  split; [|vm_compute; reflexivity].
  apply (unreadable_budget_is_never_enforced sample_config "out" (Some 1800%Q) "repo" "representative"
    three_runs (world_with (Some (Raise (ValueError "truncated"))) None) (ValueError "truncated")).
  - vm_compute. reflexivity.
  - repeat constructor.
  - reflexivity.
  - reflexivity.
Defined.

Definition recent_cooldown : AuditCooldownState :=
  {| ac_repo_id := "repo"; ac_audit_type := "representative"; ac_cooldown_seconds := 3600;
     ac_last_run_at := Some gov_now |}.

Lemma cooldown_holds_witness :
  gw_dispatches (run_all default_governance_config "out" None
    [run_at (add_us gov_now (seconds 10)); run_at (add_us gov_now (seconds 3599))]
    (world_with None (Some (Ok recent_cooldown)))) = [].
Proof.
  apply (cooldown_holds default_governance_config "out" None "repo" "representative"
    [run_at (add_us gov_now (seconds 10)); run_at (add_us gov_now (seconds 3599))]
    (world_with None (Some (Ok recent_cooldown))) recent_cooldown gov_now).
  - vm_compute. reflexivity.
  - reflexivity.
  - reflexivity.
  - repeat constructor; vm_compute; reflexivity.
Defined.

Lemma every_run_is_reported_witness :
  let p := run_governed_audit sample_config "out" (Some 1800%Q) (env_at gov_now) (world_with None None)
             (audit_request "repo" "representative" U_URGENT) None in
  match snd p with
  | Ok res => gov_status res = GS_NEEDS_MANUAL_APPROVAL /\
      exists rep, gw_reports (fst p) = [] ++ [rep] /\
        rep_request rep = audit_request "repo" "representative" U_URGENT /\ rep_status rep = gov_status res
  | Raise _ => False
  end.
Proof.
  cbv zeta. destruct (run_governed_audit sample_config "out" (Some 1800%Q) (env_at gov_now)
    (world_with None None) (audit_request "repo" "representative" U_URGENT) None) as [w' [res|e]] eqn:Hrun.
  - simpl. split; [vm_compute in Hrun; injection Hrun as _ <-; reflexivity|].
    apply (every_run_is_reported sample_config "out" (Some 1800%Q) (env_at gov_now) (world_with None None)
      (audit_request "repo" "representative" U_URGENT) None w' res Hrun).
  - vm_compute in Hrun. discriminate.
Defined.

(** A repository without configured audit types: any audit type is approved. *)
Example unconfigured_types_are_approved :
  (gov_status <$> snd (run_governed_audit sample_config "out" (Some 1800%Q) (env_at gov_now)
     (world_with None None) (audit_request "other" "anything" U_NORMAL) None)) =
  Ok GS_APPROVED_AND_DISPATCHED.
Proof. vm_compute. reflexivity. Qed.

(** Two repositories can share one budget file. *)
Example budget_files_collide : budget_path "a__b" "c" = budget_path "a" "b__c".
Proof. reflexivity. Qed.
