(* ===== verification/Propagation.v ===== *)
(** * Contract-change propagation

    impact_analysis.py and propagation/: the policy, the dedup file, task
    templates and parent links, the board adapter, and the propagator that
    walks the impact set.  The repository graph, the board, and the writes are
    arguments; a failing write leaves its file alone (write, then rename). *)
From Stdlib Require Import Ascii.
From S2P Require Import Prelude PyStr PyData.

(** ** policy.py *)

Inductive PropAction := PA_SKIP | PA_BACKLOG | PA_READY_FOR_AI.

#[export] Instance PropAction_eq_dec : EqDecision PropAction.
Proof. solve_decision. Defined.

Definition PropAction_value (a : PropAction) : string :=
  match a with PA_SKIP => "skip" | PA_BACKLOG => "backlog" | PA_READY_FOR_AI => "ready_for_ai" end.

Record PropagationDecision := { pdec_action : PropAction; pdec_reason : string }.

Definition fires_task (d : PropagationDecision) : bool := negb (bool_decide (pdec_action d = PA_SKIP)).

Record PropagationSettings := {
  pset_enabled : bool;
  pset_auto_trigger_edge_types : gset string;
  pset_dedup_window_hours : Z;
  pset_pair_overrides : list (string * string * PropagationDecision) }.

Definition DEFAULT_DEDUP_WINDOW_HOURS : Z := 24.
Definition default_propagation_settings : PropagationSettings :=
  {| pset_enabled := false; pset_auto_trigger_edge_types := ∅;
     pset_dedup_window_hours := DEFAULT_DEDUP_WINDOW_HOURS; pset_pair_overrides := [] |}.

Definition policy_decide (s : PropagationSettings) (target_repo_id consumer_repo_id edge_type : string)
    : PropagationDecision :=
  if negb (pset_enabled s)
  then {| pdec_action := PA_SKIP; pdec_reason := "propagation disabled globally" |}
  else
    match find_first (fun o => String.eqb (fst (fst o)) target_repo_id &&
                               String.eqb (snd (fst o)) consumer_repo_id) (pset_pair_overrides s) with
    | Some (_, _, override) => override
    | None =>
        if bool_decide (edge_type ∈ pset_auto_trigger_edge_types s)
        then {| pdec_action := PA_BACKLOG;
                pdec_reason := "edge_type " +:+ repr edge_type +:+ " is auto-trigger" |}
        else {| pdec_action := PA_SKIP;
                pdec_reason := "edge_type " +:+ repr edge_type +:+ " not in auto_trigger_edge_types" |}
    end.

(** ** dedup.py *)

Record DedupKey := { dk_target : string; dk_consumer : string; dk_version : string }.

Definition serialize_key (k : DedupKey) : string :=
  dk_target k +:+ "|" +:+ dk_consumer k +:+ "|" +:+ dk_version k.

(** [{str(k): str(v) for ...}]; a text that [isoformat] wrote keeps its date. *)
Definition stored_text (v : jval) : jval := match v with JTime t => JTime t | v => JStr (jtext v) end.

(** [load]: missing, corrupt and misshapen files are empty. *)
Definition dedup_entries (f : json_file) : dict :=
  match f with
  | FileHolds (JObj payload) =>
      match dget (list_to_map payload) "entries" with
      | JObj entries => stored_text <$> (list_to_map entries : dict)
      | _ => ∅
      end
  | _ => ∅
  end.

Definition is_recent (f : json_file) (k : DedupKey) (window_hours : Z) (now : datetime) : res bool :=
  match dedup_entries f !! serialize_key k with
  | None => Ok false
  | Some v => match fromisoformat_str v with
              | None => Ok false
              | Some last => dt_le (sub_us now (hours window_hours)) (assume_utc last)
              end
  end.

Definition record_key (disk : res unit) (f : json_file) (k : DedupKey) (now : datetime)
    : json_file * res unit :=
  match disk with
  | Raise e => (f, Raise e)
  | Ok _ =>
      let entries := <[serialize_key k := JTime now]> (dedup_entries f) in
      (FileHolds (JObj [("version", JInt 1); ("entries", JObj (map_to_list entries))]), Ok tt)
  end.

(** ** registry.py *)

Record TaskTemplate := {
  tt_title : string;
  tt_body_prelude : string;
  tt_labels : list string }.

Definition default_template : TaskTemplate :=
  {| tt_title := "Re-validate {consumer} after {target} change";
     tt_body_prelude :=
       "{consumer} depends on {target} via {edge_type}. {target} changed " +:+
       "(version: {target_version}); please re-run the consumer's validation " +:+
       "pipeline (tests, schema checks, sample fixtures) and confirm green.";
     tt_labels := ["revalidation"; "pending-review"] |}.

Definition open_brace : ascii := "{".
Definition close_brace : ascii := "}".

(** [text.format( **ctx)].  A replacement field that is a plain name is looked
    up; [other_field] does the rest of the format language (conversions,
    attributes, specifications, positions; not nested ones). *)
Section Format.
Context (other_field : string -> res string) (ctx : gmap string string).

Definition plain_name (c : ascii) : bool :=
  in_range 65 90 c || in_range 97 122 c || in_range 48 57 c || Ascii.eqb c "_".

Definition format_field (field : string) : res string :=
  if str_truthy field && forallb plain_name (String.list_ascii_of_string field) &&
     negb (forallb is_digit (String.list_ascii_of_string field))
  then match ctx !! field with Some v => Ok v | None => Raise (KeyError field) end
  else other_field field.

Fixpoint format_fuel (fuel : nat) (s : string) : res string :=
  match fuel with
  | 0 => Ok s
  | S fuel' =>
      match s with
      | EmptyString => Ok ""
      | String c s' =>
          if Ascii.eqb c open_brace then
            match s' with
            | String d s'' =>
                if Ascii.eqb d open_brace then
                  rest <-? format_fuel fuel' s'' ;; Ok (String open_brace rest)
                else if has_char close_brace s' then
                  value <-? format_field (before_char close_brace s') ;;
                  rest <-? format_fuel fuel' (after_char close_brace s') ;;
                  Ok (value +:+ rest)
                else Raise (ValueError "expected '}' before end of string")
            | EmptyString => Raise (ValueError "Single '{' encountered in format string")
            end
          else if Ascii.eqb c close_brace then
            match s' with
            | String d s'' =>
                if Ascii.eqb d close_brace then
                  rest <-? format_fuel fuel' s'' ;; Ok (String close_brace rest)
                else Raise (ValueError "Single '}' encountered in format string")
            | EmptyString => Raise (ValueError "Single '}' encountered in format string")
            end
          else rest <-? format_fuel fuel' s' ;; Ok (String c rest)
      end
  end.

(** Every step consumes a character of the text. *)
Definition py_format (s : string) : res string := format_fuel (S (String.length s)) s.
End Format.

Record RenderedTask := { rt_title : string; rt_body_prelude : string; rt_labels : list string }.

Definition render_context (target target_repo_id consumer consumer_repo_id edge_type target_version : string)
    : gmap string string :=
  list_to_map [("target", target); ("target_repo_id", target_repo_id); ("consumer", consumer);
               ("consumer_repo_id", consumer_repo_id); ("edge_type", edge_type);
               ("target_version", if str_truthy target_version then target_version else "unspecified")].

Definition render_template (other_field : string -> res string) (t : TaskTemplate)
    (ctx : gmap string string) : res RenderedTask :=
  title <-? py_format other_field ctx (tt_title t) ;;
  body <-? py_format other_field ctx (tt_body_prelude t) ;;
  Ok {| rt_title := title; rt_body_prelude := body; rt_labels := tt_labels t |}.

Abbreviation prop_registry := (gmap (string * string) TaskTemplate).

Definition lookup_template (r : prop_registry) (target_repo_id consumer_repo_id : string) : TaskTemplate :=
  match r !! (target_repo_id, consumer_repo_id) with
  | Some t => t
  | None =>
      match r !! (target_repo_id, "*") with
      | Some t => t
      | None => default default_template (r !! ("*", consumer_repo_id))
      end
  end.

Definition register_template (r : prop_registry) (target_repo_id consumer_repo_id : string)
    (t : TaskTemplate) : prop_registry := <[(target_repo_id, consumer_repo_id) := t]> r.

(** ** links.py *)

Record ParentLink := {
  pk_target : string;
  pk_target_repo_id : string;
  pk_target_version : string;
  pk_edge_type : string;
  pk_triggered_at : datetime;
  pk_propagator_run_id : string }.

Definition newline : string := String (ascii_of_nat 10) "".

Definition render_link (l : ParentLink) : string :=
  join newline
    ["<!-- propagation:source -->";
     "target: " +:+ pk_target l;
     "target_repo_id: " +:+ pk_target_repo_id l;
     "target_version: " +:+ pk_target_version l;
     "edge_type: " +:+ pk_edge_type l;
     "triggered_at: " +:+ isoformat (pk_triggered_at l);
     "propagator_run_id: " +:+ pk_propagator_run_id l;
     "<!-- /propagation:source -->"].

(** ** impact_analysis.py *)

(** What the code reads of a node of the repository graph; a visibility is the
    name of its member. *)
Record RepoNode := { rn_repo_id : string; rn_canonical_name : string; rn_visibility : string }.

(** The graph: name resolution and the consumers of a repository's contracts. *)
Record repo_graph := {
  rg_resolve : string -> option RepoNode;
  rg_affected_by_contract_change : string -> list RepoNode }.

Record ContractImpactSummary := { ci_target : RepoNode; ci_affected : list RepoNode }.

Definition with_visibility (v : string) (s : ContractImpactSummary) : list RepoNode :=
  List.filter (fun n => String.eqb (rn_visibility n) v) (ci_affected s).
Definition public_affected : ContractImpactSummary -> list RepoNode := with_visibility "PUBLIC".
Definition private_affected : ContractImpactSummary -> list RepoNode := with_visibility "PRIVATE".
Definition has_impact (s : ContractImpactSummary) : bool := list_truthy (ci_affected s).

Definition compute_contract_impact (g : repo_graph) (target_name : string)
    : option ContractImpactSummary :=
  (fun node => {| ci_target := node;
                  ci_affected := rg_affected_by_contract_change g (rn_repo_id node) |})
  <$> rg_resolve g target_name.

(** ** board_adapter.py *)

(** What is asked of the board. *)
Inductive prop_call :=
  | PC_create (name description state : string) (labels : list string)
  | PC_transition (issue_id state : string).

Inductive prop_answer := PA_issue (id : jval) | PA_done.

(** The board answers from all that it was asked so far. *)
Definition board_client := list prop_call -> prop_call -> res prop_answer.

Section Adapter.
Context (client : board_client).

(** [BoardTaskCreator.create_issue]; [id]: what the created issue has under "id". *)
Definition create_task (calls : list prop_call) (title body : string) (labels : list string)
    (promote_to_ready : bool) : list prop_call * res string :=
  let create := PC_create title body "Backlog" labels in
  let calls' := calls ++ [create] in
  match client calls create with
  | Raise e => (calls', Raise e)
  | Ok PA_done => (calls', Raise (OtherError "object has no attribute 'get'"))
  | Ok (PA_issue id) =>
      let issue_id := jtext id in
      if promote_to_ready && str_truthy issue_id
      then (calls' ++ [PC_transition issue_id "Ready for AI"], Ok issue_id)
      else (calls', Ok issue_id)
  end.
End Adapter.

(** ** propagator.py *)

Record PropagationOutcome := {
  po_consumer_repo_id : string;
  po_consumer_canonical : string;
  po_decision_action : string;
  po_decision_reason : string;
  po_issue_id : option string;
  po_error : option string }.

Record impact_summary := {
  is_affected_count : nat;
  is_public_affected : list string;
  is_private_affected : list string;
  is_note : option string }.

Record PropagationRecord := {
  prec_run_id : string;
  prec_target_repo_id : string;
  prec_target_canonical : string;
  prec_target_version : string;
  prec_triggered_at : string;
  prec_enabled : bool;
  prec_auto_trigger_edge_types : list string;
  prec_dedup_window_hours : Z;
  prec_outcomes : list PropagationOutcome;
  prec_impact : impact_summary }.

(** What the propagator shares with its surroundings. *)
Record prop_world := {
  pw_dedup : json_file;
  pw_board : list prop_call;
  pw_records : list PropagationRecord }.

(** What one run meets; the dedup file's writes answer by how many calls the
    board has had. *)
Record prop_env := {
  pe_client : board_client;
  pe_dedup_disk : nat -> res unit;
  pe_record_disk : res unit;
  pe_other_field : string -> res string;
  pe_run_id : string }.

Section Propagator.
Context (settings : PropagationSettings) (registry : prop_registry) (env : prop_env).

Definition EDGE_TYPE : string := "depends_on_contracts_from".

Definition outcome_of (consumer : RepoNode) (action reason : string) (issue_id error : option string)
    : PropagationOutcome :=
  {| po_consumer_repo_id := rn_repo_id consumer; po_consumer_canonical := rn_canonical_name consumer;
     po_decision_action := action; po_decision_reason := reason; po_issue_id := issue_id;
     po_error := error |}.

Definition dedup_key (target consumer : RepoNode) (version : string) : DedupKey :=
  {| dk_target := rn_repo_id target; dk_consumer := rn_repo_id consumer; dk_version := version |}.

Definition task_body (rendered : RenderedTask) (link : ParentLink) : string :=
  rt_body_prelude rendered +:+ newline +:+ newline +:+ render_link link.

(** [create_issue] and the stamp that follows it. *)
Definition fire (w : prop_world) (target consumer : RepoNode) (version : string) (now : datetime)
    (decision : PropagationDecision) (rendered : RenderedTask)
    : prop_world * res PropagationOutcome :=
  let link := {| pk_target := rn_canonical_name target; pk_target_repo_id := rn_repo_id target;
                 pk_target_version := version; pk_edge_type := EDGE_TYPE;
                 pk_triggered_at := now; pk_propagator_run_id := pe_run_id env |} in
  let '(board, created) :=
    create_task (pe_client env) (pw_board w) (rt_title rendered) (task_body rendered link)
      (rt_labels rendered) (bool_decide (pdec_action decision = PA_READY_FOR_AI)) in
  let outcome := outcome_of consumer (PropAction_value (pdec_action decision)) (pdec_reason decision) in
  match created with
  | Raise e =>
      ({| pw_dedup := pw_dedup w; pw_board := board; pw_records := pw_records w |},
       Ok (outcome None (Some ("create_issue failed: " +:+ exn_text e))))
  | Ok issue_id =>
      let '(dedup, stamped) :=
        record_key (pe_dedup_disk env (length board)) (pw_dedup w) (dedup_key target consumer version) now in
      ({| pw_dedup := dedup; pw_board := board; pw_records := pw_records w |},
       _ <-? stamped ;; Ok (outcome (Some issue_id) None))
  end.

Definition propagate_one (w : prop_world) (target consumer : RepoNode) (version : string)
    (now : datetime) : prop_world * res PropagationOutcome :=
  let decision := policy_decide settings (rn_repo_id target) (rn_repo_id consumer) EDGE_TYPE in
  if negb (fires_task decision) then
    (w, Ok (outcome_of consumer (PropAction_value (pdec_action decision)) (pdec_reason decision) None None))
  else
    match is_recent (pw_dedup w) (dedup_key target consumer version)
            (pset_dedup_window_hours settings) now with
    | Raise e => (w, Raise e)
    | Ok true => (w, Ok (outcome_of consumer "skip" "dedup window not yet elapsed" None None))
    | Ok false =>
        match render_template (pe_other_field env)
                (lookup_template registry (rn_repo_id target) (rn_repo_id consumer))
                (render_context (rn_canonical_name target) (rn_repo_id target)
                   (rn_canonical_name consumer) (rn_repo_id consumer) EDGE_TYPE version) with
        | Raise e => (w, Raise e)
        | Ok rendered => fire w target consumer version now decision rendered
        end
    end.

(** The loop over the impact set. *)
Fixpoint propagate_all (w : prop_world) (target : RepoNode) (consumers : list RepoNode)
    (version : string) (now : datetime) : prop_world * res (list PropagationOutcome) :=
  match consumers with
  | [] => (w, Ok [])
  | consumer :: rest =>
      match propagate_one w target consumer version now with
      | (w, Raise e) => (w, Raise e)
      | (w, Ok outcome) =>
          let '(w, r) := propagate_all w target rest version now in
          (w, outcomes <-? r ;; Ok (outcome :: outcomes))
      end
  end.

Definition persist (w : prop_world) (record : PropagationRecord) : prop_world * res PropagationRecord :=
  match pe_record_disk env with
  | Raise e => (w, Raise e)
  | Ok _ => ({| pw_dedup := pw_dedup w; pw_board := pw_board w; pw_records := pw_records w ++ [record] |},
             Ok record)
  end.

Definition no_impact (note : option string) : impact_summary :=
  {| is_affected_count := 0; is_public_affected := []; is_private_affected := []; is_note := note |}.

Definition propagate (w : prop_world) (target_repo_id target_version : string) (graph : repo_graph)
    (now : datetime) : prop_world * res PropagationRecord :=
  let record canonical outcomes impact :=
    {| prec_run_id := pe_run_id env; prec_target_repo_id := target_repo_id;
       prec_target_canonical := canonical; prec_target_version := target_version;
       prec_triggered_at := isoformat now; prec_enabled := pset_enabled settings;
       prec_auto_trigger_edge_types := sorted_by str_leb (elements (pset_auto_trigger_edge_types settings));
       prec_dedup_window_hours := pset_dedup_window_hours settings;
       prec_outcomes := outcomes; prec_impact := impact |} in
  match rg_resolve graph target_repo_id with
  | None => persist w (record "(unknown)" [] (no_impact (Some "target not in graph")))
  | Some target =>
      match compute_contract_impact graph target_repo_id with
      | None => persist w (record (rn_canonical_name target) [] (no_impact None))
      | Some impact =>
          if negb (has_impact impact)
          then persist w (record (rn_canonical_name target) [] (no_impact None))
          else
            match propagate_all w target (ci_affected impact) target_version now with
            | (w, Raise e) => (w, Raise e)
            | (w, Ok outcomes) =>
                persist w (record (rn_canonical_name target) outcomes
                  {| is_affected_count := length (ci_affected impact);
                     is_public_affected := map rn_canonical_name (public_affected impact);
                     is_private_affected := map rn_canonical_name (private_affected impact);
                     is_note := None |})
            end
      end
  end.
End Propagator.

(** ** The dedup file *)

Lemma stored_text_idem v : stored_text (stored_text v) = stored_text v.
Proof. by destruct v. Qed.

Lemma entries_stored f k v : dedup_entries f !! k = Some v -> stored_text v = v.
Proof.
  unfold dedup_entries. repeat case_match; try by rewrite lookup_empty.
  rewrite lookup_fmap, fmap_Some. intros (x & _ & ->). apply stored_text_idem.
Qed.

(** What a successful stamp leaves in the file. *)
Lemma entries_record f k now f' :
  record_key (Ok tt) f k now = (f', Ok tt) ->
  dedup_entries f' = <[serialize_key k := JTime now]> (dedup_entries f).
Proof.
  unfold record_key. intros [= <-]. unfold dedup_entries at 1.
  replace (dget (list_to_map _) "entries") with
    (JObj (map_to_list (<[serialize_key k := JTime now]> (dedup_entries f)))) by reflexivity.
  rewrite list_to_map_to_list. apply map_eq. intros x. rewrite lookup_fmap.
  destruct (decide (x = serialize_key k)) as [->|Hne]; [by rewrite !lookup_insert_eq|].
  rewrite lookup_insert_ne by done.
  destruct (dedup_entries f !! x) as [v|] eqn:E; simpl; [|done]. f_equal. by eapply entries_stored.
Qed.

(** The key was stamped no earlier than [t]. *)
Definition stamped (f : json_file) (k : DedupKey) (t : datetime) : Prop :=
  exists last, dedup_entries f !! serialize_key k = Some (JTime last) /\ dt_aware last = true /\
    (dt_us t <= dt_us last)%Z.

Lemma record_stamped disk f k now f' r k0 t :
  record_key disk f k now = (f', r) -> dt_aware now = true -> (dt_us t <= dt_us now)%Z ->
  stamped f k0 t -> stamped f' k0 t.
Proof.
  intros Hrec Ha Hle (last & Hl & ? & ?). destruct disk as [[]|e]; [|injection Hrec as <- _; by exists last].
  assert (r = Ok tt) as -> by by injection Hrec. apply entries_record in Hrec.
  unfold stamped. rewrite Hrec. destruct (decide (serialize_key k = serialize_key k0)) as [->|Hne].
  - exists now. by rewrite lookup_insert_eq.
  - exists last. by rewrite lookup_insert_ne.
Qed.

Lemma is_recent_stamped f k window now t :
  stamped f k t -> dt_aware now = true -> (dt_us now <= dt_us t + hours window)%Z ->
  is_recent f k window now = Ok true.
Proof.
  intros (last & Hl & Ha & Hle) Hn Hw. unfold is_recent. rewrite Hl. simpl.
  unfold assume_utc. rewrite Ha. rewrite dt_le_aware by done. f_equal. apply Z.leb_le. simpl. lia.
Qed.

(** ** One consumer *)

(** A step keeps older stamps. *)
Lemma propagate_one_stamped settings registry env w target consumer version now w' r k t :
  propagate_one settings registry env w target consumer version now = (w', r) ->
  dt_aware now = true -> (dt_us t <= dt_us now)%Z -> stamped (pw_dedup w) k t -> stamped (pw_dedup w') k t.
Proof.
  unfold propagate_one. intros H Ha Hle Hs. destruct (negb (fires_task _)); [by injection H as <- _|].
  destruct (is_recent _ _ _ _) as [[]|]; try by injection H as <- _.
  destruct (render_template _ _ _) as [rendered|]; [|by injection H as <- _].
  unfold fire in H. destruct (create_task _ _ _ _ _ _) as [board [id|e]]; [|by injection H as <- _].
  destruct (record_key _ _ _ _) as [dedup st] eqn:Hrec. injection H as <- _. simpl.
  by eapply record_stamped.
Qed.

Lemma propagate_all_stamped settings registry env target consumers version now k t w w' r :
  propagate_all settings registry env w target consumers version now = (w', r) ->
  dt_aware now = true -> (dt_us t <= dt_us now)%Z -> stamped (pw_dedup w) k t -> stamped (pw_dedup w') k t.
Proof.
  revert w r. induction consumers as [|c rest IH]; simpl; intros w r H Ha Hle Hs; [by injection H as <- _|].
  destruct (propagate_one settings registry env w target c version now) as [w1 [o|e]] eqn:H1.
  - destruct (propagate_all settings registry env w1 target rest version now) as [w2 r2] eqn:H2.
    injection H as <- _. eapply IH; eauto. by eapply propagate_one_stamped.
  - injection H as <- _. by eapply propagate_one_stamped.
Qed.

Lemma persist_dedup env w record w' r : persist env w record = (w', r) ->
  pw_dedup w' = pw_dedup w /\ pw_board w' = pw_board w.
Proof. unfold persist. destruct (pe_record_disk env); by intros [= <- _]. Qed.

(** ** Sequences of runs *)

Record prop_run := {
  pr_settings : PropagationSettings;
  pr_registry : prop_registry;
  pr_env : prop_env;
  pr_target : string;
  pr_version : string;
  pr_graph : repo_graph;
  pr_now : datetime }.

Definition after_propagation (w : prop_world) (r : prop_run) : prop_world :=
  fst (propagate (pr_settings r) (pr_registry r) (pr_env r) w (pr_target r) (pr_version r) (pr_graph r)
         (pr_now r)).

Lemma after_propagation_stamped w r k t :
  dt_aware (pr_now r) = true -> (dt_us t <= dt_us (pr_now r))%Z ->
  stamped (pw_dedup w) k t -> stamped (pw_dedup (after_propagation w r)) k t.
Proof.
  intros Ha Hle Hs. unfold after_propagation.
  destruct (propagate _ _ _ _ _ _ _ _) as [w' res] eqn:H. simpl. unfold propagate in H.
  destruct (rg_resolve _ _) as [target|]; [|by apply persist_dedup in H as [-> _]].
  destruct (compute_contract_impact _ _) as [impact|]; [|by apply persist_dedup in H as [-> _]].
  destruct (negb (has_impact impact)); [by apply persist_dedup in H as [-> _]|].
  destruct (propagate_all _ _ _ _ _ _ _ _) as [w1 [os|e]] eqn:H1.
  - apply persist_dedup in H as [-> _]. by eapply propagate_all_stamped.
  - injection H as <- _. by eapply propagate_all_stamped.
Qed.

(** C17: once a task was created for a pair of repositories and a version, no
    later run within the dedup window creates another: whatever runs, for
    whatever targets, versions and settings, happened in between, failing
    writes included, the pair is passed over and the board left alone. *)
Theorem no_second_task_within_window settings registry env w target consumer version t w1 o id runs :
  propagate_one settings registry env w target consumer version t = (w1, Ok o) ->
  po_issue_id o = Some id -> dt_aware t = true ->
  Forall (fun r => dt_aware (pr_now r) = true /\ (dt_us t <= dt_us (pr_now r))%Z) runs ->
  forall settings' registry' env' now,
    dt_aware now = true -> (dt_us now <= dt_us t + hours (pset_dedup_window_hours settings'))%Z ->
    exists o', propagate_one settings' registry' env' (fold_left after_propagation runs w1) target consumer
        version now = (fold_left after_propagation runs w1, Ok o') /\ po_issue_id o' = None.
Proof.
  intros Hone Hid Ha Hruns settings' registry' env' now Hn Hw.
  assert (Hs : stamped (pw_dedup w1) (dedup_key target consumer version) t).
  { unfold propagate_one in Hone. destruct (negb (fires_task _)); [by injection Hone as <- <-|].
    destruct (is_recent _ _ _ _) as [[]|]; [by injection Hone as <- <- | |done].
    destruct (render_template _ _ _) as [rendered|]; [|done]. unfold fire in Hone.
    destruct (create_task _ _ _ _ _ _) as [board [i|e]]; [|by injection Hone as <- <-].
    destruct (record_key (pe_dedup_disk env (length board)) (pw_dedup w) _ t) as [dedup st] eqn:Hrec.
    injection Hone as <- Hst. simpl. destruct (pe_dedup_disk env (length board)) as [[]|e].
    - assert (st = Ok tt) as -> by by injection Hrec. apply entries_record in Hrec.
      exists t. rewrite Hrec, lookup_insert_eq. by split; [|split; [|lia]].
    - injection Hrec as <- <-. done. }
  assert (Hs' : stamped (pw_dedup (fold_left after_propagation runs w1)) (dedup_key target consumer version) t).
  { clear Hone. revert w1 Hs. induction Hruns as [|r rs [Hra Hrt] Hrs IH]; intros w1 Hs; [done|]. simpl.
    apply IH. by apply after_propagation_stamped. }
  unfold propagate_one. destruct (negb (fires_task _)); [by eexists|].
  rewrite (is_recent_stamped _ _ _ _ t) by done. by eexists.
Qed.

(** ** One run *)

Lemma propagate_all_consumers settings registry env target consumers version now w w' os :
  propagate_all settings registry env w target consumers version now = (w', Ok os) ->
  map po_consumer_repo_id os = map rn_repo_id consumers /\
  Forall2 (fun c o => po_issue_id o <> None ->
    fires_task (policy_decide settings (rn_repo_id target) (rn_repo_id c) EDGE_TYPE) = true) consumers os.
Proof.
  revert w os. induction consumers as [|c rest IH]; simpl; intros w os H; [by injection H as <- <-|].
  destruct (propagate_one settings registry env w target c version now) as [w1 [o|e]] eqn:H1; [|done].
  destruct (propagate_all settings registry env w1 target rest version now) as [w2 [os2|e]] eqn:H2; [|done].
  injection H as <- <-. apply IH in H2 as [Hm Hf].
  enough (po_consumer_repo_id o = rn_repo_id c /\ (po_issue_id o <> None ->
    fires_task (policy_decide settings (rn_repo_id target) (rn_repo_id c) EDGE_TYPE) = true)) as [Ho Hi].
  { simpl. rewrite Ho, Hm. split; [done|]. by constructor. }
  unfold propagate_one in H1. destruct (fires_task _) eqn:Hfire; simpl in H1; [|by injection H1 as <- <-].
  destruct (is_recent _ _ _ _) as [[]|]; [by injection H1 as <- <- | |done].
  destruct (render_template _ _ _) as [rendered|]; [|done]. unfold fire in H1.
  destruct (create_task _ _ _ _ _ _) as [board [i|e]]; [|by injection H1 as <- <-].
  destruct (record_key _ _ _ _) as [dedup [[]|e]]; simpl in H1; [|done]. by injection H1 as <- <-.
Qed.

Lemma propagate_all_records settings registry env target consumers version now w w' r :
  propagate_all settings registry env w target consumers version now = (w', r) ->
  pw_records w' = pw_records w.
Proof.
  revert w r. induction consumers as [|c rest IH]; simpl; intros w r H; [by injection H as <- _|].
  assert (Hone : forall w1 r1, propagate_one settings registry env w target c version now = (w1, r1) ->
    pw_records w1 = pw_records w).
  { intros w1 r1 H1. unfold propagate_one in H1. destruct (negb (fires_task _)); [by injection H1 as <- _|].
    destruct (is_recent _ _ _ _) as [[]|]; try by injection H1 as <- _.
    destruct (render_template _ _ _) as [rendered|]; [|by injection H1 as <- _]. unfold fire in H1.
    destruct (create_task _ _ _ _ _ _) as [board [i|e]]; [|by injection H1 as <- _].
    destruct (record_key _ _ _ _) as [dedup st]. by injection H1 as <- _. }
  destruct (propagate_one settings registry env w target c version now) as [w1 [o|e]] eqn:H1.
  - destruct (propagate_all settings registry env w1 target rest version now) as [w2 r2] eqn:H2.
    injection H as <- _. rewrite (IH _ _ H2). by eapply Hone.
  - injection H as <- _. by eapply Hone.
Qed.

Lemma propagate_all_disabled settings registry env target consumers version now w :
  pset_enabled settings = false ->
  fst (propagate_all settings registry env w target consumers version now) = w.
Proof.
  intros Hoff. induction consumers as [|c rest IH]; simpl; [done|].
  unfold propagate_one, policy_decide. rewrite Hoff. simpl.
  by destruct (propagate_all settings registry env w target rest version now).
Qed.

Lemma persist_ok env w record w' r : persist env w record = (w', Ok r) ->
  r = record /\ pw_records w' = pw_records w ++ [record] /\ pw_board w' = pw_board w /\ pw_dedup w' = pw_dedup w.
Proof. unfold persist. destruct (pe_record_disk env); [by intros [= <- <-] | done]. Qed.

(** a run that returns has written exactly one record, with one outcome
    for every consumer of the target's contracts, in their order; with
    propagation disabled it creates no task and leaves the board and the dedup
    file alone. *)
Theorem propagation_accounts_for_every_consumer settings registry env w target_id version graph now w' record :
  propagate settings registry env w target_id version graph now = (w', Ok record) ->
  pw_records w' = pw_records w ++ [record] /\
  map po_consumer_repo_id (prec_outcomes record) =
    match compute_contract_impact graph target_id with
    | Some impact => map rn_repo_id (ci_affected impact)
    | None => []
    end /\
  (pset_enabled settings = false ->
     pw_board w' = pw_board w /\ pw_dedup w' = pw_dedup w /\
     Forall (fun o => po_issue_id o = None) (prec_outcomes record)).
Proof.
  unfold propagate, compute_contract_impact. destruct (rg_resolve graph target_id) as [target|]; simpl.
  2: { intros (-> & H1 & H2 & H3)%persist_ok. split; [done|]. split; [done|]. intros _. by split; [|split; [|constructor]]. }
  set (consumers := rg_affected_by_contract_change graph (rn_repo_id target)).
  unfold has_impact. simpl. destruct (list_truthy consumers) eqn:Hc; simpl.
  2: { intros (-> & H1 & H2 & H3)%persist_ok. split; [done|].
       split; [by destruct consumers|]. intros _. by split; [|split; [|constructor]]. }
  destruct (propagate_all settings registry env w target consumers version now) as [w1 [os|e]] eqn:Hall; [|done].
  intros (-> & H1 & H2 & H3)%persist_ok. apply propagate_all_consumers in Hall as Hcons.
  destruct Hcons as [Hm Hf]. apply propagate_all_records in Hall as Hrec.
  split; [by rewrite H1, Hrec|]. split; [exact Hm|]. intros Hoff.
  pose proof (propagate_all_disabled settings registry env target consumers version now w Hoff) as Hsame.
  rewrite Hall in Hsame. simpl in Hsame. subst w1. split; [done|]. split; [done|]. simpl.
  clear -Hf Hoff. induction Hf as [|x o xs os Hxo _ IH]; constructor; [|done].
  destruct (po_issue_id o) as [i|]; [|done]. unfold policy_decide in Hxo. rewrite Hoff in Hxo.
  by specialize (Hxo ltac:(done)).
Qed.

(** ** The bundled template *)

Lemma default_template_renders other_field target target_id consumer consumer_id edge version :
  render_template other_field default_template
    (render_context target target_id consumer consumer_id edge version) =
  Ok {| rt_title := "Re-validate " +:+ (consumer +:+ (" after " +:+ (target +:+ " change")));
        rt_body_prelude :=
          consumer +:+ (" depends on " +:+ (target +:+ (" via " +:+ (edge +:+ (". " +:+ (target +:+
          (" changed (version: " +:+ ((if str_truthy version then version else "unspecified") +:+
          ("); please re-run the consumer's validation pipeline (tests, schema checks, " +:+
           "sample fixtures) and confirm green.")))))))));
        rt_labels := ["revalidation"; "pending-review"] |}.
Proof. reflexivity. Qed.

(** the same pair and version fires again as soon as the window is over:
    the dedup key suppresses within the window only. *)
Theorem same_version_fires_again settings env w target consumer version last now id :
  dedup_entries (pw_dedup w) !! serialize_key (dedup_key target consumer version) = Some (JTime last) ->
  dt_aware last = true -> dt_aware now = true ->
  (dt_us last + hours (pset_dedup_window_hours settings) < dt_us now)%Z ->
  fires_task (policy_decide settings (rn_repo_id target) (rn_repo_id consumer) EDGE_TYPE) = true ->
  (forall calls call, pe_client env calls call = Ok (PA_issue id)) ->
  (forall n, pe_dedup_disk env n = Ok tt) ->
  exists w' o, propagate_one settings ∅ env w target consumer version now = (w', Ok o) /\
    po_issue_id o = Some (jtext id) /\ length (pw_board w) < length (pw_board w').
Proof.
  intros Hl Hla Hna Hwin Hfire Hclient Hdisk. unfold propagate_one. rewrite Hfire. simpl.
  unfold is_recent. rewrite Hl. simpl. unfold assume_utc. rewrite Hla, dt_le_aware by done.
  rewrite (proj2 (Z.leb_gt _ _)) by (simpl; lia).
  change (lookup_template ∅ (rn_repo_id target) (rn_repo_id consumer)) with default_template.
  rewrite default_template_renders. unfold fire, create_task. rewrite Hclient.
  set (promote := bool_decide _ && _). unfold record_key.
  destruct promote; rewrite Hdisk; do 2 eexists; (split; [reflexivity|]); (split; [reflexivity|]);
    simpl; rewrite !length_app; simpl; lia.
Qed.

(** ** Samples *)

Definition prop_now : datetime := mk_datetime (days 20000) true.
Definition contracts_repo : RepoNode :=
  {| rn_repo_id := "cxrp"; rn_canonical_name := "CxRP"; rn_visibility := "PUBLIC" |}.
Definition consumer_repo (id : string) : RepoNode :=
  {| rn_repo_id := id; rn_canonical_name := id; rn_visibility := "PRIVATE" |}.

Definition sample_graph : repo_graph :=
  {| rg_resolve := fun name => if String.eqb name "cxrp" then Some contracts_repo else None;
     rg_affected_by_contract_change := fun _ => [consumer_repo "oc"; consumer_repo "wt"] |}.

Definition firing_settings : PropagationSettings :=
  {| pset_enabled := true; pset_auto_trigger_edge_types := {[EDGE_TYPE]};
     pset_dedup_window_hours := 24; pset_pair_overrides := [] |}.

Definition working_env : prop_env :=
  {| pe_client := fun calls _ => Ok (PA_issue (JInt (Z.of_nat (length calls))));
     pe_dedup_disk := fun _ => Ok tt; pe_record_disk := Ok tt;
     pe_other_field := fun _ => Raise (ValueError "format"); pe_run_id := "run" |}.

Definition same_issue_env : prop_env :=
  {| pe_client := fun _ _ => Ok (PA_issue (JInt 7)); pe_dedup_disk := fun _ => Ok tt;
     pe_record_disk := Ok tt; pe_other_field := fun _ => Raise (ValueError "format"); pe_run_id := "run" |}.

Definition empty_world : prop_world := {| pw_dedup := FileMissing; pw_board := []; pw_records := [] |}.

Definition sample_prop_run (version : string) (t : datetime) : prop_run :=
  {| pr_settings := firing_settings; pr_registry := ∅; pr_env := working_env; pr_target := "cxrp";
     pr_version := version; pr_graph := sample_graph; pr_now := t |}.

Definition fired_world : prop_world :=
  fst (propagate_one firing_settings ∅ working_env empty_world contracts_repo (consumer_repo "oc") "7e8624c"
         prop_now).

Definition fired_outcome : PropagationOutcome :=
  {| po_consumer_repo_id := "oc"; po_consumer_canonical := "oc"; po_decision_action := "backlog";
     po_decision_reason := "edge_type 'depends_on_contracts_from' is auto-trigger";
     po_issue_id := Some "0"; po_error := None |}.

Lemma no_second_task_within_window_witness :
  let w := fold_left after_propagation [sample_prop_run "next" (add_us prop_now (hours 2))] fired_world in
  exists o', propagate_one firing_settings ∅ working_env w contracts_repo (consumer_repo "oc") "7e8624c"
      (add_us prop_now (hours 24)) = (w, Ok o') /\ po_issue_id o' = None.
Proof.
  apply (no_second_task_within_window firing_settings ∅ working_env empty_world contracts_repo
    (consumer_repo "oc") "7e8624c" prop_now fired_world fired_outcome "0"
    [sample_prop_run "next" (add_us prop_now (hours 2))]).
  - vm_compute. reflexivity.
  - reflexivity.
  - reflexivity.
  - repeat constructor. vm_compute. discriminate.
  - reflexivity.
  - vm_compute. discriminate.
Defined.

Lemma propagation_accounts_for_every_consumer_witness :
  let p := propagate firing_settings ∅ working_env empty_world "cxrp" "7e8624c" sample_graph prop_now in
  match snd p with
  | Ok record => pw_records (fst p) = [] ++ [record] /\
      map po_consumer_repo_id (prec_outcomes record) = ["oc"; "wt"]
  | Raise _ => False
  end.
Proof.
  cbv zeta.
  destruct (propagate firing_settings ∅ working_env empty_world "cxrp" "7e8624c" sample_graph prop_now)
    as [w' [record|e]] eqn:Hrun; [|vm_compute in Hrun; discriminate]. simpl.
  destruct (propagation_accounts_for_every_consumer firing_settings ∅ working_env empty_world "cxrp" "7e8624c"
    sample_graph prop_now w' record Hrun) as (H1 & H2 & _).
  split; [exact H1 | exact H2].
Defined.

Lemma same_version_fires_again_witness :
  exists w' o, propagate_one firing_settings ∅ same_issue_env fired_world contracts_repo (consumer_repo "oc")
      "7e8624c" (add_us prop_now (hours 25)) = (w', Ok o) /\
    po_issue_id o = Some (jtext (JInt 7)) /\ length (pw_board fired_world) < length (pw_board w').
Proof.
  apply (same_version_fires_again firing_settings same_issue_env fired_world contracts_repo (consumer_repo "oc")
    "7e8624c" prop_now (add_us prop_now (hours 25)) (JInt 7)).
  - vm_compute. reflexivity.
  - reflexivity.
  - reflexivity.
  - vm_compute. reflexivity.
  - vm_compute. reflexivity.
  - reflexivity.
  - reflexivity.
Defined.

(** When the stamp can not be written the run raises after the task was
    created; no record is kept and the next run creates the task again. *)
Definition full_disk_env : prop_env :=
  {| pe_client := fun _ _ => Ok (PA_issue (JInt 7)); pe_dedup_disk := fun _ => Raise (OSError "disk full");
     pe_record_disk := Ok tt; pe_other_field := fun _ => Raise (ValueError "format"); pe_run_id := "run" |}.

Example unstamped_task_is_created_again :
  let p := propagate firing_settings ∅ full_disk_env empty_world "cxrp" "7e8624c" sample_graph prop_now in
  snd p = Raise (OSError "disk full") /\ pw_records (fst p) = [] /\ length (pw_board (fst p)) = 1 /\
  exists o, snd (propagate_one firing_settings ∅ working_env (fst p) contracts_repo (consumer_repo "oc")
    "7e8624c" prop_now) = Ok o /\ po_issue_id o = Some "1".
Proof. vm_compute. repeat split; try done. by eexists. Qed.
