(* ===== verification/Decision.v ===== *)
(** * The decision engine

    decision/models.py, candidate_builder.py, validation_profiles.py,
    suppression.py, policy.py, chain_policy.py, loader.py and service.py: from
    the candidates the rules derive to the artifact of emitted and suppressed
    ones.  A rule is a function from the insights to candidate specifications
    that may raise; DecisionRules holds the rules of the program. *)
From S2P Require Import Prelude PyStr PyData UsageStore UsageBudget.
From Stdlib Require Import Ascii Sorting.Sorted.

(** ** Data *)

(** What the engine reads of an insight. *)
Record DerivedInsight := {
  in_dedup_key : string;
  in_kind : string;
  in_subject : string;
  in_status : string;
  in_evidence : dict }.

Record RepoInsightsArtifact := {
  ia_run_id : string;
  ia_generated_at : datetime;
  ia_repo_name : string;
  ia_repo_path : string;
  ia_source_snapshots : list string;   (* their run ids *)
  ia_insights : list DerivedInsight }.

Record ProposalOutline := {
  ol_title_hint : string;
  ol_summary_hint : string;
  ol_labels_hint : list string;
  ol_source_family : option string }.

Record CandidateSpec := {
  cs_family : string;
  cs_subject : string;
  cs_pattern_key : string;
  cs_evidence : dict;
  cs_matched_rules : list string;
  cs_proposal_outline : ProposalOutline;
  cs_priority : Z * Z * string;
  cs_confidence : string;
  cs_evidence_lines : list string;
  cs_risk_class : string;
  cs_expires_after_runs : Z;
  cs_estimated_affected_files : option Z;
  cs_validation_profile : string }.

Record EvidenceBundle := {
  eb_schema_version : Z;
  eb_kind : string;
  eb_count : option Z;
  eb_distinct_file_count : option Z;
  eb_delta : option Z;
  eb_trend : string;
  eb_top_codes : list string;
  eb_source : string }.

Record ProposalCandidate := {
  pc_candidate_id : string;
  pc_dedup_key : string;
  pc_family : string;
  pc_subject : string;
  pc_status : string;
  pc_evidence : dict;
  pc_confidence : string;
  pc_evidence_lines : list string;
  pc_risk_class : string;
  pc_expires_after_runs : Z;
  pc_validation_profile : string;
  pc_evidence_bundle : option EvidenceBundle;
  pc_matched_rules : list string;
  pc_suppressed_by : list string;
  pc_proposal_outline : ProposalOutline }.

Record SuppressedCandidate := {
  sc_dedup_key : string;
  sc_family : string;
  sc_subject : string;
  sc_reason : string;
  sc_evidence : list (string * jval) }.

Record ProposalCandidatesArtifact := {
  da_run_id : string;
  da_generated_at : datetime;
  da_source_command : string;
  da_dry_run : bool;
  da_repo_name : string;
  da_repo_path : string;
  da_source_insight_run_id : string;
  da_candidates : list ProposalCandidate;
  da_suppressed : list SuppressedCandidate }.

(** ** validation_profiles.py *)

Definition RUFF_CLEAN : string := "ruff_clean".
Definition TY_CLEAN : string := "ty_clean".
Definition TESTS_PASS : string := "tests_pass".
Definition CI_GREEN : string := "ci_green".
Definition MANUAL_REVIEW : string := "manual_review".

Definition FAMILY_PROFILES : gmap string string :=
  list_to_map [
    ("lint_fix", RUFF_CLEAN);
    ("type_fix", TY_CLEAN);
    ("test_visibility", TESTS_PASS);
    ("execution_health_followup", TESTS_PASS);
    ("observation_coverage", TESTS_PASS);
    ("dependency_drift_followup", TESTS_PASS);
    ("ci_pattern", CI_GREEN);
    ("validation_pattern_followup", TESTS_PASS);
    ("hotspot_concentration", TESTS_PASS);
    ("todo_accumulation", TESTS_PASS);
    ("backlog_promotion", TESTS_PASS);
    ("arch_promotion", MANUAL_REVIEW)].

Definition DEFAULT_PROFILE : string := TESTS_PASS.

Definition profile_for_family (family : string) : string :=
  default DEFAULT_PROFILE (FAMILY_PROFILES !! family).

(** ** candidate_builder.py *)

(** [int(ev[k]) if k in ev else None]. *)
Definition int_if_present (ev : dict) (k : string) : res (option Z) :=
  match ev !! k with
  | Some v => n <-? jint v ;; Ok (Some n)
  | None => Ok None
  end.

(** [v > 0] and [v < 0] for a JSON value. *)
Definition jgt0 (v : jval) : res bool :=
  match v with
  | JInt n => Ok (0 <? n)%Z
  | JBool b => Ok b
  | JFloat q => Ok (Qlt_b 0 q)
  | _ => Raise (TypeError "'>' not supported between instances")
  end.
Definition jlt0 (v : jval) : res bool :=
  match v with
  | JInt n => Ok (n <? 0)%Z
  | JBool _ => Ok false
  | JFloat q => Ok (Qlt_b q 0)
  | _ => Raise (TypeError "'<' not supported between instances")
  end.

(** The items of a JSON value, as iteration gives them. *)
Definition jiter (v : jval) : res (list jval) :=
  match v with
  | JList l => Ok l
  | JStr s => Ok (map (fun c => JStr (String c "")) (String.list_ascii_of_string s))
  | JTime t => Ok (map (fun c => JStr (String c "")) (String.list_ascii_of_string (isoformat t)))
  | JObj l => Ok (map (fun kv => JStr (fst kv)) l)
  | _ => Raise (TypeError "object is not iterable")
  end.

(** [ev.get(k, d)]. *)
Definition get_or (ev : dict) (k : string) (d : jval) : jval := default d (ev !! k).

Definition trend_of (ev : dict) : res string :=
  up <-? jgt0 (get_or ev "delta" (JInt 0)) ;;
  if up : bool then Ok "worsening"
  else
    down <-? jlt0 (get_or ev "delta" (JInt 0)) ;;
    Ok (if down : bool then "improving" else "present").

(** One branch of [_synthesize_evidence_bundle]. *)
Definition count_bundle (ev : dict) (kind count_key source : string) : res EvidenceBundle :=
  let count_raw := match dget ev count_key with
                   | JNull => dget ev "current_count"
                   | v => v
                   end in
  count <-? match count_raw with
            | JNull => Ok None
            | v => n <-? jint v ;; Ok (Some n)
            end ;;
  distinct <-? int_if_present ev "distinct_file_count" ;;
  delta <-? int_if_present ev "delta" ;;
  trend <-? trend_of ev ;;
  codes <-? jiter (get_or ev "top_codes" (JList [])) ;;
  Ok {| eb_schema_version := 1; eb_kind := kind; eb_count := count; eb_distinct_file_count := distinct; eb_delta := delta;
        eb_trend := trend; eb_top_codes := map jtext codes;
        eb_source := jtext (get_or ev "source" (JStr source)) |}.

Definition synthesize_evidence_bundle (family : string) (evidence : dict) : res (option EvidenceBundle) :=
  if String.eqb family "lint_fix" then
    b <-? count_bundle evidence "lint_count" "violation_count" "ruff" ;; Ok (Some b)
  else if String.eqb family "type_fix" then
    b <-? count_bundle evidence "type_count" "error_count" "type_checker" ;; Ok (Some b)
  else Ok None.

Definition dedup_key_of (spec : CandidateSpec) : string :=
  join "|" ["candidate"; cs_family spec; cs_subject spec; cs_pattern_key spec].

Definition build (spec : CandidateSpec) : res ProposalCandidate :=
  let dedup_key := dedup_key_of spec in
  bundle <-? synthesize_evidence_bundle (cs_family spec) (cs_evidence spec) ;;
  Ok {| pc_candidate_id := replace "|" ":" dedup_key; pc_dedup_key := dedup_key;
        pc_family := cs_family spec; pc_subject := cs_subject spec; pc_status := "emit";
        pc_evidence := cs_evidence spec; pc_confidence := cs_confidence spec;
        pc_evidence_lines := cs_evidence_lines spec; pc_risk_class := cs_risk_class spec;
        pc_expires_after_runs := cs_expires_after_runs spec;
        pc_validation_profile :=
          if str_truthy (cs_validation_profile spec) then cs_validation_profile spec
          else profile_for_family (cs_family spec);
        pc_evidence_bundle := bundle; pc_matched_rules := cs_matched_rules spec;
        pc_suppressed_by := []; pc_proposal_outline := cs_proposal_outline spec |}.

(** ** suppression.py *)

Definition suppressed_candidate (c : ProposalCandidate) (reason : string)
    (evidence : list (string * jval)) : SuppressedCandidate :=
  {| sc_dedup_key := pc_dedup_key c; sc_family := pc_family c; sc_subject := pc_subject c;
     sc_reason := reason; sc_evidence := evidence |}.

(** Build each specification and suppress it for one reason. *)
Fixpoint suppress_all (specs : list CandidateSpec) (reason : string) (evidence : list (string * jval))
    : res (list SuppressedCandidate) :=
  match specs with
  | [] => Ok []
  | spec :: rest =>
      c <-? build spec ;;
      l <-? suppress_all rest reason evidence ;;
      Ok (suppressed_candidate c reason evidence :: l)
  end.

(** ** policy.py *)

Definition confidence_rank (c : string) : Z :=
  if String.eqb c "low" then 0
  else if String.eqb c "medium" then 1
  else if String.eqb c "high" then 2
  else 0.

Record DecisionPolicyConfig := {
  dp_max_candidates : Z;
  dp_max_candidates_per_family : Z;
  dp_cooldown_minutes : Z;
  dp_min_confidence : string;
  dp_max_changed_files : Z }.

Definition default_policy_config : DecisionPolicyConfig :=
  {| dp_max_candidates := 3; dp_max_candidates_per_family := 1; dp_cooldown_minutes := 120;
     dp_min_confidence := "low"; dp_max_changed_files := 30 |}.

Definition minutes (n : Z) : Z := seconds (n * 60).

(** The order of tuples [(int, int, str)]. *)
Definition priority_leb (a b : CandidateSpec) : bool :=
  let '(a1, a2, a3) := cs_priority a in
  let '(b1, b2, b3) := cs_priority b in
  (a1 <? b1)%Z || ((a1 =? b1)%Z && ((a2 <? b2)%Z || ((a2 =? b2)%Z && str_leb a3 b3))).

Definition last_emitted_at (dedup_key : string) (prior_artifacts : list ProposalCandidatesArtifact)
    : option datetime :=
  da_generated_at <$>
  find_first (fun a => existsb (fun c => String.eqb (pc_dedup_key c) dedup_key) (da_candidates a))
    prior_artifacts.

(** The local state of [DecisionPolicy.apply]. *)
Record policy_state := {
  ps_emitted : list ProposalCandidate;
  ps_suppressed : list SuppressedCandidate;
  ps_dedup_keys : gset string;
  ps_per_family : gmap string Z }.

Definition empty_policy_state : policy_state :=
  {| ps_emitted := []; ps_suppressed := []; ps_dedup_keys := ∅; ps_per_family := ∅ |}.

Section Policy.
Context (config : DecisionPolicyConfig) (prior_artifacts : list ProposalCandidatesArtifact)
        (generated_at : datetime).

Definition cooldown_cutoff : datetime := sub_us generated_at (minutes (dp_cooldown_minutes config)).

(** Whether the cooldown of a key is active, and since when it was emitted. *)
Definition cooldown_active (dedup_key : string) : res (option datetime) :=
  match last_emitted_at dedup_key prior_artifacts with
  | None => Ok None
  | Some at_ =>
      recent <-? dt_le cooldown_cutoff at_ ;;
      Ok (if recent : bool then Some at_ else None)
  end.

(** The estimated number of files, when it is too large. *)
Definition scope_too_broad (spec : CandidateSpec) : option Z :=
  match cs_estimated_affected_files spec with
  | Some n => if (dp_max_changed_files config <? n)%Z then Some n else None
  | None => None
  end.

(** The reason to suppress a candidate, with its evidence; [None]: emit it. *)
Definition policy_verdict (st : policy_state) (spec : CandidateSpec) (c : ProposalCandidate)
    : res (option (string * list (string * jval))) :=
  if (confidence_rank (pc_confidence c) <? confidence_rank (dp_min_confidence config))%Z then
    Ok (Some ("confidence_below_threshold",
              [("candidate_confidence", JStr (pc_confidence c));
               ("min_confidence", JStr (dp_min_confidence config))]))
  else
  match scope_too_broad spec with
  | Some n => Ok (Some ("scope_too_broad", [("estimated_affected_files", JInt n);
                        ("max_changed_files", JInt (dp_max_changed_files config))]))
  | None =>
  if bool_decide (pc_dedup_key c ∈ ps_dedup_keys st) then Ok (Some ("duplicate_in_run", []))
  else
    cooling <-? cooldown_active (pc_dedup_key c) ;;
    match cooling with
    | Some at_ =>
        Ok (Some ("cooldown_active", [("last_emitted_at", JTime at_);
                  ("cooldown_minutes", JInt (dp_cooldown_minutes config))]))
    | None =>
        if (dp_max_candidates_per_family config <=? default 0 (ps_per_family st !! pc_family c))%Z then
          Ok (Some ("family_quota_exceeded",
                    [("max_candidates_per_family", JInt (dp_max_candidates_per_family config))]))
        else if (dp_max_candidates config <=? Z.of_nat (length (ps_emitted st)))%Z then
          Ok (Some ("quota_exceeded", [("max_candidates", JInt (dp_max_candidates config))]))
        else Ok None
    end
  end.

Definition policy_step (st : policy_state) (spec : CandidateSpec) : res policy_state :=
  c <-? build spec ;;
  verdict <-? policy_verdict st spec c ;;
  Ok match verdict with
     | Some (reason, evidence) =>
         {| ps_emitted := ps_emitted st;
            ps_suppressed := ps_suppressed st ++ [suppressed_candidate c reason evidence];
            ps_dedup_keys := ps_dedup_keys st; ps_per_family := ps_per_family st |}
     | None =>
         {| ps_emitted := ps_emitted st ++ [c]; ps_suppressed := ps_suppressed st;
            ps_dedup_keys := {[pc_dedup_key c]} ∪ ps_dedup_keys st;
            ps_per_family :=
              <[pc_family c := (default 0 (ps_per_family st !! pc_family c) + 1)%Z]> (ps_per_family st) |}
     end.

Definition policy_apply (candidate_specs : list CandidateSpec)
    : res (list ProposalCandidate * list SuppressedCandidate) :=
  st <-? foldM policy_step empty_policy_state (sorted_by priority_leb candidate_specs) ;;
  Ok (ps_emitted st, ps_suppressed st).
End Policy.

(** ** chain_policy.py *)

Definition family_prerequisites (family : string) : list string :=
  if String.eqb family "type_fix" then ["lint_fix"]
  else if String.eqb family "execution_health_followup" then ["test_visibility"]
  else [].

(** The families that the artifacts not older than the cutoff emitted. *)
Definition recently_emitted_families (cutoff : datetime)
    (prior_artifacts : list ProposalCandidatesArtifact) : res (list string) :=
  recent <-? filterM (fun a => dt_le cutoff (da_generated_at a)) prior_artifacts ;;
  Ok (map pc_family (List.filter (fun c => String.eqb (pc_status c) "emit")
        (concat (map da_candidates recent)))).

(** The upstream family that blocks a family, with the reason. *)
Definition blocking_upstream (in_cycle recently : list string) (family : string)
    : option (string * string) :=
  upstream ← find_first (fun u => str_in u in_cycle || str_in u recently) (family_prerequisites family);
  Some (upstream, if str_in upstream in_cycle then "upstream_family_in_cycle"
                  else "upstream_family_recently_emitted").

Fixpoint chain_split (in_cycle recently : list string) (specs : list CandidateSpec)
    : res (list CandidateSpec * list SuppressedCandidate) :=
  match specs with
  | [] => Ok ([], [])
  | spec :: rest =>
      match blocking_upstream in_cycle recently (cs_family spec) with
      | None =>
          r <-? chain_split in_cycle recently rest ;;
          Ok (spec :: fst r, snd r)
      | Some (upstream, reason) =>
          c <-? build spec ;;
          r <-? chain_split in_cycle recently rest ;;
          Ok (fst r, suppressed_candidate c reason
                       [("upstream_family", JStr upstream);
                        ("downstream_family", JStr (cs_family spec))] :: snd r)
      end
  end.

Definition chain_apply (cooldown_minutes : Z) (specs : list CandidateSpec)
    (prior_artifacts : list ProposalCandidatesArtifact) (generated_at : datetime)
    : res (list CandidateSpec * list SuppressedCandidate) :=
  recently <-? recently_emitted_families (sub_us generated_at (minutes cooldown_minutes)) prior_artifacts ;;
  chain_split (map cs_family specs) recently specs.

(** ** loader.py *)

(** [l[:n]]. *)
Definition slice_to {A} (n : Z) (l : list A) : list A :=
  if (0 <=? n)%Z then take (Z.to_nat n) l else take (length l - Z.to_nat (- n)) l.

(** [sorted(l, key=time, reverse=True)]: newest first, equal times in their
    order; naive and aware times do not compare. *)
Definition newest_first {A} (time : A -> datetime) (l : list A) : res (list A) :=
  match l with
  | [] => Ok []
  | a :: rest =>
      if forallb (fun b => same_kind (time a) (time b)) rest
      then Ok (sorted_by (fun x y => (dt_us (time y) <=? dt_us (time x))%Z) l)
      else Raise naive_mix
  end.

Definition insights_of_repo (repo : string) (a : RepoInsightsArtifact) : bool :=
  let wanted := lower (strip repo) in
  String.eqb (lower (strip (ia_repo_name a))) wanted || String.eqb (lower (strip (ia_repo_path a))) wanted.

(** [DecisionLoader.load] over the artifacts found on disk, in the order the
    file system lists them; an artifact that does not validate raises. *)
Definition decision_load (insights : res (list RepoInsightsArtifact))
    (decisions : res (list ProposalCandidatesArtifact)) (repo insight_run_id : option string)
    (history_limit : Z) : res (RepoInsightsArtifact * list ProposalCandidatesArtifact) :=
  found <-? insights ;;
  found <-? newest_first ia_generated_at found ;;
  let found := match repo with
               | Some r => if str_truthy r then List.filter (insights_of_repo r) found else found
               | None => found
               end in
  current <-? match insight_run_id with
              | Some id =>
                  if str_truthy id then
                    match find_first (fun a => String.eqb (ia_run_id a) id) found with
                    | Some a => Ok a
                    | None => Raise (ValueError ("Insight run id not found: " +:+ id))
                    end
                  else match found with
                       | a :: _ => Ok a
                       | [] => Raise (ValueError "No insight artifacts found for the requested repo/context")
                       end
              | None => match found with
                        | a :: _ => Ok a
                        | [] => Raise (ValueError "No insight artifacts found for the requested repo/context")
                        end
              end ;;
  prior <-? decisions ;;
  prior <-? newest_first da_generated_at prior ;;
  Ok (current, slice_to history_limit
        (List.filter (fun a => String.eqb (da_repo_path a) (ia_repo_path current) &&
                               negb (String.eqb (da_source_insight_run_id a) (ia_run_id current))) prior)).

(** ** service.py *)

Definition DEFAULT_ALLOWED_FAMILIES : gset string :=
  list_to_set ["observation_coverage"; "test_visibility"; "dependency_drift";
    "execution_health_followup"; "lint_fix"; "type_fix"; "validation_pattern_followup"].

Definition ALL_FAMILIES : gset string :=
  list_to_set ["observation_coverage"; "test_visibility"; "dependency_drift";
    "execution_health_followup"; "lint_fix"; "type_fix"; "validation_pattern_followup"; "ci_pattern";
    "hotspot_concentration"; "todo_accumulation"; "backlog_promotion"; "arch_promotion";
    "coverage_gap"; "lint_cluster"].

Record DecisionContext := {
  dx_repo_filter : option string;
  dx_insight_run_id : option string;
  dx_history_limit : Z;
  dx_max_candidates : Z;
  dx_cooldown_minutes : Z;
  dx_run_id : string;
  dx_generated_at : datetime;
  dx_source_command : string;
  dx_dry_run : bool;
  dx_allowed_families : gset string;
  dx_max_proposals_per_24h : Z;
  dx_max_changed_files : Z }.

(** What a decision reads and writes: the usage file, the decision artifacts,
    and those written by other stages (insights, proposal results, feedback). *)
Record decision_world := {
  dn_usage : file;
  dn_decisions : list ProposalCandidatesArtifact }.

Record decision_env := {
  dn_insights : res (list RepoInsightsArtifact);
  dn_unreadable_decision : option exn;     (* one stored decision does not validate *)
  dn_proposal_results : list json_file;
  dn_feedback : list json_file;
  dn_free_mb : option Q;
  dn_write : res unit }.

(** [data.get] of a value that is no dict. *)
Definition no_get : exn := OtherError "object has no attribute 'get'".

Definition as_dict (v : jval) : res dict :=
  match v with JObj l => Ok (list_to_map l) | _ => Raise no_get end.

(** The readable files, parsed; the unreadable ones are skipped. *)
Definition readable (files : list json_file) : list jval :=
  omap (fun f => match f with FileHolds v => Some v | _ => None end) files.

(** The proposals of one results file that [_count_proposals_last_24h] counts. *)
Definition recent_created (cutoff : datetime) (v : jval) : res Z :=
  data <-? as_dict v ;;
  if jtruthy (dget data "dry_run") then Ok 0%Z
  else
    match fromisoformat_str (get_or data "generated_at" (JStr "")) with
    | None => Ok 0%Z
    | Some t =>
        old <-? dt_lt t cutoff ;;
        Ok (if old : bool then 0%Z
            else match get_or data "created" (JList []) with
                 | JList l => Z.of_nat (length l)
                 | _ => 0%Z
                 end)
    end.

Definition count_proposals_last_24h (results : list json_file) (generated_at : datetime) : res Z :=
  foldM (fun n v => k <-? recent_created (sub_us generated_at (hours 24)) v ;; Ok (n + k)%Z) 0%Z
    (readable results).

(** The issues of the proposals created, by dedup key; the last file wins. *)
Definition issues_of_item (issues : gmap string string) (item : jval) : gmap string string :=
  match item with
  | JObj l =>
      let d : dict := list_to_map l in
      let dk := jtext (get_or d "dedup_key" (JStr "")) in
      let issue_id := jtext (get_or d "plane_issue_id" (JStr "")) in
      if str_truthy dk && str_truthy issue_id then <[dk := issue_id]> issues else issues
  | _ => issues
  end.

Definition dedup_to_issue (results : list json_file) : res (gmap string string) :=
  foldM (fun issues v =>
    data <-? as_dict v ;;
    Ok match get_or data "created" (JList []) with
       | JList l => fold_left issues_of_item l issues
       | _ => issues
       end) ∅ (readable results).

Definition resolved_issue_ids (feedback : list json_file) : res (gset string) :=
  foldM (fun (ids : gset string) v =>
    record <-? as_dict v ;;
    let task_id := jtext (get_or record "task_id" (JStr "")) in
    let outcome := jtext (get_or record "outcome" (JStr "")) in
    Ok (if str_truthy task_id && str_in outcome ["merged"; "escalated"] then {[task_id]} ∪ ids else ids))
    ∅ (readable feedback).

(** The first occurrence of each dedup key among the prior candidates: when it
    was proposed and after how many runs it expires. *)
Definition dedup_to_proposed (prior_decisions : list ProposalCandidatesArtifact)
    : gmap string (datetime * Z) :=
  fold_left (fun m a =>
    fold_left (fun m c =>
      match m !! pc_dedup_key c with
      | Some _ => m
      | None => <[pc_dedup_key c := (da_generated_at a, pc_expires_after_runs c)]> m
      end) (da_candidates a) m) prior_decisions ∅.

Definition is_stale (issues : gmap string string) (resolved : gset string) (generated_at : datetime)
    (entry : string * (datetime * Z)) : res bool :=
  let '(key, (proposed_at, expires_after_runs)) := entry in
  fresh <-? dt_le generated_at (add_us proposed_at (days (expires_after_runs * 2))) ;;
  if fresh : bool then Ok false
  else
    let issue_id := default "" (issues !! key) in
    Ok (str_truthy issue_id && negb (bool_decide (issue_id ∈ resolved))).

Definition stale_open_dedup_keys (results feedback : list json_file) (generated_at : datetime)
    (prior_decisions : list ProposalCandidatesArtifact) : res (gset string) :=
  let proposed := dedup_to_proposed prior_decisions in
  if bool_decide (proposed = ∅) then Ok ∅
  else
    issues <-? dedup_to_issue results ;;
    resolved <-? resolved_issue_ids feedback ;;
    stale <-? filterM (is_stale issues resolved generated_at) (map_to_list proposed) ;;
    Ok (list_to_set (map fst stale)).

Section Service.
Context (settings : ExecutionControlSettings)
        (rules : list (list DerivedInsight -> res (list CandidateSpec)))
        (env : decision_env) (context : DecisionContext).

Fixpoint evaluate_rules (l : list (list DerivedInsight -> res (list CandidateSpec)))
    (insights : list DerivedInsight) : res (list CandidateSpec) :=
  match l with
  | [] => Ok []
  | rule :: rest =>
      specs <-? rule insights ;;
      others <-? evaluate_rules rest insights ;;
      Ok (specs ++ others)
  end.

Definition sorted_names (s : gset string) : jval := JList (map JStr (sorted_by str_leb (elements s))).

(** The specifications of the allowed families, and the others suppressed. *)
Definition gate_families (specs : list CandidateSpec)
    : res (list CandidateSpec * list SuppressedCandidate) :=
  let allowed spec := bool_decide (cs_family spec ∈ dx_allowed_families context) in
  suppressed <-? suppress_all (List.filter (fun s => negb (allowed s)) specs)
                   "family_deferred_initial_gating"
                   [("allowed_families", sorted_names (dx_allowed_families context))] ;;
  Ok (List.filter allowed specs, suppressed).

(** [if condition: suppress every specification]. *)
Definition gate_all (closed : bool) (reason : string) (evidence : list (string * jval))
    (specs : list CandidateSpec) : res (list CandidateSpec * list SuppressedCandidate) :=
  if closed then suppressed <-? suppress_all specs reason evidence ;; Ok ([], suppressed)
  else Ok (specs, []).

Fixpoint gate_stale (stale : gset string) (specs : list CandidateSpec)
    : res (list CandidateSpec * list SuppressedCandidate) :=
  match specs with
  | [] => Ok ([], [])
  | spec :: rest =>
      c <-? build spec ;;
      r <-? gate_stale stale rest ;;
      Ok (if bool_decide (pc_dedup_key c ∈ stale)
          then (fst r, suppressed_candidate c "proposal_stale_open"
                         [("stale_dedup_key", JStr (pc_dedup_key c))] :: snd r)
          else (spec :: fst r, snd r))
  end.

Definition gate_stale_open (stale : gset string) (specs : list CandidateSpec)
    : res (list CandidateSpec * list SuppressedCandidate) :=
  if bool_decide (stale = ∅) then Ok (specs, []) else gate_stale stale specs.

Definition service_policy : DecisionPolicyConfig :=
  {| dp_max_candidates := dx_max_candidates context; dp_max_candidates_per_family := 1;
     dp_cooldown_minutes := dx_cooldown_minutes context;
     dp_min_confidence := dp_min_confidence default_policy_config;
     dp_max_changed_files := dx_max_changed_files context |}.

Definition remaining_evidence (remaining : Z) : list (string * jval) :=
  [("remaining_exec_capacity", JInt remaining);
   ("min_required", JInt (min_remaining_exec_for_proposals settings))].

(** After the capacity gate: velocity cap, stale proposals, chains, policy. *)
Definition select_candidates (specs : list CandidateSpec)
    (prior : list ProposalCandidatesArtifact)
    : res (list ProposalCandidate * list SuppressedCandidate) :=
  let now := dx_generated_at context in
  recent <-? count_proposals_last_24h (dn_proposal_results env) now ;;
  r1 <-? gate_all (dx_max_proposals_per_24h context <=? recent)%Z "velocity_cap_reached"
           [("proposals_last_24h", JInt recent);
            ("max_proposals_per_24h", JInt (dx_max_proposals_per_24h context))] specs ;;
  stale <-? stale_open_dedup_keys (dn_proposal_results env) (dn_feedback env) now prior ;;
  r2 <-? gate_stale_open stale (fst r1) ;;
  r3 <-? chain_apply (dx_cooldown_minutes context) (fst r2) prior now ;;
  r4 <-? policy_apply service_policy prior now (fst r3) ;;
  Ok (fst r4, snd r1 ++ snd r2 ++ snd r3 ++ snd r4).

Definition decision_artifact (current : RepoInsightsArtifact) (candidates : list ProposalCandidate)
    (suppressed : list SuppressedCandidate) : ProposalCandidatesArtifact :=
  {| da_run_id := dx_run_id context; da_generated_at := dx_generated_at context;
     da_source_command := dx_source_command context; da_dry_run := dx_dry_run context;
     da_repo_name := ia_repo_name current; da_repo_path := ia_repo_path current;
     da_source_insight_run_id := ia_run_id current; da_candidates := candidates;
     da_suppressed := suppressed |}.

(** [DecisionArtifactWriter.write]: one directory per run id. *)
Definition write_artifact (decisions : list ProposalCandidatesArtifact) (a : ProposalCandidatesArtifact)
    : list ProposalCandidatesArtifact :=
  List.filter (fun b => negb (String.eqb (da_run_id b) (da_run_id a))) decisions ++ [a].

Definition service_decide (w : decision_world) : decision_world * res ProposalCandidatesArtifact :=
  let now := dx_generated_at context in
  let stored := match dn_unreadable_decision env with
                | Some e => Raise e
                | None => Ok (dn_decisions w)
                end in
  match
    loaded <-? decision_load (dn_insights env) stored (dx_repo_filter context)
                 (dx_insight_run_id context) (dx_history_limit context) ;;
    specs <-? evaluate_rules rules (ia_insights (fst loaded)) ;;
    r <-? gate_families specs ;;
    remaining <-? remaining_exec_capacity settings (dn_usage w) now ;;
    Ok (loaded, r, remaining)
  with
  | Raise e => (w, Raise e)
  | Ok (current, prior, (specs, deferred), remaining) =>
      let low := (remaining <? min_remaining_exec_for_proposals settings)%Z in
      let '(usage, recorded) :=
        if low then record_proposal_budget_suppression (dn_free_mb env) (dn_usage w) now
                      "proposal_budget_too_low" (remaining_evidence remaining)
        else (dn_usage w, Ok tt) in
      let w := {| dn_usage := usage; dn_decisions := dn_decisions w |} in
      match
        _ <-? recorded ;;
        r0 <-? gate_all low "proposal_budget_too_low" (remaining_evidence remaining) specs ;;
        r <-? select_candidates (fst r0) prior ;;
        Ok (decision_artifact current (fst r) (deferred ++ snd r0 ++ snd r))
      with
      | Raise e => (w, Raise e)
      | Ok artifact =>
          match dn_write env with
          | Raise e => (w, Raise e)
          | Ok _ => ({| dn_usage := dn_usage w; dn_decisions := write_artifact (dn_decisions w) artifact |},
                     Ok artifact)
          end
      end
  end.
End Service.

(** ** Every specification is accounted for *)

Abbreviation emitted_keys := (map pc_dedup_key).
Abbreviation suppressed_keys := (map sc_dedup_key).

Lemma build_ok spec c : build spec = Ok c ->
  pc_dedup_key c = dedup_key_of spec /\ pc_family c = cs_family spec /\ pc_status c = "emit" /\
  pc_confidence c = cs_confidence spec.
Proof.
  unfold build. destruct (synthesize_evidence_bundle _ _); simpl; [|done]. by intros [= <-].
Qed.

Lemma suppress_all_keys specs reason evidence l :
  suppress_all specs reason evidence = Ok l -> suppressed_keys l = map dedup_key_of specs.
Proof.
  revert l. induction specs as [|s specs IH]; simpl; intros l; [by intros [= <-]|].
  destruct (build s) as [c|] eqn:Hb; simpl; [|done]. destruct (suppress_all _ _ _) as [l'|]; simpl; [|done].
  intros [= <-]. simpl. apply build_ok in Hb as (-> & _). by rewrite (IH l').
Qed.

(** A split of specifications keeps some and suppresses the others. *)
Definition splits (specs : list CandidateSpec) (r : list CandidateSpec * list SuppressedCandidate) : Prop :=
  sublist (fst r) specs /\
  map dedup_key_of (fst r) ++ suppressed_keys (snd r) ≡ₚ map dedup_key_of specs.

Lemma splits_keep specs : splits specs (specs, []).
Proof. split; [done|]. simpl. by rewrite app_nil_r. Qed.

Lemma splits_cons_keep s specs r : splits specs r -> splits (s :: specs) (s :: fst r, snd r).
Proof. intros [H1 H2]. split; simpl; [by constructor | by rewrite H2]. Qed.

Lemma splits_cons_drop s specs r x : splits specs r -> sc_dedup_key x = dedup_key_of s ->
  splits (s :: specs) (fst r, x :: snd r).
Proof.
  intros [H1 H2] Hx. split; simpl; [by constructor|]. rewrite Hx, <-H2. by rewrite Permutation_middle.
Qed.

Lemma gate_families_splits context specs r : gate_families context specs = Ok r -> splits specs r.
Proof.
  unfold gate_families. destruct (suppress_all _ _ _) as [l|] eqn:Hs; simpl; [|done]. intros [= <-].
  apply suppress_all_keys in Hs. split; simpl; [apply sublist_filter_bool|]. rewrite Hs, <-map_app.
  apply Permutation_map. apply filter_negb_perm.
Qed.

Lemma gate_all_splits closed reason evidence specs r :
  gate_all closed reason evidence specs = Ok r -> splits specs r.
Proof.
  unfold gate_all. destruct closed; [|intros [= <-]; apply splits_keep].
  destruct (suppress_all _ _ _) as [l|] eqn:Hs; simpl; [|done]. intros [= <-].
  apply suppress_all_keys in Hs. split; simpl; [apply sublist_nil_l | by rewrite Hs].
Qed.

Lemma gate_stale_splits stale specs r : gate_stale stale specs = Ok r ->
  splits specs r /\ Forall (fun s => dedup_key_of s ∉ stale) (fst r).
Proof.
  revert r. induction specs as [|s specs IH]; simpl; intros r; [intros [= <-]; split; [apply splits_keep | done]|].
  destruct (build s) as [c|] eqn:Hb; simpl; [|done]. destruct (gate_stale stale specs) as [r'|]; simpl; [|done].
  intros [= <-]. apply build_ok in Hb as (Hk & _). destruct (IH r' eq_refl) as [Hs Hf]. rewrite Hk.
  case_bool_decide as Hin; simpl.
  - split; [by apply splits_cons_drop | done].
  - split; [by apply splits_cons_keep | by constructor].
Qed.

Lemma chain_split_splits in_cycle recently specs r : chain_split in_cycle recently specs = Ok r ->
  splits specs r /\ Forall (fun s => blocking_upstream in_cycle recently (cs_family s) = None) (fst r).
Proof.
  revert r. induction specs as [|s specs IH]; simpl; intros r; [intros [= <-]; split; [apply splits_keep | done]|].
  destruct (blocking_upstream _ _ _) as [[u reason]|] eqn:Hu; simpl.
  - destruct (build s) as [c|] eqn:Hb; simpl; [|done].
    destruct (chain_split _ _ _) as [r'|]; simpl; [|done]. intros [= <-].
    apply build_ok in Hb as (Hk & _). destruct (IH r' eq_refl) as [Hs Hf]. simpl.
    split; [by apply splits_cons_drop | done].
  - destruct (chain_split _ _ _) as [r'|]; simpl; [|done]. intros [= <-].
    destruct (IH r' eq_refl) as [Hs Hf]. split; [by apply splits_cons_keep | by constructor].
Qed.

(** ** What the policy emits *)

Section PolicySpec.
Context (config : DecisionPolicyConfig) (prior : list ProposalCandidatesArtifact) (now : datetime).

(** A specification the policy may emit on its own merits. *)
Definition eligible (spec : CandidateSpec) : bool :=
  (confidence_rank (dp_min_confidence config) <=? confidence_rank (cs_confidence spec))%Z &&
  match scope_too_broad config spec with Some _ => false | None => true end &&
  match cooldown_active config prior now (dedup_key_of spec) with Ok None => true | _ => false end.

(** The first specification of each family not seen yet. *)
Fixpoint first_of_family (seen : list string) (specs : list CandidateSpec) : list CandidateSpec :=
  match specs with
  | [] => []
  | s :: rest =>
      if str_in (cs_family s) seen then first_of_family seen rest
      else s :: first_of_family (cs_family s :: seen) rest
  end.

(** What the bookkeeping of the policy says of the candidates emitted. *)
Record policy_inv (st : policy_state) : Prop := {
  inv_keys : ps_dedup_keys st = list_to_set (emitted_keys (ps_emitted st));
  inv_family f : default 0%Z (ps_per_family st !! f) =
                 count_if (fun c => String.eqb (pc_family c) f) (ps_emitted st);
  inv_cool : Forall (fun c => cooldown_active config prior now (pc_dedup_key c) = Ok None) (ps_emitted st) }.

Lemma empty_policy_inv : policy_inv empty_policy_state.
Proof. split; simpl; [done | intros f; by rewrite lookup_empty | done]. Qed.

(** One step: the specification is suppressed, or emitted with all the guards
    that lead to it. *)
Lemma policy_step_cases st spec st' :
  policy_step config prior now st spec = Ok st' ->
  exists c, build spec = Ok c /\
  ((exists reason evidence, policy_verdict config prior now st spec c = Ok (Some (reason, evidence)) /\
      ps_emitted st' = ps_emitted st /\ ps_dedup_keys st' = ps_dedup_keys st /\
      ps_per_family st' = ps_per_family st /\
      suppressed_keys (ps_suppressed st') = suppressed_keys (ps_suppressed st) ++ [dedup_key_of spec]) \/
   (policy_verdict config prior now st spec c = Ok None /\
      ps_emitted st' = ps_emitted st ++ [c] /\ ps_suppressed st' = ps_suppressed st /\
      ps_dedup_keys st' = {[pc_dedup_key c]} ∪ ps_dedup_keys st /\
      ps_per_family st' =
        <[pc_family c := (default 0 (ps_per_family st !! pc_family c) + 1)%Z]> (ps_per_family st))).
Proof.
  unfold policy_step. destruct (build spec) as [c|] eqn:Hb; simpl; [|done].
  destruct (policy_verdict _ _ _ _ _ _) as [[[reason evidence]|]|] eqn:Hv; simpl; [| |done]; intros [= <-];
    exists c; (split; [done|]).
  - left. exists reason, evidence. simpl. rewrite map_app. simpl.
    by apply build_ok in Hb as (-> & _).
  - right. done.
Qed.

(** The guards of an emission. *)
Lemma verdict_emit st spec c :
  build spec = Ok c -> policy_verdict config prior now st spec c = Ok None ->
  eligible spec = true /\ pc_dedup_key c ∉ ps_dedup_keys st /\
  (default 0 (ps_per_family st !! pc_family c) < dp_max_candidates_per_family config)%Z /\
  (Z.of_nat (length (ps_emitted st)) < dp_max_candidates config)%Z.
Proof.
  intros (Hk & Hf & _ & Hc)%build_ok. unfold policy_verdict, eligible. rewrite Hc, Hk.
  destruct (Z.ltb_spec (confidence_rank (cs_confidence spec)) (confidence_rank (dp_min_confidence config)));
    [done|].
  destruct (scope_too_broad config spec); [done|]. case_bool_decide; [done|].
  destruct (cooldown_active _ _ _ _) as [[]|]; simpl; try done.
  destruct (Z.leb_spec (dp_max_candidates_per_family config) (default 0%Z (ps_per_family st !! pc_family c)));
    [done|].
  destruct (Z.leb_spec (dp_max_candidates config) (Z.of_nat (length (ps_emitted st)))); [done|].
  intros _. rewrite !andb_true_r. split; [by apply Z.leb_le | done].
Qed.

Lemma policy_step_inv st spec st' :
  policy_inv st -> policy_step config prior now st spec = Ok st' -> policy_inv st'.
Proof.
  intros Hinv (c & Hb & [(r & e & _ & He & Hk & Hf & _) | (Hv & He & _ & Hk & Hf)])%policy_step_cases.
  - destruct Hinv as [H1 H2 H3]. split; rewrite ?He, ?Hk, ?Hf; done.
  - apply verdict_emit in Hv as (Hel & _); [|done]. destruct Hinv as [H1 H2 H3].
    split; rewrite ?He, ?Hk, ?Hf.
    + rewrite map_app, list_to_set_app_L, H1. simpl. rewrite union_empty_r_L. by rewrite union_comm_L.
    + intros f. rewrite count_if_app, <-H2. simpl. unfold count_if at 1. simpl.
      destruct (String.eqb_spec (pc_family c) f) as [->|Hne]; simpl.
      * rewrite lookup_insert_eq. simpl. lia.
      * rewrite lookup_insert_ne by done. lia.
    + apply Forall_app. split; [done|]. constructor; [|done]. apply build_ok in Hb as (-> & _).
      unfold eligible in Hel. destruct (cooldown_active _ _ _ _) as [[]|]; [|done|];
        by rewrite ?andb_false_r in Hel.
Qed.
End PolicySpec.

Definition bar : ascii := "|"%char.

(** A family without a bar can be read off the key. *)
Definition plain_family (spec : CandidateSpec) : bool := negb (has_char bar (cs_family spec)).

Lemma bar_split (f g x y : string) :
  has_char bar f = false -> has_char bar g = false -> f +:+ ("|" +:+ x) = g +:+ ("|" +:+ y) -> f = g.
Proof.
  revert g. induction f as [|a f IH]; intros [|b g]; simpl; [done | | |].
  - intros _ Hg [= <- _]. done.
  - intros Hf _ [= -> _]. done.
  - intros Hf Hg E. apply orb_false_iff in Hf as [_ Hf]. apply orb_false_iff in Hg as [_ Hg].
    injection E as -> E. f_equal. by apply IH.
Qed.

Lemma same_key_same_family s1 s2 :
  plain_family s1 = true -> plain_family s2 = true -> dedup_key_of s1 = dedup_key_of s2 ->
  cs_family s1 = cs_family s2.
Proof.
  unfold plain_family, dedup_key_of, join. rewrite !negb_true_iff. simpl. intros H1 H2 E.
  injection E as E. exact (bar_split _ _ _ _ H1 H2 E).
Qed.

Section PolicyEquiv.
Context (config : DecisionPolicyConfig) (prior : list ProposalCandidatesArtifact) (now : datetime).
Context (one_each : dp_max_candidates_per_family config = 1%Z).

Abbreviation inv := (policy_inv config prior now).
Abbreviation seen_of := (fun st => map pc_family (ps_emitted st)).

(** Emitted candidates come from plain specifications. *)
Definition plain_state (st : policy_state) : Prop :=
  Forall (fun c => exists s, build s = Ok c /\ plain_family s = true) (ps_emitted st).

Lemma count_family_zero st f : inv st ->
  (default 0 (ps_per_family st !! f) < 1)%Z <-> f ∉ seen_of st.
Proof.
  intros Hinv. rewrite (inv_family _ _ _ _ Hinv). split.
  - intros Hlt (c & -> & Hc)%list_elem_of_fmap. unfold count_if in Hlt.
    destruct (List.filter _ _) as [|c' l] eqn:E; [|simpl in Hlt; lia].
    assert (Hin : c ∈ List.filter (fun c0 => String.eqb (pc_family c0) (pc_family c)) (ps_emitted st))
      by (apply elem_of_filter_bool; split; [done | apply String.eqb_refl]).
    rewrite E in Hin. by apply not_elem_of_nil in Hin.
  - intros Hn. unfold count_if. rewrite filter_none; [simpl; lia|]. apply Forall_forall. intros c Hc.
    apply String.eqb_neq. intros <-. apply Hn. by apply list_elem_of_fmap_2.
Qed.

Lemma emit_iff st spec c : inv st -> plain_state st -> plain_family spec = true -> build spec = Ok c ->
  is_ok (policy_verdict config prior now st spec c) = true ->
  policy_verdict config prior now st spec c = Ok None <->
  eligible config prior now spec = true /\ cs_family spec ∉ seen_of st /\
  (Z.of_nat (length (ps_emitted st)) < dp_max_candidates config)%Z.
Proof.
  intros Hinv Hplain Hspec Hb Hok. pose proof (build_ok _ _ Hb) as (Hk & Hf & _ & Hc). split.
  - intros Hv. apply verdict_emit in Hv as (H1 & H2 & H3 & H4); [|done].
    rewrite one_each, count_family_zero, Hf in H3 by done. done.
  - intros (Hel & Hfam & Hmax). unfold eligible in Hel. unfold policy_verdict in *.
    rewrite Hc, Hk in *. rewrite Hf in *.
    apply andb_true_iff in Hel as [[Hr Hs]%andb_true_iff Hcool]. apply Z.leb_le in Hr.
    rewrite (proj2 (Z.ltb_ge _ _) Hr) in *. destruct (scope_too_broad config spec); [done|].
    rewrite bool_decide_false.
    + destruct (cooldown_active _ _ _ _) as [[]|]; try done. simpl.
      rewrite one_each, (proj2 (Z.leb_gt _ _)), (proj2 (Z.leb_gt _ _)); [done | done |].
      by rewrite count_family_zero.
    + rewrite (inv_keys _ _ _ _ Hinv), elem_of_list_to_set. intros (c' & E & Hc')%list_elem_of_fmap.
      apply Hfam. pose proof (proj1 (Forall_forall _ _) Hplain _ Hc') as (s' & Hb' & Hs').
      apply build_ok in Hb' as (Hk' & Hf' & _). rewrite Hk' in E.
      rewrite (same_key_same_family spec s') by done. rewrite <-Hf'. by apply list_elem_of_fmap_2.
Qed.

Lemma first_of_family_ext seen1 seen2 l :
  (forall f, f ∈ seen1 <-> f ∈ seen2) -> first_of_family seen1 l = first_of_family seen2 l.
Proof.
  revert seen1 seen2. induction l as [|s l IH]; intros seen1 seen2 E; simpl; [done|].
  assert (str_in (cs_family s) seen1 = str_in (cs_family s) seen2) as ->.
  { apply eq_true_iff_eq. rewrite !str_in_spec. apply E. }
  destruct (str_in _ _); [by apply IH|]. f_equal. apply IH. intros f.
  rewrite !elem_of_cons. by rewrite E.
Qed.

Lemma policy_step_plain st spec st' : plain_state st -> plain_family spec = true ->
  policy_step config prior now st spec = Ok st' -> plain_state st'.
Proof.
  intros Hp Hs (c & Hb & [(r & e & _ & He & _) | (_ & He & _)])%policy_step_cases;
    unfold plain_state; rewrite He; [done|].
  apply Forall_app. split; [done|]. constructor; [by exists spec | done].
Qed.

Lemma policy_run l st st' :
  inv st -> plain_state st -> Forall (fun s => plain_family s = true) l ->
  foldM (policy_step config prior now) st l = Ok st' ->
  exists new, Forall2 (fun s c => build s = Ok c)
      (take (Z.to_nat (dp_max_candidates config) - length (ps_emitted st))
         (first_of_family (seen_of st) (List.filter (eligible config prior now) l))) new /\
    ps_emitted st' = ps_emitted st ++ new.
Proof.
  revert st. induction l as [|s l IH]; intros st Hinv Hplain Hl; simpl.
  - intros [= <-]. exists []. rewrite app_nil_r, take_nil. done.
  - apply Forall_cons in Hl as [Hs Hl]. destruct (policy_step _ _ _ st s) as [st1|] eqn:Hstep; simpl; [|done].
    intros Hrun. pose proof (policy_step_inv _ _ _ _ _ _ Hinv Hstep) as Hinv1.
    pose proof (policy_step_plain _ _ _ Hplain Hs Hstep) as Hplain1.
    destruct (IH st1 Hinv1 Hplain1 Hl Hrun) as (new & Hnew & Hem). clear IH Hrun.
    apply policy_step_cases in Hstep as (c & Hb & Hcases).
    pose proof (emit_iff st s c Hinv Hplain Hs Hb) as Hiff.
    destruct Hcases as [(r & e & Hv & He & _) | (Hv & He & _)]; rewrite Hv in Hiff.
    + exists new. rewrite Hem, He. split; [|done]. rewrite He in Hnew.
      destruct (eligible config prior now s) eqn:Hel; [|done]. simpl.
      destruct (str_in (cs_family s) (seen_of st)) eqn:Hin; [done|]. apply str_in_false in Hin.
      destruct (decide (Z.of_nat (length (ps_emitted st)) < dp_max_candidates config)%Z).
      * destruct Hiff as [_ Hiff]; [done|]. by discriminate Hiff.
      * replace (Z.to_nat (dp_max_candidates config) - length (ps_emitted st)) with 0 in * by lia. done.
    + destruct Hiff as [Hiff _]; [done|]. destruct Hiff as (Hel & Hin & Hmax); [done|].
      exists (c :: new). rewrite Hem, He, <-app_assoc. split; [|done]. simpl. rewrite Hel. simpl.
      apply str_in_false in Hin as ->.
      replace (Z.to_nat (dp_max_candidates config) - length (ps_emitted st))
        with (S (Z.to_nat (dp_max_candidates config) - S (length (ps_emitted st)))) by lia.
      simpl. constructor; [done|]. rewrite He, length_app in Hnew. simpl in Hnew.
      rewrite Nat.add_1_r in Hnew. erewrite first_of_family_ext; [exact Hnew|]. intros f.
      rewrite map_app, elem_of_cons, elem_of_app. simpl. apply build_ok in Hb as (_ & -> & _). set_solver.
Qed.
End PolicyEquiv.

(** C18: with one candidate per family, and families without a bar in their
    name, the policy emits exactly the first specification of each family, in
    order of priority, among those confident enough, narrow enough and not in
    cooldown, up to the quota; all others are suppressed, each once. *)
Theorem policy_emits_first_of_each_family config prior now specs emitted suppressed :
  dp_max_candidates_per_family config = 1%Z -> Forall (fun s => plain_family s = true) specs ->
  policy_apply config prior now specs = Ok (emitted, suppressed) ->
  Forall2 (fun s c => build s = Ok c)
    (take (Z.to_nat (dp_max_candidates config))
       (first_of_family [] (List.filter (eligible config prior now) (sorted_by priority_leb specs))))
    emitted.
Proof.
  intros Hone Hplain. unfold policy_apply. destruct (foldM _ _ _) as [st|] eqn:Hrun; simpl; [|done].
  intros [= <- <-]. eapply policy_run in Hrun as (new & Hnew & ->); eauto using empty_policy_inv.
  - simpl in Hnew. by rewrite Nat.sub_0_r in Hnew.
  - by apply Forall_nil.
  - by rewrite sorted_by_perm.
Qed.

(** What holds of every policy run. *)
Lemma policy_run_invariant config prior now l st st' :
  policy_inv config prior now st -> foldM (policy_step config prior now) st l = Ok st' ->
  policy_inv config prior now st' /\
  (emitted_keys (ps_emitted st') ++ suppressed_keys (ps_suppressed st') ≡ₚ
     (emitted_keys (ps_emitted st) ++ suppressed_keys (ps_suppressed st)) ++ map dedup_key_of l) /\
  (exists new, ps_emitted st' = ps_emitted st ++ new /\
     Forall (fun c => exists s, s ∈ l /\ build s = Ok c /\ eligible config prior now s = true) new) /\
  (Z.of_nat (length (ps_emitted st')) <= Z.max (Z.of_nat (length (ps_emitted st))) (dp_max_candidates config))%Z /\
  (dp_max_candidates_per_family config = 1%Z -> NoDup (map pc_family (ps_emitted st)) ->
     NoDup (map pc_family (ps_emitted st'))).
Proof.
  revert st. induction l as [|s l IH]; intros st Hinv; simpl.
  - intros [= <-]. rewrite app_nil_r. split; [done|]. split; [done|].
    split; [exists []; by rewrite app_nil_r|]. split; [lia | done].
  - destruct (policy_step _ _ _ st s) as [st1|] eqn:Hstep; simpl; [|done]. intros Hrun.
    pose proof (policy_step_inv _ _ _ _ _ _ Hinv Hstep) as Hinv1.
    destruct (IH st1 Hinv1 Hrun) as (Hi & Hperm & (new & Hnew & Hall) & Hlen & Hnd). split; [done|].
    rewrite Hperm. clear IH Hrun Hperm Hi.
    assert (Hall' : Forall (fun c => exists s0, s0 ∈ s :: l /\ build s0 = Ok c /\ eligible config prior now s0 = true) new)
      by (eapply Forall_impl; [exact Hall|]; intros c (s0 & ? & ?); exists s0; split; [by right | done]).
    apply policy_step_cases in Hstep as (c & Hb & [(r & e & _ & He & _ & _ & Hs) | (Hv & He & Hs & _)]).
    + rewrite He in *. split; [rewrite Hs; solve_Permutation|]. split; [by exists new|]. done.
    + pose proof (verdict_emit _ _ _ _ _ _ Hb Hv) as (Hel & _ & Hfam & Hmax).
      pose proof (build_ok _ _ Hb) as (Hk & _). rewrite He, length_app in *. simpl in Hlen.
      split; [rewrite Hs, map_app; simpl; rewrite Hk; solve_Permutation|].
      split; [exists (c :: new); rewrite Hnew, <-app_assoc; split; [done|]; constructor; [|done];
              exists s; split; [by left | done]|].
      split; [lia|]. intros Hone Hn. apply Hnd; [done|]. rewrite map_app. apply NoDup_app.
      split; [done|]. split; [|apply NoDup_singleton].
      intros f Hf ->%list_elem_of_singleton. rewrite Hone in Hfam.
      by apply (count_family_zero config prior now st (pc_family c) Hinv) in Hfam.
Qed.

(** ** Whole decisions *)

Lemma policy_apply_spec config prior now specs r :
  policy_apply config prior now specs = Ok r ->
  emitted_keys (fst r) ++ suppressed_keys (snd r) ≡ₚ map dedup_key_of specs /\
  Forall (fun c => exists s, s ∈ specs /\ build s = Ok c /\ eligible config prior now s = true) (fst r) /\
  (Z.of_nat (length (fst r)) <= Z.max 0 (dp_max_candidates config))%Z /\
  (dp_max_candidates_per_family config = 1%Z -> NoDup (map pc_family (fst r))).
Proof.
  unfold policy_apply. destruct (foldM _ _ _) as [st|] eqn:Hrun; simpl; [|done]. intros [= <-]. simpl.
  apply policy_run_invariant in Hrun as (_ & Hperm & (new & Hnew & Hall) & Hlen & Hnd);
    [|apply empty_policy_inv]. simpl in *. subst.
  split; [by rewrite Hperm, sorted_by_perm|]. split.
  - eapply Forall_impl; [exact Hall|]. intros c (s & Hs & H). exists s.
    by rewrite sorted_by_perm in Hs.
  - split; [done|]. intros Hone. apply Hnd; [done | by apply NoDup_nil].
Qed.

Section Decisions.
Context (settings : ExecutionControlSettings)
        (rules : list (list DerivedInsight -> res (list CandidateSpec)))
        (env : decision_env) (context : DecisionContext) (w : decision_world).

Abbreviation loaded_of := (decision_load (dn_insights env)
  (match dn_unreadable_decision env with Some e => Raise e | None => Ok (dn_decisions w) end)
  (dx_repo_filter context) (dx_insight_run_id context) (dx_history_limit context)).
Abbreviation now := (dx_generated_at context).
Abbreviation policy := (service_policy context).

(** The stages of a decision that returned an artifact: what was loaded and
    derived, and the specifications that survived each gate. *)
Record decision_run (a : ProposalCandidatesArtifact) (current : RepoInsightsArtifact)
    (prior : list ProposalCandidatesArtifact) (specs s0 s1 s2 s3 s4 : list CandidateSpec) : Prop := {
  run_loaded : loaded_of = Ok (current, prior);
  run_rules : evaluate_rules rules (ia_insights current) = Ok specs;
  run_families : exists d, gate_families context specs = Ok (s0, d);
  run_capacity : exists remaining d, remaining_exec_capacity settings (dn_usage w) now = Ok remaining /\
    gate_all (remaining <? min_remaining_exec_for_proposals settings)%Z "proposal_budget_too_low"
      (remaining_evidence settings remaining) s0 = Ok (s1, d);
  run_velocity : exists recent evidence d,
    count_proposals_last_24h (dn_proposal_results env) now = Ok recent /\
    gate_all (dx_max_proposals_per_24h context <=? recent)%Z "velocity_cap_reached" evidence s1 = Ok (s2, d);
  run_stale : exists stale d,
    stale_open_dedup_keys (dn_proposal_results env) (dn_feedback env) now prior = Ok stale /\
    splits s2 (s3, d) /\ Forall (fun s => dedup_key_of s ∉ stale) s3;
  run_chain : exists d, chain_apply (dx_cooldown_minutes context) s3 prior now = Ok (s4, d);
  run_policy : exists d, policy_apply policy prior now s4 = Ok (da_candidates a, d);
  run_accounts : emitted_keys (da_candidates a) ++ suppressed_keys (da_suppressed a) ≡ₚ map dedup_key_of specs;
  run_sublist : sublist s4 s3 /\ sublist s3 s2 /\ sublist s2 s1 /\ sublist s1 s0 }.

Lemma chain_apply_splits minutes specs prior t r :
  chain_apply minutes specs prior t = Ok r -> splits specs r.
Proof.
  unfold chain_apply. destruct (recently_emitted_families _ _); simpl; [|done].
  intros H. by apply chain_split_splits in H as [H _].
Qed.

Lemma service_decide_run w' a :
  service_decide settings rules env context w = (w', Ok a) ->
  (exists current prior specs s0 s1 s2 s3 s4, decision_run a current prior specs s0 s1 s2 s3 s4 /\
     da_repo_path a = ia_repo_path current /\ da_source_insight_run_id a = ia_run_id current) /\
  da_generated_at a = now /\ da_run_id a = dx_run_id context /\
  dn_decisions w' = write_artifact (dn_decisions w) a.
Proof.
  unfold service_decide. destruct loaded_of as [[current prior]|] eqn:Hload; simpl; [|done].
  destruct (evaluate_rules rules _) as [specs|] eqn:Hrules; simpl; [|done].
  destruct (gate_families context specs) as [[s0 d0]|] eqn:Hfam; simpl; [|done].
  destruct (remaining_exec_capacity _ _ _) as [remaining|] eqn:Hrem; simpl; [|done].
  destruct (if (remaining <? _)%Z then record_proposal_budget_suppression _ _ _ _ _ else _)
    as [usage recorded].
  destruct recorded as [[]|]; simpl; [|done].
  destruct (gate_all _ _ _ s0) as [[s1 d1]|] eqn:Hcap; simpl; [|done].
  unfold select_candidates.
  destruct (count_proposals_last_24h _ _) as [recent|] eqn:Hcount; simpl; [|done].
  destruct (gate_all _ _ _ s1) as [[s2 d2]|] eqn:Hvel; simpl; [|done].
  destruct (stale_open_dedup_keys _ _ _ _) as [stale|] eqn:Hstale; simpl; [|done].
  destruct (gate_stale_open stale _) as [[s3 d3]|] eqn:Hlive; simpl; [|done].
  destruct (chain_apply _ _ _ _) as [[s4 d4]|] eqn:Hchain; simpl; [|done].
  destruct (policy_apply _ _ _ _) as [[candidates d5]|] eqn:Hpol; simpl; [|done].
  destruct (dn_write env); intros [= <- <-]. simpl. split; [|done].
  assert (Hs3 : splits s2 (s3, d3) /\ Forall (fun s => dedup_key_of s ∉ stale) s3).
  { unfold gate_stale_open in Hlive. case_bool_decide as He; [|by apply gate_stale_splits in Hlive].
    injection Hlive as <- <-. split; [apply splits_keep|]. apply Forall_forall. rewrite He. set_solver. }
  exists current, prior, specs, s0, s1, s2, s3, s4. split; [|done].
  pose proof (gate_families_splits _ _ _ Hfam) as [_ P0]. pose proof (gate_all_splits _ _ _ _ _ Hcap) as [L1 P1].
  pose proof (gate_all_splits _ _ _ _ _ Hvel) as [L2 P2]. destruct (Hs3) as [[L3 P3] _].
  pose proof (chain_apply_splits _ _ _ _ _ Hchain) as [L4 P4].
  pose proof (policy_apply_spec _ _ _ _ _ Hpol) as (P5 & _). simpl in *.
  split; simpl; eauto 10.
  rewrite <-P0, <-P1, <-P2, <-P3, <-P4, <-P5. rewrite !map_app. solve_Permutation.
Qed.

(** a decision that returns an artifact accounts for every specification
    its rules derived exactly once: it is emitted or suppressed, never both and
    never lost. *)
Theorem decision_accounts_for_every_specification w' a :
  service_decide settings rules env context w = (w', Ok a) ->
  exists current prior specs,
    loaded_of = Ok (current, prior) /\ evaluate_rules rules (ia_insights current) = Ok specs /\
    map dedup_key_of specs ≡ₚ emitted_keys (da_candidates a) ++ suppressed_keys (da_suppressed a).
Proof.
  intros ((current & prior & specs & s0 & s1 & s2 & s3 & s4 & [Hl Hr _ _ _ _ _ _ Hacc _] & _) & _)%service_decide_run.
  exists current, prior, specs. by rewrite Hacc.
Qed.

(** An emitted candidate went through every gate. *)
Lemma emitted_passed w' a c :
  service_decide settings rules env context w = (w', Ok a) -> c ∈ da_candidates a ->
  exists current prior specs s0 s1 s2 s3 s4 s,
    decision_run a current prior specs s0 s1 s2 s3 s4 /\ s ∈ s4 /\ build s = Ok c /\
    eligible policy prior now s = true.
Proof.
  intros ((current & prior & specs & s0 & s1 & s2 & s3 & s4 & Hrun & _) & _)%service_decide_run Hc.
  exists current, prior, specs, s0, s1, s2, s3, s4. destruct (run_policy _ _ _ _ _ _ _ _ _ Hrun) as [d Hd].
  apply policy_apply_spec in Hd as (_ & Hall & _). simpl in Hall.
  pose proof (proj1 (Forall_forall _ _) Hall _ Hc) as (s & Hs & Hb & He). by exists s.
Qed.

Lemma gate_all_closed reason evidence specs r : gate_all true reason evidence specs = Ok r -> fst r = [].
Proof. unfold gate_all. destruct (suppress_all _ _ _); simpl; [|done]. by intros [= <-]. Qed.

Lemma sublist_of_nil {A} (l : list A) : sublist l [] -> l = [].
Proof. by intros ?%sublist_nil_r. Qed.

(** Only specifications of allowed families pass the first gate. *)
Lemma emitted_families_allowed w' a :
  service_decide settings rules env context w = (w', Ok a) ->
  Forall (fun c => pc_family c ∈ dx_allowed_families context) (da_candidates a).
Proof.
  intros H. apply Forall_forall. intros c Hc.
  apply (emitted_passed _ _ _ H) in Hc as (cur & prior & specs & s0 & s1 & s2 & s3 & s4 & s & Hrun & Hs & Hb & _).
  destruct Hrun as [_ _ [d0 Hf] _ _ _ _ _ _ (L4 & L3 & L2 & L1)]. apply build_ok in Hb as (_ & -> & _).
  assert (Hs0 : s ∈ s0) by (do 4 (eapply elem_of_sublist; [|eassumption]); done).
  unfold gate_families in Hf. destruct (suppress_all _ _ _); simpl in Hf; [|done]. injection Hf as <- _.
  apply elem_of_filter_bool in Hs0 as [_ Hs0]. by apply bool_decide_eq_true in Hs0.
Qed.

(** C28: a decision emits at most the quota, at most one candidate per family,
    only allowed families and no key of a proposal that is still open past its
    expiry; and it emits nothing when the execution budget is too low or the
    proposals of the last day reach the cap. *)
Theorem decision_is_bounded w' a :
  service_decide settings rules env context w = (w', Ok a) ->
  (Z.of_nat (length (da_candidates a)) <= Z.max 0 (dx_max_candidates context))%Z /\
  NoDup (map pc_family (da_candidates a)) /\
  Forall (fun c => pc_family c ∈ dx_allowed_families context) (da_candidates a) /\
  (forall current prior stale, loaded_of = Ok (current, prior) ->
     stale_open_dedup_keys (dn_proposal_results env) (dn_feedback env) now prior = Ok stale ->
     Forall (fun c => pc_dedup_key c ∉ stale) (da_candidates a)) /\
  (forall remaining recent,
     remaining_exec_capacity settings (dn_usage w) now = Ok remaining ->
     count_proposals_last_24h (dn_proposal_results env) now = Ok recent ->
     (remaining < min_remaining_exec_for_proposals settings)%Z \/
     (dx_max_proposals_per_24h context <= recent)%Z ->
     da_candidates a = []).
Proof.
  intros H. pose proof H as ((current & prior & specs & s0 & s1 & s2 & s3 & s4 & Hrun & _) & _)%service_decide_run.
  destruct Hrun as [Hl _ [d0 Hf] (rem & d1 & Hrem & Hcap) (rec & ev & d2 & Hrec & Hvel)
    (stale & d3 & Hstale & _ & Hlive) _ [d5 Hp] _ (L4 & L3 & L2 & L1)].
  pose proof (policy_apply_spec _ _ _ _ _ Hp) as (_ & Hall & Hlen & Hnd). simpl in *.
  assert (L42 : sublist s4 s2) by (by transitivity s3). assert (L41 : sublist s4 s1) by (by transitivity s2).
  assert (L40 : sublist s4 s0) by (by transitivity s1).
  assert (Hfrom : forall c, c ∈ da_candidates a -> exists s, s ∈ s3 /\ pc_dedup_key c = dedup_key_of s).
  { intros c Hc. pose proof (proj1 (Forall_forall _ _) Hall _ Hc) as (s & Hs & Hb & _). exists s.
    apply build_ok in Hb as (-> & _). split; [by eapply elem_of_sublist | done]. }
  split; [done|]. split; [by apply Hnd|]. split; [by eapply emitted_families_allowed | split].
  - intros ? ? ? E Hst. rewrite Hl in E. injection E as <- <-. rewrite Hstale in Hst. injection Hst as <-.
    apply Forall_forall. intros c (s & Hs & ->)%Hfrom. by apply (proj1 (Forall_forall _ _) Hlive).
  - intros remaining recent E1 E2 Hgate. rewrite Hrem in E1. injection E1 as <-. rewrite Hrec in E2. injection E2 as <-.
    assert (s4 = []) as ->.
    { apply sublist_of_nil. destruct Hgate as [Hlow | Hmany].
      - rewrite (proj2 (Z.ltb_lt _ _) Hlow) in Hcap. apply gate_all_closed in Hcap. simpl in Hcap. by rewrite <-Hcap.
      - rewrite (proj2 (Z.leb_le _ _) Hmany) in Hvel. apply gate_all_closed in Hvel. simpl in Hvel. by rewrite <-Hvel. }
    destruct (da_candidates a) as [|c l]; [done|]. apply Forall_cons in Hall as [(s & Hs & _) _].
    by apply not_elem_of_nil in Hs.
Qed.
End Decisions.

(** ** Decisions after each other *)

Definition newer {A} (time : A -> datetime) (x y : A) : Prop := (dt_us (time y) <= dt_us (time x))%Z.

Lemma StronglySorted_sublist {A} (R : A -> A -> Prop) l k :
  sublist k l -> StronglySorted R l -> StronglySorted R k.
Proof.
  induction 1 as [|x k l Hs IH|x k l Hs IH]; intros Hl; [done | |]; inversion_clear Hl as [|? ? Hl' Hx].
  - constructor; [by apply IH|]. apply Forall_forall. intros y Hy.
    apply (proj1 (Forall_forall _ _) Hx). by eapply elem_of_sublist.
  - by apply IH.
Qed.

Lemma newest_first_spec {A} (time : A -> datetime) l r : newest_first time l = Ok r ->
  r ≡ₚ l /\ StronglySorted (newer time) r.
Proof.
  destruct l as [|a rest]; simpl; [intros [= <-]; split; [done | constructor]|].
  destruct (forallb _ rest); [|done]. intros [= <-].
  change (insert_sorted _ a _) with (sorted_by (fun x y => (dt_us (time y) <=? dt_us (time x))%Z) (a :: rest)).
  split; [apply sorted_by_perm|]. eapply StronglySorted_ind with (P := StronglySorted (newer time));
    [constructor | | apply sorted_by_sorted].
  - intros x l _ IH Hx. constructor; [done|]. eapply Forall_impl; [exact Hx|]. intros y ?.
    unfold newer. by apply Z.leb_le.
  - intros x y Hxy. apply Z.leb_gt in Hxy. apply Z.leb_le. lia.
  - intros x y z Hxy Hyz. apply Z.leb_le in Hxy, Hyz. apply Z.leb_le. lia.
Qed.

Lemma slice_to_sublist {A} n (l : list A) : sublist (slice_to n l) l.
Proof. unfold slice_to. destruct (0 <=? n)%Z; apply sublist_take. Qed.

(** What a loader that returns gives. *)
Lemma decision_load_spec insights decisions repo id limit current prior :
  decision_load insights decisions repo id limit = Ok (current, prior) ->
  exists stored found, decisions = Ok stored /\ newest_first da_generated_at stored = Ok found /\
    prior = slice_to limit (List.filter (fun a => String.eqb (da_repo_path a) (ia_repo_path current) &&
              negb (String.eqb (da_source_insight_run_id a) (ia_run_id current))) found).
Proof.
  unfold decision_load. destruct insights as [l|]; simpl; [|done].
  destruct (newest_first ia_generated_at l) as [l'|]; simpl; [|done].
  match goal with |- mbind _ ?m = _ -> _ => destruct m as [cur|]; simpl; [|done] end.
  destruct decisions as [stored|]; simpl; [|done].
  destruct (newest_first da_generated_at stored) as [found|] eqn:Hf; simpl; [|done].
  intros [= <- <-]. by exists stored, found.
Qed.

Lemma prior_sorted insights decisions repo id limit current prior :
  decision_load insights decisions repo id limit = Ok (current, prior) ->
  StronglySorted (newer da_generated_at) prior.
Proof.
  intros (stored & found & _ & Hf & ->)%decision_load_spec. apply newest_first_spec in Hf as [_ Hs].
  eapply StronglySorted_sublist, Hs. etransitivity; [apply slice_to_sublist | apply sublist_filter_bool].
Qed.

(** A key that is not cooling was emitted by no artifact of the window. *)
Lemma not_cooling config prior now key p c' :
  StronglySorted (newer da_generated_at) prior -> cooldown_active config prior now key = Ok None ->
  p ∈ prior -> c' ∈ da_candidates p -> (dt_us (cooldown_cutoff config now) <= dt_us (da_generated_at p))%Z ->
  pc_dedup_key c' <> key.
Proof.
  unfold cooldown_active, last_emitted_at. intros Hsorted Hcool Hp Hc' Hwin <-.
  destruct (find_first _ prior) as [q|] eqn:Hq; simpl in Hcool.
  - apply find_first_split in Hq as (pre & post & -> & Hqq & Hpre).
    assert (dt_us (da_generated_at p) <= dt_us (da_generated_at q))%Z as Hle.
    { apply elem_of_app in Hp as [Hp | [->|Hp]%elem_of_cons]; [|done|].
      - pose proof (proj1 (Forall_forall _ _) Hpre _ Hp) as Hno. simpl in Hno.
        apply existsb_false_Forall in Hno. pose proof (proj1 (Forall_forall _ _) Hno _ Hc') as Hne.
        simpl in Hne. by rewrite String.eqb_refl in Hne.
      - apply (StronglySorted_sublist _ _ (q :: post)) in Hsorted as Hs; [|by apply sublist_inserts_l].
        inversion_clear Hs as [|? ? _ Hall].
        by apply (proj1 (Forall_forall _ _) Hall). }
    unfold dt_le in Hcool. destruct (same_kind _ _); simpl in Hcool; [|done].
    destruct (_ <=? _)%Z eqn:E in Hcool; [done|]. apply Z.leb_gt in E.
    unfold cooldown_cutoff, sub_us in *. simpl in *. lia.
  - pose proof (proj1 (find_first_none _ _) Hq) as Hnone. pose proof (proj1 (Forall_forall _ _) Hnone _ Hp) as Hno.
    simpl in Hno. apply existsb_false_Forall in Hno.
    pose proof (proj1 (Forall_forall _ _) Hno _ Hc') as Hne. simpl in Hne. by rewrite String.eqb_refl in Hne.
Qed.

Section Across.
Context (settings : ExecutionControlSettings)
        (rules : list (list DerivedInsight -> res (list CandidateSpec))).

(** An artifact newer than all others of its repository is among those the
    next decision reads, unless it is of the very insights decided on. *)
Lemma newest_is_loaded insights decisions repo id limit current prior p :
  decision_load insights (Ok decisions) repo id limit = Ok (current, prior) ->
  p ∈ decisions -> (1 <= limit)%Z -> da_repo_path p = ia_repo_path current ->
  da_source_insight_run_id p <> ia_run_id current ->
  Forall (fun b => b = p \/ (dt_us (da_generated_at b) < dt_us (da_generated_at p))%Z) decisions ->
  p ∈ prior.
Proof.
  intros (stored & found & [= <-] & Hf & ->)%decision_load_spec Hp Hlim Hpath Hrun Hnew.
  apply newest_first_spec in Hf as [Hperm Hs].
  set (q := fun a => _ && _). assert (Hin : p ∈ List.filter q found).
  { apply elem_of_filter_bool. split; [by rewrite Hperm|]. unfold q. rewrite Hpath, String.eqb_refl. simpl.
    by apply negb_true_iff, String.eqb_neq. }
  apply (StronglySorted_sublist _ _ (List.filter q found)) in Hs; [|apply sublist_filter_bool].
  assert (Hall : Forall (fun b => b = p \/ (dt_us (da_generated_at b) < dt_us (da_generated_at p))%Z)
    (List.filter q found)) by (apply filter_Forall; by rewrite Hperm).
  destruct (List.filter q found) as [|a l]; [by apply not_elem_of_nil in Hin|].
  assert (a = p) as ->.
  { apply Forall_cons in Hall as [[?|Hlt] _]; [done|]. inversion_clear Hs as [|? ? _ Ha].
    apply elem_of_cons in Hin as [?|Hin]; [done|].
    pose proof (proj1 (Forall_forall _ _) Ha _ Hin) as Hge. unfold newer in Hge. lia. }
  unfold slice_to. destruct (Z.leb_spec 0 limit); [|lia].
  destruct (Z.to_nat limit) eqn:E; [lia|]. simpl. by left.
Qed.

(** two decisions on different insights of one repository, the second
    within the cooldown after the first, never emit the same key, dry runs
    included, as long as the stored artifacts are readable and older than the
    first decision. *)
Theorem consecutive_decisions_never_repeat env1 ctx1 w w1 a1 rules2 env2 ctx2 w2 a2 current2 prior2 :
  service_decide settings rules env1 ctx1 w = (w1, Ok a1) ->
  service_decide settings rules2 env2 ctx2 w1 = (w2, Ok a2) ->
  decision_load (dn_insights env2) (Ok (dn_decisions w1)) (dx_repo_filter ctx2) (dx_insight_run_id ctx2)
    (dx_history_limit ctx2) = Ok (current2, prior2) ->
  Forall (fun b => (dt_us (da_generated_at b) < dt_us (dx_generated_at ctx1))%Z) (dn_decisions w) ->
  dn_unreadable_decision env2 = None -> (1 <= dx_history_limit ctx2)%Z ->
  da_repo_path a1 = ia_repo_path current2 -> da_source_insight_run_id a1 <> ia_run_id current2 ->
  (dt_us (dx_generated_at ctx2) <= dt_us (dx_generated_at ctx1) + minutes (dx_cooldown_minutes ctx2))%Z ->
  forall c1 c2, c1 ∈ da_candidates a1 -> c2 ∈ da_candidates a2 -> pc_dedup_key c1 <> pc_dedup_key c2.
Proof.
  intros H1 H2 Hload Hold Hread Hlim Hpath Hrun Hwin c1 c2 Hc1 Hc2.
  apply service_decide_run in H1 as (_ & Hgen & _ & Hw1).
  apply (emitted_passed _ _ _ _ _ _ _ _ H2) in Hc2 as (cur & prior & specs & s0 & s1 & s2 & s3 & s4 & s & Hr & _ & Hb & Hel).
  pose proof (run_loaded _ _ _ _ _ _ _ _ _ _ _ _ _ _ Hr) as Hl. rewrite Hread, Hload in Hl.
  injection Hl as -> ->. apply build_ok in Hb as (-> & _).
  apply (not_cooling (service_policy ctx2) prior (dx_generated_at ctx2) (dedup_key_of s) a1).
  - by eapply prior_sorted.
  - unfold eligible in Hel. destruct (cooldown_active _ _ _ _) as [[]|]; rewrite ?andb_false_r in Hel; done.
  - eapply newest_is_loaded; [exact Hload | | done..|].
    + rewrite Hw1. unfold write_artifact. apply elem_of_app. right. by left.
    + rewrite Hw1. unfold write_artifact. apply Forall_app. split; [|by repeat constructor].
      apply filter_Forall. rewrite Hgen. eapply Forall_impl; [exact Hold|]. auto.
  - done.
  - unfold cooldown_cutoff, sub_us. simpl. rewrite Hgen. lia.
Qed.

Lemma filterM_elem {A} (p : A -> res bool) l r x : filterM p l = Ok r -> x ∈ l ->
  exists b, p x = Ok b /\ (b = true -> x ∈ r).
Proof.
  revert r. induction l as [|y l IH]; simpl; intros r; [intros _ Hx; by apply not_elem_of_nil in Hx|].
  destruct (p y) as [b|] eqn:Hy; simpl; [|done]. destruct (filterM p l) as [r'|]; simpl; [|done].
  intros [= <-] [->|Hx]%elem_of_cons.
  - exists b. split; [done|]. intros ->. by left.
  - destruct (IH r' eq_refl Hx) as (b' & ? & H). exists b'. split; [done|]. intros ?.
    destruct b; [right|]; by apply H.
Qed.

(** a decision never emits a candidate of a downstream family together
    with one of its upstream families, nor while an artifact of the chain's
    cooldown window emitted one. *)
Theorem downstream_waits_for_upstream env context w w' a c u :
  service_decide settings rules env context w = (w', Ok a) -> c ∈ da_candidates a ->
  u ∈ family_prerequisites (pc_family c) ->
  (forall c', c' ∈ da_candidates a -> pc_family c' <> u) /\
  exists current prior,
    decision_load (dn_insights env)
      (match dn_unreadable_decision env with Some e => Raise e | None => Ok (dn_decisions w) end)
      (dx_repo_filter context) (dx_insight_run_id context) (dx_history_limit context) = Ok (current, prior) /\
    forall p c', p ∈ prior -> c' ∈ da_candidates p -> pc_status c' = "emit" ->
      (dt_us (dx_generated_at context) - minutes (dx_cooldown_minutes context) <= dt_us (da_generated_at p))%Z ->
      pc_family c' <> u.
Proof.
  intros H Hc Hu.
  pose proof H as ((current & prior & specs & s0 & s1 & s2 & s3 & s4 & Hrun & _) & _)%service_decide_run.
  destruct Hrun as [Hl _ _ _ _ _ [d4 Hchain] [d5 Hp] _ (L4 & _)].
  apply policy_apply_spec in Hp as (_ & Hall & _). simpl in Hall.
  unfold chain_apply in Hchain. destruct (recently_emitted_families _ _) as [recently|] eqn:Hrec; simpl in Hchain; [|done].
  apply chain_split_splits in Hchain as [_ Hfree]. simpl in Hfree.
  assert (Hblock : str_in u (map cs_family s3) = false /\ str_in u recently = false).
  { pose proof (proj1 (Forall_forall _ _) Hall _ Hc) as (s & Hs & Hb & _). apply build_ok in Hb as (_ & Hf & _).
    rewrite Hf in Hu. pose proof (proj1 (Forall_forall _ _) Hfree _ Hs) as Hn. unfold blocking_upstream in Hn.
    destruct (find_first _ _) eqn:Hff; [done|]. apply find_first_none in Hff.
    pose proof (proj1 (Forall_forall _ _) Hff _ Hu) as Hno. by apply orb_false_iff in Hno. }
  destruct Hblock as [Hnin Hnrec]. apply str_in_false in Hnin, Hnrec. split.
  - intros c' Hc' <-. pose proof (proj1 (Forall_forall _ _) Hall _ Hc') as (s' & Hs' & Hb' & _).
    apply build_ok in Hb' as (_ & Hf' & _). rewrite Hf' in Hnin. apply Hnin, list_elem_of_fmap_2.
    by eapply elem_of_sublist.
  - exists current, prior. split; [done|]. intros p c' Hpp Hc' Hst Hwin <-. apply Hnrec.
    unfold recently_emitted_families in Hrec. destruct (filterM _ prior) as [recent|] eqn:Hf; simpl in Hrec; [|done].
    injection Hrec as <-. apply (filterM_elem _ _ _ p Hf) in Hpp as (b & Hb & Hin).
    apply list_elem_of_fmap_2, elem_of_filter_bool. rewrite Hst. split; [|done].
    apply list_elem_of_In, in_concat. exists (da_candidates p). split.
    + apply in_map, list_elem_of_In, Hin. unfold dt_le in Hb. destruct (same_kind _ _); [|done].
      injection Hb as <-. apply Z.leb_le. unfold sub_us. simpl. lia.
    + by apply list_elem_of_In.
Qed.
End Across.

(** ** A decision *)

Definition dec_settings : ExecutionControlSettings :=
  {| max_exec_per_hour := 20; max_exec_per_day := 50; max_retries_per_task := 3;
     min_watch_interval_seconds := 5; min_remaining_exec_for_proposals := 3;
     usage_path := "usage.json"; pr_dry_run := false |}.

Definition dec_now : datetime := mk_datetime (days 20000) true.

Definition sample_spec (family subject pattern : string) (priority : Z) (files : option Z) : CandidateSpec :=
  {| cs_family := family; cs_subject := subject; cs_pattern_key := pattern; cs_evidence := ∅;
     cs_matched_rules := []; cs_proposal_outline :=
       {| ol_title_hint := "Fix"; ol_summary_hint := ""; ol_labels_hint := []; ol_source_family := Some family |};
     cs_priority := (priority, 0%Z, family); cs_confidence := "high"; cs_evidence_lines := [];
     cs_risk_class := "style"; cs_expires_after_runs := 4; cs_estimated_affected_files := files;
     cs_validation_profile := "" |}.

Definition lint_spec (files : option Z) : CandidateSpec :=
  sample_spec "lint_fix" "lint_violations" "violations_present" 1 files.
Definition type_spec : CandidateSpec := sample_spec "type_fix" "type_errors" "errors_present" 2 None.
Definition todo_spec : CandidateSpec := sample_spec "observation_coverage" "todo" "persistent" 3 None.

Definition sample_insights (run_id : string) : RepoInsightsArtifact :=
  {| ia_run_id := run_id; ia_generated_at := dec_now; ia_repo_name := "repo"; ia_repo_path := "/srv/repo"; ia_source_snapshots := [];
     ia_insights := [] |}.

Definition sample_context (run_id : string) (t : datetime) (dry_run : bool) : DecisionContext :=
  {| dx_repo_filter := None; dx_insight_run_id := None; dx_history_limit := 10; dx_max_candidates := 3;
     dx_cooldown_minutes := 120; dx_run_id := run_id; dx_generated_at := t; dx_source_command := "decide";
     dx_dry_run := dry_run; dx_allowed_families := DEFAULT_ALLOWED_FAMILIES; dx_max_proposals_per_24h := 10;
     dx_max_changed_files := 30 |}.

Definition sample_env (insight_run : string) : decision_env :=
  {| dn_insights := Ok [sample_insights insight_run]; dn_unreadable_decision := None;
     dn_proposal_results := []; dn_feedback := []; dn_free_mb := Some 100000%Q; dn_write := Ok tt |}.

Definition new_world : decision_world := {| dn_usage := None; dn_decisions := [] |}.

Definition sample_rules (specs : list CandidateSpec) : list (list DerivedInsight -> res (list CandidateSpec)) :=
  [fun _ => Ok specs].

Definition sample_decision (specs : list CandidateSpec) (run_id insight_run : string) (t : datetime)
    (dry_run : bool) (w : decision_world) : decision_world * res ProposalCandidatesArtifact :=
  service_decide dec_settings (sample_rules specs) (sample_env insight_run)
    (sample_context run_id t dry_run) w.

(** What a decision emits and suppresses, by family. *)
Definition outcome_of_decision (r : decision_world * res ProposalCandidatesArtifact)
    : option (list string * list (string * string)) :=
  match snd r with
  | Ok a => Some (map pc_family (da_candidates a), map (fun s => (sc_family s, sc_reason s)) (da_suppressed a))
  | Raise _ => None
  end.

(** A type fix waits for the lint fix of the same run. *)
Example type_waits_for_lint :
  outcome_of_decision (sample_decision [lint_spec None; type_spec] "dec_1" "ins_1" dec_now false new_world) =
  Some (["lint_fix"], [("type_fix", "upstream_family_in_cycle")]).
Proof. vm_compute. reflexivity. Qed.

(** It also waits for a lint fix that is itself suppressed: nothing is emitted,
    in this run and in every later one that finds the same. *)
Example suppressed_upstream_starves_downstream :
  outcome_of_decision (sample_decision [lint_spec (Some 50%Z); type_spec] "dec_1" "ins_1" dec_now false new_world) =
  Some ([], [("type_fix", "upstream_family_in_cycle"); ("lint_fix", "scope_too_broad")]).
Proof. vm_compute. reflexivity. Qed.

(** A dry run starts the cooldown of the next decision. *)
Example dry_run_starts_cooldown :
  let w := fst (sample_decision [todo_spec] "dec_1" "ins_1" dec_now true new_world) in
  outcome_of_decision (sample_decision [todo_spec] "dec_2" "ins_2" (add_us dec_now (minutes 60)) false w) =
  Some ([], [("observation_coverage", "cooldown_active")]).
Proof. vm_compute. reflexivity. Qed.

(** Deciding again on the same insights repeats the candidates: the earlier
    decision is not among those that are read. *)
Example same_insights_are_decided_again :
  let w := fst (sample_decision [todo_spec] "dec_1" "ins_1" dec_now false new_world) in
  outcome_of_decision (sample_decision [todo_spec] "dec_2" "ins_1" (add_us dec_now (minutes 1)) false w) =
  Some (["observation_coverage"], []).
Proof. vm_compute. reflexivity. Qed.

Definition the_artifact (r : decision_world * res ProposalCandidatesArtifact) (d : ProposalCandidatesArtifact)
    : ProposalCandidatesArtifact :=
  match snd r with Ok a => a | Raise _ => d end.

Definition no_artifact : ProposalCandidatesArtifact :=
  {| da_run_id := ""; da_generated_at := dec_now; da_source_command := ""; da_dry_run := false;
     da_repo_name := ""; da_repo_path := ""; da_source_insight_run_id := ""; da_candidates := [];
     da_suppressed := [] |}.

(** A decision over a lint fix, a type fix and another candidate. *)
Definition first_decision : decision_world * res ProposalCandidatesArtifact :=
  sample_decision [lint_spec None; type_spec; todo_spec] "dec_1" "ins_1" dec_now false new_world.
Definition first_artifact : ProposalCandidatesArtifact := the_artifact first_decision no_artifact.

Lemma first_decision_ok : first_decision = (fst first_decision, Ok first_artifact).
Proof. vm_compute. reflexivity. Qed.

Lemma policy_emits_first_of_each_family_witness :
  Forall2 (fun s c => build s = Ok c)
    (take 3 (first_of_family [] (List.filter (eligible default_policy_config [] dec_now)
       (sorted_by priority_leb [todo_spec; type_spec; lint_spec None; lint_spec (Some 50%Z)]))))
    (match policy_apply default_policy_config [] dec_now
             [todo_spec; type_spec; lint_spec None; lint_spec (Some 50%Z)] with
     | Ok r => fst r | Raise _ => [] end).
Proof.
  refine (policy_emits_first_of_each_family default_policy_config [] dec_now
    [todo_spec; type_spec; lint_spec None; lint_spec (Some 50%Z)] _
    (match policy_apply default_policy_config [] dec_now
             [todo_spec; type_spec; lint_spec None; lint_spec (Some 50%Z)] with
     | Ok r => snd r | Raise _ => [] end) _ _ _).
  - reflexivity.
  - repeat constructor.
  - vm_compute. reflexivity.
Defined.

Lemma decision_accounts_for_every_specification_witness :
  exists current prior specs,
    decision_load (dn_insights (sample_env "ins_1")) (Ok []) None None 10 = Ok (current, prior) /\
    evaluate_rules (sample_rules [lint_spec None; type_spec; todo_spec]) (ia_insights current) = Ok specs /\
    map dedup_key_of specs ≡ₚ emitted_keys (da_candidates first_artifact) ++
      suppressed_keys (da_suppressed first_artifact).
Proof.
  exact (decision_accounts_for_every_specification dec_settings (sample_rules [lint_spec None; type_spec; todo_spec])
    (sample_env "ins_1") (sample_context "dec_1" dec_now false) new_world (fst first_decision) first_artifact
    first_decision_ok).
Defined.

Lemma decision_is_bounded_witness :
  (Z.of_nat (length (da_candidates first_artifact)) <= 3)%Z /\ length (da_candidates first_artifact) = 2.
Proof.
  split; [|vm_compute; reflexivity].
  apply (decision_is_bounded dec_settings (sample_rules [lint_spec None; type_spec; todo_spec])
    (sample_env "ins_1") (sample_context "dec_1" dec_now false) new_world (fst first_decision) first_artifact
    first_decision_ok).
Defined.

(** The next decision, an hour later and on new insights. *)
Definition drift_spec : CandidateSpec := sample_spec "dependency_drift" "deps" "persistent" 3 None.
Definition second_decision : decision_world * res ProposalCandidatesArtifact :=
  sample_decision [todo_spec; drift_spec] "dec_2" "ins_2" (add_us dec_now (minutes 60)) false (fst first_decision).
Definition second_artifact : ProposalCandidatesArtifact := the_artifact second_decision no_artifact.

Lemma second_decision_ok : second_decision = (fst second_decision, Ok second_artifact).
Proof. vm_compute. reflexivity. Qed.

Lemma consecutive_decisions_never_repeat_witness :
  (forall c1 c2, c1 ∈ da_candidates first_artifact -> c2 ∈ da_candidates second_artifact ->
     pc_dedup_key c1 <> pc_dedup_key c2) /\
  map pc_family (da_candidates second_artifact) = ["dependency_drift"].
Proof.
  split; [|vm_compute; reflexivity].
  apply (consecutive_decisions_never_repeat dec_settings (sample_rules [lint_spec None; type_spec; todo_spec])
    (sample_env "ins_1") (sample_context "dec_1" dec_now false) new_world (fst first_decision) first_artifact
    (sample_rules [todo_spec; drift_spec]) (sample_env "ins_2")
    (sample_context "dec_2" (add_us dec_now (minutes 60)) false) (fst second_decision) second_artifact
    (sample_insights "ins_2") [first_artifact] first_decision_ok second_decision_ok).
  - vm_compute. reflexivity.
  - apply Forall_nil. exact I.
  - reflexivity.
  - vm_compute. discriminate.
  - vm_compute. reflexivity.
  - vm_compute. discriminate.
  - vm_compute. discriminate.
Defined.

Definition type_decision : decision_world * res ProposalCandidatesArtifact :=
  sample_decision [type_spec; todo_spec] "dec_1" "ins_1" dec_now false new_world.
Definition type_artifact : ProposalCandidatesArtifact := the_artifact type_decision no_artifact.

Lemma type_decision_ok : type_decision = (fst type_decision, Ok type_artifact).
Proof. vm_compute. reflexivity. Qed.

Definition type_candidate : ProposalCandidate :=
  match da_candidates type_artifact with
  | c :: _ => c
  | [] => {| pc_candidate_id := ""; pc_dedup_key := ""; pc_family := ""; pc_subject := ""; pc_status := "";
             pc_evidence := ∅; pc_confidence := ""; pc_evidence_lines := []; pc_risk_class := "";
             pc_expires_after_runs := 0; pc_validation_profile := ""; pc_evidence_bundle := None;
             pc_matched_rules := []; pc_suppressed_by := []; pc_proposal_outline := cs_proposal_outline type_spec |}
  end.

Lemma downstream_waits_for_upstream_witness :
  pc_family type_candidate = "type_fix" /\
  forall c', c' ∈ da_candidates type_artifact -> pc_family c' <> "lint_fix".
Proof.
  split; [vm_compute; reflexivity|].
  apply (downstream_waits_for_upstream dec_settings (sample_rules [type_spec; todo_spec])
    (sample_env "ins_1") (sample_context "dec_1" dec_now false) new_world (fst type_decision) type_artifact
    type_candidate).
  - exact type_decision_ok.
  - vm_compute. left.
  - vm_compute. left.
Defined.
