(* ===== verification/DecisionRules.v ===== *)
(** * The rules of the decision engine

    decision/rules/*.py and [_build_rules] of decision/service.py: one section
    of definitions per rule, in the order the service evaluates them.  A rule
    is a loop over the insights whose body derives specifications or raises.
    [float_str] is Python's text of a float; floating-point arithmetic is
    exact. *)
From S2P Require Import Prelude PyStr PyData UsageStore UsageBudget Decision.
From Stdlib Require Import Ascii.

(** ** What the rules share *)

(** [for insight in insights: candidates.extend(body(insight))]. *)
Fixpoint for_each (body : DerivedInsight -> res (list CandidateSpec)) (insights : list DerivedInsight)
    : res (list CandidateSpec) :=
  match insights with
  | [] => Ok []
  | i :: rest =>
      here <-? body i ;;
      others <-? for_each body rest ;;
      Ok (here ++ others)
  end.

Definition proposer_labels : list string := ["task-kind: improve"; "source: proposer"].

Definition candidate (family subject pattern_key : string) (evidence : dict) (matched_rules : list string)
    (confidence : string) (evidence_lines : list string) (risk_class : string) (expires_after_runs : Z)
    (affected_files : option Z) (title summary : string) (labels : list string) (priority : Z * Z * string)
    : CandidateSpec :=
  {| cs_family := family; cs_subject := subject; cs_pattern_key := pattern_key; cs_evidence := evidence;
     cs_matched_rules := matched_rules;
     cs_proposal_outline := {| ol_title_hint := title; ol_summary_hint := summary;
                               ol_labels_hint := labels; ol_source_family := Some family |};
     cs_priority := priority; cs_confidence := confidence; cs_evidence_lines := evidence_lines;
     cs_risk_class := risk_class; cs_expires_after_runs := expires_after_runs;
     cs_estimated_affected_files := affected_files; cs_validation_profile := "" |}.

(** [int(insight.evidence.get(k, 0))]. *)
Definition int_of (ev : dict) (k : string) : res Z := jint (get_or ev k (JInt 0)).

(** [int(v) if v is not None else None]. *)
Definition optional_int (v : jval) : res (option Z) :=
  match v with JNull => Ok None | v => n <-? jint v ;; Ok (Some n) end.

(** [v[:3]] and [len(v)]. *)
Definition first_three (v : jval) : res jval :=
  match v with
  | JList l => Ok (JList (take 3 l))
  | JStr s => Ok (JStr (str_take 3 s))
  | JTime t => Ok (JStr (str_take 3 (isoformat t)))
  | _ => Raise (TypeError "object is not subscriptable")
  end.
Definition jlen (v : jval) : res Z :=
  match v with
  | JList l => Ok (Z.of_nat (length l))
  | JStr s => Ok (Z.of_nat (String.length s))
  | JTime t => Ok (Z.of_nat (String.length (isoformat t)))
  | JObj l => Ok (Z.of_nat (length l))
  | _ => Raise (TypeError "object has no len()")
  end.

(** [x + y] of JSON values. *)
Definition jadd (x y : jval) : res jval :=
  match x, y with
  | JStr a, JStr b => Ok (JStr (a +:+ b))
  | JList a, JList b => Ok (JList (a ++ b))
  | _, _ =>
      if negb (is_number x && is_number y) then Raise (TypeError "unsupported operand type(s) for +")
      else match x, y with
           | JFloat _, _ | _, JFloat _ => a <-? jfloat x ;; b <-? jfloat y ;; Ok (JFloat (a + b))
           | _, _ => a <-? jint x ;; b <-? jint y ;; Ok (JInt (a + b))
           end
  end.

(** [re.sub(r"[^a-z0-9]+", "_", title.lower()).strip("_")[:60]]. *)
Definition slug_char (c : ascii) : bool := is_lower c || is_digit c.

Fixpoint collapse (in_run : bool) (s : string) : string :=
  match s with
  | EmptyString => ""
  | String c s' =>
      if slug_char c then String c (collapse false s')
      else if in_run then collapse true s' else String "_" (collapse true s')
  end.

Definition underscore (c : ascii) : bool := Ascii.eqb c "_".
Definition strip_underscores (s : string) : string :=
  String.rev (drop_while underscore (String.rev (drop_while underscore s))).

Definition slug (title : string) : string :=
  str_take 60 (strip_underscores (collapse false (lower title))).

Definition nl : string := String (ascii_of_nat 10) "".

Section Rules.
Context (float_str : Q -> string).

(** [str(v)]. *)
Definition show (v : jval) : string := match v with JFloat q => float_str q | v => jtext v end.

(** [f"{v:.0%}"]. *)
Definition percent (v : jval) : res string :=
  match v with
  | JInt _ | JFloat _ | JBool _ => q <-? jfloat v ;; Ok (fmt_0f (q * 100) +:+ "%")
  | JStr _ | JTime _ => Raise (ValueError "Unknown format code '%' for object of type 'str'")
  | _ => Raise (TypeError "unsupported format string")
  end.

(** [", ".join(str(c) for c in v[:3]) if v else other]. *)
Definition join_three (v : jval) (other : string) : res string :=
  if jtruthy v then
    three <-? first_three v ;;
    items <-? jiter three ;;
    Ok (join ", " (map show items))
  else Ok other.

(** ** observation_coverage.py *)

Definition observation_coverage_body (min_consecutive_runs : Z) (i : DerivedInsight)
    : res (list CandidateSpec) :=
  let ev := in_evidence i in
  if negb (String.eqb (in_kind i) "observation_coverage") then Ok []
  else if negb (endswith (in_dedup_key i) "persistent_unavailable") then Ok []
  else
    consecutive <-? int_of ev "consecutive_snapshots" ;;
    if (consecutive <? min_consecutive_runs)%Z then Ok []
    else
      let signal := show (get_or ev "signal" (JStr (in_subject i))) in
      Ok [candidate "observation_coverage" signal "repeated_unavailable" ev
            ["observation_signal_repeated_unavailable"; "candidate_not_seen_in_cooldown_window"]
            (if (3 <=? consecutive)%Z then "high" else "medium")
            ["Signal '" +:+ signal +:+ "' unavailable for " +:+ str_of_Z consecutive +:+
             " consecutive snapshots."]
            "logic" 5 None
            ("Restore repeated missing " +:+ signal +:+ " coverage")
            ("Observer coverage shows this signal has remained unavailable across repeated runs. " +:+
             "Create one bounded follow-up to restore the missing visibility.")
            proposer_labels (0, 0, "observation_coverage|" +:+ signal +:+ "|repeated_unavailable")%Z].

(** ** test_visibility.py *)

Definition test_visibility_status (min_consecutive_runs : Z) (i : DerivedInsight)
    : res (list CandidateSpec) :=
  let ev := in_evidence i in
  if String.eqb (in_kind i) "test_status_continuity" && String.eqb (in_subject i) "test_signal" then
    let current_status := show (get_or ev "current_status" (JStr "")) in
    consecutive <-? int_of ev "consecutive_snapshots" ;;
    let unknown :=
      if String.eqb current_status "unknown" && endswith (in_dedup_key i) "persistent" &&
         (min_consecutive_runs <=? consecutive)%Z
      then [candidate "test_visibility" "test_signal" "unknown_persistent"
              (list_to_map [("current_status", JStr current_status); ("consecutive_snapshots", JInt consecutive)])
              ["test_unknown_persistence_min_consecutive_runs"; "candidate_not_seen_in_cooldown_window"]
              (if (5 <=? consecutive)%Z then "high" else "medium")
              ["Test signal status 'unknown' for " +:+ str_of_Z consecutive +:+ " consecutive snapshots."]
              "logic" 5 None
              "Improve test signal visibility for operations-center"
              ("Test signal has remained unknown across recent observer snapshots. " +:+
               "Add or repair bounded visibility so later autonomy passes can reason on explicit test state.")
              proposer_labels (1, 1, "test_visibility|unknown_persistent")%Z]
      else [] in
    let regressed :=
      if endswith (in_dedup_key i) "transition" && String.eqb current_status "failed" &&
         jeq_str (dget ev "previous_status") "passed"
      then [candidate "test_visibility" "test_signal" "passing_to_failing"
              (list_to_map [("previous_status", JStr "passed"); ("current_status", JStr "failed")])
              ["test_status_transition_failed"; "candidate_not_seen_in_cooldown_window"] "high"
              ["Test status transitioned from 'passed' to 'failed'."] "logic" 3 None
              "Investigate recent test status regression"
              ("Recent insight history shows test status transitioned from passing to failing. " +:+
               "Create one bounded follow-up to restore reliable test visibility or stability.")
              proposer_labels (1, 2, "test_visibility|passing_to_failing")%Z]
      else [] in
    Ok (unknown ++ regressed)
  else Ok [].

Definition test_visibility_coverage (i : DerivedInsight) : res (list CandidateSpec) :=
  if String.eqb (in_kind i) "observation_coverage" && String.eqb (in_subject i) "test_signal" &&
     endswith (in_dedup_key i) "persistent_unavailable" then
    consecutive <-? int_of (in_evidence i) "consecutive_snapshots" ;;
    Ok [candidate "test_visibility" "test_signal" "coverage_unavailable_persistent"
          (list_to_map [("signal", JStr "test_signal"); ("consecutive_snapshots", JInt consecutive)])
          ["test_signal_unavailable_repeated"; "candidate_not_seen_in_cooldown_window"]
          (if (3 <=? consecutive)%Z then "high" else "medium")
          ["Test signal unavailable in observer for " +:+ str_of_Z consecutive +:+ " consecutive snapshots."]
          "logic" 5 None
          "Restore repeated missing test signal coverage"
          ("Observer coverage shows the test signal has been unavailable across repeated runs. " +:+
           "Add or repair one bounded visibility path for later autonomy stages.")
          proposer_labels (1, 0, "test_visibility|coverage_unavailable_persistent")%Z]
  else Ok [].

Definition test_visibility_body (min_consecutive_runs : Z) (i : DerivedInsight) : res (list CandidateSpec) :=
  status <-? test_visibility_status min_consecutive_runs i ;;
  coverage <-? test_visibility_coverage i ;;
  Ok (status ++ coverage).

(** ** dependency_drift.py *)

Definition dependency_drift_body (min_consecutive_runs : Z) (i : DerivedInsight) : res (list CandidateSpec) :=
  if String.eqb (in_kind i) "dependency_drift_continuity" && String.eqb (in_subject i) "dependency_drift" &&
     endswith (in_dedup_key i) "present|persistent" then
    consecutive <-? int_of (in_evidence i) "consecutive_snapshots" ;;
    if (consecutive <? min_consecutive_runs)%Z then Ok []
    else
      Ok [candidate "dependency_drift_followup" "dependency_drift" "present_persistent"
            (list_to_map [("consecutive_snapshots", JInt consecutive)])
            ["dependency_drift_persistent_min_consecutive_runs"; "candidate_not_seen_in_cooldown_window"]
            (if (4 <=? consecutive)%Z then "high" else "medium")
            ["Dependency drift present for " +:+ str_of_Z consecutive +:+ " consecutive snapshots."]
            "logic" 5 None
            "Investigate persistent dependency drift signal"
            ("Dependency drift has remained present across repeated runs. " +:+
             "Create one bounded follow-up to inspect the recurring drift signal.")
            proposer_labels (2, 0, "dependency_drift_followup|present_persistent")%Z]
  else Ok [].

(** ** hotspot_concentration.py *)

(** The two maps that the loop over the insights fills. *)
Definition hotspot_scan (insights : list DerivedInsight) : res (gmap string Z * gmap string dict) :=
  foldM (fun (m : gmap string Z * gmap string dict) i =>
    if negb (String.eqb (in_kind i) "file_hotspot") then Ok m
    else
      repeated <-? (if endswith (in_dedup_key i) "repeated_presence" then
                      n <-? int_of (in_evidence i) "appears_in_recent_snapshots" ;;
                      Ok (<[in_subject i := n]> (fst m))
                    else Ok (fst m)) ;;
      Ok (repeated, if endswith (in_dedup_key i) "dominant_current"
                    then <[in_subject i := in_evidence i]> (snd m) else snd m)) (∅, ∅) insights.

Definition hotspot_candidate (dominant : gmap string dict) (entry : string * Z) : CandidateSpec :=
  let '(subject, appearances) := entry in
  candidate "hotspot_concentration" subject "persistent"
    (default ∅ (dominant !! subject) ∪ {["appears_in_recent_snapshots" := JInt appearances]})
    ["hotspot_repeated_presence_min_runs"; "candidate_not_seen_in_cooldown_window"] "medium"
    ["'" +:+ subject +:+ "' appeared in top hotspots across " +:+ str_of_Z appearances +:+ " recent snapshots."]
    "structural" 5 None
    ("Investigate repeated hotspot concentration in " +:+ subject)
    ("Recent snapshots repeatedly place this file at the top of hotspot summaries. " +:+
     "Create one bounded follow-up to inspect the concentration pattern.")
    proposer_labels (3, 0, "hotspot_concentration|" +:+ subject +:+ "|persistent")%Z.

Definition hotspot_rule (min_repeated_runs : Z) (insights : list DerivedInsight) : res (list CandidateSpec) :=
  m <-? hotspot_scan insights ;;
  Ok (map (hotspot_candidate (snd m))
        (List.filter (fun kv => (min_repeated_runs <=? snd kv)%Z)
           (sorted_by (fun a b => str_leb (fst a) (fst b)) (map_to_list (fst m))))).

(** ** todo_accumulation.py *)

Definition todo_accumulation_body (i : DerivedInsight) : res (list CandidateSpec) :=
  let ev := in_evidence i in
  if negb (String.eqb (in_kind i) "todo_concentration") then Ok []
  else
    current_total <-? int_of ev "current_total" ;;
    previous_total <-? int_of ev "previous_total" ;;
    let increased :=
      if endswith (in_dedup_key i) "count_changed" && (previous_total <? current_total)%Z then
        [candidate "todo_accumulation" "todo_fixme_total" "count_increased" ev
           ["todo_fixme_total_increased"; "candidate_not_seen_in_cooldown_window"] "medium"
           ["TODO/FIXME total increased by " +:+ str_of_Z (current_total - previous_total) +:+ " (from " +:+
            str_of_Z previous_total +:+ " to " +:+ str_of_Z current_total +:+ ")."]
           "style" 4 None
           "Investigate recent TODO/FIXME accumulation"
           ("Recent observer history shows the total TODO/FIXME count increased. " +:+
            "Create one bounded follow-up to inspect the concentrated accumulation.")
           proposer_labels (4, 0, "todo_accumulation|count_increased")%Z]
      else [] in
    if endswith (in_dedup_key i) "fixme|present" then
      fixme_count <-? int_of ev "fixme_count" ;;
      Ok (increased ++
        [candidate "todo_accumulation" "fixme" "fixme_present" ev
           ["fixme_present"; "candidate_not_seen_in_cooldown_window"] "medium"
           [str_of_Z fixme_count +:+ " FIXME marker(s) present in the codebase."] "style" 4 None
           "Review persistent FIXME presence"
           ("Current observer signals show FIXME markers are present. " +:+
            "Create one bounded follow-up to inspect whether the concentration is still warranted.")
           proposer_labels (4, 1, "todo_accumulation|fixme_present")%Z])
    else Ok increased.

(** ** execution_health.py *)

Definition no_op_candidate (repo : string) (ev : dict) : res (list CandidateSpec) :=
  let total := show (get_or ev "total_runs" (JInt 0)) in
  rate <-? jfloat (get_or ev "no_op_rate" (JInt 0)) ;;
  let pct := Z.quot (Qnum (rate * 100)) (Zpos (Qden (rate * 100))) in
  Ok [candidate "execution_health_followup" repo "high_no_op_rate" ev
        ["execution_health_high_no_op_rate"] (if (80 <=? pct)%Z then "high" else "medium")
        [str_of_Z pct +:+ "% of last " +:+ total +:+ " runs for '" +:+ repo +:+
         "' were no-ops (no material changes)."]
        "logic" 5 None
        ("Review task quality for " +:+ repo +:+ ": " +:+ str_of_Z pct +:+
         "% of recent runs produced no changes")
        ("Execution artifacts show " +:+ str_of_Z pct +:+ "% of the last " +:+ total +:+ " runs for " +:+ repo +:+
         " were no-ops (the backend ran but made no material changes). " +:+
         "This suggests tasks being generated may be too vague, already completed, " +:+
         "or scoped in a way the execution engine cannot act on. " +:+
         "Investigate one representative no-op run and tighten task descriptions or " +:+
         "proposer heuristics to improve actionability.")
        proposer_labels (1, 0, "execution_health|" +:+ repo +:+ "|high_no_op_rate")%Z].

Definition validation_failures_candidate (repo : string) (ev : dict) : res (list CandidateSpec) :=
  let fail_count := show (get_or ev "validation_failed_count" (JInt 0)) in
  Ok [candidate "execution_health_followup" repo "persistent_validation_failures" ev
        ["execution_health_persistent_validation_failures"] "high"
        [fail_count +:+ " recent runs for '" +:+ repo +:+
         "' completed but failed post-execution validation."]
        "logic" 3 None
        ("Fix recurring validation failures in " +:+ repo +:+ " (" +:+ fail_count +:+ " recent failures)")
        ("Execution artifacts show " +:+ fail_count +:+ " runs for " +:+ repo +:+ " completed " +:+
         "but failed the post-execution validation step. " +:+
         "This is a systemic signal: either the test suite or linter has persistent " +:+
         "failures unrelated to the tasks being run, or recent tasks are consistently " +:+
         "scoped beyond what one execution pass can resolve cleanly. " +:+
         "Investigate recent validation.json artifacts to identify the failing command " +:+
         "and address the root cause. " +:+
         "While this fix-task remains unresolved, the circuit-breaker will skip " +:+
         "further task execution against this repo to avoid wasting budget.")
        proposer_labels (0, 0, "execution_health|" +:+ repo +:+ "|persistent_validation_failures")%Z].

(** The default of [unknown_error_total] is computed whether it is needed or
    not. *)
Definition unknown_failures_candidate (repo : string) (ev : dict) : res (list CandidateSpec) :=
  let unknown_count := get_or ev "unknown_count" (JInt 0) in
  let error_count := get_or ev "error_count" (JInt 0) in
  both <-? jadd unknown_count error_count ;;
  let unknown_error_total := show (get_or ev "unknown_error_total" both) in
  let total := show (get_or ev "total_runs" (JInt 0)) in
  let split := "(" +:+ show unknown_count +:+ " unknown, " +:+ show error_count +:+ " errors)" in
  Ok [candidate "execution_health_followup" repo "repeated_unknown_failures" ev
        ["execution_health_repeated_unknown_failures"] "high"
        [unknown_error_total +:+ " of the last " +:+ total +:+ " runs for '" +:+ repo +:+ "' " +:+
         "ended with unknown or error outcomes " +:+ split +:+ "."]
        "logic" 5 None
        ("Investigate repeated unknown/error failures in " +:+ repo +:+ " (" +:+ unknown_error_total +:+
         " recent failures)")
        ("Execution artifacts show " +:+ unknown_error_total +:+ " of the last " +:+ total +:+ " " +:+
         "runs for " +:+ repo +:+ " ended with unknown or error outcomes " +:+ split +:+ ". " +:+
         "This suggests the execution engine is encountering repeated unexplained " +:+
         "failures. Investigate recent executor_plane artifacts and execution logs " +:+
         "to identify whether the cause is environmental (e.g. tooling misconfiguration, " +:+
         "missing dependencies) or task-related (e.g. impossible scope, malformed input). " +:+
         "While this fix-task remains unresolved, the circuit-breaker will skip " +:+
         "further task execution against this repo to avoid wasting budget.")
        proposer_labels (0, 0, "execution_health|" +:+ repo +:+ "|repeated_unknown_failures")%Z].

Definition execution_health_body (i : DerivedInsight) : res (list CandidateSpec) :=
  let ev := in_evidence i in
  if negb (String.eqb (in_kind i) "execution_health") then Ok []
  else
    let repo := show (get_or ev "repo" (JStr (in_subject i))) in
    let pattern := show (get_or ev "pattern" (JStr "")) in
    if String.eqb pattern "high_no_op_rate" then no_op_candidate repo ev
    else if String.eqb pattern "persistent_validation_failures" then validation_failures_candidate repo ev
    else if String.eqb pattern "repeated_unknown_failures" then unknown_failures_candidate repo ev
    else Ok [].

(** ** lint_fix.py and type_improvement.py *)

Definition has_overlap (subject : string) (insights : list DerivedInsight) : bool :=
  existsb (fun i => String.eqb (in_kind i) "cross_signal" && String.eqb (in_subject i) subject) insights.

Definition lint_present (min_violations : Z) (overlap : bool) (ev : dict) : res (list CandidateSpec) :=
  count <-? int_of ev "violation_count" ;;
  if (count <? min_violations)%Z then Ok []
  else
    codes_str <-? join_three (get_or ev "top_codes" (JList [])) "various" ;;
    files <-? optional_int (dget ev "distinct_file_count") ;;
    let n := str_of_Z count in
    Ok [candidate "lint_fix" "lint_violations" "violations_present" ev
          (["lint_violations_present_min_threshold"; "candidate_not_seen_in_cooldown_window"] ++
           (if overlap then ["cross_signal_lint_hotspot_overlap"] else []))
          (if (20 <=? count)%Z || overlap then "high" else "medium")
          (["ruff reports " +:+ n +:+ " lint violation(s). Top codes: " +:+ codes_str +:+ "."] ++
           (if overlap then ["Lint violations overlap with active git hotspot files (cross-signal corroboration)."]
            else []))
          "style" 3 files
          ("Fix " +:+ n +:+ " ruff lint violation(s) (" +:+ codes_str +:+ ")")
          ("ruff check found " +:+ n +:+ " lint violation(s) in the codebase. " +:+
           "Top violation codes: " +:+ codes_str +:+ ". " +:+
           "Run `ruff check --fix` to auto-fix where possible, then manually resolve " +:+
           "any remaining violations. Keep the change scoped to lint fixes only.")
          proposer_labels (1, 5, "lint_fix|violations_present|" +:+ n)%Z].

Definition lint_worsened (ev : dict) : res (list CandidateSpec) :=
  delta <-? int_of ev "delta" ;;
  current <-? int_of ev "current_count" ;;
  files <-? optional_int (dget ev "distinct_file_count") ;;
  let d := str_of_Z delta in
  let c := str_of_Z current in
  Ok [candidate "lint_fix" "lint_violations" "violations_worsened" ev
        ["lint_violations_count_increased"; "candidate_not_seen_in_cooldown_window"] "high"
        ["Lint violations increased by " +:+ d +:+ " (now " +:+ c +:+ " total)."] "style" 3 files
        ("Fix lint regression: +" +:+ d +:+ " new ruff violations")
        ("Lint violation count increased by " +:+ d +:+ " since the last observer snapshot " +:+
         "(now " +:+ c +:+ " total). " +:+
         "Identify the recently added violations and fix them before they accumulate further.")
        proposer_labels (1, 4, "lint_fix|violations_worsened|" +:+ d)%Z].

Definition lint_fix_body (min_violations : Z) (overlap : bool) (i : DerivedInsight)
    : res (list CandidateSpec) :=
  if negb (String.eqb (in_kind i) "lint_drift") then Ok []
  else if endswith (in_dedup_key i) "present" && String.eqb (in_status i) "present"
  then lint_present min_violations overlap (in_evidence i)
  else if endswith (in_dedup_key i) "worsened" then lint_worsened (in_evidence i)
  else Ok [].

Definition lint_fix_rule (min_violations : Z) (insights : list DerivedInsight) : res (list CandidateSpec) :=
  for_each (lint_fix_body min_violations (has_overlap "lint_hotspot_overlap" insights)) insights.

Definition type_present (min_errors : Z) (overlap : bool) (ev : dict) : res (list CandidateSpec) :=
  count <-? int_of ev "error_count" ;;
  if (count <? min_errors)%Z then Ok []
  else
    let source := show (get_or ev "source" (JStr "type checker")) in
    codes_str <-? join_three (get_or ev "top_codes" (JList [])) "various" ;;
    files <-? optional_int (dget ev "distinct_file_count") ;;
    let n := str_of_Z count in
    Ok [candidate "type_fix" "type_errors" "errors_present" ev
          (["type_errors_present_min_threshold"; "candidate_not_seen_in_cooldown_window"] ++
           (if overlap then ["cross_signal_type_hotspot_overlap"] else []))
          (if (10 <=? count)%Z || overlap then "high" else "medium")
          ([source +:+ " reports " +:+ n +:+ " type error(s). Top codes: " +:+ codes_str +:+ "."] ++
           (if overlap then ["Type errors overlap with active git hotspot files (cross-signal corroboration)."]
            else []))
          "logic" 4 files
          ("Fix " +:+ n +:+ " type error(s) (" +:+ codes_str +:+ ")")
          (source +:+ " found " +:+ n +:+ " type error(s) in the codebase. " +:+
           "Top error codes: " +:+ codes_str +:+ ". " +:+
           "Resolve the type errors, preferring targeted annotations over broad `# type: ignore` suppressions. " +:+
           "Keep the change scoped to type fixes.")
          proposer_labels (1, 5, "type_fix|errors_present|" +:+ n)%Z].

Definition type_worsened (ev : dict) : res (list CandidateSpec) :=
  delta <-? int_of ev "delta" ;;
  current <-? int_of ev "current_count" ;;
  files <-? optional_int (dget ev "distinct_file_count") ;;
  let d := str_of_Z delta in
  let c := str_of_Z current in
  Ok [candidate "type_fix" "type_errors" "errors_worsened" ev
        ["type_errors_count_increased"; "candidate_not_seen_in_cooldown_window"] "high"
        ["Type errors increased by " +:+ d +:+ " (now " +:+ c +:+ " total)."] "logic" 4 files
        ("Fix type regression: +" +:+ d +:+ " new type error(s)")
        ("Type error count increased by " +:+ d +:+ " since the last observer snapshot " +:+
         "(now " +:+ c +:+ " total). " +:+
         "Identify and resolve the newly introduced type errors before they accumulate further.")
        proposer_labels (1, 4, "type_fix|errors_worsened|" +:+ d)%Z].

Definition type_improvement_body (min_errors : Z) (overlap : bool) (i : DerivedInsight)
    : res (list CandidateSpec) :=
  if negb (String.eqb (in_kind i) "type_health") then Ok []
  else if endswith (in_dedup_key i) "present" && String.eqb (in_status i) "present"
  then type_present min_errors overlap (in_evidence i)
  else if endswith (in_dedup_key i) "worsened" then type_worsened (in_evidence i)
  else Ok [].

Definition type_improvement_rule (min_errors : Z) (insights : list DerivedInsight)
    : res (list CandidateSpec) :=
  for_each (type_improvement_body min_errors (has_overlap "type_hotspot_overlap" insights)) insights.

(** ** ci_pattern.py *)

Definition ci_failing (ev : dict) : res (list CandidateSpec) :=
  let failing := get_or ev "failing_checks" (JList []) in
  checks_str <-? join_three failing "unknown" ;;
  rate <-? percent (get_or ev "failure_rate" (JFloat 0)) ;;
  n <-? jlen failing ;;
  Ok [candidate "ci_pattern" "ci_checks" "checks_failing" ev
        ["ci_checks_consistently_failing"; "candidate_not_seen_in_cooldown_window"] "high"
        ["CI checks consistently failing (" +:+ rate +:+ " failure rate): " +:+ checks_str +:+ "."]
        "logic" 4 None
        ("Investigate failing CI checks: " +:+ checks_str)
        ("The following CI checks are consistently failing across recent commits: " +:+ checks_str +:+ ". " +:+
         "Overall CI failure rate: " +:+ rate +:+ ". " +:+
         "Investigate root cause and fix the underlying issue. " +:+
         "Do not suppress or skip the checks without resolving the root cause.")
        proposer_labels (1, 4, "ci_pattern|failing|" +:+ str_of_Z n)%Z].

Definition ci_flaky (ev : dict) : res (list CandidateSpec) :=
  let flaky := get_or ev "flaky_checks" (JList []) in
  checks_str <-? join_three flaky "unknown" ;;
  n <-? jlen flaky ;;
  Ok [candidate "ci_pattern" "ci_checks" "checks_flaky" ev
        ["ci_checks_intermittently_failing"; "candidate_not_seen_in_cooldown_window"] "medium"
        ["CI checks showing intermittent failures: " +:+ checks_str +:+ "."] "logic" 5 None
        ("Stabilize flaky CI checks: " +:+ checks_str)
        ("The following CI checks are showing intermittent failures: " +:+ checks_str +:+ ". " +:+
         "Identify whether the flakiness is in the test suite, the environment, " +:+
         "or the check configuration, and stabilize accordingly. " +:+
         "Keep the change scoped to the identified flaky checks.")
        proposer_labels (1, 5, "ci_pattern|flaky|" +:+ str_of_Z n)%Z].

Definition ci_pattern_body (i : DerivedInsight) : res (list CandidateSpec) :=
  if negb (String.eqb (in_kind i) "ci_pattern") then Ok []
  else if String.eqb (in_status i) "failing" then ci_failing (in_evidence i)
  else if String.eqb (in_status i) "flaky" then ci_flaky (in_evidence i)
  else Ok [].

(** ** validation_pattern.py *)

Definition validation_pattern_body (i : DerivedInsight) : res (list CandidateSpec) :=
  let ev := in_evidence i in
  if negb (String.eqb (in_kind i) "validation_pattern") then Ok []
  else if negb (String.eqb (in_status i) "repeated_failures") then Ok []
  else
    count <-? int_of ev "tasks_with_repeated_failures" ;;
    let worst_id := show (get_or ev "worst_task_id" (JStr "unknown")) in
    worst_failures <-? int_of ev "worst_task_failure_count" ;;
    worst_runs <-? int_of ev "worst_task_total_runs" ;;
    roles_str <-? join_three (get_or ev "top_worker_roles" (JList [])) "unknown" ;;
    let n := str_of_Z count in
    let short := str_take 8 worst_id +:+ "..." in
    Ok [candidate "validation_pattern_followup" "execution_tasks" "repeated_failures" ev
          ["validation_repeated_task_failures"; "candidate_not_seen_in_cooldown_window"]
          (if (3 <=? count)%Z then "high" else "medium")
          [n +:+ " task(s) have repeated validation failures across multiple runs.";
           "Worst offender: task " +:+ short +:+ " failed " +:+ str_of_Z worst_failures +:+ "/" +:+
           str_of_Z worst_runs +:+ " runs.";
           "Affected worker roles: " +:+ roles_str +:+ "."]
          "logic" 5 None
          ("Investigate " +:+ n +:+ " task(s) with repeated validation failures")
          (n +:+ " task(s) have been executed multiple times and failed " +:+
           "post-execution validation on repeated attempts. " +:+
           "The worst case is task " +:+ short +:+ " which failed validation " +:+
           str_of_Z worst_failures +:+ " out of " +:+ str_of_Z worst_runs +:+ " runs. " +:+
           "This is a systemic signal: either the validation suite has persistent " +:+
           "failures, or specific tasks are scoped beyond what one execution pass " +:+
           "can resolve. " +:+
           "Investigate the validation artifacts for the identified tasks, fix the " +:+
           "root cause (broken test, misconfigured validator, or task scope issue), " +:+
           "and verify validation passes cleanly.")
          proposer_labels (0, 1, "validation_pattern|repeated_failures|" +:+ n)%Z].

(** ** backlog_promotion.py and arch_promotion.py *)

Definition backlog_summary (head description : string) : string :=
  if str_truthy description then head +:+ nl +:+ nl +:+ description else head.

Definition backlog_promotion_body (i : DerivedInsight) : res (list CandidateSpec) :=
  let ev := in_evidence i in
  if negb (String.eqb (in_kind i) "backlog_item") then Ok []
  else
    let title := show (get_or ev "title" (JStr (in_subject i))) in
    let item_type := show (get_or ev "item_type" (JStr "feature")) in
    let description := show (get_or ev "description" (JStr "")) in
    let repo := show (get_or ev "repo" (JStr "")) in
    Ok [candidate "backlog_promotion" title (slug title) ev ["backlog_promotion"] "medium" [] "logic" 7 None
          title (backlog_summary ("Backlog item (" +:+ item_type +:+ "): " +:+ title +:+ ".") description)
          ["task-kind: improve"; "type: " +:+ item_type; "source: backlog"]
          (0, 0, "backlog_promotion|" +:+ repo +:+ "|" +:+ slug title)%Z].

Definition arch_promotion_body (i : DerivedInsight) : res (list CandidateSpec) :=
  let ev := in_evidence i in
  if negb (String.eqb (in_kind i) "arch_backlog_item") then Ok []
  else
    let title := show (get_or ev "title" (JStr (in_subject i))) in
    let item_type := show (get_or ev "item_type" (JStr "arch")) in
    let description := show (get_or ev "description" (JStr "")) in
    let repo := show (get_or ev "repo" (JStr "")) in
    Ok [candidate "arch_promotion" title (slug title) ev ["arch_promotion"] "medium" [] "arch" 10 None
          title
          (backlog_summary
             ("Arch-class backlog item (" +:+ item_type +:+ "): " +:+ title +:+ "." +:+ nl +:+ nl +:+
              "This item was held until execution health metrics confirmed the " +:+
              "codebase is stable (low no-op rate, zero validation failures, " +:+
              "tuning loop showing 'keep' across all default families).") description)
          ["task-kind: improve"; "type: " +:+ item_type; "source: backlog"]
          (0, 0, "arch_promotion|" +:+ repo +:+ "|" +:+ slug title)%Z].

(** ** coverage_gap.py *)

Definition coverage_low_overall (ev : dict) : res (list CandidateSpec) :=
  let pct := show (get_or ev "total_coverage_pct" (JInt 0)) in
  Ok [candidate "coverage_gap" "coverage" "low_overall" ev ["coverage_gap_low_overall"] "medium"
        ["Total test coverage is " +:+ pct +:+ "%, below the " +:+
         show (get_or ev "threshold_pct" (JInt 60)) +:+ "% threshold.";
         "Add tests for the most critical uncovered paths."]
        "quality" 5 None
        ("Improve test coverage (currently " +:+ pct +:+ "%)")
        ("Test coverage is at " +:+ pct +:+ "%, below the recommended threshold. " +:+
         "Identify the most critical uncovered code paths and add targeted tests. " +:+
         "Focus on business logic, error handling, and edge cases rather than trivial getters.")
        proposer_labels (2, 3, "coverage_gap|low_overall|" +:+ pct)%Z].

Definition coverage_uncovered_files (ev : dict) : res (list CandidateSpec) :=
  let count := show (get_or ev "uncovered_file_count" (JInt 0)) in
  files_str <-? join_three (get_or ev "top_uncovered" (JList [])) "several files" ;;
  let threshold := show (get_or ev "threshold_pct" (JInt 80)) in
  Ok [candidate "coverage_gap" "coverage" "uncovered_files" ev ["coverage_gap_uncovered_files"] "medium"
        [count +:+ " file(s) have coverage below " +:+ threshold +:+ "%.";
         "Lowest-coverage files: " +:+ files_str +:+ "."]
        "quality" 5 None
        ("Add tests for " +:+ count +:+ " under-covered file(s)")
        (count +:+ " file(s) have test coverage below " +:+ threshold +:+ "%. " +:+
         "Priority files: " +:+ files_str +:+ ". " +:+
         "Add unit or integration tests for the uncovered branches in these files.")
        proposer_labels (2, 2, "coverage_gap|uncovered_files|" +:+ count)%Z].

Definition coverage_gap_body (i : DerivedInsight) : res (list CandidateSpec) :=
  if String.eqb (in_kind i) "coverage_gap/low_overall" then coverage_low_overall (in_evidence i)
  else if String.eqb (in_kind i) "coverage_gap/uncovered_files" then coverage_uncovered_files (in_evidence i)
  else Ok [].

(** ** lint_cluster.py *)

Definition lint_cluster_body (i : DerivedInsight) : res (list CandidateSpec) :=
  let ev := in_evidence i in
  let fpath := show (get_or ev "file" (JStr "unknown")) in
  let appearances := show (get_or ev "snapshot_appearances" (JInt 0)) in
  Ok (if String.eqb (in_kind i) "theme/lint_cluster" then
        [candidate "lint_cluster" "theme" ("lint_cluster_" +:+ fpath) ev ["theme_lint_cluster_persistent"] "high"
           [fpath +:+ " has appeared in top lint violations in " +:+ appearances +:+ " consecutive snapshots.";
            "This pattern suggests a structural issue; a targeted cleanup will prevent recurring proposals."]
           "style" 2 None
           ("[Refactor] Systematic lint cleanup: " +:+ fpath)
           (fpath +:+ " has appeared in the top lint violations across " +:+ appearances +:+ " consecutive " +:+
            "observer snapshots. Rather than applying piecemeal fixes, perform a systematic " +:+
            "cleanup: run `ruff check --fix` on the file, resolve any unfixable violations " +:+
            "manually, and refactor patterns that cause lint rules to fire repeatedly.")
           proposer_labels (1, 6, "lint_cluster|" +:+ fpath +:+ "|" +:+ appearances)%Z]
      else if String.eqb (in_kind i) "theme/type_cluster" then
        [candidate "lint_cluster" "theme" ("type_cluster_" +:+ fpath) ev ["theme_type_cluster_persistent"] "high"
           [fpath +:+ " has appeared in top type errors in " +:+ appearances +:+ " consecutive snapshots.";
            "Systematic type annotation improvement will prevent recurring type_fix proposals for this file."]
           "quality" 2 None
           ("[Refactor] Systematic type cleanup: " +:+ fpath)
           (fpath +:+ " has appeared in top type errors across " +:+ appearances +:+ " consecutive " +:+
            "observer snapshots. Add or correct type annotations systematically across " +:+
            "the file rather than applying one-off fixes per snapshot cycle.")
           proposer_labels (1, 6, "type_cluster|" +:+ fpath +:+ "|" +:+ appearances)%Z]
      else []).

(** ** [_build_rules] *)

(** The overrides of a tuning configuration: a family's parameters. *)
Definition TuningOverrides : Type := gmap string dict.

(** [TuningConfig.get_int]; a bool is an int. *)
Definition tuning_get_int (t : TuningOverrides) (family key : string) (d : Z) : Z :=
  match dget (default ∅ (t !! family)) key with
  | JInt n => n
  | JBool b => if b then 1 else 0
  | _ => d
  end.

Definition tuned (tuning : option TuningOverrides) (family key : string) (d : Z) : Z :=
  match tuning with Some t => tuning_get_int t family key d | None => d end.

Definition build_rules (tuning : option TuningOverrides)
    : list (list DerivedInsight -> res (list CandidateSpec)) :=
  [for_each (observation_coverage_body (tuned tuning "observation_coverage" "min_consecutive_runs" 2));
   for_each (test_visibility_body (tuned tuning "test_visibility" "min_consecutive_runs" 3));
   for_each (dependency_drift_body (tuned tuning "dependency_drift" "min_consecutive_runs" 2));
   hotspot_rule 2;
   for_each todo_accumulation_body;
   for_each execution_health_body;
   lint_fix_rule (tuned tuning "lint_fix" "min_violations" 5);
   type_improvement_rule (tuned tuning "type_fix" "min_errors" 3);
   for_each ci_pattern_body;
   for_each validation_pattern_body;
   for_each backlog_promotion_body;
   for_each arch_promotion_body;
   for_each coverage_gap_body;
   for_each lint_cluster_body].
End Rules.

(** ** The families the rules derive *)

(** A result whose specifications are all of one family. *)
Definition of_family (f : string) (r : res (list CandidateSpec)) : Prop :=
  match r with Ok l => Forall (fun s => cs_family s = f) l | Raise _ => True end.

Lemma of_family_bind {A} f (m : res A) k : (forall a, of_family f (k a)) -> of_family f (x <-? m ;; k x).
Proof. by destruct m; simpl. Qed.

Lemma of_family_app f r1 r2 :
  of_family f r1 -> of_family f r2 -> of_family f (a <-? r1 ;; b <-? r2 ;; Ok (a ++ b)).
Proof. destruct r1, r2; simpl; try done. intros. by apply Forall_app. Qed.

Lemma of_family_for_each f body insights :
  (forall i, of_family f (body i)) -> of_family f (for_each body insights).
Proof.
  intros H. induction insights as [|i l IH]; simpl; [done|]. by apply of_family_app.
Qed.

(** Walk through a rule's branches. *)
Ltac family :=
  repeat match goal with
  | |- of_family _ (for_each _ _) => apply of_family_for_each; intros
  | |- of_family _ (mbind _ _) => apply of_family_bind; intros
  | |- of_family _ (if ?b then _ else _) => destruct b
  | |- of_family _ (Ok []) => apply Forall_nil
  | |- of_family _ (Ok (if ?b then _ else _)) => destruct b
  | |- of_family _ (let _ := _ in _) => cbv zeta
  | |- of_family _ (Ok (_ ++ _)) => apply Forall_app; split
  | |- Forall _ (if ?b then _ else _) => destruct b
  | |- _ => repeat constructor
  end.

Section Families.
Context (float_str : Q -> string).

Lemma dependency_drift_family n insights :
  of_family "dependency_drift_followup" (for_each (dependency_drift_body n) insights).
Proof. unfold dependency_drift_body. family. Qed.

Lemma hotspot_family n insights : of_family "hotspot_concentration" (hotspot_rule n insights).
Proof.
  unfold hotspot_rule. destruct (hotspot_scan insights) as [m|]; simpl; [|done].
  apply Forall_map, Forall_forall. by intros [subject k] _.
Qed.

(** The families of the rules, in the order of the rules. *)
Definition rule_families : list string :=
  ["observation_coverage"; "test_visibility"; "dependency_drift_followup"; "hotspot_concentration";
   "todo_accumulation"; "execution_health_followup"; "lint_fix"; "type_fix"; "ci_pattern";
   "validation_pattern_followup"; "backlog_promotion"; "arch_promotion"; "coverage_gap"; "lint_cluster"].

Lemma rules_of_families tuning insights :
  Forall2 (fun f rule => of_family f (rule insights)) rule_families (build_rules float_str tuning).
Proof.
  unfold build_rules, rule_families.
  repeat (apply Forall2_cons_2); [..|apply Forall2_nil_2]; try apply dependency_drift_family;
    try apply hotspot_family; unfold lint_fix_rule, type_improvement_rule; apply of_family_for_each; intros i.
  - unfold observation_coverage_body. family.
  - unfold test_visibility_body, test_visibility_status, test_visibility_coverage. apply of_family_app; family.
  - unfold todo_accumulation_body. family.
  - unfold execution_health_body, no_op_candidate, validation_failures_candidate, unknown_failures_candidate. family.
  - unfold lint_fix_body, lint_present, lint_worsened. family.
  - unfold type_improvement_body, type_present, type_worsened. family.
  - unfold ci_pattern_body, ci_failing, ci_flaky. family.
  - unfold validation_pattern_body. family.
  - unfold backlog_promotion_body. family.
  - unfold arch_promotion_body. family.
  - unfold coverage_gap_body, coverage_low_overall, coverage_uncovered_files. family.
  - unfold lint_cluster_body. family.
Qed.

Lemma evaluate_rules_families families rules insights specs :
  Forall2 (fun f rule => of_family f (rule insights)) families rules ->
  evaluate_rules rules insights = Ok specs -> Forall (fun s => cs_family s ∈ families) specs.
Proof.
  intros H. revert specs. induction H as [|f rule families rules Hf _ IH]; simpl; intros specs; [by intros [= <-]|].
  destruct (rule insights) as [l|]; simpl; [|done]. destruct (evaluate_rules rules insights) as [l'|]; simpl; [|done].
  intros [= <-]. apply Forall_app. split.
  - eapply Forall_impl; [exact Hf|]. intros s ->. by left.
  - eapply Forall_impl; [by apply IH|]. intros s Hs. by right.
Qed.
End Families.

(** with the program's rules, no decision that allows no more than the
    families the service knows ever emits a dependency-drift candidate: the rule
    derives the family dependency_drift_followup, the service knows only
    dependency_drift, which no rule derives. *)
Theorem dependency_drift_is_never_proposed float_str settings tuning env context w w' a :
  dx_allowed_families context ⊆ ALL_FAMILIES ->
  service_decide settings (build_rules float_str tuning) env context w = (w', Ok a) ->
  (forall n insights specs, for_each (dependency_drift_body n) insights = Ok specs ->
     Forall (fun s => cs_family s = "dependency_drift_followup") specs) /\
  Forall (fun c => pc_family c <> "dependency_drift_followup" /\ pc_family c <> "dependency_drift")
    (da_candidates a).
Proof.
  intros Hall H. split.
  - intros n insights specs E. pose proof (dependency_drift_family n insights) as Hf. by rewrite E in Hf.
  - apply emitted_families_allowed in H as Hfam. apply Forall_forall. intros c Hc.
    pose proof (proj1 (Forall_forall _ _) Hfam _ Hc) as Hin. apply Hall in Hin. split.
    + intros E. rewrite E in Hin. vm_compute in Hin. done.
    + intros E. eapply emitted_passed in H as (current & prior & specs & s0 & s1 & s2 & s3 & s4 & s & Hrun & Hs & Hbuild & _);
        [|exact Hc].
      destruct (run_sublist _ _ _ _ _ _ _ _ _ _ _ _ _ _ Hrun) as (L4 & L3 & L2 & L1).
      destruct (run_families _ _ _ _ _ _ _ _ _ _ _ _ _ _ Hrun) as [d Hgate].
      apply gate_families_splits in Hgate as [L0 _]. simpl in L0.
      pose proof (run_rules _ _ _ _ _ _ _ _ _ _ _ _ _ _ Hrun) as Hrules.
      eapply evaluate_rules_families in Hrules; [|apply rules_of_families].
      assert (Hin' : s ∈ specs) by (do 5 (eapply elem_of_sublist; [|eassumption]); done).
      pose proof (proj1 (Forall_forall _ _) Hrules _ Hin') as Hr. apply build_ok in Hbuild as (_ & Ef & _).
      change (cs_family s ∈ rule_families) in Hr. rewrite <-Ef, E in Hr. apply str_in_spec in Hr.
      vm_compute in Hr. done.
Qed.

(** ** The rules at work *)

Definition insight (kind subject status key : string) (evidence : list (string * jval)) : DerivedInsight :=
  {| in_dedup_key := key; in_kind := kind; in_subject := subject; in_status := status;
     in_evidence := list_to_map evidence |}.

(** Persistent dependency drift, many lint violations in many files, and type
    errors. *)
Definition drift_insight : DerivedInsight :=
  insight "dependency_drift_continuity" "dependency_drift" "present" "dependency_drift|present|persistent"
    [("consecutive_snapshots", JInt 6)].
Definition lint_insight (files : Z) : DerivedInsight :=
  insight "lint_drift" "lint_violations" "present" "lint_drift|present"
    [("violation_count", JInt 200); ("distinct_file_count", JInt files);
     ("top_codes", JList [JStr "E501"; JStr "F401"])].
Definition type_insight : DerivedInsight :=
  insight "type_health" "type_errors" "present" "type_health|present"
    [("error_count", JInt 12); ("source", JStr "ty")].

Definition rules_context (allowed : gset string) : DecisionContext :=
  {| dx_repo_filter := None; dx_insight_run_id := None; dx_history_limit := 10; dx_max_candidates := 3;
     dx_cooldown_minutes := 120; dx_run_id := "dec_1"; dx_generated_at := dec_now; dx_source_command := "decide";
     dx_dry_run := false; dx_allowed_families := allowed; dx_max_proposals_per_24h := 10;
     dx_max_changed_files := 30 |}.

Definition rules_env (insights : list DerivedInsight) : decision_env :=
  {| dn_insights := Ok [{| ia_run_id := "ins_1"; ia_generated_at := dec_now; ia_repo_name := "repo";
                           ia_repo_path := "/srv/repo"; ia_source_snapshots := []; ia_insights := insights |}];
     dn_unreadable_decision := None; dn_proposal_results := []; dn_feedback := [];
     dn_free_mb := Some 100000%Q; dn_write := Ok tt |}.

Definition rules_decision (insights : list DerivedInsight) : decision_world * res ProposalCandidatesArtifact :=
  service_decide dec_settings (build_rules (fun _ => "0.5") None) (rules_env insights)
    (rules_context ALL_FAMILIES) new_world.

Example drift_is_deferred_with_every_family_allowed :
  outcome_of_decision (rules_decision [drift_insight; lint_insight 12]) =
  Some (["lint_fix"], [("dependency_drift_followup", "family_deferred_initial_gating")]).
Proof. vm_compute. reflexivity. Qed.

Example broad_lint_starves_type_fixes :
  outcome_of_decision (rules_decision [lint_insight 31; type_insight]) =
  Some ([], [("type_fix", "upstream_family_in_cycle"); ("lint_fix", "scope_too_broad")]).
Proof. vm_compute. reflexivity. Qed.

Definition drift_decision : decision_world * res ProposalCandidatesArtifact :=
  rules_decision [drift_insight; lint_insight 12].

Lemma dependency_drift_is_never_proposed_witness :
  map pc_family (da_candidates (the_artifact drift_decision no_artifact)) = ["lint_fix"] /\
  Forall (fun c => pc_family c <> "dependency_drift_followup" /\ pc_family c <> "dependency_drift")
    (da_candidates (the_artifact drift_decision no_artifact)).
Proof.
  split; [vm_compute; reflexivity|].
  apply (dependency_drift_is_never_proposed (fun _ => "0.5") dec_settings None
    (rules_env [drift_insight; lint_insight 12]) (rules_context ALL_FAMILIES) new_world
    (fst drift_decision) (the_artifact drift_decision no_artifact)).
  - intros f Hf. exact Hf.
  - vm_compute. reflexivity.
Defined.
