(* ===== verification/LimitClassifier.v ===== *)
(** * Capacity and limit messages

    backends/_capacity_classifier.py, backends/limit_classifier.py and the
    reset-time parser of backends/worker_backend_selector.py, with their
    regular expressions written out. *)
From Stdlib Require Import Ascii.
From S2P Require Import Prelude PyStr PyData UsageStore UsageCooldown Regex.

(** ** _capacity_classifier.py *)

Definition whole (l : list re) : re := seqs ([WordB] ++ l ++ [WordB]).

Definition CAPACITY_PATTERNS : list re := [
  whole [lit "out of "; opt (lit "extra "); lit "usage"];
  whole [lit "usage limit "; alts (lit "reached") [lit "hit"]];
  whole [lit "you"; alts (lit "'ve") [lit " have"]; lit " "; alts (lit "hit") [lit "reached"];
         lit " your "; opt (lit "usage "); lit "limit"];
  whole [lit "quota "; alts (lit "exceeded") [lit "exhausted"]];
  whole [lit "insufficient quota"];
  whole [lit "run out of credits"];
  whole [lit "payment required"]].

Definition newline : ascii := ascii_of_nat 10.

(** The text after the last line feed, and up to the first one. *)
Definition last_line (s : string) : string :=
  String.rev (take_while not_newline (String.rev s)).
Definition first_line (s : string) : string := take_while not_newline s.

(** The excerpt for a match that starts after [start] characters. *)
Definition excerpt (text : string) (start : nat) (matched : string) : string :=
  let line := last_line (str_take start text) +:+ matched +:+
              first_line (str_drop (start + String.length matched) text) in
  "capacity exhaustion detected: " +:+ str_take 160 (strip line).

Definition classify_capacity_exhaustion (combined_output : option string) : option string :=
  match combined_output with
  | None | Some "" => None
  | Some text =>
      head (omap (fun pattern =>
        match search pattern text with
        | Some (start, matched, _) => Some (excerpt text start matched)
        | None => None
        end) CAPACITY_PATTERNS)
  end.

(** ** limit_classifier.py *)

Definition MODEL_RE : re :=
  seqs [WordB; Grp 1 (alts (lit "sonnet") [lit "opus"; lit "haiku"; lit "codex"]); WordB].

Definition SESSION_RE : re :=
  alts (seqs [lit "5"; dot_opt; lit "hour"])
    [seqs [lit "five"; dot_opt; lit "hour"];
     seqs [lit "session"; spaces1; alts (lit "limit") [lit "usage"]]].

Definition GLOBAL_RE : re :=
  alts (seqs [lit "account"; spaces1; lit "limit"])
    [seqs [lit "organi"; Cls (fun c => ci "s" c || ci "z" c); lit "ation"; spaces1; lit "limit"];
     seqs [lit "org"; spaces1; lit "limit"]; seqs [lit "all"; spaces1; lit "models"]].

Definition WEEKLY_RE : re :=
  alts (seqs [lit "weekly"; spaces1; lit "limit"])
    [seqs [lit "per"; dot_opt; lit "week"]; seqs [lit "this"; spaces1; lit "week"]].

Definition LIMIT_SIGNAL_RE : re :=
  alts (seqs [lit "rate"; spaces0; lit "limit"])
    [seqs [lit "usage"; spaces0; lit "limit"]; seqs [lit "weekly"; spaces0; lit "limit"];
     lit "quota"; seqs [lit "too"; spaces1; lit "many"; spaces1; lit "requests"]; lit "429";
     seqs [lit "hit"; spaces1; lit "your"; Rep not_newline 0 (Some 40) true; lit "limit"];
     seqs [lit "sonnet"; spaces1; lit "limit"]; seqs [lit "opus"; spaces1; lit "limit"];
     seqs [lit "haiku"; spaces1; lit "limit"]; seqs [lit "claude"; spaces1; lit "limit"];
     seqs [lit "session"; spaces1; lit "limit"]].

Definition detect_model (text : option string) (default_model : option string) : option string :=
  match text with
  | None | Some "" => default_model
  | Some t =>
      match search MODEL_RE t with
      | Some (_, _, c) => lower <$> group c 1
      | None => default_model
      end
  end.

Definition classify_limit (text : option string) (default_model : option string)
    : option string * option string :=
  match text with
  | None | Some "" => (None, default_model)
  | Some t =>
      let model := detect_model text default_model in
      if matches_in SESSION_RE t then (Some SESSION_5H, None)
      else if matches_in GLOBAL_RE t then (Some GLOBAL_WEEKLY, None)
      else if matches_in WEEKLY_RE t then
        match model with
        | Some m => if str_truthy m then (Some MODEL_WEEKLY, model) else (Some GLOBAL_WEEKLY, None)
        | None => (Some GLOBAL_WEEKLY, None)
        end
      else if opt_truthy model then (Some MODEL_WEEKLY, model)
      else if matches_in LIMIT_SIGNAL_RE t then (Some GENERIC, model)
      else (None, model)
  end.

(** ** Reset times *)

Definition digits (min max : nat) : re := Rep is_digit min (Some max) true.

Definition TIMEZONE_RESET_RE : re :=
  seqs [lit "resets"; spaces1;
        Grp 1 (seqs [digits 1 2; opt (seqs [lit ":"; digits 2 2]); alts (lit "am") [lit "pm"]]);
        spaces1; lit "("; Grp 2 (Rep (not_char ")") 1 None true); lit ")"].

Definition ISO_RESET_RE : re :=
  seqs [lit "reset"; opt (lit "s"); opt (seqs [spaces1; lit "at"]); spaces1;
        Grp 1 (seqs [digits 4 4; lit "-"; digits 2 2; lit "-"; digits 2 2; lit "T"; digits 2 2;
                     lit ":"; digits 2 2; opt (seqs [lit ":"; digits 2 2]); lit "Z"])].

Definition number : re := Rep is_digit 1 None true.

Definition RELATIVE_RESET_RE : re :=
  seqs [alts (lit "try again")
          [lit "retry"; seqs [lit "reset"; opt (lit "s")]; lit "reset"; lit "available again"];
        Rep not_newline 0 (Some 80) false; WordB; lit "in"; spaces1;
        opt (seqs [Grp 1 number; spaces0; lit "h"; opt (seqs [lit "our"; opt (lit "s")])]); spaces0;
        opt (seqs [Grp 2 number; spaces0; lit "m";
                   opt (seqs [lit "in"; opt (lit "ute"); opt (lit "s")])]); spaces0;
        opt (seqs [Grp 3 number; spaces0; lit "s";
                   opt (seqs [lit "ec"; opt (lit "ond"); opt (lit "s")])])].

(** [datetime.fromisoformat] on the text the ISO pattern captures, with the
    offset [+00:00] put for the [Z]: microseconds since the epoch. *)
Definition leap (y : Z) : bool :=
  ((y mod 4 =? 0) && negb (y mod 100 =? 0) || (y mod 400 =? 0))%Z.
Definition days_in_month (y m : Z) : Z :=
  (if m =? 2 then if leap y then 29 else 28
   else if (m =? 4) || (m =? 6) || (m =? 9) || (m =? 11) then 30 else 31)%Z.
Definition days_from_civil (y m d : Z) : Z :=
  (let y' := if m <=? 2 then y - 1 else y in
   let era := y' / 400 in
   let yoe := y' - era * 400 in
   let mp := (m + 9) mod 12 in
   let doy := (153 * mp + 2) / 5 + d - 1 in
   let doe := yoe * 365 + yoe / 4 - yoe / 100 + doy in
   era * 146097 + doe - 719468)%Z.

Definition num_at (s : string) (i n : nat) : Z := digits_val 0 (str_take n (str_drop i s)).

Definition parse_iso_z (s : string) : res datetime :=
  let has_seconds := (20 <=? String.length s)%nat in
  let y := num_at s 0 4 in let mo := num_at s 5 2 in let d := num_at s 8 2 in
  let h := num_at s 11 2 in let mi := num_at s 14 2 in
  let sec := if has_seconds then num_at s 17 2 else 0%Z in
  let upper_z := endswith s "Z" in
  if upper_z && (1 <=? y)%Z && (1 <=? mo)%Z && (mo <=? 12)%Z && (1 <=? d)%Z
     && (d <=? days_in_month y mo)%Z && (h <=? 23)%Z && (mi <=? 59)%Z && (sec <=? 59)%Z
  then Ok (mk_datetime (seconds (days_from_civil y mo d * 86400 + h * 3600 + mi * 60 + sec)) true)
  else Raise (ValueError "Invalid isoformat string").

(** [datetime.strptime(t, "%I:%M%p")] or ["%I%p"]: the minutes since midnight. *)
Definition parse_clock (t : string) : res Z :=
  let hour_text := take_while is_digit t in
  let rest := drop_while is_digit t in
  let minute := if startswith rest ":" then num_at rest 1 2 else 0%Z in
  let hour := digits_val 0 hour_text in
  let pm := endswith t "pm" in
  if (1 <=? hour)%Z && (hour <=? 12)%Z && (minute <=? 59)%Z then
    Ok (((if pm then hour mod 12 + 12 else hour mod 12) * 60 + minute)%Z)
  else Raise (ValueError "time data does not match format").

(** A time zone of the database: local wall time of an instant, and back. *)
Record tzinfo := { tz_to_local : Z -> Z; tz_to_utc : Z -> Z }.

Section Reset.
(** [ZoneInfo(name)], of the standard library's time-zone database: [Ok None]
    is [ZoneInfoNotFoundError], which the code catches. *)
Variable ZoneInfo : string -> res (option tzinfo).

Definition day_us : Z := days 1.

Definition clock_reset (tz : tzinfo) (minutes : Z) (now : datetime) : datetime :=
  let now_local := tz_to_local tz (dt_us now) in
  let reset_local := (now_local / day_us * day_us + seconds (minutes * 60))%Z in
  let reset_local := if (reset_local <=? now_local)%Z then (reset_local + day_us)%Z else reset_local in
  mk_datetime (tz_to_utc tz reset_local) true.

Definition group_number (c : caps) (n : nat) : Z :=
  match group c n with Some s => digits_val 0 s | None => 0%Z end.

(** The last instant a [datetime] can hold; past it [timedelta] or the sum
    raises [OverflowError]. *)
Definition dt_max : Z := (days (days_from_civil 10000 1 1) - 1)%Z.

Definition relative_reset (text : string) (now : datetime) : res (option datetime) :=
  match search RELATIVE_RESET_RE text with
  | Some (_, _, c) =>
      let delta := seconds (group_number c 1 * 3600 + group_number c 2 * 60 + group_number c 3) in
      if (0 <? delta)%Z then
        if (dt_us now + delta <=? dt_max)%Z then Ok (Some (add_us now delta))
        else Raise (OtherError "date value out of range")
      else Ok None
  | None => Ok None
  end.

Definition parse_worker_backend_reset (combined_output : string) (now : datetime)
    : res (option datetime) :=
  match search TIMEZONE_RESET_RE combined_output with
  | Some (_, _, c) =>
      tz <-? ZoneInfo (default "" (group c 2)) ;;
      match tz with
      | None => Ok None
      | Some tz =>
          minutes <-? parse_clock (lower (default "" (group c 1))) ;;
          Ok (Some (clock_reset tz minutes now))
      end
  | None =>
      match search ISO_RESET_RE combined_output with
      | Some (_, _, c) => t <-? parse_iso_z (default "" (group c 1)) ;; Ok (Some t)
      | None => relative_reset combined_output now
      end
  end.
End Reset.

(** ** Properties *)

Definition MODELS : list string := ["sonnet"; "opus"; "haiku"; "codex"].

Lemma MODELS_inv m :
  m ∈ MODELS -> m = "sonnet" \/ m = "opus" \/ m = "haiku" \/ m = "codex".
Proof. unfold MODELS. rewrite !elem_of_cons, elem_of_nil. tauto. Qed.

Ltac models H := apply MODELS_inv in H; destruct H as [H | [H | [H | H]]]; try rewrite H in *.

(** A search for a model finds one exactly where a model's name stands as a
    word, and reports its name in lower case. *)
Lemma detect_model_some t :
  t <> "" -> is_Some (search MODEL_RE t) ->
  exists m, m ∈ MODELS /\ detect_model (Some t) None = Some m.
Proof.
  intros Ht [[[n w] c] H]. unfold detect_model. destruct t as [|d t]; [done|]. rewrite H.
  apply search_inv in H as (prev & s0 & prev' & s' & _ & _ & Hr). unfold MODEL_RE in Hr.
  simpl seqs in Hr. simpl in Hr. destruct (at_boundary prev s0); [|done].
  change (run (alts (lit "sonnet") [lit "opus"; lit "haiku"; lit "codex"]) prev s0 [] (fun prev1 s1 c1 =>
    if at_boundary prev1 s1 then Some (n, consumed s0 s1, (1, consumed s0 s1) :: c1) else None)
    = Some (n, w, c)) in Hr.
  apply run_inv in Hr as (p1 & s1 & c1 & Hm & Hr). destruct (at_boundary p1 s1); [|done].
  injection Hr as _ <-. simpl. apply mt_alts in Hm as (r & Hr & Hm).
  assert (exists m, m ∈ MODELS /\ r = lit m) as (m & Hin & ->).
  { rewrite !elem_of_cons in Hr. destruct Hr as [-> | [-> | [-> | [-> | ?%elem_of_nil]]]];
      [exists "sonnet" | exists "opus" | exists "haiku" | exists "codex" | done];
      (split; [by apply (bool_decide_unpack _) | done]). }
  apply mt_lit_inv in Hm as (x & Hx & ->). exists m. split; [done|].
  rewrite consumed_app, Hx. by models Hin.
Qed.

Fixpoint all_str (p : ascii -> bool) (s : string) : bool :=
  match s with EmptyString => true | String c s' => p c && all_str p s' end.

Lemma is_word_lower c : is_lower (lower_ascii c) = true -> is_word c = true.
Proof. by destruct c as [[] [] [] [] [] [] [] []]. Qed.

Lemma word_ends m :
  m <> "" -> all_str is_lower (lower m) = true ->
  (exists c m', m = String c m' /\ is_word c = true) /\
  forall o, exists c, last_char o m = Some c /\ is_word c = true.
Proof.
  intros Hne. induction m as [|c m IH]; [done|]. intros [Hc Hm]%andb_true_iff.
  apply is_word_lower in Hc. split; [by eauto|]. intros o. simpl.
  destruct m as [|d m]; [by eauto|]. by apply IH.
Qed.

(** The text [m] stands as a word between [pre] and [post]. *)
Definition word_between (pre post : string) : bool :=
  match last_char None pre with Some c => negb (is_word c) | None => true end &&
  match post with String c _ => negb (is_word c) | EmptyString => true end.

Lemma search_model pre m post :
  lower m ∈ MODELS -> word_between pre post = true ->
  is_Some (search MODEL_RE (pre +:+ m +:+ post)).
Proof.
  intros Hm [Hpre Hpost]%andb_true_iff. apply search_at_spec.
  exists (last_char None pre), (m +:+ post), (last_char (last_char None pre) m), post.
  split; [apply position_app|].
  assert (Hends : at_boundary (last_char None pre) (m +:+ post) = true /\
    at_boundary (last_char (last_char None pre) m) post = true).
  { assert (m <> "" /\ all_str is_lower (lower m) = true) as [Hne Hl].
    { split; [intros ->|]; models Hm; done. }
    destruct (word_ends m Hne Hl) as [(c & m' & -> & Hc) Hlast]. split.
    - unfold at_boundary. simpl. rewrite Hc. destruct (last_char None pre); [|done].
      by apply negb_true_iff in Hpre as ->.
    - destruct (Hlast (last_char None pre)) as (d & -> & Hd). unfold at_boundary. rewrite Hd.
      destruct post; [done|]. by apply negb_true_iff in Hpost as ->. }
  destruct Hends as [H1 H2]. unfold MODEL_RE.
  eapply mt_seq; [by constructor|]. eapply mt_seq; [|eapply mt_seq; [by constructor | constructor]].
  apply mt_grp, mt_alts. exists (lit (lower m)). split.
  - models Hm; rewrite !elem_of_cons; auto.
  - apply mt_lit. by models Hm.
Qed.

(** a message in which a model's name stands as a word anywhere, in any
    letter case, is classified as a limit of a model, whatever else it says,
    unless it names the session window or an account limit (which win), or a
    bare weekly limit: no other word of quota or limit is required.  So the
    documented answer None, "no limit signal at all", is never given for a
    crash report that names codex. *)
Theorem naming_a_model_is_a_limit pre m post :
  lower m ∈ MODELS -> word_between pre post = true ->
  let t := pre +:+ m +:+ post in
  matches_in SESSION_RE t = false -> matches_in GLOBAL_RE t = false ->
  exists model, model ∈ MODELS /\ classify_limit (Some t) None = (Some MODEL_WEEKLY, Some model).
Proof.
  intros Hm Hw t Hs Hg. assert (Hne : t <> "").
  { unfold t. destruct pre; [|done]. destruct m; [|done]. models Hm; done. }
  destruct (detect_model_some t Hne (search_model pre m post Hm Hw)) as (model & Hin & Hd).
  exists model. split; [done|]. unfold classify_limit. rewrite Hd, Hs, Hg.
  assert (str_truthy model = true) as Htr.
  { models Hin; subst; done. }
  unfold opt_truthy. rewrite Htr. destruct t; [done|]. by destruct (matches_in WEEKLY_RE _).
Qed.

Lemma naming_a_model_is_a_limit_witness :
  exists model, model ∈ MODELS /\
    classify_limit (Some "the codex process crashed: exit code 1") None
      = (Some MODEL_WEEKLY, Some model).
Proof.
  apply (naming_a_model_is_a_limit "the " "codex" " process crashed: exit code 1").
  - by apply (bool_decide_unpack _).
  - reflexivity.
  - vm_compute. reflexivity.
  - vm_compute. reflexivity.
Defined.

Example limit_examples :
  map (fun s => classify_limit (Some s) None)
    ["You've hit your Sonnet weekly limit"; "5-hour window used up"; "Organization limit reached";
     "HTTP 429"; "codex process crashed with exit code 1"; "segmentation fault"]
  = [(Some "model_weekly", Some "sonnet"); (Some "session_5h", None); (Some "global_weekly", None);
     (Some "generic", None); (Some "model_weekly", Some "codex"); (None, None)].
Proof. vm_compute. reflexivity. Qed.

Example reset_examples :
  let now := mk_datetime (seconds (days_from_civil 2026 5 1 * 86400 + 3600)) true in
  let tz := {| tz_to_local := fun t => t; tz_to_utc := fun t => t |} in
  let zi := fun s => Ok (if String.eqb s "UTC" then Some tz else None) in
  let from_now s := (r <-? parse_worker_backend_reset zi s now ;;
                     Ok ((fun t => (dt_us t - dt_us now) / second)%Z <$> r)) in
  map from_now
    ["limit hit; resets 4:20am (UTC)"; "resets 1am (UTC)"; "resets at 2026-05-01T02:00Z";
     "try again in 2h 5m"; "retry in 45 seconds"; "resets 3pm (Mars/X)"; "nothing";
     "resets 13pm (UTC)"]
  = [Ok (Some 12000); Ok (Some 86400); Ok (Some 3600); Ok (Some 7500); Ok (Some 45);
     Ok None; Ok None; Raise (ValueError "time data does not match format")]%Z.
Proof. vm_compute. reflexivity. Qed.

Example excerpt_example :
  classify_capacity_exhaustion (Some ("start" +:+ String newline "  You're out of extra usage now " +:+
    String newline "end"))
  = Some "capacity exhaustion detected: You're out of extra usage now".
Proof. vm_compute. reflexivity. Qed.
