(* ===== verification/WorkerBackends.v ===== *)
(** * Choosing a worker backend

    backends/worker_backend_selector.py: which worker backends may run a
    request, which of them are cooling down, and the round robin that runs the
    request once, or twice when the first backend turns out to be exhausted.
    The ledger behind it is the interface [usage_port]; [usage_store_port] is
    the one that execution/usage_store.py provides.  Log lines are not
    modelled. *)
From Stdlib Require Import Ascii.
From S2P Require Import Prelude PyStr PyData UsageStore UsageCooldown Regex LimitClassifier.

(** ** Pools and candidates *)

Definition REMOTE_WORKER_BACKENDS : list string := ["claude_code"; "codex_cli"].
Definition LOCAL_WORKER_BACKENDS : list string := ["aider_local"; "direct_local"].
Definition SUPPORTED_WORKER_BACKENDS : list string :=
  ["claude_code"; "codex_cli"; "aider_local"; "direct_local"].

Definition PROVIDER_TO_WORKER_BACKEND : gmap string string :=
  list_to_map [("claude", "claude_code"); ("anthropic", "claude_code");
               ("codex", "codex_cli"); ("openai", "codex_cli")].

(** [raw]: the variable OPERATIONS_CENTER_ALLOWED_PROVIDERS, empty if unset. *)
Definition allowed_remote_worker_backends (raw : string) : list string :=
  let raw := strip raw in
  if negb (str_truthy raw) then REMOTE_WORKER_BACKENDS
  else
    let allowed := omap (fun provider =>
        PROVIDER_TO_WORKER_BACKEND !! lower (strip provider)) (split_on "," raw) in
    List.filter (fun backend => str_in backend allowed) REMOTE_WORKER_BACKENDS.

(** The pool with the preferred backend first, when the pool has it. *)
Definition preferred_first (preferred_backend : string) (pool : list string) : list string :=
  if negb (str_in preferred_backend pool) then pool
  else preferred_backend ::
       List.filter (fun backend => negb (String.eqb backend preferred_backend)) pool.

Definition worker_backend_candidates (raw preferred_backend : string) : list string :=
  if negb (str_in preferred_backend SUPPORTED_WORKER_BACKENDS) then [preferred_backend]
  else
    let pool := if str_in preferred_backend REMOTE_WORKER_BACKENDS
                then allowed_remote_worker_backends raw else LOCAL_WORKER_BACKENDS in
    if list_truthy pool then preferred_first preferred_backend pool else [].

Definition alternate_worker_backend (worker_backend : string) : option string :=
  let pool := if str_in worker_backend REMOTE_WORKER_BACKENDS
              then REMOTE_WORKER_BACKENDS else LOCAL_WORKER_BACKENDS in
  find_first (fun candidate => negb (String.eqb candidate worker_backend)) pool.

(** ** Selections *)

(** The reason of a selection without a backend, as the values its text
    prints. *)
Inductive SelectionReason :=
  | NoAllowedBackends (preferred_backend : string)
  | AllCoolingDown (until : list (string * datetime)).

Record WorkerBackendSelection := {
  sel_preferred_backend : string;
  sel_selected_backend : option string;
  sel_cooldowns : list (string * option datetime);
  sel_reason : option SelectionReason }.

Record WorkerBackendExecution (T : Type) := {
  ex_selected_backend : option string;
  ex_payload : option T;
  ex_fallback_used : bool;
  ex_selection : WorkerBackendSelection }.
Arguments ex_selected_backend {T}. Arguments ex_payload {T}.
Arguments ex_fallback_used {T}. Arguments ex_selection {T}.

(** ** The ledger as the selector sees it

    A duck-typed object in a world [W]: each method may be missing.  The
    readers take the backend and, if given, [now]; the recorder takes the
    backend, the reset, [now] and, if given, the limit kind and the model. *)
Record usage_port (W : Type) := {
  up_blocked_until : option (W -> string -> option datetime -> res (option datetime));
  up_cooldown_until : option (W -> string -> option datetime -> res (option datetime));
  up_record : option (W -> string -> datetime -> datetime ->
                      option (string * option string) -> W * res unit) }.
Arguments up_blocked_until {W}. Arguments up_cooldown_until {W}. Arguments up_record {W}.

(** [a <= b] on optional cooldowns: [None or <= current]. *)
Definition is_free (current : datetime) (cooldown_until : option datetime) : res bool :=
  match cooldown_until with None => Ok true | Some t => dt_le t current end.

Section Selector.
Context {W : Type} (usage_store : usage_port W).
(** The provider allow-list, [datetime.now(UTC)] in a world, and the time-zone
    database. *)
Context (raw : string) (clock : W -> datetime) (ZoneInfo : string -> res (option tzinfo)).

Definition read_worker_backend_cooldown (w : W) (worker_backend : string) (now : datetime)
    : res (option datetime) :=
  let getter := match up_blocked_until usage_store with
                | Some g => Some g
                | None => up_cooldown_until usage_store
                end in
  match getter with
  | None => Ok None
  | Some g =>
      match g w worker_backend (Some now) with
      | Raise (TypeError _) => g w worker_backend None
      | r => r
      end
  end.

Fixpoint read_cooldowns (w : W) (now : datetime) (candidates : list string)
    : res (list (string * option datetime)) :=
  match candidates with
  | [] => Ok []
  | b :: rest =>
      c <-? read_worker_backend_cooldown w b now ;;
      cs <-? read_cooldowns w now rest ;;
      Ok ((b, c) :: cs)
  end.

Fixpoint first_free (now : datetime) (cooldowns : list (string * option datetime))
    : res (option string) :=
  match cooldowns with
  | [] => Ok None
  | (b, c) :: rest =>
      free <-? is_free now c ;;
      if free : bool then Ok (Some b) else first_free now rest
  end.

Definition select_worker_backend (w : W) (preferred_backend : string) (dynamic_enabled : bool)
    (current : datetime) : res WorkerBackendSelection :=
  let candidates := worker_backend_candidates raw preferred_backend in
  let selection selected cooldowns reason :=
    {| sel_preferred_backend := preferred_backend; sel_selected_backend := selected;
       sel_cooldowns := cooldowns; sel_reason := reason |} in
  match candidates with
  | [] => Ok (selection None [] (Some (NoAllowedBackends preferred_backend)))
  | _ :: _ =>
      cooldowns <-? read_cooldowns w current candidates ;;
      if negb dynamic_enabled then Ok (selection (Some preferred_backend) cooldowns None)
      else
        chosen <-? first_free current cooldowns ;;
        Ok (match chosen with
            | Some backend => selection (Some backend) cooldowns None
            | None =>
                selection None cooldowns
                  (Some (AllCoolingDown (omap (fun bc => pair (fst bc) <$> snd bc) cooldowns)))
            end)
  end.

(** ** Recording an exhausted backend *)

Definition maybe_record_worker_backend_cooldown (w : W) (worker_backend : string)
    (combined_output : option string) (current : datetime) : W * res (option datetime) :=
  match combined_output with
  | None | Some "" => (w, Ok None)
  | Some text =>
      match parse_worker_backend_reset ZoneInfo text current with
      | Raise e => (w, Raise e)
      | Ok None => (w, Ok None)
      | Ok (Some reset_at) =>
          let '(limit_kind, model) := classify_limit combined_output None in
          let limit_kind := default GENERIC limit_kind in
          match up_record usage_store with
          | None => (w, Ok (Some reset_at))
          | Some recorder =>
              let '(w, r) :=
                match recorder w worker_backend reset_at current (Some (limit_kind, model)) with
                | (w, Raise (TypeError _)) => recorder w worker_backend reset_at current None
                | wr => wr
                end in
              match r with
              | Ok _ => (w, Ok (Some reset_at))
              | Raise e => (w, Raise e)
              end
          end
      end
  end.

(** ** The round robin *)

Section RoundRobin.
Context {T : Type} (execute_once : string -> W -> W * res T).
Context (failed : T -> bool) (failure_text : T -> option string).

Definition executed (selected : option string) (payload : option T) (fallback_used : bool)
    (selection : WorkerBackendSelection) : WorkerBackendExecution T :=
  {| ex_selected_backend := selected; ex_payload := payload;
     ex_fallback_used := fallback_used; ex_selection := selection |}.

Definition run_fallback (w : W) (fallback_backend : string)
    (fallback_selection : WorkerBackendSelection) : W * res (WorkerBackendExecution T) :=
  match execute_once fallback_backend w with
  | (w, Raise e) => (w, Raise e)
  | (w, Ok payload) =>
      let done := executed (Some fallback_backend) (Some payload) true fallback_selection in
      if failed payload then
        match maybe_record_worker_backend_cooldown w fallback_backend (failure_text payload)
                (clock w) with
        | (w, Raise e) => (w, Raise e)
        | (w, Ok _) => (w, Ok done)
        end
      else (w, Ok done)
  end.

(** After the primary backend failed with [payload]. *)
Definition after_failure (w : W) (preferred_backend : string) (dynamic_enabled : bool)
    (primary_backend : string) (payload : T) (selection : WorkerBackendSelection)
    : W * res (WorkerBackendExecution T) :=
  let keep sel := executed (Some primary_backend) (Some payload) false sel in
  match maybe_record_worker_backend_cooldown w primary_backend (failure_text payload) (clock w) with
  | (w, Raise e) => (w, Raise e)
  | (w, Ok None) => (w, Ok (keep selection))
  | (w, Ok (Some _)) =>
      if negb dynamic_enabled then (w, Ok (keep selection))
      else
        match select_worker_backend w preferred_backend true (clock w) with
        | Raise e => (w, Raise e)
        | Ok fallback_selection =>
            match sel_selected_backend fallback_selection with
            | None => (w, Ok (keep fallback_selection))
            | Some fallback_backend =>
                if String.eqb fallback_backend primary_backend
                then (w, Ok (keep fallback_selection))
                else run_fallback w fallback_backend fallback_selection
            end
        end
  end.

Definition execute_with_worker_backend_round_robin (w : W) (preferred_backend : string)
    (dynamic_enabled : bool) : W * res (WorkerBackendExecution T) :=
  match select_worker_backend w preferred_backend dynamic_enabled (clock w) with
  | Raise e => (w, Raise e)
  | Ok selection =>
      match sel_selected_backend selection with
      | None => (w, Ok (executed None None false selection))
      | Some primary_backend =>
          match execute_once primary_backend w with
          | (w, Raise e) => (w, Raise e)
          | (w, Ok payload) =>
              if negb (failed payload)
              then (w, Ok (executed (Some primary_backend) (Some payload) false selection))
              else after_failure w preferred_backend dynamic_enabled primary_backend payload
                     selection
          end
      end
  end.
End RoundRobin.
End Selector.

(** [UsageStore] as the selector's ledger: the world holds the usage file. *)
Record ledger_world := { lw_file : file; lw_now : datetime; lw_free_mb : option Q }.

Definition usage_store_port : usage_port ledger_world := {|
  up_blocked_until := Some (fun w backend now =>
    worker_backend_blocked_until (lw_file w) (default (lw_now w) now) backend);
  up_cooldown_until := Some (fun w backend now =>
    worker_backend_cooldown_until (lw_file w) (default (lw_now w) now) backend);
  up_record := Some (fun w backend reset_at now kinds =>
    let '(f, r) := record_worker_backend_cooldown (lw_free_mb w) (lw_file w) now backend reset_at
                     (fst <$> kinds) (kinds ≫= snd) in
    ({| lw_file := f; lw_now := lw_now w; lw_free_mb := lw_free_mb w |}, r)) |}.

(** ** Candidates *)

Lemma NoDup_filter_bool {A} (p : A -> bool) (l : list A) : NoDup l -> NoDup (List.filter p l).
Proof.
  induction 1 as [|x l Hx Hl IH]; simpl; [constructor|]. destruct (p x); [|done].
  constructor; [|done]. by rewrite elem_of_filter_bool; intros [? _].
Qed.

Lemma elem_of_preferred_first p pool x : x ∈ preferred_first p pool <-> x ∈ pool.
Proof.
  unfold preferred_first. destruct (str_in p pool) eqn:E; simpl; [|done].
  apply str_in_spec in E. rewrite elem_of_cons, elem_of_filter_bool.
  destruct (String.eqb_spec x p); simpl; naive_solver.
Qed.

Lemma preferred_first_nodup p pool : NoDup pool -> NoDup (preferred_first p pool).
Proof.
  unfold preferred_first. destruct (negb _); [done|]. intros H. constructor.
  - rewrite elem_of_filter_bool, String.eqb_refl. by intros [_ ?].
  - by apply NoDup_filter_bool.
Qed.

Lemma allowed_remote_nodup raw : NoDup (allowed_remote_worker_backends raw).
Proof.
  assert (NoDup REMOTE_WORKER_BACKENDS) as H by (by apply (bool_decide_unpack _)).
  unfold allowed_remote_worker_backends. destruct (negb _); [done|]. by apply NoDup_filter_bool.
Qed.

Lemma candidates_nodup raw preferred : NoDup (worker_backend_candidates raw preferred).
Proof.
  unfold worker_backend_candidates. destruct (negb _); [by apply NoDup_singleton|].
  set (pool := if str_in _ _ then _ else _). destruct (list_truthy pool); [|constructor].
  apply preferred_first_nodup. unfold pool. destruct (str_in _ _); [apply allowed_remote_nodup|].
  by apply (bool_decide_unpack _).
Qed.

(** For a remote backend the candidates are the allowed ones, and for a local
    one the local ones. *)
Lemma elem_of_candidates raw preferred b :
  preferred ∈ SUPPORTED_WORKER_BACKENDS ->
  b ∈ worker_backend_candidates raw preferred <->
  b ∈ (if str_in preferred REMOTE_WORKER_BACKENDS
       then allowed_remote_worker_backends raw else LOCAL_WORKER_BACKENDS).
Proof.
  intros Hp. unfold worker_backend_candidates. rewrite (proj2 (str_in_spec _ _) Hp). simpl. set (pool := if str_in _ _ then _ else _).
  destruct pool as [|x l]; simpl; [done|]. apply elem_of_preferred_first.
Qed.

(** ** Selection *)

Section SelectionProofs.
Context {W : Type} (usage_store : usage_port W) (raw : string).

(** The ledger answers for [b], with a time that can be compared with [now]. *)
Definition readable (w : W) (now : datetime) (b : string) : Prop :=
  exists c, read_worker_backend_cooldown usage_store w b now = Ok c /\
    match c with Some t => dt_aware t = dt_aware now | None => True end.

Definition free_at (w : W) (now : datetime) (b : string) : Prop :=
  exists c, read_worker_backend_cooldown usage_store w b now = Ok c /\
    match c with Some t => (dt_us t <= dt_us now)%Z | None => True end.

Definition cooling_at (w : W) (now : datetime) (b : string) : Prop :=
  exists t, read_worker_backend_cooldown usage_store w b now = Ok (Some t) /\
    (dt_us now < dt_us t)%Z.

Lemma read_cooldowns_ok w now l :
  Forall (readable w now) l ->
  exists cs, read_cooldowns usage_store w now l = Ok cs /\ Forall2 (fun b bc =>
    fst bc = b /\ read_worker_backend_cooldown usage_store w b now = Ok (snd bc) /\
    match snd bc with Some t => dt_aware t = dt_aware now | None => True end) l cs.
Proof.
  induction 1 as [|b l (c & Hc & Ha) Hl (cs & Hcs & IH)]; simpl; [by eexists; split|].
  rewrite Hc. simpl. rewrite Hcs. simpl. eexists. split; [done|]. by constructor.
Qed.

Lemma first_free_spec w now l cs :
  Forall2 (fun b bc =>
    fst bc = b /\ read_worker_backend_cooldown usage_store w b now = Ok (snd bc) /\
    match snd bc with Some t => dt_aware t = dt_aware now | None => True end) l cs ->
  exists chosen, first_free now cs = Ok chosen /\
  match chosen with
  | Some b => exists before after, l = before ++ b :: after /\ free_at w now b /\
                Forall (cooling_at w now) before
  | None => Forall (cooling_at w now) l
  end.
Proof.
  induction 1 as [|b [b' c] l cs (Hb & Hc & Ha) Hl (chosen & IH & Hx)]; simpl;
    [by exists None|].
  simpl in *. subst b'. destruct c as [t|]; simpl.
  - unfold dt_le, same_kind. rewrite Ha, Bool.eqb_reflx. simpl.
    destruct (dt_us t <=? dt_us now)%Z eqn:E; boolify.
    + eexists. split; [done|]. exists [], l. split; [done|]. split; [|constructor].
      exists (Some t). done.
    + rewrite IH. exists chosen. split; [done|].
      assert (cooling_at w now b) by (exists t; done). destruct chosen as [b'|].
      * destruct Hx as (before & after & -> & Hf & Hb). exists (b :: before), after.
        split; [done|]. split; [done|]. by constructor.
      * by constructor.
  - eexists. split; [done|]. exists [], l. split; [done|]. split; [|constructor].
    by exists None.
Qed.

Lemma dynamic_selection_ok w preferred now :
  Forall (readable w now) (worker_backend_candidates raw preferred) ->
  exists s, select_worker_backend usage_store raw w preferred true now = Ok s /\
  (match sel_selected_backend s with
   | Some b => exists before after,
       worker_backend_candidates raw preferred = before ++ b :: after /\
       free_at w now b /\ Forall (cooling_at w now) before
   | None => Forall (cooling_at w now) (worker_backend_candidates raw preferred)
   end) /\
  (preferred ∈ REMOTE_WORKER_BACKENDS -> forall b, sel_selected_backend s = Some b ->
     b ∈ allowed_remote_worker_backends raw).
Proof.
  intros Hr. destruct (read_cooldowns_ok w now _ Hr) as (cs & Hcs & Hall).
  destruct (first_free_spec w now _ cs Hall) as (chosen & Hch & Hx).
  assert (Hallowed : preferred ∈ REMOTE_WORKER_BACKENDS -> forall b before after,
      worker_backend_candidates raw preferred = before ++ b :: after ->
      b ∈ allowed_remote_worker_backends raw).
  { intros Hrem b before after E. pose proof (elem_of_candidates raw preferred b) as He.
    rewrite (proj2 (str_in_spec _ _) Hrem) in He. apply He.
    - unfold REMOTE_WORKER_BACKENDS, SUPPORTED_WORKER_BACKENDS in *. set_solver.
    - rewrite E. set_solver. }
  unfold select_worker_backend. destruct (worker_backend_candidates raw preferred) eqn:E.
  - eexists. split; [done|]. simpl. split; [constructor | done].
  - rewrite Hcs. simpl. rewrite Hch. simpl. eexists. split; [done|].
    destruct chosen as [b|]; simpl; [|done]. split; [done|].
    intros Hrem b' [= <-]. destruct Hx as (before & after & E' & _). by eapply Hallowed.
Qed.

(** with dynamic selection the backend chosen is the first candidate, in
    order of preference, that is not cooling down; no backend is chosen only
    when every candidate is cooling down.  For a remote preference every
    candidate is one the provider allow-list permits, so a backend outside the
    list is never chosen. *)
Theorem dynamic_selection_spec w preferred now :
  Forall (readable w now) (worker_backend_candidates raw preferred) ->
  exists s, select_worker_backend usage_store raw w preferred true now = Ok s /\
  (match sel_selected_backend s with
   | Some b => exists before after,
       worker_backend_candidates raw preferred = before ++ b :: after /\
       free_at w now b /\ Forall (cooling_at w now) before
   | None => Forall (cooling_at w now) (worker_backend_candidates raw preferred)
   end) /\
  (preferred ∈ REMOTE_WORKER_BACKENDS -> forall b, sel_selected_backend s = Some b ->
     b ∈ allowed_remote_worker_backends raw).
Proof. apply dynamic_selection_ok. Qed.
End SelectionProofs.

(** ** The round robin *)

Section RoundRobinProofs.
Context {W T : Type} (usage_store : usage_port W) (raw : string) (clock : W -> datetime).
Context (ZoneInfo : string -> res (option tzinfo)).
Context (execute_once : string -> W -> W * res T) (failed : T -> bool).
Context (failure_text : T -> option string).

(** [calls w]: the executions made so far in [w]; only [execute_once] makes
    one. *)
Variable calls : W -> list (string * res T).
Hypothesis execute_once_calls : forall b w,
  calls (fst (execute_once b w)) = calls w ++ [(b, snd (execute_once b w))].
Hypothesis record_calls : forall recorder w b t now kinds,
  up_record usage_store = Some recorder -> calls (fst (recorder w b t now kinds)) = calls w.

Lemma maybe_record_calls w b text now :
  calls (fst (maybe_record_worker_backend_cooldown usage_store ZoneInfo w b text now)) = calls w.
Proof.
  unfold maybe_record_worker_backend_cooldown. destruct text as [[|c s]|]; try done.
  destruct (parse_worker_backend_reset _ _ _) as [[t|]|]; try done.
  destruct (classify_limit _ _) as [kind model]. destruct (up_record usage_store) as [rec|] eqn:Hr; [|done].
  pose proof (record_calls rec w b t now (Some (default GENERIC kind, model)) eq_refl) as H1.
  destruct (rec w b t now (Some _)) as [w1 r1]. simpl in H1.
  pose proof (record_calls rec w1 b t now None eq_refl) as H2.
  destruct (rec w1 b t now None) as [w2 r2]. simpl in H2.
  destruct r1 as [[]|[]]; simpl; try congruence. by destruct r2; simpl; congruence.
Qed.

(** The failure text of [x] names a reset that was parsed. *)
Definition exhausted (x : T) : Prop :=
  exists text now t, failure_text x = Some text /\
    parse_worker_backend_reset ZoneInfo text now = Ok (Some t).

Lemma maybe_record_exhausted w b x now t :
  snd (maybe_record_worker_backend_cooldown usage_store ZoneInfo w b (failure_text x) now)
    = Ok (Some t) -> exhausted x.
Proof.
  unfold maybe_record_worker_backend_cooldown.
  destruct (failure_text x) as [[|c s]|] eqn:Ht; simpl; try done.
  destruct (parse_worker_backend_reset _ _ _) as [[t'|]|] eqn:Hp; simpl; try done.
  intros _. by eexists _, _, _.
Qed.

(** The shapes of a round robin's executions. *)
Inductive rounds (dynamic_enabled : bool) : list (string * res T) -> Prop :=
  | no_round : rounds dynamic_enabled []
  | one_round p x : rounds dynamic_enabled [(p, x)]
  | two_rounds p x q y :
      p <> q -> dynamic_enabled = true -> failed x = true -> exhausted x ->
      rounds dynamic_enabled [(p, Ok x); (q, y)].

Definition reported (runs : list (string * res T)) (r : res (WorkerBackendExecution T)) : Prop :=
  match r with
  | Raise _ => True
  | Ok ex =>
      ex_fallback_used ex = bool_decide (length runs = 2) /\
      match last runs with
      | None => ex_selected_backend ex = None /\ ex_payload ex = None
      | Some (b, y) => exists x, y = Ok x /\ ex_selected_backend ex = Some b /\ ex_payload ex = Some x
      end
  end.

Lemma run_fallback_calls w b sel :
  let '(w', r) := run_fallback usage_store clock ZoneInfo execute_once failed failure_text w b sel in
  exists y, calls w' = calls w ++ [(b, y)] /\
    match r with
    | Ok ex => exists x, y = Ok x /\ ex = executed (Some b) (Some x) true sel
    | Raise _ => True
    end.
Proof.
  unfold run_fallback. pose proof (execute_once_calls b w) as H.
  destruct (execute_once b w) as [w1 [x|e]]; simpl in *; [|by exists (Raise e)].
  destruct (failed x).
  - pose proof (maybe_record_calls w1 b (failure_text x) (clock w1)) as H1.
    destruct (maybe_record_worker_backend_cooldown _ _ _ _ _ _) as [w2 [o|e]]; simpl in *;
      exists (Ok x); rewrite H1, H; split; eauto.
  - exists (Ok x). split; eauto.
Qed.

(** C11: a round robin executes the request at most twice.  It executes twice
    only with dynamic selection, on two different backends, and only after the
    first execution failed with a message whose reset time was read; and it
    reports the backend and the result of the last execution, with
    [fallback_used] exactly when there were two. *)
Theorem round_robin_executions w preferred dynamic_enabled :
  let '(w', r) := execute_with_worker_backend_round_robin usage_store raw clock ZoneInfo
                    execute_once failed failure_text w preferred dynamic_enabled in
  exists runs, calls w' = calls w ++ runs /\ rounds dynamic_enabled runs /\ reported runs r.
Proof.
  unfold execute_with_worker_backend_round_robin.
  destruct (select_worker_backend _ _ _ _ _ _) as [sel|e];
    [|by exists []; rewrite app_nil_r; repeat constructor].
  destruct (sel_selected_backend sel) as [p|];
    [|by exists []; rewrite app_nil_r; repeat constructor].
  pose proof (execute_once_calls p w) as H. destruct (execute_once p w) as [w1 [x|e]]; simpl in H;
    [|by exists [(p, Raise e)]; repeat constructor].
  assert (Hone : forall w' s, calls w' = calls w1 -> exists runs, calls w' = calls w ++ runs /\
    rounds dynamic_enabled runs /\ reported runs (Ok (executed (Some p) (Some x) false s))).
  { intros w' s E. exists [(p, Ok x)]. rewrite E. repeat constructor; [done|]. simpl. eauto. }
  assert (Hraise : forall w' e, calls w' = calls w1 -> exists runs, calls w' = calls w ++ runs /\
    rounds dynamic_enabled runs /\ reported runs (Raise e)).
  { intros w' e E. exists [(p, Ok x)]. rewrite E. repeat constructor. done. }
  destruct (failed x) eqn:Hf; simpl; [|by apply (Hone _ sel)].
  unfold after_failure. pose proof (maybe_record_calls w1 p (failure_text x) (clock w1)) as H1.
  pose proof (maybe_record_exhausted w1 p x (clock w1)) as Hex.
  destruct (maybe_record_worker_backend_cooldown _ _ _ _ _ _) as [w2 [[t|]|e]]; simpl in H1, Hex;
    [|by apply (Hone _ sel) | by apply Hraise].
  destruct dynamic_enabled; simpl; [|by apply (Hone _ sel)].
  destruct (select_worker_backend _ _ _ _ _ _) as [sel2|e]; [|by apply Hraise].
  destruct (sel_selected_backend sel2) as [q|]; [|by apply (Hone _ sel)].
  destruct (String.eqb_spec q p) as [->|Hne]; [by apply (Hone _ sel)|].
  pose proof (run_fallback_calls w2 q sel2) as Hrun.
  destruct (run_fallback _ _ _ _ _ _ _ _) as [w3 r]. destruct Hrun as (y & Hc & Hr).
  exists [(p, Ok x); (q, y)]. split; [by rewrite Hc, H1, H, <-app_assoc|]. split.
  - constructor; eauto.
  - destruct r as [ex|]; [|done]. destruct Hr as (z & -> & ->). split; [done|]. simpl. eauto.
Qed.
End RoundRobinProofs.

(** ** The selector on the usage store *)

Lemma usage_store_readable w b now :
  dt_aware now = true -> file_ok (lw_file w) -> readable usage_store_port w now b.
Proof.
  intros Hn Hf. destruct (blocked_until_answers (lw_file w) now b Hn Hf) as (c & Hc & Ha).
  exists c. unfold read_worker_backend_cooldown. simpl. rewrite Hc. split; [done|].
  destruct c; [congruence | done].
Qed.

(** [w] at a later time. *)
Definition at_time (w : ledger_world) (now : datetime) : ledger_world :=
  {| lw_file := lw_file w; lw_now := now; lw_free_mb := lw_free_mb w |}.

Lemma classify_limit_account text kind :
  kind = SESSION_5H \/ kind = GLOBAL_WEEKLY -> fst (classify_limit (Some text) None) = Some kind ->
  snd (classify_limit (Some text) None) = None.
Proof.
  unfold classify_limit. destruct text as [|c s]; [done|].
  destruct (matches_in SESSION_RE _); [done|]. destruct (matches_in GLOBAL_RE _); [done|].
  destruct (matches_in WEEKLY_RE _).
  - destruct (detect_model _ _) as [m|]; [|done]. destruct (str_truthy m); [|done].
    simpl. by intros [-> | ->].
  - destruct (opt_truthy _); simpl; [by intros [-> | ->]|].
    destruct (matches_in LIMIT_SIGNAL_RE _); simpl; [by intros [-> | ->] | done].
Qed.

(** once the failure of a backend with a message of a session or account
    limit has been recorded, dynamic selection answers and does not choose that
    backend until the reset the message names (within the week a record
    lives). *)
Theorem account_limit_moves_selection ZoneInfo raw w preferred wb text now later_now reset_at kind :
  check_disk_space (lw_free_mb w) = Ok tt -> file_ok (lw_file w) ->
  dt_aware now = true -> dt_aware reset_at = true -> dt_aware later_now = true ->
  parse_worker_backend_reset ZoneInfo text now = Ok (Some reset_at) ->
  kind = SESSION_5H \/ kind = GLOBAL_WEEKLY -> fst (classify_limit (Some text) None) = Some kind ->
  (dt_us now <= dt_us later_now)%Z -> (dt_us later_now < dt_us reset_at)%Z ->
  (dt_us later_now <= dt_us now + days 7)%Z ->
  let '(w', r) := maybe_record_worker_backend_cooldown usage_store_port ZoneInfo w wb (Some text) now in
  r = Ok (Some reset_at) /\
  exists s, select_worker_backend usage_store_port raw (at_time w' later_now) preferred true later_now = Ok s /\
    sel_selected_backend s <> Some wb.
Proof.
  intros Hd Hf Hn Hr Hl Hp Hk Hc H1 H2 H3. pose proof (classify_limit_account text kind Hk Hc) as Hm.
  unfold maybe_record_worker_backend_cooldown. destruct text as [|c s]; [done|]. rewrite Hp.
  destruct (classify_limit _ _) as [kind' model]. simpl in Hc, Hm. subst kind' model. simpl.
  pose proof (record_cooldown_file_ok (lw_free_mb w) (lw_file w) now wb reset_at (Some kind) None
    Hd Hn Hr Hf) as Hf'.
  destruct (account_limit_blocks_until (lw_free_mb w) (lw_file w) now wb reset_at (Some kind) None
    later_now) as (t & Ht & Hrt); try done; [by right|].
  rewrite record_cooldown_ok in * by done. simpl in *. split; [done|].
  set (w' := at_time _ _). assert (readable usage_store_port w' later_now wb /\
    forall b, readable usage_store_port w' later_now b) as [_ Hread].
  { split; [|intros b]; by apply usage_store_readable. }
  destruct (dynamic_selection_ok usage_store_port raw w' preferred later_now) as (s' & Hs & Hx & _).
  { apply Forall_true. exact Hread. }
  exists s'. split; [exact Hs|]. intros E. rewrite E in Hx.
  destruct Hx as (_ & _ & _ & (x & Hx & Hle) & _).
  unfold read_worker_backend_cooldown in Hx. simpl in Hx. rewrite Ht in Hx. injection Hx as <-. lia.
Qed.

(** With dynamic selection off the allow-list is not consulted. *)
Example static_selection_ignores_allow_list :
  sel_selected_backend <$> select_worker_backend usage_store_port "openai"
    {| lw_file := None; lw_now := t0; lw_free_mb := None |} "claude_code" false t0
  = Ok (Some "claude_code").
Proof. vm_compute. reflexivity. Qed.

(** ** Witnesses *)

Definition utc_only (name : string) : res (option tzinfo) :=
  Ok (if String.eqb name "UTC" then Some {| tz_to_local := fun t => t; tz_to_utc := fun t => t |}
      else None).

Definition sample_world : ledger_world :=
  {| lw_file := sonnet_file; lw_now := in_hours 1; lw_free_mb := Some 1000%Q |}.

Lemma dynamic_selection_spec_witness :
  exists s, select_worker_backend usage_store_port "claude,codex" sample_world "codex_cli" true
    (in_hours 1) = Ok s /\ sel_selected_backend s = Some "codex_cli".
Proof.
  destruct (dynamic_selection_spec usage_store_port "claude,codex" sample_world "codex_cli"
    (in_hours 1)) as (s & Hs & _).
  - apply Forall_true. intros b. apply usage_store_readable; [done | exact sonnet_file_ok].
  - exists s. split; [exact Hs|].
    assert (sel_selected_backend <$> select_worker_backend usage_store_port "claude,codex"
      sample_world "codex_cli" true (in_hours 1) = Ok (Some "codex_cli")) as E
      by (vm_compute; reflexivity).
    rewrite Hs in E. injection E as E. exact E.
Defined.

(** A world that counts its executions beside the ledger: each backend's
    execution fails with a message of a session limit. *)
Definition log_world : Type := list (string * res string) * ledger_world.

Definition log_port : usage_port log_world := {|
  up_blocked_until := Some (fun w backend now =>
    worker_backend_blocked_until (lw_file (snd w)) (default (in_hours 1) now) backend);
  up_cooldown_until := None;
  up_record := Some (fun w backend reset_at now kinds =>
    let '(f, r) := record_worker_backend_cooldown (lw_free_mb (snd w)) (lw_file (snd w)) now backend
                     reset_at (fst <$> kinds) (kinds ≫= snd) in
    ((fst w, {| lw_file := f; lw_now := now; lw_free_mb := lw_free_mb (snd w) |}), r)) |}.

Definition session_message : string := "5-hour limit reached; try again in 2h".

Definition log_execute (backend : string) (w : log_world) : log_world * res string :=
  ((fst w ++ [(backend, Ok session_message)], snd w), Ok session_message).

Lemma round_robin_executions_witness :
  let '(w', r) := execute_with_worker_backend_round_robin log_port "" (fun _ => in_hours 1) utc_only
    log_execute (fun _ => true) Some ([], sample_world) "claude_code" true in
  fst w' = [("claude_code", Ok session_message); ("codex_cli", Ok session_message)] /\
  exists runs, fst w' = [] ++ runs /\ reported runs r.
Proof.
  pose proof (round_robin_executions log_port "" (fun _ => in_hours 1) utc_only log_execute
    (fun _ => true) Some fst (fun b w => eq_refl)) as H.
  assert (forall recorder w b t now kinds,
    up_record log_port = Some recorder -> fst (fst (recorder w b t now kinds)) = fst w) as Hrec.
  { intros recorder w b t now kinds [= <-]. by destruct (record_worker_backend_cooldown _ _ _ _ _ _ _). }
  specialize (H Hrec ([], sample_world) "claude_code" true).
  assert (fst (fst (execute_with_worker_backend_round_robin log_port "" (fun _ => in_hours 1) utc_only
    log_execute (fun _ => true) Some ([], sample_world) "claude_code" true))
    = [("claude_code", Ok session_message); ("codex_cli", Ok session_message)]) as E
    by (vm_compute; reflexivity).
  destruct (execute_with_worker_backend_round_robin _ _ _ _ _ _ _ _ _ _) as [w' r].
  split; [exact E|]. destruct H as (runs & Hc & _ & Hr). exists runs. split; [exact Hc | exact Hr].
Defined.

Lemma account_limit_moves_selection_witness :
  let w' := fst (maybe_record_worker_backend_cooldown usage_store_port utc_only sample_world
    "claude_code" (Some session_message) (in_hours 1)) in
  exists s, select_worker_backend usage_store_port "" (at_time w' (in_hours 2)) "claude_code" true
    (in_hours 2) = Ok s /\ sel_selected_backend s <> Some "claude_code".
Proof.
  pose proof (account_limit_moves_selection utc_only "" sample_world "claude_code" "claude_code"
    session_message (in_hours 1) (in_hours 2) (in_hours 3) SESSION_5H eq_refl sonnet_file_ok
    eq_refl eq_refl eq_refl) as H.
  destruct (maybe_record_worker_backend_cooldown _ _ _ _ _ _) as [w' r].
  apply H; try (vm_compute; congruence); try (vm_compute; reflexivity). by left.
Defined.
