(* ===== verification/Lifecycle.v ===== *)
(** * The lifecycle runner

    lifecycle/runner.py: plan, execute and verify around a request, under a
    stage policy, with every stage reported.  The stage handlers are arguments;
    they may raise.  At the end, drift/engine.py: the four detectors of drift
    between what was asked for and what was observed. *)
From S2P Require Import Prelude PyStr PyData Contracts.

(** ** lifecycle/models.py: stage inputs and outputs *)

Record Check_ := { chk_check_id : string; chk_description : option string }.
Record CheckResult := { cr_check_id : string; cr_passed : bool; cr_reason : option string }.
Record PlanOutput := {
  plan_summary : string;
  plan_target_repos : list string;
  plan_steps : list string;
  plan_checks : list Check_ }.
Record ExecuteOutput := { exo_result_ref : string; exo_status : string; exo_error : option string }.
Record VerifyOutput := { vo_verification_status : string; vo_checks : list CheckResult }.

Definition failures (v : VerifyOutput) : list CheckResult :=
  List.filter (fun c => negb (cr_passed c)) (vo_checks v).

Definition default_lifecycle_metadata : LifecycleMetadata :=
  {| lm_requested_stages := [PLAN; EXECUTE; VERIFY]; lm_stage_policy := STOP_ON_FIRST_FAILURE |}.

(** ** runner.py *)

(** [{r.check_id: r for r in results}.get(id)]: the last result with the id. *)
Definition result_by_id (results : list CheckResult) (id : string) : option CheckResult :=
  find_first (fun r => String.eqb (cr_check_id r) id) (rev results).

Definition materialize (results : list CheckResult) (check : Check_) : CheckResult :=
  match result_by_id results (chk_check_id check) with
  | Some r => r
  | None => {| cr_check_id := chk_check_id check; cr_passed := false;
               cr_reason := Some "check not reported by verify handler" |}
  end.

Definition build_verify_output (declared : list Check_) (results : list CheckResult) : VerifyOutput :=
  let materialized := map (materialize results) declared in
  {| vo_verification_status := if forallb cr_passed materialized then "pass" else "fail";
     vo_checks := materialized |}.

Section Runner.
Context {Req Graph : Type}.

Record StageHandlers := {
  h_plan : Req -> option Graph -> res PlanOutput;
  h_execute : Req -> PlanOutput -> res ExecuteOutput;
  h_verify : Req -> PlanOutput -> ExecuteOutput -> res (list CheckResult) }.

(** The outputs so far, and whether a stage failed. *)
Record progress := {
  pg_plan : option PlanOutput;
  pg_execute : option ExecuteOutput;
  pg_verify : option VerifyOutput;
  pg_failed : bool }.

Definition start : progress :=
  {| pg_plan := None; pg_execute := None; pg_verify := None; pg_failed := false |}.

(** The body of the [try]: the outputs after the stage, and the exception that
    failed it.  A verify stage that fails its checks has stored its output. *)
Definition run_stage (h : StageHandlers) (request : Req) (graph : option Graph)
    (stage : TaskLifecycleStage) (p : progress) : progress * option exn :=
  let fail e := (p, Some e) in
  match stage with
  | PLAN =>
      match h_plan h request graph with
      | Ok o => ({| pg_plan := Some o; pg_execute := pg_execute p; pg_verify := pg_verify p;
                    pg_failed := pg_failed p |}, None)
      | Raise e => fail e
      end
  | EXECUTE =>
      match pg_plan p with
      | None => fail (RuntimeError "execute stage requires plan stage to have run")
      | Some plan =>
          match h_execute h request plan with
          | Ok o => ({| pg_plan := pg_plan p; pg_execute := Some o; pg_verify := pg_verify p;
                        pg_failed := pg_failed p |}, None)
          | Raise e => fail e
          end
      end
  | VERIFY =>
      match pg_plan p, pg_execute p with
      | Some plan, Some execution =>
          match h_verify h request plan execution with
          | Ok results =>
              let out := build_verify_output (plan_checks plan) results in
              ({| pg_plan := pg_plan p; pg_execute := pg_execute p; pg_verify := Some out;
                  pg_failed := pg_failed p |},
               if negb (String.eqb (vo_verification_status out) "pass")
               then Some (StageFailure "verification failed") else None)
          | Raise e => fail e
          end
      | _, _ => fail (RuntimeError "verify stage requires both plan and execute stages")
      end
  end.

Definition fail_stage (p : progress) : progress :=
  {| pg_plan := pg_plan p; pg_execute := pg_execute p; pg_verify := pg_verify p; pg_failed := true |}.

Definition report (stage : TaskLifecycleStage) (status : StageStatus) (error : option string)
    : StageReport := {| sr_stage := stage; sr_status := status; sr_error := error |}.

(** The loop over the requested stages: the reports in order. *)
Fixpoint run_stages (h : StageHandlers) (request : Req) (graph : option Graph)
    (policy : LifecycleStagePolicy) (stages : list TaskLifecycleStage) (p : progress)
    : progress * list StageReport :=
  match stages with
  | [] => (p, [])
  | stage :: rest =>
      if pg_failed p && bool_decide (policy = STOP_ON_FIRST_FAILURE) then
        let '(p', rs) := run_stages h request graph policy rest p in
        (p', report stage ST_SKIPPED None :: rs)
      else
        match run_stage h request graph stage p with
        | (p1, None) =>
            let '(p', rs) := run_stages h request graph policy rest p1 in
            (p', report stage ST_SUCCEEDED None :: rs)
        | (p1, Some e) =>
            let '(p', rs) := run_stages h request graph policy rest (fail_stage p1) in
            (p', report stage ST_FAILED (Some (exn_text e)) :: rs)
        end
  end.

(** The stages a report list files under a status: what [completed], [failed]
    and [skipped] collect. *)
Definition stages_with (status : StageStatus) (reports : list StageReport) : list TaskLifecycleStage :=
  map sr_stage (List.filter (fun r => bool_decide (sr_status r = status)) reports).

Record LifecycleResult := {
  lr_plan : option PlanOutput;
  lr_execute : option ExecuteOutput;
  lr_verify : option VerifyOutput;
  lr_outcome : LifecycleOutcome }.

Definition run (h : StageHandlers) (request : Req) (metadata : LifecycleMetadata)
    (graph : option Graph) : LifecycleResult :=
  let '(p, reports) := run_stages h request graph (lm_stage_policy metadata)
                         (lm_requested_stages metadata) start in
  {| lr_plan := pg_plan p; lr_execute := pg_execute p; lr_verify := pg_verify p;
     lr_outcome := {| lo_completed_stages := stages_with ST_SUCCEEDED reports;
                      lo_failed_stages := stages_with ST_FAILED reports;
                      lo_skipped_stages := stages_with ST_SKIPPED reports;
                      lo_reports := reports |} |}.
End Runner.
Arguments StageHandlers : clear implicits.

(** ** Properties *)

Section RunnerProofs.
Context {Req Graph : Type}.
Implicit Types (h : StageHandlers Req Graph) (request : Req) (graph : option Graph).

(** The shape of the reports from a state: under the stopping policy, after a
    failure everything is skipped. *)
Inductive stop_shape : bool -> list StageReport -> Prop :=
  | ss_nil failed : stop_shape failed []
  | ss_skip stage rs : stop_shape true rs -> stop_shape true (report stage ST_SKIPPED None :: rs)
  | ss_ok stage rs : stop_shape false rs -> stop_shape false (report stage ST_SUCCEEDED None :: rs)
  | ss_fail stage e rs :
      stop_shape true rs -> stop_shape false (report stage ST_FAILED (Some e) :: rs).

Lemma run_stage_failed h request graph stage p : pg_failed (fst (run_stage h request graph stage p)) = pg_failed p.
Proof.
  unfold run_stage. destruct stage.
  - by destruct (h_plan _ _ _).
  - destruct (pg_plan p); [|done]. by destruct (h_execute _ _ _).
  - destruct (pg_plan p); [|done]. destruct (pg_execute p); [|done]. by destruct (h_verify _ _ _ _).
Qed.

Lemma run_stages_stop h request graph stages p :
  stop_shape (pg_failed p) (snd (run_stages h request graph STOP_ON_FIRST_FAILURE stages p)).
Proof.
  revert p. induction stages as [|stage stages IH]; intros p; simpl; [constructor|].
  destruct (pg_failed p) eqn:Hp; simpl.
  - specialize (IH p). destruct (run_stages _ _ _ _ _ _) as [p' rs]. simpl in *.
    rewrite Hp in IH. by constructor.
  - pose proof (run_stage_failed h request graph stage p) as Hf.
    destruct (run_stage h request graph stage p) as [p1 [e|]]; simpl in Hf.
    + specialize (IH (fail_stage p1)). destruct (run_stages _ _ _ _ _ _) as [p' rs].
      by constructor.
    + specialize (IH p1). destruct (run_stages _ _ _ _ _ _) as [p' rs]. simpl in *.
      rewrite Hf, Hp in IH. by constructor.
Qed.

Lemma run_stages_stages h request graph policy stages p :
  map sr_stage (snd (run_stages h request graph policy stages p)) = stages.
Proof.
  revert p. induction stages as [|stage stages IH]; intros p; simpl; [done|].
  destruct (_ && _).
  - specialize (IH p). destruct (run_stages _ _ _ _ _ _). simpl in *. by rewrite IH.
  - destruct (run_stage h request graph stage p) as [p1 [e|]].
    + specialize (IH (fail_stage p1)). destruct (run_stages _ _ _ _ _ _). simpl in *. by rewrite IH.
    + specialize (IH p1). destruct (run_stages _ _ _ _ _ _). simpl in *. by rewrite IH.
Qed.

Lemma run_stages_statuses h request graph policy stages p :
  Forall (fun r => sr_status r = ST_SUCCEEDED \/ sr_status r = ST_FAILED \/
    (sr_status r = ST_SKIPPED /\ policy = STOP_ON_FIRST_FAILURE))
    (snd (run_stages h request graph policy stages p)).
Proof.
  revert p. induction stages as [|stage stages IH]; intros p; simpl; [constructor|].
  destruct (pg_failed p && _) eqn:Hs.
  - apply andb_true_iff in Hs as [_ Hs%bool_decide_eq_true].
    specialize (IH p). destruct (run_stages _ _ _ _ _ _). constructor; [auto | done].
  - destruct (run_stage h request graph stage p) as [p1 [e|]].
    + specialize (IH (fail_stage p1)). destruct (run_stages _ _ _ _ _ _). constructor; [auto | done].
    + specialize (IH p1). destruct (run_stages _ _ _ _ _ _). constructor; [auto | done].
Qed.

(** Filing reports by status loses none of them. *)
Lemma stages_partition rs :
  Forall (fun r => sr_status r = ST_SUCCEEDED \/ sr_status r = ST_FAILED \/ sr_status r = ST_SKIPPED) rs ->
  map sr_stage rs ≡ₚ stages_with ST_SUCCEEDED rs ++ stages_with ST_FAILED rs ++ stages_with ST_SKIPPED rs.
Proof.
  unfold stages_with. induction 1 as [|r rs Hr Hrs IH]; simpl; [done|].
  destruct Hr as [Hr | [Hr | Hr]]; rewrite Hr; simpl; rewrite IH.
  - done.
  - by rewrite Permutation_middle.
  - rewrite !app_assoc. by rewrite Permutation_middle.
Qed.

(** the runner reports every requested stage exactly once and in order,
    files each as completed, failed or skipped and under one of them only, and
    under the stopping policy runs no stage after the first that fails, while
    the best-effort policy never skips one. *)
Theorem lifecycle_reports_every_stage h request metadata graph :
  let o := lr_outcome (run h request metadata graph) in
  map sr_stage (lo_reports o) = lm_requested_stages metadata /\
  lm_requested_stages metadata ≡ₚ
    lo_completed_stages o ++ lo_failed_stages o ++ lo_skipped_stages o /\
  match lm_stage_policy metadata with
  | STOP_ON_FIRST_FAILURE => stop_shape false (lo_reports o)
  | RUN_ALL_BEST_EFFORT => lo_skipped_stages o = []
  end.
Proof.
  unfold run.
  pose proof (run_stages_stages h request graph (lm_stage_policy metadata) (lm_requested_stages metadata) start) as H1.
  pose proof (run_stages_statuses h request graph (lm_stage_policy metadata) (lm_requested_stages metadata) start) as H2.
  pose proof (run_stages_stop h request graph (lm_requested_stages metadata) start) as H3.
  destruct (lm_stage_policy metadata);
    destruct (run_stages _ _ _ _ _ _) as [p rs]; simpl in *.
  - split; [done|]. split; [|done]. rewrite <-H1 at 1. apply stages_partition.
    eapply Forall_impl; [exact H2|]. naive_solver.
  - split; [done|]. split.
    + rewrite <-H1 at 1. apply stages_partition. eapply Forall_impl; [exact H2|]. naive_solver.
    + unfold stages_with. rewrite filter_none; [done|]. eapply Forall_impl; [exact H2|].
      intros r Hr. simpl in Hr. apply bool_decide_eq_false.
      intros E. destruct Hr as [? | [? | [_ ?]]]; congruence.
Qed.

(** What it takes for a verify stage to succeed. *)
Definition verified h request (p : progress) : Prop :=
  exists plan execution results,
    pg_plan p = Some plan /\ pg_execute p = Some execution /\
    h_verify h request plan execution = Ok results /\
    Forall (fun c => exists r, result_by_id results (chk_check_id c) = Some r /\ cr_passed r = true)
      (plan_checks plan).

Lemma verify_output_pass declared results :
  vo_verification_status (build_verify_output declared results) = "pass" <->
  Forall (fun c => exists r, result_by_id results (chk_check_id c) = Some r /\ cr_passed r = true) declared.
Proof.
  unfold build_verify_output. simpl. rewrite Forall_forall. destruct (forallb _ _) eqn:E.
  - split; [|done]. intros _ c Hc. rewrite forallb_forall in E.
    assert (Hm : cr_passed (materialize results c) = true).
    { apply E. apply in_map. by apply list_elem_of_In. }
    unfold materialize in Hm. destruct (result_by_id _ _) as [r|]; [by exists r | done].
  - split; [done|]. intros H. exfalso. apply not_true_iff_false in E. apply E.
    apply forallb_forall. intros r (c & <- & Hc)%in_map_iff.
    destruct (H c) as (r & Hr & Hp); [by apply list_elem_of_In|]. unfold materialize. by rewrite Hr.
Qed.

Lemma run_stage_verify h request graph p :
  snd (run_stage h request graph VERIFY p) = None <-> verified h request p.
Proof.
  unfold run_stage, verified.
  destruct (pg_plan p) as [plan|]; [|split; [done | intros (? & ? & ? & ? & _); congruence]].
  destruct (pg_execute p) as [execution|];
    [|split; [done | intros (? & ? & ? & _ & ? & _); congruence]].
  destruct (h_verify h request plan execution) as [results|] eqn:Hv;
    [|split; [done | intros (? & ? & ? & [= <-] & [= <-] & ? & _); congruence]].
  pose proof (verify_output_pass (plan_checks plan) results) as Hp. cbn [snd].
  destruct (String.eqb_spec (vo_verification_status (build_verify_output (plan_checks plan) results)) "pass")
    as [E|E]; simpl.
  - split; [|done]. intros _. exists plan, execution, results. by rewrite <-Hp.
  - split; [done|]. intros (? & ? & ? & [= <-] & [= <-] & Hv' & Hall).
    rewrite Hv in Hv'. injection Hv' as <-. by apply Hp in Hall.
Qed.

(** with the default plan, execute and verify handlers and metadata, the
    verify stage is completed exactly when planning and execution gave their
    outputs and the verify handler's last result for every check the plan
    declares is a pass: a check it leaves out counts as failed. *)
Theorem verify_completed_iff_checks_pass h request graph :
  VERIFY ∈ lo_completed_stages (lr_outcome (run h request default_lifecycle_metadata graph)) <->
  exists plan execution results,
    h_plan h request graph = Ok plan /\ h_execute h request plan = Ok execution /\
    h_verify h request plan execution = Ok results /\
    Forall (fun c => exists r, result_by_id results (chk_check_id c) = Some r /\ cr_passed r = true)
      (plan_checks plan).
Proof.
  unfold run. simpl lm_requested_stages. simpl lm_stage_policy. cbn [run_stages].
  simpl pg_failed. rewrite andb_false_l. cbn [run_stage].
  destruct (h_plan h request graph) as [plan|e]; simpl;
    [|split; [by intros ?%elem_of_nil | intros (? & ? & ? & ? & _); congruence]].
  destruct (h_execute h request plan) as [execution|e] eqn:He; simpl;
    [|split; [intros ?%list_elem_of_singleton; done | intros (? & ? & ? & [= <-] & ? & _); congruence]].
  destruct (h_verify h request plan execution) as [results|e] eqn:Hv; simpl.
  2: { split; [by intros [?|[?|?%elem_of_nil]%elem_of_cons]%elem_of_cons|].
       intros (? & ? & ? & [= <-] & He' & Hv' & _). rewrite He in He'. injection He' as <-. congruence. }
  pose proof (verify_output_pass (plan_checks plan) results) as Hp. simpl in Hp.
  destruct (forallb _ _); simpl.
  - split; [|by intros _; right; right; left]. intros _. exists plan, execution, results.
    by rewrite <-Hp.
  - split; [by intros [?|[?|?%elem_of_nil]%elem_of_cons]%elem_of_cons|].
    intros (? & ? & ? & [= <-] & He' & Hv' & Hall).
    rewrite He in He'. injection He' as <-. rewrite Hv in Hv'. injection Hv' as <-.
    by apply Hp in Hall.
Qed.
End RunnerProofs.

Example stop_example :
  let h := {| h_plan := fun (_ : unit) (_ : option unit) => Raise (ValueError "no plan");
              h_execute := fun _ _ => Ok {| exo_result_ref := "r"; exo_status := "s"; exo_error := None |};
              h_verify := fun _ _ _ => Ok [] |} in
  map (fun r => (sr_status r, sr_error r))
    (lo_reports (lr_outcome (run h tt default_lifecycle_metadata None)))
  = [(ST_FAILED, Some "no plan"); (ST_SKIPPED, None); (ST_SKIPPED, None)].
Proof. reflexivity. Qed.

(** ** Backend drift

    drift/engine.py: comparing what a backend reports with what it was bound
    or allowed to do.  Bound runtimes and agent models are dicts of strings,
    what their only callers build; observed values are any JSON values. *)

Inductive DriftKind := DK_RUNTIME | DK_CAPABILITY | DK_OUTPUT_SHAPE | DK_INTERNAL_ROUTING.

#[export] Instance DriftKind_eq_dec : EqDecision DriftKind. Proof. solve_decision. Defined.

Record BackendDriftFinding := {
  bdf_backend_id : string;
  bdf_request_id : string;
  bdf_drift_type : DriftKind;
  bdf_observed : dict;
  bdf_bound_or_allowed : dict;
  bdf_impact : string }.

Definition CXRP_RESULT_TOP_LEVEL_FIELDS : gset string :=
  list_to_set ["schema_version"; "contract_kind"; "result_id"; "request_id"; "ok"; "status";
               "summary"; "artifacts"; "diagnostics"; "evidence"; "metadata"; "created_at"].

(** [sorted(s)] on a set of strings. *)
Definition sorted_set (s : gset string) : list string := sorted_by str_leb (elements s).

(** [observed.get(k) is not None and observed.get(k) != v]. *)
Definition differs (observed : dict) (k v : string) : bool :=
  match dget observed k with JNull => false | o => negb (jeq_str o v) end.

(** The keys of the dict comprehension over the bound items. *)
Definition diff_keys (bound : gmap string string) (observed : dict) : gset string :=
  dom (filter (fun kv : string * string => differs observed (fst kv) (snd kv) = true) bound).

Definition detect_with (kind : DriftKind) (impact : string) (backend_id request_id : string)
    (bound : gmap string string) (observed : dict) : option BackendDriftFinding :=
  let diffs := sorted_set (diff_keys bound observed) in
  if negb (list_truthy diffs) then None
  else Some {| bdf_backend_id := backend_id; bdf_request_id := request_id;
               bdf_drift_type := kind; bdf_observed := observed;
               bdf_bound_or_allowed := JStr <$> bound;
               bdf_impact := impact +:+ repr_list diffs |}.

Definition detect_runtime_drift (backend_id request_id : string) (bound_runtime : gmap string string)
    (observed_runtime : dict) : option BackendDriftFinding :=
  detect_with DK_RUNTIME "backend executed with runtime fields differing from bound: "
    backend_id request_id bound_runtime observed_runtime.

Definition detect_internal_routing_drift (backend_id request_id : string)
    (bound_agent_models observed_agent_models : gmap string string) : option BackendDriftFinding :=
  detect_with DK_INTERNAL_ROUTING "internal agents diverged from pinned models: "
    backend_id request_id bound_agent_models (JStr <$> observed_agent_models).

Definition strs (s : gset string) : jval := JList (map JStr (sorted_set s)).

Definition detect_capability_drift (backend_id request_id : string)
    (allowed_capabilities used_capabilities : gset string) : option BackendDriftFinding :=
  let over := used_capabilities ∖ allowed_capabilities in
  if decide (over = ∅) then None
  else Some {| bdf_backend_id := backend_id; bdf_request_id := request_id;
               bdf_drift_type := DK_CAPABILITY;
               bdf_observed := {["used" := strs used_capabilities]};
               bdf_bound_or_allowed := {["allowed" := strs allowed_capabilities]};
               bdf_impact := "backend used unauthorized capabilities: " +:+
                             repr_list (sorted_set over) |}.

Definition detect_output_shape_drift (backend_id request_id : string) (result_payload : dict)
    : option BackendDriftFinding :=
  let extra := dom result_payload ∖ CXRP_RESULT_TOP_LEVEL_FIELDS in
  if decide (extra = ∅) then None
  else Some {| bdf_backend_id := backend_id; bdf_request_id := request_id;
               bdf_drift_type := DK_OUTPUT_SHAPE;
               bdf_observed := {["extra_top_level_fields" := strs extra]};
               bdf_bound_or_allowed := {["schema" := JStr "CxRP ExecutionResult v0.2"]};
               bdf_impact := "backend returned top-level fields outside CxRP schema: " +:+
                             repr_list (sorted_set extra) |}.

(** ** Properties *)

Lemma elem_of_diff_keys bound observed k :
  k ∈ diff_keys bound observed <->
  exists v, bound !! k = Some v /\ dget observed k <> JNull /\ dget observed k <> JStr v.
Proof.
  unfold diff_keys. rewrite elem_of_dom. split.
  - intros [v [Hv Hd]%map_lookup_filter_Some]. exists v. split; [done|]. simpl in Hd.
    unfold differs in Hd. split; [by intros E; rewrite E in Hd|].
    intros E. rewrite E in Hd. simpl in Hd. by rewrite String.eqb_refl in Hd.
  - intros (v & Hv & Hn & Hne). exists v. apply map_lookup_filter_Some. split; [done|]. simpl.
    unfold differs. destruct (dget observed k) eqn:E; try done. simpl.
    destruct (String.eqb_spec s v); [congruence | done].
Qed.

Lemma elem_of_sorted_set s k : k ∈ sorted_set s <-> k ∈ s.
Proof. unfold sorted_set. by rewrite sorted_by_perm, elem_of_elements. Qed.

Lemma sorted_set_nil s : list_truthy (sorted_set s) = false <-> s = ∅.
Proof.
  split.
  - intros H. apply set_eq. intros k. rewrite <-elem_of_sorted_set.
    destruct (sorted_set s); [|done]. by rewrite elem_of_nil, elem_of_empty.
  - intros ->. done.
Qed.

(** runtime drift is reported exactly when the backend observed, for some
    field the runtime binding pins, a value other than the pinned one (a field
    it did not report never counts), and the finding's impact lists exactly
    those fields. *)
Theorem runtime_drift_iff backend_id request_id bound observed :
  match detect_runtime_drift backend_id request_id bound observed with
  | None => forall k v, bound !! k = Some v -> dget observed k = JNull \/ dget observed k = JStr v
  | Some f => exists keys, keys <> [] /\
      bdf_impact f = "backend executed with runtime fields differing from bound: " +:+ repr_list keys /\
      forall k, k ∈ keys <->
        exists v, bound !! k = Some v /\ dget observed k <> JNull /\ dget observed k <> JStr v
  end.
Proof.
  unfold detect_runtime_drift, detect_with.
  destruct (list_truthy (sorted_set (diff_keys bound observed))) eqn:E; simpl.
  - exists (sorted_set (diff_keys bound observed)). split; [by apply list_truthy_spec|].
    split; [done|]. intros k. by rewrite elem_of_sorted_set, elem_of_diff_keys.
  - apply sorted_set_nil in E. intros k v Hv.
    assert (k ∉ diff_keys bound observed) as Hk by (rewrite E; apply not_elem_of_empty).
    rewrite elem_of_diff_keys in Hk. destruct (jeq_str (dget observed k) v) eqn:Ed.
    + right. by apply jeq_str_eq.
    + destruct (jeq_opt (dget observed k) None) eqn:En; [left; by apply jeq_opt_eq in En|].
      exfalso. apply Hk. exists v. split; [done|]. split; intros H; rewrite H in Ed, En; [done|].
      simpl in Ed. by rewrite String.eqb_refl in Ed.
Qed.
