(* ===== verification/Handoff.v ===== *)
(** * Building execution requests

    execution/handoff.py: an [ExecutionRequest] from a proposal, its routing
    decision, the runtime context and, the second time, the policy decision.
    The source registry's provenance and the fresh run id are arguments. *)
From S2P Require Import Prelude PyStr PyData Contracts PolicyModels PolicyEngine.

Record ProposalDecisionBundle := {
  b_proposal : OcPlanningProposal;
  b_decision : OcRoutingDecision }.

Record ExecutionRuntimeContext := {
  rt_workspace_path : string;
  rt_task_branch : string;
  rt_goal_file_path : option string;
  rt_runtime_binding : option RuntimeBindingSummary;
  rt_lifecycle : option LifecycleMetadata }.

(** [replace(runtime, runtime_binding=summary)]. *)
Definition with_runtime_binding (r : ExecutionRuntimeContext) (b : RuntimeBindingSummary)
    : ExecutionRuntimeContext :=
  {| rt_workspace_path := rt_workspace_path r; rt_task_branch := rt_task_branch r;
     rt_goal_file_path := rt_goal_file_path r; rt_runtime_binding := Some b;
     rt_lifecycle := rt_lifecycle r |}.

(** [_bound_target_from_decision]; [provenance]: the registry's entry, [None]
    when there is none or it cannot be read. *)
Definition bound_target_from_decision (provenance : string -> option BackendProvenanceMirror)
    (bundle : ProposalDecisionBundle) (runtime_binding : option RuntimeBindingSummary)
    : BoundExecutionTargetMirror :=
  let backend_id := BackendName_value (dec_selected_backend (b_decision bundle)) in
  let lane := LaneName_value (dec_selected_lane (b_decision bundle)) in
  {| bt_lane := lane; bt_backend := backend_id; bt_executor := Some lane;
     bt_runtime_binding := runtime_binding; bt_provenance := provenance backend_id |}.

(** [a or b] on lists. *)
Definition list_or {A} (a b : list A) : list A := match a with [] => b | _ :: _ => a end.

Definition effective_scope_of (proposal : OcPlanningProposal) (policy_decision : option PolicyDecision)
    : list string :=
  let own := list_or (con_allowed_paths (prop_constraints proposal))
                     (target_allowed_paths (prop_target proposal)) in
  match policy_decision with
  | Some d => list_or (pd_effective_scope d) own
  | None => own
  end.

Definition build (provenance : string -> option BackendProvenanceMirror) (run_id : string)
    (bundle : ProposalDecisionBundle) (runtime : ExecutionRuntimeContext)
    (policy_decision : option PolicyDecision) : ExecutionRequest :=
  let proposal := b_proposal bundle in
  {| req_run_id := run_id;
     req_proposal_id := prop_proposal_id proposal;
     req_decision_id := dec_decision_id (b_decision bundle);
     req_goal_text := replace "{{RUN_ID}}" run_id (prop_goal_text proposal);
     req_constraints_text := prop_constraints_text proposal;
     req_repo_key := target_repo_key (prop_target proposal);
     req_clone_url := target_clone_url (prop_target proposal);
     req_base_branch := target_base_branch (prop_target proposal);
     req_task_branch := rt_task_branch runtime;
     req_workspace_path := rt_workspace_path runtime;
     req_goal_file_path := rt_goal_file_path runtime; (* a [Path] is never false *)
     req_allowed_paths := effective_scope_of proposal policy_decision;
     req_max_changed_files := con_max_changed_files (prop_constraints proposal);
     req_timeout_seconds := con_timeout_seconds (prop_constraints proposal);
     req_require_clean_validation := con_require_clean_validation (prop_constraints proposal);
     req_validation_commands := vp_commands (prop_validation_profile proposal);
     req_idempotent := false;
     req_runtime_binding := rt_runtime_binding runtime;
     req_bound_target := Some (bound_target_from_decision provenance bundle
                                 (rt_runtime_binding runtime));
     req_lifecycle := rt_lifecycle runtime |}.

(** ** Properties *)

Lemma effective_scope_request config proposal decision request :
  pd_effective_scope (evaluate config proposal decision (Some request))
  = list_or (req_allowed_paths request) (target_allowed_paths (prop_target proposal)).
Proof.
  unfold evaluate, build_decision. destruct (existsb _ _); simpl; by destruct (req_allowed_paths request).
Qed.

(** the request that is dispatched is the one the policy gate judged: the
    second build, with the gate's decision on the first, keeps the scope (the
    proposal's allowed paths, or else the target's) and every other field but
    the run id and the run id inside the goal text. *)
Theorem dispatched_request_is_judged config provenance id1 id2 bundle runtime :
  let judged := build provenance id1 bundle runtime None in
  let decision := evaluate config (b_proposal bundle) (b_decision bundle) (Some judged) in
  let dispatched := build provenance id2 bundle runtime (Some decision) in
  req_allowed_paths dispatched = req_allowed_paths judged /\
  req_allowed_paths judged = list_or (con_allowed_paths (prop_constraints (b_proposal bundle)))
    (target_allowed_paths (prop_target (b_proposal bundle))) /\
  dispatched = {|
    req_run_id := id2; req_proposal_id := req_proposal_id judged;
    req_decision_id := req_decision_id judged;
    req_goal_text := replace "{{RUN_ID}}" id2 (prop_goal_text (b_proposal bundle));
    req_constraints_text := req_constraints_text judged; req_repo_key := req_repo_key judged;
    req_clone_url := req_clone_url judged; req_base_branch := req_base_branch judged;
    req_task_branch := req_task_branch judged; req_workspace_path := req_workspace_path judged;
    req_goal_file_path := req_goal_file_path judged; req_allowed_paths := req_allowed_paths judged;
    req_max_changed_files := req_max_changed_files judged;
    req_timeout_seconds := req_timeout_seconds judged;
    req_require_clean_validation := req_require_clean_validation judged;
    req_validation_commands := req_validation_commands judged;
    req_idempotent := req_idempotent judged; req_runtime_binding := req_runtime_binding judged;
    req_bound_target := req_bound_target judged; req_lifecycle := req_lifecycle judged |}.
Proof.
  intros judged decision dispatched.
  assert (Hs : req_allowed_paths dispatched = req_allowed_paths judged).
  { unfold dispatched, decision. simpl. rewrite effective_scope_request. simpl. unfold effective_scope_of.
    by destruct (con_allowed_paths _), (target_allowed_paths _). }
  split; [exact Hs|]. split; [done|]. rewrite <-Hs. done.
Qed.
