(* ===== verification/Coordinator.v ===== *)
(** * The execution coordinator

    execution/coordinator.py, the boundary every dispatch crosses, with
    execution/cl_wrap.py.  Stateful code is written in [Eff], a state and error
    monad over the usage ledger, the health registry and the trace of effects;
    what lies outside (adapters, the workspace, the sinks, the clock) answers
    from the trace so far. *)
From Stdlib Require Import Ascii.
From S2P Require Import Prelude PyStr PyData Contracts PolicyModels RuntimeBinding BackendHealth RecoveryModels.
From S2P Require Import RecoveryEngine UsageStore UsageCooldown UsageBudget LimitClassifier WorkerBackends Lifecycle.
From S2P Require Import Handoff.

(** ** Capacity failures *)

Definition is_capacity_limit_failure (result : ExecutionResult) : bool :=
  if res_success result
     || negb (bool_decide (res_failure_category result = Some BACKEND_ERROR))
     || negb (opt_truthy (res_failure_reason result))
  then false
  else
    match classify_capacity_exhaustion (res_failure_reason result) with
    | Some _ => true
    | None => bool_decide (is_Some (fst (classify_limit (res_failure_reason result) None)))
    end.

(** ** Settings *)

Record BackendCapSettings := {
  cap_max_per_hour : option Z;
  cap_max_per_day : option Z;
  cap_min_available_memory_mb : option Z;
  cap_max_concurrent : option Z }.

Record ResourceGateSettings := {
  gate_max_concurrent : option Z;
  gate_max_per_hour : option Z;
  gate_max_per_day : option Z;
  gate_min_available_memory_mb : option Z }.

(** ** What crosses the boundary *)

Record BackendDetailRef := {
  bdr_ref_id : string;
  bdr_detail_type : string;
  bdr_path : option string;
  bdr_uri : option string;
  bdr_description : option string;
  bdr_is_required_for_debug : bool }.

(** An adapter's capture: the attributes the coordinator reads, [JNull] or
    [None] when absent ([used_capabilities]: when not a collection). *)
Record Capture := {
  cap_duration_ms : jval;
  cap_observed_runtime : jval;
  cap_used_capabilities : option (list string) }.

(** The arguments of [self._observability.observe] and the parts of the
    metadata computed here; the policy, routing, task and risk blocks copy
    [ob_policy] and the bundle. *)
Record observation := {
  ob_result : ExecutionResult;
  ob_policy : PolicyDecision;
  ob_backend : string;
  ob_lane : string;
  ob_detail_refs : list BackendDetailRef;
  ob_runtime_metadata : dict;
  ob_provenance : option BackendProvenanceMirror;
  ob_drift : option BackendDriftFinding }.

Inductive store_op :=
  | OpStarted | OpFinished | OpExecution | OpCooldown (worker_backend : string) | OpQuota
  | OpOutcome (succeeded : bool).

(** What a dispatch does to the world, in order. *)
Inductive effect :=
  | E_new_id (run_id : string)
  | E_prepare (request : ExecutionRequest)
  | E_store (op : store_op) (run_id : string)
  | E_hydrate (lineage_id : string)
  | E_capture (lineage_id : string)
  | E_adapter (request : ExecutionRequest)
  | E_sleep (delay : Q)
  | E_finalize (request : ExecutionRequest)
  | E_observe (o : observation)
  | E_memory (run_id : string).

(** An adapter; [ad_execute_and_capture] is [None] when it only has [execute],
    and [ad_detail_refs] when it builds no detail references.  Running may
    change the usage file: adapters record cooldowns in it. *)
Record adapter := {
  ad_execute : list effect -> file -> ExecutionRequest -> file * res ExecutionResult;
  ad_execute_and_capture : option (list effect -> file -> ExecutionRequest ->
                                   file * res (ExecutionResult * option Capture));
  ad_detail_refs : option (ExecutionRequest -> Capture -> res (list BackendDetailRef)) }.

Record workspace_manager := {
  ws_prepare : list effect -> ExecutionRequest -> res unit;
  ws_finalize : list effect -> ExecutionRequest -> ExecutionResult -> res ExecutionResult }.

(** A contract-impact summary of impact_analysis. *)
Record ImpactSummary := {
  is_target_name : string;
  is_target_repo_id : string;
  is_public_affected : list string;
  is_private_affected : list string;
  is_affected_count : Z }.

(** The repo graph: [resolve] gives a node's canonical name. *)
Record repo_graph := {
  g_resolve : string -> res (option string);
  g_impact : string -> res (option ImpactSummary) }.

(** The rest of the world, as functions of the trace so far. *)
Record environment (Rec : Type) := {
  env_now : list effect -> datetime;
  env_free_mb : list effect -> option Q;
  env_meminfo : list effect -> option (list string);
  env_new_id : list effect -> string;
  env_provenance : string -> option BackendProvenanceMirror;
  env_binding : jval -> jval -> jval -> jval -> jval -> res RuntimeBindingSummary;
  env_zoneinfo : string -> res (option tzinfo);
  env_hydrate : option (string -> res unit);
  env_observe : list effect -> observation -> res Rec;
  env_adapters : BackendName -> option adapter }.
Arguments env_now {Rec}. Arguments env_free_mb {Rec}. Arguments env_meminfo {Rec}.
Arguments env_new_id {Rec}. Arguments env_provenance {Rec}. Arguments env_binding {Rec}.
Arguments env_zoneinfo {Rec}. Arguments env_hydrate {Rec}. Arguments env_observe {Rec}.
Arguments env_adapters {Rec}.

(** What the coordinator is constructed with.  [co_usage_store]: is there one;
    [co_run_memory]: is there an index directory. *)
Record coordinator := {
  co_policy : OcPlanningProposal -> OcRoutingDecision -> ExecutionRequest -> res PolicyDecision;
  co_workspace : option workspace_manager;
  co_runtime_binding_policy : option RuntimeBindingPolicy;
  co_recovery_policy : RecoveryPolicy;
  co_recovery_engine : RecoveryEngine;
  co_run_memory : bool;
  co_repo_graph : option repo_graph;
  co_usage_store : bool;
  co_backend_caps : gmap string BackendCapSettings;
  co_resource_gate : option ResourceGateSettings }.

Record ExecutionRunOutcome (Rec : Type) := {
  xo_request : ExecutionRequest;
  xo_policy_decision : PolicyDecision;
  xo_result : ExecutionResult;
  xo_record : Rec;
  xo_executed : bool }.
Arguments xo_request {Rec}. Arguments xo_policy_decision {Rec}. Arguments xo_result {Rec}.
Arguments xo_record {Rec}. Arguments xo_executed {Rec}.

(** ** The monad *)

Record cstate := {
  cs_file : file;
  cs_health : option BackendHealthRegistry;
  cs_trace : list effect }.

Definition Eff (A : Type) : Type := cstate -> cstate * res A.

Definition ret {A} (a : A) : Eff A := fun s => (s, Ok a).
Definition lift {A} (r : res A) : Eff A := fun s => (s, r).
Definition bind {A B} (m : Eff A) (k : A -> Eff B) : Eff B := fun s =>
  match m s with (s', Ok a) => k a s' | (s', Raise e) => (s', Raise e) end.
Definition try_except {A} (m : Eff A) (h : exn -> Eff A) : Eff A := fun s =>
  match m s with (s', Ok a) => (s', Ok a) | (s', Raise e) => h e s' end.
(** [try: m finally: fin]. *)
Definition try_finally {A} (m : Eff A) (fin : Eff unit) : Eff A := fun s =>
  match m s with
  | (s', r) => match fin s' with (s'', Ok _) => (s'', r) | (s'', Raise e) => (s'', Raise e) end
  end.
Definition gets {A} (f : cstate -> A) : Eff A := fun s => (s, Ok (f s)).
Definition emit (e : effect) : Eff unit := fun s =>
  ({| cs_file := cs_file s; cs_health := cs_health s; cs_trace := cs_trace s ++ [e] |}, Ok tt).
Definition set_file (f : file) : Eff unit := fun s =>
  ({| cs_file := f; cs_health := cs_health s; cs_trace := cs_trace s |}, Ok tt).
Definition set_health (h : option BackendHealthRegistry) : Eff unit := fun s =>
  ({| cs_file := cs_file s; cs_health := h; cs_trace := cs_trace s |}, Ok tt).

Notation "x '<~' e ';;' k" := (bind e (fun x => k))
  (at level 100, e at next level, right associativity) : oc_scope.
Notation "e ';;;' k" := (bind e (fun _ => k)) (at level 100, right associativity) : oc_scope.

(** ** Results the boundary makes itself *)

Definition made_result (r : ExecutionRequest) (status : ExecutionStatus)
    (cat : FailureReasonCategory) (reason : string) : ExecutionResult :=
  unsuccessful_result (req_run_id r) (req_proposal_id r) (req_decision_id r) status cat reason.

Definition workspace_prep_failed_result (r : ExecutionRequest) (e : exn) : ExecutionResult :=
  made_result r FAILED BACKEND_ERROR ("Workspace preparation failed: " +:+ exn_text e).
Definition adapter_crash_result (r : ExecutionRequest) (e : exn) : ExecutionResult :=
  made_result r FAILED BACKEND_ERROR ("Adapter raised unexpected exception: " +:+ exn_text e).
Definition recovery_engine_crash_result (r : ExecutionRequest) (e : exn) : ExecutionResult :=
  made_result r FAILED BACKEND_ERROR ("RecoveryEngine raised unexpected exception: " +:+ exn_text e).
Definition policy_engine_crash_result (r : ExecutionRequest) (e : exn) : ExecutionResult :=
  made_result r FAILED POLICY_BLOCKED ("PolicyEngine.evaluate raised mid-loop: " +:+ exn_text e).

(** The parts of a budget refusal that follow its reason. *)
Definition budget_parts (d : BudgetDecision) : list string :=
  match bd_window d with
  | Some w => if str_truthy w then ["window=" +:+ w] else []
  | None => []
  end ++
  match bd_current d, bd_limit d with
  | Some c, Some l => ["current=" +:+ str_of_Z c +:+ " limit=" +:+ str_of_Z l]
  | _, _ => []
  end.

Definition resource_gate_blocked_result (r : ExecutionRequest) (d : BudgetDecision) : ExecutionResult :=
  made_result r SKIPPED BUDGET_EXHAUSTED
    (join "; " (("dispatch skipped — global resource gate " +:+ default "None" (bd_reason d))
                :: budget_parts d)).
Definition backend_capped_result (r : ExecutionRequest) (d : BudgetDecision) (backend_name : string)
    : ExecutionResult :=
  made_result r SKIPPED BUDGET_EXHAUSTED
    (join "; " (("dispatch skipped — backend=" +:+ repr backend_name +:+ " " +:+
                 default "None" (bd_reason d)) :: budget_parts d)).

Definition policy_blocked_result (r : ExecutionRequest) (d : PolicyDecision) : ExecutionResult :=
  let reason := if is_blocked d then "execution blocked by policy"
                else "execution requires review before autonomous execution" in
  made_result r SKIPPED POLICY_BLOCKED (reason +:+ ": " +:+ pd_notes d).

(** [status in {BLOCK, REQUIRE_REVIEW}]. *)
Definition held (d : PolicyDecision) : bool := is_blocked d || requires_review d.

(** ** Pure steps *)

Definition runtime_metadata_from_capture (capture : option Capture) : dict :=
  match capture with
  | None => ∅
  | Some c =>
      let m : dict := match cap_duration_ms c with
        | JNull => ∅
        | v => match jint v with Ok n => {["duration_ms" := JInt n]} | Raise _ => ∅ end
        end in
      let m := match cap_observed_runtime c with
        | JObj l => <["observed_runtime" := JObj l]> m
        | _ => m
        end in
      match cap_used_capabilities c with
      | Some cs => <["used_capabilities" := JList (map JStr (sorted_by str_leb cs))]> m
      | None => m
      end
  end.

Definition build_detail_refs (a : adapter) (r : ExecutionRequest) (capture : option Capture)
    : list BackendDetailRef :=
  match capture, ad_detail_refs a with
  | Some c, Some builder => match builder r c with Ok refs => refs | Raise _ => [] end
  | _, _ => []
  end.

Definition evaluate_runtime_drift (backend_id : string) (r : ExecutionRequest) (runtime_metadata : dict)
    : option BackendDriftFinding :=
  match req_runtime_binding r with
  | None => None
  | Some rb =>
      let observed : dict := match dget runtime_metadata "observed_runtime" with
                             | JObj l => list_to_map l
                             | _ => ∅
                             end in
      let field k (o : option string) := match o with Some v => [(k, v)] | None => [] end in
      detect_runtime_drift backend_id (req_run_id r)
        (list_to_map ([("kind", rb_kind rb)] ++ field "model" (rb_model rb) ++
                      field "provider" (rb_provider rb) ++ field "endpoint" (rb_endpoint rb)))
        observed
  end.

Definition default_handlers (result : ExecutionResult) : StageHandlers ExecutionRequest repo_graph := {|
  h_plan := fun r graph =>
    node <-? match graph with Some g => g_resolve g (req_repo_key r) | None => Ok None end ;;
    Ok {| plan_summary := "dispatch " +:+ req_repo_key r +:+ " via coordinator";
          plan_target_repos := [default (req_repo_key r) node];
          plan_steps := ["coordinator dispatch"];
          plan_checks := [{| chk_check_id := "execution_succeeded"; chk_description := None |}] |};
  h_execute := fun _ _ =>
    Ok {| exo_result_ref := res_run_id result;
          exo_status := ExecutionStatus_value (res_status result); exo_error := None |};
  h_verify := fun _ _ _ =>
    Ok [{| cr_check_id := "execution_succeeded"; cr_passed := res_success result;
           cr_reason := if res_success result then None
                        else Some (str_or (res_failure_reason result)
                                          "execution did not succeed") |}] |}.

Definition attach_lifecycle_outcome (r : ExecutionRequest) (result : ExecutionResult)
    (graph : option repo_graph) : ExecutionResult :=
  match req_lifecycle r with
  | None => result
  | Some metadata =>
      with_lifecycle_outcome result (lr_outcome (run (default_handlers result) r metadata graph))
  end.

Definition log_contract_impact (graph : option repo_graph) (r : ExecutionRequest) : dict :=
  match graph with
  | None => ∅
  | Some g =>
      match g_impact g (req_repo_key r) with
      | Ok (Some s) =>
          if (0 <? is_affected_count s)%Z then
            {["contract_impact" := JObj [
               ("target", JStr (is_target_name s)); ("target_repo_id", JStr (is_target_repo_id s));
               ("affected_count", JInt (is_affected_count s));
               ("public_affected", JList (map JStr (is_public_affected s)));
               ("private_affected", JList (map JStr (is_private_affected s)))]]}
          else ∅
      | _ => ∅
      end
  end.

(** The first check, in order, that refuses; [None] entries are not
    configured. *)
Fixpoint first_denied (checks : list (option (res BudgetDecision))) : res (option BudgetDecision) :=
  match checks with
  | [] => Ok None
  | None :: rest => first_denied rest
  | Some c :: rest => d <-? c ;; if bd_allowed d then first_denied rest else Ok (Some d)
  end.

(** [if x is not None or y is not None: check]. *)
Definition if_any (x y : option Z) (check : res BudgetDecision) : option (res BudgetDecision) :=
  match x, y with None, None => None | _, _ => Some check end.
Definition if_set (x : option Z) (check : res BudgetDecision) : option (res BudgetDecision) :=
  match x with None => None | Some _ => Some check end.

Definition derive_lineage_id (r : ExecutionRequest) : string :=
  let prefixed s := if startswith s "l-" then s else "l-" +:+ s in
  if str_truthy (req_run_id r) then prefixed (req_run_id r)
  else if str_truthy (req_proposal_id r) then prefixed (req_proposal_id r)
  else "l-unknown".

(** ** The boundary *)

Section Boundary.
Context {Rec : Type} (env : environment Rec) (co : coordinator).

Definition now_eff : Eff datetime := gets (fun s => env_now env (cs_trace s)).

Definition build_eff (bundle : ProposalDecisionBundle) (runtime : ExecutionRuntimeContext)
    (policy_decision : option PolicyDecision) : Eff ExecutionRequest :=
  id <~ gets (fun s => env_new_id env (cs_trace s)) ;;
  emit (E_new_id id) ;;;
  ret (build (env_provenance env) id bundle runtime policy_decision).

(** A write to the usage ledger, traced. *)
Definition store_write (op : store_op) (run_id : string) (now : datetime)
    (write : option Q -> file -> datetime -> file * res unit) : Eff unit :=
  free_mb <~ gets (fun s => env_free_mb env (cs_trace s)) ;;
  emit (E_store op run_id) ;;;
  f <~ gets cs_file ;;
  let '(f', r) := write free_mb f now in
  set_file f' ;;; lift r.

Definition apply_runtime_binding_policy (bundle : ProposalDecisionBundle)
    (runtime : ExecutionRuntimeContext) : ExecutionRuntimeContext :=
  match co_runtime_binding_policy co, rt_runtime_binding runtime with
  | Some p, None =>
      match select (env_binding env) p (b_proposal bundle) (b_decision bundle) with
      | Ok (Some summary) => with_runtime_binding runtime summary
      | _ => runtime
      end
  | _, _ => runtime
  end.

Definition evaluate_resource_gate : Eff (option BudgetDecision) := fun s =>
  if negb (co_usage_store co) then (s, Ok None)
  else match co_resource_gate co with
  | None => (s, Ok None)
  | Some g =>
      let now := env_now env (cs_trace s) in
      let f := cs_file s in
      (s, first_denied
        [if_set (gate_max_concurrent g) (global_concurrency_decision f now (gate_max_concurrent g));
         if_any (gate_max_per_hour g) (gate_max_per_day g)
           (global_rate_decision f now (gate_max_per_hour g) (gate_max_per_day g));
         if_set (gate_min_available_memory_mb g)
           (Ok (global_memory_decision (env_meminfo env (cs_trace s))
                  (gate_min_available_memory_mb g)))])
  end.

Definition evaluate_backend_caps (backend_name : string) : Eff (option BudgetDecision) := fun s =>
  if negb (co_usage_store co) then (s, Ok None)
  else match co_backend_caps co !! backend_name with
  | None => (s, Ok None)
  | Some cap =>
      let now := env_now env (cs_trace s) in
      let f := cs_file s in
      (s, first_denied
        [if_any (cap_max_per_hour cap) (cap_max_per_day cap)
           (budget_decision_for_backend f now backend_name (cap_max_per_hour cap)
              (cap_max_per_day cap));
         if_set (cap_max_concurrent cap)
           (concurrency_decision_for_backend f now backend_name (cap_max_concurrent cap));
         if_set (cap_min_available_memory_mb cap)
           (Ok (memory_decision_for_backend backend_name (env_meminfo env (cs_trace s))
                  (cap_min_available_memory_mb cap)))])
  end.

Definition observe (bundle : ProposalDecisionBundle) (result : ExecutionResult)
    (policy_decision : PolicyDecision) (refs : list BackendDetailRef) (runtime_metadata : dict)
    (request : option ExecutionRequest) : Eff Rec :=
  let backend := BackendName_value (dec_selected_backend (b_decision bundle)) in
  let o := {|
    ob_result := result; ob_policy := policy_decision; ob_backend := backend;
    ob_lane := LaneName_value (dec_selected_lane (b_decision bundle));
    ob_detail_refs := refs; ob_runtime_metadata := runtime_metadata;
    ob_provenance :=
      match request with
      | Some r => match req_bound_target r with Some t => bt_provenance t | None => None end
      | None => None
      end;
    ob_drift :=
      match request with
      | Some r => evaluate_runtime_drift backend r runtime_metadata
      | None => None
      end |} in
  rec <~ gets (fun s => env_observe env (cs_trace s) o) ;;
  emit (E_observe o) ;;;
  lift rec.

Definition record_run_memory (r : ExecutionRequest) : Eff unit :=
  if co_run_memory co then emit (E_memory (req_run_id r)) else ret tt.

(** The early returns: observe, remember, and report that nothing ran. *)
Definition not_executed (bundle : ProposalDecisionBundle) (request : ExecutionRequest)
    (policy_decision : PolicyDecision) (result : ExecutionResult)
    : Eff (ExecutionRunOutcome Rec) :=
  rec <~ observe bundle result policy_decision [] ∅ None ;;
  record_run_memory request ;;;
  ret {| xo_request := request; xo_policy_decision := policy_decision; xo_result := result;
         xo_record := rec; xo_executed := false |}.

(** ** Running the adapter *)

Definition call_adapter {A} (call : list effect -> file -> ExecutionRequest -> file * res A)
    (r : ExecutionRequest) : Eff A :=
  answer <~ gets (fun s => call (cs_trace s) (cs_file s) r) ;;
  emit (E_adapter r) ;;;
  set_file (fst answer) ;;;
  lift (snd answer).

Definition execute_adapter (a : adapter) (r : ExecutionRequest)
    : Eff (ExecutionResult * list BackendDetailRef * dict) :=
  try_except
    match ad_execute_and_capture a with
    | Some call =>
        rc <~ call_adapter call r ;;
        ret (fst rc, build_detail_refs a r (snd rc), runtime_metadata_from_capture (snd rc))
    | None =>
        result <~ call_adapter (ad_execute a) r ;;
        ret (result, [], ∅)
    end
    (fun e => ret (adapter_crash_result r e, [], ∅)).

(** What [_run_with_recovery_loop] returns. *)
Record loop_result := {
  lp_result : ExecutionResult;
  lp_refs : list BackendDetailRef;
  lp_meta : dict;
  lp_actions : list RecoveryAction;
  lp_policy : PolicyDecision }.

(** [bounded_sleep]. *)
Definition bounded_sleep (delay_seconds max_delay_seconds : Q) : Eff Q :=
  let delay := py_maxQ 0 (py_minQ delay_seconds max_delay_seconds) in
  emit (E_sleep delay) ;;; ret delay.

(** The sleep before a retry, and the action re-recorded with it. *)
Definition delayed_action (outcome : RecoveryOutcome) : Eff RecoveryAction :=
  let a := ro_action outcome in
  match ro_delay_seconds outcome with
  | None => ret a
  | Some d =>
      actual <~ bounded_sleep d (rpol_max_delay_seconds (co_recovery_policy co)) ;;
      ret (mk_action (ra_attempt a) (ra_failure_kind a) (ra_decision a) (ra_reason a)
             (ra_handler_name a) (ra_modified_fields a) (Some actual))
  end.

Definition engine_raised (attempt : Z) (e : exn) : RecoveryAction :=
  mk_action attempt K_UNKNOWN REJECT_UNRECOVERABLE (REngineRaised e) None [] None.

Definition evaluate_recovery (result : ExecutionResult) (ctx : RecoveryContext)
    : Eff RecoveryOutcome :=
  now <~ now_eff ;;
  reg <~ gets cs_health ;;
  let '(reg', r) := evaluate (co_recovery_engine co) reg result ctx now in
  set_health reg' ;;; lift r.

(** One pass of the loop.  [continue next pol acts last]: go on to the next
    attempt, if one is left, and otherwise return [last]. *)
Definition recovery_iteration (a : adapter) (bundle : ProposalDecisionBundle)
    (request : ExecutionRequest) (attempt : Z) (current_request : ExecutionRequest)
    (current_policy : PolicyDecision) (actions : list RecoveryAction)
    (continue : ExecutionRequest -> PolicyDecision -> list RecoveryAction -> loop_result ->
                Eff loop_result) : Eff loop_result :=
  ran <~ execute_adapter a current_request ;;
  let '(last_result, last_refs, last_meta) := ran in
  let last result acts pol :=
    {| lp_result := result; lp_refs := last_refs; lp_meta := last_meta; lp_actions := acts;
       lp_policy := pol |} in
  let ctx := {| rc_original_request := request; rc_current_request := current_request;
                rc_attempt := attempt; rc_previous_actions := actions |} in
  evaluated <~ try_except (o <~ evaluate_recovery last_result ctx ;; ret (inl o))
                          (fun e => ret (inr e)) ;;
  match evaluated with
  | inr e => ret (last (recovery_engine_crash_result current_request e)
                       (actions ++ [engine_raised attempt e]) current_policy)
  | inl outcome =>
      if bool_decide (ro_decision outcome = ACCEPT)
      then ret (last last_result (actions ++ [ro_action outcome]) current_policy)
      else
        match ro_next_request outcome with
        | None => ret (last last_result (actions ++ [ro_action outcome]) current_policy)
        | Some next =>
            action <~ delayed_action outcome ;;
            let acts := actions ++ [action] in
            let '(next_request, request_changed) :=
              match next with
              | NextCurrent => (current_request, false)
              | NextOther r => (r, true)
              end in
            if request_changed || ro_requires_policy_revalidation outcome then
              match co_policy co (b_proposal bundle) (b_decision bundle) next_request with
              | Raise e => ret (last (policy_engine_crash_result next_request e) acts current_policy)
              | Ok pol =>
                  if held pol then ret (last (policy_blocked_result next_request pol) acts pol)
                  else continue next_request pol acts (last last_result acts pol)
              end
            else continue next_request current_policy acts (last last_result acts current_policy)
        end
  end.

(** [for attempt in range(1, max_attempts + 1)]: [remaining] iterations are
    left after this one. *)
Fixpoint recovery_loop (a : adapter) (bundle : ProposalDecisionBundle)
    (request : ExecutionRequest) (remaining : nat) (attempt : Z) (current_request : ExecutionRequest)
    (current_policy : PolicyDecision) (actions : list RecoveryAction) : Eff loop_result :=
  recovery_iteration a bundle request attempt current_request current_policy actions
    (fun next_request pol acts last =>
       match remaining with
       | 0 => ret last
       | S remaining' =>
           recovery_loop a bundle request remaining' (attempt + 1) next_request pol acts
       end).

(** [max(1, int(max_attempts))] iterations. *)
Definition run_with_recovery_loop (a : adapter) (bundle : ProposalDecisionBundle)
    (request : ExecutionRequest) (policy_decision : PolicyDecision) : Eff loop_result :=
  recovery_loop a bundle request (Z.to_nat (rpol_max_attempts (co_recovery_policy co) - 1)) 1
    request policy_decision [].

Definition cl_dispatch_wrap {A} (r : ExecutionRequest) (body : Eff A) : Eff A :=
  match env_hydrate env with
  | None => body
  | Some hydrate =>
      let lineage_id := derive_lineage_id r in
      emit (E_hydrate lineage_id) ;;;
      match hydrate lineage_id with
      | Raise _ => body
      | Ok _ => try_finally body (emit (E_capture lineage_id))
      end
  end.

(** ** [ExecutionCoordinator.execute] *)

Definition mark (op : store_op) (r : ExecutionRequest)
    (write : option Q -> file -> datetime -> file * res unit) : Eff unit :=
  if co_usage_store co then now <~ now_eff ;; store_write op (req_run_id r) now write
  else ret tt.

Definition record_worker_backend_cooldown_from_result (r : ExecutionRequest)
    (result : ExecutionResult) (runtime_metadata : dict) (now : datetime) : Eff unit :=
  if negb (is_capacity_limit_failure result) then ret tt
  else match dget runtime_metadata "observed_runtime" with
  | JObj l =>
      match dget (list_to_map l) "selected_worker_backend" with
      | JStr worker_backend =>
          if negb (str_truthy worker_backend) then ret tt
          else store_write (OpCooldown worker_backend) (req_run_id r) now
            (fun free_mb f now =>
               let '(w, r) := maybe_record_worker_backend_cooldown usage_store_port
                 (env_zoneinfo env) {| lw_file := f; lw_now := now; lw_free_mb := free_mb |}
                 worker_backend (res_failure_reason result) now in
               (lw_file w, _ <-? r ;; Ok tt))
      | _ => ret tt
      end
  | _ => ret tt
  end.

(** The accounting after a dispatch. *)
Definition record_dispatch (bundle : ProposalDecisionBundle) (r : ExecutionRequest)
    (result : ExecutionResult) (runtime_metadata : dict) : Eff unit :=
  if negb (co_usage_store co) then ret tt
  else
    let backend_name := BackendName_value (dec_selected_backend (b_decision bundle)) in
    let role := TaskType_value (prop_task_type (b_proposal bundle)) in
    let run_id := req_run_id r in
    now <~ now_eff ;;
    store_write OpExecution run_id now (fun free_mb f now =>
      record_execution free_mb f now role run_id run_id (Some (req_repo_key r)) (Some backend_name)) ;;;
    record_worker_backend_cooldown_from_result r result runtime_metadata now ;;;
    if is_capacity_limit_failure result then
      store_write OpQuota run_id now (fun free_mb f now =>
        record_quota_event free_mb f now run_id role backend_name)
    else
      store_write (OpOutcome (res_success result)) run_id now (fun free_mb f now =>
        record_execution_outcome free_mb f now run_id role (res_success result)
          (Some backend_name) None).

Definition prepare_workspace (r : ExecutionRequest) : Eff (option exn) :=
  match co_workspace co with
  | None => ret None
  | Some w =>
      answer <~ gets (fun s => ws_prepare w (cs_trace s) r) ;;
      emit (E_prepare r) ;;;
      ret (match answer with Ok _ => None | Raise e => Some e end)
  end.

Definition finalize_workspace (r : ExecutionRequest) (result : ExecutionResult) : Eff ExecutionResult :=
  match co_workspace co with
  | Some w =>
      if res_success result then
        answer <~ gets (fun s => ws_finalize w (cs_trace s) r result) ;;
        emit (E_finalize r) ;;;
        ret (match answer with Ok result' => result' | Raise _ => result end)
      else ret result
  | None => ret result
  end.

(** The dispatch proper, from the adapter on. *)
Definition dispatch (bundle : ProposalDecisionBundle) (request : ExecutionRequest)
    (policy_decision : PolicyDecision) (pre_dispatch_metadata : dict) (a : adapter)
    : Eff (ExecutionRunOutcome Rec) :=
  let backend_name := BackendName_value (dec_selected_backend (b_decision bundle)) in
  let run_id := req_run_id request in
  mark OpStarted request (fun free_mb f now => record_execution_started free_mb f now run_id backend_name) ;;;
  lp <~ try_finally
    (cl_dispatch_wrap request (run_with_recovery_loop a bundle request policy_decision))
    (mark OpFinished request (fun free_mb f now =>
       record_execution_finished free_mb f now run_id backend_name)) ;;
  let result := attach_recovery_metadata (lp_result lp) (lp_actions lp) in
  record_dispatch bundle request result (lp_meta lp) ;;;
  result <~ finalize_workspace request result ;;
  let result := attach_lifecycle_outcome request result (co_repo_graph co) in
  rec <~ observe bundle result (lp_policy lp) (lp_refs lp) (lp_meta lp ∪ pre_dispatch_metadata)
           (Some request) ;;
  record_run_memory request ;;;
  ret {| xo_request := request; xo_policy_decision := lp_policy lp; xo_result := result;
         xo_record := rec; xo_executed := true |}.

Definition execute (bundle : ProposalDecisionBundle) (runtime : ExecutionRuntimeContext)
    : Eff (ExecutionRunOutcome Rec) :=
  let runtime := apply_runtime_binding_policy bundle runtime in
  judged <~ build_eff bundle runtime None ;;
  policy_decision <~ lift (co_policy co (b_proposal bundle) (b_decision bundle) judged) ;;
  if held policy_decision then
    not_executed bundle judged policy_decision (policy_blocked_result judged policy_decision)
  else
    request <~ build_eff bundle runtime (Some policy_decision) ;;
    let pre_dispatch_metadata := log_contract_impact (co_repo_graph co) request in
    prep_failed <~ prepare_workspace request ;;
    match prep_failed with
    | Some e =>
        not_executed bundle request policy_decision (workspace_prep_failed_result request e)
    | None =>
        let backend := dec_selected_backend (b_decision bundle) in
        let backend_name := BackendName_value backend in
        gate <~ evaluate_resource_gate ;;
        match gate with
        | Some d => not_executed bundle request policy_decision (resource_gate_blocked_result request d)
        | None =>
            capped <~ evaluate_backend_caps backend_name ;;
            match capped with
            | Some d =>
                not_executed bundle request policy_decision
                  (backend_capped_result request d backend_name)
            | None =>
                a <~ lift match env_adapters env backend with
                          | Some a => Ok a
                          | None => Raise (UnsupportedBackendError
                              ("No canonical adapter configured for backend '" +:+ backend_name +:+ "'."))
                          end ;;
                dispatch bundle request policy_decision pre_dispatch_metadata a
            end
        end
    end.
End Boundary.
