(* ===== verification/CoordinatorSafety.v ===== *)
(** * What the coordinator guarantees

    The traces of a dispatch: who may reach an adapter and how often, how runs
    are marked in the ledger and accounted for, and what a refused dispatch
    leaves behind.  At the end, whole dispatches with the bundled policy, run by
    computation. *)
From S2P Require Import Prelude PyStr PyData Contracts PolicyModels PolicyEngine PolicyGate BackendHealth RecoveryModels RecoveryEngine UsageStore UsageCooldown LimitClassifier WorkerBackends Lifecycle Handoff Coordinator.

(** ** Reasoning about [Eff]

    [triple s m Q]: run from [s], [m] extends the trace by some [new], and [Q]
    holds of the answer, the final state and [new]. *)
Definition triple {A} (s : cstate) (m : Eff A) (Q : res A -> cstate -> list effect -> Prop) : Prop :=
  let '(s', r) := m s in exists new, cs_trace s' = cs_trace s ++ new /\ Q r s' new.

Section Rules.
Context {A B : Type}.

Lemma triple_ret s (a : A) (Q : res A -> cstate -> list effect -> Prop) :
  Q (Ok a) s [] -> triple s (ret a) Q.
Proof. intros H. exists []. by rewrite app_nil_r. Qed.

Lemma triple_lift s (r : res A) (Q : res A -> cstate -> list effect -> Prop) :
  Q r s [] -> triple s (lift r) Q.
Proof. intros H. exists []. by rewrite app_nil_r. Qed.

Lemma triple_gets s (f : cstate -> A) (Q : res A -> cstate -> list effect -> Prop) :
  Q (Ok (f s)) s [] -> triple s (gets f) Q.
Proof. intros H. exists []. by rewrite app_nil_r. Qed.

Lemma triple_weaken s (m : Eff A) (P Q : res A -> cstate -> list effect -> Prop) :
  triple s m P -> (forall r s' new, P r s' new -> Q r s' new) -> triple s m Q.
Proof. unfold triple. destruct (m s) as [s' r]. intros (new & H & HP) HQ. exists new. auto. Qed.

Lemma triple_bind s (m : Eff A) (k : A -> Eff B) P (Q : res B -> cstate -> list effect -> Prop) :
  triple s m P ->
  (forall a s1 n1, P (Ok a) s1 n1 -> triple s1 (k a) (fun r s2 n2 => Q r s2 (n1 ++ n2))) ->
  (forall e s1 n1, P (Raise e) s1 n1 -> Q (Raise e) s1 n1) ->
  triple s (bind m k) Q.
Proof.
  unfold triple, bind. destruct (m s) as [s1 [a|e]]; intros (n1 & H1 & HP) Hk He; [|eauto].
  specialize (Hk a s1 n1 HP). destruct (k a s1) as [s2 r]. destruct Hk as (n2 & H2 & HQ).
  exists (n1 ++ n2). split; [|done]. by rewrite H2, H1, app_assoc.
Qed.

Lemma triple_try_except s (m : Eff A) h P (Q : res A -> cstate -> list effect -> Prop) :
  triple s m P ->
  (forall a s1 n1, P (Ok a) s1 n1 -> Q (Ok a) s1 n1) ->
  (forall e s1 n1, P (Raise e) s1 n1 -> triple s1 (h e) (fun r s2 n2 => Q r s2 (n1 ++ n2))) ->
  triple s (try_except m h) Q.
Proof.
  unfold triple, try_except. destruct (m s) as [s1 [a|e]]; intros (n1 & H1 & HP) Ha Hh; [eauto|].
  specialize (Hh e s1 n1 HP). destruct (h e s1) as [s2 r]. destruct Hh as (n2 & H2 & HQ).
  exists (n1 ++ n2). split; [|done]. by rewrite H2, H1, app_assoc.
Qed.

Lemma triple_try_finally s (m : Eff A) fin P (Q : res A -> cstate -> list effect -> Prop) :
  triple s m P ->
  (forall r s1 n1, P r s1 n1 -> triple s1 fin (fun r2 s2 n2 =>
     match r2 with Ok _ => Q r s2 (n1 ++ n2) | Raise e => Q (Raise e) s2 (n1 ++ n2) end)) ->
  triple s (try_finally m fin) Q.
Proof.
  unfold triple, try_finally. destruct (m s) as [s1 r]. intros (n1 & H1 & HP) Hf.
  specialize (Hf r s1 n1 HP). destruct (fin s1) as [s2 [[]|e]]; destruct Hf as (n2 & H2 & HQ);
    (exists (n1 ++ n2); split; [by rewrite H2, H1, app_assoc | done]).
Qed.
End Rules.

Lemma triple_emit s e (Q : res unit -> cstate -> list effect -> Prop) :
  (forall s', cs_file s' = cs_file s -> cs_health s' = cs_health s -> Q (Ok tt) s' [e]) ->
  triple s (emit e) Q.
Proof. intros H. exists [e]. split; [done|]. by apply H. Qed.

Lemma triple_set_file s f (Q : res unit -> cstate -> list effect -> Prop) :
  (forall s', cs_file s' = f -> Q (Ok tt) s' []) -> triple s (set_file f) Q.
Proof. intros H. exists []. split; [by rewrite app_nil_r|]. by apply H. Qed.

Lemma triple_set_health s h (Q : res unit -> cstate -> list effect -> Prop) :
  (forall s', Q (Ok tt) s' []) -> triple s (set_health h) Q.
Proof. intros H. exists []. split; [by rewrite app_nil_r|]. by apply H. Qed.

(** Step through a bind whose first part is primitive. *)
Ltac prim :=
  first [ apply triple_ret | apply triple_lift | apply triple_gets
        | apply triple_emit; intros | apply triple_set_file; intros
        | apply triple_set_health; intros ].
Ltac step_with P :=
  eapply (triple_bind _ _ _ P); [ prim; try reflexivity | | ].

(** ** Reading traces *)

Definition adapter_call (e : effect) : option ExecutionRequest :=
  match e with E_adapter r => Some r | _ => None end.
Definition slept (e : effect) : option Q := match e with E_sleep d => Some d | _ => None end.
Definition store_op_of (e : effect) : option store_op :=
  match e with E_store op _ => Some op | _ => None end.
Definition observed (e : effect) : option observation :=
  match e with E_observe o => Some o | _ => None end.

Definition adapter_calls : list effect -> list ExecutionRequest := omap adapter_call.
Definition sleeps : list effect -> list Q := omap slept.
Definition store_ops : list effect -> list store_op := omap store_op_of.
Definition observations : list effect -> list observation := omap observed.

(** Effects after the adapter has finished, inside the dispatch, and before. *)
Definition late (e : effect) : bool :=
  match e with
  | E_store (OpExecution | OpCooldown _ | OpQuota | OpOutcome _) _
  | E_finalize _ | E_observe _ | E_memory _ => true
  | _ => false
  end.
Definition inside (e : effect) : bool :=
  match e with E_hydrate _ | E_capture _ | E_adapter _ | E_sleep _ => true | _ => false end.
Definition early (e : effect) : bool :=
  match e with E_new_id _ | E_prepare _ => true | _ => false end.

Ltac traces :=
  repeat match goal with
  | |- Forall _ [] => apply Forall_nil_2
  | |- Forall _ (_ :: _) => apply Forall_cons_2
  end; auto; try lia.

Section Safety.
Context {Rec : Type} (env : environment Rec) (co : coordinator).

(** ** The adapter and the recovery loop *)

Lemma call_adapter_trace {A} s (call : list effect -> file -> ExecutionRequest -> file * res A) r :
  triple s (call_adapter call r) (fun _ _ new => new = [E_adapter r]).
Proof.
  unfold triple, call_adapter, bind, gets, emit, set_file, lift. simpl. by exists [E_adapter r].
Qed.

(** An adapter that raises still gives a result. *)
Lemma execute_adapter_trace s a r :
  triple s (execute_adapter a r) (fun o _ new => is_ok o = true /\ new = [E_adapter r]).
Proof.
  unfold execute_adapter. eapply (triple_try_except _ _ _ (fun _ _ new => new = [E_adapter r])).
  - destruct (ad_execute_and_capture a) as [call|].
    + eapply triple_bind; [apply call_adapter_trace | | by intros].
      intros [x c] s1 n1 ->. by apply triple_ret.
    + eapply triple_bind; [apply call_adapter_trace | | by intros].
      intros x s1 n1 ->. by apply triple_ret.
  - by intros ? ? ? ->.
  - intros e s1 n1 ->. by apply triple_ret.
Qed.

Lemma evaluate_recovery_trace s result ctx :
  triple s (evaluate_recovery env co result ctx) (fun _ _ new => new = []).
Proof.
  unfold triple, evaluate_recovery, now_eff, bind, gets, set_health, lift. simpl.
  destruct (evaluate _ _ _ _ _) as [reg r]. exists []. by rewrite app_nil_r.
Qed.

Definition max_delay : Q := py_maxQ 0 (rpol_max_delay_seconds (co_recovery_policy co)).

Lemma delayed_action_trace s outcome :
  triple s (delayed_action co outcome) (fun o _ new => is_ok o = true /\
    (new = [] \/ exists d, new = [E_sleep d] /\ (0 <= d)%Q /\ (d <= max_delay)%Q)).
Proof.
  unfold delayed_action. destruct (ro_delay_seconds outcome) as [d|]; [|apply triple_ret; auto].
  unfold triple, bounded_sleep, bind, emit, ret. simpl. eexists. split; [done|]. split; [done|].
  right. eexists. split; [done|]. split; [apply py_maxQ_ge_l|]. unfold max_delay.
  apply py_maxQ_lub; [apply py_maxQ_ge_l|]. eapply Qle_trans; [apply py_minQ_le_r|].
  apply py_maxQ_ge_r.
Qed.

(** The policy decided on this very request, and let it through. *)
Definition authorised (bundle : ProposalDecisionBundle) (r : ExecutionRequest) : Prop :=
  exists d, co_policy co (b_proposal bundle) (b_decision bundle) r = Ok d /\ held d = false.

(** What a run of the loop did, given the requests [R] that may run. *)
Record loop_ran (R : ExecutionRequest -> Prop) (max_calls prior : nat) (lp : loop_result)
    (new : list effect) : Prop := {
  ran_allowed : Forall R (adapter_calls new);
  ran_some : 1 <= length (adapter_calls new) <= max_calls;
  ran_actions : length (lp_actions lp) = prior + length (adapter_calls new);
  ran_sleeps : Forall (fun d => (0 <= d)%Q /\ (d <= max_delay)%Q) (sleeps new);
  ran_fewer_sleeps : length (sleeps new) <= length (adapter_calls new);
  ran_inside : Forall (fun e => inside e = true) new }.

Lemma loop_done R n prior lp r acts :
  R r -> lp_actions lp = acts -> length acts = prior + 1 ->
  loop_ran R (S n) prior lp [E_adapter r].
Proof. intros HR Ha Hl. constructor; simpl; rewrite ?Ha; traces. Qed.

(** One more iteration in front: the call, and at most one sleep. *)
Lemma loop_step R n prior lp r sl new :
  R r -> (sl = [] \/ exists d, sl = [E_sleep d] /\ (0 <= d)%Q /\ (d <= max_delay)%Q) ->
  loop_ran R n (prior + 1) lp new -> loop_ran R (S n) prior lp ([E_adapter r] ++ sl ++ new).
Proof.
  intros HR Hs [H1 H2 H3 H4 H5 H6].
  destruct Hs as [-> | (d & -> & Hd)]; constructor; simpl; rewrite ?H3; traces.
Qed.

(** The loop ends after the call and the sleep, without a further one. *)
Lemma loop_stop R n prior lp r sl acts :
  R r -> (sl = [] \/ exists d, sl = [E_sleep d] /\ (0 <= d)%Q /\ (d <= max_delay)%Q) ->
  lp_actions lp = acts -> length acts = prior + 1 -> loop_ran R (S n) prior lp ([E_adapter r] ++ sl).
Proof.
  intros HR Hs Ha Hl. destruct Hs as [-> | (d & -> & Hd)]; constructor; simpl; rewrite ?Ha; traces.
Qed.

Definition sleep_at_most_once (sl : list effect) : Prop :=
  sl = [] \/ exists d, sl = [E_sleep d] /\ (0 <= d)%Q /\ (d <= max_delay)%Q.

Lemma recovery_iteration_trace (R : ExecutionRequest -> Prop) a bundle request s attempt cur pol
    actions continue n :
  (forall r, authorised bundle r -> R r) -> R cur ->
  (forall s1 next pol' acts lp,
     R next -> lp_actions lp = acts -> length acts = length actions + 1 ->
     triple s1 (continue next pol' acts lp) (fun o _ new => exists lp', o = Ok lp' /\
       ((new = [] /\ lp' = lp) \/ loop_ran R n (length actions + 1) lp' new))) ->
  triple s (recovery_iteration env co a bundle request attempt cur pol actions continue)
    (fun o _ new => exists lp, o = Ok lp /\ loop_ran R (S n) (length actions) lp new).
Proof.
  intros HR Hcur Hcont. unfold recovery_iteration.
  eapply triple_bind; [apply execute_adapter_trace | | by intros e s1 n1 [? _]].
  intros [[res refs] meta] s1 n1 [_ ->].
  eapply (triple_bind _ _ _ (fun o _ new => is_ok o = true /\ new = [])).
  { eapply (triple_try_except _ _ _ (fun _ _ new => new = [])).
    - eapply triple_bind; [apply evaluate_recovery_trace | | by intros].
      intros o s2 n2 ->. by apply triple_ret.
    - by intros.
    - intros e s2 n2 ->. by apply triple_ret. }
  2: { by intros e s2 n2 [? _]. }
  intros ev s2 n2 [_ ->].
  assert (Hlen : forall x, length (actions ++ [x]) = length actions + 1)
    by (intros x; by rewrite length_app).
  assert (Hend : forall lp x, lp_actions lp = actions ++ [x] ->
    triple s2 (ret lp) (fun o _ new => exists lp', o = Ok lp' /\
      loop_ran R (S n) (length actions) lp' ([E_adapter cur] ++ [] ++ new))).
  { intros lp x Hlp. apply triple_ret. exists lp. split; [done|]. by eapply loop_done. }
  destruct ev as [outcome|e]; [|by eapply Hend].
  destruct (bool_decide (ro_decision outcome = ACCEPT)); [by eapply Hend|].
  destruct (ro_next_request outcome) as [next|]; [|by eapply Hend].
  eapply triple_bind; [apply delayed_action_trace | | by intros e s3 n3 [? _]].
  intros action s3 sl [_ Hsl].
  assert (Hend' : forall lp, lp_actions lp = actions ++ [action] ->
    triple s3 (ret lp) (fun o _ new => exists lp', o = Ok lp' /\
      loop_ran R (S n) (length actions) lp' ([E_adapter cur] ++ [] ++ sl ++ new))).
  { intros lp Hlp. apply triple_ret. exists lp. split; [done|]. rewrite app_nil_r. by eapply loop_stop. }
  assert (Hgo : forall nx pol' lp, R nx -> lp_actions lp = actions ++ [action] ->
    triple s3 (continue nx pol' (actions ++ [action]) lp) (fun o _ new => exists lp', o = Ok lp' /\
      loop_ran R (S n) (length actions) lp' ([E_adapter cur] ++ [] ++ sl ++ new))).
  { intros nx pol' lp Hnx Hlp. eapply triple_weaken; [by apply Hcont|].
    intros o s4 new (lp' & -> & Hran). exists lp'. split; [done|].
    destruct Hran as [[-> ->] | Hran]; [|exact (loop_step R n _ lp' cur sl new Hcur Hsl Hran)].
    rewrite app_nil_r. exact (loop_stop R n _ lp cur sl _ Hcur Hsl Hlp (Hlen action)). }
  set (nx := match next with NextCurrent => cur | NextOther r => r end).
  assert (Hnx : match next with NextCurrent => (cur, false) | NextOther r => (r, true) end
    = (nx, match next with NextCurrent => false | NextOther _ => true end)) by by destruct next.
  rewrite Hnx. destruct (_ || ro_requires_policy_revalidation outcome) eqn:Hre.
  - destruct (co_policy co (b_proposal bundle) (b_decision bundle) nx) as [pol'|e] eqn:Hpol;
      [|by apply Hend'].
    destruct (held pol') eqn:Hheld; [by apply Hend'|]. apply Hgo; [|done]. apply HR. by exists pol'.
  - apply Hgo; [|done]. unfold nx. by destruct next.
Qed.

Lemma recovery_loop_trace (R : ExecutionRequest -> Prop) a bundle request remaining s attempt cur pol actions :
  (forall r, authorised bundle r -> R r) -> R cur ->
  triple s (recovery_loop env co a bundle request remaining attempt cur pol actions)
    (fun o _ new => exists lp, o = Ok lp /\ loop_ran R (S remaining) (length actions) lp new).
Proof.
  intros HR. revert s attempt cur pol actions.
  induction remaining as [|remaining IH]; intros s attempt cur pol actions Hcur; cbn [recovery_loop].
  - eapply triple_weaken.
    + apply (recovery_iteration_trace R a bundle request s attempt cur pol actions _ 0); [done..|].
      intros s1 next pol' acts lp Hn Ha Hl. apply triple_ret. exists lp. auto.
    + done.
  - apply (recovery_iteration_trace R); [done..|].
    intros s1 next pol' acts lp Hn Ha Hl. eapply triple_weaken; [by apply IH|].
    intros o s2 new (lp' & -> & Hran). exists lp'. split; [done|]. right. by rewrite <-Hl.
Qed.

Definition max_attempts : nat := S (Z.to_nat (rpol_max_attempts (co_recovery_policy co) - 1)).

Lemma run_with_recovery_loop_trace (R : ExecutionRequest -> Prop) a bundle request pol s :
  (forall r, authorised bundle r -> R r) -> R request ->
  triple s (run_with_recovery_loop env co a bundle request pol)
    (fun o _ new => exists lp, o = Ok lp /\ loop_ran R max_attempts 0 lp new).
Proof. intros HR Hr. by apply (recovery_loop_trace R a bundle request _ s 1 request pol []). Qed.

(** ** The ledger and the sinks *)

Lemma store_write_trace s op run_id now write :
  triple s (store_write env op run_id now write) (fun _ _ new => new = [E_store op run_id]).
Proof.
  unfold triple, store_write, bind, gets, emit, set_file, lift. simpl.
  destruct (write _ _ _) as [f r]. simpl. by exists [E_store op run_id].
Qed.

(** The mark a dispatch leaves, when there is a ledger. *)
Definition marks (op : store_op) (run_id : string) : list effect :=
  if co_usage_store co then [E_store op run_id] else [].

Lemma mark_trace s op r write :
  triple s (mark env co op r write) (fun _ _ new => new = marks op (req_run_id r)).
Proof.
  unfold mark, marks. destruct (co_usage_store co); [|by apply triple_ret].
  eapply (triple_bind _ _ _ (fun o _ new => is_ok o = true /\ new = []));
    [by apply triple_gets | | by intros ? ? ? [? _]].
  intros now s1 n1 [_ ->]. apply store_write_trace.
Qed.

(** The ledger and the health registry are as they were. *)
Definition same (s s' : cstate) : Prop := cs_file s' = cs_file s /\ cs_health s' = cs_health s.

Lemma same_trans s1 s2 s3 : same s1 s2 -> same s2 s3 -> same s1 s3.
Proof. intros [H1 H2] [H3 H4]. split; congruence. Qed.

Lemma observe_trace s bundle result pol refs meta request :
  triple s (observe env bundle result pol refs meta request) (fun _ s' new => same s s' /\ exists o,
    new = [E_observe o] /\ ob_result o = result /\ ob_policy o = pol).
Proof.
  unfold triple, observe, bind, gets, emit, lift. simpl. eexists. split; [done|].
  split; [done|]. by eexists.
Qed.

Lemma record_run_memory_trace s r :
  triple s (record_run_memory co r) (fun o s' new => same s s' /\ o = Ok tt /\
    (new = [] \/ new = [E_memory (req_run_id r)])).
Proof.
  unfold record_run_memory. destruct (co_run_memory co); [|apply triple_ret; split; auto; done].
  apply triple_emit. split; auto. done.
Qed.

(** Which ledger entry the outcome of a run gets. *)
Definition account (result : ExecutionResult) : store_op :=
  if is_capacity_limit_failure result then OpQuota else OpOutcome (res_success result).

(** The ledger entries of a run that ended with [result]. *)
Definition accounted (result : ExecutionResult) (ops : list store_op) : Prop :=
  if co_usage_store co then
    ops = [OpExecution; account result] \/
    exists wb, ops = [OpExecution; OpCooldown wb; account result] /\
      is_capacity_limit_failure result = true
  else ops = [].

Lemma record_cooldown_trace s r result meta now :
  triple s (record_worker_backend_cooldown_from_result env r result meta now) (fun _ _ new =>
    new = [] \/ exists wb, new = [E_store (OpCooldown wb) (req_run_id r)] /\
      is_capacity_limit_failure result = true).
Proof.
  unfold record_worker_backend_cooldown_from_result.
  destruct (is_capacity_limit_failure result); simpl; [|apply triple_ret; auto].
  destruct (dget meta "observed_runtime"); try (apply triple_ret; by left).
  destruct (dget _ "selected_worker_backend") as [| | | |wb| | |]; try (apply triple_ret; by left).
  destruct (negb (str_truthy wb)); [apply triple_ret; by left|].
  eapply triple_weaken; [apply store_write_trace|]. intros _ _ new ->. right. by exists wb.
Qed.

Lemma record_dispatch_trace s bundle r result meta :
  triple s (record_dispatch env co bundle r result meta) (fun o _ new =>
    Forall (fun e => late e = true) new /\ observations new = [] /\
    (is_ok o = true -> accounted result (store_ops new))).
Proof.
  unfold record_dispatch, accounted. destruct (co_usage_store co); simpl; [|by apply triple_ret].
  eapply (triple_bind _ _ _ (fun o _ new => is_ok o = true /\ new = []));
    [by apply triple_gets | | by intros ? ? ? [? _]].
  intros now s1 n1 [_ ->].
  eapply triple_bind; [apply store_write_trace | |].
  2: { intros e s2 n2 ->. split; [by constructor|]. split; [done|]. done. }
  intros [] s2 n2 ->. eapply triple_bind; [apply record_cooldown_trace | |].
  2: { intros e s3 n3 [-> | (wb & -> & _)]; split; try done; by repeat constructor. }
  intros [] s3 n3 H3.
  assert (Hacc : late (E_store (account result) (req_run_id r)) = true)
    by (unfold account; by destruct (is_capacity_limit_failure result)).
  assert (Hend : forall w, triple s3 (store_write env (account result) (req_run_id r) now w)
    (fun o _ new => Forall (fun e => late e = true) ([] ++ [E_store OpExecution (req_run_id r)] ++ n3 ++ new) /\
      observations ([] ++ [E_store OpExecution (req_run_id r)] ++ n3 ++ new) = [] /\
      (is_ok o = true ->
        store_ops ([] ++ [E_store OpExecution (req_run_id r)] ++ n3 ++ new) = [OpExecution; account result] \/
        exists wb, store_ops ([] ++ [E_store OpExecution (req_run_id r)] ++ n3 ++ new)
                     = [OpExecution; OpCooldown wb; account result] /\
          is_capacity_limit_failure result = true))).
  { intros w. eapply triple_weaken; [apply store_write_trace|]. intros o s4 new ->.
    destruct H3 as [-> | (wb & -> & Hc)]; simpl; (split; [by repeat constructor|]);
      (split; [done|]); intros _; [by left | right; by exists wb]. }
  clear Hacc. unfold account in *. destruct (is_capacity_limit_failure result); apply Hend.
Qed.

Lemma finalize_workspace_trace s r result :
  triple s (finalize_workspace co r result) (fun o _ new => exists result', o = Ok result' /\
    (res_success result = false -> result' = result) /\ (new = [] \/ new = [E_finalize r])).
Proof.
  unfold finalize_workspace. destruct (co_workspace co) as [w|]; [|apply triple_ret; eauto].
  destruct (res_success result); [|apply triple_ret; eauto].
  unfold triple, bind, gets, emit, ret. simpl. eexists. split; [done|]. eexists. split; [done|].
  split; [done|]. by right.
Qed.

Lemma cl_dispatch_wrap_trace {A} s r (body : Eff A) P :
  (forall s1, triple s1 body (fun o _ new => P o new)) ->
  triple s (cl_dispatch_wrap env r body) (fun o _ new => exists before n after,
    new = before ++ n ++ after /\ P o n /\ Forall (fun e => inside e = true) (before ++ after) /\
    adapter_calls (before ++ after) = [] /\ sleeps (before ++ after) = [] ).
Proof.
  intros Hb. unfold cl_dispatch_wrap. destruct (env_hydrate env) as [hydrate|].
  2: { eapply triple_weaken; [apply Hb|]. intros o s' new HP. exists [], new, [].
       rewrite app_nil_r. repeat split; [done | constructor]. }
  eapply (triple_bind _ _ _ (fun o _ new => o = Ok tt /\ new = [E_hydrate (derive_lineage_id r)]));
    [by apply triple_emit | | by intros ? ? ? [? _]].
  intros [] s1 n1 [_ ->]. destruct (hydrate _) as [u|e].
  - eapply triple_try_finally; [apply Hb|]. intros o s2 n2 HP. apply triple_emit. intros s3 _ _.
    exists [E_hydrate (derive_lineage_id r)], n2, [E_capture (derive_lineage_id r)].
    repeat split; [done | by repeat constructor].
  - eapply triple_weaken; [apply Hb|]. intros o s' new HP.
    exists [E_hydrate (derive_lineage_id r)], new, []. rewrite app_nil_r.
    repeat split; [done | by repeat constructor].
Qed.

(** ** A whole dispatch *)

Lemma attach_lifecycle_keeps r result graph :
  let result' := attach_lifecycle_outcome r result graph in
  res_success result' = res_success result /\
  res_failure_category result' = res_failure_category result /\
  res_failure_reason result' = res_failure_reason result.
Proof. unfold attach_lifecycle_outcome. by destruct (req_lifecycle r). Qed.

(** What a returned outcome says of a run that ended with [raw], before the
    workspace and the lifecycle saw it. *)
Record completed (raw : ExecutionResult) (out : ExecutionRunOutcome Rec) (post : list effect) : Prop := {
  cm_executed : xo_executed out = true;
  cm_accounted : accounted raw (store_ops post);
  cm_failure : res_success raw = false ->
    res_success (xo_result out) = false /\
    res_failure_category (xo_result out) = res_failure_category raw /\
    res_failure_reason (xo_result out) = res_failure_reason raw;
  cm_observed : exists ob, observations post = [ob] /\ ob_result ob = xo_result out /\
    ob_policy ob = xo_policy_decision out }.

(** The trace of [dispatch]: marked as started, run, marked as finished, then
    accounted for and observed.  Only a ledger that cannot record the start
    keeps the adapter from running. *)
Inductive dispatch_trace (R : ExecutionRequest -> Prop) (run_id : string)
    : res (ExecutionRunOutcome Rec) -> list effect -> Prop :=
  | dt_unmarked e :
      co_usage_store co = true -> dispatch_trace R run_id (Raise e) (marks OpStarted run_id)
  | dt_ran o inner post raw :
      Forall (fun e => inside e = true) inner ->
      Forall R (adapter_calls inner) ->
      1 <= length (adapter_calls inner) <= max_attempts ->
      Forall (fun d => (0 <= d)%Q /\ (d <= max_delay)%Q) (sleeps inner) ->
      length (sleeps inner) <= length (adapter_calls inner) ->
      Forall (fun e => late e = true) post ->
      (forall out, o = Ok out -> completed raw out post) ->
      dispatch_trace R run_id o
        (marks OpStarted run_id ++ inner ++ marks OpFinished run_id ++ post).

Lemma adapter_calls_app a b : adapter_calls (a ++ b) = adapter_calls a ++ adapter_calls b.
Proof. apply omap_app. Qed.
Lemma sleeps_app a b : sleeps (a ++ b) = sleeps a ++ sleeps b.
Proof. apply omap_app. Qed.
Lemma store_ops_app a b : store_ops (a ++ b) = store_ops a ++ store_ops b.
Proof. apply omap_app. Qed.
Lemma observations_app a b : observations (a ++ b) = observations a ++ observations b.
Proof. apply omap_app. Qed.

(** Inside the wrap: the loop's effects and nothing else. *)
Lemma wrapped_loop_trace (R : ExecutionRequest -> Prop) a bundle request pol s :
  (forall r, authorised bundle r -> R r) -> R request ->
  triple s (cl_dispatch_wrap env request (run_with_recovery_loop env co a bundle request pol))
    (fun o _ new => (exists lp, o = Ok lp) /\ Forall (fun e => inside e = true) new /\
       Forall R (adapter_calls new) /\ 1 <= length (adapter_calls new) <= max_attempts /\
       Forall (fun d => (0 <= d)%Q /\ (d <= max_delay)%Q) (sleeps new) /\
       length (sleeps new) <= length (adapter_calls new)).
Proof.
  intros HR Hr. eapply triple_weaken.
  - apply (cl_dispatch_wrap_trace s request _ (fun o new => exists lp, o = Ok lp /\
      loop_ran R max_attempts 0 lp new)).
    intros s1. by apply run_with_recovery_loop_trace.
  - intros o s' new (before & n & after & -> & (lp & -> & Hran) & Hin & Hc & Hsl).
    destruct Hran as [H1 H2 _ H4 H5 H6].
    apply Forall_app in Hin as [Hb Ha]. rewrite adapter_calls_app in Hc. rewrite sleeps_app in Hsl.
    apply app_nil in Hc as [Hc1 Hc2], Hsl as [Hs1 Hs2].
    rewrite !adapter_calls_app, !sleeps_app, Hc1, Hc2, Hs1, Hs2, !app_nil_r. simpl.
    split; [by exists lp|]. split; [by repeat (apply Forall_app; split)|]. auto.
Qed.

(** From the accounting to the returned outcome. *)
Lemma conclude_trace bundle request lp pre s :
  let raw := attach_recovery_metadata (lp_result lp) (lp_actions lp) in
  triple s
    (record_dispatch env co bundle request raw (lp_meta lp) ;;;
     result <~ finalize_workspace co request raw ;;
     let result := attach_lifecycle_outcome request result (co_repo_graph co) in
     rec <~ observe env bundle result (lp_policy lp) (lp_refs lp) (lp_meta lp ∪ pre) (Some request) ;;
     record_run_memory co request ;;;
     ret {| xo_request := request; xo_policy_decision := lp_policy lp; xo_result := result;
            xo_record := rec; xo_executed := true |})
    (fun o _ new => Forall (fun e => late e = true) new /\
       forall out, o = Ok out -> completed raw out new /\ xo_request out = request).
Proof.
  intros raw. eapply triple_bind; [apply record_dispatch_trace | |].
  2: { intros e s1 n1 (H1 & _). by split. }
  intros [] s1 n1 (Hl1 & Ho1 & Ha1). specialize (Ha1 eq_refl).
  eapply triple_bind; [apply finalize_workspace_trace | |].
  2: { intros e s2 n2 (? & ? & _). done. }
  intros result s2 n2 (? & [= <-] & Hkeep & Hn2).
  assert (H2 : Forall (fun e => late e = true) n2 /\ observations n2 = [] /\ store_ops n2 = [])
    by (destruct Hn2 as [-> | ->]; repeat split; by repeat constructor).
  destruct H2 as (Hl2 & Ho2 & Hs2).
  set (final := attach_lifecycle_outcome request result (co_repo_graph co)).
  eapply triple_bind; [apply observe_trace | |].
  2: { intros e s3 n3 (_ & o & -> & _). split; [|done].
       rewrite !Forall_app. repeat split; auto; by repeat constructor. }
  intros rec s3 n3 (_ & ob & -> & Hob1 & Hob2).
  eapply triple_bind; [apply record_run_memory_trace | | by intros e s4 n4 (_ & ? & _)].
  intros [] s4 n4 (_ & _ & Hn4).
  assert (H4 : Forall (fun e => late e = true) n4 /\ observations n4 = [] /\ store_ops n4 = [])
    by (destruct Hn4 as [-> | ->]; repeat split; by repeat constructor).
  destruct H4 as (Hl4 & Ho4 & Hs4).
  apply triple_ret. split; [rewrite !Forall_app; repeat split; auto; by repeat constructor|].
  intros out [= <-]. split; [|done].
  constructor; cbn [xo_executed xo_result xo_policy_decision].
  - done.
  - rewrite !store_ops_app, Hs2, Hs4. simpl. by rewrite app_nil_r.
  - intros Hf. destruct (attach_lifecycle_keeps request result (co_repo_graph co)) as (K1 & K2 & K3).
    fold final in K1, K2, K3. rewrite K1, K2, K3, (Hkeep Hf). done.
  - exists ob. rewrite !observations_app, Ho1, Ho2, Ho4. simpl. auto.
Qed.

Lemma dispatch_trace_holds (R : ExecutionRequest -> Prop) a bundle request pol pre s :
  (forall r, authorised bundle r -> R r) -> R request ->
  triple s (dispatch env co bundle request pol pre a) (fun o _ new =>
    dispatch_trace R (req_run_id request) o new /\
    forall out, o = Ok out -> xo_request out = request).
Proof.
  intros HR Hr. unfold dispatch.
  eapply (triple_bind _ _ _ (fun o _ new => new = marks OpStarted (req_run_id request) /\
    (is_ok o = false -> co_usage_store co = true))).
  { unfold mark, marks. destruct (co_usage_store co); [|by apply triple_ret].
    eapply (triple_bind _ _ _ (fun o _ new => is_ok o = true /\ new = []));
      [by apply triple_gets | | by intros ? ? ? [? _]].
    intros now s1 n1 [_ ->]. eapply triple_weaken; [apply store_write_trace|]. by intros ? ? ? ->. }
  2: { intros e s1 n1 [-> H]. split; [constructor; by apply H | done]. }
  intros [] s1 n1 [-> _].
  eapply (triple_bind _ _ _ (fun o _ n => exists inner, n = inner ++ marks OpFinished (req_run_id request) /\
    Forall (fun e => inside e = true) inner /\ Forall R (adapter_calls inner) /\
    1 <= length (adapter_calls inner) <= max_attempts /\
    Forall (fun d => (0 <= d)%Q /\ (d <= max_delay)%Q) (sleeps inner) /\
    length (sleeps inner) <= length (adapter_calls inner))).
  { eapply triple_try_finally; [by apply (wrapped_loop_trace R)|].
    intros o s2 n2 (_ & H). eapply triple_weaken; [apply mark_trace|].
    intros o' s3 n3 ->. by destruct o'; exists n2. }
  2: { intros e s2 n2 (inner & -> & H1 & H2 & H3 & H4 & H5). split; [|done].
       pose proof (dt_ran R (req_run_id request) (Raise e) inner []
         (adapter_crash_result request e) H1 H2 H3 H4 H5) as Hd. rewrite app_nil_r in Hd.
       apply Hd; [constructor | done]. }
  intros lp s2 n2 (inner & -> & H1 & H2 & H3 & H4 & H5).
  eapply triple_weaken; [apply conclude_trace|]. intros o s3 post [Hp Ho]. rewrite <-app_assoc.
  split; [|intros out E; by apply Ho].
  eapply (dt_ran R _ o inner post); try done. intros out E. by apply Ho.
Qed.

(** ** [execute] *)

(** The runtime context the requests are built with. *)
Definition bound_runtime (bundle : ProposalDecisionBundle) (runtime : ExecutionRuntimeContext)
    : ExecutionRuntimeContext := apply_runtime_binding_policy env co bundle runtime.

(** A request the policy let through: judged as it is, or rebuilt from the
    decision on the first build. *)
Definition may_run (bundle : ProposalDecisionBundle) (runtime : ExecutionRuntimeContext)
    (r : ExecutionRequest) : Prop :=
  authorised bundle r \/
  exists id1 id2 d,
    let judged := build (env_provenance env) id1 bundle (bound_runtime bundle runtime) None in
    co_policy co (b_proposal bundle) (b_decision bundle) judged = Ok d /\ held d = false /\
    r = build (env_provenance env) id2 bundle (bound_runtime bundle runtime) (Some d).

(** Nothing ran: only ids, the workspace, and the report of the refusal. *)
Definition refusal (s s' : cstate) (o : res (ExecutionRunOutcome Rec)) (new : list effect) : Prop :=
  same s s' /\ adapter_calls new = [] /\ store_ops new = [] /\ sleeps new = [] /\
  forall out, o = Ok out -> xo_executed out = false /\ res_success (xo_result out) = false /\
    exists ob, observations new = [ob] /\ ob_result ob = xo_result out /\
      ob_policy ob = xo_policy_decision out.

Inductive execute_trace (bundle : ProposalDecisionBundle) (runtime : ExecutionRuntimeContext)
    (s s' : cstate) : res (ExecutionRunOutcome Rec) -> list effect -> Prop :=
  | et_refused o new : refusal s s' o new -> execute_trace bundle runtime s s' o new
  | et_dispatched o pre run_id rest :
      Forall (fun e => early e = true) pre ->
      dispatch_trace (may_run bundle runtime) run_id o rest ->
      execute_trace bundle runtime s s' o (pre ++ rest).

Lemma build_eff_trace s bundle runtime pol :
  triple s (build_eff env bundle runtime pol) (fun o s' new => same s s' /\ exists id,
    new = [E_new_id id] /\ o = Ok (build (env_provenance env) id bundle runtime pol)).
Proof. unfold triple, build_eff, bind, gets, emit, ret. simpl. eexists. split; [done|]. by split; [|eexists]. Qed.

Lemma not_executed_trace s s0 pre bundle request pol result :
  res_success result = false -> same s0 s ->
  adapter_calls pre = [] -> store_ops pre = [] -> sleeps pre = [] -> observations pre = [] ->
  triple s (not_executed env co bundle request pol result) (fun o s' new => refusal s0 s' o (pre ++ new)).
Proof.
  intros Hres Hs H1 H2 H3 H4. unfold not_executed, refusal.
  eapply triple_bind; [apply observe_trace | |].
  2: { intros e s1 n1 (Hs1 & o & -> & _). split; [by eapply same_trans|].
       rewrite adapter_calls_app, store_ops_app, sleeps_app, H1, H2, H3. done. }
  intros rec s1 n1 (Hs1 & ob & -> & Ho1 & Ho2).
  eapply triple_bind; [apply record_run_memory_trace | | by intros e s2 n2 (_ & ? & _)].
  intros [] s2 n2 (Hs2 & _ & Hn2). apply triple_ret.
  split; [by repeat (eapply same_trans; [eassumption|])|].
  rewrite !adapter_calls_app, !store_ops_app, !sleeps_app, !observations_app, H1, H2, H3, H4.
  assert (adapter_calls n2 = [] /\ store_ops n2 = [] /\ sleeps n2 = [] /\ observations n2 = [])
    as (-> & -> & -> & ->) by (by destruct Hn2 as [-> | ->]).
  do 3 (split; [done|]). intros out [= <-]. do 2 (split; [done|]). by exists ob.
Qed.

Lemma gate_trace s :
  triple s (evaluate_resource_gate env co) (fun _ s' new => s' = s /\ new = []).
Proof.
  unfold evaluate_resource_gate, triple. destruct (negb _); [|destruct (co_resource_gate co)];
    exists []; by rewrite app_nil_r.
Qed.

Lemma caps_trace s backend :
  triple s (evaluate_backend_caps env co backend) (fun _ s' new => s' = s /\ new = []).
Proof.
  unfold evaluate_backend_caps, triple. destruct (negb _); [|destruct (co_backend_caps co !! backend)];
    exists []; by rewrite app_nil_r.
Qed.

(** Every run of [execute] is a refusal that touched nothing, or a dispatch. *)
Lemma execute_trace_holds bundle runtime s :
  triple s (execute env co bundle runtime) (fun o s' new => execute_trace bundle runtime s s' o new).
Proof.
  unfold execute. fold (bound_runtime bundle runtime). set (rt := bound_runtime bundle runtime).
  eapply triple_bind; [apply build_eff_trace | | by intros e s1 n1 (_ & id & _ & ?)].
  intros judged s1 n1 (Hs1 & id1 & -> & [= ->]).
  set (judged := build (env_provenance env) id1 bundle rt None).
  assert (Hrefuse : forall s0 e pre, same s s0 -> adapter_calls pre = [] -> store_ops pre = [] ->
    sleeps pre = [] -> execute_trace bundle runtime s s0 (Raise e) pre).
  { intros s0 e pre H0 H1 H2 H3. apply et_refused. split; [exact H0|]. by do 3 (split; [done|]). }
  eapply (triple_bind _ _ _ (fun o s2 n2 => s2 = s1 /\ n2 = [] /\
    o = co_policy co (b_proposal bundle) (b_decision bundle) judged));
    [by apply triple_lift | | by intros e s2 n2 (-> & -> & _); apply Hrefuse].
  intros d s2 n2 (-> & -> & Hpol). destruct (held d) eqn:Hheld.
  { eapply triple_weaken; [by apply (not_executed_trace s1 s [E_new_id id1])|].
    intros o s' new H. by apply et_refused. }
  eapply triple_bind; [apply build_eff_trace | | by intros e s2 n2 (_ & id & _ & ?)].
  intros request s2 n2 (Hs2 & id2 & -> & [= ->]).
  set (request := build (env_provenance env) id2 bundle rt (Some d)).
  assert (Hmay : may_run bundle runtime request) by (right; by exists id1, id2, d).
  eapply (triple_bind _ _ _ (fun o s3 n3 => same s2 s3 /\ is_ok o = true /\
    (n3 = [] \/ n3 = [E_prepare request]))).
  { unfold prepare_workspace. destruct (co_workspace co) as [w|]; [|apply triple_ret; split; [by split | auto]].
    unfold triple, bind, gets, emit, ret. simpl. eexists. split; [done|].
    split; [done|]. split; [done|]. by right. }
  2: { by intros e s3 n3 (_ & ? & _). }
  intros prep s3 n3 (Hs3 & _ & Hn3).
  set (pre := [E_new_id id1] ++ [] ++ [E_new_id id2] ++ n3).
  assert (Hpre : Forall (fun e => early e = true) pre /\ adapter_calls pre = [] /\ store_ops pre = [] /\
    sleeps pre = [] /\ observations pre = []).
  { unfold pre. destruct Hn3 as [-> | ->]; simpl; (split; [by repeat constructor | done]). }
  destruct Hpre as (He & Hc & Hso & Hsl & Hob).
  assert (Hs : same s s3) by (repeat (eapply same_trans; [eassumption|]); done).
  assert (Hno : forall s4 pol result, res_success result = false -> same s s4 ->
    triple s4 (not_executed env co bundle request pol result) (fun o s' new =>
      execute_trace bundle runtime s s' o ([E_new_id id1] ++ [] ++ [E_new_id id2] ++ n3 ++ new))).
  { intros s4 pol result Hr H4.
    eapply triple_weaken; [by apply (not_executed_trace s4 s pre)|].
    intros o s' new H. apply et_refused. unfold pre in H. by rewrite <-!app_assoc in H. }
  destruct prep as [e|]; [by apply Hno|].
  assert (Hraise : forall e, execute_trace bundle runtime s s3 (Raise e) ([E_new_id id1] ++ [] ++ [E_new_id id2] ++ n3))
    by (intros e; by apply Hrefuse).
  eapply triple_bind; [apply gate_trace | |].
  2: { intros e s4 n4 [-> ->]. rewrite app_nil_r. apply Hraise. }
  intros gate s4 n4 [-> ->]. destruct gate as [b|]; [by apply Hno|].
  eapply triple_bind; [apply caps_trace | |].
  2: { intros e s4 n4 [-> ->]. rewrite app_nil_r. apply Hraise. }
  intros capped s4 n4 [-> ->]. destruct capped as [b|]; [by apply Hno|].
  eapply (triple_bind _ _ _ (fun _ s5 n5 => s5 = s3 /\ n5 = [])); [by apply triple_lift | |].
  2: { intros e s4 n4 [-> ->]. rewrite app_nil_r. apply Hraise. }
  intros a s4 n4 [-> ->]. eapply triple_weaken.
  - apply (dispatch_trace_holds (may_run bundle runtime)); [|done]. intros r Hr. by left.
  - intros o s5 new [Hd _]. apply (et_dispatched bundle runtime s s5 o pre _ new He) in Hd.
    unfold pre in Hd. by rewrite <-!app_assoc in Hd.
Qed.

Lemma Forall_no {A} (f : effect -> option A) (p : effect -> bool) l :
  (forall e, p e = true -> f e = None) -> Forall (fun e => p e = true) l -> omap f l = [].
Proof. intros Hf. induction 1 as [|e l He Hl IH]; simpl; [done|]. by rewrite (Hf e He). Qed.

Lemma late_no_calls l : Forall (fun e => late e = true) l -> adapter_calls l = [] /\ sleeps l = [].
Proof. intros H. split; (eapply Forall_no; [|exact H]); by intros []. Qed.
Lemma early_nothing l : Forall (fun e => early e = true) l ->
  adapter_calls l = [] /\ sleeps l = [] /\ store_ops l = [] /\ observations l = [].
Proof. intros H. repeat split; (eapply Forall_no; [|exact H]); by intros []. Qed.
Lemma inside_no_ops l : Forall (fun e => inside e = true) l -> store_ops l = [] /\ observations l = [].
Proof. intros H. split; (eapply Forall_no; [|exact H]); by intros []. Qed.
Lemma marks_nothing op id : adapter_calls (marks op id) = [] /\ sleeps (marks op id) = [] /\
  observations (marks op id) = [] /\ store_ops (marks op id) = if co_usage_store co then [op] else [].
Proof. unfold marks. by destruct (co_usage_store co). Qed.

(** What the trace of a dispatch adds up to. *)
Lemma dispatch_adds_up R id o new :
  dispatch_trace R id o new ->
  Forall R (adapter_calls new) /\ length (adapter_calls new) <= max_attempts /\
  length (sleeps new) <= length (adapter_calls new) /\
  Forall (fun d => (0 <= d)%Q /\ (d <= max_delay)%Q) (sleeps new).
Proof.
  destruct (marks_nothing OpStarted id) as (M1 & M2 & _), (marks_nothing OpFinished id) as (M3 & M4 & _).
  intros [e Hst | o' inner post raw Hin HR Hn Hs Hl Hp _].
  - rewrite M1, M2. simpl. repeat split; auto; lia.
  - destruct (late_no_calls post Hp) as [P1 P2].
    rewrite !adapter_calls_app, !sleeps_app, M1, M2, M3, M4, P1, P2, !app_nil_r. simpl.
    repeat split; auto; lia.
Qed.

Lemma execute_adds_up bundle runtime s s' o new :
  execute_trace bundle runtime s s' o new ->
  Forall (may_run bundle runtime) (adapter_calls new) /\ length (adapter_calls new) <= max_attempts /\
  length (sleeps new) <= length (adapter_calls new) /\
  Forall (fun d => (0 <= d)%Q /\ (d <= max_delay)%Q) (sleeps new).
Proof.
  intros [o' new' (_ & H1 & _ & H2 & _) | o' pre id rest He Hd].
  - rewrite H1, H2. simpl. repeat split; auto; lia.
  - destruct (early_nothing pre He) as (E1 & E2 & _). rewrite adapter_calls_app, sleeps_app, E1, E2.
    by eapply dispatch_adds_up.
Qed.

(** C1: the adapter is never called with a request the policy gate did not
    let through: each request it is given was either judged itself and not
    held, or is the rebuild, from a decision that does not hold it, of the
    first request judged.  Requests the recovery handlers rewrite are judged
    again before they run. *)
Theorem adapter_runs_only_if_allowed bundle runtime s :
  let '(s', r) := execute env co bundle runtime s in
  exists new, cs_trace s' = cs_trace s ++ new /\ Forall (may_run bundle runtime) (adapter_calls new).
Proof.
  eapply triple_weaken; [apply execute_trace_holds|]. intros o s' new H.
  by destruct (execute_adds_up _ _ _ _ _ _ H) as (? & _).
Qed.

(** one [execute] calls the adapter at most [max(1, max_attempts)] times
    and sleeps at most once per call, each time for a non-negative delay of at
    most the policy's [max_delay_seconds]. *)
Theorem execution_is_bounded bundle runtime s :
  let '(s', r) := execute env co bundle runtime s in
  exists new, cs_trace s' = cs_trace s ++ new /\
    length (adapter_calls new) <= Z.to_nat (Z.max 1 (rpol_max_attempts (co_recovery_policy co))) /\
    length (sleeps new) <= length (adapter_calls new) /\
    Forall (fun d => (0 <= d)%Q /\ (d <= py_maxQ 0 (rpol_max_delay_seconds (co_recovery_policy co)))%Q)
      (sleeps new).
Proof.
  eapply triple_weaken; [apply execute_trace_holds|]. intros o s' new H.
  destruct (execute_adds_up _ _ _ _ _ _ H) as (_ & H1 & H2 & H3). unfold max_attempts in H1. split; [lia|]. by split.
Qed.

(** C6: whatever the adapter, the recovery engine or the wrap do, a run that
    was marked as started in the ledger is marked as finished right after it,
    before anything else is recorded; every adapter call falls between the two
    marks.  (Without a ledger there are no marks.) *)
Theorem runs_are_bracketed bundle runtime s :
  let '(s', r) := execute env co bundle runtime s in
  exists new, cs_trace s' = cs_trace s ++ new /\
  (adapter_calls new = [] \/
   exists id before inner after,
     new = before ++ (if co_usage_store co then [E_store OpStarted id] else []) ++ inner ++
           (if co_usage_store co then [E_store OpFinished id] else []) ++ after /\
     adapter_calls new = adapter_calls inner /\ store_ops before = [] /\ store_ops inner = [] /\
     ~ OpStarted ∈ store_ops after /\ ~ OpFinished ∈ store_ops after).
Proof.
  eapply triple_weaken; [apply execute_trace_holds|]. intros o s' new H.
  destruct H as [o new (_ & H & _) | o pre id rest He Hd]; [by left|].
  destruct (early_nothing pre He) as (E1 & _ & E2 & _).
  destruct (marks_nothing OpStarted id) as (M1 & _), (marks_nothing OpFinished id) as (M2 & _).
  destruct Hd as [e _ | o inner post raw Hin _ _ _ _ Hp _].
  - left. by rewrite adapter_calls_app, E1, M1.
  - right. exists id, pre, inner, post. split; [done|].
    destruct (late_no_calls post Hp) as [P1 _].
    split; [by rewrite !adapter_calls_app, E1, M1, M2, P1, app_nil_r|].
    split; [done|]. split; [by apply inside_no_ops|].
    split; intros (e & He' & Hop)%list_elem_of_omap; (eapply Forall_forall in Hp; [|exact He']);
      destruct e as [| |[]| | | | | | |]; naive_solver.
Qed.

(** a dispatch that is refused (held by the policy, its workspace not
    prepared, or stopped by a resource gate or a backend cap) calls no
    adapter, leaves the ledger and the health registry exactly as they were,
    and returns an unsuccessful result. *)
Theorem refused_dispatch_changes_nothing bundle runtime s :
  let '(s', r) := execute env co bundle runtime s in
  exists new, cs_trace s' = cs_trace s ++ new /\
  match r with
  | Ok out => if xo_executed out then True else
      adapter_calls new = [] /\ store_ops new = [] /\ cs_file s' = cs_file s /\
      cs_health s' = cs_health s /\ res_success (xo_result out) = false
  | Raise _ => True
  end.
Proof.
  eapply triple_weaken; [apply execute_trace_holds|]. intros o s' new H. destruct o as [out|]; [|done].
  destruct (xo_executed out) eqn:Hx; [done|].
  inversion H as [? ? ([Hf Hh] & H1 & H2 & _ & Ho) | ? pre id rest He Hd]; subst.
  - destruct (Ho out eq_refl) as (_ & Hr & _). auto.
  - inversion Hd as [|? ? ? raw _ _ _ _ _ _ Hout]; subst.
    destruct (Hout out eq_refl) as [Hex _ _ _]. congruence.
Qed.

(** ** What a returned run ended with *)












(** every returned outcome was observed exactly once, with the result and
    the policy decision that are returned. *)
Theorem outcome_is_observed bundle runtime s :
  let '(s', r) := execute env co bundle runtime s in
  exists new, cs_trace s' = cs_trace s ++ new /\
  match r with
  | Ok out => exists ob, observations new = [ob] /\ ob_result ob = xo_result out /\
                ob_policy ob = xo_policy_decision out
  | Raise _ => True
  end.
Proof.
  eapply triple_weaken; [apply execute_trace_holds|]. intros o s' new H. destruct o as [out|]; [|done].
  inversion H as [? ? (_ & _ & _ & _ & Ho) | ? pre id rest He Hd]; subst.
  - by destruct (Ho out eq_refl) as (_ & _ & Hob).
  - inversion Hd as [|? inner post raw Hin _ _ _ _ Hp Hout]; subst.
    destruct (Hout out eq_refl) as [_ _ _ (ob & Hob & H1 & H2)]. exists ob.
    destruct (early_nothing pre He) as (_ & _ & _ & E), (inside_no_ops inner Hin) as [_ I].
    destruct (marks_nothing OpStarted id) as (_ & _ & M1 & _), (marks_nothing OpFinished id) as (_ & _ & M2 & _).
    rewrite !observations_app, E, I, M1, M2. simpl. auto.
Qed.

(** ** Failures stay inside *)

(** [m] raises nothing but what [P] admits. *)
Definition raises_only {A} (P : exn -> Prop) (s : cstate) (m : Eff A) : Prop :=
  triple s m (fun o _ _ => forall e, o = Raise e -> P e).

Section Escapes.
Context (P : exn -> Prop).

Lemma raises_result {A} s (m : Eff A) : raises_only P s m -> forall e, snd (m s) = Raise e -> P e.
Proof. unfold raises_only, triple. destruct (m s) as [s' r]. by intros (new & _ & H). Qed.

Lemma raises_bind {A B} s (m : Eff A) (k : A -> Eff B) :
  raises_only P s m -> (forall a s1, raises_only P s1 (k a)) -> raises_only P s (bind m k).
Proof.
  intros Hm Hk. eapply triple_bind; [exact Hm|intros a s1 n1 _; apply Hk|].
  intros e s1 n1 H e' [= <-]. by apply H.
Qed.

Lemma raises_ok {A} s (m : Eff A) : triple s m (fun o _ _ => is_ok o = true) -> raises_only P s m.
Proof. intros H. eapply triple_weaken; [exact H|]. by intros [a|e] s' new. Qed.

Lemma raises_ret {A} s (a : A) : raises_only P s (ret a).
Proof. by apply triple_ret. Qed.

Lemma raises_lift {A} s (r : res A) : (forall e, r = Raise e -> P e) -> raises_only P s (lift r).
Proof. intros H. by apply triple_lift. Qed.

Context (Hobserve : forall tr o e, env_observe env tr o = Raise e -> P e).

Lemma observe_raises s bundle result pol refs meta request :
  raises_only P s (observe env bundle result pol refs meta request).
Proof.
  unfold raises_only, triple, observe, bind, gets, emit, lift. simpl. eexists. split; [done|]. apply Hobserve.
Qed.

Lemma record_run_memory_raises s r : raises_only P s (record_run_memory co r).
Proof. apply raises_ok. eapply triple_weaken; [apply record_run_memory_trace|]. by intros o s' new (_ & -> & _). Qed.

Lemma not_executed_raises s bundle request pol result :
  raises_only P s (not_executed env co bundle request pol result).
Proof.
  apply raises_bind; [apply observe_raises|]. intros rec s1.
  apply raises_bind; [apply record_run_memory_raises|]. intros [] s2. apply raises_ret.
Qed.

Lemma dispatch_raises s bundle request pol pre a :
  co_usage_store co = false -> raises_only P s (dispatch env co bundle request pol pre a).
Proof.
  intros Hs. unfold dispatch, mark, record_dispatch. rewrite Hs. simpl.
  apply raises_bind; [apply raises_ret|]. intros [] s1. apply raises_bind.
  { apply raises_ok. eapply triple_try_finally; [apply (wrapped_loop_trace (fun _ => True)); done|].
    intros r s2 n2 ((lp & ->) & _). by apply triple_ret. }
  intros lp s2. apply raises_bind; [apply raises_ret|]. intros [] s3. apply raises_bind.
  { apply raises_ok. eapply triple_weaken; [apply finalize_workspace_trace|]. by intros o s' new (? & -> & _). }
  intros result s4. apply raises_bind; [apply observe_raises|]. intros rec s5.
  apply raises_bind; [apply record_run_memory_raises|]. intros [] s6. apply raises_ret.
Qed.
End Escapes.

(** The request [execute] asks the policy engine about first. *)
Definition first_judged (bundle : ProposalDecisionBundle) (runtime : ExecutionRuntimeContext) (s : cstate)
    : ExecutionRequest :=
  build (env_provenance env) (env_new_id env (cs_trace s)) bundle (bound_runtime bundle runtime) None.

(** What [execute] lets escape: an exception of the policy engine on that very
    request, the lack of an adapter, and an exception of the observability sink. *)
Definition escapes (bundle : ProposalDecisionBundle) (runtime : ExecutionRuntimeContext) (s : cstate) (e : exn) : Prop :=
  co_policy co (b_proposal bundle) (b_decision bundle) (first_judged bundle runtime s) = Raise e \/
  (env_adapters env (dec_selected_backend (b_decision bundle)) = None /\
   exists text, e = UnsupportedBackendError text) \/
  exists tr o, env_observe env tr o = Raise e.

(** C23: without a usage ledger nothing escapes [execute] but an exception of
    the policy engine on the very first request, a backend without an adapter,
    and an exception of the observability sink: whatever the workspace, the
    adapter, the recovery engine, the policy engine inside the loop, the context
    wrap and the lifecycle handlers raise becomes an outcome. *)
Theorem failures_never_escape bundle runtime s e :
  co_usage_store co = false -> snd (execute env co bundle runtime s) = Raise e -> escapes bundle runtime s e.
Proof.
  intros Hs. revert e. set (P := escapes bundle runtime s).
  apply (raises_result P). unfold execute, evaluate_resource_gate, evaluate_backend_caps. rewrite Hs. simpl.
  assert (Hobs : forall tr o e, env_observe env tr o = Raise e -> P e) by (intros tr o e' H; right; right; by exists tr, o).
  assert (Hno : forall s bundle request pol result, raises_only P s (not_executed env co bundle request pol result))
    by (intros; by apply not_executed_raises).
  unfold raises_only.
  eapply (triple_bind _ _ _ (fun o _ _ => o = Ok (first_judged bundle runtime s))); [|intros j s1 n1 [= ->]|by intros e' s1 n1 [=]].
  { unfold triple, build_eff, bind, gets, emit, ret. cbn. by eexists. }
  apply raises_bind; [apply raises_lift; intros e' H; by left|].
  intros d s2. destruct (held d); [apply Hno|].
  apply raises_bind; [apply raises_ok; eapply triple_weaken; [apply build_eff_trace|]; by intros o s' new (_ & id & _ & ->)|].
  intros request s3. apply raises_bind.
  { unfold prepare_workspace. destruct (co_workspace co); [|apply raises_ret].
    unfold raises_only, triple, bind, gets, emit, ret. simpl. by eexists. }
  intros [x|] s4; [apply Hno|].
  apply raises_bind; [by exists []; rewrite app_nil_r|]. intros [b|] s5; [apply Hno|].
  apply raises_bind; [by exists []; rewrite app_nil_r|]. intros [b|] s6; [apply Hno|].
  apply raises_bind; [|intros a' s7; by apply dispatch_raises].
  apply raises_lift. destruct (env_adapters env _) eqn:Ea; [done|]. intros e' [= <-]. right. left. split; [done|]. by eexists.
Qed.
End Safety.

(** ** The coordinator with the bundled policy gate

    [PolicyEngine] as the gate of the coordinator, what its guarantees amount
    to end to end, and whole dispatches evaluated on a concrete environment. *)

(** [PolicyEngine(config)] as the coordinator's gate. *)
Definition engine_gate (config : PolicyConfig) (proposal : OcPlanningProposal)
    (decision : OcRoutingDecision) (request : ExecutionRequest) : res PolicyDecision :=
  Ok (PolicyEngine.evaluate config proposal decision (Some request)).

Lemma held_not_allowed d : held d = negb (is_allowed d).
Proof. unfold held, is_blocked, requires_review, is_allowed. by destruct (pd_status d). Qed.

Lemma no_request_no_call {Rec} (env : environment Rec) co bundle runtime s :
  (forall r, ~ may_run env co bundle runtime r) ->
  triple s (execute env co bundle runtime) (fun _ _ new => adapter_calls new = []).
Proof.
  intros Hno. eapply triple_weaken; [apply execute_trace_holds|]. intros o s' new H.
  destruct (execute_adds_up _ _ _ _ _ _ _ _ H) as (Hall & _).
  destruct (adapter_calls new) as [|r l]; [done|]. apply Forall_cons_1 in Hall as [Hr _]. by destruct (Hno r).
Qed.

(** with the bundled policy, no adapter ever runs high-risk work, a feature
    or a refactor that no trusted source created, whatever the recovery
    handlers rewrite, the lanes, backends, caps and environment. *)
Theorem risky_work_never_reaches_an_adapter {Rec} (env : environment Rec) co bundle runtime s :
  co_policy co = engine_gate DEFAULT_POLICY_CONFIG ->
  prop_risk_level (b_proposal bundle) = HIGH \/ prop_task_type (b_proposal bundle) ∈ [FEATURE; REFACTOR] ->
  (forall l, l ∈ prop_labels (b_proposal bundle) -> l ∉ TRUSTED_SOURCE_LABELS) ->
  let '(s', r) := execute env co bundle runtime s in
  exists new, cs_trace s' = cs_trace s ++ new /\ adapter_calls new = [].
Proof.
  intros Hco Hrisk Hlab. apply no_request_no_call.
  assert (Hheld : forall r d, engine_gate DEFAULT_POLICY_CONFIG (b_proposal bundle) (b_decision bundle) r = Ok d ->
    held d = true).
  { intros r d [= <-]. by rewrite held_not_allowed, default_risky_not_allowed. }
  intros r [(d & Hd & Hh) | (id1 & id2 & d & Hd & Hh & _)]; rewrite Hco in Hd;
    apply Hheld in Hd; congruence.
Qed.

(** ** A concrete environment *)

Definition sample_bundle (risk : RiskLevel) : ProposalDecisionBundle :=
  {| b_proposal := sample_proposal LINT_FIX risk ["src/a.py"] []; b_decision := sample_routing CLAUDE_CLI |}.

Definition sample_runtime : ExecutionRuntimeContext :=
  {| rt_workspace_path := "/ws"; rt_task_branch := "auto/t-1"; rt_goal_file_path := None;
     rt_runtime_binding := None; rt_lifecycle := Some default_lifecycle_metadata |}.

(** An adapter that always answers the same, with a capture that names the
    worker backend it used. *)
Definition sample_adapter (answer : ExecutionRequest -> res ExecutionResult) : adapter := {|
  ad_execute := fun _ f r => (f, answer r);
  ad_execute_and_capture := Some (fun _ f r =>
    (f, x <-? answer r ;;
        Ok (x, Some {| cap_duration_ms := JInt 1500;
                       cap_observed_runtime := JObj [("selected_worker_backend", JStr "claude_code")];
                       cap_used_capabilities := None |})));
  ad_detail_refs := None |}.

Definition ids (tr : list effect) : nat :=
  length (List.filter (fun e => match e with E_new_id _ => true | _ => false end) tr).

Definition sample_env (answer : ExecutionRequest -> res ExecutionResult) : environment unit := {|
  env_now := fun _ => in_hours 1; env_free_mb := fun _ => Some 1000%Q; env_meminfo := fun _ => None;
  env_new_id := fun tr => "run-" +:+ str_of_Z (Z.of_nat (ids tr)); env_provenance := fun _ => None;
  env_binding := fun _ _ _ _ _ => Raise (ValueError "unbound"); env_zoneinfo := utc_only;
  env_hydrate := None; env_observe := fun _ _ => Ok tt;
  env_adapters := fun _ => Some (sample_adapter answer) |}.

Definition sample_coordinator (ledger : bool) : coordinator := {|
  co_policy := engine_gate DEFAULT_POLICY_CONFIG; co_workspace := None;
  co_runtime_binding_policy := None; co_recovery_policy := default_policy;
  co_recovery_engine := build_default_engine default_policy; co_run_memory := true;
  co_repo_graph := None; co_usage_store := ledger; co_backend_caps := ∅; co_resource_gate := None |}.

Definition fresh_state : cstate := {| cs_file := None; cs_health := None; cs_trace := [] |}.

Definition succeeded_result (r : ExecutionRequest) : ExecutionResult :=
  {| res_run_id := req_run_id r; res_proposal_id := "p-1"; res_decision_id := "d-1";
     res_status := SUCCEEDED; res_success := true; res_changed_files := [];
     res_validation := skipped_validation; res_branch_pushed := false; res_branch_name := None;
     res_pull_request_url := None; res_failure_category := None; res_failure_reason := None;
     res_recovery := None; res_lifecycle_outcome := None |}.

Definition failed_with (reason : string) (r : ExecutionRequest) : ExecutionResult :=
  made_result r FAILED BACKEND_ERROR reason.

(** The executed flag, the success, and the ledger entries of a dispatch. *)
Definition summary (risk : RiskLevel) (answer : ExecutionRequest -> res ExecutionResult)
    : res (bool * bool) * list store_op * nat :=
  let '(s, r) := execute (sample_env answer) (sample_coordinator true) (sample_bundle risk) sample_runtime
                   fresh_state in
  (out <-? r ;; Ok (xo_executed out, res_success (xo_result out)),
   store_ops (cs_trace s), length (adapter_calls (cs_trace s))).

Example dispatches :
  [summary LOW (fun r => Ok (succeeded_result r));
   summary HIGH (fun r => Ok (succeeded_result r));
   summary LOW (fun r => Raise (RuntimeError "boom"));
   summary LOW (fun r => Ok (failed_with "5-hour limit reached; try again in 2h" r))]
  = [(Ok (true, true), [OpStarted; OpFinished; OpExecution; OpOutcome true], 1);
     (Ok (false, false), [], 0);
     (Ok (true, false), [OpStarted; OpFinished; OpExecution; OpOutcome false], 1);
     (Ok (true, false), [OpStarted; OpFinished; OpExecution; OpCooldown "claude_code"; OpQuota], 1)].
Proof. vm_compute. reflexivity. Qed.

(** a failure reason with a reset time that does not parse makes [execute]
    raise after the run: the adapter ran and the execution is in the ledger,
    but it gets neither an outcome nor a quota event, and nothing is
    observed. *)
Theorem unreadable_reset_loses_the_run :
  let answer r := Ok (failed_with "5-hour limit reached; resets 13pm (UTC)" r) in
  let '(s, r) := execute (sample_env answer) (sample_coordinator true) (sample_bundle LOW) sample_runtime
                   fresh_state in
  r = Raise (ValueError "time data does not match format") /\
  length (adapter_calls (cs_trace s)) = 1 /\ observations (cs_trace s) = [] /\
  store_ops (cs_trace s) = [OpStarted; OpFinished; OpExecution; OpCooldown "claude_code"].
Proof. vm_compute. repeat split. Qed.

(** ** Witnesses *)

Lemma risky_work_never_reaches_an_adapter_witness :
  let '(s', r) := execute (sample_env (fun r => Ok (succeeded_result r))) (sample_coordinator true)
                    (sample_bundle HIGH) sample_runtime fresh_state in
  exists new, cs_trace s' = cs_trace fresh_state ++ new /\ adapter_calls new = [].
Proof.
  apply (risky_work_never_reaches_an_adapter (sample_env (fun r => Ok (succeeded_result r)))
    (sample_coordinator true) (sample_bundle HIGH) sample_runtime fresh_state).
  - reflexivity.
  - left. reflexivity.
  - intros l Hl. cbn in Hl. by apply elem_of_nil in Hl.
Defined.

(** The adapter raises: an outcome.  The sink raises as well: that escapes. *)
Definition sinkless_env : environment unit :=
  let env := sample_env (fun r => Raise (RuntimeError "boom")) in
  {| env_now := env_now env; env_free_mb := env_free_mb env; env_meminfo := env_meminfo env;
     env_new_id := env_new_id env; env_provenance := env_provenance env; env_binding := env_binding env;
     env_zoneinfo := env_zoneinfo env; env_hydrate := env_hydrate env;
     env_observe := fun _ _ => Raise (OSError "sink down"); env_adapters := env_adapters env |}.

Lemma failures_never_escape_witness :
  is_ok (snd (execute (sample_env (fun r => Raise (RuntimeError "boom"))) (sample_coordinator false)
    (sample_bundle LOW) sample_runtime fresh_state)) = true /\
  escapes sinkless_env (sample_coordinator false) (sample_bundle LOW) sample_runtime fresh_state (OSError "sink down").
Proof.
  split; [vm_compute; reflexivity|].
  apply (failures_never_escape sinkless_env (sample_coordinator false) (sample_bundle LOW) sample_runtime fresh_state).
  - reflexivity.
  - vm_compute. reflexivity.
Defined.
