(* ===== verification/Proposer.v ===== *)
(** * The proposer

    autonomy_tiers/config.py, proposer/ (all but the backlog promoter) and
    spec_author/suppressor.py: candidates of a decision become tasks on the
    board, through the mapper and the guardrails.  The board, the clock and the
    other stages' files are arguments; the usage file, the requests to the board
    and the stored result artifacts are the state. *)
From S2P Require Import Prelude PyStr PyData TextLines UsageStore UsageBudget Decision.
From Stdlib Require Import Ascii.

(** ** autonomy_tiers/config.py *)

Definition DEFAULT_FAMILY_TIERS : gmap string Z :=
  list_to_map [("lint_fix", 2%Z); ("todo_accumulation", 1%Z); ("observation_coverage", 2%Z);
    ("test_visibility", 2%Z); ("dependency_drift_followup", 2%Z); ("execution_health_followup", 1%Z);
    ("backlog_promotion", 1%Z); ("type_fix", 1%Z); ("ci_pattern", 1%Z);
    ("validation_pattern_followup", 1%Z); ("hotspot_concentration", 1%Z); ("arch_promotion", 0%Z)].

Record AutonomyTiersConfig := {
  tc_version : Z;
  tc_updated_at : datetime;
  tc_overrides : gmap string Z;
  tc_notes : gmap string string }.

(** The tiers file: absent, not valid, or a configuration. *)
Abbreviation tiers_file := (option (res AutonomyTiersConfig)).

Definition load_tiers_config (f : tiers_file) : option AutonomyTiersConfig :=
  match f with Some (Ok c) => Some c | _ => None end.

Definition save_tiers_config (disk : res unit) (f : tiers_file) (c : AutonomyTiersConfig)
    : tiers_file * res unit :=
  match disk with Ok _ => (Some (Ok c), Ok tt) | Raise e => (f, Raise e) end.

Definition get_family_tier (family : string) (config : option AutonomyTiersConfig) : Z :=
  match (c ← config; tc_overrides c !! family) with
  | Some tier => tier
  | None => default 1%Z (DEFAULT_FAMILY_TIERS !! family)
  end.

(** ** rejection_store.py *)

(** What [json.loads] and [read_text] raise that [_load] catches. *)
Definition unreadable_json (e : exn) : bool :=
  match e with
  | OSError _ => true
  | NamedError cls _ => String.eqb cls "JSONDecodeError"
  | _ => false
  end.

Definition load_rejections (f : json_file) : res (list jval) :=
  match f with
  | FileMissing => Ok []
  | FileCorrupt e => if unreadable_json e then Ok [] else Raise e
  | FileHolds (JList l) => Ok l
  | FileHolds _ => Ok []
  end.

Definition norm (s : string) : string := lower (strip s).

(** [record.get("dedup_key", "").strip().lower()]. *)
Definition rejected_key (record : jval) : res string :=
  match record with
  | JObj l =>
      match default (JStr "") ((list_to_map l : dict) !! "dedup_key") with
      | JStr s => Ok (norm s)
      | JTime t => Ok (norm (isoformat t))
      | _ => Raise (OtherError "object has no attribute 'strip'")
      end
  | _ => Raise (OtherError "object has no attribute 'get'")
  end.

Fixpoint has_rejection (key_norm : string) (records : list jval) : res bool :=
  match records with
  | [] => Ok false
  | record :: rest =>
      k <-? rejected_key record ;;
      if String.eqb k key_norm then Ok true else has_rejection key_norm rest
  end.

Definition is_rejected (f : json_file) (dedup_key : string) : res bool :=
  records <-? load_rejections f ;; has_rejection (norm dedup_key) records.

Definition record_rejection (disk : res unit) (f : json_file) (dedup_key reason task_id task_title : string)
    (now : datetime) : json_file * res unit :=
  match
    records <-? load_rejections f ;;
    known <-? has_rejection (norm dedup_key) records ;;
    Ok (records, known)
  with
  | Raise e => (f, Raise e)
  | Ok (_, true) => (f, Ok tt)
  | Ok (records, false) =>
      match disk with
      | Raise e => (f, Raise e)
      | Ok _ =>
          (FileHolds (JList (records ++
             [JObj [("dedup_key", JStr dedup_key); ("reason", JStr reason); ("task_id", JStr task_id);
                    ("task_title", JStr task_title); ("recorded_at", JTime now)]])), Ok tt)
      end
  end.

(** ** provenance.py *)

Record ProposalProvenance := {
  pv_source : string;
  pv_repo_name : string;
  pv_source_family : string;
  pv_candidate_id : string;
  pv_candidate_dedup_key : string;
  pv_observer_run_ids : list string;
  pv_insight_run_id : string;
  pv_decision_run_id : string;
  pv_proposer_run_id : string }.

Definition build_provenance (c : ProposalCandidate) (decision : ProposalCandidatesArtifact)
    (insight : RepoInsightsArtifact) (proposer_run_id : string) : ProposalProvenance :=
  {| pv_source := "autonomy-proposer"; pv_repo_name := da_repo_name decision;
     pv_source_family := pc_family c; pv_candidate_id := pc_candidate_id c;
     pv_candidate_dedup_key := pc_dedup_key c; pv_observer_run_ids := ia_source_snapshots insight;
     pv_insight_run_id := ia_run_id insight; pv_decision_run_id := da_run_id decision;
     pv_proposer_run_id := proposer_run_id |}.

(** ** candidate_mapper.py *)

Record PlaneTaskDraft := {
  td_name : string;
  td_description : string;
  td_state : string;
  td_label_names : list string;
  td_task_kind : string }.

Record RepoSettings := { rs_default_branch : string; rs_propose_enabled : bool }.

(** What the proposer reads of the settings; [repos] in its order. *)
Record ProposerSettings := {
  pst_repos : list (string * RepoSettings);
  pst_self_repo_key : option string;
  pst_propose_skip_when_ready_count : Z }.

Definition repo_key_for_candidate (settings : ProposerSettings) (repo_name : string) : res string :=
  if str_in repo_name (map fst (pst_repos settings)) then Ok repo_name
  else match find_first (fun k => String.eqb (norm k) (norm repo_name)) (map fst (pst_repos settings)) with
       | Some k => Ok k
       | None => Raise (ValueError ("Proposal candidate references repo '" +:+ repo_name +:+
                   "' which is not in the configured repos: " +:+
                   repr_list (sorted_by str_leb (map fst (pst_repos settings))) +:+
                   ". Update the candidate provenance or add the repo to config."))
       end.

Definition colon : ascii := ":"%char.

Definition task_kind_for_candidate (c : ProposalCandidate) : string :=
  match find_first (fun l => startswith (norm l) "task-kind:") (ol_labels_hint (pc_proposal_outline c)) with
  | Some label => strip (after_char colon (norm label))
  | None => if str_in (pc_family c) ["observation_coverage"; "test_visibility"] then "goal" else "improve"
  end.

Definition allowed_paths (repo_key : string) : list string :=
  if str_in (norm repo_key) ["operations-center"; "operations_center"] then ["src/"; "tests/"; "docs/"] else [].

Definition family_scopes : gmap string (list string) :=
  list_to_map [
    ("test_visibility",
      ["- Keep the change scoped to explicit test signal visibility or stabilization.";
       "- Do not expand into unrelated repo-wide testing refactors."]);
    ("dependency_drift_followup",
      ["- Keep the change scoped to the persistent dependency drift signal.";
       "- Do not introduce unrelated dependency churn."]);
    ("hotspot_concentration",
      ["- Keep the task focused on the identified hotspot area.";
       "- Do not expand into broad architectural rewrites."]);
    ("todo_accumulation",
      ["- Keep the change scoped to the identified TODO/FIXME concentration.";
       "- Do not convert this into a general cleanup sweep."]);
    ("observation_coverage",
      ["- Keep the change scoped to restoring missing autonomy visibility.";
       "- Preserve existing observer and insight contracts unless directly required."]);
    ("lint_fix",
      ["- Use `ruff check --fix` to auto-fix where possible, then manually resolve remaining violations.";
       "- Keep the change scoped to lint fixes only — do not refactor or change logic.";
       "- Do not suppress violations with `# noqa` unless there is a documented reason.";
       "- Do not modify more than 20 files; if the scope is broader, address the highest-severity files first."]);
    ("type_fix",
      ["- Resolve type errors with targeted annotations; avoid broad `# type: ignore` suppressions.";
       "- Keep the change scoped to type fixes only — do not refactor or change logic.";
       "- If a suppression is unavoidable, add a comment explaining why.";
       "- Do not modify more than 20 files; if the scope is broader, address the highest-severity files first."]);
    ("ci_pattern",
      ["- Investigate root cause before proposing a fix; do not suppress or skip failing checks.";
       "- Keep the change scoped to the identified failing or flaky checks.";
       "- Document findings even if no code change is needed."]);
    ("validation_pattern_followup",
      ["- Investigate the validation artifacts for the identified tasks before proposing changes.";
       "- Fix the root cause (broken test, misconfigured validator, or task scope issue).";
       "- Do not simply suppress or skip the failing validation step."])].

Definition constraints_for_candidate (c : ProposalCandidate) : list string :=
  default ["- Keep the change scoped to the identified issue."; "- Do not expand into unrelated refactors."]
    (family_scopes !! pc_family c).

(** The first and the last day of [datetime], counted from 1970-01-01. *)
Definition first_day : Z := (-719162)%Z.
Definition last_day : Z := 2932896%Z.

(** [(now + timedelta(days=n)).strftime("%Y-%m-%d")]. *)
Definition date_after (now : datetime) (n : Z) : res string :=
  if (999999999 <? Z.abs n)%Z
  then Raise (NamedError "OverflowError" ("days=" +:+ str_of_Z n +:+ "; must have magnitude <= 999999999"))
  else
    let day := (dt_us now / days 1 + n)%Z in
    if (first_day <=? day)%Z && (day <=? last_day)%Z then
      let '(y, m, d) := civil_from_days day in
      Ok (zpad 4 y +:+ "-" +:+ zpad 2 m +:+ "-" +:+ zpad 2 d)
    else Raise (NamedError "OverflowError" "date value out of range").

Definition state_for (tier : Z) (risk_class : string) : string :=
  if (tier <=? 0)%Z then "Backlog"
  else if (2 <=? tier)%Z then "Ready for AI"
  else if String.eqb risk_class "style" then "Ready for AI" else "Backlog".

(** The lines of the description, up to the dedup key and from there on. *)
Definition head_lines (repo_key branch : string) (c : ProposalCandidate) (p : ProposalProvenance) : list string :=
  ["## Execution"; "repo: " +:+ repo_key; "base_branch: " +:+ branch; "mode: goal"] ++
  (if list_truthy (allowed_paths repo_key)
   then "allowed_paths:" :: map (fun path => "  - " +:+ path) (allowed_paths repo_key) else []) ++
  [""; "## Goal"; ol_summary_hint (pc_proposal_outline c); ""; "## Constraints"] ++
  constraints_for_candidate c ++
  [""; "## Provenance"; "source: " +:+ pv_source p].

Definition tail_lines (tier : Z) (state expires_at : string) (c : ProposalCandidate)
    (p : ProposalProvenance) : list string :=
  ["confidence: " +:+ pc_confidence c;
   "risk_class: " +:+ pc_risk_class c;
   "autonomy_tier: " +:+ str_of_Z tier;
   "validation_profile: " +:+ pc_validation_profile c;
   "requires_human_approval: " +:+ (if String.eqb state "Backlog" then "true" else "false");
   "evidence_schema_version: " +:+
     str_of_Z (match pc_evidence_bundle c with Some b => eb_schema_version b | None => 1%Z end);
   "expires_at: " +:+ expires_at;
   "observer_run_ids:"] ++
  map (fun run_id => "  - " +:+ run_id) (pv_observer_run_ids p) ++
  ["insight_run_id: " +:+ pv_insight_run_id p;
   "decision_run_id: " +:+ pv_decision_run_id p;
   "proposer_run_id: " +:+ pv_proposer_run_id p] ++
  (if list_truthy (pc_evidence_lines c)
   then [""; "## Evidence"] ++ map (fun l => "- " +:+ l) (pc_evidence_lines c) else []).

Definition description_lines (repo_key branch : string) (tier : Z) (state expires_at : string)
    (c : ProposalCandidate) (p : ProposalProvenance) : list string :=
  head_lines repo_key branch c p ++
  ["source_family: " +:+ pv_source_family p;
   "candidate_id: " +:+ pv_candidate_id p;
   "candidate_dedup_key: " +:+ pv_candidate_dedup_key p] ++
  tail_lines tier state expires_at c p.

#[global] Arguments description_lines : simpl never.
#[global] Arguments get_family_tier : simpl never.
#[global] Arguments date_after : simpl never.
#[global] Arguments task_kind_for_candidate : simpl never.

Definition is_self_repo (settings : ProposerSettings) (repo_key : string) : bool :=
  match pst_self_repo_key settings with
  | Some k => String.eqb (norm repo_key) (norm k)
  | None => false
  end.

Definition map_to_task (c : ProposalCandidate) (settings : ProposerSettings) (p : ProposalProvenance)
    (tiers : option AutonomyTiersConfig) (wall : datetime) : res PlaneTaskDraft :=
  repo_key <-? repo_key_for_candidate settings (pv_repo_name p) ;;
  repo_cfg <-? match od_get repo_key (pst_repos settings) with
               | Some cfg => Ok cfg
               | None => Raise (KeyError repo_key)
               end ;;
  let task_kind := task_kind_for_candidate c in
  let tier := get_family_tier (pc_family c) tiers in
  let state := state_for tier (pc_risk_class c) in
  expires_at <-? date_after wall (pc_expires_after_runs c * 2) ;;
  Ok {| td_name := ol_title_hint (pc_proposal_outline c);
        td_description :=
          strip (join nl (description_lines repo_key (rs_default_branch repo_cfg) tier state expires_at c p));
        td_state := state;
        td_label_names :=
          ["task-kind: " +:+ task_kind; "repo: " +:+ repo_key; "source: autonomy"; "source: propose";
           "source-family: " +:+ pc_family c] ++
          (if is_self_repo settings repo_key then ["self-modify: approved"] else []);
        td_task_kind := task_kind |}.

(** ** spec_author/suppressor.py *)

Record CampaignRecord := { cr_campaign_id : string; cr_spec_file : string; cr_status : string }.

(** [Path(s).name]. *)
Definition path_name (s : string) : string :=
  default "" (last (List.filter (fun part => negb (str_in part [""; "."])) (split_on "/" s))).

Section Suppressor.
(** Which files exist, and the area keywords of the front matter of a file. *)
Context (exists_file : string -> bool) (read_keywords : string -> res (list string)).

Definition load_area_keywords (campaign : CampaignRecord) (specs_dir : string) : list string :=
  let candidate := specs_dir +:+ "/" +:+ path_name (cr_spec_file campaign) in
  let spec_path :=
    if exists_file candidate then candidate
    else if startswith (cr_spec_file campaign) "/" && exists_file (cr_spec_file campaign)
    then cr_spec_file campaign
    else candidate in
  match read_keywords spec_path with Ok l => l | Raise _ => [] end.

Definition any_keyword_matches (keywords : list string) (title : string) (paths : list string) : bool :=
  existsb (fun kw => contains (lower title) (lower kw) ||
                     existsb (fun p => contains (lower p) (lower kw)) paths) keywords.

Definition is_suppressed (title : string) (paths : list string) (campaigns : list CampaignRecord)
    (specs_dir : string) : bool :=
  existsb (fun c => any_keyword_matches (load_area_keywords c specs_dir) title paths) campaigns.
End Suppressor.

(** [CampaignStateManager.load().active_campaigns()]: a file that does not
    validate is no campaign. *)
Definition active_campaigns (state : option (res (list CampaignRecord))) : list CampaignRecord :=
  match state with
  | Some (Ok l) => List.filter (fun c => String.eqb (cr_status c) "active") l
  | _ => []
  end.

(** ** result_models.py *)

Record CreatedProposalResult := {
  cre_candidate_id : string;
  cre_dedup_key : string;
  cre_family : string;
  cre_plane_issue_id : option string;
  cre_plane_title : string;
  cre_status : string }.

Record SkippedProposalResult := {
  ski_candidate_id : string;
  ski_dedup_key : string;
  ski_family : string;
  ski_reason : string;
  ski_evidence : list (string * jval) }.

Record FailedProposalResult := {
  fai_candidate_id : string;
  fai_dedup_key : string;
  fai_family : string;
  fai_reason : string;
  fai_error : string }.

Record ProposalResultsArtifact := {
  ra_run_id : string;
  ra_generated_at : datetime;
  ra_source_command : string;
  ra_repo_name : string;
  ra_repo_path : string;
  ra_source_decision_run_id : string;
  ra_dry_run : bool;
  ra_created : list CreatedProposalResult;
  ra_skipped : list SkippedProposalResult;
  ra_failed : list FailedProposalResult }.

(** ** The state and the surroundings *)

(** What is asked of the board. *)
Inductive board_op :=
  | BO_list
  | BO_create (name description state : string) (label_names : list string)
  | BO_comment (issue_id text : string).

(** The board answers from all that it was asked so far. *)
Record proposal_board := {
  pb_list : list board_op -> res (list dict);
  pb_create : list board_op -> res dict;
  pb_comment : list board_op -> res unit }.

(** A stored result artifact with the time of its last write; one that does not
    validate raises when it is read. *)
Record results_file := {
  rf_run_id : string;
  rf_mtime : Z;
  rf_content : res ProposalResultsArtifact }.

Record proposer_world := {
  qw_usage : file;
  qw_ops : list board_op;
  qw_results : list results_file }.

Record proposer_env := {
  qe_decisions : res (list ProposalCandidatesArtifact);
  qe_insight : string -> option (res RepoInsightsArtifact);
  qe_campaigns : option (res (list CampaignRecord));
  qe_exists_file : string -> bool;
  qe_read_keywords : string -> res (list string);
  qe_tiers : tiers_file;
  qe_rejections : json_file;
  qe_board : proposal_board;
  qe_free_mb : option Q;
  qe_wall : list board_op -> datetime;
  qe_write_json : res Z;               (* the time of the written file *)
  qe_write_md : res unit }.

(** A computation of the proposer. *)
Abbreviation PM := (SE proposer_world).

Definition set_usage (w : proposer_world) (u : file) : proposer_world :=
  {| qw_usage := u; qw_ops := qw_ops w; qw_results := qw_results w |}.
Definition add_op (w : proposer_world) (op : board_op) : proposer_world :=
  {| qw_usage := qw_usage w; qw_ops := qw_ops w ++ [op]; qw_results := qw_results w |}.

Section Board.
Context (board : proposal_board).

Definition list_issues : PM (list dict) := fun w =>
  let w := add_op w BO_list in (w, pb_list board (qw_ops w)).
Definition create_issue (name description state : string) (labels : list string) : PM dict := fun w =>
  let w := add_op w (BO_create name description state labels) in (w, pb_create board (qw_ops w)).
Definition comment_issue (id text : string) : PM unit := fun w =>
  let w := add_op w (BO_comment id text) in (w, pb_comment board (qw_ops w)).
End Board.

(** ** guardrail_adapter.py *)

Record GuardrailResult := {
  gr_allowed : bool;
  gr_reason : option string;
  gr_evidence : list (string * jval) }.

Definition guard_allowed : GuardrailResult := {| gr_allowed := true; gr_reason := None; gr_evidence := [] |}.
Definition guard_blocked (reason : string) (evidence : list (string * jval)) : GuardrailResult :=
  {| gr_allowed := false; gr_reason := Some reason; gr_evidence := evidence |}.

(** [str(issue.get(k, d))]. *)
Definition text_or (issue : dict) (k d : string) : string := jtext (default (JStr d) (issue !! k)).

(** [str(state.get("name", ""))] when the state is a dict, else the empty text. *)
Definition state_name (issue : dict) : string :=
  match dget issue "state" with
  | JObj l => jtext (default (JStr "") ((list_to_map l : dict) !! "name"))
  | _ => ""
  end.

(** [a or b] on JSON values. *)
Definition jor (a b : jval) : jval := if jtruthy a then a else b.

Definition issue_description (issue : dict) : string :=
  jtext (jor (dget issue "description") (jor (dget issue "description_stripped") (JStr ""))).

Definition closed_issue (issue : dict) : bool := str_in (norm (state_name issue)) ["done"; "cancelled"].

Definition names_key (key_normalized line : string) : bool :=
  String.eqb (norm line) ("candidate_dedup_key: " +:+ key_normalized) ||
  String.eqb (norm line) ("- proposal_dedup_key: " +:+ key_normalized).

(** Whether an issue has the title, or a line that names the key. *)
Definition same_task (dedup_key title : string) (issue : dict) : bool :=
  String.eqb (norm (text_or issue "name" "")) (norm title) ||
  existsb (names_key (norm dedup_key)) (splitlines (issue_description issue)).

Definition issue_ref (issue : dict) : string * string :=
  (jtext (dget issue "id"), text_or issue "name" "").

Definition find_open_task_match (issues : list dict) (dedup_key title : string) : option (string * string) :=
  issue_ref <$> find_first (fun i => negb (closed_issue i) && same_task dedup_key title i) issues.

(** Whether a closed issue was updated before the cutoff; a time that does not
    parse is ignored. *)
Definition updated_before (cutoff : datetime) (issue : dict) : res bool :=
  let raw := jor (dget issue "updated_at") (jor (dget issue "completed_at") (JStr "")) in
  if jtruthy raw then
    match fromisoformat_str raw with
    | Some t => dt_lt (assume_utc t) cutoff
    | None => Ok false
    end
  else Ok false.

Fixpoint find_recently_done (cutoff : datetime) (dedup_key title : string) (issues : list dict)
    : res (option (string * string)) :=
  match issues with
  | [] => Ok None
  | issue :: rest =>
      if closed_issue issue then
        old <-? updated_before cutoff issue ;;
        if old : bool then find_recently_done cutoff dedup_key title rest
        else if same_task dedup_key title issue then Ok (Some (issue_ref issue))
        else find_recently_done cutoff dedup_key title rest
      else find_recently_done cutoff dedup_key title rest
  end.

(** The order of (mtime, path), the newest first. *)
Definition results_newer (a b : results_file) : bool :=
  (rf_mtime b <? rf_mtime a)%Z || ((rf_mtime a =? rf_mtime b)%Z && str_leb (rf_run_id b) (rf_run_id a)).

Definition created_here (dedup_key : string) (a : ProposalResultsArtifact) : bool :=
  existsb (fun c => String.eqb (cre_dedup_key c) dedup_key && str_in (cre_status c) ["created"; "dry_run"])
    (ra_created a).

Fixpoint last_created_in (dedup_key : string) (files : list results_file) : res (option datetime) :=
  match files with
  | [] => Ok None
  | f :: rest =>
      a <-? rf_content f ;;
      if created_here dedup_key a then Ok (Some (ra_generated_at a)) else last_created_in dedup_key rest
  end.

Definition last_created_at (dedup_key : string) (results : list results_file) : res (option datetime) :=
  last_created_in dedup_key (sorted_by results_newer results).

Record guardrails := { gd_cooldown_minutes : Z; gd_recently_done_window_days : Z }.
Definition default_guardrails : guardrails :=
  {| gd_cooldown_minutes := 120; gd_recently_done_window_days := 7 |}.

Section Guardrail.
Context (limits : ExecutionControlSettings) (guards : guardrails) (env : proposer_env).

Definition find_recently_done_match (dedup_key title : string) (now : datetime)
    : PM (option (string * string)) :=
  if (gd_recently_done_window_days guards <=? 0)%Z then se_ret None
  else
    issues <<- list_issues (qe_board env) ;;
    se_lift (find_recently_done (sub_us now (days (gd_recently_done_window_days guards))) dedup_key title issues).

Definition budget_suppression (reason : string) (now : datetime) (evidence : list (string * jval)) : PM unit :=
  fun w =>
    let '(u, r) := record_proposal_budget_suppression (qe_free_mb env) (qw_usage w) now reason evidence in
    (set_usage w u, r).

(** The cooldown of a key, as far as the stored results show it. *)
Definition check_cooldown (dedup_key : string) (now : datetime) (results : list results_file)
    : res GuardrailResult :=
  last_created <-? last_created_at dedup_key results ;;
  match last_created with
  | None => Ok guard_allowed
  | Some t =>
      recent <-? dt_le (sub_us now (minutes (gd_cooldown_minutes guards))) t ;;
      Ok (if recent : bool
          then guard_blocked "cooldown_active"
                 [("last_created_at", JTime t); ("cooldown_minutes", JInt (gd_cooldown_minutes guards))]
          else guard_allowed)
  end.

Definition evaluate (dedup_key title : string) (now : datetime) : PM GuardrailResult :=
  rejected <<- se_lift (is_rejected (qe_rejections env) dedup_key) ;;
  if rejected : bool
  then se_ret (guard_blocked "permanently_rejected_by_human" [("dedup_key", JStr dedup_key)])
  else
  remaining <<- (fun w => (w, remaining_exec_capacity limits (qw_usage w) now)) ;;
  let min_remaining := min_remaining_exec_for_proposals limits in
  if (remaining <? min_remaining)%Z then
    let evidence := [("remaining_exec_capacity", JInt remaining); ("min_required", JInt min_remaining)] in
    _ <<- budget_suppression "proposal_budget_too_low" now evidence ;;
    se_ret (guard_blocked "proposal_budget_too_low" evidence)
  else
  issues <<- list_issues (qe_board env) ;;
  match find_open_task_match issues dedup_key title with
  | Some (id, name) =>
      se_ret (guard_blocked "existing_open_equivalent_task" [("plane_issue_id", JStr id); ("plane_title", JStr name)])
  | None =>
  done <<- find_recently_done_match dedup_key title now ;;
  match done with
  | Some (id, name) =>
      se_ret (guard_blocked "recently_completed_equivalent_task"
                [("plane_issue_id", JStr id); ("plane_title", JStr name);
                 ("recently_done_window_days", JInt (gd_recently_done_window_days guards))])
  | None => fun w => (w, check_cooldown dedup_key now (qw_results w))
  end
  end.
End Guardrail.

(** ** candidate_loader.py *)

Definition decisions_of_repo (repo : string) (a : ProposalCandidatesArtifact) : bool :=
  String.eqb (norm (da_repo_name a)) (norm repo) || String.eqb (norm (da_repo_path a)) (norm repo).

Definition candidates_load (env : proposer_env) (repo decision_run_id : option string)
    : res (ProposalCandidatesArtifact * RepoInsightsArtifact) :=
  decisions <-? qe_decisions env ;;
  decisions <-? newest_first da_generated_at decisions ;;
  let decisions := if opt_truthy repo then List.filter (decisions_of_repo (default "" repo)) decisions
                   else decisions in
  decision <-? (if opt_truthy decision_run_id then
                  match find_first (fun a => String.eqb (da_run_id a) (default "" decision_run_id)) decisions with
                  | Some a => Ok a
                  | None => Raise (ValueError ("Decision run id not found: " +:+ default "" decision_run_id))
                  end
                else match decisions with
                     | a :: _ => Ok a
                     | [] => Raise (ValueError "No decision artifacts found for the requested repo/context")
                     end) ;;
  insight <-? match qe_insight env (da_source_insight_run_id decision) with
              | Some r => r
              | None => Raise (ValueError ("Insight artifact not found for decision source run: " +:+
                                           da_source_insight_run_id decision))
              end ;;
  Ok (decision, insight).

(** ** candidate_integration.py *)

Record ProposerIntegrationContext := {
  px_repo_filter : option string;
  px_decision_run_id : option string;
  px_run_id : string;
  px_generated_at : datetime;
  px_source_command : string;
  px_max_create : Z;
  px_dry_run : bool }.

Inductive proposal_result :=
  | Created (r : CreatedProposalResult)
  | Skipped (r : SkippedProposalResult)
  | Failed (r : FailedProposalResult).

Definition mk_created (c : ProposalCandidate) (issue_id : option string) (title status : string) : proposal_result :=
  Created {| cre_candidate_id := pc_candidate_id c; cre_dedup_key := pc_dedup_key c; cre_family := pc_family c;
             cre_plane_issue_id := issue_id; cre_plane_title := title; cre_status := status |}.
Definition mk_skipped (c : ProposalCandidate) (reason : string) (evidence : list (string * jval)) : proposal_result :=
  Skipped {| ski_candidate_id := pc_candidate_id c; ski_dedup_key := pc_dedup_key c; ski_family := pc_family c;
             ski_reason := reason; ski_evidence := evidence |}.
Definition mk_failed (c : ProposalCandidate) (reason : string) (e : exn) : proposal_result :=
  Failed {| fai_candidate_id := pc_candidate_id c; fai_dedup_key := pc_dedup_key c; fai_family := pc_family c;
            fai_reason := reason; fai_error := exn_text e |}.

(** [proposer_run_id] as the comment reads it back from the description. *)
Definition run_id_in (description : string) : res string :=
  if contains description "proposer_run_id:" then
    match find description "proposer_run_id: " with
    | None => Raise (NamedError "IndexError" "list index out of range")
    | Some n =>
        match splitlines (str_drop (n + String.length "proposer_run_id: ") description) with
        | l :: _ => Ok l
        | [] => Raise (NamedError "IndexError" "list index out of range")
        end
    end
  else Ok "unknown".

Definition created_comment (c : ProposalCandidate) (draft : PlaneTaskDraft) (decision_run_id : string) : res string :=
  run_id <-? run_id_in (td_description draft) ;;
  Ok (join nl
    ["[Propose] Candidate task created";
     "- task_kind: " +:+ td_task_kind draft;
     "- result_status: created";
     "- source_family: " +:+ pc_family c;
     "- candidate_id: " +:+ pc_candidate_id c;
     "- dedup_key: " +:+ pc_dedup_key c;
     "- decision_run_id: " +:+ decision_run_id;
     "- proposer_run_id: " +:+ run_id;
     "- handoff_reason: proposer_candidate_" +:+ pc_family c]).

Section Service.
Context (settings : ProposerSettings) (limits : ExecutionControlSettings) (guards : guardrails)
        (env : proposer_env) (context : ProposerIntegrationContext).

(** The back-pressure gate: whether the queue is saturated, and its length. *)
Definition queue_gate : PM (bool * Z) :=
  let cap := pst_propose_skip_when_ready_count settings in
  if (0 <? cap)%Z then
    se_try (issues <<- list_issues (qe_board env) ;;
            let n := count_if (fun i => String.eqb (norm (state_name i)) "ready for ai") issues in
            se_ret ((cap <=? n)%Z, n))
           (fun _ => se_ret (false, 0%Z))
  else se_ret (false, 0%Z).

Definition propose_disabled_repos : list string :=
  map fst (List.filter (fun kv : string * RepoSettings => negb (rs_propose_enabled (snd kv))) (pst_repos settings)).

(** [candidate.provenance.repo_key or candidate.repo_key or ""]: a candidate has
    neither attribute. *)
Definition candidate_repo (c : ProposalCandidate) : string := "".

(** Neither has it [changed_files] or [target_paths]. *)
Definition candidate_paths (c : ProposalCandidate) : list string := [].

Definition create_and_comment (c : ProposalCandidate) (draft : PlaneTaskDraft)
    (decision : ProposalCandidatesArtifact) : PM proposal_result :=
  issue <<- create_issue (qe_board env) (td_name draft) (td_description draft) (td_state draft)
              (td_label_names draft) ;;
  text <<- se_lift (created_comment c draft (da_run_id decision)) ;;
  _ <<- comment_issue (qe_board env) (jtext (dget issue "id")) text ;;
  se_ret (mk_created c (Some (jtext (dget issue "id"))) (td_name draft) "created").

Definition draft_of (c : ProposalCandidate) (decision : ProposalCandidatesArtifact)
    (insight : RepoInsightsArtifact) : PM PlaneTaskDraft := fun w =>
  (w, map_to_task c settings (build_provenance c decision insight (px_run_id context))
        (load_tiers_config (qe_tiers env)) (qe_wall env (qw_ops w))).

(** The body of the loop, behind the gates that need no state. *)
Definition propose (c : ProposalCandidate) (decision : ProposalCandidatesArtifact)
    (insight : RepoInsightsArtifact) : PM proposal_result := fun w =>
  match draft_of c decision insight w with
  | (w, Raise e) => (w, Ok (mk_failed c "candidate_mapping_failed" e))
  | (w, Ok draft) =>
      (guard <<- evaluate limits guards env (pc_dedup_key c) (td_name draft) (px_generated_at context) ;;
       if negb (gr_allowed guard)
       then se_ret (mk_skipped c (str_or (gr_reason guard) "guardrail_blocked") (gr_evidence guard))
       else if px_dry_run context
       then se_ret (mk_created c None (td_name draft) "dry_run")
       else se_try (create_and_comment c draft decision)
              (fun e => se_ret (mk_failed c "plane_create_failed" e))) w
  end.

Definition process (queue : bool * Z) (n_created : Z) (c : ProposalCandidate)
    (decision : ProposalCandidatesArtifact) (insight : RepoInsightsArtifact) : PM proposal_result :=
  if fst queue then
    se_ret (mk_skipped c "ready_queue_saturated"
      [("ready_count", JInt (snd queue)); ("cap", JInt (pst_propose_skip_when_ready_count settings))])
  else if str_in (candidate_repo c) propose_disabled_repos then
    se_ret (mk_skipped c "propose_disabled_for_repo" [("repo_key", JStr (candidate_repo c))])
  else if (px_max_create context <=? n_created)%Z then
    se_ret (mk_skipped c "max_create_reached" [("max_create", JInt (px_max_create context))])
  else if is_suppressed (qe_exists_file env) (qe_read_keywords env)
            (str_or (Some (ol_title_hint (pc_proposal_outline c))) (pc_subject c)) (candidate_paths c)
            (active_campaigns (qe_campaigns env)) "docs/specs"
  then se_ret (mk_skipped c "active_spec_campaign" [])
  else propose c decision insight.

Definition created_results (l : list proposal_result) : list CreatedProposalResult :=
  omap (fun r => match r with Created x => Some x | _ => None end) l.
Definition skipped_results (l : list proposal_result) : list SkippedProposalResult :=
  omap (fun r => match r with Skipped x => Some x | _ => None end) l.
Definition failed_results (l : list proposal_result) : list FailedProposalResult :=
  omap (fun r => match r with Failed x => Some x | _ => None end) l.

(** The loop over the candidates; [done]: the results so far. *)
Fixpoint process_all (queue : bool * Z) (done : list proposal_result) (candidates : list ProposalCandidate)
    (decision : ProposalCandidatesArtifact) (insight : RepoInsightsArtifact) : PM (list proposal_result) :=
  match candidates with
  | [] => se_ret done
  | c :: rest =>
      r <<- process queue (Z.of_nat (length (created_results done))) c decision insight ;;
      process_all queue (done ++ [r]) rest decision insight
  end.

(** [ProposerArtifactWriter.write]: the JSON file, then the text. *)
Definition write_results (a : ProposalResultsArtifact) : PM unit := fun w =>
  match qe_write_json env with
  | Raise e => (w, Raise e)
  | Ok mtime =>
      ({| qw_usage := qw_usage w; qw_ops := qw_ops w;
          qw_results := List.filter (fun f => negb (String.eqb (rf_run_id f) (ra_run_id a))) (qw_results w) ++
                        [{| rf_run_id := ra_run_id a; rf_mtime := mtime; rf_content := Ok a |}] |},
       qe_write_md env)
  end.

Definition emitted (decision : ProposalCandidatesArtifact) : list ProposalCandidate :=
  List.filter (fun c => String.eqb (pc_status c) "emit") (da_candidates decision).

Definition results_artifact (decision : ProposalCandidatesArtifact) (results : list proposal_result)
    : ProposalResultsArtifact :=
  {| ra_run_id := px_run_id context; ra_generated_at := px_generated_at context;
     ra_source_command := px_source_command context; ra_repo_name := da_repo_name decision;
     ra_repo_path := da_repo_path decision; ra_source_decision_run_id := da_run_id decision;
     ra_dry_run := px_dry_run context; ra_created := created_results results;
     ra_skipped := skipped_results results; ra_failed := failed_results results |}.

(** [CandidateProposerIntegrationService.run]. *)
Definition proposer_run : PM ProposalResultsArtifact :=
  loaded <<- se_lift (candidates_load env (px_repo_filter context) (px_decision_run_id context)) ;;
  queue <<- queue_gate ;;
  results <<- process_all queue [] (emitted (fst loaded)) (fst loaded) (snd loaded) ;;
  let artifact := results_artifact (fst loaded) results in
  _ <<- write_results artifact ;;
  se_ret artifact.
End Service.
