(* ===== verification/ProposerSafety.v ===== *)
(** * What the proposer may put on the board

    The guardrails as a specification, the accounting of a run, and what holds of
    the board over any number of runs: no two open tasks for one key, no task for
    a key a human rejected, no unattended task without the tier for it. *)
From S2P Require Import Prelude PyStr PyData TextLines UsageStore UsageBudget Decision Proposer.
From Stdlib Require Import Ascii.

(** ** The description names the key *)

(** A key the guardrails recognise in a description: one line that does not
    start with a space. *)
Definition plain_key (key : string) : bool :=
  one_line key && match key with String c _ => negb (is_space c) | EmptyString => false end.

Lemma plain_key_text key : plain_key key = true -> lstrip key = key /\ all_space key = false.
Proof.
  unfold plain_key. intros [_ H]%andb_true_iff. destruct key as [|c s]; [done|].
  apply negb_true_iff in H. unfold all_space. simpl. by rewrite H.
Qed.

Definition key_line (key : string) : string := "candidate_dedup_key: " +:+ key.

Lemma names_key_line key key' :
  plain_key key = true -> norm key = norm key' -> names_key (norm key') (key_line key) = true.
Proof.
  intros (Hl & Hs)%plain_key_text Heq. unfold names_key. apply orb_true_iff. left.
  apply String.eqb_eq. rewrite <-Heq. unfold norm, key_line. rewrite strip_unfold.
  change (lstrip ("candidate_dedup_key: " +:+ key)) with ("candidate_dedup_key: " +:+ key).
  rewrite rstrip_app by done. rewrite lower_app, strip_unfold, Hl. done.
Qed.

(** A line inside a stripped text that starts and ends in the open. *)
Lemma inner_line (l before after rest : list string) line :
  l = before ++ line :: after -> before = "## Execution" :: rest -> rest <> [] ->
  "observer_run_ids:" ∈ after -> one_line line = true -> line ∈ splitlines (strip (join nl l)).
Proof.
  intros -> -> Hrest Hafter Hone. change (line :: after) with ([line] ++ after).
  assert (after <> []) by (by intros ->; apply not_elem_of_nil in Hafter).
  rewrite !join_app by done. rewrite (str_app_assoc nl), (str_app_assoc _ nl), <-(str_app_assoc nl), strip_middle.
  - rewrite <-!str_app_assoc. by apply (splitlines_line _ line).
  - by rewrite join_cons_app.
  - by rewrite join_cons_app.
  - by apply (join_all_space _ _ "observer_run_ids:").
Qed.

(** The key and the need for approval are lines of the description. *)
Lemma description_lines_of repo_key branch tier state expires_at c p :
  let text := strip (join nl (description_lines repo_key branch tier state expires_at c p)) in
  (one_line (pv_candidate_dedup_key p) = true ->
   key_line (pv_candidate_dedup_key p) ∈ splitlines text) /\
  "requires_human_approval: " +:+ (if String.eqb state "Backlog" then "true" else "false") ∈ splitlines text.
Proof.
  intros text. unfold text, description_lines. split; [intros Hone|].
  - eapply (inner_line _ (head_lines repo_key branch c p ++
      ["source_family: " +:+ pv_source_family p; "candidate_id: " +:+ pv_candidate_id p]));
      [by rewrite <-app_assoc | reflexivity | done | |].
    + unfold tail_lines. apply elem_of_app. left. by do 7 right; left.
    + unfold key_line. by rewrite one_line_app, Hone.
  - eapply (inner_line _ ((head_lines repo_key branch c p ++
      ["source_family: " +:+ pv_source_family p; "candidate_id: " +:+ pv_candidate_id p;
       key_line (pv_candidate_dedup_key p)]) ++ take 4 (tail_lines tier state expires_at c p)));
      [by rewrite <-!app_assoc | reflexivity | done | |].
    + by do 2 right; left.
    + by destruct (String.eqb state "Backlog").
Qed.

Lemma od_get_in {V} k (v : V) (d : list (string * V)) : od_get k d = Some v -> (k, v) ∈ d.
Proof.
  unfold od_get. intros (kv & Hf & ->)%fmap_Some. apply find_some in Hf as [Hin Hk].
  apply bool_decide_eq_true in Hk as <-. apply list_elem_of_In. by destruct kv.
Qed.

Lemma map_to_task_ok c settings p tiers wall draft :
  map_to_task c settings p tiers wall = Ok draft ->
  exists repo_key branch tier state expires_at,
    td_description draft = strip (join nl (description_lines repo_key branch tier state expires_at c p)) /\
    (exists cfg, (repo_key, cfg) ∈ pst_repos settings /\ branch = rs_default_branch cfg) /\
    tier = get_family_tier (pc_family c) tiers /\ state = state_for tier (pc_risk_class c) /\
    td_state draft = state /\ td_name draft = ol_title_hint (pc_proposal_outline c) /\
    "source: autonomy" ∈ td_label_names draft /\
    "source-family: " +:+ pc_family c ∈ td_label_names draft.
Proof.
  unfold map_to_task. destruct (repo_key_for_candidate _ _) as [repo_key|]; cbn [mbind res_bind]; [|done].
  destruct (od_get repo_key _) as [cfg|] eqn:Hcfg; cbn [mbind res_bind]; [|done].
  destruct (date_after _ _) as [expires_at|]; cbn [mbind res_bind]; [|done].
  intros [= <-]. eexists repo_key, (rs_default_branch cfg), _, _, expires_at.
  cbn [td_description td_state td_name td_label_names].
  split_and!; try done; [exists cfg; split; [by apply od_get_in|done] | by do 2 right; left | by do 4 right; left].
Qed.

Lemma drafted_state c settings p tiers wall draft :
  map_to_task c settings p tiers wall = Ok draft -> td_state draft = "Ready for AI" \/ td_state draft = "Backlog".
Proof.
  intros (rk & br & tier & st & ex & _ & _ & _ & -> & -> & _)%map_to_task_ok. unfold state_for.
  repeat case_match; (by left) || (by right).
Qed.

(** A mapped description names its candidate's key, whatever the case and the
    surrounding spaces of the key it is looked up with. *)
Lemma mapped_task_names_key c settings decision insight run_id tiers wall draft key' :
  map_to_task c settings (build_provenance c decision insight run_id) tiers wall = Ok draft ->
  plain_key (pc_dedup_key c) = true -> norm (pc_dedup_key c) = norm key' ->
  existsb (names_key (norm key')) (splitlines (td_description draft)) = true.
Proof.
  intros (rk & br & tier & st & ex & -> & _)%map_to_task_ok Hplain Heq. apply existsb_exists.
  exists (key_line (pc_dedup_key c)). split; [|by apply names_key_line].
  apply list_elem_of_In. change (pc_dedup_key c) with
    (pv_candidate_dedup_key (build_provenance c decision insight run_id)).
  apply description_lines_of. by apply andb_true_iff in Hplain as [? _].
Qed.

(** ** The guardrails as a specification *)

Section Guard.
Context (limits : ExecutionControlSettings) (guards : guardrails) (env : proposer_env).

(** What must hold for a proposal to pass, in the state [w]. *)
Record passes (key title : string) (now : datetime) (w : proposer_world) : Prop := {
  pass_not_rejected : is_rejected (qe_rejections env) key = Ok false;
  pass_capacity : exists n,
    remaining_exec_capacity limits (qw_usage w) now = Ok n /\
    (min_remaining_exec_for_proposals limits <= n)%Z;
  pass_open : exists issues,
    pb_list (qe_board env) (qw_ops w ++ [BO_list]) = Ok issues /\
    Forall (fun i => same_task key title i = true -> closed_issue i = true) issues;
  pass_done : (gd_recently_done_window_days guards <= 0)%Z \/ exists issues,
    pb_list (qe_board env) ((qw_ops w ++ [BO_list]) ++ [BO_list]) = Ok issues /\
    Forall (fun i => same_task key title i = true -> closed_issue i = true ->
              updated_before (sub_us now (days (gd_recently_done_window_days guards))) i = Ok true) issues;
  pass_cooldown : forall t, last_created_at key (qw_results w) = Ok (Some t) ->
    (dt_us t < dt_us now - minutes (gd_cooldown_minutes guards))%Z }.

Lemma find_open_none key title issues :
  find_open_task_match issues key title = None <->
  Forall (fun i => same_task key title i = true -> closed_issue i = true) issues.
Proof.
  unfold find_open_task_match. rewrite fmap_None.
  induction issues as [|i l IH]; simpl; [by split|]. rewrite Forall_cons, <-IH.
  destruct (closed_issue i), (same_task key title i); simpl;
    (split; [intros H; split; [done|exact H] | by intros []]) || (split; [done | intros [H _]; by specialize (H eq_refl)]).
Qed.

Lemma find_recently_done_none cutoff key title issues r :
  find_recently_done cutoff key title issues = Ok r ->
  r = None <->
  Forall (fun i => same_task key title i = true -> closed_issue i = true ->
            updated_before cutoff i = Ok true) issues.
Proof.
  revert r. induction issues as [|i l IH]; simpl; intros r; [intros [= <-]; by split|].
  rewrite Forall_cons. destruct (closed_issue i); [|intros H; rewrite (IH _ H); split; [by split | by intros []]].
  destruct (updated_before cutoff i) as [[]|]; simpl; [|destruct (same_task key title i)|done].
  - intros H. rewrite (IH _ H). split; [by split | by intros []].
  - intros [= <-]. split; [done|]. intros [H _]. by specialize (H eq_refl eq_refl).
  - intros H. rewrite (IH _ H). split; [by split | by intros []].
Qed.

Lemma check_cooldown_allowed key now results g :
  check_cooldown guards key now results = Ok g ->
  gr_allowed g = true <->
  (forall t, last_created_at key results = Ok (Some t) ->
     (dt_us t < dt_us now - minutes (gd_cooldown_minutes guards))%Z).
Proof.
  unfold check_cooldown. destruct (last_created_at key results) as [[t|]|]; simpl; [| |done].
  - unfold dt_le. destruct (same_kind _ _); simpl; [|done]. destruct (_ <=? _)%Z eqn:E; intros [= <-]; simpl.
    + apply Z.leb_le in E. split; [done|]. intros H. specialize (H t eq_refl). simpl in E. lia.
    + apply Z.leb_gt in E. split; [|done]. intros _ t' [= <-]. simpl in E. lia.
  - intros [= <-]. split; done.
Qed.

(** Listing the board is all a guardrail does to it. *)
Definition reads (w w' : proposer_world) : Prop :=
  qw_results w' = qw_results w /\
  exists l, qw_ops w' = qw_ops w ++ l /\ Forall (fun op => op = BO_list) l.

Lemma reads_refl w : reads w w.
Proof. split; [done|]. exists []. by rewrite app_nil_r. Qed.

Lemma reads_trans w1 w2 w3 : reads w1 w2 -> reads w2 w3 -> reads w1 w3.
Proof.
  intros [R1 (l1 & O1 & F1)] [R2 (l2 & O2 & F2)]. split; [by rewrite R2|].
  exists (l1 ++ l2). rewrite O2, O1, app_assoc. split; [done|]. by apply Forall_app.
Qed.

Definition quiet {A} (m : PM A) : Prop := forall w, reads w (fst (m w)).

Lemma quiet_pure {A} (r : proposer_world -> res A) : quiet (fun w => (w, r w)).
Proof. intros w. apply reads_refl. Qed.

Lemma quiet_list : quiet (list_issues (qe_board env)).
Proof. intros w. split; [done|]. exists [BO_list]. split; [done|]. by repeat constructor. Qed.

Lemma quiet_suppression reason now evidence : quiet (budget_suppression env reason now evidence).
Proof. intros w. unfold budget_suppression. case_match. split; [done|]. exists []. by rewrite app_nil_r. Qed.

Lemma quiet_bind {A B} (m : PM A) (k : A -> PM B) : quiet m -> (forall a, quiet (k a)) -> quiet (se_bind m k).
Proof.
  intros Hm Hk w. unfold se_bind. specialize (Hm w). destruct (m w) as [w1 [a|e]]; [|done].
  eapply reads_trans; [exact Hm | apply Hk].
Qed.

#[local] Hint Resolve quiet_pure quiet_list quiet_suppression quiet_bind : oc.

Lemma evaluate_quiet key title now : quiet (evaluate limits guards env key title now).
Proof.
  unfold evaluate, find_recently_done_match, se_lift, se_ret. apply quiet_bind; [auto with oc|].
  intros []; [auto with oc|]. apply quiet_bind; [auto with oc|]. intros n. case_match; [auto with oc|].
  apply quiet_bind; [auto with oc|]. intros issues. repeat case_match; auto with oc;
    apply quiet_bind; auto with oc; intros; repeat case_match; auto with oc.
Qed.

(** The last guardrails, once the board has no open match. *)
Lemma find_done_spec key title now w w1 done :
  find_recently_done_match guards env key title now (add_op w BO_list) = (w1, Ok done) ->
  qw_results w1 = qw_results w /\
  (done = None <-> (gd_recently_done_window_days guards <= 0)%Z \/ exists issues,
    pb_list (qe_board env) ((qw_ops w ++ [BO_list]) ++ [BO_list]) = Ok issues /\
    Forall (fun i => same_task key title i = true -> closed_issue i = true ->
      updated_before (sub_us now (days (gd_recently_done_window_days guards))) i = Ok true) issues).
Proof.
  unfold find_recently_done_match, se_bind, list_issues, se_ret, se_lift. destruct (_ <=? 0)%Z eqn:Hw.
  - apply Z.leb_le in Hw. intros [= <- <-]. split; [done|]. split; [by left | done].
  - apply Z.leb_gt in Hw.
    change (qw_ops (add_op (add_op w BO_list) BO_list)) with ((qw_ops w ++ [BO_list]) ++ [BO_list]).
    destruct (pb_list _ _) as [l|]; [|done].
    intros [= <- E]. apply find_recently_done_none in E. split; [done|]. rewrite E. split.
    + intros H. right. by exists l.
    + intros [H | (l' & [= <-] & H)]; [lia | done].
Qed.

Lemma evaluate_spec key title now w w' g :
  evaluate limits guards env key title now w = (w', Ok g) ->
  gr_allowed g = true <-> passes key title now w.
Proof.
  unfold evaluate, se_bind, se_lift. destruct (is_rejected _ _) as [[]|] eqn:Hrej; [| |done].
  { intros [= _ <-]. split; [done|]. intros []. by rewrite Hrej in pass_not_rejected0. }
  destruct (remaining_exec_capacity _ _ _) as [n|] eqn:Hn; [|done].
  destruct (n <? _)%Z eqn:Hlow.
  { apply Z.ltb_lt in Hlow. intros H. assert (gr_allowed g = false) as ->.
    { unfold budget_suppression, se_ret in H. repeat case_match; by simplify_eq/=. }
    split; [done|]. intros [_ (m & Hm & Hle) _ _ _]. rewrite Hn in Hm. injection Hm as <-. lia. }
  apply Z.ltb_ge in Hlow. unfold list_issues at 1.
  change (qw_ops (add_op w BO_list)) with (qw_ops w ++ [BO_list]).
  destruct (pb_list _ _) as [issues|] eqn:Hl; [|done].
  pose proof (find_open_none key title issues) as Hopen.
  destruct (find_open_task_match issues key title) as [[id name]|].
  { intros [= _ <-]. split; [done|]. intros [_ _ (l & El & Hf) _ _]. rewrite Hl in El. injection El as <-.
    by apply Hopen in Hf. }
  destruct (find_recently_done_match _ _ _ _ _ _) as [w1 [m|]] eqn:Hdone; [|done].
  apply find_done_spec in Hdone as [Hres Hd]. destruct m as [[id name]|].
  { intros [= _ <-]. split; [done|]. intros [_ _ _ Hp _]. by apply Hd in Hp. }
  intros [= _ Hc]. rewrite Hres in Hc. apply check_cooldown_allowed in Hc as ->. split.
  - intros Hcool. split; [done | by exists n | exists issues; split; [done | by apply Hopen] | by apply Hd | done].
  - intros []. done.
Qed.
End Guard.

(** ** One candidate *)

Section Run.
Context (settings : ProposerSettings) (limits : ExecutionControlSettings) (guards : guardrails)
        (env : proposer_env) (context : ProposerIntegrationContext).

Abbreviation now := (px_generated_at context).
Abbreviation board := (qe_board env).

Definition create_op (draft : PlaneTaskDraft) : board_op :=
  BO_create (td_name draft) (td_description draft) (td_state draft) (td_label_names draft).

Definition is_comment (op : board_op) : Prop := match op with BO_comment _ _ => True | _ => False end.

(** The task a candidate becomes; the clock may show any time. *)
Definition drafted (c : ProposalCandidate) (decision : ProposalCandidatesArtifact)
    (insight : RepoInsightsArtifact) (draft : PlaneTaskDraft) : Prop :=
  exists wall, map_to_task c settings (build_provenance c decision insight (px_run_id context))
                 (load_tiers_config (qe_tiers env)) wall = Ok draft.

(** What became of a draft the board was asked to create. *)
Inductive filed (c : ProposalCandidate) (draft : PlaneTaskDraft) : res dict -> proposal_result -> Prop :=
  | filed_created issue :
      filed c draft (Ok issue) (mk_created c (Some (jtext (dget issue "id"))) (td_name draft) "created")
  | filed_failed answer e : filed c draft answer (mk_failed c "plane_create_failed" e).

(** What the body of the loop does with a candidate. *)
Inductive effect (c : ProposalCandidate) (decision : ProposalCandidatesArtifact)
    (insight : RepoInsightsArtifact) (w : proposer_world) : proposer_world -> res proposal_result -> Prop :=
  | eff_raise w' e : reads w w' -> effect c decision insight w w' (Raise e)
  | eff_skip w' reason evidence :
      reads w w' -> effect c decision insight w w' (Ok (mk_skipped c reason evidence))
  | eff_unmapped e : effect c decision insight w w (Ok (mk_failed c "candidate_mapping_failed" e))
  | eff_dry w' draft :
      reads w w' -> px_dry_run context = true -> drafted c decision insight draft ->
      passes limits guards env (pc_dedup_key c) (td_name draft) now w ->
      effect c decision insight w w' (Ok (mk_created c None (td_name draft) "dry_run"))
  | eff_create w1 w' draft post r :
      reads w w1 -> px_dry_run context = false -> drafted c decision insight draft ->
      passes limits guards env (pc_dedup_key c) (td_name draft) now w ->
      qw_results w' = qw_results w ->
      qw_ops w' = qw_ops w1 ++ create_op draft :: post -> Forall is_comment post ->
      filed c draft (pb_create board (qw_ops w1 ++ [create_op draft])) r ->
      effect c decision insight w w' (Ok r).

(** Creating the issue and commenting on it. *)
Lemma create_and_comment_effect c draft decision w w' r :
  se_try (create_and_comment env c draft decision)
    (fun e => se_ret (mk_failed c "plane_create_failed" e)) w = (w', r) ->
  exists post x, r = Ok x /\ qw_results w' = qw_results w /\
    qw_ops w' = qw_ops w ++ create_op draft :: post /\ Forall is_comment post /\
    filed c draft (pb_create board (qw_ops w ++ [create_op draft])) x.
Proof.
  unfold se_try, create_and_comment, create_issue, comment_issue, se_bind, se_lift, se_ret.
  fold (create_op draft). change (qw_ops (add_op w (create_op draft))) with (qw_ops w ++ [create_op draft]).
  destruct (pb_create _ _) as [issue|e].
  - destruct (created_comment _ _ _) as [text|e].
    + cbn [qw_ops add_op]. destruct (pb_comment _ _) as [[]|e]; intros [= <- <-];
        eexists [BO_comment _ _], _; simpl; rewrite <-app_assoc;
        (split; [done|]; split; [done|]; split; [done|]; split; [by repeat constructor | constructor]).
    + intros [= <- <-]. eexists [], _. split_and!; [done..|]. constructor.
  - intros [= <- <-]. eexists [], _. split_and!; [done..|]. constructor.
Qed.

Lemma propose_effect c decision insight w w' r :
  propose settings limits guards env context c decision insight w = (w', r) ->
  effect c decision insight w w' r.
Proof.
  unfold propose, draft_of. destruct (map_to_task _ _ _ _ _) as [draft|e] eqn:Hm.
  2: { intros [= <- <-]. constructor. }
  assert (Hd : drafted c decision insight draft) by (by eexists).
  unfold se_bind. pose proof (evaluate_quiet limits guards env (pc_dedup_key c) (td_name draft) now w) as Hq.
  destruct (evaluate _ _ _ _ _ _ w) as [w1 [g|e]] eqn:He; simpl in Hq.
  2: { intros [= <- <-]. by constructor. }
  apply evaluate_spec in He. destruct (gr_allowed g); simpl.
  - assert (Hp : passes limits guards env (pc_dedup_key c) (td_name draft) now w) by (by apply He).
    destruct (px_dry_run context) eqn:Hdry.
    + intros [= <- <-]. by apply eff_dry.
    + intros (post & x & -> & Hr & Ho & Hc & Hf)%create_and_comment_effect.
      eapply eff_create; try done. by rewrite Hr, (proj1 Hq).
  - intros [= <- <-]. by apply eff_skip.
Qed.

Lemma process_effect queue n c decision insight w w' r :
  process settings limits guards env context queue n c decision insight w = (w', r) ->
  effect c decision insight w w' r.
Proof.
  unfold process. repeat case_match; try (intros [= <- <-]; apply eff_skip; apply reads_refl).
  apply propose_effect.
Qed.

Lemma process_created queue n c decision insight w w' x :
  process settings limits guards env context queue n c decision insight w = (w', Ok (Created x)) ->
  (n < px_max_create context)%Z.
Proof. unfold process. repeat case_match; try done. intros _. by apply Z.leb_gt. Qed.

(** ** The loop *)

Definition result_id (r : proposal_result) : string :=
  match r with
  | Created x => cre_candidate_id x
  | Skipped x => ski_candidate_id x
  | Failed x => fai_candidate_id x
  end.

Lemma effect_id c decision insight w w' r :
  effect c decision insight w w' (Ok r) -> result_id r = pc_candidate_id c.
Proof. intros H. inversion H; subst; try done. by match goal with F : filed _ _ _ _ |- _ => destruct F end. Qed.

Lemma process_all_spec queue done candidates decision insight w w' results :
  process_all settings limits guards env context queue done candidates decision insight w = (w', Ok results) ->
  (Z.of_nat (length (created_results done)) <= Z.max 0 (px_max_create context))%Z ->
  (Z.of_nat (length (created_results results)) <= Z.max 0 (px_max_create context))%Z /\
  exists new, results = done ++ new /\ map result_id new = map pc_candidate_id candidates.
Proof.
  revert done w. induction candidates as [|c rest IH]; simpl; intros done w.
  - intros [= <- <-] H. split; [done|]. exists []. by rewrite app_nil_r.
  - unfold se_bind. destruct (process _ _ _ _ _ _ _ _ _ _ w) as [w1 [r|e]] eqn:Hp; [|done].
    intros Hrest Hle. apply IH in Hrest as (Hmax & new & -> & Hids).
    + split; [done|]. exists (r :: new). rewrite <-app_assoc. split; [done|]. simpl.
      by rewrite (effect_id _ _ _ _ _ _ (process_effect _ _ _ _ _ _ _ _ Hp)), Hids.
    + unfold created_results in *. rewrite omap_app, length_app. destruct r; simpl; [|lia..].
      apply process_created in Hp. unfold created_results in Hp. lia.
Qed.

Lemma result_ids_split l :
  map result_id l ≡ₚ map cre_candidate_id (created_results l) ++
    map ski_candidate_id (skipped_results l) ++ map fai_candidate_id (failed_results l).
Proof.
  induction l as [|[] l IH]; simpl; [done|..]; rewrite IH; simpl.
  - done.
  - by rewrite <-Permutation_middle.
  - by rewrite !app_assoc, <-Permutation_middle.
Qed.
Lemma queue_gate_quiet w : exists w1 q, queue_gate settings env w = (w1, Ok q) /\ reads w w1.
Proof.
  unfold queue_gate. case_match; [|by eexists _, _; split; [done | apply reads_refl]].
  unfold se_try, se_bind, se_ret. pose proof (quiet_list env w) as Hq.
  destruct (list_issues _ _) as [w1 [l|e]]; by eexists _, _.
Qed.

(** An invariant of the loop, kept by every effect on an emitted candidate, also
    when an exception ends it. *)
Lemma process_all_inv (P : list proposal_result -> proposer_world -> Prop) queue decision insight :
  forall candidates done w w' r,
    (forall c done w w' r, c ∈ candidates -> P done w -> effect c decision insight w w' r ->
       match r with Ok x => P (done ++ [x]) w' | Raise _ => P done w' end) ->
    process_all settings limits guards env context queue done candidates decision insight w = (w', r) ->
    P done w -> match r with Ok results => P results w' | Raise _ => exists done', P done' w' end.
Proof.
  induction candidates as [|c rest IH]; simpl; intros done w w' r Hstep.
  - by intros [= <- <-].
  - unfold se_bind. destruct (process _ _ _ _ _ _ _ _ _ _ w) as [w1 x] eqn:Hp. intros Hrest HP.
    apply process_effect, (Hstep c done) in Hp; [|by left | done]. destruct x as [x|e].
    + eapply IH; [|exact Hrest | exact Hp]. intros c' ? ? ? ? ?. apply Hstep. by right.
    + injection Hrest as <- <-. by exists done.
Qed.

(** An invariant of a run that looks only at what was asked of the board. *)
Lemma proposer_run_inv (P : list proposal_result -> proposer_world -> Prop) w w' r :
  (forall w1, reads w w1 -> P [] w1) ->
  (forall decision insight c done w1 w2 x,
     candidates_load env (px_repo_filter context) (px_decision_run_id context) = Ok (decision, insight) ->
     c ∈ emitted decision -> P done w1 -> effect c decision insight w1 w2 x ->
     match x with Ok y => P (done ++ [y]) w2 | Raise _ => P done w2 end) ->
  (forall done w1 w2, qw_ops w2 = qw_ops w1 -> P done w1 -> P done w2) ->
  proposer_run settings limits guards env context w = (w', r) ->
  exists done, P done w' /\ forall a, r = Ok a -> ra_created a = created_results done.
Proof.
  intros Hstart Hstep Hops. unfold proposer_run, se_bind, se_lift, se_ret.
  destruct (candidates_load _ _ _) as [[decision insight]|e] eqn:Hload.
  2: { intros [= <- <-]. exists []. split; [apply Hstart, reads_refl | done]. }
  destruct (queue_gate_quiet w) as (w1 & q & -> & Hq). cbn [fst snd].
  destruct (process_all _ _ _ _ _ _ _ _ _ _ w1) as [w2 x] eqn:Hall.
  apply (process_all_inv P) in Hall; [|intros ? ? ? ? ? Hc HP Heff; exact (Hstep _ _ _ _ _ _ _ eq_refl Hc HP Heff) | by apply Hstart].
  destruct x as [results|e].
  2: { intros [= <- <-]. destruct Hall as [done HP]. by exists done. }
  unfold write_results. destruct (qe_write_json env) as [m|e].
  - destruct (qe_write_md env); intros [= <- <-]; exists results; (split; [by eapply Hops; [|exact Hall]|]);
      [by intros ? [= <-] | done].
  - intros [= <- <-]. by exists results.
Qed.

(** What was asked of the board in a run, and the proposals it reports. *)
Definition justified (c : ProposalCandidate) (draft : PlaneTaskDraft) : Prop :=
  exists decision insight w1,
    candidates_load env (px_repo_filter context) (px_decision_run_id context) = Ok (decision, insight) /\
    c ∈ emitted decision /\ drafted c decision insight draft /\
    passes limits guards env (pc_dedup_key c) (td_name draft) now w1.

Definition justified_op (op : board_op) : Prop :=
  match op with
  | BO_create _ _ _ _ => px_dry_run context = false /\ exists c draft, op = create_op draft /\ justified c draft
  | BO_comment _ _ => px_dry_run context = false
  | BO_list => True
  end.

Definition justified_result (x : CreatedProposalResult) : Prop :=
  exists c draft, cre_dedup_key x = pc_dedup_key c /\ justified c draft.

(** The invariant behind it: the requests since [w], and the results so far. *)
Definition trace_inv (w : proposer_world) (done : list proposal_result) (w1 : proposer_world) : Prop :=
  (exists l, qw_ops w1 = qw_ops w ++ l /\ Forall justified_op l) /\
  Forall justified_result (created_results done).

Lemma created_results_snoc done y :
  created_results (done ++ [y]) = created_results done ++ created_results [y].
Proof. unfold created_results. by rewrite omap_app. Qed.

Lemma reads_justified w w1 w2 l :
  qw_ops w1 = qw_ops w ++ l -> Forall justified_op l -> reads w1 w2 ->
  exists l', qw_ops w2 = qw_ops w ++ l' /\ Forall justified_op l'.
Proof.
  intros Ho Hl [_ (l' & Ho' & Hl')]. exists (l ++ l'). rewrite Ho', Ho, app_assoc. split; [done|].
  apply Forall_app. split; [done|]. eapply Forall_impl; [exact Hl'|]. by intros op ->.
Qed.

Lemma trace_inv_step w decision insight c done w1 w2 x :
  candidates_load env (px_repo_filter context) (px_decision_run_id context) = Ok (decision, insight) ->
  c ∈ emitted decision -> trace_inv w done w1 -> effect c decision insight w1 w2 x ->
  match x with Ok y => trace_inv w (done ++ [y]) w2 | Raise _ => trace_inv w done w2 end.
Proof.
  intros Hload Hc [(l & Ho & Hl) Hd] Heff. unfold trace_inv. pose proof (reads_justified _ _ w2 _ Ho Hl) as Hreads.
  destruct Heff as [w2 e Hr|w2 reason ev Hr|e|w2 draft Hr Hdry Hdr Hpass
                   |wa w2 draft post y Hr Hdry Hdr Hpass _ Hops Hcom Hfiled];
    rewrite ?created_results_snoc, ?Forall_app.
  - by split; [apply Hreads|].
  - split; [by apply Hreads | split; [done | by apply Forall_nil]].
  - split; [by exists l | split; [done | by apply Forall_nil]].
  - split; [by apply Hreads|]. split; [done|]. apply Forall_singleton. exists c, draft. split; [done|].
    by exists decision, insight, w1.
  - assert (Hj : justified c draft) by (by exists decision, insight, w1). split.
    + destruct (reads_justified _ _ wa _ Ho Hl Hr) as (l' & Ho' & Hl'). exists (l' ++ create_op draft :: post).
      rewrite Hops, Ho', <-app_assoc. split; [done|]. apply Forall_app. split; [done|]. apply Forall_cons.
      split; [split; [done|]; by exists c, draft|]. eapply Forall_impl; [exact Hcom|]. by intros [| |].
    + split; [done|]. destruct Hfiled; [|by apply Forall_nil]. apply Forall_singleton. by exists c, draft.
Qed.

Lemma proposer_run_trace w w' r :
  proposer_run settings limits guards env context w = (w', r) ->
  exists l, qw_ops w' = qw_ops w ++ l /\ Forall justified_op l /\
    forall a, r = Ok a -> Forall justified_result (ra_created a).
Proof.
  intros H. apply (proposer_run_inv (trace_inv w)) in H as (done & ((l & Ho & Hl) & Hd) & Ha).
  - exists l. split; [done|]. split; [done|]. intros a Hr. by rewrite (Ha _ Hr).
  - intros w1 Hr. split; [|by apply Forall_nil].
    apply (reads_justified w w w1 []); [by rewrite app_nil_r | by apply Forall_nil | done].
  - intros *. apply trace_inv_step.
  - intros done w1 w2 E [(l & Ho & Hl) Hd]. split; [|done]. exists l. by rewrite E.
Qed.
(** ** The moment of a request *)

(** [P before op] for every request [op] of [ops] to create an issue, [before]
    what was asked of the board up to then. *)
Definition each_creation (P : list board_op -> board_op -> Prop) (start ops : list board_op) : Prop :=
  forall l name text state labels l', ops = l ++ BO_create name text state labels :: l' ->
    P (start ++ l) (BO_create name text state labels).

Lemma each_creation_none P start ops :
  Forall (fun op => match op with BO_create _ _ _ _ => False | _ => True end) ops -> each_creation P start ops.
Proof. intros H l name text state labels l' ->. by apply Forall_app in H as [_ [? _]%Forall_cons]. Qed.

Lemma each_creation_app P start ops ops' :
  each_creation P start ops -> each_creation P (start ++ ops) ops' -> each_creation P start (ops ++ ops').
Proof.
  intros H H' l name text state labels l' E. apply app_eq_inv in E as [(k & -> & E)|(k & -> & E)].
  - destruct k as [|op k]; cbn in E.
    + subst ops'. specialize (H' [] name text state labels l' eq_refl). by rewrite !app_nil_r in H'.
    + injection E as <- ->. by eapply H.
  - subst ops'. rewrite app_assoc. by eapply H'.
Qed.

Lemma each_creation_weaken (P Q : list board_op -> board_op -> Prop) start ops :
  (forall before op, P before op -> Q before op) -> each_creation P start ops -> each_creation Q start ops.
Proof. intros HPQ H l name text state labels l' E. by eapply HPQ, H. Qed.

(** A request to create the issue of an emitted candidate, in a run that starts
    in [w]: the queue of the board was not over its cap, the candidate is no
    work of a running campaign, the earlier candidates have led to [w1] with
    fewer creations than the run may make, all that was asked of the board
    since is its list, and there the draft passes the guardrails. *)
Definition asked_for (decision : ProposalCandidatesArtifact) (w : proposer_world)
    (before : list board_op) (op : board_op) : Prop :=
  exists insight earlier c later wq queue done w1 listings draft,
    candidates_load env (px_repo_filter context) (px_decision_run_id context) = Ok (decision, insight) /\
    emitted decision = earlier ++ c :: later /\
    queue_gate settings env w = (wq, Ok queue) /\ fst queue = false /\
    process_all settings limits guards env context queue [] earlier decision insight wq = (w1, Ok done) /\
    (Z.of_nat (length (created_results done)) < px_max_create context)%Z /\
    is_suppressed (qe_exists_file env) (qe_read_keywords env)
      (str_or (Some (ol_title_hint (pc_proposal_outline c))) (pc_subject c)) (candidate_paths c)
      (active_campaigns (qe_campaigns env)) "docs/specs" = false /\
    before = qw_ops w1 ++ listings /\ Forall (fun op => op = BO_list) listings /\
    drafted c decision insight draft /\ op = create_op draft /\ px_dry_run context = false /\
    passes limits guards env (pc_dedup_key c) (td_name draft) now w1.

Lemma process_open queue n c decision insight w w' r :
  process settings limits guards env context queue n c decision insight w = (w', r) ->
  reads w w' \/
  (fst queue = false /\ (n < px_max_create context)%Z /\
   is_suppressed (qe_exists_file env) (qe_read_keywords env)
     (str_or (Some (ol_title_hint (pc_proposal_outline c))) (pc_subject c)) (candidate_paths c)
     (active_campaigns (qe_campaigns env)) "docs/specs" = false).
Proof.
  unfold process. destruct (fst queue) eqn:Eq; [intros [= <- _]; left; apply reads_refl|].
  destruct (str_in _ _); [intros [= <- _]; left; apply reads_refl|].
  destruct (Z.leb_spec (px_max_create context) n); [intros [= <- _]; left; apply reads_refl|].
  destruct (is_suppressed _ _ _ _ _ _) eqn:Es; [intros [= <- _]; left; apply reads_refl|].
  intros _. by right.
Qed.

Lemma process_all_snoc queue decision insight c : forall earlier done w w1 l,
  process_all settings limits guards env context queue done earlier decision insight w = (w1, Ok l) ->
  process_all settings limits guards env context queue done (earlier ++ [c]) decision insight w =
  (r <<- process settings limits guards env context queue (Z.of_nat (length (created_results l))) c decision insight ;;
   se_ret (l ++ [r])) w1.
Proof.
  induction earlier as [|x earlier IH]; intros done w w1 l; cbn [process_all app].
  - by intros [= -> ->].
  - unfold se_bind at 1 2. destruct (process _ _ _ _ _ _ _ x _ _ w) as [w2 [r|e]]; [|done]. apply IH.
Qed.

Lemma reads_no_creation P w w' : reads w w' ->
  exists l, qw_ops w' = qw_ops w ++ l /\ each_creation P (qw_ops w) l.
Proof.
  intros [_ (l & E & Hl)]. exists l. split; [done|]. apply each_creation_none.
  eapply Forall_impl; [exact Hl|]. by intros op ->.
Qed.

Lemma process_all_requests queue decision insight w wq :
  candidates_load env (px_repo_filter context) (px_decision_run_id context) = Ok (decision, insight) ->
  queue_gate settings env w = (wq, Ok queue) ->
  forall candidates earlier done w1 w2 r,
    emitted decision = earlier ++ candidates ->
    process_all settings limits guards env context queue [] earlier decision insight wq = (w1, Ok done) ->
    process_all settings limits guards env context queue done candidates decision insight w1 = (w2, r) ->
    exists l, qw_ops w2 = qw_ops w1 ++ l /\ each_creation (asked_for decision w) (qw_ops w1) l.
Proof.
  intros Hload Hq. induction candidates as [|c rest IH]; intros earlier done w1 w2 r Hem Hpre; cbn [process_all].
  - intros [= <- _]. by apply reads_no_creation, reads_refl.
  - unfold se_bind. destruct (process _ _ _ _ _ _ _ _ _ _ w1) as [w3 x] eqn:Hp. intros Hrest.
    assert (Hone : exists l, qw_ops w3 = qw_ops w1 ++ l /\ each_creation (asked_for decision w) (qw_ops w1) l).
    { destruct (process_open _ _ _ _ _ _ _ _ Hp) as [Hr|(Hfree & Hmax & Hs)]; [by apply reads_no_creation|].
      apply process_effect in Hp. destruct Hp as [w3 e Hr|w3 reason ev Hr|e|w3 draft Hr _ _ _
        |wa w3 draft post y [_ (ls & Els & Hls)] Hdry Hdr Hpass _ Hops Hcom _];
        [by apply reads_no_creation..|by apply reads_no_creation, reads_refl|by apply reads_no_creation|].
      exists (ls ++ create_op draft :: post). split; [by rewrite Hops, Els, <-app_assoc|].
      apply each_creation_app.
      { apply each_creation_none. eapply Forall_impl; [exact Hls|]. by intros op ->. }
      intros l name text state labels l' E. destruct l as [|op l]; cbn in E.
      - injection E as En Et Est El _. rewrite app_nil_r.
        exists insight, earlier, c, rest, wq, queue, done, w1, ls, draft. split_and!; try done.
        unfold create_op. by rewrite En, Et, Est, El.
      - exfalso. injection E as _ ->. apply Forall_app in Hcom as [_ [Hc _]%Forall_cons]. done. }
    destruct Hone as (l & El & Hl). destruct x as [x|e]; [|injection Hrest as <- _; by exists l].
    destruct (IH (earlier ++ [c]) (done ++ [x]) w3 w2 r) as (l' & El' & Hl').
    + by rewrite <-app_assoc.
    + rewrite (process_all_snoc _ _ _ _ _ _ _ _ _ Hpre). unfold se_bind. by rewrite Hp.
    + done.
    + exists (l ++ l'). rewrite El', El, app_assoc. split; [done|]. apply each_creation_app; [done|]. by rewrite <-El.
Qed.

(** Every creation of a run is asked for as above. *)
Lemma proposer_run_requests w w' r :
  proposer_run settings limits guards env context w = (w', r) ->
  exists l, qw_ops w' = qw_ops w ++ l /\
    (l <> [] -> exists decision insight, candidates_load env (px_repo_filter context) (px_decision_run_id context) =
                  Ok (decision, insight)) /\
    forall decision insight, candidates_load env (px_repo_filter context) (px_decision_run_id context) =
      Ok (decision, insight) -> each_creation (asked_for decision w) (qw_ops w) l.
Proof.
  unfold proposer_run, se_bind, se_lift, se_ret.
  destruct (candidates_load _ _ _) as [[decision insight]|e] eqn:Hload.
  2: { intros [= <- _]. exists []. by rewrite app_nil_r. }
  destruct (queue_gate_quiet w) as (w1 & q & Hq & Hr). rewrite Hq. cbn [fst snd].
  destruct (process_all _ _ _ _ _ _ _ _ _ _ w1) as [w2 x] eqn:Hall.
  pose proof (process_all_requests q decision insight w w1 Hload Hq _ [] [] w1 w2 x eq_refl eq_refl Hall)
    as (l & El & Hl).
  destruct (reads_no_creation (asked_for decision w) _ _ Hr) as (l0 & El0 & Hl0).
  assert (Hgoal : forall w3, qw_ops w3 = qw_ops w2 -> exists l, qw_ops w3 = qw_ops w ++ l /\
            (l <> [] -> exists d i, Ok (decision, insight) = Ok (d, i)) /\
            forall d i, Ok (decision, insight) = Ok (d, i) -> each_creation (asked_for d w) (qw_ops w) l).
  { intros w3 E. exists (l0 ++ l). rewrite E, El, El0, app_assoc. split; [done|]. split; [by intros _; eexists _, _|].
    intros d i [= <- <-]. apply each_creation_app; [done|]. by rewrite <-El0. }
  destruct x as [results|e]; [|intros [= <- _]; by apply Hgoal].
  unfold write_results. destruct (qe_write_json env); [destruct (qe_write_md env)|]; intros [= <- _]; by apply Hgoal.
Qed.
End Run.

(** ** Any number of runs on one board *)

(** A run with all it is given. *)
Record proposer_session := {
  se_settings : ProposerSettings;
  se_limits : ExecutionControlSettings;
  se_guards : guardrails;
  se_env : proposer_env;
  se_context : ProposerIntegrationContext }.

Definition session_run (s : proposer_session) : PM ProposalResultsArtifact :=
  proposer_run (se_settings s) (se_limits s) (se_guards s) (se_env s) (se_context s).

Fixpoint session_runs (l : list proposer_session) (w : proposer_world)
    : proposer_world * list (res ProposalResultsArtifact) :=
  match l with
  | [] => (w, [])
  | s :: rest =>
      let '(w, a) := session_run s w in
      let '(w, answers) := session_runs rest w in (w, a :: answers)
  end.

(** The states the proposer gives its tasks. *)
Definition open_state (state : string) : Prop := state = "Ready for AI" \/ state = "Backlog".

(** The board lists every issue it created open with the text it was given, and
    still open. *)
Definition keeps_open (board : proposal_board) : Prop :=
  forall pre name description state labels post answer issues,
    open_state state ->
    pb_create board (pre ++ [BO_create name description state labels]) = Ok answer ->
    pb_list board (pre ++ BO_create name description state labels :: post) = Ok issues ->
    exists issue, issue ∈ issues /\ issue_description issue = description /\ closed_issue issue = false.

(** Every decision the session may load has keys that fit on a line. *)
Definition plain_decisions (env : proposer_env) : Prop :=
  forall ds d c, qe_decisions env = Ok ds -> d ∈ ds -> c ∈ da_candidates d -> plain_key (pc_dedup_key c) = true.

Definition really_created (a : ProposalResultsArtifact) : list string :=
  map cre_dedup_key (List.filter (fun x => String.eqb (cre_status x) "created") (ra_created a)).

Definition created_keys (answers : list (res ProposalResultsArtifact)) : list string :=
  concat (map (fun r => match r with Ok a => really_created a | Raise _ => [] end) answers).

(** The board was asked for, and created, a task that names the key. *)
Definition on_board (board : proposal_board) (ops : list board_op) (key_norm : string) : Prop :=
  exists pre name description state labels post answer,
    ops = pre ++ BO_create name description state labels :: post /\ open_state state /\
    pb_create board (pre ++ [BO_create name description state labels]) = Ok answer /\
    existsb (names_key key_norm) (splitlines description) = true.

Lemma on_board_grows board ops l k : on_board board ops k -> on_board board (ops ++ l) k.
Proof.
  intros (pre & name & d & st & la & post & answer & -> & Hst & Hc & Hk).
  exists pre, name, d, st, la, (post ++ l), answer. by rewrite <-app_assoc.
Qed.

(** While a task for a key is on the board, no proposal for the key passes. *)
Lemma on_board_blocks limits guards env key title now w :
  keeps_open (qe_board env) -> on_board (qe_board env) (qw_ops w) (norm key) ->
  ~ passes limits guards env key title now w.
Proof.
  intros Hboard (pre & name & d & st & la & post & answer & Hops & Hst & Hc & Hk) [_ _ (issues & Hl & Hall) _ _].
  rewrite Hops, <-app_assoc in Hl. simpl in Hl.
  destruct (Hboard _ _ _ _ _ _ _ _ Hst Hc Hl) as (i & Hi & Hd & Hclosed).
  pose proof (proj1 (Forall_forall _ _) Hall _ Hi) as H. unfold same_task in H.
  rewrite Hd, Hk, orb_true_r in H. rewrite H in Hclosed; done.
Qed.

Lemma candidates_load_in env repo id decision insight :
  candidates_load env repo id = Ok (decision, insight) ->
  exists ds, qe_decisions env = Ok ds /\ decision ∈ ds.
Proof.
  unfold candidates_load. destruct (qe_decisions env) as [ds|] eqn:Hds; cbn [mbind res_bind]; [|done].
  destruct (newest_first _ ds) as [l|] eqn:Hn; cbn [mbind res_bind]; [|done].
  apply newest_first_spec in Hn as [Hperm _].
  set (found := if opt_truthy repo then _ else l).
  assert (Hsub : forall d, d ∈ found -> d ∈ ds).
  { intros d Hd. rewrite <-Hperm. unfold found in Hd. case_match; [|done]. by apply elem_of_filter_bool in Hd as []. }
  intros H. exists ds. split; [done|]. apply Hsub. destruct (opt_truthy id).
  - destruct (find_first _ found) as [d|] eqn:Hf; cbn [mbind res_bind] in H; [|done].
    apply find_first_split in Hf as (? & ? & -> & _). destruct (qe_insight env _) as [[]|]; cbn [mbind res_bind] in H; [|done..].
    injection H as <- _. set_solver.
  - destruct found as [|d rest]; cbn [mbind res_bind] in H; [done|].
    destruct (qe_insight env _) as [[]|]; cbn [mbind res_bind] in H; [|done..]. injection H as <- _. by left.
Qed.

Definition result_keys (done : list proposal_result) : list string :=
  map cre_dedup_key (List.filter (fun x => String.eqb (cre_status x) "created") (created_results done)).

Lemma result_keys_snoc done y : result_keys (done ++ [y]) = result_keys done ++ result_keys [y].
Proof. unfold result_keys. by rewrite created_results_snoc, List.filter_app, map_app. Qed.

(** The tasks of a run: pairwise different keys, none of which was taken. *)
Definition fresh_keys (board : proposal_board) (taken : list string) (done : list proposal_result)
    (w : proposer_world) : Prop :=
  NoDup (map norm (taken ++ result_keys done)) /\
  Forall (fun k => on_board board (qw_ops w) (norm k)) (taken ++ result_keys done).

Lemma fresh_keys_grow board taken done w w' l :
  qw_ops w' = qw_ops w ++ l -> fresh_keys board taken done w -> fresh_keys board taken done w'.
Proof.
  intros Ho [Hn Hf]. split; [done|]. eapply Forall_impl; [exact Hf|]. intros k Hk. rewrite Ho. by apply on_board_grows.
Qed.

Lemma fresh_keys_same board taken done y w :
  result_keys [y] = [] -> fresh_keys board taken done w -> fresh_keys board taken (done ++ [y]) w.
Proof. intros Hy. unfold fresh_keys. by rewrite result_keys_snoc, Hy, app_nil_r. Qed.

Section Sessions.
Context (board : proposal_board) (Hboard : keeps_open board).

Lemma fresh_keys_step s taken decision insight c done w1 w2 x :
  qe_board (se_env s) = board -> plain_decisions (se_env s) ->
  candidates_load (se_env s) (px_repo_filter (se_context s)) (px_decision_run_id (se_context s))
    = Ok (decision, insight) ->
  c ∈ emitted decision -> fresh_keys board taken done w1 ->
  effect (se_settings s) (se_limits s) (se_guards s) (se_env s) (se_context s) c decision insight w1 w2 x ->
  match x with Ok y => fresh_keys board taken (done ++ [y]) w2 | Raise _ => fresh_keys board taken done w2 end.
Proof.
  intros Hb Hplain Hload [Hc _]%elem_of_filter_bool Hfresh Heff. subst board.
  pose proof Hload as (ds & Hds & Hd)%candidates_load_in.
  assert (Hkey : plain_key (pc_dedup_key c) = true).
  { by eapply Hplain. }
  destruct Heff as [w2 e Hr|w2 reason ev Hr|e|w2 draft Hr Hdry Hdr Hpass
                   |wa w2 draft post y [_ (l & Hwa & _)] Hdry Hdr Hpass _ Hops Hcom Hfiled].
  - destruct Hr as [_ (l & Ho & _)]. by eapply fresh_keys_grow.
  - destruct Hr as [_ (l & Ho & _)]. eapply fresh_keys_same; [done | by eapply fresh_keys_grow].
  - by apply fresh_keys_same.
  - destruct Hr as [_ (l & Ho & _)]. eapply fresh_keys_same; [done | by eapply fresh_keys_grow].
  - assert (Hw : qw_ops w2 = qw_ops w1 ++ l ++ create_op draft :: post) by (by rewrite Hops, Hwa, <-app_assoc).
    pose proof (fresh_keys_grow _ _ _ _ _ _ Hw Hfresh) as [Hn Hf].
    remember (pb_create _ _) as answer eqn:Ha. destruct Hfiled as [issue|].
    2: { by eapply fresh_keys_same; [|split]. }
    unfold fresh_keys. rewrite result_keys_snoc, app_assoc, map_app, Forall_app, NoDup_app. simpl.
    split; [split; [done|]; split; [|by apply NoDup_singleton]|split; [done|]].
    + intros k (k' & -> & Hk')%list_elem_of_fmap Hin. apply list_elem_of_singleton in Hin.
      apply (on_board_blocks (se_limits s) (se_guards s) (se_env s) (pc_dedup_key c) (td_name draft)
               (px_generated_at (se_context s)) w1 Hboard); [|done].
      rewrite <-Hin. destruct Hfresh as [_ Hold]. by apply (proj1 (Forall_forall _ _) Hold).
    + apply Forall_singleton. destruct Hdr as [wall Hm].
      exists (qw_ops wa), (td_name draft), (td_description draft), (td_state draft), (td_label_names draft), post, issue.
      split; [done|]. split; [by eapply drafted_state|]. split; [done|]. by eapply mapped_task_names_key.
Qed.

Lemma session_fresh s taken w w' r :
  qe_board (se_env s) = board -> plain_decisions (se_env s) ->
  session_run s w = (w', r) -> fresh_keys board taken [] w ->
  fresh_keys board (taken ++ match r with Ok a => really_created a | Raise _ => [] end) [] w'.
Proof.
  intros Hb Hplain H Hfresh. unfold session_run in H.
  apply (proposer_run_inv _ _ _ _ _ (fresh_keys board taken)) in H as (done & Hd & Ha).
  - unfold fresh_keys in *. rewrite app_nil_r. destruct r as [a|e].
    + unfold really_created. by rewrite (Ha _ eq_refl).
    + rewrite app_nil_r. destruct Hd as [Hn Hf]. rewrite map_app in Hn. apply NoDup_app in Hn as (Hn & _).
      apply Forall_app in Hf as [Hf _]. done.
  - intros w1 [_ (l & Ho & _)]. by eapply fresh_keys_grow.
  - intros *. by apply fresh_keys_step.
  - intros done w1 w2 E. unfold fresh_keys. by rewrite E.
Qed.

Lemma sessions_fresh l taken w w' answers :
  Forall (fun s => qe_board (se_env s) = board /\ plain_decisions (se_env s)) l ->
  session_runs l w = (w', answers) -> fresh_keys board taken [] w ->
  fresh_keys board (taken ++ created_keys answers) [] w'.
Proof.
  revert taken w answers. induction l as [|s l IH]; simpl; intros taken w answers Hall.
  - intros [= <- <-] H. by rewrite app_nil_r.
  - apply Forall_cons in Hall as [[Hb Hp] Hall]. destruct (session_run s w) as [w1 a] eqn:Hs.
    destruct (session_runs l w1) as [w2 as_] eqn:Hl. intros [= <- <-] Hf.
    unfold created_keys. simpl. rewrite app_assoc. eapply IH; [done | exact Hl |]. by eapply session_fresh.
Qed.

(** C22: over any number of proposer runs on a board that keeps its tasks open,
    no two tasks that were created are for the same key, up to case and
    surrounding spaces: each description names its key, and the guardrails find
    it there. *)
Theorem open_tasks_have_distinct_keys l w w' answers :
  Forall (fun s => qe_board (se_env s) = board /\ plain_decisions (se_env s)) l ->
  session_runs l w = (w', answers) ->
  NoDup (map norm (created_keys answers)).
Proof.
  intros Hall H. apply (sessions_fresh _ [] _ _ _ Hall) in H as [Hn _]; [by rewrite app_nil_r in Hn|].
  split; [apply NoDup_nil_2 | by apply Forall_nil].
Qed.
End Sessions.

(** ** What a run reports, and what it asks for *)

Section OneRun.
Context (settings : ProposerSettings) (limits : ExecutionControlSettings) (guards : guardrails)
        (env : proposer_env) (context : ProposerIntegrationContext).

Abbreviation run := (proposer_run settings limits guards env context).

(** a proposer run that returns reports every emitted candidate of the
    decision exactly once, as created, skipped or failed; it creates at most the
    allowed number, and what a dry run reports as created never reached the
    board, whose tasks it only lists. *)
Theorem run_accounts_for_every_candidate w w' a :
  run w = (w', Ok a) ->
  exists decision insight,
    candidates_load env (px_repo_filter context) (px_decision_run_id context) = Ok (decision, insight) /\
    map pc_candidate_id (emitted decision) ≡ₚ
      map cre_candidate_id (ra_created a) ++ map ski_candidate_id (ra_skipped a) ++
      map fai_candidate_id (ra_failed a) /\
    (Z.of_nat (length (ra_created a)) <= Z.max 0 (px_max_create context))%Z /\
    (px_dry_run context = true ->
     exists n, qw_ops w' = qw_ops w ++ replicate n BO_list).
Proof.
  intros H. pose proof H as (l & Hops & Hl & _)%proposer_run_trace. revert H.
  unfold proposer_run, se_bind, se_lift, se_ret.
  destruct (candidates_load _ _ _) as [[decision insight]|e]; [|done].
  destruct (queue_gate_quiet settings env w) as (w1 & q & -> & _). cbn [fst snd].
  destruct (process_all _ _ _ _ _ _ _ _ _ _ w1) as [w2 [results|e]] eqn:Hall; [|done].
  destruct (write_results _ _ _) as [w3 [[]|e]]; [|done]. intros [= <- <-]. exists decision, insight.
  apply process_all_spec in Hall as (Hmax & new & -> & Hids); [|simpl; lia]. simpl in *.
  split; [done|]. split; [by rewrite <-result_ids_split, Hids|]. split; [done|].
  intros Hdry. exists (length l). rewrite Hops. f_equal. clear Hops. induction Hl as [|op l Hop _ IH]; [done|].
  simpl. rewrite <-IH. f_equal. unfold justified_op in Hop. rewrite Hdry in Hop. by destruct op as [|? ? ? ?|]; [|destruct Hop|].
Qed.

(** every task a run asks the board to create is one of an emitted
    candidate, carries the autonomy labels, and is ready to run unattended only
    if the tier of its family is at least two, or is one and the candidate's
    risk is style; otherwise it waits in the backlog and its description asks
    for human approval. *)
Theorem unattended_tasks_have_the_tier w w' r name description state labels :
  run w = (w', r) ->
  exists l, qw_ops w' = qw_ops w ++ l /\
    (BO_create name description state labels ∈ l ->
     exists decision insight c,
       candidates_load env (px_repo_filter context) (px_decision_run_id context) = Ok (decision, insight) /\
       c ∈ emitted decision /\
       "source: autonomy" ∈ labels /\ "source-family: " +:+ pc_family c ∈ labels /\
       (state = "Ready for AI" \/
        state = "Backlog" /\ "requires_human_approval: true" ∈ splitlines description) /\
       (state = "Ready for AI" <->
        (2 <= get_family_tier (pc_family c) (load_tiers_config (qe_tiers env)))%Z \/
        get_family_tier (pc_family c) (load_tiers_config (qe_tiers env)) = 1%Z /\ pc_risk_class c = "style")).
Proof.
  intros (l & Hops & Hl & _)%proposer_run_trace. exists l. split; [done|].
  intros Hin. destruct (proj1 (Forall_forall _ _) Hl _ Hin) as (_ & c & draft & [= -> -> -> ->] & Hj).
  destruct Hj as (decision & insight & _ & Hload & Hc & [wall Hm] & _). exists decision, insight, c.
  apply map_to_task_ok in Hm as (rk & br & tier & st & ex & Hd & _ & Ht & Hst & -> & _ & Hl1 & Hl2).
  do 4 (split; [done|]). rewrite <-Ht, Hd. subst st. unfold state_for.
  pose proof (proj2 (description_lines_of rk br tier "Backlog" ex c
    (build_provenance c decision insight (px_run_id context)))) as Hline.
  destruct (Z.leb_spec tier 0); [split; [by right|]; split; [done|lia]|].
  destruct (Z.leb_spec 2 tier); [split; [by left|]; split; [by left|done]|].
  destruct (String.eqb_spec (pc_risk_class c) "style").
  - split; [by left|]. split; [|done]. right. split; [lia|done].
  - split; [by right|]. split; [done|]. intros [?|[_ ?]]; [lia|done].
Qed.
End OneRun.

(** ** Rejections are for good *)

Record rejection := {
  rj_disk : res unit;
  rj_dedup_key : string;
  rj_reason : string;
  rj_task_id : string;
  rj_task_title : string;
  rj_now : datetime }.

Definition reject (f : json_file) (r : rejection) : json_file :=
  fst (record_rejection (rj_disk r) f (rj_dedup_key r) (rj_reason r) (rj_task_id r) (rj_task_title r) (rj_now r)).

Lemma has_rejection_app k l m b :
  has_rejection k l = Ok b -> has_rejection k (l ++ m) = if b then Ok true else has_rejection k m.
Proof.
  revert b. induction l as [|r l IH]; simpl; intros b; [by intros [= <-]|].
  destruct (rejected_key r) as [k'|]; simpl; [|done]. destruct (String.eqb k' k); [by intros [= <-] | apply IH].
Qed.

Lemma rejected_key_cons s l : rejected_key (JObj (("dedup_key", JStr s) :: l)) = Ok (norm s).
Proof. unfold rejected_key. rewrite list_to_map_cons, lookup_insert_eq. done. Qed.

Lemma record_rejection_rejects disk f key reason task_id title now f' :
  record_rejection disk f key reason task_id title now = (f', Ok tt) -> is_rejected f' key = Ok true.
Proof.
  unfold record_rejection, is_rejected. destruct (load_rejections f) as [l|] eqn:Hl; cbn [mbind res_bind]; [|done].
  destruct (has_rejection (norm key) l) as [[]|] eqn:Hr; cbn [mbind res_bind]; [| |done].
  - intros [= <-]. rewrite Hl. exact Hr.
  - destruct disk; [|done]. intros [= <-]. cbn [load_rejections mbind res_bind].
    rewrite (has_rejection_app _ _ _ _ Hr). cbn [has_rejection]. rewrite rejected_key_cons. cbn [mbind res_bind].
    by rewrite String.eqb_refl.
Qed.

Lemma reject_keeps f r key : is_rejected f key = Ok true -> is_rejected (reject f r) key = Ok true.
Proof.
  unfold reject, record_rejection, is_rejected.
  destruct (load_rejections f) as [l|] eqn:Hl; cbn [mbind res_bind]; [|done]. intros Hr.
  destruct (has_rejection (norm (rj_dedup_key r)) l) as [[]|]; cbn [mbind res_bind fst];
    [by rewrite ?Hl| |by rewrite ?Hl].
  destruct (rj_disk r); cbn [fst]; [|by rewrite ?Hl]. cbn [load_rejections mbind res_bind fst].
  by rewrite (has_rejection_app _ _ _ _ Hr).
Qed.

Lemma rejections_keep l f key : is_rejected f key = Ok true -> is_rejected (fold_left reject l f) key = Ok true.
Proof. revert f. induction l as [|r l IH]; simpl; intros f H; [done|]. by apply IH, reject_keeps. Qed.

(** once a human's rejection of a key is recorded, and whatever rejections
    are recorded after it, no run creates a task for the key or reports one as
    created, in any spelling that differs in case or surrounding spaces. *)
Theorem rejected_key_is_never_proposed disk f key reason task_id title t f' later
    settings limits guards env context w w' r :
  record_rejection disk f key reason task_id title t = (f', Ok tt) ->
  qe_rejections env = fold_left reject later f' ->
  proposer_run settings limits guards env context w = (w', r) ->
  (forall a, r = Ok a -> Forall (fun x => norm (cre_dedup_key x) <> norm key) (ra_created a)) /\
  exists l, qw_ops w' = qw_ops w ++ l /\
    forall name description state labels, BO_create name description state labels ∈ l ->
      exists decision insight c draft,
        drafted settings env context c decision insight draft /\
        BO_create name description state labels = create_op draft /\ norm (pc_dedup_key c) <> norm key.
Proof.
  intros Hrec Henv (l & Hops & Hl & Ha)%proposer_run_trace.
  assert (Hrej : forall c draft, justified settings limits guards env context c draft -> norm (pc_dedup_key c) <> norm key).
  { intros c draft (d & i & w1 & _ & _ & _ & [Hnot _ _ _ _]) Heq.
    apply record_rejection_rejects, (rejections_keep later) in Hrec. rewrite <-Henv in Hrec.
    unfold is_rejected in *. rewrite Heq in Hnot. by rewrite Hrec in Hnot. }
  split.
  - intros a Hr. eapply Forall_impl; [by apply Ha|]. intros x (c & draft & -> & Hj). by eapply Hrej.
  - exists l. split; [done|]. intros name d st la Hin.
    destruct (proj1 (Forall_forall _ _) Hl _ Hin) as (_ & c & draft & -> & Hj).
    pose proof Hj as (decision & insight & _ & _ & _ & Hdr & _). exists decision, insight, c, draft.
    split; [done|]. split; [done|]. by eapply Hrej.
Qed.

(** ** The repository's own switch *)

(** Settings that differ at most in which repositories want proposals. *)
Definition same_but_enabled (s1 s2 : ProposerSettings) : Prop :=
  map (fun kv => (fst kv, rs_default_branch (snd kv))) (pst_repos s1) =
    map (fun kv => (fst kv, rs_default_branch (snd kv))) (pst_repos s2) /\
  pst_self_repo_key s1 = pst_self_repo_key s2 /\
  pst_propose_skip_when_ready_count s1 = pst_propose_skip_when_ready_count s2.

Lemma same_keys s1 s2 : same_but_enabled s1 s2 -> map fst (pst_repos s1) = map fst (pst_repos s2).
Proof. intros [H _]. apply (f_equal (map fst)) in H. by rewrite !map_map in H. Qed.

Lemma od_get_map {V W} (g : V -> W) k (d : list (string * V)) :
  od_get k (map (fun kv => (fst kv, g (snd kv))) d) = g <$> od_get k d.
Proof.
  unfold od_get. induction d as [|[k' v] d IH]; simpl; [done|]. by case_bool_decide.
Qed.

Lemma same_branch s1 s2 k : same_but_enabled s1 s2 ->
  rs_default_branch <$> od_get k (pst_repos s1) = rs_default_branch <$> od_get k (pst_repos s2).
Proof. intros [H _]. by rewrite <-!od_get_map, H. Qed.

Lemma map_to_task_same s1 s2 c p tiers wall :
  same_but_enabled s1 s2 -> map_to_task c s1 p tiers wall = map_to_task c s2 p tiers wall.
Proof.
  intros H. pose proof (same_keys _ _ H) as Hk. unfold map_to_task, repo_key_for_candidate, is_self_repo.
  rewrite Hk, (proj1 (proj2 H)). destruct (if str_in _ _ then _ else _) as [k|]; cbn [mbind res_bind]; [|done].
  pose proof (same_branch _ _ k H) as Hb.
  destruct (od_get k (pst_repos s1)), (od_get k (pst_repos s2)); simpl in Hb; try done.
  injection Hb as Hb. cbn [mbind res_bind]. by rewrite Hb.
Qed.

Lemma no_repo_disabled s : "" ∉ map fst (pst_repos s) -> str_in "" (propose_disabled_repos s) = false.
Proof.
  intros Hn. apply str_in_false. unfold propose_disabled_repos. intros (kv & Hk & Hin)%list_elem_of_fmap.
  apply elem_of_filter_bool in Hin as [Hin _]. apply Hn. rewrite Hk. by apply list_elem_of_fmap_2.
Qed.

Lemma propose_same s1 s2 limits guards env context c decision insight w :
  same_but_enabled s1 s2 ->
  propose s1 limits guards env context c decision insight w =
  propose s2 limits guards env context c decision insight w.
Proof. intros H. unfold propose, draft_of. by rewrite (map_to_task_same s1 s2). Qed.

Lemma process_same s1 s2 limits guards env context queue n c decision insight w :
  same_but_enabled s1 s2 -> "" ∉ map fst (pst_repos s1) ->
  process s1 limits guards env context queue n c decision insight w =
  process s2 limits guards env context queue n c decision insight w.
Proof.
  intros H Hn. pose proof (same_keys _ _ H) as Hk. unfold process, candidate_repo.
  rewrite (no_repo_disabled s1), (no_repo_disabled s2) by (done || by rewrite <-Hk).
  rewrite (proj2 (proj2 H)). repeat case_match; [done..|]. by apply propose_same.
Qed.

Lemma process_all_same s1 s2 limits guards env context queue decision insight candidates acc w :
  same_but_enabled s1 s2 -> "" ∉ map fst (pst_repos s1) ->
  process_all s1 limits guards env context queue acc candidates decision insight w =
  process_all s2 limits guards env context queue acc candidates decision insight w.
Proof.
  intros H Hn. revert acc w. induction candidates as [|c l IH]; intros acc w; [done|]. simpl.
  unfold se_bind. rewrite (process_same s1 s2) by done. destruct (process s2 _ _ _ _ _ _ _ _ _ w) as [w1 [r|e]]; [apply IH | done].
Qed.

(** switching proposals off for a repository has no effect: runs whose
    settings differ only in which repositories want proposals are equal, unless
    a repository is configured under the empty name. *)
Theorem propose_enabled_is_ignored s1 s2 limits guards env context w :
  same_but_enabled s1 s2 -> "" ∉ map fst (pst_repos s1) ->
  proposer_run s1 limits guards env context w = proposer_run s2 limits guards env context w.
Proof.
  intros H Hn. unfold proposer_run, se_bind, se_lift. destruct (candidates_load _ _ _) as [[decision insight]|]; [|done].
  unfold queue_gate. rewrite (proj2 (proj2 H)).
  match goal with |- context [match ?q with (_, _) => _ end] => destruct q as [w1 [queue|e]] end; [|done].
  by rewrite (process_all_same s1 s2).
Qed.

(** ** The proposer at work *)

Definition proposer_now : datetime := mk_datetime (days 20000) true.

(** A board that lists what it created, numbered by the requests before. *)
Definition issue_of_op (op : board_op) : option dict :=
  match op with
  | BO_create name description state _ =>
      Some (list_to_map [("name", JStr name); ("description", JStr description);
                         ("state", JObj [("name", JStr state)])])
  | _ => None
  end.

Definition sample_proposal_board : proposal_board :=
  {| pb_list := fun ops => Ok (omap issue_of_op ops);
     pb_create := fun ops => Ok {["id" := JInt (Z.of_nat (length ops))]};
     pb_comment := fun _ => Ok tt |}.

(** Its comments fail. *)
Definition mute_board : proposal_board :=
  {| pb_list := pb_list sample_proposal_board; pb_create := pb_create sample_proposal_board;
     pb_comment := fun _ => Raise (OtherError "502") |}.

Lemma sample_board_keeps_open : keeps_open sample_proposal_board.
Proof.
  intros pre name d st la post answer issues Hst _ [= <-].
  exists (list_to_map [("name", JStr name); ("description", JStr d); ("state", JObj [("name", JStr st)])]).
  split; [|split].
  - apply list_elem_of_omap. exists (BO_create name d st la). split; [set_solver | done].
  - unfold issue_description, dget. simplify_map_eq. unfold jor. simpl. by destruct d.
  - destruct Hst as [-> | ->]; vm_compute; done.
Qed.

Definition proposed (family risk : string) (runs : Z) : ProposalCandidate :=
  {| pc_candidate_id := "candidate:" +:+ family; pc_dedup_key := "candidate|" +:+ family +:+ "|main|present";
     pc_family := family; pc_subject := "main"; pc_status := "emit"; pc_evidence := ∅; pc_confidence := "high";
     pc_evidence_lines := []; pc_risk_class := risk; pc_expires_after_runs := runs;
     pc_validation_profile := "tests_pass"; pc_evidence_bundle := None; pc_matched_rules := [];
     pc_suppressed_by := [];
     pc_proposal_outline := {| ol_title_hint := "Look at " +:+ family; ol_summary_hint := "Do it.";
                               ol_labels_hint := ["task-kind: improve"]; ol_source_family := Some family |} |}.

Definition sample_proposals (run_id : string) (candidates : list ProposalCandidate) : ProposalCandidatesArtifact :=
  {| da_run_id := run_id; da_generated_at := proposer_now; da_source_command := "decide"; da_dry_run := false;
     da_repo_name := "OperationsCenter"; da_repo_path := "/srv/oc"; da_source_insight_run_id := "ins_1";
     da_candidates := candidates; da_suppressed := [] |}.

Definition sample_proposer_settings (enabled : bool) : ProposerSettings :=
  {| pst_repos := [("OperationsCenter", {| rs_default_branch := "main"; rs_propose_enabled := enabled |})];
     pst_self_repo_key := Some "operationscenter"; pst_propose_skip_when_ready_count := 8 |}.

Definition sample_proposer_env (board : proposal_board) (rejections : json_file)
    (candidates : list ProposalCandidate) : proposer_env :=
  {| qe_decisions := Ok [sample_proposals "dec_1" candidates];
     qe_insight := fun _ => Some (Ok {| ia_run_id := "ins_1"; ia_generated_at := proposer_now;
       ia_repo_name := "OperationsCenter"; ia_repo_path := "/srv/oc"; ia_source_snapshots := ["obs_1"];
       ia_insights := [] |});
     qe_campaigns := None; qe_exists_file := fun _ => false; qe_read_keywords := fun _ => Ok [];
     qe_tiers := None; qe_rejections := rejections; qe_board := board; qe_free_mb := None;
     qe_wall := fun _ => proposer_now; qe_write_json := Ok 1%Z; qe_write_md := Ok tt |}.

Definition sample_proposer_context (run_id : string) (t : datetime) (dry_run : bool) : ProposerIntegrationContext :=
  {| px_repo_filter := None; px_decision_run_id := None; px_run_id := run_id; px_generated_at := t;
     px_source_command := "propose"; px_max_create := 2; px_dry_run := dry_run |}.

Definition sample_session (board : proposal_board) (rejections : json_file) (enabled : bool)
    (candidates : list ProposalCandidate) (run_id : string) (t : datetime) (dry_run : bool) : proposer_session :=
  {| se_settings := sample_proposer_settings enabled; se_limits := dec_settings; se_guards := default_guardrails;
     se_env := sample_proposer_env board rejections candidates;
     se_context := sample_proposer_context run_id t dry_run |}.

Definition no_proposals : proposer_world := {| qw_usage := None; qw_ops := []; qw_results := [] |}.

(** What a sequence of runs created, skipped and saw fail, by family, and the
    states of the tasks the board was asked for. *)
Definition summary (r : proposer_world * list (res ProposalResultsArtifact))
    : list (string * string) * list (option (list (string * string) * list (string * string) * list (string * string))) :=
  (omap (fun op => match op with BO_create name _ state _ => Some (name, state) | _ => None end) (qw_ops (fst r)),
   map (fun a => match a with
                 | Ok a => Some (map (fun x => (cre_family x, cre_status x)) (ra_created a),
                                 map (fun x => (ski_family x, ski_reason x)) (ra_skipped a),
                                 map (fun x => (fai_family x, fai_reason x)) (ra_failed a))
                 | Raise _ => None
                 end) (snd r)).

Definition sample_candidates : list ProposalCandidate :=
  [proposed "lint_fix" "style" 5; proposed "type_fix" "logic" 5; proposed "ci_pattern" "logic" 5].

Definition two_sessions : list proposer_session :=
  [sample_session sample_proposal_board FileMissing true sample_candidates "prop_1" proposer_now false;
   sample_session sample_proposal_board FileMissing true sample_candidates "prop_2" (add_us proposer_now (hours 30)) false].

(** Two runs a day apart: the second finds the open tasks of the first. *)
Example proposals_are_filed_once :
  summary (session_runs two_sessions no_proposals) =
  ([("Look at lint_fix", "Ready for AI"); ("Look at type_fix", "Backlog"); ("Look at ci_pattern", "Backlog")],
   [Some ([("lint_fix", "created"); ("type_fix", "created")], [("ci_pattern", "max_create_reached")], []);
    Some ([("ci_pattern", "created")],
          [("lint_fix", "existing_open_equivalent_task"); ("type_fix", "existing_open_equivalent_task")], [])]).
Proof. vm_compute. reflexivity. Qed.

(** A task whose comment fails exists, is reported as failed and does not count:
    a run may create more tasks than it is allowed to. *)
Example uncommented_tasks_are_not_counted :
  summary (session_runs [sample_session mute_board FileMissing true sample_candidates "prop_1" proposer_now false]
             no_proposals) =
  ([("Look at lint_fix", "Ready for AI"); ("Look at type_fix", "Backlog"); ("Look at ci_pattern", "Backlog")],
   [Some ([], [], [("lint_fix", "plane_create_failed"); ("type_fix", "plane_create_failed");
                   ("ci_pattern", "plane_create_failed")])]).
Proof. vm_compute. reflexivity. Qed.

(** A family of tier zero, for which no task is to be created, gets one. *)
Example tier_zero_is_filed :
  get_family_tier "arch_promotion" None = 0%Z /\
  summary (session_runs [sample_session sample_proposal_board FileMissing true [proposed "arch_promotion" "arch" 5]
                           "prop_1" proposer_now false] no_proposals) =
  ([("Look at arch_promotion", "Backlog")], [Some ([("arch_promotion", "created")], [], [])]).
Proof. split; vm_compute; reflexivity. Qed.

(** A proposal for the installation itself is ready to run, and the proposer
    gives it the label that approves changes to it. *)
Example self_proposal_is_ready_and_approved :
  map (fun op => match op with BO_create _ _ state labels => Some (state, str_in "self-modify: approved" labels)
                 | _ => None end)
    (qw_ops (fst (session_runs [sample_session sample_proposal_board FileMissing true [proposed "lint_fix" "style" 5]
                                  "prop_1" proposer_now false] no_proposals))) =
  [None; None; None; Some ("Ready for AI", true); None].
Proof. vm_compute. reflexivity. Qed.

(** A board that cannot be listed a second time: the run raises, and no artifact
    tells of the task it created. *)
Definition flaky_board : proposal_board :=
  {| pb_list := fun ops => if (length ops <? 5)%nat then Ok (omap issue_of_op ops) else Raise (OtherError "502");
     pb_create := pb_create sample_proposal_board; pb_comment := pb_comment sample_proposal_board |}.

Example unlisted_board_loses_the_report :
  let r := session_runs [sample_session flaky_board FileMissing true sample_candidates "prop_1" proposer_now false]
             no_proposals in
  summary r = ([("Look at lint_fix", "Ready for AI")], [None]) /\ qw_results (fst r) = [].
Proof. vm_compute. done. Qed.

(** ** Witnesses *)

Lemma open_tasks_have_distinct_keys_witness :
  created_keys (snd (session_runs two_sessions no_proposals)) =
    ["candidate|lint_fix|main|present"; "candidate|type_fix|main|present"; "candidate|ci_pattern|main|present"] /\
  NoDup (map norm (created_keys (snd (session_runs two_sessions no_proposals)))).
Proof.
  split; [vm_compute; reflexivity|].
  apply (open_tasks_have_distinct_keys sample_proposal_board sample_board_keeps_open two_sessions no_proposals
           (fst (session_runs two_sessions no_proposals))).
  - repeat (apply Forall_cons; split); [..|by apply Forall_nil];
      (split; [done|]; intros ds d c [= <-] ->%list_elem_of_singleton Hc;
       repeat (apply elem_of_cons in Hc as [-> | Hc]; [vm_compute; reflexivity|]); by apply not_elem_of_nil in Hc).
  - by destruct (session_runs two_sessions no_proposals).
Defined.

Definition one_session : proposer_session :=
  sample_session sample_proposal_board FileMissing true sample_candidates "prop_1" proposer_now false.
Definition no_results : ProposalResultsArtifact :=
  {| ra_run_id := ""; ra_generated_at := proposer_now; ra_source_command := ""; ra_repo_name := "";
     ra_repo_path := ""; ra_source_decision_run_id := ""; ra_dry_run := false; ra_created := []; ra_skipped := [];
     ra_failed := [] |}.
Definition one_artifact : ProposalResultsArtifact :=
  match snd (session_run one_session no_proposals) with Ok a => a | Raise _ => no_results end.

Lemma run_accounts_for_every_candidate_witness :
  length (ra_created one_artifact) = 2 /\
  (Z.of_nat (length (ra_created one_artifact)) <= Z.max 0 2)%Z.
Proof.
  split; [vm_compute; reflexivity|].
  assert (H : session_run one_session no_proposals = (fst (session_run one_session no_proposals), Ok one_artifact))
    by (vm_compute; reflexivity).
  destruct (run_accounts_for_every_candidate (se_settings one_session) (se_limits one_session) (se_guards one_session)
    (se_env one_session) (se_context one_session) no_proposals (fst (session_run one_session no_proposals))
    one_artifact H) as (d & i & _ & _ & Hmax & _).
  exact Hmax.
Defined.

Lemma unattended_tasks_have_the_tier_witness :
  exists l, qw_ops (fst (session_run one_session no_proposals)) = qw_ops no_proposals ++ l /\ length l = 9.
Proof.
  destruct (unattended_tasks_have_the_tier (se_settings one_session) (se_limits one_session) (se_guards one_session)
    (se_env one_session) (se_context one_session) no_proposals (fst (session_run one_session no_proposals))
    (snd (session_run one_session no_proposals)) "" "" "" []) as (l & Hl & _).
  - unfold session_run. apply surjective_pairing.
  - exists l. split; [exact Hl|]. transitivity (length (qw_ops (fst (session_run one_session no_proposals)))).
    + by rewrite Hl.
    + vm_compute. reflexivity.
Defined.

Definition lint_key : string := pc_dedup_key (proposed "lint_fix" "style" 5).
Definition human_no : json_file * res unit :=
  record_rejection (Ok tt) FileMissing ("  " +:+ upper lint_key) "cancelled" "T-1" "" proposer_now.
Definition later_no : list rejection :=
  [{| rj_disk := Ok tt; rj_dedup_key := "candidate|other"; rj_reason := ""; rj_task_id := "T-2";
      rj_task_title := ""; rj_now := proposer_now |}].
Definition after_no : proposer_session :=
  sample_session sample_proposal_board (fold_left reject later_no (fst human_no)) true sample_candidates
    "prop_1" proposer_now false.

Lemma rejected_key_is_never_proposed_witness :
  summary (session_runs [after_no] no_proposals) =
    ([("Look at type_fix", "Backlog"); ("Look at ci_pattern", "Backlog")],
     [Some ([("type_fix", "created"); ("ci_pattern", "created")], [("lint_fix", "permanently_rejected_by_human")], [])]) /\
  forall a, snd (session_run after_no no_proposals) = Ok a ->
    Forall (fun x => norm (cre_dedup_key x) <> norm ("  " +:+ upper lint_key)) (ra_created a).
Proof.
  split; [vm_compute; reflexivity|].
  refine (proj1 (rejected_key_is_never_proposed (Ok tt) FileMissing ("  " +:+ upper lint_key) "cancelled" "T-1" ""
    proposer_now (fst human_no) later_no (se_settings after_no) (se_limits after_no) (se_guards after_no)
    (se_env after_no) (se_context after_no) no_proposals (fst (session_run after_no no_proposals))
    (snd (session_run after_no no_proposals)) _ _ _));
    [vm_compute; reflexivity | reflexivity | unfold session_run; apply surjective_pairing].
Defined.

Lemma propose_enabled_is_ignored_witness :
  let s enabled := sample_session sample_proposal_board FileMissing enabled sample_candidates "prop_1" proposer_now false in
  propose_disabled_repos (se_settings (s false)) = ["OperationsCenter"] /\
  session_run (s false) no_proposals = session_run (s true) no_proposals.
Proof.
  intros s. split; [vm_compute; reflexivity|].
  apply (propose_enabled_is_ignored (se_settings (s false)) (se_settings (s true))).
  - split; [reflexivity | by split].
  - simpl. by intros [? | ?%not_elem_of_nil]%elem_of_cons.
Defined.
