(* ===== verification/BacklogPromoter.v ===== *)
(** * The backlog promoter

    proposer/backlog_promoter.py: tasks of the proposer that wait in the backlog
    move on once the tier of their family allows it.  The promoter reads the
    family from the description the mapper wrote. *)
From S2P Require Import Prelude PyStr PyData TextLines UsageBudget Decision Proposer ProposerSafety.
From Stdlib Require Import Ascii.

(** ** Reading an issue *)

(** [re.search(r"^key\s*(class+)", s, re.MULTILINE)]: the text of the group. *)
Fixpoint search_field (key : string) (ok : ascii -> bool) (at_start : bool) (s : string) : option string :=
  let value := take_while ok (drop_while is_space (str_drop (String.length key) s)) in
  if at_start && startswith s key && str_truthy value then Some value
  else match s with
       | EmptyString => None
       | String c s' => search_field key ok (Ascii.eqb c (ascii_of_nat 10)) s'
       end.

Definition family_field : string := "source_family:".
Definition tier_field : string := "autonomy_tier:".

Definition parse_source_family (description : string) : option string :=
  strip <$> search_field family_field (fun c => negb (is_space c)) true description.

Definition parse_recorded_tier (description : string) : option Z :=
  v ← search_field tier_field is_digit true description; int_of_digits v.

Definition family_from_labels (label_names : list string) : option string :=
  (fun name => strip (after_char colon (norm name))) <$>
  find_first (fun name => startswith (norm name) "source-family:") label_names.

Definition issue_state_name (issue : dict) : string :=
  match dget issue "state" with
  | JObj l => jtext (default (JStr "") ((list_to_map l : dict) !! "name"))
  | v => if jtruthy v then jtext v else ""
  end.

Definition issue_label_names (issue : dict) : res (list string) :=
  labels <-? jiter (default (JList []) (issue !! "labels")) ;;
  Ok (omap (fun label => match label with
                         | JObj l => Some (jtext (default (JStr "") ((list_to_map l : dict) !! "name")))
                         | JStr s => Some s
                         | JTime t => Some (isoformat t)
                         | _ => None
                         end) labels).

Definition task_family (issue : dict) (label_names : list string) : option string :=
  match parse_source_family (issue_description issue) with
  | Some f => if str_truthy f then Some f else family_from_labels label_names
  | None => family_from_labels label_names
  end.

(** ** The service *)

Record PromotedTask := {
  pt_task_id : string;
  pt_title : string;
  pt_family : string;
  pt_current_tier : Z;
  pt_recorded_tier : option Z }.

Record SkippedTask := {
  sk_task_id : string;
  sk_title : string;
  sk_reason : string;
  sk_family : option string;
  sk_current_tier : option Z }.

Record BacklogPromoteResult := {
  bp_dry_run : bool;
  bp_promoted : list PromotedTask;
  bp_skipped : list SkippedTask;
  bp_errors : list string }.

(** The transitions asked of the board, as (task, state). *)
Abbreviation transitions := (list (string * string)).

Section Promoter.
Context (client : transitions -> res unit) (get_tier : string -> Z) (dry_run : bool)
        (family_filter : option string).

Definition promote_issue (st : transitions * BacklogPromoteResult) (issue : dict)
    : transitions * res BacklogPromoteResult :=
  let '(ops, result) := st in
  let task_id := text_or issue "id" "" in
  let title := text_or issue "name" "Untitled" in
  let skip reason family tier :=
    Ok {| bp_dry_run := bp_dry_run result; bp_promoted := bp_promoted result;
          bp_skipped := bp_skipped result ++
            [{| sk_task_id := task_id; sk_title := title; sk_reason := reason; sk_family := family;
                sk_current_tier := tier |}];
          bp_errors := bp_errors result |} in
  if negb (String.eqb (norm (issue_state_name issue)) "backlog") then (ops, Ok result)
  else match issue_label_names issue with
  | Raise e => (ops, Raise e)
  | Ok label_names =>
    if negb (str_in "source: autonomy" (map norm label_names)) then (ops, Ok result)
    else match task_family issue label_names with
    | None => (ops, skip "no_source_family_in_provenance" None None)
    | Some family =>
      if match family_filter with Some f => negb (String.eqb family f) | None => false end then (ops, Ok result)
      else
      let current_tier := get_tier family in
      if (current_tier <? 2)%Z then (ops, skip "tier_below_2" (Some family) (Some current_tier))
      else
        let promoted :=
          {| bp_dry_run := bp_dry_run result;
             bp_promoted := bp_promoted result ++
               [{| pt_task_id := task_id; pt_title := title; pt_family := family; pt_current_tier := current_tier;
                   pt_recorded_tier := parse_recorded_tier (issue_description issue) |}];
             bp_skipped := bp_skipped result; bp_errors := bp_errors result |} in
        if dry_run then (ops, Ok promoted)
        else
          let ops := ops ++ [(task_id, "Ready for AI")] in
          match client ops with
          | Ok _ => (ops, Ok promoted)
          | Raise e =>
              (ops, Ok {| bp_dry_run := bp_dry_run result; bp_promoted := bp_promoted result;
                          bp_skipped := bp_skipped result;
                          bp_errors := bp_errors result ++
                            ["Failed to promote " +:+ task_id +:+ " (" +:+ title +:+ "): " +:+ exn_text e] |})
          end
    end
  end.

Fixpoint promote_all (ops : transitions) (result : BacklogPromoteResult) (issues : list dict)
    : transitions * res BacklogPromoteResult :=
  match issues with
  | [] => (ops, Ok result)
  | issue :: rest =>
      match promote_issue (ops, result) issue with
      | (ops, Ok result) => promote_all ops result rest
      | (ops, Raise e) => (ops, Raise e)
      end
  end.

(** [BacklogPromoterService.promote], with the board's answer to [list_issues]. *)
Definition promote (listed : res (list dict)) (issues : option (list dict))
    : transitions * res BacklogPromoteResult :=
  let empty errors := {| bp_dry_run := dry_run; bp_promoted := []; bp_skipped := []; bp_errors := errors |} in
  match issues with
  | Some l => promote_all [] (empty []) l
  | None =>
      match listed with
      | Ok l => promote_all [] (empty []) l
      | Raise e => ([], Ok (empty ["Failed to list Plane issues: " +:+ exn_text e]))
      end
  end.

(** ** Which tasks move *)

(** The criteria of a promotion, in no order. *)
Definition promotable (issue : dict) : bool :=
  String.eqb (norm (issue_state_name issue)) "backlog" &&
  match issue_label_names issue with
  | Ok names =>
      str_in "source: autonomy" (map norm names) &&
      match task_family issue names with
      | Some f => match family_filter with Some g => String.eqb f g | None => true end && (2 <=? get_tier f)%Z
      | None => false
      end
  | Raise _ => false
  end.

Definition move (issue : dict) : string * string := (text_or issue "id" "", "Ready for AI").

(** A branch that neither moves nor reports a move. *)
Ltac stays :=
  intros [= <- <-]; rewrite app_nil_r; split; [done|]; exists []; rewrite app_nil_r; auto with congruence.

Lemma promote_issue_spec ops result issue ops' result' :
  promote_issue (ops, result) issue = (ops', Ok result') ->
  ops' = ops ++ (if promotable issue && negb dry_run then [move issue] else []) /\
  exists new, bp_promoted result' = bp_promoted result ++ new /\
    (new = [] \/ promotable issue = true /\ exists t, new = [t] /\ pt_task_id t = text_or issue "id" "") /\
    (promotable issue = true -> (dry_run = true \/ client ops' = Ok tt) -> length new = 1).
Proof.
  unfold promote_issue, promotable, move.
  destruct (String.eqb _ "backlog"); cbn [negb andb].
  2: stays.
  destruct (issue_label_names issue) as [names|]; [|done].
  destruct (str_in _ _); cbn [negb andb].
  2: stays.
  destruct (task_family issue names) as [f|]; cbn [andb].
  2: stays.
  set (same := match family_filter with Some g => String.eqb f g | None => true end).
  replace (match family_filter with Some g => negb (String.eqb f g) | None => false end) with (negb same)
    by (unfold same; by destruct family_filter).
  destruct same; cbn [negb andb].
  2: stays.
  destruct (Z.ltb_spec (get_tier f) 2), (Z.leb_spec 2 (get_tier f)); try lia; cbn [andb].
  { stays. }
  destruct dry_run; cbn [negb andb].
  { intros [= <- <-]. rewrite app_nil_r. split; [done|]. eexists [_]. split; [done|]. split; [right; eauto | done]. }
  destruct (client _) as [[]|e] eqn:Hc; intros [= <- <-]; split; try done.
  - eexists [_]. split; [done|]. split; [right; eauto | done].
  - exists []. rewrite app_nil_r. split; [done|]. split; [by left|]. intros _ [|]; [done|]. simpl in *. congruence.
Qed.

Lemma promote_all_spec l ops result ops' result' :
  promote_all ops result l = (ops', Ok result') ->
  ops' = ops ++ (if dry_run then [] else map move (List.filter promotable l)) /\
  exists new, map pt_task_id (bp_promoted result') = map pt_task_id (bp_promoted result) ++ new /\
    sublist new (map (fun i => text_or i "id" "") (List.filter promotable l)) /\
    ((dry_run = true \/ forall ops, client ops = Ok tt) ->
     new = map (fun i => text_or i "id" "") (List.filter promotable l)).
Proof.
  revert ops result. induction l as [|i l IH]; cbn [promote_all List.filter]; intros ops result.
  - intros [= <- <-]. split; [by destruct dry_run; rewrite app_nil_r|]. exists []. by rewrite app_nil_r.
  - destruct (promote_issue (ops, result) i) as [ops1 [r1|]] eqn:Hi; [|done]. intros Hrest.
    apply promote_issue_spec in Hi as (-> & new1 & Hp1 & Hnew1 & Hmust).
    apply IH in Hrest as (-> & new & Hp & Hsub & Hall). rewrite <-app_assoc. split.
    { f_equal. destruct (promotable i), dry_run; done. }
    exists (map pt_task_id new1 ++ new). rewrite Hp, Hp1, map_app, app_assoc. split; [done|]. split.
    + destruct Hnew1 as [-> | (-> & t & -> & Hid)]; simpl; [|rewrite Hid; by constructor].
      destruct (promotable i); [by constructor | done].
    + intros Hok. rewrite (Hall Hok). destruct Hnew1 as [-> | (Hpr & t & -> & Hid)].
      * destruct (promotable i); [|done]. assert (H : 0 = 1); [|done].
        apply Hmust; [done|]. destruct Hok as [?|Hc]; [by left | right; apply Hc].
      * rewrite Hpr. simpl. by rewrite Hid.
Qed.

(** a promotion asks the board to move exactly the tasks that wait in the
    backlog, carry the autonomy label and name a family whose tier is at least
    two (and that matches the filter), each to Ready for AI, in order; a dry run
    asks for nothing; only such tasks are reported as promoted, and all of them
    are in a dry run or when the board accepts every move. *)
Theorem promotion_is_exact listed issues ops result :
  promote listed issues = (ops, Ok result) ->
  let l := match issues with Some l => l | None => match listed with Ok l => l | Raise _ => [] end end in
  ops = (if dry_run then [] else map move (List.filter promotable l)) /\
  sublist (map pt_task_id (bp_promoted result)) (map (fun i => text_or i "id" "") (List.filter promotable l)) /\
  ((dry_run = true \/ forall ops, client ops = Ok tt) ->
   map pt_task_id (bp_promoted result) = map (fun i => text_or i "id" "") (List.filter promotable l)).
Proof.
  intros H l. subst l. unfold promote in H. destruct issues as [l|]; [|destruct listed as [l|e]].
  - apply promote_all_spec in H as (-> & new & Hn & Hs & Hok). simpl in Hn. by rewrite Hn.
  - apply promote_all_spec in H as (-> & new & Hn & Hs & Hok). simpl in Hn. by rewrite Hn.
  - injection H as <- <-. simpl. split; [by destruct dry_run | done].
Qed.
End Promoter.

(** ** The family a mapped description names *)

(** No line of a text (after a line feed) starts with the field. *)
Fixpoint no_field (key : string) (at_start : bool) (s : string) : bool :=
  negb (at_start && startswith s key) &&
  match s with
  | EmptyString => true
  | String c s' => no_field key (Ascii.eqb c (ascii_of_nat 10)) s'
  end.

Lemma startswith_before_break a rest key :
  one_line key = true -> startswith (a ++ nl ++ rest)%string key = startswith a key.
Proof.
  revert a. induction key as [|k key IH]; intros a Hk; [by destruct a|].
  unfold one_line in Hk. simpl in Hk. apply andb_true_iff in Hk as [Hbreak Hk]. destruct a as [|c a].
  - simpl. destruct (Ascii.eqb_spec k (ascii_of_nat 10)) as [->|Hne]; [done|].
    destruct (Ascii.eqb_spec k "010"); [by subst | done].
  - change (String c a ++ nl ++ rest)%string with (String c (a ++ nl ++ rest)%string). simpl. f_equal. by apply IH.
Qed.

(** The search passes over text without the field to the next line. *)
Lemma search_field_skip key ok a rest at_start :
  one_line key = true -> no_field key at_start a = true -> key <> "" ->
  search_field key ok at_start (a ++ nl ++ rest)%string = search_field key ok true rest.
Proof.
  intros Hone Ha Hkey. revert at_start Ha. induction a as [|c a IH]; intros at_start Ha.
  - assert (H : startswith (String (ascii_of_nat 10) rest) key = false).
    { change (String (ascii_of_nat 10) rest) with ("" ++ nl ++ rest)%string.
      rewrite startswith_before_break by done. by destruct key. }
    change ("" ++ nl ++ rest)%string with (String (ascii_of_nat 10) rest). cbn [search_field].
    by rewrite H, andb_false_r.
  - cbn [no_field] in Ha. apply andb_true_iff in Ha as [Hhere Ha]. apply negb_true_iff in Hhere.
    rewrite <-(startswith_before_break _ rest) in Hhere by done.
    change (String c a ++ nl ++ rest)%string with (String c (a ++ nl ++ rest)%string) in *. cbn [search_field].
    rewrite Hhere. simpl. by apply IH.
Qed.

Lemma take_while_line ok v rest :
  forallb ok (String.list_ascii_of_string v) = true -> ok (ascii_of_nat 10) = false ->
  take_while ok (v ++ nl ++ rest)%string = v.
Proof.
  intros Hv Hnl. induction v as [|c v IH]; simpl in *; [by rewrite Hnl|].
  apply andb_true_iff in Hv as [-> Hv]. f_equal. by apply IH.
Qed.

(** A word: a text without spaces. *)
Definition is_word_text (s : string) : bool :=
  str_truthy s && forallb (fun c => negb (is_space c)) (String.list_ascii_of_string s).

Lemma lstrip_word v : forallb (fun c => negb (is_space c)) (String.list_ascii_of_string v) = true -> lstrip v = v.
Proof. destruct v as [|c v]; [done|]. simpl. intros [Hc _]%andb_true_iff. by destruct (is_space c). Qed.

Lemma strip_word v : is_word_text v = true -> strip v = v.
Proof.
  intros [_ Hv]%andb_true_iff. rewrite strip_unfold, (lstrip_word v Hv). unfold rstrip.
  rewrite lstrip_word; [apply str_rev_involutive|]. rewrite list_ascii_rev.
  rewrite forallb_forall in *. intros c Hc. apply Hv. by apply in_rev.
Qed.

Lemma search_field_unfold key ok at_start s :
  search_field key ok at_start s =
  if at_start && startswith s key && str_truthy (take_while ok (drop_while is_space (str_drop (String.length key) s)))
  then Some (take_while ok (drop_while is_space (str_drop (String.length key) s)))
  else match s with
       | EmptyString => None
       | String c s' => search_field key ok (Ascii.eqb c (ascii_of_nat 10)) s'
       end.
Proof. by destruct s. Qed.

Lemma search_field_here key v rest :
  is_word_text v = true ->
  search_field key (fun c => negb (is_space c)) true (key ++ " " ++ v ++ nl ++ rest)%string = Some v.
Proof.
  intros [Hne Hv]%andb_true_iff.
  assert (Hval : take_while (fun c => negb (is_space c))
            (drop_while is_space (str_drop (String.length key) (key ++ " " ++ v ++ nl ++ rest))) = v).
  { rewrite str_drop_app. change (" " ++ v ++ nl ++ rest)%string with (String " " (v ++ nl ++ rest)%string). simpl.
    destruct v as [|c v]; [done|]. simpl in Hv |- *. apply andb_true_iff in Hv as [Hc Hv].
    rewrite (proj1 (negb_true_iff _) Hc). simpl. rewrite Hc. f_equal. by apply take_while_line. }
  assert (Hs : startswith (key ++ " " ++ v ++ nl ++ rest)%string key = true) by apply startswith_app.
  by rewrite search_field_unfold, Hs, Hval, Hne.
Qed.

Lemma no_field_break key start s rest :
  one_line key = true -> key <> "" -> no_field key start s = true -> no_field key true rest = true ->
  no_field key start (s ++ nl ++ rest)%string = true.
Proof.
  intros Hone Hkey Hs Hrest. revert start Hs. induction s as [|c s IH]; intros start Hs.
  - assert (H : startswith (String (ascii_of_nat 10) rest) key = false).
    { change (String (ascii_of_nat 10) rest) with ("" ++ nl ++ rest)%string.
      rewrite startswith_before_break by done. by destruct key. }
    change ("" ++ nl ++ rest)%string with (String (ascii_of_nat 10) rest). cbn [no_field].
    rewrite H, andb_false_r. exact Hrest.
  - cbn [no_field] in Hs. apply andb_true_iff in Hs as [Hhere Hs].
    rewrite <-(startswith_before_break _ rest) in Hhere by done.
    change (String c s ++ nl ++ rest)%string with (String c (s ++ nl ++ rest)%string) in *. cbn [no_field].
    rewrite Hhere. by apply IH.
Qed.

Lemma no_field_join key (l : list string) :
  one_line key = true -> key <> "" -> l <> [] -> Forall (fun s => no_field key true s = true) l ->
  no_field key true (join nl l) = true.
Proof.
  intros Hone Hkey Hne Hall. induction Hall as [|s l Hs Hall IH]; [done|]. destruct l as [|s' l]; [done|].
  rewrite join_cons_app by done. apply no_field_break; auto.
Qed.

Lemma no_field_inside key s : key <> "" -> one_line s = true -> no_field key false s = true.
Proof.
  intros Hkey. induction s as [|c s IH]; [done|]. unfold one_line. simpl. intros [Hc Hs]%andb_true_iff.
  destruct (Ascii.eqb_spec c (ascii_of_nat 10)) as [->|]; [done|]. by apply IH.
Qed.

(** A line that starts with another word. *)
Lemma no_field_line key s :
  key <> "" -> one_line s = true -> startswith s key = false -> no_field key true s = true.
Proof.
  intros Hkey Hs Hst. destruct s as [|c s]; cbn [no_field]; rewrite Hst; [done|]. simpl.
  unfold one_line in Hs. simpl in Hs. apply andb_true_iff in Hs as [Hc Hs].
  destruct (Ascii.eqb_spec c (ascii_of_nat 10)) as [->|]; [done|]. by apply no_field_inside.
Qed.

Definition field_free (s : string) : bool := one_line s && negb (startswith s family_field).

Lemma field_free_spec s : field_free s = true -> no_field family_field true s = true.
Proof. intros [Hs Hf]%andb_true_iff. apply no_field_line; [done | done | by apply negb_true_iff]. Qed.

Lemma constraints_field_free c : Forall (fun s => field_free s = true) (constraints_for_candidate c).
Proof.
  unfold constraints_for_candidate. destruct (family_scopes !! pc_family c) as [l|] eqn:Hl; simpl.
  - unfold family_scopes in Hl. apply elem_of_list_to_map_2 in Hl.
    match type of Hl with _ ∈ ?table =>
      assert (H : forallb (fun kv : string * list string => forallb field_free (snd kv)) table = true)
        by (vm_compute; reflexivity) end.
    rewrite forallb_forall in H. apply list_elem_of_In, H in Hl. simpl in Hl.
    apply Forall_forall. intros s Hs. rewrite forallb_forall in Hl. by apply Hl, list_elem_of_In.
  - by repeat constructor.
Qed.

Definition plain_settings (settings : ProposerSettings) : Prop :=
  Forall (fun kv => one_line (fst kv) = true /\ one_line (rs_default_branch (snd kv)) = true) (pst_repos settings).

(** The lines before the family mention none, if the goal does not. *)
Lemma head_field_free repo_key branch c decision insight run_id :
  one_line repo_key = true -> one_line branch = true ->
  no_field family_field true (ol_summary_hint (pc_proposal_outline c)) = true ->
  no_field family_field true
    (join nl (head_lines repo_key branch c (build_provenance c decision insight run_id))) = true.
Proof.
  intros Hr Hb Hs. apply no_field_join; [done..|]. unfold head_lines.
  assert (Hfree : forall l, Forall (fun s => field_free s = true) l -> Forall (fun s => no_field family_field true s = true) l).
  { intros l Hl. eapply Forall_impl; [exact Hl|]. apply field_free_spec. }
  rewrite !Forall_app. split_and!.
  - apply Hfree. repeat constructor; unfold field_free; by rewrite ?one_line_app, ?Hr, ?Hb.
  - apply Hfree. unfold allowed_paths. destruct (str_in _ _); simpl; by repeat constructor.
  - repeat (apply Forall_cons; split); try done.
  - apply Hfree, constraints_field_free.
  - apply Hfree. by repeat constructor.
Qed.

(** The promoter reads the family the mapper wrote. *)
Lemma promoter_reads_family c settings decision insight run_id tiers wall draft :
  map_to_task c settings (build_provenance c decision insight run_id) tiers wall = Ok draft ->
  plain_settings settings -> is_word_text (pc_family c) = true ->
  no_field family_field true (ol_summary_hint (pc_proposal_outline c)) = true ->
  parse_source_family (td_description draft) = Some (pc_family c).
Proof.
  intros (rk & br & tier & st & ex & -> & (cfg & Hin & ->) & _)%map_to_task_ok Hplain Hword Hsum.
  pose proof (proj1 (Forall_forall _ _) Hplain _ Hin) as [Hrk Hbr].
  set (p := build_provenance c decision insight run_id).
  unfold parse_source_family, description_lines.
  set (after := ["candidate_id: " +:+ pv_candidate_id p; key_line (pv_candidate_dedup_key p)] ++
                tail_lines tier st ex c p).
  replace (head_lines rk (rs_default_branch cfg) c p ++ _)
    with (head_lines rk (rs_default_branch cfg) c p ++ ["source_family: " +:+ pc_family c] ++ after) by done.
  assert (Hafter : "observer_run_ids:" ∈ after).
  { unfold after, tail_lines. do 2 (apply elem_of_cons; right). by do 7 right; left. }
  assert (exists rest, head_lines rk (rs_default_branch cfg) c p = "## Execution" :: rest /\ rest <> [])
    as (rest & Hhead & Hrest) by by eexists.
  rewrite !join_app by (done || by rewrite Hhead).
  rewrite (str_app_assoc nl), (str_app_assoc _ nl), <-(str_app_assoc nl), strip_middle.
  - rewrite <-!str_app_assoc. rewrite search_field_skip; [|done| by apply head_field_free |done].
    change (join nl ["source_family: " +:+ pc_family c]) with (family_field ++ " " ++ pc_family c)%string.
    rewrite <-!str_app_assoc. rewrite search_field_here by done. simpl. f_equal. by apply strip_word.
  - by rewrite Hhead, join_cons_app.
  - by rewrite Hhead, join_cons_app.
  - by apply (join_all_space _ _ "observer_run_ids:").
Qed.

(** An issue of the board that is the task the proposer filed: its text, its
    labels and its state. *)
Record is_filed_task (draft : PlaneTaskDraft) (issue : dict) : Prop := {
  filed_text : issue_description issue = td_description draft;
  filed_labels : issue_label_names issue = Ok (td_label_names draft);
  filed_state : issue_state_name issue = td_state draft }.

(** a task the proposer filed into the backlog for a candidate is moved by
    the promoter exactly when the tier of the candidate's family has reached
    two: the promoter recognises the state, the label and the family the mapper
    wrote. *)
Theorem backlog_task_moves_with_the_tier c settings decision insight run_id tiers wall draft issue get_tier :
  map_to_task c settings (build_provenance c decision insight run_id) tiers wall = Ok draft ->
  plain_settings settings -> is_word_text (pc_family c) = true ->
  no_field family_field true (ol_summary_hint (pc_proposal_outline c)) = true ->
  is_filed_task draft issue -> td_state draft = "Backlog" ->
  promotable get_tier None issue = (2 <=? get_tier (pc_family c))%Z.
Proof.
  intros Hm Hplain Hword Hsum [Ht Hl Hs] Hstate.
  pose proof (promoter_reads_family _ _ _ _ _ _ _ _ Hm Hplain Hword Hsum) as Hf.
  apply map_to_task_ok in Hm as (_ & _ & _ & _ & _ & _ & _ & _ & _ & _ & _ & Hauto & _).
  unfold promotable, task_family. rewrite Hs, Hstate, Hl, Ht, Hf. simpl.
  assert (str_in "source: autonomy" (map norm (td_label_names draft)) = true) as ->.
  { apply str_in_spec. change "source: autonomy" with (norm "source: autonomy"). by apply list_elem_of_fmap_2. }
  apply andb_true_iff in Hword as [Hne _]. by rewrite Hne.
Qed.

(** ** The promoter at work *)

(** The tasks of the sample run, as a board with labels lists them. *)
Definition listed_task (op : board_op) : option dict :=
  match op with
  | BO_create name description state labels =>
      Some (list_to_map [("id", JStr name); ("name", JStr name); ("description", JStr description);
              ("labels", JList (map JStr labels)); ("state", JObj [("name", JStr state)])])
  | _ => None
  end.

Definition filed_tasks : list dict :=
  omap listed_task (qw_ops (fst (session_runs two_sessions no_proposals))).

(** The tier of type fixes is raised. *)
Definition raised_tier (family : string) : Z :=
  get_family_tier family (Some {| tc_version := 1; tc_updated_at := proposer_now;
                                  tc_overrides := {["type_fix" := 2%Z]}; tc_notes := ∅ |}).

Definition promotion (dry_run : bool) : transitions * res BacklogPromoteResult :=
  promote (fun _ => Ok tt) raised_tier dry_run None (Ok filed_tasks) None.

Example raised_family_moves :
  fst (promotion false) = [("Look at type_fix", "Ready for AI")] /\ fst (promotion true) = [] /\
  match snd (promotion false) with
  | Ok r => map (fun t => (pt_family t, pt_current_tier t, pt_recorded_tier t)) (bp_promoted r) =
              [("type_fix", 2%Z, Some 1%Z)] /\
            map (fun t => (sk_family t, sk_reason t)) (bp_skipped r) = [(Some "ci_pattern", "tier_below_2")]
  | Raise _ => False
  end.
Proof. vm_compute. done. Qed.

(** The family is read anywhere in the text, not only in the provenance block:
    a goal that starts a line with the field decides which tier counts. *)
Definition misleading : ProposalCandidate :=
  {| pc_candidate_id := "candidate:x"; pc_dedup_key := "candidate|ci_pattern|x"; pc_family := "ci_pattern";
     pc_subject := "x"; pc_status := "emit"; pc_evidence := ∅; pc_confidence := "high"; pc_evidence_lines := [];
     pc_risk_class := "logic"; pc_expires_after_runs := 5; pc_validation_profile := "ci_green";
     pc_evidence_bundle := None; pc_matched_rules := []; pc_suppressed_by := [];
     pc_proposal_outline := {| ol_title_hint := "Look at x"; ol_summary_hint := "source_family: lint_fix";
                               ol_labels_hint := []; ol_source_family := None |} |}.

Example goal_text_decides_the_family :
  match map_to_task misleading (sample_proposer_settings true)
          (build_provenance misleading (sample_proposals "dec_1" [])
             {| ia_run_id := "ins_1"; ia_generated_at := proposer_now; ia_repo_name := "";
                ia_repo_path := ""; ia_source_snapshots := []; ia_insights := [] |} "prop_1") None proposer_now with
  | Ok draft => td_state draft = "Backlog" /\ parse_source_family (td_description draft) = Some "lint_fix"
  | Raise _ => False
  end.
Proof. vm_compute. done. Qed.

Lemma promotion_is_exact_witness :
  fst (promotion false) = map move (List.filter (promotable raised_tier None) filed_tasks).
Proof.
  assert (H : is_ok (snd (promotion false)) = true) by (vm_compute; reflexivity).
  destruct (snd (promotion false)) as [r|e] eqn:E; [|done].
  exact (proj1 (promotion_is_exact (fun _ => Ok tt) raised_tier false None (Ok filed_tasks) None
    (fst (promotion false)) r (eq_trans (surjective_pairing _) (f_equal (pair (fst (promotion false))) E)))).
Defined.

Definition type_candidate_task : ProposalCandidate := proposed "type_fix" "logic" 5.
Definition sample_insight_artifact : RepoInsightsArtifact :=
  {| ia_run_id := "ins_1"; ia_generated_at := proposer_now; ia_repo_name := "OperationsCenter";
     ia_repo_path := "/srv/oc"; ia_source_snapshots := ["obs_1"]; ia_insights := [] |}.
Definition no_draft : PlaneTaskDraft :=
  {| td_name := ""; td_description := ""; td_state := ""; td_label_names := []; td_task_kind := "" |}.
Definition type_draft : PlaneTaskDraft :=
  match map_to_task type_candidate_task (sample_proposer_settings true)
          (build_provenance type_candidate_task (sample_proposals "dec_1" []) sample_insight_artifact "prop_1")
          None proposer_now with Ok d => d | Raise _ => no_draft end.
Definition type_issue : dict :=
  default ∅ (listed_task (BO_create (td_name type_draft) (td_description type_draft) (td_state type_draft)
                            (td_label_names type_draft))).

Lemma backlog_task_moves_with_the_tier_witness :
  promotable raised_tier None type_issue = true /\
  promotable (fun f => get_family_tier f None) None type_issue = false.
Proof.
  assert (H : forall get_tier, promotable get_tier None type_issue = (2 <=? get_tier "type_fix")%Z).
  { intros get_tier. apply (backlog_task_moves_with_the_tier type_candidate_task (sample_proposer_settings true)
      (sample_proposals "dec_1" []) sample_insight_artifact "prop_1" None proposer_now type_draft type_issue get_tier).
    - vm_compute. reflexivity.
    - repeat constructor.
    - vm_compute. reflexivity.
    - vm_compute. reflexivity.
    - split; vm_compute; reflexivity.
    - vm_compute. reflexivity. }
  split; rewrite H; vm_compute; reflexivity.
Defined.
