(* ===== verification/CiRefinement.v ===== *)
(** * Continuous improvement: evaluation and refinement

    contracts/ci.py, execution/ci_evaluator.py, ci_coordinator.py and
    ci_store.py: a work item is executed, measured and judged, up to a number of
    attempts.  The backend, the commands and the disk answer from all that was
    done so far. *)
From S2P Require Import Prelude PyStr PyData.
From Stdlib Require Import Ascii.

(** ** contracts/enums.py and contracts/ci.py *)

Inductive RefinementStatus :=
  | RS_NOT_STARTED | RS_IN_PROGRESS | RS_ACCEPTED | RS_BUDGET_EXHAUSTED | RS_ABANDONED | RS_ESCALATED.
Inductive RefinementDecision := RD_ACCEPT | RD_RETRY | RD_ABANDON | RD_ESCALATE.
Inductive EvaluationOutcome :=
  | EO_IMPROVED | EO_NEUTRAL | EO_REGRESSED | EO_GUARDRAIL_VIOLATED | EO_INCONCLUSIVE.
Inductive LineageBranchReason :=
  | BR_INITIAL | BR_RETRY_AFTER_FAILURE | BR_STRATEGY_VARIATION | BR_OPERATOR_RESTART.
Inductive EnforcedGuardrail :=
  | EG_NO_LOST_ESCALATIONS | EG_CUSTODIAN_CLEAN | EG_NO_ARCHITECTURE_VIOLATIONS
  | EG_REGRESSION_FIXTURES_PASS | EG_NO_RUNTIME_POLICY_WIDENING.
Inductive EvaluationCommandSource := CS_OC_DERIVED | CS_PROPOSER_SUGGESTED | CS_VALIDATION_PROFILE.

#[export] Instance RefinementStatus_eq_dec : EqDecision RefinementStatus.
Proof. solve_decision. Defined.
#[export] Instance RefinementDecision_eq_dec : EqDecision RefinementDecision.
Proof. solve_decision. Defined.
#[export] Instance EvaluationOutcome_eq_dec : EqDecision EvaluationOutcome.
Proof. solve_decision. Defined.

Definition EvaluationOutcome_value (o : EvaluationOutcome) : string :=
  match o with
  | EO_IMPROVED => "improved" | EO_NEUTRAL => "neutral" | EO_REGRESSED => "regressed"
  | EO_GUARDRAIL_VIOLATED => "guardrail_violated" | EO_INCONCLUSIVE => "inconclusive"
  end.
Definition EnforcedGuardrail_value (g : EnforcedGuardrail) : string :=
  match g with
  | EG_NO_LOST_ESCALATIONS => "no_lost_escalations" | EG_CUSTODIAN_CLEAN => "custodian_clean"
  | EG_NO_ARCHITECTURE_VIOLATIONS => "no_architecture_violations"
  | EG_REGRESSION_FIXTURES_PASS => "regression_fixtures_pass"
  | EG_NO_RUNTIME_POLICY_WIDENING => "no_runtime_policy_widening"
  end.

Record ImprovementStrategy := {
  is_principle : string;
  is_constraints : list string;
  is_variation_hint : option string }.

(** The model validator of [ImprovementStrategy]. *)
Definition make_strategy (principle : string) (constraints : list string) (hint : option string)
    : res ImprovementStrategy :=
  if str_in "fail_closed" constraints
  then Ok {| is_principle := principle; is_constraints := constraints; is_variation_hint := hint |}
  else Raise (ValueError ("ImprovementStrategy.constraints must include 'fail_closed'. " +:+
                          "CI proposals are fail-closed by invariant.")).

Record ScoringMetric := {
  sm_metric : string;
  sm_direction : string;
  sm_baseline_value : option Q;
  sm_target_delta : option Q }.

Record EvaluationSpec := {
  es_primary_scoring : ScoringMetric;
  es_secondary_scoring : list ScoringMetric;
  es_guardrails : list EnforcedGuardrail;
  es_evaluation_command_hint : option string;
  es_evaluation_command : option string }.

Record RefinementPolicy := {
  rp_max_attempts : Z;
  rp_vary_strategy_on_retry : bool;
  rp_failure_penalty : Z;
  rp_accept_on_neutral : bool }.

Record ContinuousImprovementSpec := {
  ci_strategy : ImprovementStrategy;
  ci_evaluation : EvaluationSpec;
  ci_refinement : RefinementPolicy }.

Record EvaluationScore := {
  sc_primary_metric_value : option Q;
  sc_primary_metric_delta : option Q;
  sc_secondary_metrics : list (string * Q);
  sc_guardrails_passed : list EnforcedGuardrail;
  sc_guardrails_failed : list EnforcedGuardrail;
  sc_outcome : EvaluationOutcome;
  sc_evidence_paths : list string;
  sc_evaluation_command_used : string }.

Record LineageAttempt := {
  la_attempt_number : Z;
  la_run_id : string;
  la_branch_reason : LineageBranchReason;
  la_strategy_used : ImprovementStrategy;
  la_started_at : datetime;
  la_completed_at : datetime;
  la_score : EvaluationScore;
  la_decision : RefinementDecision;
  la_decision_reason : string }.

Record ImprovementLineage := {
  li_lineage_id : string;
  li_parent_lineage_id : option string;
  li_status : RefinementStatus;
  li_current_attempt_number : Z;
  li_accepted_attempt_number : option Z;
  li_attempts : list LineageAttempt }.

Record OcLineageIndexEntry := {
  ie_lineage_id : string;
  ie_proposal_id : string;
  ie_lineage_artifact_path : string;
  ie_status : RefinementStatus;
  ie_current_attempt_number : Z;
  ie_accepted_attempt_number : option Z;
  ie_last_updated_at : datetime;
  ie_warehouse_archive_id : option string }.

Record OcContinuousImprovementState := {
  st_proposal_id : string;
  st_lineage_index : OcLineageIndexEntry;
  st_spec_snapshot : ContinuousImprovementSpec;
  st_resolved_evaluation_command : option string;
  st_resolved_evaluation_command_source : option EvaluationCommandSource;
  st_last_updated_at : datetime;
  st_operator_override : option string }.

(** ** The state and the surroundings *)

(** What a run does outside: executing an attempt, running a command, writing
    the lineage artifact and the store file. *)
Inductive ci_call :=
  | CC_execute (attempt_number : Z) (strategy : ImprovementStrategy)
  | CC_command (cmd : list string)
  | CC_save_lineage (path : string)
  | CC_save_store.

(** A finished process: its code, its output, and what [json.loads] makes of the
    output. *)
Record proc := {
  pr_returncode : Z;
  pr_stdout : string;
  pr_json : option jval }.

Record ci_env := {
  cv_execute : list ci_call -> res (string * list string * bool);
  cv_command : list ci_call -> res proc;
  cv_output : list ci_call -> option (res jval);      (* the evaluation output file *)
  cv_custodian : option string;                       (* [shutil.which("custodian-audit")] *)
  cv_disk : list ci_call -> res unit;
  cv_torn : list ci_call -> bool;                     (* a failed write has emptied the file *)
  cv_now : list ci_call -> datetime }.

(** The store file's content; its entries are validated when they are read. *)
Record ci_data := {
  cd_lineage_index : list (string * res OcLineageIndexEntry);
  cd_ci_state : list (string * res OcContinuousImprovementState) }.

Record ci_world := {
  cw_calls : list ci_call;
  cw_lineages : gmap string (res ImprovementLineage);
  cw_store : option (res ci_data) }.

Abbreviation CM := (SE ci_world).

Definition add_call (w : ci_world) (c : ci_call) : ci_world :=
  {| cw_calls := cw_calls w ++ [c]; cw_lineages := cw_lineages w; cw_store := cw_store w |}.

(** Do [c] and take the answer from all that was done. *)
Definition call {A} (answer : list ci_call -> res A) (c : ci_call) : CM A := fun w =>
  let w := add_call w c in (w, answer (cw_calls w)).

(** ** ci_evaluator.py *)

Definition POLICY_FILE_PATTERNS : list string :=
  [".custodian"; "custodian"; "forbidden_paths"; "policy"; "allowed_paths"; ".console/workers.yaml"].

Record EvaluationContext := {
  ec_repo_path : string;
  ec_attempt_number : Z;
  ec_evaluation_command : string;
  ec_validation_commands : list string;
  ec_changed_file_paths : list string;
  ec_eval_output_path : option string }.

(** A decimal numeral without a sign. *)
Definition decimal (s : string) : option Q :=
  if forallb (fun c => is_digit c || Ascii.eqb c ".") (String.list_ascii_of_string s)
  then float_of_digits s else None.

(** [float(v)]: a JSON number, or the decimal text of one (exponents, infinities
    and NaN are not modelled). *)
Definition float_of (v : jval) : res Q :=
  match v with
  | JStr s =>
      let parsed := match strip s with
                    | String "-"%char r => Qopp <$> decimal r
                    | String "+"%char r => decimal r
                    | r => decimal r
                    end in
      match parsed with Some q => Ok q | None => Raise (ValueError "could not convert string to float") end
  | v => jfloat v
  end.

(** [k in output] and [output[k]]. *)
Definition out_has (output : jval) (k : string) : res bool :=
  match output with
  | JObj l => Ok (str_in k (map fst l))
  | JList l => Ok (existsb (fun v => jeq_str v k) l)
  | JStr s => Ok (contains s k)
  | JTime t => Ok (contains (isoformat t) k)
  | _ => Raise (TypeError "argument of this type is not iterable")
  end.
Definition out_item (output : jval) (k : string) : res jval :=
  match output with
  | JObj l => match od_get k l with Some v => Ok v | None => Raise (KeyError k) end
  | _ => Raise (TypeError "indices must be integers or slices, not str")
  end.
(** [output.get(k)]. *)
Definition out_get (output : jval) (k : string) : res jval :=
  match output with
  | JObj l => Ok (default JNull (od_get k l))
  | _ => Raise (OtherError "object has no attribute 'get'")
  end.

(** What [except (TypeError, ValueError)] catches. *)
Definition type_or_value_error (e : exn) : bool :=
  match e with TypeError _ | ValueError _ => true | _ => false end.

(** The value of a metric, if the output has a readable one. *)
Definition metric_value (output : jval) (metric : string) : res (option Q) :=
  present <-? out_has output metric ;;
  if present : bool then
    match v <-? out_item output metric ;; float_of v with
    | Ok q => Ok (Some q)
    | Raise e => if type_or_value_error e then Ok None else Raise e
    end
  else Ok None.

Fixpoint secondary_values (output : jval) (metrics : list ScoringMetric) (acc : list (string * Q))
    : res (list (string * Q)) :=
  match metrics with
  | [] => Ok acc
  | sm :: rest =>
      v <-? metric_value output (sm_metric sm) ;;
      secondary_values output rest (match v with Some q => od_set (sm_metric sm) q acc | None => acc end)
  end.

Definition parse_eval_output (spec : EvaluationSpec) (output : jval)
    : res (option Q * option Q * list (string * Q)) :=
  value <-? metric_value output (sm_metric (es_primary_scoring spec)) ;;
  let delta := v ← value; b ← sm_baseline_value (es_primary_scoring spec); Some (v - b)%Q in
  secondary <-? secondary_values output (es_secondary_scoring spec) [] ;;
  Ok (value, delta, secondary).

Definition determine_outcome (spec : EvaluationSpec) (primary_delta : option Q)
    (guardrails_failed : list EnforcedGuardrail) : EvaluationOutcome :=
  if list_truthy guardrails_failed then EO_GUARDRAIL_VIOLATED
  else match primary_delta with
  | None => EO_INCONCLUSIVE
  | Some d =>
      let target := sm_target_delta (es_primary_scoring spec) in
      let '(improved, meets_target) :=
        if String.eqb (sm_direction (es_primary_scoring spec)) "lower_is_better"
        then (Qlt_b d 0, match target with None => true | Some t => Qle_b d t end)
        else (Qlt_b 0 d, match target with None => true | Some t => Qle_b t d end) in
      if improved && meets_target then EO_IMPROVED
      else if Qeq_bool d 0 || (negb improved && negb (list_truthy guardrails_failed)) then EO_NEUTRAL
      else EO_REGRESSED
  end.

Section Evaluator.
Context (env : ci_env).

Definition run_evaluation_command (ctx : EvaluationContext) : CM jval :=
  if String.eqb (strip (ec_evaluation_command ctx)) "" then se_ret (JObj [])
  else
    let cmd := replace "{n}" (str_of_Z (ec_attempt_number ctx)) (ec_evaluation_command ctx) in
    p <<- call (cv_command env) (CC_command [cmd]) ;;
    fun w =>
      let stdout_result :=
        match (if str_truthy (strip (pr_stdout p)) then pr_json p else None) with
        | Some v => v
        | None => JObj [("exit_code", JInt (pr_returncode p)); ("stdout", JStr (str_take 2000 (pr_stdout p)))]
        end in
      (w, Ok match ec_eval_output_path ctx, cv_output env (cw_calls w) with
             | Some _, Some (Ok v) => v
             | _, _ => stdout_result
             end).

Fixpoint check_regression_fixtures (cmds : list string) : CM bool :=
  match cmds with
  | [] => se_ret true
  | cmd :: rest =>
      p <<- call (cv_command env) (CC_command [cmd]) ;;
      if negb (pr_returncode p =? 0)%Z then se_ret false else check_regression_fixtures rest
  end.

(** The verdict of an audit: no findings, or code zero when the output is not
    an envelope with a readable count. *)
Definition audit_clean (p : proc) : bool :=
  match
    envelope <-? match pr_json p with Some v => Ok v | None => Raise (ValueError "not JSON") end ;;
    _ <-? out_get envelope "total_findings" ;;
    jint (match envelope with JObj l => default (JInt 1) (od_get "total_findings" l) | _ => JNull end)
  with
  | Ok n => (n =? 0)%Z
  | Raise _ => (pr_returncode p =? 0)%Z
  end.

Definition check_custodian (ctx : EvaluationContext) (more : list string) : CM bool :=
  match cv_custodian env with
  | None => se_ret false
  | Some bin =>
      p <<- call (cv_command env) (CC_command ([bin; "--repo"; ec_repo_path ctx; "--json"] ++ more)) ;;
      se_ret (audit_clean p)
  end.

Definition check_no_policy_widening (ctx : EvaluationContext) : bool :=
  forallb (fun path => negb (existsb (contains (lower path)) POLICY_FILE_PATTERNS)) (ec_changed_file_paths ctx).

Definition check_no_lost_escalations (output : jval) : res bool :=
  before <-? out_get output "escalations_before" ;;
  after <-? out_get output "escalations_after" ;;
  match before, after with
  | JNull, _ | _, JNull => Ok true
  | _, _ => a <-? jint after ;; b <-? jint before ;; Ok (b <=? a)%Z
  end.

(** [_check_guardrail]: a check that raises has failed. *)
Definition check_guardrail (g : EnforcedGuardrail) (ctx : EvaluationContext) (output : jval) : CM bool :=
  se_try
    match g with
    | EG_REGRESSION_FIXTURES_PASS => check_regression_fixtures (ec_validation_commands ctx)
    | EG_CUSTODIAN_CLEAN => check_custodian ctx []
    | EG_NO_ARCHITECTURE_VIOLATIONS => check_custodian ctx ["--policy"; "architecture"]
    | EG_NO_RUNTIME_POLICY_WIDENING => se_ret (check_no_policy_widening ctx)
    | EG_NO_LOST_ESCALATIONS => se_lift (check_no_lost_escalations output)
    end
    (fun _ => se_ret false).

Fixpoint check_guardrails (gs : list EnforcedGuardrail) (ctx : EvaluationContext) (output : jval)
    : CM (list EnforcedGuardrail * list EnforcedGuardrail) :=
  match gs with
  | [] => se_ret ([], [])
  | g :: rest =>
      ok <<- check_guardrail g ctx output ;;
      r <<- check_guardrails rest ctx output ;;
      se_ret (if ok : bool then (g :: fst r, snd r) else (fst r, g :: snd r))
  end.

Definition evaluate (spec : EvaluationSpec) (ctx : EvaluationContext) : CM EvaluationScore :=
  output <<- run_evaluation_command ctx ;;
  parsed <<- se_lift (parse_eval_output spec output) ;;
  checked <<- check_guardrails (es_guardrails spec) ctx output ;;
  let '(value, delta, secondary) := parsed in
  se_ret {| sc_primary_metric_value := value; sc_primary_metric_delta := delta;
            sc_secondary_metrics := secondary; sc_guardrails_passed := fst checked;
            sc_guardrails_failed := snd checked;
            sc_outcome := determine_outcome spec delta (snd checked);
            sc_evidence_paths := match ec_eval_output_path ctx with Some p => [p] | None => [] end;
            sc_evaluation_command_used := ec_evaluation_command ctx |}.
End Evaluator.

(** ** ci_store.py *)

Definition empty_ci_data : ci_data := {| cd_lineage_index := []; cd_ci_state := [] |}.

Definition ci_load (f : option (res ci_data)) : ci_data :=
  match f with Some (Ok d) => d | _ => empty_ci_data end.

Definition set_store (w : ci_world) (d : res ci_data) : ci_world :=
  {| cw_calls := cw_calls w; cw_lineages := cw_lineages w; cw_store := Some d |}.
Definition set_lineage (w : ci_world) (path : string) (l : res ImprovementLineage) : ci_world :=
  {| cw_calls := cw_calls w; cw_lineages := <[path := l]> (cw_lineages w); cw_store := cw_store w |}.

Definition get_index_entry (f : option (res ci_data)) (lineage_id : string) : res (option OcLineageIndexEntry) :=
  match od_get lineage_id (cd_lineage_index (ci_load f)) with
  | None => Ok None
  | Some r => e <-? r ;; Ok (Some e)
  end.

Definition get_state (f : option (res ci_data)) (proposal_id : string)
    : res (option OcContinuousImprovementState) :=
  match od_get proposal_id (cd_ci_state (ci_load f)) with
  | None => Ok None
  | Some r => s <-? r ;; Ok (Some s)
  end.

Definition list_index_entries (f : option (res ci_data)) (proposal_id : option string)
    (status : option RefinementStatus) : res (list OcLineageIndexEntry) :=
  entries <-? foldM (fun acc kv => e <-? snd kv ;; Ok (acc ++ [e])) [] (cd_lineage_index (ci_load f)) ;;
  let entries := match proposal_id with
                 | Some p => List.filter (fun e => String.eqb (ie_proposal_id e) p) entries
                 | None => entries
                 end in
  let entries := match status with
                 | Some s => List.filter (fun e => bool_decide (ie_status e = s)) entries
                 | None => entries
                 end in
  Ok (sorted_by (fun a b => (dt_us (ie_last_updated_at b) <=? dt_us (ie_last_updated_at a))%Z) entries).

Definition load_lineage (w : ci_world) (path : string) : option ImprovementLineage :=
  match cw_lineages w !! path with Some (Ok l) => Some l | _ => None end.

Section Store.
Context (env : ci_env).

(** [Path.write_text], which empties the file before it writes: when it fails,
    the old text is still there or there is none that can be read. *)
Definition write_text {A} (c : ci_call) (put : ci_world -> res A -> ci_world) (text : A) : CM unit := fun w =>
  let w := add_call w c in
  match cv_disk env (cw_calls w) with
  | Ok _ => (put w (Ok text), Ok tt)
  | Raise e => (if cv_torn env (cw_calls w) then put w (Raise e) else w, Raise e)
  end.

Definition save_lineage (l : ImprovementLineage) (path : string) : CM unit :=
  write_text (CC_save_lineage path) (fun w => set_lineage w path) l.

Definition upsert_index_entry (e : OcLineageIndexEntry) : CM unit :=
  d <<- se_get (fun w => Ok (ci_load (cw_store w))) ;;
  write_text CC_save_store set_store
    {| cd_lineage_index := od_set (ie_lineage_id e) (Ok e) (cd_lineage_index d); cd_ci_state := cd_ci_state d |}.

Definition upsert_state (s : OcContinuousImprovementState) : CM unit :=
  d <<- se_get (fun w => Ok (ci_load (cw_store w))) ;;
  write_text CC_save_store set_store
    {| cd_lineage_index := cd_lineage_index d; cd_ci_state := od_set (st_proposal_id s) (Ok s) (cd_ci_state d) |}.
End Store.

(** ** ci_coordinator.py *)

Record CiRunContext := {
  cx_proposal_id : string;
  cx_repo_path : string;
  cx_lineage_id : string;
  cx_spec : ContinuousImprovementSpec;
  cx_validation_commands : list string;
  cx_eval_output_dir : option string }.

Record CiRunResult := {
  cr_lineage_id : string;
  cr_final_status : RefinementStatus;
  cr_accepted_attempt_number : option Z;
  cr_total_attempts : Z;
  cr_last_decision : option RefinementDecision;
  cr_last_score : option EvaluationScore }.

Section Decide.
Context (float_str : option Q -> string).

Definition ci_decide (score : EvaluationScore) (policy : RefinementPolicy) (attempts_used : Z)
    : RefinementDecision * string :=
  if list_truthy (sc_guardrails_failed score) then
    (RD_ABANDON, "Hard guardrail(s) violated: " +:+
                 repr_list (map EnforcedGuardrail_value (sc_guardrails_failed score)))
  else match sc_outcome score with
  | EO_GUARDRAIL_VIOLATED => (RD_ABANDON, "guardrail_violated outcome from evaluator")
  | EO_IMPROVED =>
      (RD_ACCEPT, "Primary metric improved (delta=" +:+ float_str (sc_primary_metric_delta score) +:+ ")")
  | EO_INCONCLUSIVE =>
      if (rp_max_attempts policy - attempts_used <=? 0)%Z
      then (RD_ESCALATE, "Inconclusive after budget exhausted")
      else (RD_ESCALATE, "Inconclusive outcome requires operator decision")
  | o =>
      if bool_decide (o = EO_NEUTRAL) && rp_accept_on_neutral policy
      then (RD_ACCEPT, "Neutral outcome accepted per policy")
      else
        let remaining := (rp_max_attempts policy - attempts_used - rp_failure_penalty policy)%Z in
        if (remaining <=? 0)%Z
        then (RD_ABANDON, "Budget exhausted after " +:+ str_of_Z attempts_used +:+ " attempt(s)")
        else (RD_RETRY, "outcome=" +:+ EvaluationOutcome_value o +:+ "; " +:+ str_of_Z remaining +:+
                        " attempt(s) remaining")
  end.
End Decide.

Definition status_for_decision (d : RefinementDecision) : RefinementStatus :=
  match d with
  | RD_ACCEPT => RS_ACCEPTED
  | RD_ABANDON => RS_ABANDONED
  | RD_ESCALATE => RS_ESCALATED
  | RD_RETRY => RS_IN_PROGRESS
  end.

Definition append_attempt (lineage : ImprovementLineage) (attempt : LineageAttempt)
    (decision : RefinementDecision) : ImprovementLineage :=
  {| li_lineage_id := li_lineage_id lineage; li_parent_lineage_id := li_parent_lineage_id lineage;
     li_status := status_for_decision decision; li_current_attempt_number := la_attempt_number attempt;
     li_accepted_attempt_number :=
       if bool_decide (decision = RD_ACCEPT) then Some (la_attempt_number attempt)
       else li_accepted_attempt_number lineage;
     li_attempts := li_attempts lineage ++ [attempt] |}.

Definition strategy_for_attempt (spec : ContinuousImprovementSpec) (attempt_n : Z) : res ImprovementStrategy :=
  if (attempt_n =? 1)%Z || negb (rp_vary_strategy_on_retry (ci_refinement spec)) then Ok (ci_strategy spec)
  else make_strategy (is_principle (ci_strategy spec)) (is_constraints (ci_strategy spec))
         (is_variation_hint (ci_strategy spec)).

Definition resolve_evaluation_command (spec : ContinuousImprovementSpec)
    : option string * option EvaluationCommandSource :=
  let e := ci_evaluation spec in
  if opt_truthy (es_evaluation_command e) then (es_evaluation_command e, Some CS_OC_DERIVED)
  else if opt_truthy (es_evaluation_command_hint e)
  then (es_evaluation_command_hint e, Some CS_PROPOSER_SUGGESTED)
  else (None, None).

Definition lineage_path (ctx : CiRunContext) : string :=
  cx_repo_path ctx +:+ "/.context/capsules/" +:+ cx_lineage_id ctx +:+ "/lineage.json".

Section Coordinator.
Context (float_str : option Q -> string) (env : ci_env) (ctx : CiRunContext).

Abbreviation spec := (cx_spec ctx).
Abbreviation policy := (ci_refinement spec).

Definition load_or_init_lineage (w : ci_world) : ImprovementLineage :=
  match load_lineage w (lineage_path ctx) with
  | Some l => l
  | None => {| li_lineage_id := cx_lineage_id ctx; li_parent_lineage_id := None; li_status := RS_NOT_STARTED;
               li_current_attempt_number := 0; li_accepted_attempt_number := None; li_attempts := [] |}
  end.

Definition load_or_init_state : CM OcContinuousImprovementState := fun w =>
  (w, existing <-? get_state (cw_store w) (cx_proposal_id ctx) ;;
      Ok match existing with
         | Some s => s
         | None =>
             let now := cv_now env (cw_calls w) in
             let '(cmd, source) := resolve_evaluation_command spec in
             {| st_proposal_id := cx_proposal_id ctx;
                st_lineage_index :=
                  {| ie_lineage_id := cx_lineage_id ctx; ie_proposal_id := cx_proposal_id ctx;
                     ie_lineage_artifact_path := lineage_path ctx; ie_status := RS_NOT_STARTED;
                     ie_current_attempt_number := 0; ie_accepted_attempt_number := None;
                     ie_last_updated_at := now; ie_warehouse_archive_id := None |};
                st_spec_snapshot := spec; st_resolved_evaluation_command := cmd;
                st_resolved_evaluation_command_source := source; st_last_updated_at := now;
                st_operator_override := None |}
         end).

Definition update_state (s : OcContinuousImprovementState) (l : ImprovementLineage) (now : datetime)
    : OcContinuousImprovementState :=
  {| st_proposal_id := st_proposal_id s;
     st_lineage_index :=
       {| ie_lineage_id := ie_lineage_id (st_lineage_index s); ie_proposal_id := st_proposal_id s;
          ie_lineage_artifact_path := ie_lineage_artifact_path (st_lineage_index s);
          ie_status := li_status l; ie_current_attempt_number := li_current_attempt_number l;
          ie_accepted_attempt_number := li_accepted_attempt_number l; ie_last_updated_at := now;
          ie_warehouse_archive_id := ie_warehouse_archive_id (st_lineage_index s) |};
     st_spec_snapshot := st_spec_snapshot s;
     st_resolved_evaluation_command := st_resolved_evaluation_command s;
     st_resolved_evaluation_command_source := st_resolved_evaluation_command_source s;
     st_last_updated_at := now; st_operator_override := st_operator_override s |}.

Definition persist (l : ImprovementLineage) (s : OcContinuousImprovementState) : CM unit :=
  _ <<- save_lineage env l (lineage_path ctx) ;;
  _ <<- upsert_index_entry env (st_lineage_index s) ;;
  upsert_state env s.

Definition clock : CM datetime := se_get (fun w => Ok (cv_now env (cw_calls w))).

Definition eval_context (s : OcContinuousImprovementState) (attempt_n : Z) (changed : list string)
    : EvaluationContext :=
  {| ec_repo_path := cx_repo_path ctx; ec_attempt_number := attempt_n;
     ec_evaluation_command := str_or (st_resolved_evaluation_command s) "";
     ec_validation_commands := cx_validation_commands ctx; ec_changed_file_paths := changed;
     ec_eval_output_path :=
       d ← cx_eval_output_dir ctx; Some (d +:+ "/attempt-" +:+ str_of_Z attempt_n +:+ "/eval.json") |}.

(** One attempt: execute, evaluate, decide, record. *)
Definition attempt (l : ImprovementLineage) (s : OcContinuousImprovementState)
    : CM (ImprovementLineage * OcContinuousImprovementState * RefinementDecision * EvaluationScore) :=
  let attempt_n := (li_current_attempt_number l + 1)%Z in
  strategy <<- se_lift (strategy_for_attempt spec attempt_n) ;;
  started <<- clock ;;
  executed <<- call (cv_execute env) (CC_execute attempt_n strategy) ;;
  let '(run_id, changed, _) := executed in
  score <<- evaluate env (ci_evaluation spec) (eval_context s attempt_n changed) ;;
  let '(decision, reason) := ci_decide float_str score policy attempt_n in
  completed <<- clock ;;
  let record :=
    {| la_attempt_number := attempt_n; la_run_id := run_id;
       la_branch_reason := if (attempt_n =? 1)%Z then BR_INITIAL else BR_RETRY_AFTER_FAILURE;
       la_strategy_used := strategy; la_started_at := started; la_completed_at := completed;
       la_score := score; la_decision := decision; la_decision_reason := reason |} in
  let l := append_attempt l record decision in
  let s := update_state s l completed in
  _ <<- persist l s ;;
  se_ret (l, s, decision, score).

(** The loop; [budget] is the number of attempts the budget leaves. *)
Fixpoint ci_loop (budget : nat) (l : ImprovementLineage) (s : OcContinuousImprovementState)
    (last : option (RefinementDecision * EvaluationScore))
    : CM (ImprovementLineage * option (RefinementDecision * EvaluationScore)) :=
  match budget with
  | 0 => se_ret (l, last)
  | S budget =>
      r <<- attempt l s ;;
      let '(l, s, decision, score) := r in
      if bool_decide (decision = RD_RETRY) then ci_loop budget l s (Some (decision, score))
      else se_ret (l, Some (decision, score))
  end.

(** [while lineage.current_attempt_number < policy.max_attempts]. *)
Definition attempts_left (l : ImprovementLineage) : nat :=
  Z.to_nat (rp_max_attempts policy - li_current_attempt_number l).

Definition ci_run : CM CiRunResult :=
  l <<- se_get (fun w => Ok (load_or_init_lineage w)) ;;
  s <<- load_or_init_state ;;
  r <<- ci_loop (attempts_left l) l s None ;;
  let '(l, last) := r in
  se_ret {| cr_lineage_id := cx_lineage_id ctx; cr_final_status := li_status l;
            cr_accepted_attempt_number := li_accepted_attempt_number l;
            cr_total_attempts := li_current_attempt_number l;
            cr_last_decision := fst <$> last; cr_last_score := snd <$> last |}.
End Coordinator.
