(* ===== verification/CiSafety.v ===== *)
(** * What a refinement run may do

    The evaluator's verdict in closed form, the lineage invariant over any
    number of runs, the bound on executions, and what an acceptance takes. *)
From S2P Require Import Prelude PyStr PyData CiRefinement.
From Stdlib Require Import Ascii.

(** ** The evaluator's verdict *)

(** The metric moved in the wanted direction. *)
Definition moved_well (m : ScoringMetric) (d : Q) : bool :=
  if String.eqb (sm_direction m) "lower_is_better" then Qlt_b d 0 else Qlt_b 0 d.

(** It moved at least as far as the target asks for. *)
Definition reached_target (m : ScoringMetric) (d : Q) : bool :=
  match sm_target_delta m with
  | None => true
  | Some t => if String.eqb (sm_direction m) "lower_is_better" then Qle_b d t else Qle_b t d
  end.

Lemma moved_well_zero m d : Qeq_bool d 0 = true -> moved_well m d = false.
Proof.
  intros H%Qeq_bool_iff. unfold moved_well. apply not_true_is_false.
  case_match; rewrite Qlt_b_spec, H; apply Qlt_irrefl.
Qed.

Lemma determine_outcome_clean spec d :
  determine_outcome spec (Some d) [] =
  let m := es_primary_scoring spec in
  if moved_well m d then if reached_target m d then EO_IMPROVED else EO_REGRESSED else EO_NEUTRAL.
Proof.
  pose proof (moved_well_zero (es_primary_scoring spec) d) as Hz.
  assert (Hcases : forall mv rt z : bool, (z = true -> mv = false) ->
    (if mv && rt then EO_IMPROVED else if z || (negb mv && true) then EO_NEUTRAL else EO_REGRESSED) =
    (if mv then if rt then EO_IMPROVED else EO_REGRESSED else EO_NEUTRAL)).
  { intros [] [] [] H; by try specialize (H eq_refl). }
  unfold determine_outcome, moved_well, reached_target in *. cbn [list_truthy negb].
  destruct (String.eqb _ _); by apply Hcases.
Qed.

(** without a failed guardrail, an attempt counts as improved when its
    metric moved the right way and reached the target, as regressed when it
    moved the right way and missed the target, and as neutral when it did not
    move the right way, which includes every metric that became worse; without
    a measured difference it is inconclusive, and with a failed guardrail it is
    a violation. *)
Theorem evaluation_outcome_spec spec delta failed :
  let m := es_primary_scoring spec in
  let outcome := determine_outcome spec delta failed in
  (outcome = EO_GUARDRAIL_VIOLATED <-> failed <> []) /\
  (outcome = EO_INCONCLUSIVE <-> failed = [] /\ delta = None) /\
  (outcome = EO_IMPROVED <->
   failed = [] /\ exists d, delta = Some d /\ moved_well m d = true /\ reached_target m d = true) /\
  (outcome = EO_REGRESSED <->
   failed = [] /\ exists d, delta = Some d /\ moved_well m d = true /\ reached_target m d = false) /\
  (outcome = EO_NEUTRAL <-> failed = [] /\ exists d, delta = Some d /\ moved_well m d = false).
Proof.
  intros m outcome. subst m outcome. destruct failed as [|g gs].
  2: { cbn [determine_outcome list_truthy]. split_and!; split; try done; by intros []. }
  destruct delta as [d|].
  - rewrite determine_outcome_clean. cbv zeta.
    destruct (moved_well _ d) eqn:Hm; [destruct (reached_target _ d) eqn:Hr|];
      split_and!; split; try done; try (by intros [? ?]);
      try (intros [_ (d' & [= <-] & ?)]; destruct_and?; congruence);
      intros _; (split; [done|]); exists d; rewrite ?Hm, ?Hr; done.
  - cbn [determine_outcome list_truthy]. split_and!; split; try done; by intros [_ (? & ? & _)].
Qed.

(** ** What evaluating does *)

Definition is_command (c : ci_call) : Prop := match c with CC_command _ => True | _ => False end.

(** Only commands were run; nothing was written. *)
Definition measures (w w' : ci_world) : Prop :=
  cw_lineages w' = cw_lineages w /\ cw_store w' = cw_store w /\
  exists cs, cw_calls w' = cw_calls w ++ cs /\ Forall is_command cs.

Lemma measures_refl w : measures w w.
Proof. split; [done|]. split; [done|]. exists []. by rewrite app_nil_r. Qed.

Lemma measures_trans w1 w2 w3 : measures w1 w2 -> measures w2 w3 -> measures w1 w3.
Proof.
  intros (L1 & S1 & c1 & C1 & F1) (L2 & S2 & c2 & C2 & F2). split; [congruence|]. split; [congruence|].
  exists (c1 ++ c2). rewrite C2, C1, app_assoc. split; [done|]. by apply Forall_app.
Qed.

Definition measuring {A} (m : CM A) : Prop := forall w, measures w (fst (m w)).

Lemma measuring_get {A} (f : ci_world -> res A) : measuring (fun w => (w, f w)).
Proof. intros w. apply measures_refl. Qed.

Lemma measuring_command {A} (answer : list ci_call -> res A) cmd : measuring (call answer (CC_command cmd)).
Proof.
  intros w. split; [done|]. split; [done|]. exists [CC_command cmd]. split; [done|]. by repeat constructor.
Qed.

Lemma measuring_bind {A B} (m : CM A) (k : A -> CM B) :
  measuring m -> (forall a, measuring (k a)) -> measuring (se_bind m k).
Proof.
  intros Hm Hk w. unfold se_bind. specialize (Hm w). destruct (m w) as [w1 [a|e]]; [|done].
  eapply measures_trans; [exact Hm | apply Hk].
Qed.

Lemma measuring_try {A} (m : CM A) h : measuring m -> (forall e, measuring (h e)) -> measuring (se_try m h).
Proof.
  intros Hm Hh w. unfold se_try. specialize (Hm w). destruct (m w) as [w1 [a|e]]; [done|].
  eapply measures_trans; [exact Hm | apply Hh].
Qed.

#[local] Hint Resolve measuring_get measuring_command measuring_bind measuring_try : oc.

Lemma fixtures_measure env cmds : measuring (check_regression_fixtures env cmds).
Proof.
  induction cmds as [|cmd cmds IH]; [apply measuring_get|]. cbn [check_regression_fixtures].
  apply measuring_bind; [auto with oc|]. intros p. case_match; [apply measuring_get | exact IH].
Qed.

Lemma custodian_measures env ctx more : measuring (check_custodian env ctx more).
Proof.
  unfold check_custodian. destruct (cv_custodian env); [|apply measuring_get].
  apply measuring_bind; [auto with oc | intros; apply measuring_get].
Qed.

Lemma check_guardrails_measures env gs ctx output : measuring (check_guardrails env gs ctx output).
Proof.
  induction gs as [|g gs IH]; [apply measuring_get|]. cbn [check_guardrails].
  apply measuring_bind; [|intros ok; apply measuring_bind; [done | intros r; apply measuring_get]].
  unfold check_guardrail. apply measuring_try; [|intros e; apply measuring_get].
  destruct g; [apply measuring_get | apply custodian_measures | apply custodian_measures
              | apply fixtures_measure | apply measuring_get].
Qed.

Lemma evaluate_measures env spec ctx : measuring (evaluate env spec ctx).
Proof.
  unfold evaluate. apply measuring_bind.
  - unfold run_evaluation_command. case_match; [apply measuring_get|].
    apply measuring_bind; [auto with oc | intros p; apply measuring_get].
  - intros output. apply measuring_bind; [apply measuring_get|]. intros [[v d] sec].
    apply measuring_bind; [apply check_guardrails_measures | intros; apply measuring_get].
Qed.

Lemma check_guardrails_all env gs ctx output w w' r :
  check_guardrails env gs ctx output w = (w', Ok r) -> fst r ++ snd r ≡ₚ gs.
Proof.
  revert w w' r. induction gs as [|g gs IH]; cbn [check_guardrails]; intros w w' r; [by intros [= _ <-]|].
  intros (w1 & ok & _ & (w2 & r' & Hr & H)%se_bind_ok)%se_bind_ok. apply IH in Hr. injection H as _ <-.
  destruct ok; cbn [fst snd]; rewrite <-Hr; [done|]. by rewrite Permutation_middle.
Qed.

(** What a score says of the guardrails and of the metric. *)
Lemma evaluate_score env spec ctx w w' score :
  evaluate env spec ctx w = (w', Ok score) ->
  sc_guardrails_passed score ++ sc_guardrails_failed score ≡ₚ es_guardrails spec /\
  sc_outcome score = determine_outcome spec (sc_primary_metric_delta score) (sc_guardrails_failed score).
Proof.
  unfold evaluate. intros (w1 & output & _ & (w2 & [[v d] sec] & _ & (w3 & checked & Hc & H)%se_bind_ok)%se_bind_ok)%se_bind_ok.
  apply check_guardrails_all in Hc. by injection H as _ <-.
Qed.

(** ** Recording an attempt *)

Definition is_execute (c : ci_call) : bool := match c with CC_execute _ _ => true | _ => false end.
(** How often the backend was asked to execute. *)
Definition executions (w : ci_world) : nat := length (List.filter is_execute (cw_calls w)).

Lemma measures_executions w w' : measures w w' -> executions w' = executions w.
Proof.
  intros (_ & _ & cs & H & Hf). unfold executions. rewrite H, List.filter_app, length_app.
  rewrite (filter_none is_execute cs); [simpl; lia|].
  apply Forall_forall. intros c Hc. pose proof (proj1 (Forall_forall _ _) Hf _ Hc). by destruct c.
Qed.

Lemma executions_other w c : is_execute c = false -> executions (add_call w c) = executions w.
Proof.
  intros H. unfold executions, add_call. cbn [cw_calls]. rewrite List.filter_app, length_app. simpl. rewrite H. simpl. lia.
Qed.

Lemma get_state_upserted d s :
  get_state (Some (Ok {| cd_lineage_index := cd_lineage_index d;
                         cd_ci_state := od_set (st_proposal_id s) (Ok s) (cd_ci_state d) |}))
    (st_proposal_id s) = Ok (Some s).
Proof. unfold get_state. cbn [ci_load cd_ci_state]. by rewrite od_get_set_eq. Qed.

Lemma get_index_kept d st e :
  get_index_entry (Some (Ok {| cd_lineage_index := od_set (ie_lineage_id e) (Ok e) (cd_lineage_index d);
                               cd_ci_state := st |})) (ie_lineage_id e) = Ok (Some e).
Proof. unfold get_index_entry. cbn [ci_load cd_lineage_index]. by rewrite od_get_set_eq. Qed.

(** The lineage file was not written to, or what was written can not be read. *)
Definition unwritten (path : string) (w w' : ci_world) : Prop :=
  cw_lineages w' = cw_lineages w \/ exists e, cw_lineages w' = <[path := Raise e]> (cw_lineages w).

Lemma write_text_spec {A} env c put (text : A) w w' r :
  is_execute c = false ->
  (forall v x, executions (put v x) = executions v) ->
  write_text env c put text w = (w', r) ->
  executions w' = executions w /\
  ((r = Ok tt /\ w' = put (add_call w c) (Ok text)) \/
   exists e, r = Raise e /\ (w' = add_call w c \/ w' = put (add_call w c) (Raise e))).
Proof.
  intros Hc Hput. unfold write_text.
  pose proof (executions_other w c Hc) as He.
  destruct (cv_disk env _) as [[]|e].
  - intros [= <- <-]. rewrite Hput. split; [done | by left].
  - intros [= <- <-]. split; [destruct (cv_torn env _); by rewrite ?Hput|]. right. exists e. split; [done|].
    destruct (cv_torn env _); [by right | by left].
Qed.

Lemma persist_spec env ctx l s w w' r :
  persist env ctx l s w = (w', r) ->
  executions w' = executions w /\
  (unwritten (lineage_path ctx) w w' \/ cw_lineages w' = <[lineage_path ctx := Ok l]> (cw_lineages w)) /\
  (r = Ok tt ->
   cw_lineages w' = <[lineage_path ctx := Ok l]> (cw_lineages w) /\
   get_state (cw_store w') (st_proposal_id s) = Ok (Some s) /\
   get_index_entry (cw_store w') (ie_lineage_id (st_lineage_index s)) = Ok (Some (st_lineage_index s))).
Proof.
  unfold persist, save_lineage, upsert_index_entry, upsert_state. intros H. unfold se_bind at 1 in H.
  destruct (write_text env _ _ l w) as [w1 r1] eqn:E1. apply write_text_spec in E1 as (X1 & H1); [|done|done].
  destruct H1 as [[-> ->]|(e & -> & Hw)].
  2: { injection H as <- <-. split; [done|]. split; [left|done]. destruct Hw as [->| ->]; [by left | right; by exists e]. }
  unfold se_bind at 1, se_get at 1 in H. unfold se_bind at 1 in H.
  destruct (write_text env CC_save_store set_store _ _) as [w2 r2] eqn:E2. apply write_text_spec in E2 as (X2 & H2); [|done|done].
  assert (L2 : cw_lineages w2 = <[lineage_path ctx := Ok l]> (cw_lineages w)) by (destruct H2 as [[_ ->]|(e & _ & [->| ->])]; done).
  destruct H2 as [[-> ->]|(e & -> & _)]; [|injection H as <- <-; split; [by rewrite X2|]; by split; [right|]].
  unfold se_bind at 1, se_get at 1 in H. apply write_text_spec in H as (X3 & H3); [|done|done].
  split; [by rewrite X3, X2|]. split; [right; by destruct H3 as [[_ ->]|(e & _ & [->| ->])]|].
  intros ->. destruct H3 as [[_ ->]|(e & [=] & _)]. split; [done|].
  split; [apply get_state_upserted | apply get_index_kept].
Qed.

Section Attempts.
Context (float_str : option Q -> string) (env : ci_env) (ctx : CiRunContext).

Abbreviation spec := (cx_spec ctx).
Abbreviation policy := (ci_refinement spec).

(** A score as the evaluator makes it. *)
Definition honest_score (score : EvaluationScore) : Prop :=
  sc_guardrails_passed score ++ sc_guardrails_failed score ≡ₚ es_guardrails (ci_evaluation spec) /\
  sc_outcome score =
    determine_outcome (ci_evaluation spec) (sc_primary_metric_delta score) (sc_guardrails_failed score).

(** The record of the attempt after a lineage. *)
Definition next_attempt (l : ImprovementLineage) (a : LineageAttempt) : Prop :=
  la_attempt_number a = (li_current_attempt_number l + 1)%Z /\
  honest_score (la_score a) /\
  la_decision a = fst (ci_decide float_str (la_score a) policy (la_attempt_number a)).

Lemma attempt_spec l s w w' r :
  attempt float_str env ctx l s w = (w', r) ->
  executions w' <= S (executions w) /\
  (unwritten (lineage_path ctx) w w' \/ exists a, next_attempt l a /\
     cw_lineages w' = <[lineage_path ctx := Ok (append_attempt l a (la_decision a))]> (cw_lineages w)) /\
  forall l' s' d score, r = Ok (l', s', d, score) ->
    executions w' = S (executions w) /\
    exists a t, next_attempt l a /\ l' = append_attempt l a d /\ d = la_decision a /\ score = la_score a /\
      s' = update_state s l' t /\ cw_lineages w' = <[lineage_path ctx := Ok l']> (cw_lineages w) /\
      get_state (cw_store w') (st_proposal_id s') = Ok (Some s') /\
      get_index_entry (cw_store w') (ie_lineage_id (st_lineage_index s')) = Ok (Some (st_lineage_index s')).
Proof.
  unfold attempt. set (n := (li_current_attempt_number l + 1)%Z). unfold se_bind at 1. unfold se_lift.
  destruct (strategy_for_attempt spec n) as [strategy|e].
  2: { intros [= <- <-]. split; [lia|]. by split; [left; left|]. }
  unfold clock at 1, se_get, se_bind at 1. unfold se_bind at 1. unfold call.
  set (w1 := add_call w (CC_execute n strategy)).
  assert (H1 : executions w1 = S (executions w)).
  { unfold executions, w1, add_call. cbn [cw_calls]. rewrite List.filter_app, length_app. simpl. lia. }
  destruct (cv_execute env (cw_calls w1)) as [[[run_id changed] ok]|e].
  2: { intros [= <- <-]. split; [lia|]. by split; [left; left|]. }
  unfold se_bind at 1.
  set (ectx := eval_context ctx s n changed).
  pose proof (evaluate_measures env (ci_evaluation spec) ectx w1) as Hm.
  destruct (evaluate env (ci_evaluation spec) ectx w1) as [w2 [score|e]] eqn:He; cbn [fst] in Hm;
    apply measures_executions in Hm as Hx; destruct Hm as (Hl & _).
  2: { intros [= <- <-]. split; [lia|]. split; [by left; left; rewrite Hl|done]. }
  apply evaluate_score in He as [Hperm Hout].
  destruct (ci_decide float_str score policy n) as [decision reason] eqn:Hd.
  unfold se_bind at 1. unfold clock at 1, se_get.
  match goal with |- context [persist env ctx (append_attempt l ?a _) _] => set (a0 := a) end.
  assert (Ha : next_attempt l a0).
  { split; [done|]. split; [done|]. unfold a0. cbn [la_decision la_score la_attempt_number]. by rewrite Hd. }
  unfold se_bind. destruct (persist _ _ _ _ w2) as [w3 [[]|e]] eqn:Hp; apply persist_spec in Hp as (Hx3 & Hl3 & Hok).
  - intros [= <- <-]. split; [lia|]. unfold unwritten in *; rewrite Hl in Hl3. split.
    { destruct Hl3 as [|Hl3]; [by left | right; by exists a0]. }
    intros l' s' d sc [= <- <- <- <-]. split; [lia|]. rewrite Hl in Hok. destruct (Hok eq_refl) as (? & ? & ?).
    by eexists a0, _.
  - intros [= <- <-]. split; [lia|]. unfold unwritten in *; rewrite Hl in Hl3. split; [|done].
    destruct Hl3 as [|Hl3]; [by left | right; by exists a0].
Qed.
(** ** The loop *)

(** The record that ends a loop, and what the world and the lineage say of it. *)
Record ends_with (l0 l : ImprovementLineage) (w : ci_world) (k : nat) (a : LineageAttempt) : Prop := {
  end_honest : honest_score (la_score a);
  end_decision : la_decision a = fst (ci_decide float_str (la_score a) policy (la_attempt_number a));
  end_number : la_attempt_number a = (li_current_attempt_number l0 + Z.of_nat k)%Z;
  end_current : li_current_attempt_number l = la_attempt_number a;
  end_last : last (li_attempts l) = Some a;
  end_status : li_status l = status_for_decision (la_decision a);
  end_accepted : la_decision a = RD_ACCEPT -> li_accepted_attempt_number l = Some (la_attempt_number a);
  end_stored : load_lineage w (lineage_path ctx) = Some l }.

Lemma append_ends l a w :
  next_attempt l a -> cw_lineages w = <[lineage_path ctx := Ok (append_attempt l a (la_decision a))]> (cw_lineages w) ->
  ends_with l (append_attempt l a (la_decision a)) w 1 a.
Proof.
  intros (Hn & Hs & Hd) Hw. split; try done.
  - cbn [append_attempt li_attempts]. by rewrite last_snoc.
  - intros H. cbn [append_attempt li_accepted_attempt_number]. by rewrite bool_decide_true.
  - unfold load_lineage. rewrite Hw. by rewrite lookup_insert_eq.
Qed.

Lemma ci_loop_spec budget l s last_ w w' r :
  ci_loop float_str env ctx budget l s last_ w = (w', r) ->
  executions w' <= executions w + budget /\
  forall l' last', r = Ok (l', last') ->
    (budget = 0 /\ w' = w /\ l' = l /\ last' = last_) \/
    exists k a, 1 <= k <= budget /\ executions w' = executions w + k /\ ends_with l l' w' k a /\
      last' = Some (la_decision a, la_score a) /\ (la_decision a = RD_RETRY -> k = budget).
Proof.
  revert l s last_ w. induction budget as [|budget IH]; intros l s last_ w; cbn [ci_loop].
  { intros [= <- <-]. split; [lia|]. intros l' last' [= <- <-]. by left. }
  unfold se_bind. destruct (attempt _ _ _ l s w) as [w1 [[[[l1 s1] d] score]|e]] eqn:Ha.
  2: { apply attempt_spec in Ha as (Hx & _). intros [= <- <-]. split; [lia|done]. }
  apply attempt_spec in Ha as (_ & _ & Hok).
  destruct (Hok _ _ _ _ eq_refl) as (Hx & a & t & Hnext & -> & -> & -> & -> & Hw & _).
  assert (Hend : ends_with l (append_attempt l a (la_decision a)) w1 1 a).
  { apply append_ends; [done|]. rewrite Hw. by rewrite insert_insert_eq. }
  case_bool_decide as Hretry.
  - intros H. apply IH in H as (Hle & Hres). split; [lia|]. intros l' last' Hr.
    destruct (Hres _ _ Hr) as [(-> & -> & -> & ->) | (k & a' & Hk & Hxk & Hend' & -> & Hlast)]; right.
    + exists 1, a. split; [lia|]. split; [lia|]. by split; [|split].
    + exists (S k), a'. split; [lia|]. split; [lia|]. split; [|split; [done | intros; f_equal; by apply Hlast]].
      destruct Hend' as [E1 E2 E3 E4 E5 E6 E7 E8]. split; try done. rewrite E3.
      cbn [append_attempt li_current_attempt_number]. destruct Hnext as [-> _]. lia.
  - intros [= <- <-]. split; [lia|]. intros l' last' [= <- <-]. right. exists 1, a.
    split; [lia|]. split; [lia|]. by split; [|split].
Qed.

Abbreviation run := (ci_run float_str env ctx).

(** What a run is, once its state has been read. *)
Lemma ci_run_spec w w' r :
  run w = (w', r) ->
  let l0 := load_or_init_lineage ctx w in
  executions w' <= executions w + attempts_left ctx l0 /\
  forall res, r = Ok res ->
    (attempts_left ctx l0 = 0 /\ w' = w /\ cr_final_status res = li_status l0 /\
     cr_total_attempts res = li_current_attempt_number l0 /\ cr_last_decision res = None) \/
    exists k a l, 1 <= k <= attempts_left ctx l0 /\ executions w' = executions w + k /\
      ends_with l0 l w' k a /\ cr_final_status res = li_status l /\
      cr_total_attempts res = la_attempt_number a /\ cr_accepted_attempt_number res = li_accepted_attempt_number l /\
      cr_last_decision res = Some (la_decision a) /\ (la_decision a = RD_RETRY -> k = attempts_left ctx l0).
Proof.
  unfold ci_run, se_get. unfold se_bind at 1. cbv zeta. unfold se_bind at 1. unfold load_or_init_state.
  destruct (existing <-? _ ;; _) as [s|e]; [|intros [= <- <-]; split; [lia|done]].
  unfold se_bind. destruct (ci_loop _ _ _ _ _ _ _ _) as [w1 [[l last_]|e]] eqn:Hl; apply ci_loop_spec in Hl as (Hx & Hok).
  2: { intros [= <- <-]. by split. }
  intros [= <- <-]. split; [done|]. intros res [= <-]. cbn.
  destruct (Hok _ _ eq_refl) as [(H0 & -> & -> & ->) | (k & a & Hk & He & Hend & -> & Hlast)]; [by left|right].
  exists k, a, l. do 3 (split; [done|]). split; [done|]. split; [by rewrite (end_current _ _ _ _ _ Hend)|]. done.
Qed.

(** An accepting decision comes from a clean score. *)
Lemma decide_accept score n :
  honest_score score -> fst (ci_decide float_str score policy n) = RD_ACCEPT ->
  sc_guardrails_failed score = [] /\
  exists d, sc_primary_metric_delta score = Some d /\
    (moved_well (es_primary_scoring (ci_evaluation spec)) d = true /\
       reached_target (es_primary_scoring (ci_evaluation spec)) d = true \/
     rp_accept_on_neutral policy = true /\ moved_well (es_primary_scoring (ci_evaluation spec)) d = false).
Proof.
  intros [_ Hout]. unfold ci_decide. destruct (sc_guardrails_failed score) as [|g gs]; cbn [list_truthy]; [|done].
  rewrite Hout. destruct (sc_primary_metric_delta score) as [d|]; [|by cbn; case_match].
  rewrite determine_outcome_clean. cbv zeta. intros H. split; [done|]. exists d. split; [done|].
  destruct (moved_well _ d); [destruct (reached_target _ d)|]; [by left | |right].
  - rewrite bool_decide_false in H by done. cbn in H. by case_match.
  - rewrite bool_decide_true in H by done. destruct (rp_accept_on_neutral policy); [done|]. cbn in H. by case_match.
Qed.

(** a refinement run asks the backend at most for the attempts the budget
    has left, also when it raises; when it returns after at least one attempt,
    the stored lineage ends with its last attempt, whose number is the total it
    reports and whose decision is the status, and attempts remain only if that
    decision was final. *)
Theorem refinement_is_bounded_and_recorded w w' r :
  run w = (w', r) ->
  let l0 := load_or_init_lineage ctx w in
  executions w' <= executions w + attempts_left ctx l0 /\
  forall res, r = Ok res ->
    cr_total_attempts res = (li_current_attempt_number l0 + Z.of_nat (executions w' - executions w))%Z /\
    (executions w < executions w' -> exists l a,
       load_lineage w' (lineage_path ctx) = Some l /\ last (li_attempts l) = Some a /\
       la_attempt_number a = cr_total_attempts res /\ li_current_attempt_number l = cr_total_attempts res /\
       cr_final_status res = status_for_decision (la_decision a) /\ li_status l = cr_final_status res) /\
    (executions w' < executions w + attempts_left ctx l0 ->
     cr_last_decision res ∈ [Some RD_ACCEPT; Some RD_ABANDON; Some RD_ESCALATE]).
Proof.
  intros (Hx & Hok)%ci_run_spec l0. subst l0. split; [done|]. intros res Hr.
  destruct (Hok _ Hr) as [(H0 & -> & Hs & Ht & Hd) | (k & a & l & Hk & He & Hend & Hs & Ht & Ha & Hd & Hlast)].
  - rewrite Ht, Nat.sub_diag. split; [simpl; lia|]. split; [lia|]. rewrite H0. lia.
  - rewrite Ht, (end_number _ _ _ _ _ Hend). split; [lia|]. split.
    + intros _. exists l, a. destruct Hend as [E1 E2 E3 E4 E5 E6 E7 E8]. split_and!; try done; try congruence.
    + intros Hlt. rewrite Hd. destruct (la_decision a) eqn:E; [set_solver | | set_solver..].
      specialize (Hlast eq_refl). lia.
Qed.

(** C30: a run that makes attempts and ends accepted has earned it: in its last
    attempt every guardrail of the specification passed, and the metric has
    been measured against its baseline and either moved the right way by the
    target, or the policy accepts attempts whose metric did not move the right
    way. *)
Theorem acceptance_is_earned w w' res :
  run w = (w', Ok res) -> executions w < executions w' -> cr_final_status res = RS_ACCEPTED ->
  exists l a,
    load_lineage w' (lineage_path ctx) = Some l /\ last (li_attempts l) = Some a /\
    cr_accepted_attempt_number res = Some (la_attempt_number a) /\
    la_attempt_number a = cr_total_attempts res /\
    sc_guardrails_passed (la_score a) ≡ₚ es_guardrails (ci_evaluation spec) /\
    exists d, sc_primary_metric_delta (la_score a) = Some d /\
      (moved_well (es_primary_scoring (ci_evaluation spec)) d = true /\
         reached_target (es_primary_scoring (ci_evaluation spec)) d = true \/
       rp_accept_on_neutral policy = true /\ moved_well (es_primary_scoring (ci_evaluation spec)) d = false).
Proof.
  intros (_ & Hok)%ci_run_spec Hlt Hacc.
  destruct (Hok _ eq_refl) as [(_ & -> & _) | (k & a & l & _ & _ & Hend & Hs & Ht & Ha & _)]; [lia|].
  destruct Hend as [E1 E2 E3 E4 E5 E6 E7 E8]. exists l, a.
  assert (Hd : la_decision a = RD_ACCEPT) by (rewrite Hs, E6 in Hacc; by destruct (la_decision a)).
  pose proof E2 as Hdec. rewrite Hd in Hdec. symmetry in Hdec. apply decide_accept in Hdec as (Hf & Hdelta); [|done].
  split; [done|]. split; [done|]. split; [by rewrite Ha, E7|]. split; [done|]. split; [|done].
  destruct E1 as [Hp _]. by rewrite Hf, app_nil_r in Hp.
Qed.
End Attempts.

(** ** The lineage over any number of runs *)

Definition last_accepted (attempts : list LineageAttempt) : option Z :=
  foldl (fun acc a => if bool_decide (la_decision a = RD_ACCEPT) then Some (la_attempt_number a) else acc)
    None attempts.

(** Attempts are numbered from one without a gap, and the summary fields are
    those the attempts give. *)
Record lineage_wf (l : ImprovementLineage) : Prop := {
  lw_current : li_current_attempt_number l = Z.of_nat (length (li_attempts l));
  lw_numbers : forall i a, li_attempts l !! i = Some a -> la_attempt_number a = (Z.of_nat i + 1)%Z;
  lw_status : li_status l =
    match last (li_attempts l) with Some a => status_for_decision (la_decision a) | None => RS_NOT_STARTED end;
  lw_accepted : li_accepted_attempt_number l = last_accepted (li_attempts l) }.

Lemma lineage_wf_append l a :
  lineage_wf l -> la_attempt_number a = (li_current_attempt_number l + 1)%Z ->
  lineage_wf (append_attempt l a (la_decision a)).
Proof.
  intros [Hc Hn Hs Ha] Hnum. split; cbn [append_attempt li_current_attempt_number li_attempts li_status
    li_accepted_attempt_number].
  - rewrite length_app, Hnum, Hc. simpl. lia.
  - intros i b [Hi | [Hi Hb]]%lookup_app_Some; [by apply Hn|].
    apply list_lookup_singleton_Some in Hb as [Hb <-]. rewrite Hnum, Hc. lia.
  - by rewrite last_snoc.
  - rewrite Ha. unfold last_accepted. by rewrite foldl_app.
Qed.

(** Every readable lineage of the disk is well formed. *)
Definition lineages_wf (w : ci_world) : Prop :=
  forall path l, load_lineage w path = Some l -> lineage_wf l.

Lemma lineages_wf_same w w' : cw_lineages w' = cw_lineages w -> lineages_wf w -> lineages_wf w'.
Proof. intros H Hw path l. unfold load_lineage. rewrite H. apply Hw. Qed.

Lemma lineages_wf_insert w w' path l :
  cw_lineages w' = <[path := Ok l]> (cw_lineages w) -> lineage_wf l -> lineages_wf w -> lineages_wf w'.
Proof.
  intros H Hl Hw path' l'. unfold load_lineage. rewrite H, lookup_insert. case_decide; [by intros [= <-] | apply Hw].
Qed.

Lemma lineages_wf_torn w w' path e :
  cw_lineages w' = <[path := Raise e]> (cw_lineages w) -> lineages_wf w -> lineages_wf w'.
Proof. intros H Hw path' l'. unfold load_lineage. rewrite H, lookup_insert. case_decide; [done | apply Hw]. Qed.

Lemma init_lineage_wf ctx w : lineages_wf w -> lineage_wf (load_or_init_lineage ctx w).
Proof.
  intros Hw. unfold load_or_init_lineage. destruct (load_lineage w _) eqn:E; [by eapply Hw|]. by split.
Qed.

Lemma attempt_wf float_str env ctx l s w :
  lineage_wf l -> lineages_wf w ->
  lineages_wf (fst (attempt float_str env ctx l s w)) /\
  forall r, snd (attempt float_str env ctx l s w) = Ok r -> lineage_wf (fst (fst (fst r))).
Proof.
  intros Hl Hw. destruct (attempt float_str env ctx l s w) as [w' r] eqn:Ha.
  apply attempt_spec in Ha as (_ & Hd & Hok). cbn [fst snd]. split.
  - destruct Hd as [[Hd | [e Hd]] | (a & (Hn & _) & Hd)]; [by eapply lineages_wf_same | by eapply lineages_wf_torn|].
    eapply lineages_wf_insert; [exact Hd | by apply lineage_wf_append | done].
  - intros [[[l' s'] d] score] ->. destruct (Hok _ _ _ _ eq_refl) as (_ & a & t & (Hn & _) & -> & -> & _).
    by apply lineage_wf_append.
Qed.

Lemma ci_loop_wf float_str env ctx budget l s last_ w :
  lineage_wf l -> lineages_wf w -> lineages_wf (fst (ci_loop float_str env ctx budget l s last_ w)).
Proof.
  revert l s last_ w. induction budget as [|budget IH]; intros l s last_ w Hl Hw; cbn [ci_loop]; [done|].
  unfold se_bind. destruct (attempt_wf float_str env ctx l s w Hl Hw) as [Hw1 Hl1].
  destruct (attempt _ _ _ l s w) as [w1 [[[[l1 s1] d] score]|e]]; cbn [fst snd] in *; [|done].
  case_bool_decide; [|done]. apply IH; [by apply (Hl1 _ eq_refl) | done].
Qed.

(** Runs for different items and specifications, one after the other, each with
    its own surroundings; a run that raises ends there and the next one starts
    from what it left. *)
Inductive runs (float_str : option Q -> string) : ci_world -> ci_world -> Prop :=
  | runs_none w : runs float_str w w
  | runs_more env ctx w w1 : runs float_str w w1 -> runs float_str w (fst (ci_run float_str env ctx w1)).

(** C29: whatever runs are made, in whatever order, also when commands, the
    backend or the disk fail in the middle, every lineage on the disk that can
    be read numbers its attempts from one without a gap or a repetition, counts
    them in its current number, takes its status from its last attempt and its
    accepted number from the last attempt that was accepted. *)
Theorem lineages_stay_well_formed float_str w w' :
  runs float_str w w' -> lineages_wf w -> lineages_wf w'.
Proof.
  induction 1 as [|env ctx w w1 _ IH]; [done|]. intros Hw. specialize (IH Hw).
  unfold ci_run, se_get. unfold se_bind at 1. unfold se_bind at 1. unfold load_or_init_state.
  destruct (existing <-? _ ;; _) as [s|e]; [|done]. unfold se_bind.
  pose proof (ci_loop_wf float_str env ctx (attempts_left ctx (load_or_init_lineage ctx w1))
    (load_or_init_lineage ctx w1) s None w1 (init_lineage_wf _ _ IH) IH) as H.
  by destruct (ci_loop _ _ _ _ _ _ _ _) as [w2 [[l r]|e]].
Qed.

(** ** Runs *)

Module CiScenarios.
Definition strategy : ImprovementStrategy :=
  {| is_principle := "speed"; is_constraints := ["fail_closed"]; is_variation_hint := Some "cache" |}.
Definition spec (neutral vary : bool) (cmd : option string) : ContinuousImprovementSpec :=
  {| ci_strategy := strategy;
     ci_evaluation :=
       {| es_primary_scoring := {| sm_metric := "latency"; sm_direction := "lower_is_better";
                                   sm_baseline_value := Some (10 # 1)%Q; sm_target_delta := Some (-2 # 1)%Q |};
          es_secondary_scoring := [];
          es_guardrails := [EG_REGRESSION_FIXTURES_PASS; EG_NO_RUNTIME_POLICY_WIDENING];
          es_evaluation_command_hint := None; es_evaluation_command := cmd |};
     ci_refinement := {| rp_max_attempts := 3; rp_vary_strategy_on_retry := vary; rp_failure_penalty := 0;
                         rp_accept_on_neutral := neutral |} |}.
Definition ctx (s : ContinuousImprovementSpec) : CiRunContext :=
  {| cx_proposal_id := "p"; cx_repo_path := "/repo"; cx_lineage_id := "lin"; cx_spec := s;
     cx_validation_commands := ["make test"]; cx_eval_output_dir := None |}.
Definition noon : datetime := {| dt_us := 1; dt_aware := true |}.
Definition attempts_in (cs : list ci_call) : nat := length (List.filter is_execute cs).

(** A backend that answers [(ok, changed files)], commands of which the
    evaluation command prints the latency [f n] of the n-th execution. *)
Definition env (exec : res (string * list string * bool)) (f : nat -> res Z) : ci_env :=
  {| cv_execute := fun _ => exec;
     cv_command := fun cs => match last cs with
       | Some (CC_command ["bench"]) =>
           match f (attempts_in cs) with
           | Ok v => Ok {| pr_returncode := 0; pr_stdout := "{..}"; pr_json := Some (JObj [("latency", JInt v)]) |}
           | Raise e => Raise e
           end
       | _ => Ok {| pr_returncode := 0; pr_stdout := ""; pr_json := None |}
       end;
     cv_output := fun _ => None; cv_custodian := None; cv_disk := fun _ => Ok tt; cv_torn := fun _ => false; cv_now := fun _ => noon |}.
Definition world0 : ci_world := {| cw_calls := []; cw_lineages := ∅; cw_store := None |}.
Definition shown (q : option Q) : string := "d".
Definition bench := Some "bench".
Definition good := Ok ("run", ["src/a.py"], true).
(** Latency 9 first, 7 from the second execution on. *)
Definition improving (n : nat) : res Z := Ok (if n <=? 1 then 9%Z else 7%Z)%nat.
Definition summary (r : ci_world * res CiRunResult) : nat * res (RefinementStatus * option Z * Z) :=
  (executions (fst r),
   match snd r with
   | Ok c => Ok (cr_final_status c, cr_accepted_attempt_number c, cr_total_attempts c)
   | Raise e => Raise e
   end).
Definition run exec f s w := ci_run shown (env exec f) (ctx s) w.

(** The second attempt reaches the target and ends the run. *)
Definition accepted_run := run good improving (spec false true bench) world0.
Example second_attempt_accepted : summary accepted_run = (2, Ok (RS_ACCEPTED, Some 2%Z, 2%Z)).
Proof. vm_compute. reflexivity. Qed.

(** A latency that doubles is accepted when neutral outcomes are. *)
Example worse_is_accepted_on_neutral :
  summary (run good (fun _ => Ok 20%Z) (spec true true bench) world0) = (1, Ok (RS_ACCEPTED, Some 1%Z, 1%Z)).
Proof. vm_compute. reflexivity. Qed.

(** An accepted item that is run again is executed again: its status is not
    looked at. *)
Example accepted_item_runs_again :
  summary (run good (fun _ => Ok 9%Z) (spec false true bench) (fst accepted_run)) =
  (3, Ok (RS_ABANDONED, Some 2%Z, 3%Z)).
Proof. vm_compute. reflexivity. Qed.

(** Without a measurement the first attempt escalates, with two left. *)
Example unmeasured_escalates_at_once :
  summary (run good improving (spec false true None) world0) = (1, Ok (RS_ESCALATED, None, 1%Z)).
Proof. vm_compute. reflexivity. Qed.

(** An evaluation command that raises leaves no record of the execution: the
    next run executes the same attempt number again. *)
Definition timeout := OtherError "TimeoutExpired".
Example lost_attempt_is_repeated :
  let w1 := run good (fun _ => Raise timeout) (spec false true bench) world0 in
  summary w1 = (1, Raise timeout) /\
  List.filter is_execute (cw_calls (fst (run good (fun _ => Raise timeout) (spec false true bench) (fst w1)))) =
  [CC_execute 1 strategy; CC_execute 1 strategy].
Proof. vm_compute. split; reflexivity. Qed.

(** A used-up budget abandons. *)
Example budget_abandons :
  summary (run good (fun _ => Ok 9%Z) (spec false true bench) world0) = (3, Ok (RS_ABANDONED, None, 3%Z)).
Proof. vm_compute. reflexivity. Qed.
End CiScenarios.

Import CiScenarios.

Lemma refinement_is_bounded_and_recorded_witness :
  exists w' r, run good improving (spec false true bench) world0 = (w', r) /\
    executions w' = 2 /\ executions w' <= executions world0 + 3.
Proof.
  exists (fst accepted_run), (snd accepted_run).
  pose proof (refinement_is_bounded_and_recorded shown (env good improving) (ctx (spec false true bench))
    world0 (fst accepted_run) (snd accepted_run)) as H.
  split; [vm_compute; reflexivity|]. split; [vm_compute; reflexivity|].
  apply H. vm_compute. reflexivity.
Defined.

Definition accepted_result : CiRunResult :=
  Eval vm_compute in match snd accepted_run with Ok c => c | Raise _ => {|
    cr_lineage_id := ""; cr_final_status := RS_NOT_STARTED; cr_accepted_attempt_number := None;
    cr_total_attempts := 0; cr_last_decision := None; cr_last_score := None |} end.

Lemma acceptance_is_earned_witness :
  cr_final_status accepted_result = RS_ACCEPTED /\
  exists l a, load_lineage (fst accepted_run) "/repo/.context/capsules/lin/lineage.json" = Some l /\
    last (li_attempts l) = Some a /\ la_attempt_number a = 2%Z /\ sc_guardrails_failed (la_score a) = [].
Proof.
  split; [reflexivity|].
  destruct (acceptance_is_earned shown (env good improving) (ctx (spec false true bench)) world0
    (fst accepted_run) accepted_result) as (l & a & Hl & Hlast & _ & Ha & _).
  - vm_compute. reflexivity.
  - vm_compute. repeat constructor.
  - reflexivity.
  - exists l, a. split; [exact Hl|]. split; [exact Hlast|]. split; [by rewrite Ha|].
    vm_compute in Hl. injection Hl as <-. vm_compute in Hlast. injection Hlast as <-. reflexivity.
Defined.

Lemma lineages_stay_well_formed_witness :
  lineages_wf world0 /\ lineages_wf (fst accepted_run).
Proof.
  assert (H0 : lineages_wf world0) by (intros path l; unfold load_lineage; cbn; by rewrite lookup_empty).
  split; [exact H0|]. apply (lineages_stay_well_formed shown world0); [|exact H0].
  apply runs_more, runs_none.
Defined.
