(* ===== verification/BoardIssues.v ===== *)
(** * The tasks of the board, as its workers see them

    entrypoints/board_worker/labels.py, work_ceiling.py and the reading half of
    _text.py, with the admission settings of config/settings.py: labels that
    carry counters, lineage and reasons, and the aggregate brakes on the work
    the fleet creates.  The board client answers from all it was asked so far;
    an issue is the board's JSON object, its [labels] are a list, and a label
    is a text or an object with a textual name. *)
From S2P Require Import Prelude PyStr PyData TextLines Contracts PolicyEngine.
From Stdlib Require Import Ascii.

(** ** The board client and the state of a worker *)

Inductive board_call :=
  | BC_list
  | BC_fetch (task_id : string)
  | BC_transition (task_id state : string)
  | BC_labels (task_id : string) (names : list string)
  | BC_comment (task_id text : string)
  | BC_create (name description state : string) (label_names : list string)
  | BC_prs (clone_url : string)
  | BC_plan (goal task_type mode repo_key clone_url base_branch priority : string) (labels : list string)
  | BC_execute (task_branch source : string)
  | BC_diff (base_branch task_branch : string)
  | BC_coordinate.

(** What the board, and the host of the pull requests, answer; the last four
    calls are answered by the surroundings of the dispatch. *)
Record board_client := {
  bcl_list : list board_call -> res (list dict);
  bcl_fetch : list board_call -> res dict;
  bcl_write : list board_call -> res unit;
  bcl_create : list board_call -> res dict;
  bcl_prs : list board_call -> res (list dict) }.

(** What was asked, and the worker's copy of the issue it works on. *)
Record board_world := {
  bw_calls : list board_call;
  bw_issue : dict }.

Abbreviation BM := (SE board_world).

Definition asked (w : board_world) (c : board_call) : board_world :=
  {| bw_calls := bw_calls w ++ [c]; bw_issue := bw_issue w |}.
Definition ask {A} (answer : list board_call -> res A) (c : board_call) : BM A := fun w =>
  let w := asked w c in (w, answer (bw_calls w)).
Definition set_issue (i : dict) : BM unit := fun w =>
  ({| bw_calls := bw_calls w; bw_issue := i |}, Ok tt).
Definition the_issue : BM dict := se_get (fun w => Ok (bw_issue w)).

(** ** labels.py *)

Definition STATE_READY : string := "Ready for AI".
Definition STATE_RUNNING : string := "Running".
Definition STATE_DONE : string := "Done".
Definition STATE_BLOCKED : string := "Blocked".
Definition STATE_REVIEW : string := "In Review".
Definition LIFECYCLE_EXPANDED : string := "lifecycle: expanded".

Definition ROLE_KINDS (role : string) : option (list string) :=
  od_get role [("goal", ["goal"]); ("test", ["test"; "test_campaign"]);
               ("improve", ["improve"; "improve_campaign"]); ("spec-author", ["spec-author"])].

Definition BLOCKED_REASON_LABELS : list string :=
  ["blocked-reason: policy"; "blocked-reason: backend-capacity"].

(** [issue.get("labels", [])]. *)
Definition labels_field (issue : dict) : list jval :=
  match dget issue "labels" with JList l => l | _ => [] end.

(** [(lab.get("name", "") if isinstance(lab, dict) else str(lab)).strip()]. *)
Definition lname (lab : jval) : string :=
  strip match lab with
        | JObj l => jtext (default (JStr "") (od_get "name" l))
        | v => jtext v
        end.

Definition label_names (issue : dict) : list string :=
  List.filter str_truthy (map lname (labels_field issue)).

Definition store_label_names (issue : dict) (names : list string) : dict :=
  <["labels" := JList (map JStr names)]> issue.

Definition colon : ascii := ":".

Definition label_value (labels : list jval) (prefix : string) : string :=
  match find_first (fun name => startswith (lower name) (lower prefix +:+ ":")) (map lname labels) with
  | Some name => strip (after_char colon name)
  | None => ""
  end.

Definition has_label (labels : list jval) (value : string) : bool :=
  existsb (fun name => String.eqb (lower name) (lower value)) (map lname labels).

(** The number after the colon of a counter label, 0 when it is none. *)
Definition count_of (name : string) : option Z := py_int (strip (after_char colon name)).

Definition count_from_labels (labels : list jval) (prefix : string) : Z :=
  match find_first (fun name => startswith name (lower prefix)) (map (fun l => lower (lname l)) labels) with
  | Some name => default 0%Z (count_of name)
  | None => 0%Z
  end.

Definition retry_count_from_labels (labels : list jval) : Z := count_from_labels labels "retry-count:".
Definition code_failure_count_from_labels (labels : list jval) : Z := count_from_labels labels "code-fail-count:".

(** [str(issue["id"])]. *)
Definition issue_id (issue : dict) : res string := v <-? ditem issue "id" ;; Ok (jtext v).
(** [issue.get("name", "")]. *)
Definition issue_name (issue : dict) : string := jtext (default (JStr "") (issue !! "name")).

(** The names with which a counter label was raised by one. *)
Definition incremented (prefix : string) (existing : list string) : list string :=
  let mine := fun label => startswith (lower label) (lower prefix) in
  let current := foldl (fun current label => if mine label then default current (count_of label) else current)
                   0%Z existing in
  List.filter (fun label => negb (mine label)) existing ++ [prefix +:+ " " +:+ str_of_Z (current + 1)].

Section Labels.
Context (client : board_client).

Definition list_issues : BM (list dict) := ask (bcl_list client) BC_list.
Definition transition_issue (task_id state : string) : BM unit := ask (bcl_write client) (BC_transition task_id state).
Definition comment_issue (task_id text : string) : BM unit := ask (bcl_write client) (BC_comment task_id text).

(** Replace the labels of the issue; a failure is logged and forgotten. *)
Definition replace_labels (names : list string) : BM unit :=
  se_try
    (issue <<- the_issue ;;
     task_id <<- se_lift (issue_id issue) ;;
     _ <<- ask (bcl_write client) (BC_labels task_id names) ;;
     set_issue (store_label_names issue names))
    (fun _ => se_ret tt).

Definition add_label (new_label : string) : BM unit :=
  issue <<- the_issue ;;
  let existing := label_names issue in
  if str_in new_label existing then se_ret tt else replace_labels (existing ++ [new_label]).

Definition remove_labels (labels_to_remove : list string) : BM unit :=
  issue <<- the_issue ;;
  let existing := label_names issue in
  let removal := map lower labels_to_remove in
  let filtered := List.filter (fun label => negb (str_in (lower label) removal)) existing in
  if bool_decide (filtered = existing) then se_ret tt else replace_labels filtered.

Definition clear_blocked_reason_labels : BM unit := remove_labels BLOCKED_REASON_LABELS.

Definition increment_count_label (prefix : string) : BM unit :=
  issue <<- the_issue ;; replace_labels (incremented prefix (label_names issue)).

Definition increment_retry_count : BM unit := increment_count_label "retry-count:".
Definition increment_code_failure_count : BM unit := increment_count_label "code-fail-count:".
End Labels.

(** ** Admission: settings.py *)

Record TaskAdmissionSettings := {
  ta_author_allowlist : list string;
  ta_reject_label : string;
  ta_trusted_label_authors : list string }.

Definition issue_author_identities (issue : dict) : list string :=
  flat_map (fun key =>
    match dget issue key with
    | JStr s => [s]
    | JTime t => [isoformat t]
    | JObj l => omap (fun k => match od_get k l with
                               | Some v => if jtruthy v then Some (jtext v) else None
                               | None => None
                               end) ["id"; "email"; "display_name"; "name"]
    | _ => []
    end) ["created_by"; "created_by_id"; "author"; "creator"].

Definition fold_name (s : string) : string := lower (strip s).

(** Whether an identity is on a list, whatever the case and the spaces. *)
Definition listed (allow : list string) (identities : list string) : bool :=
  let allow := map fold_name (List.filter (fun a => str_truthy (strip a)) allow) in
  existsb (fun ident => str_truthy ident && str_in (fold_name ident) allow) identities.

Definition enforced (a : TaskAdmissionSettings) : bool := list_truthy (ta_author_allowlist a).
Definition allows (a : TaskAdmissionSettings) (identities : list string) : bool :=
  negb (enforced a) || listed (ta_author_allowlist a) identities.
Definition label_trust_allows (a : TaskAdmissionSettings) (identities : list string) : bool :=
  listed (ta_trusted_label_authors a) identities.

(** The settings of a repository, and those of the fleet, that the workers read. *)
Record WorkerRepo := {
  wr_clone_url : string;
  wr_await_review : bool;
  wr_max_daily_executions : option Z;
  wr_require_explicit_approval : bool;
  wr_default_branch : string;
  wr_sandbox_base_branch : option string;
  wr_local_path : option string }.

Record WorkerSettings := {
  ws_repos : list (string * WorkerRepo);
  ws_task_admission : option TaskAdmissionSettings;
  ws_max_open_fleet_tasks : Z;
  ws_max_descendants_per_root : Z;
  ws_open_pr_gate_stale_hours : Q;
  ws_code_failure_retry_cap : Z;
  ws_git_token : option string }.

Definition repo_of (settings : WorkerSettings) (key : string) : option WorkerRepo := od_get key (ws_repos settings).

(** The labels that planning sees. *)
Definition build_forwarded_labels (labels : list jval) (repo_cfg : option WorkerRepo) (issue : dict)
    (settings : WorkerSettings) : list string :=
  let explicit_required := match repo_cfg with Some r => wr_require_explicit_approval r | None => false end in
  let creator_trusted := match ws_task_admission settings with
                         | Some a => label_trust_allows a (issue_author_identities issue)
                         | None => false
                         end in
  let keep := fun name =>
    let low := lower name in
    String.eqb low "review_required" ||
    startswith low "source:" &&
      (negb (str_in low TRUSTED_SOURCE_LABELS) || negb explicit_required && creator_trusted) in
  List.filter keep (map lname labels) ++ (if explicit_required then ["review_required"] else []).

(** ** _text.py *)

Section Description.
Context (unescape : string -> string).                 (* [html.unescape] *)

Definition lt : ascii := "<".
Definition gt : ascii := ">".
Definition newline : ascii := ascii_of_nat 10.

(** The rest after a line-break tag at the start of [s]. *)
Definition after_br (s : string) : option string :=
  if startswith s "<br" then
    let r := drop_while is_space (str_drop 3 s) in
    let r := if startswith r "/" then str_drop 1 r else r in
    if startswith r ">" then Some (str_drop 1 r) else None
  else None.

(** The rest after a tag at the start of [s]. *)
Definition after_tag (s : string) : option string :=
  match s with
  | String c r =>
      if Ascii.eqb c lt && str_truthy (take_while (fun d => negb (Ascii.eqb d gt)) r)
      then match drop_while (fun d => negb (Ascii.eqb d gt)) r with
           | String _ rest => Some rest
           | EmptyString => None
           end
      else None
  | EmptyString => None
  end.

(** Replace what [after] matches, from the left; every step consumes a
    character, so the length is fuel enough. *)
Fixpoint sub_fuel (fuel : nat) (after : string -> option string) (rep s : string) : string :=
  match fuel, s with
  | S fuel, String c s' =>
      match after s with
      | Some rest => rep +:+ sub_fuel fuel after rep rest
      | None => String c (sub_fuel fuel after rep s')
      end
  | _, _ => s
  end.
Definition sub (after : string -> option string) (rep s : string) : string :=
  sub_fuel (String.length s) after rep s.

(** [a or b] on JSON values. *)
Definition jor (a b : jval) : jval := if jtruthy a then a else b.

Definition desc_text (issue : dict) : string :=
  let text := jtext (jor (dget issue "description") (jor (dget issue "description_stripped") (JStr ""))) in
  if str_truthy text then text
  else
    let html := jtext (jor (dget issue "description_html") (JStr "")) in
    if str_truthy html then unescape (sub after_tag "" (sub after_br (String newline "") html)) else text.

(** What follows a Goal heading at the start of [s]. *)
Definition after_goal_heading (s : string) : option string :=
  if startswith s "##" then
    let r := str_drop 2 s in
    let g := lstrip r in
    if str_truthy (take_while is_space r) && startswith (lower g) "goal" then
      let t := str_drop 4 g in
      if has_char newline (take_while is_space t) then Some (lstrip t) else None
    else None
  else None.

(** The text before the next heading. *)
Fixpoint before_heading (s : string) : string :=
  match s with
  | String c s' => if startswith s "##" then "" else String c (before_heading s')
  | EmptyString => ""
  end.

Fixpoint goal_section (s : string) : option string :=
  match after_goal_heading s with
  | Some rest => Some (strip (before_heading rest))
  | None => match s with String _ s' => goal_section s' | EmptyString => None end
  end.

Definition extract_goal (description title : string) : string :=
  match goal_section description with
  | Some text => if str_truthy text then text else title
  | None => title
  end.

Definition task_type_from_kind (task_kind : string) : string :=
  default "chore" (od_get task_kind
    [("goal", "feature"); ("test", "test"); ("test_campaign", "test"); ("improve", "refactor");
     ("improve_campaign", "refactor"); ("spec-author", "chore")]).
End Description.

(** ** work_ceiling.py *)

Definition FLEET_ORIGIN_PREFIXES : list string := ["source: board_worker"; "source: autonomy"; "source: improve"].
Definition FLEET_ORIGIN_LABEL_KEYS : list string := ["original-task-id"; "handoff-reason"; "lineage-id"].
Definition CEILING_TERMINAL_STATES : list string := ["done"; "cancelled"; "canceled"].

Definition is_fleet_created (issue : dict) : bool :=
  let labels := labels_field issue in
  existsb (fun n => existsb (startswith (lower n)) FLEET_ORIGIN_PREFIXES) (map lname labels) ||
  existsb (fun key => str_truthy (label_value labels key)) FLEET_ORIGIN_LABEL_KEYS.

(** The name of the state, as text; spaces around it are left out. *)
Definition board_state (issue : dict) : string :=
  strip match dget issue "state" with
        | JObj l => jtext (default (JStr "") (od_get "name" l))
        | v => if jtruthy v then jtext v else ""
        end.

Definition is_open (issue : dict) : bool := negb (str_in (lower (board_state issue)) CEILING_TERMINAL_STATES).

Definition fleet_open_work_count (issues : list dict) : Z :=
  count_if (fun i => is_open i && is_fleet_created i) issues.

Definition open_descendants_of_root (issues : list dict) (root : string) : Z :=
  let target := lower ("lineage-root: " +:+ root) in
  count_if (fun i => is_open i && existsb (fun n => String.eqb (lower n) target) (map lname (labels_field i))) issues.

Section Ceiling.
Context (client : board_client) (settings : WorkerSettings).

(** Whether [count] of the board has reached [cap]; an unreadable board does
    not throttle. *)
Definition cap_reached (cap : Z) (count : list dict -> Z) : BM bool :=
  se_try (issues <<- list_issues client ;; se_ret (cap <=? count issues)%Z) (fun _ => se_ret false).

Definition root_descendant_cap_reached (root : string) : BM bool :=
  let cap := ws_max_descendants_per_root settings in
  if (cap <=? 0)%Z || negb (str_truthy root) then se_ret false
  else cap_reached cap (fun issues => open_descendants_of_root issues root).

Definition ceiling_reached : BM bool :=
  let cap := ws_max_open_fleet_tasks settings in
  if (cap <=? 0)%Z then se_ret false else cap_reached cap fleet_open_work_count.
End Ceiling.
