(* ===== verification/BoardTrace.v ===== *)
(** * Reasoning about what a worker asks of the board

    Triples over the calls a computation adds to the trace, the operations on
    labels in closed form, and what filtering labels leaves of their values. *)
From S2P Require Import Prelude PyStr PyData TextLines BoardIssues.
From Stdlib Require Import Ascii.

Create HintDb board.

(** ** Calls *)

(** Every call that [m] makes satisfies [P], whatever it returns. *)
Definition asks {A} (P : board_call -> Prop) (m : BM A) : Prop :=
  forall w, exists cs, bw_calls (fst (m w)) = bw_calls w ++ cs /\ Forall P cs.

Section Asks.
Context (P : board_call -> Prop).

Lemma asks_silent {A} (m : BM A) : (forall w, bw_calls (fst (m w)) = bw_calls w) -> asks P m.
Proof. intros H w. exists []. by rewrite H, app_nil_r. Qed.

Lemma asks_ret {A} (a : A) : asks P (se_ret a).
Proof. by apply asks_silent. Qed.
Lemma asks_lift {A} (r : res A) : asks P (se_lift r).
Proof. by apply asks_silent. Qed.
Lemma asks_get {A} (f : board_world -> res A) : asks P (se_get f).
Proof. by apply asks_silent. Qed.
Lemma asks_set i : asks P (set_issue i).
Proof. by apply asks_silent. Qed.

Lemma asks_ask {A} (answer : list board_call -> res A) c : P c -> asks P (ask answer c).
Proof. intros H w. exists [c]. split; [done|]. by constructor. Qed.

Lemma asks_bind {A B} (m : BM A) (k : A -> BM B) : asks P m -> (forall a, asks P (k a)) -> asks P (se_bind m k).
Proof.
  intros Hm Hk w. unfold se_bind. destruct (Hm w) as (cs & Hc & Hp). destruct (m w) as [w1 [a|e]]; cbn [fst] in *.
  - destruct (Hk a w1) as (cs' & Hc' & Hp'). exists (cs ++ cs'). rewrite Hc', Hc, app_assoc. split; [done|].
    by apply Forall_app.
  - by exists cs.
Qed.

Lemma asks_try {A} (m : BM A) h : asks P m -> (forall e, asks P (h e)) -> asks P (se_try m h).
Proof.
  intros Hm Hk w. unfold se_try. destruct (Hm w) as (cs & Hc & Hp). destruct (m w) as [w1 [a|e]]; cbn [fst] in *.
  - by exists cs.
  - destruct (Hk e w1) as (cs' & Hc' & Hp'). exists (cs ++ cs'). rewrite Hc', Hc, app_assoc. split; [done|].
    by apply Forall_app.
Qed.

Lemma asks_on {A} i (m : BM A) : asks P m -> asks P (_ <<- set_issue i ;; m).
Proof. intros H. apply asks_bind; [apply asks_set | done]. Qed.
End Asks.

#[export] Hint Resolve asks_ret asks_lift asks_get asks_set asks_on : board.

(** Follow the structure of a computation. *)
Ltac asks_step :=
  match goal with
  | |- asks _ (se_bind _ _) => apply asks_bind; [|intros ?]
  | |- asks _ (se_try _ _) => apply asks_try; [|intros ?]
  | |- asks _ (ask _ _) => apply asks_ask
  | |- asks _ (se_ret _) => apply asks_ret
  | |- asks _ (se_lift _) => apply asks_lift
  | |- asks _ (se_get _) => apply asks_get
  | |- asks _ (set_issue _) => apply asks_set
  | |- asks _ (if ?b then _ else _) => destruct b eqn:?
  | |- asks _ (match ?x with _ => _ end) => destruct x eqn:?
  | |- asks _ (let _ := _ in _) => cbv zeta
  end.
Ltac asks_auto := repeat (asks_step || solve [eauto with board]).

Lemma asks_weaken {A} (P Q : board_call -> Prop) (m : BM A) : (forall c, P c -> Q c) -> asks P m -> asks Q m.
Proof. intros H Hm w. destruct (Hm w) as (cs & ? & ?). exists cs. split; [done|]. by eapply Forall_impl. Qed.

(** A computation that never raises. *)
Definition total {A} (m : BM A) : Prop := forall w, exists a, snd (m w) = Ok a.

Lemma total_ret {A} (a : A) : total (se_ret a).
Proof. intros w. by exists a. Qed.
Lemma total_issue : total the_issue.
Proof. intros w. by eexists. Qed.
Lemma total_bind {A B} (m : BM A) (k : A -> BM B) : total m -> (forall a, total (k a)) -> total (se_bind m k).
Proof.
  intros Hm Hk w. unfold se_bind. destruct (Hm w) as [a Ha]. destruct (m w) as [w1 r]. cbn in Ha. subst r. apply Hk.
Qed.
Lemma total_try {A} (m : BM A) h : (forall e, total (h e)) -> total (se_try m h).
Proof.
  intros Hh w. unfold se_try. destruct (m w) as [w1 [a|e]]; [by exists a | apply Hh].
Qed.
Lemma total_on {A} i (m : BM A) : total m -> total (_ <<- set_issue i ;; m).
Proof. intros H w. unfold se_bind. apply H. Qed.
#[export] Hint Resolve total_ret total_issue total_bind total_try total_on : board.

(** ** Labels *)

Definition is_labels (c : board_call) : Prop := match c with BC_labels _ _ => True | _ => False end.

Section Labels.
Context (client : board_client).

Lemma replace_labels_asks P names : (forall id, P (BC_labels id names)) -> asks P (replace_labels client names).
Proof. intros H. unfold replace_labels, the_issue. asks_auto. Qed.
Lemma replace_labels_total names : total (replace_labels client names).
Proof. apply total_try. intros e. apply total_ret. Qed.

Lemma add_label_asks P l : (forall id names, P (BC_labels id names)) -> asks P (add_label client l).
Proof. intros H. unfold add_label, the_issue. asks_auto. by apply replace_labels_asks. Qed.
Lemma add_label_total l : total (add_label client l).
Proof.
  apply total_bind; [apply total_issue|]. intros i. cbv zeta.
  match goal with |- total (if ?b then _ else _) => destruct b end; [apply total_ret | apply replace_labels_total].
Qed.

Lemma remove_labels_asks P ls : (forall id names, P (BC_labels id names)) -> asks P (remove_labels client ls).
Proof. intros H. unfold remove_labels, the_issue. asks_auto. by apply replace_labels_asks. Qed.
Lemma remove_labels_total ls : total (remove_labels client ls).
Proof.
  apply total_bind; [apply total_issue|]. intros i. cbv zeta.
  match goal with |- total (if ?b then _ else _) => destruct b end; [apply total_ret | apply replace_labels_total].
Qed.

Lemma increment_asks P p : (forall id names, P (BC_labels id names)) -> asks P (increment_count_label client p).
Proof. intros H. unfold increment_count_label, the_issue. asks_auto. by apply replace_labels_asks. Qed.

(** The copy of the issue after its labels were replaced: the old one or the
    new one. *)
Lemma replace_labels_issue names w :
  let w' := fst (replace_labels client names w) in
  bw_issue w' = bw_issue w \/ bw_issue w' = store_label_names (bw_issue w) names.
Proof.
  cbv zeta. unfold replace_labels, se_try, se_bind, the_issue, se_get, se_lift, ask, set_issue.
  destruct (issue_id (bw_issue w)) as [id|e]; [|by left].
  destruct (bcl_write client _); [by right | by left].
Qed.
End Labels.

Lemma labels_field_store i names : labels_field (store_label_names i names) = map JStr names.
Proof. unfold labels_field, store_label_names. by rewrite dget_insert_eq. Qed.

(** A name without surrounding spaces. *)
Definition tidy (s : string) : Prop := strip s = s.

Lemma lname_tidy l : tidy (lname l).
Proof. apply strip_idem. Qed.

Lemma lname_stored names : Forall tidy names -> map lname (map JStr names) = names.
Proof. induction 1 as [|n ns Hn _ IH]; [done|]. cbn [map]. f_equal; [exact Hn | exact IH]. Qed.

Lemma label_names_tidy i : Forall tidy (label_names i).
Proof.
  unfold label_names. apply filter_Forall. apply Forall_map, Forall_forall. intros l _. apply lname_tidy.
Qed.

(** The first element that satisfies [p] is not lost by a filter that keeps
    those that do. *)
Lemma find_first_filter {A} (p q : A -> bool) l :
  (forall x, p x = true -> q x = true) -> find_first p (List.filter q l) = find_first p l.
Proof.
  intros H. unfold find_first. induction l as [|x l IH]; [done|]. cbn [List.filter List.find].
  destruct (p x) eqn:Hp; [rewrite (H x Hp); cbn [List.find]; by rewrite Hp|].
  destruct (q x); cbn [List.find]; [by rewrite Hp | done].
Qed.

Lemma startswith_truthy s p : str_truthy p = true -> startswith s p = true -> str_truthy s = true.
Proof. destruct p; [done|]. by destruct s. Qed.

Lemma lower_truthy s : str_truthy (lower s) = str_truthy s.
Proof. by destruct s. Qed.

(** Filtering the names of an issue keeps the values of the labels it does not
    drop. *)
Lemma label_value_filtered i q prefix :
  (forall name, startswith (lower name) (lower prefix +:+ ":") = true -> q name = true) ->
  label_value (map JStr (List.filter q (label_names i))) prefix = label_value (labels_field i) prefix.
Proof.
  intros Hq. unfold label_value. rewrite lname_stored by apply filter_Forall, label_names_tidy.
  rewrite find_first_filter by done. unfold label_names. rewrite find_first_filter; [done|].
  intros name H. rewrite <-lower_truthy. eapply startswith_truthy; [|exact H].
  by destruct (lower prefix).
Qed.
