(* ===== verification/BoardClaim.v ===== *)
(** * Claiming the next task

    entrypoints/board_worker/claim.py: of the issues the board lists, those a
    role may take, in the order of the queue; the first one is claimed unless
    its goal is too thin or an open pull request holds its repository.  Then the
    order of the queue and what a claim takes from it. *)
From Stdlib Require Import Ascii.
From Stdlib Require Import Ascii Sorting.Sorted.
From S2P Require Import Prelude PyStr PyData TextLines BoardIssues BoardTrace.

Definition MIN_GOAL_TEXT_CHARS : Z := 40.
Definition TOUCHED_STATES : list string := ["running"; "in review"; "done"; "blocked"].
Definition SPEC_AUTHOR_REPO_KEY : string := "OperationsCenter".

Definition PRIORITY_ORDER (p : string) : Z :=
  default 4%Z (od_get p [("urgent", 0%Z); ("high", 1%Z); ("medium", 2%Z); ("low", 3%Z); ("none", 4%Z)]).
Definition PROPOSAL_PRIORITY_ORDER (p : string) : Z :=
  default 2%Z (od_get p [("critical", 0%Z); ("high", 1%Z); ("normal", 2%Z); ("low", 3%Z)]).

Definition proposal_priority_rank (labels : list jval) : Z :=
  let raw := label_value labels "priority" in
  PROPOSAL_PRIORITY_ORDER (lower (strip (if str_truthy raw then raw else "normal"))).

(** Timestamps of the board: texts that do not parse are [None]. *)
Definition parse_time (v : jval) : option datetime := match v with JTime t => Some t | _ => None end.

(** One issue of [_count_daily_executions]. *)
Definition count_execution (now : datetime) (exec_today : list (string * Z)) (issue : dict) : res (list (string * Z)) :=
  if negb (str_in (lower (board_state issue)) TOUCHED_STATES) then Ok exec_today
  else match parse_time (dget issue "updated_at") with
  | None => Ok exec_today
  | Some ts =>
      age <-? dt_diff now ts ;;
      if (days 1 <? age)%Z then Ok exec_today
      else
        let rk := label_value (labels_field issue) "repo" in
        Ok (if str_truthy rk then od_set rk (default 0%Z (od_get rk exec_today) + 1)%Z exec_today else exec_today)
  end.

Definition count_daily_executions (now : datetime) (issues : list dict) : res (list (string * Z)) :=
  foldM (count_execution now) [] issues.

(** The admission of the author. *)
Definition author_allowed (issue : dict) (settings : WorkerSettings) : bool :=
  match ws_task_admission settings with
  | None => true
  | Some admission => negb (enforced admission) || allows admission (issue_author_identities issue)
  end.

(** The repository a task is counted for. *)
Definition task_repo (issue : dict) : string :=
  if String.eqb (label_value (labels_field issue) "task-kind") "spec-author" then SPEC_AUTHOR_REPO_KEY
  else label_value (labels_field issue) "repo".

(** Whether the quota of a repository is used up; a quota of zero is none. *)
Definition quota_reached (settings : WorkerSettings) (exec_today : list (string * Z)) (repo_key : string) : bool :=
  match r ← repo_of settings repo_key; wr_max_daily_executions r with
  | Some cap => negb (cap =? 0)%Z && (cap <=? default 0 (od_get repo_key exec_today))%Z
  | None => false
  end.

(** What [_build_candidates] asks of an issue before it looks at its author. *)
Definition eligible (kinds : list string) (settings : WorkerSettings) (issue : dict) : bool :=
  String.eqb (board_state issue) STATE_READY &&
  str_in (label_value (labels_field issue) "task-kind") kinds &&
  str_in (task_repo issue) (map fst (ws_repos settings)).

(** Do [m] with [issue] as the worker's issue. *)
Definition on_issue {A} (issue : dict) (m : BM A) : BM A := _ <<- set_issue issue ;; m.

Definition pr_text (pr : dict) (k : string) : string := jtext (default (JStr "") (pr !! k)).

(** A pull request that counts for the gate. *)
Definition gate_candidate (pr : dict) : bool :=
  let ref := match dget pr "head" with JObj l => jtext (default (JStr "") (od_get "ref" l)) | _ => "" end in
  negb (startswith ref "spec-author/") && negb (jeq_str (dget pr "mergeable") "UNKNOWN").

(** Whether a pull request is idle for too long to block. *)
Definition gate_stale (stale_cutoff : option datetime) (pr : dict) : res bool :=
  match stale_cutoff, parse_time (dget pr "updated_at") with
  | Some cutoff, Some updated => dt_lt updated cutoff
  | _, _ => Ok false
  end.

Definition stale_cutoff_of (now : datetime) (stale_hours : Q) : option datetime :=
  if Qlt_b 0 stale_hours then Some (sub_us now (round_half_even (stale_hours * inject_Z (hours 1)))) else None.

(** The pull requests that block, of those the host lists. *)
Definition gate_blocking (now : datetime) (stale_hours : Q) (open_prs : list dict) : res (list dict) :=
  filterM (fun pr => stale <-? gate_stale (stale_cutoff_of now stale_hours) pr ;; Ok (negb stale))
    (List.filter gate_candidate open_prs).

(** ** The order of the queue *)

Record queue_key := {
  qk_improve : Z;
  qk_plane : Z;
  qk_created : string;
  qk_proposal : Z }.

Definition sort_key (issue : dict) : queue_key :=
  let labs := map (fun l => lower (lname l)) (labels_field issue) in
  {| qk_improve := if str_in "source: improve-suggestion" labs then 0 else 1;
     qk_plane := PRIORITY_ORDER (lower (jtext (jor (dget issue "priority") (JStr "none"))));
     qk_created := jtext (default (JStr "") (issue !! "created_at"));
     qk_proposal := proposal_priority_rank (labels_field issue) |}.

(** The lexicographic order of the keys. *)
Definition key_leb (a b : queue_key) : bool :=
  (qk_improve a <? qk_improve b)%Z ||
  ((qk_improve a =? qk_improve b)%Z &&
    ((qk_plane a <? qk_plane b)%Z ||
     ((qk_plane a =? qk_plane b)%Z &&
       (negb (str_leb (qk_created b) (qk_created a)) ||
        (String.eqb (qk_created a) (qk_created b) && (qk_proposal a <=? qk_proposal b)%Z))))).

Definition queue_leb (a b : dict) : bool := key_leb (sort_key a) (sort_key b).

Section Claim.
Context (unescape : string -> string) (client : board_client) (settings : WorkerSettings)
        (now : list board_call -> datetime) (role : string).

(** Mark an issue whose author may not give work, once. *)
Definition flag_unauthorized_author (issue : dict) : BM unit :=
  match ws_task_admission settings with
  | None => se_ret tt
  | Some admission =>
      if has_label (labels_field issue) (ta_reject_label admission) then se_ret tt
      else on_issue issue (se_try (add_label client (ta_reject_label admission)) (fun _ => se_ret tt))
  end.

Fixpoint build_candidates (kinds : list string) (exec_today : list (string * Z)) (issues : list dict)
    : BM (list dict) :=
  match issues with
  | [] => se_ret []
  | issue :: rest =>
      if negb (eligible kinds settings issue) then build_candidates kinds exec_today rest
      else if negb (author_allowed issue settings) then
        _ <<- flag_unauthorized_author issue ;; build_candidates kinds exec_today rest
      else if quota_reached settings exec_today (task_repo issue) then build_candidates kinds exec_today rest
      else more <<- build_candidates kinds exec_today rest ;; se_ret (issue :: more)
  end.

Definition block_thin_task (issue : dict) (goal_len : Z) : BM unit :=
  task_id <<- se_lift (issue_id issue) ;;
  on_issue issue (se_try
    (_ <<- transition_issue client task_id STATE_BLOCKED ;;
     _ <<- comment_issue client task_id
       ("board_worker[" +:+ role +:+ "] refused to claim — goal text too thin (" +:+ str_of_Z goal_len +:+
        " chars; minimum " +:+ str_of_Z MIN_GOAL_TEXT_CHARS +:+ "). " +:+
        "Add concrete description and re-promote to Ready for AI.") ;;
     add_label client "thin-goal")
    (fun _ => se_ret tt)).

Definition open_pr_gate_clear (issue : dict) : BM bool :=
  let gate_repo_key := label_value (labels_field issue) "repo" in
  let clone_url := wr_clone_url <$> (if str_truthy gate_repo_key then repo_of settings gate_repo_key else None) in
  if negb (opt_truthy (ws_git_token settings)) || negb (opt_truthy clone_url) then se_ret true
  else
    se_try
      (open_prs <<- ask (bcl_prs client) (BC_prs (str_or clone_url "")) ;;
       blocking <<- se_get (fun w => gate_blocking (now (bw_calls w)) (ws_open_pr_gate_stale_hours settings) open_prs) ;;
       if list_truthy blocking then
         _ <<- on_issue issue (add_label client "OPEN_PR_GATE") ;; se_ret false
       else se_ret true)
      (fun _ => se_ret true).

(** [claim_next]: the claimed issue with the labels it was left with.  The key
    of an unknown role raises. *)
Definition claim_next : BM (option dict) :=
  kinds <<- se_lift match ROLE_KINDS role with Some k => Ok k | None => Raise (KeyError role) end ;;
  listed <<- se_try (issues <<- list_issues client ;; se_ret (Some issues)) (fun _ => se_ret None) ;;
  match listed with
  | None => se_ret None
  | Some issues =>
      exec_today <<- se_get (fun w => count_daily_executions (now (bw_calls w)) issues) ;;
      candidates <<- build_candidates kinds exec_today issues ;;
      match sorted_by queue_leb candidates with
      | [] => se_ret None
      | issue :: _ =>
          task_id <<- se_lift (issue_id issue) ;;
          let goal := strip (extract_goal (desc_text unescape issue) (issue_name issue)) in
          if negb (String.eqb (label_value (labels_field issue) "task-kind") "spec-author") &&
             (Z.of_nat (String.length goal) <? MIN_GOAL_TEXT_CHARS)%Z
          then _ <<- block_thin_task issue (Z.of_nat (String.length goal)) ;; se_ret None
          else
            clear <<- (if String.eqb role "goal" then open_pr_gate_clear issue else se_ret true) ;;
            if negb clear then se_ret None
            else
              se_try
                (_ <<- transition_issue client task_id STATE_RUNNING ;;
                 _ <<- on_issue issue (clear_blocked_reason_labels client) ;;
                 i <<- the_issue ;; se_ret (Some i))
                (fun _ => se_ret None)
      end
  end.
End Claim.

(** ** What a claim guarantees

    The first issue of the queue that the role, the author and the quota allow
    is the one that is claimed; workers of different roles do not compete. *)

(** ** The order of the queue *)

Lemma str_leb_refl a : str_leb a a = true.
Proof. destruct (str_leb a a) eqn:E; [done|]. by rewrite (str_leb_total _ _ E) in E. Qed.

Lemma key_leb_spec a b :
  key_leb a b = true <->
  (qk_improve a < qk_improve b \/
   qk_improve a = qk_improve b /\ (qk_plane a < qk_plane b \/
   qk_plane a = qk_plane b /\ (str_leb (qk_created b) (qk_created a) = false \/
   qk_created a = qk_created b /\ qk_proposal a <= qk_proposal b)))%Z.
Proof.
  unfold key_leb.
  rewrite !orb_true_iff, !andb_true_iff, !orb_true_iff, !andb_true_iff, !orb_true_iff, !andb_true_iff.
  rewrite !Z.ltb_lt, !Z.eqb_eq, Z.leb_le, negb_true_iff, String.eqb_eq. done.
Qed.

Lemma str_lt_total a b : str_leb b a = false \/ a = b \/ str_leb a b = false.
Proof.
  destruct (str_leb b a) eqn:E1; [|by left]. destruct (str_leb a b) eqn:E2; [|by right; right].
  right; left. by apply str_leb_antisym.
Qed.

Lemma queue_leb_total a b : queue_leb a b = false -> queue_leb b a = true.
Proof.
  unfold queue_leb. intros H. apply key_leb_spec. assert (Hn : ~ key_leb (sort_key a) (sort_key b) = true) by congruence.
  rewrite key_leb_spec in Hn. set (x := sort_key a) in *. set (y := sort_key b) in *.
  destruct (Z.lt_trichotomy (qk_improve x) (qk_improve y)) as [?|[?|?]]; [tauto | | left; lia].
  destruct (Z.lt_trichotomy (qk_plane x) (qk_plane y)) as [?|[?|?]]; [tauto | | right; split; [lia|left; lia]].
  right. split; [done|]. right. split; [done|].
  destruct (str_lt_total (qk_created x) (qk_created y)) as [?|[?|?]]; [tauto | | by left].
  right. split; [done|]. destruct (Z.le_gt_cases (qk_proposal x) (qk_proposal y)); [tauto|lia].
Qed.

Lemma str_lt_trans a b c : str_leb b a = false -> str_leb c b = false -> str_leb c a = false.
Proof.
  intros H1 H2. destruct (str_leb c a) eqn:E; [|done].
  assert (H3 : str_leb a b = true) by by apply str_leb_total.
  by rewrite (str_leb_trans _ _ _ E H3) in H2.
Qed.

Lemma queue_leb_trans a b c : queue_leb a b = true -> queue_leb b c = true -> queue_leb a c = true.
Proof.
  unfold queue_leb. rewrite !key_leb_spec.
  set (x := sort_key a). set (y := sort_key b). set (z := sort_key c).
  intros H1 H2.
  assert (Hs : forall P Q : Prop, (str_leb (qk_created y) (qk_created x) = false \/ (qk_created x = qk_created y /\ P)) ->
     (str_leb (qk_created z) (qk_created y) = false \/ (qk_created y = qk_created z /\ Q)) ->
     str_leb (qk_created z) (qk_created x) = false \/ (qk_created x = qk_created z /\ P /\ Q)).
  { intros P Q [A|[A A']] [B|[B B']].
    - left. by eapply str_lt_trans.
    - left. by rewrite <-B.
    - left. by rewrite A.
    - right. by rewrite A, B. }
  specialize (Hs (qk_proposal x <= qk_proposal y)%Z (qk_proposal y <= qk_proposal z)%Z).
  destruct H1 as [H1|[E1 [H1|[F1 H1]]]], H2 as [H2|[E2 [H2|[F2 H2]]]]; try (left; lia);
    right; (split; [lia|]); try (left; lia).
  right. split; [lia|]. destruct (Hs H1 H2) as [?|[? [? ?]]]; [by left|]. right. split; [done|lia].
Qed.

Lemma queue_first candidates issue rest :
  sorted_by queue_leb candidates = issue :: rest ->
  issue ∈ candidates /\ forall o, o ∈ candidates -> queue_leb issue o = true.
Proof.
  intros H. pose proof (sorted_by_perm queue_leb candidates) as Hp. rewrite H in Hp. split.
  - rewrite <-Hp. constructor.
  - intros o Ho. rewrite <-Hp in Ho. apply elem_of_cons in Ho as [->|Ho].
    + apply key_leb_spec. right. split; [done|]. right. split; [done|]. right. split; [done|lia].
    + pose proof (sorted_by_sorted queue_leb candidates) as Hs. rewrite H in Hs.
      assert (StronglySorted (fun a b => queue_leb a b = true) (issue :: rest)) as Hss.
      { apply Hs; [exact queue_leb_total | exact queue_leb_trans]. }
      inversion Hss as [|? ? _ Hf]; subst. by eapply Forall_forall in Hf.
Qed.

(** ** Candidates *)

(** What a role may claim under the quotas. *)
Definition claimable (kinds : list string) (settings : WorkerSettings) (exec_today : list (string * Z)) (i : dict) : bool :=
  eligible kinds settings i && author_allowed i settings && negb (quota_reached settings exec_today (task_repo i)).

Lemma role_kinds_disjoint r1 r2 k1 k2 x :
  ROLE_KINDS r1 = Some k1 -> ROLE_KINDS r2 = Some k2 -> x ∈ k1 -> x ∈ k2 -> r1 = r2.
Proof.
  assert (H : forall r k, ROLE_KINDS r = Some k ->
    (r, k) ∈ [("goal", ["goal"]); ("test", ["test"; "test_campaign"]); ("improve", ["improve"; "improve_campaign"]);
              ("spec-author", ["spec-author"])]).
  { intros r k. unfold ROLE_KINDS, od_get. cbn. repeat (case_decide; [intros [= <-]; subst; set_solver|]). done. }
  intros H1%H H2%H. repeat (apply elem_of_cons in H1 as [[= -> ->]|H1]); try (by apply elem_of_nil in H1);
    repeat (apply elem_of_cons in H2 as [[= -> ->]|H2]); try (by apply elem_of_nil in H2); set_solver.
Qed.

Section Claims.
Context (unescape : string -> string) (client : board_client) (settings : WorkerSettings)
        (now : list board_call -> datetime) (role : string).

Lemma flag_asks i : asks is_labels (flag_unauthorized_author client settings i).
Proof. unfold flag_unauthorized_author, on_issue. asks_auto. by apply add_label_asks. Qed.

Lemma flag_total i : total (flag_unauthorized_author client settings i).
Proof.
  unfold flag_unauthorized_author, on_issue. destruct (ws_task_admission settings); [|apply total_ret].
  destruct (has_label _ _); [apply total_ret|]. apply total_on, total_try. intros e. apply total_ret.
Qed.

Lemma build_candidates_asks kinds exec issues : asks is_labels (build_candidates client settings kinds exec issues).
Proof.
  induction issues as [|i issues IH]; cbn [build_candidates]; [apply asks_ret|].
  asks_auto. apply flag_asks.
Qed.

Lemma build_candidates_value kinds exec issues w :
  snd (build_candidates client settings kinds exec issues w) = Ok (List.filter (claimable kinds settings exec) issues).
Proof.
  revert w. induction issues as [|i issues IH]; intros w; cbn [build_candidates List.filter]; [done|].
  unfold claimable at 1. destruct (eligible kinds settings i); cbn [negb andb]; [|apply IH].
  destruct (author_allowed i settings); cbn [negb andb].
  - destruct (quota_reached _ _ _); cbn [negb]; [apply IH|].
    unfold se_bind. specialize (IH w). destruct (build_candidates _ _ _ _ _ w) as [w1 r]. cbn in IH. by subst.
  - unfold se_bind. destruct (flag_total i w) as [u Hu]. destruct (flag_unauthorized_author _ _ i w) as [w1 r].
    cbn in Hu. subst r. apply IH.
Qed.
End Claims.

(** ** Transitions to Running *)

Definition to_running (c : board_call) : bool :=
  match c with BC_transition _ s => String.eqb s STATE_RUNNING | _ => false end.
Definition starts_in (cs : list board_call) : list board_call := List.filter to_running cs.

(** [m] starts at most [n] tasks. *)
Definition starts {A} (n : nat) (m : BM A) : Prop :=
  forall w, exists cs, bw_calls (fst (m w)) = bw_calls w ++ cs /\ length (starts_in cs) <= n.

Abbreviation starts_none := (asks (fun c => to_running c = false)).

Lemma starts_in_none cs : Forall (fun c => to_running c = false) cs -> starts_in cs = [].
Proof. apply filter_none. Qed.

Lemma starts_in_app a b : starts_in (a ++ b) = starts_in a ++ starts_in b.
Proof. apply List.filter_app. Qed.

Lemma starts_of_none {A} (m : BM A) n : starts_none m -> starts n m.
Proof. intros H w. destruct (H w) as (cs & Hc & Hf). exists cs. rewrite (starts_in_none _ Hf). split; [done|simpl; lia]. Qed.

Lemma starts_bind {A B} n1 n2 (m : BM A) (k : A -> BM B) :
  starts n1 m -> (forall a, starts n2 (k a)) -> starts (n1 + n2) (se_bind m k).
Proof.
  intros Hm Hk w. unfold se_bind. destruct (Hm w) as (c1 & E1 & L1). destruct (m w) as [w1 [a|e]]; cbn [fst] in *.
  - destruct (Hk a w1) as (c2 & E2 & L2). exists (c1 ++ c2). rewrite E2, E1, starts_in_app, length_app, app_assoc.
    split; [done|lia].
  - exists c1. split; [done|lia].
Qed.

Lemma starts_try {A} n (m : BM A) h : starts n m -> (forall e, starts_none (h e)) -> starts n (se_try m h).
Proof.
  intros Hm Hh w. unfold se_try. destruct (Hm w) as (c1 & E1 & L1). destruct (m w) as [w1 [a|e]]; cbn [fst] in *.
  - by exists c1.
  - destruct (Hh e w1) as (c2 & E2 & L2). exists (c1 ++ c2).
    rewrite E2, E1, starts_in_app, length_app, (starts_in_none _ L2), app_assoc. split; [done|simpl; lia].
Qed.

Section ClaimSpec.
Context (unescape : string -> string) (client : board_client) (settings : WorkerSettings)
        (now : list board_call -> datetime) (role : string).

Lemma labels_start_none {A} (m : BM A) : asks is_labels m -> starts_none m.
Proof. apply asks_weaken. by intros []. Qed.

Lemma block_thin_starts i n : starts_none (block_thin_task client role i n).
Proof.
  unfold block_thin_task, on_issue, transition_issue, comment_issue. asks_auto; try done. by apply add_label_asks.
Qed.

Lemma gate_starts i : starts_none (open_pr_gate_clear client settings now i).
Proof. unfold open_pr_gate_clear, on_issue. asks_auto; try done. by apply add_label_asks. Qed.

Lemma clear_starts : starts_none (clear_blocked_reason_labels client).
Proof. by apply remove_labels_asks. Qed.

(** The last step of a claim. *)
Definition take_task (task_id : string) (issue : dict) : BM (option dict) :=
  se_try
    (_ <<- transition_issue client task_id STATE_RUNNING ;;
     _ <<- on_issue issue (clear_blocked_reason_labels client) ;;
     i <<- the_issue ;; se_ret (Some i))
    (fun _ => se_ret None).

Lemma take_task_starts task_id issue : starts 1 (take_task task_id issue).
Proof.
  apply starts_try; [|intros; apply asks_ret]. apply (starts_bind 1 0).
  - intros w. exists [BC_transition task_id STATE_RUNNING]. split; [done|]. by cbn.
  - intros _. apply starts_of_none, asks_bind; [apply asks_on, clear_starts|]. intros. unfold the_issue. asks_auto.
Qed.

(** Clearing the reasons of a block keeps everything else. *)
Lemma cleared_issue w :
  let i := bw_issue w in
  let i' := bw_issue (fst (clear_blocked_reason_labels client w)) in
  (forall k, k <> "labels" -> i' !! k = i !! k) /\
  (forall prefix, lower prefix <> "blocked-reason" -> has_char colon (lower prefix) = false ->
     label_value (labels_field i') prefix = label_value (labels_field i) prefix).
Proof.
  cbv zeta. unfold clear_blocked_reason_labels, remove_labels, the_issue, se_bind, se_get.
  set (q := fun label => negb (str_in (lower label) (map lower BLOCKED_REASON_LABELS))).
  case_bool_decide; [done|].
  destruct (replace_labels_issue client (List.filter q (label_names (bw_issue w))) w) as [->| ->]; [done|].
  split.
  - intros k Hk. unfold store_label_names. by rewrite lookup_insert_ne.
  - intros prefix Hp Hc. rewrite labels_field_store. apply label_value_filtered. intros name Hn.
    unfold q. apply negb_true_iff, str_in_false. intros Hin.
    apply startswith_inv in Hn as [rest Hn]. apply (f_equal (before_char colon)) in Hn.
    rewrite <-str_app_assoc in Hn. change (":" +:+ rest) with (String colon rest) in Hn.
    rewrite before_char_app in Hn by done. apply Hp. rewrite <-Hn.
    cbn in Hin. apply elem_of_cons in Hin as [->|Hin]; [done|]. by apply list_elem_of_singleton in Hin as ->.
Qed.

Lemma claim_starts : starts 1 (claim_next unescape client settings now role).
Proof.
  unfold claim_next. apply (starts_bind 0 1); [apply starts_of_none, asks_lift|]. intros kinds.
  apply (starts_bind 0 1); [apply starts_of_none; unfold list_issues; asks_auto; done|]. intros [issues|].
  2: { apply starts_of_none, asks_ret. }
  apply (starts_bind 0 1); [apply starts_of_none, asks_get|]. intros exec.
  apply (starts_bind 0 1); [apply starts_of_none, labels_start_none, build_candidates_asks|]. intros candidates.
  destruct (sorted_by _ _) as [|issue rest]; [apply starts_of_none, asks_ret|].
  apply (starts_bind 0 1); [apply starts_of_none, asks_lift|]. intros task_id. cbv zeta.
  match goal with |- starts _ (if ?b then _ else _) => destruct b end.
  { apply starts_of_none, asks_bind; [apply block_thin_starts | intros; apply asks_ret]. }
  apply (starts_bind 0 1).
  { apply starts_of_none. destruct (String.eqb role "goal"); [apply gate_starts | apply asks_ret]. }
  intros []; [apply take_task_starts | apply starts_of_none, asks_ret].
Qed.

Lemma take_task_success task_id issue w w' i :
  take_task task_id issue w = (w', Ok (Some i)) ->
  (exists cs, bw_calls w' = bw_calls w ++ [BC_transition task_id STATE_RUNNING] ++ cs /\
     Forall (fun c => to_running c = false) cs) /\
  (forall k, k <> "labels" -> i !! k = issue !! k) /\
  label_value (labels_field i) "task-kind" = label_value (labels_field issue) "task-kind".
Proof.
  unfold take_task, se_try, on_issue, transition_issue, ask. unfold se_bind at 1.
  destruct (bcl_write client _) as [u|e]; [|done]. unfold se_bind at 1. unfold se_bind at 1. unfold set_issue at 1.
  match goal with |- context [clear_blocked_reason_labels client ?x] => set (w2 := x) end.
  destruct (clear_starts w2) as (cs & Hcs & Hf). destruct (cleared_issue w2) as [Hk Hv].
  destruct (clear_blocked_reason_labels client w2) as [w3 [v|e]]; [|done]. cbn [fst] in *.
  intros [= <- <-]. split; [|split; [exact Hk | by apply Hv]].
  exists cs. split; [|done]. rewrite Hcs. unfold w2. cbn [asked bw_calls]. by rewrite <-app_assoc.
Qed.

Lemma claim_success w w' i :
  claim_next unescape client settings now role w = (w', Ok (Some i)) ->
  exists kinds issues exec_today issue task_id c1 c2,
    ROLE_KINDS role = Some kinds /\
    bcl_list client (bw_calls w ++ [BC_list]) = Ok issues /\
    count_daily_executions (now (bw_calls w ++ [BC_list])) issues = Ok exec_today /\
    issue ∈ issues /\ claimable kinds settings exec_today issue = true /\
    (forall o, o ∈ issues -> claimable kinds settings exec_today o = true -> queue_leb issue o = true) /\
    issue_id issue = Ok task_id /\
    bw_calls w' = bw_calls w ++ c1 ++ [BC_transition task_id STATE_RUNNING] ++ c2 /\
    Forall (fun c => to_running c = false) c1 /\ Forall (fun c => to_running c = false) c2 /\
    (forall k, k <> "labels" -> i !! k = issue !! k) /\
    label_value (labels_field i) "task-kind" = label_value (labels_field issue) "task-kind" /\
    (label_value (labels_field issue) "task-kind" <> "spec-author" ->
       (MIN_GOAL_TEXT_CHARS <=
        Z.of_nat (String.length (strip (extract_goal (desc_text unescape issue) (issue_name issue)))))%Z).
Proof.
  unfold claim_next. intros (w0 & kinds & Hk & H)%se_bind_ok. unfold se_lift in Hk.
  destruct (ROLE_KINDS role) as [k|]; [|done]. injection Hk as <- <-.
  apply se_bind_ok in H as (w1 & listed & Hlist & H). unfold se_try, se_bind, list_issues, ask in Hlist.
  cbn [asked bw_calls] in Hlist.
  destruct (bcl_list client _) as [issues|e] eqn:Hi; cbn [se_ret] in Hlist; injection Hlist as <- <-; [|done].
  apply se_bind_ok in H as (w2 & exec & Hexec & H). unfold se_get in Hexec. injection Hexec as <- Hexec.
  apply se_bind_ok in H as (w3 & cands & Hcands & H).
  match type of Hcands with build_candidates _ _ _ _ _ ?x = _ => set (wl := x) in * end.
  pose proof (build_candidates_value client settings k exec issues wl) as Hv.
  destruct (labels_start_none _ (build_candidates_asks client settings k exec issues) wl) as (ca & Hca & Hfa).
  rewrite Hcands in Hv, Hca. cbn [fst snd] in Hv, Hca. injection Hv as ->.
  destruct (sorted_by queue_leb _) as [|issue rest] eqn:Hs; [done|]. apply queue_first in Hs as [Hin Hmin].
  apply elem_of_filter_bool in Hin as [Hin Hcl].
  apply se_bind_ok in H as (w4 & task_id & Hid & H). unfold se_lift in Hid. injection Hid as <- Hid.
  cbv zeta in H.
  match type of H with (if ?b then _ else _) _ = _ => destruct b eqn:Hthin end.
  { by apply se_bind_ok in H as (? & ? & _ & ?). }
  apply se_bind_ok in H as (w5 & clear & Hgate & H). destruct clear; [|done]. cbn [negb] in H.
  assert (exists cg, bw_calls w5 = bw_calls w3 ++ cg /\ Forall (fun c => to_running c = false) cg) as (cg & Hcg & Hfg).
  { destruct (String.eqb role "goal"); [|injection Hgate as <-; exists []; by rewrite app_nil_r].
    destruct (gate_starts issue w3) as (cg & Hcg & Hfg). rewrite Hgate in Hcg. by exists cg. }
  apply take_task_success in H as ((c2 & Hc2 & Hf2) & Hkeys & Hval).
  exists k, issues, exec, issue, task_id, ([BC_list] ++ ca ++ cg), c2. do 3 (split; [done|]).
  split; [done|]. split; [done|].
  split; [intros o Ho Hco; apply Hmin; by apply elem_of_filter_bool|]. split; [done|].
  split. { rewrite Hc2, Hcg, Hca. unfold wl. cbn [asked bw_calls]. by rewrite <-!app_assoc. }
  split. { constructor; [done|]. by apply Forall_app. }
  do 3 (split; [done|]). intros Hne. apply andb_false_iff in Hthin as [Hthin|Hthin].
  - apply negb_false_iff, String.eqb_eq in Hthin. done.
  - by apply Z.ltb_ge in Hthin.
Qed.

(** a claim starts at most one task; the task it returns is one of those the
    board listed, waits in the queue, is of a kind of this role and of no other
    role, belongs to a known repository below its daily quota, comes from an
    admitted author, and no other such task precedes it in the order of the
    queue; its goal is not too thin, and apart from its labels it is returned as
    it was listed. *)
Theorem claim_takes_the_first w w' r :
  claim_next unescape client settings now role w = (w', r) ->
  exists cs, bw_calls w' = bw_calls w ++ cs /\ length (starts_in cs) <= 1 /\
  forall i, r = Ok (Some i) -> exists kinds issues exec_today issue task_id,
    ROLE_KINDS role = Some kinds /\
    bcl_list client (bw_calls w ++ [BC_list]) = Ok issues /\
    count_daily_executions (now (bw_calls w ++ [BC_list])) issues = Ok exec_today /\
    issue ∈ issues /\ claimable kinds settings exec_today issue = true /\
    (forall o, o ∈ issues -> claimable kinds settings exec_today o = true -> queue_leb issue o = true) /\
    issue_id issue = Ok task_id /\ starts_in cs = [BC_transition task_id STATE_RUNNING] /\
    (forall k, k <> "labels" -> i !! k = issue !! k) /\
    label_value (labels_field i) "task-kind" ∈ kinds /\
    (forall role' kinds', ROLE_KINDS role' = Some kinds' ->
       label_value (labels_field i) "task-kind" ∈ kinds' -> role' = role) /\
    (label_value (labels_field i) "task-kind" <> "spec-author" ->
       (MIN_GOAL_TEXT_CHARS <=
        Z.of_nat (String.length (strip (extract_goal (desc_text unescape issue) (issue_name issue)))))%Z).
Proof.
  intros H. destruct (claim_starts w) as (cs & Hc & Hl). rewrite H in Hc. cbn [fst] in Hc. exists cs.
  split; [done|]. split; [done|]. intros i ->. apply claim_success in H as (kinds & issues & exec & issue & task_id &
    c1 & c2 & Hk & Hi & He & Hin & Hcl & Hmin & Hid & Hcalls & Hn1 & Hn2 & Hkeys & Hval & Hthin).
  exists kinds, issues, exec, issue, task_id. do 7 (split; [done|]). split.
  { rewrite Hcalls in Hc. apply app_inv_head in Hc as <-.
    by rewrite !starts_in_app, (starts_in_none _ Hn1), (starts_in_none _ Hn2). }
  split; [done|]. assert (Hkind : label_value (labels_field i) "task-kind" ∈ kinds).
  { rewrite Hval. unfold claimable, eligible in Hcl. apply str_in_spec. by destruct (str_in _ kinds); rewrite ?andb_false_r in Hcl. }
  split; [done|]. split.
  { intros role' kinds' Hk' Hin'. by eapply role_kinds_disjoint. }
  rewrite Hval. exact Hthin.
Qed.
End ClaimSpec.

(** ** A queue *)

Module QueueScenarios.
Definition noon : datetime := {| dt_us := 1000000000000; dt_aware := true |}.
Definition repo : WorkerRepo :=
  {| wr_clone_url := "https://host/acme/app"; wr_await_review := true; wr_max_daily_executions := Some 2%Z;
     wr_require_explicit_approval := false; wr_default_branch := "main"; wr_sandbox_base_branch := None;
     wr_local_path := None |}.
Definition settings : WorkerSettings :=
  {| ws_repos := [("app", repo); ("lib", repo)];
     ws_task_admission := Some {| ta_author_allowlist := ["alice"; "fleet"]; ta_reject_label := "unauthorized-author";
                                  ta_trusted_label_authors := ["fleet"] |};
     ws_max_open_fleet_tasks := 0; ws_max_descendants_per_root := 0; ws_open_pr_gate_stale_hours := 12;
     ws_code_failure_retry_cap := 3; ws_git_token := Some "token" |}.
Definition issue (id state priority author : string) (labels : list string) : dict :=
  list_to_map [("id", JStr id); ("name", JStr "Make the parser accept empty input without a crash");
               ("state", JObj [("name", JStr state)]); ("priority", JStr priority); ("created_by", JStr author);
               ("created_at", JStr "2026-01-01"); ("updated_at", JTime noon); ("labels", JList (map JStr labels))].
Definition goal_labels : list string := ["task-kind: goal"; "repo: app"].
Definition pr (ref mergeable : string) : dict :=
  list_to_map [("head", JObj [("ref", JStr ref)]); ("mergeable", JStr mergeable); ("updated_at", JTime noon)].

(** A board that lists [issues] and a host that lists [prs]. *)
Definition board (issues prs : list dict) : board_client :=
  {| bcl_list := fun _ => Ok issues; bcl_fetch := fun _ => Raise (OtherError "404"); bcl_write := fun _ => Ok tt;
     bcl_create := fun _ => Ok (list_to_map [("id", JStr "new")]); bcl_prs := fun _ => Ok prs |}.
Definition world0 : board_world := {| bw_calls := []; bw_issue := ∅ |}.
Definition claim (role : string) (issues prs : list dict) : board_world * res (option dict) :=
  claim_next (fun s => s) (board issues prs) settings (fun _ => noon) role world0.
Definition claimed_id (r : board_world * res (option dict)) : res (option string) :=
  o <-? snd r ;; Ok (i ← o; Some (jtext (dget i "id"))).

Definition queue : list dict :=
  [issue "a" "Ready for AI" "low" "alice" goal_labels;
   issue "b" "Ready for AI" "high" "alice" (goal_labels ++ ["blocked-reason: policy"]);
   issue "c" "Ready for AI" "urgent" "mallory" goal_labels;
   issue "d" "Ready for AI" "urgent" "alice" ["task-kind: test"; "repo: app"];
   issue "e" "Running" "urgent" "alice" goal_labels;
   issue "f" "Ready for AI" "none" "alice" ["task-kind: goal"; "repo: lib"]].

(** The stranger's task is flagged, the urgent test is for another role, the
    next one is claimed and loses the mark of its last block. *)
Example high_goal_is_claimed :
  let r := claim "goal" queue [] in
  claimed_id r = Ok (Some "b") /\
  bw_calls (fst r) =
    [BC_list; BC_labels "c" (goal_labels ++ ["unauthorized-author"]); BC_prs "https://host/acme/app";
     BC_transition "b" "Running"; BC_labels "b" goal_labels].
Proof. vm_compute. split; reflexivity. Qed.

(** A pull request holds the first task, and with it the whole lane, although
    the task of another repository waits behind it. *)
Example gate_holds_the_lane :
  claimed_id (claim "goal" queue [pr "goal/1234" "CLEAN"]) = Ok None /\
  claimed_id (claim "goal" queue [pr "goal/1234" "UNKNOWN"; pr "spec-author/9" "CLEAN"]) = Ok (Some "b").
Proof. vm_compute. split; reflexivity. Qed.
End QueueScenarios.

Lemma claim_takes_the_first_witness :
  exists i, snd (QueueScenarios.claim "goal" QueueScenarios.queue []) = Ok (Some i) /\
    label_value (labels_field i) "task-kind" ∈ ["goal"].
Proof.
  destruct (QueueScenarios.claim "goal" QueueScenarios.queue []) as [w r] eqn:E.
  destruct (claim_takes_the_first (fun s => s) (QueueScenarios.board QueueScenarios.queue []) QueueScenarios.settings
              (fun _ => QueueScenarios.noon) "goal" QueueScenarios.world0 w r E) as (cs & _ & _ & H).
  assert (Hr : exists i, r = Ok (Some i)).
  { apply (f_equal snd) in E. cbn [snd] in E. rewrite <-E. eexists. vm_compute. reflexivity. }
  destruct Hr as [i ->]. exists i. split; [reflexivity|].
  destruct (H i eq_refl) as (kinds & issues & exec & issue & id & Hk & _ & _ & _ & _ & _ & _ & _ & _ & Hkind & _).
  injection Hk as <-. exact Hkind.
Defined.
