(* ===== verification/BoardOutcomes.v ===== *)
(** * What becomes of a dispatched task

    entrypoints/board_worker/outcomes.py: success, failure, follow-ups with
    their lineage, scope splits, and the refinement loop of an improve
    campaign.  The worker's copy of the task is part of the state, as its
    labels are read again after they were changed. *)
From S2P Require Import Prelude PyStr PyData BoardIssues.
From Stdlib Require Import Ascii.

Definition MAX_FOLLOW_UP_RETRIES : Z := 3.
Definition CODE_FAILURE_CATEGORIES : list string := ["validation_failed"; "no_changes"].
Definition TERMINAL_STATE_NAMES : list string := ["cancelled"; "done"].
Definition BACKEND_CAPACITY_REASON_LABEL : string := "blocked-reason: backend-capacity".
Definition BLOCKED_REASON_POLICY_LABEL : string := "blocked-reason: policy".
Definition BACKEND_CAPACITY_REASON_SNIPPETS : list string :=
  ["stage planner received non-json from agent"; "session limit or error"].

Definition line (s : string) : string := s +:+ String newline "".

(** The labels that name a source, but for the worker's own. *)
Definition inherited_sources (labels : list jval) : list string :=
  List.filter (fun s => startswith (lower s) "source:" && negb (String.eqb (lower s) "source: board_worker"))
    (map lname labels).

(** [d.get(k, default)] of a text, and [d.get(k) or default]. *)
Definition text_get (d : dict) (k dflt : string) : string := jtext (default (JStr dflt) (d !! k)).
Definition text_or (d : dict) (k dflt : string) : string := jtext (jor (dget d k) (JStr dflt)).

(** The lineage root of a task: its label, or itself. *)
Definition lineage_root_of (labels : list jval) (parent_id : string) : string :=
  let root := label_value labels "lineage-root" in if str_truthy root then root else parent_id.

(** ** Scope splits *)

Definition top_dir (f : string) : string := if has_char "/" f then before_char "/" f else ".".

Definition group_by_top (files : list string) : list (string * list string) :=
  foldl (fun by_top f => od_set (top_dir f) (default [] (od_get (top_dir f) by_top) ++ [f]) by_top) [] files.

(** A list cut into pieces of [n]; the length bounds the number of pieces. *)
Fixpoint pieces (fuel n : nat) {A} (l : list A) : list (list A) :=
  match fuel, l with
  | S fuel, _ :: _ => take n l :: pieces fuel n (drop n l)
  | _, _ => []
  end.

(** Merge the two smallest pieces until there are at most [max_chunks]; every
    merge leaves one less. *)
Fixpoint merge_chunks (fuel max_chunks : nat) {A} (chunks : list (list A)) : list (list A) :=
  match fuel with
  | S fuel =>
      if (max_chunks <? length chunks) && (2 <=? length chunks) then
        match sorted_by (fun a b => length a <=? length b) chunks with
        | a :: b :: rest => merge_chunks fuel max_chunks ((a ++ b) :: rest)
        | chunks => chunks
        end
      else chunks
  | 0 => chunks
  end.

Definition split_files_into_chunks (files : list string) (chunk_size max_chunks : nat) : list (list string) :=
  let groups := sorted_by (fun a b => length b <=? length a) (map snd (group_by_top files)) in
  let chunks := flat_map (fun g => pieces (length g) chunk_size g) groups in
  merge_chunks (length chunks) max_chunks chunks.

(** The labels of the piece of a split, of a follow-up and of a suggestion. *)
Definition split_labels (labels : list jval) (parent_id reason : string) : list string :=
  ["task-kind: goal"; "repo: " +:+ label_value labels "repo"; "source: board_worker"; "source: scope-split"]
  ++ inherited_sources labels
  ++ ["original-task-id: " +:+ parent_id; "lineage-root: " +:+ lineage_root_of labels parent_id;
      "handoff-reason: " +:+ reason; "retry-count: " +:+ str_of_Z (retry_count_from_labels labels + 1)].

Definition follow_up_labels (labels : list jval) (parent_id kind reason : string) : list string :=
  ["task-kind: " +:+ kind; "repo: " +:+ label_value labels "repo"; "source: board_worker"]
  ++ inherited_sources labels
  ++ ["original-task-id: " +:+ parent_id; "lineage-root: " +:+ lineage_root_of labels parent_id;
      "handoff-reason: " +:+ reason; "retry-count: " +:+ str_of_Z (retry_count_from_labels labels + 1)].

Definition suggestion_labels (labels : list jval) (parent_id complexity : string) : list string :=
  ["task-kind: goal"; "repo: " +:+ label_value labels "repo"; "source: board_worker"; "source: improve-suggestion"]
  ++ inherited_sources labels
  ++ ["original-task-id: " +:+ parent_id; "handoff-reason: improve_suggestion"]
  ++ (if str_in complexity ["small"; "medium"; "large"] then ["complexity: " +:+ complexity] else []).

Section Outcomes.
Context (client : board_client) (settings : WorkerSettings).

Definition create_issue (name description : string) (names : list string) : BM dict :=
  ask (bcl_create client) (BC_create name description STATE_READY names).

Definition split_description (parent_title repo_key parent_id : string) (idx n : nat) (chunk : list string) : string :=
  "## Goal" +:+ String newline "" +:+ line parent_title +:+ line "" +:+
  line ("This is split " +:+ str_of_Z (Z.of_nat idx) +:+ " of " +:+ str_of_Z (Z.of_nat n) +:+
        " from a scope_too_wide retry of task #" +:+ parent_id +:+ ". Restrict changes to the listed files.") +:+
  line "" +:+ line "## Execution" +:+ line ("repo: " +:+ repo_key) +:+ line "mode: goal" +:+
  line "allowed_paths:" +:+ line (join (String newline "") (map (fun f => "  - " +:+ f) chunk)).

(** The tasks of a split, from the [idx]-th piece on; a creation that fails is
    logged. *)
Fixpoint create_chunks (parent_id parent_title reason : string) (labels : list jval) (n idx : nat)
    (chunks : list (list string)) (created : list string) : BM (list string) :=
  match chunks with
  | [] => se_ret created
  | chunk :: rest =>
      new_id <<- se_try
        (issue <<- create_issue
           (str_take 80 ("[split " +:+ str_of_Z (Z.of_nat idx) +:+ "/" +:+ str_of_Z (Z.of_nat n) +:+ "] " +:+ parent_title))
           (split_description parent_title (label_value labels "repo") parent_id idx n chunk)
           (split_labels labels parent_id reason) ;;
         se_ret (text_get issue "id" ""))
        (fun _ => se_ret "") ;;
      create_chunks parent_id parent_title reason labels n (S idx) rest
        (if str_truthy new_id then created ++ [new_id] else created)
  end.

Definition create_split_followups (file_list : list string) (reason : string) : BM (list string) :=
  parent <<- the_issue ;;
  parent_id <<- se_lift (issue_id parent) ;;
  let labels := labels_field parent in
  if (2 <=? retry_count_from_labels labels)%Z then se_ret []
  else
    let chunks := split_files_into_chunks file_list 15 6 in
    if negb (list_truthy chunks) then se_ret []
    else
      full <<- ceiling_reached client settings ;;
      if full : bool then se_ret []
      else
        capped <<- root_descendant_cap_reached client settings (lineage_root_of labels parent_id) ;;
        if capped : bool then se_ret []
        else
          created <<- create_chunks parent_id (issue_name parent) reason labels (length chunks) 1 chunks [] ;;
          _ <<- (if list_truthy created then add_label client LIFECYCLE_EXPANDED else se_ret tt) ;;
          se_ret created.

(** ** Follow-ups *)

Definition underscores_to_spaces (s : string) : string := replace "_" " " s.

(** The id of the new task; empty when the task has no retries left or a brake
    holds. *)
Definition create_follow_up (follow_kind reason : string) : BM string :=
  parent <<- the_issue ;;
  parent_id <<- se_lift (issue_id parent) ;;
  let labels := labels_field parent in
  if (MAX_FOLLOW_UP_RETRIES <=? retry_count_from_labels labels)%Z then se_ret ""
  else
    full <<- ceiling_reached client settings ;;
    if full : bool then se_ret ""
    else
      capped <<- root_descendant_cap_reached client settings (lineage_root_of labels parent_id) ;;
      if capped : bool then se_ret ""
      else
        let base_branch := label_value labels "base-branch" in
        issue <<- create_issue ("[" +:+ follow_kind +:+ "] " +:+ issue_name parent)
          (line "## Goal" +:+ line (issue_name parent +:+ " — " +:+ underscores_to_spaces reason) +:+ line "" +:+
           line "## Execution" +:+ line ("repo: " +:+ label_value labels "repo") +:+ line ("mode: " +:+ follow_kind) +:+
           (if str_truthy base_branch then line ("base_branch: " +:+ base_branch) else ""))
          (follow_up_labels labels parent_id follow_kind reason) ;;
        se_ret (text_get issue "id" "?").

(** One suggestion of an improve run; the file names that are texts are kept. *)
Definition suggestion_files (suggestion : dict) : list string :=
  match dget suggestion "files" with
  | JList l => omap (fun f => if is_str f then Some (jtext f) else None) (take 10 l)
  | _ => []
  end.

Definition create_improve_follow_up (suggestion : dict) : BM (option string) :=
  parent <<- the_issue ;;
  parent_id <<- se_lift (issue_id parent) ;;
  let labels := labels_field parent in
  let stripped := str_take 80 (strip (text_get suggestion "title" "")) in
  let title := if str_truthy stripped then stripped else "Improve follow-up" in
  let rationale := strip (text_get suggestion "rationale" "") in
  let complexity := lower (strip (text_get suggestion "complexity" "")) in
  let files_block := match dget suggestion "files" with
                     | JList (_ :: _) =>
                         line "allowed_paths:" +:+
                         line (join (String newline "") (map (fun f => "  - " +:+ f) (suggestion_files suggestion)))
                     | _ => ""
                     end in
  se_try
    (issue <<- create_issue title
       (line "## Goal" +:+ line title +:+ line "" +:+ line "## Rationale" +:+
        line (if str_truthy rationale then rationale else "(none provided)") +:+ line "" +:+
        line "## Execution" +:+ line ("repo: " +:+ label_value labels "repo") +:+ line "mode: goal" +:+ files_block)
       (suggestion_labels labels parent_id complexity) ;;
     let new_id := text_get issue "id" "" in
     se_ret (if str_truthy new_id then Some new_id else None))
    (fun _ => se_ret None).

(** The suggestions in the executor's file: at most five, each with a title. *)
Definition read_improve_output (content : option (res jval)) : res (list dict) :=
  match content with
  | Some (Ok data) =>
      match data with
      | JObj l =>
          match jor (default JNull (od_get "suggestions" l)) (JList []) with
          | JList raw => Ok (omap (fun item => match item with
                                               | JObj d => if jtruthy (default JNull (od_get "title" d))
                                                           then Some (list_to_map d : dict) else None
                                               | _ => None
                                               end) (take 5 raw))
          | _ => Ok []
          end
      | _ => Raise (OtherError "object has no attribute 'get'")
      end
  | _ => Ok []
  end.

(** ** Closing the parent of a split *)

Definition is_split_task (issue : dict) : bool :=
  str_in "source: scope-split" (map (fun l => lower (lname l)) (labels_field issue)).

(** [(s.get("state") or {}).get("name", "")]: a state that is a text has no
    [get]. *)
Definition state_get_name (issue : dict) : res string :=
  match dget issue "state" with
  | JObj l => Ok (jtext (default (JStr "") (od_get "name" l)))
  | v => if jtruthy v then Raise (OtherError "object has no attribute 'get'") else Ok ""
  end.

(** [str(issue.get("id", ""))]. *)
Definition id_text (issue : dict) : string := text_get issue "id" "".

(** [all(...)] over the states of the siblings. *)
Fixpoint all_done (issues : list dict) : res bool :=
  match issues with
  | [] => Ok true
  | i :: rest =>
      s <-? state_get_name i ;;
      if String.eqb (lower (strip s)) "done" then all_done rest else Ok false
  end.

Definition close_parent (parent_id : string) (n_total : nat) : BM unit :=
  se_try
    (_ <<- transition_issue client parent_id STATE_DONE ;;
     comment_issue client parent_id
       ("Auto-closed: all " +:+ str_of_Z (Z.of_nat n_total) +:+ " scope-split children completed."))
    (fun _ => se_ret tt).

Definition maybe_close_split_parent : BM unit :=
  completed <<- the_issue ;;
  let parent_id := label_value (labels_field completed) "original-task-id" in
  if negb (is_split_task completed) || negb (str_truthy parent_id) then se_ret tt
  else
    listed <<- se_try (issues <<- list_issues client ;; se_ret (Some issues)) (fun _ => se_ret None) ;;
    match listed with
    | None => se_ret tt
    | Some all_issues =>
        let this_task_id := id_text completed in
        let siblings := List.filter (fun i => negb (String.eqb (id_text i) parent_id) &&
                          String.eqb (label_value (labels_field i) "original-task-id") parent_id && is_split_task i)
                          all_issues in
        match last (List.filter (fun i => String.eqb (id_text i) parent_id) all_issues) with
        | None => se_ret tt
        | Some parent =>
            parent_state <<- se_lift (state_get_name parent) ;;
            if negb (String.eqb (lower parent_state) "blocked") then se_ret tt
            else
              let other := List.filter (fun i => negb (String.eqb (id_text i) this_task_id)) siblings in
              other_done <<- se_lift (all_done other) ;;
              if negb other_done then se_ret tt
              else
                this <<- se_lift (state_get_name completed) ;;
                let this_state := lower (strip this) in
                if str_truthy this_state && negb (str_in this_state ["done"; "running"; "ready for ai"]) then se_ret tt
                else close_parent parent_id (length siblings + 1)
        end
    end.

(** ** Success *)

Fixpoint create_suggestions (suggestions : list dict) : BM (list string) :=
  match suggestions with
  | [] => se_ret []
  | s :: rest =>
      follow_id <<- create_improve_follow_up s ;;
      more <<- create_suggestions rest ;;
      se_ret (match follow_id with Some i => i :: more | None => more end)
  end.

Definition delivered_text (pr_url branch_name : option string) (branch_pushed : bool) : string :=
  if branch_pushed && opt_truthy branch_name
  then "branch `" +:+ str_or branch_name "" +:+ "` pushed" +:+
       (if opt_truthy pr_url then ", PR: " +:+ str_or pr_url "" else "")
  else "no branch pushed — no new commits, nothing to review".

Definition await_review (labels : list jval) : bool :=
  let repo_key := label_value labels "repo" in
  str_truthy repo_key && match repo_of settings repo_key with Some r => wr_await_review r | None => false end.

Definition finish_goal (task_id : string) (review needs_verification : bool) (pr_url : option string)
    (delivered : string) : BM unit :=
  if needs_verification then
    follow_id <<- create_follow_up "test" "verification_needed" ;;
    _ <<- comment_issue client task_id
      ("Implementation complete (" +:+ delivered +:+ ") — created verification task #" +:+ follow_id) ;;
    transition_issue client task_id STATE_DONE
  else if review then
    _ <<- transition_issue client task_id STATE_REVIEW ;;
    _ <<- (if opt_truthy pr_url then add_label client ("pr-url: " +:+ str_or pr_url "") else se_ret tt) ;;
    comment_issue client task_id ("Implementation complete (" +:+ delivered +:+ ") — moved to In Review")
  else
    _ <<- transition_issue client task_id STATE_DONE ;;
    comment_issue client task_id ("Implementation complete (" +:+ delivered +:+ ")").

Definition finish_improve (task_id : string) (suggestions : list dict) : BM unit :=
  _ <<- transition_issue client task_id STATE_DONE ;;
  if list_truthy suggestions then
    created <<- create_suggestions suggestions ;;
    comment_issue client task_id
      (if list_truthy created
       then "Improvement analysis complete — created " +:+ str_of_Z (Z.of_nat (length created)) +:+
            " focused follow-up task(s): " +:+ join ", " (map (fun i => "#" +:+ i) created)
       else "Improvement analysis complete — backend wrote suggestions but none could be enqueued")
  else comment_issue client task_id
         ("Improvement analysis complete — no actionable suggestions emitted " +:+
          "(executor found nothing concrete, or improve-output.json was missing)").

Definition handle_success (role : string) (needs_verification : bool) (suggestions : list dict)
    (pr_url branch_name : option string) (branch_pushed : bool) : BM unit :=
  issue <<- the_issue ;;
  task_id <<- se_lift (issue_id issue) ;;
  let review := await_review (labels_field issue) in
  _ <<- se_try
    (_ <<- clear_blocked_reason_labels client ;;
     if String.eqb role "goal" then
       finish_goal task_id review needs_verification pr_url (delivered_text pr_url branch_name branch_pushed)
     else if String.eqb role "test" then
       _ <<- transition_issue client task_id STATE_DONE ;; comment_issue client task_id "Verification passed"
     else if String.eqb role "improve" then finish_improve task_id suggestions
     else se_ret tt)
    (fun _ => se_ret tt) ;;
  se_try maybe_close_split_parent (fun _ => se_ret tt).

(** ** Failure *)

(** [fail_task]: a task that ended meanwhile keeps its state. *)
Definition fail_task (task_id role reason : string) : BM unit :=
  se_try
    (ended <<- se_try
       (issue <<- ask (bcl_fetch client) (BC_fetch task_id) ;;
        se_ret (str_in (lower match dget issue "state" with
                              | JObj l => jtext (default (JStr "") (od_get "name" l))
                              | v => if jtruthy v then jtext v else ""
                              end) TERMINAL_STATE_NAMES))
       (fun _ => se_ret false) ;;
     if ended : bool then se_ret tt
     else
       _ <<- transition_issue client task_id STATE_BLOCKED ;;
       comment_issue client task_id ("board_worker[" +:+ role +:+ "] blocked — " +:+ reason))
    (fun _ => se_ret tt).

Definition is_backend_capacity_failure (category reason : string) : bool :=
  String.eqb category "backend_error" && forallb (contains (lower reason)) BACKEND_CAPACITY_REASON_SNIPPETS.

(** The comment on a failure, and the one when a follow-up was asked for. *)
Definition failure_lines (status category reason : string) : string :=
  line "" +:+ line ("- status: " +:+ status) +:+ line ("- category: " +:+ category) +:+ "- reason: " +:+ reason.

(** The reported exit code and signal. *)
Definition exit_code (result : dict) : option string :=
  match dget result "executor_exit_code" with JNull => None | v => Some (jtext v) end.
Definition exit_signal (result : dict) : string :=
  let v := dget result "executor_signal" in if jtruthy v then jtext v else "".

Definition exec_block (result : dict) : string :=
  match exit_code result with
  | Some code =>
      String newline "" +:+ "- executor-exit-code: " +:+ code +:+
      (if str_truthy (exit_signal result) then String newline "" +:+ "- executor-signal: " +:+ exit_signal result else "")
  | None => ""
  end.

Definition split_block (split_ids : list string) : string :=
  if list_truthy split_ids then
    line "" +:+ line "" +:+ "Auto-split into " +:+ str_of_Z (Z.of_nat (length split_ids)) +:+ " focused task(s): " +:+
    join ", " (map (fun i => "#" +:+ i) split_ids)
  else "".

(** The labels a failure leaves on the task. *)
Definition label_failure (category reason : string) (result : dict) : BM unit :=
  _ <<- match exit_code result with
        | Some code => add_label client ("executor-exit-code: " +:+ code)
        | None => se_ret tt
        end ;;
  _ <<- remove_labels client BLOCKED_REASON_LABELS ;;
  _ <<- (if String.eqb category "policy_blocked" then add_label client BLOCKED_REASON_POLICY_LABEL
         else if is_backend_capacity_failure category reason then add_label client BACKEND_CAPACITY_REASON_LABEL
         else se_ret tt) ;;
  if str_truthy (exit_signal result) then
    _ <<- add_label client ("executor-signal: " +:+ exit_signal result) ;;
    if contains (lower (exit_signal result)) "sigkill" then increment_retry_count client else se_ret tt
  else if str_in category CODE_FAILURE_CATEGORIES then increment_code_failure_count client
  else se_ret tt.

Definition handle_failure (role : string) (result : dict) (scope_files : list string) : BM unit :=
  issue <<- the_issue ;;
  task_id <<- se_lift (issue_id issue) ;;
  let status := text_get result "status" "unknown" in
  let category := text_or result "failure_category" "unknown" in
  let reason := text_or result "failure_reason" "(no reason provided)" in
  split_ids <<- (if String.eqb category "scope_too_wide" && list_truthy scope_files
                 then se_try (create_split_followups scope_files "scope_too_wide_split") (fun _ => se_ret [])
                 else se_ret []) ;;
  se_try
    (_ <<- (if String.eqb role "test" then
              follow_id <<- create_follow_up "goal" "verification_failed" ;;
              _ <<- transition_issue client task_id STATE_BLOCKED ;;
              comment_issue client task_id
                (line ("Verification failed — created follow-up goal task #" +:+ follow_id) +:+
                 failure_lines status category reason)
            else
              _ <<- transition_issue client task_id STATE_BLOCKED ;;
              comment_issue client task_id
                (line ("board_worker[" +:+ role +:+ "] failed") +:+ failure_lines status category reason +:+
                 exec_block result +:+ split_block split_ids)) ;;
     label_failure category reason result)
    (fun _ => se_ret tt).
End Outcomes.
