(* ===== verification/SpecCampaign.v ===== *)
(** * Campaigns: the tasks of a committed spec

    spec_author/campaign_builder.py and the front matter of
    spec_author/models.py.  The YAML parser is an argument: it answers with the
    fields of the front matter, or raises. *)
From S2P Require Import Prelude PyStr PyData TextLines BoardIssues.
From Stdlib Require Import Ascii.

Record SpecFrontMatter := {
  fm_campaign_id : string;
  fm_slug : string;
  fm_phases : list string;
  fm_repos : list string }.

Definition PHASE_ALIASES (p : string) : string :=
  default p (od_get p [("test", "test_campaign"); ("improve", "improve_campaign")]).

(** The rest after the first [pat]. *)
Fixpoint after_text (pat s : string) : option string :=
  if startswith s pat then Some (str_drop (String.length pat) s)
  else match s with String _ s' => after_text pat s' | EmptyString => None end.
(** What precedes the first [pat]. *)
Fixpoint text_until (pat s : string) : option string :=
  if startswith s pat then Some ""
  else match s with String c s' => String c <$> text_until pat s' | EmptyString => None end.

(** A comment at the start is dropped with the spaces after it. *)
Definition without_leading_comment (text : string) : string :=
  if startswith text "<!--" then
    match after_text "-->" (str_drop 4 text) with Some rest => lstrip rest | None => text end
  else text.

Definition starts_front_matter (body : string) : bool :=
  startswith body "---" &&
  match str_drop 3 body with
  | String c _ => existsb (Ascii.eqb c) [ascii_of_nat 10; ascii_of_nat 13; " "%char]
  | EmptyString => false
  end.

Section FrontMatter.
Context (yaml : string -> res SpecFrontMatter).

Definition from_spec_text (text : string) : res SpecFrontMatter :=
  let body := without_leading_comment text in
  if negb (starts_front_matter body) then Raise (ValueError "Spec text does not have YAML front matter")
  else match text_until "---" (str_drop 3 body) with
  | None => Raise (ValueError "Spec text is missing closing '---' for YAML front matter")
  | Some front =>
      fm <-? yaml (strip front) ;;
      Ok {| fm_campaign_id := fm_campaign_id fm; fm_slug := fm_slug fm;
            fm_phases := map PHASE_ALIASES (fm_phases fm); fm_repos := fm_repos fm |}
  end.
End FrontMatter.

(** ** Sections of the spec *)

(** The text of a numbered line: digits, a dot, spaces, something. *)
Definition numbered (l : string) : option string :=
  let digits := take_while is_digit l in
  let r := drop_while is_digit l in
  if str_truthy digits && startswith r "." then
    let r := str_drop 1 r in
    let text := lstrip r in
    let spaces := String.length (take_while is_space r) in
    if (if str_truthy text then 1 <=? spaces else 2 <=? spaces) then Some (strip text) else None
  else None.

Fixpoint goals_of (in_goals : bool) (lines : list string) : list string :=
  match lines with
  | [] => []
  | l :: rest =>
      if startswith (lower (strip l)) "## goals" then goals_of true rest
      else if in_goals && startswith l "##" then []
      else if in_goals then
        match numbered l with Some g => g :: goals_of true rest | None => goals_of true rest end
      else goals_of false rest
  end.

Definition extract_goals (spec_text : string) : list string :=
  match goals_of false (splitlines spec_text) with
  | [] => ["Implement the spec as described"]
  | goals => goals
  end.

Fixpoint section_lines (heading : string) (inside : bool) (lines : list string) : list string :=
  match lines with
  | [] => []
  | l :: rest =>
      if String.eqb (lower (strip l)) heading then section_lines heading true rest
      else if inside && startswith l "##" then []
      else if inside then l :: section_lines heading true rest else section_lines heading false rest
  end.

Definition extract_section (spec_text section : string) : string :=
  strip (join nl (section_lines ("## " +:+ lower section) false (splitlines spec_text))).

(** ** The builder *)

Definition MAX_TASKS : nat := 6.

Definition phase_prefix (phase : string) : string :=
  default phase (od_get phase [("implement", "Impl"); ("test_campaign", "Test"); ("improve_campaign", "Improve")]).
Definition child_kind (phase : string) : string := if String.eqb phase "implement" then "goal" else phase.
Definition child_state (phase : string) : string := if String.eqb phase "implement" then "Ready for AI" else "Backlog".
Definition depends_note (phase : string) : string :=
  if String.eqb phase "test_campaign" then nl +:+ "- task_phase_note: Promoted after implement task merges"
  else if String.eqb phase "improve_campaign" then nl +:+ "- task_phase_note: Promoted after test_campaign passes clean"
  else "".

Definition bl (s : string) : string := s +:+ nl.

Definition parent_body (fm : SpecFrontMatter) (spec_text : string) : string :=
  bl "## Campaign" +:+ bl ("campaign_id: " +:+ fm_campaign_id fm) +:+
  bl ("spec_file: docs/specs/" +:+ fm_slug fm +:+ ".md") +:+ bl "status: active" +:+ bl "" +:+ bl "## Summary" +:+
  bl "Spec-driven campaign. See spec file for full details." +:+ bl "" +:+ bl "## Spec Preview" +:+
  bl (str_take 800 spec_text +:+ "...").

Definition child_body (fm : SpecFrontMatter) (repo_key base_branch goal constraints phase : string) (idx : nat) : string :=
  bl "## Execution" +:+ bl ("repo: " +:+ repo_key) +:+ bl ("base_branch: " +:+ base_branch) +:+
  bl ("mode: " +:+ child_kind phase) +:+ bl ("spec_campaign_id: " +:+ fm_campaign_id fm) +:+
  bl ("spec_file: docs/specs/" +:+ fm_slug fm +:+ ".md") +:+ bl ("task_phase: " +:+ phase) +:+
  bl ("spec_coverage_hint: Goal " +:+ str_of_Z (Z.of_nat (idx + 1))) +:+ bl "" +:+ bl "## Goal" +:+
  bl (strip goal) +:+ bl "" +:+ bl "## Constraints" +:+ bl (strip constraints +:+ depends_note phase).

Definition child_labels (fm : SpecFrontMatter) (repo_key phase : string) : list string :=
  ["task-kind: " +:+ child_kind phase; "repo: " +:+ repo_key; "source: spec-campaign";
   "campaign-id: " +:+ fm_campaign_id fm].

Section Builder.
Context (yaml : string -> res SpecFrontMatter) (client : board_client).

(** The state of a task created without one is the board's. *)
Definition create_task (name description state : string) (labels : list string) : BM string :=
  issue <<- ask (bcl_create client) (BC_create name description state labels) ;;
  se_lift (issue_id issue).

Fixpoint build_children (fm : SpecFrontMatter) (repo_key base_branch constraints : string)
    (children : list (nat * string * string)) : BM (list string) :=
  match children with
  | [] => se_ret []
  | (idx, goal, phase) :: rest =>
      task_id <<- create_task ("[" +:+ phase_prefix phase +:+ "] " +:+ strip (str_take 60 goal))
        (child_body fm repo_key base_branch goal constraints phase idx) (child_state phase)
        (child_labels fm repo_key phase) ;;
      more <<- build_children fm repo_key base_branch constraints rest ;;
      se_ret (task_id :: more)
  end.

(** The goals with their phases, in the order of the two loops. *)
Definition children_of (goals phases : list string) : list (nat * string * string) :=
  flat_map (fun ig => map (fun phase => (fst ig, snd ig, phase)) phases) (imap (fun i g => (i, g)) goals).

Definition campaign_build (spec_text repo_key base_branch : string) : BM (list string) :=
  fm <<- se_lift (from_spec_text yaml spec_text) ;;
  let goals := extract_goals spec_text in
  let constraints := extract_section spec_text "Constraints" in
  parent_id <<- create_task ("[Campaign] " +:+ fm_slug fm) (parent_body fm spec_text) ""
    ["source: spec-campaign"; "campaign-id: " +:+ fm_campaign_id fm] ;;
  children <<- build_children fm repo_key base_branch constraints (take MAX_TASKS (children_of goals (fm_phases fm))) ;;
  se_ret (parent_id :: children).
End Builder.
