(* ===== verification/BoardDispatch.v ===== *)
(** * Dispatching a claimed task

    entrypoints/board_worker/dispatch.py, spec_author.py, main.py, the
    transient-failure test of _subprocess.py, the refinement loop of
    outcomes.py and the rejection hints of quality_alerts.py: plan, execute,
    retry once, check the pushed branch, and hand the result to the outcome
    handlers.  Planner, executor, git and the files of the workspace answer
    from all that was done so far; environment variables, the sandbox and log
    files are left out. *)
From S2P Require Import Prelude PyStr PyData TextLines CiRefinement BoardIssues BoardClaim BoardOutcomes FenceSafety SpecCampaign.
From Stdlib Require Import Ascii.

(** ** Texts *)

(** quality_alerts.py: the most cited reasons, five at most. *)
Definition extract_rejection_patterns (records : list jval) : list string :=
  let count := fun counts rec =>
    match rec with
    | JObj l =>
        let reason := lower (strip (jtext (jor (default JNull (od_get "reason" l)) (JStr "")))) in
        if str_truthy reason then od_set reason (default 0%Z (od_get reason counts) + 1)%Z counts else counts
    | _ => counts
    end in
  map fst (take 5 (sorted_by (fun a b => (snd b <=? snd a)%Z) (foldl count [] records))).

(** The catalog of rejections, as JSON if it is there and readable. *)
Definition load_rejection_patterns (catalog : option (res jval)) (repo_key : string) : list string :=
  match catalog with
  | Some (Ok data) =>
      match (match data with JObj l => default JNull (od_get "records" l) | v => v end) with
      | JList records =>
          extract_rejection_patterns
            (if str_truthy repo_key
             then List.filter (fun r => match r with
                                        | JObj l => jeq_str (default JNull (od_get "repo_key" l)) repo_key
                                        | _ => false
                                        end) records
             else records)
      | _ => []
      end
  | _ => []
  end.

Definition append_rejection_patterns (goal_text : string) (patterns : list string) : string :=
  if list_truthy patterns then
    goal_text +:+ nl +:+ nl +:+ "## Rejection patterns to avoid" +:+ nl +:+
    "Recent proposals in this repo were rejected for these reasons; do not repeat them:" +:+ nl +:+
    join nl (map (fun p => "- " +:+ p) (take 5 patterns))
  else goal_text.

Definition append_definition_of_done (goal_text : string) : string :=
  goal_text +:+ nl +:+ nl +:+ join nl
    ["## Definition of done (complete ALL before finishing)";
     "1. Complete the task in its ENTIRETY — every acceptance criterion and every";
     "   file the task implies (implementation, tests, and docs as applicable). Do";
     "   not leave TODOs, stubs, or 'follow-up' gaps; a partial change is rejected";
     "   in review.";
     "2. Add or update tests/checks that prove the work is correct.";
     "3. Run the tests/linters relevant to your change and make them pass: your";
     "   change must introduce ZERO NEW failures. Pre-existing or unrelated";
     "   failures/skips are OUT OF SCOPE — do not block on or fix them; the repo's";
     "   REQUIRED CI checks are the merge gate, not a fully-green pre-existing suite.";
     "4. Done = full change in place, self-verified, no NEW failures; PR mergeable";
     "   as-is (green on the required CI checks).";
     ""].

Definition append_improve_output_prompt (goal_text : string) : string :=
  goal_text +:+ nl +:+ nl +:+ quoted (join nl
    ["## Output";
     "Write your analysis to `improve-output.json` in the project root with:";
     "```json";
     "{";
     "  ~summary~: ~1-2 sentence high-level finding~,";
     "  ~suggestions~: [";
     "    {~title~: ~concrete actionable change~,";
     "      ~rationale~: ~why this matters~,";
     "      ~files~: [~path/to/file~],";
     "      ~complexity~: ~small|medium|large~}";
     "  ]";
     "}";
     "```";
     "Each suggestion should be small enough to implement in a focused PR " +:+
     "(complexity:small ≈ <50 LOC, medium ≈ <200 LOC, large flagged for split). " +:+
     "Limit to 5 suggestions; pick the highest-impact ones."]).

(** ** Answers of the surroundings *)

Record plan_proc := { pp_returncode : Z; pp_json : option jval }.

(** The result file of an executor run. *)
Inductive result_file :=
  | RF_missing
  | RF_empty
  | RF_json (content : res jval).

Record executor_run := { xr_returncode : Z; xr_result : result_file }.

Record dispatch_env := {
  de_unescape : string -> string;
  de_nonce : list board_call -> string;
  de_catalog : option (res jval);
  de_github_dir : string;
  de_plan : list board_call -> res plan_proc;
  de_execute : list board_call -> res executor_run;
  de_diff : list board_call -> res (string + list string); (* what git says, or the changed paths *)
  de_improve_output : list board_call -> option (res jval);
  de_scope_file : list board_call -> option (res jval);
  de_diagnostics : list board_call -> option string;       (* the reason with its pointer *)
  de_ci_spec : jval -> res ContinuousImprovementSpec;
  de_coordinate : ContinuousImprovementSpec -> list board_call -> res CiRunResult * dict;
  de_spec_payload : string -> option dict;
  de_spec_goal : dict -> string;
  de_spec_file : list board_call -> option (res string);
  de_yaml : string -> res SpecFrontMatter;
  de_is_containment : exn -> bool }.

(** ** _subprocess.py and scope_check.py *)

Definition TRANSIENT_CATEGORIES : list string := ["backend_error"; "timeout"].
Definition TRANSIENT_REASON_PATTERNS : list string :=
  ["connection refused"; "connection reset"; "timed out"; "timeout"; "502"; "503"; "504"; "bad gateway";
   "gateway timeout"; "service unavailable"; "remote disconnected"; "network is unreachable"; "temporary failure";
   "bad owner or permissions"; "could not read from remote repository"].

Definition is_transient_failure (result : dict) : bool :=
  str_in (lower (text_or result "failure_category" "")) TRANSIENT_CATEGORIES &&
  existsb (contains (lower (text_or result "failure_reason" ""))) TRANSIENT_REASON_PATTERNS.

(** application/scope_policy.py *)
Definition backslash : ascii := ascii_of_nat 92.
Definition slashes (s : string) : string := map_str (fun c => if Ascii.eqb c backslash then "/"%char else c) s.
(** [s.lstrip("./")]. *)
Definition lstrip_dots (s : string) : string := drop_while (fun c => Ascii.eqb c "." || Ascii.eqb c "/") s.

(** [str(Path(s))] of a relative path: empty parts and single dots are dropped. *)
Definition path_text (s : string) : string :=
  let parts := List.filter (fun p => negb (String.eqb p "" || String.eqb p ".")) (split_on "/" s) in
  let p := join "/" parts in
  if startswith s "/" then "/" +:+ p else if str_truthy p then p else ".".

Definition normalize_pattern (path : string) : string :=
  let cleaned := lstrip_dots (slashes (strip path)) in
  if endswith cleaned "/" then cleaned +:+ "*" else slashes (path_text cleaned).

(** [os.path.normpath]: a parent step removes the part before it. *)
Definition norm_part (rooted : bool) (acc : list string) (p : string) : list string :=
  if String.eqb p "" || String.eqb p "." then acc
  else if String.eqb p ".." then
    match acc with
    | [] => if rooted then [] else [".."]
    | q :: rest => if String.eqb q ".." then ".." :: acc else rest
    end
  else p :: acc.
Definition normpath (s : string) : string :=
  let rooted := startswith s "/" in
  let p := join "/" (rev (foldl (norm_part rooted) [] (split_on "/" s))) in
  if rooted then "/" +:+ p else if str_truthy p then p else ".".

Definition normalize_changed_path (path : string) : string :=
  let normalized := strip path in
  let normalized := match after_text " -> " normalized with Some r => r | None => normalized end in
  lstrip_dots (slashes (normpath normalized)).

Definition path_allowed (patterns : list string) (changed : string) : bool :=
  existsb (fun pattern => fnmatch changed pattern || startswith changed (pattern +:+ "/")) patterns.

Definition find_violations (changed_files allowed_paths : list string) : list string :=
  match allowed_paths with
  | [] => []
  | _ =>
      let patterns := map normalize_pattern allowed_paths in
      sorted_set (List.filter (fun c => negb (path_allowed patterns c)) (map normalize_changed_path changed_files))
  end.

(** The allowlist of the planned proposal. *)
Definition bundle_allowed (bundle : jval) : res (list string) :=
  proposal <-? out_get bundle "proposal" ;;
  target <-? out_get (jor proposal (JObj [])) "target" ;;
  allowed <-? out_get (jor target (JObj [])) "allowed_paths" ;;
  match jor allowed (JList []) with
  | JList l => Ok (map jtext l)
  | _ => Raise (TypeError "allowed_paths is not a list")
  end.

Section Dispatch.
Context (env : dispatch_env) (client : board_client) (settings : WorkerSettings) (role : string).

(** The failure message of a pushed branch that leaves the allowlist or can not
    be verified. *)
Definition verify_pushed_scope (bundle : jval) (result : dict) (base_branch task_branch : string) : BM (option string) :=
  if negb (jtruthy (dget result "branch_pushed")) then se_ret None
  else
    allowed <<- se_lift (bundle_allowed bundle) ;;
    if negb (list_truthy allowed) then se_ret None
    else
      diff <<- ask (de_diff env) (BC_diff base_branch task_branch) ;;
      se_ret match diff with
             | inl text => Some ("pushed-branch scope verification failed: " +:+ text)
             | inr lines =>
                 let changed := List.filter str_truthy (map strip lines) in
                 let violations := find_violations changed allowed in
                 if list_truthy violations
                 then Some ("pushed branch touches paths outside the task allowlist: " +:+ join ", " (take 20 violations))
                 else None
             end.

(** ** The refinement loop of an improve campaign *)

Definition RefinementStatus_value (s : RefinementStatus) : string :=
  match s with
  | RS_NOT_STARTED => "not_started" | RS_IN_PROGRESS => "in_progress" | RS_ACCEPTED => "accepted"
  | RS_BUDGET_EXHAUSTED => "budget_exhausted" | RS_ABANDONED => "abandoned" | RS_ESCALATED => "escalated"
  end.

(** [d.setdefault(k, v)]. *)
Definition setdefault (k : string) (v : jval) (d : dict) : dict :=
  match d !! k with Some _ => d | None => <[k := v]> d end.

Definition ci_failure_result (last_attempt_result : dict) (r : CiRunResult) : dict :=
  let status := RefinementStatus_value (cr_final_status r) in
  setdefault "failure_reason"
    (JStr ("CI refinement loop ended with status=" +:+ status +:+ " after " +:+ str_of_Z (cr_total_attempts r) +:+
           " attempt(s)"))
    (setdefault "status" (JStr status) last_attempt_result).

(** [Path(local_path)] of a repository that is configured. *)
Definition campaign_path (repo_key : string) : res string :=
  match repo_of settings repo_key with
  | Some r => match wr_local_path r with
              | Some p => Ok p
              | None => Raise (TypeError "argument should be a str or an os.PathLike object, not NoneType")
              end
  | None => Ok repo_key
  end.

Definition run_ci_loop (ci_spec_raw : jval) (task_id repo_key : string) : BM bool :=
  match de_ci_spec env ci_spec_raw with
  | Raise exc =>
      _ <<- fail_task client task_id role ("invalid continuous_improvement spec: " +:+ exn_text exc) ;; se_ret false
  | Ok ci_spec =>
      _ <<- se_lift (campaign_path repo_key) ;;
      ran <<- ask (fun calls => Ok (de_coordinate env ci_spec calls)) BC_coordinate ;;
      match fst ran with
      | Raise exc =>
          _ <<- fail_task client task_id role ("CI coordinator error: " +:+ exn_text exc) ;; se_ret false
      | Ok r =>
          _ <<- add_label client ("ci-status: " +:+ RefinementStatus_value (cr_final_status r)) ;;
          _ <<- add_label client ("ci-attempts: " +:+ str_of_Z (cr_total_attempts r)) ;;
          if bool_decide (cr_final_status r = RS_ACCEPTED) then
            _ <<- handle_success client settings role false [] None None false ;; se_ret true
          else if bool_decide (cr_final_status r = RS_ESCALATED) then
            _ <<- fail_task client task_id role
              ("CI loop escalated after " +:+ str_of_Z (cr_total_attempts r) +:+
               " attempt(s) — inconclusive outcome requires operator decision") ;;
            se_ret false
          else
            _ <<- handle_failure client settings role (ci_failure_result (snd ran) r) [] ;; se_ret false
      end
  end.

(** ** Planning *)

(** The plan of a task: its bundle, or nothing after the task was failed. *)
Definition plan_task (task_id label : string) (c : board_call) : BM (option jval) :=
  plan <<- ask (de_plan env) c ;;
  match pp_json plan with
  | None =>
      _ <<- fail_task client task_id role (label +:+ "planning produced no JSON output") ;; se_ret None
  | Some bundle =>
      if negb (pp_returncode plan =? 0)%Z then
        msg <<- se_lift (v <-? out_get bundle "message" ;;
                         Ok (match bundle with
                             | JObj l => match od_get "message" l with
                                         | Some m => jtext m
                                         | None => "unknown planning error"
                                         end
                             | _ => jtext v
                             end)) ;;
        _ <<- fail_task client task_id role (label +:+ "planning failed: " +:+ msg) ;; se_ret None
      else se_ret (Some bundle)
  end.

(** [outcome.get("result", {})], a dict. *)
Definition result_of (outcome : jval) : res dict :=
  match outcome with
  | JObj l =>
      match default (JObj []) (od_get "result" l) with
      | JObj r => Ok (list_to_map r)
      | _ => Raise (OtherError "object has no attribute 'get'")
      end
  | _ => Raise (OtherError "object has no attribute 'get'")
  end.

Definition succeeded (result : dict) : bool := jtruthy (dget result "success").

(** The files of a scope that was too wide, when the file is there. *)
Definition scope_files_of (content : option (res jval)) : list string :=
  match content with
  | Some (Ok (JObj l)) =>
      match od_get "files" l with Some (JList files) => map jtext files | _ => [] end
  | _ => []
  end.

Definition opt_text (v : jval) : option string := if jtruthy v then Some (jtext v) else None.

Definition base_branch_of (labels : list jval) (repo_cfg : option WorkerRepo) : string :=
  let label := label_value labels "base-branch" in
  if str_truthy label then label
  else match repo_cfg with
       | Some r => if opt_truthy (wr_sandbox_base_branch r) then str_or (wr_sandbox_base_branch r) ""
                   else wr_default_branch r
       | None => "main"
       end.

(** A run, and the second one after a transient failure. *)
Definition retried (outcome : jval) : bool :=
  match outcome with JObj l => jtruthy (default JNull (od_get "retried" l)) | _ => false end.

Definition retry_transient (task_branch : string) (outcome : jval) (result : dict) : BM dict :=
  if negb (succeeded result) && is_transient_failure result && negb (retried outcome) then
    run <<- ask (de_execute env) (BC_execute task_branch ("board_worker_" +:+ role +:+ "_retry")) ;;
    match xr_result run with
    | RF_missing => se_ret result
    | RF_empty => se_lift (Raise (ValueError "Expecting value"))
    | RF_json content => se_lift (outcome <-? content ;; result_of outcome)
    end
  else se_ret result.

(** The end of a dispatch whose result could be read. *)
Definition settle (task_id task_branch base_branch : string) (bundle : jval) (result : dict) : BM bool :=
  suggestions <<- (if String.eqb role "improve" && succeeded result
                   then se_get (fun w => read_improve_output (de_improve_output env (bw_calls w)))
                   else se_ret []) ;;
  scope_files <<- se_get (fun w => Ok (scope_files_of (de_scope_file env (bw_calls w)))) ;;
  let scope_too_wide := succeeded result &&
    match dget result "branch_pushed" with JBool false => true | _ => false end &&
    jeq_str (dget result "failure_category") "scope_too_wide" in
  if succeeded result && negb scope_too_wide then
    scope_error <<- verify_pushed_scope bundle result base_branch task_branch ;;
    match scope_error with
    | Some text => _ <<- fail_task client task_id role text ;; se_ret false
    | None =>
        _ <<- handle_success client settings role (jtruthy (dget result "needs_verification")) suggestions
          (opt_text (dget result "pull_request_url")) (opt_text (dget result "branch_name"))
          (jtruthy (dget result "branch_pushed")) ;;
        se_ret true
    end
  else
    result <<- (if scope_too_wide then se_ret result
                else se_get (fun w => Ok match de_diagnostics env (bw_calls w) with
                                         | Some reason => <["failure_reason" := JStr reason]> result
                                         | None => result
                                         end)) ;;
    _ <<- handle_failure client settings role result (if scope_too_wide then scope_files else []) ;;
    se_ret false.

Definition execute_task (task_id task_branch base_branch : string) (bundle : jval) : BM bool :=
  run <<- ask (de_execute env) (BC_execute task_branch ("board_worker_" +:+ role)) ;;
  match xr_result run with
  | RF_missing => _ <<- fail_task client task_id role "execute produced no result file" ;; se_ret false
  | RF_empty =>
      let rc := str_of_Z (xr_returncode run) in
      _ <<- add_label client ("executor-exit-code: " +:+ rc) ;;
      _ <<- add_label client "executor-signal: SIGKILL" ;;
      _ <<- increment_retry_count client ;;
      _ <<- fail_task client task_id role
        ("execute wrote empty result.json (returncode=" +:+ rc +:+ ") — treated as executor kill") ;;
      se_ret false
  | RF_json content =>
      outcome <<- se_lift content ;;
      result <<- se_lift (result_of outcome) ;;
      result <<- retry_transient task_branch outcome result ;;
      settle task_id task_branch base_branch bundle result
  end.

Definition repo_local_path (repo_key : string) : string :=
  match r ← repo_of settings repo_key; wr_local_path r with
  | Some p => if str_truthy p then p else de_github_dir env +:+ "/" +:+ repo_key
  | None => de_github_dir env +:+ "/" +:+ repo_key
  end.

Definition clone_url_of (repo_key : string) : string :=
  match repo_of settings repo_key with
  | Some r => wr_clone_url r
  | None => "file://" +:+ repo_local_path repo_key
  end.

(** ** spec_author.py *)

Definition default_branch_of (repo_key : string) : string := base_branch_of [] (repo_of settings repo_key).

(** Tag the created tasks with the run, each found on a fresh list. *)
Fixpoint tag_created (run_id : string) (by_id : list dict) (created : list string) : BM unit :=
  match created with
  | [] => se_ret tt
  | new_id :: rest =>
      _ <<- match last (List.filter (fun i => String.eqb (id_text i) new_id) by_id) with
            | Some iss => on_issue iss (add_label client ("parent_run: " +:+ run_id))
            | None => se_ret tt
            end ;;
      tag_created run_id by_id rest
  end.

(** Move the task to Done and say why; a failure is logged. *)
Definition finish_spec (task_id text : string) : BM unit :=
  se_try (_ <<- transition_issue client task_id STATE_DONE ;; comment_issue client task_id text)
    (fun _ => se_ret tt).

Definition spec_repo (spec_text : string) : string :=
  match from_spec_text (de_yaml env) spec_text with
  | Ok fm => match fm_repos fm with r :: _ => r | [] => SPEC_AUTHOR_REPO_KEY end
  | Raise _ => SPEC_AUTHOR_REPO_KEY
  end.

Definition handle_spec_author_success (target_path task_phase run_id : string) : BM unit :=
  issue <<- the_issue ;;
  task_id <<- se_lift (issue_id issue) ;;
  if str_truthy task_phase then
    finish_spec task_id ("spec-author (phase-advance, task_phase=" +:+ task_phase +:+ ") complete — spec rewritten at " +:+
                         target_path +:+ " (run_id=" +:+ run_id +:+ ").")
  else
    file <<- se_get (fun w => Ok (de_spec_file env (bw_calls w))) ;;
    match file with
    | None =>
        finish_spec task_id ("spec-author run succeeded (run_id=" +:+ run_id +:+ ") but expected file " +:+ target_path +:+
                             " not found in workspace — no campaign sub-tasks created.")
    | Some content =>
        let spec_text := match content with Ok t => t | Raise _ => "" end in
        let repo_key := spec_repo spec_text in
        created_ids <<- se_try
          (campaign_build (de_yaml env) client spec_text repo_key (default_branch_of repo_key))
          (fun _ => se_ret []) ;;
        _ <<- (if str_truthy run_id && list_truthy created_ids then
                 se_try (all_issues <<- list_issues client ;; tag_created run_id all_issues created_ids)
                   (fun _ => se_ret tt)
               else se_ret tt) ;;
        finish_spec task_id
          (if list_truthy created_ids
           then "spec-author complete (run_id=" +:+ run_id +:+ ") — wrote " +:+ target_path +:+ " and created " +:+
                str_of_Z (Z.of_nat (length created_ids)) +:+ " campaign task(s): " +:+
                join ", " (map (fun i => "#" +:+ i) created_ids)
           else "spec-author complete (run_id=" +:+ run_id +:+ ") — wrote " +:+ target_path +:+
                " but campaign-task creation produced no children (parse failed or empty goals).")
    end.

(** The labels that a spec-author task forwards. *)
Definition spec_forwarded_labels (labels : list jval) : list string :=
  List.filter (fun name => startswith (lower name) "source:") (map lname labels).

Definition payload_text (payload : dict) (k : string) : string := strip (text_get payload k "").

Definition process_spec_author (payload : dict) (base_branch : string) : BM bool :=
  issue <<- the_issue ;;
  task_id <<- se_lift (issue_id issue) ;;
  bundle <<- plan_task task_id "spec-author "
    (BC_plan (de_spec_goal env payload) (task_type_from_kind "spec-author") "goal" SPEC_AUTHOR_REPO_KEY
       (clone_url_of SPEC_AUTHOR_REPO_KEY) base_branch ""
       (spec_forwarded_labels (labels_field issue))) ;;
  match bundle with
  | None => se_ret false
  | Some _ =>
      run <<- ask (de_execute env)
        (BC_execute ("spec-author/" +:+ str_take 8 task_id)
           ("board_worker_spec_author|spec_slug=" +:+ payload_text payload "spec_slug" +:+ "|trigger=" +:+
            payload_text payload "trigger_source")) ;;
      match xr_result run with
      | RF_missing =>
          _ <<- fail_task client task_id role "spec-author execute produced no result file" ;; se_ret false
      | RF_json (Raise exc) =>
          _ <<- fail_task client task_id role ("spec-author result.json parse failed: " +:+ exn_text exc) ;; se_ret false
      | file =>
          let outcome := match file with RF_json (Ok v) => v | _ => JObj [] end in
          result <<- se_lift (result_of outcome) ;;
          if succeeded result then
            _ <<- handle_spec_author_success (payload_text payload "target_path") (payload_text payload "task_phase")
              (text_get result "run_id" "") ;;
            se_ret true
          else _ <<- handle_failure client settings role result [] ;; se_ret false
      end
  end.

(** ** dispatch_issue *)

Definition dispatch_spec_author (description : string) (labels : list jval) (task_id : string) : BM bool :=
  match de_spec_payload env description with
  | None =>
      _ <<- fail_task client task_id role "spec-author payload missing or malformed YAML block" ;; se_ret false
  | Some payload =>
      process_spec_author payload (base_branch_of labels (repo_of settings SPEC_AUTHOR_REPO_KEY))
  end.

(** The goal as the backend sees it: fenced, with the trusted text after it. *)
Definition goal_text_of (nonce description title repo_key : string) : string :=
  let goal := wrap_untrusted_goal nonce (extract_goal description title) "issue_goal" in
  let goal := append_rejection_patterns goal (load_rejection_patterns (de_catalog env) repo_key) in
  if String.eqb role "improve" then append_improve_output_prompt goal else append_definition_of_done goal.

Definition priority_of (labels : list jval) : string :=
  let raw := label_value labels "priority" in
  let p := lower (strip (if str_truthy raw then raw else "normal")) in
  if str_truthy p then p else "normal".

Definition dispatch_issue : BM bool :=
  issue <<- the_issue ;;
  task_id <<- se_lift (issue_id issue) ;;
  let labels := labels_field issue in
  let repo_key := label_value labels "repo" in
  let task_kind := label_value labels "task-kind" in
  let description := desc_text (de_unescape env) issue in
  if String.eqb task_kind "spec-author" then dispatch_spec_author description labels task_id
  else
    nonce <<- se_get (fun w => Ok (de_nonce env (bw_calls w))) ;;
    let repo_cfg := repo_of settings repo_key in
    let base_branch := base_branch_of labels repo_cfg in
    bundle <<- plan_task task_id ""
      (BC_plan (goal_text_of nonce description (text_get issue "name" "Untitled") repo_key)
         (task_type_from_kind task_kind) task_kind repo_key (clone_url_of repo_key) base_branch (priority_of labels)
         (build_forwarded_labels labels repo_cfg issue settings)) ;;
    match bundle with
    | None => se_ret false
    | Some bundle =>
        proposal <<- se_lift (match bundle with
                              | JObj l => Ok (default (JObj []) (od_get "proposal" l))
                              | _ => Raise (OtherError "object has no attribute 'get'")
                              end) ;;
        ci_spec_raw <<- se_lift (out_get proposal "continuous_improvement") ;;
        if jtruthy ci_spec_raw && String.eqb task_kind "improve_campaign" then run_ci_loop ci_spec_raw task_id repo_key
        else execute_task task_id (role +:+ "/" +:+ str_take 8 task_id) base_branch bundle
    end.

(** ** main.py *)

(** One cycle of the worker: what the heartbeat records; a cycle that raises
    records a failure. *)
Definition worker_cycle (now : list board_call -> datetime) : BM bool :=
  claimed <<- claim_next (de_unescape env) client settings now role ;;
  match claimed with
  | None => se_ret true
  | Some issue =>
      task_id <<- se_lift (issue_id issue) ;;
      on_issue issue (se_try dispatch_issue
        (fun exc =>
           if de_is_containment env exc then
             _ <<- fail_task client task_id role ("containment required but unavailable: " +:+ exn_text exc) ;;
             se_ret false
           else se_lift (Raise exc)))
  end.
End Dispatch.
