(* ===== verification/BoardLineage.v ===== *)
(** * How far the fleet's own work can branch

    Every follow-up and every piece of a split carries a retry count one above
    its parent's; the handlers never lower the count of a task.  Hence the
    lineages of tasks that the worker creates are shallow, whatever the board
    answers.  Suggestions of an improve run start a lineage of their own.  At
    the end, how a split divides the files of a task. *)
From Stdlib Require Import Ascii.
From S2P Require Import Prelude PyStr PyData TextLines BoardIssues BoardTrace BoardOutcomes.

(** ** Counter labels *)

Definition RETRY : string := "retry-count:".
Definition is_retry (name : string) : bool := startswith (lower name) RETRY.

Lemma startswith_app_l a b q : startswith a q = true -> startswith (a ++ b)%string q = true.
Proof. intros [r ->]%startswith_inv. rewrite <-str_app_assoc. apply startswith_app. Qed.

Lemma strip_prefix s : exists z, lstrip s = (strip s ++ z)%string.
Proof.
  rewrite strip_unfold. unfold rstrip. destruct (lstrip_suffix (String.rev (lstrip s))) as [p Hp].
  exists (String.rev p). rewrite <-str_rev_app, <-Hp. by rewrite str_rev_involutive.
Qed.

(** A text that does not start like a counter is none once it is stripped. *)
Lemma not_retry s : startswith (lower (lstrip s)) RETRY = false -> is_retry (strip s) = false.
Proof.
  intros H. apply not_true_is_false. intros Ht. destruct (strip_prefix s) as [z Hz].
  rewrite Hz, lower_app, startswith_app_l in H; done.
Qed.

Lemma retry_truthy s : is_retry s = true -> str_truthy s = true.
Proof. by destruct s. Qed.

(** At most one counter, a number that is at least [k]. *)
Definition counter_ok (k : Z) (names : list string) : Prop :=
  match List.filter is_retry names with
  | [] => (k <= 0)%Z
  | [l] => exists m, count_of l = Some m /\ count_of (lower l) = Some m /\ (k <= m)%Z
  | _ => False
  end.

Definition names_of (i : dict) : list string := map lname (labels_field i).

Lemma counters_named i : List.filter is_retry (label_names i) = List.filter is_retry (names_of i).
Proof.
  unfold label_names, names_of. induction (map lname (labels_field i)) as [|n ns IH]; [done|]. cbn [List.filter].
  destruct (is_retry n) eqn:E; [rewrite (retry_truthy _ E); cbn [List.filter]; by rewrite E, IH|].
  destruct (str_truthy n); cbn [List.filter]; by rewrite ?E.
Qed.

Lemma lower_idem s : lower (lower s) = lower s.
Proof.
  induction s as [|c s IH]; [done|]. unfold lower in *. cbn. rewrite IH. f_equal.
  by destruct c as [[] [] [] [] [] [] [] []].
Qed.

Lemma retry_count_first labels :
  retry_count_from_labels labels =
  match List.filter is_retry (map lname labels) with [] => 0%Z | l :: _ => default 0%Z (count_of (lower l)) end.
Proof.
  unfold retry_count_from_labels, count_from_labels. change (lower "retry-count:") with RETRY. unfold find_first.
  induction labels as [|x labels IH]; [done|]. cbn [map List.find List.filter]. unfold is_retry at 1.
  destruct (startswith (lower (lname x)) RETRY); [done|]. exact IH.
Qed.

Lemma retry_count_ge k labels : counter_ok k (map lname labels) -> (k <= retry_count_from_labels labels)%Z.
Proof.
  unfold counter_ok. rewrite retry_count_first. destruct (List.filter _ _) as [|l [|]]; [done| |done].
  intros (m & _ & -> & H). done.
Qed.

(** ** The labels the worker writes *)

(** A label that carries a number in figures. *)
Lemma counter_label p n :
  lower p = p -> lstrip p = p -> all_space p = false -> has_char colon p = false -> (0 <= n)%Z ->
  let l := p +:+ ": " +:+ str_of_Z n in
  strip l = l /\ lower l = l /\ startswith l (p +:+ ":") = true /\ before_char colon l = p /\
  after_char colon l = " " +:+ str_of_Z n /\ count_of l = Some n.
Proof.
  intros Hlow Hp Hsp Hcol Hn l. destruct (str_of_Z_digits n Hn) as [Hd _]. pose proof (str_of_Z_nonempty n) as Hne.
  assert (Hafter : after_char colon l = " " +:+ str_of_Z n).
  { unfold l. change (p +:+ ": " +:+ str_of_Z n) with (p +:+ String colon (" " +:+ str_of_Z n)). by apply after_char_app. }
  split_and!.
  - unfold l. rewrite strip_unfold, lstrip_app, Hp by done. change (p +:+ ": " +:+ str_of_Z n) with (p ++ (": " ++ str_of_Z n))%string.
    rewrite str_app_assoc, rstrip_app.
    + f_equal. unfold rstrip. rewrite all_digits_lstrip by (by rewrite all_digits_rev). apply str_rev_involutive.
    + destruct (str_of_Z n) as [|c s]; [done|]. apply all_digits_cons in Hd as [Hc _].
      apply digit_facts in Hc as (Hc & _). unfold all_space. cbn. by rewrite Hc.
  - unfold l. rewrite !lower_app, Hlow, (all_digits_lower _ Hd). done.
  - unfold l. change (p +:+ ": " +:+ str_of_Z n) with (p ++ (":" ++ (" " ++ str_of_Z n)))%string.
    rewrite str_app_assoc. apply startswith_app.
  - unfold l. change (p +:+ ": " +:+ str_of_Z n) with (p +:+ String colon (" " +:+ str_of_Z n)). by apply before_char_app.
  - exact Hafter.
  - unfold count_of. rewrite Hafter. rewrite strip_unfold. change (lstrip (" " +:+ str_of_Z n)) with (lstrip (str_of_Z n)).
    rewrite <-strip_unfold, all_digits_strip by done. by apply py_int_str_of_Z.
Qed.

Lemma retry_label n :
  (0 <= n)%Z ->
  let l := "retry-count: " +:+ str_of_Z n in
  strip l = l /\ is_retry l = true /\ count_of l = Some n /\ count_of (lower l) = Some n.
Proof.
  intros Hn l. destruct (counter_label "retry-count" n eq_refl eq_refl eq_refl eq_refl Hn) as (Hs & Hl & Hst & _ & _ & Hc).
  change ("retry-count" +:+ ": " +:+ str_of_Z n) with l in *. split; [done|]. split; [unfold is_retry; by rewrite Hl|].
  split; [done|]. by rewrite Hl.
Qed.

Lemma inherited_plain labels : List.filter is_retry (map strip (inherited_sources labels)) = [].
Proof.
  apply filter_none, Forall_map, Forall_forall. intros s Hs.
  unfold inherited_sources in Hs. apply elem_of_filter_bool in Hs as [Hs [Hsrc _]%andb_true_iff].
  apply list_elem_of_fmap in Hs as (lab & -> & _). rewrite (lname_tidy lab). unfold is_retry.
  apply startswith_inv in Hsrc as [r ->]. done.
Qed.

Lemma plain_cons s names :
  startswith (lower (lstrip s)) RETRY = false ->
  List.filter is_retry (map strip (s :: names)) = List.filter is_retry (map strip names).
Proof. intros H. cbn [map List.filter]. by rewrite not_retry. Qed.

Lemma child_counters pre post n labels :
  Forall (fun s => startswith (lower (lstrip s)) RETRY = false) (pre ++ post) -> (0 <= n)%Z ->
  List.filter is_retry (map strip (pre ++ inherited_sources labels ++ post ++ ["retry-count: " +:+ str_of_Z n])) =
  ["retry-count: " +:+ str_of_Z n].
Proof.
  intros [Hpre Hpost]%Forall_app Hn.
  assert (Hplain : forall l, Forall (fun s => startswith (lower (lstrip s)) RETRY = false) l ->
            List.filter is_retry (map strip l) = []).
  { induction 1 as [|s l Hs _ IH]; [done|]. by rewrite plain_cons. }
  rewrite !map_app, !List.filter_app, (Hplain pre), (Hplain post), inherited_plain by done. cbn [map List.filter app].
  destruct (retry_label n Hn) as (-> & -> & _). done.
Qed.

(** What the labels of a new task are counted as: one above the parent. *)
Lemma child_counter_ok k pre post labels :
  Forall (fun s => startswith (lower (lstrip s)) RETRY = false) (pre ++ post) -> (0 <= k)%Z ->
  counter_ok k (map lname labels) ->
  counter_ok (k + 1) (map strip (pre ++ inherited_sources labels ++ post ++
    ["retry-count: " +:+ str_of_Z (retry_count_from_labels labels + 1)])).
Proof.
  intros Hp Hk Hc%retry_count_ge. unfold counter_ok.
  rewrite child_counters by (done || lia). exists (retry_count_from_labels labels + 1)%Z.
  destruct (retry_label (retry_count_from_labels labels + 1)) as (_ & _ & ? & ?); [lia|]. split_and!; [done..|lia].
Qed.

(** ** Computations that keep the count and pass on one more *)

(** What is asked of a new task: a count above [k], within the limit. *)
Definition child_ok (k : Z) (c : board_call) : Prop :=
  match c with
  | BC_create _ _ _ names => counter_ok (k + 1) (map strip names) /\ (k + 1 <= MAX_FOLLOW_UP_RETRIES)%Z
  | _ => True
  end.

(** The worker's copy keeps a count of at least [k]; the tasks created count more. *)
Definition spawns {A} (k : Z) (m : BM A) : Prop :=
  forall w, counter_ok k (names_of (bw_issue w)) ->
  counter_ok k (names_of (bw_issue (fst (m w)))) /\
  exists cs, bw_calls (fst (m w)) = bw_calls w ++ cs /\ Forall (child_ok k) cs.

Section Spawns.
Context (k : Z) (Hk : (0 <= k)%Z).

Lemma spawns_silent {A} (m : BM A) : (forall w, fst (m w) = w) -> spawns k m.
Proof. intros H w Hw. rewrite H. split; [done|]. exists []. by rewrite app_nil_r. Qed.
Lemma spawns_ret {A} (a : A) : spawns k (se_ret a).
Proof. by apply spawns_silent. Qed.
Lemma spawns_lift {A} (r : res A) : spawns k (se_lift r).
Proof. by apply spawns_silent. Qed.

Lemma spawns_ask {A} (answer : list board_call -> res A) c : child_ok k c -> spawns k (ask answer c).
Proof. intros H w Hw. split; [done|]. exists [c]. split; [done|]. by constructor. Qed.

Lemma spawns_seq {A} w w1 (m : BM A) :
  counter_ok k (names_of (bw_issue w1)) -> (exists cs, bw_calls w1 = bw_calls w ++ cs /\ Forall (child_ok k) cs) ->
  spawns k m ->
  counter_ok k (names_of (bw_issue (fst (m w1)))) /\
  exists cs, bw_calls (fst (m w1)) = bw_calls w ++ cs /\ Forall (child_ok k) cs.
Proof.
  intros Hi (cs & Hc & Hf) Hm. destruct (Hm w1 Hi) as (Hi2 & cs2 & Hc2 & Hf2). split; [done|].
  exists (cs ++ cs2). rewrite Hc2, Hc, app_assoc. split; [done|]. by apply Forall_app.
Qed.

Lemma spawns_bind {A B} (m : BM A) (f : A -> BM B) : spawns k m -> (forall a, spawns k (f a)) -> spawns k (se_bind m f).
Proof.
  intros Hm Hf w Hw. destruct (Hm w Hw) as [Hi Hc]. unfold se_bind. destruct (m w) as [w1 [a|e]]; cbn [fst] in *; [|done].
  by apply spawns_seq.
Qed.

Lemma spawns_try {A} (m : BM A) h : spawns k m -> (forall e, spawns k (h e)) -> spawns k (se_try m h).
Proof.
  intros Hm Hh w Hw. destruct (Hm w Hw) as [Hi Hc]. unfold se_try. destruct (m w) as [w1 [a|e]]; cbn [fst] in *; [done|].
  by apply spawns_seq.
Qed.

Lemma spawns_issue {B} (f : dict -> BM B) :
  (forall i, counter_ok k (names_of i) -> spawns k (f i)) -> spawns k (se_bind the_issue f).
Proof. intros H w Hw. unfold se_bind, the_issue, se_get. by apply H. Qed.

(** The labels that the worker's copy is given: its counters are kept. *)
Lemma spawns_relabel client names : counter_ok k (map strip names) -> spawns k (replace_labels client names).
Proof.
  intros Hn w Hw. assert (Ha : asks (child_ok k) (replace_labels client names)) by (apply replace_labels_asks; done).
  split; [|exact (Ha w)]. destruct (replace_labels_issue client names w) as [->| ->]; [done|].
  unfold names_of. rewrite labels_field_store, map_map. exact Hn.
Qed.

Lemma tidy_names i : map strip (label_names i) = label_names i.
Proof. pose proof (label_names_tidy i) as H. induction H as [|n ns Hn _ IH]; [done|]. cbn [map]. by rewrite Hn, IH. Qed.

Lemma relabel_ok q extra i :
  (forall n, is_retry n = true -> q n = true) -> List.filter is_retry (map strip extra) = [] ->
  counter_ok k (names_of i) -> counter_ok k (map strip (List.filter q (label_names i) ++ extra)).
Proof.
  intros Hq He. unfold counter_ok. rewrite <-counters_named, map_app, List.filter_app, He, app_nil_r.
  assert (Hm : map strip (List.filter q (label_names i)) = List.filter q (label_names i)).
  { pose proof (label_names_tidy i) as H. induction H as [|n ns Hn _ IH]; [done|]. cbn [List.filter].
    destruct (q n); [|done]. cbn [map]. by rewrite Hn, IH. }
  rewrite Hm. clear Hm. replace (List.filter is_retry (List.filter q (label_names i))) with (List.filter is_retry (label_names i)); [done|].
  induction (label_names i) as [|n ns IH]; [done|]. cbn [List.filter]. destruct (is_retry n) eqn:E.
  - rewrite (Hq n E). cbn [List.filter]. by rewrite E, IH.
  - destruct (q n); cbn [List.filter]; by rewrite ?E.
Qed.

Lemma filter_true (l : list string) : List.filter (fun _ => true) l = l.
Proof. induction l as [|x l IH]; [done|]. cbn. by rewrite IH. Qed.

Lemma spawns_add client l : startswith (lower (lstrip l)) RETRY = false -> spawns k (add_label client l).
Proof.
  intros Hl. apply spawns_issue. intros i Hi. cbv zeta. destruct (str_in l (label_names i)); [apply spawns_ret|].
  apply spawns_relabel. rewrite <-(filter_true (label_names i)). apply relabel_ok; [done| |done].
  cbn [map List.filter]. by rewrite not_retry.
Qed.

Lemma spawns_remove client ls :
  Forall (fun l => is_retry l = false) ls -> spawns k (remove_labels client ls).
Proof.
  intros Hls. apply spawns_issue. intros i Hi. cbv zeta.
  match goal with |- spawns k (if ?b then _ else _) => destruct b end; [apply spawns_ret|].
  apply spawns_relabel. rewrite <-(app_nil_r (List.filter _ _)). apply relabel_ok; [|done|done].
  intros n Hn. apply negb_true_iff, not_true_is_false. intros Hin. apply str_in_spec in Hin.
  apply list_elem_of_fmap in Hin as (l & Heq & Hl). rewrite Forall_forall in Hls. specialize (Hls l Hl).
  unfold is_retry in *. by rewrite Heq, Hls in Hn.
Qed.

Lemma foldl_where {A B} (p : B -> bool) (f : A -> B -> A) c l :
  foldl (fun c x => if p x then f c x else c) c l = foldl f c (List.filter p l).
Proof. revert c. induction l as [|x l IH]; intros c; [done|]. cbn. destruct (p x); apply IH. Qed.

(** Raising a counter by one. *)
Lemma incremented_unfold prefix ns :
  incremented prefix ns =
  List.filter (fun l => negb (startswith (lower l) (lower prefix))) ns ++
  [prefix +:+ " " +:+ str_of_Z (foldl (fun c l => default c (count_of l)) 0%Z
     (List.filter (fun l => startswith (lower l) (lower prefix)) ns) + 1)].
Proof. unfold incremented. by rewrite <-foldl_where. Qed.

(** The counters are replaced by a greater one. *)
Lemma incremented_retry i :
  counter_ok k (names_of i) -> counter_ok k (map strip (incremented "retry-count:" (label_names i))).
Proof using Hk.
  unfold counter_ok. rewrite <-counters_named, incremented_unfold. change (lower "retry-count:") with RETRY.
  change (fun l => startswith (lower l) RETRY) with is_retry.
  intros H. set (c := foldl _ _ _).
  assert (Hc : (k <= c /\ 0 <= c)%Z).
  { unfold c. destruct (List.filter is_retry (label_names i)) as [|l [|]]; cbn; [lia| |done].
    destruct H as (m & -> & _ & H). cbn. lia. }
  assert (Hrest : List.filter is_retry (map strip (List.filter (fun l => negb (startswith (lower l) RETRY)) (label_names i))) = []).
  { clear. pose proof (label_names_tidy i) as Ht. induction Ht as [|n ns Hn _ IH]; [done|]. cbn [List.filter].
    destruct (startswith (lower n) RETRY) eqn:E; cbn [negb]; [exact IH|]. cbn [map List.filter].
    rewrite Hn. unfold is_retry at 1. by rewrite E. }
  change ("retry-count:" +:+ " " +:+ str_of_Z (c + 1)) with ("retry-count: " +:+ str_of_Z (c + 1)).
  rewrite map_app, List.filter_app, Hrest. cbn [map List.filter app].
  destruct (retry_label (c + 1)) as (Hs & Hr & Hv & Hl); [lia|]. rewrite Hs, Hr.
  exists (c + 1)%Z. split_and!; [done..|lia].
Qed.

Lemma incremented_other prefix i :
  (forall n, is_retry n = true -> startswith (lower n) (lower prefix) = false) ->
  (forall s, startswith (lower (lstrip (prefix +:+ " " +:+ s))) RETRY = false) ->
  counter_ok k (names_of i) -> counter_ok k (map strip (incremented prefix (label_names i))).
Proof.
  intros Hq Hp Hi. rewrite incremented_unfold. apply relabel_ok; [|cbn [map List.filter]; rewrite not_retry; [done | apply Hp]|done].
  intros n Hn. by rewrite Hq.
Qed.

Lemma spawns_retry client : spawns k (increment_retry_count client).
Proof using Hk. apply spawns_issue. intros i Hi. by apply spawns_relabel, incremented_retry. Qed.

Lemma spawns_code_failure client : spawns k (increment_code_failure_count client).
Proof.
  apply spawns_issue. intros i Hi. apply spawns_relabel, incremented_other; [|done|done].
  intros n Hn. unfold is_retry in Hn. apply startswith_inv in Hn as [r Hr]. rewrite Hr. done.
Qed.
End Spawns.

(** ** The handlers *)

Section Handlers.
Context (client : board_client) (settings : WorkerSettings) (k : Z) (Hk : (0 <= k)%Z).

Lemma new_task_ok cap labels pre post name description names :
  (cap <= MAX_FOLLOW_UP_RETRIES)%Z ->
  names = pre ++ inherited_sources labels ++ post ++ ["retry-count: " +:+ str_of_Z (retry_count_from_labels labels + 1)] ->
  Forall (fun s => startswith (lower (lstrip s)) RETRY = false) (pre ++ post) ->
  counter_ok k (map lname labels) -> (cap <=? retry_count_from_labels labels)%Z = false ->
  spawns k (create_issue client name description names).
Proof using Hk.
  intros Hm -> Hp Hc Hcap. apply spawns_ask. split; [by apply child_counter_ok|].
  apply retry_count_ge in Hc. apply Z.leb_gt in Hcap. lia.
Qed.

Ltac spawns_step :=
  match goal with
  | |- spawns _ (se_bind the_issue _) => apply spawns_issue; intros ? ?
  | |- spawns _ (se_bind _ _) => apply spawns_bind; [|intros ?]
  | |- spawns _ (se_try _ _) => apply spawns_try; [|intros ?]
  | |- spawns _ (ask _ _) => apply spawns_ask; exact I
  | |- spawns _ (list_issues _) => apply spawns_ask; exact I
  | |- spawns _ (transition_issue _ _ _) => apply spawns_ask; exact I
  | |- spawns _ (comment_issue _ _ _) => apply spawns_ask; exact I
  | |- spawns _ (se_ret _) => apply spawns_ret
  | |- spawns _ (se_lift _) => apply spawns_lift
  | |- spawns _ (add_label _ _) => apply spawns_add; reflexivity
  | |- spawns _ (remove_labels _ _) => apply spawns_remove; repeat constructor
  | |- spawns _ (increment_retry_count _) => by apply spawns_retry
  | |- spawns _ (increment_code_failure_count _) => by apply spawns_code_failure
  | |- spawns _ (if ?b then _ else _) => destruct b eqn:?
  | |- spawns _ (match ?x with _ => _ end) => destruct x eqn:?
  | |- spawns _ (let _ := _ in _) => cbv zeta
  end.

Lemma cap_reached_spawns cap count : spawns k (cap_reached client cap count).
Proof. unfold cap_reached. repeat spawns_step. Qed.
Lemma ceiling_spawns : spawns k (ceiling_reached client settings).
Proof. unfold ceiling_reached. repeat spawns_step. apply cap_reached_spawns. Qed.
Lemma root_cap_spawns root : spawns k (root_descendant_cap_reached client settings root).
Proof. unfold root_descendant_cap_reached. repeat spawns_step. apply cap_reached_spawns. Qed.

Lemma create_follow_up_spawns kind reason :
  startswith (lower (lstrip ("task-kind: " +:+ kind))) RETRY = false -> spawns k (create_follow_up client settings kind reason).
Proof using Hk.
  intros Hkind. unfold create_follow_up. repeat (spawns_step || apply ceiling_spawns || apply root_cap_spawns).
  apply (new_task_ok MAX_FOLLOW_UP_RETRIES (labels_field i) ["task-kind: " +:+ kind; "repo: " +:+ label_value (labels_field i) "repo"; "source: board_worker"]
    ["original-task-id: " +:+ a; "lineage-root: " +:+ lineage_root_of (labels_field i) a; "handoff-reason: " +:+ reason]);
    [lia|reflexivity|repeat constructor|done..].
Qed.

Lemma create_chunks_spawns parent_id title reason labels n idx chunks created :
  counter_ok k (map lname labels) -> (2 <=? retry_count_from_labels labels)%Z = false ->
  spawns k (create_chunks client parent_id title reason labels n idx chunks created).
Proof using Hk.
  intros Hc Hcap. revert idx created. induction chunks as [|chunk chunks IH]; intros idx created; [apply spawns_ret|].
  cbn [create_chunks]. apply spawns_bind; [|intros; apply IH]. apply spawns_try; [|intros; apply spawns_ret].
  apply spawns_bind; [|intros; apply spawns_ret].
  apply (new_task_ok 2 labels ["task-kind: goal"; "repo: " +:+ label_value labels "repo"; "source: board_worker"; "source: scope-split"]
    ["original-task-id: " +:+ parent_id; "lineage-root: " +:+ lineage_root_of labels parent_id; "handoff-reason: " +:+ reason]);
    [unfold MAX_FOLLOW_UP_RETRIES; lia|reflexivity|repeat constructor|done..].
Qed.

Lemma create_split_spawns files reason : spawns k (create_split_followups client settings files reason).
Proof using Hk.
  unfold create_split_followups.
  repeat (spawns_step || apply ceiling_spawns || apply root_cap_spawns || by apply create_chunks_spawns).
Qed.

Lemma close_split_spawns : spawns k (maybe_close_split_parent client).
Proof. unfold maybe_close_split_parent, close_parent. repeat spawns_step. Qed.

Lemma handle_failure_spawns role result files : spawns k (handle_failure client settings role result files).
Proof using Hk.
  unfold handle_failure, label_failure.
  repeat (spawns_step || apply create_split_spawns || by apply create_follow_up_spawns).
Qed.

Lemma handle_success_spawns role verify suggestions pr_url branch pushed :
  role <> "improve" ->
  spawns k (handle_success client settings role verify suggestions pr_url branch pushed).
Proof using Hk.
  intros Hrole. unfold handle_success, clear_blocked_reason_labels, finish_goal.
  repeat (spawns_step || by apply create_follow_up_spawns || apply close_split_spawns).
  by apply String.eqb_eq in Heqb1.
Qed.
End Handlers.

(** ** Lineages *)

(** What may happen to a dispatched task but an improve run that succeeds,
    whose suggestions start over. *)
Inductive handling :=
  | H_failed (role : string) (result : dict) (scope_files : list string)
  | H_succeeded (role : string) (needs_verification : bool) (pr_url branch_name : option string) (branch_pushed : bool).

Definition handle (client : board_client) (settings : WorkerSettings) (h : handling) : BM unit :=
  match h with
  | H_failed role result files => handle_failure client settings role result files
  | H_succeeded role verify pr_url branch pushed => handle_success client settings role verify [] pr_url branch pushed
  end.

Definition no_suggestions (h : handling) : Prop :=
  match h with H_succeeded role _ _ _ _ => role <> "improve" | _ => True end.

(** The tasks [n] steps below one that somebody else wrote, handled in any order
    by any workers, in front of any board.  The first task has at most one
    retry label, which reads as a number of at least [c]; without one [c] is 0. *)
Inductive generation (settings : WorkerSettings) (c : Z) : Z -> dict -> Prop :=
  | G_root i : counter_ok c (names_of i) -> generation settings c 0 i
  | G_handled n i client h calls :
      generation settings c n i -> no_suggestions h ->
      generation settings c n (bw_issue (fst (handle client settings h {| bw_calls := calls; bw_issue := i |})))
  | G_child n i client h calls name description state names child :
      generation settings c n i -> no_suggestions h ->
      BC_create name description state names
        ∈ drop (length calls) (bw_calls (fst (handle client settings h {| bw_calls := calls; bw_issue := i |}))) ->
      names_of child = map strip names ->
      generation settings c (n + 1) child.

Lemma handle_spawns client settings h k : (0 <= k)%Z -> no_suggestions h -> spawns k (handle client settings h).
Proof. intros Hk Hh. destruct h; [by apply handle_failure_spawns | by apply handle_success_spawns]. Qed.

(** C32: however often tasks fail, are split, verified and followed up, by any
    workers and whatever the board answers: when the first task of a lineage has
    no retry label, or a single one with a count that is not negative, a task
    the worker created is at most three steps below it, less the count it
    started with, and its retry label counts at least that count and these
    steps.  (A first task with a negative count branches deeper, see
    [negative_count_goes_deeper].) *)
Theorem lineages_are_shallow settings c n i :
  (0 <= c)%Z -> generation settings c n i ->
  (0 <= n)%Z /\ (n = 0 \/ c + n <= MAX_FOLLOW_UP_RETRIES)%Z /\
  (c + n <= retry_count_from_labels (labels_field i))%Z.
Proof.
  intros Hpos H. enough (Hn : (0 <= n)%Z /\ (n = 0 \/ c + n <= MAX_FOLLOW_UP_RETRIES)%Z /\ counter_ok (c + n) (names_of i)).
  { destruct Hn as (? & ? & Hc). split; [done|]. split; [done|]. by apply retry_count_ge. }
  induction H as [i Hi|n i client h calls _ (Hn & Hm & Hc) Hh|n i client h calls name description state names child _ (Hn & Hm & Hc) Hh Hin Hch].
  - rewrite Z.add_0_r. split; [lia|]. split; [by left|done].
  - split; [done|]. split; [done|].
    exact (proj1 (handle_spawns client settings h (c + n) ltac:(lia) Hh {| bw_calls := calls; bw_issue := i |} Hc)).
  - destruct (handle_spawns client settings h (c + n) ltac:(lia) Hh {| bw_calls := calls; bw_issue := i |} Hc) as (_ & cs & Hcs & Hok).
    rewrite Hcs in Hin. cbn [bw_calls] in Hin. rewrite drop_app_length in Hin.
    rewrite Forall_forall in Hok. destruct (Hok _ Hin) as [Hcount Hle]. split; [lia|]. split; [right; lia|].
    by rewrite Hch, Z.add_assoc.
Qed.

Module LineageScenarios.
Definition client : board_client := {|
  bcl_list := fun _ => Ok []; bcl_fetch := fun _ => Ok ∅; bcl_write := fun _ => Ok tt;
  bcl_create := fun _ => Ok (list_to_map [("id", JStr "77")]); bcl_prs := fun _ => Ok [] |}.
Definition settings : WorkerSettings := {|
  ws_repos := []; ws_task_admission := None; ws_max_open_fleet_tasks := 0; ws_max_descendants_per_root := 0;
  ws_open_pr_gate_stale_hours := 0; ws_code_failure_retry_cap := 0; ws_git_token := None |}.
Definition root : dict := list_to_map
  [("id", JStr "5"); ("name", JStr "Check the totals");
   ("labels", JList [JStr "task-kind: test"; JStr "repo: Alpha"; JStr "source: board_worker"])].
Definition failed : handling := H_failed "test" (list_to_map [("failure_category", JStr "validation_failed")]) [].
Definition child_labels : list string :=
  ["task-kind: goal"; "repo: Alpha"; "source: board_worker"; "original-task-id: 5"; "lineage-root: 5";
   "handoff-reason: verification_failed"; "retry-count: 1"].
Definition child : dict := list_to_map
  [("id", JStr "77"); ("labels", JList (map (fun n => JObj [("name", JStr n)]) child_labels))].
End LineageScenarios.

Lemma lineages_are_shallow_witness :
  (0 <= 1)%Z /\ (1 = 0 \/ 0 + 1 <= MAX_FOLLOW_UP_RETRIES)%Z /\
  (0 + 1 <= retry_count_from_labels (labels_field LineageScenarios.child))%Z.
Proof.
  apply (lineages_are_shallow LineageScenarios.settings); [lia|]. change 1%Z with (0 + 1)%Z.
  eapply (G_child _ 0 0 LineageScenarios.root LineageScenarios.client LineageScenarios.failed [] _ _ STATE_READY LineageScenarios.child_labels).
  - apply G_root. vm_compute. discriminate.
  - exact I.
  - vm_compute. left.
  - vm_compute. reflexivity.
Defined.

(** The count is taken as it stands on the label: a task labelled by hand with a
    negative one gets a follow-up with a count that is still negative. *)
Example negative_count_goes_deeper :
  let root : dict := list_to_map
    [("id", JStr "5"); ("name", JStr "Check the totals");
     ("labels", JList [JStr "task-kind: test"; JStr "repo: Alpha"; JStr "retry-count: -5"])] in
  let w := fst (handle LineageScenarios.client LineageScenarios.settings LineageScenarios.failed
                  {| bw_calls := []; bw_issue := root |}) in
  existsb (fun c => match c with BC_create _ _ _ names => str_in "retry-count: -4" names | _ => false end) (bw_calls w) = true.
Proof. vm_compute. reflexivity. Qed.

(** ** A split covers the files it was given

    The pieces of a scope split: together they list every file once, none is
    empty, and there are no more than the limit, whatever the directories. *)

Definition nonempty {A} (l : list A) : Prop := l <> [].

Lemma od_add_perm {A} k (x : A) (d : list (string * list A)) :
  concat (map snd (od_set k (default [] (od_get k d) ++ [x]) d)) ≡ₚ concat (map snd d) ++ [x].
Proof.
  induction d as [|[k' l] d IH]; [done|]. cbn [od_set]. unfold od_get in *. cbn [List.find fst].
  case_bool_decide as E.
  - cbn [map snd concat default fmap option_fmap option_map]. rewrite <-!app_assoc. apply Permutation_app_head. by rewrite Permutation_app_comm.
  - cbn [map snd concat]. rewrite IH. by rewrite app_assoc.
Qed.

Lemma od_add_nonempty {A} k (x : A) (d : list (string * list A)) l :
  Forall nonempty (map snd d) -> Forall nonempty (map snd (od_set k (l ++ [x]) d)).
Proof.
  intros H. induction d as [|[k' l'] d IH]; [repeat constructor; by destruct l|]. cbn [od_set]. cbn in H.
  apply Forall_cons in H as [H1 H2]. case_bool_decide; cbn; constructor; try done; [by destruct l | by apply IH].
Qed.

Lemma group_by_top_spec files :
  concat (map snd (group_by_top files)) ≡ₚ files /\ Forall nonempty (map snd (group_by_top files)).
Proof.
  unfold group_by_top. enough (H : forall d, Forall nonempty (map snd d) ->
    let d' := foldl (fun by_top f => od_set (top_dir f) (default [] (od_get (top_dir f) by_top) ++ [f]) by_top) d files in
    concat (map snd d') ≡ₚ concat (map snd d) ++ files /\ Forall nonempty (map snd d')) by (apply (H []); constructor).
  induction files as [|f files IH]; intros d Hd; cbn [foldl]; [by rewrite app_nil_r|].
  destruct (IH (od_set (top_dir f) (default [] (od_get (top_dir f) d) ++ [f]) d)) as [Hp Hn]; [by apply od_add_nonempty|].
  split; [|done]. rewrite Hp, od_add_perm. by rewrite <-app_assoc.
Qed.

Section Pieces.
Context {A : Type}.
Implicit Types l : list A.

Lemma pieces_spec fuel n l : 0 < n -> length l <= fuel -> concat (pieces fuel n l) = l /\ Forall nonempty (pieces fuel n l).
Proof.
  intros Hn. revert l. induction fuel as [|fuel IH]; intros l Hl; [destruct l; [by split | cbn in Hl; lia]|].
  destruct l as [|x l]; [by split|]. cbn [pieces concat]. destruct n as [|n]; [lia|].
  destruct (IH (drop (S n) (x :: l))) as [Hc Hf]; [rewrite length_drop; cbn in *; lia|].
  rewrite Hc, take_drop. split; [done|]. by constructor.
Qed.

Lemma concat_perm (a b : list (list A)) : a ≡ₚ b -> concat a ≡ₚ concat b.
Proof.
  induction 1 as [|x a b _ IH|x y a|a b c _ IH1 _ IH2]; cbn; [done|by rewrite IH| |by rewrite IH1].
  rewrite !app_assoc. apply Permutation_app_tail, Permutation_app_comm.
Qed.

Lemma merge_chunks_spec fuel cap (chunks : list (list A)) :
  Forall nonempty chunks -> length chunks <= fuel -> 0 < cap ->
  concat (merge_chunks fuel cap chunks) ≡ₚ concat chunks /\ Forall nonempty (merge_chunks fuel cap chunks) /\
  length (merge_chunks fuel cap chunks) <= cap.
Proof.
  revert chunks. induction fuel as [|fuel IH]; intros chunks Hne Hlen Hcap.
  - destruct chunks; [|cbn in Hlen; lia]. split_and!; [done..|cbn; lia].
  - cbn [merge_chunks]. destruct (_ && _) eqn:E.
    + apply andb_true_iff in E as [E1%Nat.ltb_lt E2%Nat.leb_le].
      pose proof (sorted_by_perm (fun a b => length a <=? length b) chunks) as Hp.
      destruct (sorted_by _ chunks) as [|a [|b rest]]; [by apply Permutation_length in Hp; cbn in Hp; lia..|].
      rewrite <-Hp in Hne. apply Forall_cons in Hne as [Ha [Hb Hr]%Forall_cons].
      assert (Hab : nonempty (a ++ b)) by (by destruct a).
      pose proof (Permutation_length Hp) as Hl. cbn in Hl.
      destruct (IH ((a ++ b) :: rest)) as (Hc & Hn & Hle); [by constructor|cbn; lia|done|].
      split_and!; [|done|done]. rewrite Hc, <-(concat_perm _ _ Hp). cbn. by rewrite app_assoc.
    + split_and!; [done..|]. apply andb_false_iff in E as [E%Nat.ltb_ge|E%Nat.leb_gt]; lia.
Qed.
End Pieces.

(** The pieces of a split list every file of the scope exactly as often as
    it was given, none of them is empty, and there are at most [max_chunks]. *)
Theorem split_covers_the_files files chunk_size max_chunks :
  0 < chunk_size -> 0 < max_chunks ->
  let chunks := split_files_into_chunks files chunk_size max_chunks in
  concat chunks ≡ₚ files /\ Forall nonempty chunks /\ length chunks <= max_chunks.
Proof.
  intros Hn Hm. unfold split_files_into_chunks. cbv zeta.
  destruct (group_by_top_spec files) as [Hp Hne].
  pose proof (sorted_by_perm (fun a b => length b <=? length a) (map snd (group_by_top files))) as Hs.
  set (groups := sorted_by _ _) in *. rewrite <-Hs in Hne. rewrite <-(concat_perm _ _ Hs) in Hp.
  assert (Hg : concat (flat_map (fun g => pieces (length g) chunk_size g) groups) = concat groups /\
               Forall nonempty (flat_map (fun g => pieces (length g) chunk_size g) groups)).
  { clear -Hn. induction groups as [|g groups [IH1 IH2]]; [done|]. cbn [flat_map concat].
    destruct (pieces_spec (length g) chunk_size g Hn) as [H1 H2]; [lia|].
    rewrite concat_app, H1, IH1. split; [done|]. by apply Forall_app. }
  destruct Hg as [Hg1 Hg2]. destruct (merge_chunks_spec _ max_chunks _ Hg2 (le_n _) Hm) as (H1 & H2 & H3).
  split_and!; [|done|done]. by rewrite H1, Hg1.
Qed.

Lemma split_covers_the_files_witness :
  concat (split_files_into_chunks ["src/a.py"; "docs/b.md"; "src/c.py"; "top.txt"] 1 2) ≡ₚ
  ["src/a.py"; "docs/b.md"; "src/c.py"; "top.txt"].
Proof. apply (split_covers_the_files ["src/a.py"; "docs/b.md"; "src/c.py"; "top.txt"] 1 2); lia. Defined.
