(* ===== verification/BoardSettled.v ===== *)
(** * A task that was dispatched does not stay Running

    Every dispatch that returns, with a board that takes writes, has moved its
    task to Done, In Review or Blocked, or found it ended by somebody else;
    nothing it does afterwards takes the task out of these states. *)
From S2P Require Import Prelude PyStr PyData BoardIssues BoardTrace BoardClaim BoardOutcomes SpecCampaign BoardDispatch.

Definition final_states : list string := [STATE_DONE; STATE_REVIEW; STATE_BLOCKED].

Lemma final_done : STATE_DONE ∈ final_states.
Proof. repeat constructor. Qed.
Lemma final_review : STATE_REVIEW ∈ final_states.
Proof. repeat constructor. Qed.
Lemma final_blocked : STATE_BLOCKED ∈ final_states.
Proof. repeat constructor. Qed.
#[export] Hint Resolve final_done final_review final_blocked : board.

(** A call that leaves no task in a state of work. *)
Definition calm (c : board_call) : Prop := match c with BC_transition _ s => s ∈ final_states | _ => True end.

Section Settled.
Context (client : board_client) (id : string).

(** The call, after [pre], that ends the work on the task: a move to a final
    state, or an answer of the board that it has ended. *)
Definition closing (pre : list board_call) (c : board_call) : Prop :=
  match c with
  | BC_transition i s => i = id /\ s ∈ final_states
  | BC_fetch i =>
      i = id /\
      match bcl_fetch client (pre ++ [c]) with
      | Ok issue => lower match dget issue "state" with
                          | JObj l => jtext (default (JStr "") (od_get "name" l))
                          | v => if jtruthy v then jtext v else ""
                          end ∈ TERMINAL_STATE_NAMES
      | Raise _ => False
      end
  | _ => False
  end.

Definition settled (before after : list board_call) : Prop :=
  exists pre c post, after = before ++ pre ++ c :: post /\ closing (before ++ pre) c /\ Forall calm post.

(** ** Computations *)

Definition has_id (w : board_world) : Prop := issue_id (bw_issue w) = Ok id.
Definition any (w : board_world) : Prop := True.

Section Judgments.
Context (P : board_world -> Prop).

Definition settles {A} (m : BM A) : Prop :=
  forall w a, P w -> snd (m w) = Ok a -> settled (bw_calls w) (bw_calls (fst (m w))).
Definition keeps {A} (m : BM A) : Prop := forall w, P w -> P (fst (m w)).
Definition sure {A} (m : BM A) : Prop := forall w, P w -> exists a, snd (m w) = Ok a.

Lemma settled_app before after cs :
  settled before after -> Forall calm cs -> settled before (after ++ cs).
Proof.
  intros (pre & c & post & -> & Hc & Hp) Hcs. exists pre, c, (post ++ cs). split_and!; [|done|by apply Forall_app].
  by rewrite <-!app_assoc.
Qed.

Lemma settled_before before cs after : settled (before ++ cs) after -> settled before after.
Proof.
  intros (pre & c & post & -> & Hc & Hp). exists (cs ++ pre), c, post. rewrite <-app_assoc in Hc. split_and!; [|done|done].
  by rewrite <-!app_assoc.
Qed.

Lemma settles_l {A B} (m : BM A) (k : A -> BM B) : settles m -> (forall a, asks calm (k a)) -> settles (se_bind m k).
Proof.
  intros Hm Hk w b Hw. unfold se_bind. destruct (m w) as [w1 [a|e]] eqn:E; [|done]. cbn [fst snd] in *. intros _.
  destruct (Hk a w1) as (cs & -> & Hcs). apply settled_app; [|done]. specialize (Hm w a Hw). rewrite E in Hm. by apply Hm.
Qed.

Lemma settles_try {A} (m : BM A) h : sure m -> settles m -> settles (se_try m h).
Proof.
  intros Hs Hm w b Hw. unfold se_try. destruct (Hs w Hw) as [a Ha]. specialize (Hm w a Hw Ha).
  destruct (m w) as [w1 r]. cbn [fst snd] in *. subst r. done.
Qed.

Lemma settles_raise {A} e : settles (A := A) (se_lift (Raise e)).
Proof. done. Qed.

Lemma sure_total {A} (m : BM A) : total m -> sure m.
Proof. intros H w _. apply H. Qed.
Lemma sure_bind {A B} (m : BM A) (k : A -> BM B) : sure m -> keeps m -> (forall a, sure (k a)) -> sure (se_bind m k).
Proof.
  intros Hm Hk Hs w Hw. unfold se_bind. destruct (Hm w Hw) as [a Ha]. specialize (Hk w Hw).
  destruct (m w) as [w1 r]. cbn in *. subst r. by apply Hs.
Qed.
Lemma sure_try {A} (m : BM A) h : keeps m -> (forall e, sure (h e)) -> sure (se_try m h).
Proof.
  intros Hm Hh w Hw. specialize (Hm w Hw). unfold se_try. destruct (m w) as [w1 [a|e]]; [by exists a | by apply Hh].
Qed.

Lemma keeps_bind {A B} (m : BM A) (k : A -> BM B) : keeps m -> (forall a, keeps (k a)) -> keeps (se_bind m k).
Proof.
  intros Hm Hk w Hw. specialize (Hm w Hw). unfold se_bind. destruct (m w) as [w1 [a|e]]; [by apply Hk | done].
Qed.
Lemma keeps_try {A} (m : BM A) h : keeps m -> (forall e, keeps (h e)) -> keeps (se_try m h).
Proof.
  intros Hm Hh w Hw. specialize (Hm w Hw). unfold se_try. destruct (m w) as [w1 [a|e]]; [done | by apply Hh].
Qed.
Lemma keeps_silent {A} (m : BM A) : (forall w, fst (m w) = w) -> keeps m.
Proof. intros H w Hw. by rewrite H. Qed.
End Judgments.

Lemma settles_r {A B} P Q (m : BM A) (k : A -> BM B) :
  asks calm m -> (forall w, P w -> Q (fst (m w))) -> (forall a, settles Q (k a)) -> settles P (se_bind m k).
Proof.
  intros Ha Hm Hk w b Hw. specialize (Hm w Hw). unfold se_bind. destruct (Ha w) as (cs & Hcs & _).
  destruct (m w) as [w1 [a|e]]; [|done]. cbn [fst] in *. intros Hok.
  eapply settled_before. rewrite <-Hcs. by eapply Hk.
Qed.
Lemma settles_next {A B} P (m : BM A) (k : A -> BM B) :
  asks calm m -> keeps P m -> (forall a, settles P (k a)) -> settles P (se_bind m k).
Proof. apply settles_r. Qed.
Lemma settles_free {A B} P (m : BM A) (k : A -> BM B) :
  asks calm m -> (forall a, settles any (k a)) -> settles P (se_bind m k).
Proof. intros Hm. by apply settles_r. Qed.

(** ** The operations on the task *)

Lemma has_id_store w names : has_id w -> issue_id (store_label_names (bw_issue w) names) = Ok id.
Proof. unfold has_id, issue_id, ditem, store_label_names. by rewrite lookup_insert_ne. Qed.

Lemma replace_labels_keeps names : keeps has_id (replace_labels client names).
Proof.
  intros w Hw. unfold has_id. destruct (replace_labels_issue client names w) as [->| ->]; [done | by apply has_id_store].
Qed.

Lemma keeps_ask P {A} (answer : list board_call -> res A) c :
  (forall w, P w -> P (asked w c)) -> keeps P (ask answer c).
Proof. intros H w Hw. by apply H. Qed.

Ltac keeps_step :=
  match goal with
  | |- keeps _ (se_bind _ _) => apply keeps_bind; [|intros ?]
  | |- keeps _ (se_try _ _) => apply keeps_try; [|intros ?]
  | |- keeps _ (ask _ _) => apply keeps_ask; done
  | |- keeps _ (list_issues _) => apply keeps_ask; done
  | |- keeps _ (transition_issue _ _ _) => apply keeps_ask; done
  | |- keeps _ (comment_issue _ _ _) => apply keeps_ask; done
  | |- keeps _ (create_issue _ _ _ _) => apply keeps_ask; done
  | |- keeps _ (se_ret _) => apply keeps_silent; done
  | |- keeps _ (se_lift _) => apply keeps_silent; done
  | |- keeps _ (se_get _) => apply keeps_silent; done
  | |- keeps _ the_issue => apply keeps_silent; done
  | |- keeps _ (replace_labels _ _) => apply replace_labels_keeps
  | |- keeps _ (if ?b then _ else _) => destruct b eqn:?
  | |- keeps _ (match ?x with _ => _ end) => destruct x eqn:?
  | |- keeps _ (let _ := _ in _) => cbv zeta
  end.
Ltac keeps_auto := repeat (keeps_step || solve [eauto with board]).

Lemma add_label_keeps l : keeps has_id (add_label client l).
Proof. unfold add_label. keeps_auto. Qed.
Lemma remove_labels_keeps ls : keeps has_id (remove_labels client ls).
Proof. unfold remove_labels. keeps_auto. Qed.
Lemma increment_keeps p : keeps has_id (increment_count_label client p).
Proof. unfold increment_count_label. keeps_auto. Qed.
Lemma increment_total p : total (increment_count_label client p).
Proof. apply total_bind; [apply total_issue|]. intros i. apply replace_labels_total. Qed.
Hint Resolve add_label_keeps remove_labels_keeps increment_keeps : board.
Hint Resolve add_label_total remove_labels_total increment_total : board.

Lemma add_label_calm l : asks calm (add_label client l).
Proof. by apply add_label_asks. Qed.
Lemma remove_labels_calm ls : asks calm (remove_labels client ls).
Proof. by apply remove_labels_asks. Qed.
Lemma increment_calm p : asks calm (increment_count_label client p).
Proof. by apply increment_asks. Qed.
Lemma transition_calm i s : s ∈ final_states -> asks calm (transition_issue client i s).
Proof. intros H. by apply asks_ask. Qed.
Lemma comment_calm i s : asks calm (comment_issue client i s).
Proof. by apply asks_ask. Qed.
Lemma list_calm : asks calm (list_issues client).
Proof. by apply asks_ask. Qed.
Lemma create_calm name description names : asks calm (create_issue client name description names).
Proof. by apply asks_ask. Qed.
Hint Resolve add_label_calm remove_labels_calm increment_calm comment_calm list_calm create_calm : board.
Ltac calm_auto :=
  repeat (asks_step || exact I || (apply transition_calm; solve [eauto with board]) || solve [eauto with board]).

Context (Hwrite : forall cs, bcl_write client cs = Ok tt) (Hcreate : forall cs, exists i, bcl_create client cs = Ok i).

Lemma transition_total i s : total (transition_issue client i s).
Proof using Hwrite. intros w. exists tt. apply Hwrite. Qed.
Lemma comment_total i s : total (comment_issue client i s).
Proof using Hwrite. intros w. exists tt. apply Hwrite. Qed.
Lemma create_total name description names : total (create_issue client name description names).
Proof using Hcreate. intros w. apply Hcreate. Qed.
Hint Resolve transition_total comment_total create_total : board.

Lemma settles_move P s : s ∈ final_states -> settles P (transition_issue client id s).
Proof using Type. intros Hs w a _ _. by exists [], (BC_transition id s), []. Qed.

(** Reading the task: its id is the one of the worker's copy. *)
Lemma sure_issue {A} (f : dict -> BM A) :
  (forall i, issue_id i = Ok id -> sure has_id (f i)) -> sure has_id (se_bind the_issue f).
Proof. intros H w Hw. unfold se_bind, the_issue, se_get. by apply H. Qed.
Lemma settles_issue {A} (f : dict -> BM A) :
  (forall i, issue_id i = Ok id -> settles has_id (f i)) -> settles has_id (se_bind the_issue f).
Proof. intros H w a Hw. unfold se_bind, the_issue, se_get. by apply H. Qed.
Lemma settles_issue_with {A} (Q : dict -> Prop) (f : dict -> BM A) :
  (forall i, issue_id i = Ok id -> Q i -> settles has_id (f i)) ->
  settles (fun w => has_id w /\ Q (bw_issue w)) (se_bind the_issue f).
Proof. intros H w a [Hw HQ]. unfold se_bind, the_issue, se_get. by apply H. Qed.
Lemma lift_ok {A B} (r : res A) x (k : A -> BM B) : r = Ok x -> se_bind (se_lift r) k = k x.
Proof. by intros ->. Qed.

Ltac sure_step :=
  match goal with
  | |- sure _ (se_bind the_issue _) => apply sure_issue; intros ? ?
  | H : issue_id ?i = Ok _ |- sure _ (se_bind (se_lift (issue_id ?i)) _) =>
      let k := fresh in let He := fresh in intros w Hw; unfold se_bind at 1; unfold se_lift at 1; rewrite H; revert w Hw;
      match goal with |- forall w, has_id w -> exists a, snd (?m w) = Ok a => change (sure has_id m) end
  | |- sure _ (se_bind _ _) => apply sure_bind; [| |intros ?]
  | |- sure _ (se_try _ _) => apply sure_try; [|intros ?]
  | |- sure _ (if ?b then _ else _) => destruct b eqn:?
  | |- sure _ (match ?x with _ => _ end) => destruct x eqn:?
  | |- sure _ (let _ := _ in _) => cbv zeta
  | |- sure _ _ => solve [apply sure_total; eauto with board]
  end.
Ltac sure_auto := repeat (sure_step || keeps_step || solve [eauto with board]).

Section Handlers.
Context (settings : WorkerSettings).

Lemma ceiling_calm : asks calm (ceiling_reached client settings).
Proof. unfold ceiling_reached, cap_reached. asks_auto. Qed.
Lemma root_cap_calm root : asks calm (root_descendant_cap_reached client settings root).
Proof. unfold root_descendant_cap_reached, cap_reached. asks_auto. Qed.
Lemma ceiling_total : total (ceiling_reached client settings).
Proof. unfold ceiling_reached, cap_reached. destruct (_ <=? _)%Z; auto with board. Qed.
Lemma root_cap_total root : total (root_descendant_cap_reached client settings root).
Proof. unfold root_descendant_cap_reached, cap_reached. destruct (_ || _); auto with board. Qed.
Lemma ceiling_keeps : keeps has_id (ceiling_reached client settings).
Proof. unfold ceiling_reached, cap_reached. keeps_auto. Qed.
Lemma root_cap_keeps root : keeps has_id (root_descendant_cap_reached client settings root).
Proof. unfold root_descendant_cap_reached, cap_reached. keeps_auto. Qed.
Hint Resolve ceiling_calm root_cap_calm ceiling_total root_cap_total ceiling_keeps root_cap_keeps : board.

Lemma follow_up_calm kind reason : asks calm (create_follow_up client settings kind reason).
Proof. unfold create_follow_up, the_issue. asks_auto. Qed.
Lemma follow_up_keeps kind reason : keeps has_id (create_follow_up client settings kind reason).
Proof. unfold create_follow_up. keeps_auto. Qed.
Lemma follow_up_sure kind reason : sure has_id (create_follow_up client settings kind reason).
Proof using Hcreate. unfold create_follow_up. sure_auto. Qed.
Hint Resolve follow_up_calm follow_up_keeps follow_up_sure : board.

Lemma fail_task_calm i role reason : asks calm (fail_task client i role reason).
Proof.
  unfold fail_task. calm_auto.
Qed.

Lemma fail_task_settles P role reason : settles P (fail_task client id role reason).
Proof using Hwrite Hcreate.
  intros w a _ _. unfold fail_task, transition_issue, comment_issue, se_bind, se_try, se_ret, ask, asked.
  cbn [bw_calls bw_issue fst snd].
  destruct (bcl_fetch client (bw_calls w ++ [BC_fetch id])) as [issue|e] eqn:E.
  - destruct (str_in _ TERMINAL_STATE_NAMES) eqn:Et; cbn [fst bw_calls].
    + exists [], (BC_fetch id), []. rewrite app_nil_r. split_and!; [done| |done]. cbn [closing]. rewrite E.
      split; [done|]. by apply str_in_spec in Et.
    + rewrite !Hwrite. cbn [fst bw_calls]. rewrite <-!app_assoc.
      exists [BC_fetch id], (BC_transition id STATE_BLOCKED), [BC_comment id ("board_worker[" +:+ role +:+ "] blocked — " +:+ reason)].
      split_and!; [done| |by repeat constructor]. split; [done | auto with board].
  - cbn [fst bw_calls]. rewrite !Hwrite. cbn [fst bw_calls]. rewrite <-!app_assoc.
    exists [BC_fetch id], (BC_transition id STATE_BLOCKED), [BC_comment id ("board_worker[" +:+ role +:+ "] blocked — " +:+ reason)].
    split_and!; [done| |by repeat constructor]. split; [done | auto with board].
Qed.

Lemma failed_settles {A} P role reason (a : A) : settles P (_ <<- fail_task client id role reason ;; se_ret a).
Proof using Hwrite Hcreate. apply settles_l; [apply fail_task_settles | intros; apply asks_ret]. Qed.

Lemma chunks_calm i title reason labels n idx chunks created :
  asks calm (create_chunks client i title reason labels n idx chunks created).
Proof. revert idx created. induction chunks as [|c cs IH]; intros idx created; cbn [create_chunks]; asks_auto. Qed.
Lemma chunks_keeps i title reason labels n idx chunks created :
  keeps has_id (create_chunks client i title reason labels n idx chunks created).
Proof. revert idx created. induction chunks as [|c cs IH]; intros idx created; cbn [create_chunks]; keeps_auto. Qed.
Hint Resolve chunks_calm chunks_keeps : board.

Lemma split_calm files reason : asks calm (create_split_followups client settings files reason).
Proof. unfold create_split_followups, the_issue. asks_auto. Qed.
Lemma split_keeps files reason : keeps has_id (create_split_followups client settings files reason).
Proof. unfold create_split_followups. keeps_auto. Qed.
Hint Resolve split_calm split_keeps : board.

Lemma label_failure_calm category reason result : asks calm (label_failure client category reason result).
Proof. unfold label_failure, increment_retry_count, increment_code_failure_count. asks_auto. Qed.
Lemma label_failure_total category reason result : total (label_failure client category reason result).
Proof.
  unfold label_failure, increment_retry_count, increment_code_failure_count.
  repeat (match goal with
    | |- total (se_bind _ _) => apply total_bind; [|intros ?]
    | |- total (if ?b then _ else _) => destruct b
    | |- total (match ?x with _ => _ end) => destruct x
    end || solve [eauto with board]).
Qed.
Hint Resolve label_failure_calm label_failure_total : board.

Lemma handle_failure_settles role result files : settles has_id (handle_failure client settings role result files).
Proof using Hwrite Hcreate.
  unfold handle_failure. apply settles_issue. intros i Hi. rewrite (lift_ok _ _ _ Hi). cbv zeta.
  apply settles_next; [calm_auto|keeps_auto|intros split_ids].
  apply settles_try; [sure_auto|]. apply settles_l; [|intros; eauto with board].
  destruct (String.eqb role "test").
  - apply settles_next; [calm_auto|apply follow_up_keeps|intros follow_id].
    apply settles_l; [apply settles_move; auto with board | eauto with board].
  - apply settles_l; [apply settles_move; auto with board | eauto with board].
Qed.

Lemma failure_calm role result files : asks calm (handle_failure client settings role result files).
Proof. unfold handle_failure, the_issue. calm_auto. Qed.

Lemma close_split_calm : asks calm (maybe_close_split_parent client).
Proof. unfold maybe_close_split_parent, close_parent, the_issue. calm_auto. Qed.

Lemma improve_follow_up_calm suggestion : asks calm (create_improve_follow_up client suggestion).
Proof. unfold create_improve_follow_up, the_issue. calm_auto. Qed.
Lemma improve_follow_up_keeps suggestion : keeps has_id (create_improve_follow_up client suggestion).
Proof. unfold create_improve_follow_up. keeps_auto. Qed.
Lemma improve_follow_up_sure suggestion : sure has_id (create_improve_follow_up client suggestion).
Proof using Hcreate. unfold create_improve_follow_up. sure_auto. Qed.
Hint Resolve improve_follow_up_calm improve_follow_up_keeps improve_follow_up_sure close_split_calm : board.

Lemma suggestions_calm l : asks calm (create_suggestions client l).
Proof. induction l as [|s l IH]; cbn [create_suggestions]; calm_auto. Qed.
Lemma suggestions_keeps l : keeps has_id (create_suggestions client l).
Proof. induction l as [|s l IH]; cbn [create_suggestions]; keeps_auto. Qed.
Hint Resolve suggestions_calm suggestions_keeps : board.
Lemma suggestions_sure l : sure has_id (create_suggestions client l).
Proof using Hcreate. induction l as [|s l IH]; cbn [create_suggestions]; sure_auto. Qed.
Hint Resolve suggestions_sure : board.

Definition settling_role (role : string) : Prop := role ∈ ["goal"; "test"; "improve"].

Lemma finish_goal_settles review verify pr_url delivered :
  settles has_id (finish_goal client settings id review verify pr_url delivered).
Proof using Hwrite Hcreate.
  unfold finish_goal. destruct verify; [|destruct review].
  - repeat (apply settles_next; [calm_auto|keeps_auto|intros ?]). apply settles_move. auto with board.
  - apply settles_l; [apply settles_move; auto with board | intros; calm_auto].
  - apply settles_l; [apply settles_move; auto with board | intros; calm_auto].
Qed.

Lemma handle_success_settles role verify suggestions pr_url branch pushed :
  settling_role role ->
  settles has_id (handle_success client settings role verify suggestions pr_url branch pushed).
Proof using Hwrite Hcreate.
  intros Hrole. unfold handle_success, clear_blocked_reason_labels. apply settles_issue. intros i Hi.
  rewrite (lift_ok _ _ _ Hi). cbv zeta. apply settles_l; [|intros; calm_auto].
  apply settles_try; [unfold finish_goal, finish_improve; sure_auto|]. apply settles_next; [calm_auto|keeps_auto|intros ?].
  apply elem_of_cons in Hrole as [->|Hrole]; [apply finish_goal_settles|].
  apply elem_of_cons in Hrole as [->|Hrole]; [|apply list_elem_of_singleton in Hrole as ->]; cbn [String.eqb Ascii.eqb Bool.eqb].
  - apply settles_l; [apply settles_move; auto with board | intros; calm_auto].
  - unfold finish_improve. apply settles_l; [apply settles_move; auto with board | intros; calm_auto].
Qed.

(** ** A dispatch *)

Section Planned.
Context (env : dispatch_env) (role : string).
Hint Resolve failure_calm fail_task_calm : board.

Lemma settles_assoc {A B C} P (m : BM A) (k1 : A -> BM B) (k2 : B -> BM C) :
  settles P (a <<- m ;; se_bind (k1 a) k2) -> settles P (se_bind (se_bind m k1) k2).
Proof. intros H w c Hw. specialize (H w c Hw). unfold se_bind in *. by destruct (m w) as [w1 [a|e]]. Qed.

(** After the plan, or the failure that it ended in. *)
Lemma plan_settles label c (k : option jval -> BM bool) :
  calm c -> asks calm (k None) -> (forall bundle, settles has_id (k (Some bundle))) ->
  settles has_id (bundle <<- plan_task env client role id label c ;; k bundle).
Proof using Hwrite Hcreate.
  intros Hc Hn Hk. unfold plan_task. apply settles_assoc. apply settles_next; [by apply asks_ask|by apply keeps_ask|].
  intros plan. destruct (pp_json plan) as [bundle|].
  - destruct (negb _); [|exact (Hk bundle)]. apply settles_assoc. apply settles_next; [calm_auto|keeps_auto|intros msg].
    apply settles_assoc. apply settles_l; [apply fail_task_settles | intros; exact Hn].
  - apply settles_assoc. apply settles_l; [apply fail_task_settles | intros; exact Hn].
Qed.

(** ** Spec authors *)

Lemma finish_spec_settles P text : settles P (finish_spec client id text).
Proof using Hwrite Hcreate.
  apply settles_try.
  - apply sure_total, total_bind; eauto with board.
  - apply settles_l; [apply settles_move; auto with board | intros; calm_auto].
Qed.

Lemma children_calm fm repo base constraints l : asks calm (build_children client fm repo base constraints l).
Proof. induction l as [|[[n g] ph] l IH]; cbn [build_children]; unfold create_task; calm_auto. Qed.
Hint Resolve children_calm : board.
Lemma campaign_calm yaml text repo base : asks calm (campaign_build yaml client text repo base).
Proof. unfold campaign_build, create_task. calm_auto. Qed.
Lemma tag_calm run issues created : asks calm (tag_created client run issues created).
Proof. induction created as [|c l IH]; cbn [tag_created]; unfold on_issue; calm_auto. Qed.
Hint Resolve campaign_calm tag_calm : board.

Lemma spec_success_settles path phase run : settles has_id (handle_spec_author_success env client settings path phase run).
Proof using Hwrite Hcreate.
  unfold handle_spec_author_success. apply settles_issue. intros i Hi. rewrite (lift_ok _ _ _ Hi).
  destruct (str_truthy phase); [apply finish_spec_settles|]. apply settles_next; [calm_auto|keeps_auto|intros [file|]];
    [|apply finish_spec_settles].
  cbv zeta. do 2 (apply settles_free; [calm_auto | intros ?]). apply finish_spec_settles.
Qed.

Lemma spec_success_calm path phase run : asks calm (handle_spec_author_success env client settings path phase run).
Proof. unfold handle_spec_author_success, finish_spec, the_issue. calm_auto. Qed.

Lemma spec_author_settles payload base : settles has_id (process_spec_author env client settings role payload base).
Proof using Hwrite Hcreate.
  unfold process_spec_author. apply settles_issue. intros i Hi. rewrite (lift_ok _ _ _ Hi).
  apply plan_settles; [done|apply asks_ret|intros bundle]. apply settles_next; [calm_auto|keeps_auto|intros run].
  assert (Hout : forall outcome, settles has_id
    (result <<- se_lift (result_of outcome) ;;
     if succeeded result then
       _ <<- handle_spec_author_success env client settings (payload_text payload "target_path") (payload_text payload "task_phase")
         (text_get result "run_id" "") ;; se_ret true
     else _ <<- handle_failure client settings role result [] ;; se_ret false)).
  { intros outcome. apply settles_next; [calm_auto|keeps_auto|intros result]. destruct (succeeded result).
    - apply settles_l; [apply spec_success_settles | intros; apply asks_ret].
    - apply settles_l; [apply handle_failure_settles | intros; apply asks_ret]. }
  destruct (xr_result run) as [| |[content|e]]; [apply failed_settles|apply Hout..|apply failed_settles].
Qed.
End Planned.

Section Dispatch.
Context (env : dispatch_env) (role : string) (Hrole : settling_role role).
Hint Resolve failure_calm fail_task_calm : board.

Ltac settles_step :=
  match goal with
  | |- settles _ (_ <<- fail_task _ _ _ _ ;; se_ret _) => apply failed_settles
  | |- settles _ (_ <<- handle_failure _ _ _ _ _ ;; se_ret _) => apply settles_l; [apply handle_failure_settles | intros; apply asks_ret]
  | |- settles _ (_ <<- handle_success _ _ _ _ _ _ _ _ ;; se_ret _) =>
      apply settles_l; [by apply handle_success_settles | intros; apply asks_ret]
  | |- settles _ (se_lift (Raise _)) => apply settles_raise
  | |- settles _ (se_bind the_issue _) => apply settles_issue; intros ? ?
  | H : issue_id ?i = Ok _ |- settles _ (se_bind (se_lift (issue_id ?i)) _) => rewrite (lift_ok _ _ _ H)
  | |- settles _ (se_bind _ _) => apply settles_next; [solve [calm_auto] | solve [keeps_auto] | intros ?]
  | |- settles _ (if ?b then _ else _) => destruct b eqn:?
  | |- settles _ (match ?x with _ => _ end) => destruct x eqn:?
  | |- settles _ (let _ := _ in _) => cbv zeta
  end.

Lemma verify_calm bundle result base branch : asks calm (verify_pushed_scope env bundle result base branch).
Proof. unfold verify_pushed_scope. calm_auto. Qed.
Lemma verify_keeps bundle result base branch : keeps has_id (verify_pushed_scope env bundle result base branch).
Proof. unfold verify_pushed_scope. keeps_auto. Qed.
Lemma retry_calm branch outcome result : asks calm (retry_transient env role branch outcome result).
Proof. unfold retry_transient. calm_auto. Qed.
Lemma retry_keeps branch outcome result : keeps has_id (retry_transient env role branch outcome result).
Proof. unfold retry_transient. keeps_auto. Qed.
Hint Resolve verify_calm verify_keeps retry_calm retry_keeps : board.

Lemma ci_loop_settles raw key : settles has_id (run_ci_loop env client settings role raw id key).
Proof using Hwrite Hcreate Hrole. unfold run_ci_loop. repeat settles_step. Qed.

Lemma settle_settles branch base bundle result : settles has_id (settle env client settings role id branch base bundle result).
Proof using Hwrite Hcreate Hrole. unfold settle. repeat settles_step. Qed.

Lemma execute_settles branch base bundle : settles has_id (execute_task env client settings role id branch base bundle).
Proof using Hwrite Hcreate Hrole.
  unfold execute_task, increment_retry_count. repeat settles_step. apply settle_settles.
Qed.

End Dispatch.

(** The kinds of task that a worker of the role may be given. *)
Definition may_dispatch (role : string) (issue : dict) : Prop :=
  settling_role role \/ label_value (labels_field issue) "task-kind" = "spec-author".

Lemma role_may_dispatch role kinds issue :
  ROLE_KINDS role = Some kinds -> label_value (labels_field issue) "task-kind" ∈ kinds -> may_dispatch role issue.
Proof.
  unfold ROLE_KINDS, od_get, may_dispatch, settling_role. cbn [List.find fst].
  repeat (case_bool_decide; [subst role; cbn; intros [= <-] Hin; try (left; solve [repeat constructor])|]); [|by intros ?].
  right. by apply list_elem_of_singleton in Hin.
Qed.

Lemma dispatch_settles env role :
  settles (fun w => has_id w /\ may_dispatch role (bw_issue w)) (dispatch_issue env client settings role).
Proof using Hwrite Hcreate.
  unfold dispatch_issue. apply settles_issue_with. intros i Hi Hmay. rewrite (lift_ok _ _ _ Hi). cbv zeta.
  destruct (String.eqb _ "spec-author") eqn:Ek.
  - unfold dispatch_spec_author. destruct (de_spec_payload _ _); [apply spec_author_settles | apply failed_settles].
  - assert (Hrole : settling_role role) by (destruct Hmay as [H|H]; [done | by rewrite H in Ek]).
    apply settles_next; [calm_auto|keeps_auto|intros nonce]. apply plan_settles; [done|apply asks_ret|intros bundle].
    do 2 (apply settles_next; [calm_auto|keeps_auto|intros ?]).
    destruct (_ && _); [by apply ci_loop_settles | by apply execute_settles].
Qed.

(** Whatever a dispatch does, it moves no task into a state of work. *)
Lemma plan_calm env role i label c : calm c -> asks calm (plan_task env client role i label c).
Proof. intros Hc. unfold plan_task. pose proof fail_task_calm. calm_auto. Qed.
Lemma success_calm role verify suggestions pr_url branch pushed :
  asks calm (handle_success client settings role verify suggestions pr_url branch pushed).
Proof. unfold handle_success, clear_blocked_reason_labels, finish_goal, finish_improve, the_issue. calm_auto. Qed.

Lemma dispatch_calm env role : asks calm (dispatch_issue env client settings role).
Proof.
  unfold dispatch_issue, dispatch_spec_author, process_spec_author, execute_task, settle, run_ci_loop,
    increment_retry_count, the_issue.
  pose proof fail_task_calm. pose proof failure_calm. pose proof success_calm. pose proof spec_success_calm.
  pose proof verify_calm. pose proof retry_calm. pose proof plan_calm.
  calm_auto; by apply plan_calm.
Qed.

(** The end of a cycle that claimed: a missing containment is a failure like
    any other. *)
Lemma cycle_settles env role i w b :
  issue_id i = Ok id -> may_dispatch role i ->
  let cycle := on_issue i (se_try (dispatch_issue env client settings role)
    (fun exc => if de_is_containment env exc
                then _ <<- fail_task client id role ("containment required but unavailable: " +:+ exn_text exc) ;; se_ret false
                else se_lift (Raise exc))) in
  snd (cycle w) = Ok b -> settled (bw_calls w) (bw_calls (fst (cycle w))).
Proof using Hwrite Hcreate.
  intros Hi Hmay. cbv zeta. unfold on_issue, se_bind at 1 3, set_issue, se_try.
  set (w0 := {| bw_calls := bw_calls w; bw_issue := i |}).
  pose proof (dispatch_settles env role w0) as Hd. destruct (dispatch_calm env role w0) as (cs & Hcs & _).
  destruct (dispatch_issue env client settings role w0) as [w1 [a|e]]; cbn [fst snd] in *; [by intros _; apply (Hd a)|].
  destruct (de_is_containment env e); [|done]. intros Hok. apply (settled_before _ cs).
  change (bw_calls w) with (bw_calls w0). rewrite <-Hcs. by apply (failed_settles any _ _ _ w1 b).
Qed.
End Handlers.
End Settled.

(** C31: A task that a worker has set to Running does not stay there: with a
    board that takes writes, a cycle that claims a task and returns has then
    moved that task to Done, In Review or Blocked, or the board said that it had
    ended, and moves nothing into a state of work afterwards.  That holds
    whatever planner, executor, git and the coordinator answer, whether or not
    the board can be listed and tasks fetched, and when containment is missing. *)
Theorem claimed_tasks_are_settled client settings env role now w w1 w2 i b :
  (forall cs, bcl_write client cs = Ok tt) -> (forall cs, exists new, bcl_create client cs = Ok new) ->
  claim_next (de_unescape env) client settings now role w = (w1, Ok (Some i)) ->
  worker_cycle env client settings role now w = (w2, Ok b) ->
  exists task_id c1 c2,
    bw_calls w1 = bw_calls w ++ c1 ++ [BC_transition task_id STATE_RUNNING] ++ c2 /\
    Forall (fun c => to_running c = false) (c1 ++ c2) /\
    settled client task_id (bw_calls w1) (bw_calls w2).
Proof.
  intros Hw Hc Hclaim Hcycle. unfold worker_cycle in Hcycle. unfold se_bind at 1 in Hcycle. rewrite Hclaim in Hcycle.
  apply claim_success in Hclaim as (kinds & issues & exec & issue & task_id & c1 & c2 & Hk & _ & _ & _ & Hcl & _ & Hid &
    Hcalls & Hn1 & Hn2 & Hkeys & Hval & _).
  exists task_id, c1, c2. split; [done|]. split; [by apply Forall_app|].
  assert (Hi : issue_id i = Ok task_id) by (rewrite <-Hid; unfold issue_id, ditem; by rewrite Hkeys).
  rewrite (lift_ok _ _ _ Hi) in Hcycle. pose proof (cycle_settles client task_id Hw Hc settings env role i w1 b Hi) as Hs.
  cbv zeta in Hs. rewrite Hcycle in Hs. apply Hs; [|done].
  assert (Hkind : label_value (labels_field i) "task-kind" ∈ kinds).
  { rewrite Hval. unfold claimable, eligible in Hcl. apply str_in_spec. by destruct (str_in _ kinds); rewrite ?andb_false_r in Hcl. }
  by apply role_may_dispatch with kinds.
Qed.

Module SettledScenarios.
Definition goal_task : dict := list_to_map
  [("id", JStr "11"); ("name", JStr "Add retry to the uploader when the bucket is unavailable, with a test");
   ("state", JObj [("name", JStr "Ready for AI")]); ("created_at", JStr "2026-01-01T00:00:00Z");
   ("labels", JList [JStr "task-kind: goal"; JStr "repo: Alpha"])].
Definition repo : WorkerRepo := {|
  wr_clone_url := "https://host/alpha.git"; wr_await_review := false; wr_max_daily_executions := None;
  wr_require_explicit_approval := false; wr_default_branch := "main"; wr_sandbox_base_branch := None;
  wr_local_path := None |}.
Definition settings : WorkerSettings := {|
  ws_repos := [("Alpha", repo)]; ws_task_admission := None; ws_max_open_fleet_tasks := 0; ws_max_descendants_per_root := 0;
  ws_open_pr_gate_stale_hours := 0; ws_code_failure_retry_cap := 0; ws_git_token := None |}.
Definition client : board_client := {|
  bcl_list := fun _ => Ok [goal_task]; bcl_fetch := fun _ => Raise (OtherError "no answer"); bcl_write := fun _ => Ok tt;
  bcl_create := fun _ => Ok (list_to_map [("id", JStr "12")]); bcl_prs := fun _ => Ok [] |}.
(** The plan is fine; the executor is killed and leaves an empty file. *)
Definition env : dispatch_env := {|
  de_unescape := id; de_nonce := fun _ => "0123456789abcdef"; de_catalog := None; de_github_dir := "/src";
  de_plan := fun _ => Ok {| pp_returncode := 0; pp_json := Some (JObj [("proposal", JObj [])]) |};
  de_execute := fun _ => Ok {| xr_returncode := 137; xr_result := RF_empty |};
  de_diff := fun _ => Ok (inr []); de_improve_output := fun _ => None; de_scope_file := fun _ => None;
  de_diagnostics := fun _ => None; de_ci_spec := fun _ => Raise (ValueError "none");
  de_coordinate := fun _ _ => (Raise (ValueError "none"), ∅); de_spec_payload := fun _ => None; de_spec_goal := fun _ => "";
  de_spec_file := fun _ => None; de_yaml := fun _ => Raise (ValueError "none"); de_is_containment := fun _ => false |}.
Definition now (cs : list board_call) : datetime := {| dt_us := 1767225600000000; dt_aware := true |}.
Definition start : board_world := {| bw_calls := []; bw_issue := ∅ |}.
End SettledScenarios.

Lemma claimed_tasks_are_settled_witness :
  exists w1 w2 b, bw_calls w1 = [BC_list; BC_transition "11" STATE_RUNNING] /\
    settled SettledScenarios.client "11" (bw_calls w1) (bw_calls w2) /\
    worker_cycle SettledScenarios.env SettledScenarios.client SettledScenarios.settings "goal" SettledScenarios.now
      SettledScenarios.start = (w2, Ok b) /\ b = false.
Proof.
  pose (w1 := fst (claim_next id SettledScenarios.client SettledScenarios.settings SettledScenarios.now "goal"
                     SettledScenarios.start)).
  pose (w2 := fst (worker_cycle SettledScenarios.env SettledScenarios.client SettledScenarios.settings "goal"
                     SettledScenarios.now SettledScenarios.start)).
  destruct (claimed_tasks_are_settled SettledScenarios.client SettledScenarios.settings SettledScenarios.env "goal"
              SettledScenarios.now SettledScenarios.start w1 w2 SettledScenarios.goal_task false) as (t & c1 & c2 & Hc & _ & Hs).
  - reflexivity.
  - intros cs. by eexists.
  - vm_compute. reflexivity.
  - vm_compute. reflexivity.
  - exists w1, w2, false.
    assert (Hw : bw_calls w1 = [BC_list; BC_transition "11" STATE_RUNNING]) by (vm_compute; reflexivity).
    split; [exact Hw|]. split; [|split; [vm_compute; reflexivity | reflexivity]].
    rewrite Hw in Hc. destruct c1 as [|x [|y c1]]; cbn in Hc.
    + injection Hc as Hx _. discriminate Hx.
    + injection Hc as _ Ht _. by rewrite Ht.
    + injection Hc as _ _ Hnil. by destruct c1.
Defined.
