(* ===== verification/BoardTrust.v ===== *)
(** * Labels that grant trust come from trusted people

    What a cycle of the board worker hands to planning, joined with the policy
    engine: a label of a trusted source lifts the category review, so it must
    not be enough to write it on an issue.  The one way around it is a
    spec-author task. *)
From S2P Require Import Prelude PyStr PyData Contracts PolicyModels PolicyEngine PolicyGate BoardIssues.
From S2P Require Import BoardTrace BoardClaim BoardOutcomes SpecCampaign BoardDispatch.

Section Trust.
Context (labels : list jval) (repo_cfg : option WorkerRepo) (issue : dict) (settings : WorkerSettings).

(** Whether the creator of the issue may grant trust in this repository. *)
Definition grants_trust : bool :=
  match repo_cfg with Some r => negb (wr_require_explicit_approval r) | None => true end &&
  match ws_task_admission settings with
  | Some a => label_trust_allows a (issue_author_identities issue)
  | None => false
  end.

Lemma trusted_source low : str_in low TRUSTED_SOURCE_LABELS = true -> startswith low "source:" = true.
Proof.
  rewrite str_in_spec. unfold TRUSTED_SOURCE_LABELS. intros H.
  repeat (apply elem_of_cons in H as [->|H]; [reflexivity|]). by apply elem_of_nil in H.
Qed.

Lemma forwarded_trust l :
  l ∈ build_forwarded_labels labels repo_cfg issue settings -> str_in (lower l) TRUSTED_SOURCE_LABELS = true ->
  grants_trust = true /\ l ∈ map lname labels.
Proof.
  unfold build_forwarded_labels, grants_trust. intros [H|H]%elem_of_app Ht.
  - apply elem_of_filter_bool in H as [Hin Hk]. split; [|done].
    destruct (String.eqb_spec (lower l) "review_required") as [E|_]; [by rewrite E in Ht|]. cbn [orb] in Hk.
    apply andb_true_iff in Hk as [_ Hk]. rewrite Ht in Hk. cbn [negb orb] in Hk. by destruct repo_cfg.
  - destruct (match repo_cfg with Some r => _ | None => _ end); [|by apply elem_of_nil in H].
    by apply list_elem_of_singleton in H as ->.
Qed.

Lemma forwarded_iff l :
  str_in (lower l) TRUSTED_SOURCE_LABELS = true ->
  l ∈ build_forwarded_labels labels repo_cfg issue settings <-> l ∈ map lname labels /\ grants_trust = true.
Proof.
  intros Ht. split; [intros H; by destruct (forwarded_trust l H Ht)|]. intros [Hin Hg].
  unfold build_forwarded_labels. apply elem_of_app. left. apply elem_of_filter_bool. split; [done|].
  unfold grants_trust in Hg. apply andb_true_iff in Hg as [Hr Hc]. apply orb_true_iff. right.
  apply andb_true_iff. split; [by apply trusted_source|]. apply orb_true_iff. right.
  apply andb_true_iff. by destruct repo_cfg.
Qed.

Lemma trusted_lower l : l ∈ TRUSTED_SOURCE_LABELS -> str_in (lower l) TRUSTED_SOURCE_LABELS = true.
Proof.
  intros H. unfold TRUSTED_SOURCE_LABELS in H. repeat (apply elem_of_cons in H as [->|H]; [reflexivity|]).
  by apply elem_of_nil in H.
Qed.
End Trust.


(** ** What a worker asks of planning *)

Definition quiet (c : board_call) : Prop := match c with BC_plan _ _ _ _ _ _ _ _ => False | _ => True end.

Ltac quiet_auto := repeat (asks_step || exact I || solve [eauto with board]).

Section Quiet.
Context (client : board_client) (settings : WorkerSettings).

Lemma labels_quiet {A} (m : BM A) : asks is_labels m -> asks quiet m.
Proof. apply asks_weaken. by intros []. Qed.
Lemma add_label_quiet l : asks quiet (add_label client l).
Proof. by apply add_label_asks. Qed.
Lemma remove_labels_quiet ls : asks quiet (remove_labels client ls).
Proof. by apply remove_labels_asks. Qed.
Lemma increment_quiet p : asks quiet (increment_count_label client p).
Proof. by apply increment_asks. Qed.
Hint Resolve add_label_quiet remove_labels_quiet increment_quiet : board.

Lemma fail_task_quiet i role reason : asks quiet (fail_task client i role reason).
Proof. unfold fail_task, transition_issue, comment_issue. quiet_auto. Qed.
Lemma create_quiet name description names : asks quiet (create_issue client name description names).
Proof. by apply asks_ask. Qed.
Lemma chunks_quiet i title reason labels n idx chunks created :
  asks quiet (create_chunks client i title reason labels n idx chunks created).
Proof.
  revert idx created. induction chunks as [|c cs IH]; intros idx created; cbn [create_chunks]; unfold create_issue; quiet_auto.
Qed.
Hint Resolve fail_task_quiet create_quiet chunks_quiet : board.

Lemma follow_up_quiet kind reason : asks quiet (create_follow_up client settings kind reason).
Proof.
  unfold create_follow_up, ceiling_reached, root_descendant_cap_reached, cap_reached, list_issues, create_issue, the_issue.
  quiet_auto.
Qed.
Lemma split_quiet files reason : asks quiet (create_split_followups client settings files reason).
Proof.
  unfold create_split_followups, ceiling_reached, root_descendant_cap_reached, cap_reached, list_issues, comment_issue, the_issue.
  quiet_auto.
Qed.
Hint Resolve follow_up_quiet split_quiet : board.

Lemma failure_quiet role result files : asks quiet (handle_failure client settings role result files).
Proof.
  unfold handle_failure, label_failure, increment_retry_count, increment_code_failure_count, transition_issue, comment_issue,
    the_issue.
  quiet_auto.
Qed.
Lemma suggestions_quiet l : asks quiet (create_suggestions client l).
Proof.
  induction l as [|s l IH]; cbn [create_suggestions]; unfold create_improve_follow_up, create_issue, the_issue; quiet_auto.
Qed.
Hint Resolve failure_quiet suggestions_quiet : board.
Lemma close_split_quiet : asks quiet (maybe_close_split_parent client).
Proof.
  unfold maybe_close_split_parent, close_parent, list_issues, transition_issue, comment_issue, the_issue. quiet_auto.
Qed.
Hint Resolve close_split_quiet : board.
Lemma success_quiet role verify suggestions pr_url branch pushed :
  asks quiet (handle_success client settings role verify suggestions pr_url branch pushed).
Proof.
  unfold handle_success, clear_blocked_reason_labels, finish_goal, finish_improve, transition_issue, comment_issue, the_issue.
  quiet_auto.
Qed.
Hint Resolve success_quiet : board.

Lemma children_quiet fm repo base constraints l : asks quiet (build_children client fm repo base constraints l).
Proof. induction l as [|[[n g] ph] l IH]; cbn [build_children]; unfold create_task, create_issue; quiet_auto. Qed.
Hint Resolve children_quiet : board.
Lemma tag_quiet run issues created : asks quiet (tag_created client run issues created).
Proof. induction created as [|c l IH]; cbn [tag_created]; unfold on_issue; quiet_auto. Qed.
Hint Resolve tag_quiet : board.

Section Handlers.
Context (env : dispatch_env) (role : string).

Lemma spec_success_quiet path phase run : asks quiet (handle_spec_author_success env client settings path phase run).
Proof.
  unfold handle_spec_author_success, finish_spec, campaign_build, create_task, create_issue, list_issues, transition_issue,
    comment_issue, the_issue.
  quiet_auto.
Qed.
Lemma execute_quiet task_id branch base bundle : asks quiet (execute_task env client settings role task_id branch base bundle).
Proof.
  unfold execute_task, increment_retry_count, settle, verify_pushed_scope, retry_transient. quiet_auto.
Qed.
Lemma ci_loop_quiet raw task_id key : asks quiet (run_ci_loop env client settings role raw task_id key).
Proof. unfold run_ci_loop. quiet_auto. Qed.

Lemma claim_quiet now : asks quiet (claim_next (de_unescape env) client settings now role).
Proof.
  unfold claim_next, block_thin_task, open_pr_gate_clear, clear_blocked_reason_labels, on_issue, list_issues, transition_issue,
    comment_issue, the_issue.
  pose proof (fun k e i => labels_quiet _ (build_candidates_asks client settings k e i)). quiet_auto.
Qed.
End Handlers.
End Quiet.
#[export] Hint Resolve fail_task_quiet failure_quiet spec_success_quiet execute_quiet ci_loop_quiet claim_quiet : board.

(** What may be asked of planning about an issue. *)
Definition plans_of (settings : WorkerSettings) (issue : dict) (c : board_call) : Prop :=
  match c with
  | BC_plan _ task_type mode repo _ _ _ labels =>
      let kind := label_value (labels_field issue) "task-kind" in
      if String.eqb kind "spec-author"
      then mode = "goal" /\ repo = SPEC_AUTHOR_REPO_KEY /\ task_type = task_type_from_kind kind /\
           labels = spec_forwarded_labels (labels_field issue)
      else mode = kind /\ repo = label_value (labels_field issue) "repo" /\ task_type = task_type_from_kind kind /\
           labels = build_forwarded_labels (labels_field issue) (repo_of settings repo) issue settings
  | _ => True
  end.

Section Plans.
Context (env : dispatch_env) (client : board_client) (settings : WorkerSettings) (role : string).

Lemma quiet_plans {A} issue (m : BM A) : asks quiet m -> asks (plans_of settings issue) m.
Proof. apply asks_weaken. by intros []. Qed.

Lemma plan_asks issue task_id label c :
  plans_of settings issue c -> asks (plans_of settings issue) (plan_task env client role task_id label c).
Proof.
  intros Hc. unfold plan_task. pose proof (fun r => quiet_plans issue _ (fail_task_quiet client task_id role r)).
  quiet_auto.
Qed.

(** From a world whose copy of the issue is [issue]. *)
Definition asks_at {A} (issue : dict) (m : BM A) : Prop :=
  forall w, bw_issue w = issue -> exists cs, bw_calls (fst (m w)) = bw_calls w ++ cs /\ Forall (plans_of settings issue) cs.

Lemma asks_at_any {A} issue (m : BM A) : asks (plans_of settings issue) m -> asks_at issue m.
Proof. intros H w _. apply H. Qed.
Lemma asks_at_issue {A} issue (f : dict -> BM A) : asks_at issue (f issue) -> asks_at issue (se_bind the_issue f).
Proof. intros H w Hw. unfold se_bind, the_issue, se_get. rewrite Hw. by apply H. Qed.
Lemma asks_at_lift {A B} issue (r : res A) (f : A -> BM B) :
  (forall a, asks_at issue (f a)) -> asks_at issue (se_bind (se_lift r) f).
Proof. intros H w Hw. unfold se_bind, se_lift. destruct r; [by apply H|]. exists []. by rewrite app_nil_r. Qed.

Lemma spec_author_asks issue payload base :
  label_value (labels_field issue) "task-kind" = "spec-author" ->
  asks_at issue (process_spec_author env client settings role payload base).
Proof.
  intros Hk. apply asks_at_issue, asks_at_lift. intros task_id. apply asks_at_any, asks_bind.
  - apply plan_asks. cbn [plans_of]. by rewrite Hk.
  - intros bundle. apply quiet_plans. quiet_auto.
Qed.

Lemma dispatch_asks issue : asks_at issue (dispatch_issue env client settings role).
Proof.
  apply asks_at_issue, asks_at_lift. intros task_id. cbv zeta.
  destruct (String.eqb_spec (label_value (labels_field issue) "task-kind") "spec-author") as [Hk|Hk].
  - unfold dispatch_spec_author. destruct (de_spec_payload _ _); [by apply spec_author_asks|].
    apply asks_at_any, quiet_plans. quiet_auto.
  - apply asks_at_any, asks_bind; [apply asks_get|]. intros nonce. apply asks_bind.
    + apply plan_asks. cbn [plans_of]. rewrite (proj2 (String.eqb_neq _ _) Hk). done.
    + intros bundle. apply quiet_plans. quiet_auto.
Qed.

(** All that a cycle asks of planning is about the task it claimed. *)
Lemma cycle_plans now w w' r :
  worker_cycle env client settings role now w = (w', r) ->
  exists cs, bw_calls w' = bw_calls w ++ cs /\
    (Forall quiet cs \/
     exists w1 issue, claim_next (de_unescape env) client settings now role w = (w1, Ok (Some issue)) /\
                      Forall (plans_of settings issue) cs).
Proof.
  unfold worker_cycle, se_bind at 1. destruct (claim_quiet client settings env role now w) as (c0 & Hc0 & Hq).
  destruct (claim_next _ _ _ _ _ w) as [w1 [[issue|]|e]]; cbn [fst] in Hc0.
  2, 3: intros [= <- _]; exists c0; split; [done | by left].
  assert (Hall : forall cs, Forall quiet cs -> Forall (plans_of settings issue) cs).
  { intros cs Hf. eapply Forall_impl; [exact Hf|]. by intros []. }
  unfold se_bind at 1, se_lift at 1. destruct (issue_id issue) as [task_id|e].
  2: { intros [= <- _]. exists c0. split; [done|]. right. exists w1, issue. split; [done | by apply Hall]. }
  unfold on_issue, se_bind at 1, set_issue, se_try.
  set (w0 := {| bw_calls := bw_calls w1; bw_issue := issue |}).
  destruct (dispatch_asks issue w0 eq_refl) as (c1 & Hc1 & Hp1).
  destruct (dispatch_issue env client settings role w0) as [w2 [a|e]]; cbn [fst] in Hc1.
  - intros [= <- _]. exists (c0 ++ c1). rewrite Hc1. cbn [w0 bw_calls]. rewrite Hc0, <-app_assoc. split; [done|].
    right. exists w1, issue. split; [done|]. apply Forall_app. auto.
  - intros H.
    assert (exists c2, bw_calls w' = bw_calls w2 ++ c2 /\ Forall quiet c2) as (c2 & Hc2 & Hp2).
    { match type of H with ?m w2 = _ => assert (Hm : asks quiet m) by quiet_auto end.
      destruct (Hm w2) as (c2 & Hc2 & Hp2). rewrite H in Hc2. by exists c2. }
    exists (c0 ++ c1 ++ c2). rewrite Hc2, Hc1. cbn [w0 bw_calls]. rewrite Hc0, <-!app_assoc. split; [done|].
    right. exists w1, issue. split; [done|]. apply Forall_app. split; [auto|]. apply Forall_app. auto.
Qed.
End Plans.

(** C33: Whatever a cycle of the worker asks of planning is about the task that
    it claimed.  For every task but a spec-author's, a label of a trusted
    source, in whatever spelling, is handed to planning exactly when the issue
    carries it, its creator is on the list of those whose labels are trusted,
    and the repository does not ask for explicit approval; hence a proposal
    with the labels of anybody else's task that is a feature, a refactor or of
    high risk never runs on its own under the bundled policy, whatever labels
    the issue has.  A spec-author task is the exception: all its source labels
    are handed on, whoever wrote them. *)
Theorem only_trusted_creators_lift_review env client settings role now w w' r :
  worker_cycle env client settings role now w = (w', r) ->
  exists cs, bw_calls w' = bw_calls w ++ cs /\
  forall goal task_type mode repo url base priority labels,
    BC_plan goal task_type mode repo url base priority labels ∈ cs ->
    exists w1 issue, claim_next (de_unescape env) client settings now role w = (w1, Ok (Some issue)) /\
      let kind := label_value (labels_field issue) "task-kind" in
      if String.eqb kind "spec-author"
      then forall l, l ∈ labels <-> l ∈ map lname (labels_field issue) /\ startswith (lower l) "source:" = true
      else
        mode = kind /\ repo = label_value (labels_field issue) "repo" /\
        (forall l, str_in (lower l) TRUSTED_SOURCE_LABELS = true ->
           l ∈ labels <-> l ∈ map lname (labels_field issue) /\ grants_trust (repo_of settings repo) issue settings = true) /\
        (forall proposal decision request,
           grants_trust (repo_of settings repo) issue settings = false -> prop_labels proposal = labels ->
           prop_risk_level proposal = HIGH \/ prop_task_type proposal ∈ [FEATURE; REFACTOR] ->
           is_allowed (evaluate DEFAULT_POLICY_CONFIG proposal decision request) = false).
Proof.
  intros H. apply cycle_plans in H as (cs & Hcs & Hp). exists cs. split; [done|].
  intros goal task_type mode repo url base priority labels Hin. destruct Hp as [Hq|(w1 & issue & Hclaim & Hp)].
  { by apply (proj1 (Forall_forall _ _) Hq) in Hin. }
  exists w1, issue. split; [done|]. apply (proj1 (Forall_forall _ _) Hp) in Hin. cbn [plans_of] in Hin. cbv zeta in *.
  destruct (String.eqb _ _).
  - destruct Hin as (_ & _ & _ & ->). intros l. unfold spec_forwarded_labels. by rewrite elem_of_filter_bool.
  - destruct Hin as (-> & -> & _ & ->). do 2 (split; [done|]). split; [intros l; apply forwarded_iff|].
    intros proposal decision request Hg Hlab Hrisk. apply default_risky_not_allowed; [done|]. rewrite Hlab.
    intros l Hl Ht%trusted_lower. destruct (forwarded_trust _ _ _ _ _ Hl Ht) as [E _]. by rewrite Hg in E.
Qed.

Module TrustScenarios.
Definition admission : TaskAdmissionSettings := {|
  ta_author_allowlist := ["mallory"; "alice"]; ta_reject_label := "unauthorized"; ta_trusted_label_authors := ["alice"] |}.
Definition repo : WorkerRepo := {|
  wr_clone_url := "https://host/alpha.git"; wr_await_review := false; wr_max_daily_executions := None;
  wr_require_explicit_approval := false; wr_default_branch := "main"; wr_sandbox_base_branch := None;
  wr_local_path := None |}.
Definition settings : WorkerSettings := {|
  ws_repos := [("Alpha", repo); (SPEC_AUTHOR_REPO_KEY, repo)]; ws_task_admission := Some admission; ws_max_open_fleet_tasks := 0; ws_max_descendants_per_root := 0;
  ws_open_pr_gate_stale_hours := 0; ws_code_failure_retry_cap := 0; ws_git_token := None |}.
Definition labels : list jval := [JObj [("name", JStr "Source: Autonomy ")]; JStr "source: board_worker"; JStr "source: cli"].
Definition by_author (who : string) : dict := list_to_map [("created_by", JObj [("email", JStr who)])].

Example only_alice_is_trusted :
  build_forwarded_labels labels None (by_author "mallory") settings = ["source: cli"] /\
  build_forwarded_labels labels None (by_author "Alice") settings = ["Source: Autonomy"; "source: board_worker"; "source: cli"].
Proof. by vm_compute. Qed.

(** A request for review is forwarded in its own spelling, and the engine knows
    one spelling only. *)
Example capitalised_review_label_is_ignored :
  let forwarded := build_forwarded_labels [JStr "Review_Required"] None (by_author "mallory") settings in
  forwarded = ["Review_Required"] /\
  is_allowed (evaluate DEFAULT_POLICY_CONFIG (sample_proposal LINT_FIX LOW [] forwarded) (sample_routing LANE_AIDER_LOCAL) None)
    = true /\
  is_allowed (evaluate DEFAULT_POLICY_CONFIG (sample_proposal LINT_FIX LOW [] ["review_required"])
    (sample_routing LANE_AIDER_LOCAL) None) = false.
Proof. by vm_compute. Qed.

(** A board with one task of [who]. *)
Definition task (who kind : string) (labels : list string) : dict := list_to_map
  [("id", JStr "11"); ("name", JStr "Add retry to the uploader when the bucket is unavailable, with a test");
   ("state", JObj [("name", JStr "Ready for AI")]); ("created_at", JStr "2026-01-01T00:00:00Z");
   ("created_by", JObj [("email", JStr who)]);
   ("labels", JList (map JStr (("task-kind: " +:+ kind) :: "repo: Alpha" :: labels)))].
Definition client (issue : dict) : board_client := {|
  bcl_list := fun _ => Ok [issue]; bcl_fetch := fun _ => Raise (OtherError "no answer"); bcl_write := fun _ => Ok tt;
  bcl_create := fun _ => Ok (list_to_map [("id", JStr "12")]); bcl_prs := fun _ => Ok [] |}.
(** The planner answers nothing that could be parsed. *)
Definition env : dispatch_env := {|
  de_unescape := id; de_nonce := fun _ => "0123456789abcdef"; de_catalog := None; de_github_dir := "/src";
  de_plan := fun _ => Ok {| pp_returncode := 1; pp_json := None |};
  de_execute := fun _ => Raise (OtherError "no run"); de_diff := fun _ => Ok (inr []); de_improve_output := fun _ => None;
  de_scope_file := fun _ => None; de_diagnostics := fun _ => None; de_ci_spec := fun _ => Raise (ValueError "none");
  de_coordinate := fun _ _ => (Raise (ValueError "none"), ∅); de_spec_payload := fun _ => Some ∅; de_spec_goal := fun _ => "";
  de_spec_file := fun _ => None; de_yaml := fun _ => Raise (ValueError "none"); de_is_containment := fun _ => false |}.
Definition now (cs : list board_call) : datetime := {| dt_us := 1767225600000000; dt_aware := true |}.
Definition start : board_world := {| bw_calls := []; bw_issue := ∅ |}.
Definition cycle (role : string) (issue : dict) : board_world * res bool :=
  worker_cycle env (client issue) settings role now start.
Definition planned (role : string) (issue : dict) : list (list string) :=
  omap (fun c => match c with BC_plan _ _ _ _ _ _ _ ls => Some ls | _ => None end) (bw_calls (fst (cycle role issue))).

(** The exception: Mallory's spec is planned as if it came from the fleet. *)
Example specs_bring_their_trust :
  planned "goal" (task "mallory" "goal" ["source: autonomy"; "source: cli"]) = [["source: cli"]] /\
  planned "goal" (task "alice" "goal" ["source: autonomy"; "source: cli"]) = [["source: autonomy"; "source: cli"]] /\
  planned "spec-author" (task "mallory" "spec-author" ["source: autonomy"; "source: cli"]) = [["source: autonomy"; "source: cli"]].
Proof. by vm_compute. Qed.
End TrustScenarios.

Lemma only_trusted_creators_lift_review_witness :
  exists cs, bw_calls (fst (TrustScenarios.cycle "goal" (TrustScenarios.task "mallory" "goal" ["source: autonomy"]))) = [] ++ cs /\
  forall goal task_type mode repo url base priority labels,
    BC_plan goal task_type mode repo url base priority labels ∈ cs ->
    exists w1 issue,
      claim_next id (TrustScenarios.client (TrustScenarios.task "mallory" "goal" ["source: autonomy"])) TrustScenarios.settings
        TrustScenarios.now "goal" TrustScenarios.start = (w1, Ok (Some issue)) /\
      (label_value (labels_field issue) "task-kind" <> "spec-author" ->
       forall l, str_in (lower l) TRUSTED_SOURCE_LABELS = true ->
         l ∈ labels -> grants_trust (repo_of TrustScenarios.settings repo) issue TrustScenarios.settings = true).
Proof.
  destruct (only_trusted_creators_lift_review TrustScenarios.env
              (TrustScenarios.client (TrustScenarios.task "mallory" "goal" ["source: autonomy"])) TrustScenarios.settings "goal"
              TrustScenarios.now TrustScenarios.start
              (fst (TrustScenarios.cycle "goal" (TrustScenarios.task "mallory" "goal" ["source: autonomy"])))
              (snd (TrustScenarios.cycle "goal" (TrustScenarios.task "mallory" "goal" ["source: autonomy"])))) as (cs & Hcs & H).
  - vm_compute. reflexivity.
  - exists cs. split; [exact Hcs|]. intros goal task_type mode repo url base priority labels Hin.
    destruct (H _ _ _ _ _ _ _ _ Hin) as (w1 & issue & Hclaim & Hif). exists w1, issue. split; [exact Hclaim|].
    intros Hk l Hl Hin'. cbv zeta in Hif. rewrite (proj2 (String.eqb_neq _ _) Hk) in Hif.
    destruct Hif as (_ & _ & Hiff & _). exact (proj2 (proj1 (Hiff l Hl) Hin')).
Defined.
