(* ===== verification/BoardUnblock.v ===== *)
(** * Unblocking the board

    entrypoints/maintenance/board_unblock.py and board_unblock_task.py: the
    rules that move stuck tasks, their application to the board, the gate of
    the worker-backend cooldowns over the usage ledger, and the two programs
    that run them.  The host of the pull requests, the probe of the backends,
    the memory reading and the text of a float are arguments. *)
From S2P Require Import Prelude PyStr PyData TextLines UsageStore UsageCooldown UsageBudget InFlight BoardIssues.
From Stdlib Require Import Ascii.

(** ** Labels *)

(** [_labels]: the names, without those that are missing. *)
Definition ulabels (issue : dict) : list string :=
  omap (fun raw =>
    let name := match raw with JObj l => default JNull (od_get "name" l) | v => v end in
    if jtruthy name then Some (strip (jtext name)) else None) (labels_field issue).

(** [_label_value]: the rest after the prefix. *)
Definition ulabel_value (labels : list string) (prefix : string) : option string :=
  (fun label => strip (str_drop (String.length prefix) label)) <$>
  find_first (fun label => startswith (lower label) (lower prefix)) labels.

Definition uhas_label (labels : list string) (target : string) : bool :=
  existsb (fun label => String.eqb (lower label) (lower target)) labels.
Definition uhas_prefix (labels : list string) (prefix : string) : bool :=
  existsb (fun label => startswith (lower label) (lower prefix)) labels.

Definition ucount (labels : list string) (prefix : string) : Z :=
  match ulabel_value labels prefix with
  | Some raw => default 0%Z (py_int raw)
  | None => 0%Z
  end.
Definition retry_count (labels : list string) : Z := ucount labels "retry-count:".
Definition code_fail_count (labels : list string) : Z := ucount labels "code-fail-count:".
Definition blocker_task_id (labels : list string) : option string := ulabel_value labels "blocked-by:".
Definition repo_key_of (labels : list string) : option string := ulabel_value labels "repo:".

Definition description_blob (issue : dict) : string :=
  let part := fun k => jtext (jor (dget issue k) (JStr "")) in
  lower (join nl (List.filter str_truthy [part "description"; part "description_stripped"; part "description_html"])).

Definition has_kind (labels : list string) (kind : string) : bool := uhas_label labels ("task-kind: " +:+ kind).

Definition is_spec_campaign_implement_goal (issue : dict) (labels : list string) : bool :=
  has_kind labels "goal" && uhas_label labels "source: spec-campaign" &&
  contains (description_blob issue) "task_phase: implement".

Definition parse_updated_at (issue : dict) : option datetime :=
  let raw := jor (dget issue "updated_at") (dget issue "created_at") in
  match raw with JTime t => Some (assume_utc t) | _ => None end.

(** The name of a state, by the id of the task; the last entry counts. *)
Definition build_id_state_map (issues : list dict) : res (list (string * string)) :=
  foldM (fun m issue => i <-? issue_id issue ;; Ok (od_set i (state_name issue) m)) [] issues.

Definition BLOCKED_REASONS : list string := ["blocked-reason: policy"; "blocked-reason: backend-capacity"].
Definition OPEN_PR_GATE : string := "OPEN_PR_GATE".

(** ** Actions *)

Record board_action := {
  ba_task_id : string;
  ba_title : string;
  ba_rule : string;
  ba_from : string;
  ba_to : string;
  ba_reason : string;
  ba_skipped : bool;
  ba_add : list string;
  ba_remove : list string;
  ba_issue_labels : list string }.

Section Rules.
Context (now : datetime) (stale_blocked_hours stale_running_hours clean_blocked_min_minutes : Z)
        (mem_available_gb : option Q) (fmt_2f : option Q -> string)
        (cooldown_skip_reason : option string) (code_failure_retry_cap : Z) (gated_repos : list string)
        (id_state : list (string * string)).

(** [None] is an unlimited amount of memory. *)
Definition mem_below (gb : Q) : bool := match mem_available_gb with Some m => Qlt_b m gb | None => false end.
Definition R4AI_THRESHOLD_GB : Q := 8.
Definition low_mem : bool := mem_below R4AI_THRESHOLD_GB.

Definition older (issue : dict) (us : Z) : bool :=
  match parse_updated_at issue with Some t => (us <? dt_us now - dt_us t)%Z | None => false end.
Definition at_least_old (issue : dict) (us : Z) : bool :=
  match parse_updated_at issue with Some t => (us <=? dt_us now - dt_us t)%Z | None => false end.

Definition state_of (task_id : string) : string := default "" (od_get task_id id_state).

Definition gated (labels : list string) : bool :=
  match repo_key_of labels with Some r => str_in r gated_repos | None => false end.

Section Issue.
Context (issue : dict) (task_id : string) (labels : list string).

Abbreviation state := (state_name issue).
Definition in_state (s : string) : bool := String.eqb (lower (state_name issue)) s.

Definition mk_action (rule to reason : string) (skipped : bool) (add remove : list string) : board_action :=
  {| ba_task_id := task_id; ba_title := jtext (jor (dget issue "name") (JStr "")); ba_rule := rule;
     ba_from := state; ba_to := to; ba_reason := reason; ba_skipped := skipped; ba_add := add; ba_remove := remove;
     ba_issue_labels := match add, remove with [], [] => [] | _, _ => labels end |}.
Definition move (rule to reason : string) : board_action := mk_action rule to reason false [] [].
Definition skip (rule to reason : string) : board_action := mk_action rule to ("SKIPPED — " +:+ reason) true [] [].
Definition clearing (rule to reason : string) : board_action := mk_action rule to reason false [] BLOCKED_REASONS.

(** A promotion into the queue, put off while the backends cool down. *)
Definition promote (rule : string) (now_action : board_action) : board_action :=
  match cooldown_skip_reason with
  | Some r => if str_truthy r then skip rule "Ready for AI" r else now_action
  | None => now_action
  end.
Definition deferred : bool := match cooldown_skip_reason with Some r => str_truthy r | None => false end.

Definition signal_value : string := str_or (ulabel_value labels "executor-signal:") "".
Definition sigkill : bool := contains (lower signal_value) "sigkill".

Definition rule_cancel : list board_action :=
  if is_terminal state then []
  else
    let is_dead := uhas_label labels "dead-remediation" in
    let exhausted := sigkill && (3 <=? retry_count labels)%Z in
    let code_exhausted := (0 <? code_failure_retry_cap)%Z && (code_failure_retry_cap <=? code_fail_count labels)%Z in
    if is_dead || exhausted || code_exhausted then
      [move "DEAD_REMEDIATION_CANCEL" "Cancelled"
         (if is_dead then "labelled dead-remediation"
          else if exhausted then "≥3 SIGKILL retries with no safe path"
          else "≥" +:+ str_of_Z code_failure_retry_cap +:+ " clean code failures (code-fail-count=" +:+
               str_of_Z (code_fail_count labels) +:+ ") — approach not converging")]
    else [].

Definition rule_investigate : list board_action :=
  if in_state "ready for ai" && has_kind labels "investigate"
  then [move "INVESTIGATE_DEPRIORITISE" "Backlog"
          "task-kind:investigate has no board_worker consumer; starving R4AI slot"]
  else [].

Definition rule_gate_park : list board_action :=
  if in_state "ready for ai" && has_kind labels "goal" && gated labels
  then [mk_action "OPEN_PR_GATE_PARK" "Backlog"
          ("repo " +:+ str_or (repo_key_of labels) "None" +:+
           " has active non-spec open PRs; task is non-consumable until the OPEN_PR_GATE clears")
          false [OPEN_PR_GATE] []]
  else [].

Definition self_modify : bool := uhas_label labels "self-modify: approved".

Definition rule_improve_unblock : list board_action :=
  if in_state "blocked" && (has_kind labels "improve" || has_kind labels "goal") && negb self_modify then
    let blocker := str_or (blocker_task_id labels) "" in
    if str_truthy blocker && is_terminal (state_of blocker)
    then [clearing "IMPROVE_UNBLOCK" "Backlog" ("blocker " +:+ blocker +:+ " is now " +:+ state_of blocker)]
    else if older issue (hours stale_blocked_hours)
    then [clearing "IMPROVE_UNBLOCK" "Backlog"
            ("stale in Blocked >" +:+ str_of_Z stale_blocked_hours +:+ "h with no executor progress")]
    else []
  else [].

Definition rule_self_modify : list board_action :=
  let rule := "SELF_MODIFY_REQUEUE" in
  if in_state "blocked" && self_modify then
    if uhas_label labels "blocked-reason: policy" then
      [skip rule "Ready for AI"
         ("blocked-reason:policy present; deterministic policy gate (e.g. review.required) requires operator review, " +:+
          "self-modify:approved does not override it")]
    else if sigkill then
      [skip rule "Ready for AI" "executor-signal:SIGKILL present; triage review required before requeue"]
    else if String.eqb (strip (str_or (ulabel_value labels "executor-exit-code:") "")) "0" && negb (str_truthy signal_value) then
      [skip rule "Ready for AI"
         ("executor-exit-code:0 with no signal label; empty result.json pattern requires execute.main fix before retry")]
    else if low_mem then
      [skip rule "Ready for AI" ("mem " +:+ fmt_2f mem_available_gb +:+ "GB < 8.0GB threshold")]
    else if deferred then
      [skip rule "Ready for AI" (str_or cooldown_skip_reason "")]
    else match blocker_task_id labels with
    | None => [clearing rule "Ready for AI" "no blocking dependency; operator approval already granted"]
    | Some blocker =>
        if is_terminal (state_of blocker)
        then [clearing rule "Ready for AI"
                ("blocker " +:+ blocker +:+ " is now " +:+ default "unknown" (od_get blocker id_state))]
        else []
    end
  else [].

Definition rule_in_review : list board_action :=
  if in_state "in review" && negb (uhas_prefix labels "pr-url:") && older issue (hours stale_blocked_hours)
  then [move "STALE_IN_REVIEW" "Backlog"
          ("stale in In Review >" +:+ str_of_Z stale_blocked_hours +:+ "h — PR likely never created or already closed")]
  else [].

Definition rule_running : list board_action :=
  let rule := "STALE_RUNNING_REQUEUE" in
  if in_state "running" && older issue (hours stale_running_hours)
  then [promote rule (move rule "Ready for AI"
          ("stale in Running >" +:+ str_of_Z stale_running_hours +:+
           "h — executor likely died (OOM/SIGKILL/watcher restart) without updating Plane state"))]
  else [].

(** A goal task of the backlog that may run: not gated, not thin, never killed,
    and memory for it. *)
Definition promotable_goal : bool :=
  in_state "backlog" && has_kind labels "goal" && negb (gated labels) && negb (uhas_label labels "thin-goal") &&
  negb (uhas_prefix labels "executor-signal:") && negb low_mem.

Definition rule_gate_requeue : list board_action :=
  let rule := "OPEN_PR_GATE_REQUEUE" in
  if promotable_goal && uhas_label labels OPEN_PR_GATE
  then [promote rule (mk_action rule "Ready for AI"
          ("repo " +:+ str_or (repo_key_of labels) "None" +:+
           " no longer has blocking non-spec open PRs; restore task to Ready for AI")
          false [] [OPEN_PR_GATE])]
  else [].

(** The two kinds of goal tasks that wait for their parent. *)
Definition waits_for_parent : bool :=
  uhas_label labels "source: autonomy" && uhas_label labels "source: improve-suggestion" ||
  uhas_label labels "source: board_worker" && uhas_label labels "handoff-reason: improvement_applied".

Definition rule_backlog_promote : list board_action :=
  let rule := "GOAL_BACKLOG_PROMOTE" in
  let parent_id := str_or (ulabel_value labels "original-task-id:") "" in
  if promotable_goal && waits_for_parent && str_truthy parent_id && is_terminal (state_of parent_id)
  then [promote rule (clearing rule "Ready for AI"
          ("parent improve task " +:+ parent_id +:+ " is " +:+ state_of parent_id +:+
           "; promote for goal board_worker dispatch"))]
  else [].

(** A blocked task that no executor touched and nothing holds. *)
Definition untouched : bool :=
  in_state "blocked" && negb self_modify && negb (uhas_label labels "thin-goal") &&
  negb (uhas_prefix labels "executor-signal:") && negb (uhas_prefix labels "executor-exit-code:") &&
  negb (uhas_prefix labels "blocked-by:").

Definition rule_clean_blocked : list board_action :=
  if untouched && (has_kind labels "improve" || has_kind labels "goal" || has_kind labels "spec-author") &&
     negb (uhas_label labels "blocked-reason: policy") && negb (uhas_label labels "blocked-reason: backend-capacity") &&
     at_least_old issue (seconds (clean_blocked_min_minutes * 60))
  then [clearing "CLEAN_BLOCKED_RETRY" "Backlog"
          ("no executor-signal/exit-code/blocked-by labels — pre-execution failure " +:+
           "(workspace prep or infra config); safe to retry after " +:+ str_of_Z clean_blocked_min_minutes +:+ "m min age")]
  else [].

Definition has_repromotion_path : bool :=
  has_kind labels "spec-author" ||
  has_kind labels "goal" && waits_for_parent && str_truthy (str_or (ulabel_value labels "original-task-id:") "") ||
  is_spec_campaign_implement_goal issue labels.

Definition rule_capacity_park : list board_action :=
  if untouched && (has_kind labels "goal" || has_kind labels "spec-author") &&
     uhas_label labels "blocked-reason: backend-capacity" && has_repromotion_path &&
     at_least_old issue (seconds (clean_blocked_min_minutes * 60))
  then [move "BACKEND_CAPACITY_PARK" "Backlog"
          ("backend-capacity/session-limit failure; park in Backlog so cooldown-aware promotion can retry " +:+
           "after the backend resets")]
  else [].

Definition rule_spec_author : list board_action :=
  let rule := "SPEC_AUTHOR_BACKLOG_PROMOTE" in
  if in_state "backlog" && has_kind labels "spec-author" && negb low_mem
  then [promote rule (clearing rule "Ready for AI"
          "spec-author task in Backlog; promoting for board_worker dispatch")]
  else [].

Definition rule_spec_campaign : list board_action :=
  let rule := "SPEC_CAMPAIGN_BACKLOG_PROMOTE" in
  if in_state "backlog" && is_spec_campaign_implement_goal issue labels && negb low_mem
  then [promote rule (clearing rule "Ready for AI"
          ("spec-campaign implement task parked in Backlog after backend-capacity failure; " +:+
           "restoring to Ready for AI"))]
  else [].

(** The rules whose action ends the turn of the issue, and the rest. *)
Definition first_of (rules : list (list board_action)) (rest : list board_action) : list board_action :=
  foldr (fun r acc => match r with [] => acc | _ => r end) rest rules.

Definition rules_after_gate : list board_action :=
  rule_backlog_promote ++ rule_clean_blocked ++ rule_capacity_park ++ rule_spec_author ++ rule_spec_campaign.

Definition issue_actions : list board_action :=
  first_of [rule_cancel; rule_investigate; rule_gate_park; rule_improve_unblock]
    (rule_self_modify ++ rule_in_review ++ rule_running ++
     (* a restored task ends the turn, one that is put off does not *)
     match rule_gate_requeue with
     | [] => rules_after_gate
     | requeue => if deferred then requeue ++ rules_after_gate else requeue
     end).
End Issue.

Definition actions_of (issue : dict) : res (list board_action) :=
  task_id <-? issue_id issue ;; Ok (issue_actions issue task_id (ulabels issue)).

Fixpoint all_actions (issues : list dict) : res (list board_action) :=
  match issues with
  | [] => Ok []
  | i :: rest => a <-? actions_of i ;; more <-? all_actions rest ;; Ok (a ++ more)
  end.
End Rules.

(** [_apply_rules]. *)
Definition apply_rules (now : datetime) (stale_blocked_hours stale_running_hours clean_blocked_min_minutes : Z)
    (mem_available_gb : option Q) (fmt_2f : option Q -> string) (cooldown_skip_reason : option string)
    (code_failure_retry_cap : Z) (gated_repos : list string) (issues : list dict) : res (list board_action) :=
  id_state <-? build_id_state_map issues ;;
  all_actions now stale_blocked_hours stale_running_hours clean_blocked_min_minutes mem_available_gb fmt_2f
    cooldown_skip_reason code_failure_retry_cap gated_repos id_state issues.

(** ** The repositories behind the gate of open pull requests *)

Section Gate.
Context (settings : WorkerSettings) (now : datetime) (list_prs : string -> res (option (list dict))).

(** An open pull request that blocks: not of a spec, not in flight, not idle. *)
Definition pr_blocks (pr : dict) : bool :=
  let ref := match dget pr "head" with JObj l => jtext (jor (default JNull (od_get "ref" l)) (JStr "")) | _ => "" end in
  let stale_hours := ws_open_pr_gate_stale_hours settings in
  let stale := match dget pr "updated_at" with
               | JTime t => Qlt_b 0 stale_hours &&
                   (dt_us (assume_utc t) <? dt_us now - round_half_even (stale_hours * inject_Z (hours 1)))%Z
               | _ => false
               end in
  negb (startswith ref "spec-author/") && negb (jeq_str (dget pr "mergeable") "UNKNOWN") && negb stale.

Definition repo_blocked (repo_key : string) : bool :=
  match r ← repo_of settings repo_key; Some (wr_clone_url r) with
  | Some clone_url =>
      str_truthy clone_url &&
      match list_prs clone_url with Ok (Some prs) => existsb pr_blocks prs | _ => false end
  | None => false
  end.

Definition open_pr_gate_blocked_repos (issues : list dict) : list string :=
  if opt_truthy (ws_git_token settings) then
    let keys := omap (fun issue => let labels := ulabels issue in
                        if has_kind labels "goal" && opt_truthy (repo_key_of labels) then repo_key_of labels else None)
                  issues in
    List.filter repo_blocked (sorted_set keys)
  else [].
End Gate.

(** ** The gate of the cooldowns *)

Definition PROVIDER_TO_WORKER_BACKEND (p : string) : option string :=
  od_get p [("claude", "claude_code"); ("anthropic", "claude_code"); ("codex", "codex_cli"); ("openai", "codex_cli")].

Definition allowed_worker_backends (allowed_providers : string) : list string :=
  match omap (fun p => PROVIDER_TO_WORKER_BACKEND (lower (strip p))) (split_on "," allowed_providers) with
  | [] => ["claude_code"]
  | backends => sorted_set backends
  end.

Definition cooling (snapshot : list (string * CooldownSnapshot)) (backend : string) : bool :=
  match od_get backend snapshot with Some s => cs_cooling_down s | None => false end.

Definition cooling_text (snapshot : list (string * CooldownSnapshot)) (backend : string) : string :=
  backend +:+ match s ← od_get backend snapshot; cs_reset_at s with
              | Some t => " until " +:+ isoformat t
              | None => ""
              end.

(** [_dispatch_cooldown_reason] on the ledger, after a probe that may clear
    cooldowns when every backend seems to cool down. *)
Definition dispatch_cooldown_reason (allowed_providers : string) (refresh : option (file -> file * res unit))
    (f : file) (now : datetime) : file * option string :=
  let allowed := allowed_worker_backends allowed_providers in
  match current_worker_backend_cooldowns f now with
  | Raise _ => (f, None)
  | Ok snapshot =>
      let '(f, snapshot) :=
        match refresh with
        | Some probe =>
            if forallb (cooling snapshot) allowed then
              let '(f', r) := probe f in
              match r, current_worker_backend_cooldowns f' now with
              | Ok _, Ok snapshot' => (f', snapshot')
              | _, _ => (f', snapshot)
              end
            else (f, snapshot)
        | None => (f, snapshot)
        end in
      (f, if forallb (cooling snapshot) allowed
          then Some ("all allowed worker backends cooling down (" +:+
                     join ", " (map (cooling_text snapshot) allowed) +:+ "); " +:+
                     "Ready-for-AI promotion deferred to avoid re-dispatch into a session-limited " +:+
                     "backend (self-heals on cooldown reset)")
          else None)
  end.

(** ** Applying *)

Inductive action_outcome := AO_skipped | AO_would_apply | AO_applied | AO_error (text : string).

Definition updated_labels (a : board_action) : list string :=
  let removed := map lower (ba_remove a) in
  let kept := List.filter (fun lab => negb (str_in (lower lab) removed)) (ba_issue_labels a) in
  foldl (fun acc new_label =>
           if existsb (fun lab => String.eqb (lower lab) (lower new_label)) acc then acc else acc ++ [new_label])
    kept (ba_add a).

Section Apply.
Context (client : board_client) (apply : bool).

Definition apply_action (a : board_action) : BM action_outcome :=
  if ba_skipped a then se_ret AO_skipped
  else if negb apply then se_ret AO_would_apply
  else
    se_try
      (_ <<- transition_issue client (ba_task_id a) (ba_to a) ;;
       _ <<- (if list_truthy (ba_issue_labels a) && (list_truthy (ba_add a) || list_truthy (ba_remove a)) &&
                 negb (bool_decide (updated_labels a = ba_issue_labels a))
              then ask (bcl_write client) (BC_labels (ba_task_id a) (updated_labels a))
              else se_ret tt) ;;
       _ <<- comment_issue client (ba_task_id a)
         ("Board unblock (autonomous): " +:+ ba_rule a +:+ " — " +:+ ba_reason a +:+ ". Transitioned " +:+
          ba_from a +:+ " → " +:+ ba_to a +:+ ".") ;;
       se_ret AO_applied)
      (fun exc => se_ret (AO_error (exn_text exc))).

Fixpoint apply_board_actions (actions : list board_action) : BM (list (board_action * action_outcome)) :=
  match actions with
  | [] => se_ret []
  | a :: rest =>
      o <<- apply_action a ;; more <<- apply_board_actions rest ;; se_ret ((a, o) :: more)
  end.
End Apply.

(** ** board_unblock_task.py *)

Definition RECONCILE_STATES : list string := ["in review"; "blocked"].
Definition ALL_PREFIXES : list string := ["goal"; "improve"; "test"; "spec-author"].

Definition head_candidates (task_id : string) (labels : list string) : list string :=
  let primary := List.filter (has_kind labels) ["goal"; "improve"; "spec-author"] in
  map (fun prefix => prefix +:+ "/" +:+ str_take 8 task_id)
    (primary ++ List.filter (fun p => negb (str_in p primary)) ALL_PREFIXES).

Definition repo_key_after_colon (labels : list string) : option string :=
  (fun lab => strip (after_char colon lab)) <$> find_first (fun lab => startswith (lower lab) "repo:") labels.

Section Reconcile.
Context (settings : WorkerSettings) (find_pr : string -> string -> res (option dict)).

(** The first head with a merged pull request. *)
Fixpoint merged_head (clone_url : string) (heads : list string) : option (string * dict) :=
  match heads with
  | [] => None
  | head :: rest =>
      match find_pr clone_url head with
      | Ok (Some pr) => if jtruthy (dget pr "merged_at") then Some (head, pr) else merged_head clone_url rest
      | _ => merged_head clone_url rest
      end
  end.

Definition reconcile_action (issue : dict) (task_id head : string) (pr : dict) : board_action :=
  {| ba_task_id := task_id; ba_title := jtext (jor (dget issue "name") (JStr "")); ba_rule := "PR_MERGED_RECONCILE";
     ba_from := state_name issue; ba_to := "Done";
     ba_reason := "PR #" +:+ jtext (dget pr "number") +:+ " (" +:+ head +:+ ") merged at " +:+
                  jtext (dget pr "merged_at") +:+ " — work landed; reconciling to Done";
     ba_skipped := false; ba_add := []; ba_remove := []; ba_issue_labels := [] |}.

Definition reconcile_issue (issue : dict) : res (list board_action) :=
  if negb (str_in (lower (state_name issue)) RECONCILE_STATES) then Ok []
  else
    task_id <-? issue_id issue ;;
    let labels := ulabels issue in
    Ok match k ← repo_key_after_colon labels; (if str_truthy k then repo_of settings k else None) with
       | None => []
       | Some cfg =>
           match merged_head (wr_clone_url cfg) (head_candidates task_id labels) with
           | Some (head, pr) => [reconcile_action issue task_id head pr]
           | None => []
           end
       end.

Fixpoint reconcile_merged_pr_tasks (issues : list dict) : res (list board_action) :=
  match issues with
  | [] => Ok []
  | i :: rest => a <-? reconcile_issue i ;; more <-? reconcile_merged_pr_tasks rest ;; Ok (a ++ more)
  end.
End Reconcile.

(** The arguments of a run. *)
Record unblock_env := {
  ue_client : board_client;
  ue_now : list board_call -> datetime;
  ue_mem : option Q;
  ue_fmt_2f : option Q -> string;
  ue_owner_ok : bool;
  ue_list_prs : string -> res (option (list dict));
  ue_find_pr : option (string -> string -> res (option dict));
  ue_apply : bool;
  ue_stale_blocked_hours : Z;
  ue_stale_running_hours : Z;
  ue_clean_blocked_min_minutes : Z }.

Definition MEM_SKIP_THRESHOLD_GB : Q := 17 # 10.

Inductive unblock_status := US_skipped (reason : string) | US_failed (error : string) | US_ok.

Record unblock_result := {
  ur_status : unblock_status;
  ur_results : list (board_action * action_outcome) }.

Section Runs.
Context (settings : WorkerSettings) (env : unblock_env).

Definition rules_now (cooldown : option string) (cap : Z) (now : datetime) (issues : list dict) : res (list board_action) :=
  apply_rules now (ue_stale_blocked_hours env) (ue_stale_running_hours env) (ue_clean_blocked_min_minutes env)
    (ue_mem env) (ue_fmt_2f env) cooldown cap (open_pr_gate_blocked_repos settings now (ue_list_prs env) issues) issues.

Definition memory_exhausted : bool :=
  match ue_mem env with Some m => Qlt_b m MEM_SKIP_THRESHOLD_GB | None => false end.

Definition stopped (s : unblock_status) : unblock_result := {| ur_status := s; ur_results := [] |}.

(** [BoardUnblockTask.run_once]; the console repair is left out. *)
Definition run_once : BM unblock_result :=
  if memory_exhausted
  then se_ret (stopped (US_skipped ("mem_available " +:+ ue_fmt_2f env (ue_mem env) +:+ "GB < 1.7GB")))
  else if negb (ue_owner_ok env) then se_ret (stopped (US_skipped "capability_owner_ambiguous"))
  else
    listed <<- se_try (issues <<- list_issues (ue_client env) ;; se_ret (Ok issues)) (fun e => se_ret (Raise e)) ;;
    match listed with
    | Raise e => se_ret (stopped (US_failed ("plane_fetch_failed: " +:+ exn_text e)))
    | Ok issues =>
        now <<- se_get (fun w => Ok (ue_now env (bw_calls w))) ;;
        reconciled <<- se_lift (match ue_find_pr env with
                                | Some find_pr => reconcile_merged_pr_tasks settings find_pr issues
                                | None => Ok []
                                end) ;;
        actions <<- se_lift (rules_now None (ws_code_failure_retry_cap settings) now issues) ;;
        let ids := map ba_task_id reconciled in
        let rule_actions := List.filter (fun a => negb (str_in (ba_task_id a) ids)) actions in
        results <<- apply_board_actions (ue_client env) (ue_apply env) (reconciled ++ rule_actions) ;;
        se_ret {| ur_status := US_ok; ur_results := results |}
    end.

(** The command line of board_unblock.py: its rules have no cap on code
    failures.  The ledger is probed and then swept for orphaned slots. *)
Definition cli_main (allowed_providers : string) (refresh : option (file -> file * res unit))
    (fetch_issue : list string -> string -> fetch_result) (disk : nat -> option Q) (f : file)
    : BM (unblock_result * (file * res (list clear_entry))) :=
  if memory_exhausted
  then se_ret (stopped (US_skipped ("mem_available " +:+ ue_fmt_2f env (ue_mem env) +:+
                                    "GB < 1.7GB threshold — pre-OOM, skip all rules")), (f, Ok []))
  else
    listed <<- se_try (issues <<- list_issues (ue_client env) ;; se_ret (Ok issues)) (fun e => se_ret (Raise e)) ;;
    match listed with
    | Raise e => se_ret (stopped (US_failed ("plane_fetch_failed: " +:+ exn_text e)), (f, Ok []))
    | Ok issues =>
        now <<- se_get (fun w => Ok (ue_now env (bw_calls w))) ;;
        let '(f, cooldown) := dispatch_cooldown_reason allowed_providers refresh f now in
        actions <<- se_lift (rules_now cooldown 0 now issues) ;;
        results <<- apply_board_actions (ue_client env) (ue_apply env) actions ;;
        se_ret ({| ur_status := US_ok; ur_results := results |},
                clear_orphaned_in_flight fetch_issue disk now f (ue_apply env) DEFAULT_WINDOW_HOURS)
    end.
End Runs.
