(* ===== verification/BoardRules.v ===== *)
(** * What the unblocking rules guarantee

    The rules of board_unblock.py never contradict each other, promote only
    what the gates let through, and leave no task that is due where it is. *)
From S2P Require Import Prelude PyStr PyData InFlight BoardIssues BoardTrace BoardClaim BoardUnblock.
From Stdlib Require Import Ascii.

Section Rules.
Context (now : datetime) (stale_blocked_hours stale_running_hours clean_blocked_min_minutes : Z)
        (mem : option Q) (fmt_2f : option Q -> string) (cooldown : option string) (cap : Z)
        (gated_repos : list string) (id_state : list (string * string)).
Context (issue : dict) (task_id : string) (labels : list string).

Abbreviation state := (state_name issue).
Abbreviation st := (in_state issue).
Abbreviation actions :=
  (issue_actions now stale_blocked_hours stale_running_hours clean_blocked_min_minutes mem fmt_2f cooldown cap
     gated_repos id_state issue task_id labels).
Abbreviation put_off := (deferred cooldown).
Abbreviation scarce := (low_mem mem).

Lemma st_state s : st s = true <-> lower state = s.
Proof. unfold in_state. by rewrite String.eqb_eq. Qed.

(** What an action of the task is about, whichever rule it comes from. *)
Definition about (a : board_action) : Prop := ba_task_id a = task_id /\ ba_from a = state.

Lemma about_mk rule to reason skipped add remove : about (mk_action issue task_id labels rule to reason skipped add remove).
Proof. done. Qed.

(** The states between which an action moves the task, and what held when it
    moves it into the queue. *)
Inductive sound (a : board_action) : Prop :=
  | snd_ready : st "ready for ai" = true -> ba_to a = "Backlog" -> sound a
  | snd_blocked : st "blocked" = true -> self_modify labels = false -> ba_to a = "Backlog" -> sound a
  | snd_approved : st "blocked" = true -> self_modify labels = true -> ba_to a = "Ready for AI" ->
      (ba_skipped a = false -> put_off = false /\ scarce = false /\
         uhas_label labels "blocked-reason: policy" = false /\ sigkill labels = false) -> sound a
  | snd_review : st "in review" = true -> ba_to a = "Backlog" -> sound a
  | snd_running : st "running" = true -> ba_to a = "Ready for AI" ->
      (ba_skipped a = false -> put_off = false) -> sound a
  | snd_backlog : st "backlog" = true -> ba_to a = "Ready for AI" ->
      (ba_skipped a = false -> put_off = false /\ scarce = false) -> sound a.

Abbreviation all_sound := (Forall (fun a => about a /\ sound a)).

(** A promotion is put off exactly when the backends cool down. *)
Lemma promote_cases rule x :
  promote cooldown issue task_id labels rule x = x /\ put_off = false \/
  ba_skipped (promote cooldown issue task_id labels rule x) = true /\ put_off = true /\
    ba_to (promote cooldown issue task_id labels rule x) = "Ready for AI" /\
    about (promote cooldown issue task_id labels rule x).
Proof.
  unfold promote, deferred. destruct cooldown as [r|]; [destruct (str_truthy r)|]; [by right | by left..].
Qed.

Lemma promote_sound rule x s (P : Prop) :
  ba_to x = "Ready for AI" -> about x -> P -> st s = true ->
  (forall a, ba_to a = "Ready for AI" -> (ba_skipped a = false -> put_off = false /\ P) -> st s = true -> sound a) ->
  all_sound [promote cooldown issue task_id labels rule x].
Proof.
  intros Hto Hx HP Hs Hk. constructor; [|constructor].
  destruct (promote_cases rule x) as [(E & Hd) | (Hsk & Hd & Ht & Ha)].
  - rewrite E. split; [done|]. by apply Hk.
  - split; [done|]. apply Hk; [done | congruence | done].
Qed.

Lemma if_sound (b : bool) l : (b = true -> all_sound l) -> all_sound (if b then l else []).
Proof. destruct b; [auto | constructor]. Qed.

Ltac split_guard := let H := fresh "H" in intros H; repeat (apply andb_true_iff in H as [H ?]).
Ltac one_sound := constructor; [|constructor]; split; [done|].

Lemma rule_cancel_cases :
  rule_cancel cap issue task_id labels = [] \/
  exists a, rule_cancel cap issue task_id labels = [a] /\ about a /\ is_terminal state = false /\
    ba_to a = "Cancelled" /\ ba_skipped a = false.
Proof.
  unfold rule_cancel. destruct (is_terminal state) eqn:E; [by left|]. cbv zeta.
  match goal with |- (if ?b then _ else _) = _ \/ _ => destruct b end; [right; by eexists | by left].
Qed.

Lemma rule_investigate_sound : all_sound (rule_investigate issue task_id labels).
Proof. apply if_sound. split_guard. one_sound. by apply snd_ready. Qed.

Lemma rule_gate_park_sound : all_sound (rule_gate_park gated_repos issue task_id labels).
Proof. apply if_sound. split_guard. one_sound. by apply snd_ready. Qed.

Lemma rule_improve_unblock_sound :
  all_sound (rule_improve_unblock now stale_blocked_hours id_state issue task_id labels).
Proof.
  unfold rule_improve_unblock. apply if_sound. split_guard. apply negb_true_iff in H0. cbv zeta.
  match goal with |- Forall _ (if ?b then _ else _) => destruct b end; [|apply if_sound; intros _];
    one_sound; by apply snd_blocked.
Qed.

Lemma rule_self_modify_sound : all_sound (rule_self_modify mem fmt_2f cooldown id_state issue task_id labels).
Proof.
  unfold rule_self_modify. cbv zeta. apply if_sound. split_guard.
  assert (Hskip : forall reason, all_sound [skip issue task_id labels "SELF_MODIFY_REQUEUE" "Ready for AI" reason]).
  { intros reason. one_sound. by apply snd_approved. }
  destruct (uhas_label labels "blocked-reason: policy") eqn:Hp; [apply Hskip|].
  destruct (sigkill labels) eqn:Hk; [apply Hskip|].
  match goal with |- Forall _ (if ?b then _ else _) => destruct b; [apply Hskip|] end.
  destruct scarce eqn:Hm; [apply Hskip|]. destruct put_off eqn:Hd; [apply Hskip|].
  destruct (blocker_task_id labels); [apply if_sound; intros _|]; one_sound; by apply snd_approved.
Qed.

Lemma rule_in_review_sound : all_sound (rule_in_review now stale_blocked_hours issue task_id labels).
Proof. apply if_sound. split_guard. one_sound. by apply snd_review. Qed.

Lemma rule_running_sound : all_sound (rule_running now stale_running_hours cooldown issue task_id labels).
Proof.
  unfold rule_running. cbv zeta. apply if_sound. split_guard.
  apply (promote_sound _ _ "running" True); try done. intros a Ht Hs Hr. apply snd_running; [done..|]. by intros [? _]%Hs.
Qed.

Lemma backlog_promote_sound rule x :
  st "backlog" = true -> scarce = false -> ba_to x = "Ready for AI" -> about x ->
  all_sound [promote cooldown issue task_id labels rule x].
Proof.
  intros Hs Hm Hto Hx. apply (promote_sound _ _ "backlog" (scarce = false)); try done. intros a ? ? ?. by apply snd_backlog.
Qed.

Lemma promotable_state : promotable_goal mem gated_repos issue labels = true -> st "backlog" = true /\ scarce = false.
Proof. unfold promotable_goal. split_guard. split; [done|]. by apply negb_true_iff. Qed.

Lemma rule_gate_requeue_sound : all_sound (rule_gate_requeue mem cooldown gated_repos issue task_id labels).
Proof.
  unfold rule_gate_requeue. cbv zeta. apply if_sound. intros [[? ?]%promotable_state _]%andb_true_iff.
  by apply backlog_promote_sound.
Qed.

Lemma rules_after_gate_sound :
  all_sound (rules_after_gate now clean_blocked_min_minutes mem cooldown gated_repos id_state issue task_id labels).
Proof.
  unfold rules_after_gate. repeat (apply Forall_app; split).
  - unfold rule_backlog_promote. cbv zeta. apply if_sound.
    intros [[[[? ?]%promotable_state _]%andb_true_iff _]%andb_true_iff _]%andb_true_iff. by apply backlog_promote_sound.
  - unfold rule_clean_blocked, untouched. apply if_sound. split_guard. one_sound.
    apply snd_blocked; [done | by apply negb_true_iff | done].
  - unfold rule_capacity_park, untouched. apply if_sound. split_guard. one_sound.
    apply snd_blocked; [done | by apply negb_true_iff | done].
  - unfold rule_spec_author. cbv zeta. apply if_sound. split_guard.
    apply backlog_promote_sound; [done | by apply negb_true_iff | done..].
  - unfold rule_spec_campaign. cbv zeta. apply if_sound. split_guard.
    apply backlog_promote_sound; [done | by apply negb_true_iff | done..].
Qed.

Lemma first_of_Forall (P : board_action -> Prop) rules rest :
  Forall (Forall P) rules -> Forall P rest -> Forall P (first_of rules rest).
Proof. induction 1 as [|r rs Hr _ IH]; intros Hrest; cbn; [done|]. destruct r; [by apply IH | done]. Qed.

Lemma actions_cases :
  (exists a, actions = [a] /\ about a /\ is_terminal state = false /\ ba_to a = "Cancelled" /\ ba_skipped a = false) \/
  all_sound actions.
Proof.
  unfold issue_actions. destruct rule_cancel_cases as [-> | (a & -> & Ha)]; [right | left; by exists a].
  apply (first_of_Forall _ [_; _; _]).
  { repeat constructor; [apply rule_investigate_sound | apply rule_gate_park_sound | apply rule_improve_unblock_sound]. }
  repeat (apply Forall_app; split); [apply rule_self_modify_sound | apply rule_in_review_sound | apply rule_running_sound|].
  pose proof rule_gate_requeue_sound as Hg. destruct (rule_gate_requeue _ _ _ _ _ _) as [|x l]; [apply rules_after_gate_sound|].
  destruct put_off; [apply Forall_app; split; [done | apply rules_after_gate_sound] | done].
Qed.

(** The next state of a task that is not cancelled. *)
Definition next_state : string :=
  if String.eqb (lower state) "blocked" then if self_modify labels then "Ready for AI" else "Backlog"
  else if str_in (lower state) ["running"; "backlog"] then "Ready for AI" else "Backlog".

Lemma sound_next a : sound a -> ba_to a = next_state.
Proof.
  unfold next_state.
  intros [Ha ->|Ha Sa ->|Ha Sa -> _|Ha ->|Ha -> _|Ha -> _]; apply st_state in Ha; rewrite Ha, ?Sa; reflexivity.
Qed.

Lemma sound_agree a b : sound a -> sound b -> ba_to a = ba_to b.
Proof. by intros ->%sound_next ->%sound_next. Qed.

Lemma sound_moves a : sound a -> is_terminal state = false /\ lower (ba_to a) <> lower state.
Proof.
  intros [Ha Ta|Ha Sa Ta|Ha Sa Ta _|Ha Ta|Ha Ta _|Ha Ta _]; apply st_state in Ha; unfold is_terminal; rewrite Ta, Ha; split; vm_compute; congruence.
Qed.

Lemma unblock_facts a :
  a ∈ actions ->
  ba_task_id a = task_id /\ ba_to a ∈ ["Cancelled"; "Backlog"; "Ready for AI"; "Done"] /\ lower (ba_to a) <> lower state.
Proof.
  intros Hin. destruct actions_cases as [(c & Hc & [H1 H2] & Hterm & Hto & _) | Hs].
  - rewrite Hc in Hin. apply list_elem_of_singleton in Hin as ->. rewrite Hto. split; [done|]. split; [set_solver|].
    intros Heq. revert Hterm. unfold is_terminal. by rewrite <-Heq.
  - rewrite Forall_forall in Hs. destruct (Hs _ Hin) as [[H1 H2] Ha]. split; [done|]. split; [|by apply sound_moves].
    destruct Ha as [Hst ->|Hst Sa ->|Hst Sa -> _|Hst ->|Hst -> _|Hst -> _]; set_solver.
Qed.

(** C35: whatever the labels and the state of a task, the actions of the rules
    for it agree on one next state, which differs from its state, and none is
    for a task that has ended; an action that is carried out puts the task into
    the queue only if the backends are not cooling down, and, except for a task
    that was left running, only with memory for it.  From Blocked straight into
    the queue it puts a task only with the operator's approval, and never after
    a policy block or a kill; by way of the Backlog a stale blocked task goes
    back also after a policy block (see [UnblockScenarios]). *)
Theorem unblock_actions_agree a :
  a ∈ actions ->
  ba_task_id a = task_id /\ ba_from a = state /\ is_terminal state = false /\ lower (ba_to a) <> lower state /\
  (forall b, b ∈ actions -> ba_to b = ba_to a) /\
  (ba_to a = "Ready for AI" -> ba_skipped a = false ->
     put_off = false /\ (scarce = false \/ lower state = "running") /\
     (lower state = "blocked" ->
        self_modify labels = true /\ uhas_label labels "blocked-reason: policy" = false /\ sigkill labels = false)).
Proof.
  intros Hin. destruct actions_cases as [(c & Hc & [H1 H2] & Hterm & Hto & _) | Hs].
  - rewrite Hc in *. apply list_elem_of_singleton in Hin as ->. do 3 (split; [done|]). split.
    { rewrite Hto. intros Heq. revert Hterm. unfold is_terminal. by rewrite <-Heq. }
    split; [|by rewrite Hto]. by intros b ->%list_elem_of_singleton.
  - rewrite Forall_forall in Hs. destruct (Hs _ Hin) as [[H1 H2] Ha]. apply sound_moves in Ha as Hm. destruct Hm as [Hm1 Hm2].
    do 4 (split; [done|]). split.
    { intros b Hb. apply sound_agree; [by apply Hs | done]. }
    intros Hto Hsk.
    destruct Ha as [Hst Ta|Hst Sa Ta|Hst Sa Ta Hk|Hst Ta|Hst Ta Hk|Hst Ta Hk]; rewrite Ta in Hto; try discriminate Hto;
      apply st_state in Hst; rewrite Hst.
    + destruct (Hk Hsk) as (? & ? & ? & ?). split_and!; auto.
    + split_and!; [by apply Hk | by right | discriminate].
    + destruct (Hk Hsk). split_and!; [done | by left | discriminate].
Qed.
End Rules.

(** ** No task stays stuck *)

(** Blocked work without an approval of the operator, a review without a pull
    request, or a run, that is older than its limit. *)
Definition due (now : datetime) (stale_blocked_hours stale_running_hours : Z) (issue : dict) : bool :=
  let labels := ulabels issue in
  in_state issue "blocked" && (has_kind labels "improve" || has_kind labels "goal") && negb (self_modify labels) &&
    older now issue (hours stale_blocked_hours)
  || in_state issue "in review" && negb (uhas_prefix labels "pr-url:") && older now issue (hours stale_blocked_hours)
  || in_state issue "running" && older now issue (hours stale_running_hours).

(** A list that is empty or has an action to carry out. *)
Definition active (l : list board_action) : Prop := l = [] \/ exists a, a ∈ l /\ ba_skipped a = false.

Lemma active_nil : active [].
Proof. by left. Qed.

Lemma active_one a : ba_skipped a = false -> active [a].
Proof. right. exists a. split; [constructor | done]. Qed.

Lemma active_if (b : bool) l : active l -> active (if b then l else []).
Proof. destruct b; [done | by left]. Qed.

Lemma first_of_active rules rest :
  Forall active rules -> (Forall (fun r => r = []) rules -> exists a, a ∈ rest /\ ba_skipped a = false) ->
  exists a, a ∈ first_of rules rest /\ ba_skipped a = false.
Proof.
  induction 1 as [|r rs Hr _ IH]; intros Hrest; cbn; [by apply Hrest|].
  destruct r as [|x l]; [apply IH; intros Hn; apply Hrest; by constructor|]. by destruct Hr.
Qed.

Section Due.
Context (now : datetime) (stale_blocked_hours stale_running_hours clean_blocked_min_minutes : Z)
        (mem : option Q) (fmt_2f : option Q -> string) (cap : Z)
        (gated_repos : list string) (id_state : list (string * string)) (issue : dict) (task_id : string).

Abbreviation labels := (ulabels issue).

Lemma due_acts :
  due now stale_blocked_hours stale_running_hours issue = true ->
  exists a, a ∈ issue_actions now stale_blocked_hours stale_running_hours clean_blocked_min_minutes mem fmt_2f None cap
                  gated_repos id_state issue task_id labels /\ ba_skipped a = false.
Proof.
  intros Hdue. unfold issue_actions. apply first_of_active.
  { repeat apply Forall_cons_2; [| | | |apply Forall_nil_2].
    - unfold rule_cancel. destruct (is_terminal _); [apply active_nil|]. cbv zeta. by apply active_if, active_one.
    - by apply active_if, active_one.
    - by apply active_if, active_one.
    - unfold rule_improve_unblock. apply active_if. cbv zeta.
      match goal with |- active (if ?b then _ else _) => destruct b end; [|apply active_if]; by apply active_one. }
  intros Hnone. apply Forall_cons in Hnone as [_ Hnone]. apply Forall_cons in Hnone as [_ Hnone].
  apply Forall_cons in Hnone as [_ Hnone]. apply Forall_cons in Hnone as [Himprove _].
  unfold due in Hdue. cbv zeta in Hdue. apply orb_true_iff in Hdue as [Hdue|Hrun]; [apply orb_true_iff in Hdue as [Hb|Hr]|].
  - apply andb_true_iff in Hb as [Hb Hold]. unfold rule_improve_unblock in Himprove. rewrite Hb, Hold in Himprove.
    cbv zeta in Himprove. by destruct (_ && _) in Himprove.
  - eexists. split; [|shelve]. apply elem_of_app; right. apply elem_of_app; left. unfold rule_in_review. rewrite Hr.
    constructor. Unshelve. done.
  - eexists. split; [|shelve]. apply elem_of_app; right. apply elem_of_app; right. apply elem_of_app; left.
    unfold rule_running. cbv zeta. rewrite Hrun. constructor. Unshelve. done.
Qed.
End Due.

(** Every action that is carried out asks for its transition. *)
Lemma apply_action_asks client a w :
  ba_skipped a = false ->
  exists cs, bw_calls (fst (apply_action client true a w)) = bw_calls w ++ cs /\
    BC_transition (ba_task_id a) (ba_to a) ∈ cs.
Proof.
  intros Hs. unfold apply_action. rewrite Hs. cbn [negb]. unfold se_try. unfold se_bind at 1. unfold transition_issue at 1, ask at 1.
  destruct (bcl_write client _) as [u|e]; [|exists [BC_transition (ba_task_id a) (ba_to a)]; split; [done | constructor]].
  match goal with |- context [let (_, _) := ?m ?w1 in _] => set (rest := m); set (w2 := w1) end.
  assert (Hrest : asks (fun _ => True) rest).
  { unfold rest. apply asks_bind; [|intros ?; apply asks_bind; [by apply asks_ask | intros; apply asks_ret]].
    match goal with |- asks _ (if ?b then _ else _) => destruct b end; [by apply asks_ask | apply asks_ret]. }
  destruct (Hrest w2) as (cs & Hcs & _). exists (BC_transition (ba_task_id a) (ba_to a) :: cs).
  split; [|constructor]. destruct (rest w2) as [w3 [o|e]]; cbn [fst se_ret] in *; rewrite Hcs; unfold w2;
    cbn [asked bw_calls]; by rewrite <-app_assoc.
Qed.

Lemma apply_action_total client apply a : total (apply_action client apply a).
Proof.
  unfold apply_action. destruct (ba_skipped a); [apply total_ret|]. destruct (negb apply); [apply total_ret|].
  apply total_try. intros e. apply total_ret.
Qed.

Lemma apply_action_extends client apply a : asks (fun _ => True) (apply_action client apply a).
Proof.
  unfold apply_action, transition_issue, comment_issue. repeat (asks_step || done).
Qed.

Lemma apply_actions_asks client actions a w :
  a ∈ actions -> ba_skipped a = false ->
  BC_transition (ba_task_id a) (ba_to a) ∈ bw_calls (fst (apply_board_actions client true actions w)).
Proof.
  intros Hin Hs. revert w. induction actions as [|b rest IH]; intros w; [by apply elem_of_nil in Hin|].
  cbn [apply_board_actions]. unfold se_bind.
  destruct (apply_action_total client true b w) as [o Ho].
  assert (Hext : forall w1, exists cs, bw_calls (fst (apply_board_actions client true rest w1)) = bw_calls w1 ++ cs).
  { clear. induction rest as [|x rest IH]; intros w1; cbn [apply_board_actions]; [exists []; by rewrite app_nil_r|].
    unfold se_bind. destruct (apply_action_extends client true x w1) as (c1 & H1 & _).
    destruct (apply_action_total client true x w1) as [o Ho]. destruct (apply_action client true x w1) as [w2 r].
    cbn in Ho, H1. subst r. destruct (IH w2) as [c2 H2]. destruct (apply_board_actions client true rest w2) as [w3 [?|?]];
      cbn [fst se_ret] in *; exists (c1 ++ c2); by rewrite H2, H1, app_assoc. }
  apply elem_of_cons in Hin as [->|Hin].
  - destruct (apply_action_asks client b w Hs) as (cs & Hcs & Ht). destruct (apply_action client true b w) as [w1 r].
    cbn in Ho, Hcs. subst r. destruct (Hext w1) as [c2 H2].
    destruct (apply_board_actions client true rest w1) as [w2 [?|?]]; cbn [fst se_ret] in *; rewrite H2, Hcs;
      apply elem_of_app; left; apply elem_of_app; by right.
  - destruct (apply_action client true b w) as [w1 r]. cbn in Ho. subst r. specialize (IH Hin w1).
    by destruct (apply_board_actions client true rest w1) as [w2 [?|?]].
Qed.

Definition has_id (issue : dict) : Prop := is_Some (issue !! "id").

Lemma has_id_ok issue : has_id issue -> exists id, issue_id issue = Ok id.
Proof. intros [v Hv]. unfold issue_id, ditem. rewrite Hv. by eexists. Qed.

Lemma build_id_state_ok issues m :
  Forall has_id issues ->
  exists m', foldM (fun m issue => i <-? issue_id issue ;; Ok (od_set i (state_name issue) m)) m issues = Ok m'.
Proof.
  intros H. revert m. induction H as [|i issues [id Hid]%has_id_ok _ IH]; intros m; cbn [foldM]; [by exists m|].
  rewrite Hid. cbn. apply IH.
Qed.

Lemma apply_rules_in now sb sr cm mem fmt cooldown cap gated issues issue id :
  Forall has_id issues -> issue ∈ issues -> issue_id issue = Ok id ->
  exists id_state actions,
    apply_rules now sb sr cm mem fmt cooldown cap gated issues = Ok actions /\
    forall a, a ∈ issue_actions now sb sr cm mem fmt cooldown cap gated id_state issue id (ulabels issue) -> a ∈ actions.
Proof.
  intros Hids Hin Hid. unfold apply_rules, build_id_state_map. destruct (build_id_state_ok issues [] Hids) as [m ->]. cbn.
  exists m. induction Hids as [|i issues Hi Hids IH]; [by apply elem_of_nil in Hin|]. cbn [all_actions].
  unfold actions_of at 1. destruct (has_id_ok _ Hi) as [id' Hid']. rewrite Hid'. cbn.
  assert (Hrest : exists more, all_actions now sb sr cm mem fmt cooldown cap gated m issues = Ok more).
  { clear IH Hin. induction Hids as [|j issues [jd Hj]%has_id_ok _ [more Hmore]]; [by exists []|]. cbn [all_actions].
    unfold actions_of. rewrite Hj. cbn. rewrite Hmore. by eexists. }
  apply elem_of_cons in Hin as [->|Hin].
  - rewrite Hid in Hid'. injection Hid' as <-. destruct Hrest as [more ->]. eexists. split; [done|].
    intros a Ha. apply elem_of_app. by left.
  - destruct (IH Hin) as (acts & -> & Hsub). eexists. split; [done|]. intros a Ha. apply elem_of_app. right. by apply Hsub.
Qed.

Lemma reconcile_ok settings find_pr issues :
  Forall has_id issues ->
  exists l, reconcile_merged_pr_tasks settings find_pr issues = Ok l /\
    Forall (fun a => ba_to a = "Done" /\ ba_skipped a = false) l.
Proof.
  induction 1 as [|i issues Hi _ (l & Hl & Hf)]; cbn [reconcile_merged_pr_tasks]; [by exists []|].
  unfold reconcile_issue. destruct (has_id_ok _ Hi) as [id Hid]. rewrite Hid, Hl. destruct (negb _); cbn; [by exists l|].
  eexists. split; [done|]. apply Forall_app. split; [|done].
  destruct (repo_key_after_colon _ ≫= _); [destruct (merged_head _ _ _) as [[? ?]|]|]; by repeat constructor.
Qed.

(** a run of the unblocking task that has memory, finds its owner and may
    write asks the board to move every task that is due: blocked goal and
    improve tasks that no operator approved, reviews without a pull request and
    running tasks, whenever they are older than their limits; with the answers
    the board, the host of the pull requests and the clock may give, whatever
    labels the tasks carry and whichever writes fail. *)
Theorem due_tasks_are_moved settings env issue id issues w w' r :
  memory_exhausted env = false -> ue_owner_ok env = true -> ue_apply env = true ->
  bcl_list (ue_client env) (bw_calls w ++ [BC_list]) = Ok issues -> Forall has_id issues ->
  issue ∈ issues -> issue_id issue = Ok id ->
  due (ue_now env (bw_calls w ++ [BC_list])) (ue_stale_blocked_hours env) (ue_stale_running_hours env) issue = true ->
  run_once settings env w = (w', r) ->
  exists to, BC_transition id to ∈ bw_calls w' /\ to ∈ ["Cancelled"; "Backlog"; "Ready for AI"; "Done"] /\
    lower to <> lower (state_name issue).
Proof.
  intros Hmem Hown Happly Hlist Hids Hin Hid Hdue. unfold run_once. rewrite Hmem, Hown. cbn [negb].
  unfold se_bind at 1. unfold se_try at 1. unfold se_bind at 1. unfold list_issues, ask. cbn [asked bw_calls].
  rewrite Hlist. cbn [se_ret]. unfold se_bind at 1. unfold se_get at 1. cbn [bw_calls]. cbv zeta.
  set (now := ue_now env _) in *. unfold se_bind at 1. unfold se_lift at 1.
  assert (exists rec, (match ue_find_pr env with
            | Some find_pr => reconcile_merged_pr_tasks settings find_pr issues | None => Ok [] end) = Ok rec /\
            Forall (fun a => ba_to a = "Done" /\ ba_skipped a = false) rec) as (rec & -> & Hrec).
  { destruct (ue_find_pr env); [by apply reconcile_ok | by exists []]. }
  unfold se_bind at 1. unfold se_lift at 1. unfold rules_now.
  match goal with |- context [apply_rules ?n ?sb ?sr ?cm ?m ?f ?c ?cap ?g issues] =>
    destruct (apply_rules_in n sb sr cm m f c cap g issues issue id Hids Hin Hid) as (ids & acts & -> & Hsub) end.
  unfold se_bind. rewrite Happly. set (all := rec ++ _).
  match goal with |- context [apply_board_actions _ true all ?x] => set (w0 := x) end.
  intros H. assert (Hw : bw_calls w' = bw_calls (fst (apply_board_actions (ue_client env) true all w0))).
  { destruct (apply_board_actions _ true all w0) as [w1 [?|?]]; by injection H as <- _. }
  rewrite Hw. clear H Hw.
  assert (Hlow : in_state issue "blocked" = true \/ in_state issue "in review" = true \/ in_state issue "running" = true).
  { unfold due in Hdue. destruct (in_state issue "blocked"), (in_state issue "in review"), (in_state issue "running"); auto. }
  destruct (str_in id (map ba_task_id rec)) eqn:Hr.
  - apply str_in_spec, list_elem_of_fmap in Hr as (a & -> & Ha). pose proof (proj1 (Forall_forall _ _) Hrec _ Ha) as [Hto Hs].
    exists "Done". split; [rewrite <-Hto; apply apply_actions_asks; [apply elem_of_app; by left | done]|].
    split; [set_solver|]. destruct Hlow as [Hl|[Hl|Hl]]; apply st_state in Hl; rewrite Hl; done.
  - edestruct (due_acts now (ue_stale_blocked_hours env) (ue_stale_running_hours env)) as (a & Ha & Hs); [exact Hdue|].
    apply unblock_facts in Ha as Hf. destruct Hf as (Hi & Hto & Hne).
    exists (ba_to a). split.
    + rewrite <-Hi. apply apply_actions_asks; [|done]. apply elem_of_app. right. apply elem_of_filter_bool.
      split; [by apply Hsub|]. by rewrite Hi, Hr.
    + done.
Qed.

(** ** Boards *)

Module UnblockScenarios.
Import QueueScenarios.

Definition later : datetime := add_us noon (hours 5).
(** A run five hours after the tasks were last touched, with memory. *)
Definition env (apply : bool) (issues prs : list dict) : unblock_env :=
  {| ue_client := board issues prs; ue_now := fun _ => later; ue_mem := Some (16 # 1)%Q; ue_fmt_2f := fun _ => "16.00";
     ue_owner_ok := true; ue_list_prs := fun _ => Ok (Some prs); ue_find_pr := Some (fun _ _ => Ok None);
     ue_apply := apply; ue_stale_blocked_hours := 4; ue_stale_running_hours := 2; ue_clean_blocked_min_minutes := 5 |}.
Definition moves (r : board_world * res unblock_result) : res (list (string * string * string)) :=
  o <-? snd r ;;
  Ok (omap (fun x => match snd x with
                     | AO_applied => Some (ba_task_id (fst x), ba_rule (fst x), ba_to (fst x))
                     | _ => None
                     end) (ur_results o)).
Definition run (issues prs : list dict) : board_world * res unblock_result :=
  run_once settings (env true issues prs) world0.

(** A goal that a policy gate blocked is recycled once it is old, and loses the
    mark of the gate. *)
Example policy_block_is_recycled :
  let i := issue "a" "Blocked" "none" "alice" (goal_labels ++ ["blocked-reason: policy"]) in
  moves (run [i] []) = Ok [("a", "IMPROVE_UNBLOCK", "Backlog")] /\
  BC_labels "a" goal_labels ∈ bw_calls (fst (run [i] [])).
Proof. split; vm_compute; [reflexivity|]. do 2 constructor 2. constructor. Qed.

(** An implementation task of a campaign, parked behind a pull request, is put
    back into the queue by the next run while the pull request is open. *)
Definition campaign_labels : list string := goal_labels ++ ["source: spec-campaign"].
Definition campaign_task (state : string) (labels : list string) : dict :=
  <["description" := JStr "task_phase: implement"]> (issue "c" state "none" "alice" labels).
Definition open_pr : dict := <["updated_at" := JTime later]> (pr "goal/1" "CLEAN").
Example parked_campaign_task_returns :
  moves (run [campaign_task "Ready for AI" campaign_labels] [open_pr]) = Ok [("c", "OPEN_PR_GATE_PARK", "Backlog")] /\
  moves (run [campaign_task "Backlog" (campaign_labels ++ ["OPEN_PR_GATE"])] [open_pr]) =
    Ok [("c", "SPEC_CAMPAIGN_BACKLOG_PROMOTE", "Ready for AI")].
Proof. vm_compute. split; reflexivity. Qed.

(** A spec-author task with every mark of a blocked retry is promoted. *)
Example killed_spec_author_is_promoted :
  moves (run [issue "s" "Backlog" "none" "alice"
                ["task-kind: spec-author"; "executor-signal: SIGKILL"; "blocked-reason: backend-capacity"]] []) =
  Ok [("s", "SPEC_AUTHOR_BACKLOG_PROMOTE", "Ready for AI")].
Proof. vm_compute. reflexivity. Qed.

(** Two rules promote one task: the second transition repeats the first. *)
Example task_is_promoted_twice :
  let labels := campaign_labels ++ ["source: autonomy"; "source: improve-suggestion"; "original-task-id: p"] in
  moves (run [campaign_task "Backlog" labels; issue "p" "Done" "none" "alice" []] []) =
  Ok [("c", "GOAL_BACKLOG_PROMOTE", "Ready for AI"); ("c", "SPEC_CAMPAIGN_BACKLOG_PROMOTE", "Ready for AI")].
Proof. vm_compute. reflexivity. Qed.

(** The cap on clean code failures holds for the task and not for the command
    line. *)
Definition failing : dict := issue "f" "Blocked" "none" "alice" (goal_labels ++ ["code-fail-count: 3"]).
Definition cli (issues : list dict) : res (list (string * string * string)) :=
  moves (let '(w, r) := cli_main settings (env true issues []) "" None (fun _ _ => FetchStatus 404) (fun _ => None)
                          None world0 in (w, p <-? r ;; Ok (fst p))).
Example command_line_has_no_cap :
  moves (run [failing] []) = Ok [("f", "DEAD_REMEDIATION_CANCEL", "Cancelled")] /\
  cli [failing] = Ok [("f", "IMPROVE_UNBLOCK", "Backlog")].
Proof. vm_compute. split; reflexivity. Qed.
End UnblockScenarios.

Lemma unblock_actions_agree_witness :
  exists a, a ∈ issue_actions UnblockScenarios.later 4 2 5 (Some (16 # 1)%Q) (fun _ => "") None 3 [] []
              UnblockScenarios.failing "f" (ulabels UnblockScenarios.failing) /\
    ba_to a = "Cancelled" /\ is_terminal (state_name UnblockScenarios.failing) = false.
Proof.
  eexists. assert (Hin : _ ∈ issue_actions UnblockScenarios.later 4 2 5 (Some (16 # 1)%Q) (fun _ => "") None 3 [] []
    UnblockScenarios.failing "f" (ulabels UnblockScenarios.failing)) by (vm_compute; constructor).
  split; [exact Hin|]. split; [reflexivity|].
  exact (proj1 (proj2 (proj2 (unblock_actions_agree _ _ _ _ _ _ _ _ _ _ _ _ _ _ Hin)))).
Defined.

Lemma due_tasks_are_moved_witness :
  exists to, BC_transition "a" to ∈ bw_calls (fst (UnblockScenarios.run
    [QueueScenarios.issue "a" "Running" "none" "alice" QueueScenarios.goal_labels] [])).
Proof.
  set (i := QueueScenarios.issue "a" "Running" "none" "alice" QueueScenarios.goal_labels).
  destruct (UnblockScenarios.run [i] []) as [w r] eqn:E.
  destruct (due_tasks_are_moved QueueScenarios.settings (UnblockScenarios.env true [i] []) i "a" [i]
    QueueScenarios.world0 w r) as (to & Hto & _); try reflexivity.
  - constructor; [|constructor]. eexists. vm_compute. reflexivity.
  - constructor.
  - exact E.
  - exists to. exact Hto.
Defined.
