(* ===== verification/TaskParser.v ===== *)
(** * The body of a task

    application/task_parser.py: the sections of a description, the metadata of
    its execution section, and the goal.  [yaml.safe_load] is an argument; its
    mapping has textual keys. *)
From S2P Require Import Prelude PyStr PyData TextLines BoardIssues.
From Stdlib Require Import Ascii.

Record ParsedTaskBody := {
  pt_execution_metadata : dict;
  pt_goal_text : string;
  pt_constraints_text : option string }.

Definition SUPPORTED_MODES : list string := ["goal"; "fix_pr"; "test_campaign"; "improve_campaign"].
Definition CAMPAIGN_PASSTHROUGH_FIELDS : list string :=
  ["spec_campaign_id"; "spec_file"; "task_phase"; "spec_coverage_hint"].
Definition MODE_ALIASES (mode : string) : string :=
  default mode (od_get mode [("test", "test_campaign"); ("improve", "improve_campaign")]).

Fixpoint repo_from_labels (labels : list string) : option string :=
  match labels with
  | [] => None
  | label :: rest =>
      if startswith (lower label) "repo:" then
        let value := strip (after_char ":"%char label) in
        if str_truthy value then Some value else repo_from_labels rest
      else repo_from_labels rest
  end.

Definition newline_char : ascii := ascii_of_nat 10.
Definition not_newline (c : ascii) : bool := negb (Ascii.eqb c newline_char).

(** [^##\s+(.+?)\s*$] at the start of a line: the stripped title and the text
    after its line (the spaces that the pattern takes from there are stripped
    by all who read the section).  The marker may stand on a line of its own; a
    text that ends after it has an empty title when a space is left for it. *)
Definition header_at (s : string) : option (string * string) :=
  if startswith s "##" then
    let spaces := take_while is_space (str_drop 2 s) in
    let body := drop_while is_space (str_drop 2 s) in
    match spaces with
    | EmptyString => None
    | String _ more =>
        if str_truthy body
        then Some (rstrip (take_while not_newline body), drop_while not_newline body)
        else if str_truthy (drop_while (Ascii.eqb newline_char) more) then Some ("", "") else None
    end
  else None.

(** The text before the first header, and the titles with their texts; every
    step but the last consumes a character. *)
Fixpoint sections_aux (fuel : nat) (line_start : bool) (s : string) : string * list (string * string) :=
  match fuel with
  | O => ("", [])
  | S fuel =>
      match (if line_start then header_at s else None), s with
      | Some (title, rest), _ =>
          let '(body, more) := sections_aux fuel false rest in ("", (title, body) :: more)
      | None, String c rest =>
          let '(before, more) := sections_aux fuel (Ascii.eqb c newline_char) rest in (String c before, more)
      | None, EmptyString => ("", [])
      end
  end.

(** Titles in lower case; a later section of the same title wins. *)
Definition extract_sections (description : string) : list (string * string) :=
  foldl (fun acc s => od_set (lower (fst s)) (snd s) acc) []
    (snd (sections_aux (S (String.length description)) true description)).
Definition section_text (sections : list (string * string)) (title : string) : string :=
  strip (default "" (od_get title sections)).

(** ** A goal without its own section *)

(** [##\s+Execution\s*\n] in any case: what follows it. *)
Definition execution_header (s : string) : option string :=
  if startswith s "##" then
    let r := str_drop 2 s in
    let r' := drop_while is_space r in
    if str_truthy (take_while is_space r) && startswith (lower r') "execution" then
      let spaces := take_while is_space (str_drop 9 r') in
      let rest := drop_while is_space (str_drop 9 r') in
      if has_char newline_char spaces
      then Some (String.rev (take_while not_newline (String.rev spaces)) +:+ rest)
      else None
    else None
  else None.

(** The first such header: what precedes and what follows it. *)
Fixpoint split_execution (s : string) : option (string * string) :=
  match execution_header s with
  | Some rest => Some ("", rest)
  | None => match s with
            | String c r => match split_execution r with Some (before, rest) => Some (String c before, rest) | None => None end
            | EmptyString => None
            end
  end.

(** From the first line on that starts with a header's marker. *)
Fixpoint from_header (line_start : bool) (s : string) : option string :=
  if line_start && startswith s "##" && str_truthy (take_while is_space (str_drop 2 s)) then Some s
  else match s with String c r => from_header (Ascii.eqb c newline_char) r | EmptyString => None end.

Definition fallback_goal (description : string) (has_execution : bool) : string :=
  let text := strip description in
  strip (if has_execution && str_truthy text then
           match split_execution text with
           | Some (before, remaining) =>
               match from_header true remaining with
               | Some next => strip before +:+ nl +:+ strip next
               | None => strip before
               end
           | None => text
           end
         else text).

(** ** The parser *)

(** [for path in allowed_paths]. *)
Definition path_items (v : jval) : res (list jval) :=
  match v with
  | JStr _ | JTime _ => Ok [v]
  | JList l => Ok l
  | JObj l => Ok (map (fun kv => JStr (fst kv)) l)
  | _ => Raise (TypeError "object is not iterable")
  end.

Definition normalize_metadata (metadata : dict) : res dict :=
  raw <-? ditem metadata "mode" ;;
  let mode := MODE_ALIASES (lower (strip (jtext raw))) in
  if negb (str_in mode SUPPORTED_MODES)
  then Raise (ValueError ("Unsupported execution mode '" +:+ jtext raw +:+ "'. Supported: " +:+ repr_list (sorted_set SUPPORTED_MODES)))
  else
    paths <-? path_items (default (JList []) (metadata !! "allowed_paths")) ;;
    let data := <["mode" := JStr mode]> metadata in
    let data := <["allowed_paths" := JList (map JStr (List.filter str_truthy (map (fun p => strip (jtext p)) paths)))]> data in
    let data := <["open_pr" := JBool (jtruthy (default (JBool false) (metadata !! "open_pr")))]> data in
    Ok (foldl (fun d field => match d !! field with Some v => <[field := JStr (strip (jtext v))]> d | None => d end)
          data CAMPAIGN_PASSTHROUGH_FIELDS).

Definition set_missing (k : string) (v : jval) (d : dict) : dict := match d !! k with Some _ => d | None => <[k := v]> d end.

Section Parser.
Context (yaml : string -> res jval).

Definition execution_metadata (execution_raw : string) (label_repo : option string) : res dict :=
  if str_truthy execution_raw then
    v <-? yaml execution_raw ;;
    match jor v (JObj []) with
    | JObj l =>
        let d : dict := list_to_map l in
        Ok (match label_repo with Some r => set_missing "repo" (JStr r) d | None => d end)
    | _ => Raise (ValueError "Execution section must be valid key/value YAML")
    end
  else match label_repo with
  | Some r => Ok {["repo" := JStr r]}
  | None => Raise (ValueError "Missing '## Execution' section and no 'repo: <key>' label found on the task")
  end.

Definition parse_task (description : string) (labels : list string) : res ParsedTaskBody :=
  let sections := extract_sections description in
  let execution_raw := section_text sections "execution" in
  metadata <-? execution_metadata execution_raw (repo_from_labels labels) ;;
  let metadata := set_missing "mode" (JStr "goal") metadata in
  match metadata !! "repo" with
  | None => Raise (ValueError "Missing execution metadata fields: repo")
  | Some _ =>
      let metadata := set_missing "base_branch" (JStr "") metadata in
      let section_goal := section_text sections "goal" in
      let goal_text := if str_truthy section_goal then section_goal
                       else fallback_goal description (str_truthy execution_raw) in
      if negb (str_truthy goal_text)
      then Raise (ValueError "Missing goal text. Add a '## Goal' section or write the goal as the task description.")
      else
        let constraints := section_text sections "constraints" in
        normalized <-? normalize_metadata metadata ;;
        Ok {| pt_execution_metadata := normalized; pt_goal_text := goal_text;
              pt_constraints_text := if str_truthy constraints then Some constraints else None |}
  end.
End Parser.

Example sections_example :
  extract_sections ("intro" +:+ nl +:+ "## Execution " +:+ nl +:+ "repo: x" +:+ nl +:+ nl +:+ "##" +:+ nl +:+ "Goal" +:+ nl +:+ "go") =
    [("execution", nl +:+ "repo: x" +:+ nl +:+ nl); ("goal", nl +:+ "go")] /\
  fallback_goal ("do it" +:+ nl +:+ "## execution" +:+ nl +:+ "repo: x" +:+ nl +:+ "## More" +:+ nl +:+ "text") true =
    "do it" +:+ nl +:+ "## More" +:+ nl +:+ "text".
Proof. vm_compute. done. Qed.
