(* ===== verification/Verdict.v ===== *)
(** * The verdict on a pull request

    entrypoints/pr_review_watcher/verdict.py: the reviewer fills in a list of
    checks, and code computes from it whether the pull request may be merged;
    a council of reviewers must agree. *)
From S2P Require Import Prelude PyStr PyData TextLines.
From Stdlib Require Import Ascii.

Definition PASS : string := "pass".
Definition FAIL : string := "fail".
Definition VALID_STATUS : list string := ["pass"; "fail"; "n/a"].
Definition LGTM : string := "LGTM".
Definition CONCERNS : string := "CONCERNS".

Record ReviewCheck := {
  rc_check_id : string;
  rc_prompt : string;
  rc_optional : bool }.

Definition REVIEW_CHECKS : list ReviewCheck :=
  [{| rc_check_id := "spec_compliance";
      rc_prompt := "If a campaign spec is provided, the diff implements EXACTLY what it " +:+
                   "requires (filenames, member names, member count, exports, tests, " +:+ "version bumps).";
      rc_optional := true |};
   {| rc_check_id := "custodian_findings";
      rc_prompt := "If Custodian findings are listed, each is resolved by the diff.";
      rc_optional := true |};
   {| rc_check_id := "code_quality";
      rc_prompt := "Standard code quality: correctness, style, no potential bugs.";
      rc_optional := false |};
   {| rc_check_id := "no_tooling_artifacts";
      rc_prompt := "No tooling artifacts (.baseline-validation.json, run-status.md, etc.) in the diff.";
      rc_optional := false |}].

Definition check_ids (optional : bool) : list string :=
  map rc_check_id (List.filter (fun c => Bool.eqb (rc_optional c) optional) REVIEW_CHECKS).
Definition KNOWN_IDS : list string := map rc_check_id REVIEW_CHECKS.

(** [v in S] for a frozenset of strings: a list or a dict has no hash. *)
Definition in_frozenset (v : jval) (s : list string) : res bool :=
  match v with
  | JStr x => Ok (str_in x s)
  | JList _ => Raise (TypeError "unhashable type: 'list'")
  | JObj _ => Raise (TypeError "unhashable type: 'dict'")
  | _ => Ok false
  end.

(** [d.get(k)] on a JSON object. *)
Definition obj_get (l : list (string * jval)) (k : string) : jval := default JNull (od_get k l).

(** The statuses after one more entry. *)
Definition add_status (status_by_id : list (string * string)) (entry : jval) : res (list (string * string)) :=
  match entry with
  | JObj d =>
      known <-? in_frozenset (obj_get d "check_id") KNOWN_IDS ;;
      if known : bool then
        valid <-? in_frozenset (obj_get d "status") VALID_STATUS ;;
        Ok (od_set (jtext (obj_get d "check_id")) (if valid : bool then jtext (obj_get d "status") else FAIL) status_by_id)
      else Ok status_by_id
  | _ => Ok status_by_id
  end.

(** The checks that stand against a merge. *)
Definition failing_of (status_by_id : list (string * string)) : list string :=
  List.filter (fun cid => negb (bool_decide (od_get cid status_by_id = Some PASS))) (check_ids false) ++
  List.filter (fun cid => bool_decide (od_get cid status_by_id = Some FAIL)) (check_ids true).

Definition compute_verdict (checks : jval) : res (string * list string) :=
  match checks with
  | JList entries =>
      status_by_id <-? foldM (fun st e => add_status st e) [] entries ;;
      Ok (match failing_of status_by_id with
          | [] => (LGTM, [])
          | failing => (CONCERNS, failing)
          end)
  | _ => Ok (CONCERNS, ["malformed_no_checks"])
  end.

Definition sensitive_paths_in_diff (changed_files : list string) (patterns : list string) : list string :=
  List.filter (fun f => existsb (fun p => fnmatch f p) patterns) changed_files.

(** The evidence that the last entry for each check quotes. *)
Definition evidence_spans (checks : jval) : list (string * string) :=
  match checks with
  | JList entries =>
      foldl (fun spans entry =>
        match entry with
        | JObj d =>
            if is_str (obj_get d "check_id") && is_str (obj_get d "evidence_span")
            then od_set (jtext (obj_get d "check_id")) (strip (jtext (obj_get d "evidence_span"))) spans
            else spans
        | _ => spans
        end) [] entries
  | _ => []
  end.

Definition failing_summary (checks : jval) (failing : list string) : string :=
  let spans := evidence_spans checks in
  "Failed checks:" +:+ nl +:+ join nl (map (fun cid =>
    let ev := default "" (od_get cid spans) in
    if str_truthy ev then "- " +:+ cid +:+ ": " +:+ str_take 300 ev else "- " +:+ cid) failing).

(** The part of the prompt that asks for the checks. *)
Definition check_line (i : nat) (c : ReviewCheck) : string :=
  "  {~check_id~: ~" +:+ rc_check_id c +:+ "~, ~status~: ~pass|fail" +:+ (if rc_optional c then "|n/a" else "") +:+ "~, " +:+
  "~evidence_span~: ~<quote the diff line(s) justifying this status>~}" +:+
  (if i + 1 <? length REVIEW_CHECKS then "," else "") +:+
  "   // " +:+ rc_prompt c +:+ (if rc_optional c then " (use ~n/a~ if not applicable)" else "").

Definition verdict_schema_prompt : string := quoted (join nl
  (["Write your review as JSON to a file named `verdict.json` in the current " +:+
    "working directory. Report a status for EACH enumerated check — do NOT " +:+
    "write an overall verdict; the merge decision is computed by code from " +:+
    "your per-check statuses, not from any free-text field.";
    "";
    "{~checks~: ["] ++ imap check_line REVIEW_CHECKS ++
   ["], ~summary~: ~short human-readable note (NOT the decision)~}";
    "";
    "Set status ~pass~ only when the check genuinely holds. Use ~fail~ with a " +:+
    "concrete evidence_span for anything wrong."])).

(** ** The council *)

Definition LENS_CORRECTNESS : string :=
  nl +:+ nl +:+ "## Your review lens: CORRECTNESS" +:+ nl +:+
  "You are the correctness reviewer on a cross-family council. Weigh logic errors, " +:+
  "broken invariants, off-by-one/edge-case bugs, and whether the change does what it " +:+
  "claims. Report the shared typed checks above through this lens.".
Definition LENS_SECURITY_CAPABILITY : string :=
  nl +:+ nl +:+ "## Your review lens: SECURITY / CAPABILITY-CHANGE" +:+ nl +:+
  "You are the security & capability-change reviewer on a cross-family council. Weigh " +:+
  "whether this diff widens a trust boundary, weakens a guardrail/gate, grants or " +:+
  "un-sandboxes a capability, or could be an injected change to control-plane code. " +:+
  "Report the shared typed checks above through this lens.".
Definition LENS_CONVERGENCE_OPERATIONAL : string :=
  nl +:+ nl +:+ "## Your review lens: CONVERGENCE / OPERATIONAL" +:+ nl +:+
  "You are the convergence & operational reviewer on a cross-family council. Weigh " +:+
  "whether this change keeps the fleet able to judge/fix/merge itself (no bootstrap " +:+
  "deadlock, no hard halt), and its operational blast radius. Report the shared typed " +:+
  "checks above through this lens.".

Record seat := { seat_backend : string; seat_model : string; seat_lens : string }.

#[export] Instance seat_eq_dec : EqDecision seat.
Proof. solve_decision. Defined.

Definition COUNCIL_PANEL : list seat :=
  [{| seat_backend := "claude_code"; seat_model := "claude-opus-5"; seat_lens := "correctness" |};
   {| seat_backend := "claude_code"; seat_model := "claude-opus-4-8"; seat_lens := "security-capability" |};
   {| seat_backend := "claude_code"; seat_model := "claude-opus-4-7"; seat_lens := "convergence-operational" |}].

Definition council_lens_fragment (lens : string) : string :=
  default "" (od_get lens
    [("correctness", LENS_CORRECTNESS); ("security-capability", LENS_SECURITY_CAPABILITY);
     ("convergence-operational", LENS_CONVERGENCE_OPERATIONAL)]).

(** What a reviewer returned. *)
Record verdict := {
  vd_result : string;
  vd_failing : list string;
  vd_summary : string }.

Record member_result := { mr_seat : seat; mr_verdict : verdict }.

Definition member_label (s : seat) : string :=
  seat_backend s +:+ "/" +:+ seat_model s +:+ " (" +:+ seat_lens s +:+ ")".

(** [m.get("result") or CONCERNS], in capitals. *)
Definition result_of_member (m : member_result) : string :=
  let r := vd_result (mr_verdict m) in upper (if str_truthy r then r else CONCERNS).

Definition concern_line (m : member_result) : string :=
  let v := mr_verdict m in
  "- " +:+ member_label (mr_seat m) +:+ ": " +:+
  (if list_truthy (vd_failing v) then join ", " (vd_failing v)
   else if str_truthy (vd_summary v) then vd_summary v else "CONCERNS").

(** The elements of [l] that are not yet in [acc], in order. *)
Definition add_new (acc l : list string) : list string :=
  foldl (fun acc f => if str_in f acc then acc else acc ++ [f]) acc l.

Record council_verdict := {
  cv_result : string;
  cv_failing : list string;
  cv_summary : string;
  cv_per_member : list member_result }.

(** What is recorded of a member. *)
Definition heard_of (m : member_result) : member_result :=
  {| mr_seat := mr_seat m;
     mr_verdict := {| vd_result := result_of_member m; vd_failing := vd_failing (mr_verdict m);
                      vd_summary := vd_summary (mr_verdict m) |} |}.

Definition aggregate_council (member_results : list member_result) : council_verdict :=
  let concerned := List.filter (fun m => negb (String.eqb (result_of_member m) LGTM)) member_results in
  let per_member := map heard_of member_results in
  if list_truthy member_results && negb (list_truthy concerned) then
    {| cv_result := LGTM; cv_failing := [];
       cv_summary := "Council unanimous LGTM (" +:+ join ", " (map (fun m => member_label (mr_seat m)) member_results) +:+ ").";
       cv_per_member := per_member |}
  else
    {| cv_result := CONCERNS;
       cv_failing := foldl (fun acc m => add_new acc (vd_failing (mr_verdict m))) [] concerned;
       cv_summary := "Council concerns (attributed by member):" +:+ nl +:+ join nl (map concern_line concerned);
       cv_per_member := per_member |}.

(** ** An answer on standard output *)

Section Stdout.
(** [JSONDecoder().raw_decode] at the start of a text: the value and the rest. *)
Context (raw_decode : string -> option (jval * string)).

(** The text from its first brace on. *)
Definition from_brace (s : string) : string := drop_while (fun c => negb (Ascii.eqb c "{")) s.

(** A text that was decoded, or a brace that starts nothing, is not looked at
    again; the length is fuel enough. *)
Fixpoint last_object (fuel : nat) (best : option (list (string * jval))) (s : string) : option (list (string * jval)) :=
  match fuel, from_brace s with
  | S fuel, String c rest =>
      match raw_decode (String c rest) with
      | Some (v, after) => last_object fuel (match v with JObj d => Some d | _ => best end) after
      | None => last_object fuel best rest
      end
  | _, _ => best
  end.
Definition last_json_object (text : string) : option (list (string * jval)) :=
  last_object (String.length text) None text.
End Stdout.
