(* ===== verification/ReviewWorld.v ===== *)
(** * The world of the pull-request watcher

    entrypoints/pr_review_watcher/main.py: what the watcher remembers about a
    pull request, on disk and in memory, what it asks of the code host, the
    board and its backends, and the check runs of adapters/github_pr.py.  All of
    them answer, or raise, depending on everything asked so far.  Log lines,
    telemetry and the instrumentation of decisions are left out. *)
From S2P Require Import Prelude PyStr PyData TextLines BoardIssues Verdict.
From Stdlib Require Import Ascii.

(** ** What is asked *)

(** Of the code host, about one pull request. *)
Inductive gh_req :=
  | Protection (branch : string)
  | Files
  | CheckRuns (ref : string)
  | SetStatus (sha result description : string)
  | Parents (sha : string)
  | MergePr (method : string)
  | PostComment (body : string)
  | ListComments
  | UpdateComment (id : jval) (body : string)
  | ClosePr
  | DeleteBranch (ref : string)
  | GetDiff
  | GetPr.

Inductive rcall :=
  | RC_gh (slug : string) (pr_number : Z) (q : gh_req)
  | RC_list_prs (slug : string)
  | RC_open_board
  | RC_fetch (task_id : string)
  | RC_transition (task_id state : string)
  | RC_labels (task_id : string) (names : list string)
  | RC_note (task_id text : string)
  | RC_board_list
  | RC_save (key : string)
  | RC_unlink (key : string)
  | RC_council_record (key : string) (record : jval)
  | RC_ledger (context : string)
  | RC_select
  | RC_cooldowns (backend : string)
  | RC_review (backend model key goal : string)
  | RC_fix (repo_key head_ref goal key : string)
  | RC_rebase (head_ref : string)
  | RC_ruff (head_ref : string).

(** A reviewer process: timed out, or what it left behind. *)
Inductive member_run :=
  | MR_timeout
  | MR_exit (returncode : Z) (verdict_file : option (res jval)) (stdout : string).

Inductive RebaseOutcome := Rebase_clean | Rebase_conflict | Rebase_push_rejected | Rebase_noop | Rebase_unavailable | Rebase_error.
Inductive RuffOutcome := Ruff_no_change | Ruff_push_failed | Ruff_pushed.

#[export] Instance rebase_outcome_eq_dec : EqDecision RebaseOutcome.
Proof. solve_decision. Defined.

(** A campaign of the store. *)
Record CampaignRecord := {
  cp_campaign_id : string;
  cp_spec_file : string;
  cp_status : string }.

(** The surroundings.  The last ones are pure parts that are not modelled. *)
Record review_env := {
  re_now : list rcall -> datetime;
  re_protection : list rcall -> res jval;
  re_files : list rcall -> res jval;                 (* the first page of the changed files *)
  re_check_runs : list rcall -> res (list dict);
  re_parents : option (list rcall -> res jval);
  re_merge_method : option string;
  re_write : list rcall -> res unit;                 (* statuses, merges, edits, closings, board writes, files *)
  re_comment : list rcall -> res jval;
  re_comments : list rcall -> res (list dict);
  re_diff : list rcall -> res (option string);       (* nothing when the host says it is too large *)
  re_get_pr : list rcall -> res jval;
  re_list_prs : list rcall -> res (list dict);
  re_open_board : list rcall -> res unit;
  re_fetch : list rcall -> res dict;
  re_board_list : list rcall -> res (list dict);
  re_select : list rcall -> option (option string);  (* the selected backend, when selection ran *)
  re_cooldowns : list rcall -> res (list dict);
  re_conflicted : list rcall -> list string;         (* source files with conflict markers *)
  re_review : list rcall -> res member_run;
  re_fix : list rcall -> res (option jval);          (* the result of the executor pipeline *)
  re_rebase : list rcall -> res RebaseOutcome;
  re_ruff : list rcall -> res RuffOutcome;
  re_custodian : string -> bool -> list rcall -> option (res jval);  (* its report on a clone, when there is one *)
  re_yaml : string -> res jval;
  re_campaigns : list rcall -> res (list CampaignRecord);
  re_spec_text : string -> list rcall -> option (res string);  (* the file, when it exists *)
  re_external : list rcall -> option dict;           (* the state file, when another process wrote it *)
  re_oc_root : string;
  re_raw_decode : string -> option (jval * string);
  re_sha256 : string -> string;
  re_sanitize : string -> string;
  re_nonce : list rcall -> string }.

(** What was asked, the state files, and the state of the pull request at hand. *)
Record review_world := {
  rw_calls : list rcall;
  rw_disk : gmap string dict;
  rw_state : dict }.

Abbreviation RM := (SE review_world).

Definition rasked (w : review_world) (c : rcall) : review_world :=
  {| rw_calls := rw_calls w ++ [c]; rw_disk := rw_disk w; rw_state := rw_state w |}.
Definition rask {A} (answer : list rcall -> res A) (c : rcall) : RM A := fun w =>
  let w := rasked w c in (w, answer (rw_calls w)).
(** A question that leaves no trace. *)
Definition rsee {A} (answer : list rcall -> A) : RM A := se_get (fun w => Ok (answer (rw_calls w))).

(** ** The state of a pull request *)

Definition the_state : RM dict := se_get (fun w => Ok (rw_state w)).
Definition put_state (d : dict) : RM unit := fun w =>
  ({| rw_calls := rw_calls w; rw_disk := rw_disk w; rw_state := d |}, Ok tt).
(** [state.get(k)], [state[k] = v], [state.pop(k, None)], [state.setdefault(k, v)]. *)
Definition st_get (k : string) : RM jval := se_get (fun w => Ok (dget (rw_state w) k)).
Definition st_set (k : string) (v : jval) : RM unit := s <<- the_state ;; put_state (<[k := v]> s).
Definition st_pop (k : string) : RM unit := s <<- the_state ;; put_state (delete k s).
Definition st_default (k : string) (v : jval) : RM unit :=
  s <<- the_state ;; put_state (match s !! k with Some _ => s | None => <[k := v]> s end).
Definition st_truthy (k : string) : RM bool := se_get (fun w => Ok (jtruthy (dget (rw_state w) k))).

(** A counter: [state.get(k, 0)] where the code compares it or adds to it. *)
Definition number (v : jval) : res Z :=
  match v with
  | JInt n => Ok n
  | JBool b => Ok (if b then 1 else 0)%Z
  | _ => Raise (TypeError "unsupported operand type")
  end.
Definition counter (s : dict) (k : string) : res Z := number (default (JInt 0) (s !! k)).
Definition st_counter (k : string) : RM Z := se_get (fun w => counter (rw_state w) k).
Definition st_count (k : string) (n : Z) : RM unit := st_set k (JInt n).

(** [str(state.get(k) or "").strip()]. *)
Definition field_text (s : dict) (k : string) : string := strip (jtext (jor (dget s k) (JStr ""))).
Definition st_text (k : string) : RM string := se_get (fun w => Ok (field_text (rw_state w) k)).

(** [state["pr_number"]], [state["repo_key"]], [state["state_key"]]. *)
Definition pr_number : RM Z := se_get (fun w => v <-? ditem (rw_state w) "pr_number" ;; jint v).
Definition state_item (k : string) : RM string := se_get (fun w => v <-? ditem (rw_state w) k ;; Ok (jtext v)).

Definition state_key (repo_key : string) (n : Z) : string := repo_key +:+ "-" +:+ str_of_Z n.

Definition new_state (now : datetime) (repo_key : string) (n : Z) : dict := list_to_map
  [("state_key", JStr (state_key repo_key n)); ("pr_number", JInt n); ("repo_key", JStr repo_key);
   ("phase", JStr "ci_fix"); ("ci_fix_attempts", JInt 0); ("ci_fix_last_push_at", JNull);
   ("self_review_loops", JInt 0); ("human_review_loops", JInt 0); ("processed_comment_ids", JList []);
   ("plane_task_id", JNull); ("phase2_entered_at", JNull); ("created_at", JTime now); ("updated_at", JTime now)].

(** [for x in v]. *)
Definition list_items (v : jval) : res (list jval) :=
  match v with
  | JList l => Ok l
  | JObj l => Ok (map (fun kv => JStr (fst kv)) l)
  | JStr s => Ok (map (fun c => JStr (String c "")) (String.list_ascii_of_string s))
  | _ => Raise (TypeError "object is not iterable")
  end.

(** ** Settings *)

Record ReviewRepo := {
  rvr_clone_url : string;
  rvr_await_review : bool;
  rvr_auto_merge_on_ci_green : bool;
  rvr_ci_ignored_checks : list string;
  rvr_required_checks : list string;
  rvr_local_path : option string }.

Record ReviewSettings := {
  rvs_repos : list (string * ReviewRepo);
  rvs_max_self_review_loops : Z;
  rvs_max_fix_attempts : Z;
  rvs_max_fix_strategy_level : Z;
  rvs_bot_comment_marker : string;
  rvs_require_branch_protection : bool;
  rvs_require_sensitive_path_ack : bool;
  rvs_guardrail_paths : list string;
  rvs_max_council_park_hours : Z;
  rvs_min_council_members : Z;
  rvs_autofix_audit : bool }.

(** ** Check runs: adapters/github_pr.py *)

(** The head of the pull request, as it was listed. *)
Definition head_field (pr_data : dict) (k : string) : jval :=
  match jor (dget pr_data "head") (JObj []) with JObj l => obj_get l k | _ => JNull end.
Definition pr_head_sha (pr_data : dict) : string := strip (jtext (jor (head_field pr_data "sha") (JStr ""))).
Definition pr_head_ref (pr_data : dict) : string := jtext (jor (head_field pr_data "ref") (JStr "")).

Definition run_name (cr : dict) : string := jtext (default (JStr "unknown") (cr !! "name")).
Definition run_id (cr : dict) : Z := match default (JInt 0) (cr !! "id") with JInt n => n | _ => 0 end.

(** The newest run of each name, in the order the names were first seen. *)
Definition latest_runs (runs : list dict) : list dict :=
  map snd (foldl (fun latest cr =>
    if (match od_get (run_name cr) latest with Some old => run_id old | None => 0 end <? run_id cr)%Z
    then od_set (run_name cr) cr latest else latest) [] runs).

Definition kept (ignored : list string) (cr : dict) : bool :=
  negb (existsb (fun pat => contains (lower (run_name cr)) (lower pat)) ignored).
Definition is_failed (cr : dict) : bool :=
  existsb (jeq_str (dget cr "conclusion")) ["failure"; "timed_out"; "cancelled"].
Definition is_completed (cr : dict) : bool := jeq_str (dget cr "status") "completed".

(** The name with the title of the failure, or its conclusion. *)
Definition failure_text (cr : dict) : string :=
  let title := match jor (dget cr "output") (JObj []) with JObj l => obj_get l "title" | _ => JNull end in
  run_name cr +:+ ": " +:+ jtext (jor title (default (JStr "failed") (cr !! "conclusion"))).

Definition failed_of (ignored : list string) (runs : list dict) : list string :=
  map failure_text (List.filter (fun cr => is_failed cr && kept ignored cr) (latest_runs runs)).
Definition incomplete_of (ignored : list string) (runs : list dict) : list string :=
  map run_name (List.filter (fun cr => negb (is_completed cr) && kept ignored cr) (latest_runs runs)).
Definition completed_of (ignored : list string) (runs : list dict) : list string :=
  map run_name (List.filter (fun cr => is_completed cr && kept ignored cr) (latest_runs runs)).

Section World.
Context (env : review_env) (settings : ReviewSettings) (slug sp : string) (pr_data : dict).

Definition now : RM datetime := rsee (re_now env).

(** Ask the code host about the pull request at hand. *)
Definition gh {A} (answer : list rcall -> res A) (q : gh_req) : RM A :=
  n <<- pr_number ;; rask answer (RC_gh slug n q).

(** The state with its time, to disk; the state in memory keeps its own. *)
Definition save_state : RM unit :=
  t <<- now ;;
  _ <<- rask (re_write env) (RC_save sp) ;;
  fun w => ({| rw_calls := rw_calls w; rw_disk := <[sp := <["updated_at" := JTime t]> (rw_state w)]> (rw_disk w);
               rw_state := rw_state w |}, Ok tt).

(** The state as it is on disk, an unreadable or absent file being an empty one. *)
Definition load_state : RM dict :=
  se_get (fun w => Ok (match re_external env (rw_calls w) with
                       | Some d => d
                       | None => default ∅ (rw_disk w !! sp)
                       end)).

Definition unlink_state : RM unit :=
  _ <<- rask (re_write env) (RC_unlink sp) ;;
  fun w => ({| rw_calls := rw_calls w; rw_disk := delete sp (rw_disk w); rw_state := rw_state w |}, Ok tt).

(** The runs of the head, for one of the three questions: none when the head is
    unknown or they can not be read. *)
Definition runs_of_head : RM (list dict) :=
  let sha := head_field pr_data "sha" in
  if negb (jtruthy sha) then se_ret []
  else se_try (gh (re_check_runs env) (CheckRuns (jtext sha))) (fun _ => se_ret []).

Definition get_failed_checks (ignored : list string) : RM (list string) :=
  runs <<- runs_of_head ;; se_ret (failed_of ignored runs).
Definition get_incomplete_checks (ignored : list string) : RM (list string) :=
  runs <<- runs_of_head ;; se_ret (incomplete_of ignored runs).
Definition get_completed_checks (ignored : list string) : RM (list string) :=
  runs <<- runs_of_head ;; se_ret (completed_of ignored runs).

(** ** What the pull request changes *)

(** [list_pr_files]: of the first hundred files, and none at all on any error. *)
Definition file_name (item : jval) : option string :=
  match item with JObj l => jtext <$> od_get "filename" l | _ => None end.
Definition files_of_page (page : jval) : res (list string) :=
  items <-? list_items page ;; Ok (omap file_name items).
Definition list_pr_files : RM (list string) :=
  se_try (page <<- gh (re_files env) Files ;; se_lift (files_of_page page)) (fun _ => se_ret []).

Definition pad8 (s : string) : string := s +:+ String.concat "" (replicate (8 - String.length s) " ").
Definition summary_line (item : jval) : res (option string) :=
  match item with
  | JObj l =>
      match default (JStr "modified") (od_get "status" l) with
      | JStr status =>
          Ok (Some (pad8 status +:+ " " +:+ jtext (default (JStr "") (od_get "filename" l)) +:+ " (+" +:+
                    jtext (default (JInt 0) (od_get "additions" l)) +:+ "/-" +:+
                    jtext (default (JInt 0) (od_get "deletions" l)) +:+ ")"))
      | _ => Raise (ValueError "invalid format string")
      end
  | _ => Ok None
  end.
Definition diff_too_large_of (page : jval) : res string :=
  items <-? list_items page ;;
  lines <-? mapM summary_line items ;;
  Ok (join nl (("[DIFF_TOO_LARGE — showing " +:+ str_of_Z (Z.of_nat (length items)) +:+ " changed files only]" +:+ nl)
               :: omap id lines)).
Definition diff_too_large_summary : RM string :=
  se_try (page <<- gh (re_files env) Files ;; se_lift (diff_too_large_of page)) (fun _ => se_ret "").

(** [get_pr_diff]: the empty text on any error. *)
Definition get_pr_diff : RM string :=
  se_try (answer <<- gh (re_diff env) GetDiff ;;
          match answer with Some text => se_ret text | None => diff_too_large_summary end)
    (fun _ => se_ret "").

(** [get_mergeable]: unknown on any error. *)
Definition mergeable_of (pr : jval) : res (option bool) :=
  match pr with
  | JObj l => Ok (match obj_get l "mergeable" with JNull => None | v => Some (jtruthy v) end)
  | _ => Raise (OtherError "object has no attribute 'get'")
  end.
Definition get_mergeable : RM (option bool) :=
  se_try (pr <<- gh (re_get_pr env) GetPr ;; se_lift (mergeable_of pr)) (fun _ => se_ret None).

(** ** The state of CI *)

Record CIStatus := {
  ci_failed : list string;
  ci_pending : list string;
  ci_completed : list string;
  ci_missing_required : list string;
  ci_error : option string }.

Definition ci_green (ci : CIStatus) : bool :=
  negb (opt_truthy (ci_error ci) || list_truthy (ci_failed ci) || list_truthy (ci_pending ci) ||
        list_truthy (ci_missing_required ci)) &&
  list_truthy (ci_completed ci).

(** The required checks that no completed check names. *)
Definition missing_of (required completed : list string) : list string :=
  List.filter (fun rc => negb (existsb (fun name => contains (lower name) (lower rc)) completed)) required.

Definition ci_status (ignored required : list string) : RM CIStatus :=
  se_try
    (failed <<- get_failed_checks ignored ;;
     pending <<- get_incomplete_checks ignored ;;
     completed <<- get_completed_checks ignored ;;
     se_ret {| ci_failed := failed; ci_pending := pending; ci_completed := completed;
               ci_missing_required := missing_of required completed; ci_error := None |})
    (fun exc => se_ret {| ci_failed := []; ci_pending := []; ci_completed := []; ci_missing_required := [];
                          ci_error := Some ("Exception: " +:+ exn_text exc) |}).

(** ** Flags on the pull request *)

(** [re.sub] of the first bold flag. *)
Fixpoint strike_flag (s : string) : string :=
  if startswith s "**Needs human attention**" then "~~**Needs human attention**~~" +:+ str_drop 25 s
  else if startswith s "**Self-review concerns**" then "~~**Self-review concerns**~~" +:+ str_drop 24 s
  else match s with String c r => String c (strike_flag r) | EmptyString => "" end.

(** [a == b] for the ids of comments. *)
Definition same_id (a b : jval) : bool :=
  match a, b with JInt n, JInt m => (n =? m)%Z | JStr s, JStr t => String.eqb s t | JNull, JNull => true | _, _ => false end.

Definition retract_one (key resolution : string) : RM unit :=
  comment_id <<- st_get key ;;
  _ <<- st_pop key ;;
  if negb (jtruthy comment_id) then se_ret tt
  else
    se_try
      (comments <<- gh (re_comments env) ListComments ;;
       match find_first (fun c => same_id (dget c "id") comment_id) comments with
       | None => se_ret tt
       | Some c =>
           body <<- se_lift (ditem c "body") ;;
           match body with
           | JNull => se_ret tt
           | _ =>
               _ <<- (if is_str body then se_ret tt else se_lift (Raise (TypeError "expected string"))) ;;
               gh (re_write env) (UpdateComment comment_id
                 ("> **Resolved**: " +:+ resolution +:+ nl +:+ nl +:+ strike_flag (jtext body)))
           end
       end)
      (fun _ => se_ret tt).

Definition retract_flag (resolution : string) : RM unit :=
  _ <<- pr_number ;;
  _ <<- retract_one "escalation_comment_id" resolution ;;
  retract_one "concerns_comment_id" resolution.

(** [(resp or {}).get("id")]. *)
Definition comment_id_of (resp : jval) : res jval :=
  match jor resp (JObj []) with
  | JObj l => Ok (obj_get l "id")
  | _ => Raise (OtherError "object has no attribute 'get'")
  end.

(** Post a comment and remember it under [key]; a failure is logged. *)
Definition post_and_remember (key body : string) : RM unit :=
  se_try (resp <<- gh (re_comment env) (PostComment body) ;; cid <<- se_lift (comment_id_of resp) ;; st_set key cid)
    (fun _ => se_ret tt).

Definition escalation_body (reason detail : string) : string :=
  rvs_bot_comment_marker settings +:+ nl +:+ "**Needs human attention** (reason=`" +:+ reason +:+ "`). Left open — " +:+
  "not merged (unresolved) and not closed (work preserved)." +:+ nl +:+ nl +:+ re_sanitize env detail.

Definition escalate_needs_human (reason detail current_head_sha : string) : RM unit :=
  _ <<- pr_number ;;
  _ <<- (if str_truthy current_head_sha then st_set "escalated_head_sha" (JStr current_head_sha) else se_ret tt) ;;
  _ <<- st_set "escalated_reason" (JStr reason) ;;
  t <<- now ;;
  _ <<- st_set "escalated_at_utc" (JTime t) ;;
  flagged <<- st_truthy "escalated_needs_human" ;;
  _ <<- (if flagged : bool then se_ret tt
         else
           _ <<- post_and_remember "escalation_comment_id" (escalation_body reason detail) ;;
           st_set "escalated_needs_human" (JBool true)) ;;
  save_state.

Definition publish_reviewer_verdict (sha result description : string) : RM unit :=
  if negb (str_truthy sha) then se_ret tt
  else se_try (gh (re_write env) (SetStatus sha result description)) (fun _ => se_ret tt).

(** ** The board *)

(** Open the board, do [m], close it. *)
Definition with_board {A} (m : RM A) : RM A := _ <<- rask (re_open_board env) RC_open_board ;; m.
Definition fetch_task (task_id : string) : RM dict := rask (re_fetch env) (RC_fetch task_id).
Definition move_task (task_id state : string) : RM unit := rask (re_write env) (RC_transition task_id state).
Definition note_task (task_id text : string) : RM unit := rask (re_write env) (RC_note task_id text).
Definition label_task (task_id : string) (names : list string) : RM unit := rask (re_write env) (RC_labels task_id names).
End World.
