(* ===== verification/ReviewMerge.v ===== *)
(** * How a pull request leaves the watcher

    entrypoints/pr_review_watcher/main.py: the gates of the fleet's own merge,
    the merge, the rebase of a conflicting branch, the pass that fixes concerns,
    and the closing that first puts the task back in its queue. *)
From S2P Require Import Prelude PyStr PyData TextLines PolicyModels BoardIssues TaskParser Verdict ReviewWorld ReviewText.
From Stdlib Require Import Ascii.

Definition MAX_REBASE_ATTEMPTS : Z := 3.
Definition REBASE_GRACE_SECONDS : Z := 120.
Definition MAX_REQUEUES : Z := 3.
Definition REVIEWER_VERDICT_STATUS_CONTEXT : string := "reviewer-verdict".

(** [(v or {}).get(k)]. *)
Definition sub_get (v : jval) (k : string) : res jval :=
  match jor v (JObj []) with
  | JObj l => Ok (obj_get l k)
  | _ => Raise (OtherError "object has no attribute 'get'")
  end.
(** [for x in (v or [])]. *)
Definition items_of (v : jval) : res (list jval) :=
  match jor v (JList []) with
  | JList l => Ok l
  | JObj l => Ok (map (fun kv => JStr (fst kv)) l)
  | JStr s => Ok (map (fun c => JStr (String c "")) (String.list_ascii_of_string s))
  | _ => Raise (TypeError "object is not iterable")
  end.
(** The members of a set. *)
Definition hashed (v : jval) : res jval :=
  match v with
  | JList _ => Raise (TypeError "unhashable type: 'list'")
  | JObj _ => Raise (TypeError "unhashable type: 'dict'")
  | _ => Ok v
  end.

(** The required contexts of a protected branch, and whether admins are bound. *)
Definition check_context (check : jval) : res (option jval) :=
  match check with
  | JObj l => if jtruthy (obj_get l "context") then v <-? hashed (obj_get l "context") ;; Ok (Some v) else Ok None
  | _ => Ok None
  end.
Definition protection_contexts (protection : jval) : res (list jval) :=
  rsc <-? sub_get protection "required_status_checks" ;;
  listed <-? sub_get rsc "contexts" ;;
  listed <-? items_of listed ;;
  contexts <-? mapM hashed listed ;;
  checks <-? sub_get rsc "checks" ;;
  checks <-? items_of checks ;;
  more <-? mapM check_context checks ;;
  Ok (contexts ++ omap id more).
Definition protection_sufficient (protection : jval) : res bool :=
  contexts <-? protection_contexts protection ;;
  admins <-? sub_get protection "enforce_admins" ;;
  enabled <-? sub_get admins "enabled" ;;
  Ok (existsb (fun v => jeq_str v REVIEWER_VERDICT_STATUS_CONTEXT) contexts && jtruthy enabled).

(** A label of the pull request that acknowledges the risk. *)
Definition acked (lab : jval) : res bool :=
  match lab with
  | JObj l => match default (JStr "") (od_get "name" l) with
              | JStr name => Ok (startswith name "risk-reviewed")
              | _ => Raise (OtherError "object has no attribute 'startswith'")
              end
  | v => Ok (startswith (jtext v) "risk-reviewed")
  end.
Fixpoint any_acked (labels : list jval) : res bool :=
  match labels with
  | [] => Ok false
  | lab :: rest => a <-? acked lab ;; if a : bool then Ok true else any_acked rest
  end.

Section Merge.
Context (env : review_env) (settings : ReviewSettings) (slug sp : string) (pr_data : dict).

(** ** The gates of a merge *)

Definition branch_protection_ok (base_branch : string) : RM bool :=
  if negb (rvs_require_branch_protection settings) then se_ret true
  else
    answer <<- se_try (v <<- gh slug (re_protection env) (Protection base_branch) ;; se_ret (Some v)) (fun _ => se_ret None) ;;
    match answer with
    | None => se_ret false
    | Some protection => if negb (jtruthy protection) then se_ret false else se_lift (protection_sufficient protection)
    end.

Definition sensitive_path_ack_ok : RM bool :=
  if negb (rvs_require_sensitive_path_ack settings) then se_ret true
  else
    labels <<- se_lift (items_of (dget pr_data "labels")) ;;
    ack <<- se_lift (any_acked labels) ;;
    if ack : bool then se_ret true
    else
      files <<- se_try (fs <<- list_pr_files env slug ;; se_ret (Some fs)) (fun _ => se_ret None) ;;
      se_ret (match files with
              | None => true
              | Some fs => negb (list_truthy (sensitive_paths_in_diff fs sensitive_path_patterns))
              end).

(** How many parents the head has, when the host tells. *)
Definition parent_count (head_sha : string) : RM (option Z) :=
  match re_parents env with
  | None => se_ret None
  | Some ask_parents =>
      se_try (v <<- gh slug ask_parents (Parents head_sha) ;;
              se_ret (match v with JInt n => Some n | _ => None end))
        (fun _ => se_ret None)
  end.

Definition merge_method_for (head_sha : string) : RM string :=
  if opt_truthy (re_merge_method env) then se_ret (default "" (re_merge_method env))
  else
    parents <<- parent_count head_sha ;;
    se_ret (match parents with Some n => if (1 <? n)%Z then "merge" else "squash" | None => "squash" end).

Definition repo_cfg : RM (option ReviewRepo) :=
  key <<- se_get (fun w => ditem (rw_state w) "repo_key") ;;
  se_ret (od_get (jtext key) (rvs_repos settings)).
Definition ignored_checks (cfg : option ReviewRepo) : list string :=
  match cfg with Some r => rvr_ci_ignored_checks r | None => [] end.
Definition required_checks (cfg : option ReviewRepo) : list string :=
  match cfg with Some r => rvr_required_checks r | None => [] end.

(** ** A conflicting branch *)

(** Whether the last attempt is too recent for another. *)
Definition within_grace (last : jval) (t : datetime) : res bool :=
  match last with
  | JTime at_ => d <-? dt_diff t at_ ;; Ok (d <? seconds REBASE_GRACE_SECONDS)%Z
  | JStr _ => Ok false
  | _ => Raise (TypeError "fromisoformat: argument must be str")
  end.

(** [(state.get(k) or "").strip()]. *)
Definition st_stripped (k : string) : RM string :=
  v <<- st_get k ;;
  match jor v (JStr "") with
  | JStr s => se_ret (strip s)
  | JTime t => se_ret (isoformat t)
  | _ => se_lift (Raise (OtherError "object has no attribute 'strip'"))
  end.

Definition auto_rebase_or_escalate : RM unit :=
  _ <<- pr_number ;;
  _ <<- st_default "rebase_attempts" (JInt 0) ;;
  last <<- st_get "last_rebase_at" ;;
  recent <<- (if jtruthy last then t <<- now env ;; se_lift (within_grace last t) else se_ret false) ;;
  if recent : bool then se_ret tt
  else
    attempts <<- st_counter "rebase_attempts" ;;
    if (MAX_REBASE_ATTEMPTS <=? attempts)%Z then
      escalate_needs_human env settings slug sp "rebase_attempts_exhausted"
        ("PR is CONFLICTING and " +:+ str_of_Z MAX_REBASE_ATTEMPTS +:+ " auto-rebase attempts did " +:+
         "not yield a mergeable branch (base may be moving faster than CI/review, " +:+
         "or the conflict recurs). Needs a manual rebase.") ""
    else
      head_ref <<- st_stripped "head_ref" ;;
      if negb (str_truthy head_ref) then se_ret tt
      else
        _ <<- repo_cfg ;;
        outcome <<- rask (re_rebase env) (RC_rebase head_ref) ;;
        t <<- now env ;;
        _ <<- st_set "last_rebase_at" (JTime t) ;;
        match outcome with
        | Rebase_clean =>
            attempts <<- st_counter "rebase_attempts" ;;
            _ <<- st_count "rebase_attempts" (attempts + 1) ;;
            save_state env sp
        | Rebase_conflict =>
            escalate_needs_human env settings slug sp "rebase_conflict"
              ("Auto-rebase onto the base branch hit a real code conflict " +:+
               "(beyond the union-merged journal). Manual rebase required.") ""
        | _ => save_state env sp
        end.

(** ** The merge *)

(** The task is done, as far as the board can be reached. *)
Definition board_done (reason : string) : RM unit :=
  task <<- st_get "plane_task_id" ;;
  if negb (jtruthy task) then se_ret tt
  else
    n <<- pr_number ;;
    se_try (with_board env
              (_ <<- move_task env (jtext task) "Done" ;;
               note_task env (jtext task) ("PR #" +:+ str_of_Z n +:+ " merged (" +:+ reason +:+ ")")))
      (fun _ => se_ret tt).

Definition base_branch_of_pr : res string :=
  ref <-? sub_get (dget pr_data "base") "ref" ;;
  Ok (jtext (jor ref (JStr "main"))).

(** What remains once the gates are passed. *)
Definition do_merge (reason : string) : RM unit :=
  let sha := pr_head_sha pr_data in
  _ <<- publish_reviewer_verdict env slug sha "success" ("reviewer approved (" +:+ reason +:+ ")") ;;
  method <<- merge_method_for sha ;;
  merged <<- se_try (_ <<- gh slug (re_write env) (MergePr method) ;; _ <<- state_item "repo_key" ;; se_ret true)
               (fun _ => se_ret false) ;;
  if negb merged then se_ret tt
  else
    _ <<- retract_flag env slug "PR merged" ;;
    _ <<- board_done reason ;;
    unlink_state env sp.

Definition merge_and_done (reason : string) : RM unit :=
  _ <<- pr_number ;;
  mergeable <<- get_mergeable env slug ;;
  if bool_decide (mergeable = Some false) then auto_rebase_or_escalate
  else
    _ <<- st_count "rebase_attempts" 0 ;;
    base <<- se_lift base_branch_of_pr ;;
    protected <<- branch_protection_ok base ;;
    if negb protected then se_ret tt
    else
      ack <<- sensitive_path_ack_ok ;;
      if negb ack then se_ret tt
      else
        cfg <<- repo_cfg ;;
        failed <<- get_failed_checks env slug pr_data (ignored_checks cfg) ;;
        pending <<- get_incomplete_checks env slug pr_data (ignored_checks cfg) ;;
        if list_truthy failed || list_truthy pending then se_ret tt else do_merge reason.

(** ** A pass that fixes concerns *)

(** Whether the pass pushed. *)
Definition pushed_of (outcome : option jval) : bool :=
  match outcome with
  | Some (JObj o) =>
      match obj_get o "result" with
      | JObj r => jtruthy (obj_get r "branch_pushed")
      | _ => jtruthy (obj_get o "branch_pushed")
      end
  | _ => false
  end.

Definition is_source_tree_unclean (e : exn) : bool :=
  match e with NamedError cls _ => String.eqb cls "OCSourceTreeUncleanError" | _ => false end.

Definition run_fix_pass (repo_key head_ref concerns state_key extra_context : string) : RM bool :=
  let goal := build_fix_goal concerns extra_context in
  fun w => match rask (re_fix env) (RC_fix repo_key head_ref goal state_key) w with
           | (w', Ok outcome) => (w', Ok (pushed_of outcome))
           | (w', Raise e) => if is_source_tree_unclean e then (w', Ok false) else (w', Raise e)
           end.

(** ** Back to the queue *)

Definition unresolved_block (concerns : string) : string :=
  let items := structure_concerns concerns in
  if list_truthy items then
    nl +:+ nl +:+ "**Unresolved review concerns to address in the next attempt** " +:+
    "(the previous PR could not resolve these — scope the fresh attempt to " +:+
    "them, do not start blind):" +:+ nl +:+ nl +:+ re_sanitize env (numbered_list items)
  else "".

Definition requeue_fetched (task_id reason block : string) (n : Z) : RM unit :=
  issue <<- fetch_task env task_id ;;
  let attempts := requeue_count issue in
  if (MAX_REQUEUES <=? attempts)%Z then
    _ <<- label_task env task_id (labels_with_requeue_count issue attempts ["needs-human"]) ;;
    _ <<- move_task env task_id STATE_BLOCKED ;;
    note_task env task_id
      ("PR #" +:+ str_of_Z n +:+ " closed (" +:+ reason +:+ "); re-queue limit (" +:+ str_of_Z MAX_REQUEUES +:+
       ") reached — blocked for human review." +:+ block)
  else
    _ <<- label_task env task_id (labels_with_requeue_count issue (attempts + 1) []) ;;
    _ <<- move_task env task_id STATE_READY ;;
    note_task env task_id
      ("PR #" +:+ str_of_Z n +:+ " closed (" +:+ reason +:+ "); re-queued for a fresh attempt (#" +:+
       str_of_Z (attempts + 1) +:+ " of " +:+ str_of_Z MAX_REQUEUES +:+ ")." +:+ block).

Definition requeue_plane_task (task_id reason concerns : string) : RM bool :=
  n <<- pr_number ;;
  se_try (_ <<- with_board env (requeue_fetched task_id reason (unresolved_block concerns) n) ;; se_ret true)
    (fun _ => se_ret false).

(** ** The receipt of a closing *)

Definition durable_pr_head_ref (n : Z) : string := "refs/pull/" +:+ str_of_Z n +:+ "/head".

(** The spec a campaign of the store has. *)
Definition campaign_spec_file (campaign_id : string) : RM string :=
  campaigns <<- se_try (se_get (fun w => re_campaigns env (rw_calls w))) (fun _ => se_ret []) ;;
  se_ret (match find_first (fun c => String.eqb (cp_campaign_id c) campaign_id) campaigns with
          | Some c => strip (cp_spec_file c)
          | None => ""
          end).

(** The spec the description names, when it parses. *)
Definition described_spec_file (issue : dict) : string :=
  let desc := strip (jtext (jor (dget issue "description") (jor (dget issue "description_stripped") (JStr "")))) in
  if negb (str_truthy desc) then ""
  else match parse_task (re_yaml env) desc (label_names issue) with
       | Ok parsed => field_text (pt_execution_metadata parsed) "spec_file"
       | Raise _ => ""
       end.

Definition spec_file_from_plane_issue (issue : dict) : RM string :=
  if str_truthy (described_spec_file issue) then se_ret (described_spec_file issue)
  else
    let campaign_id := label_value (labels_field issue) "campaign-id" in
    if negb (str_truthy campaign_id) then se_ret "" else campaign_spec_file campaign_id.

Definition receipt_text (n : Z) (reason spec_file branch_ref : string) : string :=
  join nl (["Close receipt for PR #" +:+ str_of_Z n +:+ " (`" +:+ reason +:+ "`)";
            "durable_head_ref: `" +:+ durable_pr_head_ref n +:+ "`";
            "spec_file: `" +:+ spec_file +:+ "`"] ++
           (if str_truthy branch_ref then ["closed_branch: `" +:+ branch_ref +:+ "`"] else [])).

Definition record_close_receipt (task_id reason : string) : RM string :=
  n <<- pr_number ;;
  with_board env
    (issue <<- fetch_task env task_id ;;
     spec_file <<- spec_file_from_plane_issue issue ;;
     if negb (str_truthy spec_file) then se_ret ""
     else
       _ <<- note_task env task_id (receipt_text n reason spec_file (strip (pr_head_ref pr_data))) ;;
       se_ret spec_file).

(** ** Closing *)

Definition close_comment (task_id spec_file reason detail : string) (n : Z) : string :=
  rvs_bot_comment_marker settings +:+ nl +:+ "**Closing without merge** (reason=`" +:+ reason +:+ "`). A PR is never " +:+
  "merged with unresolved review concerns — the issue has been re-queued for " +:+
  "a fresh attempt. Durable receipt recorded on Plane task `" +:+ task_id +:+ "` " +:+
  "for `" +:+ durable_pr_head_ref n +:+ "` and `" +:+ spec_file +:+ "`." +:+ nl +:+ nl +:+ re_sanitize env detail.

(** Once the receipt is noted. *)
Definition close_with_receipt (task_id spec_file reason detail : string) : RM unit :=
  n <<- pr_number ;;
  let comment := close_comment task_id spec_file reason detail n in
  if negb (close_without_receipt_allowed comment true) then save_state env sp
  else
    _ <<- se_try (_ <<- gh slug (re_comment env) (PostComment comment) ;; se_ret tt) (fun _ => se_ret tt) ;;
    closed <<- se_try (_ <<- gh slug (re_write env) ClosePr ;; se_ret true) (fun _ => se_ret false) ;;
    if negb closed then save_state env sp
    else
      let head_ref := pr_head_ref pr_data in
      _ <<- (if str_truthy head_ref && branch_delete_allowed_after_close comment true
             then se_try (gh slug (re_write env) (DeleteBranch head_ref)) (fun _ => se_ret tt)
             else se_ret tt) ;;
      _ <<- retract_flag env slug "PR closed and re-queued" ;;
      unlink_state env sp.

Definition close_and_requeue (reason detail concerns : string) : RM unit :=
  _ <<- pr_number ;;
  task <<- st_get "plane_task_id" ;;
  if negb (jtruthy task) then escalate_needs_human env settings slug sp (reason +:+ ":no_task") detail ""
  else
    let task_id := jtext task in
    requeued <<- requeue_plane_task task_id reason concerns ;;
    if negb requeued then save_state env sp
    else
      receipt <<- se_try (s <<- record_close_receipt task_id reason ;; se_ret (Some s)) (fun _ => se_ret None) ;;
      match receipt with
      | None => save_state env sp
      | Some spec_file =>
          if negb (str_truthy spec_file) then save_state env sp
          else close_with_receipt task_id spec_file reason detail
      end.
End Merge.
