(* ===== verification/ReviewCi.v ===== *)
(** * Waiting for CI

    entrypoints/pr_review_watcher/main.py: the first phase of a pull request,
    which repairs lint and audit failures, and the gate that self-review passes
    only on a head whose checks have settled.  What the reports of the static
    analysis say is read here too. *)
From S2P Require Import Prelude PyStr PyData TextLines BoardIssues Verdict ReviewWorld ReviewText ReviewMerge.
From Stdlib Require Import Ascii.

Definition MAX_CI_FIX_ATTEMPTS : Z := 3.
Definition CI_FIX_WAIT_SECONDS : Z := 120.
Definition MAX_CI_SETTLE_CYCLES : Z := 10.

(** What a check is called before its title. *)
Definition check_name (c : string) : string := strip (before_char colon (lower c)).
Definition is_audit_check (c : string) : bool := startswith (check_name c) "audit".
Definition is_fixable (c : string) : bool := existsb (startswith (check_name c)) ["lint (ruff)"; "ruff"; "lint"].

(** The branches of the fleet. *)
Definition is_autonomy (pr_data : dict) : bool :=
  existsb (startswith (lower (pr_head_ref pr_data))) ["goal/"; "test/"; "improve/"; "spec-author/"].

(** [datetime.fromisoformat(v)]. *)
Definition iso_time (v : jval) : res datetime :=
  match v with
  | JTime t => Ok t
  | JStr _ => Raise (ValueError "Invalid isoformat string")
  | _ => Raise (TypeError "fromisoformat: argument must be str")
  end.

(** ** The reports of the static analysis *)

Definition object_items (v : jval) : res (list (string * jval)) :=
  match v with JObj l => Ok l | _ => Raise (OtherError "object has no attribute 'get'") end.
Definition sized (v : jval) : res nat :=
  match v with
  | JList l => Ok (length l)
  | JObj l => Ok (length l)
  | JStr s => Ok (String.length s)
  | _ => Raise (TypeError "object has no len()")
  end.

Definition count_detector (counts : list (string * Z)) (det : jval) : res (list (string * Z)) :=
  d <-? object_items det ;;
  let fs := jor (obj_get d "findings") (JList []) in
  if jtruthy fs then
    let code := jtext (default (JStr "?") (od_get "code" d)) in
    n <-? sized fs ;;
    Ok (od_set code (default 0%Z (od_get code counts) + Z.of_nat n)%Z counts)
  else Ok counts.
Definition count_repo (counts : list (string * Z)) (repo_result : jval) : res (list (string * Z)) :=
  r <-? object_items repo_result ;;
  dets <-? list_items (jor (obj_get r "detectors") (JList [])) ;;
  foldM count_detector counts dets.

Definition times_sign : string := String (ascii_of_nat 195) (String (ascii_of_nat 151) "").
Definition count_leb (a b : string * Z) : bool :=
  if String.eqb (fst a) (fst b) then (snd a <=? snd b)%Z else str_leb (fst a) (fst b).

(** Codes and counts only: none of the text the repository's authors wrote. *)
Definition finding_counts (report : jval) : res string :=
  results <-? list_items report ;;
  counts <-? foldM count_repo [] results ;;
  Ok (if list_truthy counts then
        "Custodian finding counts on current branch (verify each is " +:+ "resolved by the diff): " +:+
        join ", " (map (fun c => fst c +:+ times_sign +:+ str_of_Z (snd c)) (sorted_by count_leb counts))
      else "").

Definition finding_text (finding : jval) : res string :=
  f <-? object_items finding ;;
  let code := jtext (default (JStr "?") (od_get "code" f)) in
  let sample := strip (jtext (default (JStr "") (od_get "sample" f))) in
  Ok (if str_truthy sample then code +:+ ": " +:+ sample else code).
Definition repo_findings (repo_result : jval) : res (list string) :=
  r <-? object_items repo_result ;;
  fs <-? list_items (jor (obj_get r "findings") (JList [])) ;;
  mapM finding_text fs.
Definition all_findings (report : jval) : res (list string) :=
  results <-? list_items report ;;
  parts <-? mapM repo_findings results ;;
  Ok (concat parts).

Section Ci.
Context (env : review_env) (settings : ReviewSettings) (slug sp : string) (pr_data : dict).

(** The report on the clone of a repository, when it has one. *)
Definition custodian_report (cfg : option ReviewRepo) (fail_on_findings : bool) : RM (option (res jval)) :=
  match cfg ≫= rvr_local_path with
  | Some path => if str_truthy path then rsee (re_custodian env path fail_on_findings) else se_ret None
  | None => se_ret None
  end.
Definition custodian_findings (repo_key : string) : RM string :=
  report <<- custodian_report (od_get repo_key (rvs_repos settings)) false ;;
  se_ret (match report with
          | Some (Ok v) => match finding_counts v with Ok text => text | Raise _ => "" end
          | _ => ""
          end).
Definition custodian_audit_findings (cfg : option ReviewRepo) : RM (list string) :=
  report <<- custodian_report cfg true ;;
  se_ret (match report with
          | Some (Ok v) => match all_findings v with Ok fs => fs | Raise _ => [] end
          | _ => []
          end).

(** ** Phase 0 *)

Definition advance_to_review : RM unit := _ <<- st_set "phase" (JStr "self_review") ;; save_state env sp.

Definition audit_exhausted_body (attempts : Z) (findings : list string) : string :=
  rvs_bot_comment_marker settings +:+ nl +:+
  "**Audit auto-fix exhausted** — the `audit` (custodian) check is still " +:+
  "failing after " +:+ str_of_Z attempts +:+ " automated fix attempt(s). These findings " +:+
  "remain unresolved and need a human:" +:+ nl +:+ nl +:+
  re_sanitize env (join nl (map (fun f => "- " +:+ f) findings)).

Definition phase0_audit_autofix (attempts : Z) : RM unit :=
  _ <<- pr_number ;;
  repo_key <<- state_item "repo_key" ;;
  cfg <<- repo_cfg settings ;;
  let head_ref := strip (pr_head_ref pr_data) in
  findings <<- custodian_audit_findings cfg ;;
  if (MAX_CI_FIX_ATTEMPTS <=? attempts)%Z then
    _ <<- (if list_truthy findings
           then se_try (_ <<- gh slug (re_comment env) (PostComment (audit_exhausted_body attempts findings)) ;; se_ret tt)
                  (fun _ => se_ret tt)
           else se_ret tt) ;;
    advance_to_review
  else if negb (str_truthy head_ref) || negb (list_truthy findings) then advance_to_review
  else
    _ <<- st_count "ci_fix_attempts" (attempts + 1) ;;
    t <<- now env ;;
    _ <<- st_set "ci_fix_last_push_at" (JTime t) ;;
    _ <<- save_state env sp ;;
    dispatched <<- se_try
      (key <<- state_item "state_key" ;;
       _ <<- run_fix_pass env repo_key head_ref (format_audit_concerns findings) key "" ;; se_ret true)
      (fun _ => se_ret false) ;;
    if dispatched : bool then se_ret tt else advance_to_review.

(** Nothing has failed, and yet it is not green: a bounded wait. *)
Definition await_settled : RM unit :=
  cycles <<- se_get (fun w => n <-? jint (default (JInt 0) (rw_state w !! "ci_settle_cycles")) ;; Ok (n + 1)%Z) ;;
  _ <<- st_count "ci_settle_cycles" cycles ;;
  if (cycles <? MAX_CI_SETTLE_CYCLES)%Z then save_state env sp
  else
    _ <<- st_set "phase" (JStr "self_review") ;;
    _ <<- st_pop "ci_settle_cycles" ;;
    save_state env sp.

(** The codemod on a disposable checkout. *)
Definition ruff_fix (head_ref : string) (attempts : Z) : RM unit :=
  se_try
    (outcome <<- rask (re_ruff env) (RC_ruff head_ref) ;;
     match outcome with
     | Ruff_no_change | Ruff_push_failed => advance_to_review
     | Ruff_pushed =>
         _ <<- st_count "ci_fix_attempts" (attempts + 1) ;;
         t <<- now env ;;
         _ <<- st_set "ci_fix_last_push_at" (JTime t) ;;
         save_state env sp
     end)
    (fun _ => advance_to_review).

Definition repair (cfg : ReviewRepo) (failed : list string) : RM unit :=
  last_push <<- st_get "ci_fix_last_push_at" ;;
  waiting <<- (if jtruthy last_push
               then t <<- now env ;;
                    se_lift (at_ <-? iso_time last_push ;; d <-? dt_diff t at_ ;; Ok (d <? seconds CI_FIX_WAIT_SECONDS)%Z)
               else se_ret false) ;;
  if waiting : bool then se_ret tt
  else
    attempts <<- st_counter "ci_fix_attempts" ;;
    if existsb is_audit_check failed && rvs_autofix_audit settings then phase0_audit_autofix attempts
    else if (MAX_CI_FIX_ATTEMPTS <=? attempts)%Z then advance_to_review
    else if existsb (fun c => negb (is_fixable c)) failed && negb (existsb is_fixable failed) then advance_to_review
    else
      let head_ref := strip (pr_head_ref pr_data) in
      if negb (opt_truthy (rvr_local_path cfg)) || negb (str_truthy head_ref) then advance_to_review
      else ruff_fix head_ref attempts.

Definition phase0_ci_fix : RM unit :=
  _ <<- pr_number ;;
  cfg <<- repo_cfg settings ;;
  match cfg with
  | None => advance_to_review
  | Some r =>
      ci <<- ci_status env slug pr_data (rvr_ci_ignored_checks r) (rvr_required_checks r) ;;
      if ci_green ci then
        _ <<- st_set "phase" (JStr "self_review") ;;
        _ <<- st_pop "ci_settle_cycles" ;;
        save_state env sp
      else if negb (list_truthy (ci_failed ci)) then await_settled
      else
        _ <<- st_pop "ci_settle_cycles" ;;
        repair r (ci_failed ci)
  end.

(** ** The gate of self-review *)

(** [state.get("ci_check_history", {})]. *)
Definition check_history (s : dict) : res history := as_object (default (JObj []) (s !! "ci_check_history")).
Definition record_checks (failed completed : list string) : RM unit :=
  t <<- now env ;;
  s <<- the_state ;;
  h <<- se_lift (check_history s) ;;
  h <<- se_lift (update_check_history h failed completed (pr_head_sha pr_data) t) ;;
  st_set "ci_check_history" (JObj h).

Definition escalate_head (reason detail : string) : RM unit :=
  escalate_needs_human env settings slug sp reason detail (pr_head_sha pr_data).
Definition first_five (l : list string) : string := join ", " (take 5 l).

Definition ci_is_red (required failed : list string) (cycles : Z) : RM unit :=
  s <<- the_state ;;
  h <<- se_lift (check_history s) ;;
  reason <<- se_lift (should_escalate_ci_wait h cycles failed required) ;;
  match reason with
  | Some r =>
      escalate_head r
        ("CI has not gone green after " +:+ str_of_Z cycles +:+ " checks (" +:+ str_of_Z (Z.of_nat (length failed)) +:+
         " failing: " +:+ first_five failed +:+ "). Not merged (red CI) and not closed (work preserved) — needs a human to fix CI.")
  | None => save_state env sp
  end.

(** A wait of at most [limit] polls. *)
Definition wait_or_escalate (cycles limit : Z) (reason detail : string) : RM unit :=
  if (cycles <? limit)%Z then save_state env sp else escalate_head reason detail.

Definition not_closed : string := "Not merged (CI incomplete) and not closed (work preserved) — ".

Definition ci_unsettled (required pending completed missing_required : list string) (cycles : Z) : RM unit :=
  let n := str_of_Z cycles in
  if list_truthy pending then
    wait_or_escalate cycles 40 "ci_never_settled_pending"
      ("CI checks still pending after " +:+ n +:+ " cycles: " +:+ str_of_Z (Z.of_nat (length pending)) +:+
       " still running: " +:+ first_five pending +:+ ". " +:+ not_closed +:+ "needs a human to investigate stuck CI.")
  else if negb (list_truthy completed) then
    wait_or_escalate cycles 60 "ci_never_settled_no_checks"
      ("No CI checks have reported on this head after " +:+ n +:+ " cycles. " +:+ not_closed +:+
       "needs a human to investigate stuck CI.")
  else
    s <<- the_state ;;
    h <<- se_lift (check_history s) ;;
    let '(never_reg, late_reg, stuck) := classify_missing_checks h missing_required required in
    if list_truthy never_reg then
      escalate_head "ci_misconfigured_check"
        ("Required checks not found in branch protection: " +:+ repr_list never_reg +:+
         ". This indicates a CI configuration error. " +:+ not_closed +:+ "needs a human to fix CI configuration.")
    else if list_truthy late_reg then
      wait_or_escalate cycles 60 "ci_never_settled_late_registration"
        ("Required checks have not registered after " +:+ n +:+ " cycles: " +:+ repr_list late_reg +:+
         ". Likely a workflow that requires manual trigger or configuration. " +:+ not_closed +:+ "needs a human to investigate.")
    else if list_truthy stuck then
      wait_or_escalate cycles 40 "ci_never_settled_stuck_check"
        ("Checks reported before but not on this head after " +:+ n +:+ " cycles: " +:+ repr_list stuck +:+
         ". Likely a flaky runner or stuck workflow. " +:+ not_closed +:+ "needs a human to investigate.")
    else save_state env sp.

(** One more poll spent on waiting. *)
Definition count_wait : RM Z :=
  n <<- st_counter "ci_wait_cycles" ;;
  _ <<- st_count "ci_wait_cycles" (n + 1) ;;
  se_ret (n + 1)%Z.

(** Whether the checks have settled and are green; if not, the wait is counted. *)
Definition ci_settled (r : ReviewRepo) : RM bool :=
  let ignored := rvr_ci_ignored_checks r in
  let required := rvr_required_checks r in
  failed <<- get_failed_checks env slug pr_data ignored ;;
  if list_truthy failed then
    cycles <<- count_wait ;;
    completed <<- get_completed_checks env slug pr_data ignored ;;
    _ <<- record_checks failed completed ;;
    _ <<- ci_is_red required failed cycles ;;
    se_ret false
  else
    pending <<- get_incomplete_checks env slug pr_data ignored ;;
    completed <<- get_completed_checks env slug pr_data ignored ;;
    let missing_required := missing_of required completed in
    if list_truthy pending || negb (list_truthy completed) || list_truthy missing_required then
      cycles <<- count_wait ;;
      _ <<- record_checks [] completed ;;
      _ <<- ci_unsettled required pending completed missing_required cycles ;;
      se_ret false
    else
      _ <<- st_count "ci_wait_cycles" 0 ;;
      se_ret true.

(** Whether self-review may start; an exception lets it start. *)
Definition ci_gate (cfg : option ReviewRepo) : RM bool :=
  match cfg with
  | Some r => if rvr_auto_merge_on_ci_green r && is_autonomy pr_data
              then se_try (ci_settled r) (fun _ => se_ret true) else se_ret true
  | None => se_ret true
  end.
End Ci.
