(* ===== verification/ReviewVerdict.v ===== *)
(** * What follows a review

    entrypoints/pr_review_watcher/main.py: one reviewer's run and the verdict
    computed from it, the merge or the climb of the ladder of fixes that follows,
    and the council that reviews what touches a guardrail. *)
From S2P Require Import Prelude PyStr PyData TextLines UsageCooldown LimitClassifier BoardIssues FenceSafety Verdict ReviewWorld ReviewText ReviewMerge ReviewCi.
From Stdlib Require Import Ascii.

Definition MAX_CI_GREEN_RETRACTIONS : Z := 3.

Definition ReviewerBackendError (msg : string) : exn := NamedError "ReviewerBackendError" msg.
Definition OCSourceTreeUncleanError (msg : string) : exn := NamedError "OCSourceTreeUncleanError" msg.
Definition is_backend_error (e : exn) : bool :=
  match e with NamedError cls _ => String.eqb cls "ReviewerBackendError" | _ => false end.

(** ** One reviewer *)

(** member_runner.py. *)
Definition build_member_argv (backend model prompt : string) : option (list string) :=
  if String.eqb backend "claude_code" then
    Some ["claude"; "--model"; model; "-p"; "--effort"; "low"; "--permission-mode"; "acceptEdits"; prompt]
  else if String.eqb backend "codex_cli" then
    Some ["codex"; "exec"; "--dangerously-bypass-approvals-and-sandbox"; prompt]
  else None.

Definition last_chars (n : nat) (s : string) : string := str_drop (String.length s - n) s.

(** [raw.get(k)] when [raw] is an object. *)
Definition raw_field (raw : jval) (k : string) : jval := match raw with JObj l => obj_get l k | _ => JNull end.

Definition verdict_of_raw (raw : jval) : res verdict :=
  let checks := raw_field raw "checks" in
  v <-? compute_verdict checks ;;
  let '(result, failing) := v in
  Ok {| vd_result := result; vd_failing := failing;
        vd_summary := if String.eqb result CONCERNS then failing_summary checks failing
                      else jtext (jor (raw_field raw "summary") (JStr "")) |}.

Section Verdicts.
Context (env : review_env) (settings : ReviewSettings) (slug sp : string) (pr_data : dict).

(** What the reviewer left: its file when it reads as JSON, else the last object
    it printed. *)
Definition raw_verdict (file : option (res jval)) (stdout : string) : option jval :=
  match file with
  | Some (Ok JNull) | Some (Raise _) | None => JObj <$> last_json_object (re_raw_decode env) stdout
  | Some (Ok v) => Some v
  end.

Definition unclean_text (conflicted : list string) : string :=
  "OC source tree at " +:+ re_oc_root env +:+ " has git conflict markers in " +:+
  str_of_Z (Z.of_nat (length conflicted)) +:+ " tracked file(s) (" +:+ join ", " (take 3 conflicted) +:+
  (if 3 <? length conflicted then "…" else "") +:+
  ") — a concurrent session left the shared checkout dirty; refusing to run the reviewer (it would crash at import).".

Definition run_member_review (goal_text key backend model : string) : RM (option verdict) :=
  conflicted <<- rsee (re_conflicted env) ;;
  if list_truthy conflicted then se_lift (Raise (OCSourceTreeUncleanError (unclean_text conflicted)))
  else match build_member_argv backend model goal_text with
  | None => se_lift (Raise (ReviewerBackendError
              ("no CLI invocation known for backend=" +:+ repr backend +:+ " model=" +:+ repr model +:+ " (state_key=" +:+ key +:+ ")")))
  | Some _ =>
      run <<- rask (re_review env) (RC_review backend model key goal_text) ;;
      match run with
      | MR_timeout => se_lift (Raise (ReviewerBackendError
          ("member review timed out (300s) for state_key=" +:+ key +:+ " backend=" +:+ backend +:+ " model=" +:+ model)))
      | MR_exit returncode file stdout =>
          match raw_verdict file stdout with
          | Some raw => v <<- se_lift (verdict_of_raw raw) ;; se_ret (Some v)
          | None =>
              if (returncode =? 0)%Z then se_ret None
              else se_lift (Raise (ReviewerBackendError
                ("reviewer process exited with rc=" +:+ str_of_Z returncode +:+ " for state_key=" +:+ key +:+ " backend=" +:+
                 backend +:+ " model=" +:+ model +:+ " (stdout_tail=" +:+ repr (last_chars 500 (strip stdout)) +:+ ")")))
          end
      end
  end.

Definition run_direct_review (goal_text key : string) : RM (option verdict) :=
  run_member_review goal_text key "claude_code" "haiku".

(** A review that could not run: counted by its cause, and flagged when it
    keeps failing; anything else is raised on. *)
Definition review_skipped (counter_key reason : string) (e : exn) : RM unit :=
  n <<- st_counter counter_key ;;
  _ <<- st_count counter_key (n + 1) ;;
  _ <<- (if (rvs_max_self_review_loops settings <=? n + 1)%Z then
           _ <<- escalate_needs_human env settings slug sp reason (exn_text e) (pr_head_sha pr_data) ;;
           st_count counter_key 0
         else se_ret tt) ;;
  save_state env sp.
Definition on_review_error (e : exn) : RM unit :=
  if is_source_tree_unclean e then review_skipped "env_unclean_passes" "oc_source_tree_unclean" e
  else if is_backend_error e then review_skipped "backend_error_passes" "reviewer_backend_unavailable" e
  else se_lift (Raise e).

(** ** Cooldowns *)

(** The model family a cooldown or a seat names. *)
Definition model_family (model : string) : string := default model (detect_model (Some model) (Some model)).
Definition entry_cools (seat_family : string) (entry : dict) : bool :=
  if jeq_str (dget entry "limit_kind") MODEL_WEEKLY then
    match dget entry "model" with JStr m => String.eqb (model_family m) seat_family | _ => false end
  else true.
Definition member_on_cooldown (backend model : string) : RM bool :=
  details <<- se_try (ds <<- rask (re_cooldowns env) (RC_cooldowns backend) ;; se_ret (Some ds)) (fun _ => se_ret None) ;;
  se_ret (match details with Some ds => existsb (entry_cools (model_family model)) ds | None => false end).

Definition council_exempt_self_fix : bool := startswith (lower (strip (pr_head_ref pr_data))) "review/".

(** ** The outcome of a verdict *)

Definition track_concern_raised (summary : string) : RM unit :=
  let sha := pr_head_sha pr_data in
  _ <<- st_default "concern_history" (JObj []) ;;
  s <<- the_state ;;
  h <<- se_lift (as_object (dget s "concern_history")) ;;
  let signature := normalize_concerns_signature (re_sha256 env) summary in
  known <<- se_lift (match od_get signature h with
                     | Some rec => r <-? object_items rec ;; Ok (jeq_str (obj_get r "head_sha") sha)
                     | None => Ok false
                     end) ;;
  _ <<- (if str_truthy signature && negb known then
           t <<- now env ;;
           st_set "concern_history" (JObj (od_set signature
             (JObj [("head_sha", JStr sha); ("summary", JStr summary); ("raised_at", JTime t);
                    ("fix_attempts_on_this_concern", JInt 0)]) h))
         else se_ret tt) ;;
  _ <<- st_set "last_concerns_head_sha" (JStr sha) ;;
  st_set "last_concerns_summary" (JStr summary).

(** The last pass pushed nothing and the head is the one it was run on. *)
Definition repeated_no_progress : RM bool :=
  n <<- st_counter "fix_attempts" ;;
  pushed <<- st_get "last_fix_pass_pushed" ;;
  last <<- st_text "last_concerns_head_sha" ;;
  let sha := pr_head_sha pr_data in
  se_ret ((0 <? n)%Z && match pushed with JBool false => true | _ => false end && str_truthy sha && String.eqb sha last).

(** Merge what the checks validated, once the retractions are spent; whether
    the merge was tried. *)
Definition merge_on_ci : RM bool :=
  retractions <<- st_counter "ci_green_retraction_count" ;;
  if negb (MAX_CI_GREEN_RETRACTIONS <=? retractions)%Z then se_ret false
  else
    cfg <<- repo_cfg settings ;;
    match cfg with
    | Some r =>
        if rvr_auto_merge_on_ci_green r && is_autonomy pr_data then
          se_try
            (ci <<- ci_status env slug pr_data (rvr_ci_ignored_checks r) (rvr_required_checks r) ;;
             if ci_green ci then
               _ <<- merge_and_done env settings slug sp pr_data "ci_validated_after_retraction" ;; se_ret true
             else se_ret false)
            (fun _ => se_ret false)
        else se_ret false
    | None => se_ret false
    end.

(** [int(state.get("fix_strategy_level", 0))]. *)
Definition ladder_level : RM Z := se_get (fun w => jint (default (JInt 0) (rw_state w !! "fix_strategy_level"))).

(** [state["escalated_head_sha"] = head or the recorded one], then the flag. *)
Definition escalate_pinned (reason detail : string) : RM unit :=
  old <<- st_get "escalated_head_sha" ;;
  _ <<- st_set "escalated_head_sha" (jor (JStr (pr_head_sha pr_data)) old) ;;
  escalate_needs_human env settings slug sp reason detail (pr_head_sha pr_data).

(** The next rung; whether one was left. *)
Definition climb_ladder (summary : string) : RM bool :=
  level <<- ladder_level ;;
  if (level + 1 <=? rvs_max_fix_strategy_level settings)%Z then
    _ <<- st_count "fix_strategy_level" (level + 1) ;;
    _ <<- save_state env sp ;;
    se_ret true
  else
    _ <<- escalate_pinned "fix_pass_no_progress"
      ("The automated fix passes exhausted the Self-Heal Ladder (reached " +:+
       "L" +:+ str_of_Z level +:+ "/" +:+ str_of_Z (rvs_max_fix_strategy_level settings) +:+ ") without changing " +:+
       "the branch; a fresh self-review on the same PR head still finds " +:+
       "concerns. Further autonomous retries would repeat without progress." +:+ nl +:+ nl +:+
       "Latest concerns:" +:+ nl +:+ nl +:+ summary) ;;
    se_ret false.

Definition concern_body (summary : string) : string :=
  rvs_bot_comment_marker settings +:+ nl +:+ "**Self-review concerns** — auto-fixing (up to " +:+
  str_of_Z (rvs_max_fix_attempts settings) +:+ " attempts; re-queued if still unresolved):" +:+ nl +:+ nl +:+
  re_sanitize env summary.

(** The head that our own pass left. *)
Definition record_fix_push : RM unit :=
  se_try (v <<- gh slug (re_get_pr env) GetPr ;;
          l <<- se_lift (object_items v) ;;
          st_set "last_fix_push_sha" (JStr (pr_head_sha (list_to_map l))))
    (fun _ => st_pop "last_fix_push_sha").

(** A flag another process raised meanwhile is kept. *)
Definition keep_external_flag : RM unit :=
  disk <<- load_state env sp ;;
  mine <<- st_truthy "escalated_needs_human" ;;
  if jtruthy (dget disk "escalated_needs_human") && negb mine then
    _ <<- st_set "escalated_needs_human" (JBool true) ;;
    old <<- st_get "escalated_head_sha" ;;
    st_set "escalated_head_sha" (jor (dget disk "escalated_head_sha") old)
  else se_ret tt.

(** One pass that fixes, its attempt counted before it starts. *)
Definition dispatch_fix (summary head_ref diff : string) : RM unit :=
  repo_key <<- state_item "repo_key" ;;
  key <<- state_item "state_key" ;;
  n <<- se_get (fun w => v <-? ditem (rw_state w) "fix_attempts" ;; number v) ;;
  _ <<- st_count "fix_attempts" (n + 1) ;;
  _ <<- st_set "last_concerns_head_sha" (JStr (pr_head_sha pr_data)) ;;
  _ <<- st_pop "last_fix_pass_pushed" ;;
  _ <<- save_state env sp ;;
  level <<- ladder_level ;;
  nonce <<- rsee (re_nonce env) ;;
  pushed <<- run_fix_pass env repo_key head_ref summary key (ladder_enrichment nonce level diff) ;;
  _ <<- st_set "last_concerns_summary" (JStr (normalize_concerns_summary summary)) ;;
  _ <<- st_set "last_fix_pass_pushed" (JBool pushed) ;;
  _ <<- (if pushed : bool then record_fix_push else se_ret tt) ;;
  _ <<- keep_external_flag ;;
  save_state env sp.

(** Concerns that are not stuck: fix them, or give the pull request up. *)
Definition fix_or_close (summary diff : string) : RM unit :=
  n <<- se_get (fun w => v <-? ditem (rw_state w) "fix_attempts" ;; number v) ;;
  if (rvs_max_fix_attempts settings <=? n)%Z then
    close_and_requeue env settings slug sp pr_data "fix_attempts_exhausted"
      ("Could not resolve review concerns after " +:+ str_of_Z n +:+ " fix attempts. Last concerns:" +:+ nl +:+ nl +:+ summary)
      summary
  else
    _ <<- (if (n =? 0)%Z then post_and_remember env slug "concerns_comment_id" (concern_body summary) else se_ret tt) ;;
    let head_ref := pr_head_ref pr_data in
    if negb (str_truthy head_ref) then
      close_and_requeue env settings slug sp pr_data "no_head_ref"
        "The PR head branch could not be determined, so concerns cannot be auto-fixed." ""
    else dispatch_fix summary head_ref diff.

Definition dispatch_verdict_outcome (result summary diff : string) : RM unit :=
  _ <<- pr_number ;;
  let sha := pr_head_sha pr_data in
  _ <<- (if String.eqb result CONCERNS && str_truthy sha then track_concern_raised summary else se_ret tt) ;;
  _ <<- publish_reviewer_verdict env slug sha (if String.eqb result LGTM then "success" else "failure")
          (if String.eqb result LGTM then "reviewer LGTM" else "reviewer concerns — auto-fixing") ;;
  if String.eqb result LGTM then merge_and_done env settings slug sp pr_data "self_review_lgtm"
  else
    stuck <<- repeated_no_progress ;;
    if stuck : bool then
      merged <<- merge_on_ci ;;
      if merged : bool then se_ret tt
      else
        go_on <<- climb_ladder summary ;;
        if go_on : bool then fix_or_close summary diff else se_ret tt
    else fix_or_close summary diff.

(** ** The council *)

Definition council_goal (pr_number : Z) (title diff_excerpt spec_section custodian_section nonce : string)
    (guardrail_hits : list string) : string :=
  "## TASK TYPE: Read-only code review (cross-family council seat)" +:+ nl +:+
  "## SINGLE REQUIRED ACTION: Write verdict.json — no other file changes allowed" +:+ nl +:+ nl +:+
  UNTRUSTED_PREAMBLE +:+ nl +:+ nl +:+
  "This PR touches guardrail-surface paths and is adjudicated by a cross-family " +:+
  "review council (COUNCIL_VERDICT.md C1) instead of a single self-review — " +:+
  "unanimous LGTM across all available seats is required to merge; any CONCERNS " +:+
  "blocks the merge and feeds the existing auto-fix ladder." +:+ nl +:+ nl +:+
  "Guardrail paths touched: " +:+ join ", " (take 10 (sorted_by str_leb guardrail_hits)) +:+ nl +:+ nl +:+
  "Review the following pull-request diff for correctness, style, and spec compliance." +:+ nl +:+ nl +:+
  "PR #" +:+ str_of_Z pr_number +:+ " title: " +:+ fence "pr-title" title nonce +:+ nl +:+ nl +:+
  fence "pr-diff" diff_excerpt nonce +:+ spec_section +:+ custodian_section +:+ nl +:+ nl.

Definition review_checklist : string :=
  "**Review checklist** — report a status for each:" +:+ nl +:+
  "1. spec_compliance: if a campaign spec is provided above, the diff implements EXACTLY what" +:+ nl +:+
  "   it requires — correct filenames, member names, member count, exports, tests, version bumps." +:+ nl +:+
  "2. custodian_findings: if Custodian findings are listed above, each is resolved by the diff." +:+ nl +:+
  "3. code_quality: correctness, style, potential bugs." +:+ nl +:+
  "4. no_tooling_artifacts: no .baseline-validation.json, run-status.md, etc. in the diff." +:+ nl +:+ nl +:+
  verdict_schema_prompt.

(** The seats that can run now. *)
Fixpoint available_seats (panel : list seat) : RM (list seat) :=
  match panel with
  | [] => se_ret []
  | s :: rest =>
      cooled <<- member_on_cooldown (seat_backend s) (seat_model s) ;;
      more <<- available_seats rest ;;
      se_ret (if cooled : bool then more else s :: more)
  end.

Definition no_verdict (s : seat) : verdict :=
  {| vd_result := CONCERNS; vd_failing := ["no_verdict"];
     vd_summary := seat_backend s +:+ "/" +:+ seat_model s +:+ " produced no parseable verdict" |}.

(** Every seat reviews, one after the other. *)
Fixpoint hear_members (goal : string -> string) (key : string) (seats : list seat) : RM (list member_result) :=
  match seats with
  | [] => se_ret []
  | s :: rest =>
      v <<- run_member_review (goal (seat_lens s))
              (key +:+ "-council-" +:+ seat_backend s +:+ "-" +:+ seat_model s) (seat_backend s) (seat_model s) ;;
      more <<- hear_members goal key rest ;;
      se_ret ({| mr_seat := s; mr_verdict := default (no_verdict s) v |} :: more)
  end.

Definition default_budgets : RM unit :=
  _ <<- st_default "fix_attempts" (JInt 0) ;;
  _ <<- st_default "no_verdict_passes" (JInt 0) ;;
  _ <<- st_default "env_unclean_passes" (JInt 0) ;;
  _ <<- st_default "backend_error_passes" (JInt 0) ;;
  st_default "no_verdict_escalation_count" (JInt 0).

Definition number_of_seats : string := str_of_Z (Z.of_nat (length COUNCIL_PANEL)).

(** Too few seats can run: the pull request waits. *)
Definition park_council (available : list seat) (t : datetime) : RM unit :=
  let min_members := str_of_Z (rvs_min_council_members settings) in
  let n := str_of_Z (Z.of_nat (length available)) in
  let cooled := sorted_by str_leb (map (fun s => seat_backend s +:+ "/" +:+ seat_model s)
                  (List.filter (fun s => negb (bool_decide (s ∈ available))) COUNCIL_PANEL)) in
  let names := join ", " cooled in
  _ <<- st_set "council_park" (JBool true) ;;
  _ <<- st_default "council_park_started_at" (JTime t) ;;
  _ <<- st_count "council_available_members" (Z.of_nat (length available)) ;;
  escalate_needs_human env settings slug sp "reviewer_backend_unavailable"
    ("Guardrail-surface PR requires a " +:+ min_members +:+ "-member cross-family council " +:+
     "(COUNCIL_VERDICT.md C1); only " +:+ n +:+ "/" +:+ number_of_seats +:+ " panel seats " +:+
     "are runnable right now (cooled: " +:+ (if str_truthy names then names else "n/a") +:+ "). Parked — not merged " +:+
     "(unresolved) and not closed (work preserved); automated review resumes once enough " +:+
     "panel members recover, the PR head changes, or a human intervenes.") (pr_head_sha pr_data).

Definition member_line (m : member_result) : string :=
  let '(s, v) := (mr_seat m, mr_verdict m) in
  "- `" +:+ seat_backend s +:+ "/" +:+ seat_model s +:+ "` (" +:+ seat_lens s +:+ "): **" +:+ vd_result v +:+ "**" +:+
  (if list_truthy (vd_failing v) then " — " +:+ join ", " (vd_failing v) else "").
Definition member_record (m : member_result) : jval :=
  let '(s, v) := (mr_seat m, mr_verdict m) in
  JObj [("backend", JStr (seat_backend s)); ("model", JStr (seat_model s)); ("lens", JStr (seat_lens s));
        ("result", JStr (vd_result v)); ("failing_checks", JList (map JStr (vd_failing v)));
        ("summary", JStr (vd_summary v))].

Definition council_record (repo_key : string) (n : Z) (available : list seat) (guardrail_hits : list string)
    (aggregate : council_verdict) : jval :=
  JObj [("pr_number", JInt n); ("repo_key", JStr repo_key); ("head_sha", JStr (pr_head_sha pr_data));
        ("panel_size", JInt (Z.of_nat (length COUNCIL_PANEL))); ("available_members", JInt (Z.of_nat (length available)));
        ("degraded_quorum", JBool (length available <? length COUNCIL_PANEL));
        ("guardrail_hits", JList (map JStr (sorted_by str_leb guardrail_hits)));
        ("result", JStr (cv_result aggregate)); ("per_member", JList (map member_record (cv_per_member aggregate)));
        ("summary", JStr (cv_summary aggregate))].

Definition council_comment (available : list seat) (guardrail_hits : list string) (aggregate : council_verdict) : string :=
  rvs_bot_comment_marker settings +:+ nl +:+ "**Council review: " +:+ cv_result aggregate +:+ "** (cross-family panel, " +:+
  "guardrail paths: " +:+ join ", " (take 10 (sorted_by str_leb guardrail_hits)) +:+ ")" +:+ nl +:+ nl +:+
  join nl (map member_line (cv_per_member aggregate)) +:+
  (if length available <? length COUNCIL_PANEL
   then nl +:+ nl +:+ "_Degraded quorum: " +:+ str_of_Z (Z.of_nat (length available)) +:+ "/" +:+ number_of_seats +:+ " seats available._"
   else "") +:+
  nl +:+ nl +:+ re_sanitize env (cv_summary aggregate).

(** What follows when all seats have been heard. *)
Definition council_decides (available : list seat) (guardrail_hits : list string) (diff : string)
    (results : list member_result) : RM unit :=
  n <<- pr_number ;;
  repo_key <<- state_item "repo_key" ;;
  _ <<- st_count "env_unclean_passes" 0 ;;
  _ <<- st_count "backend_error_passes" 0 ;;
  let aggregate := aggregate_council results in
  _ <<- rask (re_write env) (RC_council_record (state_key repo_key n) (council_record repo_key n available guardrail_hits aggregate)) ;;
  _ <<- se_try (_ <<- gh slug (re_comment env) (PostComment (council_comment available guardrail_hits aggregate)) ;; se_ret tt)
          (fun _ => se_ret tt) ;;
  dispatch_verdict_outcome (cv_result aggregate) (cv_summary aggregate) diff.

(** [inl] when the review was skipped. *)
Definition or_skip {A} (m : RM A) (k : A -> RM unit) : RM unit :=
  heard <<- se_try (a <<- m ;; se_ret (Some a)) (fun e => _ <<- on_review_error e ;; se_ret None) ;;
  match heard with Some a => k a | None => se_ret tt end.

Definition read_only_tail : string :=
  "CRITICAL: Do NOT modify any source files in the repository. " +:+
  "Do NOT run tests, build, or push. " +:+
  "Your ONLY permitted action is writing verdict.json to the current directory.".

Definition run_council (title diff diff_excerpt spec_section custodian_section nonce : string)
    (guardrail_hits : list string) : RM unit :=
  n <<- pr_number ;;
  _ <<- state_item "repo_key" ;;
  key <<- state_item "state_key" ;;
  _ <<- default_budgets ;;
  t <<- now env ;;
  available <<- available_seats COUNCIL_PANEL ;;
  if (Z.of_nat (length available) <? rvs_min_council_members settings)%Z then park_council available t
  else
    _ <<- st_pop "council_park" ;;
    _ <<- st_pop "council_park_started_at" ;;
    let goal := fun lens => council_goal n title diff_excerpt spec_section custodian_section nonce guardrail_hits +:+
                            review_checklist +:+ council_lens_fragment lens +:+ nl +:+ nl +:+ read_only_tail in
    or_skip (hear_members goal key available) (council_decides available guardrail_hits diff).
End Verdicts.
