(* ===== verification/ReviewPhases.v ===== *)
(** * The second phase, and a poll

    entrypoints/pr_review_watcher/main.py: what a flagged pull request waits
    for, the review itself, and the sweep over the open pull requests of every
    repository. *)
From S2P Require Import Prelude PyStr PyData TextLines BoardIssues FenceSafety Verdict ReviewWorld ReviewText ReviewMerge ReviewCi ReviewVerdict.
From Stdlib Require Import Ascii.

Definition BACKEND_UNAVAILABLE_RESUME_S : Z := 3600.
Definition DIFF_LIMIT : nat := Z.to_nat 60000.
Definition STUCK_GREEN_ESCALATION_THRESHOLD : Z := 3.
Definition REVIEW_FALLBACK_MODELS (backend : string) : option string := od_get backend [("codex_cli", "codex")].

(** What stands for the diff of a pull request without one. *)
Definition NO_CONTENT_DIFF : string :=
  "(This pull request changes no files." +:+ nl +:+
  "It is a no-content change -- typically a merge that reconciles history" +:+ nl +:+
  "without moving content. Judge it on its title, description and commit" +:+ nl +:+
  "structure rather than on a diff.)" +:+ nl.

Section Phases.
Context (env : review_env) (settings : ReviewSettings) (slug sp : string) (pr_data : dict).

(** ** What a flagged pull request waits for *)

(** A head that moved by another's push starts afresh. *)
Definition reset_on_push : RM unit :=
  let sha := pr_head_sha pr_data in
  previous <<- st_text "last_concerns_head_sha" ;;
  last_fix <<- st_text "last_fix_push_sha" ;;
  n <<- st_counter "fix_attempts" ;;
  s <<- the_state ;;
  let unrecorded := (0 <? n)%Z && negb (bool_decide (is_Some (s !! "last_fix_pass_pushed"))) in
  let ours := (str_truthy last_fix && String.eqb sha last_fix) || unrecorded in
  if jtruthy (dget s "concerns_comment_id") && str_truthy sha && str_truthy previous && negb (String.eqb sha previous) && negb ours then
    _ <<- retract_flag env slug "superseded by new push — re-review resumed" ;;
    _ <<- st_count "fix_attempts" 0 ;;
    _ <<- st_pop "last_concerns_summary" ;;
    _ <<- st_pop "last_concerns_head_sha" ;;
    _ <<- st_pop "last_fix_pass_pushed" ;;
    _ <<- st_pop "last_fix_push_sha" ;;
    _ <<- st_pop "fix_strategy_level" ;;
    save_state env sp
  else se_ret tt.

(** Seconds from [since] to now reached [limit]. *)
Definition elapsed (since : datetime) (limit : Z) : RM bool :=
  t <<- now env ;; se_lift (d <-? dt_diff t since ;; Ok (seconds limit <=? d)%Z).

(** A council that has been parked for too long is flagged once more. *)
Definition council_cap (escalated_at : option datetime) : RM bool :=
  s <<- the_state ;;
  if negb (jtruthy (dget s "council_park")) then se_ret false
  else
    let cap := rvs_max_council_park_hours settings in
    let started := match fromisoformat_str (dget s "council_park_started_at") with Some t => Some t | None => escalated_at end in
    match started with
    | None => se_ret false
    | Some t0 =>
        capped <<- elapsed t0 (cap * 3600) ;;
        if capped : bool then
          _ <<- st_set "escalated_needs_human" (JBool false) ;;
          _ <<- escalate_needs_human env settings slug sp "council_unavailable_capped"
            ("Reviewer council has been parked (insufficient cross-family " +:+
             "quorum) for over " +:+ str_of_Z cap +:+ "h — this is no longer a transient " +:+
             "backend cooldown. Surfacing distinctly instead of continuing to " +:+
             "silently auto-resume and re-park.") (pr_head_sha pr_data) ;;
          se_ret true
        else se_ret false
    end.

(** A flag for want of a backend expires. *)
Definition expire_park : RM unit :=
  s <<- the_state ;;
  if jtruthy (dget s "escalated_needs_human") && jeq_str (dget s "escalated_reason") "reviewer_backend_unavailable" then
    let escalated_at := fromisoformat_str (dget s "escalated_at_utc") in
    held <<- council_cap escalated_at ;;
    over <<- (if held : bool then se_ret false
              else match escalated_at with None => se_ret true | Some t0 => elapsed t0 BACKEND_UNAVAILABLE_RESUME_S end) ;;
    if over : bool then
      _ <<- retract_flag env slug "backend cooldown elapsed — automated review resumed" ;;
      _ <<- st_set "escalated_needs_human" (JBool false) ;;
      _ <<- st_pop "escalated_head_sha" ;;
      _ <<- st_pop "escalated_reason" ;;
      _ <<- st_pop "escalated_at_utc" ;;
      _ <<- st_count "backend_error_passes" 0 ;;
      _ <<- st_pop "council_park" ;;
      _ <<- st_pop "council_park_started_at" ;;
      save_state env sp
    else se_ret tt
  else se_ret tt.

(** A concern that was raised on this head, or within a day. *)
Definition record_unfixed (escalated_head : string) (t : datetime) (rec : jval) : res bool :=
  r <-? object_items rec ;;
  let head := default (JStr "") (od_get "head_sha" r) in
  let raised := default (JStr "") (od_get "raised_at" r) in
  Ok (jtruthy head && jtruthy raised &&
      match raised with
      | JTime at_ => match dt_diff t at_ with
                     | Ok d => jeq_str head escalated_head || (d <? seconds 86400)%Z
                     | Raise _ => false
                     end
      | _ => false
      end).
Fixpoint any_unfixed (escalated_head : string) (t : datetime) (records : list (string * jval)) : res bool :=
  match records with
  | [] => Ok false
  | (_, rec) :: rest =>
      u <-? record_unfixed escalated_head t rec ;; if u : bool then Ok true else any_unfixed escalated_head t rest
  end.
Definition unfixed_concerns : RM bool :=
  let sha := pr_head_sha pr_data in
  last <<- st_text "last_concerns_head_sha" ;;
  if str_truthy sha && String.eqb sha last then se_ret true
  else
    s <<- the_state ;;
    let history := default (JObj []) (s !! "concern_history") in
    escalated_head <<- st_text "escalated_head_sha" ;;
    if jtruthy history && str_truthy escalated_head then
      t <<- now env ;;
      se_lift (h <-? as_object history ;; any_unfixed escalated_head t h)
    else se_ret false.

Definition retract_on_green (retracted : Z) : RM unit :=
  _ <<- retract_flag env slug ("CI green on unchanged head — test suite validates " +:+ "implementation; automated review resumed") ;;
  _ <<- st_set "escalated_needs_human" (JBool false) ;;
  _ <<- st_pop "escalated_head_sha" ;;
  _ <<- st_count "no_verdict_passes" 0 ;;
  _ <<- st_count "fix_attempts" 0 ;;
  _ <<- st_pop "last_concerns_summary" ;;
  _ <<- st_pop "last_concerns_head_sha" ;;
  _ <<- st_pop "last_fix_pass_pushed" ;;
  _ <<- st_count "ci_green_retraction_count" (retracted + 1) ;;
  save_state env sp.

(** Whether a green head that has no open concern lifts the flag. *)
Definition lifted_by_green : RM bool :=
  unfixed <<- unfixed_concerns ;;
  if unfixed : bool then se_ret false
  else
    retracted <<- st_counter "ci_green_retraction_count" ;;
    if (MAX_CI_GREEN_RETRACTIONS <=? retracted)%Z then se_ret false
    else
    cfg <<- repo_cfg settings ;;
    match cfg with
    | Some r =>
        if rvr_auto_merge_on_ci_green r && is_autonomy pr_data then
          se_try
            (ci <<- ci_status env slug pr_data (rvr_ci_ignored_checks r) (rvr_required_checks r) ;;
             if ci_green ci then _ <<- retract_on_green retracted ;; se_ret true else se_ret false)
            (fun _ => se_ret false)
        else se_ret false
    | None => se_ret false
    end.

(** Whether the review goes on. *)
Definition past_flag : RM bool :=
  flagged <<- st_truthy "escalated_needs_human" ;;
  if negb flagged then se_ret true
  else
    let sha := pr_head_sha pr_data in
    escalated_head <<- st_text "escalated_head_sha" ;;
    if negb (str_truthy escalated_head) then
      if str_truthy sha then
        _ <<- st_set "escalated_head_sha" (JStr sha) ;; _ <<- save_state env sp ;; se_ret false
      else
        _ <<- st_set "escalated_needs_human" (JBool false) ;;
        _ <<- st_count "no_verdict_passes" 0 ;;
        _ <<- save_state env sp ;;
        se_ret true
    else if str_truthy sha && negb (String.eqb sha escalated_head) then
      _ <<- retract_flag env slug "new push — automated review resumed" ;;
      _ <<- st_set "escalated_needs_human" (JBool false) ;;
      _ <<- st_pop "escalated_head_sha" ;;
      _ <<- st_count "no_verdict_passes" 0 ;;
      _ <<- save_state env sp ;;
      se_ret true
    else lifted_by_green.

(** ** The evidence of a review *)

(** The text of the spec of an active campaign; nothing on any error. *)
Definition load_campaign_spec : RM string :=
  task <<- st_get "plane_task_id" ;;
  if negb (jtruthy task) then se_ret ""
  else
    se_try
      (issue <<- with_board env (fetch_task env (jtext task)) ;;
       let campaign_id := label_value (labels_field issue) "campaign-id" in
       if negb (str_truthy campaign_id) then se_ret ""
       else
         campaigns <<- se_get (fun w => re_campaigns env (rw_calls w)) ;;
         let mine := List.filter (fun c => String.eqb (cp_status c) "active" && String.eqb (cp_campaign_id c) campaign_id) campaigns in
         se_get (fun w => default (Ok "") (head (omap (fun c => re_spec_text env (cp_spec_file c) (rw_calls w)) mine))))
      (fun _ => se_ret "").

(** The files the review knows of, and the diff it shows. *)
Definition diff_evidence (diff : string) : RM (list string * string) :=
  if DIFF_LIMIT <? String.length diff then
    files <<- list_pr_files env slug ;;
    let names := if list_truthy files then join nl (map (fun f => "  " +:+ f) (sorted_by str_leb files))
                 else "  (file list unavailable)" in
    se_ret (files,
      str_take DIFF_LIMIT diff +:+ nl +:+ nl +:+ "...[diff truncated at 60000 chars]" +:+ nl +:+ nl +:+
      "IMPORTANT — complete list of ALL files changed in this PR " +:+
      "(files listed here ARE modified even if their diffs are not shown above; " +:+
      "do NOT raise 'missing implementation' concerns for files that appear here):" +:+ nl +:+ names)
  else se_ret (files_from_diff diff, diff).

Definition direct_goal (n : Z) (title diff_excerpt spec_section custodian_section doc_rubric nonce : string) : string :=
  "## TASK TYPE: Read-only code review" +:+ nl +:+
  "## SINGLE REQUIRED ACTION: Write verdict.json — no other file changes allowed" +:+ nl +:+ nl +:+
  UNTRUSTED_PREAMBLE +:+ nl +:+ nl +:+
  "Review the following pull-request diff for correctness, style, and spec compliance." +:+ nl +:+ nl +:+
  "PR #" +:+ str_of_Z n +:+ " title: " +:+ fence "pr-title" title nonce +:+ nl +:+ nl +:+
  fence "pr-diff" diff_excerpt nonce +:+ spec_section +:+ custodian_section +:+ doc_rubric +:+ nl +:+ nl +:+
  review_checklist +:+ nl +:+ nl +:+
  "CRITICAL: Do NOT modify any source files in the repository. " +:+
  "Do NOT run tests, build, or push. " +:+
  "Your ONLY permitted action is writing verdict.json to the current directory.".

(** ** A single review *)

(** The backend and the model that review; nothing when none can. *)
Definition review_backend (selection : option (option string)) : option (string * string) :=
  match selection with
  | None | Some (Some "claude_code") => Some ("claude_code", "haiku")
  | Some (Some backend) => (fun model => (backend, model)) <$> REVIEW_FALLBACK_MODELS backend
  | Some None => None
  end.

Definition must_item (k : string) : RM Z := se_get (fun w => v <-? ditem (rw_state w) k ;; number v).

Definition no_verdict_detail (count : Z) : string :=
  "Self-review produced no parseable verdict after repeated passes " +:+
  "(reviewer ran but emitted no verdict.json — possible prompt or model " +:+
  "issue). The PR is left open for human attention; automated " +:+
  "review will retry." +:+
  (if (STUCK_GREEN_ESCALATION_THRESHOLD <=? count)%Z then
     " WARNING: this is the " +:+ str_of_Z count +:+ "th no-verdict escalation " +:+
     "for this PR (stuck-green — green on CI but review never converges). " +:+
     "Reason code: stuck_green_repeated_failures."
   else "").

(** The reviewer ran and said nothing. *)
Definition on_no_verdict : RM unit :=
  n <<- must_item "no_verdict_passes" ;;
  _ <<- st_count "no_verdict_passes" (n + 1) ;;
  if (n + 1 <? rvs_max_self_review_loops settings)%Z then
    level <<- st_counter "no_verdict_backoff_level" ;;
    _ <<- se_lift (compute_backoff_interval level) ;;
    _ <<- st_count "no_verdict_backoff_level" (Z.min 4 (level + 1)) ;;
    save_state env sp
  else
    count <<- must_item "no_verdict_escalation_count" ;;
    _ <<- st_count "no_verdict_escalation_count" (count + 1) ;;
    _ <<- st_count "no_verdict_backoff_level" 0 ;;
    _ <<- escalate_pinned env settings slug sp pr_data "no_verdict_unreviewable" (no_verdict_detail (count + 1)) ;;
    _ <<- st_count "no_verdict_passes" 0 ;;
    save_state env sp.

(** What the fix pass and the readers are told. *)
Definition composed_summary (v : verdict) : string :=
  let result := upper (if str_truthy (vd_result v) then vd_result v else CONCERNS) in
  let composed := strip (vd_summary v) in
  if str_truthy composed then composed
  else if String.eqb result CONCERNS && list_truthy (vd_failing v)
       then "Failed checks: " +:+ join ", " (vd_failing v) else "(no summary)".

Definition after_review (diff : string) (answer : option verdict) : RM unit :=
  loops <<- must_item "self_review_loops" ;;
  _ <<- st_count "self_review_loops" (loops + 1) ;;
  _ <<- st_count "env_unclean_passes" 0 ;;
  _ <<- st_count "backend_error_passes" 0 ;;
  match answer with
  | None => on_no_verdict
  | Some v =>
      _ <<- st_count "no_verdict_passes" 0 ;;
      _ <<- st_count "no_verdict_backoff_level" 0 ;;
      dispatch_verdict_outcome env settings slug sp pr_data
        (upper (if str_truthy (vd_result v) then vd_result v else CONCERNS)) (composed_summary v) diff
  end.

Definition single_review (goal key diff : string) : RM unit :=
  _ <<- se_get (fun w => ditem (rw_state w) "self_review_loops") ;;
  selection <<- rask (fun calls => Ok (re_select env calls)) RC_select ;;
  match review_backend selection with
  | None => se_ret tt
  | Some (backend, model) =>
      or_skip env settings slug sp pr_data
        (if String.eqb backend "claude_code" then run_direct_review env goal key
         else run_member_review env goal key backend model)
        (after_review diff)
  end.

(** The diff, or what stands for it. *)
Definition shown_diff : RM string :=
  diff <<- get_pr_diff env slug ;;
  se_ret (if str_truthy diff then diff else NO_CONTENT_DIFF).

(** The files that are guarded by the council. *)
Definition guardrail_hits (files : list string) : list string :=
  sensitive_paths_in_diff files (rvs_guardrail_paths settings).

Definition review (key : string) : RM unit :=
  n <<- pr_number ;;
  repo_key <<- state_item "repo_key" ;;
  diff <<- shown_diff ;;
  evidence <<- diff_evidence diff ;;
  let '(files, diff_excerpt) := evidence in
  let title := jtext (default (JStr "") (pr_data !! "title")) in
  spec_text <<- load_campaign_spec ;;
  custodian_text <<- custodian_findings env settings repo_key ;;
  nonce <<- rsee (re_nonce env) ;;
  let spec_section := if str_truthy spec_text then
      nl +:+ nl +:+ "## Campaign spec (review against this — violations are CONCERNS)" +:+ nl +:+ nl +:+
      fence "campaign-spec" spec_text nonce else "" in
  let custodian_section := if str_truthy custodian_text then
      nl +:+ nl +:+ "## Custodian static analysis" +:+ nl +:+ nl +:+ custodian_text else "" in
  let doc_rubric := if diff_is_docs_only files then DOC_ONLY_REVIEW_RUBRIC else "" in
  _ <<- default_budgets ;;
  if list_truthy (guardrail_hits files) && negb (council_exempt_self_fix pr_data) then
    run_council env settings slug sp pr_data title diff diff_excerpt spec_section custodian_section nonce (guardrail_hits files)
  else single_review (direct_goal n title diff_excerpt spec_section custodian_section doc_rubric nonce) key diff.

Definition phase1 : RM unit :=
  _ <<- pr_number ;;
  _ <<- state_item "repo_key" ;;
  key <<- state_item "state_key" ;;
  _ <<- reset_on_push ;;
  _ <<- expire_park ;;
  go_on <<- past_flag ;;
  if negb go_on then se_ret tt
  else
    cfg <<- repo_cfg settings ;;
    settled <<- ci_gate env settings slug sp pr_data cfg ;;
    if settled : bool then review key else se_ret tt.

(** One pull request, in the phase its state is in. *)
Definition containment_missing (e : exn) : bool :=
  match e with
  | NamedError cls _ => String.eqb cls "ContainmentRequiredError" || String.eqb cls "EgressContainmentRequiredError"
  | _ => false
  end.
Definition phase_of (s : dict) : jval := default (JStr "ci_fix") (s !! "phase").
Definition process_pr : RM unit :=
  s <<- the_state ;;
  _ <<- (if jeq_str (phase_of s) "human_review" then st_set "phase" (JStr "self_review") else se_ret tt) ;;
  s <<- the_state ;;
  se_try
    (if jeq_str (phase_of s) "ci_fix" then phase0_ci_fix env settings slug sp pr_data
     else if jeq_str (phase_of s) "self_review" then phase1
     else se_ret tt)
    (fun e => if containment_missing e then se_ret tt else se_lift (Raise e)).
End Phases.

(** ** A poll *)

(** [[:/]([^/]+)/([^/]+?)(\.git)?$] of adapters/pr: owner and repository. *)
Definition rafter (c : ascii) (s : string) : string := String.rev (take_while (fun d => negb (Ascii.eqb d c)) (String.rev s)).
Definition slash : ascii := "/".
Definition without_git (repo : string) : string :=
  if endswith repo ".git" && (4 <? String.length repo) then str_take (String.length repo - 4) repo else repo.
Definition owner_repo (clone_url : string) : res string :=
  let repo := rafter slash clone_url in
  let prefix := str_take (String.length clone_url - String.length repo - 1) clone_url in
  let owner := if has_char slash prefix then rafter slash prefix
               else if has_char colon prefix then after_char colon prefix else "" in
  if has_char slash clone_url && str_truthy repo && str_truthy owner then Ok (owner +:+ "/" +:+ without_git repo)
  else Raise (ValueError ("Cannot parse owner/repo from clone URL: " +:+ repr clone_url)).

Example owner_repo_examples :
  owner_repo "git@github.com:acme/tool.git" = Ok "acme/tool" /\
  owner_repo "https://forge.internal:8443/acme/tool" = Ok "acme/tool" /\
  owner_repo "tool.git" = Raise (ValueError "Cannot parse owner/repo from clone URL: 'tool.git'").
Proof. vm_compute. done. Qed.

Definition review_priority (s : dict) : res (Z * Z * Z) :=
  let phase := phase_of s in
  fix_attempts <-? jint (default (JInt 0) (s !! "fix_attempts")) ;;
  n <-? jint (default (JInt 0) (s !! "pr_number")) ;;
  let tier := if jeq_str phase "self_review" && (fix_attempts =? 0)%Z then 0%Z
              else if jeq_str phase "ci_fix" then 1%Z else 2%Z in
  Ok (tier, fix_attempts, n).

Definition priority_leb (a b : Z * Z * Z) : bool :=
  let '(t1, f1, n1) := a in let '(t2, f2, n2) := b in
  (t1 <? t2)%Z || ((t1 =? t2)%Z && ((f1 <? f2)%Z || ((f1 =? f2)%Z && (n1 <=? n2)%Z))).

(** A pull request at hand: as listed, its state and the place of its file. *)
Record work_item := { wi_pr : dict; wi_state : dict; wi_sp : string }.
Definition by_priority (items : list work_item) : res (list work_item) :=
  keyed <-? mapM (fun i => p <-? review_priority (wi_state i) ;; Ok (p, i)) items ;;
  Ok (map snd (sorted_by (fun a b => priority_leb (fst a) (fst b)) keyed)).

Section Poll.
Context (env : review_env) (settings : ReviewSettings).

(** The task of a pull request: in review, of this repository, and with the
    number in its description. *)
Definition issue_state_name (issue : dict) : res string :=
  match dget issue "state" with
  | JObj l => match default (JStr "") (od_get "name" l) with
              | JStr name => Ok (strip name)
              | _ => Raise (OtherError "object has no attribute 'strip'")
              end
  | _ => Ok ""
  end.
Definition mentions (issue : dict) (n : Z) : bool :=
  let desc := jtext (jor (dget issue "description") (jor (dget issue "description_stripped") (JStr ""))) in
  contains desc ("#" +:+ str_of_Z n) || contains desc ("/" +:+ str_of_Z n).
Fixpoint matching_task (repo_key : string) (n : Z) (issues : list dict) : res (option string) :=
  match issues with
  | [] => Ok None
  | issue :: rest =>
      state <-? issue_state_name issue ;;
      if String.eqb state "In Review" && String.eqb (label_value (labels_field issue) "repo") repo_key && mentions issue n
      then id <-? issue_id issue ;; Ok (Some id)
      else matching_task repo_key n rest
  end.
Definition find_plane_task_id (repo_key : string) (n : Z) : RM (option string) :=
  se_try
    (issues <<- with_board env (rask (re_board_list env) RC_board_list) ;;
     se_lift (matching_task repo_key n issues))
    (fun _ => se_ret None).

(** The number of the pull request a state file is of. *)
Definition state_number (repo_key key : string) : option Z :=
  if startswith key (repo_key +:+ "-") then
    let num := str_drop (String.length repo_key + 1) key in
    if str_truthy num && forallb is_digit (String.list_ascii_of_string num) then py_int num else None
  else None.

Definition prune_one (repo_key : string) (open_numbers : list Z) (entry : string * dict) : RM unit :=
  let '(key, orphan) := entry in
  match state_number repo_key key with
  | Some n =>
      if bool_decide (n ∈ open_numbers) then se_ret tt
      else
        _ <<- (if jtruthy (dget orphan "escalated_needs_human")
               then se_try (rask (re_write env) (RC_ledger (repo_key +:+ "#" +:+ str_drop (String.length repo_key + 1) key)))
                      (fun _ => se_ret tt)
               else se_ret tt) ;;
        se_try (unlink_state env key) (fun _ => se_ret tt)
  | None => se_ret tt
  end.
Fixpoint each_in_turn {A} (f : A -> RM unit) (l : list A) : RM unit :=
  match l with [] => se_ret tt | a :: rest => _ <<- f a ;; each_in_turn f rest end.
Definition prune_orphan_state_files (repo_key : string) (open_numbers : list Z) : RM unit :=
  files <<- se_get (fun w => Ok (map_to_list (rw_disk w))) ;;
  each_in_turn (prune_one repo_key open_numbers) files.

(** A state file for a pull request that has none. *)
Definition discover (repo_key : string) (n : Z) (sp : string) : RM unit :=
  known <<- se_get (fun w => Ok (bool_decide (is_Some (rw_disk w !! sp)))) ;;
  if known : bool then se_ret tt
  else
    t <<- now env ;;
    task <<- find_plane_task_id repo_key n ;;
    _ <<- put_state (<["plane_task_id" := opt_jstr task]> (new_state t repo_key n)) ;;
    save_state env sp.

Fixpoint worklist (repo_key : string) (open_prs : list dict) : RM (list work_item) :=
  match open_prs with
  | [] => se_ret []
  | pr :: rest =>
      if jtruthy (dget pr "draft") then worklist repo_key rest
      else
        n <<- se_lift (v <-? ditem pr "number" ;; jint v) ;;
        let sp := state_key repo_key n in
        _ <<- discover repo_key n sp ;;
        s <<- load_state env sp ;;
        more <<- worklist repo_key rest ;;
        if bool_decide (s = ∅) then se_ret more
        else
          let ref := head_field pr "ref" in
          se_ret ({| wi_pr := pr; wi_state := if jtruthy ref then <["head_ref" := ref]> s else s; wi_sp := sp |} :: more)
  end.

Definition process_item (slug : string) (item : work_item) : RM unit :=
  _ <<- put_state (wi_state item) ;;
  process_pr env settings slug (wi_sp item) (wi_pr item).

Definition open_numbers_of (open_prs : list dict) : res (list Z) :=
  mapM jint (List.filter (fun v => match v with JNull => false | _ => true end) (map (fun pr => dget pr "number") open_prs)).

Definition poll_repo (repo_key : string) (r : ReviewRepo) : RM unit :=
  match owner_repo (rvr_clone_url r) with
  | Raise _ => se_ret tt
  | Ok slug =>
      listed <<- se_try (prs <<- rask (re_list_prs env) (RC_list_prs slug) ;; se_ret (Some prs)) (fun _ => se_ret None) ;;
      match listed with
      | None => se_ret tt
      | Some open_prs =>
          numbers <<- se_lift (open_numbers_of open_prs) ;;
          _ <<- prune_orphan_state_files repo_key numbers ;;
          items <<- worklist repo_key open_prs ;;
          items <<- se_lift (by_priority items) ;;
          each_in_turn (process_item slug) items
      end
  end.

Definition poll_once : RM unit :=
  each_in_turn (fun kr => poll_repo (fst kr) (snd kr))
    (List.filter (fun kr => rvr_await_review (snd kr)) (rvs_repos settings)).
End Poll.
