(* ===== verification/ReviewTrace.v ===== *)
(** * Reasoning about what a pass over a pull request asks

    Two judgments over the calls a computation of the watcher adds to the trace:
    one for those that only make harmless calls, one for those whose calls must
    be justified by the calls and answers before them.  At the end, concrete
    surroundings that answer like a healthy host. *)
From S2P Require Import Prelude PyStr PyData TextLines BoardIssues FenceSafety Verdict ReviewWorld ReviewText ReviewMerge ReviewCi ReviewVerdict ReviewPhases.

Create HintDb review.

(** Which pull request a state is of. *)
Definition identity (s : dict) : res jval * res jval := (ditem s "pr_number", ditem s "repo_key").
Definition is_identity (k : string) : bool := String.eqb k "pr_number" || String.eqb k "repo_key".

Lemma not_identity k : is_identity k = false -> k <> "pr_number" /\ k <> "repo_key".
Proof. unfold is_identity. rewrite orb_false_iff, !String.eqb_neq. done. Qed.
Lemma identity_insert (s : dict) k v : is_identity k = false -> identity (<[k := v]> s) = identity s.
Proof. intros [? ?]%not_identity. unfold identity, ditem. by rewrite !lookup_insert_ne. Qed.
Lemma identity_delete (s : dict) k : is_identity k = false -> identity (delete k s) = identity s.
Proof. intros [? ?]%not_identity. unfold identity, ditem. by rewrite !lookup_delete_ne. Qed.

(** ** Harmless computations *)

(** Every call satisfies [P], and the state stays one of the same pull request. *)
Definition quiet {A} (P : rcall -> Prop) (m : RM A) : Prop := forall w,
  identity (rw_state (fst (m w))) = identity (rw_state w) /\
  exists cs, rw_calls (fst (m w)) = rw_calls w ++ cs /\ Forall P cs.

Section Quiet.
Context (P : rcall -> Prop).

Lemma quiet_same {A} (m : RM A) :
  (forall w, rw_calls (fst (m w)) = rw_calls w /\ identity (rw_state (fst (m w))) = identity (rw_state w)) -> quiet P m.
Proof. intros H w. destruct (H w) as [Hc Hn]. split; [done|]. exists []. by rewrite app_nil_r. Qed.

Lemma quiet_ret {A} (a : A) : quiet P (se_ret a).
Proof. by apply quiet_same. Qed.
Lemma quiet_lift {A} (r : res A) : quiet P (se_lift r).
Proof. by apply quiet_same. Qed.
Lemma quiet_get {A} (f : review_world -> res A) : quiet P (se_get f).
Proof. by apply quiet_same. Qed.
Lemma quiet_see {A} (f : list rcall -> A) : quiet P (rsee f).
Proof. by apply quiet_same. Qed.

Lemma quiet_rask {A} (answer : list rcall -> res A) c : P c -> quiet P (rask answer c).
Proof. intros H w. split; [done|]. exists [c]. split; [done|]. by constructor. Qed.

Lemma quiet_seq {A B} (m : RM A) (k : A -> RM B) : quiet P m -> (forall a, quiet P (k a)) -> quiet P (se_bind m k).
Proof.
  intros Hm Hk w. unfold se_bind. destruct (Hm w) as (Hn & cs & Hc & Hp). destruct (m w) as [w1 [a|e]]; cbn [fst] in *.
  - destruct (Hk a w1) as (Hn' & cs' & Hc' & Hp'). split; [congruence|]. exists (cs ++ cs').
    rewrite Hc', Hc, app_assoc. split; [done|]. by apply Forall_app.
  - eauto.
Qed.

Lemma quiet_try {A} (m : RM A) h : quiet P m -> (forall e, quiet P (h e)) -> quiet P (se_try m h).
Proof.
  intros Hm Hk w. unfold se_try. destruct (Hm w) as (Hn & cs & Hc & Hp). destruct (m w) as [w1 [a|e]]; cbn [fst] in *.
  - eauto.
  - destruct (Hk e w1) as (Hn' & cs' & Hc' & Hp'). split; [congruence|]. exists (cs ++ cs').
    rewrite Hc', Hc, app_assoc. split; [done|]. by apply Forall_app.
Qed.

Lemma quiet_set k v : is_identity k = false -> quiet P (st_set k v).
Proof.
  intros H. apply quiet_same. intros w. split; [done|]. by apply identity_insert.
Qed.
Lemma quiet_pop k : is_identity k = false -> quiet P (st_pop k).
Proof.
  intros H. apply quiet_same. intros w. split; [done|]. by apply identity_delete.
Qed.
Lemma quiet_default k v : is_identity k = false -> quiet P (st_default k v).
Proof.
  intros H. apply quiet_same. intros w. split; [done|]. unfold st_default, se_bind, the_state, se_get, put_state. cbn.
  destruct (rw_state w !! k); [done|]. by apply identity_insert.
Qed.
End Quiet.

(** Follow the structure of a computation. *)
Ltac quiet_step :=
  match goal with
  | |- quiet _ (se_bind _ _) => apply quiet_seq; [|intros ?]
  | |- quiet _ (se_try _ _) => apply quiet_try; [|intros ?]
  | |- quiet _ (rask _ _) => apply quiet_rask; [done]
  | |- quiet _ (se_ret _) => apply quiet_ret
  | |- quiet _ (se_lift _) => apply quiet_lift
  | |- quiet _ (se_get _) => apply quiet_get
  | |- quiet _ (rsee _) => apply quiet_see
  | |- quiet _ the_state => apply quiet_get
  | |- quiet _ pr_number => apply quiet_get
  | |- quiet _ ladder_level => apply quiet_get
  | |- quiet _ (now _) => apply quiet_see
  | |- quiet _ (st_get _) => apply quiet_get
  | |- quiet _ (st_truthy _) => apply quiet_get
  | |- quiet _ (st_counter _) => apply quiet_get
  | |- quiet _ (st_text _) => apply quiet_get
  | |- quiet _ (must_item _) => apply quiet_get
  | |- quiet _ (state_item _) => apply quiet_get
  | |- quiet _ (st_set _ _) => apply quiet_set; [done]
  | |- quiet _ (st_count _ _) => apply quiet_set; [done]
  | |- quiet _ (st_pop _) => apply quiet_pop; [done]
  | |- quiet _ (st_default _ _) => apply quiet_default; [done]
  | |- quiet _ (if ?b then _ else _) => destruct b eqn:?
  | |- quiet _ (match ?x with _ => _ end) => destruct x eqn:?
  | |- quiet _ (let _ := _ in _) => cbv zeta
  end.
Ltac quiet_auto := repeat (quiet_step || solve [eauto with review]).

(** ** What a computation leaves in the state *)

(** A predicate that only looks at the fields [ks], and at the state file. *)
Definition local (ks : list string) (I : review_world -> Prop) : Prop := forall w w',
  rw_disk w' = rw_disk w -> (forall x, x ∈ ks -> rw_state w' !! x = rw_state w !! x) -> I w -> I w'.

Section Preserved.
Context (ks : list string) (I : review_world -> Prop).
Hypothesis I_local : local ks I.

Lemma preserves_rask {A} (answer : list rcall -> res A) c : preserves I (rask answer c).
Proof. intros w. by apply I_local. Qed.
Lemma preserves_set x v : str_in x ks = false -> preserves I (st_set x v).
Proof.
  intros Hx%str_in_false w. apply I_local; [done|]. intros y Hy. cbn. rewrite lookup_insert_ne; [done|]. by intros ->.
Qed.
Lemma preserves_pop x : str_in x ks = false -> preserves I (st_pop x).
Proof.
  intros Hx%str_in_false w. apply I_local; [done|]. intros y Hy. cbn. rewrite lookup_delete_ne; [done|]. by intros ->.
Qed.
End Preserved.

Ltac preserve_step :=
  match goal with
  | |- preserves _ (se_bind _ _) => apply preserves_bind; [|intros ?]
  | |- preserves _ (se_try _ _) => apply preserves_try; [|intros ?]
  | |- preserves _ (rask _ _) => eapply preserves_rask; eassumption
  | |- preserves _ (st_set _ _) => eapply preserves_set; [eassumption | done]
  | |- preserves _ (st_count _ _) => eapply preserves_set; [eassumption | done]
  | |- preserves _ (st_pop _) => eapply preserves_pop; [eassumption | done]
  | |- preserves _ (if ?b then _ else _) => destruct b
  | |- preserves _ (match ?x with _ => _ end) => destruct x
  | |- preserves _ _ => by apply preserves_silent
  end.
Ltac preserve_auto := repeat (preserve_step || solve [eauto with review]).

(** ** The operations of the watcher *)

(** Calls that neither merge nor close nor delete, whatever else they do; and
    those that dispatch no pass either. *)
Definition mild (c : rcall) : Prop :=
  match c with
  | RC_gh _ _ (MergePr _) | RC_gh _ _ ClosePr | RC_gh _ _ (DeleteBranch _) => False
  | _ => True
  end.
Definition no_fix (c : rcall) : Prop := match c with RC_fix _ _ _ _ => False | _ => True end.
Definition tame (c : rcall) : Prop := mild c /\ no_fix c.

Lemma quiet_weaken {A} (P Q : rcall -> Prop) (m : RM A) : (forall c, P c -> Q c) -> quiet P m -> quiet Q m.
Proof. intros H Hm w. destruct (Hm w) as (? & cs & ? & ?). split; [done|]. exists cs. split; [done|]. by eapply Forall_impl. Qed.
Lemma tame_mild {A} (m : RM A) : quiet tame m -> quiet mild m.
Proof. apply quiet_weaken. by intros c []. Qed.
Lemma tame_no_fix {A} (m : RM A) : quiet tame m -> quiet no_fix m.
Proof. apply quiet_weaken. by intros c []. Qed.
#[export] Hint Resolve tame_mild tame_no_fix : review.


Section Tame.
Context (env : review_env) (settings : ReviewSettings) (slug sp : string) (pr_data : dict).

Lemma quiet_gh {A} (P : rcall -> Prop) (answer : list rcall -> res A) q :
  (forall n, P (RC_gh slug n q)) -> quiet P (gh slug answer q).
Proof. intros H. unfold gh. apply quiet_seq; [apply quiet_get|]. intros n. by apply quiet_rask. Qed.

Lemma save_state_tame : quiet tame (save_state env sp).
Proof.
  unfold save_state. apply quiet_seq; [apply quiet_see|]. intros t. apply quiet_seq; [by apply quiet_rask|].
  intros _. by apply quiet_same.
Qed.
Lemma unlink_state_tame : quiet tame (unlink_state env sp).
Proof. unfold unlink_state. apply quiet_seq; [by apply quiet_rask|]. intros _. by apply quiet_same. Qed.
Hint Resolve save_state_tame unlink_state_tame : review.

Lemma checks_tame ignored :
  quiet tame (get_failed_checks env slug pr_data ignored) /\
  quiet tame (get_incomplete_checks env slug pr_data ignored) /\
  quiet tame (get_completed_checks env slug pr_data ignored).
Proof.
  unfold get_failed_checks, get_incomplete_checks, get_completed_checks, runs_of_head.
  split_and!; quiet_auto; by apply quiet_gh.
Qed.
Lemma ci_status_tame ignored required : quiet tame (ci_status env slug pr_data ignored required).
Proof. unfold ci_status. destruct (checks_tame ignored) as (? & ? & ?). quiet_auto. Qed.

Lemma post_and_remember_tame key body : is_identity key = false -> quiet tame (post_and_remember env slug key body).
Proof.
  intros H. unfold post_and_remember. quiet_auto; (by apply quiet_gh) || by apply quiet_set.
Qed.
Lemma escalate_tame reason detail sha : quiet tame (escalate_needs_human env settings slug sp reason detail sha).
Proof. unfold escalate_needs_human. quiet_auto. by apply post_and_remember_tame. Qed.
Hint Resolve escalate_tame ci_status_tame : review.

Lemma retract_one_tame key resolution : is_identity key = false -> quiet tame (retract_one env slug key resolution).
Proof. intros H. unfold retract_one. quiet_auto; (by apply quiet_gh) || by apply quiet_pop. Qed.
Lemma retract_flag_tame resolution : quiet tame (retract_flag env slug resolution).
Proof. unfold retract_flag. quiet_auto; by apply retract_one_tame. Qed.
Lemma publish_tame sha result description : quiet tame (publish_reviewer_verdict env slug sha result description).
Proof. unfold publish_reviewer_verdict. quiet_auto. by apply quiet_gh. Qed.
Hint Resolve retract_flag_tame publish_tame : review.

Lemma get_mergeable_tame : quiet tame (get_mergeable env slug).
Proof. unfold get_mergeable. quiet_auto. by apply quiet_gh. Qed.
Lemma list_pr_files_tame : quiet tame (list_pr_files env slug).
Proof. unfold list_pr_files. quiet_auto. by apply quiet_gh. Qed.
Lemma get_pr_diff_tame : quiet tame (get_pr_diff env slug).
Proof. unfold get_pr_diff, diff_too_large_summary. quiet_auto; by apply quiet_gh. Qed.
Hint Resolve get_mergeable_tame list_pr_files_tame get_pr_diff_tame : review.

Lemma repo_cfg_tame : quiet tame (repo_cfg settings).
Proof. unfold repo_cfg. quiet_auto. Qed.
Lemma auto_rebase_tame : quiet tame (auto_rebase_or_escalate env settings slug sp).
Proof. unfold auto_rebase_or_escalate, repo_cfg, st_stripped. quiet_auto. Qed.
Lemma board_done_tame reason : quiet tame (board_done env reason).
Proof. unfold board_done, with_board, move_task, note_task. quiet_auto. Qed.
Lemma merge_method_tame sha : quiet tame (merge_method_for env slug sha).
Proof. unfold merge_method_for, parent_count. quiet_auto. by apply quiet_gh. Qed.
Lemma protection_tame base : quiet tame (branch_protection_ok env settings slug base).
Proof. unfold branch_protection_ok. quiet_auto. by apply quiet_gh. Qed.
Lemma ack_tame : quiet tame (sensitive_path_ack_ok env settings slug pr_data).
Proof. unfold sensitive_path_ack_ok. quiet_auto. Qed.
Hint Resolve repo_cfg_tame auto_rebase_tame board_done_tame merge_method_tame protection_tame ack_tame : review.

Lemma run_fix_pass_mild key ref concerns skey extra : quiet mild (run_fix_pass env key ref concerns skey extra).
Proof.
  intros w. unfold run_fix_pass, rask, rasked. cbn. destruct (re_fix env _) as [o|e]; [|destruct (is_source_tree_unclean e)];
    (split; [done|]; eexists [_]; split; [done|]; by constructor).
Qed.
Lemma requeue_tame task reason concerns : quiet tame (requeue_plane_task env task reason concerns).
Proof. unfold requeue_plane_task, requeue_fetched, with_board, fetch_task, label_task, move_task, note_task. quiet_auto. Qed.
Lemma receipt_tame task reason : quiet tame (record_close_receipt env pr_data task reason).
Proof.
  unfold record_close_receipt, with_board, fetch_task, spec_file_from_plane_issue, campaign_spec_file, note_task. quiet_auto.
Qed.
Hint Resolve run_fix_pass_mild requeue_tame receipt_tame : review.
End Tame.

Section MildPhases.
Context (env : review_env) (settings : ReviewSettings) (slug sp : string) (pr_data : dict).

Hint Resolve save_state_tame unlink_state_tame escalate_tame ci_status_tame retract_flag_tame publish_tame
  get_mergeable_tame list_pr_files_tame get_pr_diff_tame repo_cfg_tame auto_rebase_tame board_done_tame merge_method_tame
  protection_tame ack_tame run_fix_pass_mild requeue_tame receipt_tame : review.

(** ** Phase 0 and the gate of CI *)

Lemma report_mild cfg b : quiet mild (custodian_report env cfg b).
Proof. unfold custodian_report. quiet_auto. Qed.
Lemma custodian_findings_mild key : quiet mild (custodian_findings env settings key).
Proof. unfold custodian_findings. apply quiet_seq; [apply report_mild|]. intros r. apply quiet_ret. Qed.
Lemma audit_findings_mild cfg : quiet mild (custodian_audit_findings env cfg).
Proof. unfold custodian_audit_findings. apply quiet_seq; [apply report_mild|]. intros r. apply quiet_ret. Qed.
Hint Resolve custodian_findings_mild audit_findings_mild : review.

Lemma phase0_mild : quiet mild (phase0_ci_fix env settings slug sp pr_data).
Proof.
  unfold phase0_ci_fix, await_settled, repair, phase0_audit_autofix, ruff_fix, advance_to_review.
  quiet_auto; by apply quiet_gh.
Qed.

Lemma ci_gate_mild cfg : quiet mild (ci_gate env settings slug sp pr_data cfg).
Proof.
  unfold ci_gate, ci_settled, count_wait, record_checks, ci_is_red, ci_unsettled, wait_or_escalate, escalate_head.
  assert (Hc := checks_tame env slug pr_data). pose proof (fun i => proj1 (Hc i)).
  pose proof (fun i => proj1 (proj2 (Hc i))). pose proof (fun i => proj2 (proj2 (Hc i))). quiet_auto.
Qed.
Hint Resolve phase0_mild ci_gate_mild : review.

(** ** Before and around a verdict *)

Lemma member_review_mild goal key backend model : quiet mild (run_member_review env goal key backend model).
Proof. unfold run_member_review. quiet_auto. Qed.
Lemma on_review_error_mild e : quiet mild (on_review_error env settings slug sp pr_data e).
Proof. unfold on_review_error, review_skipped. quiet_auto; by apply quiet_set. Qed.
Lemma cooldown_mild backend model : quiet mild (member_on_cooldown env backend model).
Proof. unfold member_on_cooldown. quiet_auto. Qed.
Lemma track_tame summary : quiet mild (track_concern_raised env pr_data summary).
Proof. unfold track_concern_raised. quiet_auto. Qed.
Lemma no_progress_mild : quiet mild (repeated_no_progress pr_data).
Proof. unfold repeated_no_progress. quiet_auto. Qed.
Lemma escalate_pinned_mild reason detail : quiet mild (escalate_pinned env settings slug sp pr_data reason detail).
Proof. unfold escalate_pinned. quiet_auto. Qed.
Hint Resolve member_review_mild on_review_error_mild cooldown_mild track_tame no_progress_mild escalate_pinned_mild : review.

Lemma climb_mild summary : quiet mild (climb_ladder env settings slug sp pr_data summary).
Proof. unfold climb_ladder. quiet_auto. Qed.
Lemma dispatch_fix_mild summary ref diff : quiet mild (dispatch_fix env slug sp pr_data summary ref diff).
Proof. unfold dispatch_fix, record_fix_push, keep_external_flag, load_state. quiet_auto; by apply quiet_gh. Qed.
Lemma budgets_mild : quiet mild default_budgets.
Proof. unfold default_budgets. quiet_auto. Qed.
Lemma available_mild panel : quiet mild (available_seats env panel).
Proof. induction panel as [|s rest IH]; cbn [available_seats]; quiet_auto. Qed.
Lemma park_mild available t : quiet mild (park_council env settings slug sp pr_data available t).
Proof. unfold park_council. quiet_auto. Qed.
Hint Resolve climb_mild dispatch_fix_mild budgets_mild available_mild park_mild : review.

(** ** Before the review *)

Lemma reset_mild : quiet mild (reset_on_push env slug sp pr_data).
Proof. unfold reset_on_push. quiet_auto. Qed.
Lemma expire_mild : quiet mild (expire_park env settings slug sp pr_data).
Proof. unfold expire_park, council_cap, elapsed. quiet_auto. Qed.
Lemma past_flag_mild : quiet mild (past_flag env settings slug sp pr_data).
Proof. unfold past_flag, lifted_by_green, unfixed_concerns, retract_on_green. quiet_auto. Qed.
Lemma spec_mild : quiet mild (load_campaign_spec env).
Proof. unfold load_campaign_spec, with_board, fetch_task. quiet_auto. Qed.
Lemma shown_diff_mild : quiet mild (shown_diff env slug).
Proof. unfold shown_diff. quiet_auto. Qed.
Lemma evidence_mild diff : quiet mild (diff_evidence env slug diff).
Proof. unfold diff_evidence. quiet_auto. Qed.
Lemma on_no_verdict_mild : quiet mild (on_no_verdict env settings slug sp pr_data).
Proof. unfold on_no_verdict. quiet_auto. Qed.
End MildPhases.

#[export] Hint Resolve phase0_mild ci_gate_mild custodian_findings_mild member_review_mild on_review_error_mild
  cooldown_mild track_tame no_progress_mild climb_mild dispatch_fix_mild budgets_mild available_mild park_mild
  reset_mild expire_mild past_flag_mild spec_mild shown_diff_mild evidence_mild on_no_verdict_mild : review.
#[export] Hint Resolve save_state_tame unlink_state_tame escalate_tame ci_status_tame retract_flag_tame publish_tame
  get_mergeable_tame list_pr_files_tame get_pr_diff_tame repo_cfg_tame auto_rebase_tame board_done_tame merge_method_tame
  protection_tame ack_tame run_fix_pass_mild requeue_tame receipt_tame : review.

(** ** A pull request under review

    Concrete surroundings for the theorems about the pull-request watcher: a
    repository, a pull request in self-review, a code host whose answers are
    given or that is down, and a reviewer that leaves a verdict. *)

Definition noon : datetime := mk_datetime 1767268800000000 true.
Definition down {A} : res A := Raise (OtherError "connection refused").

(** The host answers with [page], [runs], [diff] and [pr]; the reviewer writes
    [verdict]; everything that is written goes through. *)
Definition scene_env (runs : res (list dict)) (diff : res (option string)) (pr page verdict : res jval) : review_env :=
  {| re_now := fun _ => noon; re_protection := fun _ => down; re_files := fun _ => page;
     re_check_runs := fun _ => runs; re_parents := None; re_merge_method := Some "squash"; re_write := fun _ => Ok tt;
     re_comment := fun _ => Ok (JObj [("id", JInt 7)]); re_comments := fun _ => Ok []; re_diff := fun _ => diff;
     re_get_pr := fun _ => pr; re_list_prs := fun _ => Ok []; re_open_board := fun _ => down;
     re_fetch := fun _ => down; re_board_list := fun _ => Ok []; re_select := fun _ => None;
     re_cooldowns := fun _ => Ok []; re_conflicted := fun _ => [];
     re_review := fun _ => Ok (MR_exit 0 (Some verdict) ""); re_fix := fun _ => Ok None;
     re_rebase := fun _ => Ok Rebase_noop; re_ruff := fun _ => Ok Ruff_no_change; re_custodian := fun _ _ _ => None;
     re_yaml := fun _ => down; re_campaigns := fun _ => Ok []; re_spec_text := fun _ _ => None;
     re_external := fun _ => None; re_oc_root := "/srv/oc"; re_raw_decode := fun _ => None; re_sha256 := fun s => s;
     re_sanitize := fun s => s; re_nonce := fun _ => "5f" |}.

Definition scene_repo : ReviewRepo :=
  {| rvr_clone_url := "https://github.com/o/app.git"; rvr_await_review := true; rvr_auto_merge_on_ci_green := false;
     rvr_ci_ignored_checks := []; rvr_required_checks := []; rvr_local_path := None |}.
Definition scene_settings : ReviewSettings :=
  {| rvs_repos := [("app", scene_repo)]; rvs_max_self_review_loops := 3; rvs_max_fix_attempts := 3;
     rvs_max_fix_strategy_level := 3; rvs_bot_comment_marker := "<!-- oc -->"; rvs_require_branch_protection := false;
     rvs_require_sensitive_path_ack := true; rvs_guardrail_paths := []; rvs_max_council_park_hours := 24;
     rvs_min_council_members := 2; rvs_autofix_audit := false |}.
Definition with_ack (required : bool) (s : ReviewSettings) : ReviewSettings :=
  {| rvs_repos := rvs_repos s; rvs_max_self_review_loops := rvs_max_self_review_loops s;
     rvs_max_fix_attempts := rvs_max_fix_attempts s; rvs_max_fix_strategy_level := rvs_max_fix_strategy_level s;
     rvs_bot_comment_marker := rvs_bot_comment_marker s; rvs_require_branch_protection := rvs_require_branch_protection s;
     rvs_require_sensitive_path_ack := required; rvs_guardrail_paths := rvs_guardrail_paths s;
     rvs_max_council_park_hours := rvs_max_council_park_hours s; rvs_min_council_members := rvs_min_council_members s;
     rvs_autofix_audit := rvs_autofix_audit s |}.

Definition scene_pr : dict := list_to_map
  [("number", JInt 12); ("title", JStr "Add a page"); ("labels", JList []); ("base", JObj [("ref", JStr "main")]);
   ("head", JObj [("sha", JStr "c0ffee"); ("ref", JStr "goal/42")])].
Definition in_phase (phase : string) (extra : dict) : review_world :=
  {| rw_calls := []; rw_disk := ∅; rw_state := extra ∪ <["phase" := JStr phase]> (new_state noon "app" 12) |}.

Definition passing (status : string) : jval :=
  JList (map (fun cid => JObj [("check_id", JStr cid); ("status", JStr status)]) (check_ids false)).
Definition merge_asked_for (calls : list rcall) : bool :=
  existsb (fun c => match c with RC_gh _ _ (MergePr _) => true | _ => false end) calls.

Definition green_runs : list dict :=
  [list_to_map [("name", JStr "test"); ("id", JInt 1); ("status", JStr "completed"); ("conclusion", JStr "success")]].
Definition one_file : jval := JList [JObj [("filename", JStr "docs/page.md"); ("status", JStr "added")]].
Definition some_diff : option string := Some ("diff --git a/src/page.py b/src/page.py" +:+ nl +:+ "+print(1)").
Definition healthy (status : string) : review_env :=
  scene_env (Ok green_runs) (Ok some_diff) (Ok (JObj [("mergeable", JBool true)])) (Ok one_file)
            (Ok (JObj [("checks", passing status)])).

Example lgtm_merges :
  merge_asked_for (rw_calls (fst (process_pr (healthy "pass") scene_settings "o/app" "app-12" scene_pr (in_phase "self_review" ∅)))) = true.
Proof. vm_compute. reflexivity. Qed.
Example concerns_do_not_merge :
  merge_asked_for (rw_calls (fst (process_pr (healthy "fail") scene_settings "o/app" "app-12" scene_pr (in_phase "self_review" ∅)))) = false.
Proof. vm_compute. reflexivity. Qed.
