(* ===== verification/ReviewSafety.v ===== *)
(** * What a pass over a pull request may do

    A pull request is merged only on a computed approval and through the gates
    of the merge; it is closed only when its task is back in the queue with a
    receipt, and its branch is deleted only once it is closed.  All of it is
    stated on the calls of the pass and the answers they got. *)
From S2P Require Import Prelude PyStr PyData TextLines PolicyModels BoardIssues FenceSafety Verdict ReviewWorld ReviewText ReviewMerge ReviewCi ReviewVerdict ReviewPhases ReviewTrace.

Section Safety.
Context (env : review_env) (settings : ReviewSettings) (slug sp : string) (pr_data : dict).
(** What had been asked when the pass began, and the pull request it is on. *)
Context (t0 : list rcall) (vn vk : jval) (n : Z).
Hypothesis number_is : jint vn = Ok n.

Definition at_point (mid : list rcall) (w : review_world) : Prop :=
  rw_calls w = t0 ++ mid /\ identity (rw_state w) = (Ok vn, Ok vk).

(** The call [c] was made in this pass, and its answer satisfies [ok]. *)
Definition answered {X} (c : rcall) (answer : list rcall -> X) (ok : X -> Prop) (mid : list rcall) : Prop :=
  exists a b, mid = a ++ c :: b /\ ok (answer (t0 ++ a ++ [c])).

Abbreviation facts := (list rcall -> Prop).
Definition stable (I : facts) : Prop := forall mid cs, I mid -> I (mid ++ cs).

Lemma stable_answered {X} c (answer : list rcall -> X) ok : stable (answered c answer ok).
Proof. intros mid cs (a & b & -> & H). exists a, (b ++ cs). rewrite <-app_assoc. done. Qed.
Lemma stable_and (I J : facts) : stable I -> stable J -> stable (fun mid => I mid /\ J mid).
Proof. intros HI HJ mid cs [? ?]. split; [by apply HI | by apply HJ]. Qed.
Lemma stable_or (I J : facts) : stable I -> stable J -> stable (fun mid => I mid \/ J mid).
Proof. intros HI HJ mid cs [?|?]; [left; by apply HI | right; by apply HJ]. Qed.
Lemma stable_impl (p : Prop) (I : facts) : stable I -> stable (fun mid => p -> I mid).
Proof. intros HI mid cs H Hp. by apply HI, H. Qed.
Lemma stable_const (p : Prop) : stable (fun _ => p).
Proof. by intros mid cs. Qed.
Lemma stable_forall {X} (I : X -> facts) : (forall x, stable (I x)) -> stable (fun mid => forall x, I x mid).
Proof. intros H mid cs Hx x. by apply H. Qed.
Lemma stable_exists {X} (I : X -> facts) : (forall x, stable (I x)) -> stable (fun mid => exists x, I x mid).
Proof. intros H mid cs [x Hx]. exists x. by apply H. Qed.
Hint Resolve stable_answered stable_and stable_or stable_impl stable_const stable_forall stable_exists : review.

(** ** What must precede the calls that matter *)

(** A reviewer ran in this pass and its checks compute to [v]. *)
Definition answers_verdict (v : verdict) (r : res member_run) : Prop :=
  exists code file out raw, r = Ok (MR_exit code file out) /\ raw_verdict env file out = Some raw /\ verdict_of_raw raw = Ok v.
Definition reviewed (v : verdict) (mid : list rcall) : Prop :=
  exists backend model key goal, answered (RC_review backend model key goal) (re_review env) (answers_verdict v) mid.

Definition said (v : verdict) : string := upper (if str_truthy (vd_result v) then vd_result v else CONCERNS).

Definition cfg : option ReviewRepo := od_get (jtext vk) (rvs_repos settings).
Definition ignored : list string := ignored_checks cfg.

(** The checks of the head, asked for and readable as [ok] says. *)
Definition runs_said (ok : res (list dict) -> Prop) (mid : list rcall) : Prop :=
  answered (RC_gh slug n (CheckRuns (jtext (head_field pr_data "sha")))) (re_check_runs env) ok mid.
Definition readable (ok : list dict -> Prop) (r : res (list dict)) : Prop := exists runs, r = Ok runs /\ ok runs.
Definition green_read (mid : list rcall) : Prop :=
  runs_said (readable (fun runs => completed_of ignored runs <> [])) mid.

(** Who says that the pull request may be merged: the reviewer of this pass,
    every seat of a quorum, or CI itself once retractions are spent. *)
Definition approved (mid : list rcall) : Prop :=
  (exists v, reviewed v mid /\ said v = LGTM) \/
  (exists results, results <> [] /\ (rvs_min_council_members settings <= Z.of_nat (length results))%Z /\
     Forall (fun m => reviewed (mr_verdict m) mid /\ said (mr_verdict m) = LGTM) results) \/
  ((exists r, cfg = Some r /\ rvr_auto_merge_on_ci_green r = true) /\ is_autonomy pr_data = true /\ green_read mid).

Definition not_conflicting (r : res jval) : Prop :=
  match r with Ok pr => mergeable_of pr <> Ok (Some false) | Raise _ => True end.
Definition protects (r : res jval) : Prop := exists v, r = Ok v /\ protection_sufficient v = Ok true.
Definition unreadable_or (ok : list dict -> Prop) (r : res (list dict)) : Prop :=
  match r with Ok runs => ok runs | Raise _ => True end.
Definition acceptable_files (r : res jval) : Prop :=
  match r with
  | Ok page => match files_of_page page with
               | Ok fs => sensitive_paths_in_diff fs sensitive_path_patterns = []
               | Raise _ => True
               end
  | Raise _ => True
  end.
Definition acknowledged : Prop := exists labels, items_of (dget pr_data "labels") = Ok labels /\ any_acked labels = Ok true.

Definition gates_passed (mid : list rcall) : Prop :=
  answered (RC_gh slug n GetPr) (re_get_pr env) not_conflicting mid /\
  (rvs_require_branch_protection settings = true ->
     exists base, base_branch_of_pr pr_data = Ok base /\
       answered (RC_gh slug n (Protection base)) (re_protection env) protects mid) /\
  (rvs_require_sensitive_path_ack settings = true ->
     acknowledged \/ answered (RC_gh slug n Files) (re_files env) acceptable_files mid) /\
  (jtruthy (head_field pr_data "sha") = true ->
     runs_said (unreadable_or (fun runs => failed_of ignored runs = [])) mid /\
     runs_said (unreadable_or (fun runs => incomplete_of ignored runs = [])) mid).

(** The task went back to the queue, or to a human, and then the receipt was noted. *)
Definition requeued (task : string) (mid : list rcall) : Prop :=
  exists state, (state = STATE_READY \/ state = STATE_BLOCKED) /\
    answered (RC_transition task state) (re_write env) (eq (Ok tt)) mid.
Definition receipted (task : string) (mid : list rcall) : Prop :=
  exists reason spec_file, spec_file <> "" /\
    answered (RC_note task (receipt_text n reason spec_file (strip (pr_head_ref pr_data)))) (re_write env) (eq (Ok tt)) mid.
Definition closed (mid : list rcall) : Prop := answered (RC_gh slug n ClosePr) (re_write env) (eq (Ok tt)) mid.

Definition justified (mid : list rcall) (c : rcall) : Prop :=
  match c with
  | RC_gh s k (MergePr _) => s = slug /\ k = n /\ approved mid /\ gates_passed mid
  | RC_gh s k ClosePr => s = slug /\ k = n /\ exists task, requeued task mid /\ receipted task mid
  | RC_gh s k (DeleteBranch ref) => s = slug /\ k = n /\ ref = pr_head_ref pr_data /\ closed mid
  | _ => True
  end.

Lemma mild_justified c mid : mild c -> justified mid c.
Proof. by destruct c as [? ? []| | | | | | | | | | | | | | | | |]. Qed.

(** ** Computations whose calls are justified *)

Definition sound {A} (I : facts) (m : RM A) (Q : A -> facts) : Prop :=
  forall mid w, at_point mid w -> I mid ->
    exists cs, at_point (mid ++ cs) (fst (m w)) /\ (forall a c b, cs = a ++ c :: b -> justified (mid ++ a) c) /\
               (forall x, snd (m w) = Ok x -> Q x (mid ++ cs)).

Lemma justified_app mid cs1 cs2 :
  (forall a c b, cs1 = a ++ c :: b -> justified (mid ++ a) c) ->
  (forall a c b, cs2 = a ++ c :: b -> justified ((mid ++ cs1) ++ a) c) ->
  forall a c b, cs1 ++ cs2 = a ++ c :: b -> justified (mid ++ a) c.
Proof.
  intros H1 H2 a c b E. destruct (decide (length a < length cs1)) as [Hl|Hl].
  - apply (H1 a c (drop (length a + 1) cs1)). apply (f_equal (take (length cs1))) in E.
    rewrite take_app_length, take_app_ge in E by lia. destruct (length cs1 - length a) as [|k] eqn:Hk; [lia|].
    cbn in E. assert (cs1 = a ++ c :: take k b) as -> by done. f_equal. f_equal.
    rewrite drop_app_ge by lia. replace (length a + 1 - length a) with 1 by lia. done.
  - apply (f_equal (drop (length cs1))) in E as E'. rewrite drop_app_length, drop_app_le in E' by lia.
    apply (f_equal (take (length cs1))) in E. rewrite take_app_length, take_app_le in E by lia.
    rewrite <-(take_drop (length cs1) a), <-E, app_assoc. by apply (H2 _ c b).
Qed.

Lemma sound_bind {A B} I (m : RM A) (k : A -> RM B) Q R :
  sound I m Q -> (forall a, sound (Q a) (k a) R) -> sound I (se_bind m k) R.
Proof.
  intros Hm Hk mid w Hw HI. unfold se_bind. destruct (Hm mid w Hw HI) as (cs & Hw1 & Hj & Hq).
  destruct (m w) as [w1 [a|e]]; cbn [fst snd] in *; [|by exists cs].
  destruct (Hk a _ _ Hw1 (Hq a eq_refl)) as (cs' & Hw2 & Hj' & Hr). rewrite <-app_assoc in Hw2.
  exists (cs ++ cs'). split_and!; [done| by apply justified_app | rewrite app_assoc; exact Hr].
Qed.

Lemma sound_try {A} I (m : RM A) h Q :
  stable I -> sound I m Q -> (forall e, sound I (h e) Q) -> sound I (se_try m h) Q.
Proof.
  intros HI Hm Hh mid w Hw Hmid. unfold se_try. destruct (Hm mid w Hw Hmid) as (cs & Hw1 & Hj & Hq).
  destruct (m w) as [w1 [a|e]]; cbn [fst snd] in *; [by exists cs|].
  destruct (Hh e _ _ Hw1 (HI _ _ Hmid)) as (cs' & Hw2 & Hj' & Hr). rewrite <-app_assoc in Hw2.
  exists (cs ++ cs'). split_and!; [done| by apply justified_app | rewrite app_assoc; exact Hr].
Qed.

Lemma sound_weaken {A} (I I' : facts) (m : RM A) (Q Q' : A -> facts) :
  sound I m Q -> (forall mid, I' mid -> I mid) -> (forall a mid, Q a mid -> Q' a mid) -> sound I' m Q'.
Proof. intros H HI HQ mid w Hw Hmid. destruct (H mid w Hw (HI _ Hmid)) as (cs & ? & ? & ?). exists cs. eauto. Qed.

Lemma sound_pure {A} (p : Prop) I (m : RM A) Q : (p -> sound I m Q) -> sound (fun mid => p /\ I mid) m Q.
Proof. intros H mid w Hw [Hp Hmid]. by apply H. Qed.

Lemma sound_quiet {A} I (m : RM A) : quiet mild m -> stable I -> sound I m (fun _ => I).
Proof.
  intros Hm HI mid w [Hc Hs] Hmid. destruct (Hm w) as (Hid & cs & Hcs & Hp). exists cs.
  split_and!; [split; [by rewrite Hcs, Hc, app_assoc | congruence] | | intros x _; by apply HI].
  intros a c b ->. apply mild_justified. by apply Forall_app in Hp as [_ [? _]%Forall_cons].
Qed.

Lemma sound_ret {A} (a : A) (I : facts) (Q : A -> facts) : (forall mid, I mid -> Q a mid) -> sound I (se_ret a) Q.
Proof.
  intros H mid w Hw Hmid. exists []. rewrite app_nil_r. split_and!; [done| |].
  - intros a' c b E. by destruct a'.
  - intros x [= <-]. by apply H.
Qed.

Lemma sound_lift {A} (r : res A) (I : facts) (Q : A -> facts) :
  (forall a mid, r = Ok a -> I mid -> Q a mid) -> sound I (se_lift r) Q.
Proof.
  intros H mid w Hw Hmid. exists []. rewrite app_nil_r. split_and!; [done| |].
  - intros a' c b E. by destruct a'.
  - intros x E. by apply H.
Qed.

Lemma sound_lift_eq {A} (r : res A) I : sound I (se_lift r) (fun a mid => r = Ok a /\ I mid).
Proof. by apply sound_lift. Qed.

(** A call, and what its answer tells. *)
Lemma sound_rask {A} (answer : list rcall -> res A) c (I : facts) (Q : A -> facts) :
  (forall mid, I mid -> justified mid c) ->
  (forall a mid, I mid -> answer (t0 ++ mid ++ [c]) = Ok a -> Q a (mid ++ [c])) ->
  sound I (rask answer c) Q.
Proof.
  intros Hj HQ mid w [Hc Hs] Hmid. exists [c]. split_and!.
  - split; [cbn; by rewrite Hc, app_assoc | done].
  - intros a c' b E. destruct a as [|? a]; [injection E as <- <-; rewrite app_nil_r; by apply Hj | by destruct a].
  - intros x Hx. apply HQ; [done|]. cbn in Hx. by rewrite Hc, <-app_assoc in Hx.
Qed.

Lemma sound_number I : sound I pr_number (fun k mid => k = n /\ I mid).
Proof.
  intros mid w Hw Hmid. exists []. rewrite app_nil_r. split_and!; [done| intros a c b E; by destruct a|].
  intros x Hx. split; [|done]. destruct Hw as [_ [= Hn _]]. cbn in Hx. rewrite Hn in Hx. cbn in Hx. congruence.
Qed.

Lemma sound_cfg I : sound I (repo_cfg settings) (fun c mid => c = cfg /\ I mid).
Proof.
  intros mid w Hw Hmid. exists []. destruct Hw as [Hc Hid]. pose proof Hid as [= Hn Hk].
  unfold repo_cfg, se_bind, se_get. rewrite Hk, app_nil_r. split_and!; [done| intros a c b E; by destruct a|].
  intros x [= <-]. done.
Qed.

Lemma sound_gh {A} (answer : list rcall -> res A) q (I : facts) (Q : A -> facts) :
  (forall mid, I mid -> justified mid (RC_gh slug n q)) ->
  (forall a mid, I mid -> answer (t0 ++ mid ++ [RC_gh slug n q]) = Ok a -> Q a (mid ++ [RC_gh slug n q])) ->
  sound I (gh slug answer q) Q.
Proof.
  intros Hj HQ. unfold gh. eapply sound_bind; [apply sound_number|]. intros k.
  eapply sound_weaken with (I := fun mid => k = n /\ I mid); [|done|by intros ? ? H; exact H].
  intros mid w Hw [-> Hmid]. by eapply sound_rask.
Qed.

(** A question whose answer, or failure, becomes a value. *)
Lemma sound_asked {A B} (answer : list rcall -> res A) q (k : A -> res B) (h : exn -> B) (I : facts) (Q : B -> facts) :
  (forall mid, justified mid (RC_gh slug n q)) ->
  (forall mid, I mid ->
     Q (match answer (t0 ++ mid ++ [RC_gh slug n q]) with
        | Ok a => match k a with Ok b => b | Raise e => h e end
        | Raise e => h e
        end) (mid ++ [RC_gh slug n q])) ->
  sound I (se_try (a <<- gh slug answer q ;; se_lift (k a)) (fun e => se_ret (h e))) Q.
Proof.
  intros Hj HQ mid w [Hc Hid] Hmid. specialize (HQ mid Hmid). exists [RC_gh slug n q]. pose proof Hid as [= Hn Hk].
  unfold gh, se_try, se_bind, pr_number, se_get. rewrite Hn. cbn [mbind res_bind]. rewrite number_is.
  unfold rask. cbn [rw_calls rasked]. rewrite Hc, <-app_assoc.
  destruct (answer _) as [a|e]; [unfold se_lift; destruct (k a) as [b|e]|]; cbn [fst snd];
    (split_and!; [split; [cbn; by rewrite Hc, app_assoc | done]
                 | intros a' c b' E; destruct a' as [|? a']; [injection E as <- <-; by rewrite app_nil_r | by destruct a']
                 | intros x [= <-]; exact HQ]).
Qed.

Lemma sound_try_total {A} I (m : RM A) h Q : (forall w e, snd (m w) <> Raise e) -> sound I m Q -> sound I (se_try m h) Q.
Proof.
  intros Ht Hm mid w Hw Hmid. destruct (Hm mid w Hw Hmid) as (cs & ? & ? & ?). exists cs. specialize (Ht w).
  unfold se_try. destruct (m w) as [w1 [a|e]]; [done|]. by destruct (Ht e).
Qed.
Lemma files_total w e :
  snd ((fs <<- list_pr_files env slug ;; se_ret (Some fs)) w) <> Raise e.
Proof.
  unfold list_pr_files, se_bind, se_try. destruct (gh slug (re_files env) Files w) as [w1 [page|?]]; [|done].
  cbn. by destruct (files_of_page page).
Qed.

Lemma answered_last {X} c (answer : list rcall -> X) ok mid :
  ok (answer (t0 ++ mid ++ [c])) -> answered c answer ok (mid ++ [c]).
Proof. intros H. by exists mid, []. Qed.

(** ** The gates *)

Lemma sound_mergeable I : stable I ->
  sound I (get_mergeable env slug)
    (fun r mid => I mid /\ (r <> Some false -> answered (RC_gh slug n GetPr) (re_get_pr env) not_conflicting mid)).
Proof.
  intros HI. unfold get_mergeable. apply sound_asked; [done|]. intros mid Hmid. split; [by apply HI|].
  intros Hr. apply answered_last. destruct (re_get_pr env _) as [pr|e]; [|done]. cbn.
  destruct (mergeable_of pr); congruence.
Qed.

Lemma sound_files I : stable I ->
  sound I (list_pr_files env slug)
    (fun fs mid => I mid /\
       (sensitive_paths_in_diff fs sensitive_path_patterns = [] ->
        answered (RC_gh slug n Files) (re_files env) acceptable_files mid)).
Proof.
  intros HI. unfold list_pr_files. apply sound_asked; [done|]. intros mid Hmid. split; [by apply HI|].
  intros Hr. apply answered_last. destruct (re_files env _) as [page|e]; [|done]. cbn.
  destruct (files_of_page page); done.
Qed.

Lemma sound_protection I base : stable I ->
  sound I (branch_protection_ok env settings slug base)
    (fun b mid => I mid /\ (b = true -> rvs_require_branch_protection settings = true ->
       answered (RC_gh slug n (Protection base)) (re_protection env) protects mid)).
Proof.
  intros HI. unfold branch_protection_ok. destruct (rvs_require_branch_protection settings); cbn [negb];
    [|by apply sound_ret].
  eapply sound_bind.
  - apply (sound_asked (re_protection env) (Protection base) (fun v => Ok (Some v)) (fun _ => None) I
      (fun a mid => I mid /\ forall v, a = Some v -> protection_sufficient v = Ok true ->
                    answered (RC_gh slug n (Protection base)) (re_protection env) protects mid)); [done|].
    intros mid Hmid. split; [by apply HI|]. intros v Hv Hp. apply answered_last.
    destruct (re_protection env _); [|done]. injection Hv as ->. by exists v.
  - intros [v|]; [|apply sound_ret; intros mid [? _]; by split].
    destruct (jtruthy v); cbn [negb]; [|apply sound_ret; intros mid [? _]; by split].
    apply sound_lift. intros b mid Hb [Hmid Hv]. split; [done|]. intros -> _. by eapply Hv.
Qed.

Lemma sound_ack I : stable I ->
  sound I (sensitive_path_ack_ok env settings slug pr_data)
    (fun b mid => I mid /\ (b = true -> rvs_require_sensitive_path_ack settings = true ->
       acknowledged \/ answered (RC_gh slug n Files) (re_files env) acceptable_files mid)).
Proof.
  intros HI. unfold sensitive_path_ack_ok. destruct (rvs_require_sensitive_path_ack settings); cbn [negb];
    [|by apply sound_ret].
  eapply sound_bind; [apply (sound_lift _ I (fun labels mid => items_of (dget pr_data "labels") = Ok labels /\ I mid)); done|].
  intros labels. eapply sound_bind.
  { eapply (sound_lift _ _ (fun ack mid => (items_of (dget pr_data "labels") = Ok labels /\ any_acked labels = Ok ack) /\ I mid)).
    intros ack mid Ha [? ?]. done. }
  intros [|]; [apply sound_ret; intros mid [[? ?] ?]; split; [done|]; intros _ _; left; by exists labels|].
  assert (Hst : stable (fun mid => (items_of (dget pr_data "labels") = Ok labels /\ any_acked labels = Ok false) /\ I mid)).
  { apply stable_and; [apply stable_const | done]. }
  eapply sound_bind.
  - eapply (sound_try_total _ _ _ (fun o mid => I mid /\ exists fs, o = Some fs /\
        (sensitive_paths_in_diff fs sensitive_path_patterns = [] ->
         answered (RC_gh slug n Files) (re_files env) acceptable_files mid))); [apply files_total|].
    eapply sound_bind; [by apply sound_files|]. intros fs. apply sound_ret. intros mid [[_ ?] Hf]. split; [done|]. by exists fs.
  - intros o. apply sound_ret. intros mid (Hmid & fs & -> & Hf). split; [done|]. intros Hb _. right. apply Hf.
    by destruct (sensitive_paths_in_diff fs _).
Qed.

Lemma sound_ext {A} I (m m' : RM A) Q : (forall w, m w = m' w) -> sound I m' Q -> sound I m Q.
Proof. intros E H mid w Hw Hmid. rewrite E. by apply H. Qed.

(** What one of the three questions about the checks of the head tells. *)
Lemma sound_runs (f : list dict -> list string) I : stable I ->
  sound I (runs <<- runs_of_head env slug pr_data ;; se_ret (f runs))
    (fun l mid => I mid /\
       (jtruthy (head_field pr_data "sha") = true ->
          runs_said (fun r => l = f (match r with Ok runs => runs | Raise _ => [] end)) mid) /\
       (jtruthy (head_field pr_data "sha") = false -> l = f [])).
Proof.
  intros HI. unfold runs_of_head. destruct (jtruthy (head_field pr_data "sha")) eqn:Hsha; cbn [negb].
  - set (q := CheckRuns _).
    apply (sound_bind _ _ _ (fun runs mid => I mid /\
             runs_said (fun r => runs = match r with Ok runs => runs | Raise _ => [] end) mid)).
    + eapply (sound_ext _ _ (se_try (a <<- gh slug (re_check_runs env) q ;; se_lift (Ok a)) (fun e => se_ret []))).
      { intros w. unfold se_try, se_bind. by destruct (gh slug (re_check_runs env) q w) as [w1 [a|e]]. }
      apply sound_asked; [done|]. intros mid Hmid. split; [by apply HI|]. by apply answered_last.
    + intros runs. apply sound_ret. intros mid [? (a & b & -> & Hr)]. split_and!; [done| |done].
      intros _. exists a, b. split; [done|]. congruence.
  - eapply sound_bind; [apply (sound_ret [] I (fun runs mid => I mid /\ runs = [])); done|].
    intros runs. apply sound_ret. intros mid [? ->]. done.
Qed.

Lemma answered_impl {X} c (answer : list rcall -> X) (ok ok' : X -> Prop) mid :
  (forall x, ok x -> ok' x) -> answered c answer ok mid -> answered c answer ok' mid.
Proof. intros H (a & b & ? & ?). exists a, b. split; [done|]. by apply H. Qed.

Lemma stable_reviewed v : stable (reviewed v).
Proof. unfold reviewed. do 4 (apply stable_exists; intros ?). apply stable_answered. Qed.
Lemma stable_approved : stable approved.
Proof.
  unfold approved. apply stable_or; [|apply stable_or].
  - apply stable_exists. intros v. apply stable_and; [apply stable_reviewed | apply stable_const].
  - apply stable_exists. intros results. repeat (apply stable_and; [apply stable_const|]).
    intros mid cs H. eapply Forall_impl; [exact H|]. intros m [? ?]. split; [by apply stable_reviewed | done].
  - repeat (apply stable_and; [apply stable_const|]). apply stable_answered.
Qed.
Lemma stable_gates : stable gates_passed.
Proof. unfold gates_passed, runs_said. auto 20 with review. Qed.

Ltac quietly :=
  eapply sound_bind; [apply sound_quiet; [solve [quiet_auto] | assumption]|intros ?; cbn beta].

(** ** The merge *)

Lemma do_merge_sound reason :
  sound (fun mid => approved mid /\ gates_passed mid) (do_merge env slug sp pr_data reason) (fun _ => approved).
Proof.
  assert (Hst : stable (fun mid => approved mid /\ gates_passed mid)) by auto using stable_and, stable_approved, stable_gates.
  unfold do_merge. quietly.
  quietly.
  apply (sound_bind _ _ _ (fun (_ : bool) mid => approved mid /\ gates_passed mid)).
  - apply sound_try; [done| |intros e; by apply sound_ret].
    apply (sound_bind _ _ _ (fun _ mid => approved mid /\ gates_passed mid)).
    { apply sound_gh; [by intros mid [? ?] | intros ? mid H _; by apply Hst]. }
    intros _. quietly. by apply sound_ret.
  - intros [|]; cbn [negb]; [|by apply sound_ret; intros mid [? ?]].
    eapply sound_weaken; [apply sound_quiet; [|exact Hst] | by intros mid H; exact H | by intros ? mid [? ?]].
    quiet_auto.
Qed.

Lemma merge_and_done_sound reason : sound approved (merge_and_done env settings slug sp pr_data reason) (fun _ => approved).
Proof.
  assert (Ha := stable_approved).
  unfold merge_and_done. quietly.
  eapply sound_bind; [by apply sound_mergeable|]. intros mergeable. case_bool_decide as Hm.
  { eapply sound_weaken; [apply sound_quiet; [auto with review | exact Ha] | by intros mid [? ?] | done]. }
  eapply sound_weaken with (I := fun mid => approved mid /\ answered (RC_gh slug n GetPr) (re_get_pr env) not_conflicting mid);
    [|by intros mid [? H]; split; [|apply H] | by intros ? ? H; exact H].
  match goal with |- sound ?I _ _ => assert (H1 : stable I) by auto with review end.
  quietly.
  eapply sound_bind; [apply sound_lift_eq|].
  intros base. cbn beta. match goal with |- sound ?I _ _ => assert (H2 : stable I) by auto with review end.
  eapply sound_bind; [by apply sound_protection|]. intros [|]; cbn [negb]; [|apply sound_ret; tauto].
  match goal with |- sound ?I _ _ => assert (H3 : stable I) by auto 10 with review end.
  eapply sound_bind; [by apply sound_ack|]. intros [|]; cbn [negb]; [|apply sound_ret; tauto].
  eapply sound_bind; [apply sound_cfg|]. intros c. cbn beta.
  match goal with |- sound ?I _ _ => assert (H4 : stable I) by auto 20 with review end.
  eapply sound_bind; [by apply sound_runs|]. intros failed. cbn beta.
  match goal with |- sound ?I _ _ => assert (H5 : stable I) by (unfold runs_said; auto 20 with review) end.
  eapply sound_bind; [by apply sound_runs|]. intros pending. cbn beta.
  destruct failed as [|]; [|apply sound_ret; tauto].
  destruct pending as [|]; [|apply sound_ret; tauto].
  eapply sound_weaken; [apply do_merge_sound | | done].
  intros mid H. decompose [and] H. split; [done|]. subst c. split_and!; [done | naive_solver | naive_solver |].
  intros Hsha. repeat match goal with H : _ = true -> runs_said _ _ |- _ => specialize (H Hsha) end.
  split; (multimatch goal with H : runs_said _ _ |- _ => eapply answered_impl; [|exact H] end); by intros [|].
Qed.

(** ** Closing *)

Lemma stable_requeued task : stable (requeued task).
Proof. unfold requeued. apply stable_exists. auto with review. Qed.
Lemma stable_receipted task : stable (receipted task).
Proof. unfold receipted. do 2 (apply stable_exists; intros ?). auto with review. Qed.
Hint Resolve stable_requeued stable_receipted : review.

Definition anything (mid : list rcall) : Prop := True.
Lemma stable_anything : stable anything.
Proof. done. Qed.
Hint Resolve stable_anything : review.

(** A write to the board that was taken. *)
Lemma sound_write c I (Q : unit -> facts) :
  mild c -> (forall mid, I mid -> answered c (re_write env) (eq (Ok tt)) (mid ++ [c]) -> Q tt (mid ++ [c])) ->
  sound I (rask (re_write env) c) Q.
Proof.
  intros Hm HQ. apply sound_rask; [intros; by apply mild_justified|]. intros [] mid Hmid Ha. apply HQ; [done|].
  by apply answered_last.
Qed.

Lemma requeue_sound task reason concerns :
  sound anything (requeue_plane_task env task reason concerns) (fun b mid => b = true -> requeued task mid).
Proof.
  assert (Hany := stable_anything). assert (Hrq := stable_requeued task).
  unfold requeue_plane_task. quietly. apply sound_try; [done| |intros e; by apply sound_ret].
  apply (sound_bind _ _ _ (fun _ => requeued task)); [|intros _; apply sound_ret; done].
  unfold with_board. quietly. unfold requeue_fetched, fetch_task. quietly.
  case_match; unfold label_task, move_task, note_task; quietly;
    (apply (sound_bind _ _ _ (fun _ => requeued task)); [|intros _; apply sound_quiet; [quiet_auto | done]]);
    (apply sound_write; [done|]); intros mid _ Ha; eexists; (split; [|exact Ha]); auto.
Qed.

Lemma receipt_sound task reason I : stable I ->
  sound I (record_close_receipt env pr_data task reason)
    (fun s mid => I mid /\ (str_truthy s = true -> receipted task mid)).
Proof.
  intros HI. unfold record_close_receipt. eapply sound_bind; [apply sound_number|]. intros k.
  apply (sound_weaken (fun mid => k = n /\ I mid) _ _ (fun s mid => (k = n /\ I mid) /\ (str_truthy s = true -> receipted task mid)));
    [|done|tauto].
  assert (Hst : stable (fun mid => k = n /\ I mid)) by auto with review.
  unfold with_board, fetch_task. quietly. quietly.
  eapply sound_bind; [apply sound_quiet; [|exact Hst]|].
  { unfold spec_file_from_plane_issue, campaign_spec_file. quiet_auto. }
  intros spec_file. cbn beta. destruct (str_truthy spec_file) eqn:Hs; cbn [negb]; [|by apply sound_ret].
  eapply (sound_bind _ _ _ (fun _ mid => (k = n /\ I mid) /\ receipted task mid)).
  - apply sound_write; [done|]. intros mid H Ha. split; [by apply Hst|]. destruct H as [-> _].
    exists reason, spec_file. split; [by intros ->|exact Ha].
  - intros _. apply sound_ret. tauto.
Qed.

Lemma close_with_receipt_sound task spec_file reason detail :
  sound (fun mid => requeued task mid /\ receipted task mid)
    (close_with_receipt env settings slug sp pr_data task spec_file reason detail) (fun _ => anything).
Proof.
  match goal with |- sound ?I _ _ => assert (Hst : stable I) by auto with review end.
  unfold close_with_receipt. eapply sound_bind; [apply sound_number|]. intros k. cbn beta.
  match goal with |- sound ?I _ _ => assert (Hst' : stable I) by auto with review end.
  match goal with |- sound ?I (if ?b then _ else _) _ => destruct b end.
  { eapply sound_weaken; [apply sound_quiet; [auto with review | exact Hst'] | by intros ? H; exact H | done]. }
  eapply sound_bind; [apply sound_quiet; [|exact Hst']|].
  { quiet_auto. by apply quiet_gh. }
  intros ?. cbn beta.
  apply (sound_bind _ _ _ (fun b mid => b = true -> closed mid)).
  - apply sound_try; [done| |intros e; by apply sound_ret].
    apply (sound_bind _ _ _ (fun _ => closed)); [|intros _; by apply sound_ret].
    apply sound_gh.
    + intros mid (-> & Hq & Hr). split_and!; [done..|]. by exists task.
    + intros [] mid _ Ha. by apply answered_last.
  - intros [|]; cbn [negb].
    2:{ eapply (sound_weaken anything); [apply sound_quiet; [auto with review | done] | done | done]. }
    eapply (sound_weaken closed); [|by intros mid Hmid; apply Hmid|by intros ? ? Hmid; exact Hmid].
    assert (Hcl : stable closed) by apply stable_answered.
    apply (sound_bind _ _ _ (fun _ => anything)).
    + case_match; [|by apply sound_ret]. apply sound_try; [done| |intros e; by apply sound_ret].
      apply sound_gh; [|done]. intros ? Hclosed. done.
    + intros _. eapply sound_weaken; [apply sound_quiet; [|apply stable_anything] | done | done]. quiet_auto.
Qed.

Lemma close_sound reason detail concerns :
  sound anything (close_and_requeue env settings slug sp pr_data reason detail concerns) (fun _ => anything).
Proof.
  assert (Hany := stable_anything). unfold close_and_requeue. quietly. quietly. case_match.
  { apply sound_quiet; [auto with review | done]. }
  eapply sound_bind; [apply requeue_sound|]. intros [|]; cbn [negb].
  2:{ eapply (sound_weaken anything); [apply sound_quiet; [auto with review | done] | done | done]. }
  eapply (sound_weaken (requeued _)); [|by intros mid Hmid; apply Hmid|by intros ? ? Hmid; exact Hmid].
  apply (sound_bind _ _ _ (fun r mid => requeued (jtext a0) mid /\
           (forall s, r = Some s -> str_truthy s = true -> receipted (jtext a0) mid))).
  - apply sound_try; [auto with review| |intros e; by apply sound_ret].
    eapply sound_bind; [apply receipt_sound; auto with review|]. intros s. apply sound_ret.
    intros mid [? Hs]. split; [done|]. by intros ? [= <-].
  - intros [s|].
    2:{ eapply (sound_weaken anything); [apply sound_quiet; [auto with review | done] | done | done]. }
    destruct (str_truthy s) eqn:Hs; cbn [negb].
    + eapply sound_weaken; [apply close_with_receipt_sound | | done]. intros mid [? Hr]. split; [done|]. by eapply Hr.
    + eapply (sound_weaken anything); [apply sound_quiet; [auto with review | done] | done | done].
Qed.

(** ** Approvals *)

Lemma member_review_sound goal key backend model I : stable I ->
  sound I (run_member_review env goal key backend model) (fun o mid => I mid /\ forall v, o = Some v -> reviewed v mid).
Proof.
  intros HI. unfold run_member_review. quietly. case_match; [by apply sound_lift|].
  case_match; [|by apply sound_lift].
  apply (sound_bind _ _ _ (fun run mid => I mid /\ answered (RC_review backend model key goal) (re_review env) (eq (Ok run)) mid)).
  { apply sound_rask; [by intros|]. intros run mid Hmid Ha. split; [by apply HI|]. apply answered_last. by rewrite Ha. }
  intros [|code file out]; [by apply sound_lift|]. destruct (raw_verdict env file out) as [raw|] eqn:Hraw.
  - eapply sound_bind; [apply sound_lift_eq|]. intros v. apply sound_ret. intros mid (Hv & Hmid & Ha). split; [done|].
    intros ? [= <-]. exists backend, model, key, goal. eapply answered_impl; [|exact Ha]. intros r <-.
    by exists code, file, out, raw.
  - case_match; [|by apply sound_lift]. apply sound_ret. by intros mid [? _].
Qed.

Definition heard (m : member_result) (mid : list rcall) : Prop := said (mr_verdict m) = LGTM -> reviewed (mr_verdict m) mid.

Lemma hear_members_sound goal key seats I : stable I ->
  sound I (hear_members env goal key seats) (fun rs mid => I mid /\ length rs = length seats /\ Forall (fun m => heard m mid) rs).
Proof.
  intros HI. induction seats as [|s seats IH]; cbn [hear_members]; [by apply sound_ret|].
  eapply sound_bind; [by apply member_review_sound|]. intros v. cbn beta.
  set (I' := fun mid => I mid /\ (forall v0, v = Some v0 -> reviewed v0 mid)).
  assert (HI' : stable I').
  { intros mid cs [? Hv]. split; [by apply HI|]. intros v0 Hv0. by apply stable_reviewed, Hv. }
  eapply sound_bind.
  - instantiate (1 := fun rs mid => I' mid /\ (I mid /\ length rs = length seats /\ Forall (fun m => heard m mid) rs)).
    intros mid w Hw Hmid. destruct (IH mid w Hw (proj1 Hmid)) as (cs & ? & ? & ?). exists cs. split_and!; [done..|].
    intros x Hx. split; [by apply HI' | by auto].
  - intros rs. apply sound_ret. intros mid ([_ Hv] & Hmid & Hl & Hrs). split_and!; [done | by cbn; f_equal |].
    constructor; [|done]. unfold heard. cbn. destruct v as [v|]; cbn; [intros _; by apply Hv | done].
Qed.

Lemma unanimous results :
  cv_result (aggregate_council results) = LGTM ->
  results <> [] /\ Forall (fun m => said (mr_verdict m) = LGTM) results.
Proof.
  unfold aggregate_council. destruct (list_truthy results) eqn:Hr; cbn [andb]; [|done].
  destruct (list_truthy (List.filter _ results)) eqn:Hf; cbn [negb]; [done|]. intros _. split; [by intros ->|].
  apply Forall_forall. intros m Hm. unfold said. destruct (decide (result_of_member m = LGTM)) as [E|Hne]; [exact E|].
  exfalso. assert (Hin : List.In m (List.filter (fun m => negb (String.eqb (result_of_member m) LGTM)) results)).
  { apply filter_In. split; [by apply list_elem_of_In|]. by apply negb_true_iff, String.eqb_neq. }
  by destruct (List.filter _ results).
Qed.

Lemma ci_status_sound required I : stable I ->
  sound I (ci_status env slug pr_data ignored required) (fun ci mid => I mid /\ (ci_green ci = true -> green_read mid)).
Proof.
  intros HI. destruct (checks_tame env slug pr_data ignored) as (Hf%tame_mild & Hp%tame_mild & _).
  unfold ci_status. apply sound_try; [done| |intros e; apply sound_ret; intros mid ?; by split].
  quietly. quietly. eapply sound_bind; [by apply sound_runs|]. intros completed. apply sound_ret.
  intros mid (Hmid & Hsha & Hnone). split; [done|]. unfold ci_green. cbn.
  intros [_ Hc]%andb_true_iff. destruct (jtruthy (head_field pr_data "sha")).
  - eapply answered_impl; [|by apply Hsha]. intros [runs|e]; cbn; intros ->; [|done].
    exists runs. split; [done|]. intros E. by rewrite E in Hc.
  - by rewrite Hnone in Hc by done.
Qed.

Lemma merge_on_ci_sound : sound anything (merge_on_ci env settings slug sp pr_data) (fun _ => anything).
Proof.
  assert (Hany := stable_anything). unfold merge_on_ci. quietly. case_match; [by apply sound_ret|].
  eapply sound_bind; [apply sound_cfg|]. intros c. apply sound_pure. intros ->.
  destruct cfg as [r|] eqn:Hcfg; [|by apply sound_ret].
  destruct (rvr_auto_merge_on_ci_green r) eqn:Hauto; [|by apply sound_ret]. cbn [andb].
  destruct (is_autonomy pr_data) eqn:Hbr; [|by apply sound_ret].
  apply sound_try; [done| |intros e; by apply sound_ret].
  assert (rvr_ci_ignored_checks r = ignored) as -> by (unfold ignored; by rewrite Hcfg).
  eapply sound_bind; [by apply ci_status_sound|]. intros ci. cbn beta.
  destruct (ci_green ci); [|by apply sound_ret].
  apply (sound_bind _ _ _ (fun _ => approved)); [|intros _; by apply sound_ret].
  eapply sound_weaken; [apply merge_and_done_sound | | done].
  intros mid [_ Hg]. right. right. split_and!; [by exists r|done|by apply Hg].
Qed.

Lemma fix_or_close_sound summary diff :
  sound anything (fix_or_close env settings slug sp pr_data summary diff) (fun _ => anything).
Proof.
  assert (Hany := stable_anything). unfold fix_or_close. quietly. case_match; [apply close_sound|].
  apply (sound_bind _ _ _ (fun _ => anything)).
  { apply sound_quiet; [|done]. quiet_auto. by apply tame_mild, post_and_remember_tame. }
  intros ?. cbv zeta. case_match; [apply close_sound|]. apply sound_quiet; [auto with review | done].
Qed.

Lemma dispatch_sound result summary diff :
  sound (fun mid => result = LGTM -> approved mid)
    (dispatch_verdict_outcome env settings slug sp pr_data result summary diff) (fun _ => anything).
Proof.
  assert (Hst : stable (fun mid => result = LGTM -> approved mid)) by (apply stable_impl, stable_approved).
  assert (Hany := stable_anything).
  unfold dispatch_verdict_outcome. quietly. quietly. quietly.
  destruct (String.eqb_spec result LGTM) as [->|Hne].
  { eapply sound_weaken; [apply merge_and_done_sound | by auto | done]. }
  eapply (sound_weaken anything); [|done|by intros ? ? H; exact H]. quietly. case_match; [|apply fix_or_close_sound].
  eapply sound_bind; [apply merge_on_ci_sound|]. intros [|]; [by apply sound_ret|].
  quietly. case_match; [apply fix_or_close_sound | by apply sound_ret].
Qed.

(** ** The pass *)

Lemma or_skip_sound {A} I (m : RM A) (k : A -> RM unit) Q : stable I ->
  sound I m Q -> (forall a, sound (Q a) (k a) (fun _ => anything)) ->
  sound I (or_skip env settings slug sp pr_data m k) (fun _ => anything).
Proof.
  intros HI Hm Hk. unfold or_skip.
  apply (sound_bind _ _ _ (fun o mid => forall a, o = Some a -> Q a mid)).
  - apply sound_try; [done| |].
    + eapply sound_bind; [exact Hm|]. intros a. apply sound_ret. by intros mid ? ? [= <-].
    + intros e. quietly. by apply sound_ret.
  - intros [a|]; [|by apply sound_ret]. eapply sound_weaken; [apply Hk | by auto | done].
Qed.

Lemma council_sound title diff excerpt spec cust nonce hits :
  sound anything (run_council env settings slug sp pr_data title diff excerpt spec cust nonce hits) (fun _ => anything).
Proof.
  assert (Hany := stable_anything).
  unfold run_council. do 6 quietly. destruct (Z.ltb_spec (Z.of_nat (length a4)) (rvs_min_council_members settings)) as [Hlt|Hge].
  { apply sound_quiet; [auto with review | done]. }
  do 2 quietly. cbv zeta. eapply or_skip_sound; [done | by apply hear_members_sound|]. intros results. cbn beta.
  match goal with |- sound ?I _ _ => assert (Hst : stable I) end.
  { intros mid cs (_ & Hl & Hh). split_and!; [done..|]. eapply Forall_impl; [exact Hh|]. intros m H Hm.
    by apply stable_reviewed, H. }
  unfold council_decides. do 4 quietly. cbv zeta. quietly.
  eapply sound_bind; [apply sound_quiet; [|exact Hst]|].
  { quiet_auto. by apply quiet_gh. }
  intros ?. cbn beta. eapply sound_weaken; [apply dispatch_sound | | done]. intros mid (_ & Hl & Hh) Hlgtm.
  apply unanimous in Hlgtm as [Hne Hall]. right. left. exists results. split_and!; [done|by rewrite Hl|].
  apply Forall_forall. intros m Hm. rewrite Forall_forall in Hh, Hall. split; [apply Hh; [done|]|]; by apply Hall.
Qed.

Lemma after_review_sound diff answer :
  sound (fun mid => anything mid /\ forall v, answer = Some v -> reviewed v mid)
    (after_review env settings slug sp pr_data diff answer) (fun _ => anything).
Proof.
  match goal with |- sound ?I _ _ => assert (Hst : stable I) end.
  { apply stable_and; [done|]. apply stable_forall. intros v. apply stable_impl, stable_reviewed. }
  unfold after_review. do 4 quietly. destruct answer as [v|].
  - do 2 quietly. eapply sound_weaken; [apply dispatch_sound | | done]. intros mid [_ Hv] Hl. left. exists v.
    split; [by apply Hv | exact Hl].
  - eapply (sound_weaken anything); [apply sound_quiet; [auto with review | done] | done | done].
Qed.

Lemma review_sound key : sound anything (review env settings slug sp pr_data key) (fun _ => anything).
Proof.
  assert (Hany := stable_anything). unfold review. do 3 quietly. quietly. match goal with x : list string * string |- _ => destruct x as [files excerpt] end.
  cbv zeta. do 4 quietly. case_match; [apply council_sound|].
  unfold single_review. do 2 quietly. case_match; [|by apply sound_ret].
  match goal with x : string * string |- _ => destruct x as [backend model] end.
  eapply or_skip_sound; [done | | apply after_review_sound]. case_match; by apply member_review_sound.
Qed.

Lemma process_pr_sound : sound anything (process_pr env settings slug sp pr_data) (fun _ => anything).
Proof.
  assert (Hany := stable_anything). unfold process_pr. do 3 quietly. apply sound_try; [done| |].
  - repeat case_match; [apply sound_quiet; [auto with review | done] | | by apply sound_ret].
    unfold phase1. do 6 quietly. case_match; [by apply sound_ret|]. quietly. quietly.
    case_match; [apply review_sound | by apply sound_ret].
  - intros e. case_match; [by apply sound_ret | by apply sound_lift].
Qed.
End Safety.

(** C3: What one pass over a pull request may do, whatever the code host, the
    board and the backends answer.  It merges only when the reviewer of this
    very pass, every seat of a quorum of the council, or green checks on a
    branch of the fleet approved, and only through the gates: the host did not
    call the branch conflicting, its protection binds the fleet, sensitive paths
    were acknowledged, and no check that could be read had failed or was still
    running.  It closes only when the task is back in its queue and the receipt
    is noted, and deletes only the branch it has closed. *)
Theorem passes_are_justified env settings slug sp pr_data w vn vk n :
  identity (rw_state w) = (Ok vn, Ok vk) -> jint vn = Ok n ->
  exists mid, rw_calls (fst (process_pr env settings slug sp pr_data w)) = rw_calls w ++ mid /\
    forall a c b, mid = a ++ c :: b -> justified env settings slug pr_data (rw_calls w) vk n a c.
Proof.
  intros Hid Hn. destruct (process_pr_sound env settings slug sp pr_data (rw_calls w) vn vk n Hn [] w) as (cs & [Hc _] & Hj & _).
  - split; [by rewrite app_nil_r | done].
  - done.
  - exists cs. split; [exact Hc | exact Hj].
Qed.

(** A passing review of a pull request whose checks are green. *)
Lemma passes_are_justified_witness :
  let env := healthy "pass" in
  let w := in_phase "self_review" ∅ in
  let calls := rw_calls (fst (process_pr env scene_settings "o/app" "app-12" scene_pr w)) in
  merge_asked_for calls = true /\
  exists mid, calls = [] ++ mid /\
    forall a c b, mid = a ++ c :: b -> justified env scene_settings "o/app" scene_pr [] (JStr "app") 12 a c.
Proof.
  intros env w calls. split; [vm_compute; reflexivity|].
  apply (passes_are_justified env scene_settings "o/app" "app-12" scene_pr w (JInt 12) (JStr "app") 12);
    vm_compute; reflexivity.
Defined.
