(* ===== verification/ReviewRules.v ===== *)
(** * The rules of the review

    The verdict as the reviewer's checks decide it, the attempts that are
    counted before they are made, the first phase that ends, the counter of
    re-queues; and what the code does not hold to: the cap of a parked council,
    a diff or checks that could not be read, and the task of a short number. *)
From S2P Require Import Prelude PyStr PyData TextLines BoardIssues BoardTrace FenceSafety BoardLineage Verdict ReviewWorld ReviewText ReviewMerge ReviewCi ReviewVerdict ReviewPhases ReviewTrace.

(** ** The verdict *)

(** The status an entry gives a check: anything that is not a known status
    counts as a failure. *)
Definition entry_status (cid : string) (entry : jval) : option string :=
  match entry with
  | JObj d => if jeq_str (obj_get d "check_id") cid
              then Some (match obj_get d "status" with JStr s => if str_in s VALID_STATUS then s else FAIL | _ => FAIL end)
              else None
  | _ => None
  end.
(** The last entry decides. *)
Definition final_status (entries : list jval) (cid : string) : option string := last (omap (entry_status cid) entries).

(** What stands against the merge: a required check that did not pass, an
    optional one that failed. *)
Definition objections (entries : list jval) : list string :=
  List.filter (fun cid => negb (bool_decide (final_status entries cid = Some PASS))) (check_ids false) ++
  List.filter (fun cid => bool_decide (final_status entries cid = Some FAIL)) (check_ids true).

(** The entry can be read: its keys can be looked up in a set. *)
Definition hashable (v : jval) : bool := match v with JList _ | JObj _ => false | _ => true end.
Definition legible (entry : jval) : bool :=
  match entry with
  | JObj d => hashable (obj_get d "check_id") &&
              (negb (match obj_get d "check_id" with JStr c => str_in c KNOWN_IDS | _ => false end) || hashable (obj_get d "status"))
  | _ => true
  end.

Lemma in_frozenset_hashable v s : hashable v = true ->
  in_frozenset v s = Ok (match v with JStr x => str_in x s | _ => false end).
Proof. by destruct v. Qed.

Lemma add_status_legible st entry : legible entry = true ->
  exists st', add_status st entry = Ok st' /\
    forall cid, cid ∈ KNOWN_IDS -> od_get cid st' = match entry_status cid entry with Some s => Some s | None => od_get cid st end.
Proof.
  destruct entry as [| | | | | | |d]; try (intros _; by eexists). cbn [legible add_status entry_status].
  intros [Hid Hst]%andb_true_iff. rewrite (in_frozenset_hashable (obj_get d "check_id")) by done. cbn [mbind res_bind].
  destruct (obj_get d "check_id") as [| | | |c| | |] eqn:Hc; try (by exists st).
  destruct (str_in c KNOWN_IDS) eqn:Hk.
  - cbn [negb orb] in Hst. rewrite in_frozenset_hashable by done. cbn [mbind res_bind jtext].
    eexists. split; [done|]. intros cid Hcid. cbn [jeq_str].
    destruct (String.eqb_spec c cid) as [->|Hne]; [|by rewrite od_get_set_ne].
    rewrite od_get_set_eq. f_equal. by destruct (obj_get d "status").
  - exists st. split; [done|]. intros cid Hcid. cbn [jeq_str].
    destruct (String.eqb_spec c cid) as [->|Hne]; [|done]. by apply str_in_false in Hk.
Qed.

Lemma add_status_illegible st entry : legible entry = false -> exists e, add_status st entry = Raise e.
Proof.
  destruct entry as [| | | | | | |d]; try done. cbn [legible add_status].
  intros [Hid|Hst]%andb_false_iff; [destruct (obj_get d "check_id"); try done; by eexists|].
  apply orb_false_iff in Hst as [Hk Hh]. apply negb_false_iff in Hk.
  destruct (obj_get d "check_id") as [| | | |c| | |]; try done. cbn [in_frozenset mbind res_bind]. rewrite Hk.
  destruct (obj_get d "status"); try done; by eexists.
Qed.

Lemma statuses_of entries st :
  if forallb legible entries
  then exists st', foldM (fun st e => add_status st e) st entries = Ok st' /\
         forall cid, cid ∈ KNOWN_IDS ->
           od_get cid st' = match final_status entries cid with Some s => Some s | None => od_get cid st end
  else exists e, foldM (fun st e => add_status st e) st entries = Raise e.
Proof.
  revert st. induction entries as [|entry entries IH]; intros st; [by exists st|]. cbn [forallb foldM].
  destruct (legible entry) eqn:Hl; cbn [andb].
  - destruct (add_status_legible st entry Hl) as (st1 & -> & H1). cbn [mbind res_bind]. specialize (IH st1).
    destruct (forallb legible entries); [|exact IH]. destruct IH as (st' & -> & H'). exists st'. split; [done|].
    intros cid Hcid. rewrite H', H1 by done. unfold final_status. cbn [omap list_omap].
    destruct (entry_status cid entry) as [s|]; [|done]. rewrite last_cons.
    by destruct (last (omap (entry_status cid) entries)).
  - destruct (add_status_illegible st entry Hl) as [e ->]. by exists e.
Qed.

Lemma filter_ext_on {A} (f g : A -> bool) l : (forall x, x ∈ l -> f x = g x) -> List.filter f l = List.filter g l.
Proof.
  induction l as [|x l IH]; intros H; [done|]. cbn. rewrite (H x) by by left. rewrite IH; [done|].
  intros y Hy. apply H. by right.
Qed.

(** C8: The verdict is the checks' alone: a list of entries that can be read
    gives LGTM exactly when the last entry of every required check says pass and
    that of no optional check says, or stands for, fail; otherwise CONCERNS with
    those checks in the order of the registry.  Nothing else the reviewer writes
    changes it; an entry that can not be read raises, and what is no list is
    CONCERNS. *)
Theorem verdict_is_the_checks checks :
  match checks with
  | JList entries =>
      if forallb legible entries
      then compute_verdict checks = Ok (if list_truthy (objections entries) then CONCERNS else LGTM, objections entries)
      else is_ok (compute_verdict checks) = false
  | _ => compute_verdict checks = Ok (CONCERNS, ["malformed_no_checks"])
  end.
Proof.
  destruct checks as [| | | | | |entries|]; try done.
  cbn [compute_verdict]. pose proof (statuses_of entries []) as H.
  destruct (forallb legible entries).
  - destruct H as (st' & -> & H). cbn [mbind res_bind].
    assert (failing_of st' = objections entries) as ->; [|by destruct (objections entries)].
    unfold failing_of, objections. f_equal; apply filter_ext_on; intros cid Hcid; rewrite H.
    all: try by destruct (final_status entries cid).
    all: revert Hcid; vm_compute; set_solver.
  - by destruct H as [e ->].
Qed.

(** ** Attempts *)

Section Attempts.
Context (env : review_env) (settings : ReviewSettings) (slug sp : string) (pr_data : dict) (k : Z).

(** The state file can be written. *)
Definition disk_takes : Prop := forall cs, re_write env (cs ++ [RC_save sp]) = Ok tt.

(** [n] attempts, here and on disk. *)
Definition attempts_here (n : Z) (w : review_world) : Prop := rw_state w !! "fix_attempts" = Some (JInt n).
Definition attempts_on_disk (n : Z) (w : review_world) : Prop :=
  exists s, rw_disk w !! sp = Some s /\ s !! "fix_attempts" = Some (JInt n).
Definition counted (n : Z) (w : review_world) : Prop := attempts_here n w /\ attempts_on_disk n w.

Definition keys : list string := ["repo_key"; "state_key"; "fix_attempts"].
(** The fields a dispatch reads. *)
Definition ready (w : review_world) : Prop :=
  is_Some (rw_state w !! "repo_key") /\ is_Some (rw_state w !! "state_key") /\ attempts_here k w.

Lemma ready_local : local keys ready.
Proof.
  intros w w' _ H (? & ? & ?). unfold ready, attempts_here. rewrite (H "repo_key"), (H "state_key"), (H "fix_attempts"); [done|..];
    by repeat constructor.
Qed.
Lemma counted_local n : local keys (counted n).
Proof.
  intros w w' Hd H (Ha & s & ? & ?). split; [|exists s; by rewrite Hd].
  unfold attempts_here. rewrite H; [done|]. by repeat constructor.
Qed.

Lemma preserves_save n : preserves (counted n) (save_state env sp).
Proof.
  intros w [Ha Hd]. unfold save_state, se_bind, now, rsee, se_get, rask. cbn.
  destruct (re_write env _); [|done]. split; [done|]. eexists. split; [apply lookup_insert_eq|].
  by rewrite lookup_insert_ne.
Qed.
End Attempts.

Section Counted.
Context (env : review_env) (settings : ReviewSettings) (slug sp : string) (pr_data : dict) (k : Z).

Lemma post_preserves I key body : local keys I -> str_in key keys = false -> preserves I (post_and_remember env slug key body).
Proof. intros HI Hk. unfold post_and_remember, gh. preserve_auto. Qed.

Lemma fix_pass_preserves I key ref concerns skey extra : local keys I -> preserves I (run_fix_pass env key ref concerns skey extra).
Proof.
  intros HI w Hw. unfold run_fix_pass, rask. cbn. destruct (re_fix env _) as [o|e]; [|destruct (is_source_tree_unclean e)];
    cbn [fst]; (eapply HI; [| |exact Hw]; done).
Qed.

Lemma post_total key body w : exists a, snd (post_and_remember env slug key body w) = Ok a.
Proof.
  unfold post_and_remember, se_try. match goal with |- context [match ?x with _ => _ end] => destruct x as [w1 [a|e]] end;
    by eexists.
Qed.

Lemma save_counts n w : disk_takes env sp -> attempts_here n w ->
  exists w', save_state env sp w = (w', Ok tt) /\ counted sp n w'.
Proof.
  intros Hd Ha. unfold save_state, se_bind, now, rsee, se_get, rask. cbn. rewrite Hd. eexists. split; [done|].
  split; [exact Ha|]. eexists. split; [apply lookup_insert_eq|]. by rewrite lookup_insert_ne.
Qed.

Lemma close_no_fix reason detail concerns : quiet no_fix (close_and_requeue env settings slug sp pr_data reason detail concerns).
Proof. unfold close_and_requeue, close_with_receipt. quiet_auto; by apply quiet_gh. Qed.

Lemma dispatch_fix_counted summary ref diff w :
  disk_takes env sp -> ready k w -> counted sp (k + 1) (fst (dispatch_fix env slug sp pr_data summary ref diff w)).
Proof.
  intros Hdisk ((vr & Hr) & (vs & Hs) & Ha). assert (HI := counted_local sp (k + 1)). assert (Hsave := preserves_save env sp (k + 1)).
  unfold dispatch_fix. unfold se_bind at 1, state_item at 1, se_get at 1, ditem. rewrite Hr. cbn [mbind res_bind].
  unfold se_bind at 1, state_item at 1, se_get at 1, ditem. rewrite Hs. cbn [mbind res_bind].
  unfold se_bind at 1, se_get at 1, ditem. rewrite Ha. cbn [mbind res_bind number].
  match goal with |- counted _ _ (fst ((_ <<- st_count _ _ ;; _ <<- st_set _ _ ;; _ <<- st_pop _ ;; _ <<- save_state _ _ ;; ?rest) w)) =>
    assert (Hrest : preserves (counted sp (k + 1)) rest)
  end.
  { unfold record_fix_push, keep_external_flag, load_state, gh. preserve_auto; by apply fix_pass_preserves. }
  match type of Hrest with preserves _ ?rest =>
    set (w3 := fst ((_ <<- st_count "fix_attempts" (k + 1) ;; _ <<- st_set "last_concerns_head_sha" (JStr (pr_head_sha pr_data)) ;;
                     st_pop "last_fix_pass_pushed") w));
    change (counted sp (k + 1) (fst ((_ <<- save_state env sp ;; rest) w3)))
  end.
  assert (Hw3 : attempts_here (k + 1) w3).
  { unfold attempts_here. cbn. by rewrite lookup_delete_ne, lookup_insert_ne, lookup_insert_eq. }
  destruct (save_counts (k + 1) w3 Hdisk Hw3) as (w4 & Hsaved & Hw4).
  unfold se_bind at 1. rewrite Hsaved. by apply Hrest.
Qed.

(** C13: A pass that fixes is paid for before it starts.  Below the bound, with
    a state file that can be written, the attempt stands on disk whatever
    becomes of the pass, even when it dies or raises; at the bound no pass is
    dispatched any more. *)
Theorem attempts_are_counted summary diff w :
  disk_takes env sp -> ready k w -> str_truthy (pr_head_ref pr_data) = true ->
  let w' := fst (fix_or_close env settings slug sp pr_data summary diff w) in
  ((k < rvs_max_fix_attempts settings)%Z -> attempts_on_disk sp (k + 1) w') /\
  ((rvs_max_fix_attempts settings <= k)%Z ->
     exists cs, rw_calls w' = rw_calls w ++ cs /\ Forall no_fix cs).
Proof.
  intros Hdisk Hready Href. cbv zeta. pose proof Hready as (_ & _ & Ha).
  split; intros Hk; unfold fix_or_close; unfold se_bind at 1, se_get at 1, ditem; rewrite Ha; cbn [mbind res_bind number].
  - destruct (Z.leb_spec (rvs_max_fix_attempts settings) k); [lia|].
    unfold se_bind at 1. rewrite Href. cbn [negb].
    match goal with |- context [match ?m w with _ => _ end] =>
      assert (Hpost : preserves (ready k) m /\ exists a, snd (m w) = Ok a) end.
    { split; [|case_match; [by apply post_total | by eexists]]. case_match; [|by apply preserves_silent].
      apply post_preserves; [apply ready_local | done]. }
    destruct Hpost as [Hp [a Hok]]. specialize (Hp w Hready).
    match goal with |- context [match ?m w with _ => _ end] => destruct (m w) as [w1 r] end.
    cbn [fst snd] in *. subst r. by apply dispatch_fix_counted.
  - destruct (Z.leb_spec (rvs_max_fix_attempts settings) k); [|lia]. by apply close_no_fix.
Qed.
End Counted.

(** A first attempt is on record; the pass that is dispatched then finds nothing to do. *)
Lemma attempts_are_counted_witness :
  let env := healthy "fail" in
  let w := in_phase "self_review" {["fix_attempts" := JInt 1]} in
  let w' := fst (fix_or_close env scene_settings "o/app" "app-12" scene_pr "a check failed" "" w) in
  ((1 < 3)%Z -> attempts_on_disk "app-12" 2 w') /\
  ((3 <= 1)%Z -> exists cs, rw_calls w' = rw_calls w ++ cs /\ Forall no_fix cs).
Proof.
  intros env w w'. apply (attempts_are_counted env scene_settings "o/app" "app-12" scene_pr 1).
  - intros cs. reflexivity.
  - split_and!; [by eexists | by eexists | reflexivity].
  - reflexivity.
Defined.

(** ** Re-queues *)

Lemma is_space_lower c : is_space (lower_ascii c) = is_space c.
Proof. by destruct c as [[] [] [] [] [] [] [] []]. Qed.
Lemma lower_no_char c s : lower_ascii c = c -> (forall d, lower_ascii d = c -> d = c) -> has_char c (lower s) = has_char c s.
Proof.
  intros Hc Hd. induction s as [|d s IH]; [done|]. unfold lower in *. cbn. rewrite IH. f_equal.
  destruct (Ascii.eqb_spec c d) as [<-|Hne]; [by rewrite Hc, Ascii.eqb_refl|].
  apply Ascii.eqb_neq. intros E. by apply Hne, eq_sym, Hd.
Qed.
Lemma lower_colon d : lower_ascii d = colon -> d = colon.
Proof. by destruct d as [[] [] [] [] [] [] [] []]. Qed.
Lemma before_char_lower s : before_char colon (lower s) = lower (before_char colon s).
Proof.
  induction s as [|d s IH]; [done|]. unfold lower in *. cbn -[Ascii.eqb lower_ascii].
  destruct (Ascii.eqb_spec d colon) as [->|Hne]; [done|].
  destruct (Ascii.eqb_spec (lower_ascii d) colon) as [E|_]; [by apply lower_colon in E|]. cbn -[lower_ascii]. by rewrite IH.
Qed.
Lemma lstrip_lower s : lstrip (lower s) = lower (lstrip s).
Proof. induction s as [|d s IH]; [done|]. unfold lower in *. cbn -[lower_ascii]. rewrite is_space_lower. by destruct (is_space d). Qed.
Lemma rev_lower s : String.rev (lower s) = lower (String.rev s).
Proof.
  apply list_ascii_inj. rewrite list_ascii_rev. unfold lower.
  assert (H : forall t, String.list_ascii_of_string (map_str lower_ascii t) = map lower_ascii (String.list_ascii_of_string t)).
  { induction t as [|d t IH]; [done|]. cbn -[lower_ascii]. by rewrite IH. }
  by rewrite !H, list_ascii_rev, map_rev.
Qed.
Lemma strip_lower s : strip (lower s) = lower (strip s).
Proof. unfold strip. by rewrite lstrip_lower, rev_lower, lstrip_lower, rev_lower. Qed.

(** What the name of a counter's label is dropped by. *)
Lemma counter_dropped name :
  startswith (lower name) "reviewer-requeue-count:" = true -> lower (strip (before_char colon name)) = REQUEUE_LABEL_PREFIX.
Proof.
  intros [rest Hr]%startswith_inv. rewrite <-strip_lower, <-before_char_lower, Hr.
  change ("reviewer-requeue-count:" ++ rest)%string with (REQUEUE_LABEL_PREFIX +:+ String colon rest).
  by rewrite before_char_app.
Qed.

(** The counter of re-queues survives the board: what is written as labels
    is read back as the same number, whatever labels the task had, and labels of
    another name are kept. *)
Theorem requeues_are_counted issue count extra :
  (0 <= count)%Z -> Forall tidy extra ->
  let names := labels_with_requeue_count issue count extra in
  requeue_count (store_label_names issue names) = count /\
  forall name, name ∈ label_names issue ->
    lower (strip (before_char colon name)) ∉ REQUEUE_LABEL_PREFIX :: map lower extra -> name ∈ names.
Proof.
  intros Hcount Hextra names.
  destruct (counter_label REQUEUE_LABEL_PREFIX count eq_refl eq_refl eq_refl eq_refl Hcount) as (Ht & Hl & Hst & _ & Ha & Hc).
  set (label := REQUEUE_LABEL_PREFIX +:+ ": " +:+ str_of_Z count) in *.
  set (keep := fun n => negb (str_in (lower (strip (before_char colon n))) (REQUEUE_LABEL_PREFIX :: map lower extra))).
  assert (Hnames : names = List.filter keep (label_names issue) ++ label :: extra) by done.
  split.
  - unfold requeue_count, label_value. rewrite labels_field_store, lname_stored.
    2:{ rewrite Hnames. apply Forall_app. split; [apply filter_Forall, label_names_tidy | by constructor]. }
    assert (find_first (fun name => startswith (lower name) (lower REQUEUE_LABEL_PREFIX +:+ ":")) names = Some label) as ->.
    { rewrite Hnames. clear Hnames. induction (label_names issue) as [|n ns IH].
      - unfold find_first. cbn [List.filter app List.find]. rewrite Hl. change (lower REQUEUE_LABEL_PREFIX) with REQUEUE_LABEL_PREFIX.
        by rewrite Hst.
      - cbn [List.filter]. destruct (keep n) eqn:Hk; [|exact IH]. unfold find_first in *. cbn [app List.find].
        destruct (startswith (lower n) (lower REQUEUE_LABEL_PREFIX +:+ ":")) eqn:Hs; [|exact IH]. exfalso.
        unfold keep in Hk. apply negb_true_iff, str_in_false in Hk. apply Hk. rewrite (counter_dropped n Hs). by left. }
    unfold count_of in Hc. by rewrite Hc.
  - intros name Hin Hkeep. rewrite Hnames. apply elem_of_app. left. apply elem_of_filter_bool. split; [done|].
    unfold keep. by apply negb_true_iff, str_in_false.
Qed.

Lemma requeues_are_counted_witness :
  let issue := {["labels" := JList [JStr "repo: app"; JStr "Reviewer-Requeue-Count: 1"]]} in
  let names := labels_with_requeue_count issue 2 ["source: board_worker"] in
  requeue_count (store_label_names issue names) = 2%Z /\
  forall name, name ∈ label_names issue ->
    lower (strip (before_char colon name)) ∉ REQUEUE_LABEL_PREFIX :: map lower ["source: board_worker"] -> name ∈ names.
Proof. apply requeues_are_counted; [lia|]. repeat constructor. Defined.

(** ** The first phase *)

(** Neither the state nor the files are changed. *)
Definition still {A} (m : RM A) : Prop := forall w,
  rw_state (fst (m w)) = rw_state w /\ rw_disk (fst (m w)) = rw_disk w.

Lemma still_bind {A B} (m : RM A) (k : A -> RM B) : still m -> (forall a, still (k a)) -> still (se_bind m k).
Proof.
  intros Hm Hk w. specialize (Hm w). unfold se_bind. destruct (m w) as [w1 [a|e]]; [|done]. cbn in Hm.
  destruct (Hk a w1) as [-> ->]. done.
Qed.
Lemma still_try {A} (m : RM A) h : still m -> (forall e, still (h e)) -> still (se_try m h).
Proof.
  intros Hm Hh w. specialize (Hm w). unfold se_try. destruct (m w) as [w1 [a|e]]; [done|]. cbn in Hm.
  destruct (Hh e w1) as [-> ->]. done.
Qed.
Ltac still_auto :=
  repeat match goal with
  | |- still (se_bind _ _) => apply still_bind; [|intros ?]
  | |- still (se_try _ _) => apply still_try; [|intros ?]
  | |- still (if ?b then _ else _) => destruct b
  | |- still (match ?x with _ => _ end) => destruct x
  | |- still _ => solve [by intros ?]
  end.

(** From the state [s] and the state file [d], a computation that returns leaves
    a world that satisfies [Q], and one that raises a file that satisfies [E]. *)
Section Leaves.
Context (sp : string) (E : option dict -> Prop).

Definition leaves_at {A} (w : review_world) (m : RM A) (Q : A -> review_world -> Prop) : Prop :=
  match snd (m w) with Ok a => Q a (fst (m w)) | Raise _ => E (rw_disk (fst (m w)) !! sp) end.
Definition leaves {A} (s : dict) (d : option dict) (m : RM A) (Q : A -> review_world -> Prop) : Prop := forall w,
  rw_state w = s -> rw_disk w !! sp = d -> leaves_at w m Q.

Lemma leaves_bind {A B} s d (m : RM A) (k : A -> RM B) Q R :
  leaves s d m Q -> (forall a w, Q a w -> leaves_at w (k a) R) -> leaves s d (se_bind m k) R.
Proof.
  intros Hm Hk w Hs Hd. specialize (Hm w Hs Hd). unfold leaves_at, se_bind in *. destruct (m w) as [w1 [a|e]]; [|done]. cbn [fst snd] in *.
  by apply (Hk a w1 Hm).
Qed.
Lemma leaves_still {A B} s d (m : RM A) (k : A -> RM B) R :
  E d -> still m -> (forall a, leaves s d (k a) R) -> leaves s d (se_bind m k) R.
Proof.
  intros He Hm Hk w Hs Hd. specialize (Hm w) as [H1 H2]. unfold leaves_at, se_bind.
  destruct (m w) as [w1 [a|e]]; cbn [fst snd] in *.
  - apply Hk; congruence.
  - by rewrite H2, Hd.
Qed.
Lemma leaves_get {A B} s d (f : review_world -> res A) (k : A -> RM B) (v : A) R :
  (forall w, rw_state w = s -> f w = Ok v) -> leaves s d (k v) R -> leaves s d (se_bind (se_get f) k) R.
Proof. intros Hf Hk w Hs Hd. unfold leaves_at, se_bind, se_get. rewrite (Hf w Hs). by apply Hk. Qed.
Lemma leaves_set {B} s d key v (k : unit -> RM B) R :
  leaves (<[key := v]> s) d (k tt) R -> leaves s d (se_bind (st_set key v) k) R.
Proof. intros H w Hs Hd. apply H; [cbn; by rewrite Hs|done]. Qed.
Lemma leaves_pop {B} s d key (k : unit -> RM B) R : leaves (delete key s) d (k tt) R -> leaves s d (se_bind (st_pop key) k) R.
Proof. intros H w Hs Hd. apply H; [cbn; by rewrite Hs|done]. Qed.
Lemma leaves_weaken {A} s d (m : RM A) (Q R : A -> review_world -> Prop) :
  leaves s d m Q -> (forall a w, Q a w -> R a w) -> leaves s d m R.
Proof. intros H HQR w Hs Hd. specialize (H w Hs Hd). unfold leaves_at in *. destruct (snd (m w)); [by apply HQR|done]. Qed.
End Leaves.

Section FirstPhase.
Context (env : review_env) (settings : ReviewSettings) (slug sp : string) (pr_data : dict).

Lemma ci_status_still ignored required : still (ci_status env slug pr_data ignored required).
Proof. unfold ci_status, get_failed_checks, get_incomplete_checks, get_completed_checks, runs_of_head, gh. still_auto. Qed.
Lemma fix_pass_still key ref concerns skey extra : still (run_fix_pass env key ref concerns skey extra).
Proof.
  intros w. unfold run_fix_pass, rask. cbn. destruct (re_fix env _) as [o|e]; [|destruct (is_source_tree_unclean e)]; done.
Qed.
Lemma audit_findings_still cfg : still (custodian_audit_findings env cfg).
Proof. unfold custodian_audit_findings, custodian_report. still_auto. Qed.

(** The polls that the phase may still take, not counting those within two
    minutes of a push. *)
Definition settle_cycles (s : dict) : res Z := jint (default (JInt 0) (s !! "ci_settle_cycles")).
Definition polls_left (a c : Z) : Z := ((MAX_CI_FIX_ATTEMPTS - a) * MAX_CI_SETTLE_CYCLES + (MAX_CI_SETTLE_CYCLES - 1 - c))%Z.

(** The counters of the phase in a state. *)
Definition in_first_phase (a c : Z) (s : dict) : Prop :=
  counter s "ci_fix_attempts" = Ok a /\ settle_cycles s = Ok c /\
  (a <= MAX_CI_FIX_ATTEMPTS)%Z /\ (0 <= c < MAX_CI_SETTLE_CYCLES)%Z.

(** The phase is over, or at most [left] polls are left. *)
Definition closer (left : Z) (s : dict) : Prop :=
  s !! "phase" = Some (JStr "self_review") \/
  exists a c, in_first_phase a c s /\ (0 <= polls_left a c <= left)%Z.
Definition closer_file (left : Z) (d : option dict) : Prop := exists s, d = Some s /\ closer left s.

Lemma closer_insert left s key v :
  key <> "phase" -> key <> "ci_fix_attempts" -> key <> "ci_settle_cycles" -> closer left s -> closer left (<[key := v]> s).
Proof.
  intros H1 H2 H3 [H|(a & c & (Ha & Hc & H) & Hl)]; [left; by rewrite lookup_insert_ne|]. right. exists a, c.
  unfold in_first_phase, counter, settle_cycles in *. by rewrite !lookup_insert_ne.
Qed.

(** What a poll that raises leaves on disk: the file [d0] it found, or one that
    is closer to the end. *)
Definition unharmed (left : Z) (d0 d : option dict) : Prop := d = d0 \/ closer_file left d.

(** The state is on disk, and closer to the end. *)
Definition saved (left : Z) (w : review_world) : Prop := closer_file left (rw_disk w !! sp).

Section Poll.
Context (left : Z) (d0 : option dict).

Abbreviation leaves := (leaves sp (unharmed left d0)).

Lemma save_leaves s d : closer left s -> unharmed left d0 d ->
  leaves s d (save_state env sp) (fun _ w => rw_state w = s /\ saved left w).
Proof.
  intros Hs Hd w Es Ed. unfold leaves_at, save_state, se_bind, now, rsee, se_get, rask. cbn.
  destruct (re_write env _); cbn; [|by rewrite Ed]. split; [done|]. eexists. split; [apply lookup_insert_eq|].
  rewrite Es. by apply closer_insert.
Qed.

Lemma advance_leaves s d : unharmed left d0 d -> leaves s d (advance_to_review env sp) (fun _ => saved left).
Proof.
  intros Hd. unfold advance_to_review. apply leaves_set. eapply leaves_weaken; [apply save_leaves; [|done]|].
  - left. by rewrite lookup_insert_eq.
  - by intros _ w [_ H].
Qed.

(** One more attempt is charged. *)
Lemma charged_closer s a t :
  (a < MAX_CI_FIX_ATTEMPTS)%Z -> s !! "ci_settle_cycles" = None -> (polls_left (a + 1) 0 <= left)%Z ->
  closer left (<["ci_fix_last_push_at" := JTime t]> (<["ci_fix_attempts" := JInt (a + 1)]> s)).
Proof.
  intros Ha Hc Hl. right. exists (a + 1)%Z, 0%Z. unfold in_first_phase, counter, settle_cycles. split_and!.
  - by rewrite lookup_insert_ne, lookup_insert_eq.
  - by rewrite !lookup_insert_ne, Hc.
  - lia.
  - lia.
  - unfold MAX_CI_SETTLE_CYCLES. lia.
  - unfold polls_left, MAX_CI_FIX_ATTEMPTS, MAX_CI_SETTLE_CYCLES in *. lia.
  - done.
Qed.

Lemma ruff_leaves s d ref a :
  (a < MAX_CI_FIX_ATTEMPTS)%Z -> s !! "ci_settle_cycles" = None -> (polls_left (a + 1) 0 <= left)%Z ->
  unharmed left d0 d -> leaves s d (ruff_fix env sp ref a) (fun _ => saved left).
Proof.
  intros Ha Hc Hl Hd w Hs Ed. unfold leaves_at, ruff_fix, se_try.
  set (body := se_bind (rask (re_ruff env) (RC_ruff ref)) _).
  assert (Hbody : leaves s d body (fun _ => saved left)).
  { apply leaves_still; [done|done|]. intros [| |]; [by apply advance_leaves..|].
    apply leaves_set. apply leaves_still; [done|done|]. intros t. apply leaves_set.
    eapply leaves_weaken; [apply save_leaves; [by apply charged_closer|done]|]. by intros _ w1 [_ H]. }
  specialize (Hbody w Hs Ed). unfold leaves_at in Hbody. destruct (body w) as [w1 [[]|e]]; cbn [fst snd] in *; [done|].
  by apply (advance_leaves (rw_state w1) (rw_disk w1 !! sp) Hbody).
Qed.
Lemma audit_leaves s d a :
  s !! "ci_settle_cycles" = None -> (polls_left (a + 1) 0 <= left)%Z -> unharmed left d0 d ->
  leaves s d (phase0_audit_autofix env settings slug sp pr_data a) (fun _ => saved left).
Proof.
  intros Hc Hl Hd. unfold phase0_audit_autofix. apply leaves_still; [done|done|]. intros _.
  apply leaves_still; [done|done|]. intros key. apply leaves_still; [done|unfold repo_cfg; still_auto|]. intros cfg.
  apply leaves_still; [done|apply audit_findings_still|]. intros findings.
  destruct (Z.leb_spec MAX_CI_FIX_ATTEMPTS a) as [Hge|Hlt].
  { apply leaves_still; [done|unfold gh; still_auto|]. intros _. by apply advance_leaves. }
  case_match; [by apply advance_leaves|]. apply leaves_set. apply leaves_still; [done|done|]. intros t. apply leaves_set.
  eapply leaves_bind; [apply save_leaves; [by apply charged_closer|done]|]. intros [] w1 [_ Hw1].
  refine ((_ : leaves _ _ _ _) w1 eq_refl eq_refl).
  assert (Hun : unharmed left d0 (rw_disk w1 !! sp)) by by right.
  apply leaves_still; [done| |].
  { apply still_try; [|done]. apply still_bind; [done|]. intros k. apply still_bind; [apply fix_pass_still | done]. }
  intros [|]; [|by apply advance_leaves]. intros w' _ Ed'. cbn. unfold saved. by rewrite Ed'.
Qed.

(** The last push of [s] is less than two minutes old at [w]. *)
Definition just_pushed (s : dict) (w : review_world) : Prop :=
  exists t0 d, s !! "ci_fix_last_push_at" = Some (JTime t0) /\ dt_diff (re_now env (rw_calls w)) t0 = Ok d /\
               (d < seconds CI_FIX_WAIT_SECONDS)%Z.

Lemma repair_leaves s d r failed a :
  counter s "ci_fix_attempts" = Ok a -> s !! "ci_settle_cycles" = None -> (polls_left (a + 1) 0 <= left)%Z ->
  unharmed left d0 d ->
  leaves s d (repair env settings slug sp pr_data r failed)
    (fun _ w => saved left w \/ (rw_disk w !! sp = d /\ just_pushed s w)).
Proof.
  intros Ha Hc Hl Hd. unfold repair.
  apply (leaves_get sp _ s d _ _ (dget s "ci_fix_last_push_at")); [by intros w ->|].
  apply (leaves_bind sp _ _ _ _ _ (fun b w => rw_state w = s /\ rw_disk w !! sp = d /\ (b = true -> just_pushed s w))).
  - destruct (jtruthy (dget s "ci_fix_last_push_at")); [|by intros w Hs Hdw].
    intros w Hs Hdw. unfold leaves_at, se_bind, now, rsee, se_get, se_lift. cbn [fst snd].
    match goal with |- match ?x with _ => _ end => destruct x as [b|e] eqn:Hb end; [|by rewrite Hdw].
    split; [done|]. split; [done|]. intros ->.
    unfold dget in Hb. destruct (s !! "ci_fix_last_push_at") as [v|] eqn:Hv; [|done].
    destruct v as [| | | | |t0| |]; try done. cbn [default iso_time mbind res_bind id] in Hb.
    destruct (dt_diff (re_now env (rw_calls w)) t0) as [dd|e] eqn:Hdd; [|done]. injection Hb as Hb%Z.ltb_lt.
    by exists t0, dd.
  - intros b w (Hs & Hdw & Hj). destruct b; [right; split; [done|by apply Hj]|].
    refine ((_ : leaves s d _ _) w Hs Hdw).
    apply (leaves_get sp _ s d _ _ a); [by intros w0 <-|].
    apply (leaves_weaken sp _ _ _ _ (fun _ => saved left)); [|intros _ w0 H0; by left].
    case_match; [by apply audit_leaves|].
    destruct (Z.leb_spec MAX_CI_FIX_ATTEMPTS a); [by apply advance_leaves|].
    case_match; [by apply advance_leaves|]. cbv zeta. case_match; [by apply advance_leaves | by apply ruff_leaves].
Qed.

Lemma poll_leaves s d a c :
  in_first_phase a c s -> (polls_left a c <= left + 1)%Z -> unharmed left d0 d ->
  leaves s d (phase0_ci_fix env settings slug sp pr_data)
    (fun _ w => saved left w \/ (rw_disk w !! sp = d /\ just_pushed s w)).
Proof.
  intros (Ha & Hc & Hmax & Hpos) Hl Hd.
  assert (Hsaved : forall (m : RM unit), leaves s d m (fun _ => saved left) ->
            leaves s d m (fun _ w => saved left w \/ (rw_disk w !! sp = d /\ just_pushed s w))).
  { intros m H. eapply leaves_weaken; [exact H|]. intros ? w0 Hw0; by left. }
  assert (Hsave : forall s', closer left s' -> leaves s' d (save_state env sp) (fun _ => saved left)).
  { intros s' Hs'. eapply leaves_weaken; [by apply save_leaves|]. by intros _ w [_ H]. }
  unfold phase0_ci_fix. apply leaves_still; [done|done|]. intros _. apply leaves_still; [done|unfold repo_cfg; still_auto|].
  intros [r|]; [|by apply Hsaved, advance_leaves]. apply leaves_still; [done|apply ci_status_still|]. intros ci.
  case_match.
  { apply Hsaved. apply leaves_set, leaves_pop. apply Hsave. left. by rewrite lookup_delete_ne, lookup_insert_eq. }
  case_match.
  - apply Hsaved. unfold await_settled. apply (leaves_get sp _ s d _ _ (c + 1)%Z).
    { intros w <-. change (jint _) with (settle_cycles (rw_state w)). by rewrite Hc. }
    apply leaves_set. destruct (Z.ltb_spec (c + 1) MAX_CI_SETTLE_CYCLES) as [Hlt|Hge].
    + apply Hsave. right. exists a, (c + 1)%Z. unfold in_first_phase, counter, settle_cycles in *.
      rewrite lookup_insert_ne, lookup_insert_eq by done. split_and!; try done;
        unfold polls_left, MAX_CI_FIX_ATTEMPTS, MAX_CI_SETTLE_CYCLES in *; lia.
    + apply leaves_set, leaves_pop. apply Hsave. left. by rewrite lookup_delete_ne, lookup_insert_eq.
  - apply leaves_pop. eapply leaves_weaken; [apply (repair_leaves _ _ _ _ a)|].
    + unfold counter in *. by rewrite lookup_delete_ne.
    + apply lookup_delete_eq.
    + unfold polls_left, MAX_CI_FIX_ATTEMPTS, MAX_CI_SETTLE_CYCLES in *. lia.
    + done.
    + intros _ w [?|[? (t0 & dd & Ht & ?)]]; [by left|]. right. split; [done|]. exists t0, dd. split; [|done].
      by rewrite lookup_delete_ne in Ht.
Qed.

End Poll.
End FirstPhase.

(** C21: the first phase ends.  From sane counters, a poll of a pull request in
    its first phase that returns has saved a state that passes it on to
    self-review or leaves at most one poll fewer of the at most forty, and from
    which the same holds again; or it falls within two minutes of a push of the
    phase's own and leaves the state file as it was.  A poll that raises leaves
    the file as it was or closer to the end in the same sense. *)
Theorem first_phase_ends env settings slug sp pr_data w a c :
  in_first_phase a c (rw_state w) ->
  let '(w', r) := phase0_ci_fix env settings slug sp pr_data w in
  let left := (polls_left a c - 1)%Z in
  match r with
  | Ok _ => closer_file left (rw_disk w' !! sp) \/
            (rw_disk w' !! sp = rw_disk w !! sp /\ just_pushed env (rw_state w) w')
  | Raise _ => rw_disk w' !! sp = rw_disk w !! sp \/ closer_file left (rw_disk w' !! sp)
  end.
Proof.
  intros H. pose proof (poll_leaves env settings slug sp pr_data (polls_left a c - 1) (rw_disk w !! sp) (rw_state w)
    (rw_disk w !! sp) a c H ltac:(lia) (or_introl eq_refl) w eq_refl eq_refl) as Hpoll.
  unfold leaves_at in Hpoll. by destruct (phase0_ci_fix env settings slug sp pr_data w) as [w' [[]|e]].
Qed.

(** The checks are still running: one poll of the forty is used up, on disk. *)
Lemma first_phase_ends_witness :
  let env := scene_env (Ok []) down down down down in
  let '(w', r) := phase0_ci_fix env scene_settings "o/app" "app-12" scene_pr (in_phase "ci_fix" ∅) in
  match r with
  | Ok _ => closer_file (polls_left 0 0 - 1) (rw_disk w' !! "app-12") \/
            (rw_disk w' !! "app-12" = rw_disk (in_phase "ci_fix" ∅) !! "app-12" /\
             just_pushed env (rw_state (in_phase "ci_fix" ∅)) w')
  | Raise _ => rw_disk w' !! "app-12" = rw_disk (in_phase "ci_fix" ∅) !! "app-12" \/
               closer_file (polls_left 0 0 - 1) (rw_disk w' !! "app-12")
  end.
Proof.
  intros env. apply (first_phase_ends env scene_settings "o/app" "app-12" scene_pr (in_phase "ci_fix" ∅) 0 0).
  split_and!; first [vm_compute; reflexivity | unfold MAX_CI_FIX_ATTEMPTS, MAX_CI_SETTLE_CYCLES; lia].
Defined.
