(* ===== verification/ReviewFaults.v ===== *)
(** * What the pull-request watcher does not hold to

    The cap on a parked council that starts over every hour, the diff that could
    not be read and is reviewed as if there were none, the merge that an outage
    of the code host lets through, and the task found by a number that another
    number starts with. *)
From S2P Require Import Prelude PyStr PyData TextLines BoardIssues FenceSafety Verdict ReviewWorld ReviewText ReviewMerge ReviewCi ReviewVerdict ReviewPhases ReviewTrace ReviewSafety ReviewRules.

(** ** The task of a pull request *)

(** The task of a pull request is looked up by a number in its description: a
    longer number that starts with it is one. *)
Lemma contains_prefix s p q : startswith q p = true -> contains s q = true -> contains s p = true.
Proof.
  intros Hq. induction s as [|c s IH]; [by destruct q, p|]. rewrite !contains_cons, !orb_true_iff.
  intros [H|H]; [left | right; by apply IH]. apply startswith_inv in Hq as [r ->]. apply startswith_inv in H as [r' ->].
  rewrite <-str_app_assoc. apply startswith_app.
Qed.

(** A task whose description mentions a pull request is also taken for the
    task of every other one whose number starts that number. *)
Theorem longer_numbers_match issue n m :
  startswith (str_of_Z m) (str_of_Z n) = true -> mentions issue m = true -> mentions issue n = true.
Proof.
  intros Hp. unfold mentions. cbv zeta. rewrite !orb_true_iff. intros [H|H]; [left|right];
    (eapply contains_prefix; [|exact H]); cbn; done.
Qed.
Lemma longer_numbers_match_witness :
  mentions {["description" := JStr "fixed by #12"]} 12 = true /\ mentions {["description" := JStr "fixed by #12"]} 1 = true.
Proof. split; [done|]. apply (longer_numbers_match _ 1 12); done. Defined.

(** ** A diff that could not be read *)

Definition with_guardrails (paths : list string) (s : ReviewSettings) : ReviewSettings :=
  {| rvs_repos := rvs_repos s; rvs_max_self_review_loops := rvs_max_self_review_loops s;
     rvs_max_fix_attempts := rvs_max_fix_attempts s; rvs_max_fix_strategy_level := rvs_max_fix_strategy_level s;
     rvs_bot_comment_marker := rvs_bot_comment_marker s; rvs_require_branch_protection := rvs_require_branch_protection s;
     rvs_require_sensitive_path_ack := rvs_require_sensitive_path_ack s; rvs_guardrail_paths := paths;
     rvs_max_council_park_hours := rvs_max_council_park_hours s; rvs_min_council_members := rvs_min_council_members s;
     rvs_autofix_audit := rvs_autofix_audit s |}.

Lemma bind_run {A B} (m : RM A) (k : A -> RM B) w w1 a : m w = (w1, Ok a) -> se_bind m k w = k a w1.
Proof. intros H. unfold se_bind. by rewrite H. Qed.
Lemma bind_congr {A B} (m : RM A) (k k' : A -> RM B) w :
  (forall w1 a, m w = (w1, Ok a) -> k a w1 = k' a w1) -> se_bind m k w = se_bind m k' w.
Proof. intros H. unfold se_bind. destruct (m w) as [w1 [a|e]]; [by apply H | done]. Qed.

Section Unread.
Context (env : review_env) (settings : ReviewSettings) (slug sp : string) (pr_data : dict).
Hypothesis no_diff : forall cs, is_ok (re_diff env cs) = false.

Lemma unread_diff w n : pr_number w = (w, Ok n) ->
  exists w', shown_diff env slug w = (w', Ok NO_CONTENT_DIFF).
Proof.
  intros Hn. unfold shown_diff, get_pr_diff, gh, se_bind, se_try. rewrite Hn. unfold rask. cbn [rw_calls rasked].
  specialize (no_diff (rw_calls w ++ [RC_gh slug n GetDiff])). destruct (re_diff env _); [done|].
  eexists. reflexivity.
Qed.

Lemma no_evidence w : diff_evidence env slug NO_CONTENT_DIFF w = (w, Ok ([], NO_CONTENT_DIFF)).
Proof. vm_compute. done. Qed.

(** A pull request whose diff could not be read is reviewed by one reviewer
    who sees no diff: whatever paths are guarded, the council plays no part. *)
Theorem unread_diffs_pass_the_guardrails key paths w :
  review env settings slug sp pr_data key w = review env (with_guardrails paths settings) slug sp pr_data key w.
Proof.
  unfold review. apply bind_congr. intros w1 n Hn. assert (w1 = w) as -> by (unfold pr_number, se_get in Hn; congruence).
  apply bind_congr. intros w2 repo_key Hr. assert (w2 = w) as -> by (unfold state_item, se_get in Hr; congruence).
  destruct (unread_diff w n Hn) as [w3 Hdiff]. rewrite !(bind_run _ _ _ _ _ Hdiff), !(bind_run _ _ _ _ _ (no_evidence w3)).
  reflexivity.
Qed.
End Unread.

(** With the code host down, a change to src/ is reviewed as if src/ were not guarded. *)
Lemma unread_diffs_pass_the_guardrails_witness :
  let env := scene_env down down down down (Ok (JObj [("checks", passing "pass")])) in
  let w := in_phase "self_review" ∅ in
  review env scene_settings "o/app" "app-12" scene_pr "app-12" w =
  review env (with_guardrails ["src/"] scene_settings) "o/app" "app-12" scene_pr "app-12" w.
Proof.
  intros env w. apply (unread_diffs_pass_the_guardrails env scene_settings "o/app" "app-12" scene_pr).
  intros cs. reflexivity.
Defined.

(** ** From a state with its number *)

Section Fine.
Context (env : review_env) (settings : ReviewSettings) (slug sp : string) (pr_data : dict).
Context (vn vk : jval) (n : Z).
Hypothesis number_is : jint vn = Ok n.

Definition fine (w : review_world) : Prop := identity (rw_state w) = (Ok vn, Ok vk).
(** From a fine state, [m] returns such a value and leaves a fine state. *)
Definition returns {A} (m : RM A) (Q : A -> Prop) : Prop := forall w, fine w ->
  exists w1 a, m w = (w1, Ok a) /\ fine w1 /\ Q a.

Lemma returns_bind {A B} (m : RM A) (k : A -> RM B) Q (P : review_world -> Prop) w :
  returns m Q -> fine w -> (forall a w1, Q a -> fine w1 -> P (fst (k a w1))) -> P (fst (se_bind m k w)).
Proof. intros Hm Hw Hk. destruct (Hm w Hw) as (w1 & a & E & Hw1 & HQ). rewrite (bind_run _ _ _ _ _ E). by apply Hk. Qed.

Lemma number_run w : fine w -> pr_number w = (w, Ok n).
Proof. intros [= Hn _]. unfold pr_number, se_get. rewrite Hn. cbn. by rewrite number_is. Qed.
Lemma returns_number : returns pr_number (eq n).
Proof. intros w Hw. exists w, n. by rewrite number_run. Qed.
Lemma returns_set k v : is_identity k = false -> returns (st_set k v) (fun _ => True).
Proof. intros Hk w Hw. eexists _, _. split; [done|]. split; [|done]. unfold fine in *. cbn. by rewrite identity_insert. Qed.
Lemma returns_pop k : is_identity k = false -> returns (st_pop k) (fun _ => True).
Proof. intros Hk w Hw. eexists _, _. split; [done|]. split; [|done]. unfold fine in *. cbn. by rewrite identity_delete. Qed.
Lemma returns_asked {A B} (answer : list rcall -> res A) q (k : A -> RM B) d :
  (forall cs, is_ok (answer cs) = false) -> returns (se_try (a <<- gh slug answer q ;; k a) (fun _ => se_ret d)) (eq d).
Proof.
  intros Hno w Hw. unfold se_try, gh, se_bind. rewrite number_run by done. unfold rask.
  specialize (Hno (rw_calls (rasked w (RC_gh slug n q)))). destruct (answer _); [done|]. by eexists _, d.
Qed.
Lemma returns_cfg : returns (repo_cfg settings) (fun _ => True).
Proof. intros w Hw. pose proof Hw as [= _ Hk]. unfold repo_cfg, se_bind, se_get. rewrite Hk. by eexists _, _. Qed.
Lemma returns_try {A} (m : RM A) d : quiet tame m -> returns (se_try m (fun _ => se_ret d)) (fun _ => True).
Proof.
  intros Hm w Hw. destruct (Hm w) as (Hid & _). unfold se_try, fine in *. destruct (m w) as [w1 [a|e]]; cbn in Hid;
    eexists _, _; (split; [done|]); (split; [congruence|done]).
Qed.
Lemma returns_retract_one key resolution : is_identity key = false ->
  returns (retract_one env slug key resolution) (fun _ => True).
Proof.
  intros Hk w Hw. unfold retract_one. rewrite (bind_run (st_get key) _ w w (dget (rw_state w) key)) by done.
  destruct (returns_pop key Hk w Hw) as (w1 & [] & E & Hw1 & _). rewrite (bind_run _ _ _ _ _ E).
  case_match; [by eexists w1, _|]. apply returns_try; [|done]. quiet_auto; by apply quiet_gh.
Qed.
Lemma returns_retract resolution : returns (retract_flag env slug resolution) (fun _ => True).
Proof.
  intros w Hw. unfold retract_flag. rewrite (bind_run _ _ _ _ _ (number_run w Hw)).
  destruct (returns_retract_one "escalation_comment_id" resolution eq_refl w Hw) as (w1 & a & E & Hw1 & _).
  rewrite (bind_run _ _ _ _ _ E). by apply returns_retract_one.
Qed.
End Fine.

(** ** The cap of a parked council *)

Section Cap.
Context (env : review_env) (settings : ReviewSettings) (slug sp : string) (pr_data : dict).
Context (vn vk : jval) (n : Z).
Hypothesis number_is : jint vn = Ok n.

Definition no_start (w : review_world) : Prop := rw_state w !! "council_park_started_at" = None.
Lemma no_start_local : local ["council_park_started_at"] no_start.
Proof. intros w w' _ H Hw. unfold no_start. rewrite H; [done|]. by repeat constructor. Qed.
Lemma save_still w : rw_state (fst (save_state env sp w)) = rw_state w.
Proof. unfold save_state, se_bind, now, rsee, se_get, rask. by destruct (re_write env _). Qed.
Lemma save_no_start : preserves no_start (save_state env sp).
Proof. intros w Hw. unfold no_start. by rewrite save_still. Qed.

(** Flagged for want of a quorum since [t0], flagged again at [t1]. *)
Definition parked (t0 t1 : datetime) (s : dict) : Prop :=
  dget s "escalated_needs_human" = JBool true /\ dget s "escalated_reason" = JStr "reviewer_backend_unavailable" /\
  dget s "escalated_at_utc" = JTime t1 /\ dget s "council_park" = JBool true /\ dget s "council_park_started_at" = JTime t0.

Lemma resume_forgets w t0 t1 d0 d1 :
  fine vn vk w -> parked t0 t1 (rw_state w) ->
  dt_diff (re_now env (rw_calls w)) t0 = Ok d0 -> (d0 < seconds (rvs_max_council_park_hours settings * 3600))%Z ->
  dt_diff (re_now env (rw_calls w)) t1 = Ok d1 -> (seconds BACKEND_UNAVAILABLE_RESUME_S <= d1)%Z ->
  no_start (fst (expire_park env settings slug sp pr_data w)).
Proof.
  intros Hw (Hf & Hr & Hat & Hp & Hst) H0 Hd0 H1 Hd1. unfold expire_park. rewrite (bind_run the_state _ w w (rw_state w)) by done.
  rewrite Hf, Hr. cbn [jtruthy jeq_str]. rewrite String.eqb_refl. cbn [andb]. rewrite Hat. cbn [fromisoformat_str].
  assert (council_cap env settings slug sp pr_data (Some t1) w = (w, Ok false)) as Hcap.
  { unfold council_cap. rewrite (bind_run the_state _ w w (rw_state w)) by done. rewrite Hp, Hst. cbn [jtruthy negb fromisoformat_str].
    assert (elapsed env t0 (rvs_max_council_park_hours settings * 3600) w = (w, Ok false)) as He.
    { unfold elapsed, se_bind, now, rsee, se_get, se_lift. rewrite H0. cbn [mbind res_bind]. f_equal. f_equal. apply Z.leb_gt. lia. }
    by rewrite (bind_run _ _ _ _ _ He). }
  rewrite (bind_run _ _ _ _ _ Hcap).
  assert (elapsed env t1 BACKEND_UNAVAILABLE_RESUME_S w = (w, Ok true)) as He.
  { unfold elapsed, se_bind, now, rsee, se_get, se_lift. rewrite H1. cbn [mbind res_bind]. f_equal. f_equal. by apply Z.leb_le. }
  rewrite (bind_run _ _ _ _ _ He).
  eapply (returns_bind vn vk _ _ _ no_start); [by apply (returns_retract env slug vn vk n number_is) | done|]. intros _ w1 _ Hw1.
  do 6 (match goal with |- no_start (fst (se_bind ?m ?k ?w)) =>
          let w' := constr:(fst (m w)) in change (no_start (fst (k tt w'))); generalize w'; intros ? end).
  match goal with |- no_start (fst (se_bind ?m ?k ?w)) => change (no_start (fst (k tt (fst (m w))))) end.
  apply save_no_start. unfold no_start. cbn. apply lookup_delete_eq.
Qed.

Definition started (t : datetime) (w : review_world) : Prop := rw_state w !! "council_park_started_at" = Some (JTime t).
Lemma started_local t : local ["council_park_started_at"] (started t).
Proof. intros w w' _ H Hw. unfold started. rewrite H; [done|]. by repeat constructor. Qed.

Lemma park_starts available t w : no_start w -> started t (fst (park_council env settings slug sp pr_data available t w)).
Proof.
  intros Hw. unfold park_council. cbv zeta. assert (Hl := started_local t).
  assert (Hsave : preserves (started t) (save_state env sp)) by (intros w1 Hw1; unfold started; by rewrite save_still).
  match goal with |- started t (fst (se_bind ?m ?k ?w)) => change (started t (fst (k tt (fst (m w))))) end.
  cbv beta.   match goal with |- started t (fst (se_bind ?m ?k ?w)) => change (started t (fst (k tt (fst (m w))))) end.
  cbv beta.   match goal with |- started t (fst (?m ?w)) => assert (Hm : preserves (started t) m) end.
  { unfold escalate_needs_human, post_and_remember, gh. preserve_auto. }
  apply Hm. unfold started, st_default, se_bind, the_state, se_get, put_state. cbn.
  rewrite lookup_insert_ne by done. unfold no_start in Hw. rewrite Hw. apply lookup_insert_eq.
Qed.

(** The cap on a parked council starts over.  A poll that finds the pull
    request flagged for an hour, before the cap is reached, resumes it and
    forgets when the parking began: the council that parks it again counts from
    that moment, and a cap of more than an hour is never reached by polls that
    come more often. *)
Theorem council_cap_starts_over w t0 t1 d0 d1 available t :
  fine vn vk w -> parked t0 t1 (rw_state w) ->
  dt_diff (re_now env (rw_calls w)) t0 = Ok d0 -> (d0 < seconds (rvs_max_council_park_hours settings * 3600))%Z ->
  dt_diff (re_now env (rw_calls w)) t1 = Ok d1 -> (seconds BACKEND_UNAVAILABLE_RESUME_S <= d1)%Z ->
  let w1 := fst (expire_park env settings slug sp pr_data w) in
  started t (fst (park_council env settings slug sp pr_data available t w1)).
Proof. intros. apply park_starts. by eapply resume_forgets. Qed.
End Cap.

(** Parked twenty-three hours ago, flagged again an hour ago. *)
Lemma council_cap_starts_over_witness :
  let t0 := sub_us noon (seconds (23 * 3600)) in
  let t1 := sub_us noon (seconds 3600) in
  let env := healthy "pass" in
  let w := in_phase "self_review" (list_to_map
    [("escalated_needs_human", JBool true); ("escalated_reason", JStr "reviewer_backend_unavailable");
     ("escalated_at_utc", JTime t1); ("council_park", JBool true); ("council_park_started_at", JTime t0)]) in
  let w1 := fst (expire_park env scene_settings "o/app" "app-12" scene_pr w) in
  started noon (fst (park_council env scene_settings "o/app" "app-12" scene_pr [] noon w1)).
Proof.
  intros t0 t1 env w w1.
  apply (council_cap_starts_over env scene_settings "o/app" "app-12" scene_pr (JInt 12) (JStr "app") 12 eq_refl
           w t0 t1 (seconds (23 * 3600)) (seconds 3600));
    first [vm_compute; reflexivity | split_and!; vm_compute; reflexivity | by apply Z.leb_le; vm_compute].
Defined.

(** ** An outage of the code host *)

Section Outage.
Context (env : review_env) (settings : ReviewSettings) (slug sp : string) (pr_data : dict).
Hypothesis no_pr : forall cs, is_ok (re_get_pr env cs) = false.
Hypothesis no_checks : forall cs, is_ok (re_check_runs env cs) = false.
Hypothesis no_files : forall cs, is_ok (re_files env cs) = false.
Hypothesis no_protection : forall cs, is_ok (re_protection env cs) = false.
Context (vn vk : jval) (n : Z).
Hypothesis number_is : jint vn = Ok n.

Abbreviation fine := (fine vn vk).
Abbreviation returns := (returns vn vk).

Lemma returns_mergeable : returns (get_mergeable env slug) (eq None).
Proof. eapply returns_asked; [exact number_is | exact no_pr]. Qed.
Lemma returns_runs : returns (runs_of_head env slug pr_data) (eq []).
Proof.
  unfold runs_of_head. case_match; [intros w Hw; by eexists w, []|]. intros w Hw. unfold se_try, gh, se_bind.
  rewrite (number_run vn vk n) by done. unfold rask. specialize (no_checks (rw_calls (rasked w (RC_gh slug n (CheckRuns (jtext (head_field pr_data "sha"))))))).
  destruct (re_check_runs env _); [done|]. by eexists _, [].
Qed.
Lemma returns_checks (f : list dict -> list string) :
  f [] = [] -> returns (runs <<- runs_of_head env slug pr_data ;; se_ret (f runs)) (eq []).
Proof.
  intros Hf w Hw. destruct (returns_runs w Hw) as (w1 & a & E & Hw1 & <-). rewrite (bind_run _ _ _ _ _ E). by eexists w1, (f []).
Qed.
Lemma returns_publish sha result description :
  returns (publish_reviewer_verdict env slug sha result description) (fun _ => True).
Proof.
  unfold publish_reviewer_verdict. case_match; [intros w Hw; by eexists _, _|]. apply returns_try. by apply quiet_gh.
Qed.
Lemma returns_method sha : returns (merge_method_for env slug sha) (fun _ => True).
Proof.
  unfold merge_method_for. case_match; [intros w Hw; by eexists _, _|].
  assert (Hp : returns (parent_count env slug sha) (fun _ => True)).
  { unfold parent_count. destruct (re_parents env); [|intros w Hw; by eexists _, _]. apply returns_try. quiet_auto. by apply quiet_gh. }
  intros w Hw. destruct (Hp w Hw) as (w1 & a & E & ? & _). rewrite (bind_run _ _ _ _ _ E). by eexists _, _.
Qed.

Definition is_merge (c : rcall) : Prop := match c with RC_gh s k (MergePr _) => s = slug /\ k = n | _ => False end.
Definition asks_merge (w : review_world) : Prop := exists c, c ∈ rw_calls w /\ is_merge c.

Ltac next L := eapply (returns_bind vn vk _ _ _ asks_merge); [eapply L; done | done|].

Lemma merge_asked reason w : fine w -> asks_merge (fst (do_merge env slug sp pr_data reason w)).
Proof.
  intros Hw. unfold do_merge. next returns_publish. intros _ w1 _ Hw1. clear w Hw.
  next returns_method. intros method w _ Hw. clear w1 Hw1.
  set (c := RC_gh slug n (MergePr method)).
  match goal with |- context [se_bind ?m ?k w] => assert (Hm : c ∈ rw_calls (fst (m w))) end.
  { unfold se_try, gh, se_bind. rewrite (number_run vn vk n) by done. unfold rask.
    assert (Hc : c ∈ rw_calls (rasked w (RC_gh slug n (MergePr method)))) by (apply elem_of_app; right; by left).
    destruct (re_write env _); [|exact Hc]. unfold state_item, se_get. destruct (v <-? _ ;; _); exact Hc. }
  exists c. split; [|done]. unfold se_bind at 1.
  match type of Hm with _ ∈ rw_calls (fst ?x) => destruct x as [w1 [b|e]] end; [|exact Hm]. cbn [fst] in Hm.
  match goal with |- _ ∈ rw_calls (fst (?m w1)) => assert (Hq : quiet mild m) by (destruct b; cbn [negb]; quiet_auto) end.
  destruct (Hq w1) as (_ & cs & -> & _). apply elem_of_app. by left.
Qed.

(** Whether a label of the pull request acknowledges the paths it touches; the
    pull request as it was listed. *)
Definition acknowledged : res bool := labels <-? items_of (dget pr_data "labels") ;; any_acked labels.

Lemma returns_ack a : acknowledged = Ok a -> returns (sensitive_path_ack_ok env settings slug pr_data) (eq true).
Proof.
  unfold acknowledged, sensitive_path_ack_ok. intros Ha w Hw. destruct (negb _); [by eexists w, true|].
  destruct (items_of _) as [labels|]; [|done]. cbn [mbind res_bind] in Ha.
  rewrite (bind_run (se_lift (Ok labels)) _ w w labels), Ha, (bind_run (se_lift (Ok a)) _ w w a) by done.
  destruct a; [by eexists w, true|].
  destruct (returns_asked slug vn vk n number_is (re_files env) Files (fun page => se_lift (files_of_page page)) [] no_files w Hw)
    as (w1 & fs & E & Hw1 & <-).
  change (list_pr_files env slug w = (w1, Ok [])) in E. exists w1, true. split; [|done].
  assert (H : se_try (fs <<- list_pr_files env slug ;; se_ret (Some fs)) (fun _ => se_ret None) w = (w1, Ok (Some [])))
    by (unfold se_try; by rewrite (bind_run _ _ _ _ _ E)).
  by rewrite (bind_run _ _ _ _ _ H).
Qed.
Lemma returns_protection base :
  rvs_require_branch_protection settings = true -> returns (branch_protection_ok env settings slug base) (eq false).
Proof.
  intros Hp w Hw. unfold branch_protection_ok. rewrite Hp. cbn [negb].
  destruct (returns_asked slug vn vk n number_is (re_protection env) (Protection base) (fun v => se_ret (Some v)) None
              no_protection w Hw) as (w1 & a & E & Hw1 & <-).
  exists w1, false. split; [|done]. by rewrite (bind_run _ _ _ _ _ E).
Qed.

(** Steps that are no merge leave the question open. *)
Lemma unmerged_bind {A B} (m : RM A) (k : A -> RM B) Q w :
  returns m Q -> quiet mild m -> fine w -> ~ asks_merge w ->
  (forall a w1, Q a -> fine w1 -> ~ asks_merge w1 -> ~ asks_merge (fst (k a w1))) -> ~ asks_merge (fst (se_bind m k w)).
Proof.
  intros Hm Hq Hw Hn Hk. destruct (Hm w Hw) as (w1 & a & E & Hw1 & HQ). destruct (Hq w) as (_ & cs & Hcs & Hf).
  rewrite (bind_run _ _ _ _ _ E). rewrite E in Hcs. cbn [fst] in Hcs. apply Hk; [done|done|]. intros (c & Hc & Hm').
  rewrite Hcs in Hc. apply elem_of_app in Hc as [Hc|Hc]; [by apply Hn; exists c|].
  apply (proj1 (Forall_forall _ _) Hf) in Hc. unfold mild, is_merge in *. by repeat case_match.
Qed.

(** C36: When the code host answers nothing about a pull request (not the pull
    request, its checks, its files or the protection of its branch), an approved
    merge is asked for exactly when the settings do not require branch
    protection, which they do by default: the gate of CI takes what it can not
    see for green, the gate of sensitive paths, if it is asked for, takes it for
    harmless, and what can not be seen to conflict is taken for mergeable. *)
Theorem outages_pass_the_merge_gate reason base ack w :
  base_branch_of_pr pr_data = Ok base -> acknowledged = Ok ack -> fine w -> ~ asks_merge w ->
  asks_merge (fst (merge_and_done env settings slug sp pr_data reason w)) <->
  rvs_require_branch_protection settings = false.
Proof.
  intros Hb Ha Hw Hn. unfold merge_and_done. rewrite Hb.
  destruct (rvs_require_branch_protection settings) eqn:Hp; split; try done.
  - intros H. exfalso. revert H.
    apply (unmerged_bind _ _ (eq n)); [by apply returns_number|quiet_auto|done|done|]. intros _ w1 _ Hw1 Hn1.
    apply (unmerged_bind _ _ (eq None)); [apply returns_mergeable|unfold get_mergeable; quiet_auto; by apply quiet_gh|done|done|].
    intros _ w2 <- Hw2 Hn2. rewrite bool_decide_false by done.
    apply (unmerged_bind _ _ (fun _ => True)); [by apply returns_set|quiet_auto|done|done|]. intros _ w3 _ Hw3 Hn3.
    rewrite (bind_run (se_lift (Ok base)) _ w3 w3 base) by done.
    apply (unmerged_bind _ _ (eq false));
      [by apply returns_protection|unfold branch_protection_ok; quiet_auto; by apply quiet_gh|done|done|].
    by intros _ w4 <- Hw4 Hn4.
  - intros _. next returns_number. intros _ w1 _ Hw1. clear w Hw Hn.
    next returns_mergeable. intros _ w <- Hw. clear w1 Hw1. rewrite bool_decide_false by done.
    next returns_set. intros _ w1 _ Hw1. clear w Hw.
    rewrite (bind_run (se_lift (Ok base)) _ w1 w1 base) by done.
    unfold branch_protection_ok. rewrite Hp. cbn [negb].
    rewrite (bind_run (se_ret true) _ w1 w1 true) by done. cbn [negb].
    next (returns_ack ack). intros _ w <- Hw. clear w1 Hw1. cbn [negb].
    next returns_cfg. intros cfg w1 _ Hw1. clear w Hw.
    next returns_checks. intros _ w <- Hw. clear w1 Hw1.
    next returns_checks. intros _ w1 <- Hw1. clear w Hw. by apply merge_asked.
Qed.
End Outage.

Lemma outages_pass_the_merge_gate_witness :
  let env := scene_env down down down down down in
  asks_merge "o/app" 12 (fst (merge_and_done env (with_ack true scene_settings) "o/app" "app-12" scene_pr "self_review_lgtm"
    (in_phase "self_review" ∅))).
Proof.
  intros env.
  apply (outages_pass_the_merge_gate env (with_ack true scene_settings) "o/app" "app-12" scene_pr
           (fun _ => eq_refl) (fun _ => eq_refl) (fun _ => eq_refl) (fun _ => eq_refl) (JInt 12) (JStr "app") 12 eq_refl
           "self_review_lgtm" "main" false (in_phase "self_review" ∅)).
  - vm_compute. reflexivity.
  - vm_compute. reflexivity.
  - vm_compute. reflexivity.
  - intros (c & Hc & _). vm_compute in Hc. by apply elem_of_nil in Hc.
  - vm_compute. reflexivity.
Defined.
