(* ===== verification/ObserverModels.v ===== *)
(** * The observer's snapshots

    observer/models.py: what one observation of a repository holds, and the part
    of observer/collectors/backlog.py that selects backlog items.  The metadata
    about parse errors, which only the observer's own reports read, is left out;
    a dict whose keys no insight reads is kept as JSON. *)
From S2P Require Import Prelude PyStr PyData.

Record RepoContextSnapshot := {
  rc_name : string;
  rc_path : string;
  rc_current_branch : string;
  rc_base_branch : option string;
  rc_is_dirty : bool }.

Record CommitMetadata := {
  cm_sha_short : string;
  cm_author : string;
  cm_timestamp : datetime;
  cm_subject : string }.

Record FileHotspot := { fh_path : string; fh_touch_count : Z }.

Record CheckSignal := {
  ts_status : string;
  ts_test_count : option Z;
  ts_passed_count : Z;
  ts_failed_count : Z;
  ts_skip_count : Z;
  ts_xfailed_count : Z;
  ts_error_count : Z;
  ts_execution_time_ms : option Z;
  ts_coverage_percent : option Q;
  ts_failure_category : option string;
  ts_test_name : option string;
  ts_assertion_message : option string;
  ts_test_names : option (list string);
  ts_source : option string;
  ts_observed_at : option datetime;
  ts_summary : option string }.

Record DependencyDriftSignal := {
  dd_status : string;
  dd_source : option string;
  dd_observed_at : option datetime;
  dd_summary : option string }.

Record TodoFileCount := { tf_path : string; tf_count : Z }.

Record TodoSignal := {
  td_todo_count : Z;
  td_fixme_count : Z;
  td_top_files : list TodoFileCount }.

Record ExecutionRunRecord := {
  xr_run_id : string;
  xr_task_id : string;
  xr_worker_role : string;
  xr_outcome_status : string;
  xr_outcome_reason : option string;
  xr_validation_passed : option bool }.

Record ExecutionHealthSignal := {
  eh_total_runs : Z;
  eh_executed_count : Z;
  eh_no_op_count : Z;
  eh_unknown_count : Z;
  eh_error_count : Z;
  eh_validation_failed_count : Z;
  eh_recent_runs : list ExecutionRunRecord }.

Record BacklogItem := {
  bi_title : string;
  bi_item_type : string;
  bi_description : string }.

(** [BacklogSignal]: its items. *)
Definition BacklogSignal : Type := list BacklogItem.

(** [LintViolation] and [TypeError] have the same fields. *)
Record Diagnostic := {
  dg_path : string;
  dg_line : Z;
  dg_col : Z;
  dg_code : string;
  dg_message : string }.

(** [LintSignal] ([violation_count], [top_violations]) and [TypeSignal]
    ([error_count], [top_errors]) have the same shape. *)
Record DiagnosticSignal := {
  ds_status : string;
  ds_count : Z;
  ds_distinct_file_count : Z;
  ds_top : list Diagnostic;
  ds_source : option string }.

Record ValidationFailureRecord := {
  vf_task_id : string;
  vf_worker_role : string;
  vf_total_runs : Z;
  vf_validation_failure_count : Z;
  vf_failure_rate : Q }.

Record ValidationHistorySignal := {
  vh_status : string;
  vh_tasks_analyzed : Z;
  vh_tasks_with_repeated_failures : list ValidationFailureRecord;
  vh_overall_failure_rate : Q;
  vh_source : option string }.

Record CICheckRunRecord := { ck_name : string; ck_sha : string; ck_conclusion : string }.

Record CIHistorySignal := {
  ci_status : string;
  ci_runs_checked : Z;
  ci_failure_rate : Q;
  ci_flaky_checks : list string;
  ci_failing_checks : list string;
  ci_recent_runs : list CICheckRunRecord;
  ci_source : option string }.

Record ArchitectureSignal := {
  ar_status : string;
  ar_source : option string;
  ar_observed_at : option datetime;
  ar_max_import_depth : option Z;
  ar_circular_dependencies : list string;
  ar_coupling_score : option Q;
  ar_summary : option string }.

Record BenchmarkSignal := {
  bm_status : string;
  bm_source : option string;
  bm_observed_at : option datetime;
  bm_benchmark_count : Z;
  bm_regressions : list string;
  bm_summary : option string }.

Record SecuritySignal := {
  sv_status : string;
  sv_source : option string;
  sv_observed_at : option datetime;
  sv_advisory_count : Z;
  sv_critical_count : Z;
  sv_high_count : Z;
  sv_summary : option string }.

Record UncoveredFile := { uf_path : string; uf_coverage_pct : Q }.

Record CoverageSignal := {
  cv_status : string;
  cv_total_coverage_pct : option Q;
  cv_statement_coverage_pct : option Q;
  cv_branch_coverage_pct : option Q;
  cv_line_coverage_pct : option Q;
  cv_uncovered_file_count : Z;
  cv_uncovered_threshold_pct : Q;
  cv_top_uncovered : list UncoveredFile;
  cv_module_coverages : list dict;
  cv_coverage_trend_pct : Q;
  cv_regression_delta_pct : Q;
  cv_active_alerts : list dict;
  cv_source : option string;
  cv_observed_at : option datetime;
  cv_summary : option string }.

Record FlakyTestSignal := {
  fl_status : string;
  fl_flaky_test_count : Z;
  fl_unstable_test_count : Z;
  fl_affected_modules : list string;
  fl_most_problematic_tests : list dict;
  fl_failure_rate_trend : Q;
  fl_recovery_rate : Q;
  fl_category_breakdown : gmap string Z;
  fl_estimated_impact : gmap string Q;
  fl_extraction_success_rate : Q;
  fl_extracted_count : Z;
  fl_extraction_gaps : list string;
  fl_source : string;
  fl_observed_at : option datetime;
  fl_summary : option string }.

Record RepoSignalsSnapshot := {
  sg_recent_commits : list CommitMetadata;
  sg_file_hotspots : list FileHotspot;
  sg_test_signal : CheckSignal;
  sg_dependency_drift : DependencyDriftSignal;
  sg_todo_signal : TodoSignal;
  sg_execution_health : ExecutionHealthSignal;
  sg_backlog : BacklogSignal;
  sg_lint_signal : DiagnosticSignal;
  sg_type_signal : DiagnosticSignal;
  sg_ci_history : CIHistorySignal;
  sg_validation_history : ValidationHistorySignal;
  sg_architecture_signal : ArchitectureSignal;
  sg_benchmark_signal : BenchmarkSignal;
  sg_security_signal : SecuritySignal;
  sg_coverage_signal : CoverageSignal;
  sg_flaky_test_signal : FlakyTestSignal }.

Record RepoStateSnapshot := {
  sn_run_id : string;
  sn_observed_at : datetime;
  sn_observer_version : Z;
  sn_source_command : string;
  sn_repo : RepoContextSnapshot;
  sn_signals : RepoSignalsSnapshot;
  sn_collector_errors : gmap string string }.

(** ** observer/collectors/backlog.py *)

Definition BLOCKED_TYPES : list string := ["arch"; "redesign"].

Definition promotable_items (signal : BacklogSignal) : list BacklogItem :=
  List.filter (fun item => negb (str_in (bi_item_type item) BLOCKED_TYPES)) signal.

(** ** The defaults of the models *)

Definition check_signal (status : string) (observed_at : option datetime) : CheckSignal :=
  {| ts_status := status; ts_test_count := None; ts_passed_count := 0; ts_failed_count := 0; ts_skip_count := 0;
     ts_xfailed_count := 0; ts_error_count := 0; ts_execution_time_ms := None; ts_coverage_percent := None;
     ts_failure_category := None; ts_test_name := None; ts_assertion_message := None; ts_test_names := None;
     ts_source := None; ts_observed_at := observed_at; ts_summary := None |}.

Definition dependency_signal (status : string) : DependencyDriftSignal :=
  {| dd_status := status; dd_source := None; dd_observed_at := None; dd_summary := None |}.

Definition todo_default : TodoSignal := {| td_todo_count := 0; td_fixme_count := 0; td_top_files := [] |}.

Definition health_default : ExecutionHealthSignal :=
  {| eh_total_runs := 0; eh_executed_count := 0; eh_no_op_count := 0; eh_unknown_count := 0; eh_error_count := 0;
     eh_validation_failed_count := 0; eh_recent_runs := [] |}.

Definition diagnostics_unavailable : DiagnosticSignal :=
  {| ds_status := "unavailable"; ds_count := 0; ds_distinct_file_count := 0; ds_top := []; ds_source := None |}.

Definition ci_unavailable : CIHistorySignal :=
  {| ci_status := "unavailable"; ci_runs_checked := 0; ci_failure_rate := 0; ci_flaky_checks := [];
     ci_failing_checks := []; ci_recent_runs := []; ci_source := None |}.

Definition validation_unavailable : ValidationHistorySignal :=
  {| vh_status := "unavailable"; vh_tasks_analyzed := 0; vh_tasks_with_repeated_failures := [];
     vh_overall_failure_rate := 0; vh_source := None |}.

Definition architecture_unavailable : ArchitectureSignal :=
  {| ar_status := "unavailable"; ar_source := None; ar_observed_at := None; ar_max_import_depth := None;
     ar_circular_dependencies := []; ar_coupling_score := None; ar_summary := None |}.

Definition benchmark_unavailable : BenchmarkSignal :=
  {| bm_status := "unavailable"; bm_source := None; bm_observed_at := None; bm_benchmark_count := 0;
     bm_regressions := []; bm_summary := None |}.

Definition security_unavailable : SecuritySignal :=
  {| sv_status := "unavailable"; sv_source := None; sv_observed_at := None; sv_advisory_count := 0;
     sv_critical_count := 0; sv_high_count := 0; sv_summary := None |}.

Definition coverage_unavailable : CoverageSignal :=
  {| cv_status := "unavailable"; cv_total_coverage_pct := None; cv_statement_coverage_pct := None;
     cv_branch_coverage_pct := None; cv_line_coverage_pct := None; cv_uncovered_file_count := 0;
     cv_uncovered_threshold_pct := 80; cv_top_uncovered := []; cv_module_coverages := [];
     cv_coverage_trend_pct := 0; cv_regression_delta_pct := 0; cv_active_alerts := []; cv_source := None;
     cv_observed_at := None; cv_summary := None |}.

Definition flaky_unavailable : FlakyTestSignal :=
  {| fl_status := "unavailable"; fl_flaky_test_count := 0; fl_unstable_test_count := 0; fl_affected_modules := [];
     fl_most_problematic_tests := []; fl_failure_rate_trend := 0; fl_recovery_rate := 0;
     fl_category_breakdown := ∅; fl_estimated_impact := ∅; fl_extraction_success_rate := 0;
     fl_extracted_count := 0; fl_extraction_gaps := []; fl_source := "flaky-test-reporter";
     fl_observed_at := None; fl_summary := None |}.

(** [RepoSignalsSnapshot] with the fields the observer always gives. *)
Definition signals_default (test : CheckSignal) (deps : DependencyDriftSignal) (todo : TodoSignal)
    : RepoSignalsSnapshot :=
  {| sg_recent_commits := []; sg_file_hotspots := []; sg_test_signal := test; sg_dependency_drift := deps;
     sg_todo_signal := todo; sg_execution_health := health_default; sg_backlog := [];
     sg_lint_signal := diagnostics_unavailable; sg_type_signal := diagnostics_unavailable;
     sg_ci_history := ci_unavailable; sg_validation_history := validation_unavailable;
     sg_architecture_signal := architecture_unavailable; sg_benchmark_signal := benchmark_unavailable;
     sg_security_signal := security_unavailable; sg_coverage_signal := coverage_unavailable;
     sg_flaky_test_signal := flaky_unavailable |}.
