(* ===== verification/Tuning.v ===== *)
(** * Tuning

    tuning/: [aggregate_family_metrics] (metrics.py) counts what became of each
    family's candidates, the [RecommendationEngine] (recommendations.py) turns
    the counts into recommendations, the regulator (service.py) keeps them in an
    artifact (models.py, artifact_writer.py, loader.py), and the guardrails and
    the applier (guardrails.py, applier.py) move a threshold that the decision
    rules read.  Rates are exact rationals, rounded as the code rounds them. *)
From S2P Require Import Prelude PyStr PyData Decision DecisionRules.

(** ** models.py *)

Record FamilyMetrics := {
  fm_family : string;
  fm_sample_runs : Z;
  fm_candidates_emitted : Z;
  fm_candidates_suppressed : Z;
  fm_candidates_created : Z;
  fm_candidates_skipped : Z;
  fm_candidates_failed : Z;
  fm_suppression_rate : Q;
  fm_create_rate : Q;
  fm_no_creation_rate : Q;
  fm_top_suppression_reasons : list (string * Z);
  fm_proposals_merged : Z;
  fm_proposals_escalated : Z;
  fm_acceptance_rate : Q }.

Record TuningRecommendation := {
  tr_family : string;
  tr_action : string;
  tr_rationale : string;
  tr_confidence : string;
  tr_evidence : list (string * jval);
  tr_suggested_change : option (string * string * Z) }.   (* parameter, direction, step *)

Record TuningChange := {
  tc_family : string;
  tc_key : string;
  tc_before : Z;
  tc_after : Z;
  tc_reason : string;
  tc_applied_at : datetime }.

Record SkippedTuningChange := {
  st_family : string;
  st_intended_action : string;
  st_reason : string;
  st_evidence : list (string * jval) }.

Record TuningRunArtifact := {
  ta_run_id : string;
  ta_generated_at : datetime;
  ta_source_command : string;
  ta_dry_run : bool;
  ta_auto_apply : bool;
  ta_window_runs : Z;
  ta_window_start : option datetime;
  ta_window_end : option datetime;
  ta_family_metrics : list FamilyMetrics;
  ta_recommendations : list TuningRecommendation;
  ta_changes_applied : list TuningChange;
  ta_changes_skipped : list SkippedTuningChange }.

Record TuningConfig := {
  tg_version : Z;
  tg_updated_at : datetime;
  tg_overrides : TuningOverrides }.

(** [TuningConfig.get_int]. *)
Definition get_int (c : TuningConfig) (family key : string) (d : Z) : Z :=
  tuning_get_int (tg_overrides c) family key d.

(** ** metrics.py *)

(** The dicts of the list [data.get(key, [])]; anything else is passed over. *)
Definition iter_list (data : dict) (key : string) : list dict :=
  match get_or data key (JList []) with
  | JList l => omap (fun v => match v with JObj o => Some (list_to_map o) | _ => None end) l
  | _ => []
  end.

(** [str(d.get(key, default))]. *)
Definition text_of (d : dict) (key default : string) : string := jtext (get_or d key (JStr default)).

(** [if family: counter[family] += 1]. *)
Definition bump (m : gmap string Z) (family : string) : gmap string Z :=
  if str_truthy family then <[family := (default 0 (m !! family) + 1)%Z]> m else m.

Definition count_of (m : gmap string Z) (family : string) : Z := default 0%Z (m !! family).

(** [for item in _iter_list(data, key): counter[item's family] += 1]. *)
Definition tally (data : dict) (key : string) (m : gmap string Z) : gmap string Z :=
  fold_left (fun m item => bump m (text_of item "family" "")) (iter_list data key) m.

(** The files of an artifact directory that hold an artifact that is no dry run;
    an artifact that is no dict raises. *)
Fixpoint live_artifacts (files : list json_file) : res (list dict) :=
  match files with
  | [] => Ok []
  | FileHolds v :: rest =>
      data <-? as_dict v ;;
      others <-? live_artifacts rest ;;
      Ok (if jtruthy (dget data "dry_run") then others else data :: others)
  | _ :: rest => live_artifacts rest
  end.

(** [proposer_by_decision]: of two results for one decision the one that is read
    later, the older one, stays. *)
Definition proposer_by_decision (artifacts : list dict) : gmap string dict :=
  fold_left (fun m data =>
    let src := text_of data "source_decision_run_id" "" in
    if str_truthy src then <[src := data]> m else m) artifacts ∅.

(** [issue_to_family], over every readable result, dry runs included. *)
Definition issue_to_family (results : list json_file) : res (gmap string string) :=
  foldM (fun m v =>
    data <-? as_dict v ;;
    Ok (fold_left (fun m item =>
          let issue_id := text_of item "plane_issue_id" "" in
          let family := text_of item "family" "" in
          if str_truthy issue_id && str_truthy family then <[issue_id := family]> m else m)
          (iter_list data "created") m)) ∅ (readable results).

(** The families that merged and escalated proposals of the feedback. *)
Definition feedback_counts (issues : gmap string string) (feedback : list json_file)
    : res (gmap string Z * gmap string Z) :=
  foldM (fun (m : gmap string Z * gmap string Z) v =>
    record <-? as_dict v ;;
    let outcome := text_of record "outcome" "" in
    let family := default "" (issues !! text_of record "task_id" "") in
    let family := if str_truthy family then family
                  else default "" (issues !! text_of record "plane_issue_id" "") in
    Ok (if negb (str_truthy family) then m
        else if String.eqb outcome "merged" then (bump (fst m) family, snd m)
        else if String.eqb outcome "escalated" then (fst m, bump (snd m) family)
        else m)) (∅, ∅) (readable feedback).

Record tallies := {
  tl_emitted : gmap string Z;
  tl_suppressed : gmap string Z;
  tl_reasons : gmap string (list (string * Z));
  tl_created : gmap string Z;
  tl_skipped : gmap string Z;
  tl_failed : gmap string Z;
  tl_timestamps : list datetime }.

Definition no_tallies : tallies :=
  {| tl_emitted := ∅; tl_suppressed := ∅; tl_reasons := ∅; tl_created := ∅; tl_skipped := ∅; tl_failed := ∅;
     tl_timestamps := [] |}.

(** [counter[key] += 1] of a counter whose order matters. *)
Definition tick (counter : list (string * Z)) (reason : string) : list (string * Z) :=
  od_set reason (default 0 (od_get reason counter) + 1)%Z counter.

Definition tally_reasons (data : dict) (m : gmap string (list (string * Z))) : gmap string (list (string * Z)) :=
  fold_left (fun m sup =>
    let family := text_of sup "family" "" in
    if str_truthy family
    then <[family := tick (default [] (m !! family)) (text_of sup "reason" "unknown")]> m
    else m) (iter_list data "suppressed") m.

(** One decision artifact, with the proposer's result for it. *)
Definition tally_artifact (proposed : gmap string dict) (t : tallies) (artifact : dict) : tallies :=
  let ts := get_or artifact "generated_at" JNull in
  let prop := proposed !! text_of artifact "run_id" "" in
  let with_prop key m := match prop with Some p => tally p key m | None => m end in
  {| tl_emitted := tally artifact "candidates" (tl_emitted t);
     tl_suppressed := tally artifact "suppressed" (tl_suppressed t);
     tl_reasons := tally_reasons artifact (tl_reasons t);
     tl_created := with_prop "created" (tl_created t);
     tl_skipped := with_prop "skipped" (tl_skipped t);
     tl_failed := with_prop "failed" (tl_failed t);
     tl_timestamps := tl_timestamps t ++
       match (if jtruthy ts then fromisoformat_str ts else None) with Some d => [d] | None => [] end |}.

Definition all_families (t : tallies) : gset string :=
  dom (tl_emitted t) ∪ dom (tl_suppressed t) ∪ dom (tl_created t) ∪ dom (tl_skipped t) ∪ dom (tl_failed t).

(** [a / b if b > 0 else 0.0]. *)
Definition rate (a b : Z) : Q := if (0 <? b)%Z then (inject_Z a / inject_Z b)%Q else 0.

(** [Counter.most_common]: descending, ties in insertion order. *)
Definition most_common (counter : list (string * Z)) : list (string * Z) :=
  sorted_by (fun x y => (snd y <=? snd x)%Z) counter.

Definition metrics_of (sample_runs : Z) (t : tallies) (merged escalated : gmap string Z) (family : string)
    : FamilyMetrics :=
  let e := count_of (tl_emitted t) family in
  let s := count_of (tl_suppressed t) family in
  let c := count_of (tl_created t) family in
  let m := count_of merged family in
  let x := count_of escalated family in
  {| fm_family := family; fm_sample_runs := sample_runs; fm_candidates_emitted := e; fm_candidates_suppressed := s;
     fm_candidates_created := c; fm_candidates_skipped := count_of (tl_skipped t) family;
     fm_candidates_failed := count_of (tl_failed t) family;
     fm_suppression_rate := py_round 3 (rate s (e + s)); fm_create_rate := py_round 3 (rate c e);
     fm_no_creation_rate := py_round 3 (rate (e - c) e);
     fm_top_suppression_reasons := take 5 (most_common (default [] (tl_reasons t !! family)));
     fm_proposals_merged := m; fm_proposals_escalated := x;
     fm_acceptance_rate := py_round 3 (rate m (m + x)) |}.

(** [min(timestamps)] and [max(timestamps)]. *)
Definition dt_best (better : datetime -> datetime -> res bool) (l : list datetime) : res (option datetime) :=
  match l with
  | [] => Ok None
  | t :: rest =>
      best <-? foldM (fun b x => lt <-? better x b ;; Ok (if lt : bool then x else b)) t rest ;; Ok (Some best)
  end.

(** The artifacts on disk: decisions and results newest first, feedback in the
    order the file system lists it. *)
Record tuning_files := {
  tu_decisions : list json_file;
  tu_results : list json_file;
  tu_feedback : list json_file }.

Definition aggregate_family_metrics (files : tuning_files) (window : Z)
    : res (list FamilyMetrics * Z * option datetime * option datetime) :=
  artifacts <-? live_artifacts (slice_to window (tu_decisions files)) ;;
  match artifacts with
  | [] => Ok ([], 0%Z, None, None)
  | _ =>
      results <-? live_artifacts (tu_results files) ;;
      issues <-? issue_to_family (tu_results files) ;;
      feedback <-? feedback_counts issues (tu_feedback files) ;;
      let t := fold_left (tally_artifact (proposer_by_decision results)) artifacts no_tallies in
      let sample_runs := Z.of_nat (length artifacts) in
      start <-? dt_best (fun x b => dt_lt x b) (tl_timestamps t) ;;
      end_ <-? dt_best (fun x b => dt_lt b x) (tl_timestamps t) ;;
      Ok (map (metrics_of sample_runs t (fst feedback) (snd feedback))
            (sorted_by str_leb (elements (all_families t))),
          sample_runs, start, end_)
  end.

(** ** recommendations.py *)

Definition MIN_SAMPLE_FOR_RECOMMENDATION : Z := 5.
Definition LOW_ACCEPTANCE_RATE : Q := 3 # 10.
Definition HIGH_ACCEPTANCE_RATE : Q := 8 # 10.
Definition MIN_FEEDBACK_FOR_ACCEPTANCE : Z := 5.
Definition OVER_SUPPRESSED_RATE : Q := 90 # 100.
Definition NOISY_CREATE_RATE_CEILING : Q := 10 # 100.
Definition NOISY_MIN_EMITTED : Z := 5.
Definition HEALTHY_CREATE_RATE_FLOOR : Q := 25 # 100.
Definition HEALTHY_MIN_EMITTED : Z := 3.

(** [f"{q:.0%}"]. *)
Definition pct (q : Q) : string := fmt_0f (q * 100) +:+ "%".

Definition metrics_evidence (m : FamilyMetrics) : list (string * jval) :=
  [("sample_runs", JInt (fm_sample_runs m)); ("candidates_emitted", JInt (fm_candidates_emitted m));
   ("candidates_suppressed", JInt (fm_candidates_suppressed m));
   ("candidates_created", JInt (fm_candidates_created m)); ("candidates_skipped", JInt (fm_candidates_skipped m));
   ("suppression_rate", JFloat (fm_suppression_rate m)); ("create_rate", JFloat (fm_create_rate m));
   ("proposals_merged", JInt (fm_proposals_merged m)); ("proposals_escalated", JInt (fm_proposals_escalated m));
   ("acceptance_rate", JFloat (fm_acceptance_rate m))].

(** [max(reasons, key=count)]: the first of the largest. *)
Definition top_reason (reasons : list (string * Z)) : string :=
  match reasons with
  | [] => "unknown"
  | r :: rest => fst (fold_left (fun best x => if (snd best <? snd x)%Z then x else best) rest r)
  end.

Definition if_at_least (n bound : Z) (yes no : string) : string := if (bound <=? n)%Z then yes else no.

Definition evaluate_one (m : FamilyMetrics) : TuningRecommendation :=
  let family := fm_family m in
  let evidence := metrics_evidence m in
  let runs := str_of_Z (fm_sample_runs m) in
  let emitted := str_of_Z (fm_candidates_emitted m) in
  let feedback_total := (fm_proposals_merged m + fm_proposals_escalated m)%Z in
  let reviewed := "(" +:+ str_of_Z (fm_proposals_merged m) +:+ " merged, " +:+
                  str_of_Z (fm_proposals_escalated m) +:+ " escalated of " +:+ str_of_Z feedback_total +:+
                  " reviewed). " in
  let recommend action rationale confidence ev change :=
    {| tr_family := family; tr_action := action; tr_rationale := rationale; tr_confidence := confidence;
       tr_evidence := ev; tr_suggested_change := change |} in
  if (fm_sample_runs m <? MIN_SAMPLE_FOR_RECOMMENDATION)%Z then
    recommend "no_data"
      ("Only " +:+ runs +:+ " decision run(s) in window; need at least " +:+
       str_of_Z MIN_SAMPLE_FOR_RECOMMENDATION +:+ " before making recommendations.") "low" evidence None
  else if (fm_candidates_emitted m =? 0)%Z && (fm_candidates_suppressed m =? 0)%Z then
    recommend "review"
      ("No candidates emitted or suppressed for '" +:+ family +:+ "' across " +:+ runs +:+ " runs. " +:+
       "Either no matching insights are being derived, or the family is gated. " +:+
       "Review whether the insight deriver and rule are producing output.") "medium" evidence None
  else if Qle_b OVER_SUPPRESSED_RATE (fm_suppression_rate m) then
    let top := top_reason (fm_top_suppression_reasons m) in
    recommend "loosen_threshold"
      ("'" +:+ family +:+ "' has a " +:+ pct (fm_suppression_rate m) +:+ " suppression rate across " +:+ runs +:+
       " runs (top reason: " +:+ top +:+ "). " +:+
       "The threshold may be too strict; consider lowering min_consecutive_runs by 1.")
      (if_at_least (fm_sample_runs m) 10 "high" "medium")
      (evidence ++ [("top_suppression_reason", JStr top)]) (Some ("min_consecutive_runs", "decrease", 1%Z))
  else if (NOISY_MIN_EMITTED <=? fm_candidates_emitted m)%Z &&
          Qle_b (fm_create_rate m) NOISY_CREATE_RATE_CEILING then
    recommend "tighten_threshold"
      ("'" +:+ family +:+ "' emitted " +:+ emitted +:+ " candidates but only created " +:+
       str_of_Z (fm_candidates_created m) +:+ " (" +:+ pct (fm_create_rate m) +:+ " create rate). " +:+
       "Most emitted candidates are not reaching the board as useful tasks. " +:+
       "Consider raising min_consecutive_runs by 1.")
      (if_at_least (fm_candidates_emitted m) 10 "high" "medium") evidence
      (Some ("min_consecutive_runs", "increase", 1%Z))
  else if (HEALTHY_MIN_EMITTED <=? fm_candidates_emitted m)%Z &&
          Qle_b HEALTHY_CREATE_RATE_FLOOR (fm_create_rate m) then
    recommend "keep"
      ("'" +:+ family +:+ "' shows a healthy " +:+ pct (fm_create_rate m) +:+ " create rate from " +:+ emitted +:+
       " emitted candidates across " +:+ runs +:+ " runs. No threshold adjustment recommended.")
      (if_at_least (fm_candidates_emitted m) 5 "high" "medium") evidence None
  else if (MIN_FEEDBACK_FOR_ACCEPTANCE <=? feedback_total)%Z &&
          Qlt_b (fm_acceptance_rate m) LOW_ACCEPTANCE_RATE then
    recommend "tighten_threshold"
      ("'" +:+ family +:+ "' has a low acceptance rate of " +:+ pct (fm_acceptance_rate m) +:+ " " +:+ reviewed +:+
       "Many proposals are being escalated rather than accepted; consider tightening the threshold " +:+
       "or demoting the autonomy tier to require human promotion.")
      (if_at_least feedback_total 10 "high" "medium") evidence (Some ("autonomy_tier", "decrease", 1%Z))
  else if (MIN_FEEDBACK_FOR_ACCEPTANCE <=? feedback_total)%Z &&
          Qle_b HIGH_ACCEPTANCE_RATE (fm_acceptance_rate m) then
    recommend "keep"
      ("'" +:+ family +:+ "' has a high acceptance rate of " +:+ pct (fm_acceptance_rate m) +:+ " " +:+ reviewed +:+
       "Consider promoting the autonomy tier to allow auto-execution if not already at tier 2.")
      (if_at_least feedback_total 10 "high" "medium") evidence (Some ("autonomy_tier", "increase", 1%Z))
  else
    recommend "review"
      ("'" +:+ family +:+ "' has " +:+ emitted +:+ " emitted and " +:+ str_of_Z (fm_candidates_created m) +:+
       " created across " +:+ runs +:+ " runs (create rate: " +:+ pct (fm_create_rate m) +:+ "). " +:+
       "Not enough data for a confident threshold recommendation; monitor for more runs.") "low" evidence None.

(** [RecommendationEngine.evaluate]. *)
Definition evaluate_metrics (metrics : list FamilyMetrics) : list TuningRecommendation := map evaluate_one metrics.

(** ** service.py *)

Record TuningContext := {
  tx_run_id : string;
  tx_generated_at : datetime;
  tx_source_command : string;
  tx_auto_apply : bool;
  tx_window : Z;
  tx_dry_run : bool }.

(** What [--apply] would have changed, kept as skipped. *)
Definition review_only (sample_runs : Z) (recommendations : list TuningRecommendation)
    : list SkippedTuningChange :=
  map (fun r => {| st_family := tr_family r; st_intended_action := tr_action r; st_reason := "review_only_runtime";
                   st_evidence := [("requested_auto_apply", JBool true); ("sample_runs", JInt sample_runs)] |})
    (List.filter (fun r => str_in (tr_action r) ["loosen_threshold"; "tighten_threshold"]) recommendations).

(** [TuningRegulatorService.run]: the artifact. *)
Definition regulator_run (files : tuning_files) (context : TuningContext) : res TuningRunArtifact :=
  m <-? aggregate_family_metrics files (tx_window context) ;;
  let '(family_metrics, sample_runs, window_start, window_end) := m in
  let recommendations := evaluate_metrics family_metrics in
  Ok {| ta_run_id := tx_run_id context; ta_generated_at := tx_generated_at context;
        ta_source_command := tx_source_command context; ta_dry_run := true; ta_auto_apply := false;
        ta_window_runs := sample_runs; ta_window_start := window_start; ta_window_end := window_end;
        ta_family_metrics := family_metrics; ta_recommendations := recommendations; ta_changes_applied := [];
        ta_changes_skipped := if tx_auto_apply context then review_only sample_runs recommendations else [] |}.

(** [TuningArtifactLoader.load_recent]: the readable artifacts of the first
    [limit] run directories, newest first; [None]: absent or not valid. *)
Definition load_recent (runs : list (option TuningRunArtifact)) (limit : Z) : list TuningRunArtifact :=
  omap id (slice_to limit runs).
