(* ===== verification/TuningApply.v ===== *)
(** * Applying a tuning recommendation

    tuning/guardrails.py and applier.py: which change of a threshold is let
    through, and the configuration file in which it is kept, which the decision
    rules read as overrides.  A change that is applied is the value the rules
    use from then on, stays within the hard limits, and touches nothing else;
    the guardrails are a conjunction of six conditions. *)
From S2P Require Import Prelude PyStr PyData Decision DecisionRules Tuning.

(** ** guardrails.py *)

Definition AUTO_APPLY_FAMILIES : gset string :=
  list_to_set ["observation_coverage"; "test_visibility"; "dependency_drift"].
Definition AUTO_APPLY_KEYS : gset string := {["min_consecutive_runs"]}.
Definition ACTIONABLE_ACTIONS : gset string := list_to_set ["loosen_threshold"; "tighten_threshold"].
Definition MIN_CONSECUTIVE_RUNS_MIN : Z := 1.
Definition MIN_CONSECUTIVE_RUNS_MAX : Z := 5.

Record TuningGuardrails := {
  gr_max_changes_per_day : Z;
  gr_family_cooldown_hours : Z;
  gr_min_sample_for_apply : Z }.

(** [_env_int]: the variable as an integer, else the default. *)
Definition env_int (value : option string) (d : Z) : Z :=
  match value with Some s => default d (py_int s) | None => d end.

(** [x or y] of an optional integer. *)
Definition int_or (o : option Z) (d : Z) : Z :=
  match o with Some n => if (n =? 0)%Z then d else n | None => d end.

(** The constructor, with the two environment variables. *)
Definition new_guardrails (max_changes_per_day family_cooldown_hours min_sample_for_apply : option Z)
    (env_max env_cooldown : option string) : TuningGuardrails :=
  {| gr_max_changes_per_day := int_or max_changes_per_day (env_int env_max 2);
     gr_family_cooldown_hours := int_or family_cooldown_hours (env_int env_cooldown 48);
     gr_min_sample_for_apply := int_or min_sample_for_apply 5 |}.

Definition compute_new_value (current : Z) (action : string) : option Z :=
  new ← (if String.eqb action "loosen_threshold" then Some (current - 1)%Z
         else if String.eqb action "tighten_threshold" then Some (current + 1)%Z
         else None);
  if (MIN_CONSECUTIVE_RUNS_MIN <=? new)%Z && (new <=? MIN_CONSECUTIVE_RUNS_MAX)%Z then Some new else None.

(** A loop that returns from the method at the first element it applies to. *)
Fixpoint first_hit {A B} (f : A -> res (option B)) (l : list A) : res (option B) :=
  match l with
  | [] => Ok None
  | x :: rest =>
      r <-? f x ;;
      match r with Some b => Ok (Some b) | None => first_hit f rest end
  end.

(** [generated_at.replace(hour=0, minute=0, second=0, microsecond=0)]. *)
Definition start_of_day (t : datetime) : datetime :=
  mk_datetime (dt_us t - dt_us t mod days 1) (dt_aware t).

Section Guardrails.
Context (g : TuningGuardrails) (generated_at : datetime).

Definition change_cutoff : datetime := sub_us generated_at (hours (gr_family_cooldown_hours g)).

(** [change.family == family and change.applied_at >= cooldown_cutoff]. *)
Definition recent_change (family : string) (c : TuningChange) : res bool :=
  if String.eqb (tc_family c) family then dt_le change_cutoff (tc_applied_at c) else Ok false.

Definition prior_changes (prior_runs : list TuningRunArtifact) : list TuningChange :=
  concat (map ta_changes_applied prior_runs).

Definition grows (up : bool) : string := if up then "increase" else "decrease".

(** [evaluate]: empty when the change may be applied, else the reason. *)
Definition evaluate (r : TuningRecommendation) (current_value : Z) (prior_runs : list TuningRunArtifact)
    (changes_so_far : list TuningChange) (sample_runs : Z) : res string :=
  let family := tr_family r in
  let action := tr_action r in
  let changes := prior_changes prior_runs in
  if negb (bool_decide (family ∈ AUTO_APPLY_FAMILIES)) then Ok "family_not_allowed"
  else if negb (bool_decide (action ∈ ACTIONABLE_ACTIONS)) then Ok ("action_not_applicable:" +:+ action)
  else if (sample_runs <? gr_min_sample_for_apply g)%Z then Ok "sample_too_small"
  else
    match compute_new_value current_value action with
    | None => Ok "outside_range"
    | Some _ =>
        cooling <-? first_hit (fun c => recent <-? recent_change family c ;;
                     Ok (if recent : bool then Some "cooldown_active" else None)) changes ;;
        match cooling with
        | Some reason => Ok reason
        | None =>
            today <-? filterM (fun c => dt_le (start_of_day generated_at) (tc_applied_at c)) changes ;;
            if (gr_max_changes_per_day g <=? Z.of_nat (length today) + Z.of_nat (length changes_so_far))%Z
            then Ok "quota_exceeded"
            else
              swings <-? first_hit (fun c => recent <-? recent_change family c ;;
                Ok (if (recent : bool) &&
                       negb (String.eqb (grows (tc_before c <? tc_after c)%Z)
                                        (grows (String.eqb action "tighten_threshold")))
                    then Some "oscillation_detected" else None)) changes ;;
              Ok (default "" swings)
        end
    end.
End Guardrails.

Definition build_skipped (r : TuningRecommendation) (reason : string) (sample_runs : Z) : SkippedTuningChange :=
  {| st_family := tr_family r; st_intended_action := tr_action r; st_reason := reason;
     st_evidence := [("family", JStr (tr_family r)); ("action", JStr (tr_action r));
                     ("sample_runs", JInt sample_runs)] ++ tr_evidence r |}.

(** ** applier.py *)

Definition DEFAULTS : gmap (string * string) Z :=
  list_to_map [(("observation_coverage", "min_consecutive_runs"), 2%Z);
    (("test_visibility", "min_consecutive_runs"), 3%Z); (("dependency_drift", "min_consecutive_runs"), 2%Z)].

Definition config_to_json (c : TuningConfig) : jval :=
  JObj [("version", JInt (tg_version c)); ("updated_at", JTime (tg_updated_at c));
        ("overrides", JObj (map (fun kd => (fst kd, JObj (map_to_list (snd kd)))) (map_to_list (tg_overrides c))))].

(** [TuningConfig.model_validate]: fields are read laxly, a number for the
    version or, in seconds or milliseconds of the epoch, for the time. *)
Definition invalid_config : exn := ValueError "validation error for TuningConfig".

Definition lax_int (v : jval) : res Z :=
  match v with
  | JInt n => Ok n
  | JBool b => Ok (Z.b2z b)
  | JFloat q => if (Qnum q mod Zpos (Qden q) =? 0)%Z then Ok (Qnum q / Zpos (Qden q))%Z else Raise invalid_config
  | JStr s => match py_int s with Some n => Ok n | None => Raise invalid_config end
  | _ => Raise invalid_config
  end.

Definition lax_time (v : jval) : res datetime :=
  match v with
  | JTime t => Ok t
  | JInt n => Ok (mk_datetime (if (Z.abs n <=? 20000000000)%Z then n * 1000000 else n * 1000)%Z true)
  | _ => Raise invalid_config
  end.

Definition overrides_of_json (l : list (string * jval)) : res TuningOverrides :=
  fields <-? foldM (fun acc kv => match snd kv with
                     | JObj d => Ok (acc ++ [(fst kv, (list_to_map d : dict))])
                     | _ => Raise invalid_config
                     end) [] l ;;
  Ok (list_to_map fields).

Definition config_of_json (v : jval) : res TuningConfig :=
  data <-? as_dict v ;;
  version <-? lax_int (get_or data "version" (JInt 1)) ;;
  updated_at <-? lax_time (dget data "updated_at") ;;
  match get_or data "overrides" (JObj []) with
  | JObj l =>
      overrides <-? overrides_of_json l ;;
      Ok {| tg_version := version; tg_updated_at := updated_at; tg_overrides := overrides |}
  | _ => Raise invalid_config
  end.

(** [load_tuning_config]: [None] when absent or unreadable. *)
Definition load_tuning_config (f : json_file) : option TuningConfig :=
  match f with
  | FileHolds v => match config_of_json v with Ok c => Some c | Raise _ => None end
  | _ => None
  end.

(** [TuningApplier.current_value]. *)
Definition current_value (f : json_file) (family key : string) : Z :=
  let fallback := default 2%Z (DEFAULTS !! (family, key)) in
  match load_tuning_config f with Some c => get_int c family key fallback | None => fallback end.

(** What writing the file comes to: the new text, or an exception and whatever
    is there then. *)
Inductive disk_write :=
  | DW_written
  | DW_failed (left_behind : json_file) (e : exn).

(** [TuningApplier.apply]: the file afterwards, and the change it reports. *)
Definition apply (disk : disk_write) (f : json_file) (family key action reason : string) (generated_at : datetime)
    : json_file * res (option TuningChange) :=
  if negb (bool_decide (key ∈ AUTO_APPLY_KEYS)) then (f, Ok None)
  else
    let current := current_value f family key in
    match compute_new_value current action with
    | None => (f, Ok None)
    | Some new_value =>
        let config := default {| tg_version := 1; tg_updated_at := generated_at; tg_overrides := ∅ |}
                        (load_tuning_config f) in
        let family_overrides := default ∅ (tg_overrides config !! family) in
        match disk with
        | DW_failed left_behind e => (left_behind, Raise e)
        | DW_written =>
            (FileHolds (config_to_json
               {| tg_version := tg_version config; tg_updated_at := generated_at;
                  tg_overrides := <[family := <[key := JInt new_value]> family_overrides]> (tg_overrides config) |}),
             Ok (Some {| tc_family := family; tc_key := key; tc_before := current; tc_after := new_value;
                         tc_reason := reason; tc_applied_at := generated_at |}))
        end
    end.

(** ** The file keeps what is written *)

Lemma overrides_fields (l : list (string * dict)) acc :
  foldM (fun acc kv => match snd kv with
           | JObj d => Ok (acc ++ [(fst kv, (list_to_map d : dict))])
           | _ => Raise invalid_config
           end) acc (map (fun kd => (fst kd, JObj (map_to_list (snd kd)))) l) = Ok (acc ++ l).
Proof.
  revert acc. induction l as [|[k d] l IH]; intros acc; cbn [foldM map]; [by rewrite app_nil_r|].
  cbn [snd fst]. rewrite list_to_map_to_list. cbn [mbind res_bind]. by rewrite IH, <-app_assoc.
Qed.

Lemma overrides_of_to_json (o : TuningOverrides) :
  overrides_of_json (map (fun kd => (fst kd, JObj (map_to_list (snd kd)))) (map_to_list o)) = Ok o.
Proof. unfold overrides_of_json. rewrite (overrides_fields _ []). exact (f_equal Ok (list_to_map_to_list (M := gmap string) o)). Qed.

Lemma config_of_to_json c : config_of_json (config_to_json c) = Ok c.
Proof.
  destruct c as [v t o].
  transitivity (o' <-? overrides_of_json (map (fun kd => (fst kd, JObj (map_to_list (snd kd)))) (map_to_list o)) ;;
                Ok {| tg_version := v; tg_updated_at := t; tg_overrides := o' |}); [reflexivity|].
  by rewrite overrides_of_to_json.
Qed.

#[export] Instance TuningConfig_persistent : Persistent TuningConfig := {|
  to_json := config_to_json; of_json := config_of_json; of_to_json := config_of_to_json |}.

Lemma load_written c : load_tuning_config (FileHolds (config_to_json c)) = Some c.
Proof. unfold load_tuning_config. by rewrite config_of_to_json. Qed.

(** The overrides the decision service reads of the file. *)
Definition overrides_of (f : json_file) : option TuningOverrides := tg_overrides <$> load_tuning_config f.

Lemma new_value_bounds current action n :
  compute_new_value current action = Some n -> (1 <= n <= 5)%Z /\ (n = current - 1 \/ n = current + 1)%Z.
Proof.
  unfold compute_new_value, MIN_CONSECUTIVE_RUNS_MIN, MIN_CONSECUTIVE_RUNS_MAX. intros H.
  destruct (String.eqb action "loosen_threshold"); [|destruct (String.eqb action "tighten_threshold")]; cbn in H;
    try discriminate H; destruct (_ && _) eqn:E; try discriminate H; injection H as <-; lia.
Qed.

Lemma loosened_by_one current n : compute_new_value current "loosen_threshold" = Some n -> current = (n + 1)%Z.
Proof. unfold compute_new_value. cbn. destruct (_ && _); [|done]. intros [= <-]. lia. Qed.

Lemma get_int_set (o : gmap string dict) family key n d :
  tuning_get_int (<[family := <[key := JInt n]> (default ∅ (o !! family))]> o) family key d = n.
Proof. unfold tuning_get_int, TuningOverrides. rewrite lookup_insert_eq. change (default ?a (Some ?b)) with b. by rewrite dget_insert_eq. Qed.

Lemma get_int_other (o : gmap string dict) family key v family' key' d : (family', key') <> (family, key) ->
  tuning_get_int (<[family := <[key := v]> (default ∅ (o !! family))]> o) family' key' d =
  tuning_get_int o family' key' d.
Proof.
  intros Hne. unfold tuning_get_int, TuningOverrides. destruct (decide (family' = family)) as [->|Hf].
  - rewrite lookup_insert_eq. change (default ?a (Some ?b)) with b. by rewrite dget_insert_ne by congruence.
  - by rewrite lookup_insert_ne by done.
Qed.

(** What an applied change does to the thresholds that are read. *)
Lemma apply_reads disk f family key action reason t f' c :
  apply disk f family key action reason t = (f', Ok (Some c)) ->
  compute_new_value (current_value f family key) action = Some (tc_after c) /\
  tc_before c = current_value f family key /\
  (forall d, tuned (overrides_of f') family key d = tc_after c) /\
  (forall family' key' d, (family', key') <> (family, key) ->
     tuned (overrides_of f') family' key' d = tuned (overrides_of f) family' key' d).
Proof.
  unfold apply. destruct (negb _); [done|]. destruct (compute_new_value _ _) as [n|] eqn:En; [|done].
  destruct disk; [|done]. intros [= <- <-]. cbn [tc_after tc_before].
  set (config := default _ (load_tuning_config f)).
  assert (Hfile : forall family' key' d,
            tuned (overrides_of f) family' key' d = get_int config family' key' d).
  { intros. unfold overrides_of, config. by destruct (load_tuning_config f). }
  split_and!; [done|done| |].
  - intros d. unfold overrides_of. rewrite load_written. apply get_int_set.
  - intros family' key' d Hne. rewrite Hfile. unfold overrides_of. rewrite load_written. by apply get_int_other.
Qed.

(** The applier's own reading of the file is the rules' with its default. *)
Lemma current_value_tuned f family key :
  current_value f family key = tuned (overrides_of f) family key (default 2%Z (DEFAULTS !! (family, key))).
Proof. unfold current_value, overrides_of. by destruct (load_tuning_config f). Qed.

(** C19: a change the applier reports is one step within the hard limits, and it is
    what the decision rules read from the file from then on, whatever default
    they ask with; every other threshold of the file is read as before. *)
Theorem applied_change_is_what_the_rules_read disk f family key action reason t f' c :
  apply disk f family key action reason t = (f', Ok (Some c)) ->
  (1 <= tc_after c <= 5)%Z /\ Z.abs (tc_after c - tc_before c) = 1%Z /\
  tc_before c = current_value f family key /\
  current_value f' family key = tc_after c /\
  (forall d, tuned (overrides_of f') family key d = tc_after c) /\
  (forall family' key' d, (family', key') <> (family, key) ->
     tuned (overrides_of f') family' key' d = tuned (overrides_of f) family' key' d).
Proof.
  intros (En & Hb & Hr & Hf)%apply_reads. apply new_value_bounds in En as [Hlim Hstep].
  rewrite (current_value_tuned f'), Hr. split_and!; try done; lia.
Qed.

Definition tuning_now : datetime := mk_datetime 1778250191000000 true.

Lemma applied_change_is_what_the_rules_read_witness :
  tuned (overrides_of (fst (apply DW_written FileMissing "test_visibility" "min_consecutive_runs" "tighten_threshold" "noisy"
                              tuning_now))) "test_visibility" "min_consecutive_runs" 3 = 4%Z.
Proof.
  destruct (applied_change_is_what_the_rules_read DW_written FileMissing "test_visibility" "min_consecutive_runs"
    "tighten_threshold" "noisy" tuning_now _
    {| tc_family := "test_visibility"; tc_key := "min_consecutive_runs"; tc_before := 3; tc_after := 4;
       tc_reason := "noisy"; tc_applied_at := tuning_now |} eq_refl) as (_ & _ & _ & _ & H & _).
  exact (H 3%Z).
Defined.

(** ** The guardrails as a conjunction *)

Lemma first_hit_none {A B} (f : A -> res (option B)) (p : A -> bool) (b : A -> B) l :
  (forall x, x ∈ l -> f x = Ok (if p x then Some (b x) else None)) ->
  first_hit f l = Ok (b <$> List.find p l).
Proof.
  induction l as [|x l IH]; intros H; [done|]. cbn. rewrite H by left. destruct (p x); cbn; [done|].
  apply IH. intros y Hy. apply H. by right.
Qed.

Section GuardrailSpec.
Context (g : TuningGuardrails) (now : datetime) (r : TuningRecommendation) (current : Z)
        (prior : list TuningRunArtifact) (so_far : list TuningChange) (sample : Z).

Abbreviation changes := (prior_changes prior).

Definition comparable : Prop := Forall (fun c => dt_aware (tc_applied_at c) = dt_aware now) changes.

Definition is_recent (c : TuningChange) : bool :=
  String.eqb (tc_family c) (tr_family r) && (dt_us (change_cutoff g now) <=? dt_us (tc_applied_at c))%Z.

Definition is_today (c : TuningChange) : bool := (dt_us (start_of_day now) <=? dt_us (tc_applied_at c))%Z.

(** What the guardrails promise. *)
Definition may_apply : Prop :=
  tr_family r ∈ AUTO_APPLY_FAMILIES /\ tr_action r ∈ ACTIONABLE_ACTIONS /\
  (gr_min_sample_for_apply g <= sample)%Z /\ is_Some (compute_new_value current (tr_action r)) /\
  Forall (fun c => is_recent c = false) changes /\
  (count_if is_today changes + Z.of_nat (length so_far) < gr_max_changes_per_day g)%Z.

Lemma recent_decided c : comparable -> c ∈ changes -> recent_change g now (tr_family r) c = Ok (is_recent c).
Proof.
  intros Hc Hin. unfold recent_change, is_recent. destruct (String.eqb _ _); [|done]. cbn.
  unfold dt_le, same_kind, change_cutoff, sub_us. cbn.
  by rewrite (proj1 (Forall_forall _ _) Hc _ Hin), Bool.eqb_reflx.
Qed.

Lemma today_decided : comparable ->
  filterM (fun c => dt_le (start_of_day now) (tc_applied_at c)) changes = Ok (List.filter is_today changes).
Proof.
  intros Hc. apply filterM_ok. eapply Forall_impl; [exact Hc|]. intros c E. unfold dt_le, same_kind, start_of_day.
  cbn. by rewrite E, Bool.eqb_reflx.
Qed.

Lemma find_none_Forall {A} (p : A -> bool) l : List.find p l = None <-> Forall (fun x => p x = false) l.
Proof.
  split; [intros H; apply Forall_forall; intros x Hx; by apply (List.find_none p l H), list_elem_of_In|].
  induction 1 as [|x l Hx _ IH]; [done|]. cbn. by rewrite Hx.
Qed.

(** the guardrails let a change through exactly when its family and action are
    on the lists, the sample is large enough, the new value is in range, nothing
    of the family changed within the cooldown and the day's quota is not used
    up; so the check for oscillation, which only looks at changes within the
    cooldown, never refuses anything. *)
Theorem guardrails_are_six_conditions :
  comparable ->
  (evaluate g now r current prior so_far sample = Ok "" <-> may_apply) /\
  evaluate g now r current prior so_far sample <> Ok "oscillation_detected".
Proof.
  intros Hc. unfold evaluate, may_apply. rewrite today_decided by done.
  do 2 (case_bool_decide; cbn; [|split; [split; [done|naive_solver]|done]]).
  destruct (Z.ltb_spec sample (gr_min_sample_for_apply g)); [split; [split; [done|naive_solver lia]|done]|].
  destruct (compute_new_value current (tr_action r)) as [n|];
    [|split; [split; [done|intros (_ & _ & _ & [? ?] & _); done]|done]].
  assert (Ecool : first_hit (fun c => recent <-? recent_change g now (tr_family r) c ;;
            Ok (if recent : bool then Some "cooldown_active" else None)) changes =
          Ok ((fun _ => "cooldown_active") <$> List.find is_recent changes)).
  { apply first_hit_none. intros c Hin. by rewrite recent_decided. }
  rewrite Ecool. clear Ecool.
  destruct (List.find is_recent changes) as [c|] eqn:Ef; cbn.
  { apply List.find_some in Ef as [Hin Hr]. split; [|done]. split; [done|].
    intros (_ & _ & _ & _ & Hf & _). apply list_elem_of_In in Hin.
    by rewrite (proj1 (Forall_forall _ _) Hf _ Hin) in Hr. }
  apply find_none_Forall in Ef. unfold count_if.
  destruct (Z.leb_spec (gr_max_changes_per_day g)
              (Z.of_nat (length (List.filter is_today changes)) + Z.of_nat (length so_far)));
    [split; [split; [done|naive_solver lia]|done]|].
  erewrite (first_hit_none _ (fun _ => false) (fun _ => "oscillation_detected")).
  2:{ intros c Hin. rewrite recent_decided by done. cbn. by rewrite (proj1 (Forall_forall _ _) Ef _ Hin). }
  rewrite (proj2 (find_none_Forall (fun _ => false) changes)) by (by apply Forall_forall).
  split; [split; [intros _; split_and!; done|done]|done].
Qed.
End GuardrailSpec.

Definition a_change (family : string) (hours_ago : Z) : TuningChange :=
  {| tc_family := family; tc_key := "min_consecutive_runs"; tc_before := 2; tc_after := 3; tc_reason := "noisy";
     tc_applied_at := sub_us tuning_now (hours hours_ago) |}.

Definition run_with (changes : list TuningChange) : TuningRunArtifact :=
  {| ta_run_id := "tun_1"; ta_generated_at := tuning_now; ta_source_command := "tune"; ta_dry_run := false;
     ta_auto_apply := true; ta_window_runs := 20; ta_window_start := None; ta_window_end := None;
     ta_family_metrics := []; ta_recommendations := []; ta_changes_applied := changes; ta_changes_skipped := [] |}.

Definition a_recommendation (family action : string) : TuningRecommendation :=
  {| tr_family := family; tr_action := action; tr_rationale := ""; tr_confidence := "high"; tr_evidence := [];
     tr_suggested_change := None |}.

Lemma guardrails_are_six_conditions_witness :
  may_apply (new_guardrails None None None None None) tuning_now
    (a_recommendation "test_visibility" "loosen_threshold") 3
    [run_with [a_change "test_visibility" 49; a_change "observation_coverage" 3]] [] 20.
Proof.
  apply (guardrails_are_six_conditions (new_guardrails None None None None None) tuning_now
           (a_recommendation "test_visibility" "loosen_threshold") 3
           [run_with [a_change "test_visibility" 49; a_change "observation_coverage" 3]] [] 20).
  - repeat constructor.
  - vm_compute. reflexivity.
Defined.
