(* ===== verification/Insights.v ===== *)
(** * The insight engine

    insights/{models,normalizer,loader,service,artifact_writer}.py: observer
    snapshots are loaded newest first, every deriver turns them into insights
    with a key, and the artifact of a run keeps them for the decision engine
    ([RepoInsightsArtifact] of Decision is what that engine reads of it).
    Derivers and DeriversQuality hold the derivers. *)
From S2P Require Import Prelude PyStr PyData TextLines Decision ObserverModels.
From Stdlib Require Import Sorting.Sorted.

(** ** models.py *)

(** [DerivedInsight]: what the decision engine reads, and the rest. *)
Record DatedInsight := {
  di_insight_id : string;
  di_insight : DerivedInsight;
  di_first_seen_at : datetime;
  di_last_seen_at : datetime }.

Record InsightsArtifact := {
  is_run_id : string;
  is_generated_at : datetime;
  is_source_command : string;
  is_repo_name : string;
  is_repo_path : string;
  is_source_snapshots : list (string * datetime);
  is_insights : list DatedInsight }.

(** What the decision loader reads of the stored artifact. *)
Definition as_read (a : InsightsArtifact) : RepoInsightsArtifact :=
  {| ia_run_id := is_run_id a; ia_generated_at := is_generated_at a; ia_repo_name := is_repo_name a;
     ia_repo_path := is_repo_path a; ia_source_snapshots := map fst (is_source_snapshots a);
     ia_insights := map di_insight (is_insights a) |}.

(** ** normalizer.py *)

Definition normalize (kind subject status : string) (key_parts : list string) (evidence : list (string * jval))
    (first_seen_at last_seen_at : datetime) : DatedInsight :=
  let dedup_key := join "|" (kind :: key_parts) in
  {| di_insight_id := replace "|" ":" dedup_key;
     di_insight := {| in_dedup_key := dedup_key; in_kind := kind; in_subject := subject; in_status := status;
                      in_evidence := list_to_map evidence |};
     di_first_seen_at := first_seen_at; di_last_seen_at := last_seen_at |}.

(** ** loader.py *)

(** [(a.observed_at, a.run_id) >= (b.observed_at, b.run_id)]. *)
Definition snapshot_geb (a b : RepoStateSnapshot) : bool :=
  (dt_us (sn_observed_at b) <? dt_us (sn_observed_at a))%Z ||
  ((dt_us (sn_observed_at b) =? dt_us (sn_observed_at a))%Z && str_leb (sn_run_id b) (sn_run_id a)).

(** [_all_snapshots]: newest first.  Naive and aware times do not compare; a file
    that does not validate raises. *)
Definition all_snapshots (files : res (list RepoStateSnapshot)) : res (list RepoStateSnapshot) :=
  found <-? files ;;
  match found with
  | [] => Ok []
  | s :: rest =>
      if forallb (fun b => same_kind (sn_observed_at s) (sn_observed_at b)) rest
      then Ok (sorted_by snapshot_geb found) else Raise naive_mix
  end.

Definition snapshot_of_repo (repo : string) (s : RepoStateSnapshot) : bool :=
  let wanted := lower (strip repo) in
  String.eqb (lower (strip (rc_name (sn_repo s)))) wanted ||
  String.eqb (lower (strip (rc_path (sn_repo s)))) wanted.

(** [SnapshotLoader.load]. *)
Definition load_snapshots (files : res (list RepoStateSnapshot)) (repo snapshot_run_id : option string)
    (history_limit : Z) : res (list RepoStateSnapshot) :=
  snapshots <-? all_snapshots files ;;
  let snapshots := if opt_truthy repo then List.filter (snapshot_of_repo (default "" repo)) snapshots
                   else snapshots in
  snapshots <-? (if opt_truthy snapshot_run_id then
      let id := default "" snapshot_run_id in
      match find_first (fun s => String.eqb (sn_run_id s) id) snapshots with
      | None => Raise (ValueError ("Snapshot run id not found: " +:+ id))
      | Some current =>
          let same := List.filter (fun s => String.eqb (rc_path (sn_repo s)) (rc_path (sn_repo current)))
                        snapshots in
          Ok (current :: List.filter (fun s => negb (String.eqb (sn_run_id s) (sn_run_id current))) same)
      end
    else Ok snapshots) ;;
  match snapshots with
  | [] => Raise (ValueError "No observer snapshots found for the requested repo/context")
  | _ => Ok (slice_to (history_limit + 1) snapshots)
  end.

(** ** artifact_writer.py *)

Definition or_none (lines : list string) : list string := if list_truthy lines then lines else ["- none"].

(** The text of repo_insights.md. *)
Definition insights_markdown (a : InsightsArtifact) : string :=
  join nl (["# Repo Insights"; "- run_id: " +:+ is_run_id a;
            "- generated_at: " +:+ isoformat (is_generated_at a); "- repo_name: " +:+ is_repo_name a;
            "- repo_path: " +:+ is_repo_path a; ""; "## Source Snapshots"] ++
    or_none (map (fun r => "- " +:+ fst r +:+ " @ " +:+ isoformat (snd r)) (is_source_snapshots a)) ++
    [""; "## Insights"] ++
    or_none (map (fun i => "- " +:+ in_kind (di_insight i) +:+ " | " +:+ in_subject (di_insight i) +:+ " | " +:+
                           in_status (di_insight i) +:+ " | " +:+ in_dedup_key (di_insight i)) (is_insights a))).

(** ** service.py *)

Definition Deriver : Type := list RepoStateSnapshot -> res (list DatedInsight).

Record InsightGenerationContext := {
  ig_repo_filter : option string;
  ig_snapshot_run_id : option string;
  ig_history_limit : Z;
  ig_run_id : string;
  ig_generated_at : datetime;
  ig_source_command : string }.

(** [for deriver in self.derivers: insights.extend(deriver.derive(snapshots))]. *)
Fixpoint derive_all (derivers : list Deriver) (snapshots : list RepoStateSnapshot) : res (list DatedInsight) :=
  match derivers with
  | [] => Ok []
  | d :: rest =>
      here <-? d snapshots ;;
      others <-? derive_all rest snapshots ;;
      Ok (here ++ others)
  end.

(** [InsightEngineService.generate], up to the artifact it writes. *)
Definition generate (files : res (list RepoStateSnapshot)) (derivers : list Deriver)
    (context : InsightGenerationContext) : res InsightsArtifact :=
  snapshots <-? load_snapshots files (ig_repo_filter context) (ig_snapshot_run_id context)
                  (ig_history_limit context) ;;
  match snapshots with
  | [] =>
      Ok {| is_run_id := ig_run_id context; is_generated_at := ig_generated_at context;
            is_source_command := ig_source_command context;
            is_repo_name := str_or (ig_repo_filter context) "unknown"; is_repo_path := ".";
            is_source_snapshots := []; is_insights := [] |}
  | current :: _ =>
      insights <-? derive_all derivers snapshots ;;
      Ok {| is_run_id := ig_run_id context; is_generated_at := ig_generated_at context;
            is_source_command := ig_source_command context; is_repo_name := rc_name (sn_repo current);
            is_repo_path := rc_path (sn_repo current);
            is_source_snapshots := map (fun s => (sn_run_id s, sn_observed_at s)) snapshots;
            is_insights := insights |}
  end.

(** ** What is loaded *)

Lemma snapshot_geb_spec a b : snapshot_geb a b = true <->
  (dt_us (sn_observed_at b) < dt_us (sn_observed_at a))%Z \/
  dt_us (sn_observed_at b) = dt_us (sn_observed_at a) /\ str_leb (sn_run_id b) (sn_run_id a) = true.
Proof. unfold snapshot_geb. by rewrite orb_true_iff, andb_true_iff, Z.ltb_lt, Z.eqb_eq. Qed.

Lemma snapshot_geb_trans a b c : snapshot_geb a b = true -> snapshot_geb b c = true -> snapshot_geb a c = true.
Proof.
  rewrite !snapshot_geb_spec. intros [H1|[H1 S1]] [H2|[H2 S2]]; [left; lia|left; lia|left; lia|right].
  split; [lia|]. by eapply str_leb_trans.
Qed.

Lemma snapshot_geb_total a b : snapshot_geb a b = false -> snapshot_geb b a = true.
Proof.
  unfold snapshot_geb. intros H. apply orb_false_iff in H as [H1%Z.ltb_ge H2]. apply orb_true_iff.
  destruct (Z.eq_dec (dt_us (sn_observed_at b)) (dt_us (sn_observed_at a))) as [E|E].
  - rewrite E, Z.eqb_refl in *. cbn in *. right. by apply str_leb_total.
  - left. apply Z.ltb_lt. lia.
Qed.

Lemma all_snapshots_spec files l : all_snapshots files = Ok l ->
  exists found, files = Ok found /\ l ≡ₚ found /\ StronglySorted (newer sn_observed_at) l.
Proof.
  unfold all_snapshots. destruct files as [found|]; [|done]. cbn. intros H. exists found. split; [done|].
  destruct found as [|s rest]; [injection H as <-; split; [done|constructor]|].
  destruct (forallb _ rest); [|done]. injection H as <-.
  change (insert_sorted _ s _) with (sorted_by snapshot_geb (s :: rest)). split; [apply sorted_by_perm|].
  eapply StronglySorted_ind with (P := StronglySorted (newer sn_observed_at));
    [constructor | | apply sorted_by_sorted; [apply snapshot_geb_total | apply snapshot_geb_trans]].
  intros x l _ IH Hx. constructor; [done|]. eapply Forall_impl; [exact Hx|]. intros y.
  cbn. rewrite snapshot_geb_spec. unfold newer. lia.
Qed.

Lemma slice_to_length {A} n (l : list A) : (0 <= n)%Z -> (Z.of_nat (length (slice_to n l)) <= n)%Z.
Proof. intros H. unfold slice_to. rewrite (proj2 (Z.leb_le 0 n)) by done. rewrite length_take. lia. Qed.

(** What a load returns is newest first when no run is asked for. *)
Lemma load_newest files repo limit l : load_snapshots files repo None limit = Ok l ->
  exists found, files = Ok found /\ l ⊆ found /\ StronglySorted (newer sn_observed_at) l /\
    ((0 <= limit + 1)%Z -> (Z.of_nat (length l) <= limit + 1)%Z).
Proof.
  unfold load_snapshots. destruct (all_snapshots files) as [all|] eqn:E; cbn [mbind res_bind]; [|done].
  apply all_snapshots_spec in E as (found & -> & Hp & Hs). cbn [opt_truthy].
  set (kept := if opt_truthy repo then _ else all). intros H. exists found. split; [done|].
  assert (Hsub : sublist l kept) by (destruct kept; [done|]; injection H as <-; apply slice_to_sublist).
  assert (Hk : sublist kept all) by (unfold kept; destruct (opt_truthy repo); [apply sublist_filter_bool|done]).
  split_and!.
  - intros x Hx. rewrite <-Hp. eapply elem_of_sublist; [|exact Hk]. by eapply elem_of_sublist.
  - eapply StronglySorted_sublist; [|exact Hs]. by etransitivity.
  - intros Hn. destruct kept; [done|]. injection H as <-. by apply slice_to_length.
Qed.
