(* ===== verification/Derivers.v ===== *)
(** * The derivers of repository activity, coverage and backlog

    insights/derivers/{dirty_tree,commit_activity,file_hotspots,test_continuity,
    dependency_drift,todo_concentration,observation_coverage,execution_health,
    backlog_promotion,arch_scheduler}.py, one definition per deriver, over the
    snapshots newest first.  The order in which the scheduler lists the families
    it requires is the order of a frozenset, a parameter. *)
From S2P Require Import Prelude PyStr PyData Decision DecisionRules ObserverModels Tuning Insights.

(** [signal.observed_at or snapshot.observed_at]. *)
Definition seen_at (signal : option datetime) (s : RepoStateSnapshot) : datetime :=
  default (sn_observed_at s) signal.

(** The oldest of the matching snapshots, [l[-1]], and the newest, [l[0]]. *)
Definition oldest (l : list RepoStateSnapshot) (s : RepoStateSnapshot) : RepoStateSnapshot := default s (last l).
Definition newest (l : list RepoStateSnapshot) (s : RepoStateSnapshot) : RepoStateSnapshot := default s (head l).

(** The first snapshots that have a property, up to the first that does not. *)
Fixpoint streak (p : RepoStateSnapshot -> bool) (l : list RepoStateSnapshot) : list RepoStateSnapshot :=
  match l with
  | [] => []
  | s :: rest => if p s then s :: streak p rest else []
  end.

(** ** dirty_tree.py *)

Definition dirty_tree (snapshots : list RepoStateSnapshot) : list DatedInsight :=
  match snapshots with
  | [] => []
  | current :: _ =>
      if negb (rc_is_dirty (sn_repo current)) then []
      else
        let dirty := List.filter (fun s => rc_is_dirty (sn_repo s)) snapshots in
        [normalize "dirty_tree" "working_tree" "present" ["working_tree"; "dirty"]
           [("is_dirty", JBool true); ("dirty_snapshots", JInt (Z.of_nat (length dirty)))]
           (sn_observed_at (oldest dirty current)) (sn_observed_at (newest dirty current))]
  end.

(** ** commit_activity.py *)

Definition commit_count (s : RepoStateSnapshot) : Z := Z.of_nat (length (sg_recent_commits (sn_signals s))).

Definition commit_activity (snapshots : list RepoStateSnapshot) : list DatedInsight :=
  match snapshots with
  | [] => []
  | current :: rest =>
      let current_count := commit_count current in
      let authors := remove_dups (map cm_author (sg_recent_commits (sn_signals current))) in
      [normalize "commit_activity" (rc_name (sn_repo current)) "present" ["recent_window"]
         [("current_commit_count", JInt current_count);
          ("active_authors_count", JInt (Z.of_nat (length authors)))]
         (sn_observed_at (oldest snapshots current)) (sn_observed_at current)] ++
      match rest with
      | [] => []
      | previous :: _ =>
          if (commit_count previous =? current_count)%Z then []
          else [normalize "commit_activity" (rc_name (sn_repo current)) "present" ["recent_window_changed"]
                  [("current_commit_count", JInt current_count);
                   ("previous_commit_count", JInt (commit_count previous))]
                  (sn_observed_at previous) (sn_observed_at current)]
      end
  end.

(** ** file_hotspots.py *)

Definition hotspot_in (path : string) (s : RepoStateSnapshot) : bool :=
  existsb (fun h => String.eqb (fh_path h) path) (sg_file_hotspots (sn_signals s)).

Definition sum_z (l : list Z) : Z := fold_left Z.add l 0%Z.

Definition dominant_hotspot (current : RepoStateSnapshot) (top : FileHotspot) (others : list FileHotspot)
    : list DatedInsight :=
  let other_total := sum_z (map fh_touch_count others) in
  if (0 <? fh_touch_count top)%Z && (Z.max 2 other_total <=? fh_touch_count top)%Z then
    [normalize "file_hotspot" (fh_path top) "present" [fh_path top; "dominant_current"]
       [("current_touch_count", JInt (fh_touch_count top)); ("other_touch_count_total", JInt other_total)]
       (sn_observed_at current) (sn_observed_at current)]
  else [].

Definition repeated_hotspot (snapshots : list RepoStateSnapshot) (current : RepoStateSnapshot) (h : FileHotspot)
    : list DatedInsight :=
  let appearances := List.filter (hotspot_in (fh_path h)) snapshots in
  if (Z.of_nat (length appearances) <? 2)%Z then []
  else [normalize "file_hotspot" (fh_path h) "present" [fh_path h; "repeated_presence"]
          [("current_touch_count", JInt (fh_touch_count h));
           ("appears_in_recent_snapshots", JInt (Z.of_nat (length appearances)))]
          (sn_observed_at (oldest appearances current)) (sn_observed_at (newest appearances current))].

Definition file_hotspots (snapshots : list RepoStateSnapshot) : list DatedInsight :=
  match snapshots with
  | [] => []
  | current :: _ =>
      match sg_file_hotspots (sn_signals current) with
      | [] => []
      | top :: others =>
          dominant_hotspot current top others ++
          concat (map (repeated_hotspot snapshots current) (top :: others))
      end
  end.

(** ** test_continuity.py *)

Definition test_status (s : RepoStateSnapshot) : string := ts_status (sg_test_signal (sn_signals s)).

Definition test_continuity (snapshots : list RepoStateSnapshot) : list DatedInsight :=
  match snapshots with
  | [] => []
  | current :: rest =>
      let current_status := test_status current in
      let same := streak (fun s => String.eqb (test_status s) current_status) snapshots in
      (if (2 <=? Z.of_nat (length same))%Z then
         [normalize "test_status_continuity" "test_signal" "present" [current_status; "persistent"]
            [("current_status", JStr current_status); ("consecutive_snapshots", JInt (Z.of_nat (length same)))]
            (sn_observed_at (oldest same current)) (sn_observed_at (newest same current))]
       else []) ++
      match rest with
      | [] => []
      | previous :: _ =>
          if String.eqb (test_status previous) current_status then []
          else [normalize "test_status_continuity" "test_signal" "present"
                  [test_status previous; current_status; "transition"]
                  [("previous_status", JStr (test_status previous)); ("current_status", JStr current_status)]
                  (sn_observed_at previous) (sn_observed_at current)]
      end
  end.

(** ** dependency_drift.py *)

Definition drift_status (s : RepoStateSnapshot) : string := dd_status (sg_dependency_drift (sn_signals s)).
Definition drift_seen (s : RepoStateSnapshot) : datetime :=
  seen_at (dd_observed_at (sg_dependency_drift (sn_signals s))) s.

Definition drift_insight_of (key_parts : list string) (evidence : list (string * jval)) (first last : datetime)
    : DatedInsight :=
  normalize "dependency_drift_continuity" "dependency_drift" "present" key_parts evidence first last.

Definition drift_present (snapshots : list RepoStateSnapshot) (current : RepoStateSnapshot) : list DatedInsight :=
  let available := List.filter (fun s => String.eqb (drift_status s) "available") snapshots in
  let first := drift_seen (oldest available current) in
  let last := drift_seen (newest available current) in
  drift_insight_of ["present"; "current"] [("current_status", JStr (drift_status current))] first last ::
  (if (2 <=? Z.of_nat (length available))%Z then
     [drift_insight_of ["present"; "persistent"]
        [("consecutive_snapshots", JInt (Z.of_nat (length available)))] first last]
   else []).

Definition drift_change (current previous : RepoStateSnapshot) : list DatedInsight :=
  let now := drift_status current in
  let before := drift_status previous in
  let evidence := [("previous_status", JStr before); ("current_status", JStr now)] in
  if String.eqb now before then []
  else if String.eqb now "not_available" then
    [drift_insight_of ["not_available"; "transition"] evidence (drift_seen previous) (drift_seen current)]
  else if String.eqb now "available" && String.eqb before "not_available" then
    [drift_insight_of ["available"; "recovery"] evidence (drift_seen previous) (drift_seen current)]
  else [].

Definition dependency_drift (snapshots : list RepoStateSnapshot) : list DatedInsight :=
  match snapshots with
  | [] => []
  | current :: rest =>
      (if String.eqb (drift_status current) "available" then drift_present snapshots current else []) ++
      match rest with [] => [] | previous :: _ => drift_change current previous end
  end.

(** ** todo_concentration.py *)

Definition todo_total (t : TodoSignal) : Z := (td_todo_count t + td_fixme_count t)%Z.

Definition top_file_concentration (now : datetime) (t : TodoSignal) : list DatedInsight :=
  match td_top_files t with
  | top :: _ =>
      if (0 <? todo_total t)%Z && Qle_b (1 # 2) (inject_Z (tf_count top) / inject_Z (todo_total t)) then
        [normalize "todo_concentration" (tf_path top) "present" [tf_path top; "top_file_concentration"]
           [("current_count", JInt (tf_count top)); ("total_markers", JInt (todo_total t))] now now]
      else []
  | [] => []
  end.

Definition todo_concentration (snapshots : list RepoStateSnapshot) : list DatedInsight :=
  match snapshots with
  | [] => []
  | current :: rest =>
      let t := sg_todo_signal (sn_signals current) in
      let now := sn_observed_at current in
      (if (0 <? td_fixme_count t)%Z then
         [normalize "todo_concentration" "fixme" "present" ["fixme"; "present"]
            [("fixme_count", JInt (td_fixme_count t))] now now]
       else []) ++
      top_file_concentration now t ++
      match rest with
      | [] => []
      | previous :: _ =>
          let previous_total := todo_total (sg_todo_signal (sn_signals previous)) in
          if (previous_total =? todo_total t)%Z then []
          else [normalize "todo_concentration" "todo_fixme_total" "present" ["todo_fixme_total"; "count_changed"]
                  [("current_total", JInt (todo_total t)); ("previous_total", JInt previous_total)]
                  (sn_observed_at previous) now]
      end
  end.

(** ** observation_coverage.py *)

(** The signals a snapshot could not observe. *)
Definition unavailable_signals (s : RepoStateSnapshot) : gset string :=
  dom (sn_collector_errors s) ∪
  (if String.eqb (test_status s) "unknown" then {["test_signal"]} else ∅) ∪
  (if String.eqb (drift_status s) "not_available" then {["dependency_drift"]} else ∅).

Definition missing_signal (signal : string) (s : RepoStateSnapshot) : bool :=
  bool_decide (signal ∈ unavailable_signals s).

Definition coverage_insight (snapshots : list RepoStateSnapshot) (current : RepoStateSnapshot) (signal : string)
    : DatedInsight :=
  let matching := streak (missing_signal signal) snapshots in
  let consecutive := Z.of_nat (length matching) in
  let at_ s := if String.eqb signal "test_signal" then seen_at (ts_observed_at (sg_test_signal (sn_signals s))) s
               else sn_observed_at s in
  normalize "observation_coverage" signal "present"
    [signal; if (2 <=? consecutive)%Z then "persistent_unavailable" else "unavailable"]
    [("signal", JStr signal); ("consecutive_snapshots", JInt consecutive)]
    (at_ (oldest matching current)) (at_ (newest matching current)).

Definition observation_coverage (snapshots : list RepoStateSnapshot) : list DatedInsight :=
  match snapshots with
  | [] => []
  | current :: _ =>
      map (coverage_insight snapshots current)
        (sorted_by str_leb (elements (unavailable_signals current)))
  end.

(** ** execution_health.py *)

Definition MIN_RUNS_FOR_RATE : Z := 5.
Definition HIGH_NO_OP_RATE_THRESHOLD : Q := 1 # 2.

(** [a / b] of integers, [b > 0]. *)
Definition ratio (a b : Z) : Q := (inject_Z a / inject_Z b)%Q.

Definition health_insight (repo pattern : string) (now : datetime) (evidence : list (string * jval))
    : DatedInsight :=
  normalize "execution_health" repo "present" [repo; pattern] evidence now now.

Definition execution_health (validation_failure_threshold unknown_failure_threshold : Z)
    (snapshots : list RepoStateSnapshot) : list DatedInsight :=
  match snapshots with
  | [] => []
  | current :: _ =>
      let sig := sg_execution_health (sn_signals current) in
      let repo := rc_name (sn_repo current) in
      let now := sn_observed_at current in
      let total := eh_total_runs sig in
      let unknown_error_total := (eh_unknown_count sig + eh_error_count sig)%Z in
      (if (MIN_RUNS_FOR_RATE <=? total)%Z && Qle_b HIGH_NO_OP_RATE_THRESHOLD (ratio (eh_no_op_count sig) total) then
         [health_insight repo "high_no_op_rate" now
            [("repo", JStr repo); ("total_runs", JInt total); ("no_op_count", JInt (eh_no_op_count sig));
             ("no_op_rate", JFloat (py_round 2 (ratio (eh_no_op_count sig) total)));
             ("pattern", JStr "high_no_op_rate")]]
       else []) ++
      (if (unknown_failure_threshold <=? unknown_error_total)%Z then
         [health_insight repo "repeated_unknown_failures" now
            [("repo", JStr repo); ("total_runs", JInt total); ("unknown_count", JInt (eh_unknown_count sig));
             ("error_count", JInt (eh_error_count sig)); ("unknown_error_total", JInt unknown_error_total);
             ("pattern", JStr "repeated_unknown_failures")]]
       else []) ++
      (if (validation_failure_threshold <=? eh_validation_failed_count sig)%Z then
         [health_insight repo "persistent_validation_failures" now
            [("repo", JStr repo); ("total_runs", JInt total); ("executed_count", JInt (eh_executed_count sig));
             ("validation_failed_count", JInt (eh_validation_failed_count sig));
             ("pattern", JStr "persistent_validation_failures")]]
       else [])
  end.

(** ** backlog_promotion.py *)

Definition backlog_evidence (repo : string) (item : BacklogItem) : list (string * jval) :=
  [("repo", JStr repo); ("title", JStr (bi_title item)); ("item_type", JStr (bi_item_type item));
   ("description", JStr (bi_description item))].

Definition backlog_promotion (snapshots : list RepoStateSnapshot) : list DatedInsight :=
  match snapshots with
  | [] => []
  | current :: _ =>
      let repo := rc_name (sn_repo current) in
      map (fun item => normalize "backlog_item" (bi_title item) "pending" [repo; slug (bi_title item)]
                         (backlog_evidence repo item) (sn_observed_at current) (sn_observed_at current))
        (promotable_items (sg_backlog (sn_signals current)))
  end.

(** ** arch_scheduler.py *)

Definition MIN_RUNS : Z := 10.
Definition MAX_NO_OP_RATE : Q := 30 # 100.
Definition MAX_VALIDATION_FAILURES : Z := 0.
Definition ARCH_TYPES : list string := ["arch"; "redesign"].
Definition REQUIRED_STABLE_FAMILIES : gset string :=
  list_to_set ["observation_coverage"; "test_visibility"; "dependency_drift"].

Section ArchScheduler.
(** The required families in the order the frozenset iterates, and the recent
    tuning runs, newest first. *)
Context (required : list string) (tuning_runs : list (option TuningRunArtifact)).

(** [{r.family: r.action for r in recommendations}]: the last one counts. *)
Definition actions_by_family (recommendations : list TuningRecommendation) : gmap string string :=
  fold_left (fun m r => <[tr_family r := tr_action r]> m) recommendations ∅.

Definition unstable_family (by_family : gmap string string) (family : string) : list string :=
  match by_family !! family with
  | None => [family +:+ ": no recommendation in latest tuning run"]
  | Some action =>
      if String.eqb action "keep" then []
      else [family +:+ ": recommendation is '" +:+ action +:+ "', need 'keep'"]
  end.

Definition check_tuning_stability : list string :=
  match load_recent tuning_runs 1 with
  | [] => ["no tune-autonomy run on record — run tune-autonomy first"]
  | latest :: _ =>
      let unstable := concat (map (unstable_family (actions_by_family (ta_recommendations latest))) required) in
      if list_truthy unstable then ["tuning not stable: " +:+ join "; " unstable] else []
  end.

(** The reasons of [_health_check]; blocked when there are any. *)
Definition health_check (s : RepoStateSnapshot) : list string :=
  let sig := sg_execution_health (sn_signals s) in
  let total := eh_total_runs sig in
  (if (total <? MIN_RUNS)%Z then
     ["insufficient execution history: " +:+ str_of_Z total +:+ " runs, need " +:+ str_of_Z MIN_RUNS] else []) ++
  (if (0 <? total)%Z && Qle_b MAX_NO_OP_RATE (ratio (eh_no_op_count sig) total) then
     ["no-op rate too high: " +:+ pct (ratio (eh_no_op_count sig) total) +:+ " (threshold " +:+
      pct MAX_NO_OP_RATE +:+ ")"] else []) ++
  (if (MAX_VALIDATION_FAILURES <? eh_validation_failed_count sig)%Z then
     ["validation failures present: " +:+ str_of_Z (eh_validation_failed_count sig) +:+ " recent failures"]
   else []) ++
  check_tuning_stability.

Definition arch_items (s : RepoStateSnapshot) : list BacklogItem :=
  List.filter (fun item => str_in (bi_item_type item) ARCH_TYPES) (sg_backlog (sn_signals s)).

Definition arch_scheduler (snapshots : list RepoStateSnapshot) : list DatedInsight :=
  match snapshots with
  | [] => []
  | current :: _ =>
      let repo := rc_name (sn_repo current) in
      let now := sn_observed_at current in
      let items := arch_items current in
      if negb (list_truthy items) then []
      else
        let reasons := health_check current in
        if list_truthy reasons then
          [normalize "arch_schedule_blocked" repo "blocked" [repo; "arch_schedule_blocked"]
             [("repo", JStr repo); ("reasons", JList (map JStr reasons));
              ("pending_items", JList (map (fun i => JStr (bi_title i)) items))] now now]
        else
          map (fun item => normalize "arch_backlog_item" (bi_title item) "ready" [repo; slug (bi_title item)]
                             (backlog_evidence repo item) now now) items
  end.
End ArchScheduler.
