(* ===== verification/DeriversQuality.v ===== *)
(** * The derivers of code quality

    insights/derivers/{lint_drift,type_health,ci_pattern,validation_pattern,
    architecture_drift,benchmark_regression,security_vuln,coverage_gap,
    cross_signal,quality_trend,theme_aggregation}.py: what the diagnostics, the
    checks and the measurements of the snapshots say.  The order of the worker
    roles in the evidence is the order of a set, a parameter. *)
From S2P Require Import Prelude PyStr PyData Decision DecisionRules ObserverModels Tuning Insights Derivers.

Definition texts (l : list string) : jval := JList (map JStr l).

(** [l[:5]] of the distinct codes, in the order they are met. *)
Fixpoint distinct_codes (skip_empty : bool) (room : nat) (seen : list string) (l : list string) : list string :=
  match room, l with
  | 0, _ | _, [] => []
  | S room', c :: rest =>
      if str_in c seen || (skip_empty && negb (str_truthy c)) then distinct_codes skip_empty room seen rest
      else c :: distinct_codes skip_empty room' (c :: seen) rest
  end.

(** [len({d.path for d in top})]. *)
Definition distinct_paths (s : DiagnosticSignal) : list string := remove_dups (map dg_path (ds_top s)).

(** [s.distinct_file_count or len(paths)]. *)
Definition file_count (s : DiagnosticSignal) : Z :=
  if (ds_distinct_file_count s =? 0)%Z then Z.of_nat (length (distinct_paths s)) else ds_distinct_file_count s.

(** ** lint_drift.py and type_health.py

    The two derivers are the same function of their signal, up to names. *)
Section Diagnostics.
Context (kind subject bad count_key default_source : string) (skip_empty : bool)
        (signal_of : RepoStateSnapshot -> DiagnosticSignal).

Definition diag_insight (status : string) (evidence : list (string * jval)) (first last : datetime)
    : DatedInsight :=
  normalize kind subject status [subject; status] evidence first last.

Definition diag_present (current : RepoStateSnapshot) (now : DiagnosticSignal) : list DatedInsight :=
  if String.eqb (ds_status now) bad && (0 <? ds_count now)%Z then
    [diag_insight "present"
       [(count_key, JInt (ds_count now)); ("distinct_file_count", JInt (file_count now));
        ("top_codes", texts (distinct_codes skip_empty 5 [] (map dg_code (ds_top now))));
        ("source", JStr (str_or (ds_source now) default_source))]
       (sn_observed_at current) (sn_observed_at current)]
  else [].

Definition diag_trend (current previous : RepoStateSnapshot) (now before : DiagnosticSignal) : list DatedInsight :=
  let moved status delta :=
    [diag_insight status
       [("current_count", JInt (ds_count now)); ("previous_count", JInt (ds_count before)); ("delta", JInt delta);
        ("distinct_file_count", JInt (file_count now))] (sn_observed_at previous) (sn_observed_at current)] in
  if negb (String.eqb (ds_status before) "unavailable") && String.eqb (ds_status now) (ds_status before) then
    if (ds_count before <? ds_count now)%Z then moved "worsened" (ds_count now - ds_count before)%Z
    else if (ds_count now <? ds_count before)%Z then moved "improved" (ds_count before - ds_count now)%Z
    else []
  else [].

Definition diag_turn (current previous : RepoStateSnapshot) (now before : DiagnosticSignal) : list DatedInsight :=
  let turned status files :=
    [diag_insight status
       [("current_count", JInt (ds_count now)); ("previous_count", JInt (ds_count before));
        ("distinct_file_count", JInt files)] (sn_observed_at previous) (sn_observed_at current)] in
  if String.eqb (ds_status now) bad && String.eqb (ds_status before) "clean" then turned "regressed" (file_count now)
  else if String.eqb (ds_status now) "clean" && String.eqb (ds_status before) bad
  then turned "resolved" (file_count before)
  else [].

Definition diagnostics (snapshots : list RepoStateSnapshot) : list DatedInsight :=
  match snapshots with
  | [] => []
  | current :: rest =>
      let now := signal_of current in
      if String.eqb (ds_status now) "unavailable" then []
      else
        diag_present current now ++
        match rest with
        | [] => []
        | previous :: _ =>
            diag_trend current previous now (signal_of previous) ++
            diag_turn current previous now (signal_of previous)
        end
  end.
End Diagnostics.

Definition lint_of (s : RepoStateSnapshot) : DiagnosticSignal := sg_lint_signal (sn_signals s).
Definition type_of (s : RepoStateSnapshot) : DiagnosticSignal := sg_type_signal (sn_signals s).

Definition lint_drift : list RepoStateSnapshot -> list DatedInsight :=
  diagnostics "lint_drift" "lint_violations" "violations" "violation_count" "ruff" false lint_of.

Definition type_health : list RepoStateSnapshot -> list DatedInsight :=
  diagnostics "type_health" "type_errors" "errors" "error_count" "unknown" true type_of.

(** ** ci_pattern.py *)

Definition ci_insight (status key : string) (checks : list string) (ci : CIHistorySignal) (now : datetime)
    : list DatedInsight :=
  if list_truthy checks then
    [normalize "ci_pattern" "ci_checks" status ["ci_checks"; status]
       [(key, texts checks); ("failure_rate", JFloat (ci_failure_rate ci));
        ("runs_checked", JInt (ci_runs_checked ci)); ("source", JStr (str_or (ci_source ci) "github_checks"))]
       now now]
  else [].

Definition ci_pattern (snapshots : list RepoStateSnapshot) : list DatedInsight :=
  match snapshots with
  | [] => []
  | current :: _ =>
      let ci := sg_ci_history (sn_signals current) in
      let now := sn_observed_at current in
      if String.eqb (ci_status ci) "unavailable" then []
      else ci_insight "failing" "failing_checks" (ci_failing_checks ci) ci now ++
           ci_insight "flaky" "flaky_checks" (ci_flaky_checks ci) ci now
  end.

(** ** validation_pattern.py *)

Definition validation_pattern (set_list : gset string -> list string) (snapshots : list RepoStateSnapshot)
    : list DatedInsight :=
  match snapshots with
  | [] => []
  | current :: _ =>
      let v := sg_validation_history (sn_signals current) in
      let now := sn_observed_at current in
      match vh_tasks_with_repeated_failures v with
      | worst :: _ =>
          let top := take 3 (vh_tasks_with_repeated_failures v) in
          if String.eqb (vh_status v) "patterns_detected" then
            [normalize "validation_pattern" "execution_tasks" "repeated_failures"
               ["execution_tasks"; "repeated_failures"]
               [("tasks_with_repeated_failures", JInt (Z.of_nat (length (vh_tasks_with_repeated_failures v))));
                ("top_task_ids", texts (map vf_task_id top));
                ("top_worker_roles", texts (set_list (list_to_set (map vf_worker_role top))));
                ("worst_task_id", JStr (vf_task_id worst));
                ("worst_task_failure_count", JInt (vf_validation_failure_count worst));
                ("worst_task_total_runs", JInt (vf_total_runs worst));
                ("overall_failure_rate", JFloat (vh_overall_failure_rate v));
                ("tasks_analyzed", JInt (vh_tasks_analyzed v))] now now]
          else []
      | [] => []
      end
  end.

(** ** architecture_drift.py, benchmark_regression.py and security_vuln.py *)

Definition architecture_drift (snapshots : list RepoStateSnapshot) : list DatedInsight :=
  match snapshots with
  | [] => []
  | current :: _ =>
      let a := sg_architecture_signal (sn_signals current) in
      let at_ := seen_at (ar_observed_at a) current in
      let summary := JStr (str_or (ar_summary a) "") in
      if String.eqb (ar_status a) "unavailable" then []
      else
        match ar_coupling_score a with
        | Some score =>
            if Qle_b (7 # 10) score then
              [normalize "arch_drift" "coupling" "high" ["coupling_high"]
                 [("coupling_score", JFloat score);
                  ("circular_dependencies", texts (ar_circular_dependencies a)); ("summary", summary)] at_ at_]
            else []
        | None => []
        end ++
        match ar_max_import_depth a with
        | Some depth =>
            if (6 <=? depth)%Z then
              [normalize "arch_drift" "module_depth" "bloated" ["module_bloat"]
                 [("max_import_depth", JInt depth); ("summary", summary)] at_ at_]
            else []
        | None => []
        end
  end.

Definition benchmark_regression (snapshots : list RepoStateSnapshot) : list DatedInsight :=
  match snapshots with
  | [] => []
  | current :: _ =>
      let b := sg_benchmark_signal (sn_signals current) in
      let at_ := seen_at (bm_observed_at b) current in
      if String.eqb (bm_status b) "regression" && list_truthy (bm_regressions b) then
        [normalize "benchmark_regression" "benchmark" "regression" ["present"]
           [("benchmark_count", JInt (bm_benchmark_count b)); ("regressions", texts (bm_regressions b));
            ("summary", JStr (str_or (bm_summary b) ""))] at_ at_]
      else []
  end.

Definition security_vuln (snapshots : list RepoStateSnapshot) : list DatedInsight :=
  match snapshots with
  | [] => []
  | current :: _ =>
      let v := sg_security_signal (sn_signals current) in
      let at_ := seen_at (sv_observed_at v) current in
      if String.eqb (sv_status v) "advisories" && (0 <? sv_advisory_count v)%Z then
        [normalize "security_vuln" "security" "advisories" ["present"]
           [("advisory_count", JInt (sv_advisory_count v)); ("critical_count", JInt (sv_critical_count v));
            ("high_count", JInt (sv_high_count v)); ("summary", JStr (str_or (sv_summary v) ""))] at_ at_]
      else []
  end.

(** ** coverage_gap.py *)

Definition LOW_OVERALL_THRESHOLD : Q := 60.
Definition UNCOVERED_FILE_MIN : Z := 3.

Definition is_measured (s : RepoStateSnapshot) : bool :=
  String.eqb (cv_status (sg_coverage_signal (sn_signals s))) "measured".
Definition coverage_seen (s : RepoStateSnapshot) : datetime :=
  seen_at (cv_observed_at (sg_coverage_signal (sn_signals s))) s.

Definition coverage_gap (snapshots : list RepoStateSnapshot) : list DatedInsight :=
  match snapshots with
  | [] => []
  | latest :: _ =>
      let sig := sg_coverage_signal (sn_signals latest) in
      match cv_total_coverage_pct sig with
      | Some total =>
          if negb (is_measured latest) then []
          else
            let last := coverage_seen latest in
            let first := match find_first is_measured (rev snapshots) with
                         | Some s => coverage_seen s
                         | None => last
                         end in
            let source := opt_jstr (cv_source sig) in
            (if Qlt_b total LOW_OVERALL_THRESHOLD then
               [normalize "coverage_gap/low_overall" "coverage_gap" "present" ["low_overall"]
                  [("total_coverage_pct", JFloat total); ("threshold_pct", JFloat LOW_OVERALL_THRESHOLD);
                   ("source", source); ("summary", opt_jstr (cv_summary sig))] first last]
             else []) ++
            (if (UNCOVERED_FILE_MIN <=? cv_uncovered_file_count sig)%Z then
               [normalize "coverage_gap/uncovered_files" "coverage_gap" "present" ["uncovered_files"]
                  [("uncovered_file_count", JInt (cv_uncovered_file_count sig));
                   ("threshold_pct", JFloat (cv_uncovered_threshold_pct sig));
                   ("top_uncovered", texts (map uf_path (take 5 (cv_top_uncovered sig))));
                   ("total_coverage_pct", JFloat total); ("source", source)] first last]
             else [])
      | None => []
      end
  end.

(** ** cross_signal.py *)

Definition hotspot_paths (s : RepoStateSnapshot) : gset string :=
  list_to_set (map fh_path (sg_file_hotspots (sn_signals s))).

Definition overlap_insight (subject bad sampled_key : string) (signal : DiagnosticSignal)
    (current : RepoStateSnapshot) : list DatedInsight :=
  let paths : gset string := list_to_set (map dg_path (ds_top signal)) in
  let overlap := sorted_by str_leb (elements (paths ∩ hotspot_paths current)) in
  if String.eqb (ds_status signal) bad && list_truthy (ds_top signal) && list_truthy overlap then
    [normalize "cross_signal" subject "present" [subject]
       [("overlap_files", texts overlap); ("overlap_count", JInt (Z.of_nat (length overlap)));
        ("overlap_ratio", JFloat (py_round 2 (ratio (Z.of_nat (length overlap)) (Z.of_nat (size paths)))));
        (sampled_key, JInt (Z.of_nat (size paths)));
        ("hotspot_count", JInt (Z.of_nat (size (hotspot_paths current))))]
       (sn_observed_at current) (sn_observed_at current)]
  else [].

Definition cross_signal (snapshots : list RepoStateSnapshot) : list DatedInsight :=
  match snapshots with
  | [] => []
  | current :: _ =>
      if bool_decide (hotspot_paths current = ∅) then []
      else
        overlap_insight "lint_hotspot_overlap" "violations" "sampled_lint_file_count" (lint_of current) current ++
        overlap_insight "type_hotspot_overlap" "errors" "sampled_type_file_count" (type_of current) current
  end.

(** ** quality_trend.py *)

Definition MIN_SNAPSHOTS : Z := 3.

(** [_trend] of the counts, oldest first. *)
Definition trend (counts : list Z) : option string :=
  match counts with
  | [] => None
  | first :: _ =>
      if (Z.of_nat (length counts) <? MIN_SNAPSHOTS)%Z then None
      else
        let delta := (default first (last counts) - first)%Z in
        if (first =? 0)%Z then (if (0 <? delta)%Z then Some "degrading" else None)
        else if Qle_b (ratio delta first) (-10 # 100) then Some "improving"
        else if Qle_b (10 # 100) (ratio delta first) then Some "degrading"
        else None
  end.

(** The counts of the snapshots whose signal has a status of the list, oldest
    first. *)
Definition counts_of (signal_of : RepoStateSnapshot -> DiagnosticSignal) (statuses : list string)
    (snapshots : list RepoStateSnapshot) : list Z :=
  map (fun s => ds_count (signal_of s))
    (List.filter (fun s => str_in (ds_status (signal_of s)) statuses) (rev snapshots)).

Definition first_count (counts : list Z) : Z := default 0%Z (head counts).
Definition last_count (counts : list Z) : Z := default 0%Z (last counts).

Definition trend_insight (metric : string) (counts : list Z) (first last : datetime) : list DatedInsight :=
  match trend counts with
  | Some t =>
      [normalize ("quality_trend/" +:+ metric +:+ "_" +:+ t) "quality_trend" "present" [metric; t]
         [("start_count", JInt (first_count counts)); ("end_count", JInt (last_count counts));
          ("snapshots", JInt (Z.of_nat (length counts)))] first last]
  | None => []
  end.

Definition quality_trend (snapshots : list RepoStateSnapshot) : list DatedInsight :=
  match snapshots with
  | [] => []
  | current :: _ =>
      if (Z.of_nat (length snapshots) <? MIN_SNAPSHOTS)%Z then []
      else
        let lint := counts_of lint_of ["clean"; "violations"] snapshots in
        let types := counts_of type_of ["clean"; "errors"] snapshots in
        let todos := map (fun s => td_todo_count (sg_todo_signal (sn_signals s))) (rev snapshots) in
        let first := sn_observed_at (oldest snapshots current) in
        let now := sn_observed_at current in
        let trends := trend_insight "lint" lint first now ++ trend_insight "type" types first now in
        let delta counts := JInt (last_count counts - first_count counts) in
        if negb (list_truthy trends) && (MIN_SNAPSHOTS <=? Z.of_nat (length lint))%Z &&
           (MIN_SNAPSHOTS <=? Z.of_nat (length types))%Z
        then [normalize "quality_trend/stagnant" "quality_trend" "present" ["stagnant"]
                [("lint_delta", delta lint); ("type_delta", delta types); ("todo_delta", delta todos);
                 ("snapshots_analyzed", JInt (Z.of_nat (length snapshots)))] first now]
        else trends
  end.

(** ** theme_aggregation.py *)

Record ThemeLimits := { th_min_snapshots : Z; th_min_appearances : Z; th_max_clusters : Z }.
Definition theme_defaults : ThemeLimits :=
  {| th_min_snapshots := 3; th_min_appearances := 3; th_max_clusters := 3 |}.

(** The files of one snapshot's diagnostics, each once, in the order met. *)
Fixpoint first_occurrences (seen : list string) (l : list string) : list string :=
  match l with
  | [] => []
  | x :: rest => if str_in x seen then first_occurrences seen rest else x :: first_occurrences (x :: seen) rest
  end.

Definition snapshot_files (signal_of : RepoStateSnapshot -> DiagnosticSignal) (bad : string)
    (s : RepoStateSnapshot) : list string :=
  if String.eqb (ds_status (signal_of s)) bad
  then first_occurrences [] (List.filter str_truthy (map dg_path (ds_top (signal_of s)))) else [].

(** How many snapshots each file appears in, in the order files are first met. *)
Definition appearances (signal_of : RepoStateSnapshot -> DiagnosticSignal) (bad : string)
    (snapshots : list RepoStateSnapshot) : list (string * Z) :=
  fold_left (fun counter s => fold_left tick (snapshot_files signal_of bad s) counter) snapshots [].

(** [for fpath, count in counter.most_common()]: until the count is too small or
    enough was emitted. *)
Fixpoint clusters (min_appearances : Z) (room : nat) (l : list (string * Z)) : list (string * Z) :=
  match l with
  | (path, count) :: rest =>
      if (count <? min_appearances)%Z then []
      else match room with 0 => [] | S room' => (path, count) :: clusters min_appearances room' rest end
  | [] => []
  end.

Definition path_key (path : string) : string := replace "." "_" (replace "/" "_" path).

Definition cluster_insights (limits : ThemeLimits) (theme : string) (counter : list (string * Z))
    (snapshots : list RepoStateSnapshot) (first last : datetime) : list DatedInsight :=
  map (fun pc => normalize ("theme/" +:+ theme) "theme" "present" [theme; path_key (fst pc)]
                   [("file", JStr (fst pc)); ("snapshot_appearances", JInt (snd pc));
                    ("snapshots_analyzed", JInt (Z.of_nat (length snapshots))); ("theme_type", JStr theme)]
                   first last)
    (clusters (th_min_appearances limits) (Z.to_nat (th_max_clusters limits)) (most_common counter)).

Definition theme_aggregation (limits : ThemeLimits) (snapshots : list RepoStateSnapshot) : list DatedInsight :=
  match snapshots with
  | [] => []
  | current :: _ =>
      if (Z.of_nat (length snapshots) <? th_min_snapshots limits)%Z then []
      else
        let first := sn_observed_at (oldest snapshots current) in
        let now := sn_observed_at current in
        cluster_insights limits "lint_cluster" (appearances lint_of "violations" snapshots) snapshots first now ++
        cluster_insights limits "type_cluster" (appearances type_of "errors" snapshots) snapshots first now
  end.
