(* ===== verification/DeriversStored.v ===== *)
(** * The derivers that read stored artifacts, and the services

    insights/derivers/{execution_outcome,noop_loop,proposal_outcome,
    cross_repo_synthesis}.py read files that other parts write: transcripts of
    executions, proposer results, feedback and earlier insights.  Files arrive
    as JSON, and what a malformed one does is written out.  The last section has
    the two lists of derivers that entrypoints/insights/main.py and
    entrypoints/autonomy_cycle/main.py build, and a history of snapshots on
    which they are run. *)
From S2P Require Import Prelude PyStr PyData Decision DecisionRules ObserverModels Tuning Insights Derivers DeriversQuality.

(** [v.get(k, d)] of any value: only a dict has [get]. *)
Definition vget (v : jval) (k : string) (d : jval) : res jval :=
  data <-? as_dict v ;; Ok (get_or data k d).

(** ** execution_outcome.py *)

Definition ARTIFACT_SCAN_LIMIT : Z := 50.
Definition TIMEOUT_TOKENS : list string := ["timed out"; "timeout"; "deadline exceeded"; "operation timed out"].
Definition TEST_REGRESSION_TOKENS : list string :=
  ["test failed"; "assertion error"; "assertionerror"; "failed test"].
Definition VALIDATION_LOOP_MIN_REPEATS : Z := 3.

(** A text file: absent, not readable, or its text. *)
Inductive text_file := NoText | Unreadable | Text (s : string).

Record run_dir := {
  rd_outcome : json_file;        (* control_outcome.json *)
  rd_request : json_file;        (* request.json *)
  rd_texts : list text_file }.   (* stderr.txt, stdout.txt, backend_stderr.log *)

(** The first of the files that exists, in lower case. *)
Fixpoint run_text (files : list text_file) : string :=
  match files with
  | [] => ""
  | NoText :: rest => run_text rest
  | Unreadable :: _ => ""
  | Text s :: _ => lower s
  end.

Definition mentions (tokens : list string) (text : string) : bool := existsb (contains text) tokens.

Record outcome_counts := {
  oc_timeouts : Z;
  oc_regressions : Z;
  oc_failures : list (string * Z) }.   (* validation failures by task *)

(** [s.lower()] of a JSON value. *)
Definition jlower (v : jval) : res string :=
  match v with
  | JStr s => Ok (lower s)
  | JTime t => Ok (lower (isoformat t))
  | _ => Raise (OtherError "object has no attribute 'lower'")
  end.

(** [v in (...)] for texts. *)
Definition jone_of (v : jval) (l : list string) : bool := existsb (jeq_str v) l.

(** What one transcript adds once it belongs to the repository. *)
Definition count_run (texts_of_run : list text_file) (outcome task : dict) (c : outcome_counts) : outcome_counts :=
  let stderr := run_text texts_of_run in
  let blocked := get_or outcome "blocked_classification" (JStr "") in
  let timed_out := jeq_str blocked "timeout" || mentions TIMEOUT_TOKENS stderr in
  let failed := jeq_str blocked "validation_failure" in
  let task_id := jtext (get_or task "task_id" (JStr "")) in
  {| oc_timeouts := oc_timeouts c + (if timed_out then 1 else 0);
     oc_regressions := oc_regressions c + (if failed && mentions TEST_REGRESSION_TOKENS stderr then 1 else 0);
     oc_failures := if failed && str_truthy task_id then tick (oc_failures c) task_id else oc_failures c |}.

Definition scan_run (repo_name : string) (c : outcome_counts) (d : run_dir) : res outcome_counts :=
  match rd_outcome d, rd_request d with
  | FileHolds outcome, FileHolds request =>
      task <-? vget request "task" (JObj []) ;;
      key <-? vget task "repo_key" (JStr "") ;;
      key <-? jlower key ;;
      if negb (String.eqb key (lower repo_name)) then Ok c
      else
        status <-? vget outcome "outcome_status" JNull ;;
        if negb (jone_of status ["blocked"; "error"]) then Ok c
        else
          outcome <-? as_dict outcome ;;
          task <-? as_dict task ;;
          Ok (count_run (rd_texts d) outcome task c)
  | _, _ => Ok c
  end.

(** [run_dirs]: the run directories by descending name. *)
Definition execution_outcome (run_dirs : list run_dir) (snapshots : list RepoStateSnapshot)
    : res (list DatedInsight) :=
  match snapshots with
  | [] => Ok []
  | current :: _ =>
      let first := sn_observed_at (oldest snapshots current) in
      let now := sn_observed_at current in
      c <-? foldM (scan_run (rc_name (sn_repo current)))
             {| oc_timeouts := 0; oc_regressions := 0; oc_failures := [] |}
             (slice_to ARTIFACT_SCAN_LIMIT run_dirs) ;;
      let looping := map fst (List.filter (fun tc => (VALIDATION_LOOP_MIN_REPEATS <=? snd tc)%Z) (oc_failures c)) in
      let report name evidence :=
        normalize ("execution_outcome/" +:+ name) "execution_outcome" "present" [name] evidence first now in
      Ok ((if (2 <=? oc_timeouts c)%Z then
             [report "timeout_pattern" [("timeout_count", JInt (oc_timeouts c));
                                        ("window", JInt ARTIFACT_SCAN_LIMIT)]] else []) ++
          (if (2 <=? oc_regressions c)%Z then
             [report "test_regression" [("test_regression_count", JInt (oc_regressions c))]] else []) ++
          (if list_truthy looping then
             [report "validation_loop" [("looping_task_count", JInt (Z.of_nat (length looping)));
                                        ("task_ids", texts (take 5 looping))]] else []))
  end.

(** ** noop_loop.py *)

(** A loop that an exception leaves with what it has counted so far. *)
Fixpoint count_until {A} (f : list (string * Z) -> A -> res (list (string * Z))) (counter : list (string * Z))
    (l : list A) : list (string * Z) :=
  match l with
  | [] => counter
  | x :: rest => match f counter x with Ok c => count_until f c rest | Raise _ => counter end
  end.

(** [x or y] on JSON values. *)
Definition jor (x y : jval) : jval := if jtruthy x then x else y.

(** Whether a record is within the window; a time that does not parse raises. *)
Definition within (cutoff : datetime) (written : jval) : res bool :=
  if negb (jtruthy written) then Ok true
  else
    match fromisoformat_str written with
    | None => Raise (ValueError "Invalid isoformat string")
    | Some t => old <-? dt_lt (assume_utc t) cutoff ;; Ok (negb old)
    end.

(** The family of a record that names one; one that is no text is counted under
    its text. *)
Definition tick_family (counter : list (string * Z)) (v : jval) : res (list (string * Z)) :=
  source <-? vget v "source_family" JNull ;;
  family <-? vget v "family" JNull ;;
  let fam := jor source (jor family (JStr "")) in
  match fam with
  | JList _ | JObj _ => if jtruthy fam then Raise (TypeError "unhashable type") else Ok counter
  | _ => Ok (if jtruthy fam then tick counter (jtext fam) else counter)
  end.

Definition count_proposals (cutoff : datetime) (counter : list (string * Z)) (v : jval) : list (string * Z) :=
  match (generated <-? vget v "generated_at" JNull ;; written <-? vget v "written_at" JNull ;;
         fresh <-? within cutoff (jor generated (jor written (JStr ""))) ;;
         if fresh : bool then tasks <-? vget v "created_tasks" (JList []) ;; jiter tasks else Ok []) with
  | Ok tasks => count_until tick_family counter tasks
  | Raise _ => counter
  end.

Definition count_merges (cutoff : datetime) (counter : list (string * Z)) (v : jval) : list (string * Z) :=
  match (recorded <-? vget v "recorded_at" JNull ;;
         fresh <-? within cutoff (jor recorded (JStr "")) ;;
         outcome <-? vget v "outcome" JNull ;;
         Ok (fresh && jeq_str outcome "merged")) with
  | Ok true => count_until tick_family counter [v]
  | _ => counter
  end.

Definition LOOK_BACK_DAYS : Z := 30.
Definition MIN_PROPOSALS_TO_FLAG : Z := 3.

(** [root.glob(pattern)] of the entries of a directory. *)
Definition glob (pattern : string) (entries : list (string * json_file)) : list jval :=
  readable (map snd (List.filter (fun e => fnmatch (fst e) pattern) entries)).

(** [proposer], [feedback]: the entries of the two directories, the first by
    name. *)
Definition noop_loop (proposer feedback : list (string * json_file)) (now : datetime)
    (snapshots : list RepoStateSnapshot) : list DatedInsight :=
  match snapshots with
  | [] => []
  | current :: _ =>
      let cutoff := sub_us now (days LOOK_BACK_DAYS) in
      let proposals := fold_left (count_proposals cutoff) (glob "proposer_result_*.json" proposer) [] in
      let merges := fold_left (count_merges cutoff) (glob "*.json" feedback) [] in
      map (fun fc => normalize "noop_loop/family_cycling" "noop_loop" "present" ["family_cycling"; fst fc]
                       [("family", JStr (fst fc)); ("proposals_in_window", JInt (snd fc));
                        ("merges_in_window", JInt (default 0%Z (od_get (fst fc) merges)));
                        ("look_back_days", JInt LOOK_BACK_DAYS)] (sn_observed_at current) (sn_observed_at current))
        (List.filter (fun fc => negb (snd fc <? MIN_PROPOSALS_TO_FLAG)%Z &&
                                negb (0 <? default 0 (od_get (fst fc) merges))%Z) proposals)
  end.

(** ** proposal_outcome.py *)

Definition WINDOW_RECORDS : nat := 20.
Definition MIN_RECORDS_FOR_INSIGHT : Z := 5.
Definition ESCALATION_RATE_THRESHOLD : Q := 4 # 10.

(** [_build_family_map]: the created tasks of the results that validate, in the
    order the file system lists them. *)
Definition family_map (results : list (list (option string * string))) : gmap string string :=
  fold_left (fun m item => match fst item with
                           | Some id => if str_truthy id then <[id := snd item]> m else m
                           | None => m
                           end) (concat results) ∅.

(** Only values that can be keys of a dict. *)
Definition hashable (v : jval) : res unit :=
  match v with JList _ | JObj _ => Raise (TypeError "unhashable type") | _ => Ok tt end.

(** The outcomes of the feedback, by family in the order families are met. *)
Definition feedback_by_family (families : gmap string string) (records : list jval)
    : res (list (string * list jval)) :=
  foldM (fun acc record =>
    task_id <-? vget record "task_id" (JStr "") ;;
    _ <-? hashable task_id ;;
    outcome <-? vget record "outcome" (JStr "unknown") ;;
    let family := match task_id with JStr s => default "" (families !! s) | _ => "" end in
    Ok (if str_truthy family then od_set family (default [] (od_get family acc) ++ [outcome]) acc else acc))
    [] records.

Definition outcome_insight (now : datetime) (family : string) (outcomes : list jval) : res (list DatedInsight) :=
  let recent := last_n WINDOW_RECORDS outcomes in
  let total := Z.of_nat (length recent) in
  if (total <? MIN_RECORDS_FOR_INSIGHT)%Z then Ok []
  else
    _ <-? foldM (fun _ o => hashable o) tt recent ;;
    let escalated := count_if (fun o => jeq_str o "escalated") recent in
    let merged := count_if (fun o => jeq_str o "merged") recent in
    Ok (if Qle_b ESCALATION_RATE_THRESHOLD (ratio escalated total) then
          [normalize "proposal_outcome" family "high_escalation_rate" [family; "high_escalation_rate"]
             [("family", JStr family); ("total_records", JInt total); ("escalated", JInt escalated);
              ("merged", JInt merged); ("escalation_rate", JFloat (py_round 2 (ratio escalated total)))] now now]
        else []).

(** [feedback]: the readable records by path; [wall]: the clock. *)
Definition proposal_outcome (feedback : list json_file) (results : list (list (option string * string)))
    (wall : datetime) (snapshots : list RepoStateSnapshot) : res (list DatedInsight) :=
  let records := readable feedback in
  let families := family_map results in
  if negb (list_truthy records) || bool_decide (families = ∅) then Ok []
  else
    by_family <-? feedback_by_family families records ;;
    let now := match snapshots with current :: _ => sn_observed_at current | [] => wall end in
    foldM (fun acc fo => here <-? outcome_insight now (fst fo) (snd fo) ;; Ok (acc ++ here)) [] by_family.

(** ** cross_repo_synthesis.py *)

Definition MIN_REPOS_FOR_PATTERN : Z := 2.

(** [str(v or "")]. *)
Definition text_or (v : jval) (other : string) : string := if jtruthy v then jtext v else other.

(** One run directory: its name and its repo_insights.json. *)
Definition newest_per_repo (latest : gmap string dict) (entry : string * json_file) : res (gmap string dict) :=
  match snd entry with
  | FileHolds v =>
      data <-? as_dict v ;;
      name <-? vget (jor (dget data "repo") (JObj [])) "name" JNull ;;
      let repo_name := text_or name (fst entry) in
      let generated_at := text_or (dget data "generated_at") "" in
      Ok match latest !! repo_name with
         | None => <[repo_name := data]> latest
         | Some existing =>
             if str_leb generated_at (text_or (dget existing "generated_at") "") then latest
             else <[repo_name := data]> latest
         end
  | _ => Ok latest
  end.

Definition kinds_of (data : dict) : res (gset string) :=
  insights <-? jiter (get_or data "insights" (JList [])) ;;
  foldM (fun (kinds : gset string) i =>
    kind <-? vget i "kind" JNull ;;
    let k := text_or kind "" in
    Ok (if str_truthy k then {[k]} ∪ kinds else kinds)) ∅ insights.

(** [_read_latest_insight_kinds]: the kinds of each repository that has any. *)
Definition read_latest_insight_kinds (entries : list (string * json_file)) : res (gmap string (gset string)) :=
  latest <-? foldM newest_per_repo ∅ entries ;;
  foldM (fun m nd =>
    kinds <-? kinds_of (snd nd) ;;
    Ok (if bool_decide (kinds = ∅) then m else <[fst nd := kinds]> m)) ∅ (map_to_list latest).

Definition repos_with (repo_kinds : gmap string (gset string)) (kind : string) : list string :=
  sorted_by str_leb (map fst (List.filter (fun nk : string * gset string => bool_decide (kind ∈ snd nk)) (map_to_list repo_kinds))).

Definition shared_kind (repo_kinds : gmap string (gset string)) (now : datetime) (kind : string)
    : list DatedInsight :=
  let repos := repos_with repo_kinds kind in
  let n := Z.of_nat (length repos) in
  if (n <? MIN_REPOS_FOR_PATTERN)%Z then []
  else [normalize "cross_repo" "pattern_detected" "present" ["cross_repo"; kind]
          [("shared_insight_kind", JStr kind); ("repo_count", JInt n); ("repos", texts repos);
           ("description", JStr ("Insight kind '" +:+ kind +:+ "' detected in " +:+ str_of_Z n +:+ " repos (" +:+
              join ", " repos +:+ "). Consider an org-wide fix rather than per-repo tasks."))] now now].

(** [entries]: the run directories in the order the file system lists them. *)
Definition cross_repo_synthesis (entries : list (string * json_file)) (wall : datetime)
    (snapshots : list RepoStateSnapshot) : res (list DatedInsight) :=
  match snapshots with
  | [] => Ok []
  | _ =>
      repo_kinds <-? read_latest_insight_kinds entries ;;
      if (Z.of_nat (size repo_kinds) <? MIN_REPOS_FOR_PATTERN)%Z then Ok []
      else Ok (concat (map (shared_kind repo_kinds wall)
                 (sorted_by str_leb (elements (⋃ (map snd (map_to_list repo_kinds)))))))
  end.

(** ** The services *)

(** What the derivers read besides the snapshots. *)
Record stored_files := {
  sf_run_dirs : list run_dir;
  sf_proposer_entries : list (string * json_file);
  sf_results : list (list (option string * string));
  sf_feedback : list (string * json_file);
  sf_insight_runs : list (string * json_file);
  sf_tuning_runs : list (option TuningRunArtifact) }.

Section Services.
(** The iteration orders of sets, the clock and the files. *)
Context (required : list string) (set_list : gset string -> list string) (wall : datetime)
        (files : stored_files) (tuning : option TuningOverrides).

Definition pure (d : list RepoStateSnapshot -> list DatedInsight) : Deriver := fun s => Ok (d s).

Definition validation_threshold : Z := tuned tuning "execution_health" "validation_failure_threshold" 2.

(** The derivers both services run. *)
Definition common_derivers : list Deriver :=
  [pure dirty_tree; pure commit_activity; pure file_hotspots; pure test_continuity; pure dependency_drift;
   pure todo_concentration; pure observation_coverage; pure (execution_health validation_threshold 2)].

(** entrypoints/insights/main.py. *)
Definition insights_main_derivers : list Deriver :=
  common_derivers ++ [pure backlog_promotion; pure (arch_scheduler required (sf_tuning_runs files))].

(** [build_insight_service] of entrypoints/autonomy_cycle/main.py. *)
Definition autonomy_cycle_derivers : list Deriver :=
  common_derivers ++
  [pure lint_drift; pure type_health; pure ci_pattern; pure (validation_pattern set_list);
   proposal_outcome (map snd (sf_feedback files)) (sf_results files) wall; pure architecture_drift;
   pure benchmark_regression; pure security_vuln; pure cross_signal; execution_outcome (sf_run_dirs files);
   pure quality_trend; pure (noop_loop (sf_proposer_entries files) (sf_feedback files) wall);
   pure coverage_gap; pure (theme_aggregation theme_defaults);
   cross_repo_synthesis (sf_insight_runs files) wall].
End Services.

(** ** A history of snapshots

    A repository whose test status was never seen, with a lint problem in a hot
    file, observed three times: the sample on which the theorems about insights
    are instantiated, and short runs of the services on it. *)

Definition ins_now : datetime := mk_datetime 1778250191000000 true.
Definition hours_before (n : Z) : datetime := sub_us ins_now (hours n).

Definition sample_repo : RepoContextSnapshot :=
  {| rc_name := "repo"; rc_path := "/srv/repo"; rc_current_branch := "main"; rc_base_branch := None;
     rc_is_dirty := false |}.

Definition lint_signal (count : Z) (paths : list string) : DiagnosticSignal :=
  {| ds_status := "violations"; ds_count := count; ds_distinct_file_count := 0;
     ds_top := map (fun p => {| dg_path := p; dg_line := 1; dg_col := 1; dg_code := "E501"; dg_message := "" |}) paths;
     ds_source := None |}.

Definition health (total no_op failed : Z) : ExecutionHealthSignal :=
  {| eh_total_runs := total; eh_executed_count := total - no_op; eh_no_op_count := no_op; eh_unknown_count := 0;
     eh_error_count := 0; eh_validation_failed_count := failed; eh_recent_runs := [] |}.

Definition with_signals (test : string) (lint : DiagnosticSignal) (h : ExecutionHealthSignal)
    (backlog : list BacklogItem) : RepoSignalsSnapshot :=
  {| sg_recent_commits := []; sg_file_hotspots := [{| fh_path := "src/a.py"; fh_touch_count := 4 |}];
     sg_test_signal := check_signal test None; sg_dependency_drift := dependency_signal "available";
     sg_todo_signal := todo_default; sg_execution_health := h; sg_backlog := backlog; sg_lint_signal := lint;
     sg_type_signal := diagnostics_unavailable; sg_ci_history := ci_unavailable;
     sg_validation_history := validation_unavailable; sg_architecture_signal := architecture_unavailable;
     sg_benchmark_signal := benchmark_unavailable; sg_security_signal := security_unavailable;
     sg_coverage_signal := coverage_unavailable; sg_flaky_test_signal := flaky_unavailable |}.

Definition snapshot (id : string) (ago : Z) (signals : RepoSignalsSnapshot) : RepoStateSnapshot :=
  {| sn_run_id := id; sn_observed_at := hours_before ago; sn_observer_version := 1; sn_source_command := "observe";
     sn_repo := sample_repo; sn_signals := signals; sn_collector_errors := ∅ |}.

Definition arch_item : BacklogItem :=
  {| bi_title := "Split the coordinator"; bi_item_type := "arch"; bi_description := "" |}.

Definition unseen (count : Z) : RepoSignalsSnapshot :=
  with_signals "unknown" (lint_signal count ["src/a.py"]) (health 12 0 0) [arch_item].

Definition history : list RepoStateSnapshot :=
  [snapshot "obs_3" 1 (unseen 12); snapshot "obs_2" 25 (unseen 8); snapshot "obs_1" 49 (unseen 8)].

Definition no_stored_files : stored_files :=
  {| sf_run_dirs := []; sf_proposer_entries := []; sf_results := []; sf_feedback := []; sf_insight_runs := [];
     sf_tuning_runs := [] |}.

Definition cycle_derivers (files : stored_files) : list Deriver :=
  autonomy_cycle_derivers (fun s => elements s) ins_now files None.

Definition the_insights (r : res (list DatedInsight)) : list DatedInsight :=
  match r with Ok l => l | Raise _ => [] end.

Definition sample_insights : list DatedInsight := the_insights (derive_all (cycle_derivers no_stored_files) history).

Lemma sample_derived : derive_all (cycle_derivers no_stored_files) history = Ok sample_insights.
Proof. vm_compute. reflexivity. Qed.

Example sample_keys :
  map (fun d => in_dedup_key (di_insight d)) sample_insights =
  ["commit_activity|recent_window"; "file_hotspot|src/a.py|dominant_current"; "file_hotspot|src/a.py|repeated_presence";
   "test_status_continuity|unknown|persistent"; "dependency_drift_continuity|present|current";
   "dependency_drift_continuity|present|persistent"; "observation_coverage|test_signal|persistent_unavailable";
   "lint_drift|lint_violations|present"; "lint_drift|lint_violations|worsened"; "cross_signal|lint_hotspot_overlap";
   "quality_trend/lint_degrading|lint|degrading"; "theme/lint_cluster|lint_cluster|src_a_py"].
Proof. vm_compute. reflexivity. Qed.

(** A file that comes and goes counts as a cluster, the snapshots need not be
    consecutive. *)
Example clusters_need_no_streak :
  let files paths := snapshot "obs" 1 (with_signals "passed" (lint_signal 3 paths) (health 0 0 0) []) in
  map (fun d => in_dedup_key (di_insight d))
    (theme_aggregation theme_defaults
       [files ["a.py"]; files ["b.py"]; files ["a.py"]; files ["b.py"]; files ["a.py"]]) =
  ["theme/lint_cluster|lint_cluster|a_py"].
Proof. vm_compute. reflexivity. Qed.

(** A drop that is followed by a rise to above the start is a rise. *)
Example trends_compare_the_ends :
  trend [10; 2; 1; 11]%Z = Some "degrading" /\ trend [10; 40; 90; 9]%Z = Some "improving".
Proof. vm_compute. done. Qed.

(** Dependencies that were available, then not, then available again are
    reported as persistent. *)
Example persistent_drift_with_a_gap :
  let deps status := snapshot "obs" 1 (signals_default (check_signal "passed" None) (dependency_signal status)
                                         todo_default) in
  map (fun d => (in_dedup_key (di_insight d), in_evidence (di_insight d) !! "consecutive_snapshots"))
    (dependency_drift [deps "available"; deps "not_available"; deps "available"]) =
  [("dependency_drift_continuity|present|current", None);
   ("dependency_drift_continuity|present|persistent", Some (JInt 2));
   ("dependency_drift_continuity|available|recovery", None)].
Proof. vm_compute. reflexivity. Qed.

(** Two repositories that each stored a pattern of two repositories share a
    pattern, the pattern itself. *)
Example patterns_of_patterns :
  let run name := (name, FileHolds (JObj [("repo", JObj [("name", JStr name)]);
                     ("generated_at", JTime ins_now);
                     ("insights", JList [JObj [("kind", JStr "cross_repo")]])])) in
  match cross_repo_synthesis [run "a"; run "b"] ins_now history with
  | Ok l => map (fun d => in_dedup_key (di_insight d)) l
  | Raise _ => []
  end = ["cross_repo|cross_repo|cross_repo"].
Proof. vm_compute. reflexivity. Qed.

(** A snapshot that is asked for by its run id is compared with newer ones. *)
Example older_run_meets_newer_ones :
  match load_snapshots (Ok history) None (Some "obs_1") 5 with
  | Ok l => map sn_run_id l
  | Raise _ => []
  end = ["obs_1"; "obs_3"; "obs_2"].
Proof. vm_compute. reflexivity. Qed.
