(* ===== verification/InsightContract.v ===== *)
(** * What the decision rules make of the insights

    The derivers write evidence into dicts without types and the rules read it
    back by key.  This file states the contract between the two, the type every
    key has ([typed]), proves that every deriver keeps it, and that on typed
    insights no rule and no candidate raises. *)
From Stdlib Require Import Ascii.
From S2P Require Import Prelude PyStr PyData TextLines UsageStore UsageBudget Decision DecisionRules ObserverModels Tuning Insights Derivers DeriversQuality DeriversStored.

(** ** The types of the evidence *)

Definition int_keys : list string :=
  ["consecutive_snapshots"; "appears_in_recent_snapshots"; "current_total"; "previous_total"; "fixme_count";
   "violation_count"; "error_count"; "unknown_count"; "delta"; "current_count"; "distinct_file_count";
   "tasks_with_repeated_failures"; "worst_task_failure_count"; "worst_task_total_runs"].
Definition list_keys : list string :=
  ["top_codes"; "failing_checks"; "flaky_checks"; "top_worker_roles"; "top_uncovered"].
Definition float_keys : list string := ["no_op_rate"; "failure_rate"].

Definition type_ok (k : string) (v : jval) : bool :=
  match v with
  | JInt _ => negb (str_in k list_keys || str_in k float_keys)
  | JList _ => negb (str_in k int_keys || str_in k float_keys)
  | JFloat _ => negb (str_in k list_keys || str_in k int_keys)
  | _ => negb (str_in k list_keys || str_in k int_keys || str_in k float_keys)
  end.

(** The contract: a key of the lists holds a value of its type. *)
Definition typed (i : DerivedInsight) : Prop := map_Forall (fun k v => type_ok k v = true) (in_evidence i).

Lemma typed_normalize kind subject status key_parts ev first last :
  forallb (fun kv => type_ok (fst kv) (snd kv)) ev = true ->
  typed (di_insight (normalize kind subject status key_parts ev first last)).
Proof.
  intros H. unfold typed, normalize. cbn. induction ev as [|[k v] ev IH]; [apply map_Forall_empty|].
  cbn in H. apply andb_true_iff in H as [Hk Hev]. cbn. apply map_Forall_insert_2; [exact Hk | by apply IH].
Qed.

Lemma type_ok_int k v : str_in k int_keys = true -> type_ok k v = true -> exists n, v = JInt n.
Proof.
  unfold type_ok. intros Hk. rewrite Hk.
  destruct v as [|b|x|x|x|x|x|x]; intros H; try (by exists x); exfalso; revert H; by repeat (destruct (str_in _ _)).
Qed.
Lemma type_ok_list k v : str_in k list_keys = true -> type_ok k v = true -> exists l, v = JList l.
Proof.
  unfold type_ok. intros Hk. rewrite Hk.
  destruct v as [|b|x|x|x|x|x|x]; intros H; try (by exists x); exfalso; revert H; by repeat (destruct (str_in _ _)).
Qed.
Lemma type_ok_float k v : str_in k float_keys = true -> type_ok k v = true -> exists q, v = JFloat q.
Proof.
  unfold type_ok. intros Hk. rewrite Hk.
  destruct v as [|b|x|x|x|x|x|x]; intros H; try (by exists x); exfalso; revert H; by repeat (destruct (str_in _ _)).
Qed.

(** ** Rules on typed insights *)

Section Reads.
Context (i : DerivedInsight) (Hi : typed i).

Lemma typed_int k : str_in k int_keys = true -> exists n, int_of (in_evidence i) k = Ok n.
Proof.
  intros Hk. unfold int_of, get_or. destruct (in_evidence i !! k) as [v|] eqn:E; [|by eexists].
  destruct (type_ok_int k v Hk (Hi k v E)) as [n ->]. by exists n.
Qed.
Lemma typed_optional_int k : str_in k int_keys = true -> exists o, optional_int (dget (in_evidence i) k) = Ok o.
Proof.
  intros Hk. unfold dget. destruct (in_evidence i !! k) as [v|] eqn:E; [|by eexists].
  destruct (type_ok_int k v Hk (Hi k v E)) as [n ->]. by eexists.
Qed.
Lemma typed_if_present k : str_in k int_keys = true -> exists o, int_if_present (in_evidence i) k = Ok o.
Proof.
  intros Hk. unfold int_if_present. destruct (in_evidence i !! k) as [v|] eqn:E; [|by eexists].
  destruct (type_ok_int k v Hk (Hi k v E)) as [n ->]. by eexists.
Qed.
Lemma typed_int_value k : str_in k int_keys = true -> exists n, get_or (in_evidence i) k (JInt 0) = JInt n.
Proof.
  intros Hk. unfold get_or. destruct (in_evidence i !! k) as [v|] eqn:E; [|by eexists].
  by apply (type_ok_int k v Hk (Hi k v E)).
Qed.
Lemma typed_list_value k : str_in k list_keys = true -> exists l, get_or (in_evidence i) k (JList []) = JList l.
Proof.
  intros Hk. unfold get_or. destruct (in_evidence i !! k) as [v|] eqn:E; [|by eexists].
  by apply (type_ok_list k v Hk (Hi k v E)).
Qed.
Lemma typed_float k d : str_in k float_keys = true -> is_number d = true ->
  exists v, get_or (in_evidence i) k d = v /\ is_number v = true /\ exists q, jfloat v = Ok q.
Proof.
  intros Hk Hd. unfold get_or. destruct (in_evidence i !! k) as [v|] eqn:E; cbn.
  - destruct (type_ok_float k v Hk (Hi k v E)) as [q ->]. exists (JFloat q). eauto.
  - exists d. split; [done|]. split; [done|]. destruct d; try done; by eexists.
Qed.
End Reads.

(** [m] returns a value, whatever it is. *)
Definition defined {A} (m : res A) : Prop := exists a, m = Ok a.

Lemma defined_ok {A} (a : A) : defined (Ok a).
Proof. by exists a. Qed.
Lemma defined_bind {A B} (m : res A) (k : A -> res B) : defined m -> (forall a, defined (k a)) ->
  defined (x <-? m ;; k x).
Proof. intros [a ->] H. apply H. Qed.

Lemma join_three_list float_str l other : defined (join_three float_str (JList l) other).
Proof. unfold join_three. destruct (jtruthy _); apply defined_ok. Qed.
Lemma percent_number v : is_number v = true -> defined (percent v).
Proof. intros H. destruct v; try discriminate H; apply defined_ok. Qed.

(** Reads of typed evidence, joined texts and branches. *)
Ltac reads :=
  repeat match goal with
  | |- defined (Ok _) => apply defined_ok
  | |- defined (let _ := _ in _) => cbv zeta
  | |- defined (if ?b then _ else _) => destruct b
  | |- defined (mbind _ _) => apply defined_bind; [|intros]
  | |- defined (int_of (in_evidence _) _) => apply typed_int; [assumption | reflexivity]
  | |- defined (optional_int (dget (in_evidence _) _)) => apply typed_optional_int; [assumption | reflexivity]
  | H : typed ?i |- context [get_or (in_evidence ?i) ?k (JList [])] =>
      destruct (typed_list_value i H k eq_refl) as [? ->]
  | |- defined (join_three _ (JList _) _) => apply join_three_list
  | |- defined (jlen (JList _)) => apply defined_ok
  end.

Section Bodies.
Context (float_str : Q -> string) (i : DerivedInsight) (Hi : typed i).

Lemma observation_coverage_defined n : defined (observation_coverage_body float_str n i).
Proof. unfold observation_coverage_body. reads. Qed.
Lemma test_visibility_defined n : defined (test_visibility_body float_str n i).
Proof. unfold test_visibility_body, test_visibility_status, test_visibility_coverage. reads. Qed.
Lemma dependency_drift_defined n : defined (dependency_drift_body n i).
Proof. unfold dependency_drift_body. reads. Qed.
Lemma todo_accumulation_defined : defined (todo_accumulation_body i).
Proof. unfold todo_accumulation_body. reads. Qed.
Lemma lint_fix_defined n o : defined (lint_fix_body float_str n o i).
Proof. unfold lint_fix_body, lint_present, lint_worsened. reads. Qed.
Lemma type_improvement_defined n o : defined (type_improvement_body float_str n o i).
Proof. unfold type_improvement_body, type_present, type_worsened. reads. Qed.
Lemma validation_pattern_defined : defined (validation_pattern_body float_str i).
Proof. unfold validation_pattern_body. reads. Qed.
Lemma coverage_gap_defined : defined (coverage_gap_body float_str i).
Proof. unfold coverage_gap_body, coverage_low_overall, coverage_uncovered_files. reads. Qed.
Lemma ci_pattern_defined : defined (ci_pattern_body float_str i).
Proof.
  unfold ci_pattern_body, ci_failing, ci_flaky.
  destruct (typed_float i Hi "failure_rate" (JFloat 0) eq_refl eq_refl) as (v & -> & Hv & _).
  reads. by apply percent_number.
Qed.
Lemma execution_health_defined : defined (execution_health_body float_str i).
Proof.
  unfold execution_health_body, no_op_candidate, validation_failures_candidate, unknown_failures_candidate.
  destruct (typed_float i Hi "no_op_rate" (JInt 0) eq_refl eq_refl) as (v & -> & _ & q & ->).
  destruct (typed_int_value i Hi "unknown_count" eq_refl) as [a ->].
  destruct (typed_int_value i Hi "error_count" eq_refl) as [b ->]. reads.
  exact (defined_ok (JInt (a + b))).
Qed.
End Bodies.

Lemma for_each_defined body insights :
  (forall i, i ∈ insights -> defined (body i)) -> defined (for_each body insights).
Proof.
  induction insights as [|i l IH]; intros H; [apply defined_ok|]. cbn [for_each].
  apply defined_bind; [apply H; by left|intros]. apply defined_bind; [|intros; apply defined_ok].
  apply IH. intros j Hj. apply H. by right.
Qed.

Lemma hotspot_scan_defined insights : Forall typed insights -> defined (hotspot_scan insights).
Proof.
  unfold hotspot_scan. generalize ((∅, ∅) : gmap string Z * gmap string dict).
  intros m H. revert m. induction H as [|i l Hi _ IH]; intros m; [apply defined_ok|]. cbn [foldM].
  apply defined_bind; [|intros; apply IH]. reads.
Qed.

(** No rule raises on typed insights. *)
Lemma rules_defined float_str tuning insights : Forall typed insights ->
  Forall (fun rule => defined (rule insights)) (build_rules float_str tuning).
Proof.
  intros H. pose proof (proj1 (Forall_forall _ _) H) as Hin. unfold build_rules, lint_fix_rule, type_improvement_rule.
  repeat apply Forall_cons_2; [..|apply Forall_nil_2]; try (apply for_each_defined; intros i Hi; specialize (Hin i Hi)).
  - by apply observation_coverage_defined.
  - by apply test_visibility_defined.
  - by apply dependency_drift_defined.
  - unfold hotspot_rule. apply defined_bind; [by apply hotspot_scan_defined|intros; apply defined_ok].
  - by apply todo_accumulation_defined.
  - by apply execution_health_defined.
  - by apply lint_fix_defined.
  - by apply type_improvement_defined.
  - by apply ci_pattern_defined.
  - by apply validation_pattern_defined.
  - unfold backlog_promotion_body. reads.
  - unfold arch_promotion_body. reads.
  - by apply coverage_gap_defined.
  - apply defined_ok.
Qed.

Lemma evaluate_rules_defined rules insights :
  Forall (fun rule => defined (rule insights)) rules -> defined (evaluate_rules rules insights).
Proof.
  induction 1 as [|rule rules H _ IH]; [apply defined_ok|]. cbn [evaluate_rules].
  by do 2 (apply defined_bind; [done|intros]); apply defined_ok.
Qed.

(** ** Candidates of typed insights *)

(** A specification that keeps the evidence of a typed insight, or whose family
    has no evidence bundle. *)
Definition bundled (s : CandidateSpec) : Prop :=
  (exists i, typed i /\ cs_evidence s = in_evidence i) \/ str_in (cs_family s) ["lint_fix"; "type_fix"] = false.

Definition all_bundled (r : res (list CandidateSpec)) : Prop :=
  match r with Ok l => Forall bundled l | Raise _ => True end.

Lemma of_family_bundled f r : of_family f r -> str_in f ["lint_fix"; "type_fix"] = false -> all_bundled r.
Proof.
  destruct r as [l|]; [|done]. intros H Hf. eapply Forall_impl; [exact H|]. intros s E. right. by rewrite E.
Qed.

Lemma all_bundled_bind {A} (m : res A) k : (forall a, all_bundled (k a)) -> all_bundled (x <-? m ;; k x).
Proof. by destruct m; simpl. Qed.

Lemma for_each_bundled body insights :
  (forall i, i ∈ insights -> all_bundled (body i)) -> all_bundled (for_each body insights).
Proof.
  induction insights as [|i l IH]; intros H; [constructor|]. cbn [for_each].
  pose proof (H i (list_elem_of_here _ _)) as Hi. destruct (body i) as [here|]; [|done]. cbn [mbind res_bind].
  assert (IH' : all_bundled (for_each body l)) by (apply IH; intros j Hj; apply H; by right).
  destruct (for_each body l); [|done]. by apply Forall_app.
Qed.

Ltac bundles Hi :=
  repeat match goal with
  | |- all_bundled (mbind _ _) => apply all_bundled_bind; intros
  | |- all_bundled (if ?b then _ else _) => destruct b
  | |- all_bundled (let _ := _ in _) => cbv zeta
  | |- all_bundled (Ok ?l) => change (Forall bundled l)
  | |- Forall bundled [] => constructor
  | |- Forall bundled [_] => apply Forall_singleton; left; eexists; split; [exact Hi | reflexivity]
  end.

Lemma rules_bundled float_str tuning insights : Forall typed insights ->
  Forall (fun rule => all_bundled (rule insights)) (build_rules float_str tuning).
Proof.
  intros H. pose proof (proj1 (Forall_forall _ _) H) as Hin.
  pose proof (rules_of_families float_str tuning insights) as Hf. unfold build_rules, rule_families in *.
  repeat match goal with
  | H : Forall2 _ (_ :: _) (_ :: _) |- _ => apply Forall2_cons_1 in H as [? H]
  end.
  repeat apply Forall_cons_2; try (eapply of_family_bundled; [eassumption | reflexivity]); [..|apply Forall_nil_2].
  - unfold lint_fix_rule. apply for_each_bundled. intros i Hi%Hin.
    unfold lint_fix_body, lint_present, lint_worsened. bundles Hi.
  - unfold type_improvement_rule. apply for_each_bundled. intros i Hi%Hin.
    unfold type_improvement_body, type_present, type_worsened. bundles Hi.
Qed.

Lemma jsign_defined n : defined (jgt0 (JInt n)) /\ defined (jlt0 (JInt n)).
Proof. split; apply defined_ok. Qed.

Lemma count_bundle_defined i kind key source : typed i -> str_in key int_keys = true ->
  defined (count_bundle (in_evidence i) kind key source).
Proof.
  intros Hi Hk. unfold count_bundle, trend_of.
  destruct (typed_int_value i Hi "delta" eq_refl) as [d ->].
  destruct (typed_list_value i Hi "top_codes" eq_refl) as [l ->].
  destruct (jsign_defined d) as [Hgt Hlt].
  apply defined_bind.
  { pose proof (typed_optional_int i Hi key Hk) as H1.
    pose proof (typed_optional_int i Hi "current_count" eq_refl) as H2. unfold optional_int in *.
    destruct (dget (in_evidence i) key); exact H1 || exact H2. }
  intros. apply defined_bind; [by apply typed_if_present|intros]. apply defined_bind; [by apply typed_if_present|intros].
  apply defined_bind; [apply defined_bind; [done|intros up]; destruct up; [apply defined_ok|];
                       by apply defined_bind; [|intros; apply defined_ok]|intros].
  apply defined_bind; [apply defined_ok|intros; apply defined_ok].
Qed.

Lemma bundled_builds s : bundled s -> defined (build s).
Proof.
  intros H. unfold build. apply defined_bind; [|intros; apply defined_ok]. unfold synthesize_evidence_bundle.
  destruct H as [(i & Hi & ->)|Hf].
  - destruct (String.eqb _ _); [apply defined_bind; [by apply count_bundle_defined|intros; apply defined_ok]|].
    destruct (String.eqb _ _); [apply defined_bind; [by apply count_bundle_defined|intros; apply defined_ok]|].
    apply defined_ok.
  - cbn in Hf. unfold str_in in Hf. cbn in Hf. apply orb_false_iff in Hf as [-> Hf].
    apply orb_false_iff in Hf as [-> _]. apply defined_ok.
Qed.

Lemma evaluate_rules_bundled rules insights specs :
  Forall (fun rule => all_bundled (rule insights)) rules -> evaluate_rules rules insights = Ok specs ->
  Forall bundled specs.
Proof.
  intros H. revert specs. induction H as [|rule rules Hr _ IH]; intros specs; [by intros [= <-]|]. cbn [evaluate_rules].
  destruct (rule insights) as [l|]; [|done]. cbn [mbind res_bind].
  destruct (evaluate_rules rules insights) as [l'|]; [|done]. intros [= <-]. apply Forall_app. eauto.
Qed.

(** ** The derivers keep the contract

    Every deriver's insights are typed ([typed], above), and one that
    says persistent counts at least two snapshots.  So the decision rules never
    raise on what the services derive, their candidates can be built, and what
    the rule on observation coverage proposes is known exactly. *)

(** ** The contract of one insight *)

Definition continuity_kinds : list string :=
  ["observation_coverage"; "test_status_continuity"; "dependency_drift_continuity"].

Definition says_persistent (key : string) : bool :=
  endswith key "persistent_unavailable" || endswith key "persistent".

(** An insight of a continuity that says persistent counts two snapshots. *)
Definition streaky (i : DerivedInsight) : Prop :=
  str_in (in_kind i) continuity_kinds = true -> says_persistent (in_dedup_key i) = true ->
  exists c, in_evidence i !! "consecutive_snapshots" = Some (JInt c) /\ (2 <= c)%Z.

Definition contract (d : DatedInsight) : Prop := typed (di_insight d) /\ streaky (di_insight d).

Lemma contract_other kind subject status key_parts ev first last :
  forallb (fun kv => type_ok (fst kv) (snd kv)) ev = true -> str_in kind continuity_kinds = false ->
  contract (normalize kind subject status key_parts ev first last).
Proof.
  intros Hev Hk. split; [by apply typed_normalize|]. unfold streaky, normalize. cbn. by rewrite Hk.
Qed.

Lemma endswith_rev (a part p : string) :
  endswith (a +:+ part) p = startswith (String.rev part +:+ String.rev a) (String.rev p).
Proof. unfold endswith. by rewrite str_rev_app. Qed.

Lemma key_of_three (kind a b : string) : join "|" [kind; a; b] = (kind +:+ "|" +:+ a) +:+ ("|" +:+ b).
Proof. unfold join. cbn [String.concat]. by rewrite !str_app_assoc. Qed.

(** Keys whose last part is another word say nothing persistent. *)
Lemma unavailable_key kind signal : says_persistent (join "|" [kind; signal; "unavailable"]) = false.
Proof. unfold says_persistent. rewrite key_of_three, !endswith_rev. reflexivity. Qed.
Lemma transition_key kind a b : says_persistent (join "|" [kind; a; b; "transition"]) = false.
Proof.
  replace (join "|" [kind; a; b; "transition"]) with ((kind +:+ "|" +:+ a +:+ "|" +:+ b) +:+ ("|" +:+ "transition")).
  - unfold says_persistent. rewrite !endswith_rev. reflexivity.
  - unfold join. cbn [String.concat]. by rewrite !str_app_assoc.
Qed.

(** ** The derivers, one by one *)

(** Walk through a deriver's branches: a property of all its insights. *)
Ltac walk :=
  repeat match goal with
  | |- Forall _ (let _ := _ in _) => cbv zeta
  | |- Forall _ [] => constructor
  | |- Forall _ (_ ++ _) => apply Forall_app; split
  | |- Forall _ (_ :: _) => apply Forall_cons; split
  | |- Forall _ (if ?b then _ else _) => destruct b eqn:?
  | |- Forall _ (match ?l with [] => _ | _ :: _ => _ end) => destruct l
  | |- Forall _ (match ?o with Some _ => _ | None => _ end) => destruct o
  | |- Forall _ (map _ _) => apply Forall_map, Forall_forall; intros ? _; cbn beta
  | |- Forall _ (concat _) => apply Forall_concat
  end.

Ltac contracts := walk; apply contract_other; reflexivity.

Section Contracts.
Context (snapshots : list RepoStateSnapshot).

Abbreviation keeps l := (Forall contract l).

Lemma dirty_tree_contract : keeps (dirty_tree snapshots).
Proof. unfold dirty_tree. contracts. Qed.
Lemma commit_activity_contract : keeps (commit_activity snapshots).
Proof. unfold commit_activity. contracts. Qed.
Lemma file_hotspots_contract : keeps (file_hotspots snapshots).
Proof. unfold file_hotspots, dominant_hotspot. walk; try (apply contract_other; reflexivity). unfold repeated_hotspot. contracts. Qed.
Lemma todo_concentration_contract : keeps (todo_concentration snapshots).
Proof. unfold todo_concentration, top_file_concentration. contracts. Qed.
Lemma execution_health_contract v u : keeps (execution_health v u snapshots).
Proof. unfold execution_health. contracts. Qed.
Lemma backlog_promotion_contract : keeps (backlog_promotion snapshots).
Proof. unfold backlog_promotion. contracts. Qed.
Lemma arch_scheduler_contract required runs : keeps (arch_scheduler required runs snapshots).
Proof. unfold arch_scheduler. contracts. Qed.
Lemma ci_pattern_contract : keeps (ci_pattern snapshots).
Proof. unfold ci_pattern, ci_insight. contracts. Qed.
Lemma validation_pattern_contract set_list : keeps (validation_pattern set_list snapshots).
Proof. unfold validation_pattern. contracts. Qed.
Lemma architecture_drift_contract : keeps (architecture_drift snapshots).
Proof. unfold architecture_drift. contracts. Qed.
Lemma benchmark_regression_contract : keeps (benchmark_regression snapshots).
Proof. unfold benchmark_regression. contracts. Qed.
Lemma security_vuln_contract : keeps (security_vuln snapshots).
Proof. unfold security_vuln. contracts. Qed.
Lemma coverage_gap_contract : keeps (coverage_gap snapshots).
Proof.
  unfold coverage_gap. walk; apply contract_other; try reflexivity;
    destruct (cv_source _); try reflexivity; by destruct (cv_summary _).
Qed.
Lemma cross_signal_contract : keeps (cross_signal snapshots).
Proof. unfold cross_signal, overlap_insight. contracts. Qed.
Lemma lint_drift_contract : keeps (lint_drift snapshots).
Proof. unfold lint_drift, diagnostics, diag_present, diag_trend, diag_turn. contracts. Qed.
Lemma type_health_contract : keeps (type_health snapshots).
Proof. unfold type_health, diagnostics, diag_present, diag_trend, diag_turn. contracts. Qed.
Lemma quality_trend_contract : keeps (quality_trend snapshots).
Proof. unfold quality_trend, trend_insight. contracts. Qed.
Lemma theme_aggregation_contract limits : keeps (theme_aggregation limits snapshots).
Proof. unfold theme_aggregation, cluster_insights. contracts. Qed.
Lemma noop_loop_contract proposer feedback now : keeps (noop_loop proposer feedback now snapshots).
Proof. unfold noop_loop. contracts. Qed.

(** The three continuities. *)
Lemma contract_streak kind subject status key_parts ev first last n :
  forallb (fun kv => type_ok (fst kv) (snd kv)) ev = true ->
  (list_to_map ev : dict) !! "consecutive_snapshots" = Some (JInt n) -> (2 <= n)%Z ->
  contract (normalize kind subject status key_parts ev first last).
Proof. intros Hev Hget Hn. split; [by apply typed_normalize|]. intros _ _. by exists n. Qed.

Lemma contract_silent kind subject status key_parts ev first last :
  forallb (fun kv => type_ok (fst kv) (snd kv)) ev = true ->
  says_persistent (join "|" (kind :: key_parts)) = false ->
  contract (normalize kind subject status key_parts ev first last).
Proof. intros Hev Hs. split; [by apply typed_normalize|]. intros _ H. unfold normalize in H. cbn [di_insight in_dedup_key] in H. by rewrite Hs in H. Qed.

Lemma test_continuity_contract : keeps (test_continuity snapshots).
Proof.
  unfold test_continuity. walk.
  - eapply contract_streak; [reflexivity|reflexivity|by apply Z.leb_le].
  - apply contract_silent; [reflexivity|apply transition_key].
Qed.
Lemma dependency_drift_contract : keeps (dependency_drift snapshots).
Proof.
  unfold dependency_drift, drift_present, drift_change, drift_insight_of. walk;
    try (apply contract_silent; reflexivity); eapply contract_streak; try reflexivity; by apply Z.leb_le.
Qed.
Lemma observation_coverage_contract : keeps (observation_coverage snapshots).
Proof.
  unfold observation_coverage, coverage_insight. walk. destruct (2 <=? _)%Z eqn:E.
  - eapply contract_streak; [reflexivity|reflexivity|by apply Z.leb_le].
  - apply contract_silent; [reflexivity|apply unavailable_key].
Qed.

(** The derivers that read files. *)
Definition keeps_result (r : res (list DatedInsight)) : Prop := match r with Ok l => keeps l | Raise _ => True end.

Lemma keeps_result_bind {A} (m : res A) k : (forall a, keeps_result (k a)) -> keeps_result (x <-? m ;; k x).
Proof. by destruct m; simpl. Qed.

Lemma execution_outcome_contract dirs : keeps_result (execution_outcome dirs snapshots).
Proof.
  unfold execution_outcome. destruct snapshots; [constructor|]. apply keeps_result_bind. intros c. cbn [keeps_result].
  contracts.
Qed.
Lemma outcome_insight_contract now family outcomes : keeps_result (outcome_insight now family outcomes).
Proof.
  unfold outcome_insight. cbv zeta. destruct (_ <? _)%Z; [constructor|]. apply keeps_result_bind. intros _.
  cbn [keeps_result]. contracts.
Qed.
Lemma proposal_outcome_contract feedback results wall : keeps_result (proposal_outcome feedback results wall snapshots).
Proof.
  unfold proposal_outcome. cbv zeta. destruct (_ || _); [constructor|]. apply keeps_result_bind. intros l.
  generalize (match snapshots with [] => wall | s :: _ => sn_observed_at s end) as now. intros now.
  assert (H : forall acc, keeps acc -> keeps_result
            (foldM (fun acc fo => here <-? outcome_insight now (fst fo) (snd fo) ;; Ok (acc ++ here)) acc l)).
  { induction l as [|fo l IH]; intros acc Hacc; [exact Hacc|]. cbn [foldM].
    pose proof (outcome_insight_contract now (fst fo) (snd fo)) as Ho.
    destruct (outcome_insight _ _ _) as [here|]; [|done]. cbn [mbind res_bind]. apply IH. by apply Forall_app. }
  apply H. constructor.
Qed.
Lemma cross_repo_contract entries wall : keeps_result (cross_repo_synthesis entries wall snapshots).
Proof.
  unfold cross_repo_synthesis. destruct snapshots; [constructor|]. apply keeps_result_bind. intros m.
  destruct (_ <? _)%Z; [constructor|]. cbn [keeps_result]. walk. unfold shared_kind. contracts.
Qed.

Lemma derive_all_contract derivers insights :
  Forall (fun d => keeps_result (d snapshots)) derivers -> derive_all derivers snapshots = Ok insights ->
  keeps insights.
Proof.
  intros H. revert insights. induction H as [|d ds Hd _ IH]; intros insights; [by intros [= <-]|]. cbn [derive_all].
  destruct (d snapshots) as [here|]; [|done]. cbn [mbind res_bind].
  destruct (derive_all ds snapshots) as [others|]; [|done]. intros [= <-]. apply Forall_app. eauto.
Qed.

Lemma services_contract required set_list wall files tuning :
  Forall (fun d => keeps_result (d snapshots)) (autonomy_cycle_derivers set_list wall files tuning) /\
  Forall (fun d => keeps_result (d snapshots)) (insights_main_derivers required files tuning).
Proof.
  assert (Hc : Forall (fun d => keeps_result (d snapshots)) (common_derivers tuning)).
  { unfold common_derivers, pure.
    repeat apply Forall_cons_2; [..|apply Forall_nil_2];
      cbn beta iota delta [pure keeps_result]; eauto using dirty_tree_contract, commit_activity_contract, file_hotspots_contract, test_continuity_contract,
        dependency_drift_contract, todo_concentration_contract, observation_coverage_contract,
        execution_health_contract. }
  split; apply Forall_app; (split; [exact Hc|]); unfold pure; repeat apply Forall_cons_2; try apply Forall_nil_2;
    cbn beta iota delta [pure keeps_result]; eauto using lint_drift_contract, type_health_contract, ci_pattern_contract, validation_pattern_contract,
      proposal_outcome_contract, architecture_drift_contract, benchmark_regression_contract, security_vuln_contract,
      cross_signal_contract, execution_outcome_contract, quality_trend_contract, noop_loop_contract,
      coverage_gap_contract, theme_aggregation_contract, cross_repo_contract, backlog_promotion_contract,
      arch_scheduler_contract.
Qed.
End Contracts.

(** ** No rule raises on what a service derives *)

Section Pipeline.
Context (float_str : Q -> string) (required : list string) (set_list : gset string -> list string)
        (wall : datetime) (files : stored_files) (tuning : option TuningOverrides).

(** The derivers of either service. *)
Definition service_derivers (derivers : list Deriver) : Prop :=
  derivers = autonomy_cycle_derivers set_list wall files tuning \/
  derivers = insights_main_derivers required files tuning.

Lemma derived_contract derivers snapshots insights :
  service_derivers derivers -> derive_all derivers snapshots = Ok insights -> Forall contract insights.
Proof.
  intros Hs. apply derive_all_contract. destruct (services_contract snapshots required set_list wall files tuning).
  by destruct Hs as [->| ->].
Qed.

Lemma derived_typed derivers snapshots insights :
  service_derivers derivers -> derive_all derivers snapshots = Ok insights ->
  Forall typed (map di_insight insights).
Proof.
  intros Hs H. apply Forall_map. eapply Forall_impl; [by eapply derived_contract|]. by intros d [? _].
Qed.

(** C10: whatever snapshots a service has loaded, the decision rules read the
    insights it derives without raising, whatever the tuning, and every
    specification they give can be built into a candidate: the evidence the
    derivers write has the types that the rules and the evidence bundles read. *)
Theorem derived_insights_never_break_the_rules derivers snapshots insights overrides :
  service_derivers derivers -> derive_all derivers snapshots = Ok insights ->
  exists specs, evaluate_rules (build_rules float_str overrides) (map di_insight insights) = Ok specs /\
    Forall (fun s => exists c, build s = Ok c) specs.
Proof.
  intros Hs H. pose proof (derived_typed _ _ _ Hs H) as Ht.
  destruct (evaluate_rules_defined _ _ (rules_defined float_str overrides _ Ht)) as [specs E].
  exists specs. split; [exact E|]. eapply Forall_impl; [|intros s; apply bundled_builds].
  eapply evaluate_rules_bundled; [by apply rules_bundled | exact E].
Qed.
End Pipeline.

Lemma sample_service : service_derivers [] (fun s => elements s) ins_now no_stored_files None
                         (cycle_derivers no_stored_files).
Proof. by left. Qed.

Lemma derived_insights_never_break_the_rules_witness :
  exists specs, evaluate_rules (build_rules (fun _ => "0.5") None) (map di_insight sample_insights) = Ok specs /\
    Forall (fun s => exists c, build s = Ok c) specs.
Proof.
  exact (derived_insights_never_break_the_rules (fun _ => "0.5") [] (fun s => elements s) ins_now no_stored_files None
           (cycle_derivers no_stored_files) history sample_insights None sample_service sample_derived).
Defined.
