(* ===== verification/InsightPipeline.v ===== *)
(** * From snapshots to candidates

    The derivers joined with the decision rules and with tuning: which signals
    get a follow-up for missing coverage, what loosening a threshold can change,
    and what one malformed transcript does to a run. *)
From S2P Require Import Prelude PyStr PyData TextLines UsageStore UsageBudget Decision DecisionRules ObserverModels Tuning TuningApply Insights Derivers DeriversQuality DeriversStored InsightContract.
From Stdlib Require Import Ascii.

(** ** Only one deriver speaks of observation coverage *)

Definition elsewhere (d : DatedInsight) : Prop := String.eqb (in_kind (di_insight d)) "observation_coverage" = false.

Definition elsewhere_result (r : res (list DatedInsight)) : Prop :=
  match r with Ok l => Forall elsewhere l | Raise _ => True end.

Lemma elsewhere_bind {A} (m : res A) k : (forall a, elsewhere_result (k a)) -> elsewhere_result (x <-? m ;; k x).
Proof. by destruct m; simpl. Qed.

Lemma elsewhere_from_contract (l : list DatedInsight) : Forall elsewhere l -> elsewhere_result (Ok l).
Proof. done. Qed.

Ltac kinds := cbn beta iota delta [pure elsewhere_result]; walk; reflexivity.

Section Elsewhere.
Context (snapshots : list RepoStateSnapshot).

Lemma outcome_elsewhere now family outcomes : elsewhere_result (outcome_insight now family outcomes).
Proof.
  unfold outcome_insight. cbv zeta. destruct (_ <? _)%Z; [constructor|]. apply elsewhere_bind. intros _. kinds.
Qed.
Lemma proposal_outcome_elsewhere feedback results wall :
  elsewhere_result (proposal_outcome feedback results wall snapshots).
Proof.
  unfold proposal_outcome. cbv zeta. destruct (_ || _); [constructor|]. apply elsewhere_bind. intros l.
  generalize (match snapshots with [] => wall | s :: _ => sn_observed_at s end) as now. intros now.
  assert (H : forall acc, Forall elsewhere acc -> elsewhere_result
            (foldM (fun acc fo => here <-? outcome_insight now (fst fo) (snd fo) ;; Ok (acc ++ here)) acc l)).
  { induction l as [|fo l IH]; intros acc Hacc; [exact Hacc|]. cbn [foldM].
    pose proof (outcome_elsewhere now (fst fo) (snd fo)) as Ho.
    destruct (outcome_insight _ _ _) as [here|]; [|done]. cbn [mbind res_bind]. apply IH. by apply Forall_app. }
  apply H. constructor.
Qed.
Lemma execution_outcome_elsewhere dirs : elsewhere_result (execution_outcome dirs snapshots).
Proof. unfold execution_outcome. destruct snapshots; [constructor|]. apply elsewhere_bind. intros c. kinds. Qed.
Lemma cross_repo_elsewhere entries wall : elsewhere_result (cross_repo_synthesis entries wall snapshots).
Proof.
  unfold cross_repo_synthesis. destruct snapshots; [constructor|]. apply elsewhere_bind. intros m.
  destruct (_ <? _)%Z; [constructor|]. cbn [elsewhere_result]. walk. unfold shared_kind. kinds.
Qed.

(** The derivers but the one of observation coverage. *)
Lemma others_elsewhere required set_list wall files tuning d :
  (d ∈ autonomy_cycle_derivers set_list wall files tuning \/ d ∈ insights_main_derivers required files tuning) ->
  d = pure observation_coverage \/ elsewhere_result (d snapshots).
Proof.
  unfold autonomy_cycle_derivers, insights_main_derivers, common_derivers. intros H.
  assert (Hd : d ∈ [pure dirty_tree; pure commit_activity; pure file_hotspots; pure test_continuity;
     pure dependency_drift; pure todo_concentration; pure observation_coverage;
     pure (execution_health (validation_threshold tuning) 2); pure lint_drift; pure type_health; pure ci_pattern;
     pure (validation_pattern set_list); proposal_outcome (map snd (sf_feedback files)) (sf_results files) wall;
     pure architecture_drift; pure benchmark_regression; pure security_vuln; pure cross_signal;
     execution_outcome (sf_run_dirs files); pure quality_trend;
     pure (noop_loop (sf_proposer_entries files) (sf_feedback files) wall); pure coverage_gap;
     pure (theme_aggregation theme_defaults); cross_repo_synthesis (sf_insight_runs files) wall;
     pure backlog_promotion; pure (arch_scheduler required (sf_tuning_runs files))]).
  { destruct H as [H|H]; cbn [app] in H; rewrite !elem_of_cons, elem_of_nil in *; tauto. }
  clear H. rewrite !elem_of_cons, elem_of_nil in Hd.
  repeat (destruct Hd as [->|Hd]; [try (by left); right|]); [..|done];
    eauto using proposal_outcome_elsewhere, execution_outcome_elsewhere, cross_repo_elsewhere.
  - unfold dirty_tree. kinds.
  - unfold commit_activity. kinds.
  - unfold file_hotspots, dominant_hotspot. cbn beta iota delta [pure elsewhere_result].
    walk; try reflexivity. unfold repeated_hotspot. kinds.
  - unfold test_continuity. kinds.
  - unfold dependency_drift, drift_present, drift_change, drift_insight_of. kinds.
  - unfold todo_concentration, top_file_concentration. kinds.
  - unfold execution_health. kinds.
  - unfold lint_drift, diagnostics, diag_present, diag_trend, diag_turn. kinds.
  - unfold type_health, diagnostics, diag_present, diag_trend, diag_turn. kinds.
  - unfold ci_pattern, ci_insight. kinds.
  - unfold validation_pattern. kinds.
  - unfold architecture_drift. kinds.
  - unfold benchmark_regression. kinds.
  - unfold security_vuln. kinds.
  - unfold cross_signal, overlap_insight. kinds.
  - unfold quality_trend, trend_insight. kinds.
  - unfold noop_loop. kinds.
  - unfold coverage_gap. kinds.
  - unfold theme_aggregation, cluster_insights. kinds.
  - unfold backlog_promotion. kinds.
  - unfold arch_scheduler. kinds.
Qed.
End Elsewhere.

(** ** Members of what the services derive and the rules give *)

Lemma derive_all_elem derivers snapshots insights x : derive_all derivers snapshots = Ok insights ->
  x ∈ insights <-> exists d l, d ∈ derivers /\ d snapshots = Ok l /\ x ∈ l.
Proof.
  revert insights. induction derivers as [|d ds IH]; intros insights; cbn [derive_all].
  { intros [= <-]. set_solver. }
  destruct (d snapshots) as [here|] eqn:Ed; [|done]. cbn [mbind res_bind].
  destruct (derive_all ds snapshots) as [others|]; [|done]. intros [= <-]. rewrite elem_of_app, (IH others eq_refl). split.
  - intros [Hx|(d' & l & Hd & Hl & Hx)]; [exists d, here; split_and!; [by left|done|done]|].
    exists d', l. split_and!; [by right|done|done].
  - intros (d' & l & [->|Hd]%elem_of_cons & Hl & Hx); [left; congruence|right; by exists d', l].
Qed.

Lemma for_each_elem body insights specs s : for_each body insights = Ok specs ->
  s ∈ specs <-> exists i here, i ∈ insights /\ body i = Ok here /\ s ∈ here.
Proof.
  revert specs. induction insights as [|i l IH]; intros specs; cbn [for_each]; [intros [= <-]; set_solver|].
  destruct (body i) as [here|] eqn:Ei; [|done]. cbn [mbind res_bind].
  destruct (for_each body l) as [others|]; [|done]. intros [= <-]. rewrite elem_of_app, (IH others eq_refl). split.
  - intros [Hx|(j & h & Hj & Hb & Hx)]; [exists i, here; split_and!; [by left|done|done]|].
    exists j, h. split_and!; [by right|done|done].
  - intros (j & h & [->|Hj]%elem_of_cons & Hb & Hx); [left; congruence|right; by exists j, h].
Qed.

(** ** Follow-ups for missing coverage *)

Section Followups.
Context (float_str : Q -> string).

(** What the rule makes of one coverage insight. *)
Lemma coverage_rule n snapshots current signal : exists s,
  observation_coverage_body float_str n (di_insight (coverage_insight snapshots current signal)) =
    Ok (if (Z.max 2 n <=? Z.of_nat (length (streak (missing_signal signal) snapshots)))%Z then [s] else []) /\
  cs_subject s = signal /\
  cs_confidence s = (if (3 <=? Z.of_nat (length (streak (missing_signal signal) snapshots)))%Z
                     then "high" else "medium").
Proof.
  unfold coverage_insight. set (c := Z.of_nat (length (streak _ _))). eexists.
  unfold observation_coverage_body, normalize. cbn [di_insight in_kind in_dedup_key in_evidence String.eqb].
  assert (Hget : int_of (list_to_map [("signal", JStr signal); ("consecutive_snapshots", JInt c)])
                   "consecutive_snapshots" = Ok c) by reflexivity.
  assert (Hsig : forall d, get_or (list_to_map [("signal", JStr signal); ("consecutive_snapshots", JInt c)])
                   "signal" d = JStr signal) by reflexivity.
  rewrite Hget, Hsig. cbn [show jtext]. cbv zeta. rewrite key_of_three, endswith_rev.
  destruct (Z.leb_spec 2 c); cbn [negb mbind res_bind].
  - replace (startswith _ _) with true by reflexivity. cbn [negb].
    destruct (Z.ltb_spec c n), (Z.leb_spec (Z.max 2 n) c); try lia; (split; [reflexivity|]); split; reflexivity.
  - replace (startswith _ _) with false by reflexivity. cbn [negb].
    destruct (Z.leb_spec (Z.max 2 n) c); [lia|]. split; [reflexivity|]. split; reflexivity.
Qed.

Context (required : list string) (set_list : gset string -> list string) (wall : datetime) (files : stored_files)
        (tuning : option TuningOverrides).

Abbreviation derivers_ok := (service_derivers required set_list wall files tuning).

Lemma coverage_derived derivers snapshots insights x :
  derivers_ok derivers -> derive_all derivers snapshots = Ok insights ->
  in_kind (di_insight x) = "observation_coverage" ->
  x ∈ insights <-> x ∈ observation_coverage snapshots.
Proof.
  intros Hs H Hk. rewrite (derive_all_elem _ _ _ _ H). split.
  - intros (d & l & Hd & Hl & Hx).
    destruct (others_elsewhere snapshots required set_list wall files tuning d) as [->|He];
      [destruct Hs as [->| ->]; auto|by injection Hl as <-|].
    rewrite Hl in He. pose proof (proj1 (Forall_forall _ _) He _ Hx) as E. unfold elsewhere in E. by rewrite Hk in E.
  - intros Hx. exists (pure observation_coverage), (observation_coverage snapshots). split_and!; [|done|done].
    destruct Hs as [->| ->]; apply elem_of_app; left; unfold common_derivers; set_solver.
Qed.

Lemma streak_cons p s l : (0 < length (streak p (s :: l)))%nat <-> p s = true.
Proof. cbn. destruct (p s); cbn; split; try done; lia. Qed.

#[local] Arguments streak : simpl never.

(** C15: of everything a service derives, the coverage rule proposes a follow-up for
    a signal exactly when the signal was missing in each of the newest
    snapshots, at least two of them and at least as many as the threshold asks
    for; three make it a candidate of high confidence. *)
Theorem coverage_followup_iff_missing_streak derivers current rest insights n specs :
  derivers_ok derivers -> derive_all derivers (current :: rest) = Ok insights ->
  for_each (observation_coverage_body float_str n) (map di_insight insights) = Ok specs ->
  forall signal,
    ((exists s, s ∈ specs /\ cs_subject s = signal) <->
     (Z.max 2 n <= Z.of_nat (length (streak (missing_signal signal) (current :: rest))))%Z) /\
    (forall s, s ∈ specs -> cs_subject s = signal ->
       cs_confidence s = "high" <->
       (3 <= Z.of_nat (length (streak (missing_signal signal) (current :: rest))))%Z).
Proof.
  intros Hs H Hspecs signal. set (snapshots := current :: rest).
  assert (Hmem : forall s, s ∈ specs <-> exists sig here, missing_signal sig current = true /\
     observation_coverage_body float_str n (di_insight (coverage_insight snapshots current sig)) = Ok here /\
     s ∈ here).
  { intros s. rewrite (for_each_elem _ _ _ _ Hspecs). split.
    - intros (i & here & Hi & Hb & Hin). apply list_elem_of_fmap in Hi as (x & -> & Hx).
      destruct (String.eqb (in_kind (di_insight x)) "observation_coverage") eqn:Ek.
      + apply String.eqb_eq in Ek. apply (coverage_derived _ _ _ _ Hs H Ek) in Hx. cbn in Hx.
        apply list_elem_of_fmap in Hx as (sig & -> & Hsig). rewrite sorted_by_perm in Hsig.
        apply elem_of_elements in Hsig. exists sig, here. split; [by apply bool_decide_eq_true|done].
      + unfold observation_coverage_body in Hb. rewrite Ek in Hb. injection Hb as <-. by apply elem_of_nil in Hin.
    - intros (sig & here & Hm & Hb & Hin). eexists _, here. split; [|split; [exact Hb|exact Hin]].
      apply list_elem_of_fmap. eexists. split; [reflexivity|].
      apply (coverage_derived _ _ _ _ Hs H); [reflexivity|]. apply list_elem_of_fmap. exists sig. split; [done|].
      rewrite sorted_by_perm. apply elem_of_elements. by apply bool_decide_eq_true in Hm. }
  assert (Hrule := coverage_rule n snapshots current). split; [split|].
  - intros (s & (sig & here & Hm & Hb & Hin)%Hmem & <-). destruct (Hrule sig) as (s' & Hb' & Hsub & _).
    rewrite Hb' in Hb. injection Hb as <-. destruct (Z.max 2 n <=? _)%Z eqn:Hle in Hin; [|by apply elem_of_nil in Hin].
    apply list_elem_of_singleton in Hin as ->. rewrite Hsub. by apply Z.leb_le.
  - intros Hn. destruct (Hrule signal) as (s & Hb & Hsub & _). exists s. split; [|done]. apply Hmem.
    exists signal, [s]. rewrite Hb. rewrite (proj2 (Z.leb_le _ _)) by exact Hn. split_and!; [|done|by left].
    apply (streak_cons _ current rest). fold snapshots. lia.
  - intros s (sig & here & Hm & Hb & Hin)%Hmem <-. destruct (Hrule sig) as (s' & Hb' & Hsub & Hconf).
    rewrite Hb' in Hb. injection Hb as <-. destruct (_ <=? _)%Z in Hin; [|by apply elem_of_nil in Hin].
    apply list_elem_of_singleton in Hin as ->. rewrite Hconf, Hsub.
    destruct (Z.leb_spec 3 (Z.of_nat (length (streak (missing_signal sig) snapshots)))); split; (done || lia).
Qed.
End Followups.

(** ** What loosening a threshold can change *)

Section Loosening.
Context (float_str : Q -> string).

Lemma endswith_suffix s a b : endswith s (a +:+ b) = true -> endswith s b = true.
Proof.
  unfold endswith. rewrite str_rev_app. intros [rest ->]%startswith_inv.
  change (startswith ((String.rev b +:+ String.rev a) +:+ rest) (String.rev b) = true).
  rewrite <-str_app_assoc. apply startswith_app.
Qed.

Lemma streak_count i c : in_evidence i !! "consecutive_snapshots" = Some (JInt c) ->
  int_of (in_evidence i) "consecutive_snapshots" = Ok c.
Proof. intros H. unfold int_of, get_or. by rewrite H. Qed.

(** On insights that keep the contract a minimum of one and a minimum of two
    select the same. *)
Lemma one_is_two_coverage i : streaky i ->
  observation_coverage_body float_str 1 i = observation_coverage_body float_str 2 i.
Proof.
  intros Hi. unfold observation_coverage_body. destruct (String.eqb (in_kind i) _) eqn:Ek; [|done]. cbn [negb].
  destruct (endswith (in_dedup_key i) _) eqn:Ep; [|done]. cbn [negb]. apply String.eqb_eq in Ek.
  destruct Hi as (c & Hc & Hle); [by rewrite Ek|unfold says_persistent; by rewrite Ep|].
  rewrite (streak_count i c Hc). cbn [mbind res_bind]. by rewrite !(proj2 (Z.ltb_ge _ _)) by lia.
Qed.
Lemma one_is_two_dependency i : streaky i -> dependency_drift_body 1 i = dependency_drift_body 2 i.
Proof.
  intros Hi. unfold dependency_drift_body.
  destruct (String.eqb (in_kind i) _) eqn:Ek; [|done]. destruct (String.eqb (in_subject i) _); [|done].
  destruct (endswith (in_dedup_key i) _) eqn:Ep; [|done]. cbn [andb]. apply String.eqb_eq in Ek.
  destruct Hi as (c & Hc & Hle); [by rewrite Ek| |].
  { unfold says_persistent. change "present|persistent" with ("present|" +:+ "persistent") in Ep.
    by rewrite (endswith_suffix _ _ _ Ep), orb_true_r. }
  rewrite (streak_count i c Hc). cbn [mbind res_bind]. by rewrite !(proj2 (Z.ltb_ge _ _)) by lia.
Qed.
Lemma one_is_two_tests i : streaky i -> test_visibility_body float_str 1 i = test_visibility_body float_str 2 i.
Proof.
  intros Hi. unfold test_visibility_body. f_equal. unfold test_visibility_status.
  destruct (String.eqb (in_kind i) _) eqn:Ek; [|done]. destruct (String.eqb (in_subject i) _); [|done].
  cbn [andb]. destruct (int_of (in_evidence i) "consecutive_snapshots") as [c|] eqn:Ec; [|done].
  cbn [mbind res_bind]. cbv zeta. destruct (String.eqb _ "unknown"); [|done]. cbn [andb].
  destruct (endswith (in_dedup_key i) "persistent") eqn:Ep; [|done]. cbn [andb]. apply String.eqb_eq in Ek.
  destruct Hi as (c' & Hc & Hle); [by rewrite Ek|unfold says_persistent; by rewrite Ep, orb_true_r|].
  rewrite (streak_count i c' Hc) in Ec. injection Ec as <-.
  by rewrite (proj2 (Z.leb_le 1 c')), (proj2 (Z.leb_le 2 c')) by lia.
Qed.

Lemma for_each_ext body1 body2 insights : (forall i, i ∈ insights -> body1 i = body2 i) ->
  for_each body1 insights = for_each body2 insights.
Proof.
  induction insights as [|i l IH]; intros H; [done|]. cbn [for_each]. rewrite (H i) by left.
  rewrite IH; [done|]. intros j Hj. apply H. by right.
Qed.

Lemma evaluate_rules_ext rules1 rules2 insights :
  Forall2 (fun r1 r2 => r1 insights = r2 insights) rules1 rules2 ->
  evaluate_rules rules1 insights = evaluate_rules rules2 insights.
Proof. induction 1 as [|r1 r2 l1 l2 H _ IH]; [done|]. cbn [evaluate_rules]. by rewrite H, IH. Qed.

(** Two settings of the three thresholds that are equal, or one and two. *)
Definition one_or_two (a b : Z) : Prop := a = b \/ a = 1%Z /\ b = 2%Z.

Lemma rules_same_below_two t1 t2 insights : Forall streaky insights ->
  one_or_two (tuned t1 "observation_coverage" "min_consecutive_runs" 2)
             (tuned t2 "observation_coverage" "min_consecutive_runs" 2) ->
  one_or_two (tuned t1 "test_visibility" "min_consecutive_runs" 3)
             (tuned t2 "test_visibility" "min_consecutive_runs" 3) ->
  one_or_two (tuned t1 "dependency_drift" "min_consecutive_runs" 2)
             (tuned t2 "dependency_drift" "min_consecutive_runs" 2) ->
  tuned t1 "lint_fix" "min_violations" 5 = tuned t2 "lint_fix" "min_violations" 5 ->
  tuned t1 "type_fix" "min_errors" 3 = tuned t2 "type_fix" "min_errors" 3 ->
  evaluate_rules (build_rules float_str t1) insights = evaluate_rules (build_rules float_str t2) insights.
Proof.
  intros Hs Ho Ht Hd El Ee. pose proof (proj1 (Forall_forall _ _) Hs) as Hin. apply evaluate_rules_ext.
  unfold build_rules. rewrite El, Ee.
  apply Forall2_cons_2; [|apply Forall2_cons_2; [|apply Forall2_cons_2; [|apply Forall_Forall2_diag; by apply Forall_forall]]];
    apply for_each_ext; intros i Hi%Hin.
  - destruct Ho as [->|[-> ->]]; [done|]. by apply one_is_two_coverage.
  - destruct Ht as [->|[-> ->]]; [done|]. by apply one_is_two_tests.
  - destruct Hd as [->|[-> ->]]; [done|]. by apply one_is_two_dependency.
Qed.

Context (required : list string) (set_list : gset string -> list string) (wall : datetime) (files : stored_files)
        (tuning : option TuningOverrides).

(** C37: loosening a threshold to its minimum of one changes nothing: the derivers
    only call a streak persistent from two snapshots on, so the rules give the
    same specifications before and after the change, whatever the family. *)
Theorem loosening_to_one_changes_nothing disk f family reason t f' c derivers snapshots insights :
  apply disk f family "min_consecutive_runs" "loosen_threshold" reason t = (f', Ok (Some c)) -> tc_after c = 1%Z ->
  service_derivers required set_list wall files tuning derivers -> derive_all derivers snapshots = Ok insights ->
  evaluate_rules (build_rules float_str (overrides_of f')) (map di_insight insights) =
  evaluate_rules (build_rules float_str (overrides_of f)) (map di_insight insights).
Proof.
  intros Happly Hafter Hs H.
  assert (Hstreaky : Forall streaky (map di_insight insights)).
  { apply Forall_map. eapply Forall_impl; [by eapply derived_contract|]. by intros d [_ ?]. }
  apply apply_reads in Happly as (En & _ & Hnew & Hframe). rewrite Hafter in En. apply loosened_by_one in En.
  rewrite current_value_tuned in En.
  assert (Hthreshold : forall g d, DEFAULTS !! (g, "min_consecutive_runs") = Some d ->
    one_or_two (tuned (overrides_of f') g "min_consecutive_runs" d)
               (tuned (overrides_of f) g "min_consecutive_runs" d)).
  { intros g d Hd. destruct (decide (g = family)) as [->|Hne].
    - right. split; [by rewrite Hnew|]. by rewrite Hd in En.
    - left. apply Hframe. congruence. }
  apply rules_same_below_two; [done|by apply Hthreshold|by apply Hthreshold|by apply Hthreshold| |];
    apply Hframe; congruence.
Qed.
End Loosening.

(** ** One malformed transcript *)

Section Transcripts.
Context (set_list : gset string -> list string) (wall : datetime) (files : stored_files)
        (tuning : option TuningOverrides).

(** A readable transcript whose request has no dict for its task. *)
Definition malformed (d : run_dir) : Prop :=
  exists outcome l, rd_outcome d = FileHolds outcome /\ rd_request d = FileHolds (JObj l) /\
    (list_to_map l : dict) !! "task" = Some JNull.

Lemma malformed_raises repo c d : malformed d -> exists e, scan_run repo c d = Raise e.
Proof.
  intros (outcome & l & Ho & Hr & Ht). unfold scan_run, vget. rewrite Ho, Hr. cbn [as_dict mbind res_bind].
  unfold get_or. rewrite Ht. cbn. by eexists.
Qed.

Lemma foldM_raises {A B} (f : B -> A -> res B) l x b :
  x ∈ l -> (forall b, exists e, f b x = Raise e) -> exists e, foldM f b l = Raise e.
Proof.
  intros Hx Hf. revert b. induction Hx as [x l|x y l _ IH]; intros b; cbn [foldM].
  - destruct (Hf b) as [e ->]. by exists e.
  - destruct (f b y) as [b'|e]; [by apply IH|by exists e].
Qed.

Lemma derive_all_raises derivers d snapshots :
  d ∈ derivers -> (exists e, d snapshots = Raise e) -> exists e, derive_all derivers snapshots = Raise e.
Proof.
  intros Hd [e He]. induction Hd as [d l|d d' l _ IH]; cbn [derive_all].
  - rewrite He. by exists e.
  - destruct (d' snapshots); [|by eexists]. cbn [mbind res_bind]. destruct (IH He) as [e' ->]. by exists e'.
Qed.

(** one transcript among the newest fifty whose request holds null for its task
    stops the whole cycle: whatever the snapshots, no insight is derived and no
    artifact written, though the other transcripts and derivers are sound. *)
Theorem malformed_transcript_stops_all_insights stored context current rest d :
  load_snapshots stored (ig_repo_filter context) (ig_snapshot_run_id context) (ig_history_limit context) =
    Ok (current :: rest) ->
  d ∈ slice_to ARTIFACT_SCAN_LIMIT (sf_run_dirs files) -> malformed d ->
  exists e, generate stored (autonomy_cycle_derivers set_list wall files tuning) context = Raise e.
Proof.
  intros Hload Hd Hm. unfold generate. rewrite Hload. cbn [mbind res_bind].
  destruct (derive_all_raises (autonomy_cycle_derivers set_list wall files tuning)
              (execution_outcome (sf_run_dirs files)) (current :: rest)) as [e ->]; [| |by exists e].
  - unfold autonomy_cycle_derivers, common_derivers. set_solver.
  - unfold execution_outcome. cbv zeta. eapply foldM_raises in Hd as [e He]; [|intros b; by apply malformed_raises].
    rewrite He. by exists e.
Qed.
End Transcripts.

(** ** The theorems on the sample *)

Definition sample_followups : list CandidateSpec :=
  match for_each (observation_coverage_body (fun _ => "0.5") 3) (map di_insight sample_insights) with
  | Ok l => l
  | Raise _ => []
  end.

Lemma coverage_followup_iff_missing_streak_witness :
  exists s, s ∈ sample_followups /\ cs_subject s = "test_signal".
Proof.
  apply (coverage_followup_iff_missing_streak (fun _ => "0.5") [] (fun s => elements s) ins_now no_stored_files None
    (cycle_derivers no_stored_files) (snapshot "obs_3" 1 (unseen 12))
    [snapshot "obs_2" 25 (unseen 8); snapshot "obs_1" 49 (unseen 8)] sample_insights 3 sample_followups
    sample_service sample_derived eq_refl "test_signal").
  vm_compute. discriminate.
Defined.

Definition loosened : json_file * res (option TuningChange) :=
  apply DW_written FileMissing "observation_coverage" "min_consecutive_runs" "loosen_threshold" "quiet" ins_now.

Lemma loosening_to_one_changes_nothing_witness :
  evaluate_rules (build_rules (fun _ => "0.5") (overrides_of (fst loosened))) (map di_insight sample_insights) =
  evaluate_rules (build_rules (fun _ => "0.5") None) (map di_insight sample_insights).
Proof.
  apply (loosening_to_one_changes_nothing (fun _ => "0.5") [] (fun s => elements s) ins_now no_stored_files None
    DW_written FileMissing "observation_coverage" "quiet" ins_now (fst loosened)
    {| tc_family := "observation_coverage"; tc_key := "min_consecutive_runs"; tc_before := 2; tc_after := 1;
       tc_reason := "quiet"; tc_applied_at := ins_now |} (cycle_derivers no_stored_files) history sample_insights).
  - reflexivity.
  - reflexivity.
  - exact sample_service.
  - exact sample_derived.
Defined.

Definition bad_run : run_dir :=
  {| rd_outcome := FileHolds (JObj []); rd_request := FileHolds (JObj [("task", JNull)]); rd_texts := [] |}.

Definition files_with_bad_run : stored_files :=
  {| sf_run_dirs := [bad_run]; sf_proposer_entries := []; sf_results := []; sf_feedback := []; sf_insight_runs := [];
     sf_tuning_runs := [] |}.

Definition sample_context : InsightGenerationContext :=
  {| ig_repo_filter := None; ig_snapshot_run_id := None; ig_history_limit := 5; ig_run_id := "ins_1";
     ig_generated_at := ins_now; ig_source_command := "insights" |}.

Lemma malformed_transcript_stops_all_insights_witness :
  exists e, generate (Ok history) (cycle_derivers files_with_bad_run) sample_context = Raise e.
Proof.
  apply (malformed_transcript_stops_all_insights (fun s => elements s) ins_now files_with_bad_run None (Ok history)
    sample_context (snapshot "obs_3" 1 (unseen 12))
    [snapshot "obs_2" 25 (unseen 8); snapshot "obs_1" 49 (unseen 8)] bad_run).
  - vm_compute. reflexivity.
  - left.
  - exists (JObj []), [("task", JNull)]. split_and!; reflexivity.
Defined.
