(* ===== verification/ArchGate.v ===== *)
(** * The gate of architectural work

    The scheduler of architectural backlog items (insights/derivers/
    arch_scheduler.py) asks the latest tuning run for "keep" on three families.
    This file follows the families from the decision rules through the stored
    decisions and proposals into the tuning metrics: an item is scheduled
    exactly when every gate holds, and as one of the required families is a name
    no rule derives, no run of the tuning over the program's own artifacts ever
    opens the gate. *)
From S2P Require Import Prelude PyStr PyData UsageStore UsageBudget Decision DecisionRules Proposer ObserverModels Tuning Insights Derivers DeriversQuality DeriversStored.

(** ** The stored artifacts *)

(** What the metrics read of proposal_candidates.json. *)
Definition decision_json (a : ProposalCandidatesArtifact) : jval :=
  JObj [("run_id", JStr (da_run_id a)); ("generated_at", JTime (da_generated_at a));
        ("dry_run", JBool (da_dry_run a));
        ("candidates", JList (map (fun c => JObj [("dedup_key", JStr (pc_dedup_key c));
                                                  ("family", JStr (pc_family c))]) (da_candidates a)));
        ("suppressed", JList (map (fun s => JObj [("family", JStr (sc_family s)); ("reason", JStr (sc_reason s))])
                                (da_suppressed a)))].

(** What they read of proposal_results.json. *)
Definition results_json (r : ProposalResultsArtifact) : jval :=
  JObj [("run_id", JStr (ra_run_id r)); ("source_decision_run_id", JStr (ra_source_decision_run_id r));
        ("dry_run", JBool (ra_dry_run r));
        ("created", JList (map (fun c => JObj [("family", JStr (cre_family c));
                                               ("plane_issue_id", opt_jstr (cre_plane_issue_id c))]) (ra_created r)));
        ("skipped", JList (map (fun c => JObj [("family", JStr (ski_family c))]) (ra_skipped r)));
        ("failed", JList (map (fun c => JObj [("family", JStr (fai_family c))]) (ra_failed r)))].

(** ** The families of a decision *)

(** What a gate keeps is of its specifications, and so are the families of what
    it suppresses. *)
Definition stays_in (specs : list CandidateSpec) (r : list CandidateSpec * list SuppressedCandidate) : Prop :=
  fst r ⊆ specs /\ Forall (fun x => sc_family x ∈ map cs_family specs) (snd r).

Lemma stays_in_weaken specs specs' r : specs ⊆ specs' -> stays_in specs r -> stays_in specs' r.
Proof.
  intros Hs [H1 H2]. split; [set_solver|]. eapply Forall_impl; [exact H2|]. intros x Hx.
  apply list_elem_of_fmap in Hx as (s & -> & Hin). apply list_elem_of_fmap. exists s. auto.
Qed.

Lemma suppress_all_stays specs reason ev l : suppress_all specs reason ev = Ok l ->
  Forall (fun x => sc_family x ∈ map cs_family specs) l.
Proof.
  revert l. induction specs as [|s specs IH]; intros l; cbn; [intros [= <-]; constructor|].
  destruct (build s) as [c|] eqn:Hb; cbn; [|done]. destruct (suppress_all _ _ _) as [l'|]; cbn; [|done].
  intros [= <-]. apply build_ok in Hb as (_ & Hf & _). constructor; [cbn; rewrite Hf; by left|].
  eapply Forall_impl; [by apply IH|]. intros x Hx. by right.
Qed.

Lemma gate_families_stays context specs r : gate_families context specs = Ok r -> stays_in specs r.
Proof.
  unfold gate_families. destruct (suppress_all _ _ _) as [l|] eqn:E; cbn; [|done]. intros [= <-].
  apply suppress_all_stays in E. split; cbn; [intros x; by intros [? _]%elem_of_filter_bool|].
  eapply Forall_impl; [exact E|]. intros x Hx. apply list_elem_of_fmap in Hx as (s & -> & Hin).
  apply elem_of_filter_bool in Hin as [Hin _]. apply list_elem_of_fmap. by exists s.
Qed.

Lemma gate_all_stays closed reason ev specs r : gate_all closed reason ev specs = Ok r -> stays_in specs r.
Proof.
  unfold gate_all. destruct closed; [|intros [= <-]; split; [done|constructor]].
  destruct (suppress_all _ _ _) as [l|] eqn:E; cbn; [|done]. intros [= <-]. split; [set_solver|].
  by apply suppress_all_stays in E.
Qed.

Lemma gate_stale_stays stale specs r : gate_stale stale specs = Ok r -> stays_in specs r.
Proof.
  revert r. induction specs as [|s specs IH]; intros r; cbn; [intros [= <-]; split; [done|constructor]|].
  destruct (build s) as [c|] eqn:Hb; cbn; [|done]. destruct (gate_stale stale specs) as [r'|]; cbn; [|done].
  intros [= <-]. apply build_ok in Hb as (_ & Hf & _).
  destruct (stays_in_weaken specs (s :: specs) r') as [H1 H2]; [set_solver|by apply IH|].
  case_bool_decide; split; cbn; [done| |set_solver|done]. constructor; [cbn; rewrite Hf; by left|done].
Qed.

Lemma chain_split_stays in_cycle recently specs r : chain_split in_cycle recently specs = Ok r -> stays_in specs r.
Proof.
  revert r. induction specs as [|s specs IH]; intros r; cbn; [intros [= <-]; split; [done|constructor]|].
  destruct (blocking_upstream _ _ _) as [[u why]|].
  - destruct (build s) as [c|] eqn:Hb; cbn; [|done]. destruct (chain_split _ _ _) as [r'|]; cbn; [|done].
    intros [= <-]. apply build_ok in Hb as (_ & Hf & _).
    destruct (stays_in_weaken specs (s :: specs) r') as [H1 H2]; [set_solver|by apply IH|].
    split; cbn; [done|]. constructor; [cbn; rewrite Hf; by left|done].
  - destruct (chain_split _ _ _) as [r'|]; cbn; [|done]. intros [= <-].
    destruct (stays_in_weaken specs (s :: specs) r') as [H1 H2]; [set_solver|by apply IH|].
    split; cbn; [set_solver|done].
Qed.

(** What the policy emits and suppresses. *)
Lemma policy_apply_families config prior now specs r : policy_apply config prior now specs = Ok r ->
  Forall (fun c => pc_family c ∈ map cs_family specs) (fst r) /\
  Forall (fun x => sc_family x ∈ map cs_family specs) (snd r).
Proof.
  unfold policy_apply. destruct (foldM _ _ _) as [st|] eqn:E; cbn; [|done]. intros [= <-]. cbn.
  assert (H : forall l st0, l ⊆ specs -> foldM (policy_step config prior now) st0 l = Ok st ->
    Forall (fun c => pc_family c ∈ map cs_family specs) (ps_emitted st0) ->
    Forall (fun x => sc_family x ∈ map cs_family specs) (ps_suppressed st0) ->
    Forall (fun c => pc_family c ∈ map cs_family specs) (ps_emitted st) /\
    Forall (fun x => sc_family x ∈ map cs_family specs) (ps_suppressed st)).
  { clear E. induction l as [|s l IH]; intros st0 Hl E He Hs; cbn in E; [by injection E as <-|].
    destruct (policy_step _ _ _ st0 s) as [st1|] eqn:E1; cbn in E; [|done].
    assert (Hf : cs_family s ∈ map cs_family specs) by (apply list_elem_of_fmap; exists s; set_solver).
    unfold policy_step in E1. destruct (build s) as [c|] eqn:Hb; cbn in E1; [|done].
    apply build_ok in Hb as (_ & Hc & _). destruct (policy_verdict _ _ _ _ _ _) as [v|]; cbn in E1; [|done].
    eapply IH; [set_solver|exact E| |]; destruct v as [[why ev]|]; injection E1 as <-; cbn; try done;
      apply Forall_app; (split; [done|]); constructor; try done; cbn; by rewrite Hc. }
  eapply H; [|exact E|constructor|constructor]. intros x. by rewrite sorted_by_perm.
Qed.

Lemma stays_in_trans specs r r' : stays_in specs r -> stays_in (fst r) r' -> stays_in specs r'.
Proof. intros [H _] H'. by eapply stays_in_weaken. Qed.

(** Every family of a decision is one its rules gave. *)
Lemma decision_families settings rules env context w w' a :
  service_decide settings rules env context w = (w', Ok a) ->
  exists insights specs, evaluate_rules rules insights = Ok specs /\
    Forall (fun c => pc_family c ∈ map cs_family specs) (da_candidates a) /\
    Forall (fun x => sc_family x ∈ map cs_family specs) (da_suppressed a).
Proof.
  unfold service_decide. destruct (decision_load _ _ _ _ _) as [[current prior]|]; cbn [mbind res_bind]; [|done].
  destruct (evaluate_rules rules _) as [specs|] eqn:Hr; cbn [mbind res_bind]; [|done].
  destruct (gate_families context specs) as [[s0 d0]|] eqn:H0; cbn [mbind res_bind]; [|done].
  destruct (remaining_exec_capacity _ _ _) as [remaining|]; cbn [mbind res_bind]; [|done].
  destruct (if (remaining <? _)%Z then _ else _) as [usage recorded]. destruct recorded as [u|]; cbn [mbind res_bind]; [|done].
  destruct (gate_all _ _ _ s0) as [[s1 d1]|] eqn:H1; cbn [mbind res_bind fst snd]; [|done].
  unfold select_candidates. destruct (count_proposals_last_24h _ _) as [recent|]; cbn [mbind res_bind]; [|done].
  destruct (gate_all _ _ _ s1) as [[s2 d2]|] eqn:H2; cbn [mbind res_bind fst snd]; [|done].
  destruct (stale_open_dedup_keys _ _ _ _) as [stale|]; cbn [mbind res_bind]; [|done].
  destruct (gate_stale_open stale s2) as [[s3 d3]|] eqn:H3; cbn [mbind res_bind fst snd]; [|done].
  destruct (chain_apply _ _ _ _) as [[s4 d4]|] eqn:H4; cbn [mbind res_bind fst snd]; [|done].
  destruct (policy_apply _ _ _ _) as [[cands d5]|] eqn:H5; cbn [mbind res_bind fst snd]; [|done].
  destruct (dn_write env); intros [= _ <-]. exists (ia_insights current), specs. split; [exact Hr|].
  apply gate_families_stays in H0. apply gate_all_stays in H1, H2.
  assert (S3 : stays_in s2 (s3, d3)).
  { unfold gate_stale_open in H3. case_bool_decide; [|by eapply gate_stale_stays].
    injection H3 as <- <-. split; [done|constructor]. }
  unfold chain_apply in H4. destruct (recently_emitted_families _ _); cbn [mbind res_bind] in H4; [|done].
  apply chain_split_stays in H4. apply policy_apply_families in H5 as [P1 P2].
  pose proof (stays_in_trans _ _ _ H0 H1) as T1. pose proof (stays_in_trans _ _ _ T1 H2) as T2.
  pose proof (stays_in_trans _ _ _ T2 S3) as T3. pose proof (stays_in_trans _ _ _ T3 H4) as [Hsub T4].
  assert (Hin : forall f, f ∈ map cs_family s4 -> f ∈ map cs_family specs).
  { intros f (s & -> & Hs)%list_elem_of_fmap. apply list_elem_of_fmap. exists s. auto. }
  cbn [da_candidates da_suppressed decision_artifact snd] in *. split.
  - eapply Forall_impl; [exact P1|]. auto.
  - rewrite !Forall_app. destruct H0, T1, T2, T3. split_and!; try done.
    eapply Forall_impl; [exact P2|]. auto.
Qed.

(** The decisions of the program: with the rules of the program, whatever the
    tuning, the settings and the stored files. *)
Definition decided (a : ProposalCandidatesArtifact) : Prop :=
  exists float_str settings tuning env context w w',
    service_decide settings (build_rules float_str tuning) env context w = (w', Ok a).

Definition known_family (f : string) : Prop := f ∈ rule_families.

Lemma decided_families a : decided a ->
  Forall (fun c => known_family (pc_family c)) (da_candidates a) /\
  Forall (fun x => known_family (sc_family x)) (da_suppressed a).
Proof.
  intros (float_str & settings & tuning & env & context & w & w' & H).
  apply decision_families in H as (insights & specs & Hr & Hc & Hs).
  pose proof (evaluate_rules_families _ _ _ _ (rules_of_families float_str tuning insights) Hr) as Hf.
  assert (Hin : forall f, f ∈ map cs_family specs -> known_family f).
  { intros f (s & -> & Hin)%list_elem_of_fmap. exact (proj1 (Forall_forall _ _) Hf _ Hin). }
  split; eapply Forall_impl; eauto.
Qed.

(** ** The families of the proposals *)

Definition result_family (r : proposal_result) : string :=
  match r with Created c => cre_family c | Skipped s => ski_family s | Failed f => fai_family f end.

Section Proposals.
Context (settings : ProposerSettings) (limits : ExecutionControlSettings) (guards : guardrails)
        (env : proposer_env) (context : ProposerIntegrationContext).

Lemma process_family queue n c decision insight w w' r :
  process settings limits guards env context queue n c decision insight w = (w', Ok r) ->
  result_family r = pc_family c.
Proof.
  unfold process. repeat (case_match; [by intros [= _ <-]|]).
  unfold propose. destruct (draft_of _ _ _ _ _ _ w) as [w1 [draft|e]]; [|by intros [= _ <-]].
  unfold se_bind. destruct (evaluate _ _ _ _ _ _ w1) as [w2 [guard|]]; [|done].
  destruct (negb _); [by intros [= _ <-]|]. destruct (px_dry_run context); [by intros [= _ <-]|].
  unfold se_try. destruct (create_and_comment _ _ _ _ w2) as [w3 [r'|e]] eqn:E; [|by intros [= _ <-]].
  intros [= _ <-]. unfold create_and_comment, se_bind, se_ret in E.
  destruct (create_issue _ _ _ _ _ w2) as [w4 [issue|]]; [|done].
  destruct (se_lift _ w4) as [w5 [text|]]; [|done].
  destruct (comment_issue _ _ _ w5) as [w6 [u|]]; [|done]. by injection E as _ <-.
Qed.

Lemma process_all_families queue done_ cands decision insight w w' l :
  process_all settings limits guards env context queue done_ cands decision insight w = (w', Ok l) ->
  forall r, r ∈ l -> r ∈ done_ \/ result_family r ∈ map pc_family cands.
Proof.
  revert done_ w. induction cands as [|c cands IH]; intros done_ w; cbn [process_all].
  { intros [= _ <-] r Hr. by left. }
  unfold se_bind. destruct (process _ _ _ _ _ _ _ c _ _ w) as [w1 [r0|]] eqn:E; [|done].
  apply process_family in E. intros H r Hr.
  destruct (IH _ _ H r Hr) as [[Hd|Hd%list_elem_of_singleton]%elem_of_app|Hin]; [by left| |right; by right].
  right. subst r. rewrite E. by left.
Qed.

(** Every family of a result is one its decision emitted. *)
Lemma proposer_families w w' a :
  proposer_run settings limits guards env context w = (w', Ok a) ->
  exists decision insight, candidates_load env (px_repo_filter context) (px_decision_run_id context) =
      Ok (decision, insight) /\
    Forall (fun c => cre_family c ∈ map pc_family (da_candidates decision)) (ra_created a) /\
    Forall (fun c => ski_family c ∈ map pc_family (da_candidates decision)) (ra_skipped a) /\
    Forall (fun c => fai_family c ∈ map pc_family (da_candidates decision)) (ra_failed a).
Proof.
  unfold proposer_run, se_bind, se_lift.
  destruct (candidates_load _ _ _) as [[decision insight]|] eqn:El; [|done].
  destruct (queue_gate _ _ w) as [w1 [queue|]]; [|done].
  destruct (process_all _ _ _ _ _ _ _ _ _ _ w1) as [w2 [l|]] eqn:Ep; [|done].
  destruct (write_results _ _ w2) as [w3 [u|]]; [|done]. intros [= _ <-].
  exists decision, insight. split; [done|].
  assert (Hl : forall r, r ∈ l -> result_family r ∈ map pc_family (da_candidates decision)).
  { intros r Hr. destruct (process_all_families _ _ _ _ _ _ _ _ Ep r Hr) as [Hn|Hin]; [by apply elem_of_nil in Hn|].
    apply list_elem_of_fmap in Hin as (c & -> & Hc). apply elem_of_filter_bool in Hc as [Hc _].
    apply list_elem_of_fmap. by exists c. }
  cbn [ra_created ra_skipped ra_failed results_artifact]. unfold created_results, skipped_results, failed_results.
  split_and!; apply Forall_forall; intros x (r & Hr & E)%list_elem_of_omap; specialize (Hl r Hr);
    destruct r; try discriminate E; injection E as <-; exact Hl.
Qed.
End Proposals.

(** The results of the program: of a decision of the program. *)
Definition proposed (r : ProposalResultsArtifact) : Prop :=
  exists settings limits guards env context w w',
    proposer_run settings limits guards env context w = (w', Ok r) /\
    match qe_decisions env with Ok l => Forall decided l | Raise _ => True end.

Lemma proposed_families r : proposed r ->
  Forall (fun c => known_family (cre_family c)) (ra_created r) /\
  Forall (fun c => known_family (ski_family c)) (ra_skipped r) /\
  Forall (fun c => known_family (fai_family c)) (ra_failed r).
Proof.
  intros (settings & limits & guards & env & context & w & w' & H & Hd).
  apply proposer_families in H as (decision & insight & Hload & H).
  assert (Hdec : decided decision).
  { unfold candidates_load in Hload. destruct (qe_decisions env) as [l|]; cbn [mbind res_bind] in Hload; [|done].
    destruct (newest_first _ l) as [l'|] eqn:En; cbn [mbind res_bind] in Hload; [|done].
    apply newest_first_spec in En as [Hp _]. set (kept := if opt_truthy _ then List.filter _ _ else _) in Hload.
    assert (Hk : kept ⊆ l).
    { intros x Hx. rewrite <-Hp. unfold kept in Hx. destruct (opt_truthy _); [|done].
      by apply elem_of_filter_bool in Hx as [Hx _]. }
    assert (Hin : decision ∈ kept).
    { destruct (opt_truthy (px_decision_run_id context)).
      - destruct (find_first _ kept) as [d|] eqn:Ef; cbn [mbind res_bind] in Hload; [|done].
        apply List.find_some in Ef as [Hin _]. 
        destruct (qe_insight env _) as [[|]|]; cbn in Hload; try done. injection Hload as -> _.
        by apply list_elem_of_In.
      - destruct kept as [|d kept']; cbn [mbind res_bind] in Hload; [done|].
        destruct (qe_insight env _) as [[|]|]; cbn in Hload; try done. injection Hload as -> _. by left. }
    exact (proj1 (Forall_forall _ _) Hd _ (Hk _ Hin)). }
  apply decided_families in Hdec as [Hc _].
  assert (Hin : forall f, f ∈ map pc_family (da_candidates decision) -> known_family f).
  { intros f (c & -> & Hf)%list_elem_of_fmap. exact (proj1 (Forall_forall _ _) Hc _ Hf). }
  destruct H as (H1 & H2 & H3). split_and!; eapply Forall_impl; eauto.
Qed.

(** ** The families of the tuning metrics *)

(** An artifact whose items are all of known families. *)
Definition clean (data : dict) : Prop :=
  forall key, Forall (fun item => known_family (text_of item "family" "")) (iter_list data key).

Lemma iter_list_other (data : dict) key : (forall l, data !! key <> Some (JList l)) -> iter_list data key = [].
Proof. unfold iter_list, get_or. destruct (data !! key) as [[]|]; cbn; try done. intros H. by destruct (H l). Qed.

Lemma iter_list_map {A} (data : dict) key (f : A -> list (string * jval)) l :
  data !! key = Some (JList (map (fun x => JObj (f x)) l)) -> iter_list data key = map (fun x => list_to_map (f x)) l.
Proof.
  intros H. unfold iter_list, get_or. rewrite H. cbn. clear H. induction l as [|x l IH]; [done|]. cbn. by rewrite IH.
Qed.

Lemma decision_json_clean a : decided a -> exists data, as_dict (decision_json a) = Ok data /\ clean data.
Proof.
  intros [Hc Hs]%decided_families. eexists. split; [reflexivity|]. intros key.
  destruct (decide (key = "candidates")) as [->|H1].
  { erewrite iter_list_map by reflexivity. by apply Forall_map. }
  destruct (decide (key = "suppressed")) as [->|H2].
  { erewrite iter_list_map by reflexivity. by apply Forall_map. }
  rewrite iter_list_other; [constructor|]. intros l E%elem_of_list_to_map_2. rewrite !elem_of_cons, elem_of_nil in E.
  naive_solver.
Qed.

Lemma results_json_clean r : proposed r -> exists data, as_dict (results_json r) = Ok data /\ clean data.
Proof.
  intros (Hc & Hs & Hf)%proposed_families. eexists. split; [reflexivity|]. intros key.
  destruct (decide (key = "created")) as [->|H1].
  { erewrite iter_list_map by reflexivity. by apply Forall_map. }
  destruct (decide (key = "skipped")) as [->|H2].
  { erewrite iter_list_map by reflexivity. by apply Forall_map. }
  destruct (decide (key = "failed")) as [->|H3].
  { erewrite iter_list_map by reflexivity. by apply Forall_map. }
  rewrite iter_list_other; [constructor|]. intros l E%elem_of_list_to_map_2. rewrite !elem_of_cons, elem_of_nil in E.
  naive_solver.
Qed.

(** A stored file: unreadable, or an artifact of the program. *)
Definition stored_decision (f : json_file) : Prop :=
  forall v, f = FileHolds v -> exists a, decided a /\ v = decision_json a.
Definition stored_result (f : json_file) : Prop :=
  forall v, f = FileHolds v -> exists r, proposed r /\ v = results_json r.

Definition clean_file (f : json_file) : Prop :=
  forall v, f = FileHolds v -> exists data, as_dict v = Ok data /\ clean data.

Lemma live_artifacts_clean files l : Forall clean_file files -> live_artifacts files = Ok l -> Forall clean l.
Proof.
  intros H. revert l. induction H as [|f files Hf _ IH]; intros l; cbn [live_artifacts]; [by intros [= <-]|].
  destruct f as [|e|v]; [by apply IH|by apply IH|].
  destruct (Hf v eq_refl) as (data & -> & Hd). cbn [mbind res_bind].
  destruct (live_artifacts files) as [others|]; cbn [mbind res_bind]; [|done].
  destruct (jtruthy _); intros [= <-]; [by apply IH|]. constructor; [done|by apply IH].
Qed.

Lemma tally_known data key m : clean data -> set_Forall known_family (dom m) ->
  set_Forall known_family (dom (tally data key m)).
Proof.
  intros Hd. specialize (Hd key). unfold tally. revert m. induction Hd as [|item l Hi _ IH]; intros m Hm; [done|].
  cbn [fold_left]. apply IH. unfold bump. destruct (str_truthy _); [|done].
  intros f Hf. apply dom_insert, elem_of_union in Hf as [->%elem_of_singleton|Hf]; auto.
Qed.

Lemma results_known results : Forall clean results ->
  map_Forall (fun _ d => clean d) (proposer_by_decision results).
Proof.
  intros H. unfold proposer_by_decision. enough (G : forall m, map_Forall (fun _ d => clean d) m ->
    map_Forall (fun _ d => clean d) (fold_left (fun (m : gmap string dict) data =>
      let src := text_of data "source_decision_run_id" "" in
      if str_truthy src then <[src := data]> m else m) results m)) by apply G, map_Forall_empty.
  induction H as [|data l Hd _ IH]; intros m Hm; [done|]. cbn [fold_left]. apply IH. cbv zeta.
  destruct (str_truthy _); [by apply map_Forall_insert_2|done].
Qed.

Lemma tallies_known proposed_ artifacts t : map_Forall (fun _ d => clean d) proposed_ -> Forall clean artifacts ->
  set_Forall known_family (all_families t) ->
  set_Forall known_family (all_families (fold_left (tally_artifact proposed_) artifacts t)).
Proof.
  intros Hp H. revert t. induction H as [|data l Hd _ IH]; intros t Ht; [done|]. cbn [fold_left]. apply IH.
  unfold all_families in *. cbn [tally_artifact tl_emitted tl_suppressed tl_created tl_skipped tl_failed].
  assert (Hw : forall key m, set_Forall known_family (dom m) -> set_Forall known_family (dom
            (match proposed_ !! text_of data "run_id" "" with Some p => tally p key m | None => m end))).
  { intros key m Hm. destruct (proposed_ !! _) as [p|] eqn:Ep; [|done]. apply tally_known; [|done].
    exact (Hp _ _ Ep). }
  intros f Hf. rewrite !elem_of_union in Hf.
  destruct Hf as [[[[Hf|Hf]|Hf]|Hf]|Hf]; revert f Hf;
    [apply tally_known; [done|]|apply tally_known; [done|]|apply Hw|apply Hw|apply Hw];
    intros f Hf; apply Ht; set_solver.
Qed.

(** Every recommendation is for a family the rules know. *)
Lemma recommendations_known files context a :
  Forall clean_file (tu_decisions files) -> Forall clean_file (tu_results files) ->
  regulator_run files context = Ok a -> Forall (fun r => known_family (tr_family r)) (ta_recommendations a).
Proof.
  intros Hd Hr. unfold regulator_run, aggregate_family_metrics.
  destruct (live_artifacts (slice_to _ _)) as [artifacts|] eqn:Ea; cbn [mbind res_bind]; [|done].
  apply live_artifacts_clean in Ea; [|by unfold slice_to; destruct (0 <=? _)%Z; apply Forall_take].
  destruct artifacts as [|d0 rest]; [by intros [= <-]|].
  destruct (live_artifacts (tu_results files)) as [results|] eqn:Er; cbn [mbind res_bind]; [|done].
  apply live_artifacts_clean in Er; [|done]. apply results_known in Er.
  destruct (issue_to_family _) as [issues|]; cbn [mbind res_bind]; [|done].
  destruct (feedback_counts _ _) as [feedback|]; cbn [mbind res_bind]; [|done]. cbv zeta.
  destruct (dt_best (fun x b => dt_lt x b) _) as [start|]; cbn [mbind res_bind]; [|done].
  destruct (dt_best _ _) as [end_|]; cbn [mbind res_bind]; [|done]. intros [= <-]. cbn [ta_recommendations].
  unfold evaluate_metrics. rewrite map_map. apply Forall_map, Forall_forall. intros f Hf.
  assert (Hfam : forall m, tr_family (evaluate_one m) = fm_family m).
  { intros m. unfold evaluate_one. cbv zeta. by repeat match goal with |- tr_family (if ?b then _ else _) = _ => destruct b end. }
  rewrite Hfam. cbn [fm_family metrics_of]. rewrite sorted_by_perm in Hf. apply elem_of_elements in Hf.
  revert f Hf. refine (tallies_known _ (d0 :: rest) _ Er Ea _). intros f Hf. exfalso. revert Hf.
  unfold all_families, no_tallies. cbn. rewrite !dom_empty. set_solver.
Qed.

(** ** The gate *)

(** A tuning run over artifacts of the program. *)
Definition tuned_run (a : TuningRunArtifact) : Prop :=
  exists files context, regulator_run files context = Ok a /\
    Forall stored_decision (tu_decisions files) /\ Forall stored_result (tu_results files).

Lemma tuned_run_known a : tuned_run a -> Forall (fun r => known_family (tr_family r)) (ta_recommendations a).
Proof.
  intros (files & context & H & Hd & Hr). eapply recommendations_known; [| |exact H].
  - eapply Forall_impl; [exact Hd|]. intros f Hf v E. destruct (Hf v E) as (x & Hx & ->). by apply decision_json_clean.
  - eapply Forall_impl; [exact Hr|]. intros f Hf v E. destruct (Hf v E) as (x & Hx & ->). by apply results_json_clean.
Qed.

Lemma actions_known recommendations f :
  Forall (fun r => known_family (tr_family r)) recommendations ->
  ~ known_family f -> actions_by_family recommendations !! f = None.
Proof.
  intros H Hf. unfold actions_by_family. enough (G : forall m : gmap string string, m !! f = None ->
    fold_left (fun m r => <[tr_family r := tr_action r]> m) recommendations m !! f = None) by apply G, lookup_empty.
  induction H as [|r l Hr _ IH]; intros m Hm; [done|]. cbn [fold_left]. apply IH.
  rewrite lookup_insert_ne; [done|]. intros E. by rewrite E in Hr.
Qed.

Section Gate.
Context (required : list string) (runs : list (option TuningRunArtifact)).

(** The gates of the class comment. *)
Definition tuning_stable : Prop :=
  exists latest rest, load_recent runs 1 = latest :: rest /\
    Forall (fun f => actions_by_family (ta_recommendations latest) !! f = Some "keep") required.

Definition gates_hold (s : RepoStateSnapshot) : Prop :=
  let sig := sg_execution_health (sn_signals s) in
  (MIN_RUNS <= eh_total_runs sig)%Z /\
  (ratio (eh_no_op_count sig) (eh_total_runs sig) < MAX_NO_OP_RATE)%Q /\
  (eh_validation_failed_count sig <= MAX_VALIDATION_FAILURES)%Z /\ tuning_stable.

Lemma unstable_nil by_family : concat (map (unstable_family by_family) required) = [] <->
  Forall (fun f => by_family !! f = Some "keep") required.
Proof.
  induction required as [|f l IH]; [split; [constructor|done]|]. cbn [map concat].
  rewrite app_nil, Forall_cons, IH. unfold unstable_family.
  destruct (by_family !! f) as [action|]; [|split; intros [? ?]; done].
  destruct (String.eqb action "keep") eqn:E; [apply String.eqb_eq in E as ->; tauto|].
  apply String.eqb_neq in E. split; intros [H _]; congruence.
Qed.

Lemma stable_iff : check_tuning_stability required runs = [] <-> tuning_stable.
Proof.
  unfold check_tuning_stability, tuning_stable. destruct (load_recent runs 1) as [|latest rest].
  { split; [done|]. by intros (? & ? & ? & _). }
  destruct (concat _) as [|x l] eqn:E; cbn [list_truthy].
  - split; [|done]. intros _. exists latest, rest. split; [done|]. by apply unstable_nil.
  - split; [done|]. intros (latest' & rest' & [= -> ->] & H). apply unstable_nil in H. by rewrite H in E.
Qed.

Lemma health_check_iff s : health_check required runs s = [] <-> gates_hold s.
Proof.
  unfold health_check, gates_hold. cbv zeta. set (sig := sg_execution_health (sn_signals s)).
  rewrite !app_nil, stable_iff. unfold MIN_RUNS.
  destruct (Z.ltb_spec (eh_total_runs sig) 10); [split; [by intros [? _]|lia]|].
  rewrite (proj2 (Z.ltb_lt 0 _)) by lia. cbn [andb].
  destruct (Qle_b MAX_NO_OP_RATE _) eqn:Eq.
  { apply Qle_b_spec in Eq. split; [by intros (_ & ? & _)|]. intros (_ & Hlt & _). exfalso.
    by apply (Qlt_not_le _ _ Hlt). }
  assert (Hlt : (ratio (eh_no_op_count sig) (eh_total_runs sig) < MAX_NO_OP_RATE)%Q).
  { apply Qnot_le_lt. intros Hle%Qle_b_spec. by rewrite Hle in Eq. }
  destruct (Z.ltb_spec MAX_VALIDATION_FAILURES (eh_validation_failed_count sig)); [split; [by intros (_ & _ & ? & _)|lia]|].
  tauto.
Qed.

(** Why a required family holds the work up. *)
Definition unmet (by_family : gmap string string) (f text : string) : Prop :=
  (by_family !! f = None /\ text = f +:+ ": no recommendation in latest tuning run") \/
  (exists action, by_family !! f = Some action /\ action <> "keep" /\
     text = f +:+ ": recommendation is '" +:+ action +:+ "', need 'keep'").

(** The reasons to block the work, one for each gate that fails; the one of the
    tuning names every required family that is not kept. *)
Definition tuning_reason (text : string) : Prop :=
  (load_recent runs 1 = [] /\ text = "no tune-autonomy run on record — run tune-autonomy first") \/
  (exists latest rest unmets, load_recent runs 1 = latest :: rest /\ unmets <> [] /\
     let by_family := actions_by_family (ta_recommendations latest) in
     Forall2 (unmet by_family) (filter (fun f => by_family !! f <> Some "keep") required) unmets /\
     text = "tuning not stable: " +:+ join "; " unmets).

Definition reason_to_block (s : RepoStateSnapshot) (text : string) : Prop :=
  let sig := sg_execution_health (sn_signals s) in
  let total := eh_total_runs sig in
  let rate := ratio (eh_no_op_count sig) total in
  ((total < MIN_RUNS)%Z /\
   text = "insufficient execution history: " +:+ str_of_Z total +:+ " runs, need " +:+ str_of_Z MIN_RUNS) \/
  ((0 < total)%Z /\ (MAX_NO_OP_RATE <= rate)%Q /\
   text = "no-op rate too high: " +:+ pct rate +:+ " (threshold " +:+ pct MAX_NO_OP_RATE +:+ ")") \/
  ((MAX_VALIDATION_FAILURES < eh_validation_failed_count sig)%Z /\
   text = "validation failures present: " +:+ str_of_Z (eh_validation_failed_count sig) +:+ " recent failures") \/
  tuning_reason text.

Lemma unstable_kept by_family f : by_family !! f = Some "keep" -> unstable_family by_family f = [].
Proof. unfold unstable_family. by intros ->. Qed.

Lemma unstable_unmet by_family f : by_family !! f <> Some "keep" ->
  exists t, unstable_family by_family f = [t] /\ forall t', unmet by_family f t' <-> t' = t.
Proof.
  unfold unstable_family, unmet. destruct (by_family !! f) as [action|]; intros Hne.
  - destruct (String.eqb action "keep") eqn:E; [apply String.eqb_eq in E as ->; done|].
    apply String.eqb_neq in E. eexists. split; [done|]. intros t'. split.
    + by intros [[? _]|(x & [= <-] & _ & ->)].
    + intros ->. right. by exists action.
  - eexists. split; [done|]. intros t'. split; [by intros [[_ ->]|(x & ? & _)]|intros ->; by left].
Qed.

Lemma unstable_unmets by_family l u :
  Forall2 (unmet by_family) (filter (fun f => by_family !! f <> Some "keep") l) u <->
  u = concat (map (unstable_family by_family) l).
Proof.
  revert u. induction l as [|f l IH]; intros u; cbn [map concat].
  { split; [by intros ->%Forall2_nil_inv_l|intros ->; constructor]. }
  rewrite filter_cons. case_decide as Hf.
  - destruct (unstable_unmet _ _ Hf) as (t & -> & Ht). split.
    + intros (t' & u' & ->%Ht & ->%IH & ->)%Forall2_cons_inv_l. done.
    + intros ->. constructor; [by apply Ht|]. by apply IH.
  - rewrite IH. destruct (decide (by_family !! f = Some "keep")) as [Hk|Hk]; [by rewrite unstable_kept|by destruct Hf].
Qed.

Lemma elem_of_when (b : bool) (x y : string) : x ∈ (if b then [y] else []) <-> b = true /\ x = y.
Proof. destruct b; [rewrite list_elem_of_singleton|rewrite elem_of_nil]; naive_solver. Qed.

Lemma stability_reason text : text ∈ check_tuning_stability required runs <-> tuning_reason text.
Proof.
  unfold check_tuning_stability, tuning_reason. destruct (load_recent runs 1) as [|latest rest].
  { rewrite list_elem_of_singleton. split; [intros ->; by left|]. by intros [[_ ->]|(? & ? & ? & ? & _)]. }
  set (unstable := concat _). assert (Hu : forall u, Forall2 (unmet (actions_by_family (ta_recommendations latest)))
    (filter (fun f => actions_by_family (ta_recommendations latest) !! f <> Some "keep") required) u <-> u = unstable)
    by (intros; apply unstable_unmets).
  rewrite elem_of_when. split.
  - intros [Ht ->]. right. exists latest, rest, unstable. split; [done|]. split; [by destruct unstable|].
    split; [by apply Hu|done].
  - intros [[? _]|(l' & r' & u & [= <- <-] & Hne & ->%Hu & ->)]; [done|]. split; [by destruct unstable|done].
Qed.

Lemma health_check_reasons s text : text ∈ health_check required runs s <-> reason_to_block s text.
Proof.
  unfold health_check, reason_to_block. cbv zeta.
  rewrite !elem_of_app, !elem_of_when, stability_reason, !andb_true_iff, !Z.ltb_lt, Qle_b_spec. tauto.
Qed.

(** C20: when there are architectural items, all of them are scheduled if there
    have been ten runs, fewer than three in ten without changes, no validation
    failure, and the latest tuning run says keep for every required family;
    otherwise there is no item but one insight, which gives the titles that wait
    and exactly the reasons: one for each gate that fails, with the figures of
    the snapshot, that of the tuning naming every family that is not kept.
    Without architectural items there is no insight at all. *)
Theorem arch_item_scheduled_iff_gates_hold current rest :
  let insights := arch_scheduler required runs (current :: rest) in
  ((exists x, x ∈ insights /\ in_kind (di_insight x) = "arch_backlog_item") <->
   arch_items current <> [] /\ gates_hold current) /\
  (gates_hold current ->
     map (fun x => (in_kind (di_insight x), in_subject (di_insight x))) insights =
     map (fun item => ("arch_backlog_item", bi_title item)) (arch_items current)) /\
  (~ gates_hold current -> arch_items current <> [] -> exists x reasons, insights = [x] /\
     in_kind (di_insight x) = "arch_schedule_blocked" /\
     in_evidence (di_insight x) !! "reasons" = Some (JList (map JStr reasons)) /\
     in_evidence (di_insight x) !! "pending_items" = Some (JList (map (fun i => JStr (bi_title i)) (arch_items current))) /\
     reasons <> [] /\ forall text, text ∈ reasons <-> reason_to_block current text) /\
  (arch_items current = [] -> insights = []).
Proof.
  cbv zeta. unfold arch_scheduler. rewrite <-health_check_iff.
  destruct (arch_items current) as [|item items] eqn:Ei; cbn [list_truthy negb].
  { split_and!; [split; [|by intros [? _]]|done|done|done]. by intros (x & ?%elem_of_nil & _). }
  destruct (health_check required runs current) as [|reason reasons] eqn:Eh; cbn [list_truthy].
  - split_and!; [split; [done|]|intros _; by rewrite map_map|done|done].
    intros _. eexists. split; [by left|done].
  - split_and!; [split; [|by intros [_ ?]]|done| |done].
    + intros (x & Hx & Hk). apply list_elem_of_singleton in Hx as ->. discriminate Hk.
    + intros _ _. eexists _, (reason :: reasons). split_and!; [done|done|done|done|done|].
      intros text. by rewrite <-health_check_reasons, Eh.
Qed.

(** C38: with dependency_drift among the required families, as in the program, no
    item is ever scheduled: whatever the snapshots and whatever tuning runs over
    the program's own decisions and proposals are on record, every insight of
    the scheduler is the one that says blocked, because the rules derive that
    family under another name and the tuning never recommends anything for it. *)
Theorem arch_work_is_never_scheduled snapshots :
  "dependency_drift" ∈ required ->
  Forall (fun o => match o with Some a => tuned_run a | None => True end) runs ->
  Forall (fun x => in_kind (di_insight x) = "arch_schedule_blocked") (arch_scheduler required runs snapshots).
Proof.
  intros Hreq Hruns. destruct snapshots as [|current rest]; [constructor|]. unfold arch_scheduler.
  destruct (arch_items current) as [|item items]; [constructor|]. cbn [list_truthy negb].
  destruct (health_check required runs current) as [|reason reasons] eqn:Eh; [|by repeat constructor].
  apply health_check_iff in Eh as (_ & _ & _ & latest & rest' & Hload & Hkeep). exfalso.
  assert (Hlatest : tuned_run latest).
  { assert (Hin : latest ∈ load_recent runs 1) by (rewrite Hload; by left). unfold load_recent in Hin.
    apply list_elem_of_omap in Hin as (o & Ho & E). cbn in E. subst o.
    refine (proj1 (Forall_forall _ _) Hruns (Some latest) _).
    eapply elem_of_sublist; [exact Ho|apply slice_to_sublist]. }
  pose proof (proj1 (Forall_forall _ _) Hkeep _ Hreq) as H.  cbn beta in H.
  rewrite (actions_known _ "dependency_drift") in H; [done|by apply tuned_run_known|].
  unfold known_family. intros Hk%str_in_spec. vm_compute in Hk. discriminate Hk.
Qed.
End Gate.

(** ** The gate on the sample *)

Definition keep_all : TuningRunArtifact :=
  {| ta_run_id := "tun_1"; ta_generated_at := ins_now; ta_source_command := "tune"; ta_dry_run := true;
     ta_auto_apply := false; ta_window_runs := 20; ta_window_start := None; ta_window_end := None;
     ta_family_metrics := [];
     ta_recommendations :=
       map (fun f => {| tr_family := f; tr_action := "keep"; tr_rationale := ""; tr_confidence := "high";
                        tr_evidence := []; tr_suggested_change := None |})
         ["observation_coverage"; "test_visibility"; "dependency_drift"];
     ta_changes_applied := []; ta_changes_skipped := [] |}.

Definition required_families : list string := ["test_visibility"; "dependency_drift"; "observation_coverage"].

Lemma arch_item_scheduled_iff_gates_hold_witness :
  map (fun x => (in_kind (di_insight x), in_subject (di_insight x)))
    (arch_scheduler required_families [Some keep_all] [snapshot "obs_3" 1 (unseen 12)]) =
  map (fun item => ("arch_backlog_item", bi_title item)) (arch_items (snapshot "obs_3" 1 (unseen 12))) /\
  arch_items (snapshot "obs_3" 1 (unseen 12)) <> [].
Proof.
  split; [|vm_compute; discriminate].
  apply (arch_item_scheduled_iff_gates_hold required_families [Some keep_all] (snapshot "obs_3" 1 (unseen 12)) []).
  apply health_check_iff. vm_compute. reflexivity.
Defined.

Definition empty_run : TuningRunArtifact :=
  {| ta_run_id := "tun_1"; ta_generated_at := ins_now; ta_source_command := "tune"; ta_dry_run := true;
     ta_auto_apply := false; ta_window_runs := 0; ta_window_start := None; ta_window_end := None;
     ta_family_metrics := []; ta_recommendations := []; ta_changes_applied := []; ta_changes_skipped := [] |}.

Lemma arch_work_is_never_scheduled_witness :
  Forall (fun x => in_kind (di_insight x) = "arch_schedule_blocked")
    (arch_scheduler required_families [Some empty_run; None] history).
Proof.
  apply (arch_work_is_never_scheduled required_families [Some empty_run; None] history).
  - right. left.
  - constructor; [|by constructor].
    exists {| tu_decisions := [FileMissing]; tu_results := []; tu_feedback := [] |},
      {| tx_run_id := "tun_1"; tx_generated_at := ins_now; tx_source_command := "tune"; tx_auto_apply := false;
         tx_window := 20; tx_dry_run := false |}.
    split; [reflexivity|]. split; repeat constructor; intros v E; discriminate E.
Defined.
