(* ===== verification/ScheduledTasks.v ===== *)
(** * Scheduled tasks

    scheduled_tasks/runner.py: the entries of the configuration that are due
    become tasks of the board, and the time of the last creation is kept in a
    file.  The hash, the board and the write of the file are arguments; the
    write goes to a temporary file that is renamed, so a failing one leaves the
    file as it was. *)
From Stdlib Require Import Ascii.
From S2P Require Import Prelude PyStr PyData TextLines Regex UsageStore UsageBudget Decision Proposer.

Record ScheduledTask := {
  sd_every : string;
  sd_title : string;
  sd_goal : string;
  sd_repo_key : string;
  sd_kind : string;
  sd_at : option string;
  sd_on_days : option (list string) }.

(** ** Parsing *)

(** [^\s*(\d+)\s*([mhdw])\s*$], ignoring case. *)
Definition INTERVAL_RE : re :=
  seqs [spaces0; Grp 1 (Rep is_digit 1 None true); spaces0;
        Grp 2 (Cls (fun c => has_char (lower_ascii c) "mhdw")); spaces0].
(** [^\s*(\d{1,2}):(\d{2})\s*$]. *)
Definition AT_RE : re :=
  seqs [spaces0; Grp 1 (Rep is_digit 1 (Some 2) true); Cls (Ascii.eqb ":");
        Grp 2 (Rep is_digit 2 (Some 2) true); spaces0].

(** [pattern.match(s)] for a pattern that ends in [\s*$]. *)
Definition match_all (r : re) (s : string) : option caps :=
  run r None s [] (fun _ rest c => match rest with EmptyString => Some c | _ => None end).

Definition int_group (c : caps) (n : nat) : Z := digits_val 0 (default "" (group c n)).

Definition unit_seconds (u : string) : Z :=
  if String.eqb u "m" then 60 else if String.eqb u "h" then 3600 else if String.eqb u "d" then 86400 else 604800.

Definition parse_every (s : string) : res Z :=
  match match_all INTERVAL_RE s with
  | None => Raise (ValueError ("every must be <num><unit> with unit in m/h/d/w; got " +:+ repr s))
  | Some c => Ok (int_group c 1 * unit_seconds (lower (default "" (group c 2))))%Z
  end.

Definition parse_at (s : string) : res (Z * Z) :=
  match match_all AT_RE s with
  | None => Raise (ValueError ("at must be HH:MM; got " +:+ repr s))
  | Some c =>
      let h := int_group c 1 in
      let m := int_group c 2 in
      if (0 <=? h)%Z && (h <=? 23)%Z && (0 <=? m)%Z && (m <=? 59)%Z then Ok (h, m)
      else Raise (ValueError ("at hour/minute out of range: " +:+ repr s))
  end.

Definition DAY_NAMES : list (string * Z) :=
  [("mon", 0); ("tue", 1); ("wed", 2); ("thu", 3); ("fri", 4); ("sat", 5); ("sun", 6)]%Z.

(** ** When an entry is due *)

(** The weekdays that are named; names that are none are left out. *)
Definition named_days (on_days : list string) : list Z :=
  omap (fun d => od_get (str_take 3 (lower (strip d))) DAY_NAMES) (List.filter str_truthy on_days).

Definition start_of_today (now : datetime) : Z := (dt_us now - dt_us now mod days 1)%Z.

(** Whether [now] is within the slack of today's anchor. *)
Definition near_anchor (now : datetime) (slack : Z) (anchor : Z * Z) : bool :=
  let moment := (start_of_today now + hours (fst anchor) + seconds (snd anchor * 60))%Z in
  (Z.abs (dt_us now - moment) <=? seconds slack)%Z.

Definition SLACK_SECONDS : Z := 300.

Definition elapsed_enough (interval : Z) (last_run : option datetime) (now : datetime) : res bool :=
  match last_run with
  | None => Ok true
  | Some t => elapsed <-? dt_diff now t ;; Ok (seconds interval <=? elapsed)%Z
  end.

Definition day_allows (task : ScheduledTask) (now : datetime) : bool :=
  match sd_on_days task with
  | None | Some [] => true
  | Some l => bool_decide (weekday now ∈ named_days l)
  end.

Definition anchor_allows (task : ScheduledTask) (now : datetime) : bool :=
  if opt_truthy (sd_at task) then
    match parse_at (default "" (sd_at task)) with
    | Raise _ => false
    | Ok anchor => near_anchor now SLACK_SECONDS anchor
    end
  else true.

Definition is_due (task : ScheduledTask) (last_run : option datetime) (now : datetime) : res bool :=
  match parse_every (sd_every task) with
  | Raise _ => Ok false
  | Ok interval =>
      enough <-? elapsed_enough interval last_run now ;;
      Ok (if enough : bool then day_allows task now && anchor_allows task now else false)
  end.

Section Scheduler.
(** [hashlib.sha256(...).hexdigest()]. *)
Context (sha256 : string -> string).

Definition task_key (task : ScheduledTask) : string :=
  str_take 16 (sha256 (sd_title task +:+ "|" +:+ sd_repo_key task)).

(** The state as it is read: what is not readable is empty, and so is what is
    not truthy. *)
Definition read_state (f : json_file) : jval :=
  match f with
  | FileHolds v => if jtruthy v then v else JObj []
  | _ => JObj []
  end.

(** [last_run_map.get(key)], its [replace] and the parsing. *)
Definition last_run_of (state : jval) (key : string) : res (option datetime) :=
  match state with
  | JObj l =>
      let v := dget (list_to_map l) key in
      if jtruthy v then
        match v with
        | JTime t => Ok (Some t)
        | JStr _ => Ok None
        | _ => Raise (NamedError "AttributeError" "object has no attribute 'replace'")
        end
      else Ok None
  | _ => Raise no_get
  end.

Fixpoint due_of (tasks : list ScheduledTask) (state : jval) (now : datetime) : res (list ScheduledTask) :=
  match tasks with
  | [] => Ok []
  | task :: rest =>
      last_run <-? last_run_of state (task_key task) ;;
      due <-? is_due task last_run now ;;
      others <-? due_of rest state now ;;
      Ok (if due : bool then task :: others else others)
  end.

Definition due_tasks (tasks : list ScheduledTask) (f : json_file) (now : datetime) : res (list ScheduledTask) :=
  match tasks with [] => Ok [] | _ => due_of tasks (read_state f) now end.

(** ** The runner *)

Record schedule_world := { sw_ops : list board_op; sw_state : json_file }.

Definition task_description (task : ScheduledTask) : string :=
  join nl ["## Goal"; sd_goal task; ""; "## Execution"; "repo: " +:+ sd_repo_key task; "mode: " +:+ sd_kind task; "";
           "## Provenance"; "source: scheduled_tasks"; "every: " +:+ sd_every task; ""].

Definition task_labels (task : ScheduledTask) : list string :=
  ["task-kind: " +:+ sd_kind task; "repo: " +:+ sd_repo_key task; "source: scheduled-task"; "source: autonomy"].

Definition create_op (task : ScheduledTask) : board_op :=
  BO_create (sd_title task) (task_description task) "Ready for AI" (task_labels task).

(** The new entries of the state and the ids of the created tasks. *)
Definition progress := (list (string * jval) * list string)%type.

Section Tick.
Context (tasks : list ScheduledTask) (board : proposal_board) (write : res unit) (now : datetime).

(** One due task: what the board raises or an answer without an id leaves the
    entry as it was. *)
Definition create_one (ops : list board_op) (task : ScheduledTask) (p : progress) : list board_op * progress :=
  let ops := ops ++ [create_op task] in
  (ops, match pb_create board ops with
        | Raise _ => p
        | Ok issue =>
            let id := text_or issue "id" "" in
            if str_truthy id then (od_set (task_key task) (JTime now) (fst p), snd p ++ [id]) else p
        end).

Definition create_all (due : list ScheduledTask) (ops : list board_op) (p : progress) : list board_op * progress :=
  fold_left (fun s task => create_one (fst s) task (snd s)) due (ops, p).

(** The state the entries are added to; here it is a dict, or [due_tasks] has
    raised. *)
Definition state_entries (f : json_file) : list (string * jval) :=
  match read_state f with JObj l => l | _ => [] end.

Definition tick (w : schedule_world) : schedule_world * res (list string) :=
  match due_tasks tasks (sw_state w) now with
  | Raise e => (w, Raise e)
  | Ok [] => (w, Ok [])
  | Ok due =>
      let '(ops, (entries, created)) := create_all due (sw_ops w) (state_entries (sw_state w), []) in
      let state := match created, write with
                   | _ :: _, Ok _ => FileHolds (JObj entries)
                   | _, _ => sw_state w
                   end in
      ({| sw_ops := ops; sw_state := state |}, Ok created)
  end.
End Tick.
End Scheduler.

(** ** What is due, in closed form *)

Lemma is_due_iff task last_run now interval :
  parse_every (sd_every task) = Ok interval ->
  match last_run with Some t => dt_aware t = dt_aware now | None => True end ->
  is_due task last_run now =
  Ok (match last_run with Some t => (seconds interval <=? dt_us now - dt_us t)%Z | None => true end &&
      day_allows task now && anchor_allows task now).
Proof.
  intros Hp Ha. unfold is_due, elapsed_enough. rewrite Hp. destruct last_run as [t|]; [|done].
  unfold dt_diff, same_kind. rewrite Ha, eqb_reflx. cbn [mbind res_bind].
  by destruct (seconds interval <=? _)%Z.
Qed.

(** ** The state over many ticks *)

(** Every entry is a time with an offset, as the runner writes them. *)
Definition stamped (kv : string * jval) : Prop := exists t, snd kv = JTime t /\ dt_aware t = true.
Definition clean_state (f : json_file) : Prop :=
  match f with FileHolds (JObj l) => Forall stamped l | FileHolds _ => False | _ => True end.

Lemma od_set_stamped k t l : dt_aware t = true -> Forall stamped l -> Forall stamped (od_set k (JTime t) l).
Proof.
  intros Ht. induction 1 as [|[k' v'] l Hx Hl IH]; [by repeat constructor; exists t|].
  cbn. case_bool_decide; constructor; eauto. by exists t.
Qed.

Lemma dget_od_set_eq k v l : dget (list_to_map (od_set k v l)) k = v.
Proof.
  induction l as [|[k' v'] l IH]; cbn; [by rewrite dget_insert_eq|].
  case_bool_decide as E; cbn; [by rewrite dget_insert_eq|]. by rewrite dget_insert_ne.
Qed.

Lemma dget_od_set_ne k k' v l : k <> k' -> dget (list_to_map (od_set k v l)) k' = dget (list_to_map l) k'.
Proof.
  intros Hne. induction l as [|[k0 v0] l IH]; cbn; [by rewrite dget_insert_ne|].
  case_bool_decide as E; cbn; [subst; by rewrite !dget_insert_ne|].
  destruct (decide (k0 = k')) as [->|]; [by rewrite !dget_insert_eq|]. by rewrite !dget_insert_ne.
Qed.

Section Schedules.
Context (sha256 : string -> string) (tasks : list ScheduledTask).

Abbreviation key := (task_key sha256).
Abbreviation state_of f := (state_entries f).

Lemma read_clean f : clean_state f -> read_state f = JObj (state_of f) /\ Forall stamped (state_of f).
Proof.
  unfold state_entries. destruct f as [|e|v]; cbn; [by repeat constructor..|].
  destruct v; try done. destruct l; cbn; [by repeat constructor|]. by intros H.
Qed.

(** The stored time of an entry, in a clean state. *)
Definition stored (f : json_file) (task : ScheduledTask) : jval := dget (list_to_map (state_of f)) (key task).

Lemma stored_clean f task : clean_state f ->
  stored f task = JNull \/ exists t, stored f task = JTime t /\ dt_aware t = true.
Proof.
  intros [_ H]%read_clean. unfold stored. induction H as [|[k v] l Hx _ IH]; [by left|]. cbn.
  destruct (decide (k = key task)) as [->|Hne].
  - rewrite dget_insert_eq. right. exact Hx.
  - rewrite dget_insert_ne by done. exact IH.
Qed.

Definition since (v : jval) : option datetime := match v with JTime t => Some t | _ => None end.

Lemma last_run_clean f task : clean_state f -> last_run_of (read_state f) (key task) = Ok (since (stored f task)).
Proof.
  intros H. pose proof (stored_clean f task H) as Hs. apply read_clean in H as [-> _].
  unfold last_run_of. change (dget (list_to_map (state_of f)) (key task)) with (stored f task).
  by destruct Hs as [->|(t & -> & _)].
Qed.

(** Whether an entry is due on a clean state. *)
Definition due_now (f : json_file) (now : datetime) (task : ScheduledTask) : bool :=
  match parse_every (sd_every task) with
  | Raise _ => false
  | Ok interval =>
      match since (stored f task) with
      | Some t => (seconds interval <=? dt_us now - dt_us t)%Z
      | None => true
      end && day_allows task now && anchor_allows task now
  end.

Lemma due_clean f now task : clean_state f -> dt_aware now = true ->
  is_due task (since (stored f task)) now = Ok (due_now f now task).
Proof.
  intros Hc Hn. unfold due_now. destruct (parse_every (sd_every task)) as [interval|e] eqn:E.
  - apply is_due_iff; [done|]. destruct (stored_clean f task Hc) as [->|(t & -> & Ht)]; cbn; [done|congruence].
  - unfold is_due. by rewrite E.
Qed.

Lemma due_tasks_clean f now : clean_state f -> dt_aware now = true ->
  due_tasks sha256 tasks f now = Ok (List.filter (due_now f now) tasks).
Proof.
  intros Hc Hn. enough (H : due_of sha256 tasks (read_state f) now = Ok (List.filter (due_now f now) tasks)).
  { unfold due_tasks. by destruct tasks. }
  induction tasks as [|task rest IH]; [done|]. cbn [due_of].
  rewrite last_run_clean by done. cbn [mbind res_bind]. rewrite due_clean by done. cbn [mbind res_bind].
  rewrite IH. cbn. by destruct (due_now f now task).
Qed.

(** The requests of a tick, and the entries it adds. *)
Lemma create_all_cons board now task due ops p :
  create_all sha256 board now (task :: due) ops p =
  create_all sha256 board now due (ops ++ [create_op task])
    (snd (create_one sha256 board now ops task p)).
Proof. done. Qed.

Lemma create_all_ops board now due ops p : fst (create_all sha256 board now due ops p) = ops ++ map create_op due.
Proof.
  revert ops p. induction due as [|task due IH]; intros ops p; [cbn; by rewrite app_nil_r|].
  rewrite create_all_cons, IH. cbn. by rewrite <-app_assoc.
Qed.

Lemma create_one_stamped board now ops task p : dt_aware now = true -> Forall stamped (fst p) ->
  Forall stamped (fst (snd (create_one sha256 board now ops task p))).
Proof.
  intros Hn Hp. cbn. destruct (pb_create board _) as [issue|e]; cbn; [|done].
  destruct (str_truthy _); [|done]. by apply od_set_stamped.
Qed.

Lemma create_all_stamped board now due ops p : dt_aware now = true -> Forall stamped (fst p) ->
  Forall stamped (fst (snd (create_all sha256 board now due ops p))).
Proof.
  intros Hn. revert ops p. induction due as [|task due IH]; intros ops p Hp; [done|].
  rewrite create_all_cons. by apply IH, create_one_stamped.
Qed.

Lemma create_one_other board now ops task p k : key task <> k ->
  dget (list_to_map (fst (snd (create_one sha256 board now ops task p)))) k = dget (list_to_map (fst p)) k.
Proof.
  intros Hne. cbn. destruct (pb_create board _) as [issue|e]; cbn; [|done].
  destruct (str_truthy _); [|done]. by apply dget_od_set_ne.
Qed.

Lemma create_all_other board now due ops p k : k ∉ map key due ->
  dget (list_to_map (fst (snd (create_all sha256 board now due ops p)))) k = dget (list_to_map (fst p)) k.
Proof.
  revert ops p. induction due as [|task due IH]; intros ops p Hk; [done|].
  rewrite create_all_cons. cbn in Hk. apply not_elem_of_cons in Hk as [Hne Hk].
  rewrite IH by done. by apply create_one_other.
Qed.

(** A board that answers every creation with an id. *)
Definition creates (board : proposal_board) : Prop :=
  forall ops, exists issue, pb_create board ops = Ok issue /\ text_or issue "id" "" <> "".

Lemma create_all_ids board now due ops p : snd p <> [] ->
  snd (snd (create_all sha256 board now due ops p)) <> [].
Proof.
  revert ops p. induction due as [|task due IH]; intros ops p Hp; [done|].
  rewrite create_all_cons. apply IH. cbn. destruct (pb_create board _) as [issue|e]; cbn; [|done].
  destruct (str_truthy _); [|done]. cbn. by destruct (snd p).
Qed.

Lemma create_all_stored board now due ops p k : creates board -> k ∈ map key due ->
  dget (list_to_map (fst (snd (create_all sha256 board now due ops p)))) k = JTime now /\
  snd (snd (create_all sha256 board now due ops p)) <> [].
Proof.
  intros Hb. revert ops p. induction due as [|x due IH]; intros ops p Hin; [by apply elem_of_nil in Hin|].
  rewrite create_all_cons. destruct (decide (k ∈ map key due)) as [Hd|Hd]; [by apply IH|].
  apply elem_of_cons in Hin as [->|Hin]; [|done]. rewrite create_all_other by done. cbn.
  destruct (Hb (ops ++ [create_op x])) as (issue & -> & Hid).
  unfold str_truthy. destruct (String.eqb_spec (text_or issue "id" "") "") as [|_]; [done|]. cbn.
  split; [by apply dget_od_set_eq|]. apply create_all_ids. by destruct (snd p).
Qed.

Lemma same_key x y : NoDup (map key tasks) -> x ∈ tasks -> y ∈ tasks -> key x = key y -> x = y.
Proof.
  intros Hnd Hx Hy E. apply list_elem_of_lookup in Hx as [i Hi], Hy as [j Hj].
  assert (i = j) as ->; [|congruence]. apply (NoDup_lookup (map key tasks) i j (key x)); [done|..];
    rewrite list_lookup_fmap; [by rewrite Hi|by rewrite Hj, E].
Qed.

Definition due_list (f : json_file) (now : datetime) : list ScheduledTask := List.filter (due_now f now) tasks.

Lemma due_list_elem f now task : task ∈ due_list f now <-> task ∈ tasks /\ due_now f now task = true.
Proof. unfold due_list. rewrite !list_elem_of_In, List.filter_In. done. Qed.

(** A tick on a clean state: what it asks for, and the entries and ids it has
    then. *)
Lemma tick_clean board write now w : clean_state (sw_state w) -> dt_aware now = true ->
  let r := create_all sha256 board now (due_list (sw_state w) now) (sw_ops w) (state_entries (sw_state w), []) in
  exists w' ids, tick sha256 tasks board write now w = (w', Ok ids) /\
    sw_ops w' = sw_ops w ++ map create_op (due_list (sw_state w) now) /\
    (sw_state w' = sw_state w \/ sw_state w' = FileHolds (JObj (fst (snd r)))) /\
    (snd (snd r) <> [] -> write = Ok tt -> sw_state w' = FileHolds (JObj (fst (snd r)))).
Proof.
  intros Hc Hn r. unfold tick. rewrite due_tasks_clean by done. fold (due_list (sw_state w) now).
  pose proof (create_all_ops board now (due_list (sw_state w) now) (sw_ops w) (state_entries (sw_state w), [])) as Hops.
  destruct (due_list (sw_state w) now) as [|x due] eqn:Ed.
  { exists w, []. cbn. rewrite app_nil_r. split_and!; [done|done|by left|done]. }
  fold r in Hops |- *. destruct r as [ops [entries created]]. cbn in Hops |- *.
  eexists _, created. split; [done|]. cbn [sw_ops sw_state]. split; [done|].
  destruct created as [|i created]; [split; [by left|done]|].
  destruct write as [[]|e]; [split; [by right|done]|]. by split; [left|].
Qed.

Lemma stored_written entries task : stored (FileHolds (JObj entries)) task = dget (list_to_map entries) (key task).
Proof. unfold stored, state_entries. cbn. by destruct entries. Qed.

Lemma tick_keeps_clean board write now w : clean_state (sw_state w) -> dt_aware now = true ->
  clean_state (sw_state (fst (tick sha256 tasks board write now w))).
Proof.
  intros Hc Hn. destruct (tick_clean board write now w Hc Hn) as (w' & ids & -> & _ & [E|E] & _); cbn; rewrite E; [done|].
  cbn. apply create_all_stamped; [done|]. by apply read_clean in Hc as [_ ?].
Qed.

(** What is not due keeps its stored time. *)
Lemma tick_keeps_stored board write now w task :
  clean_state (sw_state w) -> dt_aware now = true -> NoDup (map key tasks) -> task ∈ tasks ->
  due_now (sw_state w) now task = false ->
  stored (sw_state (fst (tick sha256 tasks board write now w))) task = stored (sw_state w) task.
Proof.
  intros Hc Hn Hnd Hin Hd. destruct (tick_clean board write now w Hc Hn) as (w' & ids & -> & _ & [E|E] & _); cbn; rewrite E; [done|].
  rewrite stored_written. rewrite create_all_other; [done|].
  intros (y & Ey & [Hy Hdy]%due_list_elem)%list_elem_of_fmap.
  rewrite (same_key task y) in Hd by done. congruence.
Qed.

(** What is created is stored with the time of the tick. *)
Lemma tick_stores board now w task :
  clean_state (sw_state w) -> dt_aware now = true -> creates board -> task ∈ tasks ->
  due_now (sw_state w) now task = true ->
  stored (sw_state (fst (tick sha256 tasks board (Ok tt) now w))) task = JTime now.
Proof.
  intros Hc Hn Hb Hin Hd. destruct (tick_clean board (Ok tt) now w Hc Hn) as (w' & ids & -> & _ & _ & Hw); cbn.
  destruct (create_all_stored board now (due_list (sw_state w) now) (sw_ops w) (state_entries (sw_state w), []) (key task))
    as [Hs Hi]; [done|apply list_elem_of_fmap; exists task; split; [done|by apply due_list_elem]|].
  by rewrite Hw, stored_written.
Qed.

(** ** Any number of ticks *)

Record tick_event := { te_board : proposal_board; te_write : res unit; te_now : datetime }.

Definition tick_of (w : schedule_world) (e : tick_event) : schedule_world :=
  fst (tick sha256 tasks (te_board e) (te_write e) (te_now e) w).
Definition run_ticks (w : schedule_world) (l : list tick_event) : schedule_world := fold_left tick_of l w.

Definition aware_event (e : tick_event) : Prop := dt_aware (te_now e) = true.

Lemma run_clean w l : clean_state (sw_state w) -> Forall aware_event l -> clean_state (sw_state (run_ticks w l)).
Proof. intros Hc H. revert w Hc. induction H as [|e l He _ IH]; intros w Hc; [done|]. by apply IH, tick_keeps_clean. Qed.

(** Whether a tick falls before the interval after [t] has passed. *)
Definition within_interval (t : datetime) (interval : Z) (e : tick_event) : Prop :=
  aware_event e /\ (dt_us (te_now e) - dt_us t < seconds interval)%Z.

Lemma not_due_within f task t interval e :
  parse_every (sd_every task) = Ok interval -> stored f task = JTime t -> within_interval t interval e ->
  due_now f (te_now e) task = false.
Proof.
  intros Hp Hs [_ Hlt]. unfold due_now. rewrite Hp, Hs. cbn.
  by rewrite (proj2 (Z.leb_gt _ _)).
Qed.

Lemma same_op x y : create_op x = create_op y -> key x = key y.
Proof. intros [= E1 _ _ E2]. unfold task_key. change (sd_repo_key x = sd_repo_key y) in E2. by rewrite E1, E2. Qed.

Definition asks (task : ScheduledTask) (w w' : schedule_world) : Prop :=
  exists l, sw_ops w' = sw_ops w ++ l /\ create_op task ∈ l.
Definition asks_not (task : ScheduledTask) (w w' : schedule_world) : Prop :=
  exists l, sw_ops w' = sw_ops w ++ l /\ create_op task ∉ l.

(** A tick asks for a task exactly when it is due. *)
Lemma tick_asks w task e :
  clean_state (sw_state w) -> aware_event e -> NoDup (map key tasks) -> task ∈ tasks ->
  if due_now (sw_state w) (te_now e) task then asks task w (tick_of w e) else asks_not task w (tick_of w e).
Proof.
  intros Hc He Hnd Hin. unfold tick_of.
  destruct (tick_clean (te_board e) (te_write e) (te_now e) w Hc He) as (w' & ids & -> & Hops & _). cbn.
  destruct (due_now _ _ task) eqn:Hd; (eexists; split; [exact Hops|]).
  - apply list_elem_of_fmap. exists task. split; [done|]. by apply due_list_elem.
  - intros (y & Ey%same_op & [Hy Hdy]%due_list_elem)%list_elem_of_fmap.
    rewrite (same_key task y) in Hd by done. congruence.
Qed.

Lemma run_within w task t interval l :
  clean_state (sw_state w) -> NoDup (map key tasks) -> task ∈ tasks ->
  parse_every (sd_every task) = Ok interval -> stored (sw_state w) task = JTime t ->
  Forall (within_interval t interval) l ->
  asks_not task w (run_ticks w l) /\ clean_state (sw_state (run_ticks w l)) /\
  stored (sw_state (run_ticks w l)) task = JTime t.
Proof.
  intros Hc Hnd Hin Hp Hs Hl. revert w Hc Hs. induction Hl as [|e l He _ IH]; intros w Hc Hs.
  { split; [exists []; split; [by rewrite app_nil_r|by apply not_elem_of_nil]|done]. }
  pose proof (not_due_within _ _ _ _ _ Hp Hs He) as Hd. destruct He as [Ha Hlt].
  pose proof (tick_asks w task e Hc Ha Hnd Hin) as Hops. rewrite Hd in Hops.
  destruct (IH (tick_of w e)) as (Hrest & Hc' & Hs').
  - by apply tick_keeps_clean.
  - unfold tick_of. by rewrite tick_keeps_stored.
  - split; [|done]. destruct Hops as (l1 & E1 & H1), Hrest as (l2 & E2 & H2).
    exists (l1 ++ l2). change (run_ticks w (e :: l)) with (run_ticks (tick_of w e) l). split; [by rewrite E2, E1, app_assoc|]. by rewrite elem_of_app; intros [|].
Qed.

(** C16: a task that a tick created, with its time stored, is not asked for again by
    any ticks before its interval has passed, whatever boards and disks answer
    and whatever else is created; the first tick after that asks for it if
    weekday and anchor allow. *)
Theorem no_sooner_and_no_later w0 before w board t task interval w1 during e :
  clean_state (sw_state w0) -> Forall aware_event before -> w = run_ticks w0 before ->
  NoDup (map key tasks) -> task ∈ tasks -> parse_every (sd_every task) = Ok interval ->
  creates board -> dt_aware t = true ->
  w1 = tick_of w {| te_board := board; te_write := Ok tt; te_now := t |} -> asks task w w1 ->
  Forall (within_interval t interval) during -> aware_event e ->
  asks_not task w1 (run_ticks w1 during) /\
  ((seconds interval <= dt_us (te_now e) - dt_us t)%Z ->
   day_allows task (te_now e) = true -> anchor_allows task (te_now e) = true ->
   asks task (run_ticks w1 during) (tick_of (run_ticks w1 during) e)).
Proof.
  intros Hc0 Hbefore -> Hnd Hin Hp Hb Ht -> Hasked Hduring He. set (w := run_ticks w0 before) in *.
  set (e0 := {| te_board := board; te_write := Ok tt; te_now := t |}) in *.
  pose proof (run_clean _ _ Hc0 Hbefore : clean_state (sw_state w)) as Hc.
  assert (Hd : due_now (sw_state w) t task = true).
  { pose proof (tick_asks w task e0 Hc Ht Hnd Hin) as H. destruct (due_now (sw_state w) (te_now e0) task) eqn:E; [exact E|].
    destruct H as (l & El & Hl), Hasked as (l' & El' & Hl'). rewrite El in El'. by apply app_inv_head in El' as ->. }
  pose proof (tick_stores board t w task Hc Ht Hb Hin Hd : stored (sw_state (tick_of w e0)) task = JTime t) as Hs.
  destruct (run_within (tick_of w e0) task t interval during) as (Hnot & Hc' & Hs'); try done.
  { by apply tick_keeps_clean. }
  split; [exact Hnot|]. intros Hlate Hday Hanchor.
  pose proof (tick_asks _ task e Hc' He Hnd Hin) as H. unfold due_now in H. rewrite Hp, Hs' in H. cbn [since] in H.
  by rewrite (proj2 (Z.leb_le _ _) Hlate), Hday, Hanchor in H.
Qed.
End Schedules.

(** ** Concrete schedules *)

Example parsing :
  map parse_every ["30m"; "  2h "; "3W"; "1d"] = map Ok [1800; 7200; 1814400; 86400]%Z /\
  forallb (fun s => match parse_every s with Raise _ => true | _ => false end) [""; "1"; "h"; "1y"; "1.5h"] = true /\
  map parse_at ["09:00"; " 9:05"] = [Ok (9, 0); Ok (9, 5)]%Z /\
  forallb (fun s => match parse_at s with Raise _ => true | _ => false end) [""; "9:00am"; "25:00"; "9:60"] = true.
Proof. vm_compute. done. Qed.

Definition plain_key (s : string) : string := s.

Definition audit_task : ScheduledTask :=
  {| sd_every := "1w"; sd_title := "Weekly audit"; sd_goal := "Check for outdated dependencies.";
     sd_repo_key := "ops"; sd_kind := "goal"; sd_at := Some "09:00"; sd_on_days := Some ["Monday"] |}.
Definition hourly_task : ScheduledTask :=
  {| sd_every := "1h"; sd_title := "Hourly scan"; sd_goal := "Scan."; sd_repo_key := "ops"; sd_kind := "goal";
     sd_at := None; sd_on_days := None |}.

Definition open_board : proposal_board :=
  {| pb_list := fun _ => Ok []; pb_create := fun _ => Ok {["id" := JStr "7"]}; pb_comment := fun _ => Ok tt |}.

(** Monday 2026-01-05 at a time of day in seconds, and [weeks] later. *)
Definition monday (weeks secs : Z) : datetime := mk_datetime (days (20458 + 7 * weeks) + seconds secs)%Z true.

Definition ticks_at (l : list (datetime * bool)) : list tick_event :=
  map (fun x : datetime * bool => {| te_board := open_board;
                    te_write := if snd x then Ok tt else Raise (OSError "disk full"); te_now := fst x |}) l.

Definition no_history : schedule_world := {| sw_ops := []; sw_state := FileMissing |}.

Definition titles (w : schedule_world) : list string :=
  omap (fun op => match op with BO_create name _ _ _ => Some name | _ => None end) (sw_ops w).

(** The weekly task of 09:00 ran at 09:04:30.  A week later the cycle comes by
    at 09:04 and 09:06: the first is before the week has passed and the second
    outside the slack, so the week is left out. *)
Example weekly_task_skips_a_week :
  titles (run_ticks plain_key [audit_task] no_history
            (ticks_at [(monday 0 32670, true); (monday 1 32640, true); (monday 1 32760, true)])) = ["Weekly audit"].
Proof. vm_compute. done. Qed.

(** The slack does not reach over midnight. *)
Example no_slack_over_midnight :
  near_anchor (monday 0 60) SLACK_SECONDS (23, 58)%Z = false /\
  near_anchor (monday 0 86340) SLACK_SECONDS (23, 58)%Z = true.
Proof. vm_compute. done. Qed.

(** As long as the state can not be written, every tick creates the task. *)
Example unwritten_state_creates_again :
  titles (run_ticks plain_key [hourly_task] no_history
            (ticks_at [(monday 0 0, false); (monday 0 120, false); (monday 0 240, true); (monday 0 360, true)])) =
  ["Hourly scan"; "Hourly scan"; "Hourly scan"].
Proof. vm_compute. done. Qed.

(** One entry of the file that is no text stops all schedules. *)
Example one_odd_entry_stops_all :
  snd (tick plain_key [audit_task; hourly_task] open_board (Ok tt) (monday 0 32400)
         {| sw_ops := []; sw_state := FileHolds (JObj [("Hourly scan|ops", JInt 5)]) |}) =
  Raise (NamedError "AttributeError" "object has no attribute 'replace'").
Proof. vm_compute. done. Qed.

Lemma no_sooner_and_no_later_witness :
  let w1 := tick_of plain_key [audit_task; hourly_task] no_history
              {| te_board := open_board; te_write := Ok tt; te_now := monday 0 32400 |} in
  asks_not hourly_task w1 (run_ticks plain_key [audit_task; hourly_task] w1 (ticks_at [(monday 0 32520, true)])) /\
  asks hourly_task (run_ticks plain_key [audit_task; hourly_task] w1 (ticks_at [(monday 0 32520, true)]))
    (tick_of plain_key [audit_task; hourly_task]
       (run_ticks plain_key [audit_task; hourly_task] w1 (ticks_at [(monday 0 32520, true)]))
       {| te_board := open_board; te_write := Ok tt; te_now := monday 0 36000 |}).
Proof.
  intros w1.
  destruct (no_sooner_and_no_later plain_key [audit_task; hourly_task] no_history [] no_history open_board
    (monday 0 32400) hourly_task 3600 w1 (ticks_at [(monday 0 32520, true)])
    {| te_board := open_board; te_write := Ok tt; te_now := monday 0 36000 |}) as [H1 H2].
  - exact I.
  - constructor.
  - reflexivity.
  - apply (bool_decide_unpack _). vm_compute. done.
  - right. left.
  - vm_compute. reflexivity.
  - intros ops. exists {["id" := JStr "7"]}. split; [reflexivity|vm_compute; discriminate].
  - reflexivity.
  - reflexivity.
  - exists (map create_op [audit_task; hourly_task]). split; [vm_compute; reflexivity|right; left].
  - repeat constructor.
  - reflexivity.
  - split; [exact H1|]. apply H2; vm_compute; [discriminate|reflexivity|reflexivity].
Defined.
