(* ===== verification/CycleReport.v ===== *)
(** * The report of an autonomy cycle

    [_write_cycle_report] and [_write_quiet_diagnosis] of
    entrypoints/autonomy_cycle/main.py: what a cycle writes about itself, and
    what the newest reports together say about a proposer that files nothing.
    Reports are read back as JSON, so what a malformed one does is written out;
    directories, times of files and writes are arguments. *)
From Stdlib Require Import QArith.
From S2P Require Import Prelude PyStr PyData TextLines UsageStore UsageCooldown UsageBudget UsageSignals UsageInvariants Decision Proposer ObserverModels Tuning Insights DeriversStored.

(** ** The report *)

Record report_file := { rp_path : string; rp_mtime : Z; rp_content : json_file }.

Definition signals_collected (s : RepoSignalsSnapshot) : list string :=
  (if String.eqb (ts_status (sg_test_signal s)) "unknown" then [] else ["test_signal"]) ++
  (if str_in (dd_status (sg_dependency_drift s)) ["unknown"; "not_available"] then [] else ["dependency_drift"]) ++
  (if (0 <? td_todo_count (sg_todo_signal s) + td_fixme_count (sg_todo_signal s))%Z then ["todo_signal"] else []) ++
  (if (0 <? eh_total_runs (sg_execution_health s))%Z then ["execution_health"] else []) ++
  (if list_truthy (sg_backlog s) then ["backlog"] else []) ++
  (if String.eqb (ds_status (sg_lint_signal s)) "unavailable" then [] else ["lint_signal"]) ++
  (if String.eqb (ds_status (sg_type_signal s)) "unavailable" then [] else ["type_signal"]) ++
  (if String.eqb (ci_status (sg_ci_history s)) "unavailable" then [] else ["ci_history"]) ++
  (if String.eqb (vh_status (sg_validation_history s)) "unavailable" then [] else ["validation_history"]).

(** A [Counter] over texts, in the order of the first occurrences. *)
Definition counter_of (l : list string) : list (string * Z) := fold_left Tuning.tick l [].
Definition counter_json (c : list (string * Z)) : jval := JObj (map (fun kv => (fst kv, JInt (snd kv))) c).
Definition texts_json (l : list string) : jval := JList (map JStr l).
Definition len {A} (l : list A) : jval := JInt (Z.of_nat (length l)).

Definition signals_json (s : RepoSignalsSnapshot) : jval :=
  JObj [("test", JStr (ts_status (sg_test_signal s)));
        ("dependency_drift", JStr (dd_status (sg_dependency_drift s)));
        ("lint", JObj [("status", JStr (ds_status (sg_lint_signal s)));
                       ("violation_count", JInt (ds_count (sg_lint_signal s)))]);
        ("type", JObj [("status", JStr (ds_status (sg_type_signal s)));
                       ("error_count", JInt (ds_count (sg_type_signal s)))]);
        ("ci", JObj [("status", JStr (ci_status (sg_ci_history s)));
                     ("failure_rate", JFloat (ci_failure_rate (sg_ci_history s)));
                     ("failing_checks", texts_json (ci_failing_checks (sg_ci_history s)));
                     ("flaky_checks", texts_json (ci_flaky_checks (sg_ci_history s)))]);
        ("validation_history",
           JObj [("status", JStr (vh_status (sg_validation_history s)));
                 ("tasks_analyzed", JInt (vh_tasks_analyzed (sg_validation_history s)));
                 ("tasks_with_repeated_failures", len (vh_tasks_with_repeated_failures (sg_validation_history s)));
                 ("overall_failure_rate", JFloat (vh_overall_failure_rate (sg_validation_history s)))]);
        ("execution_health",
           JObj [("total_runs", JInt (eh_total_runs (sg_execution_health s)));
                 ("no_op_count", JInt (eh_no_op_count (sg_execution_health s)));
                 ("validation_failed_count", JInt (eh_validation_failed_count (sg_execution_health s)))])].

Definition created_json (r : CreatedProposalResult) : jval :=
  JObj [("id", opt_jstr (cre_plane_issue_id r)); ("title", JStr (cre_plane_title r));
        ("family", JStr (cre_family r)); ("dedup_key", JStr (cre_dedup_key r))].

Definition count_in {A} (f : ProposalResultsArtifact -> list A) (prop : option ProposalResultsArtifact) : jval :=
  match prop with Some a => len (f a) | None => JInt 0 end.

Definition propose_json (prop : option ProposalResultsArtifact) : jval :=
  JObj [("run_id", opt_jstr (ra_run_id <$> prop));
        ("created", count_in ra_created prop); ("skipped", count_in ra_skipped prop);
        ("failed", count_in ra_failed prop);
        ("tasks", JList (match prop with Some a => map created_json (ra_created a) | None => [] end))].

Definition candidate_json (c : ProposalCandidate) : jval :=
  JObj [("family", JStr (pc_family c)); ("validation_profile", JStr (pc_validation_profile c));
        ("confidence", JStr (pc_confidence c))].

Definition decide_json (decision : ProposalCandidatesArtifact) (emitted : list ProposalCandidate) : jval :=
  JObj [("run_id", JStr (da_run_id decision)); ("candidates_emitted", len emitted);
        ("candidates_suppressed", len (da_suppressed decision));
        ("suppression_reasons", counter_json (counter_of (map sc_reason (da_suppressed decision))));
        ("emitted_families", texts_json (map pc_family emitted));
        ("emitted_candidates", JList (map candidate_json emitted))].

(** What a cycle reports on. *)
Record cycle_results := {
  cr_snapshot : RepoStateSnapshot;
  cr_insights : InsightsArtifact;
  cr_decision : ProposalCandidatesArtifact;
  cr_emitted : list ProposalCandidate;
  cr_proposals : option ProposalResultsArtifact;
  cr_dry_run : bool }.

Definition gated_families : list string := sorted_by str_leb (elements (ALL_FAMILIES ∖ DEFAULT_ALLOWED_FAMILIES)).

Definition report_json (r : cycle_results) (budget_remaining : option Z) (generated_at : datetime) : jval :=
  let s := cr_snapshot r in
  JObj [("generated_at", JTime generated_at); ("dry_run", JBool (cr_dry_run r)); ("repo", JStr (rc_name (sn_repo s)));
        ("stages",
           JObj [("observe", JObj [("run_id", JStr (sn_run_id s));
                                   ("collector_errors", JInt (Z.of_nat (size (sn_collector_errors s))));
                                   ("signals_collected", texts_json (signals_collected (sn_signals s)))]);
                 ("insights", JObj [("run_id", JStr (is_run_id (cr_insights r)));
                                    ("insights_emitted", len (is_insights (cr_insights r)));
                                    ("insights_by_kind", counter_json (counter_of
                                       (map (fun x => in_kind (di_insight x)) (is_insights (cr_insights r)))))]);
                 ("decide", decide_json (cr_decision r) (cr_emitted r));
                 ("propose", propose_json (cr_proposals r))]);
        ("signals", signals_json (sn_signals s));
        ("guard_rail_summary",
           JObj [("budget_remaining", match budget_remaining with Some n => JInt n | None => JNull end);
                 ("families_gated", texts_json gated_families);
                 ("cycle_health",
                    JStr (if bool_decide (sn_collector_errors s = ∅) then "nominal" else "degraded"))])].

(** ** The quiet diagnosis *)

(** The newest first; equal times by the path, the later path first. *)
Definition report_geb (a b : report_file) : bool :=
  (rp_mtime b <? rp_mtime a)%Z || ((rp_mtime a =? rp_mtime b)%Z && str_leb (rp_path b) (rp_path a)).

Definition newest_reports (window : Z) (reports : list report_file) : list report_file :=
  slice_to window (sorted_by report_geb reports).

(** A report that can not be read counts as an empty one. *)
Definition read_report (f : report_file) : jval :=
  match rp_content f with FileHolds v => v | _ => JObj [] end.

Definition stage (report : jval) (name : string) : res jval :=
  stages <-? vget report "stages" (JObj []) ;; vget stages name (JObj []).

(** [_propose_created_count]. *)
Definition propose_created_count (report : jval) : res Z :=
  propose <-? stage report "propose" ;;
  created <-? vget propose "created" JNull ;;
  match created with
  | JNull =>
      decide <-? stage report "decide" ;;
      emitted <-? vget decide "candidates_emitted" JNull ;;
      match emitted with
      | JNull => Ok (-1)%Z
      | _ => n <-? jint emitted ;; Ok (if (n =? 0)%Z then 0 else -1)%Z
      end
  | _ => jint created
  end.

Definition emitted_count (report : jval) : res Z :=
  decide <-? stage report "decide" ;;
  emitted <-? vget decide "candidates_emitted" (JInt (-1)) ;;
  jint (match emitted with JNull => JInt (-1) | v => v end).

(** [all(count(report) == 0 for report in reports)]. *)
Fixpoint all_zero (count : jval -> res Z) (reports : list jval) : res bool :=
  match reports with
  | [] => Ok true
  | r :: rest => n <-? count r ;; if (n =? 0)%Z then all_zero count rest else Ok false
  end.

Record quiet_totals := {
  qt_reasons : list (string * Z);
  qt_skips : list (string * Z);
  qt_families : list jval }.

Definition no_totals : quiet_totals := {| qt_reasons := []; qt_skips := []; qt_families := [] |}.

Definition add_count (k : string) (n : Z) (c : list (string * Z)) : list (string * Z) :=
  od_set k (default 0%Z (od_get k c) + n)%Z c.

Definition add_reason (k : string) (n : Z) (t : quiet_totals) : quiet_totals :=
  {| qt_reasons := add_count k n (qt_reasons t); qt_skips := qt_skips t; qt_families := qt_families t |}.
Definition add_skip (k : string) (t : quiet_totals) : quiet_totals :=
  {| qt_reasons := qt_reasons t; qt_skips := add_count k 1 (qt_skips t); qt_families := qt_families t |}.
Definition add_family (v : jval) (t : quiet_totals) : quiet_totals :=
  {| qt_reasons := qt_reasons t; qt_skips := qt_skips t; qt_families := qt_families t ++ [v] |}.

(** A computation that adds to the totals; what it has added stays when it
    raises. *)
Abbreviation QM := (SE quiet_totals).
Definition qm_add (f : quiet_totals -> quiet_totals) : QM unit := fun t => (f t, Ok tt).

Fixpoint se_each {S A} (f : A -> SE S unit) (l : list A) : SE S unit :=
  match l with
  | [] => se_ret tt
  | x :: rest => _ <<- f x ;; se_each f rest
  end.

Definition as_items (v : jval) : res (list (string * jval)) :=
  match v with JObj l => Ok l | _ => Raise (OtherError "object has no attribute 'items'") end.

Definition count_suppression (kv : string * jval) : QM unit :=
  n <<- se_lift (jint (snd kv)) ;; qm_add (add_reason (fst kv) n).

Definition count_family (v : jval) : QM unit :=
  match v with
  | JList _ | JObj _ => se_lift (Raise (TypeError "unhashable type"))
  | _ => qm_add (add_family v)
  end.

Definition count_skip (item : jval) : QM unit :=
  match item with
  | JObj l =>
      let reason := strip (jtext (jor (dget (list_to_map l) "reason") (JStr ""))) in
      if str_truthy reason then qm_add (add_skip reason) else se_ret tt
  | _ => se_ret tt
  end.

(** One report; [results]: proposal_results.json of a proposer run. *)
Definition aggregate (results : string -> json_file) (report : jval) : QM unit :=
  decide <<- se_lift (stage report "decide") ;;
  reasons <<- se_lift (r <-? vget decide "suppression_reasons" (JObj []) ;; as_items r) ;;
  _ <<- se_each count_suppression reasons ;;
  families <<- se_lift (f <-? vget decide "emitted_families" (JList []) ;; Decision.jiter f) ;;
  _ <<- se_each count_family families ;;
  run_id <<- se_lift (propose <-? stage report "propose" ;; vget propose "run_id" JNull) ;;
  let run_id := strip (jtext (jor run_id (JStr ""))) in
  if str_truthy run_id then
    match results run_id with
    | FileMissing => se_ret tt
    | FileCorrupt e => se_lift (Raise e)
    | FileHolds v =>
        skipped <<- se_lift (s <-? vget v "skipped" (JList []) ;; Decision.jiter s) ;;
        se_each count_skip skipped
    end
  else se_ret tt.

Definition totals_of (results : string -> json_file) (reports : list jval) : quiet_totals :=
  fst (se_each (fun r => se_try (aggregate results r) (fun _ => se_ret tt)) reports no_totals).

(** [sorted(families)]: the reports of the program hold texts; other values are
    not ordered with them. *)
Definition sorted_families (l : list jval) : res (list string) :=
  match mapM jstr l with
  | Some names => Ok (sorted_set names)
  | None => Raise (TypeError "'<' not supported")
  end.

Definition ADVICE (window : Z) : string :=
  "The proposer has created no new tasks for the last " +:+ str_of_Z window +:+ " consecutive cycles. " +:+
  "Common causes: cooldown_active (run more cycles or reduce --cooldown-minutes), " +:+
  "recently_completed_equivalent_task / existing_open_equivalent_task " +:+
  "(the same work is being suppressed instead of recreated), " +:+
  "proposal_budget_too_low (executions are consuming capacity), or " +:+
  "no emitted_families (all signal thresholds below decision rules).".

Definition diagnosis_json (window : Z) (no_candidates : bool) (t : quiet_totals) (families : list string)
    (generated_at : datetime) : jval :=
  JObj [("generated_at", JTime generated_at); ("quiet_window_cycles", JInt window);
        ("all_cycles_had_zero_created", JBool true); ("all_cycles_had_zero_candidates", JBool no_candidates);
        ("diagnosis_kind", JStr (if no_candidates then "proposer_quiet" else "proposer_no_create"));
        ("aggregated_suppression_reasons", counter_json (most_common (qt_reasons t)));
        ("aggregated_skip_reasons", counter_json (most_common (qt_skips t)));
        ("families_active_in_window", texts_json families);
        ("advice", JStr (ADVICE window))].

(** ** Writing both *)

(** The ledger, the reports, the diagnosis, and the counts posted to the
    webhook. *)
Record report_world := {
  rw_usage : file;
  rw_reports : list report_file;
  rw_diagnosis : json_file;
  rw_posted : list Z }.

Definition set_diagnosis (f : json_file) (w : report_world) : report_world :=
  {| rw_usage := rw_usage w; rw_reports := rw_reports w; rw_diagnosis := f; rw_posted := rw_posted w |}.
Definition set_ledger (f : file) (w : report_world) : report_world :=
  {| rw_usage := f; rw_reports := rw_reports w; rw_diagnosis := rw_diagnosis w; rw_posted := rw_posted w |}.
Definition add_posted (n : Z) (w : report_world) : report_world :=
  {| rw_usage := rw_usage w; rw_reports := rw_reports w; rw_diagnosis := rw_diagnosis w;
     rw_posted := rw_posted w ++ [n] |}.
Definition put_report (f : report_file) (w : report_world) : report_world :=
  {| rw_usage := rw_usage w;
     rw_reports := List.filter (fun g => negb (String.eqb (rp_path g) (rp_path f))) (rw_reports w) ++ [f];
     rw_diagnosis := rw_diagnosis w; rw_posted := rw_posted w |}.

Abbreviation RM := (SE report_world).

Record report_env := {
  re_path : string;                          (* cycle_<now>.json *)
  re_now : datetime;
  re_mkdir : res unit;
  re_report_free_mb : option Q;              (* of the directory of the reports *)
  re_write_report : res Z;                   (* the time of the file *)
  re_unlink : res unit;
  re_write_diagnosis : res unit;
  re_results : string -> json_file;
  re_settings : ExecutionControlSettings;    (* of the default ledger *)
  re_free_mb : option Q;                     (* of the directory of the ledger *)
  re_webhook : string;
  re_cooldown_seconds : Z }.

Section Report.
Context (env : report_env).

(** The ids that were counted are not posted; what is posted when the webhook
    fails is lost silently. *)
Definition escalate_quiet (window : Z) : RM unit := fun w =>
  match should_escalate (rw_usage w) (re_now env) "proposer_quiet" 1 (re_cooldown_seconds env) 86400 with
  | Raise e => (w, Raise e)
  | Ok (false, _) => (w, Ok tt)
  | Ok (true, _) =>
      let '(f, r) := record_escalation (re_free_mb env) (rw_usage w) (re_now env) "proposer_quiet" [] in
      (set_ledger f (add_posted window w), r)
  end.

Definition write_quiet_diagnosis (window : Z) : RM unit := fun w =>
  let newest := newest_reports window (rw_reports w) in
  if (Z.of_nat (length newest) <? window)%Z then (w, Ok tt)
  else
    let reports := map read_report newest in
    match all_zero propose_created_count reports with
    | Raise e => (w, Raise e)
    | Ok false => match re_unlink env with Raise e => (w, Raise e) | Ok _ => (set_diagnosis FileMissing w, Ok tt) end
    | Ok true =>
        let totals := totals_of (re_results env) reports in
        match
          none <-? all_zero emitted_count reports ;;
          families <-? sorted_families (qt_families totals) ;;
          _ <-? re_write_diagnosis env ;;
          Ok (diagnosis_json window none totals families (re_now env))
        with
        | Raise e => (w, Raise e)
        | Ok v =>
            (if str_truthy (re_webhook env)
             then se_try (escalate_quiet window) (fun _ => se_ret tt) else se_ret tt) (set_diagnosis (FileHolds v) w)
        end
    end.

Definition QUIET_WINDOW : Z := 5.

Definition budget_remaining (w : report_world) : option Z :=
  match remaining_exec_capacity (re_settings env) (rw_usage w) (re_now env) with Ok n => Some n | Raise _ => None end.

(** [_write_cycle_report]: a disk that is critically low is only printed. *)
Definition write_cycle_report (r : cycle_results) : RM unit := fun w =>
  match re_mkdir env with
  | Raise e => (w, Raise e)
  | Ok _ =>
      match check_disk_space (re_report_free_mb env) with
      | Raise _ => (w, Ok tt)
      | Ok _ =>
          match re_write_report env with
          | Raise e => (w, Raise e)
          | Ok mtime =>
              write_quiet_diagnosis QUIET_WINDOW
                (put_report {| rp_path := re_path env; rp_mtime := mtime;
                               rp_content := FileHolds (report_json r (budget_remaining w) (re_now env)) |} w)
          end
      end
  end.
End Report.

(** ** The ledger has no triage events *)

Definition no_triage (f : file) : Prop :=
  Forall (fun e => has_kind "blocked_triage" e = false) (us_events (load f)).

Lemma filterM_sublist {A} (p : A -> res bool) l l' : filterM p l = Ok l' -> sublist l' l.
Proof.
  revert l'. induction l as [|x l IH]; intros l'; cbn; [by intros [= <-]|].
  destruct (p x) as [[]|e]; cbn; [| |done]; (destruct (filterM p l) as [m|e]; cbn; [|done]); intros [= <-].
  - by apply sublist_skip, IH.
  - by apply sublist_cons, IH.
Qed.

Lemma prune_sublist l now l' : prune_events l now = Ok l' -> sublist l' l.
Proof.
  unfold prune_events. destruct (filterM _ l) as [m|e] eqn:E; cbn; [|done]. intros [= <-].
  apply filterM_sublist in E. etransitivity; [|exact E]. apply sublist_drop.
Qed.

Lemma Forall_sublist {A} (P : A -> Prop) l l' : sublist l' l -> Forall P l -> Forall P l'.
Proof. intros Hs H. apply Forall_forall. intros x Hx. eapply Forall_forall in H; [exact H|]. by eapply elem_of_sublist. Qed.

Section Kept.
Context (P : dict -> Prop).

Definition keeps_events (f : file) (r : file * bool) : Prop :=
  Forall P (us_events (load f)) -> Forall P (us_events (load (fst r))).

Lemma save_kept free_mb data now s :
  save free_mb data now = Ok s -> Forall P (us_events data) -> Forall P (us_events s).
Proof.
  unfold save. destruct (check_disk_space free_mb); cbn; [|done].
  destruct (prune_events (us_events data) now) as [events|e] eqn:E; cbn; [|done].
  destruct (exec_count events (sub_us now (hours 1))); cbn; [|done].
  destruct (exec_count events (sub_us now (days 1))); cbn; [|done]. intros [= <-]. cbn.
  apply Forall_sublist. by eapply prune_sublist.
Qed.

Lemma append_kept free_mb data e now s :
  append_event free_mb data e now = Ok s -> P e -> Forall P (us_events data) -> Forall P (us_events s).
Proof. intros H He Hd. eapply save_kept; [exact H|]. cbn. apply Forall_app. by repeat constructor. Qed.

Lemma exclusive_kept f body :
  (forall s, body (load f) = Ok s -> Forall P (us_events (load f)) -> Forall P (us_events s)) ->
  keeps_events f (drop_result (exclusive f body)).
Proof. intros H Hf. unfold exclusive. destruct (body (load f)) as [s|e]; [by apply H|done]. Qed.

Lemma record_kept free_mb f now e : P e -> keeps_events f (drop_result (record_event free_mb f now e)).
Proof. intros He. apply exclusive_kept. intros s H. by eapply append_kept. Qed.
End Kept.

Lemma opt_field_kind k o e : k <> "kind" -> dget (opt_field k o e) "kind" = dget e "kind".
Proof.
  intros H. unfold opt_field. destruct o as [v|]; [|done]. destruct (str_truthy v); [|done].
  by rewrite dget_insert_ne.
Qed.

Lemma has_kind_opt_field k0 k o e : k <> "kind" -> has_kind k0 (opt_field k o e) = has_kind k0 e.
Proof. intros H. unfold has_kind. by rewrite opt_field_kind. Qed.

Lemma filter_kept {A} (P : A -> Prop) (p : A -> bool) l : Forall P l -> Forall P (List.filter p l).
Proof.
  intros H. apply Forall_forall. intros x Hx%list_elem_of_In. apply List.filter_In in Hx as [Hx _].
  by eapply Forall_forall; [exact H|apply list_elem_of_In].
Qed.

(** No recorder but the one for triage adds such an event. *)
Lemma no_triage_kept settings free_mb f now op :
  match op with UTriage _ _ => False | _ => True end -> no_triage f ->
  no_triage (fst (uapply settings free_mb f now op)).
Proof.
  intros Hop. change (keeps_events (fun e => has_kind "blocked_triage" e = false) f (uapply settings free_mb f now op)).
  destruct op; cbn [uapply]; try done;
    lazymatch goal with
    | |- context [record_execution] => idtac
    | |- context [record_execution_outcome] => idtac
    | |- context [record_skip] => idtac
    | |- context [reset_satiation_window] => idtac
    | |- context [record_task_artifact] => idtac
    | |- context [record_worker_backend_cooldown] => idtac
    | |- context [clear_worker_backend_cooldown] => idtac
    | |- context [record_budget_cap_sample] => idtac
    | |- context [retry_decision] => idtac
    | |- _ => by apply record_kept
    end.
  - apply exclusive_kept. intros s H Hf. cbv zeta in H.
    eapply append_kept; [exact H|by rewrite !has_kind_opt_field|exact Hf].
  - apply record_kept. by rewrite !has_kind_opt_field.
  - apply exclusive_kept. intros s H Hf. eapply append_kept; [exact H| |].
    + by destruct (String.eqb reason "cooldown_active"), (String.eqb reason "no_op").
    + by destruct (String.eqb reason "no_op").
  - apply exclusive_kept. intros s [= <-]. apply filter_kept.
  - apply exclusive_kept. intros s H Hf. eapply save_kept; [exact H|exact Hf].
  - apply exclusive_kept. intros s H Hf. destruct (filterM _ _) as [events|e] eqn:E; [|done].
    apply filterM_sublist in E. eapply append_kept; [exact H| |exact (Forall_sublist _ _ _ E Hf)].
    by destruct limit_kind, model.
  - intros Hf. unfold clear_worker_backend_cooldown, exclusive_with.
    destruct (filterM (cleared _ _ _ _) _) as [dropped|e]; [|done]. cbn [mbind res_bind].
    destruct (filterM _ (us_events (load f))) as [kept|e] eqn:E; [|done]. cbn [mbind res_bind].
    apply filterM_sublist in E.
    destruct (if (_ =? 0)%Z then _ else _) as [s|e] eqn:Es; [|done]. cbn [mbind res_bind].
    destruct (_ =? 0)%Z; [eapply save_kept; [exact Es|]|eapply append_kept; [exact Es|done|]]; cbn;
      by eapply Forall_sublist.
  - unfold record_budget_cap_sample. destruct (Qle_b weighted 0); [by intros Hf|]. cbv zeta.
    destruct (same_episode _ _ _); [by intros Hf|]. apply exclusive_kept. intros s H Hf. eapply save_kept; [exact H|exact Hf].
  - intros Hf. unfold retry_decision, retry_decision_on. cbv zeta. destruct (_ <=? _)%Z; [|done].
    destruct (match last_attempt_timestamp _ _ with Some _ => _ | None => _ end) as [[]|e]; done.
Qed.

(** The ledger after any recordings, on disks in any state, but of triage:
    [record_blocked_triage] has no caller in the program. *)
Definition recording := (option Q * datetime * uop)%type.
Definition not_triage (r : recording) : Prop := match snd r with UTriage _ _ => False | _ => True end.
Definition ledger_after (settings : ExecutionControlSettings) (l : list recording) : file :=
  fold_left (fun f r => fst (uapply settings (fst (fst r)) f (snd (fst r)) (snd r))) l None.

Lemma ledger_no_triage settings l : Forall not_triage l -> no_triage (ledger_after settings l).
Proof.
  unfold ledger_after. assert (Hn : no_triage None) by constructor. revert Hn. generalize (None : file).
  intros f Hf H. revert f Hf. induction H as [|r l Hr _ IH]; intros f Hf; [done|].
  cbn. by apply IH, no_triage_kept.
Qed.

Lemma filterM_none {A} (p : A -> res bool) l r :
  Forall (fun x => p x = Ok false) l -> filterM p l = Ok r -> r = [].
Proof. intros H. rewrite (filterM_ok p (fun _ => false)) by done. intros [= <-]. clear H. by induction l. Qed.

Lemma nothing_to_escalate f now classification cooldown window should ids :
  no_triage f -> should_escalate f now classification 1 cooldown window = Ok (should, ids) -> should = false.
Proof.
  intros Hf. unfold should_escalate, current_events.
  destruct (prune_events (us_events (load f)) now) as [events|e] eqn:Ep; cbn [mbind res_bind]; [|done].
  destruct (filterM (classified_since "escalation_sent" _ _) events) as [[|x sent]|e]; cbn [mbind res_bind]; [|by intros [= <- _]|done].
  destruct (filterM (classified_since "blocked_triage" _ _) events) as [blocks|e] eqn:E; cbn [mbind res_bind]; [|done].
  apply filterM_none in E as ->; [by intros [= <- _]|].
  eapply Forall_impl; [eapply Forall_sublist; [by eapply prune_sublist|exact Hf]|].
  intros x Hx. cbn in Hx. unfold classified_since. by rewrite Hx.
Qed.

(** ** The escalation of a quiet proposer *)

Lemma escalate_quiet_nothing env window w : no_triage (rw_usage w) -> fst (escalate_quiet env window w) = w.
Proof.
  intros Hf. unfold escalate_quiet. destruct (should_escalate _ _ _ _ _ _) as [[should ids]|e] eqn:E; [|done].
  by rewrite (nothing_to_escalate _ _ _ _ _ _ _ Hf E).
Qed.

(** C40: the webhook for a quiet proposer is never called: [should_escalate] asks
    for blocked tasks of the class proposer_quiet, and nothing in the program
    records any; so whatever has been recorded and reported, a cycle's report
    posts nothing and leaves the ledger as it was. *)
Theorem quiet_proposer_is_never_escalated settings recordings env r w :
  Forall not_triage recordings -> rw_usage w = ledger_after settings recordings ->
  let w' := fst (write_cycle_report env r w) in
  rw_posted w' = rw_posted w /\ rw_usage w' = rw_usage w.
Proof.
  intros Hr%(ledger_no_triage settings) Hu. rewrite <-Hu in Hr. clear Hu recordings settings.
  unfold write_cycle_report. destruct (re_mkdir env); [|done]. destruct (check_disk_space _); [|done].
  destruct (re_write_report env) as [mtime|e]; [|done]. unfold write_quiet_diagnosis.
  destruct (_ <? _)%Z; [done|]. cbv zeta. destruct (all_zero propose_created_count _) as [[]|e]; [| |done].
  2: { by destruct (re_unlink env). }
  destruct (none <-? _ ;; _) as [v|e]; [|done]. destruct (str_truthy _); [|done].
  unfold se_try. match goal with |- context [escalate_quiet env ?n ?w0] =>
    pose proof (escalate_quiet_nothing env n w0 Hr) as He; destruct (escalate_quiet env n w0) as [w1 [u|e]] end;
    cbn in He |- *; by subst w1.
Qed.

(** ** When a diagnosis is written *)

Definition created_in (r : cycle_results) : nat :=
  match cr_proposals r with Some a => length (ra_created a) | None => 0 end.

Lemma stage_propose r b t : stage (report_json r b t) "propose" = Ok (propose_json (cr_proposals r)).
Proof. reflexivity. Qed.
Lemma stage_decide r b t : stage (report_json r b t) "decide" = Ok (decide_json (cr_decision r) (cr_emitted r)).
Proof. reflexivity. Qed.

Lemma created_of_report r b t : propose_created_count (report_json r b t) = Ok (Z.of_nat (created_in r)).
Proof.
  unfold propose_created_count. rewrite stage_propose. unfold created_in. by destruct (cr_proposals r).
Qed.
Lemma emitted_of_report r b t : emitted_count (report_json r b t) = Ok (Z.of_nat (length (cr_emitted r))).
Proof. unfold emitted_count. by rewrite stage_decide. Qed.

Lemma all_zero_spec {A} (count : jval -> res Z) (n : A -> nat) reports rs :
  Forall2 (fun v r => count v = Ok (Z.of_nat (n r))) reports rs ->
  all_zero count reports = Ok (forallb (fun r => (n r =? 0)%nat) rs).
Proof.
  induction 1 as [|v r reports rs H _ IH]; [done|]. cbn [all_zero forallb]. rewrite H. cbn [mbind res_bind]. rewrite IH.
  by destruct (n r).
Qed.

Definition plain_text (v : jval) : Prop := exists s, v = JStr s.
Definition plain_totals (t : quiet_totals) : Prop := Forall plain_text (qt_families t).

Lemma se_each_preserves {S A} (I : S -> Prop) (f : A -> SE S unit) l :
  (forall x, x ∈ l -> preserves I (f x)) -> preserves I (se_each f l).
Proof.
  intros H. induction l as [|x l IH]; [by intros s|]. cbn. apply preserves_bind; [apply H; by left|].
  intros _. apply IH. intros y Hy. apply H. by right.
Qed.

Lemma lift_preserves {S A} (I : S -> Prop) (r : res A) : preserves I (se_lift r).
Proof. by apply preserves_silent. Qed.

Lemma add_preserves f : (forall t, qt_families (f t) = qt_families t) -> preserves plain_totals (qm_add f).
Proof. intros H t Ht. unfold plain_totals in *. cbn. by rewrite H. Qed.

Lemma count_suppression_plain kv : preserves plain_totals (count_suppression kv).
Proof. apply preserves_bind; [apply lift_preserves|]. intros n. by apply add_preserves. Qed.

Lemma count_skip_plain v : preserves plain_totals (count_skip v).
Proof.
  destruct v; try (by intros ?). unfold count_skip. cbv zeta. destruct (str_truthy _); [by apply add_preserves|by intros q].
Qed.

Lemma count_family_plain v : plain_text v -> preserves plain_totals (count_family v).
Proof.
  intros [s ->] t Ht. apply Forall_app. split; [exact Ht|]. apply Forall_singleton. by exists s.
Qed.

Lemma lift_ok_preserves {S A B} (I : S -> Prop) (r : res A) (x : A) (k : A -> SE S B) :
  r = Ok x -> preserves I (k x) -> preserves I (se_bind (se_lift r) k).
Proof. intros -> H s Hs. by apply H. Qed.

(** The families a report of the program adds are texts. *)
Lemma aggregate_plain results r b t : preserves plain_totals (aggregate results (report_json r b t)).
Proof.
  unfold aggregate. eapply lift_ok_preserves; [apply stage_decide|].
  apply preserves_bind; [apply lift_preserves|]. intros reasons.
  apply preserves_bind; [apply se_each_preserves; intros; apply count_suppression_plain|]. intros _.
  eapply lift_ok_preserves; [reflexivity|].
  apply preserves_bind; [|intros _].
  - apply se_each_preserves. intros x Hx. apply count_family_plain.
    apply list_elem_of_fmap in Hx as (s & -> & _). by exists s.
  - apply preserves_bind; [apply lift_preserves|]. intros run_id. cbv zeta. destruct (str_truthy _); [|by intros q].
    destruct (results _); [by intros q|apply lift_preserves|].
    apply preserves_bind; [apply lift_preserves|]. intros skipped. apply se_each_preserves. intros; apply count_skip_plain.
Qed.

Lemma totals_plain results reports :
  Forall (fun v => exists r b t, v = report_json r b t) reports -> plain_totals (totals_of results reports).
Proof.
  intros H. unfold totals_of. apply se_each_preserves; [|constructor]. intros v Hv.
  destruct (proj1 (Forall_forall _ _) H _ Hv) as (r & b & t & ->).
  apply preserves_try; [apply aggregate_plain|]. by intros e q.
Qed.

Lemma plain_sorted t : plain_totals t -> exists names, sorted_families (qt_families t) = Ok names.
Proof.
  intros H. unfold sorted_families. assert (exists names, mapM jstr (qt_families t) = Some names) as [names ->]; [|by eexists].
  induction H as [|x l [s ->] _ [names IH]]; [by exists []|]. exists (s :: names). cbn. by rewrite IH.
Qed.

(** A file that holds the report of a cycle. *)
Definition reports_on (f : report_file) (r : cycle_results) : Prop :=
  exists b t, rp_content f = FileHolds (report_json r b t).

Lemma read_reports newest rs : Forall2 reports_on newest rs ->
  Forall2 (fun v r => exists b t, v = report_json r b t) (map read_report newest) rs.
Proof. intros H. apply Forall2_fmap_l. eapply Forall2_impl; [exact H|]. intros f r (b & t & E). exists b, t. cbn. unfold read_report. by rewrite E. Qed.

Section Quiet.
Context (env : report_env) (window : Z) (rs : list cycle_results) (w : report_world).
Context (Hrs : Forall2 reports_on (newest_reports window (rw_reports w)) rs)
        (Hlen : Z.of_nat (length rs) = window)
        (Hunlink : re_unlink env = Ok tt) (Hwrite : re_write_diagnosis env = Ok tt).

(** C39: once there are enough reports, all of them the program's own, and the
    disk takes the writes, the diagnosis is there exactly when none of the newest
    cycles has created a task: also if they emitted candidates, which does not
    remove it as the operator's manual has it, and also if they were dry runs,
    skipped or held back by a full board; it says that the proposer is quiet
    exactly when none of them had a candidate either. *)
Theorem quiet_diagnosis_iff :
  exists w', write_quiet_diagnosis env window w = (w', Ok tt) /\
    (Forall (fun r => created_in r = 0) rs ->
       exists totals families, rw_diagnosis w' = FileHolds
         (diagnosis_json window (forallb (fun r => (length (cr_emitted r) =? 0)%nat) rs) totals families (re_now env))) /\
    (~ Forall (fun r => created_in r = 0) rs -> rw_diagnosis w' = FileMissing).
Proof.
  pose proof (read_reports _ _ Hrs) as Hread. unfold write_quiet_diagnosis.
  assert (Hn : length (newest_reports window (rw_reports w)) = length rs) by (by eapply Forall2_length).
  rewrite Hn, (proj2 (Z.ltb_ge _ _)) by lia. cbv zeta. set (reports := map read_report _) in *.
  rewrite (all_zero_spec _ created_in _ rs).
  2: { eapply Forall2_impl; [exact Hread|]. intros v r (b & t & ->). apply created_of_report. }
  assert (Hall : forallb (fun r => (created_in r =? 0)%nat) rs = true <-> Forall (fun r => created_in r = 0) rs).
  { rewrite forallb_forall, Forall_forall. setoid_rewrite Nat.eqb_eq. by setoid_rewrite list_elem_of_In. }
  destruct (forallb (fun r => (created_in r =? 0)%nat) rs).
  2: { rewrite Hunlink. eexists. split; [done|]. split; [|done]. intros H%Hall. done. }
  rewrite (all_zero_spec _ (fun r => length (cr_emitted r)) _ rs).
  2: { eapply Forall2_impl; [exact Hread|]. intros v r (b & t & ->). apply emitted_of_report. }
  destruct (plain_sorted (totals_of (re_results env) reports)) as [names ->].
  { apply totals_plain. clear -Hread. induction Hread as [|v r l l' (b & t & ->) _ IH]; constructor; eauto. }
  cbn [mbind res_bind]. rewrite Hwrite. cbn [mbind res_bind].
  set (v := diagnosis_json _ _ _ _ _).
  assert (Hdone : forall w0, rw_diagnosis w0 = FileHolds v ->
    exists w', (if str_truthy (re_webhook env) then se_try (escalate_quiet env window) (fun _ => se_ret tt) else se_ret tt) w0
               = (w', Ok tt) /\ rw_diagnosis w' = FileHolds v).
  { intros w0 H0. destruct (str_truthy _); [|by exists w0]. unfold se_try, escalate_quiet.
    destruct (should_escalate _ _ _ _ _ _) as [[[] ids]|e]; [|by exists w0|by exists w0].
    destruct (record_escalation _ _ _ _ _) as [f [[]|e]]; by eexists. }
  destruct (Hdone (set_diagnosis (FileHolds v) w) eq_refl) as (w' & -> & Hw'). exists w'. split; [done|].
  split; [by intros _; eexists _, _|]. intros H. exfalso. by apply H, Hall.
Qed.
End Quiet.

(** ** Five cycles *)

Definition report_sample (n : Z) : report_env :=
  {| re_path := "cycle_" +:+ str_of_Z n +:+ ".json"; re_now := add_us ins_now (hours n); re_mkdir := Ok tt;
     re_report_free_mb := None; re_write_report := Ok n; re_unlink := Ok tt; re_write_diagnosis := Ok tt;
     re_results := fun _ => FileMissing; re_settings := dec_settings; re_free_mb := None;
     re_webhook := "https://hooks.example/oc"; re_cooldown_seconds := 3600 |}.

(** A dry run that found candidates. *)
Definition dry_cycle : cycle_results :=
  {| cr_snapshot := snapshot "obs_3" 1 (unseen 12);
     cr_insights := {| is_run_id := "ins_1"; is_generated_at := ins_now; is_source_command := "insights";
                       is_repo_name := "repo"; is_repo_path := "/srv/repo"; is_source_snapshots := [];
                       is_insights := DeriversStored.sample_insights |};
     cr_decision := first_artifact; cr_emitted := emitted first_artifact; cr_proposals := None; cr_dry_run := true |}.

Definition no_reports : report_world :=
  {| rw_usage := None; rw_reports := []; rw_diagnosis := FileMissing; rw_posted := [] |}.

Definition cycles (n : nat) : report_world :=
  fold_left (fun w k => fst (write_cycle_report (report_sample k) dry_cycle w)) (map Z.of_nat (seq 1 n)) no_reports.

(** Five dry runs, each with candidates, are taken for a proposer that creates
    nothing. *)
Example dry_runs_look_quiet :
  rw_diagnosis (cycles 4) = FileMissing /\
  match rw_diagnosis (cycles 5) with
  | FileHolds v => vget v "diagnosis_kind" JNull = Ok (JStr "proposer_no_create") /\
                   vget v "families_active_in_window" JNull = Ok (texts_json ["lint_fix"; "observation_coverage"])
  | _ => False
  end.
Proof. vm_compute. done. Qed.

Lemma quiet_proposer_is_never_escalated_witness :
  let w' := fst (write_cycle_report (report_sample 5) dry_cycle (cycles 4)) in
  rw_posted w' = [] /\ rw_diagnosis w' <> FileMissing.
Proof.
  intros w'. destruct (quiet_proposer_is_never_escalated dec_settings [] (report_sample 5) dry_cycle (cycles 4)) as [H _].
  - constructor.
  - vm_compute. reflexivity.
  - split; [exact H|]. vm_compute. discriminate.
Defined.

Lemma newest_reports_on r window reports : Forall (fun f => reports_on f r) reports ->
  Forall2 reports_on (newest_reports window reports) (replicate (length (newest_reports window reports)) r).
Proof.
  intros H. assert (Hn : Forall (fun f => reports_on f r) (newest_reports window reports)).
  { apply (Forall_sublist _ (sorted_by report_geb reports)); [apply slice_to_sublist|]. by rewrite sorted_by_perm. }
  induction Hn; constructor; eauto.
Qed.

Definition dry_report (n : Z) : report_file :=
  {| rp_path := re_path (report_sample n); rp_mtime := n;
     rp_content := FileHolds (report_json dry_cycle None (re_now (report_sample n))) |}.
Definition dry_week : report_world :=
  {| rw_usage := None; rw_reports := map dry_report [1; 2; 3; 4; 5]%Z; rw_diagnosis := FileMissing; rw_posted := [] |}.

Lemma quiet_diagnosis_iff_witness :
  exists w', write_quiet_diagnosis (report_sample 6) 5 dry_week = (w', Ok tt) /\ rw_diagnosis w' <> FileMissing.
Proof.
  assert (Hlen : length (newest_reports 5 (rw_reports dry_week)) = 5) by (vm_compute; reflexivity).
  destruct (quiet_diagnosis_iff (report_sample 6) 5 (replicate 5 dry_cycle) dry_week) as (w' & E & H & _).
  - pose proof (newest_reports_on dry_cycle 5 (rw_reports dry_week)) as Hn. rewrite Hlen in Hn.
    apply Hn. repeat constructor; eexists _, _; reflexivity.
  - reflexivity.
  - reflexivity.
  - reflexivity.
  - exists w'. split; [exact E|]. destruct H as (totals & families & ->); [repeat constructor|discriminate].
Defined.
