(* ===== verification/AutonomyCycle.v ===== *)
(** * The autonomy cycle

    entrypoints/autonomy_cycle/main.py: observe, insights, decide and propose in
    one command ([main]) or called by a watcher ([run_pipeline]).  The world
    holds what the stages share: the ledger, the stored snapshots, insights,
    decisions and proposer results, the requests to the board, the state of the
    scheduled tasks and the reports.  The observation, clocks, the files of
    other parts, the board and the disk are arguments; closing the client and
    printing are left out. *)
From Stdlib Require Import Ascii.
From S2P Require Import Prelude PyStr PyData TextLines UsageStore UsageBudget BoardScans Decision DecisionRules Proposer ProposerSafety ObserverModels Tuning Insights DeriversStored ScheduledTasks CycleReport.

(** ** Run ids *)

Definition hex_digit (n : Z) : string := str_take 1 (str_drop (Z.to_nat n) "0123456789abcdef").
(** [f"{n:0wx}"] for [0 <= n < 16 ** w]. *)
Fixpoint hex_fixed (w : nat) (n : Z) : string :=
  match w with 0 => "" | S w => hex_fixed w (n / 16) +:+ hex_digit (n mod 16) end.

(** [strftime("%Y%m%dT%H%M%SZ")] of a time in UTC. *)
Definition compact_time (t : datetime) : string :=
  let '(y, m, d) := civil_from_days (dt_us t / days 1) in
  let secs := (dt_us t mod days 1 / second)%Z in
  zpad 4 y +:+ zpad 2 m +:+ zpad 2 d +:+ "T" +:+
  zpad 2 (secs / 3600) +:+ zpad 2 (secs / 60 mod 60) +:+ zpad 2 (secs mod 60) +:+ "Z".

(** [f"{prefix}_{compact}_{microsecond:06x}"[-n:]]. *)
Definition run_id_at (prefix : string) (n : nat) (t : datetime) : string :=
  let s := prefix +:+ "_" +:+ compact_time t +:+ "_" +:+ hex_fixed 6 (dt_us t mod second) in
  str_drop (String.length s - n) s.

Definition insight_run_id (t : datetime) : string := run_id_at "ins" 31 t.
Definition decision_run_id (t : datetime) : string := run_id_at "dec" 31 t.
Definition proposer_run_id (t : datetime) : string := run_id_at "prop" 32 t.

Example run_ids :
  insight_run_id (mk_datetime 1778250191000123 true) = "ins_20260508T142311Z_00007b" /\
  proposer_run_id (mk_datetime 1778250191999999 true) = "prop_20260508T142311Z_0f423f".
Proof. vm_compute. done. Qed.

(** ** The world *)

Record cycle_world := {
  cy_usage : file;
  cy_snapshots : list RepoStateSnapshot;
  cy_insights : list InsightsArtifact;
  cy_decisions : list ProposalCandidatesArtifact;
  cy_results : list results_file;
  cy_ops : list board_op;
  cy_schedule : json_file;
  cy_reports : list report_file;
  cy_diagnosis : json_file;
  cy_posted : list Z }.

Abbreviation CM := (SE cycle_world).

(** A stage works on its part of the world. *)
Definition on_part {S A} (part : cycle_world -> S) (put : S -> cycle_world -> cycle_world) (m : SE S A) : CM A :=
  fun w => let '(s, r) := m (part w) in (put s w, r).

Definition decision_part (w : cycle_world) : decision_world :=
  {| dn_usage := cy_usage w; dn_decisions := cy_decisions w |}.
Definition put_decision (s : decision_world) (w : cycle_world) : cycle_world :=
  {| cy_usage := dn_usage s; cy_snapshots := cy_snapshots w; cy_insights := cy_insights w;
     cy_decisions := dn_decisions s; cy_results := cy_results w; cy_ops := cy_ops w; cy_schedule := cy_schedule w;
     cy_reports := cy_reports w; cy_diagnosis := cy_diagnosis w; cy_posted := cy_posted w |}.

Definition proposer_part (w : cycle_world) : proposer_world :=
  {| qw_usage := cy_usage w; qw_ops := cy_ops w; qw_results := cy_results w |}.
Definition put_proposer (s : proposer_world) (w : cycle_world) : cycle_world :=
  {| cy_usage := qw_usage s; cy_snapshots := cy_snapshots w; cy_insights := cy_insights w;
     cy_decisions := cy_decisions w; cy_results := qw_results s; cy_ops := qw_ops s; cy_schedule := cy_schedule w;
     cy_reports := cy_reports w; cy_diagnosis := cy_diagnosis w; cy_posted := cy_posted w |}.

Definition schedule_part (w : cycle_world) : schedule_world := {| sw_ops := cy_ops w; sw_state := cy_schedule w |}.
Definition put_schedule (s : schedule_world) (w : cycle_world) : cycle_world :=
  {| cy_usage := cy_usage w; cy_snapshots := cy_snapshots w; cy_insights := cy_insights w;
     cy_decisions := cy_decisions w; cy_results := cy_results w; cy_ops := sw_ops s; cy_schedule := sw_state s;
     cy_reports := cy_reports w; cy_diagnosis := cy_diagnosis w; cy_posted := cy_posted w |}.

Definition report_part (w : cycle_world) : report_world :=
  {| rw_usage := cy_usage w; rw_reports := cy_reports w; rw_diagnosis := cy_diagnosis w; rw_posted := cy_posted w |}.
Definition put_reports (s : report_world) (w : cycle_world) : cycle_world :=
  {| cy_usage := rw_usage s; cy_snapshots := cy_snapshots w; cy_insights := cy_insights w;
     cy_decisions := cy_decisions w; cy_results := cy_results w; cy_ops := cy_ops w; cy_schedule := cy_schedule w;
     cy_reports := rw_reports s; cy_diagnosis := rw_diagnosis s; cy_posted := rw_posted s |}.

Definition store_snapshot (s : RepoStateSnapshot) (w : cycle_world) : cycle_world :=
  {| cy_usage := cy_usage w;
     cy_snapshots := List.filter (fun x => negb (String.eqb (sn_run_id x) (sn_run_id s))) (cy_snapshots w) ++ [s];
     cy_insights := cy_insights w; cy_decisions := cy_decisions w; cy_results := cy_results w; cy_ops := cy_ops w;
     cy_schedule := cy_schedule w; cy_reports := cy_reports w; cy_diagnosis := cy_diagnosis w;
     cy_posted := cy_posted w |}.
Definition store_insights (a : InsightsArtifact) (w : cycle_world) : cycle_world :=
  {| cy_usage := cy_usage w; cy_snapshots := cy_snapshots w;
     cy_insights := List.filter (fun x => negb (String.eqb (is_run_id x) (is_run_id a))) (cy_insights w) ++ [a];
     cy_decisions := cy_decisions w; cy_results := cy_results w; cy_ops := cy_ops w; cy_schedule := cy_schedule w;
     cy_reports := cy_reports w; cy_diagnosis := cy_diagnosis w; cy_posted := cy_posted w |}.

(** ** The surroundings *)

Record cycle_env := {
  (* the machine *)
  ce_windows : list MaintenanceWindow;
  ce_gate_now : datetime;
  ce_repo_ready : res unit;               (* path, git repository, configured key *)
  ce_observation : res RepoStateSnapshot;
  ce_unreadable_snapshot : option exn;    (* one stored snapshot does not validate *)
  ce_unreadable_insight : option exn;
  ce_unreadable_decision : option exn;
  (* insights *)
  ce_float_str : Q -> string;
  ce_set_list : gset string -> list string;
  ce_files : stored_files;
  ce_insight_tuning : option TuningOverrides;
  ce_decision_tuning : option TuningOverrides;
  ce_insight_now : datetime;
  ce_insight_wall : datetime;             (* the clock of the derivers *)
  ce_write_insight_json : res unit;
  ce_write_insight_md : res unit;
  (* decision *)
  ce_limits : ExecutionControlSettings;
  ce_decision_now : datetime;
  ce_proposal_files : list json_file;
  ce_feedback_files : list json_file;
  ce_free_mb : option Q;
  ce_write_decision : res unit;
  (* the board *)
  ce_client : res unit;
  ce_board : proposal_board;
  ce_sha256 : string -> string;
  ce_scheduled : list ScheduledTask;
  ce_schedule_write : res unit;
  ce_schedule_now : datetime;
  ce_max_queued : option string;          (* OPERATIONS_CENTER_MAX_QUEUED_AUTONOMY_TASKS *)
  (* proposer *)
  ce_settings : ProposerSettings;
  ce_proposer_now : datetime;
  ce_campaigns : option (res (list CampaignRecord));
  ce_exists_file : string -> bool;
  ce_read_keywords : string -> res (list string);
  ce_tiers : tiers_file;
  ce_rejections : json_file;
  ce_wall : list board_op -> datetime;
  ce_write_results_json : res Z;
  ce_write_results_md : res unit;
  (* the report *)
  ce_report : report_env }.

(** The arguments of both programs. *)
Record cycle_args := {
  ca_repo : option string;
  ca_execute : bool;
  ca_max_candidates : Z;
  ca_cooldown_minutes : Z;
  ca_max_create : Z;
  ca_all_families : bool }.

Definition or_unreadable {A} (e : option exn) (l : A) : res A :=
  match e with Some e => Raise e | None => Ok l end.

(** How the programs sign what they write. *)
Record commands := { cmd_insights : string; cmd_decide : string; cmd_propose : string }.

Section Cycle.
Context (env : cycle_env) (args : cycle_args).

(** ** Observe, insights, decide *)

Definition observe : CM RepoStateSnapshot := fun w =>
  match ce_repo_ready env with
  | Raise e => (w, Raise e)
  | Ok _ =>
      match ce_observation env with
      | Raise e => (w, Raise e)
      | Ok s => (store_snapshot s w, Ok s)
      end
  end.

Definition insight_context (commands : commands) (s : RepoStateSnapshot) : InsightGenerationContext :=
  {| ig_repo_filter := ca_repo args; ig_snapshot_run_id := Some (sn_run_id s); ig_history_limit := 5;
     ig_run_id := insight_run_id (ce_insight_now env); ig_generated_at := ce_insight_now env;
     ig_source_command := cmd_insights commands |}.

Definition cycle_derivers : list Deriver :=
  autonomy_cycle_derivers (ce_set_list env) (ce_insight_wall env) (ce_files env) (ce_insight_tuning env).

(** [build_insight_service().generate]: the JSON file, then the text. *)
Definition derive_insights (commands : commands) (s : RepoStateSnapshot) : CM InsightsArtifact := fun w =>
  match generate (or_unreadable (ce_unreadable_snapshot env) (cy_snapshots w)) cycle_derivers
          (insight_context commands s) with
  | Raise e => (w, Raise e)
  | Ok a =>
      match ce_write_insight_json env with
      | Raise e => (w, Raise e)
      | Ok _ => (store_insights a w, _ <-? ce_write_insight_md env ;; Ok a)
      end
  end.

Definition decision_context (commands : commands) (insights : InsightsArtifact) (dry_run : bool)
    (families : gset string) : DecisionContext :=
  {| dx_repo_filter := ca_repo args; dx_insight_run_id := Some (is_run_id insights); dx_history_limit := 5;
     dx_max_candidates := ca_max_candidates args; dx_cooldown_minutes := ca_cooldown_minutes args;
     dx_run_id := decision_run_id (ce_decision_now env); dx_generated_at := ce_decision_now env;
     dx_source_command := cmd_decide commands; dx_dry_run := dry_run; dx_allowed_families := families;
     dx_max_proposals_per_24h := 10; dx_max_changed_files := 30 |}.

Definition decision_surroundings (w : cycle_world) : decision_env :=
  {| dn_insights := or_unreadable (ce_unreadable_insight env) (map as_read (cy_insights w));
     dn_unreadable_decision := ce_unreadable_decision env; dn_proposal_results := ce_proposal_files env;
     dn_feedback := ce_feedback_files env; dn_free_mb := ce_free_mb env; dn_write := ce_write_decision env |}.

Definition rules_of_cycle := build_rules (ce_float_str env) (ce_decision_tuning env).

Definition decide_candidates (commands : commands) (insights : InsightsArtifact) (dry_run : bool)
    (families : gset string) : CM ProposalCandidatesArtifact := fun w =>
  on_part decision_part put_decision
    (service_decide (ce_limits env) rules_of_cycle (decision_surroundings w)
       (decision_context commands insights dry_run families)) w.

(** The first three stages. *)
Definition stages (commands : commands) (dry_run : bool) (families : gset string)
    : CM (RepoStateSnapshot * InsightsArtifact * ProposalCandidatesArtifact) :=
  s <<- observe ;;
  insights <<- derive_insights commands s ;;
  decision <<- decide_candidates commands insights dry_run families ;;
  se_ret (s, insights, decision).

(** ** Propose *)

Definition find_insight (w : cycle_world) (run_id : string) : option (res RepoInsightsArtifact) :=
  match find_first (fun a => String.eqb (is_run_id a) run_id) (cy_insights w) with
  | Some a => Some (Ok (as_read a))
  | None => None
  end.

Definition proposer_surroundings (w : cycle_world) : proposer_env :=
  {| qe_decisions := or_unreadable (ce_unreadable_decision env) (cy_decisions w); qe_insight := find_insight w;
     qe_campaigns := ce_campaigns env; qe_exists_file := ce_exists_file env; qe_read_keywords := ce_read_keywords env;
     qe_tiers := ce_tiers env; qe_rejections := ce_rejections env; qe_board := ce_board env;
     qe_free_mb := ce_free_mb env; qe_wall := ce_wall env; qe_write_json := ce_write_results_json env;
     qe_write_md := ce_write_results_md env |}.

Definition proposer_context (commands : commands) (decision : ProposalCandidatesArtifact)
    : ProposerIntegrationContext :=
  {| px_repo_filter := ca_repo args; px_decision_run_id := Some (da_run_id decision);
     px_run_id := proposer_run_id (ce_proposer_now env); px_generated_at := ce_proposer_now env;
     px_source_command := cmd_propose commands; px_max_create := ca_max_create args; px_dry_run := false |}.

Definition propose_candidates (commands : commands) (decision : ProposalCandidatesArtifact)
    : CM ProposalResultsArtifact := fun w =>
  on_part proposer_part put_proposer
    (proposer_run (ce_settings env) (ce_limits env) default_guardrails (proposer_surroundings w)
       (proposer_context commands decision)) w.

(** [ScheduledTaskRunner(client, settings).tick()]; an error is printed. *)
Definition run_scheduled : CM unit :=
  se_try (_ <<- on_part schedule_part put_schedule
                  (tick (ce_sha256 env) (ce_scheduled env) (ce_board env) (ce_schedule_write env)
                     (ce_schedule_now env)) ;;
          se_ret tt)
    (fun _ => se_ret tt).

(** ** The saturation of the board *)

(** [issue.get("labels", [])], iterated. *)
Definition labels_of (issue : dict) : res (list jval) := Decision.jiter (default (JList []) (issue !! "labels")).

Definition is_autonomy_label (label : jval) : bool :=
  String.eqb (lower (strip (match label with
                            | JObj l => jtext (default (JStr "") ((list_to_map l : dict) !! "name"))
                            | v => jtext v
                            end))) "source: autonomy".

Definition is_queued (issue : dict) : res bool :=
  if str_in (strip (state_name issue)) ["Ready for AI"; "Backlog"] then
    labels <-? labels_of issue ;; Ok (existsb is_autonomy_label labels)
  else Ok false.

Definition queued_count (issues : list dict) : res Z :=
  queued <-? filterM is_queued issues ;; Ok (Z.of_nat (length queued)).

(** [int(os.environ.get(..., "15"))]. *)
Definition max_queued : res Z := jint (JStr (default "15" (ce_max_queued env))).

Definition list_board : CM (list dict) := on_part proposer_part put_proposer (list_issues (ce_board env)).

(** ** The programs *)

Definition write_report (r : cycle_results) : CM unit :=
  on_part report_part put_reports (write_cycle_report (ce_report env) r).

(** How a cycle ended. *)
Inductive cycle_end :=
  | InMaintenance
  | DryRun
  | NoCandidates
  | Saturated
  | Proposed (a : ProposalResultsArtifact).

(** Counting the queue and, when it is full, the report, in one [try]: whatever
    raises there is taken for a board with room. *)
Definition board_is_full (limit : Z) (r : cycle_results) : CM bool :=
  se_try (issues <<- list_board ;;
          queued <<- se_lift (queued_count issues) ;;
          if (limit <=? queued)%Z then _ <<- write_report r ;; se_ret true else se_ret false)
    (fun _ => se_ret false).

Definition main_commands (dry_run : bool) : commands :=
  {| cmd_insights := "operations-center autonomy-cycle (insights)";
     cmd_decide := "operations-center autonomy-cycle (decide)" +:+ (if dry_run then " --dry-run" else "");
     cmd_propose := "operations-center autonomy-cycle (propose)" |}.

Definition families_of : gset string := if ca_all_families args then ALL_FAMILIES else DEFAULT_ALLOWED_FAMILIES.

Definition cycle_main : CM cycle_end :=
  let dry_run := negb (ca_execute args) in
  let commands := main_commands dry_run in
  if in_maintenance_window (ce_windows env) (ce_gate_now env) then se_ret InMaintenance
  else
    r <<- stages commands dry_run families_of ;;
    let decision := snd r in
    let results prop := {| cr_snapshot := fst (fst r); cr_insights := snd (fst r); cr_decision := decision;
                           cr_emitted := emitted decision; cr_proposals := prop; cr_dry_run := dry_run |} in
    if dry_run then _ <<- write_report (results None) ;; se_ret DryRun
    else if negb (list_truthy (emitted decision)) then _ <<- write_report (results None) ;; se_ret NoCandidates
    else
      _ <<- se_lift (ce_client env) ;;
      _ <<- run_scheduled ;;
      limit <<- se_lift max_queued ;;
      full <<- board_is_full limit (results None) ;;
      if full : bool then se_ret Saturated
      else
        a <<- propose_candidates commands decision ;;
        _ <<- write_report (results (Some a)) ;;
        se_ret (Proposed a).

(** ** [run_pipeline] *)

Definition watcher_commands : commands :=
  {| cmd_insights := "operations-center watcher (autonomy-refresh insights)";
     cmd_decide := "operations-center watcher (autonomy-refresh decide)";
     cmd_propose := "operations-center watcher (autonomy-refresh propose)" |}.

Record pipeline_summary := { ps_created : Z; ps_skipped : Z; ps_failed : Z; ps_error : option string }.

Definition nothing_done (error : option string) : pipeline_summary :=
  {| ps_created := 0; ps_skipped := 0; ps_failed := 0; ps_error := error |}.

Definition run_pipeline : CM pipeline_summary :=
  se_try
    (r <<- stages watcher_commands false DEFAULT_ALLOWED_FAMILIES ;;
     if negb (list_truthy (emitted (snd r))) then se_ret (nothing_done None)
     else
       a <<- propose_candidates watcher_commands (snd r) ;;
       se_ret {| ps_created := Z.of_nat (length (ra_created a)); ps_skipped := Z.of_nat (length (ra_skipped a));
                 ps_failed := Z.of_nat (length (ra_failed a)); ps_error := None |})
    (fun e => se_ret (nothing_done (Some (exn_text e)))).
End Cycle.

(** ** What is stored last is found by its run id *)

Section Stored.
Context {A : Type} (id : A -> string).



End Stored.








(** ** The first three stages *)

Section Stages.
Context (env : cycle_env) (args : cycle_args).










End Stages.

(** ** What a cycle asks of the board *)


Section Trace.
Context (env : cycle_env) (args : cycle_args).







End Trace.

Section Main.
Context (env : cycle_env) (args : cycle_args).

Abbreviation cycle_commands := (main_commands false).





End Main.

(** ** Cycles *)

Definition sample_cycle_env (listing : list dict) (report : res Z) (results : res Z) : cycle_env :=
  {| ce_windows := [{| mw_start_hour := 0; mw_end_hour := 6; mw_days := [] |}];
     ce_gate_now := ins_now; ce_repo_ready := Ok tt; ce_observation := Ok (snapshot "obs_3" 1 (unseen 12));
     ce_unreadable_snapshot := None; ce_unreadable_insight := None; ce_unreadable_decision := None;
     ce_float_str := fun _ => "0.5"; ce_set_list := fun s => elements s; ce_files := no_stored_files;
     ce_insight_tuning := None; ce_decision_tuning := None; ce_insight_now := ins_now; ce_insight_wall := ins_now;
     ce_write_insight_json := Ok tt; ce_write_insight_md := Ok tt; ce_limits := dec_settings;
     ce_decision_now := add_us ins_now 1; ce_proposal_files := []; ce_feedback_files := []; ce_free_mb := None;
     ce_write_decision := Ok tt; ce_client := Ok tt;
     ce_board := {| pb_list := fun _ => Ok listing; pb_create := pb_create open_board;
                    pb_comment := fun _ => Ok tt |};
     ce_sha256 := plain_key; ce_scheduled := [hourly_task]; ce_schedule_write := Ok tt;
     ce_schedule_now := ins_now; ce_max_queued := Some "2"; ce_settings := {| pst_repos := [("repo", {| rs_default_branch := "main"; rs_propose_enabled := true |})];
                      pst_self_repo_key := None; pst_propose_skip_when_ready_count := 8 |};
     ce_proposer_now := add_us ins_now 2; ce_campaigns := None; ce_exists_file := fun _ => false;
     ce_read_keywords := fun _ => Ok []; ce_tiers := None; ce_rejections := FileMissing; ce_wall := fun _ => ins_now;
     ce_write_results_json := results; ce_write_results_md := Ok tt;
     ce_report := {| re_path := "cycle_1.json"; re_now := ins_now; re_mkdir := Ok tt; re_report_free_mb := None;
                     re_write_report := report; re_unlink := Ok tt; re_write_diagnosis := Ok tt;
                     re_results := fun _ => FileMissing; re_settings := dec_settings; re_free_mb := None;
                     re_webhook := ""; re_cooldown_seconds := 3600 |} |}.

Definition run_args (execute : bool) : cycle_args :=
  {| ca_repo := None; ca_execute := execute; ca_max_candidates := 3; ca_cooldown_minutes := 120; ca_max_create := 2;
     ca_all_families := false |}.

Definition first_cycle : cycle_world :=
  {| cy_usage := None; cy_snapshots := [snapshot "obs_1" 49 (unseen 8); snapshot "obs_2" 25 (unseen 8)];
     cy_insights := []; cy_decisions := []; cy_results := []; cy_ops := []; cy_schedule := FileMissing;
     cy_reports := []; cy_diagnosis := FileMissing; cy_posted := [] |}.

Definition created_names (w : cycle_world) : list string :=
  omap (fun op => match op with BO_create name _ _ _ => Some name | _ => None end) (cy_ops w).

Definition queued_issue (state : string) : dict :=
  list_to_map [("name", JStr "Earlier work"); ("state", JObj [("name", JStr state)]);
               ("labels", JList [JObj [("name", JStr "source: autonomy")]])].
Definition full_queue : list dict := [queued_issue "Ready for AI"; queued_issue "Backlog"].

Definition run_cycle (listing : list dict) (report : res Z) (execute : bool) : list string :=
  created_names (fst (cycle_main (sample_cycle_env listing report (Ok 1%Z)) (run_args execute) first_cycle)).

Definition coverage_tasks : list string :=
  ["Restore repeated missing test_signal coverage"; "Restore repeated missing test signal coverage"].

(** An executing cycle files what its rules found (here two families name the
    same gap); a dry run files nothing; a full board takes only the scheduled
    task. *)
Example three_cycles :
  run_cycle [] (Ok 1%Z) true = "Hourly scan" :: coverage_tasks /\
  run_cycle [] (Ok 1%Z) false = [] /\
  run_cycle full_queue (Ok 1%Z) true = ["Hourly scan"].
Proof. vm_compute. done. Qed.

(** If the report on the full board can not be written, the error is taken for
    one of the count, and the cycle fills the board further. *)
Example unwritten_report_opens_the_gate :
  run_cycle full_queue (Raise (OSError "disk full")) true = "Hourly scan" :: coverage_tasks.
Proof. vm_compute. done. Qed.

(** The programmatic pipeline looks neither at the queue nor at the maintenance
    windows, and reports nothing created when something raises after its tasks
    were created. *)
Example pipeline_without_gates :
  let run results := run_pipeline (sample_cycle_env full_queue (Ok 1%Z) results) (run_args false) first_cycle in
  created_names (fst (run (Ok 1%Z))) = coverage_tasks /\
  snd (run (Ok 1%Z)) = Ok {| ps_created := 2; ps_skipped := 1; ps_failed := 0; ps_error := None |} /\
  created_names (fst (run (Raise (OSError "disk full")))) = coverage_tasks /\
  snd (run (Raise (OSError "disk full"))) = Ok (nothing_done (Some "disk full")).
Proof. vm_compute. done. Qed.

